(* ===== verification/_CoqProject ===== *)
-Q . S2P
Prelude.v
Exception.v
Naming.v
GoLib.v
Domain.v
World.v
PgRepo.v
IPAlloc.v
Interfaces.v
Hoare.v
Invariants.v
RepoFacts.v
VMExec.v
VMSnapshot.v
SnapFacts.v
SnapGC.v
VMExecFacts.v
VMService.v
VMResume.v
VMInv.v
VMSpec.v
VMFrame.v
VMCreate.v
Json.v
Encoding.v
SparseMem.v
ExecProtocol.v
Manifest.v
GuestRPC.v
CIDAlloc.v
Orchestrator.v
OrchSpec.v
Chat.v
MemRepo.v
EventHub.v
ChatService.v
ChatSpec.v
PgTables.v
PgChat.v
PgAccounts.v
PgChatFacts.v
Tools.v
ToolSpec.v
App.v
AppSpec.v
Http.v
Middleware.v
Accounts.v
AuthApi.v
AccountsSpec.v
Activator.v
ActivatorServer.v
ActivatorSpec.v
ConfigFiles.v
ConfigSpec.v
Broadcast.v
Metrics.v
VmApi.v
ChatApi.v
Api.v
FcHost.v
NetIP.v
FcNetwork.v
DmSnapshot.v
Provider.v
FcFrames.v
ProviderSpec.v
DmSpec.v
DmInv.v
FcSample.v
Gemini.v
GeminiSpec.v
MemVM.v
PgEnv.v
Seed.v
Grpc.v
Logging.v
Settings.v
ObjectStore.v
Boot.v
