(* ===== verification/Prelude.v ===== *)
(** * Spacetrek: a verification development

    Spacetrek lets chat agents run commands in Firecracker virtual machines. A message of
    a user reaches the chat service (src/service/chat), which runs one turn of the
    orchestrator (src/service/orchestrator); the planner of the turn calls tools
    (src/service/tool), the tools call the VM service (src/service/vm), and the VM service
    keeps its rows in Postgres (src/repository/postgres) and drives the Firecracker
    provider (src/infrastructure/vm/firecracker), which talks to an agent in the guest.
    This development translates these parts and proves what makes each of them correct.
    All paths below are relative to the Go module (the directory src of the repository).

    ** How the code is modelled

    A Go method that reads and writes shared state is a function in the state monad [M W]
    of this file, over a world [W] that has the part of the state the method can see; a
    result [(value, error)] is [result]: [Ok] or [Err]. Conditions, early returns and the
    order of the calls follow the source; logging and tracing are left out. Go's int and
    int64 are [Z] with the wrap-around written out ([i64], [u32]) where a computation can
    leave the range; strings are byte strings. Time, identifiers and random names come
    from the world: every reading may give any value, so that theorems hold for all clocks.
    A database statement, a call of a provider or a call of a planner may fail at any time;
    which calls fail is also part of the world, so theorems about an operation cover its
    error paths. Loops with a bound in the source recurse on that bound; loops without one
    (snapshot chains, the collectors) have fuel, with theorems that the given fuel is
    enough (SnapGC). Each critical section of a mutex is one step where goroutines
    interleave (EventHub), and goroutines a handler starts are recorded in the world as
    pending tasks and run later (VMFrame).

    ** The files, by component

    - Prelude, GoLib, Json: the state monad and strings; base64, paths and dates of the
      standard library; encoding/json with a full round trip.
    - Exception: pkg/exception. Naming, Domain: VM names; the entities of core/domain/vm,
      environment and snapshot with the status table.
    - World, PgRepo: the database tables with their constraints (migrations/), the faults,
      the events; every statement of repository/postgres/{vm,snapshot,snapshot_metrics}.go.
    - Interfaces, IPAlloc, VMExec, VMSnapshot, VMResume, VMService: service/vm/service.go,
      against the interfaces of core/ports as records of operations.
    - Hoare, Invariants, RepoFacts, SnapFacts, VMExecFacts: the program logic
      (frames, preserved relations, Hoare triples), the database invariant, the laws of the
      repository, and the typeclass [VMInv.GuardLaws] through which any relation that the
      primitive steps respect is lifted to every operation of the service.
    - VMInv, VMFrame, VMSpec, VMCreate, SnapGC: the theorems of the VM service.
    - SparseMem, Manifest, ExecProtocol, GuestRPC, CIDAlloc: the Firecracker provider's
      memory images, manifests, framed guest protocol, commands and files, guest CIDs.
    - FcHost, NetIP, FcNetwork, DmSnapshot, Provider: the rest of infrastructure/vm
      (config.go, network.go, dm_snapshot.go, provider.go, hostroute.go) over a class of
      hosts: files, commands, sockets and the SDK, each call with any result. A call of the
      provider is one step on the host, the VMs it runs and its device tables; beside them
      the state has a history that no operation reads, the images found stale. FcFrames:
      what each helper leaves alone, for any relation that calls of the host respect.
      ProviderSpec, DmSpec, DmInv: the theorems; DmSpec and DmInv state as classes what they
      need of the device mapper and the loop driver. FcSample: a concrete host with these laws.
    - Orchestrator, OrchSpec: the ReAct loop and what a turn does.
    - Chat, MemRepo, EventHub: chat and agent entities, the in-memory
      repositories, pagination, and the publish/subscribe half of the chat service.
    - ChatService, ChatSpec: service/chat/service.go, turns in the foreground and as jobs in
      the background, against the interface class of a chat repository; the abstract
      conversations it refines.
    - PgTables, PgChat, PgAccounts, PgChatFacts: the tables of chats, messages, events,
      agents, memory, users and tokens, every statement of their repositories, and the
      instance of the chat interface.
    - Tools, ToolSpec: service/tool and service/agent/memory.go. App, AppSpec: cmd/main.go,
      how these parts are connected.
    - Encoding: base64 and RFC 3339. Http, Middleware: pkg/http, pkg/json, pkg/validation,
      pkg/auth/jwt and src/middleware. Accounts, AuthApi, AccountsSpec: service/user, service/auth,
      service/agent and their HTTP handlers.
    - Activator, ActivatorServer, ActivatorSpec: src/activator and the internal API, with what
      net/url makes of the URLs between them.
    - ConfigFiles, ConfigSpec: service/vm/hostswriter, tunnelwriter and multihook.go.
    - Broadcast, Metrics: service/vm/fleetbroadcaster and activitybroadcaster as one step
      relation; the metrics collector of service.go with the metrics history table.
    - VmApi, ChatApi, Api: the handlers of api/http/v1, their streams as
      loops over what each select meets, and the table of routes with its middleware.
    - Gemini, GeminiSpec: infrastructure/llm/gemini, the planner over a class of clients of the
      model, and the choice of the planner in cmd/main.go. MemVM: the in-memory repository of
      VMs; the order of a loop over a Go map is a parameter (MapOrder).
    - PgEnv, Seed: the writes of repository/postgres/environment.go and cmd/seed, one
      transaction on a copy of the tables. ObjectStore: infrastructure/storage/s3 over maps of
      files and objects, with paginated listings. Grpc: pkg/grpc and middleware/grpc, handlers
      that may panic.
    - Logging: pkg/log, middleware/logging.go and api/http/intra/server.go. Settings:
      pkg/config with os.ExpandEnv, the environment of cmd/activator with time.ParseDuration.
      Boot: what cmd/main.go and cmd/activator build from the configuration.
    - The witnesses run on a concrete world (at the end of PgRepo) and a concrete backend
      (at the end of SnapFacts).

    ** What the theorems show

    - VM service. Every operation, from any reachable state and with any pattern of
      failures, keeps the database invariant (VMInv); a task on one VM leaves the others
      alone, and a VM stays until it is destroyed (VMFrame); Create, Destroy, Stop, Unassign
      and AssignToChat do what they promise on every branch, a VM is in at most one chat
      (VMSpec, VMCreate); a lost runtime leaves the VM's lease behind (VMSpec).
    - Snapshots. The collector never breaks the chain of the current snapshot, and walking
      and deleting chains terminates with the fuel the code's limits give (SnapGC).
    - Commands. The retry loop is bounded, is not entered on an inactive VM, and a VM that
      is reported ready has answered (VMExecFacts).
    - Names are DNS labels (Naming); addresses and CIDs are free when granted (IPAlloc, CIDAlloc).
    - Provider. Frames, requests, responses and manifests are read back as written; a
      reported success was answered by the guest to this very request; merging a diff gives
      the memory at the time of the diff; flattening copies a device byte for byte.
    - Orchestrator. A turn runs at most the configured number of tools, only allowed and
      registered ones; its trace, results and events agree.
    - Chat service. Subscribers of runtime events receive only events of their chat, in
      bounded channels, whatever the interleaving; following the cursors of a listing
      visits every conversation once.

      The service, over the in-memory repository and over Postgres, refines conversations
      that only grow (ChatSpec, PgChatFacts).
    - Tools. Every tool answers; what a chat stores it reads back (ToolSpec). The whole
      platform keeps the promises of its parts after any sequence of whole calls, turns and
      jobs (AppSpec); calls that overlap a turn are not covered.
    - Accounts. A refresh token is redeemed once; who registers can log in; an access token
      stands for its user until it expires (AccountsSpec).
    - Activator. At most the configured number of cold starts, one per VM, and every request
      is answered (Activator); its client sees the VM service as it is, for names that mean
      themselves in a URL, and its server forwards only to VMs (ActivatorSpec).
    - Configuration files are replaced at once and hold what was rendered (ConfigSpec).
    - HTTP API. Protected routes answer only with a valid token and role (Api); a stream
      sends each event at most once (VmApi); cursors are read back (ChatApi).
    - Subscribers see the rows in the order of the ticks (Broadcast); a round of the metrics
      collector loses no point (Metrics).
    - Provider and disks. The provider refines a table of running VMs, whose CIDs differ
      while commands are enabled (ProviderSpec); the count of a base image covers the
      devices on it, unless its loop device was once found gone (DmInv); a chain of files
      shows what was written through all of them, sector for sector, and flattening keeps
      it, while a reset shows the base image alone (DmSpec); the wait for DNS ends (FcNetwork).
    - Planner. The parts of a request are the messages, the calls and the responses and nothing
      else, the system messages are its instruction, roles alternate, every VM is in the inventory, the plan is the answer of the model (GeminiSpec).
    - Seeding writes all rows or none and is idempotent (Seed). Deleting a prefix of the object
      store ends and leaves no key that the server would delete; what is uploaded is
      downloaded, and no download leaves half a file (ObjectStore).
    - Every gRPC call and every HTTP request is answered and logged once, with the code that was
      sent, panics included (Grpc, Logging). References to variables are expanded once, and
      the activator's settings are usable whatever the environment holds (Settings). The
      service that main starts satisfies the hypotheses of VMInv for every configuration (Boot).

    ** Not modelled

    Code outside the module is a parameter: the SDKs of Firecracker, Gemini and S3, the router,
    bcrypt, the JWT and UUID libraries, the YAML decoder, the Postgres server. The text of log
    lines and durations in them and the signals of the processes are left out. Within the
    provider, a call is one step: calls that overlap on one VM are not interleaved. Of an
    operating system call the model has its result and nothing else, except where a class of
    laws says more.
*)

From stdpp Require Export gmap strings list pretty sorting.
From coqutil Require Export Datatypes.RecordSetters.
Export TriangleBracketNotations.
#[global] Arguments constant {E} _ _ /.
#[global] Arguments apply_update {R E} _ _ /.
From Stdlib Require Export Lia ZArith.
From Stdlib Require Ascii.

(** ** Results and the state monad *)

(** The outcome of a Go call that returns [(value, error)] with a useful value
    only when the error is nil. *)
Inductive result (E A : Type) : Type :=
| Ok (a : A)
| Err (e : E).
Arguments Ok {E A} a.
Arguments Err {E A} e.

(** A Go call that reads and writes the world [W]. *)
Definition M (W A : Type) : Type := W -> A * W.

Definition ret {W A} (a : A) : M W A := fun w => (a, w).
Definition bind {W A B} (m : M W A) (k : A -> M W B) : M W B :=
  fun w => let '(a, w') := m w in k a w'.
(** [if err != nil { return err }]: the error leaves the function at once. *)
Definition bind_ok {W E A B} (m : M W (result E A)) (k : A -> M W (result E B))
  : M W (result E B) :=
  fun w => match m w with
           | (Ok a, w') => k a w'
           | (Err e, w') => (Err e, w')
           end.

Declare Scope go_scope.
Delimit Scope go_scope with go.
Notation "'let*' x := m 'in' k" := (bind m (fun x => k))
  (at level 10, x pattern, m at level 100, k at level 200) : go_scope.
Notation "'let?' x := m 'in' k" := (bind_ok m (fun x => k))
  (at level 10, x pattern, m at level 100, k at level 200) : go_scope.

(** [for _, x := range l { body }] *)
Fixpoint for_each {W A} (l : list A) (body : A -> M W unit) : M W unit :=
  match l with
  | [] => ret tt
  | x :: l' => bind (body x) (fun _ => for_each l' body)
  end.

Definition is_Ok {E A} (r : result E A) : bool :=
  match r with Ok _ => true | Err _ => false end.

(** ** Machine integers *)

Open Scope Z_scope.

(** uint32 and int64 arithmetic wraps around. *)
Definition u32 (z : Z) : Z := z mod 2 ^ 32.
Definition i64 (z : Z) : Z := (z + 2 ^ 63) mod 2 ^ 64 - 2 ^ 63.

Lemma u32_range z : 0 <= u32 z < 2 ^ 32.
Proof. apply Z.mod_pos_bound. lia. Qed.
Lemma u32_small z : 0 <= z < 2 ^ 32 -> u32 z = z.
Proof. apply Z.mod_small. Qed.
Lemma i64_range z : - 2 ^ 63 <= i64 z < 2 ^ 63.
Proof. unfold i64. pose proof (Z.mod_pos_bound (z + 2 ^ 63) (2 ^ 64)). lia. Qed.
Lemma i64_small z : - 2 ^ 63 <= z < 2 ^ 63 -> i64 z = z.
Proof. intros. unfold i64. rewrite Z.mod_small; lia. Qed.

(** Durations and instants are nanoseconds; the zero [time.Time] is instant 0. *)
Definition second : Z := 1000000000.
Definition minute : Z := 60 * second.

(** ** Bytes and strings *)

Abbreviation ascii := Ascii.ascii.
Definition code (c : ascii) : Z := Z.of_nat (Ascii.nat_of_ascii c).
Definition chr (z : Z) : ascii := Ascii.ascii_of_nat (Z.to_nat z).
Definition str1 (c : ascii) : string := String c EmptyString.

(** [strings.HasPrefix], [strings.Contains], [strings.HasSuffix] *)
Fixpoint has_prefix (p s : string) : bool :=
  match p, s with
  | EmptyString, _ => true
  | String a p', String b s' => bool_decide (a = b) && has_prefix p' s'
  | String _ _, EmptyString => false
  end.

Fixpoint contains (s sub : string) : bool :=
  has_prefix sub s ||
  match s with
  | EmptyString => false
  | String _ s' => contains s' sub
  end.

Fixpoint drop_str (n : nat) (s : string) : string :=
  match n, s with
  | S n', String _ s' => drop_str n' s'
  | _, _ => s
  end.

Fixpoint take_str (n : nat) (s : string) : string :=
  match n, s with
  | S n', String c s' => String c (take_str n' s')
  | _, _ => EmptyString
  end.

Definition str_len (s : string) : nat := String.length s.

Definition has_suffix (s suf : string) : bool :=
  bool_decide (str_len suf <= str_len s)%nat &&
  bool_decide (drop_str (str_len s - str_len suf) s = suf).

Definition trim_prefix (s p : string) : string :=
  if has_prefix p s then drop_str (str_len p) s else s.
Definition trim_suffix (s suf : string) : string :=
  if has_suffix s suf then take_str (str_len s - str_len suf) s else s.

(** [strings.IndexByte], as the number of bytes before the first [c]. *)
Fixpoint index_byte (s : string) (c : ascii) : option nat :=
  match s with
  | EmptyString => None
  | String a s' => if bool_decide (a = c) then Some O else S <$> index_byte s' c
  end.

(** [strings.ToLower]. ASCII letters are mapped, and the two letters outside
    ASCII whose lower case is an ASCII letter (U+212A, U+0130). A letter whose
    lower case is again outside ASCII is kept: the callers only compare the
    result with ASCII text or discard what is not ASCII. *)
Definition lower_ascii (c : ascii) : ascii :=
  if bool_decide (65 <= code c <= 90) then chr (code c + 32) else c.

Fixpoint to_lower (s : string) : string :=
  match s with
  | EmptyString => EmptyString
  | String a t =>
      match t with
      | String b (String c t3 as t2) =>
          if bool_decide (code a = 226 /\ code b = 132 /\ code c = 170) then String (chr 107) (to_lower t3)
          else if bool_decide (code a = 196 /\ code b = 176) then String (chr 105) (to_lower t2)
          else String (lower_ascii a) (to_lower t)
      | String b EmptyString =>
          if bool_decide (code a = 196 /\ code b = 176) then String (chr 105) EmptyString
          else String (lower_ascii a) (to_lower t)
      | EmptyString => String (lower_ascii a) EmptyString
      end
  end.

(** Length in bytes of the white-space rune (unicode.IsSpace) that starts with
    the given bytes, 0 if there is none. *)
Definition space_len (a b c : Z) : nat :=
  if bool_decide ((9 <= a <= 13) \/ a = 32) then 1%nat
  else if bool_decide (a = 194 /\ (b = 133 \/ b = 160)) then 2%nat
  else if bool_decide (a = 225 /\ b = 154 /\ c = 128) then 3%nat
  else if bool_decide (a = 226 /\ b = 128 /\ ((128 <= c <= 138) \/ c = 168 \/ c = 169 \/ c = 175)) then 3%nat
  else if bool_decide (a = 226 /\ b = 129 /\ c = 159) then 3%nat
  else if bool_decide (a = 227 /\ b = 128 /\ c = 128) then 3%nat
  else 0%nat.

Definition byte_at (s : string) (n : nat) : Z :=
  match String.get n s with Some c => code c | None => -1 end.

Definition lead_space (s : string) : nat := space_len (byte_at s 0) (byte_at s 1) (byte_at s 2).
Definition trail_space (s : string) : nat :=
  let n := str_len s in
  if bool_decide (space_len (byte_at s (n - 1)) (-1) (-1) = 1 /\ 1 <= n)%nat then 1%nat
  else if bool_decide (space_len (byte_at s (n - 2)) (byte_at s (n - 1)) (-1) = 2 /\ 2 <= n)%nat then 2%nat
  else if bool_decide (space_len (byte_at s (n - 3)) (byte_at s (n - 2)) (byte_at s (n - 1)) = 3 /\ 3 <= n)%nat
  then 3%nat else 0%nat.

Fixpoint trim_left_fuel (fuel : nat) (s : string) : string :=
  match fuel with
  | O => s
  | S f => match lead_space s with O => s | n => trim_left_fuel f (drop_str n s) end
  end.
Fixpoint trim_right_fuel (fuel : nat) (s : string) : string :=
  match fuel with
  | O => s
  | S f => match trail_space s with
           | O => s
           | n => trim_right_fuel f (take_str (str_len s - n) s)
           end
  end.
(** [strings.TrimSpace]: every step removes a byte, so the length is fuel enough. *)
Definition trim_space (s : string) : string :=
  let l := trim_left_fuel (str_len s) s in trim_right_fuel (str_len l) l.

(** [strings.Join] *)
Fixpoint join (sep : string) (l : list string) : string :=
  match l with
  | [] => EmptyString
  | [x] => x
  | x :: l' => x +:+ sep +:+ join sep l'
  end.

(** [%d] and [%q] of fmt. *)
Definition fmt_d (z : Z) : string := pretty z.
Definition dquote : string := str1 (chr 34).
Definition hex_digit (z : Z) : ascii := if bool_decide (z < 10) then chr (48 + z) else chr (87 + z).
Definition quote_char (c : ascii) : string :=
  let z := code c in
  if bool_decide (z = 34 \/ z = 92) then String (chr 92) (str1 c)
  else if bool_decide (z = 7) then "\a" else if bool_decide (z = 8) then "\b"
  else if bool_decide (z = 12) then "\f" else if bool_decide (z = 10) then "\n"
  else if bool_decide (z = 13) then "\r" else if bool_decide (z = 9) then "\t"
  else if bool_decide (z = 11) then "\v"
  else if bool_decide (z < 32 \/ z = 127)
  then "\x" +:+ String (hex_digit (z / 16)) (str1 (hex_digit (z mod 16)))
  else str1 c.
Fixpoint quote_body (s : string) : string :=
  match s with
  | EmptyString => EmptyString
  | String c s' => quote_char c +:+ quote_body s'
  end.
Definition fmt_q (s : string) : string := dquote +:+ quote_body s +:+ dquote.

(** ** Lemmas on strings *)

Fixpoint all_bytes (P : ascii -> bool) (s : string) : bool :=
  match s with
  | EmptyString => true
  | String c s' => P c && all_bytes P s'
  end.
Definition is_ascii (c : ascii) : bool := bool_decide (code c < 128).

Lemma code_range c : 0 <= code c < 256.
Proof. unfold code. pose proof (Ascii.nat_ascii_bounded c). lia. Qed.

#[global] Arguments String.append : simpl nomatch.

Lemma append_assoc (a b c : string) : (a +:+ b) +:+ c = a +:+ (b +:+ c).
Proof. induction a as [|x a IH]; simpl; [done | by rewrite IH]. Qed.

Lemma append_nil_r (a : string) : a +:+ EmptyString = a.
Proof. induction a as [|x a IH]; simpl; [done | by rewrite IH]. Qed.

Lemma str_len_app a b : str_len (a +:+ b) = (str_len a + str_len b)%nat.
Proof. unfold str_len. induction a as [|x a IH]; simpl; [done | by rewrite IH]. Qed.

Lemma has_prefix_app p s : has_prefix p (p +:+ s) = true.
Proof. induction p as [|a p IH]; simpl; [done |]. by rewrite bool_decide_eq_true_2. Qed.

Lemma contains_prefix s sub : has_prefix sub s = true -> contains s sub = true.
Proof. intros H. destruct s; simpl in *; rewrite H; done. Qed.

(** A substring of the tail is a substring of the whole. *)
Lemma contains_app_r a b sub : contains b sub = true -> contains (a +:+ b) sub = true.
Proof.
  intros H. induction a as [|x a IH]; simpl; [done |]. rewrite IH. apply orb_true_r.
Qed.

Lemma all_bytes_app P a b : all_bytes P (a +:+ b) = all_bytes P a && all_bytes P b.
Proof. induction a as [|x a IH]; simpl; [done |]. by rewrite IH, andb_assoc. Qed.
Lemma all_bytes_impl (P Q : ascii -> bool) s : (forall c, P c = true -> Q c = true) -> all_bytes P s = true -> all_bytes Q s = true.
Proof.
  intros H. induction s as [|c s IH]; simpl; [done |]. intros [Hc Hs]%andb_true_iff. by rewrite H, IH.
Qed.

Lemma drop_str_app a b : drop_str (str_len a) (a +:+ b) = b.
Proof. unfold str_len. induction a as [|x a IH]; simpl; [by destruct b | done]. Qed.
Lemma take_str_app a b : take_str (str_len a) (a +:+ b) = a.
Proof. unfold str_len. induction a as [|x a IH]; simpl; [by destruct b | by rewrite IH]. Qed.

Lemma has_suffix_app a b : has_suffix (a +:+ b) b = true.
Proof.
  unfold has_suffix. rewrite str_len_app.
  replace (str_len a + str_len b - str_len b)%nat with (str_len a) by lia.
  rewrite drop_str_app, !bool_decide_eq_true_2; [done | done | lia].
Qed.
Lemma trim_suffix_app a b : trim_suffix (a +:+ b) b = a.
Proof.
  unfold trim_suffix. rewrite has_suffix_app, str_len_app.
  replace (str_len a + str_len b - str_len b)%nat with (str_len a) by lia.
  apply take_str_app.
Qed.

(** Induction on the length, for the functions that look several bytes ahead. *)
Lemma string_len_ind (P : string -> Prop) :
  (forall s, (forall t, (str_len t < str_len s)%nat -> P t) -> P s) -> forall s, P s.
Proof.
  intros H s. remember (str_len s) as n eqn:E. revert s E.
  induction n as [n IH] using lt_wf_ind. intros s ->. apply H. eauto.
Qed.

Lemma to_lower_step a b c t :
  to_lower (String a (String b (String c t))) =
  if bool_decide (code a = 226 /\ code b = 132 /\ code c = 170) then String (chr 107) (to_lower t)
  else if bool_decide (code a = 196 /\ code b = 176) then String (chr 105) (to_lower (String c t))
  else String (lower_ascii a) (to_lower (String b (String c t))).
Proof. reflexivity. Qed.

(** ASCII text appended to a string is lowered on its own. *)
Lemma to_lower_app_ascii a b :
  all_bytes is_ascii b = true -> to_lower (a +:+ b) = to_lower a +:+ to_lower b.
Proof.
  intros Hb. induction a as [a IH] using string_len_ind. unfold str_len in IH.
  assert (Hhd : forall c b', b = String c b' -> code c < 128).
  { intros c b' ->. simpl in Hb. apply andb_true_iff in Hb as [Hc _].
    by apply bool_decide_eq_true_1 in Hc. }
  destruct a as [|x [|y [|z a]]].
  - done.
  - destruct b as [|c [|d b]]; [done | |]; pose proof (Hhd _ _ eq_refl); simpl;
      rewrite !bool_decide_eq_false_2 by lia; done.
  - destruct b as [|c b]; [by rewrite append_nil_r, append_nil_r |]. pose proof (Hhd _ _ eq_refl).
    change ((String x (String y EmptyString)) +:+ String c b) with (String x (String y (String c b))).
    rewrite to_lower_step, bool_decide_eq_false_2 by lia.
    specialize (IH (String y EmptyString) ltac:(simpl; lia)). cbn [String.append] in IH.
    rewrite IH. simpl. by case_bool_decide.
  - change (String x (String y (String z a)) +:+ b) with (String x (String y (String z (a +:+ b)))).
    rewrite !to_lower_step. repeat case_bool_decide; cbn [String.append]; f_equal;
      [refine (IH a _) | refine (IH (String z a) _) | refine (IH (String y (String z a)) _)]; simpl; lia.
Qed.

(** ** Lemmas on lists *)

Lemma filter_length_le {A} (P Q : A -> bool) l :
  (forall x, x ∈ l -> P x = true -> Q x = true) -> (length (List.filter P l) <= length (List.filter Q l))%nat.
Proof.
  induction l as [|x l IH]; intros H; [done |]. cbn.
  assert (length (List.filter P l) <= length (List.filter Q l))%nat by (apply IH; set_solver).
  specialize (H x ltac:(apply list_elem_of_here)).
  destruct (P x); [rewrite H by done; cbn; lia |]. destruct (Q x); cbn; lia.
Qed.

Lemma filter_length_lt {A} (P Q : A -> bool) l y :
  (forall x, x ∈ l -> P x = true -> Q x = true) -> y ∈ l -> P y = false -> Q y = true ->
  (length (List.filter P l) < length (List.filter Q l))%nat.
Proof.
  intros H Hy HP HQ. induction l as [|x l IH]; [by apply not_elem_of_nil in Hy |]. cbn.
  apply elem_of_cons in Hy as [<-|Hy].
  - rewrite HP, HQ. cbn. apply le_n_S, filter_length_le. set_solver.
  - assert (length (List.filter P l) < length (List.filter Q l))%nat by (apply IH; set_solver).
    specialize (H x ltac:(apply list_elem_of_here)).
    destruct (P x); [rewrite H by done; cbn; lia |]. destruct (Q x); cbn; lia.
Qed.

(** A non-empty list has an element where [f] is greatest. *)
Lemma list_argmax {A} (f : A -> nat) l : l <> [] -> exists x, x ∈ l /\ forall y, y ∈ l -> (f y <= f x)%nat.
Proof.
  induction l as [|x l IH]; [done |]. intros _. destruct l as [|z l].
  - exists x. split; [apply list_elem_of_here |]. intros y ->%list_elem_of_singleton. lia.
  - destruct IH as (m & Hm & Hmax); [done |]. destruct (decide (f m <= f x)%nat).
    + exists x. split; [apply list_elem_of_here |]. intros y [->|Hy]%elem_of_cons; [lia |]. specialize (Hmax y Hy). lia.
    + exists m. split; [by apply list_elem_of_further |]. intros y [->|Hy]%elem_of_cons; [lia | auto].
Qed.
