(* ===== verification/Exception.v ===== *)
(** * Errors: pkg/exception

    The Go error values the services build and inspect: application errors with
    an HTTP status, wrapped errors, and the driver errors of lib/pq.  [Error] is
    the text the code searches with [strings.Contains]; [as_pq] and
    [as_app_error] are the two uses of [errors.As]. *)

From S2P Require Import Prelude.

(** exception.FieldError *)
Record FieldError := { fe_Field : string; fe_Message : string }.

(** A Go [error]: a plain text, a wrapped error ([fmt.Errorf] with %w), a pq
    driver error, or an application error (exception.AppError). *)
#[warnings="-register-all"]
Inductive error : Type :=
| EText (msg : string)
| EWrap (pre : string) (e : error) (post : string)
| EPq (pq_code msg : string)
| EApp (Code Message : string) (StatusCode : Z) (Details : list FieldError) (Cause : option error).

Abbreviation res := (result error).

(** [err.Error()] *)
Fixpoint Error (e : error) : string :=
  match e with
  | EText m => m
  | EWrap pre e' post => pre +:+ Error e' +:+ post
  | EPq _ m => "pq: " +:+ m
  | EApp _ m _ _ (Some c) => m +:+ ": " +:+ Error c
  | EApp _ m _ _ None => m
  end.

(** [io.EOF] *)
Definition eof : error := EText "EOF".

(** [errors.As(err, &pqErr)]: the first pq error of the Unwrap chain. *)
Fixpoint as_pq (e : error) : option string :=
  match e with
  | EText _ => None
  | EWrap _ e' _ => as_pq e'
  | EPq c _ => Some c
  | EApp _ _ _ _ (Some c) => as_pq c
  | EApp _ _ _ _ None => None
  end.

Definition isUniqueViolation (e : error) : bool :=
  match as_pq e with Some c => bool_decide (c = "23505") | None => false end.

Definition CodeNotFound := "NOT_FOUND".
Definition CodeBadRequest := "BAD_REQUEST".
Definition CodeConflict := "CONFLICT".
Definition CodeInternalError := "INTERNAL_SERVER_ERROR".
Definition CodeServiceUnavailable := "SERVICE_UNAVAILABLE".

(** The constructors of codes.go. *)
Definition NotFound (resource id : string) : error :=
  EApp CodeNotFound (resource +:+ " " +:+ fmt_q id +:+ " not found") 404 [] None.
Definition default_msg (msg dflt : string) : string := if bool_decide (msg = "") then dflt else msg.
Definition Unauthorized (msg : string) : error :=
  EApp "UNAUTHORIZED" (default_msg msg "authentication required") 401 [] None.
Definition Forbidden (msg : string) : error :=
  EApp "FORBIDDEN" (default_msg msg "access denied") 403 [] None.
Definition BadRequest (msg : string) : error := EApp CodeBadRequest msg 400 [] None.
Definition Conflict (msg : string) : error := EApp CodeConflict msg 409 [] None.
Definition ValidationFailed (fields : list FieldError) : error :=
  EApp "VALIDATION_ERROR" "request validation failed" 422 fields None.
Definition Internal (e : error) : error :=
  EApp CodeInternalError "an unexpected error occurred" 500 [] (Some e).
Definition ServiceUnavailable (msg : string) : error :=
  EApp CodeServiceUnavailable (default_msg msg "service temporarily unavailable") 503 [] None.
Definition TooManyRequests (msg : string) : error :=
  EApp "TOO_MANY_REQUESTS" (default_msg msg "rate limit exceeded") 429 [] None.

(** [errors.As(err, &appErr)] *)
Fixpoint as_app_error (e : error) : option error :=
  match e with
  | EApp _ _ _ _ _ => Some e
  | EWrap _ e' _ => as_app_error e'
  | _ => None
  end.

(** exception.FromError (of a non-nil error). *)
Definition FromError (e : error) : error :=
  match as_app_error e with Some a => a | None => Internal e end.

Definition StatusCode (e : error) : Z :=
  match FromError e with EApp _ _ st _ _ => st | _ => 500 end.

(** [fmt.Errorf(pre + "%w", err)] *)
Definition wrapf (pre : string) (e : error) : error := EWrap pre e "".

(** The test the services use to recognise a runtime that is gone. *)
Definition says_not_found (e : error) : bool := contains (to_lower (Error e)) "not found".

Lemma NotFound_says_not_found resource id : says_not_found (NotFound resource id) = true.
Proof.
  unfold says_not_found, NotFound. cbn [Error].
  replace (resource +:+ " " +:+ fmt_q id +:+ " not found")
    with ((resource +:+ " " +:+ fmt_q id) +:+ " not found") by (rewrite !append_assoc; done).
  rewrite to_lower_app_ascii by done. by apply contains_app_r.
Qed.

(** [FromError] gives an application error. *)
Lemma FromError_app e : exists c m st d k, FromError e = EApp c m st d k.
Proof.
  unfold FromError. destruct (as_app_error e) as [a|] eqn:E; [| unfold Internal; eauto 10].
  revert a E. induction e; simpl; intros; simplify_eq; eauto 10.
Qed.
Lemma FromError_idempotent e : FromError (FromError e) = FromError e.
Proof. by destruct (FromError_app e) as (? & ? & ? & ? & ? & ->). Qed.

(** Wrapping (by fmt.Errorf or by [Internal]) never hides a unique violation. *)
Lemma isUniqueViolation_wrapf pre e : isUniqueViolation (wrapf pre e) = isUniqueViolation e.
Proof. done. Qed.
Lemma isUniqueViolation_Internal e : isUniqueViolation (Internal e) = isUniqueViolation e.
Proof. done. Qed.
