(* ===== verification/Naming.v ===== *)
(** * VM names: src/core/domain/vm/naming and NormalizeName

    Random "adjective-surname" names, the FNV-1a suffix used when they collide,
    and the normalisation of user-supplied names into DNS labels. *)

From S2P Require Import Prelude.

(** adjectives.go *)
Definition adjectives : list string :=
  [
    "admiring"; "adoring"; "affectionate"; "agitated"; "amazing"; "angry"; "awesome"; "beautiful";
    "blissful"; "bold"; "boring"; "brave"; "busy"; "charming"; "clever"; "compassionate";
    "competent"; "condescending"; "confident"; "cool"; "cranky"; "crazy"; "dazzling"; "determined";
    "distracted"; "dreamy"; "eager"; "ecstatic"; "elastic"; "elated"; "elegant"; "eloquent"; "epic";
    "exciting"; "fervent"; "festive"; "flamboyant"; "focused"; "friendly"; "frosty"; "funny";
    "gallant"; "gifted"; "goofy"; "gracious"; "great"; "happy"; "hardcore"; "heuristic"; "hopeful";
    "hungry"; "infallible"; "inspiring"; "intelligent"; "interesting"; "jolly"; "jovial"; "keen";
    "kind"; "laughing"; "loving"; "lucid"; "magical"; "modest"; "musing"; "mystifying"; "naughty";
    "nervous"; "nice"; "nifty"; "nostalgic"; "objective"; "optimistic"; "peaceful"; "pedantic";
    "pensive"; "practical"; "priceless"; "quirky"; "quizzical"; "recursing"; "relaxed"; "reverent";
    "romantic"; "sad"; "serene"; "sharp"; "silly"; "sleepy"; "stoic"; "strange"; "stupefied";
    "suspicious"; "sweet"; "tender"; "thirsty"; "trusting"; "unruffled"; "upbeat"; "vibrant";
    "vigilant"; "vigorous"; "wizardly"; "wonderful"; "xenodochial"; "youthful"; "zealous"; "zen"
  ].

(** surnames.go *)
Definition surnames : list string :=
  [
    "agnesi"; "albattani"; "allen"; "almeida"; "antonelli"; "archimedes"; "ardinghelli";
    "aryabhata"; "austin"; "babbage"; "banach"; "banzai"; "bardeen"; "bartik"; "bassi"; "beaver";
    "bell"; "benz"; "bhabha"; "bhaskara"; "black"; "blackburn"; "blackwell"; "bohr"; "booth";
    "borg"; "bose"; "bouman"; "boyd"; "brahmagupta"; "brattain"; "brown"; "buck"; "burnell";
    "cannon"; "carson"; "cartwright"; "carver"; "cerf"; "chandrasekhar"; "chaplygin"; "chatelet";
    "chatterjee"; "chaum"; "chebyshev"; "clarke"; "cohen"; "colden"; "cori"; "cray"; "curie";
    "curran"; "darwin"; "davinci"; "dewdney"; "dhawan"; "diffie"; "dijkstra"; "dirac"; "driscoll";
    "dubinsky"; "easley"; "edison"; "einstein"; "elbakyan"; "elgamal"; "elion"; "ellis";
    "engelbart"; "euclid"; "euler"; "faraday"; "feistel"; "fermat"; "fermi"; "feynman"; "franklin";
    "gagarin"; "galileo"; "galois"; "ganguly"; "gates"; "gauss"; "germain"; "goldberg"; "goldstine";
    "goldwasser"; "golick"; "goodall"; "gould"; "greider"; "grothendieck"; "haibt"; "hamilton";
    "haslett"; "hawking"; "heisenberg"; "hellman"; "hermann"; "herschel"; "hertz"; "heyrovsky";
    "hodgkin"; "hofstadter"; "hoover"; "hopper"; "hugle"; "hypatia"; "ishizaka"; "jackson"; "jang";
    "jemison"; "jennings"; "jepsen"; "johnson"; "joliot"; "jones"; "kalam"; "kapitsa"; "kare";
    "keldysh"; "keller"; "kepler"; "khayyam"; "khorana"; "kilby"; "kirch"; "knuth"; "kowalevski";
    "lalande"; "lamarr"; "lamport"; "leakey"; "leavitt"; "lederberg"; "lehmann"; "lewin";
    "lichterman"; "liskov"; "lovelace"; "lumiere"; "mahavira"; "margulis"; "matsumoto"; "maxwell";
    "mayer"; "mccarthy"; "mcclintock"; "mclaren"; "mclean"; "mcnulty"; "meitner"; "mendel";
    "mendeleev"; "meninsky"; "merkle"; "mestorf"; "mirzakhani"; "montalcini"; "moore"; "morse";
    "moser"; "murdock"; "napier"; "nash"; "neumann"; "newton"; "nightingale"; "nobel"; "noether";
    "northcutt"; "noyce"; "panini"; "pare"; "pascal"; "pasteur"; "payne"; "perlman"; "pike";
    "poincare"; "poitras"; "proskuriakova"; "ptolemy"; "raman"; "ramanujan"; "rhodes"; "ride";
    "ritchie"; "robinson"; "roentgen"; "rosalind"; "rubin"; "saha"; "sammet"; "sanderson";
    "satoshi"; "shamir"; "shannon"; "shaw"; "shirley"; "shockley"; "shtern"; "sinoussi"; "snyder";
    "solomon"; "spence"; "stonebraker"; "sutherland"; "swanson"; "swartz"; "swirles"; "taussig";
    "tesla"; "tharp"; "thompson"; "torvalds"; "tu"; "turing"; "varahamihira"; "vaughan"; "villani";
    "visvesvaraya"; "volhard"; "wescoff"; "wilbur"; "wiles"; "williams"; "williamson"; "wilson";
    "wing"; "wozniak"; "wright"; "wu"; "yalow"; "yonath"; "zhukovsky"
  ].

(** ** Generating names (generator.go) *)

Definition forbiddenName : string := "boring-wozniak".
Definition MaxLen : nat := 63.

(** The name of one pair of draws of [rand.IntN(len(adjectives))] and
    [rand.IntN(len(surnames))]. *)
Definition pair_name (d : nat * nat) : string :=
  nth (fst d) adjectives "" +:+ "-" +:+ nth (snd d) surnames "".

(** The retry loop of [Generate], over the draws it makes. It returns when a
    draw is not the forbidden name; on a list that runs out first it has no result. *)
Fixpoint Generate (draws : list (nat * nat)) : option string :=
  match draws with
  | [] => None
  | d :: draws' =>
      if bool_decide (pair_name d = forbiddenName) then Generate draws' else Some (pair_name d)
  end.

(** hash/fnv: 32-bit FNV-1a. *)
Fixpoint fnv1a (h : Z) (s : string) : Z :=
  match s with
  | EmptyString => h
  | String c s' => fnv1a (u32 (Z.lxor h (code c) * 16777619)) s'
  end.
Definition fnv32a (s : string) : Z := fnv1a 2166136261 s.

Definition alphabet : string := "abcdefghijklmnopqrstuvwxyz234567".
Definition alphabet_at (z : Z) : ascii :=
  match String.get (Z.to_nat z) alphabet with Some c => c | None => chr 0 end.

(** The loop of [suffix] fills the four positions from the last to the first. *)
Fixpoint suffix_loop (n : nat) (v : Z) (acc : string) : string :=
  match n with
  | O => acc
  | S n' => suffix_loop n' (v / 32) (String (alphabet_at (v mod 32)) acc)
  end.
Definition suffix (seed : string) : string := suffix_loop 4 (fnv32a seed) EmptyString.

Definition GenerateWithSuffix (draws : list (nat * nat)) (seed : string) : option string :=
  (fun g => g +:+ "-" +:+ suffix seed) <$> Generate draws.

(** ** NormalizeName (vm.go) *)

Definition is_dash (c : ascii) : bool := bool_decide (code c = 45).
Definition name_char (c : ascii) : bool :=
  bool_decide (97 <= code c <= 122) || bool_decide (48 <= code c <= 57) || is_dash c.

(** [nonNameChar.ReplaceAllString(s, "-")]: every maximal run of characters
    outside [a-z0-9-] becomes one hyphen. *)
Fixpoint replace_non_name (in_run : bool) (s : string) : string :=
  match s with
  | EmptyString => EmptyString
  | String c t =>
      if name_char c then String c (replace_non_name false t)
      else if in_run then replace_non_name true t
      else String (chr 45) (replace_non_name true t)
  end.

(** [consecutiveDsh.ReplaceAllString(s, "-")] *)
Fixpoint collapse_dashes (prev : bool) (s : string) : string :=
  match s with
  | EmptyString => EmptyString
  | String c t =>
      if is_dash c
      then if prev then collapse_dashes true t else String c (collapse_dashes true t)
      else String c (collapse_dashes false t)
  end.

(** [strings.TrimLeft(s, "-")] and [strings.TrimRight(s, "-")] *)
Fixpoint trim_dash_l (s : string) : string :=
  match s with
  | String c t => if is_dash c then trim_dash_l t else s
  | EmptyString => s
  end.
Fixpoint trim_dash_r (s : string) : string :=
  match s with
  | EmptyString => EmptyString
  | String c t =>
      match trim_dash_r t with
      | EmptyString => if is_dash c then EmptyString else String c EmptyString
      | t' => String c t'
      end
  end.

Definition NormalizeName (s : string) : string :=
  let s := to_lower s in
  let s := replace_non_name false s in
  let s := collapse_dashes false s in
  let s := trim_dash_r (trim_dash_l s) in
  if bool_decide (MaxLen < str_len s)%nat then trim_dash_r (take_str MaxLen s) else s.

(** ** What a DNS label is *)

(** No two hyphens in a row; [prev] says whether the text before ends in one,
    so [no_dd true] also rules out a leading hyphen. *)
Fixpoint no_dd (prev : bool) (s : string) : bool :=
  match s with
  | EmptyString => true
  | String c t => if is_dash c then negb prev && no_dd true t else no_dd false t
  end.
Fixpoint ends_in_dash (s : string) : bool :=
  match s with
  | EmptyString => false
  | String c EmptyString => is_dash c
  | String _ t => ends_in_dash t
  end.

(** A label over [a-z0-9-] with no hyphen at either end, at most 63 bytes
    (RFC 1123), possibly empty. *)
Definition dns_label (s : string) : bool :=
  bool_decide (str_len s <= MaxLen)%nat && all_bytes name_char s && no_dd true s && negb (ends_in_dash s).

(** Every byte lies in [a-z0-9-]. *)
Lemma replace_non_name_chars b s : all_bytes name_char (replace_non_name b s) = true.
Proof.
  revert b. induction s as [|c s IH]; intros b; simpl; [done |].
  destruct (name_char c) eqn:E; simpl; [by rewrite E, IH |]. destruct b; simpl; [done | by rewrite IH].
Qed.

Lemma collapse_chars b s : all_bytes name_char s = true -> all_bytes name_char (collapse_dashes b s) = true.
Proof.
  revert b. induction s as [|c s IH]; intros b H; simpl in *; [done |].
  apply andb_true_iff in H as [Hc Hs].
  destruct (is_dash c), b; simpl; rewrite ?Hc; simpl; by apply IH.
Qed.

Lemma collapse_no_dd b s : no_dd b (collapse_dashes b s) = true.
Proof.
  revert b. induction s as [|c s IH]; intros b; simpl; [done |].
  destruct (is_dash c) eqn:E; [destruct b|]; simpl; rewrite ?E; simpl; done.
Qed.

Lemma no_dd_weaken s : no_dd true s = true -> no_dd false s = true.
Proof. destruct s as [|c s]; simpl; [done |]. by destruct (is_dash c). Qed.

Lemma trim_dash_l_no_dd s : no_dd false s = true -> no_dd true (trim_dash_l s) = true.
Proof.
  induction s as [|c s IH]; simpl; [done |]. destruct (is_dash c) eqn:E; simpl.
  - intros H. apply IH, no_dd_weaken, H.
  - by rewrite E.
Qed.

Lemma trim_dash_l_chars P s : all_bytes P s = true -> all_bytes P (trim_dash_l s) = true.
Proof.
  induction s as [|c s IH]; simpl; [done |]. intros H. destruct (is_dash c); [|done].
  apply andb_true_iff in H as [_ H]. by apply IH.
Qed.

(** [trim_dash_r] keeps a prefix: it preserves what is true of all prefixes. *)
Lemma trim_dash_r_spec s : exists t, s = trim_dash_r s +:+ t /\ ends_in_dash (trim_dash_r s) = false.
Proof.
  induction s as [|c s (t & IH & He)]; simpl; [by exists "" |].
  destruct (trim_dash_r s) as [|d u].
  - destruct (is_dash c) eqn:E; [by exists (String c s) |]. exists s. by rewrite <- E.
  - exists t. by rewrite IH at 1.
Qed.

Lemma take_str_split n s : s = take_str n s +:+ drop_str n s.
Proof. revert s. induction n as [|n IH]; intros [|c s]; simpl; [done.. |]. by rewrite <- IH. Qed.

Lemma no_dd_prefix b s t : no_dd b (s +:+ t) = true -> no_dd b s = true.
Proof.
  revert b. induction s as [|c s IH]; intros b; simpl; [done |]. destruct (is_dash c).
  - intros [-> H]%andb_true_iff. simpl. by apply IH.
  - apply IH.
Qed.

Lemma take_str_len n s : (str_len (take_str n s) <= n)%nat.
Proof. unfold str_len. revert s. induction n as [|n IH]; intros [|c s]; simpl; [lia.. |]. specialize (IH s). lia. Qed.

Lemma label_prefix s t :
  all_bytes name_char (s +:+ t) = true -> no_dd true (s +:+ t) = true ->
  all_bytes name_char s = true /\ no_dd true s = true.
Proof. rewrite all_bytes_app. intros [? _]%andb_true_iff ?%no_dd_prefix. done. Qed.

(** Cutting hyphens off the right end of a prefix gives a label again. *)
Lemma trim_dash_r_label s :
  all_bytes name_char s = true -> no_dd true s = true -> (str_len (trim_dash_r s) <= MaxLen)%nat ->
  dns_label (trim_dash_r s) = true.
Proof.
  intros Hc Hd Hl. destruct (trim_dash_r_spec s) as (t & Hs & He).
  rewrite Hs in Hc, Hd. destruct (label_prefix _ _ Hc Hd) as [Hc' Hd'].
  unfold dns_label. rewrite bool_decide_eq_true_2 by done. by rewrite Hc', Hd', He.
Qed.

Lemma trim_dash_r_len s : (str_len (trim_dash_r s) <= str_len s)%nat.
Proof. destruct (trim_dash_r_spec s) as (t & Hs & _). rewrite Hs at 2. rewrite str_len_app. lia. Qed.

(** The result of normalisation is a DNS label of at most 63 bytes. *)
Lemma NormalizeName_label s : dns_label (NormalizeName s) = true.
Proof.
  unfold NormalizeName. set (u := collapse_dashes false _).
  assert (Hc : all_bytes name_char (trim_dash_l u) = true)
    by apply trim_dash_l_chars, collapse_chars, replace_non_name_chars.
  assert (Hd : no_dd true (trim_dash_l u) = true) by apply trim_dash_l_no_dd, collapse_no_dd.
  case_bool_decide.
  - destruct (trim_dash_r_spec (trim_dash_l u)) as (t & Hs & _).
    rewrite Hs in Hc, Hd. destruct (label_prefix _ _ Hc Hd) as [Hc1 Hd1].
    rewrite (take_str_split MaxLen (trim_dash_r _)) in Hc1, Hd1.
    destruct (label_prefix _ _ Hc1 Hd1) as [Hc2 Hd2].
    apply trim_dash_r_label; [done.. |]. etrans; [apply trim_dash_r_len | apply take_str_len].
  - apply trim_dash_r_label; [done.. | lia].
Qed.

(** ** Labels are fixed points *)

Lemma name_char_code c : name_char c = true -> 45 <= code c <= 122 /\ ~ (65 <= code c <= 90).
Proof.
  unfold name_char, is_dash. intros [[H|H]%orb_true_iff|H]%orb_true_iff; apply bool_decide_eq_true_1 in H; lia.
Qed.

Lemma to_lower_name s : all_bytes name_char s = true -> to_lower s = s.
Proof.
  induction s as [|a s IH]; intros H; [done |]. simpl in H. apply andb_true_iff in H as [Ha Hs].
  specialize (IH Hs). apply name_char_code in Ha.
  assert (El : lower_ascii a = a) by (unfold lower_ascii; rewrite bool_decide_eq_false_2; [done | lia]).
  destruct s as [|b [|c s]]; [simpl; by rewrite El | |].
  - cbn [to_lower] in *. rewrite bool_decide_eq_false_2 by lia. by rewrite El, IH.
  - rewrite to_lower_step, !bool_decide_eq_false_2 by lia. by rewrite El, IH.
Qed.

Lemma replace_non_name_id b s : all_bytes name_char s = true -> replace_non_name b s = s.
Proof.
  revert b. induction s as [|c s IH]; intros b; simpl; [done |].
  intros [-> Hs]%andb_true_iff. by rewrite IH.
Qed.

Lemma collapse_id b s : no_dd b s = true -> collapse_dashes b s = s.
Proof.
  revert b. induction s as [|c s IH]; intros b; simpl; [done |]. destruct (is_dash c).
  - intros [Hb Hs]%andb_true_iff. destruct b; [done |]. by rewrite IH.
  - intros Hs. by rewrite IH.
Qed.

Lemma trim_dash_l_id s : no_dd true s = true -> trim_dash_l s = s.
Proof. destruct s as [|c s]; simpl; [done |]. by destruct (is_dash c). Qed.

Lemma trim_dash_r_id s : ends_in_dash s = false -> trim_dash_r s = s.
Proof.
  induction s as [|c s IH]; simpl; [done |]. destruct s as [|d s].
  - simpl. intros ->. done.
  - intros H. by rewrite (IH H).
Qed.

Lemma NormalizeName_id s : dns_label s = true -> NormalizeName s = s.
Proof.
  unfold dns_label. intros [[[Hl%bool_decide_eq_true_1 Hc]%andb_true_iff Hd]%andb_true_iff
    He%negb_true_iff]%andb_true_iff.
  unfold NormalizeName. rewrite to_lower_name, replace_non_name_id by done.
  rewrite collapse_id by (by apply no_dd_weaken).
  rewrite trim_dash_l_id, trim_dash_r_id by done.
  by rewrite bool_decide_eq_false_2 by lia.
Qed.

(** ** Generated names *)

Definition letters (s : string) : bool :=
  bool_decide (1 <= str_len s <= 13)%nat && all_bytes (fun c => name_char c && negb (is_dash c)) s.

Lemma word_lists_letters : forallb letters adjectives && forallb letters surnames = true.
Proof. vm_compute. reflexivity. Qed.

Lemma nth_letters l n : forallb letters l = true -> (n < length l)%nat -> letters (nth n l "") = true.
Proof. intros H Hn. eapply List.forallb_forall in H; [exact H | by apply nth_In]. Qed.

Lemma no_dash_no_dd b s :
  all_bytes (fun c => name_char c && negb (is_dash c)) s = true ->
  all_bytes name_char s = true /\ no_dd b s = true /\ ends_in_dash s = false.
Proof.
  revert b. induction s as [|c s IH]; intros b; simpl; [done |].
  intros [[Hc Hd%negb_true_iff]%andb_true_iff Hs]%andb_true_iff.
  destruct (IH false Hs) as (H1 & H2 & H3). rewrite Hc, Hd, H1, H2. by destruct s.
Qed.

Lemma ends_in_dash_app a b : b <> "" -> ends_in_dash (a +:+ b) = ends_in_dash b.
Proof.
  intros Hb. induction a as [|x a IH]; simpl; [done |].
  destruct (a +:+ b) eqn:E; [by destruct a | by rewrite <- IH].
Qed.

Lemma no_dd_join p a b :
  no_dd p a = true -> ends_in_dash a = false -> (p = true -> a <> "") -> no_dd true b = true ->
  no_dd p (a +:+ "-" +:+ b) = true.
Proof.
  intros Hn He Hp Hb. revert p Hn He Hp. induction a as [|x a IH]; intros p Hn He Hp; simpl in *.
  - destruct p; [by destruct Hp | done].
  - destruct (is_dash x) eqn:E.
    + apply andb_true_iff in Hn as [-> Hn]. simpl. destruct a; [simpl in He; congruence |]. by apply IH.
    + destruct a as [|y a]; [by simpl |]. by apply IH.
Qed.

(** The shape shared by the parts of a generated name: a nonempty label that
    neither starts nor ends in a hyphen. *)
Definition part (s : string) : Prop :=
  all_bytes name_char s = true /\ no_dd true s = true /\ ends_in_dash s = false /\ s <> "".

Lemma part_join a b : part a -> part b -> part (a +:+ "-" +:+ b).
Proof.
  intros (A1 & A2 & A3 & A4) (B1 & B2 & B3 & B4). repeat split.
  - by rewrite !all_bytes_app, A1, B1.
  - by apply no_dd_join.
  - rewrite ends_in_dash_app by done. by rewrite ends_in_dash_app.
  - by destruct a.
Qed.

Lemma part_label s : part s -> (str_len s <= MaxLen)%nat -> dns_label s = true.
Proof.
  intros (H1 & H2 & H3 & _) Hl. unfold dns_label. rewrite bool_decide_eq_true_2 by done.
  by rewrite H1, H2, H3.
Qed.

Lemma letters_part s : letters s = true -> part s /\ (1 <= str_len s <= 13)%nat.
Proof.
  unfold letters. intros [Hl%bool_decide_eq_true_1 Hc]%andb_true_iff.
  destruct (no_dash_no_dd true _ Hc) as (?&?&?). repeat split; try done; [|lia|lia].
  intros ->. unfold str_len in Hl. simpl in Hl. lia.
Qed.

Lemma pair_name_part d :
  (fst d < length adjectives)%nat -> (snd d < length surnames)%nat ->
  part (pair_name d) /\ (str_len (pair_name d) <= 27)%nat.
Proof.
  intros Ha Hs. pose proof word_lists_letters as [Hla Hls]%andb_true_iff.
  destruct (letters_part _ (nth_letters _ _ Hla Ha)) as [Pa La].
  destruct (letters_part _ (nth_letters _ _ Hls Hs)) as [Ps Ls].
  split; [by apply part_join |]. unfold pair_name. rewrite !str_len_app.
  change (str_len "-") with 1%nat. lia.
Qed.

(** Draws as [rand.IntN] makes them. *)
Definition draws_in_range (draws : list (nat * nat)) : bool :=
  forallb (fun d => bool_decide (fst d < length adjectives)%nat && bool_decide (snd d < length surnames)%nat) draws.

Lemma Generate_part draws s :
  draws_in_range draws = true -> Generate draws = Some s ->
  part s /\ (str_len s <= 27)%nat /\ s <> forbiddenName.
Proof.
  induction draws as [|d draws IH]; simpl; [done |].
  intros [[Ha%bool_decide_eq_true_1 Hs%bool_decide_eq_true_1]%andb_true_iff Hr]%andb_true_iff.
  case_bool_decide; [by apply IH |]. intros [= <-]. by destruct (pair_name_part d Ha Hs).
Qed.

(** The loop of [Generate] ends at the first draw that is not the forbidden pair. *)
Lemma Generate_total draws :
  Exists (fun d => pair_name d <> forbiddenName) draws -> is_Some (Generate draws).
Proof. induction 1; simpl; case_bool_decide; eauto; done. Qed.

Lemma suffix_loop_len n v acc : str_len (suffix_loop n v acc) = (n + str_len acc)%nat.
Proof. revert v acc. induction n as [|n IH]; intros; simpl; [done |]. rewrite IH. unfold str_len. simpl. lia. Qed.

Lemma alphabet_at_letter v :
  name_char (alphabet_at (v mod 32)) && negb (is_dash (alphabet_at (v mod 32))) = true.
Proof.
  pose proof (Z.mod_pos_bound v 32 ltac:(lia)) as H. set (r := v mod 32) in *. clearbody r.
  assert (Hall : forallb (fun n => name_char (alphabet_at (Z.of_nat n)) && negb (is_dash (alphabet_at (Z.of_nat n))))
                   (seq 0 32) = true) by (vm_compute; reflexivity).
  rewrite <- (Z2Nat.id r) by lia. eapply List.forallb_forall in Hall; [exact Hall |].
  apply in_seq. lia.
Qed.

Lemma suffix_loop_letters n v acc :
  all_bytes (fun c => name_char c && negb (is_dash c)) acc = true ->
  all_bytes (fun c => name_char c && negb (is_dash c)) (suffix_loop n v acc) = true.
Proof.
  revert v acc. induction n as [|n IH]; intros v acc H; simpl; [done |]. apply IH. simpl.
  by rewrite alphabet_at_letter.
Qed.

Lemma suffix_part seed : part (suffix seed) /\ str_len (suffix seed) = 4%nat.
Proof.
  assert (Hl : str_len (suffix seed) = 4%nat) by (unfold suffix; rewrite suffix_loop_len; done).
  destruct (no_dash_no_dd true (suffix seed)) as (?&?&?); [by apply suffix_loop_letters |].
  split; [|done]. unfold part. split; [done |]. split; [done |]. split; [done |].
  intros E. by rewrite E in Hl.
Qed.

(** ** Properties *)

(** C11: NormalizeName turns every input into an RFC 1123 label (at most 63 bytes
    of [a-z0-9-], no hyphen at either end, no two in a row; possibly empty), and
    it leaves exactly the labels unchanged, so normalising twice is normalising once. *)
Theorem NormalizeName_dns_label (s : string) :
  dns_label (NormalizeName s) = true /\
  (NormalizeName s = s <-> dns_label s = true) /\
  NormalizeName (NormalizeName s) = NormalizeName s.
Proof.
  pose proof (NormalizeName_label s) as H. split; [done |]. split; [|by apply NormalizeName_id].
  split; [intros E; by rewrite <- E | apply NormalizeName_id].
Qed.

(** a generated name and its suffixed fallback are nonempty DNS labels that
    NormalizeName leaves alone, whatever the draws and the seed, and a generated
    name is never the forbidden pair. *)
Theorem Generate_dns_label (draws : list (nat * nat)) (seed s : string) :
  draws_in_range draws = true -> Generate draws = Some s ->
  dns_label s = true /\ s <> "" /\ s <> forbiddenName /\
  exists t, GenerateWithSuffix draws seed = Some t /\ dns_label t = true /\ t <> "" /\ NormalizeName t = t.
Proof.
  intros Hr Hg. destruct (Generate_part _ _ Hr Hg) as (Hp & Hl & Hf).
  destruct (suffix_part seed) as [Hsp Hsl].
  assert (Ht : dns_label (s +:+ "-" +:+ suffix seed) = true).
  { apply part_label; [by apply part_join |]. rewrite !str_len_app, Hsl. change (str_len "-") with 1%nat. unfold MaxLen. lia. }
  split; [apply part_label; [done | unfold MaxLen; lia] |]. split; [apply Hp |]. split; [done |].
  exists (s +:+ "-" +:+ suffix seed). unfold GenerateWithSuffix. rewrite Hg.
  split; [done |]. split; [done |]. split; [by apply (part_join s) | by apply NormalizeName_id].
Qed.

Example Generate_dns_label_witness :
  draws_in_range [(10, 230); (3, 5)]%nat = true /\
  Generate [(10, 230); (3, 5)]%nat = Some "agitated-archimedes" /\
  (dns_label "agitated-archimedes" = true /\ "agitated-archimedes" <> "" /\
   "agitated-archimedes" <> forbiddenName /\
   exists t, GenerateWithSuffix [(10, 230); (3, 5)]%nat "vm-1" = Some t /\ dns_label t = true /\ t <> "" /\
     NormalizeName t = t).
Proof.
  split; [vm_compute; reflexivity |]. split; [vm_compute; reflexivity |].
  apply (Generate_dns_label [(10, 230); (3, 5)]%nat "vm-1" "agitated-archimedes"); vm_compute; reflexivity.
Defined.
