(* ===== verification/GoLib.v ===== *)
(** * The Go standard library, as far as the services use it

    [filepath.Clean] and [filepath.Join] on Unix, [strings.Split] on one byte,
    [strings.ReplaceAll] of one byte, [strings.Fields], and [base64.StdEncoding.DecodeString] with
    its error offsets. *)

From S2P Require Import Prelude Exception.

(** ** strings *)

(** [strings.Fields]: the maximal runs of bytes that start no white-space rune. *)
Fixpoint until_space (s : string) : string * string :=
  match s with
  | EmptyString => (EmptyString, EmptyString)
  | String c t => if bool_decide (lead_space s = 0%nat) then let '(a, b) := until_space t in (String c a, b) else (EmptyString, s)
  end.
Fixpoint fields_fuel (n : nat) (s : string) : list string :=
  match n with
  | O => []
  | S n' => let s := trim_left_fuel (str_len s) s in
            if bool_decide (s = EmptyString) then [] else let '(a, b) := until_space s in a :: fields_fuel n' b
  end.
Definition strings_Fields (s : string) : list string := fields_fuel (S (str_len s)) s.

(** ** path/filepath *)

(** [strings.Split(s, c)] for a one-byte separator. *)
Fixpoint split_on (c : ascii) (s : string) : list string :=
  match s with
  | EmptyString => [EmptyString]
  | String a t =>
      if bool_decide (a = c) then EmptyString :: split_on c t
      else match split_on c t with
           | [] => [str1 a]
           | x :: l => String a x :: l
           end
  end.

Definition slash : ascii := chr 47.

(** The elements of the cleaned path, last first. *)
Fixpoint clean_elems (rooted : bool) (acc : list string) (l : list string) : list string :=
  match l with
  | [] => acc
  | x :: l' =>
      if bool_decide (x = "") || bool_decide (x = ".") then clean_elems rooted acc l'
      else if bool_decide (x = "..") then
        match acc with
        | y :: acc' =>
            if bool_decide (y = "..") then clean_elems rooted (x :: acc) l'
            else clean_elems rooted acc' l'
        | [] => clean_elems rooted (if rooted then [] else [x]) l'
        end
      else clean_elems rooted (x :: acc) l'
  end.

Definition filepath_Clean (p : string) : string :=
  let rooted := has_prefix "/" p in
  let body := join "/" (rev (clean_elems rooted [] (split_on slash p))) in
  if rooted then "/" +:+ body else if bool_decide (body = "") then "." else body.

(** Leading empty elements are dropped, the rest is joined and cleaned. *)
Fixpoint filepath_Join (elems : list string) : string :=
  match elems with
  | [] => ""
  | e :: l => if bool_decide (e = "") then filepath_Join l else filepath_Clean (join "/" elems)
  end.

(** [strings.ReplaceAll] of a one-byte pattern. *)
Fixpoint replace_byte (c : ascii) (by_ : string) (s : string) : string :=
  match s with
  | EmptyString => EmptyString
  | String a t => (if bool_decide (a = c) then by_ else str1 a) +:+ replace_byte c by_ t
  end.

(** ** encoding/base64 *)

Definition b64_value (c : ascii) : option Z :=
  let z := code c in
  if bool_decide (65 <= z <= 90) then Some (z - 65)
  else if bool_decide (97 <= z <= 122) then Some (z - 71)
  else if bool_decide (48 <= z <= 57) then Some (z + 4)
  else if bool_decide (z = 43) then Some 62
  else if bool_decide (z = 47) then Some 63
  else None.

Definition is_newline (c : ascii) : bool := bool_decide (code c = 10) || bool_decide (code c = 13).
Definition is_pad (c : ascii) : bool := bool_decide (code c = 61).

(** The bytes of a quantum of two, three or four digits. *)
Definition b64_bytes (digits : list Z) : string :=
  match digits with
  | [a; b] => str1 (chr ((a * 4 + b / 16) mod 256))
  | [a; b; c] => String (chr ((a * 4 + b / 16) mod 256)) (str1 (chr ((b * 16 + c / 4) mod 256)))
  | [a; b; c; d] =>
      String (chr ((a * 4 + b / 16) mod 256))
        (String (chr ((b * 16 + c / 4) mod 256)) (str1 (chr ((c * 64 + d) mod 256))))
  | _ => ""
  end.

Definition corrupt {A} (offset : Z) : res A :=
  Err (EText ("illegal base64 data at input byte " +:+ fmt_d offset)).

(** What may follow the padding: [more] is true when one more pad is due. *)
Fixpoint b64_tail (more : bool) (si : Z) (out : string) (s : string) : res string :=
  match s with
  | EmptyString => if more then corrupt si else Ok out
  | String c t =>
      if is_newline c then b64_tail more (si + 1) out t
      else if more then if is_pad c then b64_tail false (si + 1) out t else corrupt (si - 1)
      else corrupt si
  end.

(** [decodeQuantum] in a loop: [digits] are those of the current quantum, [si]
    is the offset of the next byte. *)
Fixpoint b64_decode (digits : list Z) (si : Z) (s : string) : res string :=
  match s with
  | EmptyString =>
      match digits with [] => Ok "" | _ => corrupt (si - Z.of_nat (length digits)) end
  | String c t =>
      match b64_value c with
      | Some v =>
          match digits with
          | [x; y; z] =>
              match b64_decode [] (si + 1) t with
              | Ok rest => Ok (b64_bytes [x; y; z; v] +:+ rest)
              | Err e => Err e
              end
          | _ => b64_decode (digits ++ [v]) (si + 1) t
          end
      | None =>
          if is_newline c then b64_decode digits (si + 1) t
          else if is_pad c then
            match digits with
            | [_; _] => b64_tail true (si + 1) (b64_bytes digits) t
            | [_; _; _] => b64_tail false (si + 1) (b64_bytes digits) t
            | _ => corrupt si
            end
          else corrupt si
      end
  end.

Definition DecodeString (s : string) : res string := b64_decode [] 0 s.

(** ** time *)

(** Year, month and day of the [days]-th day after 0001-01-01 (the date of the
    zero [time.Time]), in the proleptic Gregorian calendar. *)
Definition civil (days : Z) : Z * Z * Z :=
  let z := days + 306 in
  let era := z / 146097 in
  let doe := z mod 146097 in
  let yoe := (doe - doe / 1460 + doe / 36524 - doe / 146096) / 365 in
  let doy := doe - (365 * yoe + yoe / 4 - yoe / 100) in
  let mp := (5 * doy + 2) / 153 in
  let d := doy - (153 * mp + 2) / 5 + 1 in
  let m := if bool_decide (mp < 10) then mp + 3 else mp - 9 in
  (yoe + era * 400 + (if bool_decide (m <= 2) then 1 else 0), m, d).

Fixpoint zeros (n : nat) : string := match n with O => "" | S n' => "0" +:+ zeros n' end.
Definition pad (width : nat) (z : Z) : string := let d := fmt_d z in zeros (width - str_len d) +:+ d.

(** [t.Format("2006-01-02T15-04-05")] *)
Definition format_stamp (t : Z) : string :=
  let secs := t / second in
  let '(y, m, d) := civil (secs / 86400) in
  let sod := secs mod 86400 in
  pad 4 y +:+ "-" +:+ pad 2 m +:+ "-" +:+ pad 2 d +:+ "T"
  +:+ pad 2 (sod / 3600) +:+ "-" +:+ pad 2 (sod / 60 mod 60) +:+ "-" +:+ pad 2 (sod mod 60).

(** [d.Milliseconds()] *)
Definition milliseconds (d : Z) : Z := Z.quot d 1000000.

(** ** Worked examples *)

Example civil_leap : civil 738944 = (2024, 2, 29).
Proof. reflexivity. Qed.
Example stamp_epoch : format_stamp (719162 * 86400 * second + 3661 * second) = "1970-01-01T01-01-01".
Proof. vm_compute. reflexivity. Qed.

Example Clean_dotdot : filepath_Join ["/var/lib"; "../x//y"; "."; "z"] = "/var/x/y/z".
Proof. reflexivity. Qed.
Example Decode_padded : DecodeString "aGVsbG8=" = Ok "hello".
Proof. reflexivity. Qed.
Example Decode_short : DecodeString "aGVsbG8" = corrupt 4.
Proof. reflexivity. Qed.
