(* ===== verification/Domain.v ===== *)
(** * Domain entities: src/core/domain/{vm,environment,snapshot}

    The VM entity with its lifecycle states and transition table, the runtime
    configuration and its validation, environments, and snapshots. A Go pointer
    field is an [option]; instants are nanoseconds. *)

From S2P Require Import Prelude Naming.

(** ** Status and the transition table (vm.go, state.go) *)

Inductive Status := StatusProvisioning | StatusReady | StatusRunning | StatusIdle | StatusTerminated.

#[export] Instance Status_eq_dec : EqDecision Status.
Proof. solve_decision. Defined.

Definition Status_string (s : Status) : string :=
  match s with
  | StatusProvisioning => "provisioning"
  | StatusReady => "ready"
  | StatusRunning => "running"
  | StatusIdle => "idle"
  | StatusTerminated => "terminated"
  end.

Definition ValidTransitions : list (Status * Status) :=
  [ (StatusProvisioning, StatusReady);
    (StatusProvisioning, StatusTerminated);
    (StatusReady, StatusRunning);
    (StatusReady, StatusIdle);
    (StatusReady, StatusTerminated);
    (StatusRunning, StatusIdle);
    (StatusRunning, StatusTerminated);
    (StatusIdle, StatusRunning);
    (StatusIdle, StatusTerminated) ].

Definition CanTransition (from to : Status) : bool :=
  existsb (fun t => bool_decide (fst t = from) && bool_decide (snd t = to)) ValidTransitions.

Definition IsTerminal (s : Status) : bool := bool_decide (s = StatusTerminated).
Definition IsActive (s : Status) : bool := bool_decide (s = StatusRunning) || bool_decide (s = StatusReady).
Definition IsIdle (s : Status) : bool := bool_decide (s = StatusIdle) || bool_decide (s = StatusReady).

(** ** The VM entity *)

Definition ProviderFirecracker : string := "firecracker".
Definition ProviderCloudHypervisor : string := "cloud-hypervisor".
Definition publicDomainSuffix : string := ".box.spacetrek.xyz".

Record VM := {
  vm_ID : string;
  vm_Name : string;
  vm_EnvironmentID : string;
  vm_ConversationID : string;
  vm_Provider : string;
  vm_Status : Status;
  vm_WorkspaceSizeGB : Z;
  vm_RuntimeID : option string;
  vm_SocketPath : option string;
  vm_VsockPath : option string;
  vm_GuestCID : option Z;
  vm_PID : option Z;
  vm_RuntimeState : option string;
  vm_LastHeartbeatAt : option Z;
  vm_IdleDeadlineAt : option Z;
  vm_VCPU : option Z;
  vm_MemoryMB : option Z;
  vm_DiskMB : option Z;
  vm_IPAddress : option string;
  vm_ServicePort : Z;
  vm_ChatID : option string;
  vm_AssignedAt : option Z;
  vm_LastResumedAt : option Z;
  vm_DiffSnapshotsEnabled : bool;
  vm_TerminatedAt : option Z;
  vm_CreatedAt : Z
}.

Record CreateParams := {
  cp_EnvironmentID : string;
  cp_ConversationID : string;
  cp_Provider : string;
  cp_WorkspaceSizeGB : Z;
  cp_Name : option string;
  cp_VCPU : option Z;
  cp_MemoryMB : option Z;
  cp_DiskMB : option Z;
  cp_ServicePort : option Z
}.

(** [resolveName]; the generated name is the result of naming.Generate. *)
Definition resolveName (generated : string) (provided : option string) : string :=
  match provided with
  | None => generated
  | Some n => NormalizeName n
  end.

(** [New], with the uuid, the instant and the generated name it obtains. *)
Definition New (uuid generated : string) (now : Z) (params : CreateParams) : VM :=
  let provider := if bool_decide (cp_Provider params = "") then ProviderFirecracker else cp_Provider params in
  let workspaceSizeGB := if bool_decide (cp_WorkspaceSizeGB params <= 0) then 2 else cp_WorkspaceSizeGB params in
  let servicePort :=
    match cp_ServicePort params with
    | Some p => if bool_decide (p > 0) then p else 80
    | None => 80
    end in
  {| vm_ID := uuid;
     vm_Name := resolveName generated (cp_Name params);
     vm_EnvironmentID := cp_EnvironmentID params;
     vm_ConversationID := cp_ConversationID params;
     vm_Provider := provider;
     vm_Status := StatusProvisioning;
     vm_WorkspaceSizeGB := workspaceSizeGB;
     vm_RuntimeID := None; vm_SocketPath := None; vm_VsockPath := None; vm_GuestCID := None;
     vm_PID := None; vm_RuntimeState := None; vm_LastHeartbeatAt := None; vm_IdleDeadlineAt := None;
     vm_VCPU := cp_VCPU params;
     vm_MemoryMB := cp_MemoryMB params;
     vm_DiskMB := cp_DiskMB params;
     vm_IPAddress := None;
     vm_ServicePort := servicePort;
     vm_ChatID := None; vm_AssignedAt := None; vm_LastResumedAt := None;
     vm_DiffSnapshotsEnabled := false;
     vm_TerminatedAt := None;
     vm_CreatedAt := now |}.

(** [(v *VM).Transition]: the new VM, or the rejected pair. *)
Definition Transition (v : VM) (to : Status) : result (Status * Status) VM :=
  if CanTransition (vm_Status v) to then Ok (v <| vm_Status := to |>) else Err (vm_Status v, to).
(** [InvalidStateTransitionError]: the rejected pair, and its text. *)
Definition InvalidStateTransitionError : Type := Status * Status.
Definition InvalidStateTransitionError_Error (e : InvalidStateTransitionError) : string :=
  "invalid state transition: " +:+ Status_string (fst e) +:+ " → " +:+ Status_string (snd e).

(** [StateMachine]: a pointer to a VM; its state is the VM. *)
Record StateMachine := { fsm_vm : VM }.
Definition NewStateMachine (vm : VM) : StateMachine := {| fsm_vm := vm |}.
Definition Current (sm : StateMachine) : Status := vm_Status (fsm_vm sm).
Definition TransitionTo (to : Status) (sm : StateMachine) : result InvalidStateTransitionError unit * StateMachine :=
  match Transition (fsm_vm sm) to with
  | Ok vm => (Ok tt, {| fsm_vm := vm |})
  | Err e => (Err e, sm)
  end.
Definition CanTransitionTo (sm : StateMachine) (to : Status) : bool := CanTransition (Current sm) to.

(** Overrides of the resources of the environment. *)
Definition override (o : option Z) (dflt : Z) : Z :=
  match o with Some z => if bool_decide (z > 0) then z else dflt | None => dflt end.
Definition HasCustomResources (v : VM) : bool :=
  bool_decide (is_Some (vm_VCPU v)) || bool_decide (is_Some (vm_MemoryMB v)) || bool_decide (is_Some (vm_DiskMB v)).
Definition GetVCPU (v : VM) (defaultVCPU : Z) : Z := override (vm_VCPU v) defaultVCPU.
Definition GetMemoryMB (v : VM) (defaultMB : Z) : Z := override (vm_MemoryMB v) defaultMB.
Definition GetDiskMB (v : VM) (defaultMB : Z) : Z := override (vm_DiskMB v) defaultMB.

Definition IsAvailable (v : VM) : bool :=
  (bool_decide (vm_Status v = StatusReady) || bool_decide (vm_Status v = StatusRunning)
   || bool_decide (vm_Status v = StatusIdle)) && bool_decide (vm_ChatID v = None).

Definition AssignTo (now : Z) (chatID : string) (v : VM) : VM :=
  v <| vm_ChatID := Some chatID |> <| vm_AssignedAt := Some now |> <| vm_Status := StatusRunning |>.
Definition Unassign (v : VM) : VM :=
  v <| vm_ChatID := None |> <| vm_AssignedAt := None |> <| vm_Status := StatusIdle |>.
Definition Terminate (now : Z) (v : VM) : VM :=
  v <| vm_Status := StatusTerminated |> <| vm_TerminatedAt := Some now |> <| vm_ChatID := None |>.
Definition IsTerminated (v : VM) : bool := bool_decide (vm_Status v = StatusTerminated).

Definition if_nonempty (s : string) (old : option string) : option string :=
  if bool_decide (s = "") then old else Some s.
Definition SetRuntimeMetadata (now : Z) (runtimeID socketPath : string) (pid : Z) (state : string) (v : VM) : VM :=
  v <| vm_RuntimeID := if_nonempty runtimeID (vm_RuntimeID v) |>
    <| vm_SocketPath := if_nonempty socketPath (vm_SocketPath v) |>
    <| vm_RuntimeState := if_nonempty state (vm_RuntimeState v) |>
    <| vm_LastHeartbeatAt := Some now |>
    <| vm_PID := if bool_decide (pid > 0) then Some pid else vm_PID v |>.
Definition SetRuntimeVsockMetadata (vsockPath : string) (guestCID : Z) (v : VM) : VM :=
  v <| vm_VsockPath := if_nonempty vsockPath (vm_VsockPath v) |>
    <| vm_GuestCID := if bool_decide (guestCID > 0) then Some guestCID else vm_GuestCID v |>.
Definition ClearRuntimeVsockMetadata (v : VM) : VM :=
  v <| vm_VsockPath := None |> <| vm_GuestCID := None |>.
Definition MarkResumed (now : Z) (v : VM) : VM := v <| vm_LastResumedAt := Some now |>.
Definition IsRecentlyResumed (now gracePeriod : Z) (v : VM) : bool :=
  match vm_LastResumedAt v with
  | None => false
  | Some t => bool_decide (now - t < gracePeriod)
  end.
Definition PublicURL (v : VM) : string :=
  if bool_decide (vm_Name v = "") || bool_decide (vm_ServicePort v <= 0) then ""
  else "https://" +:+ vm_Name v +:+ publicDomainSuffix.

(** ** Leases (lease.go) *)

Record Lease := {
  le_ID : string;
  le_ChatID : string;
  le_VMID : string;
  le_LeasedAt : Z;
  le_ReleasedAt : option Z
}.

(** ** Runtime configuration (config.go) *)

Record NetworkConfig := {
  nc_Enabled : bool; nc_Interface : string; nc_IP : string; nc_Bridge : string; nc_AllowInternet : bool }.
Record VsockConfig := {
  vc_Enabled : bool; vc_GuestCID : Z; vc_GuestPort : Z; vc_HostUDSPath : string }.
Record ExecLimits := { el_Timeout : Z; el_MaxStdoutBytes : Z; el_MaxStderrBytes : Z }.
Record RuntimeConfig := {
  rc_Network : NetworkConfig;
  rc_Vsock : VsockConfig;
  rc_Exec : ExecLimits;
  rc_Timeout : Z;
  rc_MaxTasks : Z;
  rc_EnableNetworking : bool;
  rc_EnableSeccomp : bool;
  rc_EnableDebug : bool;
  rc_EnableDiffSnapshots : bool
}.

Definition no_network : NetworkConfig :=
  {| nc_Enabled := false; nc_Interface := ""; nc_IP := ""; nc_Bridge := ""; nc_AllowInternet := false |}.

Definition DefaultRuntimeConfig : RuntimeConfig :=
  {| rc_Network := no_network;
     rc_Vsock := {| vc_Enabled := false; vc_GuestCID := 0; vc_GuestPort := 0; vc_HostUDSPath := "" |};
     rc_Exec := {| el_Timeout := 60 * second; el_MaxStdoutBytes := 5 * 1024 * 1024;
                   el_MaxStderrBytes := 5 * 1024 * 1024 |};
     rc_Timeout := 5 * minute;
     rc_MaxTasks := 10;
     rc_EnableNetworking := false;
     rc_EnableSeccomp := true;
     rc_EnableDebug := false;
     rc_EnableDiffSnapshots := false |}.

(** [RuntimeConfig.Validate]: the field and message of the first check that fails. *)
Definition Validate (c : RuntimeConfig) : option (string * string) :=
  if bool_decide (rc_Timeout c < 1 * minute) || bool_decide (rc_Timeout c > 60 * minute)
  then Some ("timeout", "must be between 1m and 60m")
  else if bool_decide (rc_MaxTasks c < 1) || bool_decide (rc_MaxTasks c > 1000)
  then Some ("max_tasks", "must be between 1 and 1000")
  else if bool_decide (vc_GuestCID (rc_Vsock c) > 0) && bool_decide (vc_GuestCID (rc_Vsock c) < 3)
  then Some ("vsock.guest_cid", "must be 0 (auto) or >= 3")
  else if bool_decide (vc_GuestPort (rc_Vsock c) = 0) || bool_decide (vc_GuestPort (rc_Vsock c) > 65535)
  then Some ("vsock.guest_port", "must be between 1 and 65535")
  else if bool_decide (el_Timeout (rc_Exec c) < 1 * second) || bool_decide (el_Timeout (rc_Exec c) > 15 * minute)
  then Some ("exec.timeout", "must be between 1s and 15m")
  else if bool_decide (el_MaxStdoutBytes (rc_Exec c) < 1024)
       || bool_decide (el_MaxStdoutBytes (rc_Exec c) > 32 * 1024 * 1024)
  then Some ("exec.max_stdout_bytes", "must be between 1024 and 33554432")
  else if bool_decide (el_MaxStderrBytes (rc_Exec c) < 1024)
       || bool_decide (el_MaxStderrBytes (rc_Exec c) > 32 * 1024 * 1024)
  then Some ("exec.max_stderr_bytes", "must be between 1024 and 33554432")
  else None.

(** ** Environments (environment.go) *)

Record ResourceLimits := { rl_VCPU : Z; rl_MemoryMB : Z; rl_DiskMB : Z }.
Record Environment := {
  env_ID : string;
  env_Type : string;
  env_ImagePath : string;
  env_ResourceLimits : ResourceLimits;
  env_Description : string;
  env_Metadata : option string;        (* raw JSON, nil when absent *)
  env_DiffSnapshots : bool;
  env_CreatedAt : Z;
  env_UpdatedAt : Z
}.
(** environment.CreateParams and environment.New, with the uuid and the instant it obtains. *)
Record EnvCreateParams := {
  ep_Type : string; ep_ImagePath : string; ep_ResourceLimits : ResourceLimits; ep_Description : string;
  ep_Metadata : option string; ep_DiffSnapshots : bool }.
Definition newEnvironment (uuid : string) (now : Z) (p : EnvCreateParams) : Environment :=
  {| env_ID := uuid; env_Type := ep_Type p; env_ImagePath := ep_ImagePath p;
     env_ResourceLimits := ep_ResourceLimits p; env_Description := ep_Description p;
     env_Metadata := ep_Metadata p; env_DiffSnapshots := ep_DiffSnapshots p;
     env_CreatedAt := now; env_UpdatedAt := now |}.
Definition env_GetVCPU (e : Environment) : Z := rl_VCPU (env_ResourceLimits e).
Definition env_GetMemoryMB (e : Environment) : Z := rl_MemoryMB (env_ResourceLimits e).
Definition env_GetDiskMB (e : Environment) : Z := rl_DiskMB (env_ResourceLimits e).

(** ** Snapshots (snapshot.go) *)

Inductive SnapType := TypeFull | TypeIncremental.
#[export] Instance SnapType_eq_dec : EqDecision SnapType.
Proof. solve_decision. Defined.

Record SnapshotMetadata := {
  sm_EnvironmentID : string;
  sm_ImagePath : string;
  sm_VCPU : Z;
  sm_MemoryMB : Z;
  sm_DiskMB : Z;
  sm_GuestCID : Z;
  sm_GuestPort : Z;
  sm_RootfsPath : string;
  sm_DiffSnapshots : bool;
  sm_BaseImagePath : string;
  sm_BaseSnapshotID : string;
  sm_CowDeviceName : string;
  sm_DiskSnapshotType : string;
  sm_DiskChainLength : Z
}.

(** The raw JSON metadata column, by what [ParseMetadata] makes of it. *)
Inductive RawMetadata := MetaEmpty | MetaJSON (m : SnapshotMetadata) | MetaInvalid (msg : string).

Record Snapshot := {
  sn_ID : string;
  sn_VMID : string;
  sn_ParentSnapshotID : option string;
  sn_Type : SnapType;
  sn_SnapshotPath : string;
  sn_SizeBytes : Z;
  sn_Metadata : RawMetadata;
  sn_CreatedAt : Z
}.

Definition IsFull (s : Snapshot) : bool := bool_decide (sn_Type s = TypeFull).
Definition IsIncremental (s : Snapshot) : bool := bool_decide (sn_Type s = TypeIncremental).
Definition HasParent (s : Snapshot) : bool := bool_decide (is_Some (sn_ParentSnapshotID s)).

(** [snapshot.New], with the uuid and the instant it obtains. *)
Definition newSnapshot (uuid : string) (now : Z) (vmID : string) (parent : option string) (ty : SnapType)
  (path : string) (size : Z) (meta : RawMetadata) : Snapshot :=
  {| sn_ID := uuid; sn_VMID := vmID; sn_ParentSnapshotID := parent; sn_Type := ty; sn_SnapshotPath := path;
     sn_SizeBytes := size; sn_Metadata := meta; sn_CreatedAt := now |}.

(** [ParseMetadata]: the metadata, nil for an empty column, or the decoder's
    complaint. *)
Definition ParseMetadata (s : Snapshot) : result string (option SnapshotMetadata) :=
  match sn_Metadata s with
  | MetaEmpty => Ok None
  | MetaJSON m => Ok (Some m)
  | MetaInvalid msg => Err msg
  end.

(** The keys of the files under the prefix of a snapshot. *)
Definition MemFilePath (s : Snapshot) : string := sn_SnapshotPath s +:+ "/memory".
Definition StateFilePath (s : Snapshot) : string := sn_SnapshotPath s +:+ "/state".
Definition CowFilePath (s : Snapshot) : string := sn_SnapshotPath s +:+ "/cow".
Definition DiskFilePath (s : Snapshot) : string := sn_SnapshotPath s +:+ "/disk".
Definition ManifestFilePath (s : Snapshot) : string := sn_SnapshotPath s +:+ "/memory.manifest".

(** ** Volumes (core/domain/volume), which nothing uses yet *)

Inductive VolumeType := TypeLocalDir | TypeGitHubRepo | TypeS3.
Record Volume := {
  vol_ID : string; vol_VMID : string; vol_Type : VolumeType; vol_Source : string; vol_MountPath : string;
  vol_IsReadOnly : bool; vol_Metadata : string; vol_CreatedAt : Z }.
Record VolumeCreateParams := {
  volp_VMID : string; volp_Type : VolumeType; volp_Source : string; volp_MountPath : string;
  volp_IsReadOnly : bool; volp_Metadata : string }.
Definition newVolume (uuid : string) (now : Z) (p : VolumeCreateParams) : Volume := {|
  vol_ID := uuid; vol_VMID := volp_VMID p; vol_Type := volp_Type p; vol_Source := volp_Source p;
  vol_MountPath := volp_MountPath p; vol_IsReadOnly := volp_IsReadOnly p; vol_Metadata := volp_Metadata p; vol_CreatedAt := now |}.
Definition IsWritable (v : Volume) : bool := negb (vol_IsReadOnly v).

(** ** The state machine *)

(** A request to move is granted exactly when [CanTransitionTo] says so; a refused one
    changes nothing and names the pair. *)
Theorem TransitionTo_spec to sm :
  match TransitionTo to sm with
  | (Ok _, sm') => CanTransitionTo sm to = true /\ fsm_vm sm' = (fsm_vm sm) <| vm_Status := to |>
  | (Err e, sm') => CanTransitionTo sm to = false /\ sm' = sm /\ e = (Current sm, to)
  end.
Proof.
  unfold TransitionTo, CanTransitionTo, Transition, Current. by destruct (CanTransition _ to) eqn:E.
Qed.
(** Whatever is asked of a machine, it never returns to provisioning, and a terminated VM
    stays terminated. *)
Definition TransitionAll (l : list Status) (sm : StateMachine) : StateMachine := foldl (fun sm to => (TransitionTo to sm).2) sm l.
Lemma TransitionTo_moves to sm :
  Current (TransitionTo to sm).2 = Current sm \/
  (Current (TransitionTo to sm).2 = to /\ to <> StatusProvisioning /\ IsTerminal (Current sm) = false).
Proof.
  pose proof (TransitionTo_spec to sm) as H. destruct (TransitionTo to sm) as [[[]|e] sm'].
  - destruct H as [Hc Hv]. right. unfold CanTransitionTo, Current in *. cbn. rewrite Hv.
    by destruct (vm_Status (fsm_vm sm)), to.
  - destruct H as (_ & -> & _). by left.
Qed.
Theorem machine_progress l sm :
  (IsTerminal (Current sm) = true -> Current (TransitionAll l sm) = Current sm) /\
  (Current sm <> StatusProvisioning -> Current (TransitionAll l sm) <> StatusProvisioning).
Proof.
  revert sm. induction l as [|to l IH]; intros sm; [done |]. cbn.
  destruct (IH (TransitionTo to sm).2) as [H1 H2]. fold (TransitionAll l (TransitionTo to sm).2).
  destruct (TransitionTo_moves to sm) as [E|(E & Hp & Ht)]; rewrite E in H1, H2; [done |].
  split; [congruence |]. intros _. by apply H2.
Qed.
