(* ===== verification/World.v ===== *)
(** * The world the services run in

    The database tables (as the migrations define them), the backend and the
    object store (abstract states, interfaces in Interfaces.v), the lifecycle
    events delivered so far, and the environment: the clock, fresh identifiers,
    random draws, statement failures and context cancellations, each consulted
    at the current tick. The theorems hold for every environment. *)

From S2P Require Import Prelude Exception Naming Domain.

(** ** The environment *)

Record Env := {
  or_now : nat -> Z;                     (* time.Now().UTC() *)
  or_uuid : nat -> string;               (* uuid.NewString() *)
  or_draws : nat -> list (nat * nat);    (* the draws of one naming.Generate *)
  or_fault : nat -> option error;        (* Some e: the statement fails with e *)
  or_awake : nat -> bool                 (* false: the context is done before the timer *)
}.

(** ** Tables *)

(** vmRow of src/repository/postgres/vm.go *)
Record vmRow := {
  r_id : string;
  r_name : string;
  r_environment_id : string;
  r_conversation_id : option string;
  r_provider : string;
  r_status : Status;
  r_workspace_size_gb : option Z;
  r_runtime_id : option string;
  r_socket_path : option string;
  r_vsock_path : option string;
  r_guest_cid : option Z;
  r_pid : option Z;
  r_runtime_state_source : option string;
  r_last_heartbeat_at : option Z;
  r_idle_deadline_at : option Z;
  r_vcpu : option Z;
  r_memory_mb : option Z;
  r_disk_mb : option Z;
  r_ip_address : option string;
  r_service_port : option Z;
  r_chat_id : option string;
  r_assigned_at : option Z;
  r_last_resumed_at : option Z;
  r_diff_snapshots_enabled : bool;
  r_terminated_at : option Z;
  r_created_at : Z
}.

(** A row of snapshot_metrics and snapshot.SnapshotMetrics, without the serial id that
    nothing reads. *)
Record SnapshotMetrics := {
  mx_SnapshotID : string; mx_VMID : string; mx_Type : SnapType;
  mx_PauseDurationMs : Z; mx_MemoryBytes : Z; mx_MemoryZstBytes : Z; mx_CowBytes : Z; mx_CowZstBytes : Z;
  mx_DiskBytes : Z; mx_UploadDurationMs : Z;
  mx_DownloadDurationMs : Z; mx_DecompressDurationMs : Z; mx_RestoreDurationMs : Z; mx_AgentReadyMs : Z; mx_TotalResumeMs : Z;
  mx_GuestRAMMB : Z; mx_WorkloadType : string; mx_ChainDepth : Z; mx_CreatedAt : Z }.

Record DB := {
  db_vms : gmap string vmRow;             (* vm_instances, by primary key *)
  db_leases : list Lease;                 (* vm_leases, in insertion order *)
  db_snapshots : gmap string Snapshot;    (* vm_snapshots, by primary key *)
  db_envs : gmap string Environment;      (* environments, by primary key *)
  db_chats : gmap string string;          (* chats: the owner's user_id, by primary key *)
  db_snap_metrics : list SnapshotMetrics
}.

(** ** Lifecycle events (src/service/vm/event.go) *)

Inductive Event :=
| CreatedEvent (vm : VM)
| StatusChangedEvent (vm : VM) (oldStatus : Status)
| AssignedEvent (vm : VM) (chatID : string)
| UnassignedEvent (vm : VM) (chatID : string)
| DestroyedEvent (vm : VM).

Definition event_vm (e : Event) : VM :=
  match e with
  | CreatedEvent vm | StatusChangedEvent vm _ | AssignedEvent vm _ | UnassignedEvent vm _ | DestroyedEvent vm => vm
  end.
Definition event_VMID (e : Event) : string := vm_ID (event_vm e).
Definition event_Type (e : Event) : string :=
  match e with
  | CreatedEvent _ => "vm.created"
  | StatusChangedEvent _ _ => "vm.status_changed"
  | AssignedEvent _ _ => "vm.assigned"
  | UnassignedEvent _ _ => "vm.unassigned"
  | DestroyedEvent _ => "vm.destroyed"
  end.

(** ** The world *)

(** A goroutine started by a call that does not wait for it. *)
Inductive Job :=
| JobSnapshotGC (vmID latestID : string)     (* started by CreateSnapshot *)
| JobDeleteAll (vmID : string).              (* started by ResumeVM *)

Record World (B S : Type) := {
  w_env : Env;
  w_tick : nat;
  w_db : DB;
  w_be : B;
  w_store : S;
  w_events : list Event;      (* delivered to the lifecycle hook, oldest first *)
  w_jobs : list Job           (* started and not yet run *)
}.
Arguments w_env {B S} _.
Arguments w_tick {B S} _.
Arguments w_db {B S} _.
Arguments w_be {B S} _.
Arguments w_store {B S} _.
Arguments w_events {B S} _.
Arguments w_jobs {B S} _.

Section Primitives.
Context {B S : Type}.
Abbreviation W := (World B S).

(** Each consultation of the environment is one tick. *)
Definition tick (w : W) : W := w <| w_tick := Datatypes.S (w_tick w) |>.
Definition consult {A} (f : Env -> nat -> A) : M W A := fun w => (f (w_env w) (w_tick w), tick w).

Definition now : M W Z := consult or_now.
Definition new_uuid : M W string := consult or_uuid.
(** [sleepWithContext]: false when the context ends first. *)
Definition sleepWithContext : M W bool := consult or_awake.
(** [naming.Generate()] and [naming.GenerateWithSuffix(seed)] *)
Definition gen_name : M W string :=
  consult (fun e n => match Generate (or_draws e n) with Some s => s | None => "" end).
Definition gen_name_with_suffix (seed : string) : M W string :=
  consult (fun e n => match GenerateWithSuffix (or_draws e n) seed with Some s => s | None => "" end).

(** One SQL statement: it fails without effect when the environment says so,
    otherwise it reads and writes the tables. *)
Definition stmt {A} (f : DB -> res A * DB) : M W (res A) :=
  fun w =>
    match or_fault (w_env w) (w_tick w) with
    | Some e => (Err e, tick w)
    | None => let '(r, db') := f (w_db w) in (r, tick w <| w_db := db' |>)
    end.

Definition on_backend {A} (f : B -> A * B) : M W A :=
  fun w => let '(a, b') := f (w_be w) in (a, w <| w_be := b' |>).
Definition on_store {A} (f : S -> A * S) : M W A :=
  fun w => let '(a, s') := f (w_store w) in (a, w <| w_store := s' |>).
Definition emit (e : Event) : M W unit := fun w => (tt, w <| w_events := w_events w ++ [e] |>).
Definition spawn (j : Job) : M W unit := fun w => (tt, w <| w_jobs := w_jobs w ++ [j] |>).

End Primitives.
