(* ===== verification/PgRepo.v ===== *)
(** * PostgreSQL repositories: src/repository/postgres/{vm,snapshot}.go

    One definition per repository method; each method runs one statement (or one
    transaction) on the tables, with the constraints of the migrations, and wraps
    driver errors the way the Go code does.

    At the end a small concrete world: two VMs of one environment, used by the worked examples: "vm-a" is running,
    bound to "chat-1" with an active lease and the address 10.200.0.2; "vm-b" is
    ready, unbound and without an address. *)

From S2P Require Import Prelude Exception Naming Domain World.

(** ** Rows and entities *)

Definition toNullableString (v : string) : option string := if bool_decide (v = "") then None else Some v.
Definition nullableStringValue (v : option string) : string := default "" v.
Definition nullableIntValue (v : option Z) (fallback : Z) : Z :=
  match v with Some z => if bool_decide (z <= 0) then fallback else z | None => fallback end.

Definition mapVMRow (row : vmRow) : res VM :=
  let v := {|
    vm_ID := r_id row; vm_Name := r_name row; vm_EnvironmentID := r_environment_id row;
    vm_ConversationID := nullableStringValue (r_conversation_id row);
    vm_Provider := r_provider row; vm_Status := r_status row;
    vm_WorkspaceSizeGB := nullableIntValue (r_workspace_size_gb row) 2;
    vm_RuntimeID := r_runtime_id row; vm_SocketPath := r_socket_path row; vm_VsockPath := r_vsock_path row;
    vm_GuestCID := r_guest_cid row;
    vm_PID := r_pid row; vm_RuntimeState := r_runtime_state_source row;
    vm_LastHeartbeatAt := r_last_heartbeat_at row; vm_IdleDeadlineAt := r_idle_deadline_at row;
    vm_VCPU := r_vcpu row; vm_MemoryMB := r_memory_mb row; vm_DiskMB := r_disk_mb row;
    vm_IPAddress := r_ip_address row;
    vm_ServicePort := nullableIntValue (r_service_port row) 80;
    vm_ChatID := r_chat_id row; vm_AssignedAt := r_assigned_at row; vm_LastResumedAt := r_last_resumed_at row;
    vm_DiffSnapshotsEnabled := r_diff_snapshots_enabled row;
    vm_TerminatedAt := r_terminated_at row; vm_CreatedAt := r_created_at row |} in
  match r_guest_cid row with
  | Some c => if bool_decide (c < 0) || bool_decide (c > 4294967295)
              then Err (Internal (EText ("invalid guest cid value " +:+ fmt_d c +:+ " for vm " +:+ r_id row)))
              else Ok v
  | None => Ok v
  end.

(** The row [Create] inserts. *)
Definition rowOf (vm : VM) : vmRow := {|
  r_id := vm_ID vm; r_name := vm_Name vm; r_environment_id := vm_EnvironmentID vm;
  r_conversation_id := toNullableString (vm_ConversationID vm);
  r_provider := vm_Provider vm; r_status := vm_Status vm;
  r_workspace_size_gb := Some (vm_WorkspaceSizeGB vm);
  r_runtime_id := vm_RuntimeID vm; r_socket_path := vm_SocketPath vm; r_vsock_path := vm_VsockPath vm;
  r_guest_cid := vm_GuestCID vm; r_pid := vm_PID vm; r_runtime_state_source := vm_RuntimeState vm;
  r_last_heartbeat_at := vm_LastHeartbeatAt vm; r_idle_deadline_at := vm_IdleDeadlineAt vm;
  r_vcpu := vm_VCPU vm; r_memory_mb := vm_MemoryMB vm; r_disk_mb := vm_DiskMB vm;
  r_ip_address := vm_IPAddress vm; r_service_port := Some (vm_ServicePort vm);
  r_chat_id := vm_ChatID vm; r_assigned_at := vm_AssignedAt vm; r_last_resumed_at := vm_LastResumedAt vm;
  r_diff_snapshots_enabled := vm_DiffSnapshotsEnabled vm;
  r_terminated_at := vm_TerminatedAt vm; r_created_at := vm_CreatedAt vm |}.

(** The row [Update] leaves: every column but created_at and diff_snapshots_enabled. *)
Definition updatedRow (old : vmRow) (vm : VM) : vmRow :=
  (rowOf vm) <| r_created_at := r_created_at old |>
           <| r_diff_snapshots_enabled := r_diff_snapshots_enabled old |>.

(** ** Constraints of the migrations *)

Definition pq_unique (index : string) : error :=
  EPq "23505" ("duplicate key value violates unique constraint " +:+ dquote +:+ index +:+ dquote).
Definition pq_fkey (con : string) : error :=
  EPq "23503" ("violates foreign key constraint " +:+ dquote +:+ con +:+ dquote).
Definition pq_check (con : string) : error :=
  EPq "23514" ("violates check constraint " +:+ dquote +:+ con +:+ dquote).
Definition pq_enum (ty : string) : error := EPq "22P02" ("invalid input value for enum " +:+ ty).

Definition other_row (db : DB) (id : string) (P : vmRow -> bool) : bool :=
  existsb (fun kv => negb (bool_decide (fst kv = id)) && P (snd kv)) (map_to_list (db_vms db)).
Definition same_some {A} `{EqDecision A} (x y : option A) : bool :=
  match x, y with Some a, Some b => bool_decide (a = b) | _, _ => false end.
Definition live_row (r : vmRow) : bool := negb (bool_decide (r_status r = StatusTerminated)).

(** The first constraint of vm_instances that [row] would break. *)
Definition vm_constraint (db : DB) (row : vmRow) : option error :=
  if negb (bool_decide (r_provider row = ProviderFirecracker) || bool_decide (r_provider row = ProviderCloudHypervisor))
  then Some (pq_enum "vm_provider")
  else if match r_guest_cid row with Some c => negb (bool_decide (3 <= c <= 4294967295)) | None => false end
  then Some (pq_check "chk_vm_instances_guest_cid_range")
  else if other_row db (r_id row) (fun r => bool_decide (r_name r = r_name row))
  then Some (pq_unique "vm_instances_name_unique")
  else if other_row db (r_id row) (fun r => same_some (r_runtime_id r) (r_runtime_id row))
  then Some (pq_unique "idx_vm_instances_runtime_id")
  else if live_row row && other_row db (r_id row) (fun r => live_row r && same_some (r_guest_cid r) (r_guest_cid row))
  then Some (pq_unique "idx_vm_instances_guest_cid_active")
  else if live_row row && other_row db (r_id row) (fun r => live_row r && same_some (r_vsock_path r) (r_vsock_path row))
  then Some (pq_unique "idx_vm_instances_vsock_path_active")
  else if negb (bool_decide (is_Some (db_envs db !! r_environment_id row)))
  then Some (pq_fkey "vm_instances_environment_id_fkey")
  else if match r_chat_id row with Some c => negb (bool_decide (is_Some (db_chats db !! c))) | None => false end
  then Some (pq_fkey "vm_instances_chat_id_fkey")
  else if match r_conversation_id row with Some c => negb (bool_decide (is_Some (db_chats db !! c))) | None => false end
  then Some (pq_fkey "vm_instances_conversation_id_fkey")
  else None.

Definition put_row (row : vmRow) (db : DB) : DB := db <| db_vms := <[r_id row := row]> (db_vms db) |>.
Definition rows (db : DB) : list vmRow := snd <$> map_to_list (db_vms db).

(** ORDER BY created_at DESC and ASC *)
Definition newest_first (a b : vmRow) : Prop := r_created_at b <= r_created_at a.
#[export] Instance newest_first_dec : RelDecision newest_first.
Proof. intros a b. unfold newest_first. apply _. Defined.
Definition oldest_first (a b : vmRow) : Prop := r_created_at a <= r_created_at b.
#[export] Instance oldest_first_dec : RelDecision oldest_first.
Proof. intros a b. unfold oldest_first. apply _. Defined.

(** Map every row, the first error ends the method. *)
Fixpoint mapVMRows (rs : list vmRow) : res (list VM) :=
  match rs with
  | [] => Ok []
  | r :: rs' => match mapVMRow r with
                | Err e => Err e
                | Ok v => match mapVMRows rs' with Err e => Err e | Ok vs => Ok (v :: vs) end
                end
  end.

(** Leases, ORDER BY leased_at DESC. *)
Definition latest_lease (a b : Lease) : Prop := le_LeasedAt b <= le_LeasedAt a.
#[export] Instance latest_lease_dec : RelDecision latest_lease.
Proof. intros a b. unfold latest_lease. apply _. Defined.
Definition active_lease (l : Lease) : bool := bool_decide (le_ReleasedAt l = None).

Section Methods.
Context {B S : Type}.
Abbreviation W := (World B S).
Local Open Scope go_scope.

(** Driver errors come back as [exception.Internal(fmt.Errorf(what + ": %w", err))]. *)
Definition dberr (what : string) (e : error) : error := Internal (wrapf (what +:+ ": ") e).
Definition run {A} (what : string) (f : DB -> res A * DB) : M W (res A) :=
  let* r := stmt f in
  match r with Ok a => ret (Ok a) | Err e => ret (Err (dberr what e)) end.

(** ** VM rows *)

Definition Create (vm : VM) : M W (res unit) :=
  run "create vm" (fun db =>
    match db_vms db !! vm_ID vm with
    | Some _ => (Err (pq_unique "vm_instances_pkey"), db)
    | None => match vm_constraint db (rowOf vm) with
              | Some e => (Err e, db)
              | None => (Ok tt, put_row (rowOf vm) db)
              end
    end).

(** A SELECT of at most one row: no row is NotFound. *)
Definition selectOne (what : string) (missing : error) (f : DB -> option vmRow) : M W (res VM) :=
  let? o := run what (fun db => (Ok (f db), db)) in
  match o with
  | None => ret (Err missing)
  | Some row => ret (mapVMRow row)
  end.
Definition selectMany (what : string) (f : DB -> list vmRow) : M W (res (list VM)) :=
  let? rs := run what (fun db => (Ok (f db), db)) in
  ret (mapVMRows rs).

Definition GetByID (id : string) : M W (res VM) :=
  selectOne "get vm by id" (NotFound "vm" id) (fun db => db_vms db !! id).
Definition GetByName (name : string) : M W (res VM) :=
  selectOne "get vm by name" (NotFound "vm name" name)
    (fun db => List.find (fun r => bool_decide (r_name r = name)) (rows db)).

Definition Update (vm : VM) : M W (res unit) :=
  let? affected := run "update vm" (fun db =>
    match db_vms db !! vm_ID vm with
    | None => (Ok false, db)
    | Some old => match vm_constraint db (updatedRow old vm) with
                  | Some e => (Err e, db)
                  | None => (Ok true, put_row (updatedRow old vm) db)
                  end
    end) in
  if (affected : bool) then ret (Ok tt) else ret (Err (NotFound "vm" (vm_ID vm))).

(** Deleting a VM row cascades to its leases, snapshots and snapshot metrics. *)
Definition Delete (id : string) : M W (res unit) :=
  let? affected := run "delete vm" (fun db =>
    match db_vms db !! id with
    | None => (Ok false, db)
    | Some _ =>
        (Ok true, db <| db_vms := delete id (db_vms db) |>
                     <| db_leases := List.filter (fun l => negb (bool_decide (le_VMID l = id))) (db_leases db) |>
                     <| db_snapshots := filter (fun kv => sn_VMID (snd kv) <> id) (db_snapshots db) |>
                     <| db_snap_metrics := List.filter (fun m => negb (bool_decide (mx_VMID m = id)))
                                             (db_snap_metrics db) |>)
    end) in
  if (affected : bool) then ret (Ok tt) else ret (Err (NotFound "vm" id)).

Definition ListVMs : M W (res (list VM)) :=
  selectMany "list vms" (fun db => merge_sort newest_first (rows db)).

Definition status_in (l : list Status) (r : vmRow) : bool := bool_decide (r_status r ∈ l).
Definition GetAvailablePool (provider : string) (limit : Z) : M W (res (list VM)) :=
  selectMany "get available vm pool" (fun db =>
    take (Z.to_nat limit) (merge_sort oldest_first
      (List.filter (fun r => bool_decide (r_provider r = provider)
                   && status_in [StatusReady; StatusIdle] r && bool_decide (r_chat_id r = None)) (rows db)))).
Definition GetByEnvironmentID (envID : string) : M W (res (list VM)) :=
  selectMany "get vms by environment id" (fun db =>
    merge_sort newest_first (List.filter (fun r => bool_decide (r_environment_id r = envID)) (rows db))).
Definition GetByChatID (chatID : string) : M W (res VM) :=
  selectOne "get vm by chat id" (NotFound "vm chat" chatID) (fun db =>
    head (merge_sort newest_first (List.filter (fun r => bool_decide (r_chat_id r = Some chatID)) (rows db)))).
Definition GetActiveVMs : M W (res (list VM)) :=
  selectMany "get active vms" (fun db =>
    merge_sort newest_first (List.filter (status_in [StatusReady; StatusRunning; StatusIdle]) (rows db))).

(** DISTINCT ON (vm.id) ... JOIN vm_leases JOIN chats WHERE c.user_id = userID *)
Definition id_order (a b : vmRow) : Prop := String.leb (r_id a) (r_id b) = true.
#[export] Instance id_order_dec : RelDecision id_order.
Proof. intros a b. unfold id_order. apply _. Defined.
Definition leased_to_user (db : DB) (userID : string) (P : Lease -> bool) (r : vmRow) : bool :=
  existsb (fun l => bool_decide (le_VMID l = r_id r) && P l && bool_decide (db_chats db !! le_ChatID l = Some userID))
    (db_leases db).
Definition GetActiveByUserID (userID : string) : M W (res (list VM)) :=
  selectMany "get active vms by user" (fun db =>
    merge_sort id_order (List.filter (fun r => status_in [StatusReady; StatusRunning; StatusIdle] r
                                       && leased_to_user db userID active_lease r) (rows db))).
Definition GetAllByUserID (userID : string) : M W (res (list VM)) :=
  selectMany "get all vms by user" (fun db =>
    merge_sort id_order (List.filter (leased_to_user db userID (fun _ => true)) (rows db))).

(** ** Leases *)

(** [JOIN vm_leases l ON l.vm_id = vm.id ... ORDER BY l.leased_at DESC] *)
Definition leased_rows (db : DB) (chatID : string) (P : vmRow -> bool) : list vmRow :=
  flat_map (fun l => match db_vms db !! le_VMID l with
                     | Some r => if P r then [r] else []
                     | None => []
                     end)
    (merge_sort latest_lease (List.filter (fun l => bool_decide (le_ChatID l = chatID)) (db_leases db))).

Definition GetByEnvironmentAndChatID (envID chatID : string) : M W (res VM) :=
  selectOne "get vm by environment and chat id" (NotFound "vm by environment and chat" envID) (fun db =>
    head (leased_rows db chatID (fun r => bool_decide (r_environment_id r = envID) && live_row r))).

Definition resumable_row (r : vmRow) : bool :=
  status_in [StatusIdle; StatusReady; StatusTerminated] r && bool_decide (r_chat_id r = None).
Definition FindPreviousLeaseForChat (chatID : string) : M W (res VM) :=
  selectOne "find previous lease for chat" (NotFound "previous vm for chat" chatID) (fun db =>
    head (leased_rows db chatID resumable_row)).

(** Rows that do not map are skipped here. *)
Definition ListPreviousLeasesForChat (chatID : string) : M W (res (list VM)) :=
  let? rs := run "list previous leases for chat" (fun db => (Ok (leased_rows db chatID resumable_row), db)) in
  ret (Ok (omap (fun r => match mapVMRow r with Ok v => Some v | Err _ => None end) rs)).

(** The unique index ux_vm_leases_active_vm: one unreleased lease per VM. *)
Definition lease_conflict (db : DB) (vmID : string) : bool :=
  existsb (fun l => bool_decide (le_VMID l = vmID) && active_lease l) (db_leases db).

(** The row and the lease the assignment transaction writes. *)
Definition assigned_row (t : Z) (chatID : string) (idleDeadlineAt : option Z) (row : vmRow) : vmRow :=
  row <| r_status := StatusRunning |> <| r_chat_id := Some chatID |>
      <| r_assigned_at := Some t |> <| r_idle_deadline_at := idleDeadlineAt |>.
Definition new_lease (t : Z) (leaseID vmID chatID : string) : Lease :=
  {| le_ID := leaseID; le_ChatID := chatID; le_VMID := vmID; le_LeasedAt := t; le_ReleasedAt := None |}.
Definition lease_constraint (db : DB) (vmID chatID : string) : option error :=
  if lease_conflict db vmID then Some (pq_unique "ux_vm_leases_active_vm")
  else if negb (bool_decide (is_Some (db_chats db !! chatID))) then Some (pq_fkey "vm_leases_chat_id_fkey")
  else None.
Definition check (c : option error) (db : DB) : res unit * DB :=
  match c with Some e => (Err e, db) | None => (Ok tt, db) end.

(** One transaction: the statements run in order, each may fail, and the writes
    take effect at the commit. NOW() is the start of the transaction. *)
Definition AssignToChatIfAvailable (vmID chatID : string) (idleDeadlineAt : option Z) : M W (res VM) :=
  let* t := now in
  let* leaseID := new_uuid in
  let? _ := run "begin vm assignment tx" (check None) in
  let? o := run "lock vm for assignment" (fun db => (Ok (db_vms db !! vmID), db)) in
  match o with
  | None => ret (Err (NotFound "vm" vmID))
  | Some row =>
      match mapVMRow row with
      | Err e => ret (Err e)
      | Ok v =>
          if negb (IsAvailable v) then ret (Err (BadRequest "VM is not available"))
          else
            let row' := assigned_row t chatID idleDeadlineAt row in
            let? _ := run "update vm assignment" (fun db => check (vm_constraint db row') db) in
            let? _ := run "create vm lease" (fun db => check (lease_constraint db vmID chatID) db) in
            let? _ := run "read assigned vm" (check None) in
            let? _ := run "commit vm assignment tx" (fun db =>
              (Ok tt, (put_row row' db) <| db_leases := db_leases db ++ [new_lease t leaseID vmID chatID] |>)) in
            ret (mapVMRow row')
      end
  end.

Definition release (t : Z) (vmID : string) (l : Lease) : Lease :=
  if bool_decide (le_VMID l = vmID) && active_lease l then l <| le_ReleasedAt := Some t |> else l.
Definition ReleaseActiveLeaseByVM (vmID : string) : M W (res unit) :=
  let* t := now in
  run "release vm lease" (fun db => (Ok tt, db <| db_leases := release t vmID <$> db_leases db |>)).

Definition ListActiveLeasesByChat (chatID : string) : M W (res (list Lease)) :=
  run "list active vm leases" (fun db =>
    (Ok (merge_sort latest_lease
           (List.filter (fun l => bool_decide (le_ChatID l = chatID) && active_lease l) (db_leases db))), db)).

(** ** IP addresses *)

Definition allocated_ip (excl : string -> bool) (r : vmRow) : option string :=
  if live_row r && negb (excl (r_id r)) then r_ip_address r else None.
Definition GetAllocatedIPs : M W (res (list string)) :=
  run "get allocated ips" (fun db => (Ok (omap (allocated_ip (fun _ => false)) (rows db)), db)).
Definition GetAllocatedIPsExclude (excludeVMID : string) : M W (res (list string)) :=
  run "get allocated ips" (fun db =>
    (Ok (omap (allocated_ip (fun id => bool_decide (id = excludeVMID))) (rows db)), db)).
Definition SetIPAddress (vmID ip : string) : M W (res unit) :=
  let? affected := run "set ip address" (fun db =>
    match db_vms db !! vmID with
    | None => (Ok false, db)
    | Some r => (Ok true, put_row (r <| r_ip_address := Some ip |>) db)
    end) in
  if (affected : bool) then ret (Ok tt) else ret (Err (NotFound "vm" vmID)).
Definition ReleaseIPAddress (vmID : string) : M W (res unit) :=
  run "release ip address" (fun db =>
    (Ok tt, match db_vms db !! vmID with
            | None => db
            | Some r => put_row (r <| r_ip_address := None |>) db
            end)).

(** ** Environments and snapshots *)

Definition EnvGetByID (id : string) : M W (res Environment) :=
  let? o := run "get environment by id" (fun db => (Ok (db_envs db !! id), db)) in
  match o with Some e => ret (Ok e) | None => ret (Err (NotFound "environment" id)) end.

Definition newest_env (a b : Environment) : Prop := env_CreatedAt b <= env_CreatedAt a.
#[export] Instance newest_env_dec : RelDecision newest_env.
Proof. intros a b. unfold newest_env. apply _. Defined.
Definition EnvList : M W (res (list Environment)) :=
  run "list environments" (fun db => (Ok (merge_sort newest_env (snd <$> map_to_list (db_envs db))), db)).

Definition newest_snap (a b : Snapshot) : Prop := sn_CreatedAt b <= sn_CreatedAt a.
#[export] Instance newest_snap_dec : RelDecision newest_snap.
Proof. intros a b. unfold newest_snap. apply _. Defined.
Definition snaps_of (db : DB) (vmID : string) : list Snapshot :=
  merge_sort newest_snap
    (List.filter (fun s => bool_decide (sn_VMID s = vmID)) (snd <$> map_to_list (db_snapshots db))).

Definition SnapCreate (snap : Snapshot) : M W (res unit) :=
  run "create snapshot" (fun db =>
    match db_snapshots db !! sn_ID snap with
    | Some _ => (Err (pq_unique "vm_snapshots_pkey"), db)
    | None =>
        if negb (bool_decide (is_Some (db_vms db !! sn_VMID snap)))
        then (Err (pq_fkey "vm_snapshots_vm_id_fkey"), db)
        else if match sn_ParentSnapshotID snap with
                | Some p => negb (bool_decide (is_Some (db_snapshots db !! p)))
                | None => false
                end
        then (Err (pq_fkey "vm_snapshots_parent_snapshot_id_fkey"), db)
        else (Ok tt, db <| db_snapshots := <[sn_ID snap := snap]> (db_snapshots db) |>)
    end).

Definition SnapGetByID (id : string) : M W (res Snapshot) :=
  let? o := run "get snapshot by id" (fun db => (Ok (db_snapshots db !! id), db)) in
  match o with Some s => ret (Ok s) | None => ret (Err (NotFound "snapshot" id)) end.
Definition SnapGetByVMID (vmID : string) : M W (res (list Snapshot)) :=
  run "get snapshots by vm_id" (fun db => (Ok (snaps_of db vmID), db)).
Definition GetLatestFull (vmID : string) : M W (res Snapshot) :=
  let? o := run "get latest full snapshot" (fun db => (Ok (head (List.filter IsFull (snaps_of db vmID))), db)) in
  match o with Some s => ret (Ok s) | None => ret (Err (NotFound "snapshot" vmID)) end.
Definition GetLatestByVMID (vmID : string) : M W (res Snapshot) :=
  let? o := run "get latest snapshot" (fun db => (Ok (head (snaps_of db vmID)), db)) in
  match o with Some s => ret (Ok s) | None => ret (Err (NotFound "snapshot" vmID)) end.

(** parent_snapshot_id is ON DELETE RESTRICT; the metrics of a snapshot go with it. *)
Definition has_child (db : DB) (id : string) : bool :=
  existsb (fun kv => bool_decide (sn_ParentSnapshotID (snd kv) = Some id)) (map_to_list (db_snapshots db)).
Definition SnapDelete (id : string) : M W (res unit) :=
  let? affected := run "delete snapshot" (fun db =>
    match db_snapshots db !! id with
    | None => (Ok false, db)
    | Some _ => if has_child db id then (Err (pq_fkey "vm_snapshots_parent_snapshot_id_fkey"), db)
                else (Ok true, db <| db_snapshots := delete id (db_snapshots db) |>
                                  <| db_snap_metrics := List.filter (fun m => negb (bool_decide (mx_SnapshotID m = id)))
                                                          (db_snap_metrics db) |>)
    end) in
  if (affected : bool) then ret (Ok tt) else ret (Err (NotFound "snapshot" id)).

(** Snapshots of terminated VMs created more than [olderThan] ago, oldest first.
    NOW() is the clock of the statement. *)
Definition oldest_snap (a b : Snapshot) : Prop := sn_CreatedAt a <= sn_CreatedAt b.
#[export] Instance oldest_snap_dec : RelDecision oldest_snap.
Proof. intros a b. unfold oldest_snap. apply _. Defined.
Definition orphaned (db : DB) (t olderThan : Z) (s : Snapshot) : bool :=
  match db_vms db !! sn_VMID s with
  | Some r => bool_decide (r_status r = StatusTerminated)
              && bool_decide (sn_CreatedAt s < t - olderThan / second * second)
  | None => false
  end.
Definition ListOrphaned (olderThan : Z) : M W (res (list Snapshot)) :=
  let* t := now in
  run "list orphaned snapshots" (fun db =>
    (Ok (merge_sort oldest_snap
           (List.filter (orphaned db t olderThan) (snd <$> map_to_list (db_snapshots db)))), db)).

(** snapshot_metrics.go. The statement names neither the id nor created_at, whose defaults
    are the next number of the sequence and NOW(). *)
Definition MetricsInsert (m : SnapshotMetrics) : M W (res unit) := fun w =>
  let m := m <| mx_CreatedAt := or_now (w_env w) (w_tick w) |> in
  run "insert snapshot metrics" (fun db =>
    if negb (bool_decide (is_Some (db_snapshots db !! mx_SnapshotID m)))
    then (Err (pq_fkey "snapshot_metrics_snapshot_id_fkey"), db)
    else if negb (bool_decide (is_Some (db_vms db !! mx_VMID m)))
    then (Err (pq_fkey "snapshot_metrics_vm_id_fkey"), db)
    else (Ok tt, db <| db_snap_metrics := db_snap_metrics db ++ [m] |>)) w.
Definition snap_metrics_limit (limit : Z) : Z :=
  let limit := if bool_decide (limit <= 0) then 100 else limit in
  if bool_decide (limit > 5000) then 5000 else limit.
Definition newest_metrics (a b : SnapshotMetrics) : Prop := mx_CreatedAt b <= mx_CreatedAt a.
#[export] Instance newest_metrics_dec : RelDecision newest_metrics.
Proof. intros a b. unfold newest_metrics. apply _. Defined.
Definition select_metrics (what : string) (where_ : SnapshotMetrics -> bool) (limit : Z) : M W (res (list SnapshotMetrics)) :=
  run what (fun db =>
    (Ok (take (Z.to_nat (snap_metrics_limit limit)) (merge_sort newest_metrics (List.filter where_ (db_snap_metrics db)))), db)).
Definition MetricsListByVM (vmID : string) (limit : Z) : M W (res (list SnapshotMetrics)) :=
  select_metrics "list snapshot metrics by vm" (fun m => bool_decide (mx_VMID m = vmID)) limit.
Definition MetricsListByType (snapType : SnapType) (limit : Z) : M W (res (list SnapshotMetrics)) :=
  select_metrics "list snapshot metrics by type" (fun m => bool_decide (mx_Type m = snapType)) limit.

End Methods.

(** ** Reasoning about statements *)

Section RunLemmas.
Context {B S : Type}.
Abbreviation W := (World B S).

Definition wrap_db {A} (what : string) (r : res A) : res A :=
  match r with Ok a => Ok a | Err e => Err (dberr what e) end.

Lemma run_eq {A} what (f : DB -> res A * DB) (w : W) :
  run what f w =
  match or_fault (w_env w) (w_tick w) with
  | Some e => (Err (dberr what e), tick w)
  | None => (wrap_db what (f (w_db w)).1, tick w <| w_db := (f (w_db w)).2 |>)
  end.
Proof.
  unfold run, bind, stmt. destruct (or_fault _ _); [done |].
  destruct (f (w_db w)) as [[a|e] db']; done.
Qed.

(** A read does not change the tables. *)
Lemma run_read_db {A} what (g : DB -> res A) (w : W) : w_db (run what (fun db => (g db, db)) w).2 = w_db w.
Proof. rewrite run_eq. by destruct (or_fault _ _). Qed.

Lemma selectOne_db what e f (w : W) : w_db (selectOne what e f w).2 = w_db w.
Proof.
  unfold selectOne, bind_ok. rewrite run_eq. destruct (or_fault _ _); simpl; [done |]. by destruct (f _).
Qed.
Lemma selectMany_db what f (w : W) : w_db (selectMany what f w).2 = w_db w.
Proof. unfold selectMany, bind_ok. rewrite run_eq. by destruct (or_fault _ _). Qed.

(** What a successful look-up returns was in the table. *)
Lemma selectOne_Ok what e f (w w' : W) v :
  selectOne what e f w = (Ok v, w') -> exists r, f (w_db w) = Some r /\ mapVMRow r = Ok v.
Proof.
  unfold selectOne, bind_ok. rewrite run_eq. destruct (or_fault _ _); simpl; [done |].
  destruct (f _); [|done]. intros [= ? _]. eauto.
Qed.

Lemma mapVMRow_Ok r v : mapVMRow r = Ok v ->
  vm_ID v = r_id r /\ vm_Status v = r_status r /\ vm_ChatID v = r_chat_id r /\ vm_IPAddress v = r_ip_address r /\
  vm_Name v = r_name r /\ vm_GuestCID v = r_guest_cid r /\ vm_RuntimeID v = r_runtime_id r.
Proof. unfold mapVMRow. repeat case_match; intros; simplify_eq; done. Qed.

End RunLemmas.

Definition sample_env : Env :=
  {| or_now := fun n => 1000 * minute + Z.of_nat n;
     or_uuid := fun n => "uuid-" +:+ fmt_d (Z.of_nat n);
     or_draws := fun _ => [(3, 5)]%nat;
     or_fault := fun _ => None;
     or_awake := fun _ => true |}.

Definition sample_environment : Environment :=
  {| env_ID := "env-1"; env_Type := "alpine"; env_ImagePath := "/images/alpine.ext4";
     env_ResourceLimits := {| rl_VCPU := 1; rl_MemoryMB := 256; rl_DiskMB := 1024 |};
     env_Description := "Alpine"; env_Metadata := None; env_DiffSnapshots := true;
     env_CreatedAt := 1; env_UpdatedAt := 1 |}.

Definition sample_vm_a : VM :=
  (New "vm-a" "bold-curie" 10
    {| cp_EnvironmentID := "env-1"; cp_ConversationID := "chat-1"; cp_Provider := ""; cp_WorkspaceSizeGB := 0;
       cp_Name := None; cp_VCPU := None; cp_MemoryMB := None; cp_DiskMB := None; cp_ServicePort := None |})
  <| vm_Status := StatusRunning |> <| vm_ChatID := Some "chat-1" |> <| vm_AssignedAt := Some 20 |>
  <| vm_IPAddress := Some "10.200.0.2" |> <| vm_IdleDeadlineAt := Some 30 |>
  <| vm_DiffSnapshotsEnabled := true |>.

Definition sample_vm_b : VM :=
  (New "vm-b" "happy-hopper" 11
    {| cp_EnvironmentID := "env-1"; cp_ConversationID := "chat-2"; cp_Provider := ""; cp_WorkspaceSizeGB := 4;
       cp_Name := None; cp_VCPU := Some 2; cp_MemoryMB := None; cp_DiskMB := None; cp_ServicePort := Some 8080 |})
  <| vm_Status := StatusReady |>.

Definition sample_lease : Lease :=
  {| le_ID := "lease-1"; le_ChatID := "chat-1"; le_VMID := "vm-a"; le_LeasedAt := 20; le_ReleasedAt := None |}.

Definition sample_db : DB :=
  {| db_vms := <["vm-a" := rowOf sample_vm_a]> (<["vm-b" := rowOf sample_vm_b]> ∅);
     db_leases := [sample_lease];
     db_snapshots := ∅;
     db_envs := {["env-1" := sample_environment]};
     db_chats := <["chat-1" := "user-1"]> (<["chat-2" := "user-1"]> (<["chat-3" := "user-2"]> ∅));
     db_snap_metrics := [] |}.

Definition sample_world : World unit unit :=
  {| w_env := sample_env; w_tick := 0; w_db := sample_db; w_be := tt; w_store := tt; w_events := []; w_jobs := [] |}.

Lemma sample_rows i r : db_vms sample_db !! i = Some r ->
  (i = "vm-a" /\ r = rowOf sample_vm_a) \/ (i = "vm-b" /\ r = rowOf sample_vm_b).
Proof.
  unfold sample_db. cbn [db_vms]. intros H.
  apply lookup_insert_Some in H as [[<- <-]|[_ H]]; [by left |].
  apply lookup_insert_Some in H as [[<- <-]|[_ H]]; [by right |]. done.
Qed.

Lemma sample_keys i r : db_vms sample_db !! i = Some r -> r_id r = i.
Proof. intros [[-> ->]|[-> ->]]%sample_rows; done. Qed.
