(* ===== verification/IPAlloc.v ===== *)
(** * IP allocation: IPAllocator of src/service/vm/service.go

    Addresses are the 16-byte values of net.IP. The scan from [ipStart] to
    [ipEnd] is bounded by their distance, which is shown to be enough. *)

From S2P Require Import Prelude Exception Naming Domain World PgRepo.

(** ** net.IP *)

Definition IP := list Z.
Definition wf_ip (ip : IP) : bool := bool_decide (length ip = 16%nat) && forallb (fun b => bool_decide (0 <= b < 256)) ip.

(** The address as a number, most significant byte first. *)
Definition ip_value (ip : IP) : Z := fold_left (fun acc b => 256 * acc + b) ip 0.

Definition is_v4_mapped (ip : IP) : bool :=
  bool_decide (length ip = 16%nat /\ take 10 ip = replicate 10 0 /\ take 2 (drop 10 ip) = [255; 255]).
Definition dotted (l : list Z) : string := join "." (fmt_d <$> l).

(** IPv6 text: 16-bit groups in hexadecimal, the leftmost longest run of at
    least two zero groups written "::". *)
Fixpoint groups (ip : list Z) : list Z :=
  match ip with
  | a :: b :: ip' => (256 * a + b) :: groups ip'
  | _ => []
  end.
Fixpoint hex_fuel (n : nat) (z : Z) (acc : string) : string :=
  match n with
  | O => acc
  | S n' => let acc' := String (hex_digit (z mod 16)) acc in
            if bool_decide (z / 16 = 0) then acc' else hex_fuel n' (z / 16) acc'
  end.
Definition hex (z : Z) : string := hex_fuel 4 z "".
Fixpoint zero_run (l : list Z) : nat :=
  match l with 0 :: l' => S (zero_run l') | _ => O end.
Fixpoint best_run (i : nat) (l : list Z) (best : nat * nat) : nat * nat :=
  match l with
  | [] => best
  | _ :: l' => let n := zero_run l in
               best_run (S i) l' (if bool_decide (snd best < n)%nat then (i, n) else best)
  end.
Definition ipv6_text (ip : IP) : string :=
  let g := groups ip in
  let '(i, n) := best_run 0 g (0, 1)%nat in
  if bool_decide (n < 2)%nat then join ":" (hex <$> g)
  else join ":" (hex <$> take i g) +:+ "::" +:+ join ":" (hex <$> drop (i + n) g).

(** [ip.String()] *)
Definition ip_string (ip : IP) : string := if is_v4_mapped ip then dotted (drop 12 ip) else ipv6_text ip.

(** [nextIP]: add one from the last byte, carrying while a byte wraps to 0. *)
Fixpoint carry (rev_ip : list Z) : list Z :=
  match rev_ip with
  | [] => []
  | b :: l => let b' := (b + 1) mod 256 in if bool_decide (b' = 0) then b' :: carry l else b' :: l
  end.
Definition nextIP (ip : IP) : IP := rev (carry (rev ip)).

(** ** The allocator *)

Record IPAllocator := { ipStart : IP; ipEnd : IP }.

(** Steps of [nextIP] from start to end, around the 128-bit space. *)
Definition ip_distance (a b : IP) : nat := Z.to_nat ((ip_value b - ip_value a) mod 256 ^ 16).

(** [for ip := a.ipStart; !ip.Equal(a.ipEnd); ip = nextIP(ip)], then the last
    address: the first address that is not in use. *)
Fixpoint scan (fuel : nat) (inUse : string -> bool) (ip e : IP) : option IP :=
  if bool_decide (ip = e) then (if inUse (ip_string e) then None else Some e)
  else if inUse (ip_string ip)
       then match fuel with O => None | S f => scan f inUse (nextIP ip) e end
       else Some ip.

Definition no_ips (a : IPAllocator) : error :=
  EText ("no available IPs in range " +:+ ip_string (ipStart a) +:+ "-" +:+ ip_string (ipEnd a)).

Section Allocate.
Context {B S : Type}.
Abbreviation W := (World B S).
Local Open Scope go_scope.

Definition Allocate (a : IPAllocator) (vmID : string) : M W (res string) :=
  let* r := GetAllocatedIPs in
  match r with
  | Err e => ret (Err (wrapf "get allocated ips: " e))
  | Ok allocated =>
      match scan (ip_distance (ipStart a) (ipEnd a)) (fun s => bool_decide (s ∈ allocated)) (ipStart a) (ipEnd a) with
      | None => ret (Err (no_ips a))
      | Some ip =>
          let* r := SetIPAddress vmID (ip_string ip) in
          match r with
          | Err e => ret (Err (wrapf "set ip address: " e))
          | Ok _ => ret (Ok (ip_string ip))
          end
      end
  end.

Definition Release (vmID : string) : M W (res unit) := ReleaseIPAddress vmID.

End Allocate.

(** ** nextIP counts *)

Fixpoint value_rev (l : list Z) : Z := match l with [] => 0 | b :: l' => b + 256 * value_rev l' end.

Lemma ip_value_rev ip : ip_value ip = value_rev (rev ip).
Proof.
  unfold ip_value. rewrite <- fold_left_rev_right. induction (rev ip) as [|b l IH]; simpl; [done |].
  rewrite IH. lia.
Qed.

Lemma value_rev_range l : Forall (fun b => 0 <= b < 256) l -> 0 <= value_rev l < 256 ^ Z.of_nat (length l).
Proof.
  induction 1 as [|b l Hb _ IH]; [simpl; lia |].
  cbn [value_rev length]. rewrite Nat2Z.inj_succ, Z.pow_succ_r by lia. lia.
Qed.

Lemma carry_spec l :
  Forall (fun b => 0 <= b < 256) l ->
  Forall (fun b => 0 <= b < 256) (carry l) /\ length (carry l) = length l /\
  value_rev (carry l) = (value_rev l + 1) mod 256 ^ Z.of_nat (length l).
Proof.
  induction 1 as [|b l Hb Hl (F & L & V)]; [done |].
  cbn [carry length]. rewrite Nat2Z.inj_succ, Z.pow_succ_r by lia.
  pose proof (value_rev_range _ Hl) as R. case_bool_decide as E.
  - assert (b = 255) as -> by (destruct (decide (b = 255)); [done |]; rewrite Z.mod_small in E; lia).
    cbn [value_rev length]. repeat split; [constructor; [lia | done] | by rewrite L |].
    rewrite V. change ((255 + 1) mod 256) with 0.
    replace (255 + 256 * value_rev l + 1) with (256 * (value_rev l + 1)) by lia.
    rewrite Z.mul_mod_distr_l by lia. lia.
  - assert (b <> 255) by (intros ->; done). rewrite (Z.mod_small (b + 1)) in * by lia.
    cbn [value_rev length]. repeat split; [constructor; [lia | done] |].
    rewrite Z.mod_small by lia. lia.
Qed.

Lemma wf_ip_spec ip : wf_ip ip = true <-> length ip = 16%nat /\ Forall (fun b => 0 <= b < 256) ip.
Proof.
  unfold wf_ip. rewrite andb_true_iff, bool_decide_eq_true, forallb_forall, Forall_forall.
  split; intros [? H]; (split; [done |]); intros x Hx.
  - specialize (H x). rewrite bool_decide_eq_true in H. apply H. by apply list_elem_of_In.
  - apply bool_decide_eq_true. apply H. by apply list_elem_of_In.
Qed.

Lemma nextIP_value ip :
  wf_ip ip = true -> wf_ip (nextIP ip) = true /\ ip_value (nextIP ip) = (ip_value ip + 1) mod 256 ^ 16.
Proof.
  rewrite !wf_ip_spec. intros [Hl Hb]. apply Forall_rev in Hb.
  destruct (carry_spec _ Hb) as (F & L & V). unfold nextIP. split.
  - split; [by rewrite length_rev, L, length_rev | by apply Forall_rev].
  - rewrite !ip_value_rev, rev_involutive, V, length_rev, Hl. done.
Qed.

Lemma value_rev_inj l l' :
  Forall (fun b => 0 <= b < 256) l -> Forall (fun b => 0 <= b < 256) l' -> length l = length l' ->
  value_rev l = value_rev l' -> l = l'.
Proof.
  intros H. revert l'. induction H as [|b l Hb _ IH]; intros [|b' l'] H' Hlen E; simpl in *; try lia; [done |].
  inversion H'; subst. assert (b = b') as -> by lia. f_equal. apply IH; [done | lia | lia].
Qed.

Lemma ip_value_inj a b : wf_ip a = true -> wf_ip b = true -> ip_value a = ip_value b -> a = b.
Proof.
  rewrite !wf_ip_spec, !ip_value_rev. intros [La Ha] [Lb Hb] E.
  rewrite <- (rev_involutive a), <- (rev_involutive b). f_equal.
  apply value_rev_inj; [by apply Forall_rev.. | by rewrite !length_rev, La, Lb | done].
Qed.

Lemma ip_value_range ip : wf_ip ip = true -> 0 <= ip_value ip < 256 ^ 16.
Proof.
  rewrite wf_ip_spec, ip_value_rev. intros [L H]. apply Forall_rev in H.
  pose proof (value_rev_range _ H) as R. rewrite length_rev, L in R. exact R.
Qed.

(** ** The scan finds the first free address *)

(** The [k]-th address from [s]. *)
Definition nth_ip (k : nat) (s : IP) : IP := Nat.iter k nextIP s.

Lemma nth_ip_S k s : nth_ip (S k) s = nth_ip k (nextIP s).
Proof. unfold nth_ip. symmetry. apply Nat.iter_swap. Qed.

Lemma nth_ip_value k s : wf_ip s = true ->
  wf_ip (nth_ip k s) = true /\ ip_value (nth_ip k s) = (ip_value s + Z.of_nat k) mod 256 ^ 16.
Proof.
  intros Hs. induction k as [|k [Hw IH]].
  - split; [done |]. simpl. rewrite Z.add_0_r, Z.mod_small; [done | by apply ip_value_range].
  - change (nth_ip (S k) s) with (nextIP (nth_ip k s)). destruct (nextIP_value _ Hw) as [Hw' V].
    split; [done |]. rewrite V, IH, Zplus_mod_idemp_l. f_equal. lia.
Qed.

Lemma ip_distance_step s e : wf_ip s = true -> wf_ip e = true -> s <> e ->
  ip_distance s e = S (ip_distance (nextIP s) e).
Proof.
  intros Hs He Hne. destruct (nextIP_value _ Hs) as [Hn V]. unfold ip_distance. rewrite V.
  pose proof (ip_value_range _ Hs). pose proof (ip_value_range _ He).
  assert (ip_value s <> ip_value e) by (intros ?; by apply Hne, ip_value_inj).
  rewrite Zminus_mod_idemp_r.
  set (d := (ip_value e - ip_value s) mod 256 ^ 16).
  assert (0 < d < 256 ^ 16).
  { pose proof (Z.mod_pos_bound (ip_value e - ip_value s) (256 ^ 16) ltac:(lia)).
    assert (d <> 0); [|unfold d in *; lia]. unfold d. intros E.
    apply Z.mod_divide in E as [q E]; [|lia]. assert (q = 0) by nia. lia. }
  replace ((ip_value e - (ip_value s + 1)) mod 256 ^ 16) with (d - 1); [lia |].
  replace (ip_value e - (ip_value s + 1)) with ((ip_value e - ip_value s) - 1) by lia.
  rewrite <- Zminus_mod_idemp_l. fold d. rewrite Z.mod_small; lia.
Qed.

Lemma ip_distance_refl e : ip_distance e e = O.
Proof. unfold ip_distance. rewrite Z.sub_diag, Zmod_0_l. done. Qed.

Lemma scan_first inUse e fuel : forall s,
  wf_ip s = true -> wf_ip e = true -> fuel = ip_distance s e ->
  match scan fuel inUse s e with
  | Some ip => exists k, (k <= fuel)%nat /\ ip = nth_ip k s /\ inUse (ip_string ip) = false /\
                 forall j, (j < k)%nat -> inUse (ip_string (nth_ip j s)) = true
  | None => forall k, (k <= fuel)%nat -> inUse (ip_string (nth_ip k s)) = true
  end.
Proof.
  induction fuel as [|f IH]; intros s Hs He Hf; simpl; case_bool_decide as E; subst.
  - destruct (inUse (ip_string e)) eqn:U; [intros [|k] Hk; [done | lia] |].
    exists O. repeat split; [lia | done | lia].
  - rewrite (ip_distance_step _ _ Hs He E) in Hf. lia.
  - rewrite ip_distance_refl in Hf. lia.
  - rewrite (ip_distance_step _ _ Hs He E) in Hf. injection Hf as Hf.
    destruct (nextIP_value _ Hs) as [Hn _]. specialize (IH _ Hn He Hf).
    destruct (inUse (ip_string s)) eqn:U.
    + destruct (scan f inUse (nextIP s) e).
      * destruct IH as (k & Hk & -> & HU & Hall). exists (S k).
        rewrite nth_ip_S. repeat split; [lia | done |]. intros [|j] Hj; [done |]. rewrite nth_ip_S.
        apply Hall. lia.
      * intros [|k] Hk; [done |]. rewrite nth_ip_S. apply IH. lia.
    + exists O. repeat split; [lia | done | lia].
Qed.

(** ** Allocation and the uniqueness of addresses *)

Definition allocated (db : DB) : list string := omap (allocated_ip (fun _ => false)) (rows db).

(** No two live VMs hold the same address. *)
Definition ips_unique (db : DB) : Prop :=
  forall i j r r' ip, db_vms db !! i = Some r -> db_vms db !! j = Some r' ->
    live_row r = true -> live_row r' = true ->
    r_ip_address r = Some ip -> r_ip_address r' = Some ip -> i = j.

Lemma allocated_spec db ip :
  ip ∈ allocated db <-> exists i r, db_vms db !! i = Some r /\ live_row r = true /\ r_ip_address r = Some ip.
Proof.
  unfold allocated, rows, allocated_ip. rewrite list_elem_of_omap. split.
  - intros (r & Hr & Hip). apply list_elem_of_fmap in Hr as ([i r'] & -> & Hin).
    apply elem_of_map_to_list in Hin. simpl in *. destruct (live_row r') eqn:L; [|done]. eauto.
  - intros (i & r & Hr & L & Hip). exists r. split; [|by rewrite L].
    apply list_elem_of_fmap. exists (i, r). split; [done |]. by apply elem_of_map_to_list.
Qed.

(** Giving one VM an address nobody holds keeps the addresses unique. *)
Lemma put_ip_unique db i r ip :
  db_vms db !! i = Some r -> r_id r = i -> ip ∉ allocated db -> ips_unique db ->
  ips_unique (put_row (r <| r_ip_address := Some ip |>) db).
Proof.
  intros Hr Hid Hfree Hu a b ra rb x Ha Hb La Lb Xa Xb.
  assert (Hfresh : forall k rk, db_vms db !! k = Some rk -> live_row rk = true -> r_ip_address rk <> Some ip).
  { intros k rk Hk Lk E. apply Hfree, allocated_spec. eauto. }
  assert (E : db_vms (put_row (r <| r_ip_address := Some ip |>) db) =
              <[i := r <| r_ip_address := Some ip |>]> (db_vms db)) by (rewrite <- Hid; done).
  rewrite E in Ha, Hb. clear E.
  destruct (decide (i = a)) as [<-|Na], (decide (i = b)) as [<-|Nb]; [done | | |];
    rewrite ?lookup_insert_eq, ?lookup_insert_ne in * by done; simplify_eq.
  - cbn in Xa. simplify_eq. by destruct (Hfresh _ _ Hb Lb).
  - cbn in Xb. simplify_eq. by destruct (Hfresh _ _ Ha La).
  - by eapply Hu.
Qed.

Section AllocateLemmas.
Context {B S : Type}.
Abbreviation W := (World B S).

(** The two ways an allocation can end. *)
Definition alloc_ok (a : IPAllocator) (vmID : string) (db db' : DB) (ip : string) : Prop :=
  exists k r, (k <= ip_distance (ipStart a) (ipEnd a))%nat /\
    ip = ip_string (nth_ip k (ipStart a)) /\ (ip ∉ allocated db) /\
    (forall j, (j < k)%nat -> ip_string (nth_ip j (ipStart a)) ∈ allocated db) /\
    db_vms db !! vmID = Some r /\ db' = put_row (r <| r_ip_address := Some ip |>) db.

Definition range_full (a : IPAllocator) (db : DB) : Prop :=
  forall k, (k <= ip_distance (ipStart a) (ipEnd a))%nat -> ip_string (nth_ip k (ipStart a)) ∈ allocated db.

Lemma Allocate_cases a vmID (w : W) :
  wf_ip (ipStart a) = true -> wf_ip (ipEnd a) = true ->
  match Allocate a vmID w with
  | (Ok ip, w') => alloc_ok a vmID (w_db w) (w_db w') ip
  | (Err e, w') => w_db w' = w_db w /\ (e = no_ips a -> range_full a (w_db w))
  end.
Proof.
  intros Hs He. unfold Allocate, bind, GetAllocatedIPs. rewrite run_eq.
  destruct (or_fault (w_env w) (w_tick w)); [done |]. simpl.
  pose proof (scan_first (fun s => bool_decide (s ∈ allocated (w_db w))) _ _ _ Hs He eq_refl) as Hscan.
  unfold allocated in Hscan. destruct (scan _ _ _ _) as [ip|].
  - destruct Hscan as (k & Hk & -> & Hfree%bool_decide_eq_false_1 & Hall).
    unfold SetIPAddress, bind_ok. rewrite run_eq. cbn. destruct (or_fault _ _); cbn; [done |].
    destruct (db_vms (w_db w) !! vmID) as [r|] eqn:Hr; cbn; [|done].
    exists k, r. repeat split; try done. intros j Hj. exact (bool_decide_eq_true_1 _ (Hall j Hj)).
  - simpl. split; [done |]. intros _ k Hk. exact (bool_decide_eq_true_1 _ (Hscan k Hk)).
Qed.

End AllocateLemmas.

(** the allocator hands out the first address of the inclusive range
    [ipStart, ipEnd] that no live VM holds, records it on the VM's row and
    touches nothing else; on any error the tables are unchanged, and the "no
    available IPs" error means every address of the range is held. Uniqueness
    of the addresses of live VMs is preserved. *)
Theorem Allocate_first_free {B S : Type} (a : IPAllocator) (vmID : string) (w : World B S) :
  wf_ip (ipStart a) = true -> wf_ip (ipEnd a) = true ->
  (forall k r, db_vms (w_db w) !! k = Some r -> r_id r = k) -> ips_unique (w_db w) ->
  match Allocate a vmID w with
  | (Ok ip, w') => alloc_ok a vmID (w_db w) (w_db w') ip /\ ips_unique (w_db w')
  | (Err e, w') => w_db w' = w_db w /\ (e = no_ips a -> range_full a (w_db w))
  end.
Proof.
  intros Hs He Hk Hu. pose proof (Allocate_cases a vmID w Hs He) as H.
  destruct (Allocate a vmID w) as [[ip|e] w']; [|done]. split; [done |].
  destruct H as (k & r & _ & _ & Hfree & _ & Hr & ->). eapply put_ip_unique; eauto.
Qed.

Definition sample_range : IPAllocator :=
  {| ipStart := replicate 10 0 ++ [255; 255; 10; 200; 0; 2]; ipEnd := replicate 10 0 ++ [255; 255; 10; 200; 0; 4] |}.

Example Allocate_first_free_witness :
  fst (Allocate sample_range "vm-b" sample_world) = Ok "10.200.0.3" /\
  match Allocate sample_range "vm-b" sample_world with
  | (Ok ip, w') => alloc_ok sample_range "vm-b" (w_db sample_world) (w_db w') ip /\ ips_unique (w_db w')
  | (Err e, w') => w_db w' = w_db sample_world /\ (e = no_ips sample_range -> range_full sample_range (w_db sample_world))
  end.
Proof.
  split; [vm_compute; reflexivity |].
  apply (Allocate_first_free sample_range "vm-b" sample_world); [vm_compute; reflexivity.. | |].
  - exact sample_keys.
  - intros i j r r' ip Hi Hj _ _ Xi Xj. apply sample_rows in Hi, Hj.
    destruct Hi as [[-> ->]|[-> ->]], Hj as [[-> ->]|[-> ->]]; try done.
Defined.
