(* ===== verification/Interfaces.v ===== *)
(** * Interfaces of the VM service

    What the service asks of the VM backend (vm.Backend, provider.go) and of the
    storage around it (ports.SnapshotStore and the calls of package os, os/exec
    and the zstd helpers on the host). Both are classes over an abstract state:
    the service's theorems hold for every implementation. *)

From S2P Require Import Prelude Exception Naming Domain World PgRepo IPAlloc.

(** ** vm.Backend *)

Record WorkspaceConfig := { wc_ConversationID : string; wc_SizeGB : Z }.
Record CreateSpec := {
  cs_InstanceID : string;
  cs_EnvironmentID : string;
  cs_ImagePath : string;
  cs_Resources : ResourceLimits;
  cs_Workspace : WorkspaceConfig;
  cs_Runtime : RuntimeConfig;
  cs_RestoreAsFull : bool;
  cs_CowChainPaths : list string;
  cs_DiskImagePath : string
}.
Record SnapshotResult := {
  sr_SnapshotDir : string; sr_MemoryBytes : Z; sr_CowBytes : Z; sr_DiskBytes : Z; sr_PauseDurationMs : Z }.
Record RuntimeStatus := {
  rs_State : string; rs_PID : Z; rs_VsockPath : string; rs_GuestCID : Z }.

(** Result of Execute: stdout, stderr, exit code and the error. *)
Record ExecResult := { ex_stdout : string; ex_stderr : string; ex_code : Z; ex_err : option error }.

Class Backend (B : Type) := {
  be_Create : CreateSpec -> B -> res string * B;
  be_StopPreserving : string -> B -> res unit * B;
  be_Destroy : string -> B -> res unit * B;
  be_Status : string -> B -> res RuntimeStatus * B;
  be_Execute : string -> list string -> B -> ExecResult * B;
  be_CreateSnapshot : string -> bool -> B -> res SnapshotResult * B;
  be_RestoreFromSnapshot : CreateSpec -> string -> B -> res string * B;
  be_ReadFile : string -> string -> Z -> Z -> B -> res string * B;
  be_WriteFile : string -> string -> string -> Z -> B -> res unit * B;
  be_EditFile : string -> string -> string -> string -> bool -> B -> res unit * B
}.

(** ** Object storage and the host *)

Record SnapshotFile := { sf_Key : string; sf_LocalPath : string }.
Record SparseRegion := { sp_Offset : Z; sp_Length : Z }.

Class Storage (S : Type) := {
  (* ports.SnapshotStore *)
  st_ObjectExists : string -> S -> res bool * S;
  st_UploadFiles : list SnapshotFile -> S -> res Z * S;
  st_DownloadFiles : list SnapshotFile -> S -> res unit * S;
  st_DeletePrefix : string -> S -> res unit * S;
  (* package os; Stat returns the size *)
  st_Stat : string -> S -> res Z * S;
  st_not_exist : error -> bool;
  st_MkdirAll : string -> S -> res unit * S;
  st_MkdirTemp : string -> S -> res string * S;
  st_WriteFile : string -> string -> S -> res unit * S;
  st_Remove : string -> S -> res unit * S;
  st_RemoveAll : string -> S -> res unit * S;
  st_Rename : string -> string -> S -> res unit * S;
  (* os/exec: the combined output, and the error *)
  st_Command : list string -> S -> (string * option error) * S;
  (* the file helpers of the firecracker package *)
  st_ExtractSparseRegions : string -> S -> res (list SparseRegion) * S;
  st_WriteManifest : string -> list SparseRegion -> S -> res unit * S;
  st_ReadManifest : string -> S -> res (list SparseRegion) * S;
  st_MergeDiffMemory : string -> string -> string -> list SparseRegion -> S -> res unit * S;
  st_CompressFileZstd : string -> string -> S -> res Z * S;
  st_DecompressFileZstd : string -> string -> S -> res unit * S
}.

(** ** The service's configuration (Service and NewService of service.go) *)

Record SnapshotDiskConfig := {
  dc_DiskMode : string; dc_MaxChainLength : Z; dc_MaxChainAgeMinutes : Z }.

(** The optional collaborators are present or nil. *)
Record Service := {
  svc_snapRepo : bool;
  svc_snapshotStore : bool;
  svc_hook : bool;
  svc_ipAllocator : option IPAllocator;
  svc_bridge : string;
  svc_idleTimeout : Z;
  svc_autoSnapshot : bool;
  svc_resumeGrace : Z;
  svc_snapDiskCfg : SnapshotDiskConfig
}.

Definition NewService (snapRepo store : bool) (idleTimeout : Z) (autoSnapshot : bool) (resumeGrace : Z)
  (bridge : string) (ipAllocator : option IPAllocator) (cfg : SnapshotDiskConfig) : Service :=
  {| svc_snapRepo := snapRepo;
     svc_snapshotStore := store;
     svc_hook := false;
     svc_ipAllocator := ipAllocator;
     svc_bridge := bridge;
     svc_idleTimeout := if bool_decide (idleTimeout <= 0) then 5 * minute else idleTimeout;
     svc_autoSnapshot := autoSnapshot;
     svc_resumeGrace := if bool_decide (resumeGrace <= 0) then 2 * minute else resumeGrace;
     svc_snapDiskCfg :=
       {| dc_DiskMode := if bool_decide (dc_DiskMode cfg = "") then "self_contained" else dc_DiskMode cfg;
          dc_MaxChainLength := if bool_decide (dc_MaxChainLength cfg <= 0) then 5 else dc_MaxChainLength cfg;
          dc_MaxChainAgeMinutes :=
            if bool_decide (dc_MaxChainAgeMinutes cfg <= 0) then 120 else dc_MaxChainAgeMinutes cfg |} |}.

Definition SetLifecycleHook (h : bool) (s : Service) : Service := s <| svc_hook := h |>.
