(* ===== verification/Hoare.v ===== *)
(** * Reasoning about the services' programs

    Two judgements on programs of the state monad. [keeps R m]: every run of [m]
    relates the worlds before and after by the preorder [R]. [triple P m Q]: from
    a world satisfying [P], [m] ends with a value and a world related by [Q].
    Programs are compositions of primitives, so the rules below reduce a service
    operation to the statements it runs; [go_keeps] applies them. *)

From S2P Require Import Prelude Exception Naming Domain World PgRepo.

Section Judgements.
Context {W : Type}.

Definition keeps (R : W -> W -> Prop) {A} (m : M W A) : Prop := forall w, R w (m w).2.

Definition triple (P : W -> Prop) {A} (m : M W A) (Q : A -> W -> Prop) : Prop :=
  forall w, P w -> Q (m w).1 (m w).2.

Section Keeps.
Context (R : W -> W -> Prop) `{!PreOrder R}.

Lemma keeps_ret {A} (a : A) : keeps R (ret a).
Proof. intros w. simpl. reflexivity. Qed.

Lemma keeps_bind {A B} (m : M W A) (k : A -> M W B) :
  keeps R m -> (forall a, keeps R (k a)) -> keeps R (bind m k).
Proof.
  intros Hm Hk w. unfold bind. specialize (Hm w). destruct (m w) as [a w'].
  etrans; [exact Hm | apply Hk].
Qed.

Lemma keeps_bind_ok {E A B} (m : M W (result E A)) (k : A -> M W (result E B)) :
  keeps R m -> (forall a, keeps R (k a)) -> keeps R (bind_ok m k).
Proof.
  intros Hm Hk w. unfold bind_ok. specialize (Hm w). destruct (m w) as [[a|e] w']; [|exact Hm].
  etrans; [exact Hm | apply Hk].
Qed.

Lemma keeps_for_each {A} (l : list A) (body : A -> M W unit) :
  (forall x, x ∈ l -> keeps R (body x)) -> keeps R (for_each l body).
Proof.
  induction l as [|x l IH]; intros H; simpl; [apply keeps_ret |].
  apply keeps_bind; [apply H; set_solver |]. intros _. apply IH. set_solver.
Qed.
End Keeps.

(** ** Triples *)

Lemma triple_ret {A} (P : W -> Prop) (a : A) : triple P (ret a) (fun x w => x = a /\ P w).
Proof. done. Qed.

Lemma triple_bind {A B} P (m : M W A) (k : A -> M W B) Q R :
  triple P m Q -> (forall a, triple (Q a) (k a) R) -> triple P (bind m k) R.
Proof.
  intros Hm Hk w HP. unfold bind. specialize (Hm w HP). destruct (m w) as [a w']. by apply Hk.
Qed.

Lemma triple_bind_ok {E A B} P (m : M W (result E A)) (k : A -> M W (result E B)) Q R :
  triple P m Q ->
  (forall a, triple (Q (Ok a)) (k a) R) ->
  (forall e w, Q (Err e) w -> R (Err e) w) ->
  triple P (bind_ok m k) R.
Proof.
  intros Hm Hk He w HP. unfold bind_ok. specialize (Hm w HP). destruct (m w) as [[a|e] w'];
    [by apply Hk | by apply He].
Qed.

Lemma triple_weaken {A} (P P' : W -> Prop) (m : M W A) (Q Q' : A -> W -> Prop) :
  triple P' m Q' -> (forall w, P w -> P' w) -> (forall a w, Q' a w -> Q a w) -> triple P m Q.
Proof. intros H HP HQ w Hw. apply HQ, H, HP, Hw. Qed.

(** A fact about values in a precondition is a hypothesis. *)
Lemma triple_pure_r {A} (P : W -> Prop) (F : Prop) (m : M W A) Q :
  (F -> triple P m Q) -> triple (fun w => P w /\ F) m Q.
Proof. intros H w [HP HF]. by apply H. Qed.

Lemma triple_for_each {A} (I : W -> Prop) (l : list A) (body : A -> M W unit) :
  (forall x, x ∈ l -> triple I (body x) (fun _ => I)) -> triple I (for_each l body) (fun _ => I).
Proof.
  induction l as [|x l IH]; intros H; simpl; [by intros w Hw |].
  eapply triple_bind; [apply H; set_solver | intros a; apply IH; set_solver].
Qed.

(** An invariant is kept when the implication between its instances is. *)
Lemma keeps_triple {A} (I : W -> Prop) (m : M W A) :
  keeps (fun w w' => I w -> I w') m <-> triple I m (fun _ => I).
Proof. done. Qed.

Lemma keeps_weaken {A} (R R' : W -> W -> Prop) (m : M W A) :
  (forall w w', R w w' -> R' w w') -> keeps R m -> keeps R' m.
Proof. intros H Hm w. by apply H. Qed.
End Judgements.

#[export] Instance impl_preorder {W} (I : W -> Prop) : PreOrder (fun w w' => I w -> I w').
Proof. split; [by intros w | by intros x y z H1 H2 H; apply H2, H1]. Qed.

Create HintDb keeps.

(** Reduces [keeps R m] to the operations that are not composed by the monad. *)
Ltac go_keeps_step :=
  match goal with
  | |- keeps _ (ret _) => apply keeps_ret; apply _
  | |- keeps _ (bind _ _) => apply keeps_bind; [apply _ | | intros ?]
  | |- keeps _ (bind_ok _ _) => apply keeps_bind_ok; [apply _ | | intros ?]
  | |- keeps _ (for_each _ _) => apply keeps_for_each; [apply _ | intros ? ?]
  | |- keeps _ (match ?x with _ => _ end) => destruct x eqn:?
  | |- keeps _ (let '(_, _) := ?x in _) => destruct x eqn:?
  end.
Ltac go_keeps := repeat first [ solve [eauto 3 with keeps] | go_keeps_step ].

(** ** What an operation leaves alone *)

Section Frames.
Context {B S : Type}.
Abbreviation W := (World B S).

Definition same_db (w w' : W) : Prop := w_db w' = w_db w.
Definition same_be (w w' : W) : Prop := w_be w' = w_be w.
Definition same_events (w w' : W) : Prop := w_events w' = w_events w.
Definition same_env (w w' : W) : Prop := w_env w' = w_env w.

#[export] Instance same_db_pre : PreOrder same_db.
Proof. split; [done | intros x y z ? ?; congruence]. Qed.
#[export] Instance same_be_pre : PreOrder same_be.
Proof. split; [done | intros x y z ? ?; congruence]. Qed.
#[export] Instance same_events_pre : PreOrder same_events.
Proof. split; [done | intros x y z ? ?; congruence]. Qed.
#[export] Instance same_env_pre : PreOrder same_env.
Proof. split; [done | intros x y z ? ?; congruence]. Qed.

Lemma keeps_db_consult {A} (f : Env -> nat -> A) : keeps same_db (consult f : M W A).
Proof. done. Qed.
Lemma keeps_db_backend {A} (f : B -> A * B) : keeps same_db (on_backend f : M W A).
Proof. intros w. unfold on_backend, same_db. by destruct (f _). Qed.
Lemma keeps_db_store {A} (f : S -> A * S) : keeps same_db (on_store f : M W A).
Proof. intros w. unfold on_store, same_db. by destruct (f _). Qed.
Lemma keeps_db_emit e : keeps same_db (emit e : M W unit).
Proof. done. Qed.
Lemma keeps_db_spawn j : keeps same_db (spawn j : M W unit).
Proof. done. Qed.
Lemma keeps_db_read {A} what (g : DB -> res A) : keeps same_db (run what (fun db => (g db, db)) : M W _).
Proof. intros w. apply run_read_db. Qed.

Lemma keeps_be_consult {A} (f : Env -> nat -> A) : keeps same_be (consult f : M W A).
Proof. done. Qed.
Lemma keeps_be_run {A} what (f : DB -> res A * DB) : keeps same_be (run what f : M W _).
Proof. intros w. rewrite run_eq. by destruct (or_fault _ _). Qed.
Lemma keeps_be_store {A} (f : S -> A * S) : keeps same_be (on_store f : M W A).
Proof. intros w. unfold on_store, same_be. by destruct (f _). Qed.
Lemma keeps_be_emit e : keeps same_be (emit e : M W unit).
Proof. done. Qed.
Lemma keeps_be_spawn j : keeps same_be (spawn j : M W unit).
Proof. done. Qed.

Lemma keeps_env_consult {A} (f : Env -> nat -> A) : keeps same_env (consult f : M W A).
Proof. done. Qed.
Lemma keeps_env_run {A} what (f : DB -> res A * DB) : keeps same_env (run what f : M W _).
Proof. intros w. rewrite run_eq. by destruct (or_fault _ _). Qed.
Lemma keeps_env_backend {A} (f : B -> A * B) : keeps same_env (on_backend f : M W A).
Proof. intros w. unfold on_backend, same_env. by destruct (f _). Qed.
Lemma keeps_env_store {A} (f : S -> A * S) : keeps same_env (on_store f : M W A).
Proof. intros w. unfold on_store, same_env. by destruct (f _). Qed.
Lemma keeps_env_emit e : keeps same_env (emit e : M W unit).
Proof. done. Qed.
Lemma keeps_env_spawn j : keeps same_env (spawn j : M W unit).
Proof. done. Qed.

Lemma keeps_events_consult {A} (f : Env -> nat -> A) : keeps same_events (consult f : M W A).
Proof. done. Qed.
Lemma keeps_events_run {A} what (f : DB -> res A * DB) : keeps same_events (run what f : M W _).
Proof. intros w. rewrite run_eq. by destruct (or_fault _ _). Qed.
Lemma keeps_events_backend {A} (f : B -> A * B) : keeps same_events (on_backend f : M W A).
Proof. intros w. unfold on_backend, same_events. by destruct (f _). Qed.
Lemma keeps_events_store {A} (f : S -> A * S) : keeps same_events (on_store f : M W A).
Proof. intros w. unfold on_store, same_events. by destruct (f _). Qed.
Lemma keeps_events_spawn j : keeps same_events (spawn j : M W unit).
Proof. done. Qed.
End Frames.

#[export] Hint Resolve keeps_db_consult keeps_db_backend keeps_db_store keeps_db_emit keeps_db_spawn keeps_db_read
  keeps_be_consult keeps_be_run keeps_be_store keeps_be_emit keeps_be_spawn
  keeps_env_consult keeps_env_run keeps_env_backend keeps_env_store keeps_env_emit keeps_env_spawn
  keeps_events_consult keeps_events_run keeps_events_backend keeps_events_store keeps_events_spawn : keeps.

(** ** Effects outside the service *)

(** A relation that calls to the environment, the backend and the store respect. *)
Class OutsideFrame {B S : Type} (R : World B S -> World B S -> Prop) : Prop := {
  of_preorder :: PreOrder R;
  of_consult : forall A (f : Env -> nat -> A), keeps R (consult f);
  of_backend : forall A (f : B -> A * B), keeps R (on_backend f);
  of_store : forall A (f : S -> A * S), keeps R (on_store f)
}.
#[export] Instance same_db_outside {B S} : OutsideFrame (@same_db B S).
Proof. split; try apply _; intros; eauto with keeps. Qed.
#[export] Instance same_events_outside {B S} : OutsideFrame (@same_events B S).
Proof. split; try apply _; intros; eauto with keeps. Qed.
#[export] Instance same_env_outside {B S} : OutsideFrame (@same_env B S).
Proof. split; try apply _; intros; eauto with keeps. Qed.
#[export] Hint Resolve of_consult of_backend of_store : keeps.
#[export] Hint Extern 0 (OutsideFrame _) => solve [typeclasses eauto] : keeps.

(** Reads of the tables. *)
Section ReadFrames.
Context {B S : Type}.
Lemma keeps_db_selectOne what e f : keeps same_db (selectOne what e f : M (World B S) _).
Proof. intros w. apply selectOne_db. Qed.
Lemma keeps_db_selectMany what f : keeps same_db (selectMany what f : M (World B S) _).
Proof. intros w. apply selectMany_db. Qed.
End ReadFrames.
#[export] Hint Resolve keeps_db_selectOne keeps_db_selectMany : keeps.
#[export] Hint Unfold now new_uuid sleepWithContext gen_name gen_name_with_suffix : keeps.
#[export] Hint Unfold GetByID GetByName GetActiveVMs GetActiveByUserID GetAvailablePool GetAllByUserID GetByChatID
  GetByEnvironmentAndChatID FindPreviousLeaseForChat ListVMs GetByEnvironmentID : keeps.
#[export] Hint Unfold SnapGetByVMID GetAllocatedIPs GetAllocatedIPsExclude EnvList ListActiveLeasesByChat : keeps.

Section RepoFrames.
Context {B S : Type}.
Abbreviation W := (World B S).
Lemma keeps_db_EnvGetByID id : keeps same_db (EnvGetByID id : M W _).
Proof. unfold EnvGetByID. go_keeps. Qed.
Lemma keeps_db_SnapGetByID id : keeps same_db (SnapGetByID id : M W _).
Proof. unfold SnapGetByID. go_keeps. Qed.
Lemma keeps_db_GetLatestFull id : keeps same_db (GetLatestFull id : M W _).
Proof. unfold GetLatestFull. go_keeps. Qed.
Lemma keeps_db_GetLatestByVMID id : keeps same_db (GetLatestByVMID id : M W _).
Proof. unfold GetLatestByVMID. go_keeps. Qed.
Lemma keeps_db_ListOrphaned d : keeps same_db (ListOrphaned d : M W _).
Proof. unfold ListOrphaned. go_keeps. Qed.
End RepoFrames.
#[export] Hint Resolve keeps_db_EnvGetByID keeps_db_SnapGetByID keeps_db_GetLatestFull keeps_db_GetLatestByVMID
  keeps_db_ListOrphaned : keeps.

