(* ===== verification/Invariants.v ===== *)
(** * The database invariant

    [db_ok]: what the tables always satisfy, whatever sequence of service
    operations has run and whichever statements have failed. The judgement
    [inv m Q] says that a program keeps it and that its value satisfies [Q]; the
    repository methods are proved once, the service operations are composed from
    them by [go_inv]. *)

From S2P Require Import Prelude Exception Naming Domain World PgRepo IPAlloc Hoare.

Create HintDb inv.

(** The bound the invariant holds disk chain lengths to. *)
Class ChainLimit := chain_limit : Z.

Section Invariants.
Context {CL : ChainLimit}.

(** ** The invariant *)

(** A row bound to a chat is running. *)
Definition bound_running (chat : option string) (st : Status) : Prop := chat <> None -> st = StatusRunning.

Definition leased_vms (ls : list Lease) : list string := le_VMID <$> List.filter active_lease ls.
#[global] Arguments leased_vms : simpl never.

Record db_ok (db : DB) : Prop := {
  ok_key : forall i r, db_vms db !! i = Some r -> r_id r = i;
  ok_name : forall i j r r', db_vms db !! i = Some r -> db_vms db !! j = Some r' -> r_name r = r_name r' -> i = j;
  ok_runtime : forall i j r r' x, db_vms db !! i = Some r -> db_vms db !! j = Some r' ->
    r_runtime_id r = Some x -> r_runtime_id r' = Some x -> i = j;
  ok_cid : forall i j r r' c, db_vms db !! i = Some r -> db_vms db !! j = Some r' ->
    live_row r = true -> live_row r' = true -> r_guest_cid r = Some c -> r_guest_cid r' = Some c -> i = j;
  ok_cid_range : forall i r c, db_vms db !! i = Some r -> r_guest_cid r = Some c -> 3 <= c <= 4294967295;
  ok_env : forall i r, db_vms db !! i = Some r -> is_Some (db_envs db !! r_environment_id r);
  ok_bound : forall i r, db_vms db !! i = Some r -> bound_running (r_chat_id r) (r_status r);
  ok_lease_vm : forall l, l ∈ db_leases db -> is_Some (db_vms db !! le_VMID l);
  ok_lease_one : NoDup (leased_vms (db_leases db));
  ok_snap_key : forall i sn, db_snapshots db !! i = Some sn -> sn_ID sn = i;
  ok_snap_vm : forall i sn, db_snapshots db !! i = Some sn -> is_Some (db_vms db !! sn_VMID sn);
  ok_snap_parent : forall i sn p, db_snapshots db !! i = Some sn -> sn_ParentSnapshotID sn = Some p ->
    exists sp, db_snapshots db !! p = Some sp /\ sn_VMID sp = sn_VMID sn;
  ok_snap_rank : exists rank : string -> nat, forall i sn p, db_snapshots db !! i = Some sn ->
    sn_ParentSnapshotID sn = Some p -> (rank p < rank i)%nat;
  ok_chain : forall i sn m, db_snapshots db !! i = Some sn -> sn_Metadata sn = MetaJSON m ->
    sm_DiskChainLength m < chain_limit
}.

(** What the invariant asks of one row, given the others. *)
Record fits (db : DB) (row : vmRow) : Prop := {
  fit_name : forall j r, j <> r_id row -> db_vms db !! j = Some r -> r_name r <> r_name row;
  fit_runtime : forall j r x, j <> r_id row -> db_vms db !! j = Some r ->
    r_runtime_id row = Some x -> r_runtime_id r <> Some x;
  fit_cid : forall j r c, j <> r_id row -> db_vms db !! j = Some r -> live_row row = true -> live_row r = true ->
    r_guest_cid row = Some c -> r_guest_cid r <> Some c;
  fit_range : forall c, r_guest_cid row = Some c -> 3 <= c <= 4294967295;
  fit_env : is_Some (db_envs db !! r_environment_id row);
  fit_bound : bound_running (r_chat_id row) (r_status row)
}.

Lemma other_row_false db id P j r :
  other_row db id P = false -> j <> id -> db_vms db !! j = Some r -> P r = false.
Proof.
  unfold other_row. intros H Hj Hr. destruct (P r) eqn:E; [|done]. exfalso.
  apply not_true_iff_false in H. apply H. apply existsb_exists. exists (j, r).
  split; [by apply list_elem_of_In, elem_of_map_to_list |]. simpl.
  by rewrite bool_decide_eq_false_2, E.
Qed.

Lemma same_some_refl {A} `{EqDecision A} (x : A) : same_some (Some x) (Some x) = true.
Proof. simpl. by apply bool_decide_eq_true. Qed.

(** A row the constraints accept fits. *)
Lemma vm_constraint_fits db row :
  vm_constraint db row = None -> bound_running (r_chat_id row) (r_status row) -> fits db row.
Proof.
  unfold vm_constraint. intros H Hb.
  destruct (negb (_ || _)); [done |].
  destruct (match r_guest_cid row with Some _ => _ | None => _ end) eqn:Hc; [done |].
  destruct (other_row db (r_id row) (fun r => bool_decide (r_name r = r_name row))) eqn:Hn; [done |].
  destruct (other_row db (r_id row) (fun r => same_some (r_runtime_id r) (r_runtime_id row))) eqn:Hr; [done |].
  destruct (live_row row && other_row db (r_id row) (fun r => live_row r && same_some (r_guest_cid r) (r_guest_cid row)))
    eqn:Hg; [done |].
  match type of H with (if ?b then _ else _) = _ => destruct b; [done |] end.
  destruct (negb (bool_decide (is_Some (db_envs db !! _)))) eqn:He; [done |].
  split.
  - intros j r Hj Hl E. eapply other_row_false in Hn; [|done..]. simpl in Hn. by rewrite E, bool_decide_eq_true_2 in Hn.
  - intros j r x Hj Hl E E'. eapply other_row_false in Hr; [|done..]. simpl in Hr.
    by rewrite E, E', same_some_refl in Hr.
  - intros j r c Hj Hl Hlive Hlive' E E'. rewrite Hlive in Hg. simpl in Hg.
    eapply other_row_false in Hg; [|done..]. simpl in Hg. by rewrite Hlive', E, E', same_some_refl in Hg.
  - intros c E. rewrite E in Hc. apply negb_false_iff, bool_decide_eq_true_1 in Hc. done.
  - by apply negb_false_iff, bool_decide_eq_true_1 in He.
  - done.
Qed.

(** A row of the table fits. *)
Lemma db_ok_fits db i r : db_ok db -> db_vms db !! i = Some r -> fits db r.
Proof.
  intros H Hr. pose proof (ok_key _ H _ _ Hr) as Hi. split.
  - intros j r' Hj Hr' E. apply Hj. rewrite Hi. by eapply (ok_name _ H).
  - intros j r' x Hj Hr' E E'. apply Hj. rewrite Hi. by eapply (ok_runtime _ H).
  - intros j r' c Hj Hr' L L' E E'. apply Hj. rewrite Hi. by eapply (ok_cid _ H).
  - intros c Hc. by eapply ok_cid_range.
  - by eapply ok_env.
  - by eapply ok_bound.
Qed.

(** ** What each write does to the invariant *)

Lemma db_ok_put db row : db_ok db -> fits db row -> db_ok (put_row row db).
Proof.
  intros H F. destruct F as [Fn Fr Fc Fg Fe Fb]. unfold put_row. split; cbn.
  - intros i r. rewrite lookup_insert_Some. intros [[<- <-]|[_ ?]]; [done | by eapply ok_key].
  - intros i j r r' Hr Hr' E. rewrite lookup_insert_Some in Hr. rewrite lookup_insert_Some in Hr'.
    destruct Hr as [[<- <-]|[Ni Hr]], Hr' as [[<- <-]|[Nj Hr']]; try done.
    + exfalso. by eapply (Fn j).
    + exfalso. by eapply (Fn i).
    + by eapply (ok_name _ H).
  - intros i j r r' x Hr Hr' E E'. rewrite lookup_insert_Some in Hr. rewrite lookup_insert_Some in Hr'.
    destruct Hr as [[<- <-]|[Ni Hr]], Hr' as [[<- <-]|[Nj Hr']]; try done.
    + exfalso. by eapply (Fr j).
    + exfalso. by eapply (Fr i).
    + by eapply (ok_runtime _ H).
  - intros i j r r' c Hr Hr' L L' E E'. rewrite lookup_insert_Some in Hr. rewrite lookup_insert_Some in Hr'.
    destruct Hr as [[<- <-]|[Ni Hr]], Hr' as [[<- <-]|[Nj Hr']]; try done.
    + exfalso. by eapply (Fc j r' c).
    + exfalso. by eapply (Fc i r c).
    + by eapply (ok_cid _ H).
  - intros i r c. rewrite lookup_insert_Some. intros [[<- <-]|[_ ?]]; [apply Fg | by eapply ok_cid_range].
  - intros i r. rewrite lookup_insert_Some. intros [[<- <-]|[_ ?]]; [done | by eapply ok_env].
  - intros i r. rewrite lookup_insert_Some. intros [[<- <-]|[_ ?]]; [done | by eapply ok_bound].
  - intros l Hl. apply lookup_insert_is_Some'. right. by eapply ok_lease_vm.
  - by apply ok_lease_one.
  - by apply ok_snap_key.
  - intros i sn Hi. apply lookup_insert_is_Some'. right. by eapply ok_snap_vm.
  - by apply ok_snap_parent.
  - by apply ok_snap_rank.
  - by apply ok_chain.
Qed.

(** Adding, releasing and deleting leases; snapshots. *)
Lemma leased_vms_app a b : leased_vms (a ++ b) = leased_vms a ++ leased_vms b.
Proof. unfold leased_vms. by rewrite List.filter_app, fmap_app. Qed.

Lemma elem_of_leased_vms ls v : v ∈ leased_vms ls <-> exists l, l ∈ ls /\ active_lease l = true /\ le_VMID l = v.
Proof.
  unfold leased_vms. rewrite list_elem_of_fmap. split.
  - intros (l & -> & Hl). apply list_elem_of_In, filter_In in Hl as [Hl A]. exists l. by rewrite list_elem_of_In.
  - intros (l & Hl & A & <-). exists l. split; [done |]. apply list_elem_of_In, filter_In.
    by rewrite <- list_elem_of_In.
Qed.

Lemma lease_conflict_spec db vmID : lease_conflict db vmID = true <-> vmID ∈ leased_vms (db_leases db).
Proof.
  rewrite elem_of_leased_vms. unfold lease_conflict. rewrite existsb_exists. split.
  - intros (l & Hl & [E A]%andb_true_iff). apply bool_decide_eq_true_1 in E. exists l. by rewrite list_elem_of_In.
  - intros (l & Hl & A & <-). exists l. rewrite <- list_elem_of_In, A, bool_decide_eq_true_2 by done. done.
Qed.

Lemma db_ok_lease_add db l :
  db_ok db -> is_Some (db_vms db !! le_VMID l) -> lease_conflict db (le_VMID l) = false ->
  db_ok (db <| db_leases := db_leases db ++ [l] |>).
Proof.
  intros H Hv Hc. destruct H. split; cbn; try done.
  - intros l'. rewrite elem_of_app, list_elem_of_singleton. intros [?| ->]; auto.
  - rewrite leased_vms_app. apply NoDup_app. split; [done |]. split.
    + intros v Hv1 Hv2. apply elem_of_leased_vms in Hv2 as (l' & ->%list_elem_of_singleton & _ & <-).
      apply lease_conflict_spec in Hv1. congruence.
    + unfold leased_vms. cbn. destruct (active_lease l); cbn; [apply NoDup_singleton | constructor].
Qed.

Lemma release_vmid t v l : le_VMID (release t v l) = le_VMID l.
Proof. unfold release. by case_match. Qed.

(** Releasing only shrinks the active leases. *)
Lemma leased_vms_release t v ls :
  leased_vms (release t v <$> ls) = List.filter (fun x => negb (bool_decide (x = v))) (leased_vms ls).
Proof.
  unfold leased_vms. induction ls as [|l ls IH]; [done |]. cbn. unfold release at 1.
  destruct (active_lease l) eqn:A; rewrite ?andb_true_r, ?andb_false_r.
  - case_bool_decide as E; cbn.
    + by rewrite E, bool_decide_eq_true_2.
    + rewrite A, bool_decide_eq_false_2 by done. cbn. f_equal; [apply release_vmid | exact IH].
  - by rewrite A.
Qed.

Lemma NoDup_List_filter {A} (P : A -> bool) l : NoDup l -> NoDup (List.filter P l).
Proof. rewrite !NoDup_ListNoDup. apply List.NoDup_filter. Qed.

Lemma db_ok_release db t v : db_ok db -> db_ok (db <| db_leases := release t v <$> db_leases db |>).
Proof.
  intros H. destruct H. split; cbn; try done.
  - intros l (l' & -> & Hl)%list_elem_of_fmap. rewrite release_vmid. eauto.
  - rewrite leased_vms_release. by apply NoDup_List_filter.
Qed.

Lemma leased_vms_filter_vm (P : string -> bool) ls :
  leased_vms (List.filter (fun l => P (le_VMID l)) ls) = List.filter P (leased_vms ls).
Proof.
  unfold leased_vms. induction ls as [|l ls IH]; [done |]. cbn.
  destruct (P (le_VMID l)) eqn:HP, (active_lease l) eqn:A; cbn; rewrite ?A, ?HP; cbn; rewrite ?IH; done.
Qed.

(** Deleting a VM takes its leases and its snapshots along. *)
Definition delete_vm (id : string) (db : DB) : DB :=
  db <| db_vms := delete id (db_vms db) |>
     <| db_leases := List.filter (fun l => negb (bool_decide (le_VMID l = id))) (db_leases db) |>
     <| db_snapshots := filter (fun kv => sn_VMID (snd kv) <> id) (db_snapshots db) |>
     <| db_snap_metrics := List.filter (fun m => negb (bool_decide (mx_VMID m = id))) (db_snap_metrics db) |>.

Lemma db_ok_delete_vm db id : db_ok db -> db_ok (delete_vm id db).
Proof.
  intros H. split; cbn.
  - intros i r [_ ?]%lookup_delete_Some. by eapply ok_key.
  - intros i j r r' [_ ?]%lookup_delete_Some [_ ?]%lookup_delete_Some. by eapply ok_name.
  - intros i j r r' x [_ ?]%lookup_delete_Some [_ ?]%lookup_delete_Some. by eapply ok_runtime.
  - intros i j r r' c [_ ?]%lookup_delete_Some [_ ?]%lookup_delete_Some. by eapply ok_cid.
  - intros i r c [_ ?]%lookup_delete_Some. by eapply ok_cid_range.
  - intros i r [_ ?]%lookup_delete_Some. by eapply ok_env.
  - intros i r [_ ?]%lookup_delete_Some. by eapply ok_bound.
  - intros l. rewrite list_elem_of_In, filter_In, <- list_elem_of_In. intros [Hl Hn%negb_true_iff].
    apply bool_decide_eq_false_1 in Hn. rewrite lookup_delete_ne by done. by eapply ok_lease_vm.
  - refine (eq_ind_r (fun l => NoDup l) _ (leased_vms_filter_vm (fun v => negb (bool_decide (v = id))) (db_leases db))).
    apply NoDup_List_filter. by apply ok_lease_one.
  - intros i sn [Hi _]%map_lookup_filter_Some. by eapply ok_snap_key.
  - intros i sn [Hi Hn]%map_lookup_filter_Some. cbn in Hn. rewrite lookup_delete_ne by done. by eapply ok_snap_vm.
  - intros i sn p [Hi Hn]%map_lookup_filter_Some Hp. cbn in Hn.
    destruct (ok_snap_parent _ H _ _ _ Hi Hp) as (sp & Hsp & E). exists sp.
    rewrite map_lookup_filter_Some. cbn. split_and!; [done | congruence | done].
  - destruct (ok_snap_rank _ H) as [rank Hr]. exists rank.
    intros i sn p [Hi _]%map_lookup_filter_Some. by eapply Hr.
  - intros i sn m [Hi _]%map_lookup_filter_Some. by eapply ok_chain.
Qed.

(** A new snapshot: a fresh id, whose parent (if any) is one of the VM's. *)
Lemma db_ok_snap_add db sn :
  db_ok db -> db_snapshots db !! sn_ID sn = None -> is_Some (db_vms db !! sn_VMID sn) ->
  (forall p, sn_ParentSnapshotID sn = Some p ->
     exists sp, db_snapshots db !! p = Some sp /\ sn_VMID sp = sn_VMID sn) ->
  (forall m, sn_Metadata sn = MetaJSON m -> sm_DiskChainLength m < chain_limit) ->
  db_ok (db <| db_snapshots := <[sn_ID sn := sn]> (db_snapshots db) |>).
Proof.
  intros H Hfresh Hvm Hpar Hmeta. pose proof H as H'. destruct H'. split; cbn; try done.
  - intros i x. rewrite lookup_insert_Some. intros [[<- <-]|[_ ?]]; eauto.
  - intros i x. rewrite lookup_insert_Some. intros [[<- <-]|[_ ?]]; eauto.
  - intros i x p. rewrite lookup_insert_Some. intros Hx Hp.
    assert (exists sp, db_snapshots db !! p = Some sp /\ sn_VMID sp = sn_VMID x) as (sp & Hsp & E)
      by (destruct Hx as [[<- <-]|[_ ?]]; eauto).
    exists sp. rewrite lookup_insert_ne by congruence. done.
  - destruct ok_snap_rank0 as [rank Hr].
    exists (fun i => if decide (i = sn_ID sn)
                     then S (match sn_ParentSnapshotID sn with Some p => rank p | None => O end) else rank i).
    intros i x p. rewrite lookup_insert_Some. intros [[<- <-]|[Hi Hx]] Hp.
    + destruct (Hpar p Hp) as (sp & Hsp & _). 
      rewrite (decide_False (P := p = sn_ID sn)) by congruence. rewrite decide_True, Hp by done. lia.
    + destruct (ok_snap_parent0 _ _ _ Hx Hp) as (sp & Hsp & _).
      rewrite (decide_False (P := i = sn_ID sn)) by congruence. rewrite decide_False by congruence. eauto.
  - intros i x m. rewrite lookup_insert_Some. intros [[<- <-]|[_ ?]]; eauto.
Qed.

(** Deleting a snapshot without children. *)
Lemma has_child_false db id i sn :
  has_child db id = false -> db_snapshots db !! i = Some sn -> sn_ParentSnapshotID sn <> Some id.
Proof.
  unfold has_child. intros H Hi E. apply not_true_iff_false in H. apply H, existsb_exists. exists (i, sn).
  split; [by apply list_elem_of_In, elem_of_map_to_list |]. by apply bool_decide_eq_true.
Qed.

Lemma db_ok_snap_delete db id f :
  db_ok db -> has_child db id = false ->
  db_ok (db <| db_snapshots := delete id (db_snapshots db) |> <| db_snap_metrics := f |>).
Proof.
  intros H Hc. pose proof H as H'. destruct H'. split; cbn; try done.
  - intros i sn [_ ?]%lookup_delete_Some. eauto.
  - intros i sn [_ ?]%lookup_delete_Some. eauto.
  - intros i sn p [_ Hi]%lookup_delete_Some Hp. destruct (ok_snap_parent0 _ _ _ Hi Hp) as (sp & Hsp & E).
    exists sp. rewrite lookup_delete_ne; [done |]. intros ->. exact (has_child_false _ _ _ _ Hc Hi Hp).
  - destruct ok_snap_rank0 as [rank Hr]. exists rank. intros i sn p [_ ?]%lookup_delete_Some. eauto.
  - intros i sn m [_ ?]%lookup_delete_Some. eauto.
Qed.

(** ** The judgement *)

Definition ok_val {E A} (Q : A -> Prop) (r : result E A) : Prop := match r with Ok a => Q a | Err _ => True end.

Section Inv.
Context {B St : Type}.
Abbreviation W := (World B St).

Definition inv {A} (m : M W A) (Q : A -> Prop) : Prop :=
  triple (fun w => db_ok (w_db w)) m (fun a w => db_ok (w_db w) /\ Q a).

Lemma inv_ret {A} (a : A) (Q : A -> Prop) : Q a -> inv (ret a) Q.
Proof. by intros HQ w Hw. Qed.

Lemma inv_bind {A C} (m : M W A) (k : A -> M W C) Q R :
  inv m Q -> (forall a, Q a -> inv (k a) R) -> inv (bind m k) R.
Proof.
  intros Hm Hk. eapply triple_bind; [exact Hm |]. intros a w [Hw HQ]. by apply Hk.
Qed.

Lemma inv_bind_ok {E A C} (m : M W (result E A)) (k : A -> M W (result E C)) Q R :
  inv m (ok_val Q) -> (forall a, Q a -> inv (k a) (ok_val R)) -> inv (bind_ok m k) (ok_val R).
Proof.
  intros Hm Hk. eapply triple_bind_ok; [exact Hm | |].
  - intros a w [Hw HQ]. by apply Hk.
  - by intros e w [Hw _].
Qed.

Lemma inv_weaken {A} (m : M W A) (Q Q' : A -> Prop) : inv m Q' -> (forall a, Q' a -> Q a) -> inv m Q.
Proof. intros H HQ w Hw. destruct (H w Hw). auto. Qed.

Lemma inv_for_each {A} (l : list A) (body : A -> M W unit) :
  (forall x, x ∈ l -> inv (body x) (fun _ => True)) -> inv (for_each l body) (fun _ => True).
Proof.
  intros H w Hw. split; [|done].
  apply (triple_for_each (fun w => db_ok (w_db w)) l body); [|done]. intros x Hx w' Hw'. by apply H.
Qed.

(** Programs that do not write the tables. *)
Lemma inv_same {A} (m : M W A) : keeps same_db m -> inv m (fun _ => True).
Proof. intros H w Hw. by rewrite (H w). Qed.

Lemma inv_run {A} what (f : DB -> res A * DB) (Q : A -> Prop) :
  (forall db, db_ok db -> db_ok (f db).2 /\ ok_val Q (f db).1) -> inv (run what f : M W _) (ok_val Q).
Proof.
  intros H w Hw. rewrite run_eq. destruct (or_fault _ _); [done |]. cbn.
  destruct (H _ Hw) as [Hdb HQ]. split; [done |]. by destruct (f _).1.
Qed.

End Inv.

(** A VM as the repository returns it. *)
Definition vm_bound (vm : VM) : Prop := bound_running (vm_ChatID vm) (vm_Status vm).

Lemma mapVMRow_bound r v : mapVMRow r = Ok v -> bound_running (r_chat_id r) (r_status r) -> vm_bound v.
Proof. intros (?&Hs&Hc&_)%mapVMRow_Ok. unfold vm_bound. by rewrite Hs, Hc. Qed.

(** ** The repository methods *)

Section Repo.
Context {B St : Type}.
Abbreviation W := (World B St).

Definition row_in (db : DB) (r : vmRow) : Prop := exists i, db_vms db !! i = Some r.

Lemma rows_in db r : r ∈ rows db -> row_in db r.
Proof.
  unfold rows. intros ([i x] & -> & Hx)%list_elem_of_fmap. exists i. by apply elem_of_map_to_list in Hx.
Qed.
Lemma filtered_rows_in db P r : r ∈ List.filter P (rows db) -> row_in db r.
Proof. rewrite list_elem_of_In, filter_In, <- list_elem_of_In. intros [? _]. by apply rows_in. Qed.
Lemma sorted_rows_in (R : vmRow -> vmRow -> Prop) `{!RelDecision R} db P r :
  r ∈ merge_sort R (List.filter P (rows db)) -> row_in db r.
Proof. rewrite merge_sort_Permutation. apply filtered_rows_in. Qed.
Lemma leased_rows_in db chatID P r : r ∈ leased_rows db chatID P -> row_in db r.
Proof.
  unfold leased_rows. rewrite list_elem_of_In, in_flat_map. intros (l & _ & Hr).
  destruct (db_vms db !! le_VMID l) eqn:E; [|done]. destruct (P v); [|done].
  destruct Hr as [<-|[]]. by eexists.
Qed.
Lemma head_in {A} (l : list A) x : head l = Some x -> x ∈ l.
Proof. destruct l; [done |]. intros [= ->]. apply list_elem_of_here. Qed.

Lemma inv_selectOne what e f :
  (forall db r, f db = Some r -> row_in db r) -> inv (selectOne what e f : M W _) (ok_val vm_bound).
Proof.
  intros Hf w Hw. rewrite selectOne_db. split; [done |].
  destruct (selectOne what e f w) as [[v|] w'] eqn:E; [|done].
  apply selectOne_Ok in E as (r & Hr & Hm). apply Hf in Hr as [i Hi]. cbn.
  eapply mapVMRow_bound; [done | by eapply ok_bound].
Qed.

Lemma mapVMRows_Ok rs vs : mapVMRows rs = Ok vs -> Forall2 (fun r v => mapVMRow r = Ok v) rs vs.
Proof.
  revert vs. induction rs as [|r rs IH]; simpl; intros vs H; [by injection H as <- |].
  destruct (mapVMRow r) eqn:Er; [|done]. destruct (mapVMRows rs); [|done]. injection H as <-. eauto.
Qed.

Lemma selectMany_Ok what f (w w' : W) vs :
  selectMany what f w = (Ok vs, w') -> Forall2 (fun r v => mapVMRow r = Ok v) (f (w_db w)) vs.
Proof.
  unfold selectMany, bind_ok. rewrite run_eq. destruct (or_fault _ _); [done |]. cbn.
  intros [= H _]. by apply mapVMRows_Ok.
Qed.

Lemma inv_selectMany what f :
  (forall db r, r ∈ f db -> row_in db r) -> inv (selectMany what f : M W _) (ok_val (Forall vm_bound)).
Proof.
  intros Hf w Hw. rewrite selectMany_db. split; [done |].
  destruct (selectMany what f w) as [[vs|] w'] eqn:E; [|done].
  apply selectMany_Ok in E. cbn. apply Forall_forall. intros v Hv.
  apply list_elem_of_lookup in Hv as [k Hk].
  destruct (Forall2_lookup_r _ _ _ _ _ E Hk) as (r & Hr & Hm).
  apply list_elem_of_lookup_2, Hf in Hr as [i Hi]. eapply mapVMRow_bound; [done | by eapply ok_bound].
Qed.

Lemma inv_GetByID id : inv (GetByID id : M W _) (ok_val vm_bound).
Proof. apply inv_selectOne. intros db r Hr. by exists id. Qed.
Lemma inv_GetByName n : inv (GetByName n : M W _) (ok_val vm_bound).
Proof.
  apply inv_selectOne. intros db r [Hr _]%find_some. apply rows_in. by apply list_elem_of_In.
Qed.
Lemma inv_GetActiveVMs : inv (GetActiveVMs : M W _) (ok_val (Forall vm_bound)).
Proof. apply inv_selectMany. intros db r. apply sorted_rows_in. Qed.
Lemma inv_GetActiveByUserID u : inv (GetActiveByUserID u : M W _) (ok_val (Forall vm_bound)).
Proof. apply inv_selectMany. intros db r. apply sorted_rows_in. Qed.
Lemma inv_GetAvailablePool p n : inv (GetAvailablePool p n : M W _) (ok_val (Forall vm_bound)).
Proof. apply inv_selectMany. intros db r (i & Hr & _)%elem_of_take.
  by eapply sorted_rows_in, list_elem_of_lookup_2.  Qed.

Lemma inv_Create vm : vm_bound vm -> inv (Create vm : M W _) (ok_val (fun _ => True)).
Proof.
  intros Hb. apply inv_run. intros db H. destruct (db_vms db !! vm_ID vm); [done |].
  destruct (vm_constraint db (rowOf vm)) eqn:E; [done |]. cbn. split; [|done].
  apply db_ok_put; [done |]. by apply vm_constraint_fits.
Qed.

Lemma inv_Update vm : vm_bound vm -> inv (Update vm : M W _) (ok_val (fun _ => True)).
Proof.
  intros Hb. unfold Update. eapply inv_bind_ok with (Q := fun _ => True).
  - apply inv_run. intros db H. destruct (db_vms db !! vm_ID vm) as [old|] eqn:Ho; [|done].
    destruct (vm_constraint db (updatedRow old vm)) eqn:E; [done |]. cbn. split; [|done].
    apply db_ok_put; [done |]. by apply vm_constraint_fits.
  - intros [] _; by apply inv_ret.
Qed.

Lemma inv_Delete id : inv (Delete id : M W _) (ok_val (fun _ => True)).
Proof.
  unfold Delete. eapply inv_bind_ok with (Q := fun _ => True).
  - apply inv_run. intros db H. destruct (db_vms db !! id); [|done]. split; [|done]. by apply db_ok_delete_vm.
  - intros [] _; by apply inv_ret.
Qed.

Lemma inv_Release id : inv (ReleaseActiveLeaseByVM id : M W _) (ok_val (fun _ => True)).
Proof.
  unfold ReleaseActiveLeaseByVM. eapply inv_bind with (Q := fun _ => True); [by apply inv_same |]. intros t _.
  apply inv_run. intros db H. split; [|done]. by apply db_ok_release.
Qed.

Lemma fits_ip db r ip : fits db r -> fits db (r <| r_ip_address := ip |>).
Proof. intros []. by split. Qed.

Lemma inv_SetIPAddress id ip : inv (SetIPAddress id ip : M W _) (ok_val (fun _ => True)).
Proof.
  unfold SetIPAddress. eapply inv_bind_ok with (Q := fun _ => True).
  - apply inv_run. intros db H. destruct (db_vms db !! id) as [r|] eqn:Hr; [|done]. split; [|done].
    apply db_ok_put; [done |]. by eapply fits_ip, db_ok_fits.
  - intros [] _; by apply inv_ret.
Qed.
Lemma inv_ReleaseIPAddress id : inv (ReleaseIPAddress id : M W _) (ok_val (fun _ => True)).
Proof.
  unfold ReleaseIPAddress. apply inv_run. intros db H. destruct (db_vms db !! id) as [r|] eqn:Hr; [|done].
  split; [|done]. apply db_ok_put; [done |]. by eapply fits_ip, db_ok_fits.
Qed.

Lemma inv_SnapDelete id : inv (SnapDelete id : M W _) (ok_val (fun _ => True)).
Proof.
  unfold SnapDelete. eapply inv_bind_ok with (Q := fun _ => True).
  - apply inv_run. intros db H. destruct (db_snapshots db !! id); [|done].
    destruct (has_child db id) eqn:Hc; [done |]. split; [|done]. by apply db_ok_snap_delete.
  - intros [] _; by apply inv_ret.
Qed.

Lemma db_ok_metrics db ms : db_ok db -> db_ok (db <| db_snap_metrics := ms |>).
Proof. intros []. by split. Qed.
Lemma inv_MetricsInsert m : inv (MetricsInsert m : M W _) (ok_val (fun _ => True)).
Proof.
  intros w. unfold MetricsInsert. apply (inv_run _ _ (fun _ => True)). intros db H. repeat case_match; try done. split; [|done].
  by apply db_ok_metrics.
Qed.

End Repo.

(** ** Assignment *)

Section Assign.
Context {B St : Type}.
Abbreviation W := (World B St).

#[global] Arguments assigned_row : simpl never.

(** The two outcomes of the assignment transaction: the row and its lease are
    both written, or nothing is. *)
Definition assigned (db db' : DB) (vmID chatID : string) (dl : option Z) (v : VM) : Prop :=
  exists row t leaseID v0, db_vms db !! vmID = Some row /\ mapVMRow row = Ok v0 /\ IsAvailable v0 = true /\
    vm_constraint db (assigned_row t chatID dl row) = None /\
    lease_conflict db vmID = false /\ is_Some (db_chats db !! chatID) /\
    mapVMRow (assigned_row t chatID dl row) = Ok v /\
    db' = (put_row (assigned_row t chatID dl row) db) <| db_leases := db_leases db ++ [new_lease t leaseID vmID chatID] |>.

Lemma mapVMRow_assigned t chatID dl row v : mapVMRow row = Ok v -> is_Ok (mapVMRow (assigned_row t chatID dl row)) = true.
Proof.
  destruct row as [?????????? g]. unfold mapVMRow, assigned_row. cbn. destruct g; [|done]. by destruct (_ || _).
Qed.

Lemma lease_constraint_None db vmID chatID : lease_constraint db vmID chatID = None ->
  lease_conflict db vmID = false /\ is_Some (db_chats db !! chatID).
Proof.
  unfold lease_constraint. destruct (lease_conflict db vmID); [done |].
  case_bool_decide; [done |]. done.
Qed.

Lemma Assign_cases vmID chatID dl (w : W) :
  match AssignToChatIfAvailable vmID chatID dl w with
  | (Ok v, w') => assigned (w_db w) (w_db w') vmID chatID dl v
  | (Err _, w') => w_db w' = w_db w
  end.
Proof.
  unfold AssignToChatIfAvailable, bind, bind_ok, now, new_uuid, consult. destruct w as [en n db be st ev jb]. cbn.
  rewrite !run_eq. cbn. destruct (or_fault _ _); [done |]. cbn.
  rewrite !run_eq. cbn. destruct (or_fault _ _); [done |]. cbn.
  destruct (db_vms db !! vmID) as [row|] eqn:Hrow; [|done].
  destruct (mapVMRow row) as [v|] eqn:Hm; [|done].
  destruct (IsAvailable v) eqn:Ha; [|done]. cbn.
  set (t := or_now _ _). set (row' := assigned_row _ _ _ _).
  rewrite !run_eq. cbn. destruct (or_fault _ _); [done |]. cbn.
  destruct (vm_constraint db row') eqn:Hc; [done |]. cbn.
  rewrite !run_eq. cbn. destruct (or_fault _ _); [done |]. cbn.
  destruct (lease_constraint db vmID chatID) eqn:Hl; [done |]. cbn.
  rewrite !run_eq. cbn. destruct (or_fault _ _); [done |]. cbn.
  rewrite !run_eq. cbn. destruct (or_fault _ _); [done |]. cbn.
  pose proof (mapVMRow_assigned t chatID dl row v Hm) as Hok. change (assigned_row _ _ _ _) with row' in Hok.
  destruct (mapVMRow row') as [v'|] eqn:Hm'; [|done].
  apply lease_constraint_None in Hl as [??]. exists row, t. eexists _, v. split_and!; try done.
Qed.

Lemma db_ok_assigned db db' vmID chatID dl v : db_ok db -> assigned db db' vmID chatID dl v -> db_ok db' /\ vm_bound v.
Proof.
  intros H (row & t & l & v0 & Hr & _ & _ & Hc & Hl & _ & Hm & ->). split.
  - pose proof (ok_key _ H _ _ Hr) as Hid.
    assert (H' : db_ok (put_row (assigned_row t chatID dl row) db)) by (apply db_ok_put; [done | by apply vm_constraint_fits]).
    refine (db_ok_lease_add _ (new_lease t l vmID chatID) H' _ Hl).
    cbn. apply lookup_insert_is_Some'. right. by eexists.
  - by eapply mapVMRow_bound.
Qed.

Lemma inv_Assign vmID chatID dl : inv (AssignToChatIfAvailable vmID chatID dl : M W _) (ok_val vm_bound).
Proof.
  intros w Hw. pose proof (Assign_cases vmID chatID dl w) as H.
  destruct (AssignToChatIfAvailable vmID chatID dl w) as [[v|e] w']; cbn.
  - by eapply db_ok_assigned.
  - by rewrite H.
Qed.
End Assign.

(** ** Read-only prefixes *)

Section Reads.
Context {B St : Type}.
Abbreviation W := (World B St).

(** [reads db m Q]: on the tables [db], [m] leaves them alone and its value
    satisfies [Q]. *)
Definition reads {A} (db : DB) (m : M W A) (Q : A -> Prop) : Prop :=
  triple (fun w => w_db w = db) m (fun a w => w_db w = db /\ Q a).

Lemma reads_same {A} db (m : M W A) : keeps same_db m -> reads db m (fun _ => True).
Proof. intros H w <-. by rewrite (H w). Qed.
Lemma reads_ret {A} db (a : A) (Q : A -> Prop) : Q a -> reads db (ret a) Q.
Proof. by intros HQ w Hw. Qed.
Lemma reads_bind {A C} db (m : M W A) (k : A -> M W C) Q R :
  reads db m Q -> (forall a, Q a -> reads db (k a) R) -> reads db (bind m k) R.
Proof. intros Hm Hk. eapply triple_bind; [exact Hm |]. intros a w [Hw HQ]. by apply Hk. Qed.
Lemma reads_run {A} db what (g : DB -> res A) (Q : A -> Prop) :
  ok_val Q (g db) -> reads db (run what (fun db => (g db, db)) : M W _) (ok_val Q).
Proof.
  intros HQ w <-. rewrite run_eq. destruct (or_fault _ _); [done |]. cbn. split; [done |]. by destruct (g _).
Qed.

(** A read-only prefix of a program reasoned about on the tables [db]. *)
Lemma triple_reads_bind {A C} db (m : M W A) (k : A -> M W C) Q R :
  reads db m Q -> (forall a, Q a -> triple (fun w => w_db w = db) (k a) R) ->
  triple (fun w => w_db w = db) (bind m k) R.
Proof. intros Hm Hk. eapply triple_bind; [exact Hm |]. intros a w [Hw HQ]. by apply Hk. Qed.
Lemma triple_reads_bind_ok {E A C} db (m : M W (result E A)) (k : A -> M W (result E C)) Q R :
  reads db m (ok_val Q) -> (forall a, Q a -> triple (fun w => w_db w = db) (k a) R) ->
  (forall e w, w_db w = db -> R (Err e) w) ->
  triple (fun w => w_db w = db) (bind_ok m k) R.
Proof.
  intros Hm Hk He. eapply triple_bind_ok; [exact Hm | |].
  - intros a w [Hw HQ]. by apply Hk.
  - intros e w [Hw _]. by apply He.
Qed.
Lemma triple_reads_skip {A C} db (m : M W A) (k : A -> M W C) R :
  keeps same_db m -> (forall a, triple (fun w => w_db w = db) (k a) R) ->
  triple (fun w => w_db w = db) (bind m k) R.
Proof. intros Hm Hk. eapply triple_reads_bind; [by apply reads_same |]. eauto. Qed.

Lemma reads_GetByID db id :
  reads db (GetByID id : M W _) (ok_val (fun v => exists row, db_vms db !! id = Some row /\ mapVMRow row = Ok v)).
Proof.
  intros w <-. unfold GetByID. rewrite selectOne_db. split; [done |].
  destruct (selectOne _ _ _ w) as [[v|] w'] eqn:E; [|done]. by apply selectOne_Ok in E.
Qed.

(** From a read-only prefix to an invariant. *)
Lemma inv_reads {A C} (m : M W A) (k : A -> M W C) (Q : DB -> A -> Prop) R :
  (forall db, db_ok db -> reads db m (Q db)) ->
  (forall db a, db_ok db -> Q db a -> triple (fun w => w_db w = db) (k a) (fun c w => db_ok (w_db w) /\ R c)) ->
  inv (bind m k) R.
Proof.
  intros Hm Hk w Hw. unfold bind. destruct (Hm _ Hw w eq_refl) as [E HQ]. destruct (m w) as [a w'].
  by eapply (Hk _ _ Hw HQ).
Qed.
End Reads.

End Invariants.

#[export] Hint Resolve inv_GetByID inv_GetByName inv_GetActiveVMs inv_GetActiveByUserID inv_GetAvailablePool
  inv_Create inv_Update inv_Delete inv_Release inv_SetIPAddress inv_ReleaseIPAddress inv_SnapDelete
  inv_MetricsInsert inv_Assign : inv.
