(* ===== verification/RepoFacts.v ===== *)
(** * What a successful repository call has done

    Inversion lemmas: from the fact that a call returned [Ok], what was in the
    tables and what is there now. The specifications of the service operations are
    read off their calls with [go_inv_ok]. *)

From stdpp Require Import sorting.
From S2P Require Import Prelude Exception Naming Domain World PgRepo Hoare Invariants.

#[global] Arguments updatedRow : simpl never.
#[global] Arguments rowOf : simpl never.
#[global] Arguments vm_constraint : simpl never.
#[global] Arguments put_row : simpl never.

(** What a write to one table leaves of the others: [autorewrite with dbproj]. *)
Create Rewrite HintDb dbproj.
Lemma put_row_vms row db : db_vms (put_row row db) = <[r_id row := row]> (db_vms db).
Proof. done. Qed.
Lemma put_row_leases row db : db_leases (put_row row db) = db_leases db.
Proof. done. Qed.
Lemma put_row_snapshots row db : db_snapshots (put_row row db) = db_snapshots db.
Proof. done. Qed.
Lemma set_leases_vms ls db : db_vms (db <| db_leases := ls |>) = db_vms db.
Proof. done. Qed.
Lemma set_leases_leases ls db : db_leases (db <| db_leases := ls |>) = ls.
Proof. done. Qed.
Lemma set_leases_snapshots ls db : db_snapshots (db <| db_leases := ls |>) = db_snapshots db.
Proof. done. Qed.
Lemma updatedRow_id old vm : r_id (updatedRow old vm) = vm_ID vm.
Proof. done. Qed.
Lemma updatedRow_status old vm : r_status (updatedRow old vm) = vm_Status vm.
Proof. done. Qed.
Lemma updatedRow_chat old vm : r_chat_id (updatedRow old vm) = vm_ChatID vm.
Proof. done. Qed.
Lemma delete_vm_vms id db : db_vms (delete_vm id db) = delete id (db_vms db).
Proof. done. Qed.
#[export] Hint Rewrite put_row_vms put_row_leases put_row_snapshots set_leases_vms set_leases_leases
  set_leases_snapshots updatedRow_id updatedRow_status updatedRow_chat delete_vm_vms : dbproj.

Lemma bind_inv {W A C} (m : M W A) (k : A -> M W C) w c w' :
  bind m k w = (c, w') -> exists a w1, m w = (a, w1) /\ k a w1 = (c, w').
Proof. unfold bind. destruct (m w) as [a w1]. eauto. Qed.

Lemma bind_ok_inv {W E A C} (m : M W (result E A)) (k : A -> M W (result E C)) w c w' :
  bind_ok m k w = (Ok c, w') -> exists a w1, m w = (Ok a, w1) /\ k a w1 = (Ok c, w').
Proof. unfold bind_ok. destruct (m w) as [[a|e] w1]; [eauto | done]. Qed.

Lemma ret_inv {W A} (a b : A) (w w' : W) : ret a w = (b, w') -> b = a /\ w' = w.
Proof. by intros [= -> ->]. Qed.

Section Facts.
Context {B St : Type}.
Abbreviation W := (World B St).

(** [w'] is [w] with other tables and a later tick. *)
Definition wrote (w w' : W) (db' : DB) : Prop :=
  w_db w' = db' /\ w_env w' = w_env w /\ w_be w' = w_be w /\ w_store w' = w_store w /\
  w_events w' = w_events w /\ w_jobs w' = w_jobs w.

Lemma run_Ok {A} what (f : DB -> res A * DB) (w w' : W) a :
  run what f w = (Ok a, w') -> (f (w_db w)).1 = Ok a /\ wrote w w' (f (w_db w)).2.
Proof.
  rewrite run_eq. destruct (or_fault _ _); [done |]. destruct (f (w_db w)) as [[x|e] db'] eqn:E; cbn; [|done].
  by intros [= <- <-].
Qed.

Lemma GetByID_Ok id (w w' : W) v :
  GetByID id w = (Ok v, w') -> exists row, db_vms (w_db w) !! id = Some row /\ mapVMRow row = Ok v /\ wrote w w' (w_db w).
Proof.
  unfold GetByID, selectOne. intros (o & w1 & H1 & H2)%bind_ok_inv.
  apply run_Ok in H1 as [H1 Hw]. cbn in H1. injection H1 as <-.
  destruct (db_vms (w_db w) !! id) as [row|]; [|done]. injection H2 as ? <-. eauto.
Qed.

Lemma Update_Ok vm (w w' : W) u :
  Update vm w = (Ok u, w') -> exists old, db_vms (w_db w) !! vm_ID vm = Some old /\
    vm_constraint (w_db w) (updatedRow old vm) = None /\ wrote w w' (put_row (updatedRow old vm) (w_db w)).
Proof.
  unfold Update. intros (b & w1 & H1 & H2)%bind_ok_inv. apply run_Ok in H1 as [H1 Hw]. cbn in H1, Hw.
  destruct (db_vms (w_db w) !! vm_ID vm) as [old|] eqn:Ho; [|injection H1 as <-; by cbn in H2]. exists old.
  destruct (vm_constraint (w_db w) (updatedRow old vm)) eqn:Ec; cbn in H1, Hw; [done |].
  injection H1 as <-. cbn in H2. injection H2 as _ <-. done.
Qed.

(** An update that fails leaves the tables alone. *)
Lemma Update_db vm (w : W) :
  match Update vm w with
  | (Ok _, w') => exists old, db_vms (w_db w) !! vm_ID vm = Some old /\ w_db w' = put_row (updatedRow old vm) (w_db w)
  | (Err _, w') => w_db w' = w_db w
  end.
Proof.
  unfold Update, bind_ok. rewrite run_eq. destruct (or_fault _ _); [done |]. destruct w as [en n db be st ev jb]. cbn.
  destruct (db_vms db !! vm_ID vm) as [old|] eqn:Ho; [|done]. destruct (vm_constraint _ _); [done |]. cbn. eauto.
Qed.

Lemma Release_Ok id (w w' : W) u :
  ReleaseActiveLeaseByVM id w = (Ok u, w') -> exists t,
    wrote w w' ((w_db w) <| db_leases := release t id <$> db_leases (w_db w) |>).
Proof.
  unfold ReleaseActiveLeaseByVM. intros (t & w1 & H1 & H2)%bind_inv. injection H1 as <- <-.
  apply run_Ok in H2 as [_ H2]. by eexists.
Qed.

Lemma Release_cases id (w : W) :
  match ReleaseActiveLeaseByVM id w with
  | (Ok _, w') => exists t, w_db w' = (w_db w) <| db_leases := release t id <$> db_leases (w_db w) |> /\ w_events w' = w_events w
  | (Err _, w') => w_db w' = w_db w /\ w_events w' = w_events w
  end.
Proof.
  unfold ReleaseActiveLeaseByVM, bind, now, consult. rewrite run_eq. destruct (or_fault _ _); cbn; eauto.
Qed.

Lemma events_Update vm (w : W) : w_events (Update vm w).2 = w_events w.
Proof. apply (keeps_bind_ok same_events); [go_keeps | intros []; go_keeps]. Qed.

Lemma events_Assign v c d (w : W) : w_events (AssignToChatIfAvailable v c d w).2 = w_events w.
Proof. revert w. change (keeps same_events (AssignToChatIfAvailable v c d : M W _)). unfold AssignToChatIfAvailable. go_keeps. Qed.

Lemma Delete_Ok id (w w' : W) u :
  Delete id w = (Ok u, w') -> is_Some (db_vms (w_db w) !! id) /\ wrote w w' (delete_vm id (w_db w)).
Proof.
  unfold Delete. intros (b & w1 & H1 & H2)%bind_ok_inv. apply run_Ok in H1 as [H1 Hw]. cbn in H1, Hw.
  destruct (db_vms (w_db w) !! id) as [old|]; [|injection H1 as <-; by cbn in H2]. injection H1 as <-. injection H2 as _ <-.
  split; [by eexists | done].
Qed.

Lemma Delete_Err id (w w' : W) e : Delete id w = (Err e, w') -> w_db w' = w_db w /\ w_events w' = w_events w.
Proof.
  unfold Delete, bind_ok. rewrite run_eq. destruct (or_fault _ _); [by intros [= _ <-] |].
  destruct w as [en n db be st ev jb]. cbn. destruct (db_vms db !! id); cbn; [done | by intros [= _ <-]].
Qed.

Lemma ReleaseIP_db id (w : W) : exists db', wrote w (ReleaseIPAddress id w).2 db' /\
  (db' = w_db w \/ exists r, db_vms (w_db w) !! id = Some r /\ db' = put_row (r <| r_ip_address := None |>) (w_db w)).
Proof.
  unfold ReleaseIPAddress. rewrite run_eq. destruct (or_fault _ _); cbn; [exists (w_db w); split; [done | by left] |].
  destruct (db_vms (w_db w) !! id) as [r|] eqn:E; eexists; (split; [done |]); eauto.
Qed.

Lemma SetIP_db id ip (w : W) :
  w_db (SetIPAddress id ip w).2 = w_db w \/
  exists r, db_vms (w_db w) !! id = Some r /\ w_db (SetIPAddress id ip w).2 = put_row (r <| r_ip_address := Some ip |>) (w_db w).
Proof.
  unfold SetIPAddress, bind_ok. rewrite run_eq. destruct (or_fault _ _); [by left |].
  destruct (db_vms (w_db w) !! id) as [r|] eqn:E; cbn; [right; eauto | by left].
Qed.
Lemma events_SetIP id ip (w : W) : w_events (SetIPAddress id ip w).2 = w_events w.
Proof. apply (keeps_bind_ok same_events); [go_keeps | intros []; go_keeps]. Qed.

Lemma Create_cases vm (w : W) :
  match Create vm w with
  | (Ok _, w') => db_vms (w_db w) !! vm_ID vm = None /\ w_db w' = put_row (rowOf vm) (w_db w) /\ w_events w' = w_events w
  | (Err _, w') => w_db w' = w_db w /\ w_events w' = w_events w
  end.
Proof.
  unfold Create. rewrite run_eq. destruct (or_fault _ _); [done |]. destruct w as [en n db be st ev jb]. cbn.
  destruct (db_vms db !! vm_ID vm) eqn:E; [done |]. by destruct (vm_constraint _ _).
Qed.

Lemma wrote_trans (w1 w2 w3 : W) db2 db3 : wrote w1 w2 db2 -> wrote w2 w3 db3 -> wrote w1 w3 db3.
Proof. intros (?&?&?&?&?&?) (?&?&?&?&?&?). split_and!; congruence. Qed.

End Facts.

(** The listings of snapshot_metrics: the newest rows that match, at most the limit, and
    older rows are left out only when the limit is reached. *)
Section metrics_listing.
Context {B S : Type}.
#[local] Instance newest_metrics_trans : Transitive newest_metrics.
Proof. intros a b c. unfold newest_metrics. lia. Qed.
#[local] Instance newest_metrics_total : Total newest_metrics.
Proof. intros a b. unfold newest_metrics. lia. Qed.
Lemma snap_metrics_limit_bounds limit : 1 <= snap_metrics_limit limit <= 5000.
Proof. unfold snap_metrics_limit. repeat case_bool_decide; lia. Qed.
Theorem select_metrics_spec what keep limit (w w' : World B S) ms :
  select_metrics what keep limit w = (Ok ms, w') ->
  w_db w' = w_db w /\ Z.of_nat (length ms) <= 5000 /\
  exists rest, ms ++ rest ≡ₚ List.filter keep (db_snap_metrics (w_db w)) /\ StronglySorted newest_metrics (ms ++ rest) /\
    (rest <> [] -> Z.of_nat (length ms) = snap_metrics_limit limit).
Proof.
  unfold select_metrics. rewrite run_eq. destruct (or_fault _ _); [done |]. cbn. intros [= <- <-].
  pose proof (snap_metrics_limit_bounds limit) as Hl.
  set (n := Z.to_nat (snap_metrics_limit limit)). set (l := merge_sort _ _).
  split_and!; [done | rewrite length_take; lia |]. exists (drop n l). rewrite take_drop. split_and!.
  - apply merge_sort_Permutation.
  - apply StronglySorted_merge_sort; apply _.
  - intros Hr. rewrite length_take. enough (n < length l)%nat by lia.
    destruct (decide (n < length l)%nat); [done |]. destruct Hr. apply drop_ge. lia.
Qed.
End metrics_listing.

(** Leases after a release. *)
Lemma released_not_leased t id ls : id ∉ leased_vms (release t id <$> ls).
Proof.
  rewrite leased_vms_release, list_elem_of_In, filter_In. intros [_ H]. by rewrite bool_decide_eq_true_2 in H.
Qed.
Lemma release_others t id u ls : u <> id -> u ∈ leased_vms (release t id <$> ls) <-> u ∈ leased_vms ls.
Proof.
  intros Hu. rewrite leased_vms_release, !list_elem_of_In, filter_In, bool_decide_eq_false_2 by done. cbn. tauto.
Qed.

(** The next call of a successful operation: [step_ok H as a w' Ha] names its
    value, the world after it and its equation; [H] is the rest. *)
Tactic Notation "step_ok" hyp(H) "as" simple_intropattern(a) simple_intropattern(w) simple_intropattern(Ha) :=
  cbv zeta in H;
  lazymatch type of H with
  | bind_ok _ _ _ = _ => apply bind_ok_inv in H as (a & w & Ha & H)
  | bind _ _ _ = _ => apply bind_inv in H as (a & w & Ha & H)
  end.
