(* ===== verification/VMExec.v ===== *)
(** * Commands, files and the workspace: src/service/vm/service.go

    Waiting for the guest's command channel, running a command with retries, the
    guest file operations, and mounting, archiving and unmounting the workspace
    around a VM's life. *)

From S2P Require Import Prelude Exception Naming GoLib Domain World PgRepo IPAlloc Interfaces Hoare.

Definition executeReadinessMaxAttempts : nat := 12.
Definition executeMaxAttempts : nat := 3.
Definition defaultWorkspaceSizeGB : Z := 2.
Definition workspaceMountPath : string := "/workspace".
Definition workspaceBaseDir : string := "/var/lib/firecracker/vms".

(** ** Pure helpers *)

Definition isRuntimeReadyForExecute (status : RuntimeStatus) : bool :=
  bool_decide (to_lower (trim_space (rs_State status)) = "running") && bool_decide (rs_PID status > 0)
  && negb (bool_decide (rs_VsockPath status = "")) && bool_decide (rs_GuestCID status > 0).

Definition transientSubstrings : list string :=
  [ "vsock command channel is not configured"; "connect guest agent"; "open guest vsock stream";
    "read execute response"; "guest vsock connect failed"; "agent_unavailable"; "connection refused";
    "no such file or directory"; "timeout" ].
Definition isTransientExecuteError (err : error) : bool :=
  existsb (contains (to_lower (Error err))) transientSubstrings.

Definition newline : string := str1 (chr 10).
Definition buildCommandErrorOutput (stdout stderr : string) (exitCode : Z) : string :=
  let stderr := trim_space stderr in
  let stdout := trim_space stdout in
  let parts := (if bool_decide (stderr = "") then [] else ["stderr:" +:+ newline +:+ stderr])
            ++ (if bool_decide (stdout = "") then [] else ["stdout:" +:+ newline +:+ stdout]) in
  match parts with
  | [] => "command exited with code " +:+ fmt_d exitCode +:+ " (no output)"
  | _ => "command exited with code " +:+ fmt_d exitCode +:+ newline +:+ join newline parts
  end.

Definition logPreview (text : string) (limit : Z) : string :=
  let normalized := trim_space text in
  if bool_decide (normalized = "") then ""
  else
    let normalized := replace_byte (chr 10) "\n" (replace_byte (chr 13) "\r" normalized) in
    if bool_decide (limit <= 0) || bool_decide (Z.of_nat (str_len normalized) <= limit) then normalized
    else take_str (Z.to_nat limit) normalized +:+ "...(truncated)".

Definition workspaceImagePath (vmID : string) : string := filepath_Join [workspaceBaseDir; vmID; "workspace.ext4"].
Definition workspaceSnapshotKey (conversationID : string) : string := "workspaces/" +:+ conversationID +:+ ".tar.gz".
Definition workspaceArchivePath (vmID : string) : string := filepath_Join [workspaceBaseDir; vmID; "workspace.tar.gz"].

Definition shell (command : string) : list string := ["/bin/sh"; "-c"; command].
Definition mountCmd : string :=
  "mkdir -p " +:+ workspaceMountPath +:+ " && if ! mountpoint -q " +:+ workspaceMountPath
  +:+ "; then mount -L workspace " +:+ workspaceMountPath +:+ " || mount /dev/vdb " +:+ workspaceMountPath +:+ "; fi".
Definition umountCmd : string :=
  "sync && if mountpoint -q " +:+ workspaceMountPath +:+ "; then umount " +:+ workspaceMountPath
  +:+ " || umount -l " +:+ workspaceMountPath +:+ "; fi".
Definition archiveCmd : string := "tar czf - -C /workspace --exclude=./lost+found . | base64 -w0".

Section Exec.
Context {B St : Type} `{!Backend B, !Storage St}.
Abbreviation W := (World B St).
Context (s : Service).
Local Open Scope go_scope.

(** [notifyHook] and [refreshIdleDeadline] *)
Definition notifyHook (evt : Event) : M W unit := if svc_hook s then emit evt else ret tt.
Definition refreshIdleDeadline (vm : VM) : M W VM :=
  let* t := now in ret (vm <| vm_IdleDeadlineAt := Some (t + svc_idleTimeout s) |>).

Definition execute (id : string) (argv : list string) : M W ExecResult := on_backend (be_Execute id argv).

(** ** Readiness *)

Definition not_ready : error := ServiceUnavailable "VM command channel is not ready yet, retry shortly".

(** One attempt: the host reports the VM running and the guest answers a probe. *)
Definition probe_ready (vmID : string) : M W bool :=
  let* st := on_backend (be_Status vmID) in
  match st with
  | Err _ => ret false
  | Ok status =>
      if negb (isRuntimeReadyForExecute status) then ret false
      else
        let* r := execute vmID ["/bin/true"] in
        ret (bool_decide (ex_err r = None))
  end.

(** [waitForExecuteReadiness] with [left] attempts to go. *)
Fixpoint wait_attempts (left : nat) (vmID : string) : M W (res unit) :=
  match left with
  | O => ret (Err not_ready)
  | S left' =>
      let* ok := probe_ready vmID in
      if (ok : bool) then ret (Ok tt)
      else match left' with
           | O => ret (Err not_ready)
           | _ =>
               let* awake := sleepWithContext in
               if (awake : bool) then wait_attempts left' vmID
               else ret (Err (ServiceUnavailable "VM readiness check canceled"))
           end
  end.
Definition waitForExecuteReadiness : string -> M W (res unit) := wait_attempts executeReadinessMaxAttempts.

(** ** Commands *)

(** [refreshIdleDeadline] and [repo.Update], whose error is only logged. *)
Definition touch (vm : VM) : M W unit :=
  let* vm := refreshIdleDeadline vm in
  let* _ := Update vm in
  ret tt.

Fixpoint command_attempts (left : nat) (vm : VM) (id command : string) : M W (string * option error) :=
  match left with
  | O => ret ("", Some (Internal (EText "command execution failed for unknown reason")))
  | S left' =>
      let* r := execute id (shell command) in
      match ex_err r with
      | None => let* _ := touch vm in ret (ex_stdout r, None)
      | Some execErr =>
          if negb (isTransientExecuteError execErr) then
            if bool_decide (ex_code r >= 0) then
              let* _ := touch vm in
              ret (buildCommandErrorOutput (ex_stdout r) (ex_stderr r) (ex_code r), Some (Internal execErr))
            else ret ("", Some (Internal execErr))
          else match left' with
               | O => ret ("", Some (ServiceUnavailable "VM command channel is still initializing, retry shortly"))
               | _ =>
                   let* awake := sleepWithContext in
                   if (awake : bool) then command_attempts left' vm id command
                   else ret ("", Some (ServiceUnavailable "VM command execution canceled while waiting to retry"))
               end
      end
  end.

(** The guards of ExecuteCommand, ReadFile, WriteFile and EditFile. *)
Definition active_and_ready (id : string) : M W (res VM) :=
  let? vm := GetByID id in
  if negb (IsActive (vm_Status vm)) then ret (Err (BadRequest "VM is not active"))
  else
    let? _ := waitForExecuteReadiness id in
    ret (Ok vm).

Definition ExecuteCommand (id command : string) : M W (string * option error) :=
  let* g := active_and_ready id in
  match g with
  | Err e => ret ("", Some e)
  | Ok vm => command_attempts executeMaxAttempts vm id command
  end.

(** A file operation of the guest agent, with its error as an internal one. *)
Definition guest_file_op {A} (id : string) (op : B -> res A * B) : M W (res A) :=
  let? vm := active_and_ready id in
  let* r := on_backend op in
  match r with
  | Err e => ret (Err (Internal e))
  | Ok a => let* _ := touch vm in ret (Ok a)
  end.
Definition ReadFile (id path : string) (offset limit : Z) : M W (res string) :=
  guest_file_op id (be_ReadFile id path offset limit).
Definition WriteFile (id path content : string) (mode : Z) : M W (res unit) :=
  guest_file_op id (be_WriteFile id path content mode).
Definition EditFile (id path oldString newString : string) (replaceAll : bool) : M W (res unit) :=
  guest_file_op id (be_EditFile id path oldString newString replaceAll).

(** [executeGuestShellWithRetryResult]; [last] is the last error seen. *)
Fixpoint guest_shell_attempts (left : nat) (last : option error) (runtimeID command : string) : M W (res string) :=
  match left with
  | O => ret (Err (default (EText "workspace command failed") last))
  | S left' =>
      let* r := execute runtimeID (shell command) in
      match ex_err r with
      | None => ret (Ok (ex_stdout r))
      | Some err =>
          if bool_decide (left' = O) || negb (isTransientExecuteError err) then ret (Err err)
          else
            let* awake := sleepWithContext in
            if (awake : bool) then guest_shell_attempts left' (Some err) runtimeID command
            else ret (Err (ServiceUnavailable "workspace command execution canceled"))
      end
  end.
Definition executeGuestShellWithRetryResult (runtimeID command : string) (attempts : Z) : M W (res string) :=
  guest_shell_attempts (Z.to_nat (if bool_decide (attempts <= 0) then 1 else attempts)) None runtimeID command.
Definition executeGuestShellWithRetry (runtimeID command : string) (attempts : Z) : M W (res unit) :=
  let? _ := executeGuestShellWithRetryResult runtimeID command attempts in
  ret (Ok tt).

(** ** The workspace *)

(** The deferred clean-up of the extraction: sync, unmount (lazily if that
    fails), then remove the mount point. *)
Definition unmount_host (hostMountDir : string) : M W unit :=
  let* _ := on_store (st_Command ["sync"]) in
  let* u := on_store (st_Command ["umount"; hostMountDir]) in
  match snd u with
  | Some _ => let* _ := on_store (st_Command ["umount"; "-l"; hostMountDir]) in ret tt
  | None => ret tt
  end.

Definition extractWorkspaceArchiveOnHost (runtimeID archivePath : string) (archiveSize : Z) : M W (res unit) :=
  if bool_decide (archiveSize = 0) then
    let* _ := on_store (st_Remove archivePath) in ret (Ok tt)
  else
    let imagePath := workspaceImagePath runtimeID in
    let* img := on_store (st_Stat imagePath) in
    match img with
    | Err e => ret (Err (wrapf "workspace image not found for host-side extraction: " e))
    | Ok _ =>
        let hostMountDir := filepath_Join [workspaceBaseDir; runtimeID; "host_mnt"] in
        let* mk := on_store (st_MkdirAll hostMountDir) in
        match mk with
        | Err e => ret (Err (wrapf "create host mount dir: " e))
        | Ok _ =>
            let* m := on_store (st_Command ["mount"; "-o"; "loop"; imagePath; hostMountDir]) in
            match m with
            | (out, Some e) =>
                let* _ := on_store (st_Remove hostMountDir) in
                ret (Err (EWrap "host loop-mount workspace image: " e (" (output: " +:+ out +:+ ")")))
            | (_, None) =>
                let* t := on_store (st_Command ["tar"; "xzf"; archivePath; "-C"; hostMountDir]) in
                let* r := match t with
                          | (out, Some e) =>
                              ret (Err (EWrap "extract workspace archive on host: " e (" (output: " +:+ out +:+ ")")))
                          | (_, None) =>
                              let* _ := on_store (st_Remove archivePath) in ret (Ok tt)
                          end in
                let* _ := unmount_host hostMountDir in
                let* _ := on_store (st_Remove hostMountDir) in
                ret r
            end
        end
    end.

Definition ensureWorkspaceMounted (runtimeID : string) : M W (res unit) :=
  let? _ := waitForExecuteReadiness runtimeID in
  let archivePath := workspaceArchivePath runtimeID in
  let* info := on_store (st_Stat archivePath) in
  let? _ := match info with
            | Ok size => extractWorkspaceArchiveOnHost runtimeID archivePath size
            | Err _ => ret (Ok tt)
            end in
  let* r := execute runtimeID (shell mountCmd) in
  match ex_err r with
  | Some e => ret (Err (EWrap "mount workspace: " e (" (exit_code=" +:+ fmt_d (ex_code r) +:+ ")")))
  | None => ret (Ok tt)
  end.

Definition syncAndUnmountWorkspace (runtimeID : string) : M W (res unit) :=
  let* ready := waitForExecuteReadiness runtimeID in
  match ready with
  | Err e => ret (Err (wrapf "workspace command channel not ready: " e))
  | Ok _ => executeGuestShellWithRetry runtimeID umountCmd 2
  end.

(** The part of uploadWorkspaceSnapshot between MkdirTemp and the deferred RemoveAll. *)
Definition archive_and_upload (tmpDir runtimeID conversationID : string) : M W (res unit) :=
  let tarPath := filepath_Join [tmpDir; "workspace.tar.gz"] in
  let* out := executeGuestShellWithRetryResult runtimeID archiveCmd 2 in
  match out with
  | Err e => ret (Err (wrapf "archive workspace via guest: " e))
  | Ok stdout =>
      match DecodeString (trim_space stdout) with
      | Err e => ret (Err (wrapf "decode base64 archive: " e))
      | Ok decoded =>
          let* wr := on_store (st_WriteFile tarPath decoded) in
          match wr with
          | Err e => ret (Err (wrapf "write archive: " e))
          | Ok _ =>
              let key := workspaceSnapshotKey conversationID in
              let* up := on_store (st_UploadFiles [{| sf_Key := key; sf_LocalPath := tarPath |}]) in
              match up with
              | Err e => ret (Err (wrapf ("upload workspace archive " +:+ key +:+ ": ") e))
              | Ok _ => ret (Ok tt)
              end
          end
      end
  end.

Definition uploadWorkspaceSnapshot (runtimeID vmID conversationID : string) : M W (res unit) :=
  if negb (svc_snapshotStore s) then ret (Ok tt)
  else
    let conversationID := trim_space conversationID in
    if bool_decide (conversationID = "") then ret (Err (EText "missing conversation_id for workspace snapshot"))
    else
      let* st := on_store (st_Stat (workspaceImagePath vmID)) in
      match st with
      | Err e => if st_not_exist e then ret (Ok tt) else ret (Err (wrapf "stat workspace image: " e))
      | Ok _ =>
          let* tmp := on_store (st_MkdirTemp ("workspace-upload-" +:+ vmID)) in
          match tmp with
          | Err e => ret (Err (wrapf "create temp dir: " e))
          | Ok tmpDir =>
              let* r := archive_and_upload tmpDir runtimeID conversationID in
              let* _ := on_store (st_RemoveAll tmpDir) in
              ret r
          end
      end.

Definition teardownWorkspace (vm : VM) (runtimeID : string) : M W (res unit) :=
  let runtimeID := if bool_decide (runtimeID = "") then vm_ID vm else runtimeID in
  let* up := uploadWorkspaceSnapshot runtimeID (vm_ID vm) (vm_ConversationID vm) in
  let* un := syncAndUnmountWorkspace runtimeID in
  let failures := (match up with Err e => ["upload workspace snapshot: " +:+ Error e] | Ok _ => [] end)
               ++ (match un with Err e => ["unmount workspace: " +:+ Error e] | Ok _ => [] end) in
  match failures with
  | [] => ret (Ok tt)
  | _ => ret (Err (EText (join "; " failures)))
  end.

Definition prepareWorkspaceImageFromStorage (vmID conversationID : string) : M W (res unit) :=
  if negb (svc_snapshotStore s) then ret (Ok tt)
  else
    let conversationID := trim_space conversationID in
    if bool_decide (conversationID = "") then ret (Ok tt)
    else
      let key := workspaceSnapshotKey conversationID in
      let? exists_ := on_store (st_ObjectExists key) in
      if negb exists_ then ret (Ok tt)
      else
        let* mk := on_store (st_MkdirAll (filepath_Join [workspaceBaseDir; vmID])) in
        match mk with
        | Err e => ret (Err (wrapf "create workspace directory: " e))
        | Ok _ =>
            let* dl := on_store (st_DownloadFiles [{| sf_Key := key; sf_LocalPath := workspaceArchivePath vmID |}]) in
            match dl with
            | Err e => ret (Err (wrapf ("download workspace archive " +:+ key +:+ ": ") e))
            | Ok _ => ret (Ok tt)
            end
        end.

End Exec.

(** ** What the helpers leave alone *)

Section Frames.
Context {B St : Type} `{!Backend B, !Storage St}.
Abbreviation W := (World B St).
Context (s : Service) (R : W -> W -> Prop) `{!OutsideFrame R}.

Lemma keeps_refreshIdleDeadline vm : keeps R (refreshIdleDeadline s vm).
Proof. unfold refreshIdleDeadline. go_keeps. Qed.
Lemma keeps_execute id argv : keeps R (execute id argv).
Proof. unfold execute. go_keeps. Qed.
Hint Resolve keeps_execute : keeps.

Lemma keeps_probe_ready id : keeps R (probe_ready id).
Proof. unfold probe_ready. go_keeps. Qed.
Hint Resolve keeps_probe_ready : keeps.
Lemma keeps_wait_attempts n id : keeps R (wait_attempts n id).
Proof. induction n; cbn [wait_attempts]; go_keeps. Qed.
Lemma keeps_waitForExecuteReadiness id : keeps R (waitForExecuteReadiness id).
Proof. apply keeps_wait_attempts. Qed.
Lemma keeps_guest_shell_attempts n last id cmd : keeps R (guest_shell_attempts n last id cmd).
Proof. revert last. induction n; intros last; cbn [guest_shell_attempts]; go_keeps. Qed.
Hint Resolve keeps_waitForExecuteReadiness keeps_guest_shell_attempts : keeps.

Lemma keeps_unmount_host d : keeps R (unmount_host d).
Proof. unfold unmount_host. go_keeps. Qed.
Hint Resolve keeps_unmount_host : keeps.
Lemma keeps_extract id path size : keeps R (extractWorkspaceArchiveOnHost id path size).
Proof. unfold extractWorkspaceArchiveOnHost. go_keeps. Qed.
Hint Resolve keeps_extract : keeps.
Lemma keeps_ensureWorkspaceMounted id : keeps R (ensureWorkspaceMounted id).
Proof. unfold ensureWorkspaceMounted. go_keeps. Qed.
Lemma keeps_syncAndUnmountWorkspace id : keeps R (syncAndUnmountWorkspace id).
Proof. unfold syncAndUnmountWorkspace, executeGuestShellWithRetry, executeGuestShellWithRetryResult. go_keeps. Qed.
Lemma keeps_archive_and_upload d id conv : keeps R (archive_and_upload d id conv).
Proof. unfold archive_and_upload, executeGuestShellWithRetryResult. go_keeps. Qed.
Hint Resolve keeps_archive_and_upload keeps_syncAndUnmountWorkspace : keeps.
Lemma keeps_uploadWorkspaceSnapshot id vmid conv : keeps R (uploadWorkspaceSnapshot s id vmid conv).
Proof. unfold uploadWorkspaceSnapshot. go_keeps. Qed.
Hint Resolve keeps_uploadWorkspaceSnapshot : keeps.
Lemma keeps_teardownWorkspace vm id : keeps R (teardownWorkspace s vm id).
Proof. unfold teardownWorkspace. go_keeps. Qed.
Lemma keeps_prepareWorkspaceImage vmid conv : keeps R (prepareWorkspaceImageFromStorage s vmid conv).
Proof. unfold prepareWorkspaceImageFromStorage. go_keeps. Qed.
End Frames.

#[export] Hint Resolve keeps_refreshIdleDeadline keeps_execute keeps_waitForExecuteReadiness keeps_ensureWorkspaceMounted
  keeps_teardownWorkspace keeps_prepareWorkspaceImage keeps_guest_shell_attempts : keeps.

Lemma keeps_db_notifyHook {B St} (s : Service) e : keeps same_db (notifyHook s e : M (World B St) _).
Proof. unfold notifyHook. go_keeps. Qed.
#[export] Hint Resolve keeps_db_notifyHook : keeps.

