(* ===== verification/VMSnapshot.v ===== *)
(** * Snapshots of a VM: src/service/vm/service.go

    Taking a snapshot (full or incremental, with its disk strategy and the upload
    of its files), the chain of an incremental snapshot, and the garbage
    collectors.  The two loops over parent links and the delete-until-done loop
    carry fuel; [diverged] is the value of a loop that has run out of it. *)

From S2P Require Import Prelude Exception Naming GoLib Domain World PgRepo IPAlloc Interfaces Hoare VMExec.

Definition diverged : error := EText "the loop does not terminate".

(** ** The parent chain *)

(** [byID[id]] of collectAncestors: the last snapshot with the id wins. *)
Definition byID (all : list Snapshot) (id : string) : option Snapshot :=
  List.find (fun s => bool_decide (sn_ID s = id)) (rev all).

(** The ids of the ancestors of [leaf] within [all], nearest first. *)
Fixpoint collectAncestors (fuel : nat) (leaf : Snapshot) (all : list Snapshot) : list string :=
  match fuel with
  | O => []
  | S fuel' =>
      match sn_ParentSnapshotID leaf with
      | None => []
      | Some p =>
          match byID all p with
          | None => []
          | Some parent => sn_ID parent :: collectAncestors fuel' parent all
          end
      end
  end.

Definition snapshotPrefix (vmID snapID : string) : string := "snapshots/" +:+ vmID +:+ "/" +:+ snapID.

(** The files of a snapshot that are uploaded, by disk strategy. *)
Definition snapshotFiles (diskType : string) : list string :=
  ["memory"; "state"]
  ++ (if bool_decide (diskType ∈ ["full"; "self_contained"; ""]) then ["disk"]
      else if bool_decide (diskType = "incremental") then ["cow"] else []).

Section Snapshots.
Context {B St : Type} `{!Backend B, !Storage St}.
Abbreviation W := (World B St).
Context (s : Service).
Local Open Scope go_scope.

(** ** Deleting *)

Definition is_child_of (id : string) (c : Snapshot) : bool := bool_decide (sn_ParentSnapshotID c = Some id).

Definition DeleteSnapshot (snapshotID : string) : M W (res unit) :=
  let? snap := SnapGetByID snapshotID in
  let? snaps := SnapGetByVMID (sn_VMID snap) in
  if existsb (is_child_of snapshotID) snaps
  then ret (Err (BadRequest "cannot delete snapshot because it has children"))
  else
    let* _ := if svc_snapshotStore s
              then on_store (st_DeletePrefix (snapshotPrefix (sn_VMID snap) (sn_ID snap)))
              else ret (Ok tt) in
    SnapDelete snapshotID.

(** One pass of deleteAllSnapshots over the listed snapshots: was any deleted? *)
Fixpoint delete_pass (l : list Snapshot) : M W bool :=
  match l with
  | [] => ret false
  | x :: l' =>
      let* r := DeleteSnapshot (sn_ID x) in
      let* later := delete_pass l' in
      ret (is_Ok r || later)
  end.

Fixpoint delete_all_loop (fuel : nat) (vmID : string) : M W (res unit) :=
  match fuel with
  | O => ret (Err diverged)
  | S fuel' =>
      let? snaps := SnapGetByVMID vmID in
      match snaps with
      | [] => ret (Ok tt)
      | _ =>
          let* deleted := delete_pass (rev snaps) in
          if (deleted : bool) then delete_all_loop fuel' vmID else ret (Ok tt)
      end
  end.

(** Every round that continues has removed a row, so one round more than there
    are rows is enough. *)
Definition deleteAllSnapshots (vmID : string) : M W (res unit) := fun w =>
  if svc_snapRepo s then delete_all_loop (S (size (db_snapshots (w_db w)))) vmID w else ret (Ok tt) w.

Definition snapshotGC (vmID latestID : string) : M W unit :=
  let* r := SnapGetByVMID vmID in
  match r with
  | Err _ => ret tt
  | Ok snaps =>
      if bool_decide (length snaps <= 1)%nat then ret tt
      else
        match List.find (fun x => bool_decide (sn_ID x = latestID)) snaps with
        | None => ret tt
        | Some latest =>
            let protected := sn_ID latest :: collectAncestors (length snaps) latest snaps in
            for_each snaps (fun snap =>
              if bool_decide (sn_ID snap ∈ protected) then ret tt
              else let* _ := DeleteSnapshot (sn_ID snap) in ret tt)
        end
  end.

Definition gcOrphanedSnapshots : M W unit :=
  let* r := ListOrphaned (60 * minute) in
  match r with
  | Err _ => ret tt
  | Ok orphans => for_each orphans (fun snap => let* _ := DeleteSnapshot (sn_ID snap) in ret tt)
  end.

Definition HasSnapshot (vmID : string) : M W bool :=
  if negb (svc_snapRepo s) then ret false
  else let* r := GetLatestByVMID vmID in ret (is_Ok r).

(** ** The restore chain *)

(** [resolveCowChain] before its reversal: the leaf first. *)
Fixpoint cow_walk (fuel : nat) (current : Snapshot) : M W (res (list Snapshot)) :=
  match fuel with
  | O => ret (Err diverged)
  | S fuel' =>
      match sn_ParentSnapshotID current with
      | None => ret (Ok [current])
      | Some p =>
          let* r := SnapGetByID p in
          match r with
          | Err e => ret (Err (wrapf ("get parent snapshot " +:+ p +:+ ": ") e))
          | Ok parent =>
              if bool_decide (sn_Type parent = TypeFull) then ret (Ok [current; parent])
              else
                let? rest := cow_walk fuel' parent in
                ret (Ok (current :: rest))
          end
      end
  end.
Definition resolveCowChain (leaf : Snapshot) : M W (res (list Snapshot)) := fun w =>
  (let? chain := cow_walk (S (size (db_snapshots (w_db w)))) leaf in ret (Ok (rev chain))) w.

(** ** Taking a snapshot *)

Definition shouldCreateFullDisk (vmID : string) : M W bool :=
  let cfg := svc_snapDiskCfg s in
  if negb (bool_decide (dc_DiskMode cfg = "incremental")) then ret true
  else
    let* r := GetLatestByVMID vmID in
    match r with
    | Err _ => ret true
    | Ok previous =>
        match ParseMetadata previous with
        | Ok (Some meta) =>
            if bool_decide (sm_DiskChainLength meta + 1 >= dc_MaxChainLength cfg) then ret true
            else
              let* t := now in
              ret (bool_decide (t - sn_CreatedAt previous > dc_MaxChainAgeMinutes cfg * minute))
        | _ => ret true
        end
    end.

Definition resolveChainLength (vmID diskType : string) : M W Z :=
  if negb (bool_decide (diskType = "incremental")) then ret 0
  else
    let* r := GetLatestByVMID vmID in
    match r with
    | Err _ => ret 0
    | Ok previous =>
        match ParseMetadata previous with
        | Ok (Some meta) => ret (sm_DiskChainLength meta + 1)
        | _ => ret 0
        end
    end.

(** The upload list of one file: its sparse-region manifest when it is the memory
    of an incremental snapshot, then the file itself, compressed if possible. *)
Definition stage_file (snapDir s3Prefix : string) (snapType : SnapType) (name : string) : M W (list SnapshotFile) :=
  let localPath := filepath_Join [snapDir; name] in
  let* st := on_store (st_Stat localPath) in
  match st with
  | Err _ => ret []
  | Ok _ =>
      let* manifest :=
        if bool_decide (name = "memory") && bool_decide (snapType = TypeIncremental) then
          let* ex := on_store (st_ExtractSparseRegions localPath) in
          match ex with
          | Ok (_ :: _ as regions) =>
              let manifestPath := localPath +:+ ".manifest" in
              let* wr := on_store (st_WriteManifest manifestPath regions) in
              ret (if is_Ok wr then [{| sf_Key := s3Prefix +:+ "/memory.manifest"; sf_LocalPath := manifestPath |}]
                   else [])
          | _ => ret []
          end
        else ret [] in
      let zstPath := localPath +:+ ".zst" in
      let* comp := on_store (st_CompressFileZstd localPath zstPath) in
      ret (manifest ++ [match comp with
                        | Err _ => {| sf_Key := s3Prefix +:+ "/" +:+ name; sf_LocalPath := localPath |}
                        | Ok _ => {| sf_Key := s3Prefix +:+ "/" +:+ name +:+ ".zst"; sf_LocalPath := zstPath |}
                        end])
  end.

Fixpoint stage_files (snapDir s3Prefix : string) (snapType : SnapType) (names : list string) : M W (list SnapshotFile) :=
  match names with
  | [] => ret []
  | name :: names' =>
      let* f := stage_file snapDir s3Prefix snapType name in
      let* fs := stage_files snapDir s3Prefix snapType names' in
      ret (f ++ fs)
  end.

(** Upload to object storage when it is configured; on failure the local files stay. *)
Definition upload_snapshot (diskType : string) (snap : Snapshot) : M W Snapshot :=
  if negb (svc_snapshotStore s) then ret snap
  else
    let s3Prefix := snapshotPrefix (sn_VMID snap) (sn_ID snap) in
    let* files := stage_files (sn_SnapshotPath snap) s3Prefix (sn_Type snap) (snapshotFiles diskType) in
    let* up := on_store (st_UploadFiles files) in
    match up with
    | Err _ => ret snap
    | Ok uploaded =>
        let* _ := on_store (st_RemoveAll (sn_SnapshotPath snap)) in
        ret (snap <| sn_SnapshotPath := s3Prefix |> <| sn_SizeBytes := uploaded |>)
    end.

(** The type and the parent of the next snapshot. *)
Definition next_snapshot_type (vm : VM) (vmID : string) : M W (SnapType * option string) :=
  if vm_DiffSnapshotsEnabled vm then
    let* r := GetLatestByVMID vmID in
    ret (match r with
         | Ok previousSnap => (TypeIncremental, Some (sn_ID previousSnap))
         | Err _ => (TypeFull, None)
         end)
  else ret (TypeFull, None).

(** The chain root recorded for the memory merge. *)
Definition base_snapshot_id (vmID : string) (parentID : option string) : M W string :=
  match parentID with
  | None => ret ""
  | Some p =>
      let* r := GetLatestFull vmID in
      ret (match r with Ok baseFull => sn_ID baseFull | Err _ => p end)
  end.

Definition snapshot_metadata (vm : VM) (env : Environment) (baseID diskType : string) (chainLength : Z)
  : SnapshotMetadata :=
  {| sm_EnvironmentID := vm_EnvironmentID vm;
     sm_ImagePath := env_ImagePath env;
     sm_VCPU := GetVCPU vm (env_GetVCPU env);
     sm_MemoryMB := GetMemoryMB vm (env_GetMemoryMB env);
     sm_DiskMB := GetDiskMB vm (env_GetDiskMB env);
     sm_GuestCID := default 0 (vm_GuestCID vm);
     sm_GuestPort := 10789;
     sm_RootfsPath := filepath_Join ["/var/lib/firecracker/vms"; vm_ID vm; "rootfs.ext4"];
     sm_DiffSnapshots := vm_DiffSnapshotsEnabled vm;
     sm_BaseImagePath := env_ImagePath env;
     sm_BaseSnapshotID := baseID;
     sm_CowDeviceName := "";
     sm_DiskSnapshotType := diskType;
     sm_DiskChainLength := chainLength |}.

Definition creation_metrics (snap : Snapshot) (r : SnapshotResult) (t : Z) : SnapshotMetrics :=
  {| mx_SnapshotID := sn_ID snap; mx_VMID := sn_VMID snap; mx_Type := sn_Type snap;
     mx_PauseDurationMs := sr_PauseDurationMs r; mx_MemoryBytes := sr_MemoryBytes r; mx_MemoryZstBytes := 0;
     mx_CowBytes := sr_CowBytes r; mx_CowZstBytes := 0; mx_DiskBytes := sr_DiskBytes r; mx_UploadDurationMs := 0;
     mx_DownloadDurationMs := 0; mx_DecompressDurationMs := 0; mx_RestoreDurationMs := 0; mx_AgentReadyMs := 0; mx_TotalResumeMs := 0;
     mx_GuestRAMMB := 0; mx_WorkloadType := ""; mx_ChainDepth := 0; mx_CreatedAt := t |}.

Definition CreateSnapshot (vmID : string) : M W (res Snapshot) :=
  let? vm := GetByID vmID in
  if negb (IsActive (vm_Status vm)) then ret (Err (BadRequest "VM is not active, cannot create snapshot"))
  else
    let* e := EnvGetByID (vm_EnvironmentID vm) in
    match e with
    | Err _ => ret (Err (NotFound "environment" (vm_EnvironmentID vm)))
    | Ok env =>
        let* next := next_snapshot_type vm vmID in
        let '(snapType, parentID) := next in
        let* fullDisk := shouldCreateFullDisk vmID in
        let mode := dc_DiskMode (svc_snapDiskCfg s) in
        let diskType := if bool_decide (mode = "incremental") && fullDisk then "full" else mode in
        let* chainLength := resolveChainLength vmID diskType in
        let* baseID := base_snapshot_id vmID parentID in
        let meta := snapshot_metadata vm env baseID diskType chainLength in
        let* r := on_backend (be_CreateSnapshot vmID fullDisk) in
        match r with
        | Err err => ret (Err (Internal err))
        | Ok snapResult =>
            let* id := new_uuid in
            let* t := now in
            let size := i64 (sr_MemoryBytes snapResult + sr_CowBytes snapResult + sr_DiskBytes snapResult) in
            let* snap := upload_snapshot diskType
                           (newSnapshot id t vmID parentID snapType (sr_SnapshotDir snapResult) size (MetaJSON meta)) in
            let? _ := SnapCreate snap in
            let* t := now in
            let* _ := MetricsInsert (creation_metrics snap snapResult t) in
            let* _ := spawn (JobSnapshotGC vmID (sn_ID snap)) in
            ret (Ok snap)
        end
    end.

(** The goroutines, when they get to run. *)
Definition run_job (j : Job) : M W unit :=
  match j with
  | JobSnapshotGC vmID latestID => snapshotGC vmID latestID
  | JobDeleteAll vmID => let* _ := deleteAllSnapshots vmID in ret tt
  end.

End Snapshots.
