(* ===== verification/SnapFacts.v ===== *)
(** * Snapshots: taking, chaining and collecting them

    What CreateSnapshot writes; the length of disk chains; the restore chain of a
    snapshot; the garbage collectors.

    At the end a concrete backend, store and service: the instances the worked examples run on: a backend on which every call
    succeeds, a store that holds nothing and accepts everything, and a service
    with a hook and an address range. *)

From S2P Require Import Prelude Exception Naming GoLib Domain World PgRepo IPAlloc Interfaces Hoare Invariants VMExec VMSnapshot.

(** ** Frames *)

Section Frames.
Context {B St : Type} `{!Backend B, !Storage St}.
Abbreviation W := (World B St).
Context (s : Service).

Lemma keeps_db_shouldCreateFullDisk v : keeps same_db (shouldCreateFullDisk s v : M W _).
Proof. unfold shouldCreateFullDisk. go_keeps. Qed.
Lemma keeps_db_resolveChainLength v d : keeps same_db (resolveChainLength v d : M W _).
Proof. unfold resolveChainLength. go_keeps. Qed.
Lemma keeps_db_next_snapshot_type vm v : keeps same_db (next_snapshot_type vm v : M W _).
Proof. unfold next_snapshot_type. go_keeps. Qed.
Lemma keeps_db_base_snapshot_id v p : keeps same_db (base_snapshot_id v p : M W _).
Proof. unfold base_snapshot_id. go_keeps. Qed.

Lemma keeps_stage_file (R : W -> W -> Prop) `{!OutsideFrame R} d p t n : keeps R (stage_file d p t n).
Proof. unfold stage_file. go_keeps. Qed.
Hint Resolve keeps_stage_file : keeps.
Lemma keeps_stage_files (R : W -> W -> Prop) `{!OutsideFrame R} d p t ns : keeps R (stage_files d p t ns).
Proof. induction ns; cbn [stage_files]; go_keeps. Qed.
Hint Resolve keeps_stage_files : keeps.
Lemma keeps_upload_snapshot (R : W -> W -> Prop) `{!OutsideFrame R} d sn : keeps R (upload_snapshot s d sn).
Proof. unfold upload_snapshot. go_keeps. Qed.

Lemma keeps_db_cow_walk n sn : keeps same_db (cow_walk n sn : M W _).
Proof. revert sn. induction n; intros sn; cbn [cow_walk]; go_keeps. Qed.
Lemma keeps_db_resolveCowChain sn : keeps same_db (resolveCowChain sn : M W _).
Proof.
  intros w. unfold resolveCowChain. apply keeps_bind_ok; [apply _ | apply keeps_db_cow_walk |].
  intros c. go_keeps.
Qed.
End Frames.
#[export] Hint Resolve keeps_db_shouldCreateFullDisk keeps_db_resolveChainLength keeps_db_next_snapshot_type
  keeps_db_base_snapshot_id keeps_upload_snapshot keeps_db_resolveCowChain : keeps.

(** ** The snapshots of a VM *)

Lemma elem_of_snaps_of db v sn :
  sn ∈ snaps_of db v <-> exists i, db_snapshots db !! i = Some sn /\ sn_VMID sn = v.
Proof.
  unfold snaps_of. rewrite merge_sort_Permutation, list_elem_of_In, filter_In, <- list_elem_of_In,
    list_elem_of_fmap, bool_decide_eq_true. split.
  - intros [([i x] & -> & Hx) E]. exists i. by rewrite elem_of_map_to_list in Hx.
  - intros (i & Hi & E). split; [|done]. exists (i, sn). by rewrite elem_of_map_to_list.
Qed.

Lemma latest_in db v sn : head (snaps_of db v) = Some sn -> exists i, db_snapshots db !! i = Some sn /\ sn_VMID sn = v.
Proof. intros H%head_in. by apply elem_of_snaps_of. Qed.

Section Effects.
Context {B St : Type} `{!Backend B, !Storage St}.
Abbreviation W := (World B St).
Context (s : Service).
Local Open Scope go_scope.

Lemma reads_GetLatest db v :
  reads db (GetLatestByVMID v : M W _) (ok_val (fun p => head (snaps_of db v) = Some p)).
Proof.
  intros w <-. unfold GetLatestByVMID, bind_ok. rewrite run_eq. destruct (or_fault _ _); [done |]. cbn.
  by destruct (head (snaps_of (w_db w) v)).
Qed.

(** The type and parent of a new snapshot of [vmID]. *)
Definition typed_after (db : DB) (vmID : string) (ty : SnapType) (parent : option string) : Prop :=
  (ty = TypeFull /\ parent = None) \/
  (ty = TypeIncremental /\ exists prev, head (snaps_of db vmID) = Some prev /\ parent = Some (sn_ID prev)).

Lemma reads_next_snapshot_type db vm vmID :
  reads db (next_snapshot_type vm vmID : M W _) (fun p => typed_after db vmID (fst p) (snd p)).
Proof.
  unfold next_snapshot_type. destruct (vm_DiffSnapshotsEnabled vm).
  - eapply reads_bind; [apply reads_GetLatest |]. intros [prev|e] H; apply reads_ret; [right | left; done].
    cbn in *. eauto.
  - apply reads_ret. by left.
Qed.

(** The chain length a disk delta on top of the latest snapshot would have. *)
Definition extends_chain (db : DB) (vmID : string) (n : Z) : Prop :=
  exists prev m, head (snaps_of db vmID) = Some prev /\ sn_Metadata prev = MetaJSON m /\ n = sm_DiskChainLength m + 1.

Lemma ParseMetadata_Some sn m : ParseMetadata sn = Ok (Some m) -> sn_Metadata sn = MetaJSON m.
Proof. unfold ParseMetadata. by destruct (sn_Metadata sn); intros; simplify_eq. Qed.

Lemma reads_shouldCreateFullDisk db vmID :
  reads db (shouldCreateFullDisk s vmID : M W _)
    (fun full => full = false -> exists n, extends_chain db vmID n /\ n < dc_MaxChainLength (svc_snapDiskCfg s)).
Proof.
  unfold shouldCreateFullDisk. destruct (negb _); [by apply reads_ret |].
  eapply reads_bind; [apply reads_GetLatest |]. intros [prev|e] H; [|by apply reads_ret].
  destruct (ParseMetadata prev) as [[m|]|] eqn:Hm; try by apply reads_ret.
  case_bool_decide as Hlen; [by apply reads_ret |].
  eapply reads_bind; [apply reads_same; go_keeps |]. intros t _. apply reads_ret. intros _.
  exists (sm_DiskChainLength m + 1). split; [|lia]. exists prev, m. eauto using ParseMetadata_Some.
Qed.

Lemma reads_resolveChainLength db vmID diskType :
  reads db (resolveChainLength vmID diskType : M W _)
    (fun n => n = 0 \/ (diskType = "incremental" /\ extends_chain db vmID n)).
Proof.
  unfold resolveChainLength. destruct (negb (bool_decide (diskType = "incremental"))) eqn:E; [apply reads_ret; by left |].
  apply negb_false_iff, bool_decide_eq_true_1 in E.
  eapply reads_bind; [apply reads_GetLatest |]. intros [prev|e] H; [|apply reads_ret; by left].
  destruct (ParseMetadata prev) as [[m|]|] eqn:Hm; try (apply reads_ret; by left).
  apply reads_ret. right. split; [done |]. exists prev, m. eauto using ParseMetadata_Some.
Qed.

(** The upload changes only where the files are and how large they are. *)
Definition same_snapshot (a b : Snapshot) : Prop :=
  sn_ID a = sn_ID b /\ sn_VMID a = sn_VMID b /\ sn_ParentSnapshotID a = sn_ParentSnapshotID b /\
  sn_Type a = sn_Type b /\ sn_Metadata a = sn_Metadata b.

Lemma upload_same d sn (w : W) : same_snapshot (upload_snapshot s d sn w).1 sn.
Proof.
  unfold upload_snapshot. destruct (negb _); [done |]. unfold bind at 1. destruct (stage_files _ _ _ _ _) as [fs w1].
  unfold bind at 1. destruct (on_store _ w1) as [[n|e] w2]; [|done].
  unfold bind. by destruct (on_store _ w2).
Qed.

(** What a successful CreateSnapshot adds to the table. *)
Record new_snapshot (db : DB) (vmID : string) (sn : Snapshot) : Prop := {
  ns_vm : sn_VMID sn = vmID;
  ns_fresh : db_snapshots db !! sn_ID sn = None;
  ns_active : exists row, db_vms db !! vmID = Some row /\ IsActive (r_status row) = true;
  ns_typed : typed_after db vmID (sn_Type sn) (sn_ParentSnapshotID sn);
  ns_parent : forall p, sn_ParentSnapshotID sn = Some p -> is_Some (db_snapshots db !! p);
  ns_chain : exists m, sn_Metadata sn = MetaJSON m /\
    (sm_DiskChainLength m = 0 \/
     sm_DiskSnapshotType m = "incremental" /\ extends_chain db vmID (sm_DiskChainLength m) /\
     sm_DiskChainLength m < dc_MaxChainLength (svc_snapDiskCfg s)) }.

Definition db_add_snapshot (sn : Snapshot) (ms : list SnapshotMetrics) (db : DB) : DB :=
  db <| db_snapshots := <[sn_ID sn := sn]> (db_snapshots db) |> <| db_snap_metrics := ms |>.

Lemma SnapCreate_cases sn (w : W) :
  match SnapCreate sn w with
  | (Ok _, w') => w_db w' = db_add_snapshot sn (db_snap_metrics (w_db w)) (w_db w) /\
      db_snapshots (w_db w) !! sn_ID sn = None /\ is_Some (db_vms (w_db w) !! sn_VMID sn) /\
      (forall p, sn_ParentSnapshotID sn = Some p -> is_Some (db_snapshots (w_db w) !! p))
  | (Err _, w') => w_db w' = w_db w
  end.
Proof.
  unfold SnapCreate. rewrite run_eq. destruct (or_fault _ _); [done |]. destruct w as [en n db be st ev jb]. cbn.
  destruct (db_snapshots db !! sn_ID sn) eqn:Hf; [done |].
  destruct (bool_decide (is_Some (db_vms db !! sn_VMID sn))) eqn:Hv; [|done]. apply bool_decide_eq_true_1 in Hv.
  destruct (sn_ParentSnapshotID sn) as [p|] eqn:Hp; cbn.
  - destruct (bool_decide (is_Some (db_snapshots db !! p))) eqn:Hs; [|done]. apply bool_decide_eq_true_1 in Hs. cbn.
    split_and!; [by destruct db | done | done |]. by intros ? [= <-].
  - by destruct db.
Qed.

Lemma MetricsInsert_cases m (w : W) :
  exists ms, w_db (MetricsInsert m w).2 = (w_db w) <| db_snap_metrics := ms |>.
Proof.
  unfold MetricsInsert. rewrite run_eq. destruct w as [en n db be st ev jb]. cbn.
  destruct (or_fault en n); [exists (db_snap_metrics db); by destruct db |]. cbn.
  repeat case_match; first [by eexists | exists (db_snap_metrics db); by destruct db].
Qed.

Lemma CreateSnapshot_cases vmID db :
  triple (fun w : W => w_db w = db) (CreateSnapshot s vmID)
    (fun r w => match r with
                | Ok sn => new_snapshot db vmID sn /\ exists ms, w_db w = db_add_snapshot sn ms db
                | Err _ => w_db w = db
                end).
Proof.
  unfold CreateSnapshot.
  eapply triple_reads_bind_ok; [apply reads_GetByID | | by intros e w ?]. intros vm (row & Hrow & Hm).
  apply mapVMRow_Ok in Hm as (_ & Hst & _). destruct (IsActive (vm_Status vm)) eqn:Ha; cbn; [|by intros w ?].
  rewrite Hst in Ha.
  eapply triple_reads_skip; [go_keeps |]. intros [env|e]; [|by intros w ?].
  eapply triple_reads_bind; [apply reads_next_snapshot_type |]. intros [ty parent] Hty. cbn in Hty.
  eapply triple_reads_bind; [apply reads_shouldCreateFullDisk |]. intros full Hfull.
  set (diskType := if _ && _ then _ else _).
  eapply triple_reads_bind; [apply reads_resolveChainLength |]. intros len Hlen.
  eapply triple_reads_skip; [go_keeps |]. intros baseID. cbn.
  eapply triple_reads_skip; [go_keeps |]. intros [sr|e]; [|by intros w ?].
  eapply triple_reads_skip; [go_keeps |]. intros id.
  eapply triple_reads_skip; [go_keeps |]. intros t.
  eapply triple_reads_bind with (Q := fun sn => same_snapshot sn (newSnapshot _ _ _ _ _ _ _ _)).
  { intros w <-. split; [apply keeps_upload_snapshot, _ | apply upload_same]. }
  intros sn (Eid & Evm & Epar & Ety & Emeta). cbn in *.
  eapply triple_bind_ok with (Q := fun r w => match r with
    | Ok _ => new_snapshot db vmID sn /\ w_db w = db_add_snapshot sn (db_snap_metrics db) db
    | Err _ => w_db w = db end); [| |by intros e w ?].
  { intros w Hw. pose proof (SnapCreate_cases sn w) as H. destruct (SnapCreate sn w) as [[[]|e] w']; rewrite Hw in H; [|done].
    destruct H as (Hdb & Hf & Hvm & Hp). split; [|done].
    split; [done | done | eauto | by rewrite Ety, Epar | done |]. exists (snapshot_metadata vm env baseID diskType len). split; [done |]. cbn.
    destruct Hlen as [?|[Hd Hx]]; [by left |]. right. split_and!; [done..|].
    assert (Hff : full = false).
    { revert Hd. unfold diskType. case_bool_decide; [by destruct full | done]. }
    destruct (Hfull Hff) as (n & Hn & Hlt). enough (n = len) by lia.
    destruct Hn as (p1 & m1 & ? & ? & ?), Hx as (p2 & m2 & ? & ? & ?). congruence. }
  intros [] w [Hns Hdb]. unfold bind, now, consult.
  destruct (MetricsInsert_cases (creation_metrics sn sr (or_now (w_env w) (w_tick w))) (tick w)) as [ms Hms].
  destruct (MetricsInsert _ (tick w)) as [r w'] eqn:E. cbn in *. split; [done |]. exists ms.
  by destruct w', w; cbn in *; subst.
Qed.

End Effects.

(** ** CreateSnapshot and the invariant *)

Definition service_limit (s : Service) : ChainLimit := dc_MaxChainLength (svc_snapDiskCfg s).

Lemma db_ok_new_snapshot (s : Service) db vmID sn ms :
  0 < dc_MaxChainLength (svc_snapDiskCfg s) ->
  db_ok (CL := service_limit s) db -> new_snapshot s db vmID sn -> db_ok (CL := service_limit s) (db_add_snapshot sn ms db).
Proof.
  intros Hmax H [Hvm Hf (row & Hrow & _) Hty Hp Hc]. apply db_ok_metrics, db_ok_snap_add; try done.
  - rewrite Hvm. by eexists.
  - intros p Hpar. destruct (Hp p Hpar) as [sp Hsp]. exists sp. split; [done |]. rewrite Hvm.
    destruct Hty as [[_ ?]|(_ & prev & Hl & E)]; [congruence |]. rewrite Hpar in E. injection E as ->.
    apply latest_in in Hl as (i & Hi & <-). pose proof (ok_snap_key _ H _ _ Hi). congruence.
  - intros m Hm. destruct Hc as (m' & Hm' & Hlen). assert (m' = m) as -> by congruence.
    unfold chain_limit, service_limit. destruct Hlen as [->|(_ & _ & ?)]; done.
Qed.

Lemma inv_CreateSnapshot {B St} `{!Backend B, !Storage St} (s : Service) vmID :
  0 < dc_MaxChainLength (svc_snapDiskCfg s) ->
  inv (CL := service_limit s) (CreateSnapshot s vmID : M (World B St) _) (ok_val (fun _ => True)).
Proof.
  intros Hmax w Hw. pose proof (CreateSnapshot_cases s vmID (w_db w) w eq_refl) as H.
  destruct (CreateSnapshot s vmID w) as [[sn|e] w']; cbn in *.
  - destruct H as (Hns & ms & ->). split; [|done]. by eapply db_ok_new_snapshot.
  - by rewrite H.
Qed.

Definition sample_status : RuntimeStatus :=
  {| rs_State := "running"; rs_PID := 4242; rs_VsockPath := "/run/vsock"; rs_GuestCID := 7 |}.
Definition sample_exec : ExecResult := {| ex_stdout := "ok"; ex_stderr := ""; ex_code := 0; ex_err := None |}.

#[export] Instance sample_backend : Backend unit := {
  be_Create spec b := (Ok (cs_InstanceID spec), b);
  be_StopPreserving _ b := (Ok tt, b);
  be_Destroy _ b := (Ok tt, b);
  be_Status _ b := (Ok sample_status, b);
  be_Execute _ _ b := (sample_exec, b);
  be_CreateSnapshot _ _ b :=
    (Ok {| sr_SnapshotDir := "/snap"; sr_MemoryBytes := 256; sr_CowBytes := 0; sr_DiskBytes := 64; sr_PauseDurationMs := 3 |}, b);
  be_RestoreFromSnapshot spec _ b := (Ok (cs_InstanceID spec), b);
  be_ReadFile _ _ _ _ b := (Ok "content", b);
  be_WriteFile _ _ _ _ b := (Ok tt, b);
  be_EditFile _ _ _ _ _ b := (Ok tt, b)
}.

Definition no_such_file : error := EText "no such file".
#[export] Instance sample_storage : Storage unit := {
  st_ObjectExists _ b := (Ok false, b);
  st_UploadFiles fs b := (Ok (Z.of_nat (length fs)), b);
  st_DownloadFiles _ b := (Ok tt, b);
  st_DeletePrefix _ b := (Ok tt, b);
  st_Stat _ b := (Err no_such_file, b);
  st_not_exist _ := true;
  st_MkdirAll _ b := (Ok tt, b);
  st_MkdirTemp _ b := (Ok "/tmp/x", b);
  st_WriteFile _ _ b := (Ok tt, b);
  st_Remove _ b := (Ok tt, b);
  st_RemoveAll _ b := (Ok tt, b);
  st_Rename _ _ b := (Ok tt, b);
  st_Command _ b := ("", None, b);
  st_ExtractSparseRegions _ b := (Ok [], b);
  st_WriteManifest _ _ b := (Ok tt, b);
  st_ReadManifest _ b := (Ok [], b);
  st_MergeDiffMemory _ _ _ _ b := (Ok tt, b);
  st_CompressFileZstd _ _ b := (Ok 1, b);
  st_DecompressFileZstd _ _ b := (Ok tt, b)
}.

(** 10.200.0.2 to 10.200.0.4 *)
Definition sample_ip (d : Z) : IP := replicate 10 0 ++ [255; 255; 10; 200; 0; d].
Definition sample_allocator : IPAllocator := {| ipStart := sample_ip 2; ipEnd := sample_ip 4 |}.

Definition sample_service : Service :=
  SetLifecycleHook true
    (NewService true true 0 true 0 "br0" (Some sample_allocator)
       {| dc_DiskMode := "incremental"; dc_MaxChainLength := 3; dc_MaxChainAgeMinutes := 0 |}).

Lemma sample_no_snapshots i sn : db_snapshots sample_db !! i <> Some sn.
Proof. apply lookup_empty_Some. Qed.

Lemma sample_db_ok `{CL : ChainLimit} : db_ok sample_db.
Proof.
  split.
  - apply sample_keys.
  - intros i j r r' [[-> ->]|[-> ->]]%sample_rows [[-> ->]|[-> ->]]%sample_rows; first [done | vm_compute; congruence].
  - intros i j r r' x [[-> ->]|[-> ->]]%sample_rows [[-> ->]|[-> ->]]%sample_rows; first [done | vm_compute; congruence].
  - intros i j r r' x [[-> ->]|[-> ->]]%sample_rows [[-> ->]|[-> ->]]%sample_rows; first [done | vm_compute; congruence].
  - intros i r x [[-> ->]|[-> ->]]%sample_rows E; by vm_compute in E.
  - intros i r [[-> ->]|[-> ->]]%sample_rows; by eexists.
  - intros i r [[-> ->]|[-> ->]]%sample_rows E; [done | by destruct E].
  - intros l ->%list_elem_of_singleton. by eexists.
  - vm_compute. repeat constructor. set_solver.
  - intros i sn H. by destruct (sample_no_snapshots _ _ H).
  - intros i sn H. by destruct (sample_no_snapshots _ _ H).
  - intros i sn p H. by destruct (sample_no_snapshots _ _ H).
  - exists (fun _ => O). intros i sn p H. by destruct (sample_no_snapshots _ _ H).
  - intros i sn m H. by destruct (sample_no_snapshots _ _ H).
Qed.

(** Three snapshots of "vm-a": a full one and two incremental ones on top. *)
Definition sample_snap (id : string) (parent : option string) (ty : SnapType) (t : Z) : Snapshot :=
  newSnapshot id t "vm-a" parent ty ("snapshots/vm-a/" +:+ id) 100 MetaEmpty.
Definition add_snap (sn : Snapshot) (db : DB) : DB := db <| db_snapshots := <[sn_ID sn := sn]> (db_snapshots db) |>.
Definition sample_snap1 := sample_snap "s1" None TypeFull 1.
Definition sample_snap2 := sample_snap "s2" (Some "s1") TypeIncremental 2.
Definition sample_snap3 := sample_snap "s3" (Some "s2") TypeIncremental 3.
Definition sample_chain_db : DB := add_snap sample_snap3 (add_snap sample_snap2 (add_snap sample_snap1 sample_db)).
Definition sample_chain_world : World unit unit := sample_world <| w_db := sample_chain_db |>.

Lemma sample_chain_db_ok `{CL : ChainLimit} : db_ok sample_chain_db.
Proof.
  unfold sample_chain_db, add_snap.
  apply db_ok_snap_add; [apply db_ok_snap_add; [apply db_ok_snap_add; [apply sample_db_ok |..] |..] |..];
    try done; try (by eexists); intros p [= <-]; by eexists.
Qed.
