(* ===== verification/SnapGC.v ===== *)
(** * Collecting snapshots and walking their chains

    The loops over parent links terminate because the links of a consistent table
    form no cycle. The collectors delete only what they may: never a snapshot
    another one needs. *)

From S2P Require Import Prelude Exception Naming GoLib Domain World PgRepo IPAlloc Interfaces Hoare Invariants.
From S2P Require Import VMExec VMSnapshot SnapFacts.

(** No statement fails. *)
Definition no_faults {B St} (w : World B St) : Prop := forall n, or_fault (w_env w) n = None.

Lemma run_no_faults {B St A} what (f : DB -> res A * DB) (w : World B St) :
  no_faults w -> run what f w = (wrap_db what (f (w_db w)).1, tick w <| w_db := (f (w_db w)).2 |>).
Proof. intros H. by rewrite run_eq, H. Qed.

Lemma no_faults_keeps {B St A} (m : M (World B St) A) w : keeps same_env m -> no_faults w -> no_faults (m w).2.
Proof. intros H Hw n. rewrite (H w). apply Hw. Qed.

(** ** Counting the snapshots below a rank *)

Section Rank.
Context (db : DB) (rank : string -> nat).
Definition below (i : string) : nat :=
  size (filter (fun kv : string * Snapshot => (rank (fst kv) < rank i)%nat) (db_snapshots db)).

Lemma below_lt p sp i : db_snapshots db !! p = Some sp -> (rank p < rank i)%nat -> (below p < below i)%nat.
Proof.
  intros Hp Hlt. unfold below. rewrite <- !size_dom. apply subset_size. split.
  - intros x [y [Hy Hx]%map_lookup_filter_Some]%elem_of_dom. cbn in Hx.
    apply elem_of_dom. exists y. rewrite map_lookup_filter_Some. cbn. split; [done | lia].
  - intros H. specialize (H p). rewrite !elem_of_dom in H. destruct H as [y [_ Hy]%map_lookup_filter_Some].
    + exists sp. by rewrite map_lookup_filter_Some.
    + cbn in Hy. lia.
Qed.

Lemma below_size i : (below i <= size (db_snapshots db))%nat.
Proof.
  unfold below. rewrite <- !size_dom. apply subseteq_size.
  intros x [y [Hy _]%map_lookup_filter_Some]%elem_of_dom. apply elem_of_dom. by exists y.
Qed.
End Rank.

(** ** The restore chain *)

(** The chain of a snapshot, leaf first: up to the first full snapshot above it. *)
Inductive restore_chain (db : DB) : Snapshot -> list Snapshot -> Prop :=
| rc_root sn : sn_ParentSnapshotID sn = None -> restore_chain db sn [sn]
| rc_full sn p sp : sn_ParentSnapshotID sn = Some p -> db_snapshots db !! p = Some sp -> sn_Type sp = TypeFull ->
    restore_chain db sn [sn; sp]
| rc_step sn p sp l : sn_ParentSnapshotID sn = Some p -> db_snapshots db !! p = Some sp -> sn_Type sp <> TypeFull ->
    restore_chain db sp l -> restore_chain db sn (sn :: l).

Section Chain.
Context {B St : Type} {CL : ChainLimit}.
Abbreviation W := (World B St).

Lemma SnapGetByID_no_faults id (w : W) sn :
  no_faults w -> db_snapshots (w_db w) !! id = Some sn -> SnapGetByID id w = (Ok sn, tick w).
Proof.
  intros Hw Hs. unfold SnapGetByID, bind_ok. rewrite run_no_faults by done. cbn. rewrite Hs.
  by destruct w.
Qed.

Lemma cow_walk_total (rank : string -> nat) n (sn : Snapshot) (w : W) :
  no_faults w -> db_ok (w_db w) ->
  (forall i x p, db_snapshots (w_db w) !! i = Some x -> sn_ParentSnapshotID x = Some p -> (rank p < rank i)%nat) ->
  db_snapshots (w_db w) !! sn_ID sn = Some sn -> (below (w_db w) rank (sn_ID sn) < n)%nat ->
  exists chain, (cow_walk n sn w).1 = Ok chain /\ restore_chain (w_db w) sn chain.
Proof.
  revert sn w. induction n as [|n IH]; intros sn w Hf Hok Hrank Hsn Hn; [lia |]. cbn [cow_walk].
  destruct (sn_ParentSnapshotID sn) as [p|] eqn:Hp; [|exists [sn]; split; [done | by constructor]].
  destruct (ok_snap_parent _ Hok _ _ _ Hsn Hp) as (sp & Hsp & _).
  unfold bind. rewrite (SnapGetByID_no_faults _ _ _ Hf Hsp).
  case_bool_decide as Hfull; [exists [sn; sp]; split; [done | by econstructor] |].
  pose proof (ok_snap_key _ Hok _ _ Hsp) as Hid.
  destruct (IH sp (tick w)) as (chain & Hc & Hrc); try done.
  - by rewrite Hid.
  - rewrite Hid. change (w_db (tick w)) with (w_db w).
    pose proof (below_lt (w_db w) rank p sp (sn_ID sn) Hsp (Hrank _ _ _ Hsn Hp)). lia.
  - exists (sn :: chain). split; [|by econstructor]. unfold bind_ok.
    destruct (cow_walk n sp (tick w)) as [[c|e] w']; cbn in *; [by injection Hc as -> | done].
Qed.

Lemma restore_chain_leaf db sn l : restore_chain db sn l -> head l = Some sn.
Proof. by destruct 1. Qed.

(** C9: The restore chain of a stored snapshot is always resolved when no read
    fails: the loop of resolveCowChain ends, and returns the snapshots from the
    nearest full snapshot above the leaf (or the root of the chain) down to the
    leaf, each the parent of the next. For a snapshot that has a parent the chain
    has at least two elements, so ResumeVM always merges along the whole chain. *)
Theorem resolveCowChain_total (w : W) (leaf : Snapshot) :
  no_faults w -> db_ok (w_db w) -> db_snapshots (w_db w) !! sn_ID leaf = Some leaf ->
  exists chain, (resolveCowChain leaf w).1 = Ok (rev chain) /\ restore_chain (w_db w) leaf chain /\
    (HasParent leaf = true -> (2 <= length chain)%nat).
Proof.
  intros Hf Hok Hleaf. destruct (ok_snap_rank _ Hok) as [rank Hrank].
  destruct (cow_walk_total rank (S (size (db_snapshots (w_db w)))) leaf w) as (chain & Hc & Hrc); try done.
  - pose proof (below_size (w_db w) rank (sn_ID leaf)). lia.
  - exists chain. split_and!; [|done|].
    + unfold resolveCowChain, bind_ok. by destruct (cow_walk _ leaf w) as [[c|e] w']; cbn in *; simplify_eq.
    + unfold HasParent. intros Hp%bool_decide_eq_true. destruct Hrc as [sn E|sn p sp|sn p sp l]; cbn; [|lia|].
      * rewrite E in Hp. by destruct Hp.
      * match goal with H : restore_chain _ sp l |- _ => destruct H; cbn; lia end.
Qed.
End Chain.

Lemma resolveCowChain_total_witness :
  exists chain, (resolveCowChain sample_snap3 sample_chain_world).1 = Ok (rev chain) /\
    restore_chain sample_chain_db sample_snap3 chain /\ (HasParent sample_snap3 = true -> (2 <= length chain)%nat).
Proof.
  apply (resolveCowChain_total (CL := 5) sample_chain_world sample_snap3).
  - intros n. reflexivity.
  - apply sample_chain_db_ok.
  - reflexivity.
Defined.

(** ** Deleting *)

Section Delete.
Context {B St : Type} `{!Backend B, !Storage St} {CL : ChainLimit}.
Abbreviation W := (World B St).
Context (s : Service).

Definition db_del_snapshot (id : string) (db : DB) : DB :=
  db <| db_snapshots := delete id (db_snapshots db) |>
     <| db_snap_metrics := List.filter (fun m => negb (bool_decide (mx_SnapshotID m = id))) (db_snap_metrics db) |>.

Lemma SnapDelete_cases id (w : W) :
  match SnapDelete id w with
  | (Ok _, w') => is_Some (db_snapshots (w_db w) !! id) /\ has_child (w_db w) id = false /\
                  w_db w' = db_del_snapshot id (w_db w)
  | (Err _, w') => w_db w' = w_db w
  end.
Proof.
  unfold SnapDelete, bind_ok. rewrite run_eq. destruct (or_fault _ _); [done |]. destruct w as [en n db be st ev jb]. cbn.
  destruct (db_snapshots db !! id); [|done]. destruct (has_child db id) eqn:Hc; [done |]. done.
Qed.

(** The outcome of DeleteSnapshot: one childless row is gone, or nothing changed. *)
Lemma DeleteSnapshot_cases id (w : W) :
  match DeleteSnapshot s id w with
  | (Ok _, w') => is_Some (db_snapshots (w_db w) !! id) /\ has_child (w_db w) id = false /\
                  w_db w' = db_del_snapshot id (w_db w)
  | (Err _, w') => w_db w' = w_db w
  end.
Proof.
  unfold DeleteSnapshot. unfold bind_ok at 1.
  pose proof (keeps_db_SnapGetByID id w) as H1. destruct (SnapGetByID id w) as [[sn|e] w1]; [|done].
  unfold bind_ok. pose proof (run_read_db "get snapshots by vm_id" (fun db => Ok (snaps_of db (sn_VMID sn))) w1) as H2.
  unfold SnapGetByVMID. destruct (run _ _ w1) as [[snaps|e] w2]; [|cbn in *; unfold same_db in H1; congruence].
  destruct (existsb _ snaps); [cbn in *; unfold same_db in H1; congruence |]. unfold bind.
  set (m := if svc_snapshotStore s then _ else _).
  assert (H3 : keeps same_db m) by (unfold m; go_keeps). specialize (H3 w2).
  destruct (m w2) as [r w3]. pose proof (SnapDelete_cases id w3) as H4. unfold same_db in *. cbn in *.
  assert (E : w_db w3 = w_db w) by congruence. rewrite E in H4. exact H4.
Qed.

Lemma delete_keeps id j (w : W) sn :
  id <> j -> db_snapshots (w_db w) !! j = Some sn -> db_snapshots (w_db (DeleteSnapshot s id w).2) !! j = Some sn.
Proof.
  intros Hne Hj. pose proof (DeleteSnapshot_cases id w) as H. destruct (DeleteSnapshot s id w) as [[r|e] w']; cbn.
  - destruct H as (_ & _ & ->). cbn. by rewrite lookup_delete_ne.
  - by rewrite H.
Qed.

(** The tables other than the snapshots and their metrics are left alone. *)
Definition only_snapshots (w w' : W) : Prop :=
  db_vms (w_db w') = db_vms (w_db w) /\ db_leases (w_db w') = db_leases (w_db w) /\
  db_envs (w_db w') = db_envs (w_db w) /\ db_chats (w_db w') = db_chats (w_db w) /\
  (forall i sn, db_snapshots (w_db w') !! i = Some sn -> db_snapshots (w_db w) !! i = Some sn).
#[export] Instance only_snapshots_pre : PreOrder only_snapshots.
Proof. split; [done |]. intros x y z (?&?&?&?&?) (?&?&?&?&?). split_and!; try congruence. auto. Qed.

Lemma keeps_only_DeleteSnapshot id : keeps only_snapshots (DeleteSnapshot s id).
Proof.
  intros w. pose proof (DeleteSnapshot_cases id w) as H. destruct (DeleteSnapshot s id w) as [[r|e] w'];
    unfold only_snapshots; cbn [snd].
  - destruct H as (_ & _ & ->). split_and!; try done. cbn. by intros i sn [_ ?]%lookup_delete_Some.
  - by rewrite H.
Qed.
Hint Resolve keeps_only_DeleteSnapshot : keeps.

Lemma same_db_only {A} (m : M W A) : keeps same_db m -> keeps only_snapshots m.
Proof. intros H w. unfold only_snapshots. by rewrite (H w). Qed.

Lemma keeps_only_delete_pass l : keeps only_snapshots (delete_pass s l).
Proof. induction l; cbn [delete_pass]; go_keeps. Qed.
Lemma keeps_only_loop n v : keeps only_snapshots (delete_all_loop s n v).
Proof.
  induction n; cbn [delete_all_loop]; go_keeps; [apply same_db_only; go_keeps | apply keeps_only_delete_pass].
Qed.

Lemma DeleteSnapshot_no_faults id (w : W) sn :
  no_faults w -> db_snapshots (w_db w) !! id = Some sn ->
  (forall i x, db_snapshots (w_db w) !! i = Some x -> sn_ParentSnapshotID x <> Some id) ->
  is_Ok (DeleteSnapshot s id w).1 = true.
Proof.
  intros Hf Hs Hc. unfold DeleteSnapshot. unfold bind_ok at 1. rewrite (SnapGetByID_no_faults _ _ _ Hf Hs).
  unfold bind_ok, SnapGetByVMID. rewrite run_no_faults by done. cbn [fst snd wrap_db].
  destruct (existsb _ _) eqn:E.
  { apply existsb_exists in E as (x & Hx & Hp%bool_decide_eq_true_1).
    apply list_elem_of_In, elem_of_snaps_of in Hx as (i & Hi & _). by destruct (Hc i x). }
  unfold bind. set (m := if svc_snapshotStore s then _ else _).
  set (w2 := tick (tick w) <| w_db := _ |>).
  assert (H3 : keeps same_db m) by (unfold m; go_keeps). specialize (H3 w2).
  assert (H4 : keeps same_env m) by (unfold m; go_keeps). specialize (H4 w2).
  destruct (m w2) as [r w3]. 
  assert (E3 : w_db w3 = w_db w) by exact H3. assert (E4 : w_env w3 = w_env w) by exact H4.
  unfold SnapDelete, bind_ok. rewrite run_eq, E3, E4, Hf, Hs.
  destruct (has_child (w_db w) id) eqn:Hh; [|done]. exfalso.
  apply existsb_exists in Hh as ([i x] & Hx & Hp%bool_decide_eq_true_1).
  apply list_elem_of_In, elem_of_map_to_list in Hx. by destruct (Hc i x).
Qed.

(** ** deleteAllSnapshots *)

Lemma delete_pass_keeps l j sn (w : W) :
  (forall x, x ∈ l -> sn_ID x <> j) -> db_snapshots (w_db w) !! j = Some sn ->
  db_snapshots (w_db (delete_pass s l w).2) !! j = Some sn.
Proof.
  revert w. induction l as [|x l IH]; intros w Hl Hj; [done |]. cbn [delete_pass]. unfold bind.
  pose proof (delete_keeps (sn_ID x) j w sn ltac:(apply Hl, list_elem_of_here) Hj) as H1.
  destruct (DeleteSnapshot s (sn_ID x) w) as [r w1]. cbn in H1. specialize (IH w1 ltac:(set_solver) H1).
  by destruct (delete_pass s l w1).
Qed.

Lemma delete_pass_size l (w : W) :
  (size (db_snapshots (w_db (delete_pass s l w).2)) <= size (db_snapshots (w_db w)))%nat /\
  ((delete_pass s l w).1 = true ->
   size (db_snapshots (w_db (delete_pass s l w).2)) < size (db_snapshots (w_db w)))%nat.
Proof.
  revert w. induction l as [|x l IH]; intros w; [done |]. cbn [delete_pass]. unfold bind.
  pose proof (DeleteSnapshot_cases (sn_ID x) w) as H.
  destruct (DeleteSnapshot s (sn_ID x) w) as [[r|e] w1].
  - destruct H as (Hin & _ & E). destruct (IH w1) as [H1 H2].
    assert (size (db_snapshots (w_db w1)) < size (db_snapshots (w_db w)))%nat as Hlt.
    { rewrite E. cbn. rewrite <- !size_dom, dom_delete_L. apply subset_size, subset_difference_elem_of.
      by apply elem_of_dom. }
    destruct (delete_pass s l w1) as [b w2]. cbn in *. split; [lia | intros _; lia].
  - destruct (IH w1) as [H1 H2]. rewrite H in H1, H2. destruct (delete_pass s l w1) as [b w2]. cbn in *. auto.
Qed.

Lemma delete_pass_progress l x (w : W) :
  no_faults w -> x ∈ l -> db_snapshots (w_db w) !! sn_ID x = Some x ->
  (forall i y, db_snapshots (w_db w) !! i = Some y -> sn_ParentSnapshotID y <> Some (sn_ID x)) ->
  (delete_pass s l w).1 = true.
Proof.
  revert w. induction l as [|y l IH]; intros w Hf Hx Hs Hc; [by apply not_elem_of_nil in Hx |].
  cbn [delete_pass]. unfold bind. destruct (decide (sn_ID y = sn_ID x)) as [E|E].
  - rewrite E. pose proof (DeleteSnapshot_no_faults (sn_ID x) w x Hf Hs Hc) as Hok.
    destruct (DeleteSnapshot s (sn_ID x) w) as [r w1]. cbn in Hok. destruct (delete_pass s l w1). cbn. by rewrite Hok.
  - apply elem_of_cons in Hx as [->|Hx]; [done |].
    pose proof (delete_keeps (sn_ID y) (sn_ID x) w x E Hs) as H1.
    pose proof (keeps_only_DeleteSnapshot (sn_ID y) w) as (_ & _ & _ & _ & H2).
    assert (Hf1 : no_faults (DeleteSnapshot s (sn_ID y) w).2).
    { apply no_faults_keeps; [|done]. unfold DeleteSnapshot, SnapGetByID, SnapDelete. go_keeps. }
    destruct (DeleteSnapshot s (sn_ID y) w) as [r w1]. cbn in H1, H2, Hf1.
    specialize (IH w1 Hf1 Hx H1). destruct (delete_pass s l w1). cbn in *. rewrite IH; [by rewrite orb_true_r |].
    intros i z Hz. eapply Hc. by apply H2.
Qed.

(** A VM with snapshots has one without children. *)
Lemma childless db v : db_ok db -> snaps_of db v <> [] -> exists x, x ∈ snaps_of db v /\
  db_snapshots db !! sn_ID x = Some x /\ forall i y, db_snapshots db !! i = Some y -> sn_ParentSnapshotID y <> Some (sn_ID x).
Proof.
  intros Hok Hne. destruct (ok_snap_rank _ Hok) as [rank Hrank].
  destruct (list_argmax (fun x => rank (sn_ID x)) _ Hne) as (x & Hx & Hmax). exists x. split; [done |].
  apply elem_of_snaps_of in Hx as (i & Hi & Hv). pose proof (ok_snap_key _ Hok _ _ Hi) as Hid. rewrite Hid.
  split; [done |]. intros j y Hy Hp. destruct (ok_snap_parent _ Hok _ _ _ Hy Hp) as (sp & Hsp & Evm).
  assert (sp = x) as -> by congruence. pose proof (Hrank _ _ _ Hy Hp). pose proof (ok_snap_key _ Hok _ _ Hy).
  assert (y ∈ snaps_of db v) as Hyin by (apply elem_of_snaps_of; exists j; split; congruence).
  specialize (Hmax y Hyin). cbn in Hmax. rewrite Hid in Hmax. subst j. lia.
Qed.

Lemma keeps_env_delete_pass l : keeps same_env (delete_pass s l : M W _).
Proof.
  induction l; cbn [delete_pass]; [go_keeps |]. unfold DeleteSnapshot, SnapGetByID, SnapDelete. go_keeps.
Qed.
Lemma inv_delete_pass_ok l (w : W) : db_ok (w_db w) -> db_ok (w_db (delete_pass s l w).2).
Proof.
  revert w. induction l as [|x l IH]; intros w Hw; [done |]. cbn [delete_pass]. unfold bind.
  pose proof (DeleteSnapshot_cases (sn_ID x) w) as H. destruct (DeleteSnapshot s (sn_ID x) w) as [[r|e] w1].
  - destruct H as (_ & Hc & E). specialize (IH w1). destruct (delete_pass s l w1). apply IH. rewrite E.
    by apply db_ok_snap_delete.
  - specialize (IH w1). destruct (delete_pass s l w1). apply IH. by rewrite H.
Qed.

Lemma delete_all_loop_spec n v (w : W) :
  no_faults w -> db_ok (w_db w) -> (size (db_snapshots (w_db w)) < n)%nat ->
  (delete_all_loop s n v w).1 = Ok tt /\
  (forall i sn, db_snapshots (w_db w) !! i = Some sn -> sn_VMID sn <> v ->
                db_snapshots (w_db (delete_all_loop s n v w).2) !! i = Some sn) /\
  (forall i sn, db_snapshots (w_db (delete_all_loop s n v w).2) !! i = Some sn -> sn_VMID sn <> v).
Proof.
  revert w. induction n as [|n IH]; intros w Hf Hok Hn; [lia |]. cbn [delete_all_loop]. unfold bind_ok, SnapGetByVMID.
  rewrite run_no_faults by done. cbn [fst snd wrap_db].
  set (w1 := tick w <| w_db := _ |>). assert (E1 : w_db w1 = w_db w) by done.
  assert (Hf1 : no_faults w1) by exact Hf.
  destruct (snaps_of (w_db w) v) as [|x0 l0] eqn:Hl.
  { split_and!; [done | done |]. intros i sn Hi E.
    assert (Hin : sn ∈ snaps_of (w_db w) v) by (apply elem_of_snaps_of; exists i; split; [exact Hi | done]).
    rewrite Hl in Hin. by apply not_elem_of_nil in Hin. }
  rewrite <- Hl. set (l := rev (snaps_of (w_db w) v)).
  assert (Hin : forall x, x ∈ l <-> x ∈ snaps_of (w_db w) v).
  { intros x. unfold l. by rewrite list_elem_of_In, <- in_rev, <- list_elem_of_In. }
  destruct (childless (w_db w) v Hok) as (x & Hx & Hxs & Hxc); [by rewrite Hl |].
  pose proof (delete_pass_progress l x w1 Hf1 (proj2 (Hin x) Hx) Hxs Hxc) as Hprog.
  pose proof (delete_pass_size l w1) as [_ Hsize]. specialize (Hsize Hprog).
  pose proof (inv_delete_pass_ok l w1 Hok) as Hok2.
  pose proof (no_faults_keeps _ w1 (keeps_env_delete_pass l) Hf1) as Hf2.
  assert (Hothers : forall i sn, db_snapshots (w_db w) !! i = Some sn -> sn_VMID sn <> v ->
    db_snapshots (w_db (delete_pass s l w1).2) !! i = Some sn).
  { intros i sn Hi Hv. apply delete_pass_keeps; [|done]. intros y Hy E.
    apply Hin, elem_of_snaps_of in Hy as (j & Hj & Hyv). pose proof (ok_snap_key _ Hok _ _ Hj). congruence. }
  assert (Hlt : (size (db_snapshots (w_db (delete_pass s l w1).2)) < size (db_snapshots (w_db w)))%nat) by exact Hsize.
  unfold bind. destruct (delete_pass s l w1) as [b w2]. cbn [fst snd] in *. subst b.
  destruct (IH w2) as (H1 & H2 & H3); [done | done | lia |]. eauto.
Qed.

(** deleteAllSnapshots ends, and removes exactly the snapshots of the VM, when
    no statement fails: each round finds a snapshot without children, so the loop
    ends with none left; the snapshots of other VMs stay as they are. *)
Theorem deleteAllSnapshots_spec v (w : W) :
  svc_snapRepo s = true -> no_faults w -> db_ok (w_db w) ->
  (deleteAllSnapshots s v w).1 = Ok tt /\
  forall i sn, db_snapshots (w_db (deleteAllSnapshots s v w).2) !! i = Some sn <->
               db_snapshots (w_db w) !! i = Some sn /\ sn_VMID sn <> v.
Proof.
  intros Hr Hf Hok. unfold deleteAllSnapshots. rewrite Hr.
  destruct (delete_all_loop_spec (S (size (db_snapshots (w_db w)))) v w Hf Hok) as (H1 & H2 & H3); [lia |].
  split; [done |]. intros i sn. split; [|by intros [??]; apply H2].
  intros Hi. split; [|by eapply H3]. by eapply (keeps_only_loop _ v w).
Qed.
End Delete.

Lemma deleteAllSnapshots_spec_witness :
  let w' := (deleteAllSnapshots sample_service "vm-a" sample_chain_world).2 in
  (deleteAllSnapshots sample_service "vm-a" sample_chain_world).1 = Ok tt /\
  forall i sn, db_snapshots (w_db w') !! i = Some sn <->
               db_snapshots sample_chain_db !! i = Some sn /\ sn_VMID sn <> "vm-a".
Proof.
  apply (deleteAllSnapshots_spec (CL := 5) sample_service "vm-a" sample_chain_world).
  - reflexivity.
  - intros n. reflexivity.
  - apply sample_chain_db_ok.
Defined.

(** ** snapshotGC *)

(** [b] is the parent of [a]; [rtc] of it are the snapshot itself and its ancestors. *)
Definition parent_link (db : DB) (a b : Snapshot) : Prop :=
  exists p, sn_ParentSnapshotID a = Some p /\ db_snapshots db !! p = Some b.

Section GC.
Context {B St : Type} `{!Backend B, !Storage St} {CL : ChainLimit}.
Abbreviation W := (World B St).
Context (s : Service).

Lemma byID_snaps db v p sp :
  db_ok db -> db_snapshots db !! p = Some sp -> sn_VMID sp = v -> byID (snaps_of db v) p = Some sp.
Proof.
  intros Hok Hp Hv. unfold byID. pose proof (ok_snap_key _ Hok _ _ Hp) as Hid.
  destruct (List.find _ _) as [x|] eqn:E.
  - apply find_some in E as [Hx Hxp%bool_decide_eq_true_1]. apply in_rev, list_elem_of_In, elem_of_snaps_of in Hx.
    destruct Hx as (i & Hi & _). pose proof (ok_snap_key _ Hok _ _ Hi). congruence.
  - eapply find_none in E; [|apply in_rev; rewrite rev_involutive; apply list_elem_of_In, elem_of_snaps_of; eauto].
    by rewrite Hid, bool_decide_eq_true_2 in E.
Qed.

(** The snapshots of the list below a rank bound the fuel collectAncestors needs. *)
Definition lower (rank : string -> nat) (all : list Snapshot) (i : string) : nat :=
  length (List.filter (fun x => (rank (sn_ID x) <? rank i)%nat) all).

Lemma lower_lt rank all p i :
  p ∈ all -> (rank (sn_ID p) < rank i)%nat -> (lower rank all (sn_ID p) < lower rank all i)%nat.
Proof.
  intros Hp Hlt. unfold lower. apply (filter_length_lt _ _ all p); [| done | |].
  - intros x _. rewrite !Nat.ltb_lt. lia.
  - apply Nat.ltb_irrefl.
  - by apply Nat.ltb_lt.
Qed.

Lemma collectAncestors_complete rank db v n leaf a :
  db_ok db ->
  (forall i x p, db_snapshots db !! i = Some x -> sn_ParentSnapshotID x = Some p -> (rank p < rank i)%nat) ->
  db_snapshots db !! sn_ID leaf = Some leaf -> sn_VMID leaf = v ->
  (lower rank (snaps_of db v) (sn_ID leaf) <= n)%nat ->
  rtc (parent_link db) leaf a -> a = leaf \/ sn_ID a ∈ collectAncestors n leaf (snaps_of db v).
Proof.
  intros Hok Hrank. revert leaf. induction n as [|n IH]; intros leaf Hl Hv Hn Hr;
    (inversion Hr as [|? b ? (p & Hp & Hb) Hr']; subst; [by left |]); right;
    destruct (ok_snap_parent _ Hok _ _ _ Hl Hp) as (b' & Hb' & Hbv); assert (b' = b) as -> by congruence;
    pose proof (ok_snap_key _ Hok _ _ Hb) as Hid;
    assert (Hbin : b ∈ snaps_of db (sn_VMID leaf)) by (apply elem_of_snaps_of; eauto);
    pose proof (lower_lt rank _ b (sn_ID leaf) Hbin ltac:(rewrite Hid; eauto)) as Hlt; [lia |].
  cbn [collectAncestors]. rewrite Hp, (byID_snaps db _ p b Hok Hb Hbv).
  assert (Hbs : db_snapshots db !! sn_ID b = Some b) by (by rewrite Hid).
  destruct (IH b Hbs Hbv ltac:(lia) Hr') as [->|Hin]; [apply list_elem_of_here |].
  by apply list_elem_of_further.
Qed.

Lemma lower_length rank all i : (lower rank all i <= length all)%nat.
Proof. apply List.filter_length_le. Qed.

Lemma for_each_lookup {A} (l : list A) (body : A -> M W unit) j sn (w : W) :
  (forall x w, x ∈ l -> db_snapshots (w_db w) !! j = Some sn -> db_snapshots (w_db (body x w).2) !! j = Some sn) ->
  db_snapshots (w_db w) !! j = Some sn -> db_snapshots (w_db (for_each l body w).2) !! j = Some sn.
Proof.
  revert w. induction l as [|x l IH]; intros w Hb Hj; [done |]. cbn [for_each]. unfold bind.
  pose proof (Hb x w (list_elem_of_here _ _) Hj) as H1. destruct (body x w) as [u w1]. cbn in H1.
  apply IH; [|done]. intros y w' Hy. apply Hb. by apply list_elem_of_further.
Qed.

(** C8: The garbage collector started by CreateSnapshot never breaks a restore:
    the latest snapshot and every one of its ancestors stay in the table, as they
    are, whichever statements or storage calls fail. *)
Theorem snapshotGC_keeps_chain (w : W) latest a :
  db_ok (w_db w) -> db_snapshots (w_db w) !! sn_ID latest = Some latest ->
  rtc (parent_link (w_db w)) latest a ->
  db_snapshots (w_db (snapshotGC s (sn_VMID latest) (sn_ID latest) w).2) !! sn_ID a = Some a.
Proof.
  intros Hok Hl Hr.
  assert (Ha : db_snapshots (w_db w) !! sn_ID a = Some a).
  { induction Hr as [|? ? ? (p & _ & Hp)]; [done |]. apply IHHr. by rewrite (ok_snap_key _ Hok _ _ Hp). }
  unfold snapshotGC, bind, SnapGetByVMID. rewrite run_eq. destruct (or_fault _ _); [done |]. cbn [fst snd wrap_db].
  set (w1 := tick w <| w_db := _ |>). set (snaps := snaps_of (w_db w) (sn_VMID latest)).
  case_bool_decide; [done |]. destruct (List.find _ snaps) as [x|] eqn:E; [|done].
  apply find_some in E as [Hx Hxid%bool_decide_eq_true_1]. apply list_elem_of_In, elem_of_snaps_of in Hx as (i & Hi & _).
  pose proof (ok_snap_key _ Hok _ _ Hi). assert (x = latest) as -> by congruence.
  assert (Hprot : sn_ID a ∈ sn_ID latest :: collectAncestors (length snaps) latest snaps).
  { destruct (ok_snap_rank _ Hok) as [rank Hrank].
    destruct (collectAncestors_complete rank (w_db w) (sn_VMID latest) (length snaps) latest a) as [->|?]; try done.
    - apply lower_length.
    - apply list_elem_of_here.
    - by apply list_elem_of_further. }
  apply for_each_lookup; [|exact Ha]. intros y w2 _ Hy. case_bool_decide as Hin; [done |].
  unfold bind. pose proof (delete_keeps s (sn_ID y) (sn_ID a) w2 a ltac:(congruence) Hy) as Hk.
  by destruct (DeleteSnapshot s (sn_ID y) w2).
Qed.
End GC.

Lemma snapshotGC_keeps_chain_witness :
  db_snapshots (w_db (snapshotGC sample_service "vm-a" "s3" sample_chain_world).2) !! "s1" = Some sample_snap1.
Proof.
  apply (snapshotGC_keeps_chain (CL := 5) sample_service sample_chain_world sample_snap3 sample_snap1).
  - apply sample_chain_db_ok.
  - reflexivity.
  - eapply rtc_l; [exists "s2"; split; reflexivity |]. apply rtc_once. exists "s1". split; reflexivity.
Defined.
