(* ===== verification/VMExecFacts.v ===== *)
(** * What running a command guarantees

    Readiness is only reported after a successful probe; a command is tried a
    bounded number of times; an inactive VM is refused before the backend is
    touched; the preview written to the log is bounded. *)

From S2P Require Import Prelude Exception Naming GoLib Domain World PgRepo IPAlloc Interfaces Hoare Invariants.
From S2P Require Import VMExec VMSnapshot SnapFacts.

(** ** A backend that records the commands it runs *)

Definition Log : Type := list (string * list string).

Definition logged {B A} (f : B -> A * B) (b : B * Log) : A * (B * Log) :=
  let '(a, b') := f (fst b) in (a, (b', snd b)).

Definition logging_backend {B} `(Backend B) : Backend (B * Log) := {|
  be_Create spec := logged (be_Create spec);
  be_StopPreserving id := logged (be_StopPreserving id);
  be_Destroy id := logged (be_Destroy id);
  be_Status id := logged (be_Status id);
  be_Execute id argv b := let '(r, b') := be_Execute id argv (fst b) in (r, (b', snd b ++ [(id, argv)]));
  be_CreateSnapshot id full := logged (be_CreateSnapshot id full);
  be_RestoreFromSnapshot spec dir := logged (be_RestoreFromSnapshot spec dir);
  be_ReadFile id p o l := logged (be_ReadFile id p o l);
  be_WriteFile id p c m := logged (be_WriteFile id p c m);
  be_EditFile id p o n all := logged (be_EditFile id p o n all)
|}.

Section Attempts.
Context {B St : Type} `{HB : !Backend B, !Storage St}.
Context (s : Service).
Abbreviation W := (World (B * Log) St).
#[local] Existing Instance logging_backend | 0.

Definition log_of (w : W) : Log := snd (w_be w).
(** How often [command] has been sent to the shell of [id]. *)
Definition runs (id command : string) (w : W) : nat :=
  length (List.filter (fun c => bool_decide (c = (id, shell command))) (log_of w)).

(** At most [n] further executions, at most [k] of them of the command. *)
Definition executes (id command : string) (n k : nat) (w w' : W) : Prop :=
  (length (log_of w') <= length (log_of w) + n)%nat /\ (runs id command w' <= runs id command w + k)%nat.

Lemma execute_log id argv (w : W) : log_of (execute id argv w).2 = log_of w ++ [(id, argv)].
Proof.
  unfold execute, on_backend, log_of. cbn. destruct (w_be w) as [b l]. cbn. by destruct (be_Execute id argv b).
Qed.

Lemma executes_trans id c n k n' k' (w1 w2 w3 : W) :
  executes id c n k w1 w2 -> executes id c n' k' w2 w3 -> executes id c (n + n') (k + k') w1 w3.
Proof. unfold executes. lia. Qed.
Lemma executes_weaken id c n k n' k' (w1 w2 : W) :
  executes id c n k w1 w2 -> (n <= n')%nat -> (k <= k')%nat -> executes id c n' k' w1 w2.
Proof. unfold executes. lia. Qed.
Lemma executes_same id c (w1 w2 : W) : log_of w2 = log_of w1 -> executes id c 0 0 w1 w2.
Proof. unfold executes, runs. intros ->. lia. Qed.

Lemma execute_probe id c id' (w : W) : executes id c 1 0 w (execute id' ["/bin/true"] w).2.
Proof.
  unfold executes, runs. rewrite execute_log, length_app, List.filter_app, length_app. cbn.
  rewrite bool_decide_eq_false_2 by done. cbn. lia.
Qed.
Lemma execute_one id c id' argv (w : W) : executes id c 1 1 w (execute id' argv w).2.
Proof.
  unfold executes, runs. rewrite execute_log, length_app, List.filter_app, length_app. cbn.
  destruct (bool_decide _); cbn; lia.
Qed.
Lemma status_log id (w : W) : log_of (on_backend (be_Status id) w).2 = log_of w.
Proof. unfold on_backend, log_of. cbn. unfold logged. by destruct (be_Status id _). Qed.

Lemma probe_executes id c id' (w : W) : executes id c 1 0 w (probe_ready id' w).2.
Proof.
  unfold probe_ready, bind. pose proof (status_log id' w) as Hs. destruct (on_backend _ w) as [[st|e] w1]; cbn in Hs.
  - destruct (negb _); [eapply executes_weaken; [by apply executes_same | lia | lia] |].
    pose proof (execute_probe id c id' w1) as H. destruct (execute id' _ w1) as [r w2]. cbn in H |- *.
    refine (executes_trans id c 0 0 1 0 w w1 w2 _ H). by apply executes_same.
  - eapply executes_weaken; [by apply executes_same | lia | lia].
Qed.

Lemma wait_executes n id c id' (w : W) : executes id c n 0 w (wait_attempts n id' w).2.
Proof.
  revert w. induction n as [|n IH]; intros w; [by apply executes_same |]. cbn [wait_attempts]. unfold bind.
  pose proof (probe_executes id c id' w) as H1. destruct (probe_ready id' w) as [ok w1]. cbn in H1.
  destruct ok; [eapply executes_weaken; [exact H1 | lia | lia] |].
  destruct n as [|n']; [exact H1 |]. cbn. destruct (or_awake _ _).
  - refine (executes_trans id c 1 0 (S n') 0 w w1 _ H1 _). apply (IH (tick w1)).
  - eapply executes_weaken; [exact H1 | lia | lia].
Qed.

Lemma touch_log vm (w : W) : log_of (touch s vm w).2 = log_of w.
Proof.
  unfold touch, refreshIdleDeadline, Update, bind, bind_ok. cbn. rewrite run_eq. destruct (or_fault _ _); [done |]. cbn.
  destruct (db_vms _ !! _); cbn; [|done]. destruct (vm_constraint _ _); done.
Qed.

Lemma command_executes n vm id c (w : W) : executes id c n n w (command_attempts s n vm id c w).2.
Proof.
  revert w. induction n as [|n IH]; intros w; [by apply executes_same |]. cbn [command_attempts]. unfold bind at 1.
  pose proof (execute_one id c id (shell c) w) as H1. destruct (execute id (shell c) w) as [r w1]. cbn in H1.
  assert (H1' : executes id c (S n) (S n) w w1) by (eapply executes_weaken; [exact H1 | lia | lia]).
  assert (Ht : executes id c (S n) (S n) w (touch s vm w1).2).
  { eapply executes_weaken; [eapply executes_trans; [exact H1 | apply executes_same, touch_log] | lia | lia]. }
  destruct (ex_err r) as [e|].
  - destruct (negb _).
    + case_bool_decide; [|exact H1']. unfold bind. by destruct (touch s vm w1).
    + destruct n as [|n']; [exact H1' |]. unfold bind. cbn. destruct (or_awake _ _); [|exact H1'].
      refine (executes_trans id c 1 1 (S n') (S n') w w1 _ H1 _). apply (IH (tick w1)).
  - unfold bind. by destruct (touch s vm w1).
Qed.

(** C10: ExecuteCommand sends the user's command to the guest at most three times,
    and runs at most fifteen guest executions in all (twelve readiness probes and
    three attempts), whatever the backend answers. *)
Theorem ExecuteCommand_attempts id command (w : W) :
  let w' := (ExecuteCommand s id command w).2 in
  (runs id command w' <= runs id command w + 3)%nat /\ (length (log_of w') <= length (log_of w) + 15)%nat.
Proof.
  cbv zeta. cut (executes id command 15 3 w (ExecuteCommand s id command w).2); [intros []; lia |].
  unfold ExecuteCommand, active_and_ready. unfold bind at 1. unfold bind_ok at 1.
  assert (H0 : log_of (GetByID id w).2 = log_of w).
  { unfold GetByID, selectOne, bind_ok. rewrite run_eq. destruct (or_fault _ _); [done |]. cbn. by destruct (_ !! _). }
  destruct (GetByID id w) as [[vm|e] w1]; cbn in H0; [|eapply executes_weaken; [by apply executes_same | lia | lia]].
  destruct (negb _); [eapply executes_weaken; [by apply executes_same | lia | lia] |]. unfold bind_ok.
  pose proof (wait_executes 12 id command id w1) as H1. unfold waitForExecuteReadiness.
  change executeReadinessMaxAttempts with 12%nat. destruct (wait_attempts 12 id w1) as [[u|e] w2]; cbn in H1.
  - pose proof (command_executes 3 vm id command w2) as H2.
    refine (executes_trans id command 12 0 3 3 w w2 _ _ H2).
    refine (executes_trans id command 0 0 12 0 w w1 w2 _ H1). by apply executes_same.
  - eapply executes_weaken; [refine (executes_trans id command 0 0 12 0 w w1 w2 _ H1); by apply executes_same | lia | lia].
Qed.
End Attempts.

(** ** Readiness and guards *)

Section Ready.
Context {B St : Type} `{!Backend B, !Storage St}.
Context (s : Service).
Abbreviation W := (World B St).

Lemma probe_ready_true id (w w' : W) :
  probe_ready id w = (true, w') -> exists status b1 r,
    be_Status id (w_be w) = (Ok status, b1) /\ isRuntimeReadyForExecute status = true /\
    be_Execute id ["/bin/true"] b1 = (r, w_be w') /\ ex_err r = None.
Proof.
  unfold probe_ready, bind, on_backend. cbn. destruct (be_Status id (w_be w)) as [[st|e] b1] eqn:Es; [|done].
  destruct (isRuntimeReadyForExecute st) eqn:Er; [cbn|done]. unfold execute, on_backend. cbn.
  destruct (be_Execute id _ b1) as [r b2] eqn:Ex. intros [= H <-]. apply bool_decide_eq_true_1 in H.
  exists st, b1, r. done.
Qed.

(** The backend saw the VM running and the guest answering, ending in state [b]. *)
Definition confirmed_ready (id : string) (b : B) : Prop :=
  exists b0 status b1 r, be_Status id b0 = (Ok status, b1) /\ isRuntimeReadyForExecute status = true /\
    be_Execute id ["/bin/true"] b1 = (r, b) /\ ex_err r = None.

(** The service reports a VM ready for commands only after the backend has
    reported it running, with a process, a vsock path and a guest CID, and the
    guest has answered a probe right after that. *)
Theorem waitForExecuteReadiness_sound id (w : W) :
  (waitForExecuteReadiness id w).1 = Ok tt -> confirmed_ready id (w_be (waitForExecuteReadiness id w).2).
Proof.
  unfold waitForExecuteReadiness. generalize executeReadinessMaxAttempts as n. intros n.
  revert w. induction n as [|n IH]; intros w; [done |]. cbn [wait_attempts]. unfold bind.
  destruct (probe_ready id w) as [[] w1] eqn:Ep.
  - intros _. apply probe_ready_true in Ep. by exists (w_be w).
  - destruct n as [|n']; [done |]. cbn. destruct (or_awake _ _); [|done]. apply (IH (tick w1)).
Qed.

(** Nothing but the clock of the environment moves. *)
Definition untouched (w w' : W) : Prop :=
  w_db w' = w_db w /\ w_be w' = w_be w /\ w_store w' = w_store w /\ w_events w' = w_events w /\ w_jobs w' = w_jobs w.

Lemma GetByID_untouched id (w : W) : untouched w (GetByID id w).2.
Proof.
  unfold GetByID, selectOne, bind_ok. rewrite run_eq. destruct (or_fault _ _); [done |]. cbn. by destruct (_ !! _).
Qed.

(** A command for a VM whose row is neither ready nor running is refused with
    an error and has no effect: nothing is asked of the backend or the store, no
    row is written. *)
Theorem ExecuteCommand_inactive id command (w : W) row :
  db_vms (w_db w) !! id = Some row -> IsActive (r_status row) = false ->
  is_Some (ExecuteCommand s id command w).1.2 /\ untouched w (ExecuteCommand s id command w).2.
Proof.
  intros Hr Ha. unfold ExecuteCommand, active_and_ready, bind, bind_ok.
  pose proof (GetByID_untouched id w) as Hu. destruct (GetByID id w) as [[vm|e] w1] eqn:E; cbn in Hu; [|split; [by eexists | done]].
  unfold GetByID in E. apply selectOne_Ok in E as (r & Hr' & (_ & Hs & _)%mapVMRow_Ok).
  assert (r = row) as -> by congruence. rewrite Hs, Ha. cbn. split; [by eexists | done].
Qed.
End Ready.

Lemma waitForExecuteReadiness_sound_witness :
  confirmed_ready "vm-a" (w_be (waitForExecuteReadiness "vm-a" sample_world).2).
Proof.
  apply (waitForExecuteReadiness_sound "vm-a" sample_world).
  vm_compute. reflexivity.
Defined.

Definition sample_idle_world : World unit unit :=
  sample_world <| w_db := put_row (rowOf (sample_vm_b <| vm_Status := StatusIdle |>)) sample_db |>.
Lemma ExecuteCommand_inactive_witness :
  is_Some (ExecuteCommand sample_service "vm-b" "ls" sample_idle_world).1.2 /\
  untouched sample_idle_world (ExecuteCommand sample_service "vm-b" "ls" sample_idle_world).2.
Proof.
  apply (ExecuteCommand_inactive sample_service "vm-b" "ls" sample_idle_world
           (rowOf (sample_vm_b <| vm_Status := StatusIdle |>))); reflexivity.
Defined.

(** ** Pure helpers *)

Lemma take_str_bound n s : (str_len (take_str n s) <= n)%nat.
Proof. unfold str_len. revert s. induction n as [|n IH]; intros [|c s]; simpl; try lia. specialize (IH s). lia. Qed.

(** The log never receives more than the limit and the truncation mark. *)
Lemma logPreview_bound text limit : 0 < limit -> Z.of_nat (str_len (logPreview text limit)) <= limit + 14.
Proof.
  intros H. unfold logPreview. case_bool_decide; [unfold str_len; simpl; lia |].
  rewrite bool_decide_eq_false_2 by lia. simpl. case_bool_decide; [lia |].
  rewrite str_len_app. pose proof (take_str_bound (Z.to_nat limit)
    (replace_byte (chr 10) "\n" (replace_byte (chr 13) "\r" (trim_space text)))).
  change (str_len "...(truncated)") with 14%nat. lia.
Qed.
