(* ===== verification/VMService.v ===== *)
(** * The VM service: src/service/vm/service.go

    Creating, assigning, stopping and destroying VMs, the runtime observations,
    and the background jobs (idle reaper, runtime reconciler, shutdown). *)

From S2P Require Import Prelude Exception Naming GoLib Domain World PgRepo IPAlloc Interfaces Hoare VMExec VMSnapshot.

Definition nameCollisionRetries : nat := 5.

Definition priorChat (vm : VM) : string := default "" (vm_ChatID vm).
(** The id the backend knows the VM by. *)
Definition runtimeIDOf (vm : VM) : string :=
  match vm_RuntimeID vm with
  | Some r => if bool_decide (r = "") then vm_ID vm else r
  | None => vm_ID vm
  end.

(** A VM that lost its runtime: unbound, idle, without a process. *)
Definition cooled (now : Z) (runtimeState : string) (vm : VM) : VM :=
  (Unassign vm) <| vm_RuntimeState := Some runtimeState |> <| vm_PID := None |>
                <| vm_LastHeartbeatAt := Some now |> <| vm_IdleDeadlineAt := None |>.

Section VMService.
Context {B St : Type} `{!Backend B, !Storage St}.
Abbreviation W := (World B St).
Context (s : Service).
Local Open Scope go_scope.
Abbreviation notifyHook := (notifyHook (B := B) (St := St) s).
Abbreviation refreshIdleDeadline := (refreshIdleDeadline (B := B) (St := St) s).

(** ** Lookups *)

Definition Get : string -> M W (res VM) := GetByID.
Definition ResolveEnvironment (envType : string) : M W (res string) :=
  let? envs := EnvList in
  match List.find (fun e => bool_decide (env_Type e = envType)) envs with
  | Some e => ret (Ok (env_ID e))
  | None => ret (Err (NotFound "environment type" envType))
  end.
Definition ResolveEnvironmentHint (vmID : string) : M W (res string) :=
  let? vm := GetByID vmID in
  let? env := EnvGetByID (vm_EnvironmentID vm) in
  ret (Ok (env_Type env)).

Definition GetAvailable (provider : string) : M W (res VM) :=
  let? vms := GetAvailablePool provider 1 in
  match vms with
  | [] => ret (Err (NotFound "available VM" provider))
  | vm :: _ => ret (Ok vm)
  end.

(** ** Creation *)

Fixpoint retry_names (attempts : nat) (vm : VM) : M W VM :=
  match attempts with
  | O => let* n := gen_name_with_suffix (vm_ID vm) in ret (vm <| vm_Name := n |>)
  | S attempts' =>
      let* existing := GetByName (vm_Name vm) in
      match existing with
      | Err _ => ret vm
      | Ok _ => let* n := gen_name in retry_names attempts' (vm <| vm_Name := n |>)
      end
  end.
Definition resolveUniqueName (vm : VM) (explicit : bool) : M W (res VM) :=
  if explicit then
    let* existing := GetByName (vm_Name vm) in
    match existing with
    | Ok _ => ret (Err (Conflict "vm name already in use"))
    | Err _ => ret (Ok vm)
    end
  else
    let* vm := retry_names nameCollisionRetries vm in ret (Ok vm).

(** [releaseIPOnTerminate] *)
Definition releaseIPOnTerminate (vm : VM) : M W VM :=
  match vm_IPAddress vm, svc_ipAllocator s with
  | Some _, Some _ =>
      let* _ := IPAlloc.Release (vm_ID vm) in
      ret (vm <| vm_IPAddress := None |>)
  | _, _ => ret vm
  end.

(** vm.Terminate(); s.releaseIPOnTerminate(vm); _ = s.repo.Update(vm) *)
Definition abandon (vm : VM) : M W unit :=
  let* t := now in
  let* vm := releaseIPOnTerminate (Terminate t vm) in
  let* _ := Update vm in
  ret tt.

Definition create_spec (vm : VM) (env : Environment) : CreateSpec :=
  {| cs_InstanceID := vm_ID vm;
     cs_EnvironmentID := env_ID env;
     cs_ImagePath := env_ImagePath env;
     cs_Resources := {| rl_VCPU := GetVCPU vm (env_GetVCPU env);
                        rl_MemoryMB := GetMemoryMB vm (env_GetMemoryMB env);
                        rl_DiskMB := GetDiskMB vm (env_GetDiskMB env) |};
     cs_Workspace := {| wc_ConversationID := vm_ConversationID vm; wc_SizeGB := vm_WorkspaceSizeGB vm |};
     cs_Runtime := DefaultRuntimeConfig <| rc_EnableDiffSnapshots := env_DiffSnapshots env |>;
     cs_RestoreAsFull := false; cs_CowChainPaths := []; cs_DiskImagePath := "" |}.
Definition with_network (ip : string) (spec : CreateSpec) : CreateSpec :=
  spec <| cs_Runtime := (cs_Runtime spec)
            <| rc_Network := {| nc_Enabled := true; nc_Interface := ""; nc_IP := ip; nc_Bridge := svc_bridge s;
                                nc_AllowInternet := true |} |>
            <| rc_EnableNetworking := true |> |>.

(** [repo.Create] with the fallback of a generated name; the persisted VM. *)
Definition persist_new (vm : VM) (explicit : bool) : M W (res VM) :=
  let* c := PgRepo.Create vm in
  match c with
  | Ok _ => ret (Ok vm)
  | Err err =>
      if isUniqueViolation err then
        if explicit then ret (Err (Conflict "vm name already in use"))
        else
          let* n := gen_name_with_suffix (vm_ID vm) in
          let vm := vm <| vm_Name := n |> in
          let? _ := PgRepo.Create vm in
          ret (Ok vm)
      else ret (Err err)
  end.

(** The address of a new VM, when networking is configured. *)
Definition allocate_ip (vm : VM) : M W (res (option string)) :=
  match svc_ipAllocator s with
  | None => ret (Ok None)
  | Some a =>
      let* r := IPAlloc.Allocate a (vm_ID vm) in
      match r with
      | Ok ip => ret (Ok (Some ip))
      | Err allocErr =>
          let* t := now in
          let* _ := Update (Terminate t vm) in
          ret (Err (Internal (wrapf "allocate ip: " allocErr)))
      end
  end.

(** The runtime metadata of a new VM. *)
Definition observe_created (backendID : string) (vm : VM) : M W VM :=
  let* t := now in
  let vm := SetRuntimeMetadata t backendID "" 0 "created" vm in
  let* st := on_backend (be_Status backendID) in
  match st with
  | Ok runtimeStatus =>
      let* t := now in
      ret (SetRuntimeMetadata t backendID "" (rs_PID runtimeStatus) (rs_State runtimeStatus) vm)
  | Err _ => ret vm
  end.

(** From the persisted row to a ready VM. *)
Definition provision (vm : VM) (env : Environment) : M W (res VM) :=
  let? oip := allocate_ip vm in
  let vm := match oip with Some ip => vm <| vm_IPAddress := Some ip |> | None => vm end in
  let spec := match oip with Some ip => with_network ip (create_spec vm env) | None => create_spec vm env end in
  let* prep := prepareWorkspaceImageFromStorage s (vm_ID vm) (vm_ConversationID vm) in
  match prep with
  | Err err => let* _ := abandon vm in ret (Err (Internal (wrapf "prepare workspace image: " err)))
  | Ok _ =>
      let* created := on_backend (be_Create spec) in
      match created with
      | Err err => let* _ := abandon vm in ret (Err (Internal err))
      | Ok backendID =>
          let* mounted := ensureWorkspaceMounted backendID in
          match mounted with
          | Err err =>
              let* _ := on_backend (be_Destroy backendID) in
              let* _ := abandon vm in
              ret (Err err)
          | Ok _ =>
              let* vm := observe_created backendID vm in
              let* vm := refreshIdleDeadline vm in
              let vm := vm <| vm_Status := StatusReady |> in
              let? _ := Update vm in
              let* _ := notifyHook (CreatedEvent vm) in
              ret (Ok vm)
          end
      end
  end.

Definition Create (envID conversationID provider name : string) (workspaceSizeGB : Z)
  (vcpu memoryMB diskMB servicePort : option Z) : M W (res VM) :=
  if bool_decide (trim_space conversationID = "") then ret (Err (BadRequest "conversation_id is required"))
  else
    let workspaceSizeGB := if bool_decide (workspaceSizeGB <= 0) then defaultWorkspaceSizeGB else workspaceSizeGB in
    let* e := EnvGetByID envID in
    match e with
    | Err _ => ret (Err (NotFound "environment" envID))
    | Ok env =>
        let provider := if bool_decide (provider = "") then ProviderFirecracker else provider in
        let explicit := negb (bool_decide (trim_space name = "")) in
        if explicit && bool_decide (NormalizeName name = "") then ret (Err (BadRequest "invalid vm name"))
        else
          let namePtr := if explicit then Some (NormalizeName name) else None in
          let* id := new_uuid in
          let* generated := if explicit then ret "" else gen_name in
          let* t := now in
          let vm := (New id generated t
            {| cp_EnvironmentID := envID; cp_ConversationID := trim_space conversationID; cp_Provider := provider;
               cp_WorkspaceSizeGB := workspaceSizeGB; cp_Name := namePtr; cp_VCPU := vcpu; cp_MemoryMB := memoryMB;
               cp_DiskMB := diskMB; cp_ServicePort := servicePort |})
            <| vm_DiffSnapshotsEnabled := env_DiffSnapshots env |> in
          let? vm := resolveUniqueName vm explicit in
          let? vm := persist_new vm explicit in
          provision vm env
    end.

(** ** Observing the runtime *)

Definition GetRuntimeSnapshot (id : string) : M W (res VM) :=
  let? vm := GetByID id in
  let runtimeID := runtimeIDOf vm in
  let* st := on_backend (be_Status runtimeID) in
  match st with
  | Err statusErr =>
      if says_not_found statusErr then
        let* t := now in
        let vm := vm <| vm_RuntimeState := Some "stopped" |> <| vm_PID := None |> <| vm_LastHeartbeatAt := Some t |> in
        let vm := if bool_decide (vm_Status vm = StatusTerminated) then vm else Unassign vm in
        let? _ := Update vm in
        ret (Ok vm)
      else ret (Err statusErr)
  | Ok runtimeStatus =>
      let* t := now in
      let vm := SetRuntimeMetadata t runtimeID "" (rs_PID runtimeStatus) (rs_State runtimeStatus) vm in
      let vm := if bool_decide (rs_State runtimeStatus = "stopped") || bool_decide (rs_State runtimeStatus = "terminated")
                then (let vm := vm <| vm_PID := None |> in
                      if bool_decide (vm_Status vm = StatusTerminated) then vm else Unassign vm)
                else vm in
      let? _ := Update vm in
      ret (Ok vm)
  end.

Definition reports_running (vm : VM) : bool :=
  match vm_RuntimeState vm with
  | Some st => bool_decide (to_lower st = "running")
  | None => false
  end.
Fixpoint refresh_running (vms : list VM) : M W (list VM) :=
  match vms with
  | [] => ret []
  | vm :: vms' =>
      let* r := GetRuntimeSnapshot (vm_ID vm) in
      let* rest := refresh_running vms' in
      ret (match r with
           | Ok refreshed => if reports_running refreshed then refreshed :: rest else rest
           | Err _ => rest
           end)
  end.
Definition ListRunningRuntimes : M W (res (list VM)) :=
  let? vms := GetActiveVMs in
  let* out := refresh_running vms in
  ret (Ok out).
Definition ListRunningRuntimesByUser (userID : string) : M W (res (list VM)) :=
  let? vms := GetActiveByUserID userID in
  let* out := refresh_running vms in
  ret (Ok out).

(** ** Assignment *)

Definition AssignToChat (vmID chatID : string) : M W (res VM) :=
  let* t := now in
  let? vm := AssignToChatIfAvailable vmID chatID (Some (t + svc_idleTimeout s)) in
  let* _ := notifyHook (AssignedEvent vm chatID) in
  ret (Ok vm).

Definition Unassign (vmID : string) : M W (res VM) :=
  let? vm := GetByID vmID in
  let priorChatID := priorChat vm in
  let* vm := refreshIdleDeadline (Domain.Unassign vm) in
  let? _ := ReleaseActiveLeaseByVM vmID in
  let? _ := Update vm in
  let* _ := notifyHook (UnassignedEvent vm priorChatID) in
  ret (Ok vm).

Definition MarkActive (vmID : string) : M W (res unit) :=
  let? vm := GetByID vmID in
  let* vm := refreshIdleDeadline vm in
  Update vm.

(** ** Stopping *)

(** The events after a VM has gone idle. *)
Definition notify_cooled (vm : VM) (oldStatus : Status) (priorChatID : string) : M W unit :=
  let* _ := if bool_decide (vm_Status vm = oldStatus) then ret tt else notifyHook (StatusChangedEvent vm oldStatus) in
  if bool_decide (priorChatID = "") then ret tt else notifyHook (UnassignedEvent vm priorChatID).

Definition auto_snapshot (enabled : bool) (id : string) : M W unit :=
  if enabled && svc_snapRepo s then let* _ := CreateSnapshot s id in ret tt else ret tt.

Definition Stop (id : string) : M W (res VM) :=
  let? vm := GetByID id in
  let oldStatus := vm_Status vm in
  let priorChatID := priorChat vm in
  let* _ := auto_snapshot (svc_autoSnapshot s && IsActive (vm_Status vm)) id in
  let* _ := teardownWorkspace s vm id in
  let* st := on_backend (be_StopPreserving id) in
  match st with
  | Err err => ret (Err (Internal err))
  | Ok _ =>
      let vm := (Domain.Unassign vm) <| vm_IdleDeadlineAt := None |> in
      let? _ := ReleaseActiveLeaseByVM id in
      let? _ := Update vm in
      let* _ := notify_cooled vm oldStatus priorChatID in
      ret (Ok vm)
  end.

Definition Destroy (id : string) : M W (res unit) :=
  let? vm := GetByID id in
  let* _ := teardownWorkspace s vm id in
  let* _ := deleteAllSnapshots s id in
  let* d := on_backend (be_Destroy id) in
  match d with
  | Err err => ret (Err (Internal err))
  | Ok _ =>
      let* t := now in
      let vm := (Terminate t vm) <| vm_IdleDeadlineAt := None |> in
      let? _ := ReleaseActiveLeaseByVM id in
      let* _ := match svc_ipAllocator s with Some _ => IPAlloc.Release id | None => ret (Ok tt) end in
      let? _ := Update vm in
      let? _ := Delete id in
      let* _ := notifyHook (DestroyedEvent vm) in
      ret (Ok tt)
  end.

(** The part of the reaper's body after the stop: whether the backend stopped the
    VM or no longer knew it, the row goes idle and the lease is released. *)
Definition settle_reaped (now : Z) (vm : VM) (oldStatus : Status) (priorChatID : string) : M W unit :=
  let vm := cooled now "stopped" vm in
  let* _ := ReleaseActiveLeaseByVM (vm_ID vm) in
  let* up := Update vm in
  match up with
  | Err _ => ret tt
  | Ok _ => notify_cooled vm oldStatus priorChatID
  end.

Definition reap_one (now0 : Z) (vm : VM) : M W unit :=
  if match vm_IdleDeadlineAt vm with None => true | Some d => bool_decide (now0 < d) end then ret tt
  else
    let* t := now in
    if IsRecentlyResumed t (svc_resumeGrace s) vm then ret tt
    else
      let oldStatus := vm_Status vm in
      let priorChatID := priorChat vm in
      let* _ := auto_snapshot (svc_autoSnapshot s) (vm_ID vm) in
      let* _ := teardownWorkspace s vm (vm_ID vm) in
      let* st := on_backend (be_StopPreserving (vm_ID vm)) in
      match st with
      | Ok _ => settle_reaped now0 vm oldStatus priorChatID
      | Err err => if says_not_found err then settle_reaped now0 vm oldStatus priorChatID else ret tt
      end.
Definition reapIdleVMs : M W unit :=
  let* now0 := now in
  let* r := GetActiveVMs in
  match r with
  | Err _ => ret tt
  | Ok vms => for_each vms (reap_one now0)
  end.

Definition markColdAfterLostRuntime (vm : VM) (runtimeState : string) (now0 : Z) : M W unit :=
  let oldStatus := vm_Status vm in
  let priorChatID := priorChat vm in
  let vm := cooled now0 runtimeState vm in
  let* up := Update vm in
  match up with
  | Err _ => ret tt
  | Ok _ =>
      let* _ := notifyHook (StatusChangedEvent vm oldStatus) in
      if bool_decide (priorChatID = "") then ret tt else notifyHook (UnassignedEvent vm priorChatID)
  end.

Definition reconcile_one (now0 : Z) (vm : VM) : M W unit :=
  if bool_decide (vm_Status vm = StatusIdle) then ret tt
  else
    let runtimeID := runtimeIDOf vm in
    let* st := on_backend (be_Status runtimeID) in
    match st with
    | Err statusErr =>
        if says_not_found statusErr then markColdAfterLostRuntime vm "stopped" now0 else ret tt
    | Ok runtimeStatus =>
        if bool_decide (rs_State runtimeStatus = "stopped") || bool_decide (rs_State runtimeStatus = "terminated")
        then markColdAfterLostRuntime vm (rs_State runtimeStatus) now0
        else
          let* t := now in
          let* _ := Update (SetRuntimeMetadata t runtimeID "" (rs_PID runtimeStatus) (rs_State runtimeStatus) vm) in
          ret tt
    end.
Definition reconcileRuntimeStates : M W unit :=
  let* now0 := now in
  let* r := GetActiveVMs in
  match r with
  | Err _ => ret tt
  | Ok vms => for_each vms (reconcile_one now0)
  end.

(** The reads that the service hands on to its repository. *)
Definition svc_GetByChatID (chatID : string) : M W (res VM) := GetByChatID chatID.
Definition svc_ListActiveLeasesByChat (chatID : string) : M W (res (list Lease)) := ListActiveLeasesByChat chatID.
Definition svc_FindPreviousLeaseForChat (chatID : string) : M W (res VM) := FindPreviousLeaseForChat chatID.
Definition svc_ListPreviousLeasesForChat (chatID : string) : M W (res (list VM)) := ListPreviousLeasesForChat chatID.
Definition svc_GetByEnvironmentAndChatID (envID chatID : string) : M W (res VM) := GetByEnvironmentAndChatID envID chatID.

Definition shutdown_one (vm : VM) : M W unit :=
  let runtimeID := runtimeIDOf vm in
  let* _ := auto_snapshot (svc_autoSnapshot s && IsActive (vm_Status vm)) runtimeID in
  let* _ := teardownWorkspace s vm runtimeID in
  let* _ := on_backend (be_StopPreserving runtimeID) in
  let vm := (Domain.Unassign vm) <| vm_IdleDeadlineAt := None |> in
  let* _ := ReleaseActiveLeaseByVM (vm_ID vm) in
  let* _ := Update vm in
  ret tt.
Definition Shutdown : M W unit :=
  let* r := GetActiveVMs in
  match r with
  | Err _ => ret tt
  | Ok vms => for_each vms shutdown_one
  end.

End VMService.
