(* ===== verification/VMResume.v ===== *)
(** * Resuming a VM: ResumeVM of src/service/vm/service.go

    ResumeVM downloads the latest snapshot, rebuilds its disk and its memory from
    the chain, restores the VM and binds it to a chat.  The stages that touch the
    object store end in one of three ways: a value, [Err (Some e)] for an error
    that is returned, and [Err None] when the code gives up on the snapshot and
    creates a new VM instead. *)

From S2P Require Import Prelude Exception Naming GoLib Domain World PgRepo IPAlloc Interfaces Hoare VMExec VMSnapshot.
From S2P Require Import VMService.

Abbreviation stage := (result (option error)).

(** A nil dereference; the HTTP layer's recovery turns it into a 500. *)
Definition nil_panic : error := EText "panic: nil pointer dereference".

Record dlEntry := { dl_name : string; dl_compressed : bool }.

(** The index of the last snapshot of the chain with a disk of its own, 0 if none. *)
Definition has_own_disk (s : Snapshot) : bool :=
  match ParseMetadata s with
  | Ok (Some cm) => bool_decide (sm_DiskSnapshotType cm = "full") || bool_decide (sm_DiskSnapshotType cm = "self_contained")
  | _ => false
  end.
Fixpoint last_disk_root (i found : nat) (chain : list Snapshot) : nat :=
  match chain with
  | [] => found
  | c :: chain' => last_disk_root (S i) (if has_own_disk c then i else found) chain'
  end.
Definition diskRootIdx (chain : list Snapshot) : nat := last_disk_root 0 0 chain.

Definition resume_spec (vm : VM) (vmID conversationID : string) (meta : SnapshotMetadata) : CreateSpec :=
  {| cs_InstanceID := vmID;
     cs_EnvironmentID := sm_EnvironmentID meta;
     cs_ImagePath := sm_ImagePath meta;
     cs_Resources := {| rl_VCPU := sm_VCPU meta; rl_MemoryMB := sm_MemoryMB meta; rl_DiskMB := sm_DiskMB meta |};
     cs_Workspace := {| wc_ConversationID := conversationID; wc_SizeGB := vm_WorkspaceSizeGB vm |};
     cs_Runtime :=
       {| rc_Network := no_network;
          rc_Vsock := {| vc_Enabled := true; vc_GuestCID := sm_GuestCID meta; vc_GuestPort := sm_GuestPort meta;
                         vc_HostUDSPath := "" |};
          rc_Exec := {| el_Timeout := 0; el_MaxStdoutBytes := 0; el_MaxStderrBytes := 0 |};
          rc_Timeout := 0; rc_MaxTasks := 0; rc_EnableNetworking := false; rc_EnableSeccomp := false;
          rc_EnableDebug := false; rc_EnableDiffSnapshots := false |};
     cs_RestoreAsFull := false; cs_CowChainPaths := []; cs_DiskImagePath := "" |}.
Definition with_diff (spec : CreateSpec) : CreateSpec :=
  spec <| cs_Runtime := (cs_Runtime spec) <| rc_EnableDiffSnapshots := true |> |>.

Section Resume.
Context {B St : Type} `{!Backend B, !Storage St}.
Abbreviation W := (World B St).
Context (s : Service).
Local Open Scope go_scope.

(** ** Object store access *)

(** [exists, _ := ObjectExists(...)] *)
Definition object_exists (key : string) : M W bool :=
  let* r := on_store (st_ObjectExists key) in
  ret (match r with Ok b => b | Err _ => false end).
Definition download1 (key localPath : string) : M W (res unit) :=
  on_store (st_DownloadFiles [{| sf_Key := key; sf_LocalPath := localPath |}]).
Definition remove_quietly (path : string) : M W unit := let* _ := on_store (st_Remove path) in ret tt.

Definition failed {A} (what : string) (e : error) : stage A := Err (Some (Internal (wrapf what e))).
(** [if err != nil { return exception.Internal(fmt.Errorf(what + "%w", err)) }] *)
Definition or_fail {A} (what : string) (m : M W (res A)) : M W (stage A) :=
  let* r := m in ret (match r with Ok a => Ok a | Err e => failed what e end).
(** The same when the code falls back to a new VM. *)
Definition or_new_vm {A} (m : M W (res A)) : M W (stage A) :=
  let* r := m in ret (match r with Ok a => Ok a | Err _ => Err None end).

(** ** Choosing and fetching the snapshot's files *)

(** The entries to download and whether the snapshot has a disk image of its own. *)
Definition download_entries (snap : Snapshot) (meta : SnapshotMetadata) (diskChain : list Snapshot)
  (baseSnap : option Snapshot) : M W (list string * bool) :=
  let* disk :=
    if negb (sm_DiffSnapshots meta) then ret ([], false)
    else if bool_decide (sm_DiskSnapshotType meta = "incremental") && negb (bool_decide (diskChain = []))
    then ret (["cow"], false)
    else
      let* zst := object_exists (sn_SnapshotPath snap +:+ "/disk.zst") in
      if (zst : bool) then ret (["disk"], true)
      else
        let* raw := object_exists (sn_SnapshotPath snap +:+ "/disk") in
        ret (if (raw : bool) then (["disk"], true) else (["cow"], false)) in
  ret (["memory"; "state"] ++ fst disk
       ++ (if IsIncremental snap && bool_decide (is_Some baseSnap) then ["memory.manifest"] else []), snd disk).

Fixpoint mark_compressed (snapPath : string) (names : list string) : M W (list dlEntry) :=
  match names with
  | [] => ret []
  | n :: names' =>
      let* zst := object_exists (snapPath +:+ "/" +:+ n +:+ ".zst") in
      let* rest := mark_compressed snapPath names' in
      ret ({| dl_name := n; dl_compressed := zst |} :: rest)
  end.

Definition entry_file (snapPath tmpDir : string) (e : dlEntry) : SnapshotFile :=
  if dl_compressed e
  then {| sf_Key := snapPath +:+ "/" +:+ dl_name e +:+ ".zst"; sf_LocalPath := filepath_Join [tmpDir; dl_name e +:+ ".zst"] |}
  else {| sf_Key := snapPath +:+ "/" +:+ dl_name e; sf_LocalPath := filepath_Join [tmpDir; dl_name e] |}.

(** Decompress or move one downloaded file to where the restore expects it. *)
Definition place_entry (tmpDir vmDir : string) (e : dlEntry) : M W (stage unit) :=
  if dl_compressed e then
    let zstPath := filepath_Join [tmpDir; dl_name e +:+ ".zst"] in
    let rawPath := if bool_decide (dl_name e = "cow") then filepath_Join [vmDir; "cow.img"]
                   else if bool_decide (dl_name e = "disk") then filepath_Join [vmDir; "disk.img"]
                   else filepath_Join [tmpDir; dl_name e] in
    let* d := on_store (st_DecompressFileZstd zstPath rawPath) in
    match d with
    | Err err =>
        let* _ := on_store (st_RemoveAll tmpDir) in
        ret (failed ("failed to decompress " +:+ dl_name e +:+ ": ") err)
    | Ok _ => let* _ := remove_quietly zstPath in ret (Ok tt)
    end
  else if bool_decide (dl_name e = "cow") then
    or_fail "failed to move cow to vm dir: "
      (on_store (st_Rename (filepath_Join [tmpDir; "cow"]) (filepath_Join [vmDir; "cow.img"])))
  else if bool_decide (dl_name e = "disk") then
    or_fail "failed to move disk image to vm dir: "
      (on_store (st_Rename (filepath_Join [tmpDir; "disk"]) (filepath_Join [vmDir; "disk.img"])))
  else ret (Ok tt).
Fixpoint place_entries (tmpDir vmDir : string) (es : list dlEntry) : M W (stage unit) :=
  match es with
  | [] => ret (Ok tt)
  | e :: es' => let? _ := place_entry tmpDir vmDir e in place_entries tmpDir vmDir es'
  end.

(** ** The disk *)

(** A file that may be stored compressed: fetch it to [dst]. *)
Definition fetch_file (what dec raw zstKey rawKey tmpZst dst : string) : M W (stage unit) :=
  let* zst := object_exists zstKey in
  if (zst : bool) then
    let? _ := or_fail what (download1 zstKey tmpZst) in
    let? _ := or_fail dec (on_store (st_DecompressFileZstd tmpZst dst)) in
    let* _ := remove_quietly tmpZst in
    ret (Ok tt)
  else or_fail raw (download1 rawKey dst).

Fixpoint fetch_cows (i : Z) (tmpDir vmDir : string) (chain : list Snapshot) : M W (stage (list string)) :=
  match chain with
  | [] => ret (Ok [])
  | c :: chain' =>
      let n := fmt_d i in
      let cowLocal := filepath_Join [vmDir; "cow_chain_" +:+ n +:+ ".img"] in
      let? _ := fetch_file ("download chain cow " +:+ n +:+ ": ") ("decompress chain cow " +:+ n +:+ ": ")
                  ("download chain cow " +:+ n +:+ " (raw): ")
                  (sn_SnapshotPath c +:+ "/cow.zst") (sn_SnapshotPath c +:+ "/cow")
                  (filepath_Join [tmpDir; "chain_cow_" +:+ n +:+ ".zst"]) cowLocal in
      let? rest := fetch_cows (i + 1) tmpDir vmDir chain' in
      ret (Ok (cowLocal :: rest))
  end.

Definition prepare_disk (tmpDir vmDir : string) (meta : SnapshotMetadata) (diskChain : list Snapshot)
  (hasDiskImage : bool) (spec : CreateSpec) : M W (stage CreateSpec) :=
  let diskPath := filepath_Join [vmDir; "disk.img"] in
  if hasDiskImage then ret (Ok (with_diff (spec <| cs_DiskImagePath := diskPath |>)))
  else if bool_decide (sm_DiskSnapshotType meta = "incremental") then
    match diskChain !! diskRootIdx diskChain with
    | None => ret (Ok spec)
    | Some diskRoot =>
        let? _ := fetch_file "download root disk: " "decompress root disk: " "download root disk (raw): "
                    (sn_SnapshotPath diskRoot +:+ "/disk.zst") (sn_SnapshotPath diskRoot +:+ "/disk")
                    (filepath_Join [tmpDir; "root_disk.zst"]) diskPath in
        let spec := with_diff (spec <| cs_DiskImagePath := diskPath |>) in
        let? cowPaths := fetch_cows 0 tmpDir vmDir (drop (S (diskRootIdx diskChain)) diskChain) in
        ret (Ok (match cowPaths with [] => spec | _ => spec <| cs_CowChainPaths := cowPaths |> end))
    end
  else ret (Ok spec).

(** ** The memory *)

(** Try the compressed file; on any failure the raw one; without it a new VM. *)
Definition fetch_memory (zstKey rawKey zstLocal rawLocal : string) : M W (stage unit) :=
  let* zst := object_exists zstKey in
  let* downloaded :=
    if (zst : bool) then
      let* d := download1 zstKey zstLocal in
      match d with
      | Err _ => ret false
      | Ok _ =>
          let* u := on_store (st_DecompressFileZstd zstLocal rawLocal) in
          match u with
          | Err _ => ret false
          | Ok _ => let* _ := remove_quietly zstLocal in ret true
          end
      end
    else ret false in
  if (downloaded : bool) then ret (Ok tt) else or_new_vm (download1 rawKey rawLocal).

(** Merge the diffs of the chain members onto the accumulated memory, in order. *)
Fixpoint merge_diffs (ci : Z) (dir accumMemPath : string) (chain : list Snapshot) : M W (stage string) :=
  match chain with
  | [] => ret (Ok accumMemPath)
  | c :: chain' =>
      let n := fmt_d ci in
      let diffMemLocal := filepath_Join [dir; "diff_" +:+ n] in
      let? _ := fetch_memory (sn_SnapshotPath c +:+ "/memory.zst") (sn_SnapshotPath c +:+ "/memory")
                  (diffMemLocal +:+ ".zst") diffMemLocal in
      let manLocal := filepath_Join [dir; "manifest_" +:+ n] in
      let? _ := or_new_vm (download1 (sn_SnapshotPath c +:+ "/memory.manifest") manLocal) in
      let? manifest := or_new_vm (on_store (st_ReadManifest manLocal)) in
      let mergedPath := filepath_Join [dir; "merged_" +:+ n] in
      let? _ := or_new_vm (on_store (st_MergeDiffMemory accumMemPath diffMemLocal mergedPath manifest)) in
      merge_diffs (ci + 1) dir mergedPath chain'
  end.

Definition merge_chain (tmpDir : string) (root : Snapshot) (diffs : list Snapshot) : M W (stage unit) :=
  let dir := filepath_Join [tmpDir; "chain_mem"] in
  let? _ := or_fail "create chain memory dir: " (on_store (st_MkdirAll dir)) in
  let baseMemLocal := filepath_Join [dir; "base_memory"] in
  let? _ := fetch_memory (sn_SnapshotPath root +:+ "/memory.zst") (sn_SnapshotPath root +:+ "/memory")
              (baseMemLocal +:+ ".zst") baseMemLocal in
  let? merged := merge_diffs 0 dir baseMemLocal diffs in
  or_fail "rename merged memory: " (on_store (st_Rename merged (filepath_Join [tmpDir; "memory"]))).

(** The legacy CoW pair of the single-step merge. *)
Definition legacy_cows (dir vmDir : string) (baseSnap : Snapshot) (spec : CreateSpec) : M W (stage CreateSpec) :=
  let cowIncrPath := filepath_Join [vmDir; "cow_incr.img"] in
  let cowCurrentPath := filepath_Join [vmDir; "cow.img"] in
  let* st := on_store (st_Stat cowCurrentPath) in
  let? _ := match st with
            | Ok _ => or_fail "rename incremental cow: " (on_store (st_Rename cowCurrentPath cowIncrPath))
            | Err _ => ret (Ok tt)
            end in
  let cowFullPath := filepath_Join [vmDir; "cow_full.img"] in
  let? _ := fetch_file "download base cow: " "decompress base cow: " "download base cow (raw): "
              (sn_SnapshotPath baseSnap +:+ "/cow.zst") (sn_SnapshotPath baseSnap +:+ "/cow")
              (filepath_Join [dir; "cow.zst"]) cowFullPath in
  ret (Ok (spec <| cs_CowChainPaths := [cowFullPath; cowIncrPath] |>)).

(** The branch for a chain of one element. *)
Definition merge_single (tmpDir vmDir : string) (meta : SnapshotMetadata) (baseSnap : Snapshot) (hasDiskImage : bool)
  (spec : CreateSpec) : M W (stage CreateSpec) :=
  let dir := filepath_Join [tmpDir; "base"] in
  let? _ := or_fail "create base snapshot dir: " (on_store (st_MkdirAll dir)) in
  let baseRawLocal := filepath_Join [dir; "memory"] in
  let? _ := fetch_memory (sn_SnapshotPath baseSnap +:+ "/memory.zst") (sn_SnapshotPath baseSnap +:+ "/memory")
              (filepath_Join [dir; "memory.zst"]) baseRawLocal in
  let? manifest := or_new_vm (on_store (st_ReadManifest (filepath_Join [tmpDir; "memory.manifest"]))) in
  let diffMemoryPath := filepath_Join [tmpDir; "memory"] in
  let mergedPath := filepath_Join [tmpDir; "memory.merged"] in
  let? _ := or_new_vm (on_store (st_MergeDiffMemory baseRawLocal diffMemoryPath mergedPath manifest)) in
  let? _ := or_fail "rename merged memory: " (on_store (st_Rename mergedPath diffMemoryPath)) in
  if negb hasDiskImage && negb (bool_decide (sm_DiskSnapshotType meta = "incremental"))
  then legacy_cows dir vmDir baseSnap spec else ret (Ok spec).

Definition prepare_memory (tmpDir vmDir : string) (snap : Snapshot) (meta : SnapshotMetadata)
  (diskChain : list Snapshot) (baseSnap : option Snapshot) (hasDiskImage : bool) (spec : CreateSpec)
  : M W (stage CreateSpec) :=
  match baseSnap with
  | Some base =>
      if IsIncremental snap then
        match diskChain with
        | root :: (_ :: _ as diffs) =>
            let? _ := merge_chain tmpDir root diffs in
            ret (Ok (spec <| cs_RestoreAsFull := true |>))
        | _ =>
            let? spec := merge_single tmpDir vmDir meta base hasDiskImage spec in
            ret (Ok (spec <| cs_RestoreAsFull := true |>))
        end
      else ret (Ok spec)
  | None => ret (Ok spec)
  end.

(** ** The whole download *)

Record Fetched := { fe_dir : string; fe_spec : CreateSpec; fe_downloadMs : Z }.

Definition fetch_snapshot (vmID : string) (snap : Snapshot) (meta : SnapshotMetadata) (diskChain : list Snapshot)
  (baseSnap : option Snapshot) (restoreStart : Z) (spec : CreateSpec) : M W (stage Fetched) :=
  let* t := now in
  let vmDir := filepath_Join ["/var/lib/firecracker/vms"; vmID] in
  let tmpDir := filepath_Join ["/var/lib/firecracker/vms"; vmID; "snapshots"; "restore-" +:+ format_stamp t] in
  let* chosen := download_entries snap meta diskChain baseSnap in
  let '(names, hasDiskImage) := chosen in
  let* entries := mark_compressed (sn_SnapshotPath snap) names in
  let? _ := or_fail "failed to download snapshot from storage: "
              (on_store (st_DownloadFiles (entry_file (sn_SnapshotPath snap) tmpDir <$> entries))) in
  let* t' := now in
  let? _ := place_entries tmpDir vmDir entries in
  let? spec := prepare_disk tmpDir vmDir meta diskChain hasDiskImage spec in
  let? spec := prepare_memory tmpDir vmDir snap meta diskChain baseSnap hasDiskImage spec in
  ret (Ok {| fe_dir := tmpDir; fe_spec := spec; fe_downloadMs := milliseconds (t' - restoreStart) |}).

(** ** The address of the restored VM *)

Definition resume_ip (vm : VM) : M W (res VM) :=
  match svc_ipAllocator s with
  | None => ret (Ok vm)
  | Some a =>
      if bool_decide (vm_IPAddress vm = None) || bool_decide (vm_IPAddress vm = Some "") then
        let* r := IPAlloc.Allocate a (vm_ID vm) in
        match r with
        | Err e => ret (Err (Internal (wrapf "allocate ip on restore: " e)))
        | Ok ip => ret (Ok (vm <| vm_IPAddress := Some ip |>))
        end
      else
        let ip := default "" (vm_IPAddress vm) in
        let* r := GetAllocatedIPsExclude (vm_ID vm) in
        match r with
        | Ok allocated =>
            if bool_decide (ip ∈ allocated)
            then ret (Err (Internal (EText ("IP " +:+ ip +:+ " is already in use by another VM, cannot restore"))))
            else ret (Ok vm)
        | Err _ => ret (Ok vm)
        end
  end.
Definition resume_network (vm : VM) (spec : CreateSpec) : CreateSpec :=
  match svc_ipAllocator s with
  | Some _ => with_network s (default "" (vm_IPAddress vm)) spec
  | None => spec
  end.

(** ** After the restore *)

Definition resume_metrics (snap : Snapshot) (vmID : string) (meta : SnapshotMetadata)
  (downloadMs restoreMs agentReadyMs totalMs t : Z) : SnapshotMetrics :=
  {| mx_SnapshotID := sn_ID snap; mx_VMID := vmID; mx_Type := sn_Type snap;
     mx_PauseDurationMs := 0; mx_MemoryBytes := 0; mx_MemoryZstBytes := 0; mx_CowBytes := 0; mx_CowZstBytes := 0;
     mx_DiskBytes := 0; mx_UploadDurationMs := 0;
     mx_DownloadDurationMs := downloadMs; mx_DecompressDurationMs := 0; mx_RestoreDurationMs := restoreMs;
     mx_AgentReadyMs := agentReadyMs; mx_TotalResumeMs := totalMs; mx_GuestRAMMB := sm_MemoryMB meta;
     mx_WorkloadType := ""; mx_ChainDepth := 0; mx_CreatedAt := t |}.

(** The runtime metadata of a restored VM. *)
Definition observe_restored (backendID : string) (vm : VM) : M W VM :=
  let* t := now in
  let vm := SetRuntimeMetadata t backendID "" 0 "running" vm in
  let* st := on_backend (be_Status backendID) in
  match st with
  | Ok rs =>
      let* t := now in
      ret (SetRuntimeVsockMetadata (rs_VsockPath rs) (rs_GuestCID rs)
             (SetRuntimeMetadata t backendID "" (rs_PID rs) (rs_State rs) vm))
  | Err _ => ret vm
  end.

Definition restore (vm : VM) (vmID chatID restoreDir : string) (snap : Snapshot) (meta : SnapshotMetadata)
  (preResumeStatus : Status) (spec : CreateSpec) (resumeStart downloadMs : Z) : M W (res VM) :=
  let* restoreBackendStart := now in
  let* restored := on_backend (be_RestoreFromSnapshot spec restoreDir) in
  match restored with
  | Err e => ret (Err (Internal e))
  | Ok backendID =>
      let* restoreEnd := now in
      let* agentStart := now in
      let* mounted := ensureWorkspaceMounted backendID in
      match mounted with
      | Err e =>
          let* _ := on_backend (be_StopPreserving backendID) in
          ret (Err e)
      | Ok _ =>
          let* agentEnd := now in
          let* vm := observe_restored backendID vm in
          let* t := now in
          let* vm := refreshIdleDeadline s (MarkResumed t (vm <| vm_Status := StatusRunning |>)) in
          let? _ := Update vm in
          let bound := negb (bool_decide (trim_space chatID = "")) in
          let? assignedVM := if bound then AssignToChatIfAvailable vmID chatID (vm_IdleDeadlineAt vm)
                             else ret (Ok vm) in
          let* t := now in
          let* created := now in
          let* _ := MetricsInsert (resume_metrics snap vmID meta downloadMs
                      (milliseconds (restoreEnd - restoreBackendStart)) (milliseconds (agentEnd - agentStart))
                      (milliseconds (t - resumeStart)) created) in
          let* _ := notifyHook s (StatusChangedEvent assignedVM preResumeStatus) in
          let* _ := if bound then notifyHook s (AssignedEvent assignedVM chatID) else ret tt in
          let* _ := spawn (JobDeleteAll vmID) in
          ret (Ok assignedVM)
      end
  end.

(** ** ResumeVM *)

Definition new_vm_instead (vm : VM) (meta : SnapshotMetadata) (chatID : string) : M W (res VM) :=
  Create s (sm_EnvironmentID meta) chatID ProviderFirecracker "" (vm_WorkspaceSizeGB vm) None None None None.

(** From the workspace image on, with the chain already resolved. *)
Definition resume_with (vm : VM) (vmID chatID : string) (snap : Snapshot) (om : option SnapshotMetadata)
  (diskChain : list Snapshot) : M W (res VM) :=
  let preResumeStatus := vm_Status vm in
  let conversationID := trim_space (vm_ConversationID vm) in
  let empty := bool_decide (conversationID = "") in
  let conversationID := if empty then trim_space chatID else conversationID in
  let vm := if empty then vm <| vm_ConversationID := conversationID |> else vm in
  let vm := if bool_decide (vm_WorkspaceSizeGB vm <= 0)
            then vm <| vm_WorkspaceSizeGB := defaultWorkspaceSizeGB |> else vm in
  let* prep := prepareWorkspaceImageFromStorage s (vm_ID vm) conversationID in
  match prep with
  | Err e => ret (Err (Internal (wrapf "prepare workspace image for resume: " e)))
  | Ok _ =>
      match om with
      | None => ret (Err nil_panic)
      | Some meta =>
          let? vm := resume_ip vm in
          let spec := resume_network vm (resume_spec vm vmID conversationID meta) in
          let* resumeStart := now in
          let* restoreStart := now in
          let diff := fun spec => if sm_DiffSnapshots meta then with_diff spec else spec in
          if svc_snapshotStore s then
            let* f := fetch_snapshot vmID snap meta diskChain (head diskChain) restoreStart spec in
            match f with
            | Err None => new_vm_instead vm meta chatID
            | Err (Some e) => ret (Err e)
            | Ok fe =>
                let* r := restore vm vmID chatID (fe_dir fe) snap meta preResumeStatus (diff (fe_spec fe))
                            resumeStart (fe_downloadMs fe) in
                let* _ := on_store (st_RemoveAll (fe_dir fe)) in
                ret r
            end
          else restore vm vmID chatID (sn_SnapshotPath snap) snap meta preResumeStatus (diff spec) resumeStart 0
      end
  end.

Definition ResumeVM (vmID chatID : string) : M W (res VM) :=
  let? vm := GetByID vmID in
  let* latest := GetLatestByVMID vmID in
  match latest with
  | Err _ => if bool_decide (trim_space chatID = "") then GetByID vmID else AssignToChat s vmID chatID
  | Ok snap =>
      match ParseMetadata snap with
      | Err msg => ret (Err (Internal (wrapf "failed to parse snapshot metadata: " (EText msg))))
      | Ok om =>
          if IsIncremental snap && HasParent snap then
            let* c := resolveCowChain snap in
            match c, om with
            | _, None => ret (Err nil_panic)
            | Err _, Some meta | Ok [], Some meta => new_vm_instead vm meta chatID
            | Ok diskChain, Some meta => resume_with vm vmID chatID snap om diskChain
            end
          else resume_with vm vmID chatID snap om []
      end
  end.

End Resume.

(** ** What the stages leave alone *)

Section Frames.
Context {B St : Type} `{!Backend B, !Storage St}.
Abbreviation W := (World B St).
Context (R : W -> W -> Prop) `{!OutsideFrame R}.

Lemma keeps_object_exists key : keeps R (object_exists key).
Proof. unfold object_exists. go_keeps. Qed.
Lemma keeps_download1 key path : keeps R (download1 key path).
Proof. unfold download1. go_keeps. Qed.
Lemma keeps_remove_quietly path : keeps R (remove_quietly path).
Proof. unfold remove_quietly. go_keeps. Qed.
Lemma keeps_or_fail {A} what (m : M W (res A)) : keeps R m -> keeps R (or_fail what m).
Proof. intros H. unfold or_fail. go_keeps. Qed.
Lemma keeps_or_new_vm {A} (m : M W (res A)) : keeps R m -> keeps R (or_new_vm m).
Proof. intros H. unfold or_new_vm. go_keeps. Qed.
Hint Resolve keeps_object_exists keeps_download1 keeps_remove_quietly keeps_or_fail keeps_or_new_vm : keeps.

Lemma keeps_download_entries sn meta chain base : keeps R (download_entries sn meta chain base).
Proof. unfold download_entries. go_keeps. Qed.
Lemma keeps_mark_compressed p ns : keeps R (mark_compressed p ns).
Proof. induction ns; cbn [mark_compressed]; go_keeps. Qed.
Lemma keeps_place_entry t v e : keeps R (place_entry t v e).
Proof. unfold place_entry. go_keeps. Qed.
Hint Resolve keeps_place_entry : keeps.
Lemma keeps_place_entries t v es : keeps R (place_entries t v es).
Proof. induction es; cbn [place_entries]; go_keeps. Qed.
Lemma keeps_fetch_file a b c d e f g : keeps R (fetch_file a b c d e f g).
Proof. unfold fetch_file. go_keeps. Qed.
Hint Resolve keeps_fetch_file : keeps.
Lemma keeps_fetch_cows i t v chain : keeps R (fetch_cows i t v chain).
Proof. revert i. induction chain; intros i; cbn [fetch_cows]; go_keeps. Qed.
Hint Resolve keeps_fetch_cows : keeps.
Lemma keeps_prepare_disk t v meta chain b spec : keeps R (prepare_disk t v meta chain b spec).
Proof. unfold prepare_disk. go_keeps. Qed.
Lemma keeps_fetch_memory a b c d : keeps R (fetch_memory a b c d).
Proof. unfold fetch_memory. go_keeps. Qed.
Hint Resolve keeps_fetch_memory : keeps.
Lemma keeps_merge_diffs i d a chain : keeps R (merge_diffs i d a chain).
Proof. revert i a. induction chain; intros i a'; cbn [merge_diffs]; go_keeps. Qed.
Hint Resolve keeps_merge_diffs : keeps.
Lemma keeps_merge_chain t r d : keeps R (merge_chain t r d).
Proof. unfold merge_chain. go_keeps. Qed.
Lemma keeps_legacy_cows d v b spec : keeps R (legacy_cows d v b spec).
Proof. unfold legacy_cows. go_keeps. Qed.
Hint Resolve keeps_merge_chain keeps_legacy_cows : keeps.
Lemma keeps_merge_single t v m b h spec : keeps R (merge_single t v m b h spec).
Proof. unfold merge_single. go_keeps. Qed.
Hint Resolve keeps_merge_single : keeps.
Lemma keeps_prepare_memory t v sn m c b h spec : keeps R (prepare_memory t v sn m c b h spec).
Proof. unfold prepare_memory. go_keeps. Qed.
Hint Resolve keeps_download_entries keeps_mark_compressed keeps_place_entries keeps_prepare_disk
  keeps_prepare_memory : keeps.
Lemma keeps_fetch_snapshot v sn m c b t spec : keeps R (fetch_snapshot v sn m c b t spec).
Proof. unfold fetch_snapshot. go_keeps. Qed.
Lemma keeps_observe_restored id vm : keeps R (observe_restored id vm).
Proof. unfold observe_restored. go_keeps. Qed.
End Frames.
#[export] Hint Resolve keeps_fetch_snapshot keeps_observe_restored : keeps.
