(* ===== verification/VMInv.v ===== *)
(** * Every operation of the VM service keeps the database invariant

    First the interface. Several facts about the tables are kept by every operation for
    the same reason: the repository calls keep them, and the operations compose these
    calls. [Guard] is a predicate on the tables, which VMs may be operated on and which
    entities may be written back; [GuardLaws] says what the repository and snapshot calls
    must satisfy; every operation is then composed once, by [go_gd]. The instances are the
    database invariant (below) and the two frame conditions of VMFrame.v.

    Then the database invariant as a guarantee, and the service as a transition system:
    its calls, its background jobs and the goroutines it starts, in any order, from any
    world that satisfies the invariant. *)

From S2P Require Import Prelude Exception Naming GoLib Domain World PgRepo IPAlloc Interfaces Hoare Invariants VMExec VMSnapshot SnapFacts VMService VMResume SnapGC.

Create HintDb gd.

Class Guard := {
  g_db : DB -> Prop;         (* what is kept of the tables *)
  g_id : string -> Prop;     (* the VMs that may be operated on by id *)
  g_vm : VM -> Prop;         (* the entities that may be written back *)
  g_active : Prop            (* may the active VMs be listed and updated? *)
}.

Section Judgement.
Context {G : Guard} {B St : Type}.
Abbreviation W := (World B St).

(** [m] keeps [g_db] and its value satisfies [Q]. *)
Definition gd {A} (m : M W A) (Q : A -> Prop) : Prop :=
  triple (fun w => g_db (w_db w)) m (fun a w => g_db (w_db w) /\ Q a).

Lemma gd_ret {A} (a : A) (Q : A -> Prop) : Q a -> gd (ret a) Q.
Proof. by intros HQ w Hw. Qed.
Lemma gd_bind {A C} (m : M W A) (k : A -> M W C) Q R : gd m Q -> (forall a, Q a -> gd (k a) R) -> gd (bind m k) R.
Proof. intros Hm Hk. eapply triple_bind; [exact Hm |]. intros a w [Hw HQ]. by apply Hk. Qed.
Lemma gd_bind_ok {E A C} (m : M W (result E A)) (k : A -> M W (result E C)) Q R :
  gd m (ok_val Q) -> (forall a, Q a -> gd (k a) (ok_val R)) -> gd (bind_ok m k) (ok_val R).
Proof.
  intros Hm Hk. eapply triple_bind_ok; [exact Hm | |]; [intros a w [Hw HQ]; by apply Hk | by intros e w [Hw _]].
Qed.
Lemma gd_weaken {A} (m : M W A) (Q Q' : A -> Prop) : gd m Q' -> (forall a, Q' a -> Q a) -> gd m Q.
Proof. intros H HQ w Hw. destruct (H w Hw). auto. Qed.
Lemma gd_forget {E A} (m : M W (result E A)) (Q : A -> Prop) : gd m (ok_val Q) -> gd m (fun _ => True).
Proof. intros H. by eapply gd_weaken. Qed.
Lemma gd_for_each {A} (l : list A) (body : A -> M W unit) :
  (forall x, x ∈ l -> gd (body x) (fun _ => True)) -> gd (for_each l body) (fun _ => True).
Proof.
  intros H w Hw. split; [|done].
  apply (triple_for_each (fun w => g_db (w_db w)) l body); [|done]. intros x Hx w' Hw'. by apply H.
Qed.
Lemma gd_same {A} (m : M W A) : keeps same_db m -> gd m (fun _ => True).
Proof. intros H w Hw. by rewrite (H w). Qed.
Lemma gd_same_ok {E A} (m : M W (result E A)) : keeps same_db m -> gd m (ok_val (fun _ => True)).
Proof. intros H. eapply gd_weaken; [by apply gd_same |]. by intros []. Qed.
Lemma gd_run {A} what (f : DB -> res A * DB) (Q : A -> Prop) :
  (forall db, g_db db -> g_db (f db).2 /\ ok_val Q (f db).1) -> gd (run what f : M W _) (ok_val Q).
Proof.
  intros H w Hw. rewrite run_eq. destruct (or_fault _ _); [done |]. cbn.
  destruct (H _ Hw) as [Hdb HQ]. split; [done |]. by destruct (f _).1.
Qed.
End Judgement.

(** A VM bound to no chat. *)
Definition unbound (vm : VM) : Prop := vm_ChatID vm = None.
(** A VM that this operation has created: unbound, and free to take any status. *)
Definition fresh_vm {G : Guard} (vm : VM) : Prop :=
  unbound vm /\ forall v, vm_ID v = vm_ID vm -> unbound v -> g_vm v.

(** What the entities and the calls of the repositories must satisfy. *)
Class GuardLaws {G : Guard} (s : Service) (B St : Type) `{!Backend B, !Storage St} := {
  gl_id v : g_vm v -> g_id (vm_ID v);
  gl_same v v' : g_vm v -> vm_ID v' = vm_ID v -> vm_Status v' = vm_Status v -> vm_ChatID v' = vm_ChatID v -> g_vm v';
  gl_idle v v' : g_vm v -> vm_ID v' = vm_ID v -> vm_Status v' = StatusIdle -> vm_ChatID v' = None -> g_vm v';
  gl_running v v' : g_vm v -> vm_ID v' = vm_ID v -> vm_Status v' = StatusRunning -> g_vm v';
  gl_GetByID id : g_id id -> gd (GetByID id : M (World B St) _) (ok_val g_vm);
  gl_GetActiveVMs : g_active -> gd (GetActiveVMs : M (World B St) _) (ok_val (Forall g_vm));
  gl_GetActiveByUserID u : g_active -> gd (GetActiveByUserID u : M (World B St) _) (ok_val (Forall g_vm));
  gl_Create vm : unbound vm -> gd (PgRepo.Create vm : M (World B St) _) (ok_val (fun _ => fresh_vm vm));
  gl_Update vm : g_vm vm -> gd (Update vm : M (World B St) _) (ok_val (fun _ => True));
  gl_Release id : g_id id -> gd (ReleaseActiveLeaseByVM id : M (World B St) _) (ok_val (fun _ => True));
  gl_SetIP id ip : g_id id -> gd (SetIPAddress id ip : M (World B St) _) (ok_val (fun _ => True));
  gl_ReleaseIP id : g_id id -> gd (ReleaseIPAddress id : M (World B St) _) (ok_val (fun _ => True));
  gl_Assign v c dl : g_id v -> gd (AssignToChatIfAvailable v c dl : M (World B St) _) (ok_val g_vm);
  gl_Metrics m : gd (MetricsInsert m : M (World B St) _) (ok_val (fun _ => True));
  gl_CreateSnapshot v : gd (CreateSnapshot s v : M (World B St) _) (ok_val (fun _ => True));
  gl_DeleteSnapshot id : gd (DeleteSnapshot s id : M (World B St) _) (ok_val (fun _ => True))
}.
#[export] Hint Resolve gl_GetByID gl_GetActiveVMs gl_GetActiveByUserID gl_Create gl_Update gl_Release gl_SetIP
  gl_ReleaseIP gl_Assign gl_Metrics gl_CreateSnapshot gl_DeleteSnapshot gl_id : gd.

(** An entity derived from one in hand. *)
Ltac solve_guard :=
  cbv zeta;
  match goal with
  | |- context [if ?b then _ else _] => destruct b; solve_guard
  | H : ?P |- ?P => exact H
  | H : g_vm ?v |- g_vm _ => solve [apply (gl_same v); [exact H | reflexivity | reflexivity | reflexivity]]
  | H : g_vm ?v |- g_vm _ => solve [apply (gl_idle v); [exact H | reflexivity | reflexivity | reflexivity]]
  | H : g_vm ?v |- g_vm _ => solve [apply (gl_running v); [exact H | reflexivity | reflexivity]]
  | H : fresh_vm ?v |- g_vm _ => solve [apply H; [reflexivity | first [reflexivity | apply H]]]
  | H : fresh_vm ?v |- fresh_vm _ => solve [split; [first [reflexivity | apply H] | exact (proj2 H)]]
  | |- unbound _ => solve [reflexivity | assumption]
  | H : g_vm ?v |- g_id _ => exact (gl_id v H)
  end.
#[export] Hint Extern 3 (g_vm _) => solve_guard : gd.
#[export] Hint Extern 3 (fresh_vm _) => solve_guard : gd.
#[export] Hint Extern 3 (unbound _) => solve_guard : gd.
#[export] Hint Extern 3 (g_id _) => solve_guard : gd.
#[export] Hint Extern 1 (ok_val _ (Ok _)) => simpl : gd.
#[export] Hint Extern 1 (ok_val _ (Err _)) => exact I : gd.
#[export] Hint Extern 1 (gd (ret _) _) => apply gd_ret : gd.

(** [go_gd] steps through a program: known operations by their lemma, the rest as
    programs that do not write the tables. *)
Ltac gd_post := solve [ exact I | assumption | simpl; solve [ assumption | exact I | solve_guard ] ].
Ltac go_gd_step :=
  match goal with
  | |- gd (ret _) _ => apply gd_ret; first [gd_post | idtac]
  | |- gd (bind_ok _ _) _ =>
      first [ eapply gd_bind_ok; [solve [eauto 3 with gd] | intros ? ?]
            | eapply (gd_bind_ok _ _ (fun _ => True)); [solve [apply gd_same_ok; go_keeps] | intros ? _] ]
  | |- gd (bind _ _) _ =>
      first [ eapply gd_bind; [solve [eauto 3 with gd] | intros ? ?]
            | eapply (gd_bind _ _ (fun _ => True)); [solve [apply gd_same; go_keeps] | intros ? _]
            | eapply (gd_bind _ _ (fun _ => True)); [solve [eapply gd_forget; eauto 3 with gd] | intros ? _]
            | eapply (gd_bind _ _ (fun _ => True));
                [lazymatch goal with |- gd (match _ with _ => _ end) _ => idtac end | intros ? _] ]
  | |- gd (for_each _ _) _ => apply gd_for_each; intros ? ?
  | |- gd (match ?x with _ => _ end) _ => destruct x eqn:?
  | |- gd (let '(_, _) := ?x in _) _ => destruct x eqn:?
  | H : ok_val _ (Ok _) |- _ => simpl in H
  | |- gd _ (fun _ => True) => solve [eapply gd_forget; eauto 3 with gd]
  | |- gd _ (fun _ => True) => solve [apply gd_same; go_keeps]
  | |- gd _ (ok_val (fun _ => True)) => solve [apply gd_same_ok; go_keeps]
  end.
Ltac go_gd := repeat first [ solve [eauto 3 with gd] | go_gd_step ].

Section Service.
Context {G : Guard} {B St : Type} `{!Backend B, !Storage St} (s : Service) {GL : GuardLaws s B St}.
Abbreviation W := (World B St).

(** ** Commands and files *)

Lemma gd_active_and_ready id : g_id id -> gd (active_and_ready id : M W _) (ok_val g_vm).
Proof. intros H. unfold active_and_ready. go_gd. Qed.
Lemma gd_refresh vm : g_vm vm -> gd (refreshIdleDeadline s vm : M W _) g_vm.
Proof. intros H. unfold refreshIdleDeadline. go_gd. Qed.
Hint Resolve gd_active_and_ready gd_refresh : gd.
Lemma gd_touch vm : g_vm vm -> gd (touch s vm : M W _) (fun _ => True).
Proof. intros H. unfold touch. go_gd. Qed.
Hint Resolve gd_touch : gd.
Lemma gd_command_attempts n vm id cmd : g_vm vm -> gd (command_attempts s n vm id cmd : M W _) (fun _ => True).
Proof. intros H. induction n; cbn [command_attempts]; go_gd. Qed.
Hint Resolve gd_command_attempts : gd.
Lemma gd_ExecuteCommand id cmd : g_id id -> gd (ExecuteCommand s id cmd : M W _) (fun _ => True).
Proof. intros H. unfold ExecuteCommand. go_gd. Qed.
Lemma gd_guest_file_op {A} id (op : B -> res A * B) : g_id id -> gd (guest_file_op s id op : M W _) (ok_val (fun _ => True)).
Proof. intros H. unfold guest_file_op. go_gd. Qed.

(** ** Snapshots *)

Lemma gd_delete_pass l : gd (delete_pass s l : M W _) (fun _ => True).
Proof. induction l; cbn [delete_pass]; go_gd. Qed.
Hint Resolve gd_delete_pass : gd.
Lemma gd_delete_all_loop n v : gd (delete_all_loop s n v : M W _) (ok_val (fun _ => True)).
Proof. induction n; cbn [delete_all_loop]; go_gd. Qed.
Lemma gd_deleteAll v : gd (deleteAllSnapshots s v : M W _) (ok_val (fun _ => True)).
Proof. intros w Hw. unfold deleteAllSnapshots. destruct (svc_snapRepo s); [by apply gd_delete_all_loop | done]. Qed.
Hint Resolve gd_deleteAll : gd.
Lemma gd_snapshotGC v l : gd (snapshotGC s v l : M W _) (fun _ => True).
Proof. unfold snapshotGC. go_gd. Qed.
Lemma gd_gcOrphaned : gd (gcOrphanedSnapshots s : M W _) (fun _ => True).
Proof. unfold gcOrphanedSnapshots. go_gd. Qed.
Lemma gd_run_job j : gd (run_job s j : M W _) (fun _ => True).
Proof. destruct j; cbn [run_job]; [apply gd_snapshotGC | go_gd]. Qed.
Lemma gd_auto_snapshot b id : gd (auto_snapshot s b id : M W _) (fun _ => True).
Proof. unfold auto_snapshot. go_gd. Qed.
Hint Resolve gd_auto_snapshot : gd.

(** ** Creation *)

Lemma gd_retry_names n vm : unbound vm -> gd (retry_names n vm : M W _) unbound.
Proof. revert vm. induction n; intros vm H; cbn [retry_names]; go_gd. Qed.
Hint Resolve gd_retry_names : gd.
Lemma gd_resolveUniqueName vm b : unbound vm -> gd (resolveUniqueName vm b : M W _) (ok_val unbound).
Proof. intros H. unfold resolveUniqueName. go_gd. Qed.
Hint Resolve gd_resolveUniqueName : gd.
Lemma fresh_g_vm vm : fresh_vm vm -> g_vm vm.
Proof. intros H. by apply H; [|apply H]. Qed.
Hint Resolve fresh_g_vm : gd.
Lemma gd_releaseIP vm : fresh_vm vm -> gd (releaseIPOnTerminate s vm : M W _) fresh_vm.
Proof. intros H. pose proof (fresh_g_vm _ H). unfold releaseIPOnTerminate, IPAlloc.Release. go_gd. Qed.
Hint Resolve gd_releaseIP : gd.
Lemma gd_abandon vm : fresh_vm vm -> gd (abandon s vm : M W _) (fun _ => True).
Proof. intros H. unfold abandon. go_gd. Qed.
Lemma gd_persist_new vm b : unbound vm -> gd (persist_new vm b : M W _) (ok_val fresh_vm).
Proof. intros H. unfold persist_new. go_gd. Qed.
Hint Resolve gd_persist_new : gd.
Lemma gd_Allocate a id : g_id id -> gd (IPAlloc.Allocate a id : M W _) (ok_val (fun _ => True)).
Proof. intros H. unfold IPAlloc.Allocate. go_gd. Qed.
Hint Resolve gd_Allocate : gd.
Lemma gd_allocate_ip vm : fresh_vm vm -> gd (allocate_ip s vm : M W _) (ok_val (fun _ => True)).
Proof. intros H. pose proof (fresh_g_vm _ H). unfold allocate_ip. go_gd. Qed.
Lemma fresh_with_ip vm oip : fresh_vm vm -> fresh_vm (match oip with Some ip => vm <| vm_IPAddress := Some ip |> | None => vm end).
Proof. by destruct oip. Qed.
Lemma gd_observe_created id vm : fresh_vm vm -> gd (observe_created id vm : M W _) fresh_vm.
Proof. intros H. unfold observe_created. go_gd. Qed.
Lemma gd_refresh_fresh vm : fresh_vm vm -> gd (refreshIdleDeadline s vm : M W _) fresh_vm.
Proof. intros H. unfold refreshIdleDeadline. go_gd. Qed.
Hint Resolve gd_abandon gd_allocate_ip gd_observe_created : gd.
Hint Resolve gd_refresh_fresh | 0 : gd.
Lemma gd_provision vm env : fresh_vm vm -> gd (provision s vm env : M W _) (ok_val g_vm).
Proof.
  intros H. unfold provision. eapply gd_bind_ok; [eauto with gd |]. intros oip _. cbv zeta.
  pose proof (fresh_with_ip vm oip H) as H'. set (vm' := match oip with Some _ => _ | None => _ end) in *. clearbody vm'. go_gd.
Qed.
Hint Resolve gd_provision : gd.
Lemma gd_Create_vm envID conv prov name ws vcpu mem disk port :
  gd (VMService.Create s envID conv prov name ws vcpu mem disk port : M W _) (ok_val g_vm).
Proof. unfold VMService.Create. go_gd. Qed.
Remove Hints gd_refresh_fresh : gd.

(** ** One VM *)

Lemma gd_GetRuntimeSnapshot id : g_id id -> gd (GetRuntimeSnapshot id : M W _) (ok_val g_vm).
Proof. intros H. unfold GetRuntimeSnapshot. go_gd. Qed.
Hint Resolve gd_GetRuntimeSnapshot : gd.
Lemma gd_AssignToChat v c : g_id v -> gd (AssignToChat s v c : M W _) (ok_val g_vm).
Proof. intros H. unfold AssignToChat. go_gd. Qed.
Lemma gd_Unassign v : g_id v -> gd (Unassign s v : M W _) (ok_val g_vm).
Proof. intros H. unfold Unassign. go_gd. Qed.
Lemma gd_MarkActive v : g_id v -> gd (MarkActive s v : M W _) (ok_val (fun _ => True)).
Proof. intros H. unfold MarkActive. go_gd. Qed.
Lemma gd_Stop id : g_id id -> gd (Stop s id : M W _) (ok_val g_vm).
Proof. intros H. unfold Stop, notify_cooled. go_gd. Qed.
(** Destroy, for the guards that terminating and deleting keep. *)
Lemma gd_Destroy id : g_id id -> gd (Delete id : M W _) (ok_val (fun _ => True)) ->
  (forall v v', g_vm v -> vm_ID v' = vm_ID v -> vm_ChatID v' = None -> g_vm v') ->
  gd (Destroy s id : M W _) (ok_val (fun _ => True)).
Proof.
  intros H Hdel Hterm. assert (Ht : forall t vm, g_vm vm -> g_vm ((Terminate t vm) <| vm_IdleDeadlineAt := None |>)) by
    (intros t vm Hv; by apply (Hterm vm)).
  unfold Destroy, IPAlloc.Release. go_gd; eauto with gd.
Qed.

(** ** Background jobs *)

Lemma gd_refresh_running vms : Forall g_vm vms -> gd (refresh_running vms : M W _) (fun _ => True).
Proof. induction 1 as [|vm vms Hvm Hvms IH]; cbn [refresh_running]; go_gd. Qed.
Hint Resolve gd_refresh_running : gd.
Lemma gd_ListRunningRuntimes : g_active -> gd (ListRunningRuntimes : M W _) (ok_val (fun _ => True)).
Proof. intros H. unfold ListRunningRuntimes. go_gd. Qed.
Lemma gd_ListRunningRuntimesByUser x : g_active -> gd (ListRunningRuntimesByUser x : M W _) (ok_val (fun _ => True)).
Proof. intros H. unfold ListRunningRuntimesByUser. go_gd. Qed.

Lemma gd_settle_reaped t vm st c : g_vm vm -> gd (settle_reaped s t vm st c : M W _) (fun _ => True).
Proof. intros H. unfold settle_reaped, notify_cooled. pose proof (gl_id _ H). go_gd. Qed.
Hint Resolve gd_settle_reaped : gd.
Lemma gd_reap_one t vm : g_vm vm -> gd (reap_one s t vm : M W _) (fun _ => True).
Proof. intros H. unfold reap_one. go_gd. Qed.
Lemma gd_markCold vm st t : g_vm vm -> gd (markColdAfterLostRuntime s vm st t : M W _) (fun _ => True).
Proof. intros H. unfold markColdAfterLostRuntime. go_gd. Qed.
Hint Resolve gd_markCold : gd.
Lemma gd_reconcile_one t vm : g_vm vm -> gd (reconcile_one s t vm : M W _) (fun _ => True).
Proof. intros H. unfold reconcile_one. go_gd. Qed.
Lemma gd_shutdown_one vm : g_vm vm -> gd (shutdown_one s vm : M W _) (fun _ => True).
Proof. intros H. unfold shutdown_one. pose proof (gl_id _ H). go_gd. Qed.

(** A loop over the active VMs. *)
Lemma gd_active_loop (body : VM -> M W unit) : g_active -> (forall vm, g_vm vm -> gd (body vm) (fun _ => True)) ->
  gd (bind GetActiveVMs (fun r => match r with Err _ => ret tt | Ok vms => for_each vms body end)) (fun _ => True).
Proof.
  intros Hi Hb. eapply gd_bind; [by apply gl_GetActiveVMs |]. intros [vms|e] H; [|by apply gd_ret].
  apply gd_for_each. intros x Hx. apply Hb. by eapply Forall_forall.
Qed.
Lemma gd_reapIdleVMs : g_active -> gd (reapIdleVMs s : M W _) (fun _ => True).
Proof. intros H. unfold reapIdleVMs. go_gd_step. apply gd_active_loop; [done |]. intros. by apply gd_reap_one. Qed.
Lemma gd_reconcile : g_active -> gd (reconcileRuntimeStates s : M W _) (fun _ => True).
Proof. intros H. unfold reconcileRuntimeStates. go_gd_step. apply gd_active_loop; [done |]. intros. by apply gd_reconcile_one. Qed.
Lemma gd_Shutdown : g_active -> gd (Shutdown s : M W _) (fun _ => True).
Proof. intros H. unfold Shutdown. apply gd_active_loop; [done |]. intros. by apply gd_shutdown_one. Qed.

(** ** Resuming *)

Lemma gd_resume_ip vm : g_vm vm -> gd (resume_ip s vm : M W _) (ok_val g_vm).
Proof. intros H. unfold resume_ip. go_gd. Qed.
Hint Resolve gd_resume_ip : gd.
Lemma gd_observe_restored id vm : g_vm vm -> gd (observe_restored id vm : M W _) g_vm.
Proof. intros H. unfold observe_restored. go_gd. Qed.
Hint Resolve gd_observe_restored : gd.
Lemma gd_restore vm vmID chatID dir sn m st spec t d : g_vm vm -> g_id vmID ->
  gd (restore s vm vmID chatID dir sn m st spec t d : M W _) (ok_val g_vm).
Proof.
  intros H Hid. unfold restore. go_gd.
  eapply gd_bind_ok with (Q := g_vm); [destruct (negb _); go_gd |]. intros v Hv. go_gd.
Qed.
Hint Resolve gd_restore : gd.
Lemma gd_new_vm_instead vm m c : gd (new_vm_instead s vm m c : M W _) (ok_val g_vm).
Proof. apply gd_Create_vm. Qed.
Hint Resolve gd_new_vm_instead : gd.
Lemma gd_resume_with vm v c sn om chain : g_vm vm -> g_id v -> gd (resume_with s vm v c sn om chain : M W _) (ok_val g_vm).
Proof. intros H Hv. unfold resume_with. go_gd. Qed.
Hint Resolve gd_resume_with gd_AssignToChat : gd.
Lemma gd_ResumeVM v c : g_id v -> gd (ResumeVM s v c : M W _) (ok_val g_vm).
Proof. intros H. unfold ResumeVM. go_gd. Qed.
End Service.

(** ** The invariant as a guarantee *)

Definition inv_guard {CL : ChainLimit} : Guard :=
  {| g_db := db_ok; g_id := fun _ => True; g_vm := vm_bound; g_active := True |}.

Section Laws.
Context {B St : Type} `{!Backend B, !Storage St} (s : Service).

Lemma inv_DeleteSnapshot {CL : ChainLimit} id : inv (DeleteSnapshot s id : M (World B St) _) (ok_val (fun _ => True)).
Proof.
  intros w Hw. pose proof (DeleteSnapshot_cases s id w) as H. destruct (DeleteSnapshot s id w) as [[[]|e] w']; cbn.
  - destruct H as (_ & Hc & ->). split; [by apply db_ok_snap_delete | done].
  - by rewrite H.
Qed.

Lemma inv_laws : 0 < dc_MaxChainLength (svc_snapDiskCfg s) ->
  GuardLaws (G := inv_guard (CL := service_limit s)) s B St.
Proof.
  intros Hmax. pose (CL := service_limit s).
  assert (Hbound : forall v v', vm_bound v -> vm_Status v' = vm_Status v -> vm_ChatID v' = vm_ChatID v -> vm_bound v')
    by (intros v v' H Es Ec; unfold vm_bound; by rewrite Es, Ec).
  assert (Hfree : forall v, vm_ChatID v = None -> vm_bound v) by (intros v E; unfold vm_bound; rewrite E; by intros []).
  split; try done.
  - intros v v' Hv _. by apply Hbound.
  - intros v v' _ _ _. apply Hfree.
  - by intros v v' _ _ ? ?.
  - intros id _. apply inv_GetByID.
  - intros _. apply inv_GetActiveVMs.
  - intros u _. apply inv_GetActiveByUserID.
  - intros vm Hu w Hw. destruct (inv_Create vm (Hfree vm Hu) w Hw) as [Hdb _]. split; [done |].
    assert (fresh_vm (G := inv_guard (CL := service_limit s)) vm) by (split; [done | intros v _; apply Hfree]).
    by destruct (PgRepo.Create vm w).1.
  - intros vm Hv. by apply inv_Update.
  - intros id _. apply inv_Release.
  - intros id ip _. apply inv_SetIPAddress.
  - intros id _. apply inv_ReleaseIPAddress.
  - intros v c dl _. apply inv_Assign.
  - intros m. apply inv_MetricsInsert.
  - intros v. by apply inv_CreateSnapshot.
  - intros id. apply inv_DeleteSnapshot.
Qed.
End Laws.

(** ** The service as a transition system *)

(** The public calls and the ticks of the background loops. *)
Inductive Op :=
| OpCreate (envID conversationID provider name : string) (workspaceSizeGB : Z) (vcpu memoryMB diskMB servicePort : option Z)
| OpGetRuntimeSnapshot (id : string)
| OpListRunningRuntimes
| OpListRunningRuntimesByUser (userID : string)
| OpAssignToChat (vmID chatID : string)
| OpUnassign (vmID : string)
| OpStop (id : string)
| OpDestroy (id : string)
| OpMarkActive (vmID : string)
| OpExecuteCommand (id command : string)
| OpReadFile (id path : string) (offset limit : Z)
| OpWriteFile (id path content : string) (mode : Z)
| OpEditFile (id path oldString newString : string) (replaceAll : bool)
| OpCreateSnapshot (vmID : string)
| OpDeleteSnapshot (snapshotID : string)
| OpResumeVM (vmID chatID : string)
| OpReapIdleVMs
| OpReconcileRuntimeStates
| OpGcOrphanedSnapshots
| OpShutdown.

Section System.
Context {B St : Type} `{!Backend B, !Storage St}.
Abbreviation W := (World B St).
Context (s : Service).

Definition perform (o : Op) (w : W) : W :=
  match o with
  | OpCreate e c p n ws vc m d sp => (VMService.Create s e c p n ws vc m d sp w).2
  | OpGetRuntimeSnapshot id => (GetRuntimeSnapshot id w).2
  | OpListRunningRuntimes => (ListRunningRuntimes w).2
  | OpListRunningRuntimesByUser u => (ListRunningRuntimesByUser u w).2
  | OpAssignToChat v c => (AssignToChat s v c w).2
  | OpUnassign v => (Unassign s v w).2
  | OpStop id => (Stop s id w).2
  | OpDestroy id => (Destroy s id w).2
  | OpMarkActive v => (MarkActive s v w).2
  | OpExecuteCommand id c => (ExecuteCommand s id c w).2
  | OpReadFile id p o l => (ReadFile s id p o l w).2
  | OpWriteFile id p c m => (WriteFile s id p c m w).2
  | OpEditFile id p o n b => (EditFile s id p o n b w).2
  | OpCreateSnapshot v => (CreateSnapshot s v w).2
  | OpDeleteSnapshot id => (DeleteSnapshot s id w).2
  | OpResumeVM v c => (ResumeVM s v c w).2
  | OpReapIdleVMs => (reapIdleVMs s w).2
  | OpReconcileRuntimeStates => (reconcileRuntimeStates s w).2
  | OpGcOrphanedSnapshots => (gcOrphanedSnapshots s w).2
  | OpShutdown => (Shutdown s w).2
  end.

(** A call runs, or one of the goroutines that have been started. *)
Inductive step : W -> W -> Prop :=
| step_call o w : step w (perform o w)
| step_job j js1 js2 w : w_jobs w = js1 ++ j :: js2 ->
    step w (run_job s j (w <| w_jobs := js1 ++ js2 |>)).2.

Lemma inv_gd {CL : ChainLimit} {A} (m : M W A) Q w :
  gd (G := inv_guard) m Q -> db_ok (w_db w) -> db_ok (w_db (m w).2).
Proof. intros H Hw. by apply H. Qed.

Lemma perform_ok o w : 0 < dc_MaxChainLength (svc_snapDiskCfg s) ->
  db_ok (CL := service_limit s) (w_db w) -> db_ok (CL := service_limit s) (w_db (perform o w)).
Proof.
  intros Hmax Hw. pose (CL := service_limit s). pose proof (inv_laws (B := B) (St := St) s Hmax) as GL.
  destruct o; cbn [perform]; (eapply (inv_gd (CL := CL)); [|exact Hw]).
  - by apply gd_Create_vm.
  - by apply (gd_GetRuntimeSnapshot s).
  - by apply (gd_ListRunningRuntimes s).
  - by apply (gd_ListRunningRuntimesByUser s).
  - by apply gd_AssignToChat.
  - by apply gd_Unassign.
  - by apply gd_Stop.
  - apply gd_Destroy; [done.. | apply inv_Delete |]. intros v v' _ _ E. unfold g_vm, inv_guard, vm_bound. rewrite E. by intros [].
  - by apply gd_MarkActive.
  - by apply gd_ExecuteCommand.
  - by apply (gd_guest_file_op s).
  - by apply (gd_guest_file_op s).
  - by apply (gd_guest_file_op s).
  - by apply gl_CreateSnapshot.
  - by apply gl_DeleteSnapshot.
  - by apply gd_ResumeVM.
  - by apply gd_reapIdleVMs.
  - by apply gd_reconcile.
  - by apply gd_gcOrphaned.
  - by apply gd_Shutdown.
Qed.

Lemma step_ok w w' : 0 < dc_MaxChainLength (svc_snapDiskCfg s) ->
  step w w' -> db_ok (CL := service_limit s) (w_db w) -> db_ok (CL := service_limit s) (w_db w').
Proof.
  intros Hmax [o w1|j js1 js2 w1 _] Hw; [by apply perform_ok |].
  pose proof (inv_laws (B := B) (St := St) s Hmax) as GL. by eapply (inv_gd (CL := service_limit s)); [apply gd_run_job |].
Qed.

(** C1: The database invariant holds in every reachable world. Whatever the calls,
    background ticks and goroutines, in whatever order, and whichever SQL
    statements, backend calls or storage calls fail: VM names and runtime ids stay
    unique, live guest CIDs stay unique and in range, a VM bound to a chat is
    running, a VM has at most one active lease, leases and snapshots belong to
    existing VMs, snapshot parents exist, belong to the same VM and form no cycle,
    and no disk chain reaches the configured maximum length. *)
Theorem reachable_db_ok w w' :
  0 < dc_MaxChainLength (svc_snapDiskCfg s) ->
  db_ok (CL := service_limit s) (w_db w) -> rtc step w w' -> db_ok (CL := service_limit s) (w_db w').
Proof. intros Hmax Hw H. induction H; eauto using step_ok. Qed.

End System.

(** A new VM is created, a VM assigned and another stopped (with a snapshot). *)
Definition sample_ops : list Op :=
  [OpCreate "env-1" "chat-3" "" "My Box" 0 None None None None; OpAssignToChat "vm-b" "chat-2"; OpStop "vm-a"].
Definition sample_run (ops : list Op) : World unit unit :=
  foldl (fun w o => perform sample_service o w) sample_world ops.

Lemma performs_reachable {B St} `{!Backend B, !Storage St} (s : Service) ops (w : World B St) :
  rtc (step s) w (foldl (fun w o => perform s o w) w ops).
Proof.
  revert w. induction ops as [|o ops IH]; intros w; [done |]. eapply rtc_l; [apply (step_call s o) | apply IH].
Qed.

Lemma reachable_db_ok_witness :
  size (db_vms (w_db (sample_run sample_ops))) = 3%nat /\ length (w_jobs (sample_run sample_ops)) = 1%nat /\
  db_ok (CL := service_limit sample_service) (w_db (sample_run sample_ops)).
Proof.
  split; [vm_compute; reflexivity |]. split; [vm_compute; reflexivity |].
  apply (reachable_db_ok sample_service sample_world).
  - vm_compute. reflexivity.
  - apply sample_db_ok.
  - apply performs_reachable.
Defined.
