(* ===== verification/VMSpec.v ===== *)
(** * What the lifecycle operations do

    Functional specifications of Unassign, Stop and Destroy when they succeed; the
    exclusivity of assignments; the leases the reconciler leaves behind; which rows
    the background jobs may touch. *)

From S2P Require Import Prelude Exception Naming GoLib Domain World PgRepo IPAlloc Interfaces Hoare Invariants RepoFacts.
From S2P Require Import VMExec VMSnapshot SnapFacts SnapGC VMService VMResume VMInv.

(** ** VM rows and leases untouched *)

Section SameVMs.
Context {B St : Type} `{!Backend B, !Storage St}.
Abbreviation W := (World B St).
Context (s : Service).

Definition same_vms (w w' : W) : Prop :=
  db_vms (w_db w') = db_vms (w_db w) /\ db_leases (w_db w') = db_leases (w_db w).
#[export] Instance same_vms_pre : PreOrder same_vms.
Proof. split; [done |]. intros x y z [??] [??]. split; congruence. Qed.

Lemma same_db_vms {A} (m : M W A) : keeps same_db m -> keeps same_vms m.
Proof. intros H w. unfold same_vms. by rewrite (H w). Qed.
Lemma only_snapshots_vms {A} (m : M W A) : keeps only_snapshots m -> keeps same_vms m.
Proof. intros H w. by destruct (H w) as (?&?&_). Qed.

Lemma same_vms_CreateSnapshot v : keeps same_vms (CreateSnapshot s v : M W _).
Proof.
  intros w. pose proof (CreateSnapshot_cases s v (w_db w) w eq_refl) as H.
  unfold same_vms. destruct (CreateSnapshot s v w) as [[sn|e] w']; cbn [fst snd] in *.
  - by destruct H as (_ & ms & ->).
  - by rewrite H.
Qed.
Lemma same_vms_auto_snapshot b id : keeps same_vms (auto_snapshot s b id : M W _).
Proof.
  unfold auto_snapshot. destruct (b && _); [|by apply same_db_vms; go_keeps].
  apply keeps_bind; [apply _ | apply same_vms_CreateSnapshot |]. intros r. apply same_db_vms. go_keeps.
Qed.
Lemma same_vms_deleteAll v : keeps same_vms (deleteAllSnapshots s v : M W _).
Proof.
  apply only_snapshots_vms. intros w. unfold deleteAllSnapshots. destruct (svc_snapRepo s); [apply keeps_only_loop | done].
Qed.

(** Snapshots raise no lifecycle event. *)
Lemma events_DeleteSnapshot id : keeps same_events (DeleteSnapshot s id : M W _).
Proof. unfold DeleteSnapshot, SnapGetByID, SnapGetByVMID, SnapDelete. go_keeps. Qed.
Lemma events_delete_pass l : keeps same_events (delete_pass s l : M W _).
Proof. induction l; cbn [delete_pass]; [go_keeps |]. pose proof (events_DeleteSnapshot (sn_ID a)). go_keeps. Qed.
Lemma events_deleteAll v : keeps same_events (deleteAllSnapshots s v : M W _).
Proof.
  intros w. unfold deleteAllSnapshots. destruct (svc_snapRepo s); [|done]. generalize (S (size (db_snapshots (w_db w)))) as n.
  intros n. revert w. induction n as [|n IH]; [done |]. apply keeps_bind_ok; [apply _ | unfold SnapGetByVMID; go_keeps |].
  intros [|x l]; [go_keeps |]. apply keeps_bind; [apply _ | apply events_delete_pass |]. intros [|]; [exact IH | go_keeps].
Qed.
Lemma events_MetricsInsert m : keeps same_events (MetricsInsert m : M W _).
Proof. intros w. unfold MetricsInsert. apply keeps_events_run. Qed.
Lemma events_CreateSnapshot v : keeps same_events (CreateSnapshot s v : M W _).
Proof.
  unfold CreateSnapshot, GetByID, selectOne, EnvGetByID, next_snapshot_type, shouldCreateFullDisk, resolveChainLength,
    base_snapshot_id, GetLatestByVMID, GetLatestFull, SnapCreate. pose proof events_MetricsInsert. go_keeps.
Qed.
Lemma events_auto_snapshot b id : keeps same_events (auto_snapshot s b id : M W _).
Proof.
  unfold auto_snapshot. pose proof (events_CreateSnapshot id). go_keeps.
Qed.
End SameVMs.

(** ** Calls that only prepare *)

Section Quiet.
Context {B St : Type} `{!Backend B, !Storage St}.
Abbreviation W := (World B St).
Context (s : Service).

(** VM rows, leases and events are as they were. *)
Definition quiet (w w' : W) : Prop := same_vms w w' /\ same_events w w'.
#[export] Instance quiet_pre : PreOrder quiet.
Proof. split; [done |]. intros x y z [??] [??]. split; etrans; eassumption. Qed.
Lemma quiet_read {A} (m : M W A) : keeps same_db m -> keeps same_events m -> keeps quiet m.
Proof. intros H1 H2 w. split; [by apply same_db_vms | apply H2]. Qed.
#[export] Instance quiet_outside : OutsideFrame quiet.
Proof. split; try apply _; intros A f; apply quiet_read; eauto with keeps. Qed.
Lemma quiet_GetByID id : keeps quiet (GetByID id : M W _).
Proof. apply quiet_read; unfold GetByID, selectOne; go_keeps. Qed.

Lemma quiet_auto_snapshot b id : keeps quiet (auto_snapshot s b id : M W _).
Proof. intros w. split; [apply same_vms_auto_snapshot | apply events_auto_snapshot]. Qed.
Lemma quiet_deleteAll v : keeps quiet (deleteAllSnapshots s v : M W _).
Proof. intros w. split; [apply same_vms_deleteAll | apply events_deleteAll]. Qed.
Lemma quiet_now : keeps quiet (now : M W _).
Proof. done. Qed.
End Quiet.
#[export] Hint Resolve quiet_auto_snapshot quiet_deleteAll quiet_now : keeps.

(** ** Unassign and Stop *)

Section Idle.
Context {B St : Type} `{!Backend B, !Storage St}.
Abbreviation W := (World B St).
Context (s : Service) {CL : ChainLimit}.

Definition keys_ok (db : DB) : Prop := forall i r, db_vms db !! i = Some r -> r_id r = i.

(** The events delivered when a hook is installed. *)
Definition hooked (l : list Event) : list Event := if svc_hook s then l else [].

(** [v] went idle as [vm]: its row is rewritten, unbound and without a lease, and
    nothing else of the VMs and leases has changed. *)
Record went_idle (w w' : W) (v : string) (vm : VM) : Prop := {
  gi_row : exists old, db_vms (w_db w) !! v = Some old /\ db_vms (w_db w') = <[v := updatedRow old vm]> (db_vms (w_db w));
  gi_status : vm_Status vm = StatusIdle;
  gi_chat : vm_ChatID vm = None;
  gi_lease : v ∉ leased_vms (db_leases (w_db w'));
  gi_others : forall u, u <> v -> u ∈ leased_vms (db_leases (w_db w')) <-> u ∈ leased_vms (db_leases (w_db w))
}.

Lemma notifyHook_run e (w : W) :
  w_db (notifyHook s e w).2 = w_db w /\ w_events (notifyHook s e w).2 = w_events w ++ hooked [e].
Proof. unfold notifyHook, hooked. destruct (svc_hook s); cbn; by rewrite ?app_nil_r. Qed.

(** The events of [notify_cooled]. *)
Definition cooled_events (vm : VM) (oldStatus : Status) (prior : string) : list Event :=
  (if bool_decide (vm_Status vm = oldStatus) then [] else [StatusChangedEvent vm oldStatus]) ++
  (if bool_decide (prior = "") then [] else [UnassignedEvent vm prior]).
Lemma notify_cooled_run vm old prior (w : W) :
  w_db (notify_cooled s vm old prior w).2 = w_db w /\
  w_events (notify_cooled s vm old prior w).2 = w_events w ++ hooked (cooled_events vm old prior).
Proof.
  unfold notify_cooled, cooled_events, notifyHook, hooked, bind, emit, ret.
  destruct (bool_decide (vm_Status vm = old)), (bool_decide (prior = "")), (svc_hook s); cbn;
    by rewrite ?app_nil_r, <- ?app_assoc.
Qed.

(** The chat of the VM's row. *)
Definition chat_of (w : W) (v : string) : string :=
  match db_vms (w_db w) !! v with Some row => default "" (r_chat_id row) | None => "" end.

Definition status_of (w : W) (v : string) : Status :=
  match db_vms (w_db w) !! v with Some row => r_status row | None => StatusTerminated end.
Lemma row_of_vm (w : W) id row vm :
  db_vms (w_db w) !! id = Some row -> mapVMRow row = Ok vm -> chat_of w id = priorChat vm /\ status_of w id = vm_Status vm.
Proof. unfold chat_of, status_of, priorChat. intros -> (_ & -> & -> & _)%mapVMRow_Ok. done. Qed.

(** The operation gave up: no row has changed and no event was sent; at most the
    lease of [v] has been released. *)
Definition gave_up (w w' : W) (v : string) : Prop :=
  db_vms (w_db w') = db_vms (w_db w) /\ w_events w' = w_events w /\
  (db_leases (w_db w') = db_leases (w_db w) \/
   exists t, db_leases (w_db w') = release t v <$> db_leases (w_db w)).

Lemma quiet_gave_up (w w' : W) v : quiet w w' -> gave_up w w' v.
Proof. intros [[??] ?]. split_and!; [done | done | by left]. Qed.

(** The look-up of the VM at the start of an operation. *)
Lemma triple_GetByID id (w0 : W) : keys_ok (w_db w0) ->
  triple (quiet w0) (GetByID id) (fun r w => quiet w0 w /\ ok_val (fun v => vm_ID v = id /\
    exists row, db_vms (w_db w0) !! id = Some row /\ mapVMRow row = Ok v) r).
Proof.
  intros Hk w Hq. assert (Hq' : quiet w0 (GetByID id w).2).
  { etrans; [exact Hq | apply quiet_GetByID]. }
  split; [done |]. destruct (GetByID id w) as [[v|e] w'] eqn:E; [|done]. destruct Hq as [[Ev _] _].
  apply GetByID_Ok in E as (row & Hrow & Hm & _). rewrite Ev in Hrow. split; [|eauto].
  apply mapVMRow_Ok in Hm as (-> & _). by eapply Hk.
Qed.

Lemma triple_quiet {A} (w0 : W) (m : M W A) : keeps quiet m -> triple (quiet w0) m (fun _ w => quiet w0 w).
Proof. intros H w Hq. etrans; [exact Hq | apply H]. Qed.

(** Releasing the lease and writing the row of a VM that has been unassigned. *)
Lemma triple_settle {A} v vm (w0 : W) (k : M W (res A)) (Q : res A -> W -> Prop) :
  vm_ID vm = v -> vm_Status vm = StatusIdle -> vm_ChatID vm = None ->
  (forall e w, gave_up w0 w v -> Q (Err e) w) ->
  triple (fun w => went_idle w0 w v vm /\ w_events w = w_events w0) k Q ->
  triple (quiet w0) (let? _ := ReleaseActiveLeaseByVM v in let? _ := Update vm in k)%go Q.
Proof.
  intros Hid Hst Hch He Hk. eapply triple_bind_ok with (Q := fun r w => match r with
    | Ok _ => db_vms (w_db w) = db_vms (w_db w0) /\ w_events w = w_events w0 /\
              exists t, db_leases (w_db w) = release t v <$> db_leases (w_db w0)
    | Err _ => gave_up w0 w v end); [| |exact He].
  { intros w [[Hv Hl] Hev]. pose proof (Release_cases v w) as H. destruct (ReleaseActiveLeaseByVM v w) as [[[]|e] w1]; cbn.
    - destruct H as (t & E & E'). rewrite E, E'. autorewrite with dbproj. rewrite Hl. split_and!; [done | done | by eexists].
    - destruct H as [E E']. rewrite <- E in Hv, Hl. split_and!; [done | by rewrite E' | by left]. }
  intros [] w1 (Hv & Hev & t & Hl).
  revert w1 Hv Hev Hl. intros w1 Hv Hev Hl.
  assert (H : triple (fun w => w = w1) (let? _ := Update vm in k)%go Q); [|by apply H].
  eapply triple_bind_ok with (Q := fun r w => match r with
    | Ok _ => went_idle w0 w v vm /\ w_events w = w_events w0
    | Err _ => gave_up w0 w v end); [| intros ?; exact Hk | exact He].
  intros w ->. pose proof (Update_db vm w1) as H. pose proof (events_Update vm w1) as Hev2.
  destruct (Update vm w1) as [[[]|e] w2]; cbn in *.
  - destruct H as (old & Hold & E). rewrite Hid in Hold. split; [|by rewrite Hev2].
    split; rewrite ?E; autorewrite with dbproj; [exists old; by rewrite <- Hv, Hid | done | done | |];
      rewrite Hl; [apply released_not_leased | intros u; apply release_others].
  - split_and!; [by rewrite H | by rewrite Hev2 | right; exists t; by rewrite H].
Qed.

(** Unassign, on every branch. When it succeeds the VM is idle and bound to no
    chat, its lease is released, no other VM and no other VM's lease has changed,
    and exactly one vm.unassigned event was sent, with the chat the VM was bound
    to; when it fails no row has changed and no event was sent. *)
Theorem Unassign_spec v (w : W) :
  keys_ok (w_db w) ->
  match Unassign s v w with
  | (Ok vm, w') => went_idle w w' v vm /\ w_events w' = w_events w ++ hooked [UnassignedEvent vm (chat_of w v)]
  | (Err _, w') => gave_up w w' v
  end.
Proof.
  intros Hk. enough (H : triple (quiet w) (Unassign s v) (fun r w' => match r with
    | Ok vm => went_idle w w' v vm /\ w_events w' = w_events w ++ hooked [UnassignedEvent vm (chat_of w v)]
    | Err _ => gave_up w w' v end)).
  { specialize (H w (reflexivity w)). by destruct (Unassign s v w) as [[?|?] ?]. }
  unfold Unassign. eapply triple_bind_ok; [by apply triple_GetByID | | intros e w' [Hq _]; by apply quiet_gave_up].
  intros vm. cbv zeta. apply triple_pure_r. intros (Hid & row & Hrow & Hm).
  eapply triple_bind with (Q := fun vm' w' => quiet w w' /\ exists d, vm' = (Domain.Unassign vm) <| vm_IdleDeadlineAt := Some d |>).
  { intros w' Hq. split; [exact Hq | by eexists]. }
  intros vm'. apply triple_pure_r. intros [d ->].
  apply triple_settle; [done | done | done | done |].
  intros w' [Hi Hev]. destruct (row_of_vm _ _ _ _ Hrow Hm) as [-> _]. unfold bind.
  set (vm' := (Domain.Unassign vm) <| vm_IdleDeadlineAt := Some d |>) in *.
  destruct (notifyHook_run (UnassignedEvent vm' (priorChat vm)) w') as [Edb Eev].
  destruct (notifyHook s _ w') as [u w2]. cbn in *. split; [|by rewrite Eev, Hev].
  destruct Hi. split; by rewrite ?Edb.
Qed.

(** C6: Stop, on every branch. When it succeeds the backend has confirmed the stop,
    the VM is idle, bound to no chat and its lease is released, no other VM and no
    other VM's lease has changed, and the events sent are vm.status_changed if the
    status changed and vm.unassigned if the VM was bound; when it fails (the
    backend's stop fails, say) no row has changed, no event was sent and the VM is
    still bound. *)
Theorem Stop_spec id (w : W) :
  keys_ok (w_db w) ->
  match Stop s id w with
  | (Ok vm, w') => went_idle w w' id vm /\ (exists b, (be_StopPreserving id b).1 = Ok tt) /\
      w_events w' = w_events w ++ hooked (cooled_events vm (status_of w id) (chat_of w id))
  | (Err _, w') => gave_up w w' id
  end.
Proof.
  intros Hk. enough (H : triple (quiet w) (Stop s id) (fun r w' => match r with
    | Ok vm => went_idle w w' id vm /\ (exists b, (be_StopPreserving id b).1 = Ok tt) /\
        w_events w' = w_events w ++ hooked (cooled_events vm (status_of w id) (chat_of w id))
    | Err _ => gave_up w w' id end)).
  { specialize (H w (reflexivity w)). by destruct (Stop s id w) as [[?|?] ?]. }
  unfold Stop. eapply triple_bind_ok; [by apply triple_GetByID | | intros e w' [Hq _]; by apply quiet_gave_up].
  intros vm. cbv zeta. apply triple_pure_r. intros (Hid & row & Hrow & Hm).
  destruct (row_of_vm _ _ _ _ Hrow Hm) as [-> ->].
  eapply triple_bind; [apply triple_quiet; eauto with keeps |]. intros ?.
  eapply triple_bind; [apply triple_quiet; eauto with keeps |]. intros ?.
  eapply triple_bind with (Q := fun r w' => quiet w w' /\ exists b, (be_StopPreserving id b).1 = r).
  { intros w' Hq. split; [by apply (triple_quiet w (on_backend (be_StopPreserving id))); eauto with keeps |].
    exists (w_be w'). unfold on_backend. by destruct (be_StopPreserving id (w_be w')). }
  intros [[]|e]; apply triple_pure_r; intros Hst; [|intros w1 Hq; by apply quiet_gave_up].
  apply triple_settle; [done | done | done | done |].
  intros w' [Hi Hev]. unfold bind. set (vm' := (Domain.Unassign vm) <| vm_IdleDeadlineAt := None |>) in *.
  destruct (notify_cooled_run vm' (vm_Status vm) (priorChat vm) w') as [Edb Eev].
  destruct (notify_cooled s _ _ _ w') as [u w2]. unfold ret; cbn [fst snd] in *. split_and!; [|done | by rewrite Eev, Hev].
  destruct Hi. split; by rewrite ?Edb.
Qed.
End Idle.

(** ** Destroy *)

Section Destroy.
Context {B St : Type} `{!Backend B, !Storage St}.
Abbreviation W := (World B St).
Context (s : Service).

(** Rows and leases of the VMs other than [v] are as they were. *)
Definition others_same (w w' : W) (v : string) : Prop := forall u, u <> v ->
  db_vms (w_db w') !! u = db_vms (w_db w) !! u /\
  (u ∈ leased_vms (db_leases (w_db w')) <-> u ∈ leased_vms (db_leases (w_db w))).

(** Only the row and the lease of [v] have changed, the row is still there, and
    no event was sent. *)
Record only_of (v : string) (w w' : W) : Prop := {
  oo_others : others_same w w' v;
  oo_row : exists r, db_vms (w_db w') !! v = Some r /\ r_id r = v;
  oo_events : w_events w' = w_events w
}.

Lemma put_row_others (w w1 : W) v row w2 : r_id row = v -> others_same w w1 v -> w_db w2 = put_row row (w_db w1) -> others_same w w2 v.
Proof.
  intros Hid H E u Hu. rewrite E. autorewrite with dbproj. rewrite Hid, lookup_insert_ne by done. by apply H.
Qed.

Lemma only_of_put v (w w1 w2 : W) row :
  r_id row = v -> only_of v w w1 -> w_db w2 = put_row row (w_db w1) -> w_events w2 = w_events w1 -> only_of v w w2.
Proof.
  intros Hid [H1 H2 H3] E Ev. split; [by eapply put_row_others | | congruence].
  exists row. rewrite E. autorewrite with dbproj. by rewrite Hid, lookup_insert_eq.
Qed.

Lemma only_of_Release v w : triple (only_of v w) (ReleaseActiveLeaseByVM v : M W _) (fun _ => only_of v w).
Proof.
  intros w1 [H1 H2 H3]. pose proof (Release_cases v w1) as H. destruct (ReleaseActiveLeaseByVM v w1) as [[[]|e] w2].
  - destruct H as (t & E & Ev). split; cbn; rewrite ?E, ?Ev; autorewrite with dbproj; try done.
    intros u Hu. rewrite E. autorewrite with dbproj. rewrite release_others by done. by apply H1.
  - destruct H as [E Ev]. split; cbn; rewrite ?E, ?Ev; try done. intros u Hu. rewrite E. by apply H1.
Qed.

Lemma only_of_Update v vm w : vm_ID vm = v -> triple (only_of v w) (Update vm : M W _) (fun _ => only_of v w).
Proof.
  intros Hid w1 H. pose proof (Update_db vm w1) as Hu. pose proof (events_Update vm w1) as Ev.
  destruct (Update vm w1) as [[[]|e] w2]; cbn in *.
  - destruct Hu as (old & _ & E). eapply only_of_put; [|exact H | exact E | done]. by autorewrite with dbproj.
  - destruct H as [H1 H2 H3]. split; cbn; rewrite ?Hu, ?Ev; try done. intros u Hne. rewrite Hu. by apply H1.
Qed.

Lemma only_of_ReleaseIP v w : triple (only_of v w) (ReleaseIPAddress v : M W _) (fun _ => only_of v w).
Proof.
  intros w1 H. destruct (ReleaseIP_db v w1) as (db' & (E & _ & _ & _ & Ev & _) & Hc).
  destruct (ReleaseIPAddress v w1) as [r w2]. cbn in *. destruct Hc as [->|(row & Hrow & ->)].
  - destruct H as [H1 H2 H3]. split; rewrite ?E, ?Ev; try done. intros u Hne. rewrite E. by apply H1.
  - eapply only_of_put; [|exact H | exact E | done]. destruct H as [_ (r0 & Hr0 & Hid) _]. assert (row = r0) as -> by congruence. exact Hid.
Qed.

Lemma quiet_only_of id (w w' : W) row :
  keys_ok (w_db w) -> db_vms (w_db w) !! id = Some row -> quiet w w' -> only_of id w w'.
Proof.
  intros Hk Hrow [[Hv Hl] Ev]. split; [|exists row; rewrite Hv; eauto | done].
  intros u _. by rewrite Hv, Hl.
Qed.

(** C5: Destroy, on every branch. When it succeeds the backend has destroyed the
    VM, its row, its leases and its snapshots are gone, and exactly one
    vm.destroyed event was sent, of the terminated VM; when it fails no event was
    sent. In both cases the rows and leases of all other VMs are as they were. *)
Theorem Destroy_spec id (w : W) :
  keys_ok (w_db w) ->
  match Destroy s id w with
  | (Ok _, w') =>
      others_same w w' id /\ (exists b, (be_Destroy id b).1 = Ok tt) /\
      db_vms (w_db w') !! id = None /\
      (forall l, l ∈ db_leases (w_db w') -> le_VMID l <> id) /\
      (forall i sn, db_snapshots (w_db w') !! i = Some sn -> sn_VMID sn <> id) /\
      exists vm, vm_ID vm = id /\ vm_Status vm = StatusTerminated /\
        w_events w' = w_events w ++ hooked s [DestroyedEvent vm]
  | (Err _, w') => others_same w w' id /\ w_events w' = w_events w
  end.
Proof.
  intros Hk. set (Q := fun (r : res unit) w' => match r with
    | Ok _ => others_same w w' id /\ (exists b, (be_Destroy id b).1 = Ok tt) /\
      db_vms (w_db w') !! id = None /\ (forall l, l ∈ db_leases (w_db w') -> le_VMID l <> id) /\
      (forall i sn, db_snapshots (w_db w') !! i = Some sn -> sn_VMID sn <> id) /\
      exists vm, vm_ID vm = id /\ vm_Status vm = StatusTerminated /\ w_events w' = w_events w ++ hooked s [DestroyedEvent vm]
    | Err _ => others_same w w' id /\ w_events w' = w_events w end).
  enough (H : triple (quiet w) (Destroy s id) Q).
  { specialize (H w (reflexivity w)). by destruct (Destroy s id w) as [[?|?] ?]. }
  assert (Hfail : forall e w', only_of id w w' -> Q (Err e) w') by (intros e w' []; done).
  unfold Destroy. eapply triple_bind_ok; [by apply triple_GetByID | |].
  2: { intros e w' [[[Hv Hl] Hev] _]. split; [|done]. intros u _. by rewrite Hv, Hl. }
  intros vm. cbv zeta. apply triple_pure_r. intros (Hid & row & Hrow & Hm).
  eapply triple_bind; [apply triple_quiet; eauto with keeps |]. intros ?.
  eapply triple_bind; [apply triple_quiet; eauto with keeps |]. intros ?.
  eapply triple_bind with (Q := fun r w' => only_of id w w' /\ exists b, (be_Destroy id b).1 = r).
  { intros w' Hq. split; [|exists (w_be w'); unfold on_backend; by destruct (be_Destroy id (w_be w'))].
    eapply quiet_only_of; [done..|]. apply (triple_quiet w (on_backend (be_Destroy id))); eauto with keeps. }
  intros [[]|e]; apply triple_pure_r; intros Hde; [|intros w1 Hq; by apply Hfail].
  eapply triple_bind with (Q := fun _ w' => only_of id w w'); [intros w' Hq; destruct Hq; by split |]. intros t.
  eapply triple_bind_ok; [apply only_of_Release | | intros e w'; apply Hfail]. intros [].
  eapply triple_bind with (Q := fun _ w' => only_of id w w').
  { destruct (svc_ipAllocator s); [apply only_of_ReleaseIP | by intros w']. }
  intros ?. eapply triple_bind_ok; [by apply only_of_Update | | intros e w'; apply Hfail]. intros [].
  set (vm' := (Terminate t vm) <| vm_IdleDeadlineAt := None |>).
  intros w1 Hw1. unfold bind_ok. destruct (Delete id w1) as [[[]|e] w2] eqn:Hd.
  - apply Delete_Ok in Hd as (_ & E & _ & _ & _ & Ev & _). unfold bind.
    destruct (notifyHook_run s (DestroyedEvent vm') w2) as [Edb Eev].
    destruct (notifyHook s _ w2) as [u w3]. unfold ret. cbn [fst snd] in *. destruct Hw1 as [H1 _ H3].
    rewrite E in Edb. unfold Q, others_same. rewrite Edb. autorewrite with dbproj. split_and!.
    + intros v Hv. rewrite lookup_delete_ne by done. destruct (H1 v Hv) as [-> Hl]. split; [done |]. rewrite <- Hl.
      unfold delete_vm. cbn. refine (eq_ind_r (fun l => v ∈ l <-> _) _ (leased_vms_filter_vm (fun x => negb (bool_decide (x = id))) _)).
      rewrite list_elem_of_In, filter_In, <- list_elem_of_In, bool_decide_eq_false_2 by done. tauto.
    + done.
    + apply lookup_delete_eq.
    + intros l. cbn. rewrite list_elem_of_In, filter_In. intros [_ Hn%negb_true_iff]. by apply bool_decide_eq_false_1 in Hn.
    + intros i sn. cbn. rewrite map_lookup_filter_Some. by intros [_ ?].
    + exists vm'. split_and!; [done | done |]. by rewrite Eev, Ev, H3.
  - pose proof (Delete_Err _ _ _ _ Hd) as [E Ev]. unfold Q. cbn. destruct Hw1 as [H1 _ H3]. split; [|by rewrite Ev].
    intros u Hu. rewrite E. by apply H1.
Qed.
End Destroy.

(** ** Assignment *)

Section Assignment.
Context {B St : Type} `{!Backend B, !Storage St}.
Abbreviation W := (World B St).
Context (s : Service).

Definition leased (w : W) (v : string) : Prop := v ∈ leased_vms (db_leases (w_db w)).

Lemma mapVMRow_status row vm : mapVMRow row = Ok vm -> r_status row = vm_Status vm /\ r_chat_id row = vm_ChatID vm.
Proof. by intros (_ & -> & -> & _)%mapVMRow_Ok. Qed.

Lemma IsAvailable_spec vm :
  IsAvailable vm = true <-> vm_Status vm ∈ [StatusReady; StatusRunning; StatusIdle] /\ vm_ChatID vm = None.
Proof.
  unfold IsAvailable. rewrite andb_true_iff, !orb_true_iff, !bool_decide_eq_true, !elem_of_cons, elem_of_nil. tauto.
Qed.

(** The outcome of [AssignToChat]. *)
Definition took (w w' : W) (v chatID : string) (vm : VM) : Prop :=
  exists row t dl leaseID,
    db_vms (w_db w) !! v = Some row /\ r_status row ∈ [StatusReady; StatusRunning; StatusIdle] /\
    r_chat_id row = None /\ ~ leased w v /\ is_Some (db_chats (w_db w) !! chatID) /\
    mapVMRow (assigned_row t chatID (Some dl) row) = Ok vm /\
    w_db w' = (put_row (assigned_row t chatID (Some dl) row) (w_db w))
                <| db_leases := db_leases (w_db w) ++ [new_lease t leaseID v chatID] |>.

Lemma Assign_cases_s v chatID (w : W) :
  match AssignToChat s v chatID w with
  | (Ok vm, w') => took w w' v chatID vm /\ vm_Status vm = StatusRunning /\ vm_ChatID vm = Some chatID /\
      w_events w' = w_events w ++ hooked s [AssignedEvent vm chatID]
  | (Err _, w') => w_db w' = w_db w /\ w_events w' = w_events w
  end.
Proof.
  unfold AssignToChat, bind at 1, now, consult. set (dl := or_now _ _ + _). unfold bind_ok.
  pose proof (Assign_cases v chatID (Some dl) (tick w)) as H.
  pose proof (events_Assign v chatID (Some dl) (tick w)) as Ev.
  destruct (AssignToChatIfAvailable v chatID (Some dl) (tick w)) as [[vm|e] w1]; [|done].
  destruct H as (row & t & l & v0 & Hrow & Hm & Ha & _ & Hl & Hch & Hm' & Hdb).
  unfold bind. destruct (notifyHook_run s (AssignedEvent vm chatID) w1) as [Edb Eev].
  destruct (notifyHook s _ w1) as [u w2]. unfold ret. cbn [fst snd] in *.
  pose proof (mapVMRow_status _ _ Hm) as [Hs Hc]. pose proof (mapVMRow_status _ _ Hm') as [Hs' Hc'].
  split_and!; [|by rewrite <- Hs' | by rewrite <- Hc' | by rewrite Eev, Ev].
  exists row, t, dl, l. split_and!; [exact Hrow | | | | exact Hch | exact Hm' | by rewrite Edb].
  - rewrite Hs. by apply IsAvailable_spec in Ha as [??].
  - rewrite Hc. by apply IsAvailable_spec in Ha as [??].
  - intros Hin%lease_conflict_spec. change (w_db (tick w)) with (w_db w) in Hl. congruence.
Qed.

(** The assignment fails and changes nothing in the database. *)
Definition refused (w : W) (v chatID : string) : Prop :=
  is_Ok (AssignToChat s v chatID w).1 = false /\ w_db (AssignToChat s v chatID w).2 = w_db w.

(** A VM with an active lease cannot be assigned, to any chat. *)
Lemma leased_not_assignable v chatID (w : W) : leased w v -> refused w v chatID.
Proof.
  intros Hl. unfold refused. pose proof (Assign_cases_s v chatID w) as H. destruct (AssignToChat s v chatID w) as [[vm|e] w'].
  - destruct H as [(row & t & dl & l & _ & _ & _ & Hn & _) _]. by destruct Hn.
  - by destruct H.
Qed.

(** C7: AssignToChat, on every branch. It succeeds only for an unbound VM that is
    ready, running or idle and has no active lease, and only for an existing chat; it then
    writes the running row bound to the chat together with the lease, and sends one
    vm.assigned event. Otherwise it changes nothing at all: the row and its lease
    are never written apart. *)
Theorem AssignToChat_spec v chatID (w : W) :
  match AssignToChat s v chatID w with
  | (Ok vm, w') => took w w' v chatID vm /\ vm_Status vm = StatusRunning /\ vm_ChatID vm = Some chatID /\
      w_events w' = w_events w ++ hooked s [AssignedEvent vm chatID]
  | (Err _, w') => w_db w' = w_db w /\ w_events w' = w_events w
  end.
Proof. apply Assign_cases_s. Qed.

(** Assignments are exclusive. After a VM has been assigned to a chat, every
    further assignment of it, to this chat or another, fails and changes nothing in
    the database. *)
Theorem AssignToChat_exclusive v c1 c2 (w w1 : W) vm :
  AssignToChat s v c1 w = (Ok vm, w1) -> refused w1 v c2.
Proof.
  intros H. apply leased_not_assignable. pose proof (Assign_cases_s v c1 w) as Hs. rewrite H in Hs.
  destruct Hs as [(row & t & dl & l & _ & _ & _ & _ & _ & _ & E) _]. unfold leased. rewrite E.
  autorewrite with dbproj. apply elem_of_leased_vms. exists (new_lease t l v c1). split; [set_solver | done].
Qed.

(** The reconciler keeps the lease of a VM whose runtime is gone, and this
    makes the VM unassignable: the row becomes idle and unbound like that of an
    available VM, but every assignment of it fails, and keeps failing, because of
    the lease that is still active. *)
Theorem lost_runtime_unassignable vm runtimeState t (w : W) :
  leased w (vm_ID vm) ->
  let w' := (markColdAfterLostRuntime s vm runtimeState t w).2 in
  leased w' (vm_ID vm) /\ forall chatID, refused w' (vm_ID vm) chatID.
Proof.
  intros Hl w'. enough (Hl' : leased w' (vm_ID vm)) by (split; [done |]; intros c; by apply leased_not_assignable).
  unfold leased, w' in *. unfold markColdAfterLostRuntime, bind at 1.
  pose proof (Update_db (cooled t runtimeState vm) w) as H.
  destruct (Update _ w) as [[[]|e] w1]; [|cbn; by rewrite H]. cbv zeta. cbn [snd] in *. destruct H as (old & _ & E).
  match goal with |- context [bind ?m ?k w1] => assert (E1 : keeps same_db (bind m k)) by go_keeps; specialize (E1 w1) end.
  unfold same_db in E1. rewrite E1, E. by autorewrite with dbproj.
Qed.
End Assignment.

(** ** Worked examples *)

(** "vm-a", bound to "chat-1", is unassigned, stopped, destroyed. *)
Lemma Unassign_spec_witness :
  is_Ok (Unassign sample_service "vm-a" sample_world).1 = true /\
  match Unassign sample_service "vm-a" sample_world with
  | (Ok vm, w') => went_idle sample_world w' "vm-a" vm /\
      w_events w' = w_events sample_world ++ hooked sample_service [UnassignedEvent vm (chat_of sample_world "vm-a")]
  | (Err _, w') => gave_up sample_world w' "vm-a"
  end.
Proof. split; [vm_compute; reflexivity | pose proof (Unassign_spec sample_service "vm-a" sample_world sample_keys) as H; exact H]. Defined.

Lemma Stop_spec_witness :
  is_Ok (Stop sample_service "vm-a" sample_world).1 = true /\
  match Stop sample_service "vm-a" sample_world with
  | (Ok vm, w') => went_idle sample_world w' "vm-a" vm /\ (exists b, (be_StopPreserving "vm-a" b).1 = Ok tt) /\
      w_events w' = w_events sample_world ++
        hooked sample_service (cooled_events vm (status_of sample_world "vm-a") (chat_of sample_world "vm-a"))
  | (Err _, w') => gave_up sample_world w' "vm-a"
  end.
Proof. split; [vm_compute; reflexivity | pose proof (Stop_spec sample_service "vm-a" sample_world sample_keys) as H; exact H]. Defined.

Lemma Destroy_spec_witness :
  is_Ok (Destroy sample_service "vm-a" sample_world).1 = true /\
  match Destroy sample_service "vm-a" sample_world with
  | (Ok _, w') => others_same sample_world w' "vm-a" /\ (exists b, (be_Destroy "vm-a" b).1 = Ok tt) /\
      db_vms (w_db w') !! "vm-a" = None /\ (forall l, l ∈ db_leases (w_db w') -> le_VMID l <> "vm-a") /\
      (forall i sn, db_snapshots (w_db w') !! i = Some sn -> sn_VMID sn <> "vm-a") /\
      exists vm, vm_ID vm = "vm-a" /\ vm_Status vm = StatusTerminated /\ 
        w_events w' = w_events sample_world ++ hooked sample_service [DestroyedEvent vm]
  | (Err _, w') => others_same sample_world w' "vm-a" /\ w_events w' = w_events sample_world
  end.
Proof. split; [vm_compute; reflexivity | pose proof (Destroy_spec sample_service "vm-a" sample_world sample_keys) as H; exact H]. Defined.

(** "vm-b" is assigned to "chat-2", and then cannot be assigned to "chat-3". *)
Lemma AssignToChat_exclusive_witness :
  is_Ok (AssignToChat sample_service "vm-b" "chat-2" sample_world).1 = true /\
  let w1 := (AssignToChat sample_service "vm-b" "chat-2" sample_world).2 in
  refused sample_service w1 "vm-b" "chat-3".
Proof.
  assert (H : is_Ok (AssignToChat sample_service "vm-b" "chat-2" sample_world).1 = true) by (vm_compute; reflexivity).
  split; [exact H |]. intros w1. unfold w1. clear w1.
  destruct (AssignToChat sample_service "vm-b" "chat-2" sample_world) as [[vm|e] w1] eqn:E; [|discriminate].
  exact (AssignToChat_exclusive sample_service "vm-b" "chat-2" "chat-3" sample_world w1 vm E).
Defined.

(** "vm-a" loses its runtime: its row is idle and unbound, its lease stays. *)
Lemma lost_runtime_unassignable_witness :
  let w' := (markColdAfterLostRuntime sample_service sample_vm_a "stopped" 40 sample_world).2 in
  (r_status <$> db_vms (w_db w') !! "vm-a") = Some StatusIdle /\
  (r_chat_id <$> db_vms (w_db w') !! "vm-a") = Some None /\
  leased w' "vm-a" /\ refused sample_service w' "vm-a" "chat-1".
Proof.
  intros w'. split_and!; [vm_compute; reflexivity | vm_compute; reflexivity | |];
    (destruct (lost_runtime_unassignable sample_service sample_vm_a "stopped" 40 sample_world) as [Hl Ha];
      [vm_compute; constructor |]); [exact Hl | apply Ha].
Defined.
