(* ===== verification/VMFrame.v ===== *)
(** * Operations leave other VMs alone, and statuses only move forward

    Two guarantees in the sense of VMInv.v. An operation on one VM touches neither
    the row nor the lease of another, and the background jobs touch only VMs that are
    ready, running or idle. The status of a VM that is ready, running or idle only
    moves along the transition table. *)

From S2P Require Import Prelude Exception Naming GoLib Domain World PgRepo IPAlloc Interfaces Hoare Invariants RepoFacts.
From S2P Require Import VMExec VMSnapshot SnapFacts SnapGC VMService VMResume VMInv VMSpec.

(** The VM that is watched: its id, its row and whether it has an active lease. *)
Class Watched := { watched_id : string; watched_row : vmRow; watched_leased : bool }.

Section Frame.
Context {WD : Watched} {B St : Type}.
Abbreviation W := (World B St).
Abbreviation u := watched_id.

Record kept (db : DB) : Prop := {
  k_keys : keys_ok db;
  k_row : db_vms db !! u = Some watched_row;
  k_lease : bool_decide (u ∈ leased_vms (db_leases db)) = watched_leased
}.

(** A VM other than the watched one. *)
Definition other (vm : VM) : Prop := vm_ID vm <> u.

Definition inactive_row (r : vmRow) : Prop := status_in [StatusReady; StatusRunning; StatusIdle] r = false.

#[local] Instance frame_guard : Guard :=
  {| g_db := kept; g_id := fun v => v <> u; g_vm := other; g_active := inactive_row watched_row |}.
Abbreviation fr := (gd (G := frame_guard)).

(** Programs that leave rows and leases alone. *)
Lemma fr_same_vms_ok {E A} (m : M W (result E A)) : keeps same_vms m -> fr m (ok_val (fun _ => True)).
Proof.
  intros H w [Hk Hr Hl]. destruct (H w) as [Ev El]. split; [|by destruct (m w).1].
  split; [|by rewrite Ev | by rewrite El]. intros i r. rewrite Ev. apply Hk.
Qed.

(** ** Writes *)

Lemma kept_put db row : r_id row <> u -> kept db -> kept (put_row row db).
Proof.
  intros Hid [Hk Hr Hl]. split; autorewrite with dbproj; [|by rewrite lookup_insert_ne | done].
  intros i r. autorewrite with dbproj. rewrite lookup_insert_Some. intros [[<- <-]|[_ ?]]; [done | by apply Hk].
Qed.
Lemma kept_leases db ls : kept db -> (u ∈ leased_vms ls <-> u ∈ leased_vms (db_leases db)) -> kept (db <| db_leases := ls |>).
Proof. intros [Hk Hr Hl] H. split; [exact Hk | exact Hr |]. cbn. rewrite <- Hl. by apply bool_decide_ext. Qed.

Lemma fr_GetByID id : id <> u -> fr (GetByID id : M W _) (ok_val other).
Proof.
  intros Hid w Hw. pose proof (keeps_db_selectOne "get vm by id" (NotFound "vm" id) (fun db => db_vms db !! id) w) as E.
  unfold GetByID. rewrite E. split; [done |]. destruct (selectOne _ _ _ w) as [[v|] w'] eqn:Es; [|done].
  apply selectOne_Ok in Es as (r & Hr & Hm). apply mapVMRow_Ok in Hm as (E' & _). unfold other. cbn.
  rewrite E'. by rewrite (k_keys _ Hw _ _ Hr).
Qed.

(** Listings that do not select the watched row do not return the watched VM. *)
Lemma fr_selectMany what f :
  (forall db, kept db -> forall r, r ∈ f db -> row_in db r /\ r <> watched_row) -> fr (selectMany what f : M W _) (ok_val (Forall other)).
Proof.
  intros Hf w Hw. rewrite selectMany_db. split; [done |].
  destruct (selectMany what f w) as [[vs|] w'] eqn:E; [|done].
  apply selectMany_Ok in E. cbn. apply Forall_forall. intros v Hv.
  apply list_elem_of_lookup in Hv as [k Hk]. destruct (Forall2_lookup_r _ _ _ _ _ E Hk) as (r & Hr & Hm).
  apply list_elem_of_lookup_2, (Hf _ Hw) in Hr as [[i Hi] Hne]. apply mapVMRow_Ok in Hm as (E' & _).
  unfold other. rewrite E', (k_keys _ Hw _ _ Hi). intros ->. apply Hne. pose proof (k_row _ Hw). congruence.
Qed.

Lemma fr_GetActiveVMs : inactive_row watched_row -> fr (GetActiveVMs : M W _) (ok_val (Forall other)).
Proof.
  intros Hi. apply fr_selectMany. intros db Hk r. rewrite merge_sort_Permutation. intros Hr.
  split; [by eapply filtered_rows_in |]. intros ->. apply list_elem_of_In, filter_In in Hr as [_ Hs]. unfold inactive_row in Hi. congruence.
Qed.
Lemma fr_GetActiveByUserID x : inactive_row watched_row -> fr (GetActiveByUserID x : M W _) (ok_val (Forall other)).
Proof.
  intros Hi. apply fr_selectMany. intros db Hk r. rewrite merge_sort_Permutation. intros Hr.
  split; [by eapply filtered_rows_in |]. intros ->. apply list_elem_of_In, filter_In in Hr as [_ [Hs _]%andb_true_iff].
  unfold inactive_row in Hi. congruence.
Qed.

(** A row is created only under a fresh id. *)
Lemma fr_Create vm : unbound vm -> fr (PgRepo.Create vm : M W _) (ok_val (fun _ => fresh_vm vm)).
Proof.
  intros Hu. apply gd_run. intros db H. destruct (db_vms db !! vm_ID vm) eqn:E; [done |].
  destruct (vm_constraint db (rowOf vm)); [done |]. cbn.
  assert (Ho : other vm) by (unfold other; intros Eu; rewrite Eu, (k_row _ H) in E; done).
  split; [by apply kept_put |]. split; [done |]. intros v Hv _. cbn. unfold other. by rewrite Hv.
Qed.
Lemma fr_Update vm : other vm -> fr (Update vm : M W _) (ok_val (fun _ => True)).
Proof.
  intros Ho. unfold Update. eapply gd_bind_ok with (Q := fun _ => True).
  - apply gd_run. intros db H. destruct (db_vms db !! vm_ID vm) as [old|]; [|done].
    destruct (vm_constraint db (updatedRow old vm)); [done |]. split; [|done]. by apply kept_put.
  - intros [] _; by apply gd_ret.
Qed.
Lemma fr_Release id : id <> u -> fr (ReleaseActiveLeaseByVM id : M W _) (ok_val (fun _ => True)).
Proof.
  intros Hid. unfold ReleaseActiveLeaseByVM. eapply gd_bind with (Q := fun _ => True); [by apply gd_same |]. intros t _.
  apply gd_run. intros db H. split; [|done]. apply kept_leases; [done |]. by apply release_others.
Qed.
Lemma fr_Delete id : id <> u -> fr (Delete id : M W _) (ok_val (fun _ => True)).
Proof.
  intros Hid. unfold Delete. eapply gd_bind_ok with (Q := fun _ => True).
  - apply gd_run. intros db H. destruct (db_vms db !! id); [|done]. split; [|done]. destruct H as [Hk Hr Hl].
    split; cbn; [intros i r; cbn; intros [_ ?]%lookup_delete_Some; by apply Hk | by rewrite lookup_delete_ne |].
    rewrite <- Hl. apply bool_decide_ext.
    refine (eq_ind_r (fun l => u ∈ l <-> _) _ (leased_vms_filter_vm (fun x => negb (bool_decide (x = id))) _)).
    rewrite list_elem_of_In, filter_In, <- list_elem_of_In, bool_decide_eq_false_2 by done. tauto.
  - intros [] _; by apply gd_ret.
Qed.
Lemma kept_ip db id r ip : id <> u -> kept db -> db_vms db !! id = Some r -> kept (put_row (r <| r_ip_address := ip |>) db).
Proof. intros Hid H Hr. apply kept_put; [|done]. by rewrite <- (k_keys _ H _ _ Hr) in Hid. Qed.
Lemma fr_SetIPAddress id ip : id <> u -> fr (SetIPAddress id ip : M W _) (ok_val (fun _ => True)).
Proof.
  intros Hid. unfold SetIPAddress. eapply gd_bind_ok with (Q := fun _ => True).
  - apply gd_run. intros db H. destruct (db_vms db !! id) as [r|] eqn:Hr; [|done]. split; [|done]. by eapply kept_ip.
  - intros [] _; by apply gd_ret.
Qed.
Lemma fr_ReleaseIPAddress id : id <> u -> fr (ReleaseIPAddress id : M W _) (ok_val (fun _ => True)).
Proof.
  intros Hid. unfold ReleaseIPAddress. apply gd_run. intros db H. destruct (db_vms db !! id) as [r|] eqn:Hr; [|done].
  split; [|done]. by eapply kept_ip.
Qed.
Lemma fr_MetricsInsert m : fr (MetricsInsert m : M W _) (ok_val (fun _ => True)).
Proof. intros w. unfold MetricsInsert. apply gd_run. intros db []. by repeat case_match. Qed.
Lemma fr_Assign v c dl : v <> u -> fr (AssignToChatIfAvailable v c dl : M W _) (ok_val other).
Proof.
  intros Hv w Hw. pose proof (Assign_cases v c dl w) as H.
  destruct (AssignToChatIfAvailable v c dl w) as [[vm|e] w']; cbn; [|by rewrite H].
  destruct H as (row & t & l & v0 & Hr & _ & _ & _ & _ & _ & Hm & ->). pose proof (k_keys _ Hw _ _ Hr) as Hid. split.
  - assert (H' : kept (put_row (assigned_row t c dl row) (w_db w))) by (apply kept_put; [|done]; by rewrite <- Hid in Hv).
    refine (kept_leases _ (db_leases (w_db w) ++ [new_lease t l v c]) H' _). autorewrite with dbproj.
    rewrite leased_vms_app, elem_of_app. split; [|by left]. intros [?|H]; [done |].
    apply elem_of_leased_vms in H as (x & ->%list_elem_of_singleton & _ & E). by cbn in E.
  - apply mapVMRow_Ok in Hm as (E & _). unfold other. rewrite E. by rewrite <- Hid in Hv.
Qed.
End Frame.

(** *** The frame is a guarantee *)
Section FrameLaws.
Context {WD : Watched} {B St : Type} `{!Backend B, !Storage St} (s : Service).
#[local] Existing Instance frame_guard.

Lemma frame_laws : GuardLaws s B St.
Proof.
  split; try (cbn; unfold other; intros; congruence).
  - apply fr_GetByID.
  - apply fr_GetActiveVMs.
  - apply fr_GetActiveByUserID.
  - apply fr_Create.
  - apply fr_Update.
  - apply fr_Release.
  - apply fr_SetIPAddress.
  - apply fr_ReleaseIPAddress.
  - apply fr_Assign.
  - apply fr_MetricsInsert.
  - intros v. apply fr_same_vms_ok, same_vms_CreateSnapshot.
  - intros id. apply fr_same_vms_ok, only_snapshots_vms, keeps_only_DeleteSnapshot.
Qed.
End FrameLaws.

(** ** Isolation *)

Section Isolation.
Context {B St : Type} `{!Backend B, !Storage St}.
Abbreviation W := (World B St).
Context (s : Service).

(** A call, a background tick, or a goroutine that runs. *)
Inductive Task := Call (o : Op) | Goroutine (j : Job).
Definition run_task (k : Task) (w : W) : W :=
  match k with Call o => perform s o w | Goroutine j => (run_job s j w).2 end.

(** May [k] write the row or the lease of VM [u], whose row is [r]? *)
Definition affects (k : Task) (u : string) (r : vmRow) : bool :=
  let active := status_in [StatusReady; StatusRunning; StatusIdle] r in
  match k with
  | Call (OpCreate _ _ _ _ _ _ _ _ _) => false
  | Call (OpGetRuntimeSnapshot v | OpAssignToChat v _ | OpUnassign v | OpStop v | OpDestroy v | OpMarkActive v
         | OpExecuteCommand v _ | OpReadFile v _ _ _ | OpWriteFile v _ _ _ | OpEditFile v _ _ _ _
         | OpResumeVM v _) => bool_decide (v = u)
  | Call (OpListRunningRuntimes | OpListRunningRuntimesByUser _ | OpReapIdleVMs | OpReconcileRuntimeStates
         | OpShutdown) => active
  | Call (OpCreateSnapshot _ | OpDeleteSnapshot _ | OpGcOrphanedSnapshots) => false
  | Goroutine _ => false
  end.

Lemma fr_keeps {WD : Watched} {A} (m : M W A) Q w : gd (G := frame_guard) m Q -> kept (w_db w) -> kept (w_db (m w).2).
Proof. intros H Hw. by apply H. Qed.

Lemma run_task_kept {WD : Watched} k w :
  kept (w_db w) -> affects k watched_id watched_row = false -> kept (w_db (run_task k w)).
Proof.
  intros Hk Ha. pose proof (frame_laws (B := B) (St := St) s) as GL.
  destruct k as [o|j]; [|by eapply fr_keeps; [apply gd_run_job |]].
  destruct o; cbn [affects run_task perform] in *; (eapply fr_keeps; [|exact Hk]);
    try lazymatch type of Ha with bool_decide _ = false => apply bool_decide_eq_false_1 in Ha end.
  - by apply gd_Create_vm.
  - by apply (gd_GetRuntimeSnapshot s).
  - by apply (gd_ListRunningRuntimes s).
  - by apply (gd_ListRunningRuntimesByUser s).
  - by apply gd_AssignToChat.
  - by apply gd_Unassign.
  - by apply gd_Stop.
  - apply gd_Destroy; [done.. | by apply fr_Delete |]. intros v v' Hv E _. cbn in *. unfold other in *. congruence.
  - by apply gd_MarkActive.
  - by apply gd_ExecuteCommand.
  - by apply (gd_guest_file_op s).
  - by apply (gd_guest_file_op s).
  - by apply (gd_guest_file_op s).
  - by apply gl_CreateSnapshot.
  - by apply gl_DeleteSnapshot.
  - by apply gd_ResumeVM.
  - by apply gd_reapIdleVMs.
  - by apply gd_reconcile.
  - by apply gd_gcOrphaned.
  - by apply gd_Shutdown.
Qed.

Lemma run_task_isolated k w u r :
  keys_ok (w_db w) -> db_vms (w_db w) !! u = Some r -> affects k u r = false ->
  db_vms (w_db (run_task k w)) !! u = Some r /\
  (u ∈ leased_vms (db_leases (w_db (run_task k w))) <-> u ∈ leased_vms (db_leases (w_db w))).
Proof.
  intros Hk Hr Ha.
  set (WD := {| watched_id := u; watched_row := r; watched_leased := bool_decide (u ∈ leased_vms (db_leases (w_db w))) |}).
  destruct (run_task_kept (WD := WD) k w) as [_ Hr' Hl]; [by split | done |]. split; [done |].
  unfold watched_leased, watched_id in Hl; cbn in Hl.
  rewrite <- (bool_decide_eq_true (u ∈ leased_vms (db_leases (w_db (run_task k w))))), Hl. apply bool_decide_eq_true.
Qed.
(** C3: Isolation. A call on one VM, successful or not and whichever statements
    and backend calls fail in it, leaves the row and the lease of every other VM
    exactly as they were; creating a VM touches no existing one; the snapshot
    operations and the goroutines touch no VM row at all; and the reaper, the
    reconciler, the shutdown and the listings touch only VMs that are ready, running
    or idle, so that a terminated or provisioning VM is never resurrected by a
    background job. *)
Theorem task_isolation k w u r :
  keys_ok (w_db w) -> db_vms (w_db w) !! u = Some r -> affects k u r = false ->
  db_vms (w_db (run_task k w)) !! u = Some r /\
  (u ∈ leased_vms (db_leases (w_db (run_task k w))) <-> u ∈ leased_vms (db_leases (w_db w))).
Proof. apply run_task_isolated. Qed.
End Isolation.

(** Destroying "vm-a" leaves "vm-b" as it is. *)
Lemma task_isolation_witness :
  db_vms (w_db (run_task sample_service (Call (OpDestroy "vm-a")) sample_world)) !! "vm-b" = Some (rowOf sample_vm_b).
Proof.
  apply (task_isolation sample_service (Call (OpDestroy "vm-a")) sample_world "vm-b" (rowOf sample_vm_b));
    [exact sample_keys | reflexivity | reflexivity].
Defined.

(** ** Statuses move forward *)

(** The VM that is watched and its status at the start: ready, running or idle. *)
Class Progress := { pg_id : string; pg_status : Status }.

Section Forward.
Context {PG : Progress} {B St : Type} `{!Backend B, !Storage St} (s : Service).
Abbreviation W := (World B St).

(** The statuses a live VM may have after operations other than Destroy. *)
Definition later (st : Status) : Prop := st = pg_status \/ st = StatusRunning \/ st = StatusIdle.
Record moved (db : DB) : Prop := {
  m_keys : keys_ok db;
  m_row : exists r, db_vms db !! pg_id = Some r /\ later (r_status r)
}.
Definition may_be (vm : VM) : Prop := vm_ID vm = pg_id -> later (vm_Status vm).

#[local] Instance progress_guard : Guard :=
  {| g_db := moved; g_id := fun _ => True; g_vm := may_be; g_active := True |}.
Abbreviation pr := (gd (G := progress_guard)).

Lemma moved_put db row : moved db -> (r_id row = pg_id -> later (r_status row)) -> moved (put_row row db).
Proof.
  intros [Hk (r & Hr & Hl)] Hrow. split.
  - intros i x. autorewrite with dbproj. rewrite lookup_insert_Some. intros [[<- <-]|[_ ?]]; [done | by apply Hk].
  - autorewrite with dbproj. destruct (decide (r_id row = pg_id)) as [E|E].
    + exists row. rewrite E, lookup_insert_eq. auto.
    + exists r. by rewrite lookup_insert_ne.
Qed.
Lemma moved_row db i r : moved db -> db_vms db !! i = Some r -> r_id r = pg_id -> later (r_status r).
Proof. intros [Hk (x & Hx & Hl)] Hr Hid. rewrite (Hk _ _ Hr) in Hid. subst i. congruence. Qed.
Lemma moved_vm db i r v : moved db -> db_vms db !! i = Some r -> mapVMRow r = Ok v -> may_be v.
Proof. intros H Hr (E1 & E2 & _)%mapVMRow_Ok. unfold may_be. rewrite E1, E2. by eapply moved_row. Qed.

Lemma pr_selectOne what e f :
  (forall db r, f db = Some r -> row_in db r) -> pr (selectOne what e f : M W _) (ok_val may_be).
Proof.
  intros Hf w Hw. rewrite selectOne_db. split; [done |].
  destruct (selectOne what e f w) as [[v|] w'] eqn:E; [|done].
  apply selectOne_Ok in E as (r & Hr & Hm). apply Hf in Hr as [i Hi]. by eapply moved_vm.
Qed.
Lemma pr_selectMany what f :
  (forall db r, r ∈ f db -> row_in db r) -> pr (selectMany what f : M W _) (ok_val (Forall may_be)).
Proof.
  intros Hf w Hw. rewrite selectMany_db. split; [done |].
  destruct (selectMany what f w) as [[vs|] w'] eqn:E; [|done].
  apply selectMany_Ok in E. cbn. apply Forall_forall. intros v Hv.
  apply list_elem_of_lookup in Hv as [k Hk]. destruct (Forall2_lookup_r _ _ _ _ _ E Hk) as (r & Hr & Hm).
  apply list_elem_of_lookup_2, Hf in Hr as [i Hi]. by eapply moved_vm.
Qed.
Lemma pr_leases db ls : moved db -> moved (db <| db_leases := ls |>).
Proof. intros [Hk Hr]. by split. Qed.
Lemma moved_ip db id r ip : moved db -> db_vms db !! id = Some r -> moved (put_row (r <| r_ip_address := ip |>) db).
Proof. intros H Hr. apply moved_put; [done |]. intros Hid. exact (moved_row _ _ _ H Hr Hid). Qed.
Lemma pr_same_vms_ok {E A} (m : M W (result E A)) : keeps same_vms m -> pr m (ok_val (fun _ => True)).
Proof.
  intros H w [Hk Hr]. destruct (H w) as [Ev El]. split; [|by destruct (m w).1].
  split; [|by rewrite Ev]. intros i r. rewrite Ev. apply Hk.
Qed.

Lemma pr_Create vm : unbound vm -> pr (PgRepo.Create vm : M W _) (ok_val (fun _ => fresh_vm vm)).
Proof.
  intros Hu. apply gd_run. intros db H. destruct (db_vms db !! vm_ID vm) eqn:E; [done |].
  destruct (vm_constraint db (rowOf vm)); [done |].
  assert (Hne : vm_ID vm <> pg_id) by (intros Eu; destruct (m_row _ H) as (r & Hr & _); congruence).
  split; [by apply moved_put |]. split; [done |]. intros v Hv _ Hid. congruence.
Qed.
Lemma pr_Update vm : may_be vm -> pr (Update vm : M W _) (ok_val (fun _ => True)).
Proof.
  intros Ho. unfold Update. eapply gd_bind_ok with (Q := fun _ => True).
  - apply gd_run. intros db H. destruct (db_vms db !! vm_ID vm) as [old|]; [|done].
    destruct (vm_constraint db (updatedRow old vm)); [done |]. split; [|done]. by apply moved_put.
  - intros [] _; by apply gd_ret.
Qed.
Lemma pr_Release id : pr (ReleaseActiveLeaseByVM id : M W _) (ok_val (fun _ => True)).
Proof.
  unfold ReleaseActiveLeaseByVM. eapply gd_bind with (Q := fun _ => True); [by apply gd_same |]. intros t _.
  apply gd_run. intros db H. split; [|done]. by apply pr_leases.
Qed.
Lemma pr_SetIP id ip : pr (SetIPAddress id ip : M W _) (ok_val (fun _ => True)).
Proof.
  unfold SetIPAddress. eapply gd_bind_ok with (Q := fun _ => True).
  - apply gd_run. intros db H. destruct (db_vms db !! id) as [r|] eqn:Hr; [|done]. split; [|done]. by eapply moved_ip.
  - intros [] _; by apply gd_ret.
Qed.
Lemma pr_ReleaseIP id : pr (ReleaseIPAddress id : M W _) (ok_val (fun _ => True)).
Proof.
  unfold ReleaseIPAddress. apply gd_run. intros db H. destruct (db_vms db !! id) as [r|] eqn:Hr; [|done].
  split; [|done]. by eapply moved_ip.
Qed.
Lemma pr_Assign v c dl : pr (AssignToChatIfAvailable v c dl : M W _) (ok_val may_be).
Proof.
  intros w Hw. pose proof (Assign_cases v c dl w) as H.
  destruct (AssignToChatIfAvailable v c dl w) as [[vm|e] w']; cbn; [|by rewrite H].
  destruct H as (row & t & l & v0 & Hr & _ & _ & _ & _ & _ & Hm & ->).
  assert (Hl : later StatusRunning) by (right; by left). split.
  - refine (pr_leases _ _ _). by apply moved_put.
  - apply mapVMRow_Ok in Hm as (_ & E & _). unfold may_be. by rewrite E.
Qed.
Lemma pr_Metrics m : pr (MetricsInsert m : M W _) (ok_val (fun _ => True)).
Proof. intros w. unfold MetricsInsert. apply gd_run. intros db []. by repeat case_match. Qed.

Lemma progress_laws : GuardLaws s B St.
Proof.
  split; cbn; unfold may_be; try done.
  - intros v v' H E1 E2 _. by rewrite E1, E2.
  - intros v v' _ _ -> _ _. right. by right.
  - intros v v' _ _ -> _. right. by left.
  - intros id _. apply pr_selectOne. intros db r Hr. by exists id.
  - intros _. apply pr_selectMany. intros db r. apply sorted_rows_in.
  - intros u _. apply pr_selectMany. intros db r. apply sorted_rows_in.
  - apply pr_Create.
  - apply pr_Update.
  - intros id _. apply pr_Release.
  - intros id ip _. apply pr_SetIP.
  - intros id _. apply pr_ReleaseIP.
  - intros v c dl _. apply pr_Assign.
  - apply pr_Metrics.
  - intros v. apply pr_same_vms_ok, same_vms_CreateSnapshot.
  - intros id. apply pr_same_vms_ok, only_snapshots_vms, keeps_only_DeleteSnapshot.
Qed.
End Forward.

Section OnlyDestroy.
Context {B St : Type} `{!Backend B, !Storage St}.
Abbreviation W := (World B St).
Context (s : Service).

Lemma pr_gd {PG : Progress} {A} (m : M W A) Q w : gd (G := progress_guard) m Q -> moved (w_db w) -> moved (w_db (m w).2).
Proof. intros H Hw. by apply H. Qed.

(** Everything but Destroy keeps a live VM alive. *)
Lemma run_task_moved {PG : Progress} k w :
  (forall v, k <> Call (OpDestroy v)) -> moved (w_db w) -> moved (w_db (run_task s k w)).
Proof.
  intros Hk Hw. pose proof (progress_laws (B := B) (St := St) s) as GL.
  destruct k as [o|j]; [|by eapply pr_gd; [apply gd_run_job |]].
  destruct o; try (by exfalso; eapply Hk); cbn [run_task perform]; (eapply pr_gd; [|exact Hw]).
  - by apply gd_Create_vm.
  - by apply (gd_GetRuntimeSnapshot s).
  - by apply (gd_ListRunningRuntimes s).
  - by apply (gd_ListRunningRuntimesByUser s).
  - by apply gd_AssignToChat.
  - by apply gd_Unassign.
  - by apply gd_Stop.
  - by apply gd_MarkActive.
  - by apply gd_ExecuteCommand.
  - by apply (gd_guest_file_op s).
  - by apply (gd_guest_file_op s).
  - by apply (gd_guest_file_op s).
  - by apply gl_CreateSnapshot.
  - by apply gl_DeleteSnapshot.
  - by apply gd_ResumeVM.
  - by apply gd_reapIdleVMs.
  - by apply gd_reconcile.
  - by apply gd_gcOrphaned.
  - by apply gd_Shutdown.
Qed.

(** One transition of the table. *)
Definition transition (a b : Status) : Prop := CanTransition a b = true.

Lemma forward_ok a t :
  a ∈ [StatusReady; StatusRunning; StatusIdle] -> t = a \/ t = StatusRunning \/ t = StatusIdle ->
  t ∈ [StatusReady; StatusRunning; StatusIdle] /\ rtc transition a t.
Proof.
  rewrite !elem_of_cons, elem_of_nil.
  intros [->|[->|[->|[]]]] [->|[->| ->]]; (split; [tauto | first [reflexivity | by apply rtc_once]]).
Qed.

Definition is_destroy (k : Task) : option string := match k with Call (OpDestroy v) => Some v | _ => None end.
Lemma is_destroy_Some k v : is_destroy k = Some v -> k = Call (OpDestroy v).
Proof. destruct k as [o|j]; [destruct o|]; cbn; congruence. Qed.

(** Only Destroy ends a live VM, and statuses follow the transition table.
    Whatever call, background tick or goroutine runs, and whatever fails in it, a VM
    that is ready, running or idle still exists afterwards and is ready, running or
    idle, unless the task is the destruction of this very VM; its new status is
    reached from the old one by transitions of ValidTransitions. In particular
    nothing makes a VM ready or provisioning again. *)
Theorem live_until_destroyed k (w : W) u r :
  keys_ok (w_db w) -> db_vms (w_db w) !! u = Some r ->
  status_in [StatusReady; StatusRunning; StatusIdle] r = true -> k <> Call (OpDestroy u) ->
  exists r', db_vms (w_db (run_task s k w)) !! u = Some r' /\
    status_in [StatusReady; StatusRunning; StatusIdle] r' = true /\ rtc transition (r_status r) (r_status r').
Proof.
  intros Hk Hr Hst Hd. unfold status_in in Hst. apply bool_decide_eq_true_1 in Hst.
  assert (Hgoal : exists r', db_vms (w_db (run_task s k w)) !! u = Some r' /\
    (r_status r' = r_status r \/ r_status r' = StatusRunning \/ r_status r' = StatusIdle)).
  { destruct (is_destroy k) as [v|] eqn:E.
    - apply is_destroy_Some in E as ->. assert (Hv : v <> u) by congruence. exists r. split; [|by left].
      apply (run_task_isolated s (Call (OpDestroy v)) w u r Hk Hr). by apply bool_decide_eq_false_2.
    - set (PG := {| pg_id := u; pg_status := r_status r |}).
      assert (Hm : moved (w_db w)) by (split; [done | exists r; split; [done | by left]]).
      destruct (run_task_moved k w) as [_ H]; [by intros v -> | exact Hm | exact H]. }
  destruct Hgoal as (r' & Hr' & Ht). exists r'. apply (forward_ok _ _ Hst) in Ht as [??]. split_and!; [done | | done].
  by apply bool_decide_eq_true_2.
Qed.
End OnlyDestroy.

(** "vm-a" is stopped: it goes from running to idle. *)
Lemma live_until_destroyed_witness :
  exists r', db_vms (w_db (run_task sample_service (Call (OpStop "vm-a")) sample_world)) !! "vm-a" = Some r' /\
    status_in [StatusReady; StatusRunning; StatusIdle] r' = true /\ rtc transition StatusRunning (r_status r').
Proof.
  apply (live_until_destroyed sample_service (Call (OpStop "vm-a")) sample_world "vm-a" (rowOf sample_vm_a));
    [exact sample_keys | reflexivity | reflexivity | discriminate].
Defined.
