(* ===== verification/VMCreate.v ===== *)
(** * What Create does

    Every outcome of VMService.Create: the only row it writes is the one of the new
    VM, and until the creation has succeeded that row is provisioning or terminated.
    What later calls do with the row of a failed creation is another matter
    ([failed_create_assignable]). *)

From S2P Require Import Prelude Exception Naming GoLib Domain World PgRepo IPAlloc Interfaces Hoare Invariants RepoFacts.
From S2P Require Import VMExec VMSnapshot SnapFacts SnapGC VMService VMResume VMInv VMSpec.

Section Create.
Context {B St : Type} `{!Backend B, !Storage St}.
Abbreviation W := (World B St).
Context (s : Service).
Local Open Scope go_scope.

(** Compared with [w0] there is one more VM, [id], whose row satisfies [P]; the other
    rows, the leases and the events are as they were. *)
Record one_new (P : vmRow -> Prop) (id : string) (w0 w : W) : Prop := {
  on_fresh : db_vms (w_db w0) !! id = None;
  on_others : forall u, u <> id -> db_vms (w_db w) !! u = db_vms (w_db w0) !! u;
  on_leases : db_leases (w_db w) = db_leases (w_db w0);
  on_events : w_events w = w_events w0;
  on_row : exists row, db_vms (w_db w) !! id = Some row /\ r_id row = id /\ P row
}.

(** Provisioning or terminated, and bound to no chat. *)
Definition pending (row : vmRow) : Prop :=
  (r_status row = StatusProvisioning \/ r_status row = StatusTerminated) /\ r_chat_id row = None.
(** The row of a VM entity, as far as the lifecycle is concerned. *)
Definition row_like (vm : VM) (row : vmRow) : Prop :=
  r_status row = vm_Status vm /\ r_chat_id row = vm_ChatID vm /\ r_runtime_id row = vm_RuntimeID vm.
(** The entity of the VM being created. *)
Definition nascent (id : string) (vm : VM) : Prop :=
  vm_ID vm = id /\ vm_ChatID vm = None /\ vm_Status vm = StatusProvisioning.

Lemma one_new_weaken (P Q : vmRow -> Prop) id w0 w : one_new P id w0 w -> (forall r, P r -> Q r) -> one_new Q id w0 w.
Proof. intros [H1 H2 H3 H4 (r & ?&?&?)] HQ. split; eauto 6. Qed.

Lemma one_new_db P id w0 (w w' : W) : one_new P id w0 w -> w_db w' = w_db w -> w_events w' = w_events w0 -> one_new P id w0 w'.
Proof. intros [H1 H2 H3 H4 H5] E Ev. split; by rewrite ?E. Qed.

Lemma triple_one_new_quiet {A} P id w0 (m : M W A) : keeps quiet m -> triple (one_new P id w0) m (fun _ => one_new P id w0).
Proof.
  intros H w [H1 H2 H3 H4 H5]. destruct (H w) as [[Ev El] Ee]. unfold same_events in Ee.
  split; [done | intros u Hu; rewrite Ev; auto | congruence | congruence | by rewrite Ev].
Qed.

Lemma one_new_put (P Q : vmRow -> Prop) id w0 (w w' : W) row :
  one_new P id w0 w -> r_id row = id -> Q row -> w_db w' = put_row row (w_db w) -> w_events w' = w_events w -> one_new Q id w0 w'.
Proof.
  intros [H1 H2 H3 H4 _] Hid HQ E Ev. split; rewrite ?E; autorewrite with dbproj; [done | | done | congruence |].
  - intros u Hu. rewrite Hid, lookup_insert_ne by done. auto.
  - exists row. rewrite Hid, lookup_insert_eq. done.
Qed.

Lemma triple_one_new_Update (P : vmRow -> Prop) id w0 vm : vm_ID vm = id ->
  triple (one_new P id w0) (Update vm) (fun r w => match r with Ok _ => one_new (row_like vm) id w0 w | Err _ => one_new P id w0 w end).
Proof.
  intros Hid w H. pose proof (Update_db vm w) as Hu. pose proof (events_Update vm w) as Ev.
  destruct (Update vm w) as [[[]|e] w']; cbn in *.
  - destruct Hu as (old & _ & E). eapply one_new_put; [done | | | done | done]; [by autorewrite with dbproj | done].
  - destruct H as [H1 H2 H3 H4 H5]. split; rewrite ?Hu; try done. congruence.
Qed.

Lemma triple_one_new_SetIP id w0 ip :
  triple (one_new pending id w0) (SetIPAddress id ip) (fun _ => one_new pending id w0).
Proof.
  intros w H. pose proof (SetIP_db id ip w) as Hs. pose proof (events_SetIP id ip w) as Ev.
  destruct (SetIPAddress id ip w) as [r w']. cbn in *. destruct Hs as [E|(row & Hrow & E)].
  - destruct H as [H1 H2 H3 H4 H5]. split; rewrite ?E; try done. congruence.
  - pose proof H as [_ _ _ _ (row' & Hrow' & Hid & HP)]. assert (row' = row) as -> by congruence.
    eapply one_new_put; [exact H | | | exact E | done]; done.
Qed.

Lemma triple_one_new_ReleaseIP id w0 :
  triple (one_new pending id w0) (ReleaseIPAddress id) (fun _ => one_new pending id w0).
Proof.
  intros w H. destruct (ReleaseIP_db id w) as (db' & (E & _ & _ & _ & Ev & _) & Hc).
  destruct (ReleaseIPAddress id w) as [r w']. cbn in *. destruct Hc as [->|(row & Hrow & ->)].
  - destruct H as [H1 H2 H3 H4 H5]. split; rewrite ?E; try done. congruence.
  - pose proof H as [_ _ _ _ (row' & Hrow' & Hid & HP)]. assert (row' = row) as -> by congruence.
    eapply one_new_put; [exact H | | | exact E | done]; done.
Qed.

Lemma terminated_pending vm row : row_like vm row -> vm_Status vm = StatusTerminated -> vm_ChatID vm = None -> pending row.
Proof. intros (E1 & E2 & _) Hs Hc. split; [right; congruence | congruence]. Qed.

(** A failed creation is written off. *)
Lemma triple_abandon id w0 vm : nascent id vm ->
  triple (one_new pending id w0) (abandon s vm) (fun _ => one_new pending id w0).
Proof.
  intros (<- & Hch & Hst). unfold abandon.
  eapply triple_bind; [apply triple_one_new_quiet; eauto with keeps |]. intros t.
  eapply triple_bind with (Q := fun vm' w => one_new pending (vm_ID vm) w0 w /\
    (vm_ID vm' = vm_ID vm /\ vm_ChatID vm' = None /\ vm_Status vm' = StatusTerminated)).
  { unfold releaseIPOnTerminate. destruct (vm_IPAddress _), (svc_ipAllocator s);
      try (intros w H; by split).
    eapply triple_bind; [apply (triple_one_new_ReleaseIP (vm_ID vm)) |].
    intros ? w H. by split. }
  intros vm'. apply triple_pure_r. intros (Hid' & Hch' & Hst').
  eapply triple_bind; [by apply triple_one_new_Update |]. intros [[]|e] w H; [|done].
  eapply one_new_weaken; [exact H |]. intros r Hr. by apply (terminated_pending _ _ Hr).
Qed.

Lemma triple_allocate_ip id w0 vm : nascent id vm ->
  triple (one_new pending id w0) (allocate_ip s vm) (fun _ => one_new pending id w0).
Proof.
  intros (Hid & Hch & Hst). unfold allocate_ip. destruct (svc_ipAllocator s) as [a|]; [|by intros w].
  eapply triple_bind with (Q := fun _ => one_new pending id w0).
  - unfold IPAlloc.Allocate. eapply triple_bind.
    { apply triple_one_new_quiet, quiet_read; unfold GetAllocatedIPs; go_keeps. }
    intros [l|e]; [|by intros w]. destruct (scan _ _ _ _) as [ip|]; [|by intros w].
    eapply triple_bind; [rewrite Hid; apply triple_one_new_SetIP |]. intros [[]|e]; by intros w.
  - intros [ip|e]; [by intros w |].
    eapply triple_bind; [apply triple_one_new_quiet; eauto with keeps |]. intros t.
    eapply triple_bind; [by apply triple_one_new_Update |]. intros [[]|e'] w H; [|done].
    eapply one_new_weaken; [exact H |]. intros r Hr. by apply (terminated_pending _ _ Hr).
Qed.

(** The outcomes of a creation. *)
Definition created (w0 w : W) (vm : VM) : Prop :=
  one_new (row_like vm) (vm_ID vm) w0 (w <| w_events := w_events w0 |>) /\
  vm_Status vm = StatusReady /\ vm_ChatID vm = None /\
  w_events w = w_events w0 ++ hooked s [CreatedEvent vm] /\
  exists spec backendID b, cs_InstanceID spec = vm_ID vm /\ (be_Create spec b).1 = Ok backendID /\
    (backendID <> "" -> vm_RuntimeID vm = Some backendID).
Definition not_created (w0 w : W) : Prop := quiet w0 w \/ exists id, one_new pending id w0 w.


Lemma triple_observe_created id w0 backendID vm : nascent id vm ->
  triple (one_new pending id w0) (observe_created backendID vm) (fun vm' w => one_new pending id w0 w /\
    (nascent id vm' /\ (backendID <> "" -> vm_RuntimeID vm' = Some backendID))).
Proof.
  intros (Hid & Hch & Hst). unfold observe_created.
  eapply triple_bind; [apply triple_one_new_quiet; eauto with keeps |]. intros t.
  eapply triple_bind; [apply triple_one_new_quiet; eauto with keeps |].
  assert (Hn : forall t pid st v, vm_ID v = id -> vm_ChatID v = None -> vm_Status v = StatusProvisioning ->
    nascent id (SetRuntimeMetadata t backendID "" pid st v) /\
    (backendID <> "" -> vm_RuntimeID (SetRuntimeMetadata t backendID "" pid st v) = Some backendID)).
  { intros ? ? ? v ? ? ?. split; [done |]. intros Hne. cbn. unfold if_nonempty. by rewrite bool_decide_eq_false_2. }
  intros [rs|e]; [|intros w H; split; [exact H | by apply Hn]].
  eapply triple_bind; [apply triple_one_new_quiet; eauto with keeps |]. intros t' w H.
  split; [exact H |]. by apply Hn.
Qed.

Lemma triple_provision id w0 vm env : nascent id vm ->
  triple (one_new pending id w0) (provision s vm env) (fun r w => match r with
    | Ok vm' => created w0 w vm' | Err _ => not_created w0 w end).
Proof.
  intros Hn. unfold provision.
  eapply triple_bind_ok; [by apply triple_allocate_ip | | intros e w H; right; by exists id]. intros oip. cbv zeta.
  set (spec := match oip with Some _ => _ | None => create_spec _ _ end).
  assert (Hspec : cs_InstanceID spec = id) by (unfold spec; destruct oip; apply Hn).
  assert (Hn' : nascent id (match oip with Some ip => vm <| vm_IPAddress := Some ip |> | None => vm end)) by by destruct oip.
  revert Hn'. generalize (match oip with Some ip => vm <| vm_IPAddress := Some ip |> | None => vm end) as v. intros v Hv.
  assert (Hlost : forall e : error, triple (one_new pending id w0) (let* _ := abandon s v in ret (Err e))
    (fun r w => match r with Ok vm' => created w0 w vm' | Err _ => not_created w0 w end)).
  { intros e. eapply triple_bind; [by apply triple_abandon |]. intros ? w H. right. by exists id. }
  eapply triple_bind; [apply triple_one_new_quiet; eauto with keeps |]. intros [[]|e]; [|apply Hlost].
  eapply triple_bind with (Q := fun r w => one_new pending id w0 w /\ exists b, (be_Create spec b).1 = r).
  { intros w H. split; [by apply (triple_one_new_quiet _ _ _ (on_backend (be_Create spec))); eauto with keeps |].
    exists (w_be w). unfold on_backend. by destruct (be_Create spec (w_be w)). }
  intros [backendID|e]; apply triple_pure_r; [|intros _; apply Hlost]. intros [b Hb].
  eapply triple_bind; [apply triple_one_new_quiet; eauto with keeps |]. intros [[]|e].
  2: { eapply triple_bind; [apply triple_one_new_quiet; eauto with keeps |]. intros ?. apply Hlost. }
  eapply triple_bind; [by apply triple_observe_created |]. intros v1. apply triple_pure_r. intros (Hv1 & Hrt).
  eapply triple_bind with (Q := fun v' w => one_new pending id w0 w /\ exists d, v' = v1 <| vm_IdleDeadlineAt := Some d |>).
  { intros w H. split; [|by eexists]. by apply (triple_one_new_quiet _ _ _ (refreshIdleDeadline s v1)); eauto with keeps. }
  intros v2. apply triple_pure_r. intros [d ->]. destruct Hv1 as (Hid1 & Hch1 & _).
  eapply triple_bind_ok; [by apply triple_one_new_Update | | intros e w H; right; by exists id]. intros [] w H.
  unfold bind. set (v3 := (v1 <| vm_IdleDeadlineAt := Some d |>) <| vm_Status := StatusReady |>) in *.
  destruct (notifyHook_run s (CreatedEvent v3) w) as [E Ev]. destruct (notifyHook s _ w) as [u w']. unfold ret. cbn [fst snd] in *.
  pose proof (on_events _ _ _ _ H) as Hev. split_and!; [| done | exact Hch1 | by rewrite Ev, Hev |].
  - assert (Hid3 : vm_ID v3 = id) by exact Hid1. rewrite Hid3. eapply one_new_db; [exact H | exact E | done].
  - exists spec, backendID, b. split_and!; [by rewrite Hspec | done | exact Hrt].
Qed.

Lemma triple_persist_new w0 vm b : vm_ChatID vm = None -> vm_Status vm = StatusProvisioning ->
  triple (quiet w0) (persist_new vm b) (fun r w => match r with
    | Ok vm' => one_new pending (vm_ID vm') w0 w /\ nascent (vm_ID vm') vm' | Err _ => quiet w0 w end).
Proof.
  intros Hch Hst.
  assert (Hc : forall v, vm_ChatID v = None -> vm_Status v = StatusProvisioning ->
    triple (quiet w0) (PgRepo.Create v) (fun r w => match r with
      | Ok _ => one_new pending (vm_ID v) w0 w | Err _ => quiet w0 w end)).
  { intros v Hc1 Hs1 w [[Hv Hl] Hev]. pose proof (Create_cases v w) as H. unfold same_events in Hev.
    destruct (PgRepo.Create v w) as [[[]|e] w']; cbn.
    - destruct H as (Hf & E & Ev). rewrite Hv in Hf.
      split; rewrite ?E; autorewrite with dbproj; [done | | done | congruence |].
      + intros u Hu. change (r_id (rowOf v)) with (vm_ID v). by rewrite lookup_insert_ne, Hv.
      + exists (rowOf v). change (r_id (rowOf v)) with (vm_ID v). rewrite lookup_insert_eq. split_and!; [done | done |].
        split; [by left | done].
    - destruct H as [E Ev]. split; [split; congruence | unfold same_events; congruence]. }
  unfold persist_new. eapply triple_bind; [by apply Hc |]. intros [[]|err]; [by intros w H |].
  destruct (isUniqueViolation err); [|by intros w]. destruct b; [by intros w |].
  eapply triple_bind; [apply triple_quiet; eauto with keeps |]. intros n.
  eapply triple_bind_ok; [by apply (Hc (vm <| vm_Name := n |>)) | | by intros e w]. intros [] w H. by split.
Qed.

Lemma quiet_resolveUniqueName vm b : keeps quiet (resolveUniqueName vm b : M W _).
Proof.
  unfold resolveUniqueName. assert (Hg : forall n, keeps quiet (GetByName n : M W _)).
  { intros n. apply quiet_read; unfold GetByName, selectOne; go_keeps. }
  go_keeps; try apply Hg. revert vm. induction nameCollisionRetries; intros vm; cbn [retry_names]; go_keeps.
Qed.
Lemma reads_unique vm b (w : W) :
  ok_val (fun vm' => vm_ID vm' = vm_ID vm /\ vm_ChatID vm' = vm_ChatID vm /\ vm_Status vm' = vm_Status vm) (resolveUniqueName vm b w).1.
Proof.
  unfold resolveUniqueName, bind. destruct b.
  - destruct (GetByName _ w) as [[v|e] w']; done.
  - enough (H : forall n v (w : W), let r := (retry_names n v w).1 in vm_ID r = vm_ID v /\ vm_ChatID r = vm_ChatID v /\ vm_Status r = vm_Status v).
    { specialize (H nameCollisionRetries vm w). destruct (retry_names _ vm w). exact H. }
    induction n as [|n IH]; intros v w1; cbn [retry_names]; unfold bind, gen_name_with_suffix, gen_name, consult; [done |].
    destruct (GetByName _ w1) as [[x|e] w2]; [|done]. match goal with |- context [retry_names n ?v' ?w'] => exact (IH v' w') end.
Qed.

(** C4: Create, on every branch, whichever statements and backend calls fail. It
    writes at most one row, under an id that was not in use, and no lease. When it
    succeeds the backend has created the VM, the row is ready and unbound, records
    the backend's id and the state returned to the caller, and one vm.created event
    was sent. When it fails nothing was written, or the new row, when the call
    returns, is provisioning or terminated and unbound, and no event was sent. *)
Theorem Create_spec envID conv prov name ws vcpu mem disk port (w : W) :
  match VMService.Create s envID conv prov name ws vcpu mem disk port w with
  | (Ok vm, w') => created w w' vm
  | (Err _, w') => not_created w w'
  end.
Proof.
  enough (H : triple (quiet w) (VMService.Create s envID conv prov name ws vcpu mem disk port) (fun r w' => match r with
    | Ok vm => created w w' vm | Err _ => not_created w w' end)).
  { specialize (H w (reflexivity w)). by destruct (VMService.Create s _ _ _ _ _ _ _ _ _ w) as [[?|?] ?]. }
  assert (Hq : forall e : error, triple (quiet w) (ret (Err e)) (fun r w' => match r with
    | Ok vm => created w w' vm | Err _ => not_created w w' end)) by (intros e w' H; by left).
  unfold VMService.Create. destruct (bool_decide (trim_space conv = "")); [apply Hq |]. cbv zeta.
  eapply triple_bind; [apply triple_quiet, quiet_read; unfold EnvGetByID; go_keeps |]. intros [env|e]; [|apply Hq].
  set (explicit := negb _). destruct (explicit && _); [apply Hq |].
  eapply triple_bind; [apply triple_quiet; eauto with keeps |]. intros id.
  eapply triple_bind; [apply triple_quiet; destruct explicit; go_keeps |]. intros gen.
  eapply triple_bind; [apply triple_quiet; eauto with keeps |]. intros t.
  eapply triple_bind_ok with (Q := fun r w' => quiet w w' /\ ok_val (fun v =>
    vm_ChatID v = None /\ vm_Status v = StatusProvisioning) r).
  { intros w' H. split; [by apply (triple_quiet w (resolveUniqueName _ _)); [apply quiet_resolveUniqueName |] |].
    match goal with |- ok_val _ (resolveUniqueName ?v ?b ?x).1 => pose proof (reads_unique v b x) as Hu;
      destruct (resolveUniqueName v b x).1; [|done] end. destruct Hu as (_ & E1 & E2). cbn. by rewrite E1, E2. }
  2: { intros e w' [H _]. by left. }
  intros v. apply triple_pure_r. intros [Hch Hst].
  eapply triple_bind_ok; [by apply triple_persist_new | | intros e w' H; by left].
  intros v'. apply triple_pure_r. intros Hn. by apply (triple_provision (vm_ID v')).
Qed.
End Create.

(** The row that a failed Create leaves behind is not kept out of use: when the last
    statement of Create fails, the row stays provisioning, and Unassign (or Stop, or
    GetRuntimeSnapshot of a stopped VM) makes it idle, after which it can be assigned. *)
Definition one_fault : World unit unit :=
  sample_world <| w_env := sample_env <| or_fault := fun n => if bool_decide (n = 11%nat) then Some (EText "connection refused") else None |> |>.
Definition failed_create : World unit unit := (VMService.Create sample_service "env-1" "chat-3" "" "" 0 None None None None one_fault).2.
Definition status_of (id : string) (w : World unit unit) : option Status := r_status <$> db_vms (w_db w) !! id.
Lemma failed_create_assignable :
  is_Ok (VMService.Create sample_service "env-1" "chat-3" "" "" 0 None None None None one_fault).1 = false /\
  status_of "uuid-1" failed_create = Some StatusProvisioning /\
  is_Ok (VMService.AssignToChat sample_service "uuid-1" "chat-3" failed_create).1 = false /\
  let unassigned := (VMService.Unassign sample_service "uuid-1" failed_create).2 in
  status_of "uuid-1" unassigned = Some StatusIdle /\
  is_Ok (VMService.AssignToChat sample_service "uuid-1" "chat-3" unassigned).1 = true.
Proof. vm_compute. repeat split. Qed.
