(* ===== verification/Json.v ===== *)
(** * encoding/json

    The JSON the services exchange: dynamic values (Go's [any] after decoding), the
    printer behind json.Marshal with its HTML-safe escaping and its treatment of
    invalid UTF-8, and a parser of the JSON grammar as json.Unmarshal accepts it.
    What is printed is read back. *)

From Stdlib Require Import Ascii.
From S2P Require Import Prelude.

(** ** Values *)

(** [any]: nil, bool, a number by its literal, string, []any, and an object by its
    members in the order they are printed or read. *)
#[warnings="-register-all"]
Inductive value : Type :=
| VNil
| VBool (b : bool)
| VNum (literal : string)
| VStr (s : string)
| VList (l : list value)
| VMap (m : list (string * value)).

Definition VInt (z : Z) : value := VNum (fmt_d z).

(** [m[key]], and [v.(string)], [v.(map[string]any)] with their comma-ok results. *)
Fixpoint alookup {A} (k : string) (m : list (string * A)) : option A :=
  match m with
  | [] => None
  | (k', v) :: m' => if bool_decide (k' = k) then Some v else alookup k m'
  end.
Definition as_string (v : option value) : option string := match v with Some (VStr s) => Some s | _ => None end.
Definition as_map (v : option value) : option (list (string * value)) := match v with Some (VMap m) => Some m | _ => None end.

(** ** UTF-8 *)

(** Number of bytes of the UTF-8 sequence that starts with these bytes, 0 if it is
    not valid; missing bytes are -1. *)
Definition cont (z : Z) : bool := bool_decide (128 <= z <= 191).
Definition seq_len (a b c d : Z) : nat :=
  if bool_decide (0 <= a <= 127) then 1
  else if bool_decide (194 <= a <= 223) then (if cont b then 2 else 0)
  else if bool_decide (a = 224) then (if bool_decide (160 <= b <= 191) && cont c then 3 else 0)
  else if bool_decide (a = 237) then (if bool_decide (128 <= b <= 159) && cont c then 3 else 0)
  else if bool_decide (225 <= a <= 239) then (if cont b && cont c then 3 else 0)
  else if bool_decide (a = 240) then (if bool_decide (144 <= b <= 191) && cont c && cont d then 4 else 0)
  else if bool_decide (241 <= a <= 243) then (if cont b && cont c && cont d then 4 else 0)
  else if bool_decide (a = 244) then (if bool_decide (128 <= b <= 143) && cont c && cont d then 4 else 0)
  else 0.
Definition rune_len (s : string) : nat := seq_len (byte_at s 0) (byte_at s 1) (byte_at s 2) (byte_at s 3).

(** [utf8.ValidString] *)
Fixpoint valid_fuel (fuel : nat) (s : string) : bool :=
  match fuel, s with
  | _, EmptyString => true
  | O, _ => false
  | S f, _ => match rune_len s with O => false | n => valid_fuel f (drop_str n s) end
  end.
Definition valid_utf8 (s : string) : bool := valid_fuel (str_len s) s.

(** The UTF-8 encoding of a code point below 0x110000. *)
Definition encode_rune (r : Z) : string :=
  if bool_decide (r < 128) then str1 (chr r)
  else if bool_decide (r < 2048) then String (chr (192 + r / 64)) (str1 (chr (128 + r mod 64)))
  else if bool_decide (r < 65536)
  then String (chr (224 + r / 4096)) (String (chr (128 + r / 64 mod 64)) (str1 (chr (128 + r mod 64))))
  else String (chr (240 + r / 262144)) (String (chr (128 + r / 4096 mod 64))
         (String (chr (128 + r / 64 mod 64)) (str1 (chr (128 + r mod 64))))).
Definition rune_error : string := encode_rune 65533.

(** ** Printing *)

Definition hex4 (z : Z) : string :=
  String (hex_digit (z / 4096)) (String (hex_digit (z / 256 mod 16))
    (String (hex_digit (z / 16 mod 16)) (str1 (hex_digit (z mod 16))))).
Definition esc_u (z : Z) : string := String (chr 92) (String "u"%char (hex4 z)).
Definition esc (c : ascii) : string := String (chr 92) (str1 c).

(** An ASCII byte inside a JSON string. *)
Definition quote_ascii (c : ascii) : string :=
  let z := code c in
  if bool_decide (z = 34) || bool_decide (z = 92) then esc c
  else if bool_decide (z = 8) then esc "b"%char
  else if bool_decide (z = 12) then esc "f"%char
  else if bool_decide (z = 10) then esc "n"%char
  else if bool_decide (z = 13) then esc "r"%char
  else if bool_decide (z = 9) then esc "t"%char
  else if bool_decide (z < 32) || bool_decide (z = 60) || bool_decide (z = 62) || bool_decide (z = 38) then esc_u z
  else str1 c.

(** U+2028 and U+2029 are escaped, invalid bytes become the escape of U+FFFD. *)
Fixpoint quote_fuel (fuel : nat) (s : string) : string :=
  match fuel, s with
  | O, _ | _, EmptyString => EmptyString
  | S f, String c s' =>
      match rune_len s with
      | O => esc_u 65533 +:+ quote_fuel f s'
      | 1%nat => quote_ascii c +:+ quote_fuel f s'
      | n =>
          if bool_decide (byte_at s 0 = 226) && bool_decide (byte_at s 1 = 128)
             && (bool_decide (byte_at s 2 = 168) || bool_decide (byte_at s 2 = 169))
          then esc_u (8192 + byte_at s 2 - 128) +:+ quote_fuel f (drop_str n s)
          else take_str n s +:+ quote_fuel f (drop_str n s)
      end
  end.
Definition quote (s : string) : string := dquote +:+ quote_fuel (str_len s) s +:+ dquote.

(** The members of an object are printed in the order of the list: the declaration
    order for a struct, the order of the keys for a map. *)
Fixpoint Marshal (v : value) : string :=
  match v with
  | VNil => "null"
  | VBool true => "true"
  | VBool false => "false"
  | VNum t => t
  | VStr s => quote s
  | VList l => "[" +:+ join "," (map Marshal l) +:+ "]"
  | VMap m =>
      "{" +:+ join "," (map (fun kv => quote (fst kv) +:+ ":" +:+ Marshal (snd kv)) m) +:+ "}"
  end.

(** ** Parsing *)

Definition is_ws (c : ascii) : bool :=
  let z := code c in bool_decide (z = 32) || bool_decide (z = 9) || bool_decide (z = 10) || bool_decide (z = 13).
Fixpoint skip_ws (s : string) : string :=
  match s with String c s' => if is_ws c then skip_ws s' else s | EmptyString => EmptyString end.

Definition is_digit (c : ascii) : bool := bool_decide (48 <= code c <= 57).
Fixpoint span_digits (s : string) : string * string :=
  match s with
  | String c s' => if is_digit c then let '(d, r) := span_digits s' in (String c d, r) else (EmptyString, s)
  | EmptyString => (EmptyString, EmptyString)
  end.
(** 0 | [1-9][0-9]* *)
Definition scan_int (s : string) : option (string * string) :=
  match s with
  | String c s' =>
      if bool_decide (code c = 48) then Some (str1 c, s')
      else if is_digit c then let '(d, r) := span_digits s' in Some (String c d, r) else None
  | EmptyString => None
  end.
Definition scan_frac (s : string) : option (string * string) :=
  match s with
  | String "."%char s' => match span_digits s' with
                     | (EmptyString, _) => None
                     | (d, r) => Some (String "."%char d, r)
                     end
  | _ => Some (EmptyString, s)
  end.
Definition scan_exp (s : string) : option (string * string) :=
  match s with
  | String e s' =>
      if bool_decide (code e = 101) || bool_decide (code e = 69) then
        let '(sign, s2) := match s' with
                           | String "+"%char t => (str1 "+"%char, t)
                           | String "-"%char t => (str1 "-"%char, t)
                           | _ => (EmptyString, s')
                           end in
        match span_digits s2 with
        | (EmptyString, _) => None
        | (d, r) => Some (String e (sign +:+ d), r)
        end
      else Some (EmptyString, s)
  | EmptyString => Some (EmptyString, EmptyString)
  end.
Definition scan_number (s : string) : option (string * string) :=
  let '(sign, s1) := match s with String "-"%char t => (str1 "-"%char, t) | _ => (EmptyString, s) end in
  match scan_int s1 with
  | None => None
  | Some (i, s2) =>
      match scan_frac s2 with
      | None => None
      | Some (f, s3) =>
          match scan_exp s3 with
          | None => None
          | Some (e, s4) => Some (sign +:+ i +:+ f +:+ e, s4)
          end
      end
  end.

Definition hex_val (c : ascii) : option Z :=
  let z := code c in
  if bool_decide (48 <= z <= 57) then Some (z - 48)
  else if bool_decide (97 <= z <= 102) then Some (z - 87)
  else if bool_decide (65 <= z <= 70) then Some (z - 55)
  else None.
Definition get_u4 (s : string) : option (Z * string) :=
  match s with
  | String a (String b (String c (String d r))) =>
      match hex_val a, hex_val b, hex_val c, hex_val d with
      | Some x, Some y, Some z, Some w => Some (x * 4096 + y * 256 + z * 16 + w, r)
      | _, _, _, _ => None
      end
  | _ => None
  end.

(** The escape after a backslash: the decoded text and the rest. *)
Definition unescape (s : string) : option (string * string) :=
  match s with
  | EmptyString => None
  | String c r =>
      let z := code c in
      if bool_decide (z = 34) || bool_decide (z = 92) || bool_decide (z = 47) then Some (str1 c, r)
      else if bool_decide (z = 98) then Some (str1 (chr 8), r)
      else if bool_decide (z = 102) then Some (str1 (chr 12), r)
      else if bool_decide (z = 110) then Some (str1 (chr 10), r)
      else if bool_decide (z = 114) then Some (str1 (chr 13), r)
      else if bool_decide (z = 116) then Some (str1 (chr 9), r)
      else if bool_decide (z = 117) then
        match get_u4 r with
        | None => None
        | Some (u, r) =>
            if bool_decide (55296 <= u <= 57343) then
              match r with
              | String b (String "u"%char r') =>
                  match (if bool_decide (code b = 92) then get_u4 r' else None) with
                  | Some (u2, r2) =>
                      if bool_decide (u <= 56319) && bool_decide (56320 <= u2 <= 57343)
                      then Some (encode_rune (65536 + (u - 55296) * 1024 + (u2 - 56320)), r2)
                      else Some (rune_error, r)
                  | None => Some (rune_error, r)
                  end
              | _ => Some (rune_error, r)
              end
            else Some (encode_rune u, r)
        end
      else None
  end.

(** After the opening quote, up to and including the closing one. *)
Fixpoint string_body (fuel : nat) (s : string) : option (string * string) :=
  match fuel, s with
  | O, _ | _, EmptyString => None
  | S f, String c s' =>
      let z := code c in
      if bool_decide (z = 34) then Some (EmptyString, s')
      else if bool_decide (z = 92) then
        match unescape s' with
        | Some (t, r) => match string_body f r with Some (u, r') => Some (t +:+ u, r') | None => None end
        | None => None
        end
      else if bool_decide (z < 32) then None
      else
        let '(t, r) := match rune_len s with O => (rune_error, s') | n => (take_str n s, drop_str n s) end in
        match string_body f r with Some (u, r') => Some (t +:+ u, r') | None => None end
  end.

Definition keyword (k : string) (v : value) (s : string) : option (value * string) :=
  if has_prefix k s then Some (v, drop_str (str_len k) s) else None.

(** The value at the head of [s]; every nested call has less to read. *)
Fixpoint parse_value (fuel : nat) (s : string) : option (value * string) :=
  match fuel with
  | O => None
  | S f =>
      match skip_ws s with
      | EmptyString => None
      | String c r as t =>
          let z := code c in
          if bool_decide (z = 34) then
            match string_body (str_len t) r with Some (x, r') => Some (VStr x, r') | None => None end
          else if bool_decide (z = 91) then
            match skip_ws r with
            | String "]"%char r' => Some (VList [], r')
            | _ => match parse_elems f r with Some (l, r') => Some (VList l, r') | None => None end
            end
          else if bool_decide (z = 123) then
            match skip_ws r with
            | String "}"%char r' => Some (VMap [], r')
            | _ => match parse_fields f r with Some (m, r') => Some (VMap m, r') | None => None end
            end
          else if bool_decide (z = 110) then keyword "null" VNil t
          else if bool_decide (z = 116) then keyword "true" (VBool true) t
          else if bool_decide (z = 102) then keyword "false" (VBool false) t
          else match scan_number t with Some (n, r') => Some (VNum n, r') | None => None end
      end
  end
with parse_elems (fuel : nat) (s : string) : option (list value * string) :=
  match fuel with
  | O => None
  | S f =>
      match parse_value f s with
      | None => None
      | Some (v, r) =>
          match skip_ws r with
          | String ","%char r' => match parse_elems f r' with Some (l, r2) => Some (v :: l, r2) | None => None end
          | String "]"%char r' => Some ([v], r')
          | _ => None
          end
      end
  end
with parse_fields (fuel : nat) (s : string) : option (list (string * value) * string) :=
  match fuel with
  | O => None
  | S f =>
      match skip_ws s with
      | String q r0 =>
          match (if bool_decide (code q = 34) then string_body (str_len s) r0 else None) with
          | None => None
          | Some (k, r) =>
              match skip_ws r with
              | String ":"%char r1 =>
                  match parse_value f r1 with
                  | None => None
                  | Some (v, r2) =>
                      match skip_ws r2 with
                      | String ","%char r' => match parse_fields f r' with
                                         | Some (m, r3) => Some ((k, v) :: m, r3)
                                         | None => None
                                         end
                      | String "}"%char r' => Some ([(k, v)], r')
                      | _ => None
                      end
                  end
              | _ => None
              end
          end
      | EmptyString => None
      end
  end.

(** json.Unmarshal into an [any]-shaped value: the whole text, trailing white space
    allowed. *)
Definition Unmarshal (s : string) : option value :=
  match parse_value (S (str_len s)) s with
  | Some (v, r) => if bool_decide (skip_ws r = EmptyString) then Some v else None
  | None => None
  end.

Example marshal_ex :
  Marshal (VMap [("a", VStr ("x<y" +:+ dquote)); ("b", VInt (-12)); ("c", VList [VNil; VBool true])]) =
  "{" +:+ dquote +:+ "a" +:+ dquote +:+ ":" +:+ dquote +:+ "x\u003cy\" +:+ dquote +:+ dquote +:+ "," +:+
  dquote +:+ "b" +:+ dquote +:+ ":-12," +:+ dquote +:+ "c" +:+ dquote +:+ ":[null,true]}".
Proof. vm_compute. reflexivity. Qed.

(** ** Reading a printed string back *)

Lemma rune_len_app s r : rune_len s <> O -> rune_len (s +:+ r) = rune_len s.
Proof.
  unfold rune_len. intros H.
  destruct s as [|a [|b [|c [|d s]]]]; [by destruct H | | | |]; try done; revert H;
    change (byte_at (String a _) 0) with (code a); unfold byte_at; cbn [String.get String.append];
    unfold seq_len, cont; repeat case_bool_decide; cbn [andb]; try done; try lia.
Qed.

Lemma rune_len_bound s : (rune_len s <= str_len s)%nat.
Proof.
  unfold rune_len, byte_at.
  destruct s as [|a [|b [|c [|d s]]]]; unfold str_len; cbn [String.get String.length];
    unfold seq_len, cont; repeat case_bool_decide; cbn [andb]; lia.
Qed.

Lemma rune_len_one c s : rune_len (String c s) = 1%nat -> code c < 128.
Proof.
  unfold rune_len. change (byte_at (String c s) 0) with (code c). unfold seq_len.
  pose proof (code_range c).
  repeat case_bool_decide; try lia; repeat match goal with |- context [if ?b then _ else _] => destruct b end; lia.
Qed.
Lemma rune_len_many c s n : rune_len (String c s) = S (S n) -> 194 <= code c.
Proof.
  unfold rune_len. change (byte_at (String c s) 0) with (code c). unfold seq_len.
  repeat case_bool_decide; try lia; repeat match goal with |- context [if ?b then _ else _] => destruct b end; lia.
Qed.

(** What the reader does with the text of one piece of the string. *)
Definition then_read (t : string) (k : option (string * string)) : option (string * string) :=
  match k with Some (u, r) => Some (t +:+ u, r) | None => None end.

Lemma string_body_ascii c t f :
  code c < 128 -> string_body (S f) (quote_ascii c +:+ t) = then_read (str1 c) (string_body f t).
Proof.
  destruct c as [[] [] [] [] [] [] [] []]; intros H; first [by vm_compute in H | reflexivity].
Qed.
Lemma quote_ascii_len c : (1 <= str_len (quote_ascii c))%nat.
Proof. destruct c as [[] [] [] [] [] [] [] []]; vm_compute; lia. Qed.

Lemma take_drop_str n s : (n <= str_len s)%nat -> take_str n s +:+ drop_str n s = s.
Proof.
  revert s. induction n as [|n IH]; intros [|c s] H; unfold str_len in *; simpl in *; try done; try lia.
  f_equal. apply IH. unfold str_len. lia.
Qed.
Lemma str_len_take n s : (n <= str_len s)%nat -> str_len (take_str n s) = n.
Proof.
  revert s. induction n as [|n IH]; intros [|c s] H; unfold str_len in *; simpl in *; try done; try lia.
  f_equal. apply IH. unfold str_len. lia.
Qed.

(** A sequence of several bytes is read as it is. *)
Lemma string_body_rune s t f n :
  rune_len s = S (S n) ->
  string_body (S f) (take_str (S (S n)) s +:+ t) = then_read (take_str (S (S n)) s) (string_body f t).
Proof.
  intros H. pose proof (rune_len_bound s) as Hb. rewrite H in Hb.
  assert (Hp : rune_len (take_str (S (S n)) s +:+ t) = S (S n)).
  { rewrite <- H at 2. rewrite <- (take_drop_str (S (S n)) s) at 2 by done.
    assert (Ht : rune_len (take_str (S (S n)) s) <> O); [| by rewrite !(rune_len_app _ _ Ht)].
    revert H Hb. unfold rune_len, byte_at.
    destruct s as [|a [|b [|c [|d s]]]]; unfold str_len; simpl String.length; try lia;
      destruct n as [|[|[|n]]]; cbn [take_str String.get]; unfold seq_len, cont;
      repeat case_bool_decide; cbn [andb]; try done; try lia. }
  destruct s as [|c s]; [by unfold str_len in Hb; simpl in Hb; lia |].
  pose proof (rune_len_many _ _ _ H) as Hc. remember (S n) as m eqn:Em.
  cbn [take_str String.append] in *. cbn [string_body].
  rewrite !bool_decide_eq_false_2 by lia. rewrite Hp. cbn [take_str drop_str].
  assert (Hl : str_len (take_str m s) = m) by (apply str_len_take; unfold str_len in *; simpl in Hb; lia).
  assert (Ht : take_str m (take_str m s +:+ t) = take_str m s) by (rewrite <- Hl at 1; apply take_str_app).
  assert (Hd : drop_str m (take_str m s +:+ t) = t) by (rewrite <- Hl at 1; apply drop_str_app).
  rewrite Ht, Hd. done.
Qed.

(** U+2028 and U+2029 come back from their escapes. *)
Lemma string_body_separator s t f :
  rune_len s = 3%nat -> byte_at s 0 = 226 -> byte_at s 1 = 128 -> byte_at s 2 = 168 \/ byte_at s 2 = 169 ->
  string_body (S f) (esc_u (8192 + byte_at s 2 - 128) +:+ t) = then_read (take_str 3 s) (string_body f t).
Proof.
  intros H H0 H1 H2. pose proof (rune_len_bound s) as Hb. rewrite H in Hb.
  destruct s as [|a [|b [|c s]]]; unfold str_len in Hb; simpl in Hb; try lia.
  unfold byte_at in *. cbn [String.get] in *. cbn [take_str].
  assert (forall x n, code x = Z.of_nat n -> x = ascii_of_nat n) as Hx.
  { intros x n Hc. rewrite <- (ascii_nat_embedding x). f_equal. unfold code in Hc. lia. }
  apply (Hx a 226%nat) in H0 as ->. apply (Hx b 128%nat) in H1 as ->.
  destruct H2 as [H2|H2]; [apply (Hx c 168%nat) in H2 as -> | apply (Hx c 169%nat) in H2 as ->]; reflexivity.
Qed.

Lemma valid_utf8_tail f s : valid_fuel f s = true -> s <> EmptyString ->
  rune_len s <> O /\ exists f', f = S f' /\ valid_fuel f' (drop_str (rune_len s) s) = true.
Proof.
  destruct f as [|f]; destruct s as [|c s]; cbn [valid_fuel]; try done. intros H _.
  destruct (rune_len (String c s)) eqn:E; [done |]. split; [done |]. exists f. done.
Qed.
Lemma drop_str_len n s : str_len (drop_str n s) = (str_len s - n)%nat.
Proof.
  revert s. induction n as [|n IH]; intros [|c s]; unfold str_len in *; simpl in *; try done; apply IH.
Qed.

(** The body of a printed string is at least as long as the string, and is read back. *)
Lemma quote_body_read f s : forall g, valid_fuel g s = true -> (str_len s <= f)%nat ->
  (str_len s <= str_len (quote_fuel f s))%nat /\
  forall r k, (str_len s < k)%nat ->
    string_body k (quote_fuel f s +:+ String (chr 34) r) = Some (s, r).
Proof.
  revert s. induction f as [|f IH]; intros s g Hv Hf.
  { destruct s; [| unfold str_len in Hf; simpl in Hf; lia]. split; [done |]. intros r [|k] Hk; [unfold str_len in Hk; simpl in Hk; lia | done]. }
  destruct s as [|c s]. { split; [done |]. intros r [|k] Hk; [unfold str_len in Hk; simpl in Hk; lia | done]. }
  destruct (valid_utf8_tail _ _ Hv ltac:(done)) as (Hn & g' & -> & Hv').
  cbn [quote_fuel]. pose proof (rune_len_bound (String c s)) as Hb.
  destruct (rune_len (String c s)) as [|[|n]] eqn:E; [done | |].
  - cbn [drop_str] in Hv'.
    destruct (IH s g' Hv' ltac:(unfold str_len in *; simpl in Hf; lia)) as [Hl Hr].
    pose proof (quote_ascii_len c). split; [rewrite str_len_app; unfold str_len in *; simpl; lia |].
    intros r [|k] Hk; [lia |]. rewrite append_assoc, string_body_ascii by (by eapply rune_len_one).
    rewrite Hr by (unfold str_len in *; simpl in Hk; lia). done.
  - set (s0 := String c s) in *. set (rest := drop_str (S (S n)) s0) in *.
    assert (Hrest : str_len rest = (str_len s0 - S (S n))%nat) by apply drop_str_len.
    destruct (IH rest g' Hv' ltac:(lia)) as [Hl Hr].
    pose proof (take_drop_str (S (S n)) s0 ltac:(lia)) as Hs. fold rest in Hs.
    destruct (_ && _ && _) eqn:Esep.
    + apply andb_true_iff in Esep as [Esep H2]. apply andb_true_iff in Esep as [H0 H1].
      apply bool_decide_eq_true_1 in H0, H1.
      assert (H2' : byte_at s0 2 = 168 \/ byte_at s0 2 = 169).
      { apply orb_true_iff in H2 as [H2|H2]; apply bool_decide_eq_true_1 in H2; auto. }
      assert (n = 1%nat) as ->.
      { revert E. unfold rune_len. rewrite H0, H1. destruct H2' as [-> | ->]; vm_compute; congruence. }
      split; [rewrite str_len_app; assert (str_len (esc_u (8192 + byte_at s0 2 - 128)) = 6%nat) by done; lia |].
      intros r [|k] Hk; [lia |]. rewrite append_assoc, string_body_separator by done.
      rewrite Hr by lia. unfold then_read. by rewrite Hs.
    + split; [rewrite str_len_app, str_len_take by lia; lia |].
      intros r [|k] Hk; [lia |]. rewrite append_assoc, string_body_rune by done.
      rewrite Hr by lia. unfold then_read. by rewrite Hs.
Qed.

(** ** Reading a printed integer back *)

(** The number a string of decimal digits stands for, after [acc]. *)
Fixpoint dec_val (acc : Z) (s : string) : Z :=
  match s with EmptyString => acc | String c s' => dec_val (acc * 10 + (code c - 48)) s' end.

(** strconv.ParseInt(s, 10, 64) on a JSON number literal: an optional sign and digits,
    within the range of int64. *)
Definition parse_digits (s : string) : option Z :=
  if negb (bool_decide (s = EmptyString)) && all_bytes is_digit s then Some (dec_val 0 s) else None.
Definition parse_int (s : string) : option Z :=
  let z := match s with
           | String "-"%char t => Z.opp <$> parse_digits t
           | _ => parse_digits s
           end in
  match z with Some x => if bool_decide (i64 x = x) then Some x else None | None => None end.

Lemma dec_val_app a b acc : dec_val acc (a +:+ b) = dec_val (dec_val acc a) b.
Proof. revert acc. induction a as [|c a IH]; intros acc; simpl; [done | apply IH]. Qed.

Lemma pretty_char_digit x : (x < 10)%N ->
  is_digit (pretty_N_char x) = true /\ code (pretty_N_char x) = 48 + Z.of_N x.
Proof.
  intros H. assert (x = 0 \/ x = 1 \/ x = 2 \/ x = 3 \/ x = 4 \/ x = 5 \/ x = 6 \/ x = 7 \/ x = 8 \/ x = 9)%N as Hx by lia.
  destruct Hx as [->|[->|[->|[->|[->|[->|[->|[->|[->| ->]]]]]]]]]; done.
Qed.

(** The digits of a positive number: no leading zero, and its value. *)
Lemma pretty_N_go_digits x : (0 < x)%N -> forall s, exists c d,
  pretty_N_go x s = String c d +:+ s /\ is_digit c = true /\ code c <> 48 /\
  all_bytes is_digit d = true /\ dec_val 0 (String c d) = Z.of_N x.
Proof.
  induction (N.lt_wf_0 x) as [x _ IH]. intros Hx s. rewrite pretty_N_go_step by done.
  pose proof (N.mod_lt x 10 ltac:(done)) as Hm. pose proof (N.div_mod x 10 ltac:(done)) as Hdm.
  destruct (pretty_char_digit _ Hm) as [Hd Hc].
  destruct (decide (x / 10 = 0)%N) as [Hz|Hz].
  - exists (pretty_N_char (x `mod` 10)), EmptyString. rewrite Hz, pretty_N_go_0.
    split; [done |]. split; [done |]. split; [lia |]. split; [done |]. simpl. lia.
  - destruct (IH (x / 10)%N (N.div_lt x 10 Hx eq_refl) ltac:(lia) (String (pretty_N_char (x `mod` 10)) s))
      as (c & d & -> & H1 & H2 & H3 & H4).
    exists c, (d +:+ str1 (pretty_N_char (x `mod` 10))). split; [simpl; by rewrite append_assoc |].
    split; [done |]. split; [done |]. split; [rewrite all_bytes_app, H3; simpl; by rewrite Hd |].
    change (String c (d +:+ str1 _)) with (String c d +:+ str1 (pretty_N_char (x `mod` 10))).
    rewrite dec_val_app, H4. simpl. lia.
Qed.

(** What may follow a number: its end is seen. *)
Definition ends_number (r : string) : Prop :=
  match r with EmptyString => True | String c _ => c ∈ [","%char; "]"%char; "}"%char; chr 10] end.

Lemma span_digits_app d r : all_bytes is_digit d = true -> ends_number r -> span_digits (d +:+ r) = (d, r).
Proof.
  intros Hd Hr. induction d as [|c d IH]; simpl in *.
  - destruct r as [|c r]; [done |]. simpl in *. 
    rewrite !elem_of_cons, elem_of_nil in Hr. by destruct Hr as [->|[->|[->|[->|[]]]]].
  - apply andb_true_iff in Hd as [-> Hd]. by rewrite IH.
Qed.

Lemma ends_scan r : ends_number r -> scan_frac r = Some (EmptyString, r) /\ scan_exp r = Some (EmptyString, r).
Proof.
  destruct r as [|c r]; [done |]. simpl. rewrite !elem_of_cons, elem_of_nil.
  by intros [->|[->|[->|[->|[]]]]].
Qed.

(** The shape of a printed integer. *)
Lemma fmt_d_shape z : exists neg c d,
  fmt_d z = (if neg : bool then "-" else EmptyString) +:+ String c d /\ is_digit c = true /\
  (code c = 48 -> d = EmptyString) /\ all_bytes is_digit d = true /\
  dec_val 0 (String c d) = (if neg then - z else z).
Proof.
  assert (Hpos : forall p, exists c d, pretty (N.pos p) = String c d /\ is_digit c = true /\ code c <> 48 /\
            all_bytes is_digit d = true /\ dec_val 0 (String c d) = Z.pos p).
  { intros p. destruct (pretty_N_go_digits (N.pos p) ltac:(done) EmptyString) as (c & d & E & H).
    exists c, d. split; [| done]. unfold pretty, pretty_N. rewrite decide_False by done. by rewrite E, append_nil_r. }
  destruct z as [|p|p].
  - exists false, "0"%char, EmptyString. done.
  - destruct (Hpos p) as (c & d & E & H1 & H2 & H3 & H4). exists false, c, d.
    split; [exact E |]. split_and!; try done.
  - destruct (Hpos p) as (c & d & E & H1 & H2 & H3 & H4). exists true, c, d.
    split; [unfold fmt_d, pretty at 1; simpl; f_equal; exact E |]. split_and!; try done.
Qed.

Lemma scan_number_fmt z r : ends_number r -> scan_number (fmt_d z +:+ r) = Some (fmt_d z, r).
Proof.
  intros Hr. destruct (fmt_d_shape z) as (neg & c & d & -> & Hc & Hz & Hd & _).
  assert (Hi : scan_int (String c d +:+ r) = Some (String c d, r)).
  { simpl. case_bool_decide as H48; [by rewrite Hz |]. by rewrite Hc, span_digits_app. }
  destruct (ends_scan _ Hr) as [Hf He]. unfold scan_number.
  destruct neg; cbn [String.append] in *.
  - rewrite Hi, Hf, He. cbn. by rewrite !append_nil_r.
  - assert (Hm : match String c (d +:+ r) with String "-"%char t => (str1 "-"%char, t) | _ => (EmptyString, String c (d +:+ r)) end
                 = (EmptyString, String c (d +:+ r))).
    { simpl. revert Hc. clear. destruct c as [[] [] [] [] [] [] [] []]; done. }
    rewrite Hm, Hi, Hf, He. cbn. by rewrite !append_nil_r.
Qed.

Lemma parse_int_fmt z : i64 z = z -> parse_int (fmt_d z) = Some z.
Proof.
  intros Hz. destruct (fmt_d_shape z) as (neg & c & d & -> & Hc & _ & Hd & Hv). unfold parse_int.
  assert (Hp : parse_digits (String c d) = Some (if neg then - z else z)).
  { unfold parse_digits. simpl. rewrite Hc, Hd. simpl. by rewrite <- Hv. }
  destruct neg; cbn [String.append].
  - rewrite Hp. simpl. rewrite Z.opp_involutive. by rewrite bool_decide_eq_true_2.
  - assert (Hm : match String c d with String "-"%char t => Z.opp <$> parse_digits t | _ => parse_digits (String c d) end
                 = Some z).
    { rewrite <- Hp. revert Hc. clear. destruct c as [[] [] [] [] [] [] [] []]; done. }
    change (EmptyString +:+ String c d) with (String c d). rewrite Hm. by rewrite bool_decide_eq_true_2.
Qed.

(** ** Reading a printed value back *)

(** Values whose strings are UTF-8 and whose numbers are integers. *)
Fixpoint printable (v : value) : Prop :=
  match v with
  | VNum t => exists z, t = fmt_d z
  | VStr s => valid_utf8 s = true
  | VList l => fold_right (fun x P => printable x /\ P) True l
  | VMap m => fold_right (fun kv P => (valid_utf8 (fst kv) = true /\ printable (snd kv)) /\ P) True m
  | _ => True
  end.

Section value_rect.
Context (P : value -> Prop).
Hypothesis HNil : P VNil.
Hypothesis HBool : forall b, P (VBool b).
Hypothesis HNum : forall t, P (VNum t).
Hypothesis HStr : forall s, P (VStr s).
Hypothesis HList : forall l, Forall P l -> P (VList l).
Hypothesis HMap : forall m, Forall (fun kv => P (snd kv)) m -> P (VMap m).
Fixpoint value_nested_ind (v : value) : P v :=
  match v with
  | VNil => HNil
  | VBool b => HBool b
  | VNum t => HNum t
  | VStr s => HStr s
  | VList l => HList l ((fix go l : Forall P l :=
                           match l with [] => Forall_nil_2 _ | x :: l' => Forall_cons_2 _ _ _ (value_nested_ind x) (go l') end) l)
  | VMap m => HMap m ((fix go m : Forall (fun kv : string * value => P (snd kv)) m :=
                           match m with
                           | [] => Forall_nil_2 _
                           | kv :: m' => Forall_cons_2 _ _ _ (value_nested_ind (snd kv)) (go m')
                           end) m)
  end.
End value_rect.

Lemma skip_ws_head c s : is_ws c = false -> skip_ws (String c s) = String c s.
Proof. intros H. simpl. by rewrite H. Qed.

Lemma not_bracket {A} x c s (a : string -> A) (b : A) :
  x = String c s -> c <> "]"%char -> match x with String "]"%char r => a r | _ => b end = b.
Proof. intros ->. destruct c as [[] [] [] [] [] [] [] []]; intros H; done. Qed.
Lemma not_brace {A} x c s (a : string -> A) (b : A) :
  x = String c s -> c <> "}"%char -> match x with String "}"%char r => a r | _ => b end = b.
Proof. intros ->. destruct c as [[] [] [] [] [] [] [] []]; intros H; done. Qed.

Lemma fmt_d_head z : exists c t, fmt_d z = String c t /\ (code c = 45 \/ 48 <= code c <= 57).
Proof.
  destruct (fmt_d_shape z) as (neg & c & d & -> & Hc & _). apply bool_decide_eq_true_1 in Hc.
  destruct neg; [exists "-"%char, (String c d) | exists c, d]; split; try done; [by left | by right].
Qed.

(** No printed value starts with white space or a closing bracket. *)
Lemma Marshal_head v : printable v -> exists c t, Marshal v = String c t /\ is_ws c = false /\ c <> "]"%char.
Proof.
  destruct v as [|[]|t|s|l|m]; simpl; intros Hp; try by eauto.
  - destruct Hp as [z ->]. destruct (fmt_d_head z) as (c & t & -> & Hc). exists c, t. split; [done |].
    split; [unfold is_ws; rewrite !bool_decide_eq_false_2 by lia; done |].
    intros ->. change (code "]"%char) with 93 in Hc. lia.
Qed.

Lemma read_quoted s r k : valid_utf8 s = true -> (str_len (quote s) <= k)%nat ->
  string_body k (quote_fuel (str_len s) s +:+ String (chr 34) r) = Some (s, r).
Proof.
  intros Hv Hk. destruct (quote_body_read (str_len s) s _ Hv ltac:(done)) as [Hl Hr]. apply Hr.
  unfold quote in Hk. rewrite !str_len_app in Hk. unfold str_len in *. simpl in Hk. lia.
Qed.
Lemma quote_app s r : quote s +:+ r = String (chr 34) (quote_fuel (str_len s) s +:+ String (chr 34) r).
Proof. unfold quote, dquote. cbn [str1 String.append]. by rewrite append_assoc. Qed.

Definition reads_back (v : value) : Prop :=
  forall fuel r, (str_len (Marshal v) < fuel)%nat -> ends_number r ->
    parse_value fuel (Marshal v +:+ r) = Some (v, r).

Lemma parse_elems_join l : l <> [] -> Forall (fun v => printable v /\ reads_back v) l ->
  forall fuel r, (S (str_len (join "," (map Marshal l))) < fuel)%nat ->
    parse_elems fuel (join "," (map Marshal l) +:+ String "]" r) = Some (l, r).
Proof.
  intros Hne Hl. induction Hl as [|v l [Hp Hv] Hl IH]; [done |]. intros [|f] r Hf; [lia |].
  destruct l as [|v' l].
  - cbn [map join] in *. cbn [parse_elems]. rewrite Hv; [done | lia | simpl; set_solver].
  - specialize (IH ltac:(done)). cbn [map] in *.
    set (rest := join "," (Marshal v' :: map Marshal l)) in *.
    change (join "," (Marshal v :: Marshal v' :: map Marshal l)) with (Marshal v +:+ "," +:+ rest) in *.
    rewrite !str_len_app in Hf. change (str_len ",") with 1%nat in Hf.
    rewrite !append_assoc. cbn [parse_elems]. rewrite Hv; [| lia | simpl; set_solver].
    cbn [String.append]. rewrite skip_ws_head by done. rewrite IH; [done | lia].
Qed.

Definition member (kv : string * value) : string := quote (fst kv) +:+ ":" +:+ Marshal (snd kv).

Lemma parse_fields_join m : m <> [] ->
  Forall (fun kv => valid_utf8 (fst kv) = true /\ reads_back (snd kv)) m ->
  forall fuel r, (S (str_len (join "," (map member m))) < fuel)%nat ->
    parse_fields fuel (join "," (map member m) +:+ String "}" r) = Some (m, r).
Proof.
  intros Hne Hm. induction Hm as [|[k v] m [Hk Hv] Hm IH]; [done |]. intros [|f] r Hf; [lia |]. simpl in Hk, Hv.
  assert (Hone : forall s, (str_len (member (k, v)) < f)%nat ->
    parse_fields (S f) (member (k, v) +:+ s) =
    match parse_value f (Marshal v +:+ s) with
    | None => None
    | Some (v, r2) => match skip_ws r2 with
                      | String ","%char r' => match parse_fields f r' with Some (m, r3) => Some ((k, v) :: m, r3) | None => None end
                      | String "}"%char r' => Some ([(k, v)], r')
                      | _ => None
                      end
    end).
  { intros s Hs. unfold member. cbn [fst snd]. rewrite !append_assoc, quote_app. cbn [parse_fields].
    rewrite skip_ws_head by done. change (code (chr 34)) with 34. rewrite bool_decide_eq_true_2 by done.
    rewrite read_quoted; [| done | rewrite <- quote_app, str_len_app; lia].
    cbn [String.append]. by rewrite skip_ws_head. }
  destruct m as [|kv m].
  - cbn [map join] in *. rewrite Hone by lia. unfold member in Hf. rewrite !str_len_app in Hf. simpl in Hf.
    rewrite Hv; [done | lia | simpl; set_solver].
  - specialize (IH ltac:(done)). cbn [map] in *.
    set (rest := join "," (member kv :: map member m)) in *.
    change (join "," (member (k, v) :: member kv :: map member m)) with (member (k, v) +:+ "," +:+ rest) in *.
    rewrite !str_len_app in Hf. change (str_len ",") with 1%nat in Hf.
    rewrite !append_assoc. rewrite Hone by lia. unfold member in Hf at 1. rewrite !str_len_app in Hf. simpl fst in Hf. simpl snd in Hf.
    rewrite Hv; [| lia | simpl; set_solver].
    cbn [String.append]. rewrite skip_ws_head by done. rewrite IH; [done | lia].
Qed.

Lemma join_head l r : l <> [] -> Forall printable l ->
  exists c t, join "," (map Marshal l) +:+ r = String c t /\ is_ws c = false /\ c <> "]"%char.
Proof.
  intros Hne Hl. destruct l as [|v l]; [done |]. inversion_clear Hl as [|?? Hv _].
  destruct (Marshal_head _ Hv) as (c & t & E & Hc). destruct l as [|v' l]; cbn [map join]; rewrite E; simpl; eauto.
Qed.

Lemma Marshal_list l : Marshal (VList l) = "[" +:+ join "," (map Marshal l) +:+ "]".
Proof. reflexivity. Qed.
Lemma Marshal_map m : Marshal (VMap m) = "{" +:+ join "," (map member m) +:+ "}".
Proof. reflexivity. Qed.

Theorem parse_Marshal v : printable v -> reads_back v.
Proof.
  induction v as [|b|t|s|l IH|m IH] using value_nested_ind; intros Hp [|f] r Hf Hr; try (simpl in Hf; lia).
  - done.
  - by destruct b.
  - destruct Hp as [z ->]. simpl Marshal. destruct (fmt_d_head z) as (c & t & E & Hc).
    pose proof (scan_number_fmt z r Hr) as Hs. rewrite E in *. cbn [String.append] in *. cbn [parse_value].
    rewrite skip_ws_head by (unfold is_ws; rewrite !bool_decide_eq_false_2 by lia; done).
    rewrite !bool_decide_eq_false_2 by lia. by rewrite Hs.
  - simpl Marshal in *. rewrite quote_app. cbn [parse_value]. rewrite skip_ws_head by done.
    change (code (chr 34)) with 34. rewrite bool_decide_eq_true_2 by done.
    rewrite read_quoted; [done | exact Hp | rewrite <- quote_app, str_len_app; lia].
  - assert (Hl : Forall (fun v => printable v /\ reads_back v) l).
    { clear -IH Hp. induction IH as [|v l Hv _ IHl]; [done |]. destruct Hp as [H1 H2]. constructor; [auto | by apply IHl]. }
    destruct (decide (l = [])) as [->|Hne]; [done |].
    rewrite Marshal_list in Hf |- *. rewrite !str_len_app in Hf. change (str_len "[") with 1%nat in Hf. change (str_len "]") with 1%nat in Hf.
    rewrite !append_assoc. cbn [String.append]. cbn [parse_value]. rewrite skip_ws_head by done. cbn [code].
    destruct (join_head l (String "]" r) Hne) as (c & t & E & Hws & Hb); [by eapply Forall_impl; [exact Hl | intros ? []] |].
    pose proof (parse_elems_join l Hne Hl f r ltac:(lia)) as He. rewrite E in *.
    rewrite skip_ws_head by done. etransitivity; [exact (not_bracket (String c t) c t (fun r' => Some (VList [], r')) _ eq_refl Hb) |]. by rewrite He.
  - assert (Hm : Forall (fun kv => valid_utf8 (fst kv) = true /\ reads_back (snd kv)) m).
    { clear -IH Hp. induction IH as [|v m Hv _ IHm]; [done |]. destruct Hp as [[H0 H1] H2]. constructor; [auto | by apply IHm]. }
    destruct (decide (m = [])) as [->|Hne]; [done |].
    rewrite Marshal_map in Hf |- *. rewrite !str_len_app in Hf. change (str_len "{") with 1%nat in Hf. change (str_len "}") with 1%nat in Hf.
    rewrite !append_assoc. cbn [String.append]. cbn [parse_value]. rewrite skip_ws_head by done.
    pose proof (parse_fields_join m Hne Hm f r ltac:(lia)) as He.
    assert (exists t, join "," (map member m) +:+ String "}" r = String (chr 34) t) as [t E].
    { destruct m as [|kv [|kv' m]]; [done | |]; cbn [map join]; unfold member at 1; rewrite !append_assoc, quote_app; eauto. }
    cbn [String.append] in *. rewrite E in *.
    rewrite skip_ws_head by done. etransitivity; [exact (not_brace (String (chr 34) t) _ t (fun r' => Some (VMap [], r')) _ eq_refl ltac:(done)) |]. by rewrite He.
Qed.

(** json.Unmarshal reads back what json.Marshal wrote. *)
Corollary Unmarshal_Marshal v : printable v -> Unmarshal (Marshal v) = Some v.
Proof.
  intros H. unfold Unmarshal. rewrite <- (append_nil_r (Marshal v)) at 2.
  by rewrite (parse_Marshal v H) by (done || lia).
Qed.

(** ASCII text is UTF-8. *)
Lemma ascii_utf8 s : all_bytes is_ascii s = true -> valid_utf8 s = true.
Proof.
  unfold valid_utf8. induction s as [|c s IH]; intros H; [done |]. cbn in H. apply andb_prop in H as [Hc Hs].
  assert (E : rune_len (String c s) = 1%nat).
  { unfold rune_len. cbn. unfold is_ascii in Hc. apply bool_decide_eq_true in Hc. unfold seq_len.
    rewrite bool_decide_eq_true_2; [done |]. pose proof (code_range c). lia. }
  cbn [str_len valid_fuel]. cbn. rewrite E. cbn. apply IH, Hs.
Qed.
