(* ===== verification/Encoding.v ===== *)
(** * encoding/base64 and time, as the HTTP layer uses them

    The URL alphabet of base64 and the RFC 3339 format of instants, with their round trips. *)

From Stdlib Require Import Ascii.
From S2P Require Import Prelude Exception Naming GoLib Domain Json.

Local Open Scope go_scope.

(** ** base64.URLEncoding *)

Definition url_digit (v : Z) : ascii :=
  chr (if bool_decide (v < 26) then v + 65 else if bool_decide (v < 52) then v + 71 else if bool_decide (v < 62) then v - 4
       else if bool_decide (v = 62) then 45 else 95).
Fixpoint b64_url_encode (s : string) : string :=
  match s with
  | String a (String b (String c t)) =>
      String (url_digit (code a / 4)) (String (url_digit (code a mod 4 * 16 + code b / 16))
        (String (url_digit (code b mod 16 * 4 + code c / 64)) (String (url_digit (code c mod 64)) (b64_url_encode t))))
  | String a (String b EmptyString) =>
      String (url_digit (code a / 4)) (String (url_digit (code a mod 4 * 16 + code b / 16))
        (String (url_digit (code b mod 16 * 4)) "="))
  | String a EmptyString => String (url_digit (code a / 4)) (String (url_digit (code a mod 4 * 16)) "==")
  | EmptyString => ""
  end.
(** The standard digit of the same value; the bytes that are no URL digits to one that is
    none in the standard alphabet. *)
Definition std_digit (c : ascii) : ascii :=
  let z := code c in
  if bool_decide (z = 45) then chr 43 else if bool_decide (z = 95) then chr 47
  else if bool_decide (z = 43 \/ z = 47) then chr 42 else c.
Fixpoint map_str (f : ascii -> ascii) (s : string) : string :=
  match s with EmptyString => "" | String c t => String (f c) (map_str f t) end.
Definition b64_url_decode (s : string) : res string := DecodeString (map_str std_digit s).

(** *** What was encoded is decoded *)

Lemma digit_value v : 0 <= v < 64 -> b64_value (std_digit (url_digit v)) = Some v.
Proof.
  intros H. assert (E : forallb (fun n => bool_decide (b64_value (std_digit (url_digit (Z.of_nat n))) = Some (Z.of_nat n))) (List.seq 0 64) = true)
    by (vm_compute; reflexivity).
  rewrite forallb_forall in E. specialize (E (Z.to_nat v)). rewrite Z2Nat.id in E by lia.
  eapply bool_decide_eq_true_1, E, in_seq. lia.
Qed.
Lemma chr_code c z : z = code c -> chr z = c.
Proof. intros ->. destruct c as [[] [] [] [] [] [] [] []]; reflexivity. Qed.

Lemma quantum a b c : 
  b64_bytes [code a / 4; code a mod 4 * 16 + code b / 16; code b mod 16 * 4 + code c / 64; code c mod 64] = String a (String b (str1 c)).
Proof.
  pose proof (code_range a). pose proof (code_range b). pose proof (code_range c). unfold b64_bytes, str1.
  f_equal; [| f_equal; [| f_equal]]; apply chr_code.
  - rewrite Z.div_add_l by done. rewrite (Z.div_small (code b / 16)) by (split; [apply Z.div_pos | apply Z.div_lt_upper_bound]; lia).
    pose proof (Z.div_mod (code a) 4). rewrite Z.mod_small; lia.
  - rewrite (Z.div_add_l (code b mod 16) 4) by done. rewrite (Z.div_small (code c / 64)) by (split; [apply Z.div_pos | apply Z.div_lt_upper_bound]; lia).
    symmetry. apply (Z.mod_unique _ _ (code a mod 4)); [by left |]. pose proof (Z.div_mod (code b) 16). lia.
  - symmetry. apply (Z.mod_unique _ _ (code b mod 16)); [by left |]. pose proof (Z.div_mod (code c) 64). lia.
Qed.
Lemma quantum_2 a b : b64_bytes [code a / 4; code a mod 4 * 16 + code b / 16; code b mod 16 * 4] = String a (str1 b).
Proof.
  pose proof (quantum a b (chr 0)) as H. change (code (chr 0)) with 0 in H. change (0 / 64) with 0 in H. rewrite Z.add_0_r in H.
  unfold b64_bytes, str1 in *. congruence.
Qed.
Lemma quantum_1 a : b64_bytes [code a / 4; code a mod 4 * 16] = str1 a.
Proof.
  pose proof (quantum_2 a (chr 0)) as H. change (code (chr 0)) with 0 in H. change (0 / 16) with 0 in H. rewrite Z.add_0_r in H.
  unfold b64_bytes, str1 in *. congruence.
Qed.

Lemma decode_digit v digits si t : 0 <= v < 64 -> (length digits < 3)%nat ->
  b64_decode digits si (String (std_digit (url_digit v)) t) = b64_decode (digits ++ [v]) (si + 1) t.
Proof. intros Hv Hd. cbn [b64_decode]. rewrite digit_value by done. destruct digits as [|x [|y [|z [|]]]]; try done; cbn in Hd; lia. Qed.
Lemma decode_last x y z v si t : 0 <= v < 64 ->
  b64_decode [x; y; z] si (String (std_digit (url_digit v)) t) =
  match b64_decode [] (si + 1) t with Ok rest => Ok (b64_bytes [x; y; z; v] +:+ rest) | Err e => Err e end.
Proof. intros Hv. cbn [b64_decode]. by rewrite digit_value. Qed.

Lemma digits_of c : 0 <= code c / 4 < 64 /\ 0 <= code c / 16 < 16 /\ 0 <= code c / 64 < 4 /\
  0 <= code c mod 4 < 4 /\ 0 <= code c mod 16 < 16 /\ 0 <= code c mod 64 < 64.
Proof.
  pose proof (code_range c). split_and!; try (apply Z.div_pos; lia); try (apply Z.div_lt_upper_bound; lia); apply Z.mod_pos_bound; lia.
Qed.
Lemma b64_url_roundtrip_at n s si : (str_len s <= n)%nat -> b64_decode [] si (map_str std_digit (b64_url_encode s)) = Ok s.
Proof.
  revert s si. induction n as [|n IH]; intros s si Hn.
  - destruct s; [done | cbn in Hn; lia].
  - destruct s as [|a [|b [|c t]]]; [done | | |]; cbn [b64_url_encode map_str].
    + pose proof (digits_of a) as (? & ? & ? & ? & ? & ?). rewrite !decode_digit by (done || lia || (cbn; lia)). 
      change (String a EmptyString) with (str1 a). rewrite <- (quantum_1 a). reflexivity.
    + pose proof (digits_of a) as (? & ? & ? & ? & ? & ?). pose proof (digits_of b) as (? & ? & ? & ? & ? & ?).
      rewrite !decode_digit by (done || lia || (cbn; lia)). 
      change (String b EmptyString) with (str1 b). rewrite <- (quantum_2 a b). reflexivity.
    + pose proof (digits_of a) as (? & ? & ? & ? & ? & ?). pose proof (digits_of b) as (? & ? & ? & ? & ? & ?).
      pose proof (digits_of c) as (? & ? & ? & ? & ? & ?).
      rewrite !decode_digit by (done || lia || (cbn; lia)). cbn [app]. rewrite decode_last by lia. rewrite IH; [by rewrite quantum |]. unfold str_len in *. cbn in Hn. lia.
Qed.
Lemma b64_url_roundtrip s : b64_url_decode (b64_url_encode s) = Ok s.
Proof. by apply (b64_url_roundtrip_at (str_len s)). Qed.

(** ** Instants in RFC 3339 *)

(** time.Time as encoding/json writes it: RFC 3339 with the nanoseconds that are not zero. *)
Definition trim_zeros (s : string) : string :=
  (fix go (n : nat) (s : string) := match n with
     | O => s
     | Datatypes.S n' => if has_suffix s "0" then go n' (trim_suffix s "0") else s
     end) (str_len s) s.
Definition rfc3339nano (t : Z) : string :=
  let secs := t / second in
  let '(y, m, d) := civil (secs / 86400) in
  let sod := secs mod 86400 in
  let frac := trim_zeros (pad 9 (t mod second)) in
  pad 4 y +:+ "-" +:+ pad 2 m +:+ "-" +:+ pad 2 d +:+ "T"
  +:+ pad 2 (sod / 3600) +:+ ":" +:+ pad 2 (sod / 60 mod 60) +:+ ":" +:+ pad 2 (sod mod 60)
  +:+ (if bool_decide (frac = "") then "" else "." +:+ frac) +:+ "Z".

Example stamp_epoch_json : rfc3339nano (719162 * 86400 * second + 3661 * second + 120000000) = "1970-01-01T01:01:01.12Z".
Proof. reflexivity. Qed.

(** *** Parsing (parseRFC3339 of package time) *)

(** The day of a date, in days after 0001-01-01: the inverse of [civil]. *)
Definition days_of_civil (y m d : Z) : Z :=
  let y := if bool_decide (m <= 2) then y - 1 else y in
  let doy := (153 * (m + (if bool_decide (2 < m) then -3 else 9)) + 2) / 5 + d - 1 in
  let yoe := y mod 400 in
  y / 400 * 146097 + (yoe * 365 + yoe / 4 - yoe / 100 + doy) - 306.
Definition isLeap (y : Z) : bool :=
  bool_decide (y mod 4 = 0) && (negb (bool_decide (y mod 100 = 0)) || bool_decide (y mod 400 = 0)).
Definition daysIn (m y : Z) : Z :=
  if bool_decide (m = 2) then (if isLeap y then 29 else 28)
  else if bool_decide (m = 4 \/ m = 6 \/ m = 9 \/ m = 11) then 30 else 31.

(** A field of [w] digits between bounds, and a separator. *)
Definition read_num (w : nat) (lo hi : Z) (s : string) : option (Z * string) :=
  let t := take_str w s in
  if bool_decide (str_len t = w) && all_bytes is_digit t && bool_decide (lo <= dec_val 0 t <= hi)
  then Some (dec_val 0 t, drop_str w s) else None.
Definition read_char (c : ascii) (s : string) : option string :=
  match s with String c' t => if bool_decide (c' = c) then Some t else None | EmptyString => None end.
(** The fractional second: digits beyond the ninth are dropped. *)
Definition nanoseconds (digits : string) : Z :=
  let t := take_str 9 digits in dec_val 0 t * 10 ^ (9 - Z.of_nat (str_len t)).
Definition read_frac (s : string) : Z * string :=
  match s with
  | String c t =>
      if bool_decide (c = "."%char) then
        let '(digits, rest) := span_digits t in if bool_decide (digits = "") then (0, s) else (nanoseconds digits, rest)
      else (0, s)
  | EmptyString => (0, s)
  end.
(** The offset of the zone, in seconds. *)
Definition read_zone (s : string) : option Z :=
  if bool_decide (s = "Z") then Some 0
  else
    match s with
    | String sign t =>
        if bool_decide (sign = "+"%char \/ sign = "-"%char) then
          match read_num 2 0 23 t with
          | Some (hh, t) =>
              match read_char ":"%char t with
              | Some t => match read_num 2 0 59 t with
                          | Some (mm, EmptyString) => Some ((if bool_decide (sign = "-"%char) then -1 else 1) * (hh * 60 + mm) * 60)
                          | _ => None
                          end
              | None => None
              end
          | None => None
          end
        else None
    | EmptyString => None
    end.
Notation "'get' x ':=' o 'in' k" := (match o with Some x => k | None => None end) (at level 10, x pattern, o at level 100, k at level 200) : go_scope.
Definition parse_rfc3339 (s : string) : option Z :=
  get (y, s) := read_num 4 0 9999 s in get s := read_char "-"%char s in
  get (m, s) := read_num 2 1 12 s in get s := read_char "-"%char s in
  get (d, s) := read_num 2 1 (daysIn m y) s in get s := read_char "T"%char s in
  get (hh, s) := read_num 2 0 23 s in get s := read_char ":"%char s in
  get (mi, s) := read_num 2 0 59 s in get s := read_char ":"%char s in
  get (ss, s) := read_num 2 0 59 s in
  let '(ns, s) := read_frac s in
  get zone := read_zone s in
  Some ((days_of_civil y m d * 86400 + hh * 3600 + mi * 60 + ss - zone) * second + ns).

(** *** Calendar *)

(** The year of a day of the 400-year cycle, and the month of a day of a year that starts
    in March. *)
Lemma year_of_cycle doe : 0 <= doe < 146097 -> let yoe := (doe - doe / 1460 + doe / 36524 - doe / 146096) / 365 in
  let doy := doe - (365 * yoe + yoe / 4 - yoe / 100) in
  0 <= yoe < 400 /\ 0 <= doy <= 365 /\ (doy = 365 -> (yoe + 1) mod 4 = 0 /\ ((yoe + 1) mod 100 <> 0 \/ yoe = 399)).
Proof. cbn zeta. intros. Z.to_euclidean_division_equations; lia. Qed.
Lemma month_of_year doy : 0 <= doy <= 365 -> let mp := (5 * doy + 2) / 153 in let d := doy - (153 * mp + 2) / 5 + 1 in
  0 <= mp <= 11 /\ 1 <= d <= 31 /\ (mp = 1 \/ mp = 3 \/ mp = 6 \/ mp = 8 -> d <= 30) /\ (mp = 11 -> d <= 29 /\ (d = 29 -> doy = 365)).
Proof. cbn zeta. intros. Z.to_euclidean_division_equations; lia. Qed.
Lemma isLeap_intro y era : (y + 1) mod 4 = 0 -> (y + 1) mod 100 <> 0 \/ y = 399 -> isLeap (y + era * 400 + 1) = true.
Proof.
  intros H4 H. unfold isLeap. rewrite (bool_decide_eq_true_2 (_ mod 4 = 0)) by (Z.to_euclidean_division_equations; lia). cbn [andb].
  destruct H as [H| ->].
  - by rewrite (bool_decide_eq_false_2 (_ mod 100 = 0)) by (Z.to_euclidean_division_equations; lia).
  - rewrite (bool_decide_eq_true_2 (_ mod 400 = 0)) by (Z.to_euclidean_division_equations; lia). apply orb_true_r.
Qed.

Lemma civil_inverse days :
  let '(y, m, d) := civil days in days_of_civil y m d = days /\ 1 <= m <= 12 /\ 1 <= d <= daysIn m y /\ (0 <= days < 3652059 -> 0 <= y <= 9999).
Proof.
  unfold civil. set (era := (days + 306) / 146097). set (doe := (days + 306) mod 146097).
  assert (Hdoe : 0 <= doe < 146097) by (apply Z.mod_pos_bound; done).
  assert (Hd : days + 306 = 146097 * era + doe) by (apply Z.div_mod; done). clearbody era doe.
  pose proof (year_of_cycle doe Hdoe) as Hy. cbn zeta in Hy.
  set (yoe := (doe - doe / 1460 + doe / 36524 - doe / 146096) / 365) in *. clearbody yoe.
  set (doy := doe - (365 * yoe + yoe / 4 - yoe / 100)) in *. destruct Hy as (Hyoe & Hdoy & Hleap).
  pose proof (month_of_year doy Hdoy) as Hm. cbn zeta in Hm. set (mp := (5 * doy + 2) / 153) in *.
  set (d := doy - (153 * mp + 2) / 5 + 1) in *. destruct Hm as (Hmp & Hd1 & Hd30 & Hd29).
  assert (Hdoy' : doy = (153 * mp + 2) / 5 + d - 1) by (unfold d; lia).
  assert (Hdoe' : doe = 365 * yoe + yoe / 4 - yoe / 100 + doy) by (unfold doy; lia). clearbody d mp doy.
  set (m := if bool_decide (mp < 10) then mp + 3 else mp - 9).
  assert (Hm : (mp = m - 3 /\ 3 <= m <= 12) \/ (mp = m + 9 /\ 1 <= m <= 2)) by (unfold m; case_bool_decide; lia). clearbody m.
  set (y := yoe + era * 400 + (if bool_decide (m <= 2) then 1 else 0)).
  assert (Ey : (if bool_decide (m <= 2) then y - 1 else y) = yoe + era * 400) by (unfold y; case_bool_decide; lia).
  split_and!.
  - unfold days_of_civil. rewrite Ey, Z_mod_plus_full, (Z.mod_small yoe) by lia. rewrite Z.div_add, (Z.div_small yoe) by lia.
    clear Ey. replace (m + (if bool_decide (2 < m) then -3 else 9)) with mp by (case_bool_decide; lia). lia.
  - lia.
  - lia.
  - lia.
  - unfold daysIn. clear Ey. destruct (decide (m = 2)) as [H2|H2].
    + rewrite (bool_decide_eq_true_2 (m = 2)) by done. assert (mp = 11) by lia. destruct Hd29 as [Hd29 H29]; [done |].
      destruct (decide (d = 29)) as [->|]; [| destruct (isLeap y); lia].
      destruct Hleap as [L1 L2]; [auto |]. unfold y. rewrite bool_decide_eq_true_2 by lia. by rewrite (isLeap_intro yoe era L1 L2).
    + rewrite (bool_decide_eq_false_2 (m = 2)) by done. clear y. case_bool_decide; [apply Hd30 |]; lia.
  - clear Ey. intros Hr. unfold y. clear y. assert (0 <= era <= 24) by lia.
    destruct (decide (era = 24)) as [->|]; [| case_bool_decide; lia]. case_bool_decide; [| lia].
    assert (H399 : 399 / 4 = 99 /\ 399 / 100 = 3) by done. destruct (decide (yoe = 399)) as [->|]; [| lia].
    assert (306 <= (153 * mp + 2) / 5) by (apply Z.div_le_lower_bound; lia). lia.
Qed.

(** *** Digits *)

Lemma zeros_len n : str_len (zeros n) = n.
Proof. unfold str_len. induction n as [|n IH]; [done |]. cbn. by rewrite IH. Qed.
Lemma zeros_digits n : all_bytes is_digit (zeros n) = true.
Proof. induction n as [|n IH]; [done |]. cbn. exact IH. Qed.
Lemma zeros_val n acc : dec_val acc (zeros n) = acc * 10 ^ Z.of_nat n.
Proof.
  revert acc. induction n as [|n IH]; intros acc; [cbn; lia |]. cbn [zeros]. rewrite dec_val_app, IH. cbn [dec_val].
  replace (Z.of_nat (S n)) with (Z.of_nat n + 1) by lia. rewrite Z.pow_add_r by lia.
  replace (acc * 10 + (code "0" - 48)) with (acc * 10) by (vm_compute (code "0"); lia). lia.
Qed.
Lemma dec_val_grows d acc : 0 <= acc -> all_bytes is_digit d = true -> acc * 10 ^ Z.of_nat (str_len d) <= dec_val acc d.
Proof.
  revert acc. induction d as [|c d IH]; intros acc Ha Hd; [cbn; lia |]. cbn [all_bytes] in Hd. apply andb_true_iff in Hd as [Hc Hd].
  apply bool_decide_eq_true_1 in Hc. cbn [dec_val]. specialize (IH (acc * 10 + (code c - 48)) ltac:(lia) Hd).
  change (str_len (String c d)) with (S (str_len d)). replace (Z.of_nat (S (str_len d))) with (Z.of_nat (str_len d) + 1) by lia.
  rewrite Z.pow_add_r by lia. pose proof (Z.pow_pos_nonneg 10 (Z.of_nat (str_len d))). nia.
Qed.
(** A number printed with at least [w] digits has exactly [w] of them when it is small. *)
Lemma pad_spec w z : (0 < w)%nat -> 0 <= z < 10 ^ Z.of_nat w ->
  str_len (pad w z) = w /\ all_bytes is_digit (pad w z) = true /\ dec_val 0 (pad w z) = z.
Proof.
  intros Hw Hz. destruct (fmt_d_shape z) as (neg & c & d & E & Hc & H0 & Hd & Hv).
  destruct neg.
  { pose proof (dec_val_grows (String c d) 0 ltac:(lia)) as G. cbn [all_bytes] in G. rewrite Hc, Hd in G. specialize (G eq_refl).
    rewrite Hv in G. assert (z = 0) as -> by lia. vm_compute in E. discriminate. }
  change (fmt_d z = String c d) in E.
  assert (Hlen : (str_len (fmt_d z) <= w)%nat).
  { rewrite E. change (str_len (String c d)) with (S (str_len d)).
    destruct (decide (code c = 48)) as [H48|H48]; [rewrite (H0 H48); cbn; lia |].
    apply bool_decide_eq_true_1 in Hc. pose proof (dec_val_grows d (code c - 48) ltac:(lia) Hd) as G.
    cbn [dec_val] in Hv. replace (0 * 10 + (code c - 48)) with (code c - 48) in Hv by lia. rewrite Hv in G.
    assert (Hp : 10 ^ Z.of_nat (str_len d) < 10 ^ Z.of_nat w) by (pose proof (Z.pow_pos_nonneg 10 (Z.of_nat (str_len d))); nia).
    apply Z.pow_lt_mono_r_iff in Hp; lia. }
  unfold pad. split_and!.
  - rewrite str_len_app, zeros_len. lia.
  - rewrite all_bytes_app, zeros_digits, E. cbn [all_bytes andb]. by rewrite Hc, Hd.
  - rewrite dec_val_app, zeros_val, E, Z.mul_0_l. exact Hv.
Qed.

Lemma read_pad w lo hi z rest : (0 < w)%nat -> 0 <= z < 10 ^ Z.of_nat w -> lo <= z <= hi ->
  read_num w lo hi (pad w z +:+ rest) = Some (z, rest).
Proof.
  intros Hw Hz Hb. destruct (pad_spec w z Hw Hz) as (H1 & H2 & H3). unfold read_num.
  set (p := pad w z) in *. clearbody p. subst w. rewrite take_str_app, drop_str_app. by rewrite H2, H3, !bool_decide_eq_true_2.
Qed.

(** *** What was printed is read *)

Lemma drop_zeros_len s : has_suffix s "0" = true -> (str_len (trim_suffix s "0") < str_len s)%nat /\ s = trim_suffix s "0" +:+ "0".
Proof.
  intros H. unfold trim_suffix. rewrite H. apply andb_true_iff in H as [H1 H2]. apply bool_decide_eq_true_1 in H1, H2.
  set (k := (str_len s - str_len "0")%nat) in *. pose proof (take_str_split k s) as E. rewrite H2 in E.
  split; [| exact E]. rewrite E at 2. rewrite str_len_app. cbn. lia.
Qed.
Lemma trim_zeros_spec s : exists k, s = trim_zeros s +:+ zeros k.
Proof.
  unfold trim_zeros. enough (H : forall n s, (str_len s <= n)%nat -> exists k, s = (fix go (n : nat) (s : string) := match n with
     | O => s | S n' => if has_suffix s "0" then go n' (trim_suffix s "0") else s end) n s +:+ zeros k) by (by apply H).
  clear s. induction n as [|n IH]; intros s Hn; [exists O; by rewrite append_nil_r |].
  destruct (has_suffix s "0") eqn:Hs; [| exists O; by rewrite append_nil_r].
  destruct (drop_zeros_len s Hs) as [Hlen E]. destruct (IH (trim_suffix s "0") ltac:(lia)) as [k Hk]. exists (k + 1)%nat.
  set (r := (fix go (n : nat) (s : string) : string := _) n (trim_suffix s "0")) in *. clearbody r. rewrite E, Hk. clear. rewrite append_assoc. f_equal. induction k as [|k IH]; [done |]. cbn. by rewrite IH.
Qed.

(** Years 1 to 9999. *)
Definition printable_time (t : Z) : Prop := 0 <= t < 3652059 * 86400 * second.

Lemma read_frac_printed ns rest : 0 <= ns < second -> rest = "Z" ->
  let frac := trim_zeros (pad 9 ns) in
  read_frac ((if bool_decide (frac = "") then "" else "." +:+ frac) +:+ rest) = (ns, rest).
Proof.
  intros Hns -> frac. destruct (pad_spec 9 ns) as (H1 & H2 & H3); [lia | done |].
  destruct (trim_zeros_spec (pad 9 ns)) as [k Hk]. fold frac in Hk. rewrite Hk in H1, H2, H3. clearbody frac. clear Hk.
  rewrite str_len_app, zeros_len in H1. rewrite all_bytes_app in H2. apply andb_true_iff in H2 as [H2 _]. rewrite dec_val_app, zeros_val in H3.
  case_bool_decide as Hf.
  - subst frac. cbn in H3. cbn. by subst ns.
  - destruct frac as [|c frac]; [done |]. unfold read_frac. cbn [String.append]. rewrite bool_decide_eq_true_2 by done.
    change (String c (frac +:+ "Z")) with (String c frac +:+ "Z").
    assert (Hspan : span_digits (String c frac +:+ "Z") = (String c frac, "Z")).
    { revert H2. generalize (String c frac) as d. clear. intros d. induction d as [|b d IH]; [done |]. cbn [all_bytes String.append span_digits].
      intros [-> Hd]%andb_true_iff. by rewrite IH. }
    rewrite Hspan, bool_decide_eq_false_2 by done. f_equal. unfold nanoseconds.
    assert (Htake : take_str 9 (String c frac) = String c frac).
    { rewrite <- (append_nil_r (String c frac)) at 1. clear -H1. revert H1. generalize (String c frac) as d. intros d H1.
      assert (Hd : (str_len d <= 9)%nat) by lia. clear H1. revert Hd. generalize 9%nat. induction d as [|b d IH]; intros [|n] Hn; try done; [cbn in Hn; lia |].
      cbn [take_str String.append]. f_equal. apply IH. unfold str_len in *. cbn in Hn. lia. }
    rewrite Htake. rewrite <- H3. f_equal. f_equal. lia.
Qed.

Theorem rfc3339_roundtrip t : printable_time t -> parse_rfc3339 (rfc3339nano t) = Some t.
Proof.
  intros Ht. unfold printable_time, second in Ht. unfold rfc3339nano. set (secs := t / second).
  assert (Hs : 0 <= secs < 3652059 * 86400).
  { unfold secs, second. split; [apply Z.div_pos; lia | apply Z.div_lt_upper_bound; lia]. }
  assert (Hns : 0 <= t mod second < second) by (apply Z.mod_pos_bound; done).
  assert (Et : t = secs * second + t mod second) by (unfold secs; pose proof (Z.div_mod t second); unfold second in *; lia).
  set (ns := t mod second) in *. clearbody ns secs.
  assert (Hday : 0 <= secs / 86400 < 3652059) by (split; [apply Z.div_pos | apply Z.div_lt_upper_bound]; lia).
  pose proof (civil_inverse (secs / 86400)) as Hc. destruct (civil (secs / 86400)) as [[y m] d]. destruct Hc as (Hc & Hm & Hd & Hy).
  specialize (Hy Hday). pose proof (Z.mod_pos_bound secs 86400 ltac:(done)) as Hsod. pose proof (Z.div_mod secs 86400 ltac:(done)) as Hsecs.
  set (sod := secs mod 86400) in *. clearbody sod.
  assert (Hh : 0 <= sod / 3600 <= 23 /\ 0 <= sod / 60 mod 60 <= 59 /\ 0 <= sod mod 60 <= 59 /\
               sod / 3600 * 3600 + sod / 60 mod 60 * 60 + sod mod 60 = sod).
  { split_and!; Z.to_euclidean_division_equations; lia. }
  destruct Hh as (Hh & Hmi & Hss & Hsum). assert (Hd31 : d <= 31) by (unfold daysIn in Hd; destruct (bool_decide _), (isLeap y); try case_bool_decide; lia).
  unfold parse_rfc3339.
  rewrite read_pad by (cbn; lia). cbn [read_char String.append]. rewrite bool_decide_eq_true_2 by done.
  rewrite read_pad by (cbn; lia). cbn [read_char String.append]. rewrite bool_decide_eq_true_2 by done.
  rewrite read_pad by (cbn; lia). cbn [read_char String.append]. rewrite bool_decide_eq_true_2 by done.
  rewrite read_pad by (cbn; lia). cbn [read_char String.append]. rewrite bool_decide_eq_true_2 by done.
  rewrite read_pad by (cbn; lia). cbn [read_char String.append]. rewrite bool_decide_eq_true_2 by done.
  rewrite read_pad by (cbn; lia). pose proof (read_frac_printed ns "Z" Hns eq_refl) as F. cbn [String.append] in F. rewrite F. unfold read_zone.
  rewrite bool_decide_eq_true_2 by done. f_equal. rewrite Hc, Et at 1. lia.
Qed.

(** *** Encoded text has no blanks *)

Lemma split_on_whole c s : all_bytes (fun x => negb (bool_decide (x = c))) s = true -> split_on c s = [s].
Proof.
  induction s as [|a s IH]; [done |]. cbn [all_bytes split_on]. intros [Ha%negb_true_iff Hs]%andb_true_iff. rewrite Ha, IH by done. done.
Qed.
Definition dense (c : ascii) : bool := negb (bool_decide (c = chr 32)).
Lemma url_digit_dense v : 0 <= v < 64 -> dense (url_digit v) = true.
Proof.
  intros H. assert (E : forallb (fun n => dense (url_digit (Z.of_nat n))) (List.seq 0 64) = true) by (vm_compute; reflexivity).
  rewrite forallb_forall in E. specialize (E (Z.to_nat v)). rewrite Z2Nat.id in E by lia. apply E, in_seq. lia.
Qed.
Lemma b64_dense_at n s : (str_len s <= n)%nat -> all_bytes dense (b64_url_encode s) = true.
Proof.
  revert s. induction n as [|n IH]; intros s Hn.
  - destruct s; [done | unfold str_len in Hn; cbn in Hn; lia].
  - destruct s as [|a [|b [|c t]]]; [done | | |]; cbn [b64_url_encode all_bytes]; pose proof (digits_of a) as (? & ? & ? & ? & ? & ?).
    + rewrite !url_digit_dense by lia. done.
    + pose proof (digits_of b) as (? & ? & ? & ? & ? & ?). rewrite !url_digit_dense by lia. done.
    + pose proof (digits_of b) as (? & ? & ? & ? & ? & ?). pose proof (digits_of c) as (? & ? & ? & ? & ? & ?).
      rewrite !url_digit_dense by lia. cbn [andb]. apply IH. unfold str_len in *. cbn in Hn. lia.
Qed.
Lemma b64_one_word s : split_on (chr 32) (b64_url_encode s) = [b64_url_encode s].
Proof. apply split_on_whole, (b64_dense_at (str_len s) s). lia. Qed.
