(* ===== verification/SparseMem.v ===== *)
(** * Memory and disk images: compress.go and flatten.go of the firecracker package

    A file is its bytes together with the flags of its data extents (what SEEK_DATA
    and SEEK_HOLE report, byte by byte); the bytes of a hole read as zero. The
    operations work on a map of paths, so that two paths of one call may be the
    same file. Disk-full and hardware errors are not modelled; the errors of the
    operations themselves (missing file, short read, negative offset) are. *)

From S2P Require Import Prelude Exception Naming GoLib Domain World PgRepo IPAlloc Interfaces.

(** ** Overwriting a list in place *)

(** [bs] written at [off], the gap after a short list filled with [pad]. *)
Definition splice {A} (pad : A) (off : nat) (bs l : list A) : list A :=
  match bs with
  | [] => l
  | _ => take off (l ++ replicate (off - length l) pad) ++ bs ++ drop (off + length bs) l
  end.

Lemma lookup_splice {A} (pad : A) off bs l i : bs <> [] ->
  splice pad off bs l !! i =
    if decide (off <= i < off + length bs)%nat then bs !! (i - off)%nat
    else if decide (length l <= i < off)%nat then Some pad else l !! i.
Proof.
  intros Hne. unfold splice. destruct bs as [|b bs']; [done |]. set (bs := b :: bs').
  assert (Hlen : length (take off (l ++ replicate (off - length l) pad)) = off)
    by (rewrite length_take, length_app, length_replicate; lia).
  destruct (decide (i < off)%nat) as [Hi|Hi].
  - rewrite lookup_app_l by (rewrite Hlen; lia). rewrite lookup_take_lt by lia.
    rewrite (decide_False (P := (off <= i < off + length bs)%nat)) by lia. case_decide.
    + rewrite lookup_app_r by lia. apply lookup_replicate. split; [done | lia].
    + rewrite lookup_app_l by lia. done.
  - rewrite lookup_app_r by (rewrite Hlen; lia). rewrite Hlen. case_decide.
    + by rewrite lookup_app_l by lia.
    + rewrite lookup_app_r by lia. rewrite lookup_drop, decide_False by lia. f_equal. lia.
Qed.

Lemma length_splice {A} (pad : A) off bs l : bs <> [] ->
  length (splice pad off bs l) = Nat.max (length l) (off + length bs).
Proof.
  intros Hne. unfold splice. destruct bs as [|b bs']; [done |].
  rewrite !length_app, length_take, length_app, length_replicate, length_drop. cbn. lia.
Qed.

(** ** Files *)

Record File := { f_bytes : list Z; f_data : list bool }.
Abbreviation FS := (gmap string File).
Definition empty_file : File := {| f_bytes := []; f_data := [] |}.

(** Flags for every byte; holes read as zero. *)
Record file_wf (f : File) : Prop := {
  fw_len : length (f_data f) = length (f_bytes f);
  fw_hole : forall i, f_data f !! i = Some false -> f_bytes f !! i = Some 0
}.

(** A file without holes. *)
Definition dense (bytes : list Z) : File := {| f_bytes := bytes; f_data := replicate (length bytes) true |}.
Definition overwrite (off : nat) (bs : list Z) (f : File) : File :=
  {| f_bytes := splice 0 off bs (f_bytes f); f_data := splice false off (replicate (length bs) true) (f_data f) |}.

Definition no_entry (path : string) : error := EText ("open " +:+ path +:+ ": no such file or directory").
Definition negative_offset : error := EText "negative offset".
Definition makeslice_panic : error := EText "panic: runtime error: makeslice: len out of range".

(** [os.Open], [os.Create]; [f.ReadAt(buf, off)] with a buffer of [n] bytes and
    [f.WriteAt(bs, off)]. *)
Definition os_Open (path : string) : M FS (res File) := fun fs =>
  (match fs !! path with Some f => Ok f | None => Err (no_entry path) end, fs).
Definition os_Create (path : string) : M FS (res unit) := fun fs => (Ok tt, <[path := empty_file]> fs).
Definition ReadAt (path : string) (n off : Z) : M FS (res (list Z)) := fun fs =>
  (match fs !! path with
   | None => Err (no_entry path)
   | Some f =>
       if bool_decide (off < 0) then Err negative_offset
       else if bool_decide (n = 0) then Ok []
       else if bool_decide (off + n <= Z.of_nat (length (f_bytes f)))
       then Ok (take (Z.to_nat n) (drop (Z.to_nat off) (f_bytes f))) else Err eof
   end, fs).
Definition WriteAt (path : string) (bs : list Z) (off : Z) : M FS (res unit) := fun fs =>
  match fs !! path with
  | None => (Err (no_entry path), fs)
  | Some f => if bool_decide (off < 0) then (Err negative_offset, fs)
              else (Ok tt, <[path := overwrite (Z.to_nat off) bs f]> fs)
  end.

Section Compress.
Local Open Scope go_scope.

(** ** ExtractSparseRegions *)

(** lseek(2): the first data byte (hole byte) at or after [off]; the end of the file
    is a hole. [None] is ENXIO. *)
Definition seek_data (data : list bool) (off : nat) : option nat :=
  (fun kb => (off + fst kb)%nat) <$> list_find (fun b => b = true) (drop off data).
Definition seek_hole (data : list bool) (off : nat) : option nat :=
  if bool_decide (off < length data)%nat
  then Some (match list_find (fun b => b = false) (drop off data) with
             | Some (k, _) => (off + k)%nat
             | None => length data
             end)
  else None.

Fixpoint extract_loop (fuel : nat) (data : list bool) (offset : nat) : list SparseRegion :=
  match fuel with
  | O => []
  | S fuel' =>
      if bool_decide (offset < length data)%nat then
        match seek_data data offset with
        | None => []
        | Some dataOff =>
            let holeOff := default (length data) (seek_hole data dataOff) in
            {| sp_Offset := Z.of_nat dataOff; sp_Length := Z.of_nat (holeOff - dataOff) |}
              :: extract_loop fuel' data holeOff
        end
      else []
  end.
(** Every round moves the offset forward, so the size of the file is fuel enough. *)
Definition regions_of (data : list bool) : list SparseRegion := extract_loop (length data) data 0.
Definition ExtractSparseRegions (path : string) : M FS (res (list SparseRegion)) := fun fs =>
  match os_Open path fs with
  | (Err e, fs) => (Err (wrapf "open for sparse extraction: " e), fs)
  | (Ok f, fs) => (Ok (regions_of (f_data f)), fs)
  end.

(** ** Merging *)

Definition copyFileLocal (src dst : string) : M FS (res unit) :=
  let? _ := os_Open src in
  let? _ := os_Create dst in
  let? f := os_Open src in
  fun fs => (Ok tt, <[dst := dense (f_bytes f)]> fs).

Fixpoint merge_regions (diffPath outputPath : string) (manifest : list SparseRegion) : M FS (res unit) :=
  match manifest with
  | [] => ret (Ok tt)
  | region :: manifest' =>
      if bool_decide (sp_Length region < 0) then ret (Err makeslice_panic)
      else
        let* r := ReadAt diffPath (sp_Length region) (sp_Offset region) in
        match r with
        | Err e => ret (Err (wrapf ("read diff at " +:+ fmt_d (sp_Offset region) +:+ ": ") e))
        | Ok buf =>
            let* w := WriteAt outputPath buf (sp_Offset region) in
            match w with
            | Err e => ret (Err (wrapf ("write merged at " +:+ fmt_d (sp_Offset region) +:+ ": ") e))
            | Ok _ => merge_regions diffPath outputPath manifest'
            end
        end
  end.

Definition wrap_err {A} (what : string) (m : M FS (res A)) : M FS (res A) :=
  let* r := m in match r with Ok a => ret (Ok a) | Err e => ret (Err (wrapf what e)) end.

Definition MergeDiffMemory (basePath diffPath outputPath : string) (manifest : list SparseRegion) : M FS (res unit) :=
  let? _ := wrap_err "copy base memory: " (copyFileLocal basePath outputPath) in
  let? _ := wrap_err "open merged output: " (os_Open outputPath) in
  let? _ := wrap_err "open diff memory: " (os_Open diffPath) in
  merge_regions diffPath outputPath manifest.

(** ** Zstandard: the codec of github.com/klauspost/compress is a parameter *)

Context (zstd_encode : list Z -> list Z) (zstd_decode : list Z -> res (list Z)).

Definition CompressFileZstd (srcPath dstPath : string) : M FS (res Z) :=
  let? _ := os_Open srcPath in
  let? _ := os_Create dstPath in
  let? f := os_Open srcPath in
  fun fs => (Ok (Z.of_nat (length (zstd_encode (f_bytes f)))), <[dstPath := dense (zstd_encode (f_bytes f))]> fs).
Definition DecompressFileZstd (srcPath dstPath : string) : M FS (res unit) :=
  let? _ := os_Open srcPath in
  let? _ := os_Create dstPath in
  let? f := os_Open srcPath in
  fun fs => match zstd_decode (f_bytes f) with
            | Ok bytes => (Ok tt, <[dstPath := dense bytes]> fs)
            | Err e => (Err e, fs)
            end.
End Compress.

(** ** Flattening *)

(** The source: a file or device, and whether it supports SEEK_DATA. *)
Record Device := { d_file : File; d_seekable : bool }.

Definition isAllZeros (b : list Z) : bool := forallb (fun v => bool_decide (v = 0)) b.

(** [copyDataExtent]: each Read returns between one byte and what was asked for, as
    [reads] decides; 0 bytes only at the end of the source. *)
Definition bufLen : Z := 2 ^ 20.
Fixpoint copy_extent (fuel : nat) (reads : nat -> nat) (src : list Z) (off stop : nat) (dst : File) : File :=
  match fuel with
  | O => dst
  | S fuel' =>
      if bool_decide (off < stop)%nat then
        let n := Z.to_nat (Z.min bufLen (Z.of_nat (stop - off))) in
        let rn := Nat.min (Nat.max 1 (reads off)) (Nat.min n (length src - off)) in
        match rn with
        | O => dst
        | _ => copy_extent fuel' reads src (off + rn) stop (overwrite off (take rn (drop off src)) dst)
        end
      else dst
  end.
Definition copyDataExtent (reads : nat -> nat) (src : list Z) (start stop : nat) (dst : File) : File :=
  copy_extent (stop - start) reads src start stop dst.

(** The blocks of one chunk of linearSparseCopy. *)
Definition pageSize : nat := 4096.
Lemma pageSize_pos : (1 <= pageSize)%nat.
Proof. unfold pageSize. lia. Qed.
Fixpoint copy_blocks (fuel : nat) (off : nat) (chunk : list Z) (dst : File) : File :=
  match fuel, chunk with
  | O, _ | _, [] => dst
  | S fuel', _ =>
      let block := take pageSize chunk in
      copy_blocks fuel' (off + length block) (drop pageSize chunk)
        (if isAllZeros block then dst else overwrite off block dst)
  end.
(** io.ReadFull fills the buffer unless the source ends. *)
Fixpoint linear_loop (fuel : nat) (src : list Z) (offset size : nat) (dst : File) : File :=
  match fuel with
  | O => dst
  | S fuel' =>
      if bool_decide (offset < size)%nat then
        let n := Z.to_nat (Z.min bufLen (Z.of_nat (length src - offset))) in
        match n with
        | O => dst
        | _ =>
            let chunk := take n (drop offset src) in
            let dst := copy_blocks (length chunk) offset chunk dst in
            if bool_decide (Z.of_nat n < bufLen) then dst else linear_loop fuel' src (offset + n) size dst
        end
      else dst
  end.
Definition linearSparseCopy (src : list Z) (startOffset sizeBytes : nat) (dst : File) : File :=
  linear_loop (sizeBytes - startOffset) src startOffset sizeBytes dst.

(** dst.Truncate(sizeBytes) of a new file: one hole. *)
Definition truncated (sizeBytes : nat) : File :=
  {| f_bytes := replicate sizeBytes 0; f_data := replicate sizeBytes false |}.

Fixpoint flatten_loop (fuel : nat) (reads : nat -> nat) (src : Device) (offset size : nat) (dst : File) : File :=
  match fuel with
  | O => dst
  | S fuel' =>
      if bool_decide (offset < size)%nat then
        if d_seekable src then
          match seek_data (f_data (d_file src)) offset with
          | None => dst
          | Some dataStart =>
              let holeStart := default size (seek_hole (f_data (d_file src)) dataStart) in
              flatten_loop fuel' reads src holeStart size
                (copyDataExtent reads (f_bytes (d_file src)) dataStart holeStart dst)
          end
        else linearSparseCopy (f_bytes (d_file src)) offset size dst
      else dst
  end.
(** What [flattenDmDevice] writes to dstPath. *)
Definition flattenDmDevice (reads : nat -> nat) (src : Device) (sizeBytes : nat) : File :=
  flatten_loop sizeBytes reads src 0 sizeBytes (truncated sizeBytes).

(** ** Regions *)

(** Is byte [i] in one of the regions? *)
Definition in_region (i : nat) (r : SparseRegion) : Prop := sp_Offset r <= Z.of_nat i < sp_Offset r + sp_Length r.
Definition covered (rs : list SparseRegion) (i : nat) : Prop := Exists (in_region i) rs.
#[export] Instance in_region_dec i r : Decision (in_region i r).
Proof. unfold in_region. apply _. Defined.
#[export] Instance covered_dec rs i : Decision (covered rs i).
Proof. unfold covered. apply _. Defined.

(** Non-empty regions from [from] on, in order and with a gap in between. *)
Fixpoint separated (from size : Z) (rs : list SparseRegion) : Prop :=
  match rs with
  | [] => True
  | r :: rs' => from <= sp_Offset r /\ 0 < sp_Length r /\ sp_Offset r + sp_Length r <= size /\
                separated (sp_Offset r + sp_Length r + 1) size rs'
  end.

Lemma seek_data_Some data off d : seek_data data off = Some d ->
  (off <= d)%nat /\ data !! d = Some true /\ forall i, (off <= i < d)%nat -> data !! i = Some false.
Proof.
  unfold seek_data. intros ([k b] & H & ->)%fmap_Some. apply list_find_Some in H as (Hk & -> & Hn). cbn.
  rewrite lookup_drop in Hk. split_and!; [lia | done |]. intros i Hi.
  destruct (data !! i) as [[]|] eqn:E; [| done |].
  - exfalso. apply (Hn (i - off)%nat true); [|lia | done]. rewrite lookup_drop. by replace (off + (i - off))%nat with i by lia.
  - apply lookup_ge_None in E. apply lookup_lt_Some in Hk. lia.
Qed.
Lemma seek_data_None data off : seek_data data off = None -> forall i, (off <= i)%nat -> data !! i <> Some true.
Proof.
  unfold seek_data. intros H%fmap_None i Hi E. apply list_find_None in H.
  rewrite Forall_forall in H. apply (H true); [|done]. apply list_elem_of_lookup. exists (i - off)%nat.
  rewrite lookup_drop. by replace (off + (i - off))%nat with i by lia.
Qed.
Lemma seek_hole_spec data off : (off < length data)%nat -> data !! off = Some true ->
  exists h, seek_hole data off = Some h /\ (off < h <= length data)%nat /\
    (forall i, (off <= i < h)%nat -> data !! i = Some true) /\ data !! h <> Some true.
Proof.
  intros Hlt Ho. unfold seek_hole. rewrite bool_decide_eq_true_2 by done. eexists. split; [done |].
  destruct (list_find _ _) as [[k b]|] eqn:H.
  - apply list_find_Some in H as (Hk & -> & Hn). rewrite lookup_drop in Hk. pose proof (lookup_lt_Some _ _ _ Hk).
    assert (k <> O) by (intros ->; rewrite Nat.add_0_r in Hk; congruence).
    split_and!; [lia | lia | | congruence]. intros i Hi. destruct (data !! i) as [[]|] eqn:E; [done | |].
    + exfalso. apply (Hn (i - off)%nat false); [|lia | done]. rewrite lookup_drop. by replace (off + (i - off))%nat with i by lia.
    + apply lookup_ge_None in E. lia.
  - split_and!; [lia | lia | | by rewrite lookup_ge_None_2 by lia]. intros i Hi.
    apply list_find_None in H. rewrite Forall_forall in H.
    destruct (data !! i) as [[]|] eqn:E; [done | |].
    + exfalso. apply (H false); [|done]. apply list_elem_of_lookup. exists (i - off)%nat. rewrite lookup_drop.
      by replace (off + (i - off))%nat with i by lia.
    + apply lookup_ge_None in E. lia.
Qed.

Lemma extract_loop_spec fuel data offset : (length data - offset <= fuel)%nat ->
  (forall i, covered (extract_loop fuel data offset) i <-> (offset <= i)%nat /\ data !! i = Some true) /\
  separated (Z.of_nat offset) (Z.of_nat (length data)) (extract_loop fuel data offset).
Proof.
  revert offset. induction fuel as [|fuel IH]; intros offset Hf.
  { split; [|done]. intros i. cbn. split; [by intros []%Exists_nil |]. intros [Hi H%lookup_lt_Some]. lia. }
  cbn [extract_loop]. case_bool_decide as Hlt.
  2: { split; [|done]. intros i. split; [by intros []%Exists_nil |]. intros [Hi H%lookup_lt_Some]. lia. }
  destruct (seek_data data offset) as [d|] eqn:Hd.
  2: { split; [|done]. intros i. split; [by intros []%Exists_nil |]. intros [Hi H]. by eapply seek_data_None in H. }
  apply seek_data_Some in Hd as (Hod & Hdt & Hgap). pose proof (lookup_lt_Some _ _ _ Hdt).
  destruct (seek_hole_spec data d) as (h & Hh & Hdh & Hrun & Hend); [done.. |]. rewrite Hh. cbn [default].
  destruct (IH h) as [IHc IHs]; [lia |]. split.
  - intros i. unfold covered in *. rewrite Exists_cons, IHc. unfold in_region. cbn. split.
    + intros [Hi|[Hi Ht]]; [split; [lia | apply Hrun; lia] | split; [lia | done]].
    + intros [Hi Ht]. destruct (decide (i < h)%nat) as [Hih|Hih]; [left | right; split; [lia | done]].
      destruct (decide (i < d)%nat); [|lia]. rewrite Hgap in Ht by lia. done.
  - cbn. split_and!; [lia | lia | lia |]. replace (Z.of_nat d + Z.of_nat (h - d) + 1) with (Z.of_nat h + 1) by lia.
    destruct (extract_loop fuel data h) as [|r rs] eqn:Er; [done |]. cbn in IHs |- *. destruct IHs as (H1 & H2 & H3 & H4).
    split_and!; try done. assert (sp_Offset r <> Z.of_nat h); [|lia]. intros E. apply Hend.
    destruct (IHc h) as [IH1 _]. destruct IH1 as [_ Ht]; [|done]. apply Exists_cons. left. unfold in_region. lia.
Qed.

(** ExtractSparseRegions lists the data of a sparse file exactly. A byte is in one
    of the regions if and only if it is data; the regions are non-empty, in order,
    inside the file, and separated by holes; the loop ends for every file. *)
Theorem ExtractSparseRegions_exact path (fs : FS) f :
  fs !! path = Some f ->
  exists rs, ExtractSparseRegions path fs = (Ok rs, fs) /\
    (forall i, covered rs i <-> f_data f !! i = Some true) /\ separated 0 (Z.of_nat (length (f_data f))) rs.
Proof.
  intros Hf. unfold ExtractSparseRegions, os_Open. rewrite Hf. exists (regions_of (f_data f)). split; [done |].
  destruct (extract_loop_spec (length (f_data f)) (f_data f) 0) as [Hc Hs]; [lia |]. split; [|done].
  intros i. unfold regions_of. rewrite Hc. split; [by intros [_ ?] | intros ?; split; [lia | done]].
Qed.

(** ** Merging *)

(** Regions that can be read from a file of [n] bytes. *)
Definition region_ok (n : nat) (r : SparseRegion) : Prop :=
  0 <= sp_Offset r /\ 0 <= sp_Length r /\ (sp_Length r = 0 \/ sp_Offset r + sp_Length r <= Z.of_nat n).

(** The bytes of [diff] where the regions say so, those of [base] elsewhere. *)
Definition overlay (rs : list SparseRegion) (base diff : list Z) (i : nat) : option Z :=
  if decide (covered rs i) then diff !! i else base !! i.

(** The fault-free outcome of one round. *)
Lemma merge_round diffPath out r (fs : FS) d o :
  fs !! diffPath = Some d -> fs !! out = Some o -> region_ok (length (f_bytes d)) r ->
  forall rs, merge_regions diffPath out (r :: rs) fs =
    merge_regions diffPath out rs (<[out := overwrite (Z.to_nat (sp_Offset r))
      (take (Z.to_nat (sp_Length r)) (drop (Z.to_nat (sp_Offset r)) (f_bytes d))) o]> fs).
Proof.
  intros Hd Ho (H1 & H2 & H3) rs. cbn [merge_regions]. rewrite bool_decide_eq_false_2 by lia.
  unfold bind at 1, ReadAt. rewrite Hd, bool_decide_eq_false_2 by lia.
  unfold bind, WriteAt. case_bool_decide as Hz.
  - rewrite Ho, bool_decide_eq_false_2, Hz by lia. done.
  - rewrite bool_decide_eq_true_2 by lia. by rewrite Ho, bool_decide_eq_false_2 by lia.
Qed.

Lemma lookup_overwrite_region off len (d : list Z) o i :
  (off + len <= length d)%nat \/ len = O -> (length d <= length (f_bytes o))%nat ->
  f_bytes (overwrite off (take len (drop off d)) o) !! i =
    if decide (off <= i < off + len)%nat then d !! i else f_bytes o !! i.
Proof.
  intros Hlen Ho. cbn. destruct (decide (len = O)) as [->|Hne].
  { rewrite take_0. cbn. by rewrite decide_False by lia. }
  assert (Hl : length (take len (drop off d)) = len) by (rewrite length_take, length_drop; lia).
  rewrite lookup_splice by (intros E; rewrite E in Hl; cbn in Hl; lia). rewrite Hl. case_decide as Hi.
  - rewrite lookup_take_lt, lookup_drop by lia. f_equal. lia.
  - by rewrite decide_False by lia.
Qed.
Lemma length_overwrite_region off len (d : list Z) o :
  (off + len <= length d)%nat \/ len = O -> (length d <= length (f_bytes o))%nat ->
  length (f_bytes (overwrite off (take len (drop off d)) o)) = length (f_bytes o).
Proof.
  intros Hlen Ho. cbn. destruct (decide (len = O)) as [->|Hne]; [by rewrite take_0 |].
  assert (Hl : length (take len (drop off d)) = len) by (rewrite length_take, length_drop; lia).
  rewrite length_splice by (intros E; rewrite E in Hl; cbn in Hl; lia). rewrite Hl. lia.
Qed.

Lemma region_nat n r i : region_ok n r ->
  in_region i r <-> (Z.to_nat (sp_Offset r) <= i < Z.to_nat (sp_Offset r) + Z.to_nat (sp_Length r))%nat.
Proof. intros (H1 & H2 & _). unfold in_region. lia. Qed.
Lemma region_len n r : region_ok n r ->
  (Z.to_nat (sp_Offset r) + Z.to_nat (sp_Length r) <= n)%nat \/ Z.to_nat (sp_Length r) = O.
Proof. intros (H1 & H2 & [H3|H3]); [right | left]; lia. Qed.

Lemma merge_regions_spec diffPath out rs (fs : FS) d o :
  diffPath <> out -> fs !! diffPath = Some d -> fs !! out = Some o ->
  (length (f_bytes d) <= length (f_bytes o))%nat -> Forall (region_ok (length (f_bytes d))) rs ->
  exists o', merge_regions diffPath out rs fs = (Ok tt, <[out := o']> fs) /\
    length (f_bytes o') = length (f_bytes o) /\
    forall i, f_bytes o' !! i = overlay rs (f_bytes o) (f_bytes d) i.
Proof.
  intros Hne Hd. revert fs Hd o. induction rs as [|r rs IH]; intros fs Hd o Ho Hlen Hrs.
  { exists o. split; [by rewrite insert_id |]. split; [done |]. intros i. unfold overlay.
    rewrite decide_False; [done |]. by intros ?%Exists_nil. }
  apply Forall_cons in Hrs as [Hr Hrs]. rewrite (merge_round _ _ _ _ _ _ Hd Ho Hr).
  set (o1 := overwrite _ _ o).
  assert (Hlen1 : length (f_bytes o1) = length (f_bytes o)) by (apply length_overwrite_region; [by apply region_len | done]).
  destruct (IH (<[out := o1]> fs)) with (o := o1) as (o' & Hm & Hl & Hb).
  - by rewrite lookup_insert_ne.
  - by rewrite lookup_insert_eq.
  - by rewrite Hlen1.
  - done.
  - exists o'. rewrite Hm, insert_insert_eq. split; [done |]. split; [congruence |]. intros i. rewrite Hb. unfold overlay.
    unfold o1. rewrite lookup_overwrite_region by (first [by apply region_len | done]).
    destruct (decide (covered rs i)) as [Hc|Hc]; [by rewrite decide_True by (by right) |].
    destruct (decide (in_region i r)) as [Hi|Hi].
    + rewrite decide_True by (by apply (region_nat _ _ _ Hr)). by rewrite decide_True by (by left).
    + rewrite decide_False by (by rewrite <- (region_nat _ _ _ Hr)). rewrite decide_False; [done |].
      by intros [?|?]%Exists_cons.
Qed.

Lemma copyFileLocal_spec src dst (fs : FS) f : src <> dst -> fs !! src = Some f ->
  copyFileLocal src dst fs = (Ok tt, <[dst := dense (f_bytes f)]> fs).
Proof.
  intros Hne Hf. unfold copyFileLocal, bind_ok, os_Open, os_Create. rewrite Hf. cbn.
  rewrite lookup_insert_ne by done. by rewrite Hf, insert_insert_eq.
Qed.

(** Merging a diff of the same size into a base: the bytes of the regions come from
    the diff, all others from the base. *)
Lemma MergeDiffMemory_bytes basePath diffPath out rs (fs : FS) b d :
  basePath <> out -> diffPath <> out -> fs !! basePath = Some b -> fs !! diffPath = Some d ->
  (length (f_bytes d) <= length (f_bytes b))%nat -> Forall (region_ok (length (f_bytes d))) rs ->
  exists o, MergeDiffMemory basePath diffPath out rs fs = (Ok tt, <[out := o]> fs) /\
    length (f_bytes o) = length (f_bytes b) /\ forall i, f_bytes o !! i = overlay rs (f_bytes b) (f_bytes d) i.
Proof.
  intros Hb Hd Hfb Hfd Hlen Hrs. unfold MergeDiffMemory, wrap_err, bind_ok, bind. rewrite (copyFileLocal_spec _ _ _ b Hb Hfb).
  cbn. unfold os_Open. rewrite lookup_insert_eq. cbn. rewrite lookup_insert_ne, Hfd by done. cbn.
  destruct (merge_regions_spec diffPath out rs (<[out := dense (f_bytes b)]> fs) d (dense (f_bytes b)))
    as (o & Hm & Hl & Ho); [done | by rewrite lookup_insert_ne | by rewrite lookup_insert_eq | done | done |].
  exists o. by rewrite Hm, insert_insert_eq.
Qed.

(** The regions extracted from a file can be read from it. *)
Lemma separated_ok from n rs : 0 <= from -> separated from (Z.of_nat n) rs -> Forall (region_ok n) rs.
Proof.
  revert from. induction rs as [|r rs IH]; intros from H0 H; [constructor |]. destruct H as (H1 & H2 & H3 & H4).
  constructor; [|eapply IH; [|exact H4]; lia]. split_and!; [lia | lia | right; lia].
Qed.

(** C17: A diff snapshot merged into its base with the manifest extracted from it is
    the memory at the time of the diff. The output has the bytes of the diff where
    the diff has data and those of the base in its holes; the base, the diff and all
    other files are unchanged. *)
Theorem merge_extracted basePath diffPath out (fs : FS) b d rs :
  basePath <> out -> diffPath <> out -> fs !! basePath = Some b -> fs !! diffPath = Some d ->
  file_wf d -> length (f_bytes d) = length (f_bytes b) ->
  ExtractSparseRegions diffPath fs = (Ok rs, fs) ->
  exists o, MergeDiffMemory basePath diffPath out rs fs = (Ok tt, <[out := o]> fs) /\
    length (f_bytes o) = length (f_bytes b) /\
    forall i, f_bytes o !! i = if decide (f_data d !! i = Some true) then f_bytes d !! i else f_bytes b !! i.
Proof.
  intros Hb Hd Hfb Hfd Hwf Hlen Hex.
  unfold ExtractSparseRegions, os_Open in Hex. rewrite Hfd in Hex. injection Hex as <-.
  destruct (extract_loop_spec (length (f_data d)) (f_data d) 0) as [Hc Hs]; [lia |].
  destruct (MergeDiffMemory_bytes basePath diffPath out (regions_of (f_data d)) fs b d) as (o & Hm & Hl & Ho);
    [done | done | done | done | lia | rewrite <- (fw_len _ Hwf); by eapply separated_ok; [|exact Hs] |].
  exists o. split; [done |]. split; [done |]. intros i. rewrite Ho. unfold overlay, regions_of.
  destruct (decide (covered (extract_loop (length (f_data d)) (f_data d) 0) i)) as [H|H]; rewrite Hc in H.
  - by rewrite decide_True by tauto.
  - rewrite decide_False; [done |]. intros ?. apply H. split; [lia | done].
Qed.

(** ** Compression *)

Section Zstd.
Context (zstd_encode : list Z -> list Z) (zstd_decode : list Z -> res (list Z)).
(** The documented property of the codec: a frame decodes to what was encoded. *)
Context (zstd_roundtrip : forall l, zstd_decode (zstd_encode l) = Ok l).
Abbreviation compress := (CompressFileZstd zstd_encode).
Abbreviation decompress := (DecompressFileZstd zstd_decode).

Lemma compress_decompress src packed dst (fs : FS) f :
  src <> packed -> packed <> dst -> fs !! src = Some f ->
  (decompress packed dst (compress src packed fs).2) =
    (Ok tt, <[dst := dense (f_bytes f)]> (<[packed := dense (zstd_encode (f_bytes f))]> fs)).
Proof.
  intros H1 H2 Hf. unfold CompressFileZstd, DecompressFileZstd, bind_ok, os_Open, os_Create. rewrite Hf. cbn.
  rewrite lookup_insert_ne, Hf by done. cbn. rewrite insert_insert_eq, lookup_insert_eq. cbn.
  rewrite lookup_insert_ne, lookup_insert_eq by done. cbn. rewrite zstd_roundtrip. by rewrite insert_insert_eq.
Qed.

Lemma dense_regions bytes :
  Forall (region_ok (length bytes)) (regions_of (f_data (dense bytes))) /\
  forall i, covered (regions_of (f_data (dense bytes))) i <-> (i < length bytes)%nat.
Proof.
  unfold regions_of. cbn. destruct (extract_loop_spec (length (replicate (length bytes) true)) (replicate (length bytes) true) 0)
    as [Hc Hs]; [lia |]. split.
  - eapply separated_ok; [|rewrite length_replicate in Hs at 1; exact Hs]. lia.
  - intros i. rewrite Hc, lookup_replicate. split; [by intros (_ & _ & ?) | intros ?; split_and!; [lia | done | done]].
Qed.

(** Decompressing a compressed image gives its bytes back, but not its holes: the
    copy is dense. A manifest extracted from the copy would cover the whole file, and
    merging with it would put the zeros of the holes over the pages of the base. So
    the manifest has to be taken before compressing, as the code does. *)
Theorem zstd_keeps_bytes_not_holes src packed dst out base (fs : FS) f b :
  src <> packed -> packed <> dst -> base <> packed -> base <> dst -> base <> out -> dst <> out ->
  fs !! src = Some f -> fs !! base = Some b -> length (f_bytes f) = length (f_bytes b) ->
  let fs' := (decompress packed dst (compress src packed fs).2).2 in
  (f_bytes <$> fs' !! dst) = Some (f_bytes f) /\
  exists rs, ExtractSparseRegions dst fs' = (Ok rs, fs') /\
    (f_bytes <$> (MergeDiffMemory base dst out rs fs').2 !! out) = Some (f_bytes f).
Proof.
  intros H1 H2 H3 H4 H5 H6 Hf Hb Hlen fs'. unfold fs'. rewrite (compress_decompress src packed dst fs f H1 H2 Hf). cbn [snd].
  set (fs1 := <[dst := _]> _). assert (Hd : fs1 !! dst = Some (dense (f_bytes f))) by apply lookup_insert_eq.
  split; [by rewrite Hd |]. unfold ExtractSparseRegions, os_Open. rewrite Hd. eexists. split; [done |].
  destruct (dense_regions (f_bytes f)) as [Hr Hc].
  destruct (MergeDiffMemory_bytes base dst out (regions_of (f_data (dense (f_bytes f)))) fs1 b (dense (f_bytes f)))
    as (o & Hm & Hl & Ho); [done | done | by unfold fs1; rewrite !lookup_insert_ne | done | cbn; lia | exact Hr |].
  rewrite Hm. cbn [snd]. rewrite lookup_insert_eq. cbn [fmap option_fmap option_map]. f_equal. apply list_eq. intros i.
  rewrite Ho. unfold overlay. case_decide as Hi; [done |]. rewrite Hc in Hi. by rewrite !lookup_ge_None_2 by lia.
Qed.
End Zstd.

(** ** Flattening *)

Section Flatten.
Context (src : list Z) (size : nat) (Hsize : (length src <= size)%nat).

(** The source, padded with zeros. *)
Definition padded : list Z := src ++ replicate (size - length src) 0.

(** The first [off] bytes have been copied, the others are still zero. *)
Record copied (off : nat) (dst : File) : Prop := {
  co_len : length (f_bytes dst) = size;
  co_done : forall i, (i < off)%nat -> f_bytes dst !! i = padded !! i;
  co_todo : forall i, (off <= i < size)%nat -> f_bytes dst !! i = Some 0
}.

Lemma lookup_padded i : padded !! i = if decide (i < length src)%nat then src !! i else if decide (i < size)%nat then Some 0 else None.
Proof.
  unfold padded. case_decide; [by rewrite lookup_app_l |]. rewrite lookup_app_r by lia. case_decide.
  - apply lookup_replicate. split; [done | lia].
  - apply lookup_ge_None_2. rewrite length_replicate. lia.
Qed.

(** Zeros of the source need not be copied. *)
Lemma copied_skip off off' dst : copied off dst -> (off <= off')%nat ->
  (forall i, (off <= i < off')%nat -> (i < length src)%nat -> src !! i = Some 0) -> copied off' dst.
Proof.
  intros [H1 H2 H3] Hle Hz. split; [done | | intros i Hi; apply H3; lia]. intros i Hi.
  destruct (decide (i < off)%nat); [by apply H2 |]. rewrite lookup_padded. repeat case_decide.
  - rewrite Hz by lia. apply H3. lia.
  - apply H3. lia.
  - apply lookup_ge_None_2. lia.
Qed.
Lemma copied_all off dst : copied off dst ->
  (forall i, (off <= i)%nat -> (i < length src)%nat -> src !! i = Some 0) -> f_bytes dst = padded.
Proof.
  intros H Hz. destruct (copied_skip off (Nat.max off size) dst H) as [H1 H2 H3]; [lia | intros i Hi; apply Hz; lia |].
  apply list_eq. intros i. destruct (decide (i < size)%nat) as [Hi|Hi]; [apply H2; lia |].
  rewrite lookup_padded, decide_False, decide_False by lia. apply lookup_ge_None_2. lia.
Qed.
Lemma copied_write off n dst : copied off dst -> (off + n <= length src)%nat ->
  copied (off + n) (overwrite off (take n (drop off src)) dst).
Proof.
  intros [H1 H2 H3] Hn. split.
  - rewrite length_overwrite_region; [done | by left | lia].
  - intros i Hi. rewrite lookup_overwrite_region by (first [by left | lia]). case_decide as Hc.
    + by rewrite lookup_padded, decide_True by lia.
    + apply H2. lia.
  - intros i Hi. rewrite lookup_overwrite_region by (first [by left | lia]). rewrite decide_False by lia. apply H3. lia.
Qed.
Lemma copied_truncated : copied 0 (truncated size).
Proof.
  split; cbn; [apply length_replicate | lia |]. intros i Hi. apply lookup_replicate. split; [done | lia].
Qed.

(** *** Extents *)
Lemma copy_extent_copied fuel reads off stop dst :
  (stop - off <= fuel)%nat -> (stop <= length src)%nat -> (off <= stop)%nat ->
  copied off dst -> copied stop (copy_extent fuel reads src off stop dst).
Proof.
  revert off dst. induction fuel as [|fuel IH]; intros off dst Hf Hs Hle H; cbn [copy_extent].
  { by replace stop with off by lia. }
  case_bool_decide as Hlt; [|by replace stop with off by lia].
  set (n := Z.to_nat _). assert (Hn : (1 <= n <= stop - off)%nat) by (unfold n, bufLen; lia).
  set (rn := Nat.min (Nat.max 1 (reads off)) (Nat.min n (length src - off))).
  assert (Hrn : (1 <= rn <= stop - off)%nat) by (unfold rn; lia). destruct rn as [|rn'] eqn:E; [lia |].
  rewrite <- E in *. apply IH; [lia | done | lia |]. apply copied_write; [done | lia].
Qed.

(** *** The linear fallback *)
Lemma isAllZeros_lookup b i : isAllZeros b = true -> (i < length b)%nat -> b !! i = Some 0.
Proof.
  unfold isAllZeros. rewrite forallb_forall. intros H Hi. destruct (lookup_lt_is_Some_2 _ _ Hi) as [x Hx].
  rewrite Hx. f_equal. apply (bool_decide_eq_true_1 (x = 0)), H. apply list_elem_of_In. by apply list_elem_of_lookup_2 in Hx.
Qed.
Lemma copy_blocks_copied fuel off n dst :
  (n <= fuel)%nat -> (off + n <= length src)%nat -> copied off dst ->
  copied (off + n) (copy_blocks fuel off (take n (drop off src)) dst).
Proof.
  revert off n dst. induction fuel as [|fuel IH]; intros off n dst Hf Hn H; cbn [copy_blocks].
  { by replace (off + n)%nat with off by lia. }
  set (chunk := take n (drop off src)). assert (Hc : length chunk = n) by (unfold chunk; rewrite length_take, length_drop; lia).
  destruct chunk as [|c chunk'] eqn:Ec; [by replace (off + n)%nat with off by (cbn in Hc; lia) |].
  assert (Hn1 : (1 <= n)%nat) by (cbn in Hc; lia). rewrite <- Ec in *. clear Ec.
  set (m := Nat.min pageSize n). assert (Hm : (1 <= m <= n)%nat) by (pose proof pageSize_pos; unfold m; lia).
  assert (Hb : take pageSize chunk = take m (drop off src)) by (unfold chunk, m; by rewrite take_take).
  assert (Hd : drop pageSize chunk = take (n - m) (drop (off + m) src)).
  { unfold chunk, m. rewrite skipn_firstn_comm, drop_drop. destruct (decide (pageSize <= n)%nat).
    - by rewrite Nat.min_l by lia.
    - rewrite Nat.min_r by lia. replace (n - pageSize)%nat with O by lia. by rewrite Nat.sub_diag, !take_0. }
  rewrite Hb, Hd. replace (length (take m (drop off src))) with m by (rewrite length_take, length_drop; lia).
  replace (off + n)%nat with (off + m + (n - m))%nat by lia. apply IH; [lia | lia |].
  destruct (isAllZeros (take m (drop off src))) eqn:Hz; [|by apply copied_write; [|lia]].
  eapply copied_skip; [exact H | lia |]. intros i Hi Hs.
  pose proof (isAllZeros_lookup _ (i - off) Hz) as Hi0. rewrite length_take, length_drop in Hi0. specialize (Hi0 ltac:(lia)).
  rewrite lookup_take_lt, lookup_drop in Hi0 by lia. by replace (off + (i - off))%nat with i in Hi0 by lia.
Qed.
Lemma linear_loop_copied fuel off dst :
  (size - off <= fuel)%nat -> copied off dst -> f_bytes (linear_loop fuel src off size dst) = padded.
Proof.
  revert off dst. induction fuel as [|fuel IH]; intros off dst Hf H; cbn [linear_loop].
  { eapply copied_all; [exact H | lia]. }
  case_bool_decide as Hlt; [|eapply copied_all; [exact H | lia]].
  set (n := Z.to_nat _). destruct n as [|n'] eqn:En; [eapply copied_all; [exact H | intros i; unfold n, bufLen in En; lia] |].
  rewrite <- En. clear En n'.
  assert (Hn : (off + n <= length src)%nat \/ n = O) by (unfold n, bufLen; lia).
  destruct Hn as [Hn|Hn].
  2: { rewrite Hn. cbn. eapply copied_all; [exact H |]. intros i. unfold n, bufLen in Hn. lia. }
  assert (Hl : length (take n (drop off src)) = n) by (rewrite length_take, length_drop; lia). rewrite Hl.
  pose proof (copy_blocks_copied n off n dst (le_n n) Hn H) as H'.
  case_bool_decide as Hlast.
  - eapply copied_all; [exact H' |]. intros i. unfold n, bufLen in Hlast |- *. lia.
  - apply IH; [|done]. unfold bufLen in Hlast. lia.
Qed.
End Flatten.

Lemma flatten_loop_copied fuel reads dev size offset dst :
  file_wf (d_file dev) -> (length (f_bytes (d_file dev)) <= size)%nat -> (size - offset <= fuel)%nat ->
  copied (f_bytes (d_file dev)) size offset dst ->
  f_bytes (flatten_loop fuel reads dev offset size dst) = padded (f_bytes (d_file dev)) size.
Proof.
  intros [Hfl Hfh] Hsize. set (src := f_bytes (d_file dev)) in *. set (data := f_data (d_file dev)) in *.
  assert (Hzero : forall i, (i < length src)%nat -> data !! i <> Some true -> src !! i = Some 0).
  { intros i Hi Hd. apply Hfh. destruct (lookup_lt_is_Some_2 data i) as [[] Hx]; [lia | done | done]. }
  revert offset dst. induction fuel as [|fuel IH]; intros offset dst Hf H; cbn [flatten_loop].
  { eapply copied_all; [exact Hsize | exact H | lia]. }
  case_bool_decide as Hlt; [|eapply copied_all; [exact Hsize | exact H | lia]].
  destruct (d_seekable dev); [|by apply linear_loop_copied].
  fold src data. destruct (seek_data data offset) as [d|] eqn:Hd.
  2: { eapply copied_all; [exact Hsize | exact H |]. intros i Hi Hs. apply Hzero; [done |]. by apply (seek_data_None data offset). }
  apply seek_data_Some in Hd as (Hod & Hdt & Hgap). pose proof (lookup_lt_Some _ _ _ Hdt) as Hdl.
  destruct (seek_hole_spec data d) as (h & Hh & Hdh & _); [done.. |]. rewrite Hh. change (default size (Some h)) with h.
  apply IH; [lia |]. apply copy_extent_copied; [done | lia | lia | lia |].
  eapply copied_skip; [exact Hsize | exact H | done |]. intros i Hi Hs. apply Hzero; [done |]. by rewrite Hgap by lia.
Qed.

Lemma flatten_bytes reads dev size :
  file_wf (d_file dev) -> (length (f_bytes (d_file dev)) <= size)%nat ->
  f_bytes (flattenDmDevice reads dev size) = padded (f_bytes (d_file dev)) size.
Proof.
  intros Hwf Hsize. unfold flattenDmDevice. rewrite flatten_loop_copied; [done | done | done | lia |].
  by apply copied_truncated.
Qed.

(** Flattening a device gives a self-contained image with the device's contents.
    Whether the source supports SEEK_DATA or the fallback that skips zero blocks is
    used, and however the reads are split, every byte of the image is the byte of the
    source, and the bytes after the end of the source are zero. *)
Theorem flattenDmDevice_contents reads dev size :
  file_wf (d_file dev) -> (length (f_bytes (d_file dev)) <= size)%nat ->
  f_bytes (flattenDmDevice reads dev size) =
    f_bytes (d_file dev) ++ replicate (size - length (f_bytes (d_file dev))) 0.
Proof. apply flatten_bytes. Qed.

(** ** Worked examples *)

Definition sample_base : File := dense [1; 2; 3; 4].
(** Pages 1 and 3 are dirty; page 3 has become zero. *)
Definition sample_diff : File := {| f_bytes := [0; 9; 0; 0]; f_data := [false; true; false; true] |}.
Definition sample_fs : FS := <["base" := sample_base]> {["diff" := sample_diff]}.

Lemma sample_diff_wf : file_wf sample_diff.
Proof. split; [done |]. by intros [|[|[|[|i]]]]. Qed.

Lemma ExtractSparseRegions_exact_witness :
  exists rs, ExtractSparseRegions "diff" sample_fs = (Ok rs, sample_fs) /\
    (forall i, covered rs i <-> f_data sample_diff !! i = Some true) /\ separated 0 4 rs.
Proof. apply (ExtractSparseRegions_exact "diff" sample_fs sample_diff). reflexivity. Defined.

Example merged_bytes :
  (f_bytes <$> (MergeDiffMemory "base" "diff" "out" (regions_of (f_data sample_diff)) sample_fs).2 !! "out") = Some [1; 9; 3; 0].
Proof. reflexivity. Qed.

Lemma merge_extracted_witness :
  exists o, MergeDiffMemory "base" "diff" "out" (regions_of (f_data sample_diff)) sample_fs =
      (Ok tt, <["out" := o]> sample_fs) /\ length (f_bytes o) = 4%nat /\
    forall i, f_bytes o !! i = if decide (f_data sample_diff !! i = Some true) then f_bytes sample_diff !! i else f_bytes sample_base !! i.
Proof.
  apply (merge_extracted "base" "diff" "out" sample_fs sample_base sample_diff);
    [discriminate | discriminate | reflexivity | reflexivity | exact sample_diff_wf | reflexivity | reflexivity].
Defined.

(** The codec that stores the bytes as they are. *)
Lemma zstd_keeps_bytes_not_holes_witness :
  let fs' := (DecompressFileZstd Ok "diff.zst" "copy" (CompressFileZstd (fun l => l) "diff" "diff.zst" sample_fs).2).2 in
  (f_bytes <$> fs' !! "copy") = Some [0; 9; 0; 0] /\
  exists rs, ExtractSparseRegions "copy" fs' = (Ok rs, fs') /\
    (f_bytes <$> (MergeDiffMemory "base" "copy" "out" rs fs').2 !! "out") = Some [0; 9; 0; 0].
Proof.
  apply (zstd_keeps_bytes_not_holes (fun l => l) Ok (fun l => eq_refl) "diff" "diff.zst" "copy" "out" "base" sample_fs sample_diff sample_base);
    first [discriminate | reflexivity].
Defined.

Lemma flattenDmDevice_contents_witness :
  f_bytes (flattenDmDevice (fun _ => 1%nat) {| d_file := sample_diff; d_seekable := true |} 6) = [0; 9; 0; 0; 0; 0].
Proof.
  exact (flattenDmDevice_contents (fun _ => 1%nat) {| d_file := sample_diff; d_seekable := true |} 6 sample_diff_wf ltac:(cbn; lia)).
Defined.
