(* ===== verification/ExecProtocol.v ===== *)
(** * The guest-agent protocol: exec_protocol.go and the RPC half of provider.go

    A request or response is one frame: four bytes of big-endian length, then that many
    bytes of JSON. The writer is any [io.Writer], the reader a stream with a known
    content followed by EOF. [rpcViaVsock] is the exchange of the provider with the
    guest, a parameter of which only the bytes matter. *)

From S2P Require Import Prelude Exception Naming GoLib Domain World PgRepo IPAlloc Interfaces Json.

Definition execProtocolVersion : Z := 1.
Definition frameHeaderSize : nat := 4.

Definition ExecProtocolStatusOK := "ok".
Definition ExecProtocolStatusError := "error".
Definition ExecProtocolErrorInternal := "internal_error".

Record execResponse := {
  er_ProtocolVersion : Z; er_RequestID : string; er_Status : string; er_ExitCode : Z;
  er_Stdout : string; er_Stderr : string; er_StdoutTruncated : bool; er_StderrTruncated : bool;
  er_ErrorCode : string; er_ErrorMessage : string; er_DurationMS : Z
}.

Record RPCRequest := {
  rq_ProtocolVersion : Z; rq_RequestID : string; rq_Method : string; rq_TimeoutMS : Z;
  rq_Argv : list string; rq_StdoutLimitBytes : Z; rq_StderrLimitBytes : Z;
  rq_Path : string; rq_Offset : Z; rq_Limit : Z; rq_Content : string; rq_Mode : Z;
  rq_OldString : string; rq_NewString : string; rq_ReplaceAll : bool
}.
Definition zero_response : execResponse :=
  {| er_ProtocolVersion := 0; er_RequestID := ""; er_Status := ""; er_ExitCode := 0; er_Stdout := ""; er_Stderr := "";
     er_StdoutTruncated := false; er_StderrTruncated := false; er_ErrorCode := ""; er_ErrorMessage := "";
     er_DurationMS := 0 |}.
Definition zero_request : RPCRequest :=
  {| rq_ProtocolVersion := 0; rq_RequestID := ""; rq_Method := ""; rq_TimeoutMS := 0; rq_Argv := [];
     rq_StdoutLimitBytes := 0; rq_StderrLimitBytes := 0; rq_Path := ""; rq_Offset := 0; rq_Limit := 0;
     rq_Content := ""; rq_Mode := 0; rq_OldString := ""; rq_NewString := ""; rq_ReplaceAll := false |}.

(** ** Structs as JSON objects *)

(** A member without, and with, the omitempty option. *)
Definition field (k : string) (v : value) : list (string * value) := [(k, v)].
Definition omitempty (empty : bool) (k : string) (v : value) : list (string * value) := if empty then [] else [(k, v)].
Definition str_field k s := field k (VStr s).
Definition int_field k z := field k (VInt z).
Definition str_opt k s := omitempty (bool_decide (s = EmptyString)) k (VStr s).
Definition int_opt k z := omitempty (bool_decide (z = 0)) k (VInt z).
Definition bool_opt k b := omitempty (negb b) k (VBool b).

Definition RPCRequest_json (q : RPCRequest) : value := VMap (
  int_field "protocol_version" (rq_ProtocolVersion q) ++
  str_field "request_id" (rq_RequestID q) ++
  str_field "method" (rq_Method q) ++
  int_field "timeout_ms" (rq_TimeoutMS q) ++
  omitempty (bool_decide (rq_Argv q = [])) "argv" (VList (map VStr (rq_Argv q))) ++
  int_opt "stdout_limit_bytes" (rq_StdoutLimitBytes q) ++
  int_opt "stderr_limit_bytes" (rq_StderrLimitBytes q) ++
  str_opt "path" (rq_Path q) ++
  int_opt "offset" (rq_Offset q) ++
  int_opt "limit" (rq_Limit q) ++
  str_opt "content" (rq_Content q) ++
  int_opt "mode" (rq_Mode q) ++
  str_opt "old_string" (rq_OldString q) ++
  str_opt "new_string" (rq_NewString q) ++
  bool_opt "replace_all" (rq_ReplaceAll q)).

Definition execResponse_json (r : execResponse) : value := VMap (
  int_field "protocol_version" (er_ProtocolVersion r) ++
  str_field "request_id" (er_RequestID r) ++
  str_field "status" (er_Status r) ++
  int_field "exit_code" (er_ExitCode r) ++
  str_field "stdout" (er_Stdout r) ++
  str_field "stderr" (er_Stderr r) ++
  field "stdout_truncated" (VBool (er_StdoutTruncated r)) ++
  field "stderr_truncated" (VBool (er_StderrTruncated r)) ++
  str_opt "error_code" (er_ErrorCode r) ++
  str_opt "error_message" (er_ErrorMessage r) ++
  int_field "duration_ms" (er_DurationMS r)).

(** Decoding: how one member updates the struct, [None] when its type does not fit. *)
Definition decoder (R : Type) : Type := list (string * (value -> R -> option R)).
Definition get_str {R} (set : string -> R -> R) (v : value) (r : R) : option R :=
  match v with VNil => Some r | VStr s => Some (set s r) | _ => None end.
Definition get_int {R} (set : Z -> R -> R) (v : value) (r : R) : option R :=
  match v with
  | VNil => Some r
  | VNum t => match parse_int t with Some z => Some (set z r) | None => None end
  | _ => None
  end.
Definition get_bool {R} (set : bool -> R -> R) (v : value) (r : R) : option R :=
  match v with VNil => Some r | VBool b => Some (set b r) | _ => None end.
Fixpoint strings_of (l : list value) : option (list string) :=
  match l with
  | [] => Some []
  | VStr s :: l' => cons s <$> strings_of l'
  | VNil :: l' => cons EmptyString <$> strings_of l'
  | _ => None
  end.
Definition get_strings {R} (set : list string -> R -> R) (v : value) (r : R) : option R :=
  match v with
  | VNil => Some (set [] r)
  | VList l => match strings_of l with Some l' => Some (set l' r) | None => None end
  | _ => None
  end.

(** Case folding of a member's name: ASCII letters, and the two letters that fold to one
    (U+017F to s, U+212A to k). *)
Fixpoint fold_name (s : string) : string :=
  match s with
  | EmptyString => EmptyString
  | String a t =>
      match t with
      | String b (String c t3 as t2) =>
          if bool_decide (code a = 226 /\ code b = 132 /\ code c = 170) then String (chr 107) (fold_name t3)
          else if bool_decide (code a = 197 /\ code b = 191) then String (chr 115) (fold_name t2)
          else String (lower_ascii a) (fold_name t)
      | String b EmptyString =>
          if bool_decide (code a = 197 /\ code b = 191) then String (chr 115) EmptyString
          else String (lower_ascii a) (fold_name t)
      | EmptyString => String (lower_ascii a) EmptyString
      end
  end.

(** The field with exactly this name, else the one whose name folds to the same. *)
Definition find_field {R} (d : decoder R) (k : string) : option (value -> R -> option R) :=
  match alookup k d with
  | Some f => Some f
  | None => snd <$> find (fun kf => bool_decide (fold_name (fst kf) = fold_name k)) d
  end.

(** The members one after the other; unknown names are ignored. *)
Fixpoint decode {R} (d : decoder R) (m : list (string * value)) (r : R) : option R :=
  match m with
  | [] => Some r
  | (k, v) :: m' =>
      match find_field d k with
      | None => decode d m' r
      | Some f => match f v r with Some r' => decode d m' r' | None => None end
      end
  end.
Definition decode_struct {R} (d : decoder R) (zero : R) (v : value) : option R :=
  match v with VNil => Some zero | VMap m => decode d m zero | _ => None end.

Definition RPCRequest_decoder : decoder RPCRequest := [
  ("protocol_version", get_int (fun x q => q <| rq_ProtocolVersion := x |>));
  ("request_id", get_str (fun x q => q <| rq_RequestID := x |>));
  ("method", get_str (fun x q => q <| rq_Method := x |>));
  ("timeout_ms", get_int (fun x q => q <| rq_TimeoutMS := x |>));
  ("argv", get_strings (fun x q => q <| rq_Argv := x |>));
  ("stdout_limit_bytes", get_int (fun x q => q <| rq_StdoutLimitBytes := x |>));
  ("stderr_limit_bytes", get_int (fun x q => q <| rq_StderrLimitBytes := x |>));
  ("path", get_str (fun x q => q <| rq_Path := x |>));
  ("offset", get_int (fun x q => q <| rq_Offset := x |>));
  ("limit", get_int (fun x q => q <| rq_Limit := x |>));
  ("content", get_str (fun x q => q <| rq_Content := x |>));
  ("mode", get_int (fun x q => q <| rq_Mode := x |>));
  ("old_string", get_str (fun x q => q <| rq_OldString := x |>));
  ("new_string", get_str (fun x q => q <| rq_NewString := x |>));
  ("replace_all", get_bool (fun x q => q <| rq_ReplaceAll := x |>))].

Definition execResponse_decoder : decoder execResponse := [
  ("protocol_version", get_int (fun x r => r <| er_ProtocolVersion := x |>));
  ("request_id", get_str (fun x r => r <| er_RequestID := x |>));
  ("status", get_str (fun x r => r <| er_Status := x |>));
  ("exit_code", get_int (fun x r => r <| er_ExitCode := x |>));
  ("stdout", get_str (fun x r => r <| er_Stdout := x |>));
  ("stderr", get_str (fun x r => r <| er_Stderr := x |>));
  ("stdout_truncated", get_bool (fun x r => r <| er_StdoutTruncated := x |>));
  ("stderr_truncated", get_bool (fun x r => r <| er_StderrTruncated := x |>));
  ("error_code", get_str (fun x r => r <| er_ErrorCode := x |>));
  ("error_message", get_str (fun x r => r <| er_ErrorMessage := x |>));
  ("duration_ms", get_int (fun x r => r <| er_DurationMS := x |>))].

(** ** Frames *)

(** [binary.BigEndian.PutUint32] and [Uint32]. *)
Definition PutUint32 (z : Z) : string :=
  String (chr (z / 2 ^ 24 mod 256)) (String (chr (z / 2 ^ 16 mod 256)) (String (chr (z / 2 ^ 8 mod 256)) (str1 (chr (z mod 256))))).
Definition Uint32 (s : string) : Z :=
  byte_at s 0 * 2 ^ 24 + byte_at s 1 * 2 ^ 16 + byte_at s 2 * 2 ^ 8 + byte_at s 3.

Definition too_large (what : string) (n max : Z) : error :=
  EText (what +:+ "payload too large: " +:+ fmt_d n +:+ " > " +:+ fmt_d max).

Section write.
Context {W : Type} (Write : string -> M W (option error)).
Local Open Scope go_scope.

Definition writeFramedJSON (v : value) (maxPayloadBytes : Z) : M W (option error) :=
  let payload := Marshal v in
  let len := Z.of_nat (str_len payload) in
  if bool_decide (len = 0) then ret (Some (EText "marshal framed json: empty payload"))
  else if bool_decide (0 < maxPayloadBytes) && bool_decide (maxPayloadBytes < len)
  then ret (Some (too_large "marshal framed json: " len maxPayloadBytes))
  else
    let header := PutUint32 (u32 len) in
    let* e := Write header in
    match e with
    | Some e => ret (Some (wrapf "write framed json header: " e))
    | None =>
        let* e := Write payload in
        match e with
        | Some e => ret (Some (wrapf "write framed json payload: " e))
        | None => ret None
        end
    end.
End write.

(** A reader: the bytes still to come, then EOF. [io.ReadFull] for a buffer of [n] bytes. *)
Definition ReadFull (n : Z) : M string (res string) := fun s =>
  if bool_decide (n <= Z.of_nat (str_len s)) then (Ok (take_str (Z.to_nat n) s), drop_str (Z.to_nat n) s)
  else (Err (if bool_decide (s = EmptyString) then eof else EText "unexpected EOF"), EmptyString).

(** json.Unmarshal into the struct that [decode] describes; the texts of the decoder's
    errors are not modelled. *)
Definition readFramedJSON {R} (out : value -> option R) (maxPayloadBytes : Z) : M string (res R) := fun s =>
  match ReadFull (Z.of_nat frameHeaderSize) s with
  | (Err e, s) => (Err (wrapf "read framed json header: " e), s)
  | (Ok header, s) =>
      let size := Uint32 header in
      if bool_decide (size <= 0) then (Err (EText ("read framed json: invalid payload size " +:+ fmt_d size)), s)
      else if bool_decide (0 < maxPayloadBytes) && bool_decide (maxPayloadBytes < size)
      then (Err (too_large "read framed json: " size maxPayloadBytes), s)
      else
        match ReadFull size s with
        | (Err e, s) => (Err (wrapf "read framed json payload: " e), s)
        | (Ok payload, s) =>
            match Unmarshal payload with
            | None => (Err (wrapf "unmarshal framed json: " (EText "invalid JSON")), s)
            | Some v =>
                match out v with
                | None => (Err (wrapf "unmarshal framed json: " (EText "type mismatch")), s)
                | Some r => (Ok r, s)
                end
            end
        end
  end.

(** ** Encoding and decoding a struct *)

Lemma decode_app {R} (d : decoder R) m m' r r' : decode d m r = Some r' -> decode d (m ++ m') r = decode d m' r'.
Proof.
  revert r. induction m as [|[k v] m IH]; simpl; intros r H; [by simplify_eq |].
  destruct (find_field d k) as [f|]; [| by apply IH]. destruct (f v r) as [r1|]; [by apply IH | done].
Qed.

Lemma decode_one {R} (d : decoder R) k v f r r' : alookup k d = Some f -> f v r = Some r' ->
  decode d (field k v) r = Some r'.
Proof. intros Hf Hv. simpl. unfold find_field. by rewrite Hf, Hv. Qed.

(** An omitted member leaves the zero value that it had. *)
Lemma decode_opt {R} (d : decoder R) (empty : bool) k v f r r' :
  alookup k d = Some f -> f v r = Some r' -> (empty = true -> r' = r) ->
  decode d (omitempty empty k v) r = Some r'.
Proof. intros Hf Hv He. destruct empty; [by rewrite He | by eapply decode_one]. Qed.

Lemma get_int_VInt {R} (set : Z -> R -> R) z r : i64 z = z -> get_int set (VInt z) r = Some (set z r).
Proof. intros H. simpl. by rewrite parse_int_fmt. Qed.
Lemma strings_of_map l : strings_of (map VStr l) = Some l.
Proof. induction l as [|s l IH]; simpl; [done | by rewrite IH]. Qed.
Lemma get_strings_map {R} (set : list string -> R -> R) l r : get_strings set (VList (map VStr l)) r = Some (set l r).
Proof. simpl. by rewrite strings_of_map. Qed.

(** Requests and responses that the wire can carry: 64-bit integers, UTF-8 strings. *)
Definition int_ok (z : Z) : Prop := i64 z = z.
Definition str_ok (s : string) : Prop := valid_utf8 s = true.
Record request_ok (q : RPCRequest) : Prop := {
  qo_ints : Forall int_ok [rq_ProtocolVersion q; rq_TimeoutMS q; rq_StdoutLimitBytes q; rq_StderrLimitBytes q;
                           rq_Offset q; rq_Limit q; rq_Mode q];
  qo_strs : Forall str_ok ([rq_RequestID q; rq_Method q; rq_Path q; rq_Content q; rq_OldString q; rq_NewString q] ++ rq_Argv q)
}.
Record response_ok (r : execResponse) : Prop := {
  ro_ints : Forall int_ok [er_ProtocolVersion r; er_ExitCode r; er_DurationMS r];
  ro_strs : Forall str_ok [er_RequestID r; er_Status r; er_Stdout r; er_Stderr r; er_ErrorCode r; er_ErrorMessage r]
}.

Ltac decode_step :=
  first
    [ erewrite decode_app; [| eapply decode_one; [reflexivity | first [by apply get_int_VInt | by apply get_strings_map | reflexivity]]]
    | erewrite decode_app; [| eapply decode_opt; [reflexivity | first [by apply get_int_VInt | by apply get_strings_map | reflexivity]
                              | intros He; first [apply bool_decide_eq_true_1 in He | apply negb_true_iff in He]; simpl in He |- *; by rewrite He]]
    | eapply decode_one; [reflexivity | first [(etransitivity; [apply get_int_VInt; done | reflexivity]) | by apply get_strings_map | reflexivity]]
    | eapply decode_opt; [reflexivity | first [by apply get_int_VInt | by apply get_strings_map | reflexivity]
                         | intros He; first [apply bool_decide_eq_true_1 in He | apply negb_true_iff in He]; simpl in He |- *; by rewrite He] ].

Ltac decode_fields :=
  unfold decode_struct, int_field, str_field, int_opt, str_opt, bool_opt;
  cbn [rq_ProtocolVersion rq_RequestID rq_Method rq_TimeoutMS rq_Argv rq_StdoutLimitBytes rq_StderrLimitBytes
       rq_Path rq_Offset rq_Limit rq_Content rq_Mode rq_OldString rq_NewString rq_ReplaceAll
       er_ProtocolVersion er_RequestID er_Status er_ExitCode er_Stdout er_Stderr er_StdoutTruncated
       er_StderrTruncated er_ErrorCode er_ErrorMessage er_DurationMS];
  repeat decode_step.

Lemma RPCRequest_decode q : request_ok q ->
  decode_struct RPCRequest_decoder zero_request (RPCRequest_json q) = Some q.
Proof.
  intros [Hi _]. destruct q. rewrite !Forall_cons in Hi. unfold int_ok in *. simpl in Hi. destruct_and!.
  unfold RPCRequest_json. decode_fields.
Qed.
Lemma execResponse_decode r : response_ok r ->
  decode_struct execResponse_decoder zero_response (execResponse_json r) = Some r.
Proof.
  intros [Hi _]. destruct r. rewrite !Forall_cons in Hi. unfold int_ok in *. simpl in Hi. destruct_and!.
  unfold execResponse_json. decode_fields.
Qed.

Definition members_ok (m : list (string * value)) : Prop := printable (VMap m).
Lemma members_app a b : members_ok a -> members_ok b -> members_ok (a ++ b).
Proof. unfold members_ok. induction a as [|x a IH]; [done |]. intros [Hx Ha] Hb. split; [exact Hx | by apply IH]. Qed.
Lemma members_field k v : str_ok k -> printable v -> members_ok (field k v).
Proof. done. Qed.
Lemma members_opt e k v : str_ok k -> printable v -> members_ok (omitempty e k v).
Proof. by destruct e. Qed.
Lemma printable_int z : printable (VInt z).
Proof. by exists z. Qed.
Lemma printable_strs l : Forall str_ok l -> printable (VList (map VStr l)).
Proof. induction 1; simpl; auto. Qed.

Ltac members_printable :=
  unfold int_field, str_field, int_opt, str_opt, bool_opt;
  repeat (apply members_app);
  first [apply members_field | apply members_opt];
  first [reflexivity | apply printable_int | by apply printable_strs | done].

Lemma request_printable q : request_ok q -> printable (RPCRequest_json q).
Proof.
  intros [_ Hs]. cbn [app] in Hs. rewrite !Forall_cons in Hs. destruct_and!.
  change (members_ok (match RPCRequest_json q with VMap m => m | _ => [] end)). cbn [RPCRequest_json]. members_printable.
Qed.
Lemma response_printable r : response_ok r -> printable (execResponse_json r).
Proof.
  intros [_ Hs]. rewrite !Forall_cons in Hs. destruct_and!.
  change (members_ok (match execResponse_json r with VMap m => m | _ => [] end)). cbn [execResponse_json]. members_printable.
Qed.

(** ** A frame is read back *)

Lemma code_chr z : 0 <= z < 256 -> code (chr z) = z.
Proof. intros H. unfold code, chr. rewrite Ascii.nat_ascii_embedding; lia. Qed.

Lemma Uint32_PutUint32 z : 0 <= z < 2 ^ 32 -> Uint32 (PutUint32 z) = z.
Proof.
  intros H. unfold Uint32, PutUint32, byte_at. cbn [String.get str1].
  rewrite !code_chr by (apply Z.mod_pos_bound; lia).
  assert (H24 : z / 2 ^ 24 < 256) by (apply Z.div_lt_upper_bound; lia).
  pose proof (Z.div_pos z (2 ^ 24)). rewrite (Z.mod_small (z / 2 ^ 24)) by lia.
  change (2 ^ 24) with (2 ^ 8 * (2 ^ 8 * 2 ^ 8)). change (2 ^ 16) with (2 ^ 8 * 2 ^ 8). change 256 with (2 ^ 8).
  rewrite <- !Z.div_div by lia.
  pose proof (Z.div_mod z (2 ^ 8)). pose proof (Z.div_mod (z / 2 ^ 8) (2 ^ 8)).
  pose proof (Z.div_mod (z / 2 ^ 8 / 2 ^ 8) (2 ^ 8)). lia.
Qed.

Lemma ReadFull_app a b : ReadFull (Z.of_nat (str_len a)) (a +:+ b) = (Ok a, b).
Proof.
  unfold ReadFull. rewrite bool_decide_eq_true_2 by (rewrite str_len_app; lia).
  by rewrite Nat2Z.id, take_str_app, drop_str_app.
Qed.

Lemma Marshal_nonempty v : printable v -> (0 < str_len (Marshal v))%nat.
Proof. intros H. destruct (Marshal_head v H) as (c & t & -> & _). unfold str_len. simpl. lia. Qed.

(** A writer that accepts everything. *)
Definition append_to (s : string) : M string (option error) := fun w => (None, w +:+ s).

Definition fits (v : value) (max : Z) : Prop :=
  Z.of_nat (str_len (Marshal v)) < 2 ^ 32 /\ (0 < max -> Z.of_nat (str_len (Marshal v)) <= max).

Lemma writeFramedJSON_ok v max w : printable v -> fits v max ->
  writeFramedJSON append_to v max w =
  (None, w +:+ PutUint32 (Z.of_nat (str_len (Marshal v))) +:+ Marshal v).
Proof.
  intros Hp [H32 Hmax]. pose proof (Marshal_nonempty v Hp). unfold writeFramedJSON.
  rewrite bool_decide_eq_false_2 by lia. rewrite u32_small by lia.
  assert (bool_decide (0 < max) && bool_decide (max < Z.of_nat (str_len (Marshal v))) = false) as ->.
  { apply andb_false_iff. destruct (decide (0 < max)); [right | left]; apply bool_decide_eq_false_2; lia. }
  unfold bind, append_to, ret. simpl. by rewrite append_assoc.
Qed.

Lemma readFramedJSON_frame {R} (out : value -> option R) v r max rest :
  printable v -> fits v max -> out v = Some r ->
  readFramedJSON out max (PutUint32 (Z.of_nat (str_len (Marshal v))) +:+ Marshal v +:+ rest) = (Ok r, rest).
Proof.
  intros Hp [H32 Hmax] Hout. pose proof (Marshal_nonempty v Hp). unfold readFramedJSON.
  rewrite (ReadFull_app (PutUint32 _)). rewrite Uint32_PutUint32 by lia.
  rewrite bool_decide_eq_false_2 by lia.
  assert (bool_decide (0 < max) && bool_decide (max < Z.of_nat (str_len (Marshal v))) = false) as ->.
  { apply andb_false_iff. destruct (decide (0 < max)); [right | left]; apply bool_decide_eq_false_2; lia. }
  rewrite ReadFull_app, Unmarshal_Marshal by done. by rewrite Hout.
Qed.

Definition frame (v : value) : string := PutUint32 (Z.of_nat (str_len (Marshal v))) +:+ Marshal v.

(** C15: A request written as one frame is read back as the same request, whatever
    follows it in the stream, when its integers fit in 64 bits, its strings are UTF-8
    and its JSON is within the limit; the reader is left at the first byte after the
    frame. *)
Theorem framed_request_roundtrip q max w : request_ok q -> fits (RPCRequest_json q) max ->
  writeFramedJSON append_to (RPCRequest_json q) max w = (None, w +:+ frame (RPCRequest_json q)) /\
  forall rest,
    readFramedJSON (decode_struct RPCRequest_decoder zero_request) max (frame (RPCRequest_json q) +:+ rest) = (Ok q, rest).
Proof.
  intros Hq Hf. pose proof (request_printable q Hq). split; [by apply writeFramedJSON_ok |].
  intros rest. unfold frame. rewrite append_assoc. apply readFramedJSON_frame; [done | done | by apply RPCRequest_decode].
Qed.

Lemma framed_response_roundtrip r max rest : response_ok r -> fits (execResponse_json r) max ->
  readFramedJSON (decode_struct execResponse_decoder zero_response) max (frame (execResponse_json r) +:+ rest) = (Ok r, rest).
Proof.
  intros Hr Hf. unfold frame. rewrite append_assoc.
  apply readFramedJSON_frame; [by apply response_printable | done | by apply execResponse_decode].
Qed.

Definition sample_request : RPCRequest :=
  {| rq_ProtocolVersion := 1; rq_RequestID := "17"; rq_Method := "write_file"; rq_TimeoutMS := -3; rq_Argv := ["ls"; ""];
     rq_StdoutLimitBytes := 0; rq_StderrLimitBytes := 5; rq_Path := "/a<b>"; rq_Offset := 0; rq_Limit := 0;
     rq_Content := "x" +:+ dquote +:+ encode_rune 8232 +:+ encode_rune 128512; rq_Mode := 420; rq_OldString := "";
     rq_NewString := ""; rq_ReplaceAll := true |}.
Lemma framed_request_roundtrip_witness :
  (writeFramedJSON append_to (RPCRequest_json sample_request) 200 "").1 = None /\
  (readFramedJSON (decode_struct RPCRequest_decoder zero_request) 200 (frame (RPCRequest_json sample_request) +:+ "tail")).2 = "tail".
Proof.
  assert (Hq : request_ok sample_request) by (split; cbn; repeat constructor).
  assert (Hf : fits (RPCRequest_json sample_request) 200) by (split; [| intros _]; vm_compute; congruence).
  destruct (framed_request_roundtrip sample_request 200 "" Hq Hf) as [H1 H2].
  split; [rewrite H1; reflexivity | rewrite H2; reflexivity].
Defined.

(** A frame is never read beyond the limit: the reader takes at most four bytes and the
    payload, or answers with an error. *)
Lemma readFramedJSON_limit {R} (out : value -> option R) max s r rest :
  readFramedJSON out max s = (Ok r, rest) -> 0 < max ->
  exists payload, (Z.of_nat (str_len payload) <= max) /\ s = take_str 4 s +:+ payload +:+ rest /\
    exists v, Unmarshal payload = Some v /\ out v = Some r.
Proof.
  unfold readFramedJSON, ReadFull. change (Z.of_nat frameHeaderSize) with 4. intros H Hmax.
  destruct (bool_decide (4 <= _)) eqn:E4; [| done]. apply bool_decide_eq_true_1 in E4. change (Z.to_nat 4) with 4%nat in H.
  set (size := Uint32 (take_str 4 s)) in *. set (s1 := drop_str 4 s) in *.
  destruct (bool_decide (size <= 0)) eqn:E0; [done |]. apply bool_decide_eq_false_1 in E0.
  rewrite (bool_decide_eq_true_2 (0 < max)) in H by done. cbn [andb] in H.
  destruct (bool_decide (max < size)) eqn:Em; [done |]. apply bool_decide_eq_false_1 in Em.
  destruct (bool_decide (size <= _)) eqn:Es; [| done]. apply bool_decide_eq_true_1 in Es.
  destruct (Unmarshal _) as [v|] eqn:Ev; [| done]. destruct (out v) as [r'|] eqn:Er; [| done]. simplify_eq.
  exists (take_str (Z.to_nat size) s1). split; [rewrite str_len_take by lia; lia |].
  split; [| by eauto]. rewrite take_drop_str by lia. symmetry. apply take_drop_str. lia.
Qed.
