(* ===== verification/Manifest.v ===== *)
(** * The manifest of a diff snapshot: WriteManifest and ReadManifest of compress.go

    The data regions of a diff memory file, extracted while the file is still sparse,
    travel as a JSON file beside the compressed image and drive the merge later. *)

From S2P Require Import Prelude Exception Naming GoLib Domain World PgRepo IPAlloc Interfaces Json SparseMem ExecProtocol.

Fixpoint bytes_of (s : string) : list Z :=
  match s with EmptyString => [] | String c s' => code c :: bytes_of s' end.
Fixpoint string_of (l : list Z) : string :=
  match l with [] => EmptyString | z :: l' => String (chr z) (string_of l') end.

Definition region_json (r : SparseRegion) : value :=
  VMap (int_field "offset" (sp_Offset r) ++ int_field "length" (sp_Length r)).
(** A nil slice is printed as null. *)
Definition regions_json (rs : list SparseRegion) : value :=
  match rs with [] => VNil | _ => VList (map region_json rs) end.

Definition region_decoder : decoder SparseRegion := [
  ("offset", get_int (fun x r => r <| sp_Offset := x |>));
  ("length", get_int (fun x r => r <| sp_Length := x |>))].
Definition zero_region : SparseRegion := {| sp_Offset := 0; sp_Length := 0 |}.
Fixpoint regions_of_values (l : list value) : option (list SparseRegion) :=
  match l with
  | [] => Some []
  | v :: l' => match decode_struct region_decoder zero_region v with
               | Some r => cons r <$> regions_of_values l'
               | None => None
               end
  end.
Definition decode_regions (v : value) : option (list SparseRegion) :=
  match v with VNil => Some [] | VList l => regions_of_values l | _ => None end.

Definition WriteManifest (path : string) (regions : list SparseRegion) : M FS (res unit) := fun fs =>
  (Ok tt, <[path := dense (bytes_of (Marshal (regions_json regions)))]> fs).

Definition ReadManifest (path : string) : M FS (res (list SparseRegion)) := fun fs =>
  (match fs !! path with
   | None => Err (wrapf "read manifest: " (no_entry path))
   | Some f =>
       match Unmarshal (string_of (f_bytes f)) with
       | None => Err (wrapf "unmarshal manifest: " (EText "invalid JSON"))
       | Some v => match decode_regions v with
                   | None => Err (wrapf "unmarshal manifest: " (EText "type mismatch"))
                   | Some rs => Ok rs
                   end
       end
   end, fs).

Lemma string_of_bytes_of s : string_of (bytes_of s) = s.
Proof.
  induction s as [|c s IH]; simpl; [done |]. rewrite IH. f_equal. unfold chr, code.
  by rewrite Nat2Z.id, Ascii.ascii_nat_embedding.
Qed.

Definition region_int (r : SparseRegion) : Prop := int_ok (sp_Offset r) /\ int_ok (sp_Length r).

Lemma region_decode r : region_int r -> decode_struct region_decoder zero_region (region_json r) = Some r.
Proof.
  intros [Ho Hl]. unfold int_ok in *. destruct r as [o l]. cbn [sp_Offset sp_Length] in *.
  unfold region_json. cbn [sp_Offset sp_Length]. decode_fields.
Qed.
Lemma regions_decode rs : Forall region_int rs -> decode_regions (regions_json rs) = Some rs.
Proof.
  intros H. destruct rs as [|r rs]; [done |]. cbn [regions_json decode_regions].
  induction H as [|r' rs' Hr _ IH]; [done |]. cbn [map regions_of_values]. by rewrite region_decode, IH.
Qed.
Lemma regions_printable rs : printable (regions_json rs).
Proof.
  destruct rs as [|r rs]; [done |]. cbn [regions_json]. generalize (r :: rs) as l. intros l.
  induction l as [|x l IH]; [done |]. split; [| exact IH].
  change (members_ok (int_field "offset" (sp_Offset x) ++ int_field "length" (sp_Length x))). members_printable.
Qed.

(** A manifest that was written is read back region by region, whatever else is in
    the file system and however often it is read. *)
Theorem manifest_roundtrip path regions fs :
  Forall region_int regions ->
  let fs' := (WriteManifest path regions fs).2 in
  ReadManifest path fs' = (Ok regions, fs') /\ forall other, other <> path -> fs' !! other = fs !! other.
Proof.
  intros H. split; [| intros other Hne; by apply lookup_insert_ne]. unfold ReadManifest, WriteManifest. cbn [snd].
  rewrite lookup_insert_eq. cbn [f_bytes dense]. rewrite string_of_bytes_of, Unmarshal_Marshal by apply regions_printable.
  by rewrite regions_decode.
Qed.

Lemma manifest_roundtrip_witness :
  (ReadManifest "m.json" (WriteManifest "m.json" [{| sp_Offset := 4096; sp_Length := 8192 |}] ∅).2).1 =
  Ok [{| sp_Offset := 4096; sp_Length := 8192 |}].
Proof.
  destruct (manifest_roundtrip "m.json" [{| sp_Offset := 4096; sp_Length := 8192 |}] ∅ ltac:(repeat constructor)) as [H _].
  cbn zeta in H. rewrite H. reflexivity.
Defined.

