(* ===== verification/GuestRPC.v ===== *)
(** * Commands and files of a guest: the vsock half of the firecracker provider

    [Execute], [ReadFile], [WriteFile] and [EditFile] of provider.go: one connection
    per call, one request frame, one response frame, and the checks on the response.
    The socket is a parameter: dialing it, writing to it, and all the bytes the guest
    sends back before it closes or the deadline of the call passes. *)

From Stdlib Require Import Ascii.
From S2P Require Import Prelude Exception Naming GoLib Domain World PgRepo IPAlloc Interfaces Json ExecProtocol.

(** The fields of firecracker.Config and VMInstance that the calls read. *)
Record ExecConfig := { fc_ExecEnabled : bool; fc_DefaultExecTimeout : Z; fc_MaxStdoutBytes : Z; fc_MaxStderrBytes : Z }.
Record VMInstance := {
  vi_ID : string; vi_VsockPath : string; vi_GuestCID : Z; vi_GuestPort : Z; vi_Config : CreateSpec }.

Definition positive_or (x y : Z) : Z := if bool_decide (0 < x) then x else y.

(** [resolveExecLimits]: the VM's own limit, else the provider's, else the built-in one. *)
Definition resolveExecLimits (c : ExecConfig) (v : VMInstance) : Z * Z * Z :=
  let e := rc_Exec (cs_Runtime (vi_Config v)) in
  (positive_or (el_Timeout e) (positive_or (fc_DefaultExecTimeout c) (60 * second)),
   positive_or (el_MaxStdoutBytes e) (positive_or (fc_MaxStdoutBytes c) (5 * 1024 * 1024)),
   positive_or (el_MaxStderrBytes e) (positive_or (fc_MaxStderrBytes c) (5 * 1024 * 1024))).

(** [reader.ReadString('\n')]: everything up to the newline, or EOF. *)
Definition ReadLine : M string (res string) := fun s =>
  match index_byte s (chr 10) with
  | Some i => (Ok (take_str (S i) s), drop_str (S i) s)
  | None => (Err eof, EmptyString)
  end.

Definition readVsockExecResponse {R} (out : value -> option R) (maxResponsePayload : Z) : M string (res R) := fun s =>
  if bool_decide (3 <= str_len s)%nat && bool_decide (take_str 3 s = "OK ") then
    match ReadLine s with
    | (Err e, s) => (Err (wrapf "read guest vsock ack: " e), s)
    | (Ok line, s) =>
        let ackLine := trim_space line in
        if has_prefix "OK" ackLine then readFramedJSON out maxResponsePayload s
        else (Err (EText ("guest vsock connect failed: " +:+ ackLine)), s)
    end
  else readFramedJSON out maxResponsePayload s.

(** The checks on a decoded response. *)
Definition check_response (q : RPCRequest) (r : execResponse) : execResponse * option error :=
  if negb (bool_decide (er_ProtocolVersion r = execProtocolVersion))
  then (r, Some (EText ("unsupported protocol version " +:+ fmt_d (er_ProtocolVersion r))))
  else if negb (bool_decide (er_RequestID r = rq_RequestID q))
  then (r, Some (EText "mismatched response request id"))
  else if bool_decide (er_Status r = ExecProtocolStatusError) then
    let errorCode := if bool_decide (er_ErrorCode r = "") then ExecProtocolErrorInternal else er_ErrorCode r in
    let r := if bool_decide (er_ErrorMessage r = "") then r <| er_ErrorMessage := "guest agent rpc failed" |> else r in
    (r, Some (EText ("guest agent error (" +:+ errorCode +:+ "): " +:+ er_ErrorMessage r)))
  else (r, None).

Section provider.
Context {W : Type}.
(** The socket of a VM, the deadline of the call, and the clock. *)
Context (Dial : string -> Z -> M W (option error)) (Write : string -> M W (option error)) (Receive : M W string)
        (DeadlineExceeded : M W bool) (UnixNano : M W Z).
Context (config : ExecConfig) (vms : gmap string VMInstance).
Local Open Scope go_scope.

Definition or_timeout (timeout other : string) (e : error) : M W (execResponse * option error) :=
  let* late := DeadlineExceeded in
  ret (zero_response, Some (if late then wrapf timeout (EText "context deadline exceeded") else wrapf other e)).

Definition rpcViaVsock (v : VMInstance) (q : RPCRequest) (maxResponsePayload : Z) : M W (execResponse * option error) :=
  let timeout := if bool_decide (0 < rq_TimeoutMS q) then i64 (rq_TimeoutMS q * 1000000)
                 else positive_or (fc_DefaultExecTimeout config) (60 * second) in
  let* e := Dial (vi_VsockPath v) timeout in
  match e with
  | Some e => or_timeout "connect guest agent timeout: " "connect guest agent: " e
  | None =>
      let* e := Write ("CONNECT " +:+ fmt_d (vi_GuestPort v) +:+ str1 (chr 10)) in
      match e with
      | Some e => ret (zero_response, Some (wrapf "open guest vsock stream: " e))
      | None =>
          let* e := writeFramedJSON Write (RPCRequest_json q) (12 * 1024 * 1024) in
          match e with
          | Some e => ret (zero_response, Some (wrapf "send rpc request: " e))
          | None =>
              let maxResponsePayload := Z.max maxResponsePayload (1024 * 1024) in
              let* bytes := Receive in
              match (readVsockExecResponse (decode_struct execResponse_decoder zero_response) maxResponsePayload bytes).1 with
              | Err e => or_timeout "rpc timeout: " "read rpc response: " e
              | Ok r => ret (check_response q r)
              end
          end
      end
  end.

Definition executeViaVsock (v : VMInstance) (cmd : list string) : M W ExecResult :=
  let '(timeout, stdoutLimit, stderrLimit) := resolveExecLimits config v in
  let* now := UnixNano in
  let q := zero_request <| rq_ProtocolVersion := execProtocolVersion |> <| rq_RequestID := fmt_d now |>
             <| rq_TimeoutMS := timeout / 1000000 |> <| rq_Argv := cmd |>
             <| rq_StdoutLimitBytes := stdoutLimit |> <| rq_StderrLimitBytes := stderrLimit |> in
  let* x := rpcViaVsock v q (i64 (stdoutLimit + stderrLimit + 256 * 1024)) in
  let '(r, e) := x in
  let result e := {| ex_stdout := er_Stdout r; ex_stderr := er_Stderr r; ex_code := er_ExitCode r; ex_err := e |} in
  match e with
  | Some e => ret (result (Some e))
  | None =>
      if er_StdoutTruncated r || er_StderrTruncated r
      then ret (result (Some (EText "command output exceeded configured limits")))
      else if negb (bool_decide (er_ExitCode r = 0))
      then ret (result (Some (EText ("command exited with code " +:+ fmt_d (er_ExitCode r)))))
      else ret (result None)
  end.

Definition not_running (id : string) : error := EText ("VM not found: " +:+ id).
Definition no_channel (id : string) : error := EText ("vsock command channel is not configured for VM " +:+ id).
Definition channel (v : VMInstance) : bool :=
  negb (bool_decide (vi_GuestCID v = 0) || bool_decide (vi_GuestPort v = 0) || bool_decide (vi_VsockPath v = "")).

Definition refused_exec (e : error) : ExecResult := {| ex_stdout := ""; ex_stderr := ""; ex_code := -1; ex_err := Some e |}.

Definition Execute (id : string) (cmd : list string) : M W ExecResult :=
  match vms !! id with
  | None => ret (refused_exec (not_running id))
  | Some v =>
      if bool_decide (cmd = []) then ret (refused_exec (EText "command is required"))
      else if negb (fc_ExecEnabled config) then ret (refused_exec (EText "command execution is disabled"))
      else if negb (channel v) then ret (refused_exec (no_channel id))
      else executeViaVsock v cmd
  end.

(** The request of a file operation, sent when the VM runs and has a channel. *)
Definition file_rpc (id : string) (q : RPCRequest) (max : Z) : M W (execResponse * option error) :=
  match vms !! id with
  | None => ret (zero_response, Some (not_running id))
  | Some v =>
      if negb (channel v) then ret (zero_response, Some (no_channel id))
      else
        let* now := UnixNano in
        rpcViaVsock v (q <| rq_ProtocolVersion := execProtocolVersion |> <| rq_RequestID := fmt_d now |>) max
  end.

Definition ReadFile (id path : string) (offset limit : Z) : M W (string * option error) :=
  let* x := file_rpc id (zero_request <| rq_Method := "read_file" |> <| rq_Path := path |>
                           <| rq_Offset := offset |> <| rq_Limit := limit |>) (12 * 1024 * 1024) in
  ret (er_Stdout x.1, x.2).

Definition WriteFile (id path content : string) (mode : Z) : M W (option error) :=
  let* x := file_rpc id (zero_request <| rq_Method := "write_file" |> <| rq_Path := path |>
                           <| rq_Content := content |> <| rq_Mode := mode |>) (256 * 1024) in
  ret x.2.

Definition EditFile (id path oldString newString : string) (replaceAll : bool) : M W (option error) :=
  let* x := file_rpc id (zero_request <| rq_Method := "edit_file" |> <| rq_Path := path |>
                           <| rq_OldString := oldString |> <| rq_NewString := newString |>
                           <| rq_ReplaceAll := replaceAll |>) (256 * 1024) in
  ret x.2.
End provider.

(** ** The acknowledgement line *)

Lemma trail_space_ok t : let s := String "O"%char (String "K"%char t) in (trail_space s <= str_len t)%nat.
Proof.
  cbn zeta. unfold trail_space. set (s := String _ _). assert (Hs : str_len s = S (S (str_len t))) by done.
  assert (Hget : forall i, (i <= 1)%nat -> byte_at s i = 79 \/ byte_at s i = 75).
  { intros [|[|i]] Hi; [by left | by right | lia]. }
  assert (Hno : forall i b c, (i <= 1)%nat -> space_len (byte_at s i) b c = 0%nat).
  { intros i b c Hi. unfold space_len. destruct (Hget i Hi) as [-> | ->]; rewrite !bool_decide_eq_false_2 by lia; done. }
  rewrite Hs. case_bool_decide as H1.
  { destruct (str_len t) as [|n]; [rewrite Hno in H1 by lia; lia | lia]. }
  case_bool_decide as H2.
  { destruct (str_len t) as [|[|n]]; [rewrite Hno in H2 by lia; lia | rewrite Hno in H2 by lia; lia | lia]. }
  case_bool_decide as H3; [| lia].
  destruct (str_len t) as [|[|[|n]]]; [rewrite Hno in H3 by lia; lia | rewrite Hno in H3 by lia; lia | rewrite Hno in H3 by lia; lia | lia].
Qed.

Lemma trim_right_keeps_ok fuel t :
  has_prefix "OK" (trim_right_fuel fuel (String "O"%char (String "K"%char t))) = true.
Proof.
  revert t. induction fuel as [|f IH]; intros t; [done |]. cbn [trim_right_fuel].
  pose proof (trail_space_ok t) as Hle. cbn zeta in Hle.
  destruct (trail_space _) as [|n] eqn:E; [done |].
  replace (str_len (String "O"%char (String "K"%char t)) - S n)%nat with (S (S (str_len t - S n)))
    by (unfold str_len in *; simpl String.length in *; lia).
  cbn [take_str]. apply IH.
Qed.

Lemma trim_keeps_ok t : has_prefix "OK" (trim_space (String "O"%char (String "K"%char t))) = true.
Proof. unfold trim_space. cbn [trim_left_fuel str_len String.length]. apply trim_right_keeps_ok. Qed.

Lemma index_byte_app a c r : index_byte a c = None -> index_byte (a +:+ String c r) c = Some (str_len a).
Proof.
  unfold str_len. induction a as [|x a IH]; simpl; [by rewrite bool_decide_eq_true_2 |].
  case_bool_decide; [done |]. intros H'. rewrite IH; [done |]. by destruct (index_byte a c).
Qed.

(** An acknowledgement of some firecracker versions: OK, and a line without a newline. *)
Definition ack (line : string) : string := "OK " +:+ line +:+ str1 (chr 10).

Lemma readVsockExecResponse_ack {R} (out : value -> option R) max line rest : index_byte line (chr 10) = None ->
  readVsockExecResponse out max (ack line +:+ rest) = readFramedJSON out max rest.
Proof.
  intros Hl. unfold readVsockExecResponse. unfold ack. rewrite !append_assoc.
  change (str1 (chr 10) +:+ rest) with (String (chr 10) rest).
  set (s := "OK " +:+ line +:+ String (chr 10) rest).
  rewrite bool_decide_eq_true_2 by (unfold s; rewrite str_len_app; change (str_len "OK ") with 3%nat; lia).
  rewrite (bool_decide_eq_true_2 (take_str 3 s = "OK ")) by (unfold s; apply (take_str_app "OK ")). cbn [andb].
  unfold ReadLine.
  assert (Hi : index_byte s (chr 10) = Some (str_len ("OK " +:+ line))).
  { unfold s. rewrite <- append_assoc. apply index_byte_app. simpl. by rewrite Hl. }
  rewrite Hi.
  assert (Hsplit : s = ("OK " +:+ line +:+ str1 (chr 10)) +:+ rest).
  { unfold s. by rewrite !append_assoc. }
  assert (Hlen : S (str_len ("OK " +:+ line)) = str_len ("OK " +:+ line +:+ str1 (chr 10))).
  { rewrite !str_len_app. change (str_len (str1 _)) with 1%nat. lia. }
  rewrite Hlen, Hsplit, take_str_app, drop_str_app. cbn [String.append]. by rewrite trim_keeps_ok.
Qed.

(** A frame within the limit does not look like an acknowledgement. *)
Lemma frame_not_ack n t : 0 <= n < 2 ^ 30 -> take_str 3 (PutUint32 n +:+ t) <> "OK ".
Proof.
  intros Hn. unfold PutUint32. cbn [String.append take_str str1]. intros [= H _ _].
  apply (f_equal code) in H. rewrite code_chr in H by (apply Z.mod_pos_bound; lia).
  change (code _) with 79 in H.
  assert (n / 2 ^ 24 < 64) by (apply Z.div_lt_upper_bound; lia). pose proof (Z.div_pos n (2 ^ 24)).
  rewrite Z.mod_small in H by lia. lia.
Qed.

(** The response frame of a guest is decoded whether or not the VMM puts its own
    acknowledgement line before it: no frame below a gigabyte can be taken for one. *)
Theorem guest_response_read r max prefix rest :
  response_ok r -> fits (execResponse_json r) max -> 0 < max < 2 ^ 30 ->
  (prefix = EmptyString \/ exists line, index_byte line (chr 10) = None /\ prefix = ack line) ->
  readVsockExecResponse (decode_struct execResponse_decoder zero_response) max
    (prefix +:+ frame (execResponse_json r) +:+ rest) = (Ok r, rest).
Proof.
  intros Hr Hf Hmax [->|(line & Hl & ->)].
  - unfold readVsockExecResponse. cbn [String.append].
    rewrite (bool_decide_eq_false_2 (take_str 3 _ = "OK ")); [rewrite andb_false_r; by apply framed_response_roundtrip |].
    unfold frame. rewrite append_assoc. apply frame_not_ack. destruct Hf as [_ Hf]. lia.
  - rewrite readVsockExecResponse_ack by done. by apply framed_response_roundtrip.
Qed.

(** ** A command that succeeds was answered by the guest *)

Section sound.
Context {W : Type}.
Context (Dial : string -> Z -> M W (option error)) (Write : string -> M W (option error)) (Receive : M W string)
        (DeadlineExceeded : M W bool) (UnixNano : M W Z).
Context (config : ExecConfig) (vms : gmap string VMInstance).

(** What the guest sent, decoded. *)
Definition answered (q_id : string) (max : Z) (r : execResponse) : Prop :=
  (exists w0, (readVsockExecResponse (decode_struct execResponse_decoder zero_response) max (Receive w0).1).1 = Ok r) /\
  er_ProtocolVersion r = execProtocolVersion /\ er_RequestID r = q_id /\ er_Status r <> ExecProtocolStatusError.

Lemma check_response_None q r r' : check_response q r = (r', None) ->
  r' = r /\ er_ProtocolVersion r = execProtocolVersion /\ er_RequestID r = rq_RequestID q /\
  er_Status r <> ExecProtocolStatusError.
Proof.
  unfold check_response. destruct (decide (er_ProtocolVersion r = execProtocolVersion)) as [Hv|Hv];
    [rewrite bool_decide_eq_true_2 by done | rewrite bool_decide_eq_false_2 by done; done]. cbn [negb].
  destruct (decide (er_RequestID r = rq_RequestID q)) as [Hi|Hi];
    [rewrite bool_decide_eq_true_2 by done | rewrite bool_decide_eq_false_2 by done; done]. cbn [negb].
  case_bool_decide as Hs; intros; by simplify_eq.
Qed.

Lemma rpcViaVsock_None v q max w r w' :
  rpcViaVsock Dial Write Receive DeadlineExceeded config v q max w = (r, None, w') ->
  answered (rq_RequestID q) (Z.max max (1024 * 1024)) r.
Proof.
  assert (Hlate : forall a b e w r w', or_timeout DeadlineExceeded a b e w <> (r, None, w')).
  { intros ?????? H. unfold or_timeout, bind, ret in H. by destruct (DeadlineExceeded _). }
  unfold rpcViaVsock, bind. destruct (Dial _ _ w) as [[e|] w1]; [by intros ?%Hlate |].
  destruct (Write _ w1) as [[e|] w2]; [done |]. destruct (writeFramedJSON _ _ _ w2) as [[e|] w3]; [done |].
  destruct (Receive w3) as [bytes w4] eqn:Er.
  destruct (readVsockExecResponse _ _ bytes).1 as [r0|e] eqn:Ed; [| by intros ?%Hlate].
  intros H. unfold ret in H. injection H as H1 H2. apply check_response_None in H1 as (-> & Hv & Hi & Hs).
  split; [exists w3; by rewrite Er |]. done.
Qed.

(** [Execute] reports a command as successful only for a VM that the provider runs
    with a configured channel, while commands are enabled, and only when the guest
    answered this very request (protocol version, request id) without an error status,
    with exit code 0 and nothing truncated; the output is the guest's. *)
Theorem Execute_success_sound id cmd w r w' :
  Execute Dial Write Receive DeadlineExceeded UnixNano config vms id cmd w = (r, w') -> ex_err r = None ->
  exists v resp, vms !! id = Some v /\ channel v = true /\ cmd <> [] /\ fc_ExecEnabled config = true /\
    (let '(_, out, err) := resolveExecLimits config v in
     answered (fmt_d (UnixNano w).1) (Z.max (i64 (out + err + 256 * 1024)) (1024 * 1024)) resp) /\
    er_StdoutTruncated resp = false /\ er_StderrTruncated resp = false /\ er_ExitCode resp = 0 /\
    r = {| ex_stdout := er_Stdout resp; ex_stderr := er_Stderr resp; ex_code := 0; ex_err := None |}.
Proof.
  unfold Execute. destruct (vms !! id) as [v|] eqn:Hv; [| by intros [= <- _]].
  case_bool_decide as Hc; [by intros [= <- _] |]. destruct (fc_ExecEnabled config) eqn:He; [| by intros [= <- _]].
  destruct (channel v) eqn:Hch; [| by intros [= <- _]]. cbn [negb]. unfold executeViaVsock.
  destruct (resolveExecLimits config v) as [[timeout out] err] eqn:El. unfold bind at 1.
  destruct (UnixNano w) as [now w1]. unfold bind.
  destruct (rpcViaVsock _ _ _ _ _ _ _ _ w1) as [[resp [e|]] w2] eqn:Hr; [by intros [= <- _] |].
  apply rpcViaVsock_None in Hr. simpl in Hr.
  destruct (er_StdoutTruncated resp) eqn:Eo; [by intros [= <- _] |].
  destruct (er_StderrTruncated resp) eqn:Ee; [by intros [= <- _] |]. cbn [orb].
  case_bool_decide as Hx; [| by intros [= <- _]]. cbn [negb]. intros [= <- _] _.
  exists v, resp. rewrite El. split_and!; try done. by rewrite Hx.
Qed.
End sound.

(** ** A socket that works *)

Record Socket := { so_sent : string; so_reply : string; so_now : Z }.
Definition sock_Dial (path : string) (timeout : Z) : M Socket (option error) := ret None.
Definition sock_Write (s : string) : M Socket (option error) := fun w => (None, w <| so_sent := so_sent w +:+ s |>).
Definition sock_Receive : M Socket string := fun w => (so_reply w, w).
Definition sock_Late : M Socket bool := ret false.
Definition sock_Now : M Socket Z := fun w => (so_now w, w).

Definition connect (v : VMInstance) : string := "CONNECT " +:+ fmt_d (vi_GuestPort v) +:+ str1 (chr 10).
Definition max_request : Z := 12 * 1024 * 1024.

(** The call on a working socket: the bytes the guest receives, and what is made of its
    reply. *)
Definition rpc_outcome (q : RPCRequest) (max : Z) (reply : string) : execResponse * option error :=
  match (readVsockExecResponse (decode_struct execResponse_decoder zero_response) max reply).1 with
  | Err e => (zero_response, Some (wrapf "read rpc response: " e))
  | Ok r => check_response q r
  end.

Lemma sent_twice w a b :
  (w <| so_sent := so_sent w +:+ a |>) <| so_sent := so_sent (w <| so_sent := so_sent w +:+ a |>) +:+ b |> =
  w <| so_sent := so_sent w +:+ a +:+ b |>.
Proof. destruct w. simpl. by rewrite append_assoc. Qed.

Lemma rpc_on_socket c v q max w : request_ok q -> fits (RPCRequest_json q) max_request ->
  rpcViaVsock sock_Dial sock_Write sock_Receive sock_Late c v q max w =
  (rpc_outcome q (Z.max max (1024 * 1024)) (so_reply w),
   w <| so_sent := so_sent w +:+ connect v +:+ frame (RPCRequest_json q) |>).
Proof.
  intros Hq [H32 Hmax]. pose proof (request_printable q Hq) as Hp. pose proof (Marshal_nonempty _ Hp).
  specialize (Hmax ltac:(done)). unfold max_request in Hmax.
  assert (Hw : forall w, writeFramedJSON sock_Write (RPCRequest_json q) (12 * 1024 * 1024) w =
                         (None, w <| so_sent := so_sent w +:+ frame (RPCRequest_json q) |>)).
  { intros w0. unfold writeFramedJSON. rewrite bool_decide_eq_false_2 by lia.
    rewrite (bool_decide_eq_false_2 (_ < Z.of_nat _)) by lia. rewrite andb_false_r, u32_small by lia.
    unfold bind, sock_Write, ret, frame. cbv beta iota. by rewrite sent_twice. }
  unfold rpcViaVsock, bind. unfold sock_Dial at 1. unfold ret at 1. unfold sock_Write at 1. rewrite Hw.
  unfold sock_Receive. unfold rpc_outcome, or_timeout, sock_Late, bind, ret.
  cbv beta iota. rewrite sent_twice. cbn [so_reply]. by destruct (readVsockExecResponse _ _ _) as [[?|?] ?].
Qed.

Definition write_request (path content : string) (mode now : Z) : RPCRequest :=
  zero_request <| rq_ProtocolVersion := execProtocolVersion |> <| rq_RequestID := fmt_d now |>
    <| rq_Method := "write_file" |> <| rq_Path := path |> <| rq_Content := content |> <| rq_Mode := mode |>.

(** [WriteFile] hands the guest exactly one connection request and one frame, and
    the frame decodes to a write of the same content to the same path with the same
    mode: nothing in the content (quotes, control bytes, characters JSON escapes) is
    altered on the way. *)
Theorem WriteFile_delivers c vms id v path content mode w :
  vms !! id = Some v -> channel v = true ->
  request_ok (write_request path content mode (so_now w)) ->
  fits (RPCRequest_json (write_request path content mode (so_now w))) max_request ->
  exists f, so_sent (WriteFile sock_Dial sock_Write sock_Receive sock_Late sock_Now c vms id path content mode w).2 =
              so_sent w +:+ connect v +:+ f /\
    readFramedJSON (decode_struct RPCRequest_decoder zero_request) max_request f =
      (Ok (write_request path content mode (so_now w)), EmptyString).
Proof.
  intros Hv Hc Hq Hf. exists (frame (RPCRequest_json (write_request path content mode (so_now w)))).
  split.
  - unfold WriteFile, file_rpc. unfold bind at 1. rewrite Hv, Hc. cbn [negb]. unfold bind, sock_Now.
    match goal with |- context [rpcViaVsock _ _ _ _ _ _ ?q _ _] =>
      replace q with (write_request path content mode (so_now w)) by reflexivity end.
    rewrite rpc_on_socket by done. unfold ret. reflexivity.
  - pose proof (framed_request_roundtrip _ _ EmptyString Hq Hf) as [_ Hr].
    rewrite <- (append_nil_r (frame _)). exact (Hr EmptyString).
Qed.

Definition command_request (c : ExecConfig) (v : VMInstance) (cmd : list string) (now : Z) : RPCRequest :=
  let '(timeout, out, err) := resolveExecLimits c v in
  zero_request <| rq_ProtocolVersion := execProtocolVersion |> <| rq_RequestID := fmt_d now |>
    <| rq_TimeoutMS := timeout / 1000000 |> <| rq_Argv := cmd |>
    <| rq_StdoutLimitBytes := out |> <| rq_StderrLimitBytes := err |>.

(** The verdict on an answer without a protocol error. *)
Definition verdict (r : execResponse) : option error :=
  if er_StdoutTruncated r || er_StderrTruncated r then Some (EText "command output exceeded configured limits")
  else if bool_decide (er_ExitCode r = 0) then None
  else Some (EText ("command exited with code " +:+ fmt_d (er_ExitCode r))).

(** C14: The exchange for a command, end to end: the guest receives the command in one
    frame; when its answer (with or without an acknowledgement line) carries the
    request's id and no error status, [Execute] returns the guest's output and exit
    code unchanged, with an error exactly when output was truncated or the exit code
    is not 0. *)
Theorem Execute_exchange c vms id v cmd prefix resp rest w :
  vms !! id = Some v -> channel v = true -> cmd <> [] -> fc_ExecEnabled c = true ->
  request_ok (command_request c v cmd (so_now w)) ->
  fits (RPCRequest_json (command_request c v cmd (so_now w))) max_request ->
  so_reply w = prefix +:+ frame (execResponse_json resp) +:+ rest ->
  (prefix = EmptyString \/ exists line, index_byte line (chr 10) = None /\ prefix = ack line) ->
  response_ok resp -> fits (execResponse_json resp) (1024 * 1024) ->
  (let '(_, out, err) := resolveExecLimits c v in out + err + 256 * 1024 < 2 ^ 30) ->
  er_ProtocolVersion resp = execProtocolVersion -> er_RequestID resp = fmt_d (so_now w) ->
  er_Status resp <> ExecProtocolStatusError ->
  Execute sock_Dial sock_Write sock_Receive sock_Late sock_Now c vms id cmd w =
    ({| ex_stdout := er_Stdout resp; ex_stderr := er_Stderr resp; ex_code := er_ExitCode resp; ex_err := verdict resp |},
     w <| so_sent := so_sent w +:+ connect v +:+ frame (RPCRequest_json (command_request c v cmd (so_now w))) |>).
Proof.
  intros Hv Hch Hcmd He Hq Hf Hreply Hprefix Hr Hfr Hlim Hver Hid Hst.
  unfold Execute. rewrite Hv, Hch, He, bool_decide_eq_false_2 by done. cbn [negb]. unfold executeViaVsock.
  assert (exists m, resolveExecLimits c v = m) as [[[timeout out] err] El] by eauto.
  assert (Hpos : 0 < out /\ 0 < err).
  { unfold resolveExecLimits in El. injection El as _ <- <-. unfold positive_or. split; repeat case_bool_decide; lia. }
  rewrite El in *. unfold bind at 1, sock_Now.
  set (q := command_request c v cmd (so_now w)) in *.
  assert (Hqe : zero_request <| rq_ProtocolVersion := execProtocolVersion |> <| rq_RequestID := fmt_d (so_now w) |>
    <| rq_TimeoutMS := timeout / 1000000 |> <| rq_Argv := cmd |>
    <| rq_StdoutLimitBytes := out |> <| rq_StderrLimitBytes := err |> = q).
  { unfold q, command_request. by rewrite El. }
  rewrite Hqe. unfold bind. rewrite rpc_on_socket by done. rewrite i64_small by lia.
  assert (Ho : rpc_outcome q (Z.max (out + err + 256 * 1024) (1024 * 1024)) (so_reply w) = (resp, None)).
  { unfold rpc_outcome. rewrite Hreply, guest_response_read; [| done | | lia | done].
    - cbn [fst]. unfold check_response. rewrite <- Hqe. cbn [rq_RequestID].
      rewrite bool_decide_eq_true_2 by done. rewrite (bool_decide_eq_true_2 (er_RequestID resp = _)) by done.
      by rewrite bool_decide_eq_false_2.
    - destruct Hfr as [H1 H2]. split; [done | intros _; lia]. }
  rewrite Ho. unfold ret, verdict. destruct (er_StdoutTruncated resp || er_StderrTruncated resp); [done |].
  by case_bool_decide.
Qed.

(** ** Witnesses *)

Definition sample_config : ExecConfig :=
  {| fc_ExecEnabled := true; fc_DefaultExecTimeout := 60 * second; fc_MaxStdoutBytes := 4096; fc_MaxStderrBytes := 4096 |}.
Definition sample_vm : VMInstance :=
  {| vi_ID := "v1"; vi_VsockPath := "/run/v1/agent.vsock"; vi_GuestCID := 1024; vi_GuestPort := 10789;
     vi_Config := {| cs_InstanceID := "v1"; cs_EnvironmentID := "e"; cs_ImagePath := ""; cs_Resources := {| rl_VCPU := 1; rl_MemoryMB := 1; rl_DiskMB := 1 |};
                     cs_Workspace := {| wc_ConversationID := "c"; wc_SizeGB := 0 |};
                     cs_Runtime := DefaultRuntimeConfig; cs_RestoreAsFull := false; cs_CowChainPaths := []; cs_DiskImagePath := "" |} |}.
Definition sample_vms : gmap string VMInstance := {[ "v1" := sample_vm ]}.
Definition sample_answer (code : Z) : execResponse :=
  {| er_ProtocolVersion := 1; er_RequestID := "42"; er_Status := "ok"; er_ExitCode := code; er_Stdout := "total 0";
     er_Stderr := ""; er_StdoutTruncated := false; er_StderrTruncated := false; er_ErrorCode := ""; er_ErrorMessage := "";
     er_DurationMS := 12 |}.
Definition sample_socket (code : Z) : Socket :=
  {| so_sent := ""; so_reply := ack "1073741824" +:+ frame (execResponse_json (sample_answer code)); so_now := 42 |}.
Lemma sample_answer_ok : response_ok (sample_answer 0).
Proof. split; cbn; repeat constructor. Qed.
Lemma sample_answer_fits : fits (execResponse_json (sample_answer 0)) (1024 * 1024).
Proof. split; [| intros _]; vm_compute; congruence. Qed.

Lemma guest_response_read_witness :
  (readVsockExecResponse (decode_struct execResponse_decoder zero_response) (1024 * 1024)
    (ack "1073741824" +:+ frame (execResponse_json (sample_answer 0)) +:+ "x")).2 = "x".
Proof.
  pose proof (guest_response_read (sample_answer 0) (1024 * 1024) (ack "1073741824") "x" sample_answer_ok sample_answer_fits
    ltac:(lia) ltac:(right; by exists "1073741824")) as H.
  rewrite H. reflexivity.
Defined.

Lemma Execute_success_sound_witness :
  exists resp, er_ExitCode resp = 0 /\ er_StdoutTruncated resp = false.
Proof.
  destruct (Execute_success_sound sock_Dial sock_Write sock_Receive sock_Late sock_Now sample_config sample_vms
    "v1" ["ls"] (sample_socket 0) _ _ (surjective_pairing _) ltac:(vm_compute; reflexivity)) as (v & resp & _ & _ & _ & _ & _ & Ho & _ & Hx & _).
  by exists resp.
Defined.

Lemma WriteFile_delivers_witness :
  exists f, so_sent (WriteFile sock_Dial sock_Write sock_Receive sock_Late sock_Now sample_config sample_vms
    "v1" "/etc/motd" ("a" +:+ dquote) 420 (sample_socket 0)).2 = "" +:+ connect sample_vm +:+ f.
Proof.
  edestruct (WriteFile_delivers sample_config sample_vms "v1" sample_vm "/etc/motd" ("a" +:+ dquote) 420 (sample_socket 0))
    as (f & Hf & _); [reflexivity | reflexivity | split; cbn; repeat constructor | split; [| intros _]; vm_compute; congruence |].
  exists f. exact Hf.
Defined.

Lemma Execute_exchange_witness :
  ex_err (Execute sock_Dial sock_Write sock_Receive sock_Late sock_Now sample_config sample_vms "v1" ["ls"] (sample_socket 0)).1 = None.
Proof.
  pose proof (Execute_exchange sample_config sample_vms "v1" sample_vm ["ls"] (ack "1073741824") (sample_answer 0) ""
    (sample_socket 0) eq_refl eq_refl ltac:(done) eq_refl ltac:(split; cbn; repeat constructor)
    ltac:(split; [| intros _]; vm_compute; congruence) ltac:(cbn [so_reply sample_socket]; by rewrite append_nil_r)
    ltac:(right; by exists "1073741824") sample_answer_ok sample_answer_fits ltac:(vm_compute; reflexivity)
    eq_refl ltac:(vm_compute; reflexivity) ltac:(done)) as H.
  rewrite H. reflexivity.
Defined.
