(* ===== verification/CIDAlloc.v ===== *)
(** * Guest CIDs: cid_allocator.go and the CID half of the firecracker provider

    Every microVM has a vsock context id. [AllocateDeterministicCID] probes the
    configured range from a hash of the VM's id; [resolveGuestCID] asks it for an id
    that no running VM has and that no other VM's directory records; the id is then
    written to the VM's own directory ([persistGuestCID]) until [releaseGuestCID]
    removes it. *)

From stdpp Require Import sorting.
From S2P Require Import Prelude Exception Naming GoLib Domain World PgRepo IPAlloc Interfaces Json ExecProtocol GuestRPC.

(** ** The allocator *)

Definition hashVMID (vmID : string) : Z := fnv32a vmID.

Definition no_cid (minCID maxCID : Z) : error :=
  EText ("no available cid in range [" +:+ fmt_d minCID +:+ ", " +:+ fmt_d maxCID +:+ "]").

Section allocator.
Context (minCID maxCID : Z) (inUse : Z -> res bool).

Definition candidate (startCID rangeSize i : Z) : Z :=
  u32 (minCID + u32 (u32 (startCID - minCID) + i) mod rangeSize).

(** The loop from the counter [i], with [n] rounds to go. *)
Fixpoint probe (n : nat) (startCID rangeSize i : Z) : res Z :=
  match n with
  | O => Err (no_cid minCID maxCID)
  | S n' =>
      let c := candidate startCID rangeSize i in
      match inUse c with
      | Err e => Err (wrapf ("check cid " +:+ fmt_d c +:+ ": ") e)
      | Ok used => if used then probe n' startCID rangeSize (i + 1) else Ok c
      end
  end.

Definition AllocateDeterministicCID (vmID : string) : res Z :=
  if bool_decide (vmID = "") then Err (EText "vm id is required")
  else if bool_decide (minCID < 3) then Err (EText "min cid must be >= 3")
  else if bool_decide (maxCID < minCID) then Err (EText "max cid must be >= min cid")
  else
    let rangeSize := u32 (maxCID - minCID + 1) in
    let startCID := u32 (minCID + hashVMID vmID mod rangeSize) in
    probe (Z.to_nat rangeSize) startCID rangeSize 0.
End allocator.

(** ** The directories of the VMs *)

(** An entry of BaseDir: a plain file, or the directory of a VM with the content of its
    guest.cid if it has one. *)
#[warnings="-register-all"]
Inductive entry := PlainFile | VMDirectory (guest_cid : option string).
Abbreviation BaseDir := (gmap string entry).

Definition name_le (a b : string * entry) : Prop := String.le (fst a) (fst b).
#[export] Instance name_le_dec : RelDecision name_le.
Proof. intros a b. unfold name_le. apply _. Defined.
(** [os.ReadDir] sorts by name. *)
Definition ReadDir (d : BaseDir) : list (string * entry) := merge_sort name_le (map_to_list d).

(** [strconv.ParseUint(raw, 10, 32)] *)
Definition ParseUint32 (raw : string) : res Z :=
  let failed why := Err (EText ("strconv.ParseUint: parsing " +:+ fmt_q raw +:+ ": " +:+ why)) in
  match parse_digits raw with
  | Some z => if bool_decide (z < 2 ^ 32) then Ok z else failed "value out of range"
  | None => failed "invalid syntax"
  end.

Definition readPersistedGuestCID (content : string) : res Z :=
  let raw := trim_space content in
  if bool_decide (raw = "") then Err (EText "empty cid metadata")
  else match ParseUint32 raw with
       | Ok z => Ok z
       | Err e => Err (wrapf "parse cid metadata: " e)
       end.

Fixpoint load_entries (excludeVMID : string) (l : list (string * entry)) (used : gset Z) : res (gset Z) :=
  match l with
  | [] => Ok used
  | (_, PlainFile) :: l' | (_, VMDirectory None) :: l' => load_entries excludeVMID l' used
  | (name, VMDirectory (Some content)) :: l' =>
      if bool_decide (name = excludeVMID) then load_entries excludeVMID l' used
      else match readPersistedGuestCID content with
           | Err e => Err (wrapf ("read persisted guest cid for vm " +:+ name +:+ ": ") e)
           | Ok cid => load_entries excludeVMID l' (if bool_decide (0 < cid) then {[cid]} ∪ used else used)
           end
  end.
Definition loadPersistedGuestCIDs (d : BaseDir) (excludeVMID : string) : res (gset Z) :=
  load_entries excludeVMID (ReadDir d) ∅.

(** Some other running VM has this CID. *)
Definition running_has (vms : gmap string VMInstance) (vmID : string) (cid : Z) : bool :=
  existsb (fun kv => negb (bool_decide (fst kv = vmID)) && bool_decide (vi_GuestCID (snd kv) = cid)) (map_to_list vms).
Definition cid_in_use (vms : gmap string VMInstance) (persisted : gset Z) (vmID : string) (cid : Z) : bool :=
  running_has vms vmID cid || bool_decide (cid ∈ persisted).

Definition resolveGuestCID (CIDMin CIDMax : Z) (vms : gmap string VMInstance) (d : BaseDir) (vmID : string) (requested : Z) : res Z :=
  match loadPersistedGuestCIDs d vmID with
  | Err e => Err e
  | Ok persisted =>
      if bool_decide (0 < requested) then
        if cid_in_use vms persisted vmID requested
        then Err (EText ("requested guest cid " +:+ fmt_d requested +:+ " is already in use"))
        else Ok requested
      else AllocateDeterministicCID CIDMin CIDMax (fun c => Ok (cid_in_use vms persisted vmID c)) vmID
  end.

(** [os.WriteFile] fails when the VM's directory is missing. *)
Definition persistGuestCID (vmID : string) (cid : Z) : M BaseDir (option error) := fun d =>
  if bool_decide (cid = 0) then (None, d)
  else match d !! vmID with
       | Some (VMDirectory _) => (None, <[vmID := VMDirectory (Some (fmt_d cid +:+ str1 (chr 10)))]> d)
       | _ => (Some (wrapf "write guest cid metadata: " (EText "no such file or directory")), d)
       end.

Definition releaseGuestCID (vmID : string) : M BaseDir (option error) := fun d =>
  match d !! vmID with
  | Some (VMDirectory _) => (None, <[vmID := VMDirectory None]> d)
  | Some PlainFile => (Some (wrapf "remove guest cid metadata: " (EText "not a directory")), d)
  | None => (None, d)
  end.

(** ** The allocator probes the whole range *)

Section probe.
Context (minCID maxCID : Z) (inUse : Z -> res bool).
Context (Hmin : 0 <= minCID) (Hle : minCID <= maxCID) (Hmax : maxCID < 2 ^ 32).
Abbreviation range := (maxCID - minCID + 1).

Lemma candidate_range start i : minCID <= candidate minCID start range i <= maxCID.
Proof.
  unfold candidate. pose proof (Z.mod_pos_bound (u32 (u32 (start - minCID) + i)) range ltac:(lia)).
  rewrite u32_small by lia. lia.
Qed.

Lemma probe_Ok n start i c : probe minCID maxCID inUse n start range i = Ok c ->
  minCID <= c <= maxCID /\ inUse c = Ok false.
Proof.
  revert i. induction n as [|n IH]; intros i H; [done |]. cbn [probe] in H.
  destruct (inUse (candidate minCID start range i)) as [[]|] eqn:E; [exact (IH _ H) | | done]. injection H as <-.
  split; [apply candidate_range | done].
Qed.

Lemma probe_full n start i : (forall c, exists b, inUse c = Ok b) ->
  probe minCID maxCID inUse n start range i = Err (no_cid minCID maxCID) ->
  forall j, i <= j < i + Z.of_nat n -> inUse (candidate minCID start range j) = Ok true.
Proof.
  intros Hno. revert i. induction n as [|n IH]; intros i H j Hj; [lia |]. cbn [probe] in H.
  destruct (Hno (candidate minCID start range i)) as [b Hb]. rewrite Hb in H. destruct b; [| done].
  destruct (decide (j = i)) as [->|]; [done | apply (IH (i + 1)); [done | lia]].
Qed.

(** Up to 2^31 ids the counter does not overflow, and every id is a candidate. *)
Lemma candidate_onto start c : range <= 2 ^ 31 -> minCID <= start <= maxCID -> minCID <= c <= maxCID ->
  exists j, 0 <= j < range /\ candidate minCID start range j = c.
Proof.
  intros Hr Hs Hc. exists ((c - start) mod range).
  pose proof (Z.mod_pos_bound (c - start) range ltac:(lia)) as Hj. split; [done |].
  unfold candidate. rewrite !(u32_small (start - minCID)) by lia. rewrite (u32_small (start - minCID + _)) by lia.
  rewrite Zplus_mod_idemp_r. replace (start - minCID + (c - start)) with (c - minCID) by lia.
  rewrite Z.mod_small by lia. rewrite u32_small by lia. lia.
Qed.
End probe.

(** The allocated CID lies in the configured range and is free; and with up to 2^31
    ids in the range, an allocation that no callback error stops fails only when every
    id of the range is taken. *)
Theorem AllocateDeterministicCID_spec minCID maxCID inUse vmID :
  vmID <> "" -> 3 <= minCID <= maxCID -> maxCID < 2 ^ 32 ->
  match AllocateDeterministicCID minCID maxCID inUse vmID with
  | Ok c => minCID <= c <= maxCID /\ inUse c = Ok false
  | Err e => (forall c, exists b, inUse c = Ok b) -> maxCID - minCID < 2 ^ 31 ->
             e = no_cid minCID maxCID /\ forall c, minCID <= c <= maxCID -> inUse c = Ok true
  end.
Proof.
  intros Hid Hmin Hmax. unfold AllocateDeterministicCID. rewrite !bool_decide_eq_false_2 by (done || lia).
  rewrite (u32_small (maxCID - minCID + 1)) by lia.
  pose proof (Z.mod_pos_bound (hashVMID vmID) (maxCID - minCID + 1) ltac:(lia)) as Hh.
  rewrite u32_small by lia. set (start := minCID + _).
  destruct (probe _ _ _ _ start _ 0) as [c|e] eqn:E; [eapply probe_Ok; try done; lia |].
  intros Hno H31.
  assert (He : e = no_cid minCID maxCID).
  { clear -E Hno. revert E. generalize (Z.to_nat (maxCID - minCID + 1)) as n, 0 as i.
    induction n as [|n IH]; intros i E; cbn [probe] in E; [by simplify_eq |].
    destruct (Hno (candidate minCID start (maxCID - minCID + 1) i)) as [b Hb]. rewrite Hb in E.
    destruct b; [exact (IH _ E) | by simplify_eq]. }
  split; [done |]. subst e. intros c Hc.
  destruct (candidate_onto minCID maxCID ltac:(lia) ltac:(lia) ltac:(lia) start c) as (j & Hj & <-); [lia | unfold start; lia | done |].
  eapply (probe_full minCID maxCID); try done; lia.
Qed.

(** ** The recorded CIDs *)

(** The CID that a VM's directory records. *)
Definition recorded (d : BaseDir) (vmID : string) : option Z :=
  match d !! vmID with
  | Some (VMDirectory (Some content)) => match readPersistedGuestCID content with Ok c => Some c | Err _ => None end
  | _ => None
  end.

Lemma load_entries_mono ex l used used' : load_entries ex l used = Ok used' -> used ⊆ used'.
Proof.
  revert used. induction l as [|[name [|[content|]]] l IH]; simpl; intros used H; try by apply IH.
  - by simplify_eq.
  - case_bool_decide; [by apply IH |]. destruct (readPersistedGuestCID content) as [c|]; [| done].
    apply IH in H. case_bool_decide; set_solver.
Qed.

Lemma load_entries_has ex l used used' name content c :
  load_entries ex l used = Ok used' -> (name, VMDirectory (Some content)) ∈ l -> name <> ex ->
  readPersistedGuestCID content = Ok c -> 0 < c -> c ∈ used'.
Proof.
  intros H Hin Hne Hc Hpos. revert used H. induction l as [|[n e] l IH]; intros used H; [by apply not_elem_of_nil in Hin |].
  apply elem_of_cons in Hin as [Heq|Hin].
  - injection Heq as <- <-. simpl in H. rewrite bool_decide_eq_false_2 in H by done.
    rewrite Hc, bool_decide_eq_true_2 in H by done. apply load_entries_mono in H. set_solver.
  - specialize (IH Hin). destruct e as [|[content'|]]; simpl in H; try by eapply IH.
    case_bool_decide; [by eapply IH |]. destruct (readPersistedGuestCID content') as [c'|]; [by eapply IH | done].
Qed.

Lemma loaded_has d ex used other c : loadPersistedGuestCIDs d ex = Ok used ->
  recorded d other = Some c -> other <> ex -> 0 < c -> c ∈ used.
Proof.
  unfold loadPersistedGuestCIDs, recorded. intros H Hr Hne Hc.
  destruct (d !! other) as [[|[content|]]|] eqn:Hd; try done.
  destruct (readPersistedGuestCID content) as [c'|] eqn:Hread; [| done]. injection Hr as ->.
  eapply load_entries_has; try done. unfold ReadDir. rewrite merge_sort_Permutation. by apply elem_of_map_to_list.
Qed.

(** What is written is read back. *)
Lemma lead_space_ascii c s : 33 <= code c < 128 -> lead_space (String c s) = 0%nat.
Proof.
  intros H. unfold lead_space. change (byte_at (String c s) 0) with (code c). unfold space_len.
  rewrite !bool_decide_eq_false_2 by lia. done.
Qed.

Definition printing (c : ascii) : bool := bool_decide (33 <= code c < 128).

Lemma byte_at_printing s i : all_bytes printing s = true -> (i < str_len s)%nat -> 33 <= byte_at s i < 128.
Proof.
  unfold byte_at, str_len. revert i. induction s as [|c s IH]; intros i Hs Hi; simpl in *; [lia |].
  apply andb_true_iff in Hs as [Hc Hs]. destruct i as [|i]; [by apply bool_decide_eq_true_1 in Hc | apply IH; [done | lia]].
Qed.
Lemma byte_at_app_l a b i : (i < str_len a)%nat -> byte_at (a +:+ b) i = byte_at a i.
Proof.
  unfold byte_at, str_len. revert i. induction a as [|c a IH]; intros i Hi; simpl in *; [lia |]. destruct i as [|i]; [done | apply IH; lia].
Qed.
Lemma byte_at_app_r a b i : byte_at (a +:+ b) (str_len a + i) = byte_at b i.
Proof. unfold byte_at, str_len. induction a as [|c a IH]; simpl; [done | apply IH]. Qed.

Lemma space_len_printing a b c : 33 <= a < 128 -> space_len a b c = 0%nat.
Proof. intros H. unfold space_len. rewrite !bool_decide_eq_false_2 by lia. done. Qed.

Lemma trail_space_printing s : all_bytes printing s = true -> trail_space s = 0%nat.
Proof.
  intros Hs. unfold trail_space.
  assert (H : forall k b c, (1 <= k <= str_len s)%nat -> space_len (byte_at s (str_len s - k)) b c = 0%nat).
  { intros k b c Hk. apply space_len_printing, byte_at_printing; [done | lia]. }
  rewrite !bool_decide_eq_false_2; [done | | |]; intros [Hl Hn]; rewrite H in Hl by lia; lia.
Qed.

Lemma trim_space_line s : s <> EmptyString -> all_bytes printing s = true -> trim_space (s +:+ str1 (chr 10)) = s.
Proof.
  intros Hne Hs. unfold trim_space.
  assert (Hl : trim_left_fuel (str_len (s +:+ str1 (chr 10))) (s +:+ str1 (chr 10)) = s +:+ str1 (chr 10)).
  { destruct s as [|c s]; [done |]. simpl in Hs. apply andb_true_iff in Hs as [Hc _]. apply bool_decide_eq_true_1 in Hc.
    cbn [String.append]. unfold str_len. cbn [String.length trim_left_fuel]. by rewrite lead_space_ascii. }
  rewrite Hl. rewrite str_len_app. change (str_len (str1 (chr 10))) with 1%nat.
  rewrite Nat.add_1_r. cbn [trim_right_fuel].
  assert (Ht : trail_space (s +:+ str1 (chr 10)) = 1%nat).
  { unfold trail_space. rewrite str_len_app. change (str_len (str1 (chr 10))) with 1%nat.
    replace (str_len s + 1 - 1)%nat with (str_len s + 0)%nat by lia. rewrite byte_at_app_r.
    change (byte_at (str1 (chr 10)) 0) with 10. by rewrite bool_decide_eq_true_2 by (split; [reflexivity | lia]). }
  rewrite Ht, str_len_app. change (str_len (str1 (chr 10))) with 1%nat.
  replace (str_len s + 1 - 1)%nat with (str_len s) by lia. rewrite take_str_app.
  destruct (str_len s); cbn [trim_right_fuel]; [done |]. by rewrite trail_space_printing.
Qed.

Lemma fmt_d_nonneg z : 0 <= z -> exists c d, fmt_d z = String c d /\ all_bytes is_digit (String c d) = true /\ dec_val 0 (String c d) = z.
Proof.
  intros Hz. destruct (fmt_d_shape z) as ([] & c & d & E & Hc & _ & Hd & Hv).
  - exfalso. destruct z as [|p|p]; [| | lia].
    + discriminate E.
    + assert (Hp : pretty (Z.pos p) = "-" +:+ String c d) by exact E.
      unfold pretty, pretty_Z, pretty, pretty_positive, pretty, pretty_N in Hp. rewrite decide_False in Hp by done.
      by eapply pretty_N_go_ne_dash in Hp.
  - exists c, d. split; [done |]. simpl. by rewrite Hc, Hd.
Qed.

Lemma persisted_read_back cid : 0 < cid < 2 ^ 32 -> readPersistedGuestCID (fmt_d cid +:+ str1 (chr 10)) = Ok cid.
Proof.
  intros Hc. destruct (fmt_d_nonneg cid ltac:(lia)) as (c & d & -> & Hd & Hv).
  assert (Hp : all_bytes printing (String c d) = true).
  { eapply all_bytes_impl; [| exact Hd]. unfold is_digit, printing. intros a Ha.
    apply bool_decide_eq_true_1 in Ha. apply bool_decide_eq_true_2. lia. }
  unfold readPersistedGuestCID. rewrite trim_space_line by done.
  rewrite bool_decide_eq_false_2 by done. unfold ParseUint32, parse_digits. rewrite Hd.
  rewrite bool_decide_eq_false_2 by done. cbn [negb andb]. rewrite Hv. by rewrite bool_decide_eq_true_2 by lia.
Qed.

Definition cids_unique (d : BaseDir) : Prop :=
  forall a b c, recorded d a = Some c -> recorded d b = Some c -> 0 < c -> a = b.

Lemma recorded_insert d vmID e other :
  recorded (<[vmID := e]> d) other =
  if decide (other = vmID) then match e with
                                | VMDirectory (Some t) => match readPersistedGuestCID t with Ok c => Some c | Err _ => None end
                                | _ => None end
  else recorded d other.
Proof.
  unfold recorded. destruct (decide (other = vmID)) as [->|Hne]; [by rewrite lookup_insert_eq | by rewrite lookup_insert_ne].
Qed.

Lemma running_has_false vms vmID cid other v : running_has vms vmID cid = false ->
  vms !! other = Some v -> other <> vmID -> vi_GuestCID v <> cid.
Proof.
  intros H Hv Hne Heq. unfold running_has in H. apply not_true_iff_false in H. apply H, existsb_exists.
  exists (other, v). split; [by apply list_elem_of_In, elem_of_map_to_list |]. simpl.
  rewrite bool_decide_eq_false_2, bool_decide_eq_true_2 by done. done.
Qed.

Lemma cid_free vms used vmID cid : cid_in_use vms used vmID cid = false ->
  running_has vms vmID cid = false /\ cid ∉ used.
Proof.
  unfold cid_in_use. intros [H1 H2]%orb_false_iff. split; [done | by apply bool_decide_eq_false_1 in H2].
Qed.

(** C16: A CID that [resolveGuestCID] grants to a VM is not the CID of any other running
    VM and not recorded by any other VM's directory; recording it and later releasing
    it keep the recorded CIDs pairwise distinct, and the record is read back as that
    CID. *)
Theorem guest_cids_unique CIDMin CIDMax vms d vmID requested cid d' :
  vmID <> "" -> 3 <= CIDMin <= CIDMax -> CIDMax < 2 ^ 32 -> 0 <= requested < 2 ^ 32 -> cids_unique d ->
  resolveGuestCID CIDMin CIDMax vms d vmID requested = Ok cid ->
  persistGuestCID vmID cid d = (None, d') ->
  (0 < requested -> cid = requested) /\ (requested = 0 -> CIDMin <= cid <= CIDMax) /\
  (forall other v, vms !! other = Some v -> other <> vmID -> vi_GuestCID v <> cid) /\
  (forall other, other <> vmID -> recorded d other <> Some cid) /\
  recorded d' vmID = Some cid /\ cids_unique d' /\ cids_unique (releaseGuestCID vmID d').2.
Proof.
  intros Hid Hmin Hmax Hreq Huniq Hres Hpers. unfold resolveGuestCID in Hres.
  destruct (loadPersistedGuestCIDs d vmID) as [used|] eqn:Hload; [| done].
  assert (Hc : (0 < requested -> cid = requested) /\ (requested = 0 -> CIDMin <= cid <= CIDMax) /\
               0 < cid < 2 ^ 32 /\ cid_in_use vms used vmID cid = false).
  { case_bool_decide.
    - destruct (cid_in_use vms used vmID requested) eqn:E; [done |]. simplify_eq. split_and!; try done; lia.
    - pose proof (AllocateDeterministicCID_spec CIDMin CIDMax (fun c => Ok (cid_in_use vms used vmID c)) vmID Hid Hmin Hmax) as Ha.
      rewrite Hres in Ha. destruct Ha as [Hr Ha]. injection Ha as Ha. split_and!; try done; lia. }
  destruct Hc as (Hr1 & Hr2 & Hpos & Hfree). apply cid_free in Hfree as [Hrun Hused].
  assert (Hother : forall other, other <> vmID -> recorded d other <> Some cid).
  { intros other Hne Hr. apply Hused. apply (loaded_has d vmID used other cid); [done | done | done | lia]. }
  unfold persistGuestCID in Hpers. rewrite bool_decide_eq_false_2 in Hpers by lia.
  destruct (d !! vmID) as [[|old]|] eqn:Hd; [done | | done]. simplify_eq.
  set (d' := <[vmID := _]> d).
  assert (Hd' : forall other, recorded d' other = if decide (other = vmID) then Some cid else recorded d other).
  { intros other. unfold d'. rewrite recorded_insert. destruct (decide (other = vmID)); [by rewrite (persisted_read_back cid Hpos) | reflexivity]. }
  assert (Hu' : cids_unique d').
  { intros a b c Ha Hb Hc. rewrite Hd' in Ha, Hb.
    destruct (decide (a = vmID)) as [->|Na], (decide (b = vmID)) as [->|Nb]; [done | | | by eapply Huniq].
    - injection Ha as <-. by destruct (Hother b Nb).
    - injection Hb as <-. by destruct (Hother a Na). }
  split_and!; try done.
  - intros other v Hv Hne. by eapply running_has_false.
  - rewrite Hd'. by rewrite decide_True.
  - unfold releaseGuestCID. assert (d' !! vmID = Some (VMDirectory (Some (fmt_d cid +:+ str1 (chr 10))))) as ->
      by (unfold d'; by rewrite lookup_insert_eq). cbn [snd].
    intros a b c Ha Hb Hc. rewrite recorded_insert in Ha, Hb.
    destruct (decide (a = vmID)); [done |]. destruct (decide (b = vmID)); [done |]. by eapply Hu'.
Qed.

Lemma AllocateDeterministicCID_spec_witness :
  AllocateDeterministicCID 1024 1027 (fun c => Ok (bool_decide (c <> 1025))) "vm-a" = Ok 1025 /\ (1024 <= 1025 <= 1027).
Proof.
  assert (Hid : "vm-a" <> "") by done. assert (Hmin : 3 <= 1024 <= 1027) by lia. assert (Hmax : 1027 < 2 ^ 32) by lia.
  pose proof (AllocateDeterministicCID_spec 1024 1027 (fun c => Ok (bool_decide (c <> 1025))) "vm-a" Hid Hmin Hmax) as H.
  assert (E : AllocateDeterministicCID 1024 1027 (fun c => Ok (bool_decide (c <> 1025))) "vm-a" = Ok 1025) by (vm_compute; reflexivity).
  rewrite E in H. split; [exact E | exact (proj1 H)].
Defined.

Definition sample_dir : BaseDir :=
  {[ "v1" := VMDirectory (Some ("1024" +:+ str1 (chr 10))); "v2" := VMDirectory None; "README" := PlainFile ]}.
Lemma guest_cids_unique_witness : recorded (persistGuestCID "v2" 1025 sample_dir).2 "v2" = Some 1025.
Proof.
  assert (Hu : cids_unique sample_dir).
  { assert (H1 : forall a c, recorded sample_dir a = Some c -> a = "v1").
    { intros a c Ha. unfold recorded, sample_dir in Ha.
      destruct (decide (a = "v1")); [done |]. rewrite lookup_insert_ne in Ha by done.
      destruct (decide (a = "v2")) as [->|]; [by rewrite lookup_insert_eq in Ha |]. rewrite lookup_insert_ne in Ha by done.
      destruct (({[ "README" := PlainFile ]} : BaseDir) !! a) as [e|] eqn:E; [| done].
      by apply lookup_singleton_Some in E as [_ <-]. }
    intros a b c Ha%H1 Hb%H1 _. congruence. }
  destruct (guest_cids_unique 1024 1030 sample_vms sample_dir "v2" 1025 1025 _ ltac:(done) ltac:(lia) ltac:(lia) ltac:(lia)
    Hu ltac:(vm_compute; reflexivity) eq_refl) as (_ & _ & _ & _ & H & _). exact H.
Defined.
