(* ===== verification/Orchestrator.v ===== *)
(** * The orchestrator: one user turn as a ReAct loop

    service/orchestrator (service.go, rule_planner.go, tool_registry.go,
    state_store_memory.go) with the types of core/domain/orchestrator, core/domain/tool,
    core/ports/llm.go and the message of core/domain/chat. [Process] loads and saves the
    conversation state, then plans, executes one tool and observes, until the planner
    asks for no tool or the step limit is reached, and finally asks for the answer.

    The planner, the tools, the state store, the event sink, the clock and the trace ids
    are parameters: records of operations over a world [W]. The rule planner, the
    in-memory registry and the in-memory store of the source are instances. *)

From stdpp Require Import sorting.
From S2P Require Import Prelude Exception Naming GoLib Domain World Json.

(** ** Types *)

(** chat.Message *)
Record Message := {
  msg_Role : string; msg_Content : string; msg_ContentType : string; msg_Metadata : list (string * value); msg_At : Z }.

Abbreviation Args := (list (string * value)).
(** tool.Call and tool.Result *)
Record Call := { call_ID : string; call_Name : string; call_Arguments : Args }.
Record Result := { res_ToolCallID : string; res_ToolName : string; res_OK : bool; res_Payload : value; res_Error : string }.

(** ports.ToolPlanStep, ToolPlan (its steps), PriorTurn, AvailableVM *)
Record ToolPlanStep := { ps_Name : string; ps_Arguments : Args; ps_ThoughtSignature : string }.
Record PriorTurn := { pt_ToolCall : ToolPlanStep; pt_ToolResult : Result }.
Record AvailableVM := { av_VMID : string; av_Environment : string; av_EnvDescription : string; av_Status : string; av_HasSnapshot : bool }.

(** orchestrator.TokenUsage: 64-bit counters. *)
Record TokenUsage := {
  tu_Prompt : Z; tu_Completion : Z; tu_Total : Z; tu_Cached : Z; tu_Thoughts : Z; tu_ToolUsePrompt : Z }.
Definition no_tokens : TokenUsage :=
  {| tu_Prompt := 0; tu_Completion := 0; tu_Total := 0; tu_Cached := 0; tu_Thoughts := 0; tu_ToolUsePrompt := 0 |}.
Definition Add (u other : TokenUsage) : TokenUsage :=
  {| tu_Prompt := i64 (tu_Prompt u + tu_Prompt other); tu_Completion := i64 (tu_Completion u + tu_Completion other);
     tu_Total := i64 (tu_Total u + tu_Total other); tu_Cached := i64 (tu_Cached u + tu_Cached other);
     tu_Thoughts := i64 (tu_Thoughts u + tu_Thoughts other);
     tu_ToolUsePrompt := i64 (tu_ToolUsePrompt u + tu_ToolUsePrompt other) |}.
Definition IsZero (u : TokenUsage) : bool :=
  bool_decide (tu_Prompt u = 0) && bool_decide (tu_Completion u = 0) && bool_decide (tu_Total u = 0) &&
  bool_decide (tu_Cached u = 0) && bool_decide (tu_Thoughts u = 0) && bool_decide (tu_ToolUsePrompt u = 0).

Record PlanRequest := {
  pr_ChatID : string; pr_AgentID : string; pr_UserID : string; pr_Message : string; pr_AvailableVMs : list AvailableVM;
  pr_EnvironmentHint : string; pr_History : list Message; pr_PriorTurns : list PriorTurn }.
Record PlanMetadata := {
  pm_Reasoning : string; pm_RawText : string; pm_Thinking : string; pm_Answer : string; pm_TokenUsage : TokenUsage }.
Record FinalResponseRequest := {
  fr_Message : string; fr_Plan : list ToolPlanStep; fr_ToolResults : list Result; fr_History : list Message;
  fr_EnvironmentHint : string }.
Record FinalResponseMetadata := { fm_Reasoning : string; fm_Thinking : string; fm_TokenUsage : TokenUsage }.
Definition no_plan_meta : PlanMetadata :=
  {| pm_Reasoning := ""; pm_RawText := ""; pm_Thinking := ""; pm_Answer := ""; pm_TokenUsage := no_tokens |}.
Definition no_final_meta : FinalResponseMetadata := {| fm_Reasoning := ""; fm_Thinking := ""; fm_TokenUsage := no_tokens |}.

(** orchestrator.RuntimeEvent with its types *)
Definition EventToken := "token".
Definition EventThinking := "thinking".
Definition EventAnswer := "answer".
Definition EventToolCall := "tool_call".
Definition EventPlan := "plan".
Record RuntimeEvent := {
  ev_Type : string; ev_ChatID : string; ev_TraceID : string; ev_Step : Z; ev_Data : string; ev_Command : string;
  ev_Result : string; ev_Error : string; ev_TokenUsage : option TokenUsage; ev_Metadata : Args; ev_At : Z }.

(** orchestrator.TraceStep, ExecutionTrace, State *)
Record TraceStep := {
  ts_Step : Z; ts_Reasoning : string; ts_ToolName : string; ts_ToolArguments : Args; ts_Observation : string;
  ts_ToolSuccess : bool; ts_ToolError : string }.
Record ExecutionTrace := {
  et_TraceID : string; et_ExecutionMode : string; et_Reasoning : string; et_Steps : list TraceStep;
  et_FinalAnswer : string; et_TokenUsage : TokenUsage; et_StartedAt : Z; et_CompletedAt : Z }.
Record State := { os_ChatID : string; os_StepCount : Z; os_UpdatedAt : Z }.

(** ** Collaborators *)

Section ports.
Context (W : Type).
(** ports.ToolPlanner with the optional ToolPlannerWithMetadata. *)
Record ToolPlanner := {
  PlanTools : PlanRequest -> M W (res (list ToolPlanStep));
  FinalResponse : FinalResponseRequest -> M W (res string);
  WithMetadata : option ((PlanRequest -> M W (res (list ToolPlanStep * PlanMetadata))) *
                         (FinalResponseRequest -> M W (res (string * FinalResponseMetadata))))
}.
(** tool.Tool: executed in a context that carries the chat id and a timeout. *)
Record Tool := { t_Name : string; t_Execute : string -> Z -> Call -> M W (Result * option error) }.
(** ports.ToolRegistry and ports.ConversationStateStore. *)
Record ToolRegistry := { reg_Get : string -> option Tool }.
Record StateStore := { ss_Load : string -> M W (res State); ss_Save : State -> M W (option error) }.
End ports.
Arguments PlanTools {W}. Arguments FinalResponse {W}. Arguments WithMetadata {W}.
Arguments t_Name {W}. Arguments t_Execute {W}. Arguments reg_Get {W}. Arguments ss_Load {W}. Arguments ss_Save {W}.

(** ** Configuration *)

Record Config := { AllowedTools : gset string; ToolTimeout : Z; MaxReactSteps : Z }.
Definition NewConfig (allowedTools : list string) (toolTimeout maxReactSteps : Z) : Config :=
  {| AllowedTools := list_to_set (List.filter (fun n => negb (bool_decide (n = ""))) allowedTools);
     ToolTimeout := toolTimeout; MaxReactSteps := maxReactSteps |}.

(** ** The rule planner *)

Section rule_planner.
Context {W : Type}.

Definition payloadToString (p : value) : string :=
  match p with
  | VStr s => s
  | VMap m => match as_string (alookup "output" m) with Some out => out | None => "" end
  | _ => ""
  end.

Definition rule_PlanToolsWithMetadata (req : PlanRequest) : list ToolPlanStep * PlanMetadata :=
  let trimmed := trim_space (pr_Message req) in
  if has_prefix "/exec " trimmed then
    let command := trim_space (trim_prefix trimmed "/exec ") in
    let vmID := match pr_AvailableVMs req with v :: _ => av_VMID v | [] => "" end in
    if bool_decide (command = "") || bool_decide (trim_space vmID = "") then ([], no_plan_meta)
    else ([{| ps_Name := "vm.execute_command"; ps_Arguments := [("vm_id", VStr vmID); ("command", VStr command)];
              ps_ThoughtSignature := "" |}],
          no_plan_meta <| pm_Reasoning := "Matched /exec rule and generated vm.execute_command call." |>)
  else ([], no_plan_meta).

Definition summary_lines (r : Result) : list string :=
  if res_OK r then
    ("- " +:+ res_ToolName r +:+ ": success") ::
    (let payload := trim_space (payloadToString (res_Payload r)) in if bool_decide (payload = "") then [] else [payload])
  else if bool_decide (res_Error r = "") then ["- " +:+ res_ToolName r +:+ ": failed"]
  else ["- " +:+ res_ToolName r +:+ ": failed (" +:+ res_Error r +:+ ")"].

Definition rule_FinalResponseWithMetadata (req : FinalResponseRequest) : string * FinalResponseMetadata :=
  let trimmed := trim_space (fr_Message req) in
  match fr_ToolResults req with
  | [] =>
      if has_prefix "/exec " trimmed
      then ("No command was executed. Provide vm_id and a non-empty /exec command.", no_final_meta)
      else ("I received your message. No tool call was required for this turn.", no_final_meta)
  | results => (join (str1 (chr 10)) ("Tool execution summary:" :: mjoin (map summary_lines results)), no_final_meta)
  end.

Definition RulePlanner : ToolPlanner W := {|
  PlanTools := fun req => ret (Ok (rule_PlanToolsWithMetadata req).1);
  FinalResponse := fun req => ret (Ok (rule_FinalResponseWithMetadata req).1);
  WithMetadata := Some (fun req => ret (Ok (rule_PlanToolsWithMetadata req)),
                        fun req => ret (Ok (rule_FinalResponseWithMetadata req)))
|}.

(** InMemoryToolRegistry: later registrations replace earlier ones, a tool without a
    name is not registered. *)
Definition Register (tools : gmap string (Tool W)) (t : option (Tool W)) : gmap string (Tool W) :=
  match t with
  | None => tools
  | Some t => if bool_decide (t_Name t = "") then tools else <[t_Name t := t]> tools
  end.
Definition NewInMemoryToolRegistry (initial : list (option (Tool W))) : ToolRegistry W :=
  let tools := fold_left Register initial ∅ in {| reg_Get := fun name => tools !! name |}.
End rule_planner.

(** MemoryStateStore, for a world that holds its map. *)
Section memory_store.
Context {W : Type} (get : W -> gmap string State) (put : gmap string State -> W -> W) (now : M W Z).
Local Open Scope go_scope.
Definition MemoryStateStore : StateStore W := {|
  ss_Load := fun chatID w =>
    match get w !! chatID with
    | Some st => (Ok st, w)
    | None => let '(t, w) := now w in (Ok {| os_ChatID := chatID; os_StepCount := 0; os_UpdatedAt := t |}, w)
    end;
  ss_Save := fun st w => (None, put (<[os_ChatID st := st]> (get w)) w)
|}.
End memory_store.

(** json.Marshal of a map writes its keys in order, at every level. *)
Definition key_le (a b : string * value) : Prop := String.le (fst a) (fst b).
#[export] Instance key_le_dec : RelDecision key_le.
Proof. intros a b. unfold key_le. apply _. Defined.
Fixpoint sort_keys (v : value) : value :=
  match v with
  | VList l => VList (map sort_keys l)
  | VMap m => VMap (merge_sort key_le (map (fun kv => (fst kv, sort_keys (snd kv))) m))
  | _ => v
  end.

(** ** The service *)

Record ProcessInput (W : Type) := {
  pi_ChatID : string; pi_AgentID : string; pi_UserID : string; pi_Message : string; pi_AvailableVMs : list AvailableVM;
  pi_EnvironmentHint : string; pi_History : list Message; pi_EmitEvent : option (RuntimeEvent -> M W unit) }.
Arguments pi_ChatID {W}. Arguments pi_AgentID {W}. Arguments pi_UserID {W}. Arguments pi_Message {W}.
Arguments pi_AvailableVMs {W}. Arguments pi_EnvironmentHint {W}. Arguments pi_History {W}. Arguments pi_EmitEvent {W}.
Record ProcessResult := { pres_ToolResults : list Result; pres_AssistantMessage : string; pres_Trace : ExecutionTrace }.

Record Service (W : Type) := {
  sv_planner : ToolPlanner W; sv_tools : ToolRegistry W; sv_states : StateStore W; sv_config : Config }.
Arguments sv_planner {W}. Arguments sv_tools {W}. Arguments sv_states {W}. Arguments sv_config {W}.

Definition safe_config (cfg : Config) : Config :=
  {| AllowedTools := AllowedTools cfg;
     ToolTimeout := if bool_decide (ToolTimeout cfg <= 0) then 30 * second else ToolTimeout cfg;
     MaxReactSteps := if bool_decide (MaxReactSteps cfg <= 0) then 70 else MaxReactSteps cfg |}.

(** What the loop carries from one round to the next. *)
Record Loop := {
  lp_executedSteps : list ToolPlanStep; lp_toolResults : list Result; lp_priorTurns : list PriorTurn;
  lp_EnvironmentHint : string; lp_trace : ExecutionTrace }.

Section service.
Context {W : Type} (now : M W Z) (newUUID : M W string).
(** An empty store for the world, used when no store is given. *)
Context (NewMemoryStateStore : StateStore W).
Local Open Scope go_scope.

Definition NewWithConfig (planner : option (ToolPlanner W)) (tools : option (ToolRegistry W))
    (states : option (StateStore W)) (cfg : Config) : Service W := {|
  sv_planner := default RulePlanner planner;
  sv_tools := default (NewInMemoryToolRegistry []) tools;
  sv_states := default NewMemoryStateStore states;
  sv_config := safe_config cfg |}.

Context (s : Service W).

Definition emitRuntimeEvent (emitFn : option (RuntimeEvent -> M W unit)) (e : RuntimeEvent) : M W unit :=
  match emitFn with None => ret tt | Some f => f e end.

Definition blocked (name : string) : Result :=
  {| res_ToolCallID := ""; res_ToolName := name; res_OK := false; res_Payload := VNil;
     res_Error := "tool " +:+ fmt_q name +:+ " is not allowed by policy" |}.
Definition unregistered (name : string) : Result :=
  {| res_ToolCallID := ""; res_ToolName := name; res_OK := false; res_Payload := VNil;
     res_Error := "tool " +:+ fmt_q name +:+ " is not registered" |}.
Definition allowed (name : string) : bool :=
  bool_decide (AllowedTools (sv_config s) = ∅) || bool_decide (name ∈ AllowedTools (sv_config s)).

(** The defaults that a tool may leave open, and its error. *)
Definition settle (callID name : string) (r : Result) (err : option error) : Result :=
  let r := if bool_decide (res_ToolCallID r = "") then r <| res_ToolCallID := callID |> else r in
  let r := if bool_decide (res_ToolName r = "") then r <| res_ToolName := name |> else r in
  match err with
  | None => r
  | Some e =>
      let r := r <| res_OK := false |> in
      if bool_decide (res_Error r = "") then r <| res_Error := Error e |> else r
  end.

Definition executeStep (chatID : string) (step : ToolPlanStep) : M W Result :=
  if negb (allowed (ps_Name step)) then ret (blocked (ps_Name step))
  else match reg_Get (sv_tools s) (ps_Name step) with
       | None => ret (unregistered (ps_Name step))
       | Some execTool =>
           let* t := now in
           let call := {| call_ID := fmt_d t; call_Name := ps_Name step; call_Arguments := ps_Arguments step |} in
           let* x := t_Execute execTool chatID (ToolTimeout (sv_config s)) call in
           ret (settle (call_ID call) (ps_Name step) x.1 x.2)
       end.

Definition plan_tools (req : PlanRequest) : M W (res (list ToolPlanStep * PlanMetadata)) :=
  match WithMetadata (sv_planner s) with
  | Some (f, _) => f req
  | None => let? steps := PlanTools (sv_planner s) req in ret (Ok (steps, no_plan_meta))
  end.
Definition final_response (req : FinalResponseRequest) : M W (res (string * FinalResponseMetadata)) :=
  match WithMetadata (sv_planner s) with
  | Some (_, f) => f req
  | None => let? text := FinalResponse (sv_planner s) req in ret (Ok (text, no_final_meta))
  end.

(** The environment that vm.start and vm.create report. *)
Definition next_hint (next : ToolPlanStep) (r : Result) (hint : string) : string :=
  if res_OK r && (bool_decide (ps_Name next = "vm.start") || bool_decide (ps_Name next = "vm.create")) then
    match res_Payload r with
    | VMap m => match as_string (alookup "environment" m) with
                | Some envType => if bool_decide (envType = "") then hint else envType
                | None => hint
                end
    | _ => hint
    end
  else hint.

Definition observation_of (r : Result) : string :=
  let observation := match res_Payload r with
                     | VMap m => match as_string (alookup "output" m) with
                                 | Some out => out
                                 | None => Marshal (sort_keys (VMap m))
                                 end
                     | _ => ""
                     end in
  if bool_decide (observation = "") && negb (bool_decide (res_Error r = "")) then "error: " +:+ res_Error r else observation.

Definition event (input : ProcessInput W) (trace : ExecutionTrace) (type : string) (step : Z) (at_ : Z) : RuntimeEvent :=
  {| ev_Type := type; ev_ChatID := pi_ChatID input; ev_TraceID := et_TraceID trace; ev_Step := step; ev_Data := "";
     ev_Command := ""; ev_Result := ""; ev_Error := ""; ev_TokenUsage := None; ev_Metadata := []; ev_At := at_ |}.

(** An event with text, emitted when there is any. *)
Definition emit_text (input : ProcessInput W) (trace : ExecutionTrace) (type : string) (step : Z) (data : string) : M W unit :=
  if bool_decide (data = "") then ret tt
  else let* t := now in emitRuntimeEvent (pi_EmitEvent input) ((event input trace type step t) <| ev_Data := data |>).

(** [payload[key]], nil when the key is missing. *)
Definition at_key (m : Args) (key : string) : value := default VNil (alookup key m).
Definition asString (v : value) : string := match v with VStr s => s | _ => "" end.

Definition emit_plan (input : ProcessInput W) (trace : ExecutionTrace) (step : Z) (next : ToolPlanStep) (r : Result) : M W unit :=
  match res_Payload r with
  | VMap m =>
      if bool_decide (ps_Name next = "plan.announce") && res_OK r then
        let* t := now in
        emitRuntimeEvent (pi_EmitEvent input)
          ((event input trace EventPlan step t) <| ev_Data := asString (at_key m "summary") |>
            <| ev_Metadata := [("summary", at_key m "summary"); ("steps", at_key m "steps")] |>)
      else ret tt
  | _ => ret tt
  end.

Definition command_of (next : ToolPlanStep) : string :=
  if bool_decide (ps_Name next = "vm.execute_command")
  then default "" (as_string (alookup "command" (ps_Arguments next))) else "".
Definition or_else (x y : string) : string := if bool_decide (x = "") then y else x.

(** The body of a round after a non-empty plan: one tool is executed and observed. *)
Definition react_step (input : ProcessInput W) (step : Z) (next : ToolPlanStep) (meta : PlanMetadata) (lp : Loop) : M W Loop :=
  let* _ := emit_text input (lp_trace lp) EventThinking step (pm_Thinking meta) in
  let* _ := emit_text input (lp_trace lp) EventAnswer step (pm_Answer meta) in
  let* result := executeStep (pi_ChatID input) next in
  let observation := observation_of result in
  let* t := now in
  let toolEvent := (event input (lp_trace lp) EventToolCall step t) <| ev_Result := observation |> <| ev_Error := res_Error result |>
    <| ev_Metadata := [("tool", VStr (ps_Name next)); ("arguments", VMap (ps_Arguments next))] |>
    <| ev_Command := command_of next |> in
  let* _ := emit_plan input (lp_trace lp) step next result in
  let* _ := emitRuntimeEvent (pi_EmitEvent input) toolEvent in
  ret {| lp_executedSteps := lp_executedSteps lp ++ [next];
         lp_toolResults := lp_toolResults lp ++ [result];
         lp_priorTurns := lp_priorTurns lp ++ [{| pt_ToolCall := next; pt_ToolResult := result |}];
         lp_EnvironmentHint := next_hint next result (lp_EnvironmentHint lp);
         lp_trace := (lp_trace lp)
           <| et_Steps := et_Steps (lp_trace lp) ++ [
                {| ts_Step := step; ts_Reasoning := pm_Reasoning meta; ts_ToolName := ps_Name next;
                   ts_ToolArguments := ps_Arguments next; ts_Observation := observation;
                   ts_ToolSuccess := res_OK result; ts_ToolError := res_Error result |}] |>
           <| et_Reasoning := or_else (pm_Reasoning meta) (et_Reasoning (lp_trace lp)) |> |}.

(** The loop at round [step] with [n] rounds left. *)
Fixpoint react_loop (n : nat) (input : ProcessInput W) (step : Z) (lp : Loop) : M W (res Loop) :=
  match n with
  | O => ret (Ok lp)
  | S n' =>
      let? p := plan_tools {|
        pr_ChatID := pi_ChatID input; pr_AgentID := pi_AgentID input; pr_UserID := pi_UserID input;
        pr_Message := pi_Message input; pr_AvailableVMs := pi_AvailableVMs input;
        pr_EnvironmentHint := lp_EnvironmentHint lp; pr_History := pi_History input; pr_PriorTurns := lp_priorTurns lp |} in
      let '(plan, meta) := p in
      let lp := lp <| lp_trace := (lp_trace lp) <| et_TokenUsage := Add (et_TokenUsage (lp_trace lp)) (pm_TokenUsage meta) |> |> in
      match plan with
      | [] => ret (Ok lp)
      | next :: _ =>
          let* lp' := react_step input step next meta lp in
          react_loop n' input (step + 1) lp'
      end
  end.

(** After the loop: the final answer, its events, and the state saved. *)
Definition conclude (input : ProcessInput W) (lp : Loop) : M W (res ProcessResult) :=
  let? f := final_response {|
    fr_Message := pi_Message input; fr_Plan := lp_executedSteps lp; fr_ToolResults := lp_toolResults lp;
    fr_History := pi_History input; fr_EnvironmentHint := lp_EnvironmentHint lp |} in
  let '(assistant, meta) := f in
  let trace := (lp_trace lp) <| et_TokenUsage := Add (et_TokenUsage (lp_trace lp)) (fm_TokenUsage meta) |>
                 <| et_Reasoning := or_else (fm_Reasoning meta) (et_Reasoning (lp_trace lp)) |> in
  let* _ := emit_text input trace EventThinking (Z.of_nat (length (et_Steps trace)) + 1) (fm_Thinking meta) in
  let* completed := now in
  let trace := trace <| et_FinalAnswer := assistant |> <| et_CompletedAt := completed |> in
  let* t := now in
  let* _ := emitRuntimeEvent (pi_EmitEvent input)
    ((event input trace EventToken 0 t) <| ev_Data := assistant |>
      <| ev_TokenUsage := if IsZero (et_TokenUsage trace) then None else Some (et_TokenUsage trace) |>) in
  let* t := now in
  let* err := ss_Save (sv_states s) {| os_ChatID := pi_ChatID input; os_StepCount := Z.of_nat (length (lp_executedSteps lp));
                                        os_UpdatedAt := t |} in
  match err with
  | Some e => ret (Err e)
  | None => ret (Ok {| pres_ToolResults := lp_toolResults lp; pres_AssistantMessage := assistant; pres_Trace := trace |})
  end.

Definition processReactLoop (input : ProcessInput W) : M W (res ProcessResult) :=
  let* id := newUUID in
  let* started := now in
  let? lp := react_loop (Z.to_nat (MaxReactSteps (sv_config s))) input 1 {|
    lp_executedSteps := []; lp_toolResults := []; lp_priorTurns := []; lp_EnvironmentHint := pi_EnvironmentHint input;
    lp_trace := {| et_TraceID := id; et_ExecutionMode := "react_loop"; et_Reasoning := ""; et_Steps := []; et_FinalAnswer := "";
                   et_TokenUsage := no_tokens; et_StartedAt := started; et_CompletedAt := 0 |} |} in
  conclude input lp.

Definition Process (input : ProcessInput W) : M W (res ProcessResult) :=
  let? current := ss_Load (sv_states s) (pi_ChatID input) in
  let* t := now in
  let* err := ss_Save (sv_states s) (current <| os_ChatID := pi_ChatID input |> <| os_UpdatedAt := t |>) in
  match err with
  | Some e => ret (Err e)
  | None => processReactLoop input
  end.
End service.
