(* ===== verification/OrchSpec.v ===== *)
(** * What a turn of the orchestrator does

    The bound on the rounds, the agreement of results, trace and events, the tool
    policy, and what the rule planner makes of the loop. *)

From S2P Require Import Prelude Exception Naming GoLib Domain World PgRepo Hoare Json Orchestrator.

(** ** Events of a turn *)

(** The events of the rounds, one segment per trace step: texts and a plan of that step,
    then its tool call. *)
Inductive rounds_log (chat trace : string) : list TraceStep -> list RuntimeEvent -> Prop :=
| rounds_none : rounds_log chat trace [] []
| rounds_some ts steps pre call evs :
    Forall (fun e => ev_ChatID e = chat /\ ev_TraceID e = trace /\ ev_Step e = ts_Step ts /\
                     ev_Type e ∈ [EventThinking; EventAnswer; EventPlan]) pre ->
    ev_Type call = EventToolCall -> ev_ChatID call = chat -> ev_TraceID call = trace -> ev_Step call = ts_Step ts ->
    ev_Result call = ts_Observation ts -> ev_Error call = ts_ToolError ts ->
    ev_Metadata call = [("tool", VStr (ts_ToolName ts)); ("arguments", VMap (ts_ToolArguments ts))] ->
    rounds_log chat trace steps evs ->
    rounds_log chat trace (ts :: steps) (pre ++ call :: evs).

(** A trace step and the result it records. *)
Definition records (ts : TraceStep) (r : Result) : Prop :=
  ts_ToolSuccess ts = res_OK r /\ ts_ToolError ts = res_Error r /\ ts_Observation ts = observation_of r.

(** Steps numbered from [k]. *)
Fixpoint numbered (k : Z) (l : list TraceStep) : Prop :=
  match l with [] => True | ts :: l' => ts_Step ts = k /\ numbered (k + 1) l' end.

Lemma numbered_app k a b : numbered k (a ++ b) <-> numbered k a /\ numbered (k + Z.of_nat (length a)) b.
Proof.
  revert k. induction a as [|ts a IH]; intros k; simpl; [rewrite Z.add_0_r; tauto |].
  rewrite IH. replace (k + 1 + Z.of_nat (length a)) with (k + Z.pos (Pos.of_succ_nat (length a))) by lia. tauto.
Qed.

Record loop_shape (lp : Loop) : Prop := {
  ls_turns : lp_priorTurns lp = zip_with Build_PriorTurn (lp_executedSteps lp) (lp_toolResults lp);
  ls_length : length (lp_executedSteps lp) = length (lp_toolResults lp);
  ls_records : Forall2 records (et_Steps (lp_trace lp)) (lp_toolResults lp);
  ls_names : map ts_ToolName (et_Steps (lp_trace lp)) = map ps_Name (lp_executedSteps lp);
  ls_numbered : numbered 1 (et_Steps (lp_trace lp))
}.

Section turn.
Context {W : Type} (now : M W Z) (newUUID : M W string) (s : Service W) (log : W -> list RuntimeEvent).

Definition quiet {A} (m : M W A) : Prop := forall w, log (m w).2 = log w.

(** Only the sink adds to the log. *)
Record sink (emit : RuntimeEvent -> M W unit) : Prop := {
  sk_now : quiet now; sk_uuid : quiet newUUID;
  sk_plan : forall q, quiet (plan_tools s q); sk_final : forall q, quiet (final_response s q);
  sk_load : forall c, quiet (ss_Load (sv_states s) c); sk_save : forall st, quiet (ss_Save (sv_states s) st);
  sk_tool : forall name t chat timeout call, reg_Get (sv_tools s) name = Some t -> quiet (t_Execute t chat timeout call);
  sk_emit : forall e w, log (emit e w).2 = log w ++ [e]
}.

Context (input : ProcessInput W) (emit : RuntimeEvent -> M W unit).
Context (Hemit : pi_EmitEvent input = Some emit) (Hsink : sink emit).

Lemma emit_text_log trace type step data w :
  exists evs, log (emit_text now input trace type step data w).2 = log w ++ evs /\
    (evs = [] \/ exists e, evs = [e] /\ ev_Type e = type /\ ev_ChatID e = pi_ChatID input /\
                           ev_TraceID e = et_TraceID trace /\ ev_Step e = step /\ ev_Data e = data).
Proof.
  unfold emit_text. case_bool_decide; [exists []; simpl; rewrite app_nil_r; auto |].
  unfold bind, emitRuntimeEvent. rewrite Hemit. pose proof (sk_now _ Hsink w) as Hn. destruct (now w) as [t w1].
  eexists [_]. rewrite (sk_emit _ Hsink). cbn in Hn. rewrite Hn. split; [done |]. right. eexists. done.
Qed.

Lemma emit_plan_log trace step next r w :
  exists evs, log (emit_plan now input trace step next r w).2 = log w ++ evs /\
    (evs = [] \/ exists e, evs = [e] /\ ev_Type e = EventPlan /\ ev_ChatID e = pi_ChatID input /\
                           ev_TraceID e = et_TraceID trace /\ ev_Step e = step).
Proof.
  unfold emit_plan. destruct (res_Payload r) as [| | | | |m];
    try (exists []; simpl; rewrite app_nil_r; by auto).
  destruct (_ && _); [| exists []; simpl; rewrite app_nil_r; by auto].
  unfold bind, emitRuntimeEvent. rewrite Hemit. pose proof (sk_now _ Hsink w) as Hn. destruct (now w) as [t w1].
  eexists [_]. rewrite (sk_emit _ Hsink). cbn in Hn. rewrite Hn. split; [done |]. right. eexists. done.
Qed.

Lemma executeStep_quiet chat next : quiet (executeStep now s chat next).
Proof.
  intros w. unfold executeStep. destruct (negb _); [done |].
  destruct (reg_Get _ _) as [t|] eqn:Ht; [| done]. unfold bind.
  pose proof (sk_now _ Hsink w) as Hn. destruct (now w) as [z w1]. cbn in Hn.
  pose proof (sk_tool _ Hsink _ t chat (ToolTimeout (sv_config s)) {| call_ID := fmt_d z; call_Name := ps_Name next; call_Arguments := ps_Arguments next |} Ht w1) as Hx.
  destruct (t_Execute _ _ _ _ w1) as [x w2]. cbn in Hx |- *. congruence.
Qed.

(** One round: its events, and what it appends to the loop's state. *)
Lemma react_step_spec step next meta lp w lp' w' :
  react_step now s input step next meta lp w = (lp', w') ->
  exists r ts evs,
    log w' = log w ++ evs /\ rounds_log (pi_ChatID input) (et_TraceID (lp_trace lp)) [ts] evs /\
    lp_executedSteps lp' = lp_executedSteps lp ++ [next] /\ lp_toolResults lp' = lp_toolResults lp ++ [r] /\
    lp_priorTurns lp' = lp_priorTurns lp ++ [{| pt_ToolCall := next; pt_ToolResult := r |}] /\
    et_Steps (lp_trace lp') = et_Steps (lp_trace lp) ++ [ts] /\ et_TraceID (lp_trace lp') = et_TraceID (lp_trace lp) /\
    ts_Step ts = step /\ ts_ToolName ts = ps_Name next /\ records ts r.
Proof.
  unfold react_step, bind. intros H.
  destruct (emit_text_log (lp_trace lp) EventThinking step (pm_Thinking meta) w) as (e1 & H1 & S1).
  destruct (emit_text _ _ _ EventThinking _ _ w) as [[] w1]. cbn [snd] in H1.
  destruct (emit_text_log (lp_trace lp) EventAnswer step (pm_Answer meta) w1) as (e2 & H2 & S2).
  destruct (emit_text _ _ _ EventAnswer _ _ w1) as [[] w2]. cbn [snd] in H2.
  pose proof (executeStep_quiet (pi_ChatID input) next w2) as H3.
  destruct (executeStep _ _ _ _ w2) as [r w3]. cbn [snd] in H3.
  pose proof (sk_now _ Hsink w3) as H4. destruct (now w3) as [t w4]. cbn [snd] in H4.
  destruct (emit_plan_log (lp_trace lp) step next r w4) as (e3 & H5 & S3).
  destruct (emit_plan _ _ _ _ _ _ w4) as [[] w5]. cbn [snd] in H5.
  unfold emitRuntimeEvent in H. rewrite Hemit in H.
  match type of H with context [emit ?e w5] => set (call := e) in *; pose proof (sk_emit _ Hsink call w5) as H6 end.
  destruct (emit call w5) as [[] w6]. cbn [snd] in H6. unfold ret in H. injection H as <- <-.
  eexists r, _, (e1 ++ e2 ++ e3 ++ [call]). split.
  { rewrite H6, H5, H4, H3, H2, H1. by rewrite !app_assoc. }
  split; [| cbn; split_and!; try reflexivity; done].
  rewrite !app_assoc. constructor; try reflexivity; [| constructor].
  rewrite !Forall_app. split_and!.
  - destruct S1 as [->|(e & -> & Ht & ? & ? & ? & _)]; [constructor |]. apply Forall_singleton. split_and!; try done. rewrite Ht. clear. set_solver.
  - destruct S2 as [->|(e & -> & Ht & ? & ? & ? & _)]; [constructor |]. apply Forall_singleton. split_and!; try done. rewrite Ht. clear. set_solver.
  - destruct S3 as [->|(e & -> & Ht & ? & ? & ?)]; [constructor |]. apply Forall_singleton. split_and!; try done. rewrite Ht. clear. set_solver.
Qed.

Lemma rounds_log_cons ts e1 new e2 chat id :
  rounds_log chat id [ts] e1 -> rounds_log chat id new e2 -> rounds_log chat id (ts :: new) (e1 ++ e2).
Proof.
  intros H1 H2. inversion H1 as [| ? ? pre call evs ? ? ? ? ? ? ? ? Hnil]; subst. inversion Hnil; subst.
  rewrite <- app_assoc. by constructor.
Qed.

Lemma loop_shape_step lp lp' next r ts : loop_shape lp ->
  lp_executedSteps lp' = lp_executedSteps lp ++ [next] -> lp_toolResults lp' = lp_toolResults lp ++ [r] ->
  lp_priorTurns lp' = lp_priorTurns lp ++ [{| pt_ToolCall := next; pt_ToolResult := r |}] ->
  et_Steps (lp_trace lp') = et_Steps (lp_trace lp) ++ [ts] ->
  ts_Step ts = Z.of_nat (length (lp_toolResults lp)) + 1 -> ts_ToolName ts = ps_Name next -> records ts r ->
  loop_shape lp'.
Proof.
  intros [Ht Hl Hr Hn Hk] He Hres Hp Hs Hstep Hname Hrec. split.
  - rewrite Hp, He, Hres, Ht. by rewrite zip_with_app.
  - rewrite He, Hres, !length_app. cbn. lia.
  - rewrite Hs, Hres. apply Forall2_app; [done |]. apply Forall2_cons_2; [done | apply Forall2_nil_2].
  - rewrite Hs, He, !map_app, Hn. cbn. by rewrite Hname.
  - rewrite Hs. apply numbered_app. split; [done |]. cbn. split; [| done].
    rewrite Hstep, (Forall2_length _ _ _ Hr). lia.
Qed.

Definition turn_id (lp : Loop) : string := et_TraceID (lp_trace lp).

Lemma react_loop_spec n step lp w lp' w' :
  react_loop now s n input step lp w = (Ok lp', w') -> loop_shape lp ->
  step = Z.of_nat (length (lp_toolResults lp)) + 1 ->
  exists evs new, log w' = log w ++ evs /\ rounds_log (pi_ChatID input) (turn_id lp) new evs /\
    et_Steps (lp_trace lp') = et_Steps (lp_trace lp) ++ new /\ turn_id lp' = turn_id lp /\ loop_shape lp' /\
    (length (lp_toolResults lp') <= length (lp_toolResults lp) + n)%nat.
Proof.
  revert step lp w. induction n as [|n IH]; intros step lp w H Hs Hstep.
  { injection H as <- <-. exists [], []. rewrite !app_nil_r. split_and!; try done; [apply rounds_none | lia]. }
  cbn [react_loop] in H. unfold bind_ok in H.
  match type of H with context [plan_tools s ?q w] => pose proof (sk_plan _ Hsink q w) as Hq; destruct (plan_tools s q w) as [[[plan meta]|e] w1] end; [| done].
  cbn [snd] in Hq. set (lp0 := lp <| lp_trace := _ |>) in H.
  assert (Hs0 : loop_shape lp0) by (destruct Hs; by split).
  destruct plan as [|next rest].
  { injection H as <- <-. exists [], []. rewrite !app_nil_r, Hq. split_and!; try done; [apply rounds_none |]. change (lp_toolResults lp0) with (lp_toolResults lp). lia. }
  unfold bind in H. destruct (react_step now s input step next meta lp0 w1) as [lp1 w2] eqn:E.
  apply react_step_spec in E as (r & ts & e1 & Hlog & Hr & He & Hres & Hp & Ht & Hid & Hk & Hname & Hrec).
  change (lp_toolResults lp0) with (lp_toolResults lp) in Hres. change (et_TraceID (lp_trace lp0)) with (turn_id lp) in *.
  assert (Hs1 : loop_shape lp1) by (eapply (loop_shape_step lp0); try done; by rewrite Hk).
  assert (Hlen : length (lp_toolResults lp1) = S (length (lp_toolResults lp)))
    by (rewrite Hres, length_app; cbn; lia).
  destruct (IH (step + 1) lp1 w2 H Hs1 ltac:(lia)) as (e2 & new & Hlog2 & Hr2 & Ht2 & Hid2 & Hs2 & Hle).
  exists (e1 ++ e2), (ts :: new). rewrite Hlog2, Hlog, Hq, Ht2, Ht, <- !app_assoc.
  unfold turn_id in *. split_and!; try done.
  - apply rounds_log_cons; [exact Hr | by rewrite Hid in Hr2].
  - by rewrite Hid2, Hid.
  - lia.
Qed.
End turn.

(** C12: A turn that succeeds ran at most [MaxReactSteps] tools. Its trace has one step
    per tool result, numbered from 1, with the tool asked for and the outcome observed;
    the events sent are, step by step, the texts and plan of the step and then its tool
    call with the same outcome, then at most one closing thought, and last exactly one
    answer; all carry the chat's and the trace's id. The state saved last counts the
    tools that ran. *)
Theorem Process_turn {W} now newUUID (s : Service W) log emit input w r w' :
  pi_EmitEvent input = Some emit -> sink now newUUID s log emit ->
  Process now newUUID s input w = (Ok r, w') ->
  let steps := et_Steps (pres_Trace r) in
  let n := length (pres_ToolResults r) in
  (n <= Z.to_nat (MaxReactSteps (sv_config s)))%nat /\
  Forall2 records steps (pres_ToolResults r) /\ numbered 1 steps /\
  (exists evs fin tok, log w' = log w ++ evs ++ fin ++ [tok] /\
     rounds_log (pi_ChatID input) (et_TraceID (pres_Trace r)) steps evs /\
     (fin = [] \/ exists e, fin = [e] /\ ev_Type e = EventThinking /\ ev_ChatID e = pi_ChatID input /\
                            ev_TraceID e = et_TraceID (pres_Trace r) /\ ev_Step e = Z.of_nat n + 1) /\
     ev_Type tok = EventToken /\ ev_ChatID tok = pi_ChatID input /\ ev_TraceID tok = et_TraceID (pres_Trace r) /\
     ev_Data tok = pres_AssistantMessage r) /\
  et_FinalAnswer (pres_Trace r) = pres_AssistantMessage r /\
  exists w1 t, ss_Save (sv_states s) {| os_ChatID := pi_ChatID input; os_StepCount := Z.of_nat n; os_UpdatedAt := t |} w1 = (None, w').
Proof.
  intros Hemit Hsink. unfold Process, processReactLoop, conclude, bind_ok, bind, ret. intros H.
  pose proof (sk_load _ _ _ _ _ Hsink (pi_ChatID input) w) as L1.
  destruct (ss_Load _ _ w) as [[current|e] w1]; [| done]. cbn [snd] in L1.
  pose proof (sk_now _ _ _ _ _ Hsink w1) as L2. destruct (now w1) as [t2 w2]. cbn [snd] in L2.
  match type of H with context [ss_Save _ ?st w2] => pose proof (sk_save _ _ _ _ _ Hsink st w2) as L3; destruct (ss_Save _ st w2) as [[e|] w3]; [done |] end.
  cbn [snd] in L3. pose proof (sk_uuid _ _ _ _ _ Hsink w3) as L4. destruct (newUUID w3) as [id w4]. cbn [snd] in L4.
  pose proof (sk_now _ _ _ _ _ Hsink w4) as L5. destruct (now w4) as [started w5]. cbn [snd] in L5.
  match type of H with context [react_loop _ _ _ _ _ ?lp w5] => set (lp0 := lp) in H end.
  assert (S0 : loop_shape lp0) by (split; try done; constructor).
  destruct (react_loop _ _ _ _ _ lp0 w5) as [[lp|e] w6] eqn:E; [| done].
  apply (react_loop_spec now newUUID s log input emit Hemit Hsink _ _ _ _ _ _) in E; [| done | done].
  destruct E as (evs & steps & L6 & R & Hsteps & Hid & [_ Hlen Hrec _ Hnum] & Hle).
  match type of H with context [final_response s ?q w6] => pose proof (sk_final _ _ _ _ _ Hsink q w6) as L7; destruct (final_response s q w6) as [[[assistant meta]|e] w7]; [| done] end.
  cbn [snd] in L7. match type of H with context [emit_text _ _ ?tr _ ?k ?d w7] => set (trace := tr) in H;
    destruct (emit_text_log now newUUID s log input emit Hemit Hsink trace EventThinking k d w7) as (fin & L8 & F) end.
  destruct (emit_text _ _ _ _ _ _ w7) as [[] w8]. cbn [snd] in L8.
  pose proof (sk_now _ _ _ _ _ Hsink w8) as L9. destruct (now w8) as [completed w9]. cbn [snd] in L9.
  pose proof (sk_now _ _ _ _ _ Hsink w9) as L10. destruct (now w9) as [t10 w10]. cbn [snd] in L10.
  unfold emitRuntimeEvent in H. rewrite Hemit in H.
  match type of H with context [emit ?e w10] => set (tok := e) in *; pose proof (sk_emit _ _ _ _ _ Hsink tok w10) as L11 end.
  destruct (emit tok w10) as [[] w11]. cbn [snd] in L11.
  pose proof (sk_now _ _ _ _ _ Hsink w11) as L12. destruct (now w11) as [t12 w12]. cbn [snd] in L12.
  match type of H with context [ss_Save _ ?st w12] => pose proof (sk_save _ _ _ _ _ Hsink st w12) as L13; destruct (ss_Save _ st w12) as [[e|] w13] eqn:Esave; [done |] end.
  cbn [snd] in L13. injection H as <- <-. cbn in Hsteps.
  change (et_Steps (lp_trace lp) = steps) in Hsteps. subst steps.
  assert (Hn : length (et_Steps (lp_trace lp)) = length (lp_toolResults lp)) by (by eapply Forall2_length).
  cbn zeta. cbn [pres_ToolResults pres_Trace pres_AssistantMessage].
  split_and!; [exact Hle | exact Hrec | exact Hnum | | done | exists w12, t12; rewrite <- Hlen; exact Esave].
  exists evs, fin, tok. split; [| split; [| split]].
  - rewrite L13, L12, L11, L10, L9, L8, L7, L6, L5, L4, L3, L2, L1. by rewrite <- !app_assoc.
  - change (rounds_log (pi_ChatID input) (turn_id lp) (et_Steps (lp_trace lp)) evs). rewrite Hid. exact R.
  - destruct F as [->|(e & -> & ? & ? & ? & Hk & _)]; [by left | right]. exists e. split_and!; try done.
    rewrite Hk. change (Z.of_nat (length (et_Steps (lp_trace lp))) + 1 = Z.of_nat (length (lp_toolResults lp)) + 1).
    by rewrite Hn.
  - done.
Qed.

(** ** The tool policy *)

(** What the turn may do to the world: [R] relates the worlds before and after every
    collaborator, and after every tool that the policy allows and the registry has. *)
Record effects_within {W} (R : W -> W -> Prop) (now : M W Z) (newUUID : M W string) (s : Service W)
    (emitFn : option (RuntimeEvent -> M W unit)) : Prop := {
  ew_now : keeps R now; ew_uuid : keeps R newUUID;
  ew_plan : forall q, keeps R (plan_tools s q); ew_final : forall q, keeps R (final_response s q);
  ew_load : forall c, keeps R (ss_Load (sv_states s) c); ew_save : forall st, keeps R (ss_Save (sv_states s) st);
  ew_emit : forall e, keeps R (emitRuntimeEvent emitFn e);
  ew_tool : forall name t chat timeout call, allowed s name = true -> reg_Get (sv_tools s) name = Some t ->
              keeps R (t_Execute t chat timeout call)
}.

Section confined.
Context {W : Type} (R : W -> W -> Prop) `{!PreOrder R}.
Context (now : M W Z) (newUUID : M W string) (s : Service W) (input : ProcessInput W).
Context (He : effects_within R now newUUID s (pi_EmitEvent input)).

Lemma executeStep_keeps chat step : keeps R (executeStep now s chat step).
Proof.
  unfold executeStep. destruct (allowed s (ps_Name step)) eqn:Ha; cbn [negb]; [| by apply keeps_ret].
  destruct (reg_Get _ _) as [t|] eqn:Ht; [| by apply keeps_ret].
  apply keeps_bind; [done | apply He | intros z]. apply keeps_bind; [done | by eapply ew_tool | intros x; by apply keeps_ret].
Qed.
Lemma emit_text_keeps trace type step data : keeps R (emit_text now input trace type step data).
Proof.
  unfold emit_text. case_bool_decide; [by apply keeps_ret |]. apply keeps_bind; [done | apply He | intros t; apply He].
Qed.
Lemma emit_plan_keeps trace step next r : keeps R (emit_plan now input trace step next r).
Proof.
  unfold emit_plan. destruct (res_Payload r); try by apply keeps_ret.
  destruct (_ && _); [| by apply keeps_ret]. apply keeps_bind; [done | apply He | intros t; apply He].
Qed.

Lemma react_step_keeps step next meta lp : keeps R (react_step now s input step next meta lp).
Proof.
  unfold react_step. repeat (apply keeps_bind; [done | | intros ?]);
    try apply emit_text_keeps; try apply emit_plan_keeps; try apply executeStep_keeps; try apply He. by apply keeps_ret.
Qed.
Lemma react_loop_keeps n step lp : keeps R (react_loop now s n input step lp).
Proof.
  revert step lp. induction n as [|n IH]; intros step lp; cbn [react_loop]; [by apply keeps_ret |].
  apply keeps_bind_ok; [done | apply He |]. intros [[|next rest] meta]; [by apply keeps_ret |].
  apply keeps_bind; [done | apply react_step_keeps | intros lp'; apply IH].
Qed.
Lemma Process_keeps : keeps R (Process now newUUID s input).
Proof.
  unfold Process.
  apply keeps_bind_ok; [done | apply He | intros current]. apply keeps_bind; [done | apply He | intros t].
  apply keeps_bind; [done | apply He | intros [e|]]; [by apply keeps_ret |]. unfold processReactLoop, conclude.
  apply keeps_bind; [done | apply He | intros id]. apply keeps_bind; [done | apply He | intros started].
  apply keeps_bind_ok; [done | by eapply react_loop_keeps | intros lp].
  apply keeps_bind_ok; [done | apply He | intros [assistant meta]].
  repeat (apply keeps_bind; [done | | intros ?]); try apply He; [by eapply emit_text_keeps |].
  match goal with |- keeps R (match ?e with _ => _ end) => destruct e end; by apply keeps_ret.
Qed.
End confined.

(** C13: A turn can change the world only through its collaborators and through tools
    that are registered and, when the policy lists tools, listed: a property that they
    preserve is preserved by the whole turn, whatever the planner asks for. *)
Theorem Process_confined {W} (R : W -> W -> Prop) now newUUID (s : Service W) input :
  PreOrder R -> effects_within R now newUUID s (pi_EmitEvent input) ->
  forall w, R w (Process now newUUID s input w).2.
Proof.
  intros HR He. by apply Process_keeps.
Qed.

(** ** The rule planner in the loop *)

Lemma rule_plan_exec req command v vms :
  has_prefix "/exec " (trim_space (pr_Message req)) = true ->
  command = trim_space (trim_prefix (trim_space (pr_Message req)) "/exec ") -> command <> "" ->
  pr_AvailableVMs req = v :: vms -> trim_space (av_VMID v) <> "" ->
  exists meta, rule_PlanToolsWithMetadata req =
    ([{| ps_Name := "vm.execute_command"; ps_Arguments := [("vm_id", VStr (av_VMID v)); ("command", VStr command)];
         ps_ThoughtSignature := "" |}], meta).
Proof.
  intros Hp -> Hc Hv Hid. unfold rule_PlanToolsWithMetadata. rewrite Hp, Hv.
  rewrite !bool_decide_eq_false_2 by done. cbn [orb]. eauto.
Qed.

Lemma rule_loop_repeats {W} now (s : Service W) input command v vms n step lp w :
  sv_planner s = RulePlanner ->
  has_prefix "/exec " (trim_space (pi_Message input)) = true ->
  command = trim_space (trim_prefix (trim_space (pi_Message input)) "/exec ") -> command <> "" ->
  pi_AvailableVMs input = v :: vms -> trim_space (av_VMID v) <> "" ->
  exists lp' w', react_loop now s n input step lp w = (Ok lp', w') /\
    lp_executedSteps lp' = lp_executedSteps lp ++ replicate n {|
      ps_Name := "vm.execute_command"; ps_Arguments := [("vm_id", VStr (av_VMID v)); ("command", VStr command)];
      ps_ThoughtSignature := "" |} /\
    length (lp_toolResults lp') = (length (lp_toolResults lp) + n)%nat.
Proof.
  intros Hs Hp Hcmd Hne Hv Hid. revert step lp w. induction n as [|n IH]; intros step lp w.
  { exists lp, w. rewrite app_nil_r. split_and!; [done | done | lia]. }
  cbn [react_loop]. unfold bind_ok, plan_tools. rewrite Hs. cbn [WithMetadata RulePlanner].
  match goal with |- context [ret (Ok (rule_PlanToolsWithMetadata ?q)) w] =>
    destruct (rule_plan_exec q command v vms Hp Hcmd Hne Hv Hid) as [meta E]; rewrite E end.
  unfold ret at 1. unfold bind at 1.
  match goal with |- context [react_step now s input step ?nx meta ?l w] =>
    destruct (react_step now s input step nx meta l w) as [lp1 w1] eqn:Estep end.
  assert (H1 : lp_executedSteps lp1 = lp_executedSteps lp ++ [{|
      ps_Name := "vm.execute_command"; ps_Arguments := [("vm_id", VStr (av_VMID v)); ("command", VStr command)];
      ps_ThoughtSignature := "" |}] /\ length (lp_toolResults lp1) = S (length (lp_toolResults lp))).
  { clear -Estep. unfold react_step, bind, ret in Estep.
    repeat match type of Estep with context [match ?m with (_, _) => _ end] => destruct m end.
    injection Estep as <- _. cbn. rewrite length_app. cbn. split; [done |]. by rewrite Nat.add_1_r. }
  destruct H1 as [H1 H2]. destruct (IH (step + 1) lp1 w1) as (lp' & w' & Hl & He & Hr).
  exists lp', w'. split; [exact Hl |]. rewrite He, H1, Hr, H2, <- app_assoc. split; [done | lia].
Qed.

(** A message that asks for a command on the first of the available VMs. *)
Definition exec_turn {W} (input : ProcessInput W) : Prop :=
  has_prefix "/exec " (trim_space (pi_Message input)) = true /\
  trim_space (trim_prefix (trim_space (pi_Message input)) "/exec ") <> "" /\
  exists v vms, pi_AvailableVMs input = v :: vms /\ trim_space (av_VMID v) <> "".

(** The rule planner looks at the message only, not at the tools that already ran:
    a turn that starts with /exec on an available VM runs the command again in every
    round, so exactly [MaxReactSteps] times. *)
Theorem RulePlanner_repeats {W} now newUUID (s : Service W) input r w w' :
  sv_planner s = RulePlanner -> exec_turn input -> Process now newUUID s input w = (Ok r, w') ->
  length (pres_ToolResults r) = Z.to_nat (MaxReactSteps (sv_config s)).
Proof.
  intros Hs (Hp & Hne & v & vms & Hv & Hid). unfold Process, processReactLoop, conclude, bind_ok, bind, ret.
  destruct (ss_Load _ _ w) as [[current|e] w1]; [| done]. destruct (now w1) as [t2 w2].
  match goal with |- context [ss_Save _ ?st w2] => destruct (ss_Save _ st w2) as [[e|] w3]; [done |] end.
  destruct (newUUID w3) as [id w4]. destruct (now w4) as [started w5].
  match goal with |- context [react_loop now s ?n input 1 ?lp w5] =>
    destruct (rule_loop_repeats now s input _ v vms n 1 lp w5 Hs Hp eq_refl Hne Hv Hid) as (lp' & w6 & El & _ & Hlen);
    rewrite El; clear El end.
  cbn [lp_toolResults length] in Hlen.
  destruct (final_response s _ w6) as [[[assistant meta]|e] w7]; [| done].
  destruct (emit_text _ _ _ _ _ _ w7) as [[] w8]. destruct (now w8) as [completed w9]. destruct (now w9) as [t10 w10].
  destruct (emitRuntimeEvent _ _ w10) as [[] w11]. destruct (now w11) as [t12 w12].
  match goal with |- context [ss_Save _ ?st w12] => destruct (ss_Save _ st w12) as [[e|] w13]; [done |] end.
  intros [= <- _]. exact Hlen.
Qed.

(** ** A concrete turn *)

Record TurnWorld := { tw_log : list RuntimeEvent; tw_states : gmap string State; tw_clock : Z }.
Definition tick : M TurnWorld Z := fun w => (tw_clock w, w <| tw_clock := tw_clock w + 1 |>).
Definition trace_id : M TurnWorld string := fun w => ("trace-" +:+ fmt_d (tw_clock w), w).
Definition log_event (e : RuntimeEvent) : M TurnWorld unit := fun w => (tt, w <| tw_log := tw_log w ++ [e] |>).
Definition shell_tool : Tool TurnWorld :=
  {| t_Name := "vm.execute_command"; t_Execute := fun chat timeout call => ret
      ({| res_ToolCallID := ""; res_ToolName := ""; res_OK := true; res_Payload := VMap [("output", VStr "done")]; res_Error := "" |}, None) |}.
Definition sample_service : Service TurnWorld :=
  NewWithConfig (MemoryStateStore tw_states (fun m w => w <| tw_states := m |>) tick) (Some RulePlanner)
    (Some (NewInMemoryToolRegistry [Some shell_tool])) None (NewConfig ["vm.execute_command"] 0 2).
Definition sample_turn : ProcessInput TurnWorld :=
  {| pi_ChatID := "c1"; pi_AgentID := "a"; pi_UserID := "u"; pi_Message := " /exec ls -l ";
     pi_AvailableVMs := [{| av_VMID := "v1"; av_Environment := ""; av_EnvDescription := ""; av_Status := "running"; av_HasSnapshot := false |}];
     pi_EnvironmentHint := ""; pi_History := []; pi_EmitEvent := Some log_event |}.
Definition idle_world : TurnWorld := {| tw_log := []; tw_states := ∅; tw_clock := 100 |}.

Lemma sample_sink : sink tick trace_id sample_service tw_log log_event.
Proof.
  split; try done.
  - intros c w. simpl. by destruct (tw_states w !! c).
  - intros name t chat timeout call Ht w. simpl in Ht.
    destruct (decide (name = "vm.execute_command")) as [->|Hne].
    + rewrite lookup_insert_eq in Ht. by injection Ht as <-.
    + by rewrite lookup_insert_ne in Ht.
Qed.

Lemma Process_turn_witness :
  exists r w', Process tick trace_id sample_service sample_turn idle_world = (Ok r, w') /\
    (length (pres_ToolResults r) <= 2)%nat /\ numbered 1 (et_Steps (pres_Trace r)).
Proof.
  assert (exists r w', Process tick trace_id sample_service sample_turn idle_world = (Ok r, w')) as (r & w' & E)
    by (do 2 eexists; vm_compute; reflexivity).
  exists r, w'. split; [exact E |].
  destruct (Process_turn tick trace_id sample_service tw_log log_event sample_turn idle_world r w' eq_refl sample_sink E)
    as (H1 & _ & H2 & _). split; [exact H1 | exact H2].
Defined.

Lemma RulePlanner_repeats_witness :
  exists r w', Process tick trace_id sample_service sample_turn idle_world = (Ok r, w') /\
    length (pres_ToolResults r) = 2%nat.
Proof.
  assert (exists r w', Process tick trace_id sample_service sample_turn idle_world = (Ok r, w')) as (r & w' & E)
    by (do 2 eexists; vm_compute; reflexivity).
  exists r, w'. split; [exact E |].
  refine (RulePlanner_repeats tick trace_id sample_service sample_turn r idle_world w' eq_refl _ E).
  split; [vm_compute; reflexivity |]. split; [vm_compute; discriminate |].
  do 2 eexists. split; [reflexivity | vm_compute; discriminate].
Defined.

(** The clock never runs back, whatever tools run. *)
Lemma Process_confined_witness :
  tw_clock idle_world <= tw_clock (Process tick trace_id sample_service sample_turn idle_world).2.
Proof.
  assert (PreOrder (fun w w' => tw_clock w <= tw_clock w')) as HR by (split; [intros w; lia | intros x y z; lia]).
  refine (Process_confined (fun w w' => tw_clock w <= tw_clock w') tick trace_id sample_service sample_turn HR _ idle_world).
  split; unfold keeps; try (intros; simpl; lia).
  - intros c w. simpl. destruct (tw_states w !! c); simpl; lia.
  - intros st w. apply Z.le_refl.
  - intros e w. apply Z.le_refl.
  - intros name t chat timeout call _ Ht w. simpl in Ht. destruct (decide (name = "vm.execute_command")) as [->|Hne].
    + rewrite lookup_insert_eq in Ht. injection Ht as <-. simpl. lia.
    + by rewrite lookup_insert_ne in Ht.
Defined.
