(* ===== verification/Chat.v ===== *)
(** * Chats and agents: core/domain/chat, core/domain/agent

    The entities the chat service and its repositories exchange, the world the
    in-memory part of the system runs in, and the operations of the entities. *)

From S2P Require Import Prelude Exception Naming GoLib Domain World Json Orchestrator.

(** ** Entities *)

Inductive ChatStatus := ChatActive | ChatIdle | ChatClosed.
#[export] Instance ChatStatus_eq_dec : EqDecision ChatStatus.
Proof. solve_decision. Defined.

Definition RoleUser := "user".
Definition RoleAssistant := "assistant".
Definition ContentText := "text".
Definition ContentTypeForRole (role : string) : string := ContentText.

Record Chat := {
  c_ID : string; c_AgentID : string; c_UserID : string; c_Title : string; c_VMID : string; c_Status : ChatStatus;
  c_Messages : list Message; c_CreatedAt : Z; c_UpdatedAt : Z }.
Record ChatParams := {
  cp_AgentID : string; cp_UserID : string; cp_AgentName : string; cp_Model : string; cp_SystemPrompt : string;
  cp_Title : string }.

Record ListCursor := { lc_CreatedAt : Z; lc_ID : string }.
Record ListParams := { lp_UserID : string; lp_Cursor : option ListCursor; lp_Limit : Z }.
Record ConversationSummary := {
  cs_ID : string; cs_AgentID : string; cs_UserID : string; cs_Title : string; cs_VMID : string; cs_Status : ChatStatus;
  cs_LastMessage : string; cs_LastMessageAt : Z; cs_CreatedAt : Z; cs_UpdatedAt : Z }.
Record ListMessagesParams := { lm_ChatID : string; lm_Cursor : option Z; lm_Limit : Z }.
Record TimelineEntry := {
  te_ID : string; te_SequenceNumber : Z; te_Source : string; te_Role : string; te_EventType : string; te_Step : Z;
  te_Content : string; te_ContentType : string; te_Metadata : Args; te_At : Z }.

Record Agent := {
  ag_ID : string; ag_UserID : string; ag_Name : string; ag_Description : string; ag_Model : string;
  ag_SystemPrompt : string; ag_Status : string; ag_CreatedAt : Z; ag_UpdatedAt : Z }.
Record AgentParams := {
  ap_UserID : string; ap_Name : string; ap_Description : string; ap_Model : string; ap_SystemPrompt : string }.
Record AgentUpdate := {
  au_Name : option string; au_Description : option string; au_Model : option string; au_SystemPrompt : option string }.

(** agent.MemoryEntry; an [ExpiresAt] of 0 is the zero time: no expiry. *)
Record MemoryEntry := {
  me_ChatID : string; me_Key : string; me_Value : string; me_ExpiresAt : Z; me_CreatedAt : Z; me_UpdatedAt : Z }.

(** orchestrator.PersistedRuntimeEvent, without the id the database gives it. *)
Record PersistedRuntimeEvent := {
  pe_ChatID : string; pe_TraceID : string; pe_Type : string; pe_Step : Z; pe_Data : string; pe_Command : string;
  pe_Result : string; pe_Error : string; pe_TokenUsage : option TokenUsage; pe_Metadata : Args; pe_CreatedAt : Z }.
Definition ToPersisted (e : RuntimeEvent) : PersistedRuntimeEvent :=
  {| pe_ChatID := ev_ChatID e; pe_TraceID := ev_TraceID e; pe_Type := ev_Type e; pe_Step := ev_Step e;
     pe_Data := ev_Data e; pe_Command := ev_Command e; pe_Result := ev_Result e; pe_Error := ev_Error e;
     pe_TokenUsage := ev_TokenUsage e; pe_Metadata := ev_Metadata e; pe_CreatedAt := ev_At e |}.

(** ** The world of the in-memory repositories *)

(** The maps of the repositories, and the clock and identifiers still to come: the
    [n]th reading of the clock and the [n]th identifier are arbitrary. *)
Record Mem := {
  mw_chats : gmap string Chat;
  mw_agents : gmap string Agent;
  mw_entries : gmap string MemoryEntry;
  mw_events : gmap string (list PersistedRuntimeEvent);
  mw_environments : gmap string Environment;
  mw_times : nat -> Z; mw_ids : nat -> string; mw_tick : nat }.

Definition mnow : M Mem Z := fun w => (mw_times w (mw_tick w), w <| mw_tick := S (mw_tick w) |>).
Definition mnew_id : M Mem string := fun w => (mw_ids w (mw_tick w), w <| mw_tick := S (mw_tick w) |>).

Local Open Scope go_scope.

Section constructors.
Context {W : Type} (now : M W Z) (newUUID : M W string).

(** [chat.New], [agent.New] *)
Definition newChat (p : ChatParams) : M W Chat :=
  let* now := now in
  let* id := newUUID in
  ret {| c_ID := id; c_AgentID := cp_AgentID p; c_UserID := cp_UserID p; c_Title := cp_Title p; c_VMID := "";
         c_Status := ChatActive; c_Messages := []; c_CreatedAt := now; c_UpdatedAt := now |}.
Definition newAgent (p : AgentParams) : M W Agent :=
  let* now := now in
  let* id := newUUID in
  ret {| ag_ID := id; ag_UserID := ap_UserID p; ag_Name := ap_Name p; ag_Description := ap_Description p;
         ag_Model := ap_Model p; ag_SystemPrompt := ap_SystemPrompt p; ag_Status := "created";
         ag_CreatedAt := now; ag_UpdatedAt := now |}.

Definition AddMessageWithMetadata (c : Chat) (role content : string) (metadata : Args) : M W Chat :=
  let* t := now in
  let* t' := now in
  ret (c <| c_Messages := c_Messages c ++ [{| msg_Role := role; msg_Content := content;
                                             msg_ContentType := ContentTypeForRole role; msg_Metadata := metadata; msg_At := t |}] |>
         <| c_UpdatedAt := t' |>).
Definition AddMessage (c : Chat) (role content : string) : M W Chat := AddMessageWithMetadata c role content [].
End constructors.
