(* ===== verification/MemRepo.v ===== *)
(** * The in-memory repositories: src/repository/memory

    Chats, agents, chat-scoped agent memory, runtime events and environments. Every
    method is one critical section of the repository's mutex, so it is one step.

    Then their pagination: a client that follows the cursors of ListByUserID sees every chat of the user
    exactly once, newest first. The cursor of ListMessages is a time only, so messages
    with equal times can be lost between pages. *)

From stdpp Require Import sorting.
From S2P Require Import Prelude Exception Naming GoLib Domain World PgRepo Json Orchestrator Chat.

Local Open Scope go_scope.

(** Strings compare byte by byte. *)
Definition str_lt (a b : string) : bool := bool_decide (String.le a b) && negb (bool_decide (a = b)).

(** ** Chats (chat.go) *)

Definition ChatCreate (c : Chat) : M Mem (res unit) := fun w => (Ok tt, w <| mw_chats := <[c_ID c := c]> (mw_chats w) |>).
Definition ChatGetByID (id : string) : M Mem (res Chat) := fun w =>
  (match mw_chats w !! id with Some c => Ok c | None => Err (NotFound "chat" id) end, w).
Definition ChatUpdate (c : Chat) : M Mem (res unit) := fun w =>
  match mw_chats w !! c_ID c with
  | None => (Err (NotFound "chat" (c_ID c)), w)
  | Some _ => (Ok tt, w <| mw_chats := <[c_ID c := c]> (mw_chats w) |>)
  end.
Definition UpdateTitle (id title : string) : M Mem (res unit) := fun w =>
  match mw_chats w !! id with
  | None => (Err (NotFound "chat" id), w)
  | Some c =>
      let '(t, w) := mnow w in
      (Ok tt, w <| mw_chats := <[id := c <| c_Title := title |> <| c_UpdatedAt := t |>]> (mw_chats w) |>)
  end.
Definition ChatDelete (id : string) : M Mem (res unit) := fun w =>
  match mw_chats w !! id with
  | None => (Err (NotFound "chat" id), w)
  | Some _ => (Ok tt, w <| mw_chats := delete id (mw_chats w) |>)
  end.

(** Newest first, then the larger id first. *)
Definition newer (a b : Chat) : Prop :=
  c_CreatedAt b < c_CreatedAt a \/ (c_CreatedAt a = c_CreatedAt b /\ String.le (c_ID b) (c_ID a)).
#[export] Instance newer_dec : RelDecision newer.
Proof. intros a b. unfold newer. apply _. Defined.

Definition page_limit (dflt max limit : Z) : Z := if bool_decide (limit <= 0) || bool_decide (max < limit) then dflt else limit.

(** The chat lies behind the cursor. *)
Definition past_cursor (cur : ListCursor) (c : Chat) : bool :=
  bool_decide (c_CreatedAt c < lc_CreatedAt cur) ||
  (bool_decide (c_CreatedAt c = lc_CreatedAt cur) && str_lt (c_ID c) (lc_ID cur)).
Fixpoint drop_until {A} (P : A -> bool) (l : list A) : list A :=
  match l with [] => [] | x :: l' => if P x then l else drop_until P l' end.

Definition summary (c : Chat) : ConversationSummary :=
  {| cs_ID := c_ID c; cs_AgentID := c_AgentID c; cs_UserID := c_UserID c; cs_Title := c_Title c; cs_VMID := c_VMID c;
     cs_Status := c_Status c;
     cs_LastMessage := match last (c_Messages c) with Some m => msg_Content m | None => "" end;
     cs_LastMessageAt := match last (c_Messages c) with Some m => msg_At m | None => 0 end;
     cs_CreatedAt := c_CreatedAt c; cs_UpdatedAt := c_UpdatedAt c |}.

(** The page that starts a list, and what its last element makes the next cursor. *)
Definition first_page {A C} (limit : Z) (cursor : A -> C) (l : list A) : list A * option C :=
  let page := take (Z.to_nat limit) l in
  (page, if bool_decide (limit < Z.of_nat (length l)) then cursor <$> last page else None).

Definition chats_of (userID : string) (w : Mem) : list Chat :=
  merge_sort newer (List.filter (fun c => bool_decide (c_UserID c = userID)) (snd <$> map_to_list (mw_chats w))).

Definition ListByUserID (p : ListParams) : M Mem (res (list ConversationSummary * option ListCursor)) := fun w =>
  let limit := page_limit 20 100 (lp_Limit p) in
  let sorted := chats_of (lp_UserID p) w in
  let rest := match lp_Cursor p with Some cur => drop_until (past_cursor cur) sorted | None => sorted end in
  let '(page, next) := first_page limit (fun c => {| lc_CreatedAt := c_CreatedAt c; lc_ID := c_ID c |}) rest in
  (Ok (summary <$> page, next), w).

Definition timeline_entry (chatID : string) (im : nat * Message) : TimelineEntry :=
  let '(i, msg) := im in
  {| te_ID := chatID +:+ "-" +:+ fmt_d (Z.of_nat i + 1); te_SequenceNumber := Z.of_nat i + 1; te_Source := "message";
     te_Role := msg_Role msg; te_EventType := ""; te_Step := 0; te_Content := msg_Content msg;
     te_ContentType := msg_ContentType msg; te_Metadata := msg_Metadata msg; te_At := msg_At msg |}.

(** Newest message first; a message at or after the cursor's time is skipped. *)
Definition ListMessages (p : ListMessagesParams) : M Mem (res (list TimelineEntry * option Z)) := fun w =>
  let limit := page_limit 50 100 (lm_Limit p) in
  match mw_chats w !! lm_ChatID p with
  | None => (Err (NotFound "chat" (lm_ChatID p)), w)
  | Some c =>
      let before im := match lm_Cursor p with Some t => bool_decide (msg_At (snd im) < t) | None => true end in
      let older := List.filter before (rev (imap pair (c_Messages c))) in
      let '(page, next) := first_page limit te_At (timeline_entry (lm_ChatID p) <$> older) in
      (Ok (page, next), w)
  end.

(** ** Agents (agent.go) *)

Definition AgentCreate (a : Agent) : M Mem (res unit) := fun w => (Ok tt, w <| mw_agents := <[ag_ID a := a]> (mw_agents w) |>).
Definition AgentGetByID (id : string) : M Mem (res Agent) := fun w =>
  (match mw_agents w !! id with Some a => Ok a | None => Err (NotFound "agent" id) end, w).
Definition newest_agent (a b : Agent) : Prop := ag_CreatedAt b <= ag_CreatedAt a.
#[export] Instance newest_agent_dec : RelDecision newest_agent.
Proof. intros a b. unfold newest_agent. apply _. Defined.
(** Slicing with a negative offset, or to an end before the offset, panics. *)
Definition AgentList (offset limit : Z) : M Mem (res (list Agent * Z)) := fun w =>
  let all := merge_sort newest_agent (snd <$> map_to_list (mw_agents w)) in
  let total := Z.of_nat (length all) in
  (if bool_decide (total <= offset) then Ok ([], total)
   else
     let end_ := Z.min (offset + limit) total in
     if bool_decide (offset < 0) || bool_decide (end_ < offset)
     then Err (EText "panic: runtime error: slice bounds out of range")
     else Ok (take (Z.to_nat (end_ - offset)) (drop (Z.to_nat offset) all), total), w).
Definition AgentUpdateRow (a : Agent) : M Mem (res unit) := fun w =>
  match mw_agents w !! ag_ID a with
  | None => (Err (NotFound "agent" (ag_ID a)), w)
  | Some _ => (Ok tt, w <| mw_agents := <[ag_ID a := a]> (mw_agents w) |>)
  end.
Definition AgentDelete (id : string) : M Mem (res unit) := fun w =>
  match mw_agents w !! id with
  | None => (Err (NotFound "agent" id), w)
  | Some _ => (Ok tt, w <| mw_agents := delete id (mw_agents w) |>)
  end.

(** ** Agent memory (agent_memory.go) *)

Definition agentMemoryKey (chatID key : string) : string := chatID +:+ String (chr 0) key.
Definition isAgentMemoryExpired (entry : MemoryEntry) (now : Z) : bool :=
  negb (bool_decide (me_ExpiresAt entry = 0)) && bool_decide (me_ExpiresAt entry < now).

Definition MemorySet (entry : MemoryEntry) : M Mem (res unit) := fun w =>
  let '(now, w) := mnow w in
  let cp := entry <| me_CreatedAt := if bool_decide (me_CreatedAt entry = 0) then now else me_CreatedAt entry |>
                  <| me_UpdatedAt := now |> in
  (Ok tt, w <| mw_entries := <[agentMemoryKey (me_ChatID entry) (me_Key entry) := cp]> (mw_entries w) |>).

(** The clock is read only for an entry with an expiry. *)
Definition check_expired (entry : MemoryEntry) : M Mem bool := fun w =>
  if bool_decide (me_ExpiresAt entry = 0) then (false, w)
  else let '(now, w) := mnow w in (isAgentMemoryExpired entry now, w).

Definition MemoryGet (chatID key : string) : M Mem (res MemoryEntry) := fun w =>
  match mw_entries w !! agentMemoryKey chatID key with
  | None => (Err (NotFound "agent_memory" key), w)
  | Some entry =>
      let '(expired, w) := check_expired entry w in
      (if expired then Err (NotFound "agent_memory" key) else Ok entry, w)
  end.
Definition MemoryDelete (chatID key : string) : M Mem (res unit) := fun w =>
  match mw_entries w !! agentMemoryKey chatID key with
  | None => (Err (NotFound "agent_memory" key), w)
  | Some entry =>
      let '(expired, w) := check_expired entry w in
      if expired then (Err (NotFound "agent_memory" key), w)
      else (Ok tt, w <| mw_entries := delete (agentMemoryKey chatID key) (mw_entries w) |>)
  end.

Definition by_key (a b : MemoryEntry) : Prop := String.le (me_Key a) (me_Key b).
#[export] Instance by_key_dec : RelDecision by_key.
Proof. intros a b. unfold by_key. apply _. Defined.
Fixpoint live_entries (chatID : string) (l : list MemoryEntry) : M Mem (list MemoryEntry) :=
  match l with
  | [] => ret []
  | entry :: l' =>
      if negb (bool_decide (me_ChatID entry = chatID)) then live_entries chatID l'
      else
        let* expired := check_expired entry in
        let* out := live_entries chatID l' in
        ret (if expired then out else entry :: out)
  end.
Definition MemoryList (chatID : string) : M Mem (res (list MemoryEntry)) := fun w =>
  let '(out, w) := live_entries chatID (snd <$> map_to_list (mw_entries w)) w in (Ok (merge_sort by_key out), w).

(** ** Runtime events (runtime_event.go) *)

Definition EventInsert (e : PersistedRuntimeEvent) : M Mem (res unit) := fun w =>
  (Ok tt, w <| mw_events := <[pe_ChatID e := default [] (mw_events w !! pe_ChatID e) ++ [e]]> (mw_events w) |>).
Definition EventListByChatID (chatID : string) (cursor : option Z) (limit : Z)
    : M Mem (res (list PersistedRuntimeEvent * option Z)) := fun w =>
  let limit := page_limit 100 200 limit in
  let events := default [] (mw_events w !! chatID) in
  let rest := match cursor with Some t => drop_until (fun e => bool_decide (t < pe_CreatedAt e)) events | None => events end in
  (Ok (first_page limit pe_CreatedAt rest), w).

(** ** Environments (environment.go) *)

Definition EnvironmentCreate (e : Environment) : M Mem (res unit) := fun w =>
  (Ok tt, w <| mw_environments := <[env_ID e := e]> (mw_environments w) |>).
Definition EnvironmentGetByID (id : string) : M Mem (res Environment) := fun w =>
  (match mw_environments w !! id with Some e => Ok e | None => Err (NotFound "environment" id) end, w).
Definition EnvironmentList : M Mem (res (list Environment)) := fun w =>
  (Ok (merge_sort newest_env (snd <$> map_to_list (mw_environments w))), w).
Definition EnvironmentUpdate (e : Environment) : M Mem (res unit) := fun w =>
  match mw_environments w !! env_ID e with
  | None => (Err (NotFound "environment" (env_ID e)), w)
  | Some _ => (Ok tt, w <| mw_environments := <[env_ID e := e]> (mw_environments w) |>)
  end.
Definition EnvironmentDelete (id : string) : M Mem (res unit) := fun w =>
  match mw_environments w !! id with
  | None => (Err (NotFound "environment" id), w)
  | Some _ => (Ok tt, w <| mw_environments := delete id (mw_environments w) |>)
  end.

(** ** Following cursors *)

Section pages.
Context {A C : Type} (page : option C -> list A * option C).

(** The pages a client fetches, until one has no next cursor. *)
Fixpoint follow (fuel : nat) (cursor : option C) : list A :=
  match fuel with
  | O => []
  | S f => let '(items, next) := page cursor in
           items ++ match next with Some c => follow f (Some c) | None => [] end
  end.
End pages.

(** The elements before and at the cursor are skipped, those behind it stay. *)
Lemma drop_until_split {A} (P : A -> bool) l1 l2 :
  (forall y, y ∈ l1 -> P y = false) -> (forall y, y ∈ l2 -> P y = true) -> drop_until P (l1 ++ l2) = l2.
Proof.
  intros H1 H2. induction l1 as [|x l1 IH]; simpl.
  - destruct l2 as [|y l2]; [done |]. simpl. by rewrite H2 by set_solver.
  - rewrite H1 by set_solver. apply IH. set_solver.
Qed.

Lemma take_drop_last {A} n (l : list A) x : last (take n l) = Some x -> exists l1, l = l1 ++ x :: drop n l /\ take n l = l1 ++ [x].
Proof.
  intros H. apply last_Some in H as [l1 H]. exists l1. split; [| done].
  rewrite <- (take_drop n l) at 1. rewrite H, <- app_assoc. done.
Qed.

(** Pages cut from a list, when the cursor of an element finds what is behind it. *)
Lemma follow_list {A B C} (limit : Z) (cursor : A -> C) (f : A -> B) (past : C -> A -> bool) (l : list A) :
  0 < limit ->
  (forall l1 x l2, l = l1 ++ x :: l2 -> drop_until (past (cursor x)) l = l2) ->
  forall fuel, (length l <= fuel)%nat ->
  follow (fun cur => let rest := match cur with Some c => drop_until (past c) l | None => l end in
                     let '(p, next) := first_page limit cursor rest in (f <$> p, next)) (S fuel) None = f <$> l.
Proof.
  intros Hlim Hpast.
  assert (H : forall fuel cur l1 l2, l = l1 ++ l2 -> (length l2 <= fuel)%nat ->
    match cur with Some c => drop_until (past c) l | None => l end = l2 ->
    follow (fun cur => let rest := match cur with Some c => drop_until (past c) l | None => l end in
                       let '(p, next) := first_page limit cursor rest in (f <$> p, next)) (S fuel) cur = f <$> l2).
  { induction fuel as [|fuel IH]; intros cur l1 l2 Hl Hlen Hcur; cbn [follow]; cbn zeta; rewrite Hcur;
      unfold first_page; cbn zeta.
    - destruct l2; [| cbn in Hlen; lia]. rewrite take_nil. simpl. by rewrite bool_decide_eq_false_2 by lia.
    - case_bool_decide as Hmore; [| rewrite app_nil_r, take_ge by lia; done].
      destruct (last (take (Z.to_nat limit) l2)) as [x|] eqn:Hx.
      2: { apply last_None in Hx. apply (f_equal length) in Hx. rewrite length_take in Hx. cbn in Hx. lia. }
      destruct (take_drop_last _ _ _ Hx) as (la & Hla & Ht). cbn [fmap option_fmap option_map].
      rewrite <- (take_drop (Z.to_nat limit) l2) at 2. rewrite fmap_app. f_equal.
      apply (IH (Some (cursor x)) (l1 ++ la ++ [x])).
      + rewrite Hl, Hla at 1. by rewrite <- !app_assoc.
      + rewrite length_drop. lia.
      + apply (Hpast (l1 ++ la)). rewrite Hl, Hla at 1. by rewrite <- app_assoc. }
  intros fuel Hf. by apply (H fuel None [] l).
Qed.

(** ** Chats *)

(** The map keys chats by their ids, which Create and Update maintain. *)
Definition keyed (w : Mem) : Prop := forall id c, mw_chats w !! id = Some c -> c_ID c = id.

#[export] Instance newer_total : Total newer.
Proof.
  intros a b. unfold newer. destruct (Z.lt_trichotomy (c_CreatedAt a) (c_CreatedAt b)) as [|[|]]; [auto | | auto].
  destruct (total String.le (c_ID a) (c_ID b)); auto.
Qed.
#[export] Instance newer_trans : Transitive newer.
Proof.
  intros a b c. unfold newer. intros [H1|[H1 L1]] [H2|[H2 L2]]; [left; lia | left; lia | left; lia |].
  right. split; [lia |]. by transitivity (c_ID b).
Qed.

Lemma past_cursor_spec x y : past_cursor {| lc_CreatedAt := c_CreatedAt x; lc_ID := c_ID x |} y = true <->
  newer x y /\ ~ (c_CreatedAt x = c_CreatedAt y /\ c_ID x = c_ID y).
Proof.
  unfold past_cursor, str_lt, newer. cbn [lc_CreatedAt lc_ID].
  rewrite orb_true_iff, !andb_true_iff, negb_true_iff, !bool_decide_eq_true, bool_decide_eq_false.
  split.
  - intros [H|[H1 [H2 H3]]]; [split; [auto | lia] | split; [right; auto | intros [_ E]; congruence]].
  - intros [[H|[H1 H2]] Hne]; [auto | right]. split; [done |]. split; [done |]. intros E. apply Hne. split; [done | congruence].
Qed.

Lemma newer_antisym x y : newer x y -> newer y x -> c_CreatedAt x = c_CreatedAt y /\ c_ID x = c_ID y.
Proof.
  unfold newer. intros [H1|[H1 L1]] [H2|[H2 L2]]; try lia. split; [done |]. by apply (anti_symm String.le).
Qed.

Lemma chats_of_sorted u w : StronglySorted newer (chats_of u w).
Proof. apply StronglySorted_merge_sort; apply _. Qed.

Lemma elem_of_filter_b {A} (P : A -> bool) x (l : list A) : x ∈ List.filter P l <-> x ∈ l /\ P x = true.
Proof. rewrite !list_elem_of_In. apply filter_In. Qed.

Lemma NoDup_filter_b {A} (P : A -> bool) (l : list A) : NoDup l -> NoDup (List.filter P l).
Proof.
  induction 1 as [|x l Hx _ IH]; simpl; [constructor |]. destruct (P x); [| done]. constructor; [| done].
  rewrite elem_of_filter_b. tauto.
Qed.

Lemma chats_of_ids u w : keyed w -> NoDup (c_ID <$> chats_of u w).
Proof.
  intros Hk. unfold chats_of. rewrite merge_sort_Permutation.
  assert (Hall : NoDup (c_ID <$> (snd <$> map_to_list (mw_chats w)))).
  { rewrite <- list_fmap_compose. erewrite list_fmap_ext; [apply NoDup_fst_map_to_list |].
    intros i [id c] H. apply list_elem_of_lookup_2, elem_of_map_to_list in H. simpl. by apply Hk. }
  revert Hall. generalize (snd <$> map_to_list (mw_chats w)) as l. intros l.
  induction l as [|c l IH]; simpl; [constructor |]. intros [Hc Hl]%NoDup_cons.
  destruct (bool_decide _); [| by apply IH]. simpl. constructor; [| by apply IH].
  rewrite list_elem_of_fmap. intros (y & E & Hy). apply elem_of_filter_b in Hy as [Hy _].
  apply Hc. rewrite E. by apply list_elem_of_fmap_2.
Qed.

(** The sorted chats before and behind one of them, seen from its cursor. *)
Lemma chats_cursor u w l1 x l2 : keyed w -> chats_of u w = l1 ++ x :: l2 ->
  drop_until (past_cursor {| lc_CreatedAt := c_CreatedAt x; lc_ID := c_ID x |}) (chats_of u w) = l2.
Proof.
  intros Hk E. pose proof (chats_of_sorted u w) as Hs. pose proof (chats_of_ids u w Hk) as Hn.
  rewrite E in *. rewrite (cons_middle x l1 l2), app_assoc.
  rewrite fmap_app, fmap_cons in Hn. apply NoDup_app in Hn as (_ & Hn1 & Hn2). apply NoDup_cons in Hn2 as [Hx2 _].
  apply StronglySorted_app in Hs as (Hs1 & _ & Hs2). inversion Hs2 as [|? ? _ Hx]; subst. rewrite Forall_forall in Hx.
  apply drop_until_split.
  - intros y Hy. apply not_true_iff_false. rewrite past_cursor_spec. intros [Hxy Hne].
    apply elem_of_app in Hy as [Hy|Hy].
    + destruct (newer_antisym x y Hxy) as [? ?]; [apply Hs1; set_solver | tauto].
    + apply list_elem_of_singleton in Hy as ->. tauto.
  - intros y Hy. apply past_cursor_spec. split; [by apply Hx |]. intros [_ E']. apply Hx2. rewrite E'.
    by apply list_elem_of_fmap_2.
Qed.

(** The answer of ListByUserID, which has no error and changes nothing. *)
Definition user_page (u : string) (limit : Z) (w : Mem) (cur : option ListCursor) : list ConversationSummary * option ListCursor :=
  match (ListByUserID {| lp_UserID := u; lp_Cursor := cur; lp_Limit := limit |} w).1 with Ok p => p | Err _ => ([], None) end.

(** A client that follows the cursors of ListByUserID reads every chat of the user
    exactly once, newest first, in pages of at most the limit (20 when it is not within
    1 and 100), and reaches a page without a cursor. *)
Theorem ListByUserID_pages u limit w fuel :
  keyed w -> (length (chats_of u w) <= fuel)%nat ->
  follow (user_page u limit w) (S fuel) None = summary <$> chats_of u w /\
  NoDup (c_ID <$> chats_of u w) /\
  (forall c, c ∈ chats_of u w <-> c_UserID c = u /\ exists id, mw_chats w !! id = Some c) /\
  forall cur, Z.of_nat (length (user_page u limit w cur).1) <= page_limit 20 100 limit.
Proof.
  intros Hk Hf. set (lim := page_limit 20 100 limit).
  assert (Hlim : 0 < lim).
  { unfold lim, page_limit. destruct (bool_decide (limit <= 0)) eqn:E; [simpl; lia |]. apply bool_decide_eq_false_1 in E.
    simpl. case_bool_decide; lia. }
  split; [| split; [by apply chats_of_ids | split]].
  - rewrite <- (follow_list lim (fun c => {| lc_CreatedAt := c_CreatedAt c; lc_ID := c_ID c |}) summary past_cursor
                  (chats_of u w) Hlim (fun l1 x l2 => chats_cursor u w l1 x l2 Hk) fuel Hf).
    reflexivity.
  - intros c. unfold chats_of. rewrite merge_sort_Permutation, elem_of_filter_b, bool_decide_eq_true, list_elem_of_fmap.
    split; [intros [([id c'] & -> & H) Hu]; apply elem_of_map_to_list in H; eauto |].
    intros (Hu & id & H). split; [| done]. exists (id, c). split; [done |]. by apply elem_of_map_to_list.
  - intros cur. unfold user_page, ListByUserID, first_page. cbn [fst]. rewrite length_fmap, length_take. fold lim. cbn [lp_Limit]. fold lim. lia.
Qed.

(** ** Examples *)

Definition sample_chat (id : string) (t : Z) (msgs : list Message) : Chat :=
  {| c_ID := id; c_AgentID := "a"; c_UserID := "u"; c_Title := ""; c_VMID := ""; c_Status := ChatActive;
     c_Messages := msgs; c_CreatedAt := t; c_UpdatedAt := t |}.
Definition sample_mem (chats : list Chat) : Mem :=
  {| mw_chats := list_to_map ((fun c => (c_ID c, c)) <$> chats); mw_agents := ∅; mw_entries := ∅; mw_events := ∅;
     mw_environments := ∅; mw_times := fun n => Z.of_nat n; mw_ids := fun n => "id-" +:+ fmt_d (Z.of_nat n); mw_tick := 0 |}.

Lemma sample_mem_keyed chats : keyed (sample_mem chats).
Proof.
  intros id c H. cbn in H. apply elem_of_list_to_map_2, list_elem_of_fmap in H as (c' & E & _). by injection E as -> ->.
Qed.

Definition two_pages : Mem := sample_mem [sample_chat "c1" 5 []; sample_chat "c2" 5 []; sample_chat "c3" 9 []].
Lemma ListByUserID_pages_witness :
  cs_ID <$> follow (user_page "u" 2 two_pages) 4 None = ["c3"; "c2"; "c1"].
Proof.
  destruct (ListByUserID_pages "u" 2 two_pages 3 (sample_mem_keyed _) ltac:(vm_compute; lia)) as [H _].
  rewrite H. vm_compute. reflexivity.
Defined.

Definition said (text : string) (t : Z) : Message :=
  {| msg_Role := RoleUser; msg_Content := text; msg_ContentType := ContentText; msg_Metadata := []; msg_At := t |}.
Definition message_page (id : string) (limit : Z) (w : Mem) (cur : option Z) : list TimelineEntry * option Z :=
  match (ListMessages {| lm_ChatID := id; lm_Cursor := cur; lm_Limit := limit |} w).1 with Ok p => p | Err _ => ([], None) end.

(** Three messages, two of them at the same time: following the cursors with pages of
    one message loses one of the two. *)
Lemma ListMessages_loses_ties :
  te_Content <$> follow (message_page "c" 1 (sample_mem [sample_chat "c" 0 [said "first" 5; said "second" 7; said "third" 7]])) 10 None
  = ["third"; "first"].
Proof. vm_compute. reflexivity. Qed.
