(* ===== verification/EventHub.v ===== *)
(** * Runtime events to subscribers: the publish/subscribe half of service/chat/service.go

    Every subscriber has a channel of 32 events; the events of a running turn are
    buffered per chat for late subscribers. The methods take the two mutexes
    separately and SubscribeRuntimeEvents replays the buffer in a goroutine, so each
    critical section, each send of a replay and each receive is a step of its own. *)

From S2P Require Import Prelude Exception Naming GoLib Domain World Json Orchestrator.

Definition EventDone := "done".
Definition EventError := "error".
Definition EventTitle := "title".

(** A Go channel of capacity 32. *)
Record Chan := { ch_queue : list RuntimeEvent; ch_closed : bool }.
Definition capacity : nat := 32.

(** Channels are named by the subscriber's number, which is never reused. *)
Record Hub := {
  hb_subscribers : gmap string (gset Z);       (* chat -> its subscribers *)
  hb_subscriberN : Z;
  hb_eventBufs : gmap string (list RuntimeEvent);
  hb_chans : gmap Z Chan;
  hb_starting : list (string * Z);             (* calls of SubscribeRuntimeEvents before the buffer is read *)
  hb_replays : list (Z * list RuntimeEvent);   (* replay goroutines: channel, events to send *)
  hb_panicked : bool }.
Definition empty_hub : Hub :=
  {| hb_subscribers := ∅; hb_subscriberN := 0; hb_eventBufs := ∅; hb_chans := ∅; hb_starting := []; hb_replays := []; hb_panicked := false |}.

(** ** The critical sections *)

(** [select { case ch <- e: default: }]: a send on a closed channel panics, a full
    channel loses the event. *)
Definition try_send (id : Z) (e : RuntimeEvent) (h : Hub) : Hub :=
  match hb_chans h !! id with
  | None => h
  | Some ch =>
      if ch_closed ch then h <| hb_panicked := true |>
      else if bool_decide (length (ch_queue ch) < capacity)%nat
      then h <| hb_chans := <[id := ch <| ch_queue := ch_queue ch ++ [e] |>]> (hb_chans h) |>
      else h
  end.

(** SubscribeRuntimeEvents up to the unlock of the subscribers. *)
Definition register (chatID : string) (h : Hub) : Z * Hub :=
  let id := hb_subscriberN h + 1 in
  (id, h <| hb_subscriberN := id |>
         <| hb_chans := <[id := {| ch_queue := []; ch_closed := false |}]> (hb_chans h) |>
         <| hb_subscribers := <[chatID := {[id]} ∪ default ∅ (hb_subscribers h !! chatID)]> (hb_subscribers h) |>
         <| hb_starting := hb_starting h ++ [(chatID, id)] |>).
(** The [n]th such call reads the buffer and starts the replay. *)
Definition start_replay (n : nat) (h : Hub) : Hub :=
  match hb_starting h !! n with
  | None => h
  | Some (chatID, id) =>
      let buf := default [] (hb_eventBufs h !! chatID) in
      h <| hb_starting := delete n (hb_starting h) |>
        <| hb_replays := match buf with [] => hb_replays h | _ => hb_replays h ++ [(id, buf)] end |>
  end.
(** One send of the [n]th replay. *)
Definition replay_send (n : nat) (h : Hub) : Hub :=
  match hb_replays h !! n with
  | Some (id, e :: es) => try_send id e (h <| hb_replays := <[n := (id, es)]> (hb_replays h) |>)
  | _ => h
  end.

(** [publish]: the buffer, then the listeners. *)
Definition buffer_event (e : RuntimeEvent) (h : Hub) : Hub :=
  let bufs := <[ev_ChatID e := default [] (hb_eventBufs h !! ev_ChatID e) ++ [e]]> (hb_eventBufs h) in
  h <| hb_eventBufs := if bool_decide (ev_Type e = EventDone) then delete (ev_ChatID e) bufs else bufs |>.
Definition deliver (e : RuntimeEvent) (h : Hub) : Hub :=
  foldr (fun id h => try_send id e h) h (elements (default ∅ (hb_subscribers h !! ev_ChatID e))).
Definition publish (e : RuntimeEvent) (h : Hub) : Hub := deliver e (buffer_event e h).

Definition unsubscribe (chatID : string) (id : Z) (h : Hub) : Hub :=
  match hb_subscribers h !! chatID with
  | None => h
  | Some listeners =>
      let '(listeners, chans) :=
        if bool_decide (id ∈ listeners)
        then (listeners ∖ {[id]}, alter (fun ch => ch <| ch_closed := true |>) id (hb_chans h))
        else (listeners, hb_chans h) in
      h <| hb_chans := chans |>
        <| hb_subscribers := if bool_decide (listeners = ∅) then delete chatID (hb_subscribers h)
                             else <[chatID := listeners]> (hb_subscribers h) |>
  end.

(** The consumer takes the oldest event. *)
Definition receive (id : Z) (h : Hub) : option RuntimeEvent * Hub :=
  match hb_chans h !! id with
  | Some ch => match ch_queue ch with
               | e :: q => (Some e, h <| hb_chans := <[id := ch <| ch_queue := q |>]> (hb_chans h) |>)
               | [] => (None, h)
               end
  | None => (None, h)
  end.

(** ** Interleavings *)

Inductive hub_step : Hub -> Hub -> Prop :=
| step_register chatID h : hub_step h (register chatID h).2
| step_start n h : hub_step h (start_replay n h)
| step_replay n h : hub_step h (replay_send n h)
| step_buffer e h : hub_step h (buffer_event e h)
| step_deliver e h : hub_step h (deliver e h)
| step_unsubscribe chatID id h : hub_step h (unsubscribe chatID id h)
| step_receive id h : hub_step h (receive id h).2.

Inductive hub_reachable : Hub -> Prop :=
| hub_init : hub_reachable empty_hub
| hub_next h h' : hub_reachable h -> hub_step h h' -> hub_reachable h'.

(** The invariant, with [own] the chat each channel was made for: a listener's channel is
    open; channels, buffers and replays hold only events of their chat; no channel is
    longer than its capacity. *)
Definition events_of (chatID : string) (es : list RuntimeEvent) : Prop := Forall (fun e => ev_ChatID e = chatID) es.

Record hub_ok (own : gmap Z string) (h : Hub) : Prop := {
  ho_open : forall c ids id, hb_subscribers h !! c = Some ids -> id ∈ ids ->
              own !! id = Some c /\ exists ch, hb_chans h !! id = Some ch /\ ch_closed ch = false;
  ho_chan : forall id ch, hb_chans h !! id = Some ch ->
              (length (ch_queue ch) <= capacity)%nat /\ exists c, own !! id = Some c /\ events_of c (ch_queue ch);
  ho_fresh : forall id c, own !! id = Some c -> id <= hb_subscriberN h;
  ho_buf : forall c es, hb_eventBufs h !! c = Some es -> events_of c es;
  ho_start : forall c id, (c, id) ∈ hb_starting h -> own !! id = Some c;
  ho_replay : forall id es, (id, es) ∈ hb_replays h -> exists c, own !! id = Some c /\ events_of c es
}.

Lemma hub_ok_empty : hub_ok ∅ empty_hub.
Proof. split; cbn; intros *; rewrite ?lookup_empty, ?elem_of_nil; done. Qed.

(** ** Sends *)

(** A send changes at most the queue of its channel. *)
Lemma try_send_cases id e h :
  try_send id e h = h \/
  (exists ch, hb_chans h !! id = Some ch /\ ch_closed ch = true /\ try_send id e h = h <| hb_panicked := true |>) \/
  (exists ch, hb_chans h !! id = Some ch /\ ch_closed ch = false /\ (length (ch_queue ch) < capacity)%nat /\
     try_send id e h = h <| hb_chans := <[id := ch <| ch_queue := ch_queue ch ++ [e] |>]> (hb_chans h) |>).
Proof.
  unfold try_send. destruct (hb_chans h !! id) as [ch|] eqn:Hch; [| by left].
  destruct (ch_closed ch) eqn:Hc; [right; left; eauto |]. case_bool_decide; [right; right; eauto | by left].
Qed.

Lemma hub_ok_queue own h id ch q c : hub_ok own h -> hb_chans h !! id = Some ch ->
  (length q <= capacity)%nat -> own !! id = Some c -> events_of c q ->
  hub_ok own (h <| hb_chans := <[id := ch <| ch_queue := q |>]> (hb_chans h) |>).
Proof.
  intros [Ho Hb Hf Hbuf Hs Hr] Hch Hq Hc Hev. split; cbn; try done.
  - intros c' ids i Hsub Hi. destruct (Ho _ _ _ Hsub Hi) as (Hown & ch' & Hc' & Hop). split; [done |].
    destruct (decide (i = id)) as [->|Hne].
    + rewrite Hch in Hc'. injection Hc' as <-. eexists. by rewrite lookup_insert_eq.
    + rewrite lookup_insert_ne by done. eauto.
  - intros i ch' Hi. destruct (decide (i = id)) as [->|Hne].
    + rewrite lookup_insert_eq in Hi. injection Hi as <-. eauto.
    + rewrite lookup_insert_ne in Hi by done. by eapply Hb.
Qed.

Lemma try_send_ok own id e h : hub_ok own h -> own !! id = Some (ev_ChatID e) -> hub_ok own (try_send id e h).
Proof.
  intros H Hown. destruct (try_send_cases id e h) as [->|[(ch & _ & _ & ->)|(ch & Hch & _ & Hl & ->)]]; [done | by destruct H |].
  destruct (ho_chan _ _ H _ _ Hch) as (_ & c & Hc & Hev). eapply hub_ok_queue; [done | done | | done |].
  - rewrite length_app. cbn. lia.
  - assert (c = ev_ChatID e) as -> by congruence. apply Forall_app. split; [done | by repeat constructor].
Qed.

Lemma try_send_subscribers id e h : hb_subscribers (try_send id e h) = hb_subscribers h.
Proof. by destruct (try_send_cases id e h) as [->|[(ch & _ & _ & ->)|(ch & _ & _ & _ & ->)]]. Qed.
Lemma try_send_panicked id e h :
  (forall ch, hb_chans h !! id = Some ch -> ch_closed ch = false) -> hb_panicked (try_send id e h) = hb_panicked h.
Proof.
  intros H. destruct (try_send_cases id e h) as [->|[(ch & Hch & Hc & ->)|(ch & _ & _ & _ & ->)]]; try done.
  by rewrite (H _ Hch) in Hc.
Qed.

(** Delivering keeps the invariant and never panics: listeners are open. *)
Lemma deliver_ok own e h : hub_ok own h -> hub_ok own (deliver e h) /\ hb_panicked (deliver e h) = hb_panicked h.
Proof.
  intros H. unfold deliver.
  assert (Hsub : forall id, id ∈ elements (default ∅ (hb_subscribers h !! ev_ChatID e)) ->
            exists ids, hb_subscribers h !! ev_ChatID e = Some ids /\ id ∈ ids).
  { intros id Hid. rewrite elem_of_elements in Hid. destruct (hb_subscribers h !! ev_ChatID e) as [ids|]; [eauto |].
    by apply not_elem_of_empty in Hid. }
  revert Hsub. generalize (elements (default ∅ (hb_subscribers h !! ev_ChatID e))) as l. intros l Hl.
  assert (Hall : hub_ok own (foldr (fun id h => try_send id e h) h l) /\
                 hb_subscribers (foldr (fun id h => try_send id e h) h l) = hb_subscribers h /\
                 hb_panicked (foldr (fun id h => try_send id e h) h l) = hb_panicked h); [| tauto].
  induction l as [|id l IH]; [done |]. cbn [foldr]. destruct IH as (I1 & I2 & I3); [set_solver |].
  destruct (Hl id) as (ids & Hs & Hi); [set_solver |]. rewrite <- I2 in Hs.
  destruct (ho_open _ _ I1 _ _ _ Hs Hi) as (Hown & ch' & Hch' & Ho).
  split_and!; [by apply try_send_ok | by rewrite try_send_subscribers |]. rewrite try_send_panicked; [done |].
  intros ch Hch. rewrite Hch in Hch'. by injection Hch' as <-.
Qed.

(** ** Every step keeps the invariant *)

Ltac hub_split := split; cbn.

Lemma register_ok own chatID h : hub_ok own h ->
  hub_ok (<[(register chatID h).1 := chatID]> own) (register chatID h).2.
Proof.
  intros [Ho Hb Hf Hbuf Hs Hr]. cbn [register fst snd].
  assert (Hnew : own !! (hb_subscriberN h + 1) = None).
  { destruct (own !! (hb_subscriberN h + 1)) eqn:Hn; [apply Hf in Hn; lia | done]. }
  assert (Hext : forall id c, own !! id = Some c -> <[hb_subscriberN h + 1 := chatID]> own !! id = Some c).
  { intros id c Hid. rewrite lookup_insert_ne; [done | intros <-; congruence]. }
  hub_split.
  - intros c ids id Hsub Hid.
    assert (Hcase : id = hb_subscriberN h + 1 /\ c = chatID \/ exists ids', hb_subscribers h !! c = Some ids' /\ id ∈ ids').
    { destruct (decide (c = chatID)) as [->|Hne].
      - rewrite lookup_insert_eq in Hsub. injection Hsub as <-. apply elem_of_union in Hid as [Hid%elem_of_singleton|Hid]; [by left |].
        right. destruct (hb_subscribers h !! chatID) as [ids'|]; [by exists ids' | by apply not_elem_of_empty in Hid].
      - rewrite lookup_insert_ne in Hsub by done. eauto. }
    destruct Hcase as [[-> ->]|(ids' & Hs' & Hi')].
    + rewrite !lookup_insert_eq. eauto.
    + destruct (Ho _ _ _ Hs' Hi') as (Hown & ch & Hch & Hop). split; [by apply Hext |]. exists ch.
      rewrite lookup_insert_ne; [done | intros <-; congruence].
  - intros id ch Hch. destruct (decide (id = hb_subscriberN h + 1)) as [->|Hne].
    + rewrite lookup_insert_eq in Hch. injection Hch as <-. cbn. split; [unfold capacity; lia |].
      exists chatID. rewrite lookup_insert_eq. split; [done | constructor].
    + rewrite lookup_insert_ne in Hch by done. destruct (Hb _ _ Hch) as (Hl & c & Hc & Hev). eauto.
  - intros id c Hid. destruct (decide (id = hb_subscriberN h + 1)) as [->|Hne]; [lia |].
    rewrite lookup_insert_ne in Hid by done. apply Hf in Hid. lia.
  - done.
  - intros c id [Hin|Hin%list_elem_of_singleton]%elem_of_app; [by apply Hext, Hs |]. injection Hin as -> ->. by rewrite lookup_insert_eq.
  - intros id es Hin. destruct (Hr _ _ Hin) as (c & Hc & Hev). eauto.
Qed.

Lemma start_replay_ok own n h : hub_ok own h -> hub_ok own (start_replay n h).
Proof.
  intros H. unfold start_replay. destruct (hb_starting h !! n) as [[c id]|] eqn:Hn; [| done].
  destruct H as [Ho Hb Hf Hbuf Hs Hr]. hub_split; try done.
  - intros c' id' Hin. apply Hs. eapply elem_of_submseteq; [exact Hin |]. apply sublist_submseteq, sublist_delete.
  - destruct (hb_eventBufs h !! c) as [[|e es]|] eqn:Hbufs; cbn; [exact Hr | | exact Hr].
    intros id' es' [Hin|Hin%list_elem_of_singleton]%elem_of_app; [by apply Hr |]. injection Hin as -> ->.
    exists c. split; [| by apply Hbuf]. apply Hs. by eapply list_elem_of_lookup_2.
Qed.

Lemma replay_send_ok own n h : hub_ok own h -> hub_ok own (replay_send n h).
Proof.
  intros H. unfold replay_send. destruct (hb_replays h !! n) as [[id [|e es]]|] eqn:Hn; [done | | done].
  destruct (ho_replay _ _ H id (e :: es)) as (c & Hc & Hev); [by eapply list_elem_of_lookup_2 |].
  apply Forall_cons in Hev as [He Hes]. apply try_send_ok; [| by rewrite He].
  destruct H as [Ho Hb Hf Hbuf Hs Hr]. hub_split; try done.
  intros id' es' Hin. apply list_elem_of_lookup_1 in Hin as (i & Hi). destruct (decide (i = n)) as [->|Hne].
  - rewrite list_lookup_insert_eq in Hi by (eapply lookup_lt_Some; exact Hn). injection Hi as <- <-. eauto.
  - rewrite list_lookup_insert_ne in Hi by done. apply Hr. by eapply list_elem_of_lookup_2.
Qed.

Lemma buffer_event_ok own e h : hub_ok own h -> hub_ok own (buffer_event e h).
Proof.
  intros [Ho Hb Hf Hbuf Hs Hr]. unfold buffer_event.
  set (bufs := <[ev_ChatID e := _]> (hb_eventBufs h)).
  assert (Hbufs : forall c es, bufs !! c = Some es -> events_of c es).
  { intros c es Hc. unfold bufs in Hc. destruct (decide (c = ev_ChatID e)) as [->|Hne].
    - rewrite lookup_insert_eq in Hc. injection Hc as <-. apply Forall_app. split; [| by repeat constructor].
      destruct (hb_eventBufs h !! ev_ChatID e) eqn:He; [by apply Hbuf | constructor].
    - rewrite lookup_insert_ne in Hc by done. by apply Hbuf. }
  hub_split; try done. intros c es Hc. case_bool_decide; [| by apply Hbufs].
  apply lookup_delete_Some in Hc as [_ Hc]. by apply Hbufs.
Qed.

Lemma unsubscribe_ok own chatID id h : hub_ok own h -> hub_ok own (unsubscribe chatID id h).
Proof.
  intros [Ho Hb Hf Hbuf Hs Hr]. unfold unsubscribe. destruct (hb_subscribers h !! chatID) as [ids|] eqn:Hsub; [| done].
  (* what remains subscribed is open after the close *)
  assert (Hrest : forall (ids' : gset Z) (chans : gmap Z Chan), ids' ⊆ ids ->
            (forall c s i, hb_subscribers h !! c = Some s -> i ∈ s -> (c = chatID -> i ∈ ids') -> chans !! i = hb_chans h !! i) ->
            (forall i ch, chans !! i = Some ch -> exists ch', hb_chans h !! i = Some ch' /\ ch_queue ch = ch_queue ch') ->
            hub_ok own (h <| hb_chans := chans |>
              <| hb_subscribers := if bool_decide (ids' = ∅) then delete chatID (hb_subscribers h)
                                   else <[chatID := ids']> (hb_subscribers h) |>)).
  { intros ids' chans Hincl Hsame Hq. hub_split; try done.
    - intros c s i Hcs Hi.
      assert (Hold : exists s', hb_subscribers h !! c = Some s' /\ i ∈ s' /\ (c = chatID -> i ∈ ids')).
      { case_bool_decide as Hemp.
        - apply lookup_delete_Some in Hcs as [Hne Hcs]. exists s. split_and!; [done | done | by intros ->].
        - destruct (decide (c = chatID)) as [->|Hne]; [rewrite lookup_insert_eq in Hcs; injection Hcs as <-; eauto 6 |].
          rewrite lookup_insert_ne in Hcs by done. exists s. done. }
      destruct Hold as (s' & Hs' & Hi' & Hin). destruct (Ho _ _ _ Hs' Hi') as (Hown & ch & Hch & Hop).
      split; [done |]. exists ch. split; [| done]. by rewrite (Hsame c s' i).
    - intros i ch Hch. destruct (Hq _ _ Hch) as (ch' & Hch' & ->). by apply Hb. }
  case_bool_decide as Hin; cbn [fst snd]; apply Hrest.
  - apply subseteq_difference_l. reflexivity.
  - intros c s i Hcs Hi Hc. apply lookup_alter_ne. intros <-.
    assert (c = chatID) as -> by (destruct (Ho _ _ _ Hcs Hi), (Ho _ _ _ Hsub Hin); congruence).
    specialize (Hc eq_refl). apply elem_of_difference in Hc as [_ Hc]. by apply Hc, elem_of_singleton.
  - intros i ch Hch. destruct (decide (i = id)) as [->|Hne].
    + rewrite lookup_alter_eq in Hch. destruct (hb_chans h !! id) as [ch'|]; [| done]. injection Hch as <-. eauto.
    + rewrite lookup_alter_ne in Hch by done. eauto.
  - done.
  - done.
  - eauto.
Qed.

Lemma receive_ok own id h : hub_ok own h -> hub_ok own (receive id h).2.
Proof.
  intros H. unfold receive. destruct (hb_chans h !! id) as [ch|] eqn:Hch; [| done].
  destruct (ch_queue ch) as [|e q] eqn:Hq; [done |]. destruct (ho_chan _ _ H _ _ Hch) as (Hl & c & Hc & Hev).
  rewrite Hq in Hl, Hev. apply Forall_cons in Hev as [_ Hev]. eapply hub_ok_queue; eauto. cbn in Hl. lia.
Qed.

Lemma hub_reachable_ok h : hub_reachable h -> exists own, hub_ok own h.
Proof.
  induction 1 as [|h h' _ (own & IH) Hst]; [exists ∅; apply hub_ok_empty |].
  destruct Hst; [eexists; by apply register_ok | ..]; exists own;
    eauto using start_replay_ok, replay_send_ok, buffer_event_ok, unsubscribe_ok, receive_ok.
  by apply deliver_ok.
Qed.

(** ** What subscribers can rely on *)

(** C18: However subscriptions, replays, publications, receives and cancellations are
    interleaved, a subscriber that has not cancelled has an open channel holding at most
    32 events, all of its own chat; and publishing an event, to whatever chat, never
    sends on a closed channel. *)
Theorem subscribers_safe h : hub_reachable h ->
  (forall c ids id, hb_subscribers h !! c = Some ids -> id ∈ ids ->
     exists ch, hb_chans h !! id = Some ch /\ ch_closed ch = false /\
                (length (ch_queue ch) <= capacity)%nat /\ events_of c (ch_queue ch)) /\
  (forall e, hb_panicked (publish e h) = hb_panicked h).
Proof.
  intros (own & H)%hub_reachable_ok. split.
  - intros c ids id Hs Hi. destruct (ho_open _ _ H _ _ _ Hs Hi) as (Hown & ch & Hch & Hop).
    destruct (ho_chan _ _ H _ _ Hch) as (Hl & c' & Hc' & Hev). assert (c' = c) as -> by congruence. eauto.
  - intros e. by destruct (deliver_ok own e (buffer_event e h) (buffer_event_ok own e h H)).
Qed.

Definition sample_event (ty chat : string) : RuntimeEvent :=
  {| ev_Type := ty; ev_ChatID := chat; ev_TraceID := ""; ev_Step := 0; ev_Data := ""; ev_Command := ""; ev_Result := "";
     ev_Error := ""; ev_TokenUsage := None; ev_Metadata := []; ev_At := 0 |}.

(** One subscriber to "a", which an event of another chat does not reach. *)
Definition sample_hub : Hub :=
  (publish (sample_event "plan" "b") (publish (sample_event "plan" "a") (register "a" empty_hub).2)).

Lemma sample_hub_reachable : hub_reachable sample_hub.
Proof.
  unfold sample_hub, publish. repeat (eapply hub_next; [| first [apply step_deliver | apply step_buffer | apply step_register]]).
  apply hub_init.
Qed.
Lemma subscribers_safe_witness :
  exists ch, hb_chans sample_hub !! 1 = Some ch /\ ch_closed ch = false /\
    (length (ch_queue ch) <= capacity)%nat /\ events_of "a" (ch_queue ch).
Proof. apply (proj1 (subscribers_safe _ sample_hub_reachable) "a" {[1]} 1); vm_compute; reflexivity. Defined.
Example sample_hub_queue : ch_queue <$> hb_chans sample_hub !! 1 = Some [sample_event "plan" "a"].
Proof. reflexivity. Qed.

(** ** Late subscribers *)

Lemma replay_all n id es : forall h ch, hb_replays h !! n = Some (id, es) -> hb_chans h !! id = Some ch ->
  ch_closed ch = false -> (length (ch_queue ch) <= capacity)%nat ->
  let h' := Nat.iter (length es) (replay_send n) h in
  hb_chans h' !! id = Some (ch <| ch_queue := take capacity (ch_queue ch ++ es) |>) /\ hb_panicked h' = hb_panicked h.
Proof.
  induction es as [|e es IH]; intros h ch Hn Hch Hop Hl.
  - cbn. rewrite app_nil_r, take_ge by done. split; [| done]. rewrite Hch. by destruct ch.
  - cbn [length]. rewrite Nat.iter_succ_r.
    assert (Hs : exists q, (length q <= capacity)%nat /\ take capacity (q ++ es) = take capacity (ch_queue ch ++ e :: es) /\
              hb_replays (replay_send n h) !! n = Some (id, es) /\ hb_panicked (replay_send n h) = hb_panicked h /\
              hb_chans (replay_send n h) !! id = Some (ch <| ch_queue := q |>)).
    { assert (Hu : <[n := (id, es)]> (hb_replays h) !! n = Some (id, es)).
      { apply list_lookup_insert_eq. by eapply lookup_lt_Some. }
      unfold replay_send. rewrite Hn. unfold try_send.
      change (hb_chans (h <| hb_replays := _ |>)) with (hb_chans h). rewrite Hch, Hop. case_bool_decide as Hlt; cbn.
      - exists (ch_queue ch ++ [e]). rewrite length_app, <- app_assoc, lookup_insert_eq. cbn. split_and!; [lia | done..].
      - exists (ch_queue ch). unfold capacity in Hl, Hlt |- *. rewrite !take_app_length' by lia.
        split_and!; [done | done | exact Hu | done |]. transitivity (Some ch); [exact Hch | by destruct ch]. }
    destruct Hs as (q & Hq & <- & Hn' & <- & Hch'). exact (IH _ _ Hn' Hch' Hop Hq).
Qed.

(** SubscribeRuntimeEvents undisturbed: the buffer is read at once. *)
Definition subscribe (chatID : string) (h : Hub) : Z * Hub :=
  let '(id, h1) := register chatID h in (id, start_replay (length (hb_starting h)) h1).

(** A subscriber that comes late is given the events of the running turn from its
    beginning, in order, as far as they fit: once the replay has run, its channel holds
    exactly the first 32 buffered events, and the replay did not panic. *)
Theorem late_subscriber_replay chatID e es h :
  hb_eventBufs h !! chatID = Some (e :: es) ->
  let '(id, h1) := subscribe chatID h in
  let h2 := Nat.iter (length (e :: es)) (replay_send (length (hb_replays h))) h1 in
  hb_chans h2 !! id = Some {| ch_queue := take 32 (e :: es); ch_closed := false |} /\
  hb_panicked h2 = hb_panicked h.
Proof.
  destruct h as [subs n bufs chans starting replays panicked]. cbn. intros Hbuf. unfold subscribe, register. cbn.
  set (h1 := start_replay _ _).
  assert (Hr : hb_replays h1 !! length replays = Some (n + 1, e :: es) /\
          hb_chans h1 !! (n + 1) = Some {| ch_queue := []; ch_closed := false |} /\
          hb_panicked h1 = panicked).
  { unfold h1, start_replay. cbn. rewrite list_lookup_middle, Hbuf by done. cbn. rewrite lookup_insert_eq.
    split_and!; [by apply list_lookup_middle | done..]. }
  destruct Hr as (H1 & H2 & H3). destruct (replay_all _ _ _ _ _ H1 H2 eq_refl) as [H4 H5]; [cbn; lia |].
  split; [exact H4 | exact (eq_trans H5 H3)].
Qed.

Lemma late_subscriber_replay_witness :
  let h := publish (sample_event "plan" "a") empty_hub in
  let h2 := Nat.iter 1 (replay_send 0) (subscribe "a" h).2 in
  hb_chans h2 !! 1 = Some {| ch_queue := [sample_event "plan" "a"]; ch_closed := false |} /\ hb_panicked h2 = false.
Proof. exact (late_subscriber_replay "a" (sample_event "plan" "a") [] (publish (sample_event "plan" "a") empty_hub) eq_refl). Defined.

(** A subscription cancelled while its replay runs: the replay sends on the channel that
    [unsubscribe] closed, and the process panics. *)
Theorem replay_after_cancel_panics : exists h, hub_reachable h /\ hb_panicked h = true.
Proof.
  exists (replay_send 0 (unsubscribe "a" 1 (subscribe "a" (buffer_event (sample_event "plan" "a") empty_hub)).2)).
  split; [| vm_compute; reflexivity].
  eapply hub_next; [| apply step_replay]. eapply hub_next; [| apply step_unsubscribe].
  eapply hub_next; [| apply step_start]. eapply hub_next; [| apply step_register].
  eapply hub_next; [apply hub_init | apply step_buffer].
Qed.

(** An event published between the registration and the reading of the buffer reaches the
    subscriber twice. *)
Example event_delivered_twice :
  let e := sample_event "plan" "a" in
  let h := replay_send 0 (start_replay 0 (publish e (register "a" empty_hub).2)) in
  ch_queue <$> hb_chans h !! 1 = Some [e; e].
Proof. reflexivity. Qed.

(** After a turn that fails the buffer is kept: a later subscriber is given the old events. *)
Example failed_turn_stays_buffered :
  let e := sample_event EventError "a" in
  hb_eventBufs (publish e empty_hub) !! "a" = Some [e] /\ hb_eventBufs (publish (sample_event EventDone "a") empty_hub) !! "a" = None.
Proof. split; reflexivity. Qed.
