(* ===== verification/ChatService.v ===== *)
(** * Conversations: src/service/chat/service.go and vm_resolver.go

    The service over its collaborators: the repositories, the orchestrator, the collector
    of VMs and the generator of titles, each a record of operations or a function over a
    store [S]. The state of the service itself is the hub of subscribers (EventHub) and the
    goroutines it has started, which run later as jobs of their own. *)

From S2P Require Import Prelude Exception Naming GoLib Domain World Json Encoding Orchestrator Chat EventHub.

(** ** Collaborators *)

Section ports.
Context (S : Type).
Record ChatRepository := {
  chats_Create : Chat -> M S (res unit); chats_GetByID : string -> M S (res Chat); chats_Update : Chat -> M S (res unit);
  chats_UpdateTitle : string -> string -> M S (res unit);
  chats_ListByUserID : ListParams -> M S (res (list ConversationSummary * option ListCursor));
  chats_ListMessages : ListMessagesParams -> M S (res (list TimelineEntry * option Z)) }.
Record AgentRepository := { agents_Create : Agent -> M S (res unit); agents_GetByID : string -> M S (res Agent) }.
(** VMCollectionService *)
Record VMCollectionService := {
  vc_GetByChatID : string -> M S (res (option VM)); vc_ListPreviousLeasesForChat : string -> M S (res (list VM));
  vc_HasSnapshot : string -> M S bool }.
End ports.
Arguments chats_Create {S}. Arguments chats_GetByID {S}. Arguments chats_Update {S}. Arguments chats_UpdateTitle {S}.
Arguments chats_ListByUserID {S}. Arguments chats_ListMessages {S}. Arguments agents_Create {S}. Arguments agents_GetByID {S}.
Arguments vc_GetByChatID {S}. Arguments vc_ListPreviousLeasesForChat {S}. Arguments vc_HasSnapshot {S}.

(** What the goroutines of SendMessageAsync and generateTitle capture. *)
Inductive Job :=
| TurnJob (chatID agentID userID content : string) (History : list Message) (isFirstMessage : bool)
| TitleJob (chatID message : string).

Record ChatWorld (S : Type) := { cw_hub : Hub; cw_jobs : list Job; cw_store : S }.
Arguments cw_hub {S}. Arguments cw_jobs {S}. Arguments cw_store {S}.

(** ** Metadata of an answer *)

(** The members of a struct as encoding/json reads and writes them. *)
Definition str_member (name s : string) : Args := if bool_decide (s = "") then [] else [(name, VStr s)].
Definition int_member (name : string) (z : Z) : Args := if bool_decide (z = 0) then [] else [(name, VInt z)].
Definition TraceStep_value (t : TraceStep) : value :=
  VMap ([("step", VInt (ts_Step t))] ++ str_member "reasoning" (ts_Reasoning t) ++ str_member "tool_name" (ts_ToolName t) ++
        (match ts_ToolArguments t with [] => [] | args => [("tool_arguments", VMap args)] end) ++
        str_member "observation" (ts_Observation t) ++
        (if ts_ToolSuccess t then [("tool_success", VBool true)] else []) ++ str_member "tool_error" (ts_ToolError t)).
Definition TokenUsage_value (u : TokenUsage) : value :=
  VMap (int_member "prompt_tokens" (tu_Prompt u) ++ int_member "completion_tokens" (tu_Completion u) ++
        int_member "total_tokens" (tu_Total u) ++ int_member "cached_tokens" (tu_Cached u) ++
        int_member "thoughts_tokens" (tu_Thoughts u) ++ int_member "tool_use_prompt_tokens" (tu_ToolUsePrompt u)).

Definition buildAssistantMetadata (trace : option ExecutionTrace) : Args :=
  match trace with
  | None => []
  | Some trace =>
      [("execution", VMap ([
          ("trace_id", VStr (et_TraceID trace)); ("execution_mode", VStr (et_ExecutionMode trace));
          ("reasoning", VStr (et_Reasoning trace)); ("steps", match et_Steps trace with [] => VNil | steps => VList (map TraceStep_value steps) end);
          ("final_answer", VStr (et_FinalAnswer trace)); ("started_at", VStr (rfc3339nano (et_StartedAt trace)));
          ("completed_at", VStr (rfc3339nano (et_CompletedAt trace)))] ++
        (if IsZero (et_TokenUsage trace) then [] else [("token_usage", TokenUsage_value (et_TokenUsage trace))])))]
  end.
Definition tokenUsagePtr (trace : option ExecutionTrace) : option TokenUsage :=
  match trace with
  | None => None
  | Some trace => if IsZero (et_TokenUsage trace) then None else Some (et_TokenUsage trace)
  end.

(** ** Available VMs (vm_resolver.go) *)

Section resolver.
Context {S : Type} (vmSvc : VMCollectionService S) (env_GetByID : string -> M S (res Environment)).
Local Open Scope go_scope.

Fixpoint available (seen : gset string) (vms : list VM) : M S (list AvailableVM) :=
  match vms with
  | [] => ret []
  | vm :: vms' =>
      if bool_decide (vm_ID vm ∈ seen) then available seen vms'
      else
        let* env := env_GetByID (vm_EnvironmentID vm) in
        let '(envType, envDesc) := match env with Ok e => (env_Type e, env_Description e) | Err _ => ("", "") end in
        let* hasSnapshot := vc_HasSnapshot vmSvc (vm_ID vm) in
        let* rest := available ({[vm_ID vm]} ∪ seen) vms' in
        ret ({| av_VMID := vm_ID vm; av_Environment := envType; av_EnvDescription := envDesc;
                av_Status := Status_string (vm_Status vm); av_HasSnapshot := hasSnapshot |} :: rest)
  end.

Definition CollectAvailableVMs (chatID : string) : M S (res (list AvailableVM)) :=
  let* active := vc_GetByChatID vmSvc chatID in
  let vms := match active with Ok (Some vm) => if IsActive (vm_Status vm) then [vm] else [] | _ => [] end in
  let* prev := vc_ListPreviousLeasesForChat vmSvc chatID in
  let vms := vms ++ match prev with Ok l => l | Err _ => [] end in
  let* result := available ∅ vms in
  ret (Ok result).
End resolver.

(** ** The service *)

Record ChatService (S : Type) := {
  sv_chats : ChatRepository S;
  sv_runtimes_Insert : PersistedRuntimeEvent -> M S (res unit);
  sv_agents : AgentRepository S;
  sv_orch : option (ProcessInput (ChatWorld S) -> M (ChatWorld S) (res ProcessResult));
  sv_vmCollector : option (string -> M S (res (list AvailableVM)));
  sv_titleGen : option (string -> M S (res string)) }.
Arguments sv_chats {S}. Arguments sv_runtimes_Insert {S}. Arguments sv_agents {S}. Arguments sv_orch {S}.
Arguments sv_vmCollector {S}. Arguments sv_titleGen {S}.

Section service.
Context {S : Type} (s : ChatService S) (time_Now : M S Z) (uuid_NewString : M S string).
Local Open Scope go_scope.
Abbreviation CW := (ChatWorld S).

(** An operation on the store. *)
Definition on {A} (m : M S A) : M CW A := fun w => let '(a, st) := m (cw_store w) in (a, w <| cw_store := st |>).
Definition now : M CW Z := on time_Now.
Definition newID : M CW string := on uuid_NewString.
(** [go f()] *)
Definition go (j : Job) : M CW unit := fun w => (tt, w <| cw_jobs := cw_jobs w ++ [j] |>).

Definition collectAvailableVMs (chatID : string) : M CW (list AvailableVM) :=
  match sv_vmCollector s with
  | None => ret []
  | Some collect => let* r := on (collect chatID) in ret (match r with Ok vms => vms | Err _ => [] end)
  end.

Definition createDefaultAgent (p : ChatParams) : M CW (res Agent) :=
  let name := if bool_decide (cp_AgentName p = "") then "Chat Assistant" else cp_AgentName p in
  let model := if bool_decide (cp_Model p = "") then "gemini" else cp_Model p in
  let* created := newAgent now newID {| ap_UserID := cp_UserID p; ap_Name := name;
                    ap_Description := "Auto-generated assistant for chat"; ap_Model := model; ap_SystemPrompt := cp_SystemPrompt p |} in
  let? _ := on (agents_Create (sv_agents s) created) in
  ret (Ok created).

(** [Create] up to the statement that persists the chat. *)
Definition prepare (p : ChatParams) : M CW (res Chat) :=
  let p := p <| cp_AgentID := trim_space (cp_AgentID p) |> <| cp_UserID := trim_space (cp_UserID p) |>
             <| cp_AgentName := trim_space (cp_AgentName p) |> <| cp_Model := trim_space (cp_Model p) |> in
  let? agentID := (if bool_decide (cp_AgentID p = "")
                   then let? created := createDefaultAgent p in ret (Ok (ag_ID created))
                   else let? _ := on (agents_GetByID (sv_agents s) (cp_AgentID p)) in ret (Ok (cp_AgentID p))) in
  let* userID := (if bool_decide (cp_UserID p = "") then let* id := newID in ret ("anonymous-" +:+ id) else ret (cp_UserID p)) in
  let* c := newChat now newID (p <| cp_AgentID := agentID |> <| cp_UserID := userID |>) in
  ret (Ok c).
Definition Create (p : ChatParams) : M CW (res Chat) :=
  let? c := prepare p in
  let? _ := on (chats_Create (sv_chats s) c) in
  ret (Ok c).

Definition Get (id : string) : M CW (res Chat) := on (chats_GetByID (sv_chats s) id).

(** *** Events *)

Definition publish (e : RuntimeEvent) : M CW unit := fun w => (tt, w <| cw_hub := EventHub.publish e (cw_hub w) |>).
Definition persistEvent (chatID : string) (e : RuntimeEvent) : M CW unit :=
  let persisted := ToPersisted e in
  let persisted := if bool_decide (pe_ChatID persisted = "") then persisted <| pe_ChatID := chatID |> else persisted in
  let* _ := on (sv_runtimes_Insert s persisted) in
  ret tt.
Definition announce (chatID : string) (e : RuntimeEvent) : M CW unit :=
  let* _ := publish e in persistEvent chatID e.

Definition chat_event (type chatID : string) (at_ : Z) : RuntimeEvent :=
  {| ev_Type := type; ev_ChatID := chatID; ev_TraceID := ""; ev_Step := 0; ev_Data := ""; ev_Command := ""; ev_Result := "";
     ev_Error := ""; ev_TokenUsage := None; ev_Metadata := []; ev_At := at_ |}.
Definition announce_error (chatID msg : string) : M CW unit :=
  let* t := now in announce chatID ((chat_event EventError chatID t) <| ev_Error := msg |>).

(** The [emit] closure of a turn. *)
Definition emit (chatID : string) (e : RuntimeEvent) : M CW unit :=
  let e := if bool_decide (ev_ChatID e = "") then e <| ev_ChatID := chatID |> else e in
  let* t := (if bool_decide (ev_At e = 0) then now else ret (ev_At e)) in
  announce chatID (e <| ev_At := t |>).

(** *** Messages *)

Definition closed_chat : error := BadRequest "chat is already closed".
Definition no_answer : string := "[orchestrator returned empty response]".
Definition turn_input (chatID agentID userID content : string) (vms : list AvailableVM) (History : list Message) : ProcessInput CW :=
  {| pi_ChatID := chatID; pi_AgentID := agentID; pi_UserID := userID; pi_Message := content; pi_AvailableVMs := vms;
     pi_EnvironmentHint := ""; pi_History := History; pi_EmitEvent := Some (emit chatID) |}.
Definition answer_of (r : ProcessResult) : string :=
  if bool_decide (pres_AssistantMessage r = "") then no_answer else pres_AssistantMessage r.

Definition SendMessage (id content vmID : string) : M CW (res Chat) :=
  let? c := on (chats_GetByID (sv_chats s) id) in
  if bool_decide (c_Status c = ChatClosed) then ret (Err closed_chat)
  else
    let* c := AddMessage now c RoleUser content in
    let? c := (match sv_orch s with
               | Some process =>
                   let* availableVMs := collectAvailableVMs id in
                   let* result := process (turn_input id (c_AgentID c) (c_UserID c) content availableVMs (c_Messages c)) in
                   match result with
                   | Err e => let* _ := announce_error id (Error e) in ret (Err e)
                   | Ok r => let* c := AddMessageWithMetadata now c RoleAssistant (answer_of r) (buildAssistantMetadata (Some (pres_Trace r))) in
                             ret (Ok c)
                   end
               | None => let* c := AddMessage now c RoleAssistant "[orchestrator not configured]" in ret (Ok c)
               end) in
    let? _ := on (chats_Update (sv_chats s) c) in
    ret (Ok c).

Definition SendOrCreate (id content : string) (p : ChatParams) : M CW (res Chat) :=
  if negb (bool_decide (id = "")) then SendMessage id content ""
  else let? c := Create p in SendMessage (c_ID c) content "".

Definition SendMessageAsync (id content vmID : string) : M CW (res unit) :=
  let? c := on (chats_GetByID (sv_chats s) id) in
  if bool_decide (c_Status c = ChatClosed) then ret (Err closed_chat)
  else
    let* c := AddMessage now c RoleUser content in
    let? _ := on (chats_Update (sv_chats s) c) in
    let* _ := go (TurnJob id (c_AgentID c) (c_UserID c) content (c_Messages c) (bool_decide (length (c_Messages c) = 1%nat))) in
    ret (Ok tt).

Definition SendOrCreateAsync (id content : string) (p : ChatParams) : M CW (res string) :=
  let? id := (if bool_decide (id = "") then let? c := Create p in ret (Ok (c_ID c)) else ret (Ok id)) in
  let? _ := SendMessageAsync id content "" in
  ret (Ok id).

(** The goroutine of SendMessageAsync. *)
Definition run_turn (chatID agentID userID content : string) (History : list Message) (isFirstMessage : bool) : M CW unit :=
  match sv_orch s with
  | None => announce_error chatID "orchestrator not configured"
  | Some process =>
      let* _ := (match sv_titleGen s with
                 | Some _ => if isFirstMessage then go (TitleJob chatID content) else ret tt
                 | None => ret tt
                 end) in
      let* availableVMs := collectAvailableVMs chatID in
      let* result := process (turn_input chatID agentID userID content availableVMs History) in
      match result with
      | Err e => announce_error chatID (Error e)
      | Ok r =>
          let assistant := answer_of r in
          let* loaded := on (chats_GetByID (sv_chats s) chatID) in
          match loaded with
          | Err _ => ret tt
          | Ok updated =>
              let* updated := AddMessageWithMetadata now updated RoleAssistant assistant (buildAssistantMetadata (Some (pres_Trace r))) in
              let* saved := on (chats_Update (sv_chats s) updated) in
              match saved with
              | Err _ => ret tt
              | Ok _ =>
                  let* t := now in
                  announce chatID ((chat_event EventDone chatID t) <| ev_Data := assistant |>
                                     <| ev_TokenUsage := tokenUsagePtr (Some (pres_Trace r)) |>)
              end
          end
      end
  end.

Definition generateTitle (chatID message : string) : M CW unit :=
  match sv_titleGen s with
  | None => ret tt
  | Some generate =>
      let* title := on (generate message) in
      match title with
      | Err _ => ret tt
      | Ok title =>
          if bool_decide (title = "") then ret tt
          else
            let* saved := on (chats_UpdateTitle (sv_chats s) chatID title) in
            match saved with
            | Err _ => ret tt
            | Ok _ => let* t := now in emit chatID ((chat_event EventTitle chatID t) <| ev_Data := title |>)
            end
      end
  end.

(** The scheduler takes one of the started goroutines. *)
Definition run_job (n : nat) : M CW unit := fun w =>
  match cw_jobs w !! n with
  | None => (tt, w)
  | Some j =>
      let w := w <| cw_jobs := delete n (cw_jobs w) |> in
      match j with
      | TurnJob chatID agentID userID content History isFirst => run_turn chatID agentID userID content History isFirst w
      | TitleJob chatID message => generateTitle chatID message w
      end
  end.

(** *** Other calls *)

Definition SubscribeRuntimeEvents (chatID : string) : M CW (res Z) :=
  let? _ := on (chats_GetByID (sv_chats s) chatID) in
  fun w => let '(id, h) := EventHub.subscribe chatID (cw_hub w) in (Ok id, w <| cw_hub := h |>).

Definition Close (id : string) : M CW (res unit) :=
  let? c := on (chats_GetByID (sv_chats s) id) in
  if bool_decide (c_Status c = ChatClosed) then ret (Ok tt)
  else
    let* t := now in
    let? _ := on (chats_Update (sv_chats s) (c <| c_Status := ChatClosed |> <| c_UpdatedAt := t |>)) in
    ret (Ok tt).

Definition clamp_limit (dflt limit : Z) : Z := if bool_decide (limit <= 0) || bool_decide (100 < limit) then dflt else limit.
Definition ListConversations (p : ListParams) : M CW (res (list ConversationSummary * option ListCursor)) :=
  on (chats_ListByUserID (sv_chats s) (p <| lp_Limit := clamp_limit 20 (lp_Limit p) |>)).
Definition ListMessages (p : ListMessagesParams) : M CW (res (list TimelineEntry * option Z)) :=
  on (chats_ListMessages (sv_chats s) (p <| lm_Limit := clamp_limit 50 (lm_Limit p) |>)).
End service.

