(* ===== verification/ChatSpec.v ===== *)
(** * What the chat service promises

    [ChatStore] states what the service relies on in a chat repository; the in-memory
    repository satisfies it. Against that interface: what SendMessage does on every
    branch, and a refinement: whatever the order of calls and of background jobs, the
    chats of the store are conversations that only grow and that stay closed. *)

From stdpp Require Import relations.
From S2P Require Import Prelude Exception Naming GoLib Domain World Json Orchestrator Hoare OrchSpec Chat MemRepo EventHub ChatService.

(** ** Conversations *)

Definition said (m : Message) : string * string := (msg_Role m, msg_Content m).

(** What a chat is about: who said what, and whether it is closed. *)
Record Conversation := { cv_said : list (string * string); cv_closed : bool }.
Definition conversation (c : Chat) : Conversation :=
  {| cv_said := said <$> c_Messages c; cv_closed := bool_decide (c_Status c = ChatClosed) |}.

(** The abstract chat service. *)
Inductive conv_step : gmap string Conversation -> gmap string Conversation -> Prop :=
| conv_open m id : m !! id = None -> conv_step m (<[id := {| cv_said := []; cv_closed := false |}]> m)
| conv_user m id said text : m !! id = Some {| cv_said := said; cv_closed := false |} ->
    conv_step m (<[id := {| cv_said := said ++ [(RoleUser, text)]; cv_closed := false |}]> m)
| conv_answer m id said closed text : m !! id = Some {| cv_said := said; cv_closed := closed |} ->
    conv_step m (<[id := {| cv_said := said ++ [(RoleAssistant, text)]; cv_closed := closed |}]> m)
| conv_close m id said : m !! id = Some {| cv_said := said; cv_closed := false |} ->
    conv_step m (<[id := {| cv_said := said; cv_closed := true |}]> m).

(** ** What the service relies on *)

(** [c1] is what the store holds after a successful update of [c0] with [c]. *)
Definition saved (c0 c c1 : Chat) : Prop :=
  c_Status c1 = c_Status c /\
  exists new, c_Messages c1 = c_Messages c0 ++ new /\ said <$> new = said <$> drop (length (c_Messages c0)) (c_Messages c).
(** An update that fails has stored nothing, or the row and a part of the messages. *)
Definition partly_saved (c0 c c1 : Chat) : Prop :=
  (c_Status c1 = c_Status c0 /\ c_Messages c1 = c_Messages c0) \/
  (c_Status c1 = c_Status c /\
   exists new, c_Messages c1 = c_Messages c0 ++ new /\
     (said <$> new) `prefix_of` (said <$> drop (length (c_Messages c0)) (c_Messages c))).

Class ChatStore {S : Type} (R : ChatRepository S) := {
  view : S -> gmap string Chat;
  store_ok : S -> Prop;
  same (st st' : S) : Prop := view st' = view st /\ (store_ok st -> store_ok st');
  get_same id st : same st (chats_GetByID R id st).2;
  get_ok id st c : store_ok st -> (chats_GetByID R id st).1 = Ok c -> view st !! c_ID c = Some c;
  update_saves c c0 st : store_ok st -> view st !! c_ID c = Some c0 -> c_Messages c0 `prefix_of` c_Messages c ->
    store_ok (chats_Update R c st).2 /\
    exists c1, view (chats_Update R c st).2 = <[c_ID c := c1]> (view st) /\
      (if is_Ok (chats_Update R c st).1 then saved c0 c c1 else partly_saved c0 c c1);
  create_saves c st : store_ok st -> view st !! c_ID c = None -> c_Messages c = [] ->
    store_ok (chats_Create R c st).2 /\
    (view (chats_Create R c st).2 = view st \/
     exists k c1, view st !! k = None /\ view (chats_Create R c st).2 = <[k := c1]> (view st) /\
       c_Messages c1 = [] /\ c_Status c1 = c_Status c);
  title_keeps id title st : store_ok st -> store_ok (chats_UpdateTitle R id title st).2 /\
    conversation <$> view (chats_UpdateTitle R id title st).2 = conversation <$> view st;
  list_same p st : same st (chats_ListByUserID R p st).2;
  messages_same p st : same st (chats_ListMessages R p st).2
}.
Arguments same {S R _} st st' /.

(** The other collaborators leave the chats alone. *)
Class QuietPorts {S} (s : ChatService S) (time_Now : M S Z) (uuid_NewString : M S string) `{!ChatStore (sv_chats s)} := {
  qp_now : keeps same time_Now; qp_uuid : keeps same uuid_NewString;
  qp_insert e : keeps same (sv_runtimes_Insert s e);
  qp_agent_create a : keeps same (agents_Create (sv_agents s) a);
  qp_agent_get id : keeps same (agents_GetByID (sv_agents s) id);
  qp_collect f : sv_vmCollector s = Some f -> forall id, keeps same (f id);
  qp_title f : sv_titleGen s = Some f -> forall m, keeps same (f m)
}.

Section spec.
Context {S : Type} (s : ChatService S) (time_Now : M S Z) (uuid_NewString : M S string).
Context `{!ChatStore (sv_chats s)} `{!QuietPorts s time_Now uuid_NewString}.
Abbreviation CW := (ChatWorld S).

#[export] Instance same_preorder : PreOrder same.
Proof. split; [intros st; by split | intros a b c [H1 H2] [H3 H4]; split; [congruence | auto]]. Qed.

Definition csame (w w' : CW) : Prop := same (cw_store w) (cw_store w').
#[export] Instance csame_preorder : PreOrder csame.
Proof. split; [intros w; apply same_preorder | intros a b c; apply same_preorder]. Qed.

(** *** Operations that leave the chats alone *)

Lemma on_keeps {A} (m : M S A) : keeps same m -> keeps csame (on m).
Proof. intros H w. specialize (H (cw_store w)). unfold on, csame. destruct (m (cw_store w)) as [a st]. exact H. Qed.

Lemma now_keeps : keeps csame (now time_Now).
Proof. apply on_keeps, qp_now. Qed.
Lemma newID_keeps : keeps csame (newID uuid_NewString).
Proof. apply on_keeps, qp_uuid. Qed.
Lemma go_job_keeps j : keeps csame (go j).
Proof. intros w. apply same_preorder. Qed.
Lemma publish_keeps e : keeps csame (publish e).
Proof. intros w. apply same_preorder. Qed.
Hint Resolve now_keeps newID_keeps go_job_keeps publish_keeps : keeps.

Lemma announce_keeps chatID e : keeps csame (announce s chatID e).
Proof.
  unfold announce. apply keeps_bind; [apply _ | apply publish_keeps | intros _]. unfold persistEvent.
  apply keeps_bind; [apply _ | apply on_keeps, qp_insert | intros _; apply keeps_ret; apply _].
Qed.
Lemma announce_error_keeps chatID msg : keeps csame (announce_error s time_Now chatID msg).
Proof. apply keeps_bind; [apply _ | apply now_keeps | intros t; apply announce_keeps]. Qed.
Lemma emit_keeps chatID e : keeps csame (emit s time_Now chatID e).
Proof.
  apply keeps_bind; [apply _ | | intros t; apply announce_keeps]. case_bool_decide; [apply now_keeps | apply keeps_ret; apply _].
Qed.
Lemma collect_keeps chatID : keeps csame (collectAvailableVMs s chatID).
Proof.
  unfold collectAvailableVMs. destruct (sv_vmCollector s) as [f|] eqn:Hf; [| apply keeps_ret; apply _].
  apply keeps_bind; [apply _ | by eapply on_keeps, qp_collect | intros r; apply keeps_ret; apply _].
Qed.
Lemma add_message_keeps c role content md : keeps csame (AddMessageWithMetadata (now time_Now) c role content md).
Proof. unfold AddMessageWithMetadata. go_keeps. Qed.
Lemma get_keeps id : keeps csame (on (chats_GetByID (sv_chats s) id)).
Proof. apply on_keeps. intros st. apply get_same. Qed.
Hint Resolve announce_keeps announce_error_keeps emit_keeps collect_keeps add_message_keeps get_keeps : keeps.

Lemma prepare_keeps p : keeps csame (prepare s time_Now uuid_NewString p).
Proof.
  unfold prepare, createDefaultAgent, newChat, newAgent.
  assert (forall a, keeps csame (on (agents_Create (sv_agents s) a))) by (intros; apply on_keeps, qp_agent_create).
  assert (forall id, keeps csame (on (agents_GetByID (sv_agents s) id))) by (intros; apply on_keeps, qp_agent_get).
  go_keeps.
Qed.

(** What a prepared chat is: new, open and empty. *)
Lemma prepare_chat p w c w' : prepare s time_Now uuid_NewString p w = (Ok c, w') -> c_Messages c = [] /\ c_Status c = ChatActive.
Proof.
  unfold prepare. unfold bind_ok at 1. destruct (_ w) as [[agentID|e] w1]; [| done].
  unfold bind at 1. destruct (_ w1) as [userID w2]. unfold bind, newChat, bind.
  destruct (now time_Now w2) as [t w3]. destruct (newID uuid_NewString w3) as [i w4]. cbn. by intros [= <- _].
Qed.

Lemma add_message_run c role content md w : exists m t w',
  AddMessageWithMetadata (now time_Now) c role content md w = (c <| c_Messages := c_Messages c ++ [m] |> <| c_UpdatedAt := t |>, w') /\
  said m = (role, content) /\ msg_Metadata m = md /\ csame w w'.
Proof.
  pose proof (add_message_keeps c role content md w) as H. unfold AddMessageWithMetadata, bind in *.
  destruct (now time_Now w) as [t1 w1]. destruct (now time_Now w1) as [t2 w2]. cbn in *. by do 3 eexists.
Qed.
Lemma add_message_run' c role content w : exists m t w',
  AddMessage (now time_Now) c role content w = (c <| c_Messages := c_Messages c ++ [m] |> <| c_UpdatedAt := t |>, w') /\
  said m = (role, content) /\ csame w w'.
Proof. destruct (add_message_run c role content [] w) as (m & t & w' & H & Hs & _ & Hw). by exists m, t, w'. Qed.

(** *** SendMessage *)

(** The chat [c0] is written with [new] messages appended, and that is the answer. *)
Definition written (c0 : Chat) (new : list Message) (r : res Chat) (w w' : CW) : Prop :=
  exists t, let c := c0 <| c_Messages := c_Messages c0 ++ new |> <| c_UpdatedAt := t |> in
    let '(saved, st) := chats_Update (sv_chats s) c (cw_store w) in
    w' = w <| cw_store := st |> /\ r = match saved with Ok _ => Ok c | Err e => Err e end.

(** C20: SendMessage on every branch. A chat that cannot be loaded, or that is closed,
    gives the error and nothing happens. Otherwise the orchestrator is run once, with the
    history of the chat and the user's message. If it fails, its error is announced and
    returned and no message is stored. If it succeeds, the chat as it was loaded is
    written back with exactly two messages more, the user's and the answer, whatever has
    happened to the chat in the meantime. *)
Theorem SendMessage_spec id content vmID w r w' :
  SendMessage s time_Now id content vmID w = (r, w') ->
  match (chats_GetByID (sv_chats s) id (cw_store w)).1 with
  | Err e => r = Err e /\ csame w w'
  | Ok c0 =>
      if bool_decide (c_Status c0 = ChatClosed) then r = Err closed_chat /\ csame w w'
      else exists user, said user = (RoleUser, content) /\
        match sv_orch s with
        | None => exists answer w1, said answer = (RoleAssistant, "[orchestrator not configured]") /\ csame w w1 /\
                                    written c0 [user; answer] r w1 w'
        | Some process => exists vms w1 out w2, csame w w1 /\
            process (turn_input s time_Now id (c_AgentID c0) (c_UserID c0) content vms (c_Messages c0 ++ [user])) w1 = (out, w2) /\
            match out with
            | Err e => r = Err e /\ announce_error s time_Now id (Error e) w2 = (tt, w') /\ csame w2 w'
            | Ok p => exists answer w3, said answer = (RoleAssistant, answer_of p) /\
                msg_Metadata answer = buildAssistantMetadata (Some (pres_Trace p)) /\ csame w2 w3 /\
                written c0 [user; answer] r w3 w'
            end
        end
  end.
Proof.
  unfold SendMessage. unfold bind_ok at 1. pose proof (get_keeps id w) as Hw0. unfold on in *.
  destruct (chats_GetByID _ id _) as [[c0|e] st0]; cbn [fst snd] in *; [| by intros [= <- <-]].
  case_bool_decide; [by intros [= <- <-] |]. unfold bind at 1.
  set (w0 := w <| cw_store := st0 |>) in *.
  destruct (add_message_run' c0 RoleUser content w0) as (user & t & w1 & -> & Hu & Hw1).
  intros H0. exists user. split; [done |]. unfold bind_ok at 1 in H0. revert H0.
  assert (Hw : csame w w1) by (by transitivity w0).
  destruct (sv_orch s) as [process|].
  - unfold bind at 1. pose proof (collect_keeps id w1) as Hw2. destruct (collectAvailableVMs s id w1) as [vms w2]. cbn [snd] in Hw2.
    unfold bind at 1. destruct (process _ w2) as [[p|e] w3] eqn:Hp.
    + unfold bind at 1. match goal with |- context [AddMessageWithMetadata _ ?c _ _ _ _] => set (c1 := c) end.
      destruct (add_message_run c1 RoleAssistant (answer_of p) (buildAssistantMetadata (Some (pres_Trace p))) w3)
        as (a & t' & w4 & -> & Ha & Hmd & Hw4).
      intros H0. exists vms, w2, (Ok p), w3. split; [by transitivity w1 |]. split; [exact Hp |].
      exists a, w4. split_and!; [done.. |]. exists t'. revert H0. unfold c1, bind_ok, ret, on. cbn. rewrite <- app_assoc. cbn.
      destruct (chats_Update _ _ _) as [[u|e] st]; by intros [= <- <-].
    + unfold bind. pose proof (announce_error_keeps id (Error e) w3) as Hw4.
      destruct (announce_error s time_Now id (Error e) w3) as [[] w4] eqn:Ha. intros [= <- <-].
      exists vms, w2, (Err e), w3. split_and!; [by transitivity w1 | exact Hp | done..].
  - unfold bind at 1. match goal with |- context [AddMessage _ ?c _ _ _] => set (c1 := c) end.
    destruct (add_message_run' c1 RoleAssistant "[orchestrator not configured]" w1) as (a & t' & w2 & -> & Ha & Hw2).
    intros H0. exists a, w2. split_and!; [done | by transitivity w1 |]. exists t'. revert H0. unfold c1, bind_ok, ret, on. cbn.
    rewrite <- app_assoc. cbn. destruct (chats_Update _ _ _) as [[u|e] st]; by intros [= <- <-].
Qed.

(** ** The store as conversations *)

Definition convs (st : S) : gmap string Conversation := conversation <$> view st.
Definition refines (w w' : CW) : Prop :=
  store_ok (cw_store w) -> store_ok (cw_store w') /\ rtc conv_step (convs (cw_store w)) (convs (cw_store w')).
#[export] Instance refines_preorder : PreOrder refines.
Proof.
  split; [by intros w H |]. intros a b c Hab Hbc H. destruct (Hab H) as [Hb Hs]. destruct (Hbc Hb) as [Hc Hs'].
  split; [done | by etrans].
Qed.
Lemma csame_refines w w' : csame w w' -> refines w w'.
Proof. intros [Hv Hok] H. split; [auto |]. unfold convs. by rewrite Hv. Qed.
Lemma csame_keeps_refines {A} (m : M CW A) : keeps csame m -> keeps refines m.
Proof. apply keeps_weaken, csame_refines. Qed.

(** Entries that may be appended to a conversation. *)
Definition may_say (closed : bool) (e : string * string) : Prop :=
  e.1 = RoleAssistant \/ (e.1 = RoleUser /\ closed = false).

Lemma say_steps (m : gmap string Conversation) id closed new : forall old,
  m !! id = Some {| cv_said := old; cv_closed := closed |} -> Forall (may_say closed) new ->
  rtc conv_step m (<[id := {| cv_said := old ++ new; cv_closed := closed |}]> m).
Proof.
  revert m. induction new as [|[role text] new IH]; intros m old Hm Hnew.
  - rewrite app_nil_r, insert_id by done. reflexivity.
  - apply Forall_cons in Hnew as [He Hnew].
    apply (rtc_l _ _ (<[id := {| cv_said := old ++ [(role, text)]; cv_closed := closed |}]> m)).
    + destruct He as [He|[He ->]]; cbn in He; subst role; [by apply conv_answer | by apply conv_user].
    + specialize (IH (<[id := {| cv_said := old ++ [(role, text)]; cv_closed := closed |}]> m) (old ++ [(role, text)])).
      rewrite lookup_insert_eq, insert_insert_eq, <- app_assoc in IH. by apply IH.
Qed.

(** An update that appends to a chat, or closes it, refines the conversations. *)
Lemma update_refines c c0 new (w : CW) : view (cw_store w) !! c_ID c = Some c0 -> c_Messages c = c_Messages c0 ++ new ->
  (c_Status c = c_Status c0 /\ Forall (may_say (cv_closed (conversation c0))) (said <$> new) \/
   c_Status c = ChatClosed /\ c_Status c0 <> ChatClosed /\ new = []) ->
  refines w (on (chats_Update (sv_chats s) c) w).2.
Proof.
  intros Hc Hm Hcase Hok. destruct (update_saves c c0 (cw_store w) Hok Hc) as (Hok' & c1 & Hview & Hsaved).
  { rewrite Hm. by apply prefix_app_r. }
  unfold on. destruct (chats_Update (sv_chats s) c (cw_store w)) as [r st] eqn:E. cbn in *. split; [done |].
  unfold convs. rewrite Hview, fmap_insert.
  assert (Hold : (conversation <$> view (cw_store w)) !! c_ID c = Some (conversation c0)) by (by rewrite lookup_fmap, Hc).
  (* a row that is not written leaves the conversation as it was *)
  assert (Hcases : conversation c1 = conversation c0 \/
     c_Status c1 = c_Status c /\ exists new', c_Messages c1 = c_Messages c0 ++ new' /\ (said <$> new') `prefix_of` (said <$> new)).
  { unfold saved, partly_saved in Hsaved. rewrite Hm, drop_app_length in Hsaved. destruct (is_Ok r).
    - right. destruct Hsaved as (Hs & new' & Hn & He). split; [done |]. exists new'. rewrite He. by split.
    - destruct Hsaved as [[Hs Hn]|Hsaved]; [left; unfold conversation; by rewrite Hs, Hn | by right]. }
  destruct Hcases as [->|(Hs & new' & Hn & Hp)]; [by rewrite insert_id |].
  destruct Hcase as [[Hst Hsay]|(Hcl & Hop & ->)].
  - assert (conversation c1 = {| cv_said := cv_said (conversation c0) ++ (said <$> new'); cv_closed := cv_closed (conversation c0) |}) as ->
      by (unfold conversation; cbn; by rewrite Hs, Hst, Hn, fmap_app).
    apply say_steps; [exact Hold |]. destruct Hp as [k Hk]. rewrite Hk in Hsay. by apply Forall_app in Hsay as [? _].
  - destruct new' as [|m new']; [| destruct Hp as [k Hk]; discriminate Hk]. rewrite app_nil_r in Hn. apply rtc_once.
    assert (conversation c1 = {| cv_said := cv_said (conversation c0); cv_closed := true |}) as ->
      by (unfold conversation; cbn; by rewrite Hs, Hcl, Hn, bool_decide_eq_true_2).
    apply conv_close. rewrite Hold. unfold conversation. cbn. by rewrite bool_decide_eq_false_2.
Qed.

(** *** The operations *)

(** A turn leaves the chats alone. *)
Definition quiet_turns : Prop := forall process, sv_orch s = Some process ->
  forall chatID agentID userID content vms History,
  keeps csame (process (turn_input s time_Now chatID agentID userID content vms History)).
Context (Hquiet : quiet_turns).

Lemma may_say_user c0 text : c_Status c0 <> ChatClosed -> may_say (cv_closed (conversation c0)) (RoleUser, text).
Proof. intros H. right. split; [done |]. cbn. by apply bool_decide_eq_false_2. Qed.
Lemma may_say_answer closed text : may_say closed (RoleAssistant, text).
Proof. by left. Qed.

Lemma exchange_may_say c0 user answer content text : c_Status c0 <> ChatClosed ->
  said user = (RoleUser, content) -> said answer = (RoleAssistant, text) ->
  Forall (may_say (cv_closed (conversation c0))) (said <$> [user; answer]).
Proof.
  intros H Hu Ha. change (said <$> [user; answer]) with [said user; said answer]. rewrite Hu, Ha.
  apply Forall_cons; split; [by apply may_say_user |]. apply Forall_cons; split; [apply may_say_answer | by apply Forall_nil].
Qed.

Lemma written_refines c0 new r w w' : view (cw_store w) !! c_ID c0 = Some c0 ->
  Forall (may_say (cv_closed (conversation c0))) (said <$> new) -> written c0 new r w w' -> refines w w'.
Proof.
  intros Hc Hnew (t & H). pose proof (update_refines (c0 <| c_Messages := c_Messages c0 ++ new |> <| c_UpdatedAt := t |>) c0 new w) as U.
  cbn in U, H. unfold on in U. destruct (chats_Update _ _ _) as [saved st]. destruct H as [-> _]. apply U; auto.
Qed.

Lemma SendMessage_refines id content vmID : keeps refines (SendMessage s time_Now id content vmID).
Proof.
  intros w Hok. pose proof (SendMessage_spec id content vmID w _ _ (surjective_pairing _)) as H.
  revert Hok. change (refines w (SendMessage s time_Now id content vmID w).2).
  revert H. destruct (SendMessage s time_Now id content vmID w) as [r w']. cbn [fst snd].
  destruct (chats_GetByID _ _ _).1 as [c0|e] eqn:Hget; [| intros [_ H]; by apply csame_refines].
  case_bool_decide as Hcl; [intros [_ H]; by apply csame_refines |]. intros (user & Hu & H) Hok.
  pose proof (get_ok id (cw_store w) c0 Hok Hget) as Hview. revert Hok. change (refines w w').
  assert (Hrow : forall w1, csame w w1 -> view (cw_store w1) !! c_ID c0 = Some c0) by (intros w1 [E _]; by rewrite E).
  destruct (sv_orch s) as [process|] eqn:Horch.
  - destruct H as (vms & w1 & out & w2 & Hw1 & Hp & H).
    assert (Hw2 : csame w w2).
    { transitivity w1; [done |]. pose proof (Hquiet process Horch id (c_AgentID c0) (c_UserID c0) content vms (c_Messages c0 ++ [user]) w1) as Hq.
      by rewrite Hp in Hq. }
    destruct out as [p|e].
    + destruct H as (a & w3 & Ha & _ & Hw3 & Hwr). assert (csame w w3) by (by transitivity w2).
      transitivity w3; [by apply csame_refines |]. eapply written_refines; [by apply Hrow | by eapply exchange_may_say | exact Hwr].
    + destruct H as (_ & _ & Hw3). transitivity w2; by apply csame_refines.
  - destruct H as (a & w1 & Ha & Hw1 & Hwr). transitivity w1; [by apply csame_refines |].
    eapply written_refines; [by apply Hrow | by eapply exchange_may_say | exact Hwr].
Qed.

(** An update of a chat that was just loaded. *)
Lemma loaded_refines id w c0 w1 c new :
  on (chats_GetByID (sv_chats s) id) w = (Ok c0, w1) -> forall w2, csame w1 w2 ->
  c_ID c = c_ID c0 -> c_Messages c = c_Messages c0 ++ new ->
  (c_Status c = c_Status c0 /\ Forall (may_say (cv_closed (conversation c0))) (said <$> new) \/
   c_Status c = ChatClosed /\ c_Status c0 <> ChatClosed /\ new = []) ->
  refines w (on (chats_Update (sv_chats s) c) w2).2.
Proof.
  intros Hget w2 Hw2 Hid Hm Hcase. assert (Hw1 : csame w w1) by (pose proof (get_keeps id w) as H; by rewrite Hget in H).
  assert (H12 : csame w w2) by (by transitivity w1).
  intros Hok. revert Hok. change (refines w (on (chats_Update (sv_chats s) c) w2).2). intros Hok.
  assert (Hrow : view (cw_store w) !! c_ID c0 = Some c0).
  { apply (get_ok id); [done |]. unfold on in Hget. destruct (chats_GetByID _ _ _) as [r st]. injection Hget as -> _. done. }
  assert (Hrow2 : view (cw_store w2) !! c_ID c = Some c0) by (destruct H12 as [E _]; by rewrite E, Hid).
  revert Hok. change (refines w (on (chats_Update (sv_chats s) c) w2).2).
  transitivity w2; [by apply csame_refines | by eapply update_refines].
Qed.

Lemma SendMessageAsync_refines id content vmID : keeps refines (SendMessageAsync s time_Now id content vmID).
Proof.
  intros w. unfold SendMessageAsync. unfold bind_ok at 1. pose proof (get_keeps id w) as Hw1.
  destruct (on (chats_GetByID _ id) w) as [[c0|e] w1] eqn:Hget; cbn [snd] in *; [| by apply csame_refines].
  case_bool_decide as Hcl; [by apply csame_refines |]. unfold bind at 1.
  destruct (add_message_run' c0 RoleUser content w1) as (user & t & w2 & -> & Hu & Hw2).
  match goal with |- context [chats_Update _ ?c] => set (c1 := c) end.
  assert (H : refines w (on (chats_Update (sv_chats s) c1) w2).2).
  { eapply (loaded_refines _ _ _ _ _ [user]); [exact Hget | done..|]. left. split; [done |].
    apply Forall_singleton. change (said <$> [user]) with [said user]. rewrite Hu. by apply may_say_user. }
  unfold bind_ok. destruct (on (chats_Update _ c1) w2) as [[[]|e] w3]; exact H.
Qed.

Lemma run_turn_refines chatID agentID userID content History isFirst :
  keeps refines (run_turn s time_Now chatID agentID userID content History isFirst).
Proof.
  unfold run_turn. destruct (sv_orch s) as [process|] eqn:Horch; [| apply csame_keeps_refines, announce_error_keeps].
  apply keeps_bind; [apply _ | | intros _].
  { apply csame_keeps_refines. destruct (sv_titleGen s); [destruct isFirst |]; go_keeps. }
  apply keeps_bind; [apply _ | apply csame_keeps_refines, collect_keeps | intros vms].
  apply keeps_bind; [apply _ | by apply csame_keeps_refines, Hquiet | intros [p|e]]; [| apply csame_keeps_refines, announce_error_keeps].
  intros w. unfold bind at 1. pose proof (get_keeps chatID w) as Hw1.
  destruct (on (chats_GetByID _ chatID) w) as [[c0|e] w1] eqn:Hget; cbn [snd] in *; [| by apply csame_refines].
  unfold bind at 1.
  destruct (add_message_run c0 RoleAssistant (answer_of p) (buildAssistantMetadata (Some (pres_Trace p))) w1) as (a & t & w2 & -> & Ha & _ & Hw2).
  match goal with |- context [chats_Update _ ?c] => set (c1 := c) end.
  assert (H : refines w (on (chats_Update (sv_chats s) c1) w2).2).
  { eapply (loaded_refines _ _ _ _ _ [a]); [exact Hget | done..|]. left. split; [done |].
    apply Forall_singleton. change (said <$> [a]) with [said a]. rewrite Ha. apply may_say_answer. }
  unfold bind at 1. destruct (on (chats_Update _ c1) w2) as [[[]|e] w3]; cbn [snd] in *; [| exact H].
  transitivity w3; [exact H |]. apply csame_refines. unfold bind. pose proof (now_keeps w3) as H4.
  destruct (now time_Now w3) as [t' w4]. transitivity w4; [exact H4 | apply announce_keeps].
Qed.

Lemma generateTitle_refines chatID message : keeps refines (generateTitle s time_Now chatID message).
Proof.
  unfold generateTitle. destruct (sv_titleGen s) as [f|] eqn:Hf; [| apply keeps_ret; apply _].
  apply keeps_bind; [apply _ | by eapply csame_keeps_refines, on_keeps, qp_title | intros [title|e]]; [| apply keeps_ret; apply _].
  case_bool_decide; [apply keeps_ret; apply _ |]. apply keeps_bind; [apply _ | | intros [u|e]].
  - intros w Hok. unfold on. destruct (title_keeps chatID title (cw_store w) Hok) as [Hok' Hv].
    destruct (chats_UpdateTitle _ _ _ _) as [r st]. cbn in *. split; [done |]. unfold convs. by rewrite Hv.
  - apply keeps_bind; [apply _ | apply csame_keeps_refines, now_keeps | intros t; apply csame_keeps_refines, emit_keeps].
  - apply keeps_ret; apply _.
Qed.

Lemma run_job_refines n : keeps refines (run_job s time_Now n).
Proof.
  intros w. unfold run_job. destruct (cw_jobs w !! n) as [j|]; [| reflexivity].
  transitivity (w <| cw_jobs := delete n (cw_jobs w) |>); [apply csame_refines; unfold csame; cbn; apply same_preorder |].
  destruct j; [apply run_turn_refines | apply generateTitle_refines].
Qed.

Lemma Close_refines id : keeps refines (Close s time_Now id).
Proof.
  intros w. unfold Close. unfold bind_ok at 1. pose proof (get_keeps id w) as Hw1.
  destruct (on (chats_GetByID _ id) w) as [[c0|e] w1] eqn:Hget; cbn [snd] in *; [| by apply csame_refines].
  case_bool_decide as Hcl; [by apply csame_refines |]. unfold bind at 1. pose proof (now_keeps w1) as Hw2.
  destruct (now time_Now w1) as [t w2]. match goal with |- context [chats_Update _ ?c] => set (c1 := c) end.
  assert (H : refines w (on (chats_Update (sv_chats s) c1) w2).2).
  { eapply (loaded_refines _ _ _ _ _ []); [exact Hget | done | done | cbn; by rewrite app_nil_r | by right]. }
  unfold bind_ok. destruct (on (chats_Update _ c1) w2) as [[[]|e] w3]; exact H.
Qed.

(** A chat is created under an identifier that is not in use. *)
Definition fresh_chat (p : ChatParams) (w : CW) : Prop :=
  forall c w1, prepare s time_Now uuid_NewString p w = (Ok c, w1) -> view (cw_store w1) !! c_ID c = None.

Lemma Create_refines p w : fresh_chat p w -> refines w (Create s time_Now uuid_NewString p w).2.
Proof.
  intros Hfresh. unfold Create. unfold bind_ok at 1. pose proof (prepare_keeps p w) as Hw1.
  destruct (prepare s time_Now uuid_NewString p w) as [[c|e] w1] eqn:Hp; cbn [snd] in *; [| by apply csame_refines].
  specialize (Hfresh c w1 Hp). destruct (prepare_chat _ _ _ _ Hp) as [Hm Hs].
  transitivity w1; [by apply csame_refines |]. intros Hok. destruct (create_saves c (cw_store w1) Hok Hfresh Hm) as [Hok' Hv].
  unfold bind_ok, on. destruct (chats_Create _ _ _) as [[[]|e] st]; cbn in *; (split; [done |]); unfold convs;
    (destruct Hv as [->|(k & c1 & Hk & -> & Hm1 & Hs1)]; [reflexivity |]; rewrite fmap_insert;
     assert (conversation c1 = {| cv_said := []; cv_closed := false |}) as -> by (unfold conversation; by rewrite Hm1, Hs1, Hs);
     apply rtc_once, conv_open; by rewrite lookup_fmap, Hk).
Qed.

(** ** Sequences of whole calls and jobs *)

Inductive chat_step : CW -> CW -> Prop :=
| step_Create p w : fresh_chat p w -> chat_step w (Create s time_Now uuid_NewString p w).2
| step_SendMessage id content vmID w : chat_step w (SendMessage s time_Now id content vmID w).2
| step_SendMessageAsync id content vmID w : chat_step w (SendMessageAsync s time_Now id content vmID w).2
| step_job n w : chat_step w (run_job s time_Now n w).2
| step_Close id w : chat_step w (Close s time_Now id w).2
| step_Get id w : chat_step w (Get s id w).2
| step_Subscribe id w : chat_step w (SubscribeRuntimeEvents s id w).2
| step_ListConversations p w : chat_step w (ListConversations s p w).2
| step_ListMessages p w : chat_step w (ListMessages s p w).2
| step_hub w h : hub_step (cw_hub w) h -> chat_step w (w <| cw_hub := h |>).

Lemma chat_step_refines w w' : chat_step w w' -> refines w w'.
Proof.
  destruct 1 as [p w Hf|id content vm w|id content vm w|n w|id w|id w|id w|p w|p w|w h _].
  - by apply Create_refines.
  - apply SendMessage_refines.
  - apply SendMessageAsync_refines.
  - apply run_job_refines.
  - apply Close_refines.
  - apply csame_refines, get_keeps.
  - apply csame_refines. unfold SubscribeRuntimeEvents, bind_ok. pose proof (get_keeps id w) as H.
    destruct (on (chats_GetByID _ id) w) as [[c|e] w1]; [| exact H]. destruct (EventHub.subscribe id (cw_hub w1)). exact H.
  - apply csame_refines, on_keeps. intros st. apply list_same.
  - apply csame_refines, on_keeps. intros st. apply messages_same.
  - apply csame_refines. unfold csame. cbn. apply same_preorder.
Qed.
End spec.

(** ** Growth *)

Lemma conv_step_grows m m' : conv_step m m' -> forall id c, m !! id = Some c ->
  exists c', m' !! id = Some c' /\ cv_said c `prefix_of` cv_said c' /\ (cv_closed c = true -> cv_closed c' = true).
Proof.
  intros H id c Hc. destruct H as [m i Hn|m i old text Hi|m i old closed text Hi|m i old Hi];
    (destruct (decide (i = id)) as [->|Hne]; [rewrite lookup_insert_eq | rewrite lookup_insert_ne by done; by exists c]).
  - congruence.
  - rewrite Hi in Hc. injection Hc as <-. eexists. split; [done |]. split; [by apply prefix_app_r | done].
  - rewrite Hi in Hc. injection Hc as <-. eexists. split; [done |]. split; [by apply prefix_app_r | done].
  - rewrite Hi in Hc. injection Hc as <-. eexists. split; [done |]. by split.
Qed.
Lemma conv_steps_grow m m' : rtc conv_step m m' -> forall id c, m !! id = Some c ->
  exists c', m' !! id = Some c' /\ cv_said c `prefix_of` cv_said c' /\ (cv_closed c = true -> cv_closed c' = true).
Proof.
  induction 1 as [m|m1 m2 m3 H _ IH]; intros id c Hc; [by exists c |].
  destruct (conv_step_grows _ _ H _ _ Hc) as (c2 & H2 & Hp & Hcl). destruct (IH _ _ H2) as (c3 & H3 & Hp3 & Hcl3).
  exists c3. split_and!; [done | by transitivity (cv_said c2) | auto].
Qed.

(** What a run of the service does to the chats. *)
Definition conversations_grow {S} (s : ChatService S) `{!ChatStore (sv_chats s)} (w w' : ChatWorld S) : Prop :=
  rtc conv_step (convs s (cw_store w)) (convs s (cw_store w')) /\
  (forall id c, view (cw_store w) !! id = Some c -> exists c', view (cw_store w') !! id = Some c' /\
     (said <$> c_Messages c) `prefix_of` (said <$> c_Messages c') /\ (c_Status c = ChatClosed -> c_Status c' = ChatClosed)).

Lemma refines_grows {S} (s : ChatService S) `{!ChatStore (sv_chats s)} (w w' : ChatWorld S) :
  store_ok (cw_store w) -> refines s w w' -> conversations_grow s w w'.
Proof.
  intros Hok H.
  destruct (H Hok) as [_ Hsteps]. split; [done |]. intros id c Hc.
  destruct (conv_steps_grow _ _ Hsteps id (conversation c)) as (v & Hv & Hp & Hcl); [unfold convs; by rewrite lookup_fmap, Hc |].
  unfold convs in Hv. rewrite lookup_fmap in Hv. destruct (view (cw_store w') !! id) as [c'|]; [| done]. injection Hv as <-.
  exists c'. split_and!; [done | exact Hp |]. cbn in Hcl. intros E. rewrite bool_decide_eq_true_2 in Hcl by done.
  specialize (Hcl eq_refl). by apply bool_decide_eq_true in Hcl.
Qed.
Lemma run_grows {S} (s : ChatService S) time_Now uuid_NewString
    `{!ChatStore (sv_chats s)} `{!QuietPorts s time_Now uuid_NewString} w w' :
  quiet_turns s time_Now -> store_ok (cw_store w) -> rtc (chat_step s time_Now uuid_NewString) w w' -> conversations_grow s w w'.
Proof.
  intros Hquiet Hok Hrun. apply refines_grows; [done |].
  induction Hrun as [w|w1 w2 w3 H _ IH]; [reflexivity |]. intros Hok1.
  destruct (chat_step_refines s _ _ Hquiet _ _ H Hok1) as [Hok2 H12]. destruct (IH Hok2 Hok2) as [Hok3 H23].
  split; [done | by etrans].
Qed.

(** C19: The chat service refines the abstract conversations. Over any repository that
    satisfies [ChatStore], and with an orchestrator that leaves the chats alone, every
    sequence of calls, background jobs and subscriber actions is a sequence of openings,
    user messages to open chats, answers and closings; so no message that was stored is
    ever lost or reordered, and a closed chat stays closed. *)
Theorem service_refines_conversations {S} (s : ChatService S) time_Now uuid_NewString
    `{!ChatStore (sv_chats s)} `{!QuietPorts s time_Now uuid_NewString} w w' :
  quiet_turns s time_Now -> store_ok (cw_store w) -> rtc (chat_step s time_Now uuid_NewString) w w' -> conversations_grow s w w'.
Proof. intros Hquiet Hok Hrun. exact (run_grows s time_Now uuid_NewString w w' Hquiet Hok Hrun). Qed.

(** ** The in-memory repositories *)

Definition MemChats : ChatRepository Mem := {|
  chats_Create := ChatCreate; chats_GetByID := ChatGetByID; chats_Update := ChatUpdate; chats_UpdateTitle := UpdateTitle;
  chats_ListByUserID := ListByUserID; chats_ListMessages := MemRepo.ListMessages |}.

Lemma keyed_insert (m : gmap string Chat) k c : (forall id c', m !! id = Some c' -> c_ID c' = id) -> c_ID c = k ->
  forall id c', <[k := c]> m !! id = Some c' -> c_ID c' = id.
Proof.
  intros H Hk id c'. destruct (decide (id = k)) as [->|Hne].
  - rewrite lookup_insert_eq. by intros [= <-].
  - rewrite lookup_insert_ne by done. apply H.
Qed.

#[export] Program Instance MemChatStore : ChatStore MemChats := {| view := mw_chats; store_ok := keyed |}.
Next Obligation. done. Qed.
Next Obligation.
  intros id st c Hok. cbn. unfold ChatGetByID. destruct (mw_chats st !! id) as [c'|] eqn:Hc; [| done].
  cbn. intros [= ->]. by rewrite (Hok _ _ Hc).
Qed.
Next Obligation.
  intros c c0 st Hok Hc [k Hk]. cbn. unfold ChatUpdate. rewrite Hc. cbn. split; [exact (keyed_insert _ _ c Hok eq_refl) |].
  exists c. split; [done |]. split; [done |]. exists k. rewrite Hk, drop_app_length. done.
Qed.
Next Obligation.
  intros c st Hok Hc Hm. cbn. split; [exact (keyed_insert _ _ c Hok eq_refl) |]. right. by exists (c_ID c), c.
Qed.
Next Obligation.
  intros id title st Hok. cbn. unfold UpdateTitle. destruct (mw_chats st !! id) as [c|] eqn:Hc; [| done]. cbn.
  pose proof (Hok _ _ Hc) as E. subst id. split.
  - intros i c'. apply keyed_insert; [exact Hok | reflexivity].
  - etrans; [apply fmap_insert |]. apply insert_id. etrans; [apply lookup_fmap |]. etrans; [apply (f_equal _ Hc) |]. reflexivity.
Qed.
Next Obligation. done. Qed.
Next Obligation. intros p st. cbn. unfold MemRepo.ListMessages. by destruct (mw_chats st !! _). Qed.

(** ** A running service *)

(** The clock and identifiers of the store; events are kept, nothing else is configured. *)
Definition mem_service (process : option (ProcessInput (ChatWorld Mem) -> M (ChatWorld Mem) (res ProcessResult))) : ChatService Mem := {|
  sv_chats := MemChats; sv_runtimes_Insert := EventInsert;
  sv_agents := {| agents_Create := AgentCreate; agents_GetByID := AgentGetByID |};
  sv_orch := process; sv_vmCollector := None; sv_titleGen := Some (fun _ => ret (Ok "A title")) |}.

#[export] Instance mem_service_chats process : ChatStore (sv_chats (mem_service process)) := MemChatStore.
#[export] Program Instance mem_service_quiet process : QuietPorts (mem_service process) mnow mnew_id.
Next Obligation. by intros process st. Qed.
Next Obligation. by intros process st. Qed.
Next Obligation. by intros process e st. Qed.
Next Obligation. by intros process a st. Qed.
Next Obligation. by intros process id st. Qed.
Next Obligation. done. Qed.
Next Obligation. by intros process f [= <-] m st. Qed.

(** The orchestrator of the source, with the rule planner and no tools: a turn that
    announces its events through the chat service. *)
Definition turn_states : StateStore (ChatWorld Mem) := {|
  ss_Load := fun id => ret (Ok {| os_ChatID := id; os_StepCount := 0; os_UpdatedAt := 0 |}); ss_Save := fun _ => ret None |}.
Definition turn_service : Orchestrator.Service (ChatWorld Mem) :=
  NewWithConfig turn_states None None None {| AllowedTools := ∅; ToolTimeout := 0; MaxReactSteps := 0 |}.
Definition turn (input : ProcessInput (ChatWorld Mem)) : M (ChatWorld Mem) (res ProcessResult) :=
  Process (now mnow) (newID mnew_id) turn_service input.
Definition chat_service : ChatService Mem := mem_service (Some turn).

(** A turn leaves the chats alone when its events go through [emit]. *)
Lemma turn_quiet chatID agentID userID content vms History :
  keeps (csame chat_service) (turn (turn_input chat_service mnow chatID agentID userID content vms History)).
Proof.
  apply (Process_keeps (csame chat_service)). split.
  - exact (now_keeps chat_service mnow mnew_id).
  - exact (newID_keeps chat_service mnow mnew_id).
  - intros q. apply keeps_ret. apply _.
  - intros q. apply keeps_ret. apply _.
  - intros c. apply keeps_ret. apply _.
  - intros st. apply keeps_ret. apply _.
  - intros e. exact (emit_keeps chat_service mnow mnew_id chatID e).
  - done.
Qed.

Definition chat_params : ChatParams :=
  {| cp_AgentID := ""; cp_UserID := " u "; cp_AgentName := ""; cp_Model := ""; cp_SystemPrompt := ""; cp_Title := "" |}.
Definition start : ChatWorld Mem := {| cw_hub := empty_hub; cw_jobs := []; cw_store := sample_mem [] |}.
Definition created : ChatWorld Mem := (Create chat_service mnow mnew_id chat_params start).2.
Definition the_chat : string := "id-3".
Definition asked : ChatWorld Mem := (SendMessageAsync chat_service mnow the_chat "hello" "" created).2.
Definition answered : ChatWorld Mem := (run_job chat_service mnow 0 asked).2.
Definition titled : ChatWorld Mem := (run_job chat_service mnow 0 answered).2.
Definition closed : ChatWorld Mem := (Close chat_service mnow the_chat titled).2.

Lemma created_step : chat_step chat_service mnow mnew_id start created.
Proof.
  apply step_Create. intros c w1 Hp. vm_compute in Hp. injection Hp as <- <-. reflexivity.
Qed.
Lemma closed_run : rtc (chat_step chat_service mnow mnew_id) start closed.
Proof.
  apply (rtc_l _ _ created); [exact created_step |].
  apply (rtc_l _ _ asked); [exact (step_SendMessageAsync _ _ _ the_chat "hello" "" created) |].
  apply (rtc_l _ _ answered); [exact (step_job _ _ _ 0 asked) |].
  apply (rtc_l _ _ titled); [exact (step_job _ _ _ 0 answered) |].
  apply rtc_once. exact (step_Close _ _ _ the_chat titled).
Qed.
Lemma turn_quiet_turns : quiet_turns chat_service mnow.
Proof. intros process [= <-] chatID agentID userID content vms History. apply turn_quiet. Qed.

(** The final conversation, reached from an empty store by abstract steps. *)
Lemma service_refines_conversations_witness :
  rtc conv_step ∅ {[the_chat := {| cv_said := [(RoleUser, "hello");
      (RoleAssistant, "I received your message. No tool call was required for this turn.")]; cv_closed := true |}]}.
Proof.
  pose proof (proj1 (service_refines_conversations chat_service mnow mnew_id start closed turn_quiet_turns
    (sample_mem_keyed []) closed_run)) as H.
  assert (E1 : convs chat_service (cw_store start) = ∅) by (vm_compute; reflexivity).
  assert (E2 : convs chat_service (cw_store closed) = {[the_chat := {| cv_said := [(RoleUser, "hello");
      (RoleAssistant, "I received your message. No tool call was required for this turn.")]; cv_closed := true |}]})
    by (vm_compute; reflexivity).
  rewrite E1, E2 in H. exact H.
Defined.

Definition sample_c0 : Chat :=
  {| c_ID := the_chat; c_AgentID := "id-1"; c_UserID := "u"; c_Title := ""; c_VMID := ""; c_Status := ChatActive;
     c_Messages := []; c_CreatedAt := 2; c_UpdatedAt := 2 |}.
Lemma SendMessage_spec_witness :
  let w' := (SendMessage chat_service mnow the_chat "hello" "" created).2 in
  exists user, said user = (RoleUser, "hello") /\
  exists vms w1 out w2, csame chat_service created w1 /\
    turn (turn_input chat_service mnow the_chat "id-1" "u" "hello" vms [user]) w1 = (out, w2) /\
    match out with
    | Err e => (SendMessage chat_service mnow the_chat "hello" "" created).1 = Err e /\
               announce_error chat_service mnow the_chat (Error e) w2 = (tt, w') /\ csame chat_service w2 w'
    | Ok p => exists answer w3, said answer = (RoleAssistant, answer_of p) /\
        msg_Metadata answer = buildAssistantMetadata (Some (pres_Trace p)) /\ csame chat_service w2 w3 /\
        written chat_service sample_c0 [user; answer] (SendMessage chat_service mnow the_chat "hello" "" created).1 w3 w'
    end.
Proof.
  pose proof (SendMessage_spec chat_service mnow mnew_id the_chat "hello" "" created _ _ (surjective_pairing _)) as H.
  assert (E : (chats_GetByID (sv_chats chat_service) the_chat (cw_store created)).1 = Ok sample_c0) by (vm_compute; reflexivity).
  rewrite E in H. exact H.
Defined.

(** A chat that is closed while a turn runs is open again when the turn ends: SendMessage
    writes back the chat it loaded at the start. *)
Definition closing_turn (input : ProcessInput (ChatWorld Mem)) : M (ChatWorld Mem) (res ProcessResult) := fun w =>
  turn input (Close chat_service mnow the_chat w).2.
Theorem close_during_turn_is_lost :
  c_Status <$> mw_chats (cw_store (Close chat_service mnow the_chat created).2) !! the_chat = Some ChatClosed /\
  c_Status <$> mw_chats (cw_store (SendMessage (mem_service (Some closing_turn)) mnow the_chat "hello" "" created).2) !! the_chat
    = Some ChatActive.
Proof. split; vm_compute; reflexivity. Qed.

(** And a message sent while a turn runs is gone after it. *)
Definition sending_turn (input : ProcessInput (ChatWorld Mem)) : M (ChatWorld Mem) (res ProcessResult) := fun w =>
  turn input (SendMessage chat_service mnow the_chat "meanwhile" "" w).2.
Theorem message_during_turn_is_lost :
  option_map (fun c => said <$> c_Messages c)
    (mw_chats (cw_store (SendMessage (mem_service (Some sending_turn)) mnow the_chat "hello" "" created).2) !! the_chat) =
  Some [(RoleUser, "hello"); (RoleAssistant, "I received your message. No tool call was required for this turn.")].
Proof. vm_compute. reflexivity. Qed.
