(* ===== verification/PgTables.v ===== *)
(** * The other tables of the database

    users, refresh_tokens, agents, chats, messages, runtime_events and agent_memory
    (migrations/), with what Postgres does to the values of a statement: UUIDs are parsed
    and compared in canonical form, instants are rounded, JSONB is normalised. How it does
    that is a parameter of the world, as is which statements fail. *)

From S2P Require Import Prelude Exception Naming GoLib Domain World PgRepo Json Orchestrator Chat.

(** ** Rows *)

Record userRow := {
  u_id : string; u_username : string; u_email : string; u_password_hash : string; u_role : string; u_is_verified : bool;
  u_verified_at : option Z; u_last_login_at : option Z; u_created_at : Z; u_updated_at : Z; u_deleted_at : option Z }.
Record tokenRow := {
  k_id : string; k_user_id : string; k_token_hash : string; k_expires_at : Z; k_revoked_at : option Z; k_created_at : Z }.
Record agentRow := {
  a_id : string; a_user_id : string; a_name : string; a_description : option string; a_model : string;
  a_system_prompt : option string; a_status : string; a_created_at : Z; a_updated_at : Z; a_deleted_at : option Z }.
Record chatRow := {
  h_id : string; h_user_id : string; h_agent_id : string; h_vm_id : option string; h_title : string; h_status : ChatStatus;
  h_created_at : Z; h_updated_at : Z; h_deleted_at : option Z }.
(** No statement of the program sets deleted_at of a message. *)
Record messageRow := {
  g_id : string; g_chat_id : string; g_role : string; g_content_type : string; g_content_body : string;
  g_metadata : option string; g_sequence_number : Z; g_created_at : Z; g_deleted_at : option Z }.
Record eventRow := {
  e_id : string; e_chat_id : string; e_trace_id : option string; e_type : string; e_step : Z; e_data : string;
  e_command : string; e_result : string; e_error : string; e_token_usage : option string; e_metadata : option string;
  e_created_at : Z }.
Record memoryRow := {
  m_chat_id : string; m_key : string; m_value : string; m_expires_at : option Z; m_created_at : Z; m_updated_at : Z }.

Record Tables := {
  tb_users : gmap string userRow; tb_tokens : gmap string tokenRow; tb_agents : gmap string agentRow;
  tb_chats : gmap string chatRow; tb_messages : list messageRow; tb_events : list eventRow;
  tb_memory : gmap (string * string) memoryRow; tb_vms : gset string }.
Definition no_tables : Tables :=
  {| tb_users := ∅; tb_tokens := ∅; tb_agents := ∅; tb_chats := ∅; tb_messages := []; tb_events := []; tb_memory := ∅; tb_vms := ∅ |}.

(** ** Statements *)

(** The server and the driver: how values are read, and which statements fail. A statement
    may fail for any reason that is not modelled: a lost connection, a deadline, a text
    that is not UTF-8. *)
Record Server := {
  sv_uuid : string -> option string;      (* the canonical form of a UUID *)
  sv_timestamp : Z -> Z;                  (* an instant as timestamptz keeps it *)
  sv_jsonb : string -> option string;     (* the text of a JSONB value *)
  sv_fault : nat -> option error;
  sv_now : nat -> Z; sv_newid : nat -> string }.
Record Pg := { pg_server : Server; pg_tables : Tables; pg_tick : nat }.

Definition pg_now : M Pg Z := fun w => (sv_now (pg_server w) (pg_tick w), w <| pg_tick := S (pg_tick w) |>).
Definition pg_newid : M Pg string := fun w => (sv_newid (pg_server w) (pg_tick w), w <| pg_tick := S (pg_tick w) |>).

(** A statement sees the server, the time of its transaction and the tables. *)
Definition statement {A} (f : Server -> Z -> Tables -> res (A * Tables)) : M Pg (res A) := fun w =>
  let n := pg_tick w in
  let w' := w <| pg_tick := S n |> in
  match sv_fault (pg_server w) n with
  | Some e => (Err e, w')
  | None => match f (pg_server w) (sv_now (pg_server w) n) (pg_tables w) with
            | Ok (a, t) => (Ok a, w' <| pg_tables := t |>)
            | Err e => (Err e, w')
            end
  end.
(** [exception.Internal(fmt.Errorf(what + ": %w", err))] *)
Definition wrapped {A} (what : string) (m : M Pg (res A)) : M Pg (res A) := fun w =>
  match m w with (Ok a, w') => (Ok a, w') | (Err e, w') => (Err (dberr what e), w') end.

Definition pq_uuid (s : string) : error := EPq "22P02" ("invalid input syntax for type uuid: " +:+ dquote +:+ s +:+ dquote).
Definition pq_json : error := EPq "22P02" "invalid input syntax for type json".
Definition read_uuid (sv : Server) (s : string) : res string :=
  match sv_uuid sv s with Some k => Ok k | None => Err (pq_uuid s) end.
Definition read_null_uuid (sv : Server) (s : option string) : res (option string) :=
  match s with None => Ok None | Some s => match read_uuid sv s with Ok k => Ok (Some k) | Err e => Err e end end.
Definition read_jsonb (sv : Server) (s : option string) : res (option string) :=
  match s with None => Ok None | Some s => match sv_jsonb sv s with Some t => Ok (Some t) | None => Err pq_json end end.

(** Sequencing inside a statement. *)
Definition then_ {A B} (r : res A) (k : A -> res B) : res B := match r with Ok a => k a | Err e => Err e end.
Notation "'do' x ':=' r 'in' k" := (then_ r (fun x => k)) (at level 10, x pattern, r at level 100, k at level 200) : go_scope.
(** A constraint that fails. *)
Definition require {A} (b : bool) (e : error) (k : res A) : res A := if b then k else Err e.

Definition is_null {A} (o : option A) : bool := match o with None => true | Some _ => false end.
