(* ===== verification/PgChat.v ===== *)
(** * Chats and runtime events in Postgres: repository/postgres/chat.go, runtime_event.go

    One definition per method: its statements in order, their constraints, the mapping of
    rows. Update writes the row and then appends the messages that are not stored yet, in
    statements of their own. *)

From stdpp Require Import sorting.
From S2P Require Import Prelude Exception Naming GoLib Domain World PgRepo Json Orchestrator Chat MemRepo ExecProtocol ChatService PgTables.

Local Open Scope go_scope.

(** ** Columns *)

Definition toNullString (s : string) : option string := if bool_decide (s = "") then None else Some s.
Definition message_roles : list string := ["user"; "assistant"; "system"; "tool"].
Definition content_types : list string := ["text"; "image"; "tool_call"; "tool_result"].
(** runtime_event_type (migration 24, not altered since) *)
Definition event_types : list string := ["token"; "thinking"; "answer"; "tool_call"; "error"; "done"].

(** Metadata is written as JSON when there is any, and read back into a map. *)
Definition write_metadata (m : Args) : option string :=
  match m with [] => None | _ => Some (Marshal (sort_keys (VMap m))) end.
Definition cannot_read : error := EText "json: cannot unmarshal value into Go value of type map[string]interface {}".
Definition read_metadata (t : option string) : res Args :=
  match t with
  | None | Some "" => Ok []
  | Some t => match Unmarshal t with Some (VMap m) => Ok m | Some VNil => Ok [] | _ => Err cannot_read end
  end.

(** ** Messages *)

Definition messages_of (chatID : string) (t : Tables) : list messageRow :=
  List.filter (fun g => bool_decide (g_chat_id g = chatID) && is_null (g_deleted_at g)) (tb_messages t).

Definition insertMessage (msgID chatID : string) (m : Message) (ct : string) (metadata : option string) (seq : Z) : M Pg (res unit) :=
  statement (fun sv now t =>
    do id := read_uuid sv msgID in
    do chat := read_uuid sv chatID in
    do metadata := read_jsonb sv metadata in
    require (bool_decide (msg_Role m ∈ message_roles)) (pq_enum "message_role")
    (require (bool_decide (ct ∈ content_types)) (pq_enum "message_content_type")
    (require (negb (existsb (fun g => bool_decide (g_id g = id)) (tb_messages t))) (pq_unique "messages_pkey")
    (require (negb (existsb (fun g => bool_decide (g_chat_id g = chat) && bool_decide (g_sequence_number g = seq)) (tb_messages t)))
       (pq_unique "messages_sequence_number_unique")
    (require (negb (is_null (tb_chats t !! chat))) (pq_fkey "messages_chat_id_fkey")
    (Ok (tt, t <| tb_messages := tb_messages t ++ [{|
       g_id := id; g_chat_id := chat; g_role := msg_Role m; g_content_type := ct; g_content_body := msg_Content m;
       g_metadata := metadata; g_sequence_number := seq; g_created_at := sv_timestamp sv (msg_At m); g_deleted_at := None |}] |>))))))).

Fixpoint insertMessages (chatID : string) (msgs : list Message) (startSeq : Z) : M Pg (res unit) :=
  match msgs with
  | [] => ret (Ok tt)
  | m :: msgs' =>
      let* msgID := pg_newid in
      let ct := if bool_decide (msg_ContentType m = "") then ContentText else msg_ContentType m in
      let? _ := wrapped "insert message" (insertMessage msgID chatID m ct (write_metadata (msg_Metadata m)) (startSeq + 1)) in
      insertMessages chatID msgs' (startSeq + 1)
  end.

Definition by_sequence (a b : messageRow) : Prop := g_sequence_number a <= g_sequence_number b.
#[export] Instance by_sequence_dec : RelDecision by_sequence.
Proof. intros a b. unfold by_sequence. apply _. Defined.

Definition mapMessageRow (row : messageRow) : res Message :=
  match read_metadata (g_metadata row) with
  | Ok md => Ok {| msg_Role := g_role row; msg_Content := g_content_body row; msg_ContentType := g_content_type row;
                   msg_Metadata := md; msg_At := g_created_at row |}
  | Err e => Err (Internal (EWrap "unmarshal message metadata: " e ""))
  end.
Fixpoint mapMessageRows (rows : list messageRow) : res (list Message) :=
  match rows with
  | [] => Ok []
  | row :: rows' => do m := mapMessageRow row in do ms := mapMessageRows rows' in Ok (m :: ms)
  end.
Definition loadMessages (chatID : string) : M Pg (res (list Message)) :=
  let? rows := wrapped "load messages" (statement (fun sv _ t =>
    do chat := read_uuid sv chatID in Ok (merge_sort by_sequence (messages_of chat t), t))) in
  ret (mapMessageRows rows).

(** ** Chats *)

Definition mapChatRow (row : chatRow) (msgs : list Message) : Chat :=
  {| c_ID := h_id row; c_AgentID := h_agent_id row; c_UserID := h_user_id row; c_Title := h_title row;
     c_VMID := default "" (h_vm_id row); c_Status := h_status row; c_Messages := msgs;
     c_CreatedAt := h_created_at row; c_UpdatedAt := h_updated_at row |}.

(** The live row of a chat. *)
Definition live_chat (id : string) (t : Tables) : option chatRow :=
  match tb_chats t !! id with Some row => if is_null (h_deleted_at row) then Some row else None | None => None end.
(** The references that Create and Update write. *)
Definition vm_exists (vm : option string) (t : Tables) : bool :=
  match vm with None => true | Some v => bool_decide (v ∈ tb_vms t) end.

Definition ChatCreate (c : Chat) : M Pg (res unit) :=
  let? _ := wrapped "create chat" (statement (fun sv now t =>
    do id := read_uuid sv (c_ID c) in
    do user := read_uuid sv (c_UserID c) in
    do agent := read_uuid sv (c_AgentID c) in
    do vm := read_null_uuid sv (toNullString (c_VMID c)) in
    require (is_null (tb_chats t !! id)) (pq_unique "chats_pkey")
    (require (negb (is_null (tb_users t !! user))) (pq_fkey "chats_user_id_fkey")
    (require (negb (is_null (tb_agents t !! agent))) (pq_fkey "chats_agent_id_fkey")
    (require (vm_exists vm t) (pq_fkey "chats_vm_id_fkey")
    (Ok (tt, t <| tb_chats := <[id := {|
       h_id := id; h_user_id := user; h_agent_id := agent; h_vm_id := vm; h_title := c_Title c; h_status := c_Status c;
       h_created_at := sv_timestamp sv (c_CreatedAt c); h_updated_at := sv_timestamp sv (c_UpdatedAt c);
       h_deleted_at := None |}]> (tb_chats t) |>))))))) in
  insertMessages (c_ID c) (c_Messages c) 0.

Definition ChatGetByID (id : string) : M Pg (res Chat) :=
  let? found := wrapped "get chat by id" (statement (fun sv _ t => do k := read_uuid sv id in Ok (live_chat k t, t))) in
  match found with
  | None => ret (Err (NotFound "chat" id))
  | Some row => let? msgs := loadMessages id in ret (Ok (mapChatRow row msgs))
  end.

(** An UPDATE of the live row of a chat, with the number of rows it affected. *)
Definition update_chat (id : string) (f : Server -> Z -> Tables -> chatRow -> res chatRow) : M Pg (res Z) :=
  statement (fun sv now t =>
    do k := read_uuid sv id in
    match live_chat k t with
    | None => Ok (0, t)
    | Some row => do row' := f sv now t row in Ok (1, t <| tb_chats := <[k := row']> (tb_chats t) |>)
    end).
Definition affected (resource id : string) (n : Z) : M Pg (res unit) :=
  ret (if bool_decide (n = 0) then Err (NotFound resource id) else Ok tt).

Definition ChatUpdate (c : Chat) : M Pg (res unit) :=
  let? n := wrapped "update chat" (update_chat (c_ID c) (fun sv _ t row =>
    do agent := read_uuid sv (c_AgentID c) in
    do vm := read_null_uuid sv (toNullString (c_VMID c)) in
    require (negb (is_null (tb_agents t !! agent))) (pq_fkey "chats_agent_id_fkey")
    (require (vm_exists vm t) (pq_fkey "chats_vm_id_fkey")
    (Ok (row <| h_agent_id := agent |> <| h_vm_id := vm |> <| h_status := c_Status c |>
             <| h_updated_at := sv_timestamp sv (c_UpdatedAt c) |>))))) in
  let? _ := affected "chat" (c_ID c) n in
  let? existingCount := wrapped "count messages" (statement (fun sv _ t =>
    do k := read_uuid sv (c_ID c) in Ok (length (messages_of k t), t))) in
  if bool_decide (existingCount < length (c_Messages c))%nat
  then insertMessages (c_ID c) (drop existingCount (c_Messages c)) (Z.of_nat existingCount)
  else ret (Ok tt).

Definition UpdateTitle (id title : string) : M Pg (res unit) :=
  let* time := pg_now in
  let? n := wrapped "update chat title" (update_chat id (fun sv _ t row =>
    Ok (row <| h_title := title |> <| h_updated_at := sv_timestamp sv time |>))) in
  affected "chat" id n.

Definition ChatDelete (id : string) : M Pg (res unit) :=
  let? n := wrapped "delete chat" (update_chat id (fun sv now t row => Ok (row <| h_deleted_at := Some now |>))) in
  affected "chat" id n.

(** ** Lists *)

(** Newest first, then the larger id first; UUIDs in canonical form compare as their bytes. *)
Definition newer_row (a b : chatRow) : Prop :=
  h_created_at b < h_created_at a \/ (h_created_at a = h_created_at b /\ String.le (h_id b) (h_id a)).
#[export] Instance newer_row_dec : RelDecision newer_row.
Proof. intros a b. unfold newer_row. apply _. Defined.

Definition mapConversationSummaryRow (row : chatRow) (lm : option messageRow) : ConversationSummary :=
  {| cs_ID := h_id row; cs_AgentID := h_agent_id row; cs_UserID := h_user_id row; cs_Title := h_title row;
     cs_VMID := default "" (h_vm_id row); cs_Status := h_status row;
     cs_LastMessage := match lm with Some g => g_content_body g | None => "" end;
     cs_LastMessageAt := match lm with Some g => g_created_at g | None => 0 end;
     cs_CreatedAt := h_created_at row; cs_UpdatedAt := h_updated_at row |}.

(** The rows behind the cursor; its instant is a timestamptz, its id a UUID. *)
Definition row_past_cursor (sv : Server) (cur : option ListCursor) : res (chatRow -> bool) :=
  match cur with
  | None => Ok (fun _ => true)
  | Some cur =>
      do id := read_uuid sv (lc_ID cur) in
      let ts := sv_timestamp sv (lc_CreatedAt cur) in
      Ok (fun row => bool_decide (h_created_at row < ts) || (bool_decide (h_created_at row = ts) && str_lt (h_id row) id))
  end.

(** A query with LIMIT limit + 1, cut to the page. *)
Definition limited {A C} (limit : Z) (cursor : A -> C) (rows : list A) : list A * option C :=
  let rows := take (Z.to_nat (limit + 1)) rows in
  let hasMore := bool_decide (limit < Z.of_nat (length rows)) in
  let items := if hasMore then take (Z.to_nat limit) rows else rows in
  (items, if hasMore then cursor <$> last items else None).

Definition ListByUserID (p : ListParams) : M Pg (res (list ConversationSummary * option ListCursor)) :=
  let limit := page_limit 20 100 (lp_Limit p) in
  wrapped "list conversations" (statement (fun sv _ t =>
    do user := read_uuid sv (lp_UserID p) in
    do past := row_past_cursor sv (lp_Cursor p) in
    let rows := List.filter (fun row => bool_decide (h_user_id row = user) && is_null (h_deleted_at row) && past row)
                  (snd <$> map_to_list (tb_chats t)) in
    let summaries := (fun row => mapConversationSummaryRow row (last (merge_sort by_sequence (messages_of (h_id row) t))))
                       <$> merge_sort newer_row rows in
    Ok (limited limit (fun s => {| lc_CreatedAt := cs_CreatedAt s; lc_ID := cs_ID s |}) summaries, t))).

(** ** The timeline *)

Record timelineRow := {
  tr_id : string; tr_role : string; tr_content : string; tr_metadata : option string; tr_created_at : Z; tr_source : string;
  tr_sequence_number : Z; tr_step : Z }.
Definition message_timeline (g : messageRow) : timelineRow :=
  {| tr_id := g_id g; tr_role := g_role g; tr_content := g_content_body g; tr_metadata := g_metadata g;
     tr_created_at := g_created_at g; tr_source := "message"; tr_sequence_number := g_sequence_number g; tr_step := 0 |}.
(** [jsonb_build_object]: the text of a JSON object with the four members. *)
Definition event_object (sv : Server) (e : eventRow) : option string :=
  sv_jsonb sv (Marshal (VMap [("command", VStr (e_command e)); ("result", VStr (e_result e)); ("error", VStr (e_error e));
                              ("step", VInt (e_step e))])).
Definition event_timeline (sv : Server) (e : eventRow) : timelineRow :=
  {| tr_id := e_id e; tr_role := e_type e; tr_content := if bool_decide (e_data e = "") then e_error e else e_data e;
     tr_metadata := match e_metadata e with Some m => Some m | None => event_object sv e end;
     tr_created_at := e_created_at e; tr_source := "event"; tr_sequence_number := 0; tr_step := e_step e |}.
(** ORDER BY created_at DESC; rows with equal times are left in the order of the union,
    where SQL leaves their order open. *)
Definition latest_first (a b : timelineRow) : Prop := tr_created_at b <= tr_created_at a.
#[export] Instance latest_first_dec : RelDecision latest_first.
Proof. intros a b. unfold latest_first. apply _. Defined.

Definition mapTimelineRow (row : timelineRow) : TimelineEntry :=
  let is_message := bool_decide (tr_source row = "message") in
  {| te_ID := tr_id row; te_SequenceNumber := tr_sequence_number row; te_Source := tr_source row;
     te_Role := if is_message then tr_role row else ""; te_EventType := if is_message then "" else tr_role row; te_Step := 0;
     te_Content := tr_content row; te_ContentType := ContentText;
     te_Metadata := match read_metadata (tr_metadata row) with Ok m => m | Err _ => [] end; te_At := tr_created_at row |}.

Definition ListMessages (p : ListMessagesParams) : M Pg (res (list TimelineEntry * option Z)) :=
  let limit := page_limit 50 100 (lm_Limit p) in
  wrapped "list messages" (statement (fun sv _ t =>
    do chat := read_uuid sv (lm_ChatID p) in
    let before at_ := match lm_Cursor p with Some c => bool_decide (at_ < sv_timestamp sv c) | None => true end in
    let messages := List.filter (fun g => before (g_created_at g)) (messages_of chat t) in
    let events := List.filter (fun e => bool_decide (e_chat_id e = chat) && before (e_created_at e) &&
                                        negb (bool_decide (e_type e ∈ ["done"; "token"]))) (tb_events t) in
    let combined := merge_sort latest_first ((message_timeline <$> messages) ++ (event_timeline sv <$> events)) in
    Ok (limited limit te_At (mapTimelineRow <$> combined), t))).

(** ** Runtime events (runtime_event.go) *)

Definition EventInsert (e : PersistedRuntimeEvent) : M Pg (res unit) :=
  let* id := pg_newid in
  wrapped "insert runtime event" (statement (fun sv now t =>
    do id := read_uuid sv id in
    do chat := read_uuid sv (pe_ChatID e) in
    do usage := read_jsonb sv (Marshal ∘ TokenUsage_value <$> pe_TokenUsage e) in
    do metadata := read_jsonb sv (write_metadata (pe_Metadata e)) in
    require (bool_decide (pe_Type e ∈ event_types)) (pq_enum "runtime_event_type")
    (require (negb (existsb (fun r => bool_decide (e_id r = id)) (tb_events t))) (pq_unique "runtime_events_pkey")
    (require (negb (is_null (tb_chats t !! chat))) (pq_fkey "runtime_events_chat_id_fkey")
    (Ok (tt, t <| tb_events := tb_events t ++ [{|
       e_id := id; e_chat_id := chat; e_trace_id := toNullString (pe_TraceID e); e_type := pe_Type e; e_step := pe_Step e;
       e_data := pe_Data e; e_command := pe_Command e; e_result := pe_Result e; e_error := pe_Error e;
       e_token_usage := usage; e_metadata := metadata; e_created_at := sv_timestamp sv (pe_CreatedAt e) |}] |>)))))).

Definition TokenUsage_decoder : decoder TokenUsage := [
  ("prompt_tokens", get_int (fun x u => u <| tu_Prompt := x |>));
  ("completion_tokens", get_int (fun x u => u <| tu_Completion := x |>));
  ("total_tokens", get_int (fun x u => u <| tu_Total := x |>));
  ("cached_tokens", get_int (fun x u => u <| tu_Cached := x |>));
  ("thoughts_tokens", get_int (fun x u => u <| tu_Thoughts := x |>));
  ("tool_use_prompt_tokens", get_int (fun x u => u <| tu_ToolUsePrompt := x |>))].

(** What cannot be decoded is left out. *)
Definition mapRuntimeEventRow (row : eventRow) : PersistedRuntimeEvent :=
  {| pe_ChatID := e_chat_id row; pe_TraceID := default "" (e_trace_id row); pe_Type := e_type row; pe_Step := e_step row;
     pe_Data := e_data row; pe_Command := e_command row; pe_Result := e_result row; pe_Error := e_error row;
     pe_TokenUsage := match e_token_usage row with
                      | None | Some "" => None
                      | Some t => match Unmarshal t with Some v => decode_struct TokenUsage_decoder no_tokens v | None => None end
                      end;
     pe_Metadata := match read_metadata (e_metadata row) with Ok m => m | Err _ => [] end;
     pe_CreatedAt := e_created_at row |}.

Definition oldest_event (a b : eventRow) : Prop := e_created_at a <= e_created_at b.
#[export] Instance oldest_event_dec : RelDecision oldest_event.
Proof. intros a b. unfold oldest_event. apply _. Defined.

Definition EventListByChatID (chatID : string) (cursor : option Z) (limit : Z)
    : M Pg (res (list PersistedRuntimeEvent * option Z)) :=
  let limit := page_limit 100 200 limit in
  wrapped "list runtime events" (statement (fun sv _ t =>
    do chat := read_uuid sv chatID in
    let after e := match cursor with Some c => bool_decide (sv_timestamp sv c < e_created_at e) | None => true end in
    let rows := List.filter (fun e => bool_decide (e_chat_id e = chat) && after e) (tb_events t) in
    Ok (limited limit pe_CreatedAt (mapRuntimeEventRow <$> merge_sort oldest_event rows), t))).

Definition EventListRecent (limit : Z) : M Pg (res (list PersistedRuntimeEvent)) :=
  let limit := page_limit 100 500 limit in
  wrapped "list recent runtime events" (statement (fun _ _ t =>
    Ok (mapRuntimeEventRow <$> take (Z.to_nat limit) (reverse (merge_sort oldest_event (tb_events t))), t))).
