(* ===== verification/PgAccounts.v ===== *)
(** * Agents, agent memory, users and refresh tokens in Postgres

    repository/postgres/{agent,agent_memory,user,auth}.go, one definition per method, and
    the entities of core/domain/user and core/domain/auth. *)

From stdpp Require Import sorting.
From S2P Require Import Prelude Exception Naming GoLib Domain World PgRepo Json Orchestrator Chat MemRepo ExecProtocol ChatService PgTables PgChat.

Local Open Scope go_scope.

(** ** Entities *)

Record User := {
  us_ID : string; us_Username : string; us_Email : string; us_PasswordHash : string; us_Role : string; us_IsVerified : bool;
  us_VerifiedAt : option Z; us_LastLoginAt : option Z; us_CreatedAt : Z; us_UpdatedAt : Z; us_DeletedAt : option Z }.
Record UserParams := { up_Username : string; up_Email : string; up_PasswordHash : string; up_Role : string }.
Record UserUpdate := {
  uu_Username : option string; uu_Email : option string; uu_PasswordHash : option string; uu_IsVerified : option bool }.
Record RefreshToken := {
  rt_ID : string; rt_UserID : string; rt_TokenHash : string; rt_ExpiresAt : Z; rt_RevokedAt : option Z; rt_CreatedAt : Z }.
(** [IsActive] at the time [now]. *)
Definition IsActive (rt : RefreshToken) (now : Z) : bool :=
  match rt_RevokedAt rt with Some _ => false | None => bool_decide (now < rt_ExpiresAt rt) end.

(** ** Agents *)

Definition agent_statuses : list string := ["created"; "running"; "suspended"; "terminated"].
Definition mapAgentRow (row : agentRow) : Agent :=
  {| ag_ID := a_id row; ag_UserID := a_user_id row; ag_Name := a_name row; ag_Description := default "" (a_description row);
     ag_Model := a_model row; ag_SystemPrompt := default "" (a_system_prompt row); ag_Status := a_status row;
     ag_CreatedAt := a_created_at row; ag_UpdatedAt := a_updated_at row |}.
Definition live_agent (id : string) (t : Tables) : option agentRow :=
  match tb_agents t !! id with Some row => if is_null (a_deleted_at row) then Some row else None | None => None end.

Definition AgentCreate (a : Agent) : M Pg (res unit) :=
  wrapped "create agent" (statement (fun sv _ t =>
    do id := read_uuid sv (ag_ID a) in
    do user := read_uuid sv (ag_UserID a) in
    require (bool_decide (ag_Status a ∈ agent_statuses)) (pq_enum "agent_status")
    (require (is_null (tb_agents t !! id)) (pq_unique "agents_pkey")
    (require (negb (is_null (tb_users t !! user))) (pq_fkey "agents_user_id_fkey")
    (Ok (tt, t <| tb_agents := <[id := {|
       a_id := id; a_user_id := user; a_name := ag_Name a; a_description := toNullString (ag_Description a);
       a_model := ag_Model a; a_system_prompt := toNullString (ag_SystemPrompt a); a_status := ag_Status a;
       a_created_at := sv_timestamp sv (ag_CreatedAt a); a_updated_at := sv_timestamp sv (ag_UpdatedAt a);
       a_deleted_at := None |}]> (tb_agents t) |>)))))).

Definition AgentGetByID (id : string) : M Pg (res Agent) :=
  let? found := wrapped "get agent by id" (statement (fun sv _ t => do k := read_uuid sv id in Ok (live_agent k t, t))) in
  ret (match found with None => Err (NotFound "agent" id) | Some row => Ok (mapAgentRow row) end).

Definition newest_agent_row (a b : agentRow) : Prop := a_created_at b <= a_created_at a.
#[export] Instance newest_agent_row_dec : RelDecision newest_agent_row.
Proof. intros a b. unfold newest_agent_row. apply _. Defined.
Definition live_agents (t : Tables) : list agentRow :=
  List.filter (fun row => is_null (a_deleted_at row)) (snd <$> map_to_list (tb_agents t)).
Definition pq_negative (clause : string) : error := EPq "2201W" (clause +:+ " must not be negative").

(** The count and the page are two statements. *)
Definition AgentList (offset limit : Z) : M Pg (res (list Agent * Z)) :=
  let? total := wrapped "count agents" (statement (fun _ _ t => Ok (Z.of_nat (length (live_agents t)), t))) in
  let? out := wrapped "list agents" (statement (fun _ _ t =>
    require (bool_decide (0 <= limit)) (pq_negative "LIMIT")
    (require (bool_decide (0 <= offset)) (pq_negative "OFFSET")
    (Ok (mapAgentRow <$> take (Z.to_nat limit) (drop (Z.to_nat offset) (merge_sort newest_agent_row (live_agents t))), t))))) in
  ret (Ok (out, total)).

Definition update_agent (id : string) (f : Server -> Z -> agentRow -> res agentRow) : M Pg (res Z) :=
  statement (fun sv now t =>
    do k := read_uuid sv id in
    match live_agent k t with
    | None => Ok (0, t)
    | Some row => do row' := f sv now row in Ok (1, t <| tb_agents := <[k := row']> (tb_agents t) |>)
    end).
Definition AgentUpdateRow (a : Agent) : M Pg (res unit) :=
  let? n := wrapped "update agent" (update_agent (ag_ID a) (fun sv _ row =>
    require (bool_decide (ag_Status a ∈ agent_statuses)) (pq_enum "agent_status")
    (Ok (row <| a_name := ag_Name a |> <| a_description := toNullString (ag_Description a) |> <| a_model := ag_Model a |>
             <| a_system_prompt := toNullString (ag_SystemPrompt a) |> <| a_status := ag_Status a |>
             <| a_updated_at := sv_timestamp sv (ag_UpdatedAt a) |>)))) in
  affected "agent" (ag_ID a) n.
Definition AgentDelete (id : string) : M Pg (res unit) :=
  let? n := wrapped "delete agent" (update_agent id (fun _ now row => Ok (row <| a_deleted_at := Some now |>))) in
  affected "agent" id n.

(** ** Agent memory *)

Definition mapAgentMemoryRow (row : memoryRow) : MemoryEntry :=
  {| me_ChatID := m_chat_id row; me_Key := m_key row; me_Value := m_value row; me_ExpiresAt := default 0 (m_expires_at row);
     me_CreatedAt := m_created_at row; me_UpdatedAt := m_updated_at row |}.
(** expires_at IS NULL OR expires_at > NOW() *)
Definition unexpired (now : Z) (row : memoryRow) : bool :=
  match m_expires_at row with None => true | Some x => bool_decide (now < x) end.

Definition MemorySet (entry : MemoryEntry) : M Pg (res unit) :=
  wrapped "set agent memory" (statement (fun sv now t =>
    do chat := read_uuid sv (me_ChatID entry) in
    let expires := if bool_decide (me_ExpiresAt entry = 0) then None else Some (sv_timestamp sv (me_ExpiresAt entry)) in
    let created := match tb_memory t !! (chat, me_Key entry) with Some row => m_created_at row | None => now end in
    Ok (tt, t <| tb_memory := <[(chat, me_Key entry) := {|
      m_chat_id := chat; m_key := me_Key entry; m_value := me_Value entry; m_expires_at := expires;
      m_created_at := created; m_updated_at := now |}]> (tb_memory t) |>))).
Definition MemoryGet (chatID key : string) : M Pg (res MemoryEntry) :=
  let? found := wrapped "get agent memory" (statement (fun sv now t =>
    do chat := read_uuid sv chatID in
    Ok (match tb_memory t !! (chat, key) with Some row => if unexpired now row then Some row else None | None => None end, t))) in
  ret (match found with None => Err (NotFound "agent_memory" key) | Some row => Ok (mapAgentMemoryRow row) end).
Definition MemoryDelete (chatID key : string) : M Pg (res unit) :=
  let? n := wrapped "delete agent memory" (statement (fun sv _ t =>
    do chat := read_uuid sv chatID in
    Ok (if is_null (tb_memory t !! (chat, key)) then 0 else 1, t <| tb_memory := delete (chat, key) (tb_memory t) |>))) in
  affected "agent_memory" key n.
Definition by_key_row (a b : memoryRow) : Prop := String.le (m_key a) (m_key b).
#[export] Instance by_key_row_dec : RelDecision by_key_row.
Proof. intros a b. unfold by_key_row. apply _. Defined.
Definition MemoryList (chatID : string) : M Pg (res (list MemoryEntry)) :=
  wrapped "list agent memory" (statement (fun sv now t =>
    do chat := read_uuid sv chatID in
    let rows := List.filter (fun row => bool_decide (m_chat_id row = chat) && unexpired now row) (snd <$> map_to_list (tb_memory t)) in
    Ok (mapAgentMemoryRow <$> merge_sort by_key_row rows, t))).

(** ** Users *)

Definition user_roles : list string := ["admin"; "user"].
Definition scan_user (row : userRow) : User :=
  {| us_ID := u_id row; us_Username := u_username row; us_Email := u_email row; us_PasswordHash := u_password_hash row;
     us_Role := u_role row; us_IsVerified := u_is_verified row; us_VerifiedAt := u_verified_at row;
     us_LastLoginAt := u_last_login_at row; us_CreatedAt := u_created_at row; us_UpdatedAt := u_updated_at row;
     us_DeletedAt := u_deleted_at row |}.
Definition live_users (t : Tables) : list userRow :=
  List.filter (fun row => is_null (u_deleted_at row)) (snd <$> map_to_list (tb_users t)).
Definition live_user (id : string) (t : Tables) : option userRow :=
  match tb_users t !! id with Some row => if is_null (u_deleted_at row) then Some row else None | None => None end.
(** The partial unique indexes on email and username, for a row under [id]. *)
Definition user_unique {A} (id : string) (row : userRow) (t : Tables) (k : res A) : res A :=
  let others := List.filter (fun r => negb (bool_decide (u_id r = id))) (live_users t) in
  require (negb (existsb (fun r => bool_decide (u_email r = u_email row)) others)) (pq_unique "idx_users_email")
  (require (negb (existsb (fun r => bool_decide (u_username r = u_username row)) others)) (pq_unique "idx_users_username") k).

(** The id is gen_random_uuid() of the server. *)
Definition UserCreate (p : UserParams) : M Pg (res User) :=
  let* now := pg_now in
  let* newid := pg_newid in
  let role := if bool_decide (up_Role p = "") then "user" else up_Role p in
  wrapped "create user" (statement (fun sv _ t =>
    let ts := sv_timestamp sv now in
    do id := read_uuid sv newid in
    let row := {| u_id := id; u_username := up_Username p; u_email := up_Email p; u_password_hash := up_PasswordHash p;
                  u_role := role; u_is_verified := true; u_verified_at := Some ts; u_last_login_at := None;
                  u_created_at := ts; u_updated_at := ts; u_deleted_at := None |} in
    require (bool_decide (role ∈ user_roles)) (pq_enum "user_role")
    (require (is_null (tb_users t !! id)) (pq_unique "users_pkey")
    (user_unique id row t (Ok (scan_user row, t <| tb_users := <[id := row]> (tb_users t) |>)))))).

Definition find_user (resource_id : string) (what : string) (f : Server -> Tables -> res (option userRow)) : M Pg (res User) :=
  let? found := wrapped what (statement (fun sv _ t => do row := f sv t in Ok (row, t))) in
  ret (match found with None => Err (NotFound "user" resource_id) | Some row => Ok (scan_user row) end).
Definition UserGetByID (id : string) : M Pg (res User) :=
  find_user id "get user by id" (fun sv t => do k := read_uuid sv id in Ok (live_user k t)).
Definition UserGetByEmail (email : string) : M Pg (res User) :=
  find_user email "get user by email" (fun _ t => Ok (head (List.filter (fun r => bool_decide (u_email r = email)) (live_users t)))).
Definition UserGetByUsername (username : string) : M Pg (res User) :=
  find_user username "get user by username" (fun _ t => Ok (head (List.filter (fun r => bool_decide (u_username r = username)) (live_users t)))).

Definition update_user (id : string) (f : Server -> Z -> userRow -> userRow) : M Pg (res (option userRow)) :=
  statement (fun sv now t =>
    do k := read_uuid sv id in
    match live_user k t with
    | None => Ok (None, t)
    | Some row => let row' := f sv now row in user_unique k row' t (Ok (Some row', t <| tb_users := <[k := row']> (tb_users t) |>))
    end).
Definition UserUpdateRow (id : string) (p : UserUpdate) : M Pg (res User) :=
  let* now := pg_now in
  let? row := wrapped "update user" (update_user id (fun sv _ row =>
    row <| u_updated_at := sv_timestamp sv now |> <| u_username := default (u_username row) (uu_Username p) |>
        <| u_email := default (u_email row) (uu_Email p) |> <| u_password_hash := default (u_password_hash row) (uu_PasswordHash p) |>
        <| u_is_verified := default (u_is_verified row) (uu_IsVerified p) |>)) in
  ret (match row with None => Err (NotFound "user" id) | Some row => Ok (scan_user row) end).
Definition UserDelete (id : string) : M Pg (res unit) :=
  let? row := wrapped "delete user" (statement (fun sv now t =>
    do k := read_uuid sv id in
    match live_user k t with
    | None => Ok (0, t)
    | Some row => Ok (1, t <| tb_users := <[k := row <| u_deleted_at := Some now |> <| u_updated_at := now |>]> (tb_users t) |>)
    end)) in
  affected "user" id row.
Definition UpdateLastLogin (id : string) : M Pg (res unit) :=
  let? row := wrapped "update last login" (update_user id (fun _ now row =>
    row <| u_last_login_at := Some now |> <| u_updated_at := now |>)) in
  affected "user" id (if is_null row then 0 else 1).

(** ** Refresh tokens *)

Definition scan_token (row : tokenRow) : RefreshToken :=
  {| rt_ID := k_id row; rt_UserID := k_user_id row; rt_TokenHash := k_token_hash row; rt_ExpiresAt := k_expires_at row;
     rt_RevokedAt := k_revoked_at row; rt_CreatedAt := k_created_at row |}.
Definition tokens_with (P : tokenRow -> bool) (t : Tables) : list tokenRow := List.filter P (snd <$> map_to_list (tb_tokens t)).

Definition StoreRefreshToken (userID tokenHash : string) (expiresAt : Z) : M Pg (res RefreshToken) :=
  let* newid := pg_newid in
  let* now := pg_now in
  wrapped "store refresh token" (statement (fun sv _ t =>
    do id := read_uuid sv newid in
    do user := read_uuid sv userID in
    let row := {| k_id := id; k_user_id := user; k_token_hash := tokenHash; k_expires_at := sv_timestamp sv expiresAt;
                  k_revoked_at := None; k_created_at := sv_timestamp sv now |} in
    require (is_null (tb_tokens t !! id)) (pq_unique "refresh_tokens_pkey")
    (require (bool_decide (tokens_with (fun r => bool_decide (k_token_hash r = tokenHash)) t = [])) (pq_unique "idx_refresh_tokens_hash")
    (require (negb (is_null (tb_users t !! user))) (pq_fkey "refresh_tokens_user_id_fkey")
    (Ok (scan_token row, t <| tb_tokens := <[id := row]> (tb_tokens t) |>)))))).

(** [tokenHash[:8] + "..."], which panics on a shorter hash. *)
Definition token_not_found (tokenHash : string) : error :=
  if bool_decide (str_len tokenHash < 8)%nat then EText "panic: runtime error: slice bounds out of range"
  else NotFound "refresh token" (take_str 8 tokenHash +:+ "...").
Definition GetRefreshToken (tokenHash : string) : M Pg (res RefreshToken) :=
  let? rows := wrapped "get refresh token" (statement (fun _ _ t => Ok (tokens_with (fun r => bool_decide (k_token_hash r = tokenHash)) t, t))) in
  ret (match rows with [] => Err (token_not_found tokenHash) | row :: _ => Ok (scan_token row) end).
(** Revoking the rows that satisfy [P] and are not revoked. *)
Definition revoke (P : tokenRow -> bool) (now : Z) (row : tokenRow) : tokenRow :=
  if P row && is_null (k_revoked_at row) then row <| k_revoked_at := Some now |> else row.
Definition RevokeRefreshToken (tokenHash : string) : M Pg (res unit) :=
  let P row := bool_decide (k_token_hash row = tokenHash) in
  let? n := wrapped "revoke refresh token" (statement (fun _ now t =>
    Ok (length (tokens_with (fun row => P row && is_null (k_revoked_at row)) t), t <| tb_tokens := revoke P now <$> tb_tokens t |>))) in
  ret (if bool_decide (n = 0%nat) then Err (token_not_found tokenHash) else Ok tt).
Definition RevokeAllUserTokens (userID : string) : M Pg (res unit) :=
  wrapped "revoke all user tokens" (statement (fun sv now t =>
    do user := read_uuid sv userID in
    Ok (tt, t <| tb_tokens := revoke (fun row => bool_decide (k_user_id row = user)) now <$> tb_tokens t |>))).
Definition CleanupExpiredTokens : M Pg (res unit) :=
  wrapped "cleanup expired tokens" (statement (fun _ now t =>
    Ok (tt, t <| tb_tokens := filter (fun kv => is_null (k_revoked_at kv.2) && negb (bool_decide (k_expires_at kv.2 < now)) = true) (tb_tokens t) |>))).
