(* ===== verification/PgChatFacts.v ===== *)
(** * The Postgres chat repository implements the interface of the chat service

    Messages of a chat are numbered 1, 2, ... in the order of the table; the invariant of
    the tables says so. Under it, loading, updating and creating a chat satisfy the laws of
    [ChatStore], also when a statement in the middle fails. *)

From stdpp Require Import sorting.
From S2P Require Import Prelude Exception Naming GoLib Domain World PgRepo Json Orchestrator Hoare Chat MemRepo EventHub ChatService ChatSpec PgTables PgChat PgAccounts.

(** ** Statements that only read *)

Definition unmoved (w w' : Pg) : Prop := pg_tables w' = pg_tables w /\ pg_server w' = pg_server w.
#[export] Instance unmoved_preorder : PreOrder unmoved.
Proof. split; [done | intros a b c [H1 H2] [H3 H4]; split; congruence]. Qed.

(** What a statement does: it fails and changes nothing, or it runs. *)
Lemma statement_run {A} (f : Server -> Z -> Tables -> res (A * Tables)) w :
  (exists e, (statement f w).1 = Err e /\ unmoved w (statement f w).2) \/
  (exists now a t, f (pg_server w) now (pg_tables w) = Ok (a, t) /\ (statement f w).1 = Ok a /\
     pg_tables (statement f w).2 = t /\ pg_server (statement f w).2 = pg_server w).
Proof.
  unfold statement. destruct (sv_fault _ _) as [e|]; [left; by exists e |].
  destruct (f _ _ _) as [[a t]|e] eqn:E; [right; by exists (sv_now (pg_server w) (pg_tick w)), a, t | left; by exists e].
Qed.
Lemma statement_reads {A} (f : Server -> Z -> Tables -> res (A * Tables)) :
  (forall sv now t a t', f sv now t = Ok (a, t') -> t' = t) -> keeps unmoved (statement f).
Proof.
  intros H w. destruct (statement_run f w) as [(e & _ & Hw)|(now & a & t & Hf & _ & Ht & Hs)]; [done |].
  split; [by rewrite Ht, (H _ _ _ _ _ Hf) | done].
Qed.
Lemma wrapped_keeps {A} (R : Pg -> Pg -> Prop) what (m : M Pg (res A)) : keeps R m -> keeps R (wrapped what m).
Proof. intros H w. specialize (H w). unfold wrapped. by destruct (m w) as [[a|e] w']. Qed.
Lemma wrapped_run {A} what (f : Server -> Z -> Tables -> res (A * Tables)) w r w1 :
  wrapped what (statement f) w = (r, w1) ->
  (exists e, r = Err e /\ unmoved w w1) \/
  (exists now a t, f (pg_server w) now (pg_tables w) = Ok (a, t) /\ r = Ok a /\ pg_tables w1 = t /\ pg_server w1 = pg_server w).
Proof.
  intros H. unfold wrapped in H. destruct (statement_run f w) as [(e & E & Hw)|(now & a & t & Hf & E & Ht)];
    destruct (statement f w) as [[x|y] w2]; cbn in E; try discriminate; injection E as ->; injection H as <- <-; [left; eauto |].
  right. by exists now, a, t.
Qed.

Lemma then_Ok {A B} (r : res A) (k : A -> res B) b : then_ r k = Ok b -> exists a, r = Ok a /\ k a = Ok b.
Proof. destruct r as [a|e]; [by exists a | done]. Qed.
Lemma require_Ok {A} b e (k : res A) a : require b e k = Ok a -> b = true /\ k = Ok a.
Proof. by destruct b. Qed.

(** Takes apart a statement that succeeded. *)
Ltac ran H :=
  repeat match type of H with
  | then_ _ _ = Ok _ => let x := fresh "v" in let E := fresh "E" in apply then_Ok in H as (x & E & H)
  | require _ _ _ = Ok _ => let E := fresh "E" in apply require_Ok in H as [E H]
  end.

Ltac reads := apply wrapped_keeps, statement_reads; intros sv now t a t' H; ran H; by injection H as _ <-.

Lemma loadMessages_reads id : keeps unmoved (loadMessages id).
Proof. unfold loadMessages. apply keeps_bind_ok; [apply _ | reads | intros rows; apply keeps_ret; apply _]. Qed.
Lemma GetByID_reads id : keeps unmoved (PgChat.ChatGetByID id).
Proof.
  unfold PgChat.ChatGetByID. apply keeps_bind_ok; [apply _ | reads | intros [row|]]; [| apply keeps_ret; apply _].
  apply keeps_bind_ok; [apply _ | apply loadMessages_reads | intros ms; apply keeps_ret; apply _].
Qed.
Lemma pg_now_reads : keeps unmoved pg_now.
Proof. by intros w. Qed.
Lemma pg_newid_reads : keeps unmoved pg_newid.
Proof. by intros w. Qed.

(** The two tables of chats and messages after one of them was replaced. *)
Lemma chats_chats t m : tb_chats (t <| tb_chats := m |>) = m.
Proof. done. Qed.
Lemma chats_messages t m : tb_messages (t <| tb_chats := m |>) = tb_messages t.
Proof. done. Qed.
Lemma messages_chats t l : tb_chats (t <| tb_messages := l |>) = tb_chats t.
Proof. done. Qed.
Lemma messages_messages t l : tb_messages (t <| tb_messages := l |>) = l.
Proof. done. Qed.
Ltac tables := rewrite ?chats_chats, ?chats_messages, ?messages_chats, ?messages_messages.

(** ** The invariant and the view *)

Definition numbers (rows : list messageRow) : list Z := g_sequence_number <$> rows.
Definition counted (n : nat) : list Z := (fun i => Z.of_nat i + 1) <$> seq 0 n.

Record pg_ok (w : Pg) : Prop := {
  po_canonical : forall s k, sv_uuid (pg_server w) s = Some k -> sv_uuid (pg_server w) k = Some k;
  po_keys : forall k row, tb_chats (pg_tables w) !! k = Some row -> h_id row = k /\ sv_uuid (pg_server w) k = Some k;
  po_live : forall g, g ∈ tb_messages (pg_tables w) -> g_deleted_at g = None;
  po_numbers : forall id, numbers (messages_of id (pg_tables w)) = counted (length (messages_of id (pg_tables w)));
  po_new : forall g, g ∈ tb_messages (pg_tables w) -> is_Some (tb_chats (pg_tables w) !! g_chat_id g)
}.

Definition readable (row : messageRow) : Message :=
  {| msg_Role := g_role row; msg_Content := g_content_body row; msg_ContentType := g_content_type row;
     msg_Metadata := match read_metadata (g_metadata row) with Ok md => md | Err _ => [] end; msg_At := g_created_at row |}.
Definition chat_at (t : Tables) (row : chatRow) : option Chat :=
  if is_null (h_deleted_at row) then Some (mapChatRow row (readable <$> messages_of (h_id row) t)) else None.
Definition pg_view (w : Pg) : gmap string Chat := omap (chat_at (pg_tables w)) (tb_chats (pg_tables w)).

Lemma unmoved_view w w' : unmoved w w' -> pg_view w' = pg_view w /\ (pg_ok w -> pg_ok w').
Proof.
  intros [Ht Hs]. unfold pg_view. rewrite Ht. split; [done |]. intros [H1 H2 H3 H4 H5]. split; rewrite ?Ht, ?Hs; done.
Qed.

Lemma pg_view_Some w k c : pg_ok w -> pg_view w !! k = Some c <->
  exists row, live_chat k (pg_tables w) = Some row /\ c = mapChatRow row (readable <$> messages_of k (pg_tables w)).
Proof.
  intros Hok. unfold pg_view, live_chat. rewrite lookup_omap. destruct (tb_chats (pg_tables w) !! k) as [row|] eqn:Hrow; cbn.
  - destruct (po_keys w Hok k row Hrow) as [Hk _]. unfold chat_at. rewrite Hk. destruct (is_null (h_deleted_at row)).
    + split; [intros [= <-]; by exists row | by intros (r & [= <-] & ->)].
    + split; [done | by intros (r & [=] & _)].
  - split; [done | by intros (r & [=] & _)].
Qed.

(** ** Loading *)

Lemma counted_S n : counted (S n) = counted n ++ [Z.of_nat n + 1].
Proof. unfold counted. rewrite seq_S, fmap_app. done. Qed.
Lemma counted_bound n z : z ∈ counted n -> z <= Z.of_nat n.
Proof. intros (i & -> & Hi)%list_elem_of_fmap. apply elem_of_seq in Hi. lia. Qed.
Lemma counted_sorted n : StronglySorted Z.lt (counted n).
Proof.
  induction n as [|n IH]; [constructor |]. rewrite counted_S. apply StronglySorted_app. split_and!; [| done | repeat constructor].
  intros x y Hx Hy. apply counted_bound in Hx. apply list_elem_of_singleton in Hy as ->. lia.
Qed.

#[export] Instance by_sequence_total : Total by_sequence.
Proof. intros a b. unfold by_sequence. lia. Qed.
#[export] Instance by_sequence_trans : Transitive by_sequence.
Proof. intros a b c. unfold by_sequence. lia. Qed.

(** Rows with increasing numbers are left as they are by ORDER BY sequence_number. *)
Lemma sort_increasing rows : StronglySorted Z.lt (numbers rows) -> merge_sort by_sequence rows = rows.
Proof.
  intros H. apply (StronglySorted_unique_strong by_sequence).
  - intros x y Hx Hy Hxy Hyx. rewrite merge_sort_Permutation in Hx. clear - H Hx Hy Hxy Hyx.
    assert (E : g_sequence_number x = g_sequence_number y) by (unfold by_sequence in *; lia).
    apply list_elem_of_lookup in Hx as [i Hi]. apply list_elem_of_lookup in Hy as [j Hj].
    assert (Hij : i = j); [| by subst; simplify_eq].
    assert (Hn : NoDup (numbers rows)).
    { clear - H. induction H as [|z l _ IH Hz]; constructor; [| done]. intros Hin. rewrite Forall_forall in Hz. specialize (Hz _ Hin). lia. }
    apply (NoDup_lookup _ i j (g_sequence_number x) Hn); unfold numbers; rewrite list_lookup_fmap; [by rewrite Hi | by rewrite Hj, E].
  - apply StronglySorted_merge_sort; apply _.
  - clear - H. unfold numbers in H. induction rows as [|r rows IH]; [constructor |]. inversion H as [|? ? Hs Hf]; subst.
    constructor; [by apply IH |]. apply (Forall_fmap g_sequence_number (Z.lt (g_sequence_number r)) rows) in Hf.
    eapply Forall_impl; [exact Hf |]. unfold by_sequence. cbn. lia.
  - apply merge_sort_Permutation.
Qed.
Lemma messages_sorted w id : pg_ok w -> merge_sort by_sequence (messages_of id (pg_tables w)) = messages_of id (pg_tables w).
Proof. intros H. apply sort_increasing. rewrite (po_numbers w H). apply counted_sorted. Qed.

Lemma mapMessageRows_readable rows : forall ms, mapMessageRows rows = Ok ms -> ms = readable <$> rows.
Proof.
  induction rows as [|row rows IH]; intros ms H; cbn in H; [by injection H as <- |].
  apply then_Ok in H as (m & Hm & H). apply then_Ok in H as (ms' & Hms & H). injection H as <-. cbn. f_equal; [| by apply IH].
  unfold mapMessageRow in Hm. unfold readable. destruct (read_metadata _); [by injection Hm as <- | done].
Qed.

Lemma read_uuid_Ok sv s k : read_uuid sv s = Ok k -> sv_uuid sv s = Some k.
Proof. unfold read_uuid. by destruct (sv_uuid sv s); intros [= ->]. Qed.

Lemma loadMessages_ok id w ms w1 : pg_ok w -> loadMessages id w = (Ok ms, w1) ->
  exists k, sv_uuid (pg_server w) id = Some k /\ ms = readable <$> messages_of k (pg_tables w).
Proof.
  intros Hok. unfold loadMessages, bind_ok.
  destruct (wrapped _ _ w) as [r w2] eqn:Hq. apply wrapped_run in Hq as [(e & -> & _)|(now & rows & t & Hf & -> & _)]; [done |].
  intros [= Hms _]. ran Hf. injection Hf as <- _. exists v. split; [by apply read_uuid_Ok |].
  rewrite messages_sorted in Hms by done. by apply mapMessageRows_readable.
Qed.

Lemma live_chat_id w k row : pg_ok w -> live_chat k (pg_tables w) = Some row -> h_id row = k.
Proof.
  intros Hok. unfold live_chat. destruct (tb_chats _ !! k) as [r|] eqn:E; [| done].
  destruct (is_null _); [| done]. intros [= <-]. by apply (po_keys w Hok).
Qed.

Lemma GetByID_ok id w c : pg_ok w -> (PgChat.ChatGetByID id w).1 = Ok c -> pg_view w !! c_ID c = Some c.
Proof.
  intros Hok. unfold PgChat.ChatGetByID, bind_ok at 1.
  destruct (wrapped _ _ w) as [r w1] eqn:Hq. apply wrapped_run in Hq as [(e & -> & _)|(now & found & t & Hf & -> & Ht & Hs)]; [done |].
  ran Hf. injection Hf as <- <-. apply read_uuid_Ok in E.
  destruct (live_chat v (pg_tables w)) as [row|] eqn:Hrow; [| done]. unfold bind_ok.
  assert (Hok1 : pg_ok w1) by (eapply unmoved_view; [| exact Hok]; by split).
  destruct (loadMessages id w1) as [[ms|e] w2] eqn:Hms; [| done]. cbn. intros [= <-].
  destruct (loadMessages_ok id w1 ms w2 Hok1 Hms) as (k' & Hk' & ->). rewrite Hs, E in Hk'. injection Hk' as <-.
  rewrite Ht. cbn [c_ID mapChatRow]. rewrite (live_chat_id w v row Hok Hrow). apply pg_view_Some; [done |]. by exists row.
Qed.

(** ** Appending messages *)

Lemma insertMessage_run msgID chatID m ct md seq w r w1 :
  wrapped "insert message" (insertMessage msgID chatID m ct md seq) w = (r, w1) ->
  (exists e, r = Err e /\ unmoved w w1) \/
  (exists g k, r = Ok tt /\ sv_uuid (pg_server w) chatID = Some k /\ is_Some (tb_chats (pg_tables w) !! k) /\
     g_chat_id g = k /\ g_sequence_number g = seq /\ g_deleted_at g = None /\ said (readable g) = said m /\
     pg_server w1 = pg_server w /\ pg_tables w1 = (pg_tables w) <| tb_messages := tb_messages (pg_tables w) ++ [g] |>).
Proof.
  intros H. unfold insertMessage in H. apply wrapped_run in H as [?|(now & a & t & Hf & -> & Ht & Hs)]; [by left |]. right.
  ran Hf. injection Hf as <- <-. eexists _, v0. split; [done |]. split; [by apply read_uuid_Ok |].
  split; [destruct (tb_chats (pg_tables w) !! v0); [by eexists | done] |].
  split_and!; [..| done | exact Ht]; reflexivity.
Qed.

(** The messages of a chat after rows were appended to the table. *)
Lemma messages_of_app id t gs : messages_of id (t <| tb_messages := tb_messages t ++ gs |>) =
  messages_of id t ++ List.filter (fun g => bool_decide (g_chat_id g = id) && is_null (g_deleted_at g)) gs.
Proof. unfold messages_of. cbn. by rewrite List.filter_app. Qed.

(** The tables after rows [gs] of chat [k] were appended. *)
Definition appended (k : string) (gs : list messageRow) (w w' : Pg) : Prop :=
  pg_server w' = pg_server w /\ pg_tables w' = (pg_tables w) <| tb_messages := tb_messages (pg_tables w) ++ gs |> /\
  Forall (fun g => g_chat_id g = k /\ g_deleted_at g = None) gs.

Lemma appended_nil k w w' : unmoved w w' -> appended k [] w w'.
Proof. intros [Ht Hs]. split_and!; [done | | done]. rewrite Ht, app_nil_r. by destruct (pg_tables w). Qed.

Lemma appended_messages k gs w w' id : appended k gs w w' ->
  messages_of id (pg_tables w') = messages_of id (pg_tables w) ++ (if bool_decide (id = k) then gs else []).
Proof.
  intros (_ & -> & Hgs). rewrite messages_of_app. f_equal. induction Hgs as [|g gs [Hk Hd] _ IH]; [by case_bool_decide |].
  cbn [List.filter]. rewrite Hk, Hd, IH. case_bool_decide as H1; case_bool_decide as H2; simplify_eq; done.
Qed.

Lemma insertMessages_run chatID k msgs : forall w n r w1, pg_ok w -> sv_uuid (pg_server w) chatID = Some k ->
  n = Z.of_nat (length (messages_of k (pg_tables w))) -> insertMessages chatID msgs n w = (r, w1) ->
  pg_ok w1 /\ exists gs, appended k gs w w1 /\ (said <$> (readable <$> gs)) `prefix_of` (said <$> msgs) /\
  (r = Ok tt -> said <$> (readable <$> gs) = said <$> msgs).
Proof.
  induction msgs as [|m msgs IH]; intros w n r w1 Hok Hk Hn H.
  { injection H as <- <-. split; [done |]. exists []. split_and!; [by apply appended_nil | done | done]. }
  cbn [insertMessages] in H. unfold bind in H. pose proof (pg_newid_reads w) as Hw0. destruct (pg_newid w) as [msgID w0]. cbn in Hw0.
  unfold bind_ok in H.
  destruct (wrapped "insert message" _ w0) as [r2 w2] eqn:Hins. destruct (unmoved_view _ _ Hw0) as [_ Hok0]. specialize (Hok0 Hok).
  destruct Hw0 as [Ht0 Hs0].
  apply insertMessage_run in Hins as [(e & -> & Hw2)|(g & k' & -> & Hk' & Hrow & Hg1 & Hg2 & Hg3 & Hsaid & Hs2 & Ht2)].
  { injection H as <- <-. assert (Hw : unmoved w w2) by (etrans; [by split | exact Hw2]).
    split; [by eapply unmoved_view |]. exists []. split_and!; [by apply appended_nil | apply prefix_nil | done]. }
  rewrite Hs0, Hk in Hk'. injection Hk' as <-. rewrite Ht0 in *.
  assert (Happ : appended k [g] w w2) by (split_and!; [congruence | done | by repeat constructor]).
  assert (Hlen : messages_of k (pg_tables w2) = messages_of k (pg_tables w) ++ [g])
    by (rewrite (appended_messages _ _ _ _ k Happ), bool_decide_eq_true_2 by done; done).
  assert (Hok2 : pg_ok w2).
  { destruct Hok as [P1 P2 P3 P4 P5]. split; rewrite ?Hs2, ?Hs0, ?Ht2; tables; try done.
    - intros g' [Hg'|Hg'%list_elem_of_singleton]%elem_of_app; [by apply P3 | by subst].
    - intros id. rewrite <- Ht2, (appended_messages _ _ _ _ id Happ). case_bool_decide as Hid; [| rewrite app_nil_r; apply P4].
      subst id. unfold numbers. rewrite length_app, fmap_app. cbn. rewrite Nat.add_1_r, counted_S.
      fold (numbers (messages_of k (pg_tables w))). rewrite P4, Hg2, Hn. done.
    - intros g' [Hg'|Hg'%list_elem_of_singleton]%elem_of_app; [by apply P5 | by subst]. }
  destruct (IH w2 (n + 1) r w1 Hok2) as (Hok1 & gs & Hgs & Hp & Hr);
    [by rewrite Hs2, Hs0 | rewrite Hlen, length_app; cbn; lia | exact H |].
  split; [done |]. exists (g :: gs). split_and!.
  - destruct Hgs as (A1 & A2 & A3). destruct Happ as (B1 & B2 & _). split_and!; [congruence | | by constructor].
    rewrite A2, B2. cbn. by rewrite <- app_assoc.
  - cbn. rewrite Hsaid. by apply prefix_cons.
  - intros E. cbn. rewrite Hsaid. f_equal. by apply Hr.
Qed.

(** ** Updating a chat *)

Lemma appended_view k gs w w' row : pg_ok w -> pg_ok w' -> appended k gs w w' -> live_chat k (pg_tables w) = Some row ->
  pg_view w' = <[k := mapChatRow row ((readable <$> messages_of k (pg_tables w)) ++ (readable <$> gs))]> (pg_view w).
Proof.
  intros Hok Hok' Happ Hrow. apply map_eq. intros id. apply option_eq. intros c. rewrite (pg_view_Some w' id c Hok').
  assert (Hlive : live_chat id (pg_tables w') = live_chat id (pg_tables w)) by (destruct Happ as (_ & -> & _); done).
  rewrite (appended_messages _ _ _ _ id Happ), Hlive. destruct (decide (id = k)) as [->|Hne].
  - rewrite lookup_insert_eq, Hrow, bool_decide_eq_true_2, fmap_app by done.
    split; [by intros (r & [= <-] & ->) | intros [= <-]; by exists row].
  - rewrite lookup_insert_ne, bool_decide_eq_false_2, app_nil_r by done. by rewrite pg_view_Some.
Qed.

(** An UPDATE: no statement, no row, or one row changed. *)
Lemma update_chat_run what id f w r w1 : wrapped what (update_chat id f) w = (r, w1) ->
  (unmoved w w1 /\ (is_Ok r = false \/ r = Ok 0)) \/
  (exists now k row row', r = Ok 1 /\ sv_uuid (pg_server w) id = Some k /\ live_chat k (pg_tables w) = Some row /\
     f (pg_server w) now (pg_tables w) row = Ok row' /\ pg_server w1 = pg_server w /\
     pg_tables w1 = (pg_tables w) <| tb_chats := <[k := row']> (tb_chats (pg_tables w)) |>).
Proof.
  intros H. unfold update_chat in H. apply wrapped_run in H as [(e & -> & Hw)|(now & n & t & Hf & -> & Ht & Hs)]; [left; auto |].
  ran Hf. apply read_uuid_Ok in E. destruct (live_chat v (pg_tables w)) as [row|] eqn:Hrow.
  - ran Hf. injection Hf as <- <-. right. by exists now, v, row, v0.
  - injection Hf as <- <-. left. split; [by split | by right].
Qed.

(** Rewriting a row that keeps its id keeps the invariant. *)
Lemma rewrite_row_ok w w' k row row' : pg_ok w -> live_chat k (pg_tables w) = Some row -> h_id row' = h_id row ->
  pg_server w' = pg_server w -> pg_tables w' = (pg_tables w) <| tb_chats := <[k := row']> (tb_chats (pg_tables w)) |> -> pg_ok w'.
Proof.
  intros Hok Hrow Hid Hs Ht. pose proof (live_chat_id w k row Hok Hrow) as Hk.
  assert (Hin : tb_chats (pg_tables w) !! k = Some row).
  { unfold live_chat in Hrow. destruct (tb_chats _ !! k); [| done]. destruct (is_null _); [| done]. exact Hrow. }
  destruct Hok as [P1 P2 P3 P4 P5]. split; rewrite ?Hs, ?Ht; tables; try done.
  - intros k' r. destruct (decide (k' = k)) as [->|Hne]; [| rewrite lookup_insert_ne by done; apply P2].
    rewrite lookup_insert_eq. intros [= <-]. rewrite Hid. by apply P2.
  - intros g Hg. destruct (P5 g Hg) as [r Hr]. destruct (decide (g_chat_id g = k)) as [->|Hne];
      [by rewrite lookup_insert_eq | rewrite lookup_insert_ne by done; by eexists].
Qed.

Lemma rewrite_row_view w w' k row row' : pg_ok w -> live_chat k (pg_tables w) = Some row -> h_id row' = h_id row ->
  pg_server w' = pg_server w -> pg_tables w' = (pg_tables w) <| tb_chats := <[k := row']> (tb_chats (pg_tables w)) |> ->
  is_null (h_deleted_at row') = true ->
  pg_view w' = <[k := mapChatRow row' (readable <$> messages_of k (pg_tables w))]> (pg_view w).
Proof.
  intros Hok Hrow Hid Hs Ht Hd. pose proof (rewrite_row_ok w w' k row row' Hok Hrow Hid Hs Ht) as Hok'.
  apply map_eq. intros id. apply option_eq. intros c. rewrite (pg_view_Some w' id c Hok'), Ht.
  unfold live_chat at 1. tables. change (messages_of id (_ <| tb_chats := _ |>)) with (messages_of id (pg_tables w)).
  destruct (decide (id = k)) as [->|Hne].
  - rewrite !lookup_insert_eq, Hd. split; [by intros (r & [= <-] & ->) | intros [= <-]; by exists row'].
  - rewrite !lookup_insert_ne by done. by rewrite pg_view_Some.
Qed.

Lemma Update_run c c0 w r w' : pg_ok w -> pg_view w !! c_ID c = Some c0 -> c_Messages c0 `prefix_of` c_Messages c ->
  PgChat.ChatUpdate c w = (r, w') ->
  pg_ok w' /\ exists c1, pg_view w' = <[c_ID c := c1]> (pg_view w) /\ (if is_Ok r then saved c0 c c1 else partly_saved c0 c c1).
Proof.
  intros Hok Hc0 Hpre. pose proof Hc0 as Hc. apply (pg_view_Some w _ _ Hok) in Hc as (row & Hrow & Ec0).
  (* nothing happened *)
  assert (Hnone : forall w1, unmoved w w1 -> pg_ok w1 /\ exists c1, pg_view w1 = <[c_ID c := c1]> (pg_view w) /\ partly_saved c0 c c1).
  { intros w1 Hw. destruct (unmoved_view _ _ Hw) as [-> Hok']. split; [auto |]. exists c0. split; [by rewrite insert_id | by left]. }
  unfold PgChat.ChatUpdate. unfold bind_ok at 1.
  destruct (wrapped "update chat" _ w) as [r1 w1] eqn:Hupd. apply update_chat_run in Hupd as [[Hw1 Hr]|(now & k & row0 & row' & -> & Hk & Hrow0 & Hf & Hs1 & Ht1)].
  { destruct Hr as [Hr| ->]; [destruct r1; [done |] |]; intros [= <- <-]; by apply Hnone. }
  assert (k = c_ID c) as ->.
  { unfold live_chat in Hrow. destruct (tb_chats _ !! c_ID c) as [r0|] eqn:E; [| done]. destruct (po_keys w Hok _ _ E) as [_ Hcan]. congruence. }
  assert (row0 = row) as -> by congruence. ran Hf.
  assert (Hrow' : h_id row' = h_id row /\ h_status row' = c_Status c /\ h_deleted_at row' = h_deleted_at row)
    by (injection Hf as <-; done).
  destruct Hrow' as (Hid' & Hst' & Hdel'). clear Hf. unfold bind_ok at 1.
  unfold affected at 1. rewrite (bool_decide_eq_false_2 (1 = 0)) by done. unfold ret at 1. cbn iota.
  assert (Hdel : is_null (h_deleted_at row) = true).
  { unfold live_chat in Hrow. destruct (tb_chats _ !! c_ID c) as [r0|]; [| done]. destruct (is_null (h_deleted_at r0)) eqn:E'; [| done]. by injection Hrow as <-. }
  rewrite <- Hdel' in Hdel.
  pose proof (rewrite_row_ok w w1 (c_ID c) row row' Hok Hrow Hid' Hs1 Ht1) as Hok1.
  pose proof (rewrite_row_view w w1 (c_ID c) row row' Hok Hrow Hid' Hs1 Ht1 Hdel) as Hv1.
  assert (Hrow1 : live_chat (c_ID c) (pg_tables w1) = Some row').
  { rewrite Ht1. unfold live_chat. tables. rewrite lookup_insert_eq. by rewrite Hdel. }
  assert (Hm1 : messages_of (c_ID c) (pg_tables w1) = messages_of (c_ID c) (pg_tables w)) by (by rewrite Ht1).
  destruct Hpre as [new Hnew]. assert (Hms0 : c_Messages c0 = readable <$> messages_of (c_ID c) (pg_tables w)) by (by rewrite Ec0).
  (* what appending [gs] leaves *)
  assert (Hend : forall gs w2, pg_ok w2 -> appended (c_ID c) gs w1 w2 -> pg_view w2 =
     <[c_ID c := mapChatRow row' (c_Messages c0 ++ (readable <$> gs))]> (pg_view w)).
  { intros gs w2 Hok2 Happ. rewrite (appended_view _ _ _ _ row' Hok1 Hok2 Happ Hrow1), Hv1, insert_insert_eq, Hm1, Hms0. done. }
  unfold bind_ok. destruct (wrapped "count messages" _ w1) as [r2 w2] eqn:Hcount.
  apply wrapped_run in Hcount as [(e & -> & Hw2)|(now' & count & t & Hf & -> & Ht2 & Hs2)].
  { intros [= <- <-]. assert (Hok2 : pg_ok w2) by (by eapply unmoved_view). split; [done |].
    eexists. split; [by apply (Hend [] w2 Hok2), appended_nil |]. right. split; [done |]. exists []. split; [done | apply prefix_nil]. }
  apply then_Ok in Hf as (k2 & Ek%read_uuid_Ok & Hf). injection Hf as <- <-. rewrite Hs1, Hk in Ek. injection Ek as <-. rewrite Hm1 in *.
  assert (Hw2 : unmoved w1 w2) by (by split). assert (Hok2 : pg_ok w2) by (by eapply unmoved_view).
  assert (Hlen : length (messages_of (c_ID c) (pg_tables w)) = length (c_Messages c0)) by (by rewrite Hms0, length_fmap).
  case_bool_decide as Hmore.
  - intros Hins. rename w' into w3. apply (insertMessages_run (c_ID c) (c_ID c)) in Hins as (Hok3 & gs & Happ & Hp & Hall); [| done | by rewrite Hs2, Hs1 | by rewrite Ht2, Hm1].
    rewrite Hlen in Hp, Hall. split; [done |].
    assert (Happ1 : appended (c_ID c) gs w1 w3) by (destruct Happ as (A1 & A2 & A3); split_and!; [congruence | by rewrite A2, Ht2 | done]).
    eexists. split; [by apply (Hend gs w3) |].
    destruct r as [[]|e]; cbn [is_Ok]; [split; [done |] | right; split; [done |]]; exists (readable <$> gs); (split; [done |]); auto.
  - intros [= <- <-]. split; [done |]. eexists. split; [by apply (Hend [] w2), appended_nil |].
    split; [done |]. exists []. split; [done |]. rewrite drop_ge; [done |]. rewrite <- Hlen. lia.
Qed.

Lemma Update_saves c c0 w : pg_ok w -> pg_view w !! c_ID c = Some c0 -> c_Messages c0 `prefix_of` c_Messages c ->
  pg_ok (PgChat.ChatUpdate c w).2 /\
  exists c1, pg_view (PgChat.ChatUpdate c w).2 = <[c_ID c := c1]> (pg_view w) /\
    (if is_Ok (PgChat.ChatUpdate c w).1 then saved c0 c c1 else partly_saved c0 c c1).
Proof. intros Hok Hc Hp. exact (Update_run c c0 w _ _ Hok Hc Hp (surjective_pairing _)). Qed.

(** ** Creating chats, titles and lists *)

Lemma Create_run c w r w' : pg_ok w -> c_Messages c = [] -> PgChat.ChatCreate c w = (r, w') ->
  pg_ok w' /\ (pg_view w' = pg_view w \/
    exists k c1, pg_view w !! k = None /\ pg_view w' = <[k := c1]> (pg_view w) /\ c_Messages c1 = [] /\ c_Status c1 = c_Status c).
Proof.
  intros Hok Hm. unfold PgChat.ChatCreate, bind_ok. rewrite Hm. destruct (wrapped _ _ w) as [r1 w1] eqn:Hins.
  apply wrapped_run in Hins as [(e & -> & Hw1)|(now & [] & t & Hf & -> & Ht & Hs)].
  { intros [= <- <-]. destruct (unmoved_view _ _ Hw1) as [E Hok1]. auto. }
  cbn [insertMessages ret]. intros [= <- <-].
  apply then_Ok in Hf as (id & Hid%read_uuid_Ok & Hf). apply then_Ok in Hf as (user & _ & Hf).
  apply then_Ok in Hf as (agent & _ & Hf). apply then_Ok in Hf as (vm & _ & Hf).
  apply require_Ok in Hf as [Hnew Hf]. ran Hf. assert (Hnone : tb_chats (pg_tables w) !! id = None) by (by destruct (tb_chats (pg_tables w) !! id)).
  match type of Hf with Ok (_, _ <| tb_chats := <[_ := ?r]> _ |>) = _ => set (row := r) in Hf end.
  assert (Hrow : h_id row = id /\ h_status row = c_Status c /\ h_deleted_at row = None) by done.
  destruct Hrow as (Hr1 & Hr2 & Hr3). clearbody row.
  assert (Ht' : pg_tables w1 = (pg_tables w) <| tb_chats := <[id := row]> (tb_chats (pg_tables w)) |>) by (injection Hf as <-; exact Ht).
  assert (Hempty : messages_of id (pg_tables w) = []).
  { unfold messages_of. destruct (List.filter _ _) as [|g l] eqn:Hfilter; [done |].
    assert (Hg : g ∈ List.filter (fun g => bool_decide (g_chat_id g = id) && is_null (g_deleted_at g)) (tb_messages (pg_tables w)))
      by (rewrite Hfilter; left).
    apply list_elem_of_In, filter_In in Hg as [Hg Hp]. apply andb_true_iff in Hp as [Hp%bool_decide_eq_true _].
    apply list_elem_of_In in Hg. destruct (po_new w Hok g Hg) as [r' Hr']. by rewrite Hp, Hnone in Hr'. }
  assert (Hok1 : pg_ok w1).
  { destruct Hok as [P1 P2 P3 P4 P5]. split; rewrite ?Hs, ?Ht'; tables; try done.
    - intros k r'. destruct (decide (k = id)) as [->|Hne]; [| rewrite lookup_insert_ne by done; apply P2].
      rewrite lookup_insert_eq. intros [= <-]. split; [done | by apply P1 with (s := c_ID c)].
    - intros g Hg. destruct (P5 g Hg) as [r' Hr']. rewrite lookup_insert_ne; [by eexists |]. intros E'. rewrite <- E' in Hr'. congruence. }
  split; [done |]. right. exists id, (mapChatRow row []). split_and!; [| | done | exact Hr2].
  { unfold pg_view. by rewrite lookup_omap, Hnone. }
  apply map_eq. intros k. apply option_eq. intros c'. rewrite (pg_view_Some w1 k c' Hok1), Ht'. unfold live_chat at 1. tables.
  change (messages_of k (_ <| tb_chats := _ |>)) with (messages_of k (pg_tables w)). destruct (decide (k = id)) as [->|Hne].
  - rewrite !lookup_insert_eq, Hr3, Hempty. cbn. split; [by intros (r' & [= <-] & ->) | intros [= <-]; by exists row].
  - rewrite !lookup_insert_ne by done. by rewrite pg_view_Some.
Qed.

Lemma Title_run id title w r w' : pg_ok w -> PgChat.UpdateTitle id title w = (r, w') ->
  pg_ok w' /\ conversation <$> pg_view w' = conversation <$> pg_view w.
Proof.
  intros Hok. unfold PgChat.UpdateTitle, bind. pose proof (pg_now_reads w) as Hw0. destruct (pg_now w) as [time w0]. cbn in Hw0.
  destruct (unmoved_view _ _ Hw0) as [Hv0 Hok0]. specialize (Hok0 Hok). unfold bind_ok.
  destruct (wrapped _ _ w0) as [r1 w1] eqn:Hupd.
  assert (H1 : pg_ok w1 /\ conversation <$> pg_view w1 = conversation <$> pg_view w0).
  { apply update_chat_run in Hupd as [[Hw1 _]|(now & k & row & row' & _ & _ & Hrow & Hf & Hs1 & Ht1)].
    { destruct (unmoved_view _ _ Hw1) as [-> Hok1]. auto. }
    assert (Hr : h_id row' = h_id row /\ h_status row' = h_status row /\ h_deleted_at row' = h_deleted_at row) by (injection Hf as <-; done).
    destruct Hr as (Hr1 & Hr2 & Hr3).
    assert (Hd : is_null (h_deleted_at row') = true).
    { rewrite Hr3. unfold live_chat in Hrow. destruct (tb_chats _ !! k) as [r0|]; [| done].
      destruct (is_null (h_deleted_at r0)) eqn:E; [| done]. by injection Hrow as <-. }
    split; [by eapply rewrite_row_ok |]. rewrite (rewrite_row_view w0 w1 k row row' Hok0 Hrow Hr1 Hs1 Ht1 Hd), fmap_insert.
    apply insert_id. rewrite lookup_fmap. rewrite (proj2 (pg_view_Some w0 k (mapChatRow row (readable <$> messages_of k (pg_tables w0))) Hok0)); [| by exists row].
    cbn. unfold conversation. cbn. by rewrite Hr2. }
  rewrite <- Hv0. destruct r1 as [n|e]; [| by intros [= _ <-]]. unfold affected, ret. by intros [= _ <-].
Qed.

Definition PgChats : ChatRepository Pg := {|
  chats_Create := PgChat.ChatCreate; chats_GetByID := PgChat.ChatGetByID; chats_Update := PgChat.ChatUpdate;
  chats_UpdateTitle := PgChat.UpdateTitle; chats_ListByUserID := PgChat.ListByUserID; chats_ListMessages := PgChat.ListMessages |}.

#[export] Program Instance PgChatStore : ChatStore PgChats := {| view := pg_view; store_ok := pg_ok |}.
Next Obligation. intros id st. apply unmoved_view, GetByID_reads. Qed.
Next Obligation. intros id st c. apply GetByID_ok. Qed.
Next Obligation. intros c c0 st. apply Update_saves. Qed.
Next Obligation. intros c st Hok _ Hm. exact (Create_run c st _ _ Hok Hm (surjective_pairing _)). Qed.
Next Obligation. intros id title st Hok. exact (Title_run id title st _ _ Hok (surjective_pairing _)). Qed.
Next Obligation.
  intros p st. apply unmoved_view. revert st. change (keeps unmoved (PgChat.ListByUserID p)). unfold PgChat.ListByUserID. reads.
Qed.
Next Obligation.
  intros p st. apply unmoved_view. revert st. change (keeps unmoved (PgChat.ListMessages p)). unfold PgChat.ListMessages. reads.
Qed.

(** ** The service over Postgres *)

(** Chats and messages are not touched. *)
Definition chats_kept (w w' : Pg) : Prop :=
  tb_chats (pg_tables w') = tb_chats (pg_tables w) /\ tb_messages (pg_tables w') = tb_messages (pg_tables w) /\
  pg_server w' = pg_server w.
#[export] Instance chats_kept_preorder : PreOrder chats_kept.
Proof. split; [done | intros a b c (H1 & H2 & H3) (H4 & H5 & H6); split_and!; congruence]. Qed.

Lemma chats_kept_view w w' : chats_kept w w' -> pg_view w' = pg_view w /\ (pg_ok w -> pg_ok w').
Proof.
  intros (Hc & Hm & Hs).
  assert (Hof : forall id, messages_of id (pg_tables w') = messages_of id (pg_tables w)) by (intros id; unfold messages_of; by rewrite Hm).
  split.
  - unfold pg_view. rewrite Hc. apply map_eq. intros k. rewrite !lookup_omap. destruct (tb_chats (pg_tables w) !! k) as [row|]; [| done].
    cbn. unfold chat_at. by rewrite Hof.
  - intros [H1 H2 H3 H4 H5]. split; rewrite ?Hc, ?Hm, ?Hs; try done. intros id. by rewrite Hof.
Qed.

Lemma statement_keeps_chats {A} what (f : Server -> Z -> Tables -> res (A * Tables)) :
  (forall sv now t a t', f sv now t = Ok (a, t') -> tb_chats t' = tb_chats t /\ tb_messages t' = tb_messages t) ->
  keeps chats_kept (wrapped what (statement f)).
Proof.
  intros H. apply wrapped_keeps. intros w.
  destruct (statement_run f w) as [(e & _ & Ht & Hs)|(now & a & t & Hf & _ & Ht & Hs)]; unfold chats_kept; rewrite Ht; [done |].
  by destruct (H _ _ _ _ _ Hf).
Qed.

Lemma unmoved_chats_kept {A} (m : M Pg A) : keeps unmoved m -> keeps chats_kept m.
Proof. apply keeps_weaken. intros w w' [Ht Hs]. unfold chats_kept. by rewrite Ht. Qed.

Ltac keeps_chats :=
  apply statement_keeps_chats; intros ? ? ? ? ? Hran; ran Hran; by injection Hran as _ <-.

Lemma EventInsert_keeps e : keeps chats_kept (PgChat.EventInsert e).
Proof.
  unfold PgChat.EventInsert. apply keeps_bind; [apply _ | apply unmoved_chats_kept, pg_newid_reads | intros id; keeps_chats].
Qed.
Lemma AgentCreate_keeps a : keeps chats_kept (PgAccounts.AgentCreate a).
Proof. keeps_chats. Qed.
Lemma AgentGetByID_keeps id : keeps chats_kept (PgAccounts.AgentGetByID id).
Proof. apply keeps_bind_ok; [apply _ | keeps_chats | intros r; apply keeps_ret; apply _]. Qed.

Definition pg_service (orch : option (ProcessInput (ChatWorld Pg) -> M (ChatWorld Pg) (res ProcessResult)))
    (title : option (string -> M Pg (res string))) : ChatService Pg := {|
  sv_chats := PgChats; sv_runtimes_Insert := PgChat.EventInsert;
  sv_agents := {| agents_Create := PgAccounts.AgentCreate; agents_GetByID := PgAccounts.AgentGetByID |};
  sv_orch := orch; sv_vmCollector := None; sv_titleGen := title |}.

(** A generator of titles that asks a remote model: it does not use the database. *)
Definition remote (title : option (string -> M Pg (res string))) : Prop := forall f, title = Some f -> forall m, keeps unmoved (f m).

#[export] Instance pg_service_chats orch title : ChatStore (sv_chats (pg_service orch title)) := PgChatStore.
Lemma pg_service_quiet orch title : remote title -> QuietPorts (pg_service orch title) pg_now pg_newid.
Proof.
  intros Hremote. split.
  - exact (keeps_weaken _ _ _ unmoved_view pg_now_reads).
  - exact (keeps_weaken _ _ _ unmoved_view pg_newid_reads).
  - intros e. exact (keeps_weaken _ _ _ chats_kept_view (EventInsert_keeps e)).
  - intros a. exact (keeps_weaken _ _ _ chats_kept_view (AgentCreate_keeps a)).
  - intros id. exact (keeps_weaken _ _ _ chats_kept_view (AgentGetByID_keeps id)).
  - done.
  - intros f Hf m. exact (keeps_weaken _ _ _ unmoved_view (Hremote f Hf m)).
Qed.

(** C21: The chat service over Postgres refines the abstract conversations as well, with
    statements that fail at any point: an update that breaks off has appended a part of
    the new messages, and what was stored before stays, in its order. *)
Theorem postgres_refines_conversations orch title w w' :
  remote title -> quiet_turns (pg_service orch title) pg_now -> pg_ok (cw_store w) ->
  rtc (chat_step (pg_service orch title) pg_now pg_newid) w w' ->
  conversations_grow (pg_service orch title) w w'.
Proof.
  intros Hr Hq Hok Hrun.
  exact (run_grows (QuietPorts0 := pg_service_quiet orch title Hr) (pg_service orch title) pg_now pg_newid w w' Hq Hok Hrun).
Qed.

(** ** A concrete database *)

Definition sample_server (fault : nat -> option error) : Server := {|
  sv_uuid := fun s => if has_prefix "id-" s || bool_decide (s = "user") then Some s else None;
  sv_timestamp := fun t => t; sv_jsonb := Some; sv_fault := fault; sv_now := Z.of_nat; sv_newid := fun n => "id-" +:+ fmt_d (Z.of_nat n) |}.
Definition sample_user : userRow := {|
  u_id := "user"; u_username := "u"; u_email := "u@example.org"; u_password_hash := ""; u_role := "user"; u_is_verified := true;
  u_verified_at := None; u_last_login_at := None; u_created_at := 0; u_updated_at := 0; u_deleted_at := None |}.
Definition sample_pg (fault : nat -> option error) : ChatWorld Pg := {|
  cw_hub := empty_hub; cw_jobs := [];
  cw_store := {| pg_server := sample_server fault; pg_tables := no_tables <| tb_users := {["user" := sample_user]} |>; pg_tick := 0 |} |}.

Lemma sample_pg_ok fault : pg_ok (cw_store (sample_pg fault)).
Proof.
  split; cbn.
  - intros s k. by case_match eqn:E; intros [= <-]; rewrite ?E.
  - intros k row. by rewrite lookup_empty.
  - intros g Hg. by apply elem_of_nil in Hg.
  - done.
  - intros g Hg. by apply elem_of_nil in Hg.
Qed.

(** An orchestrator that answers at once. *)
Definition echo {S} (input : ProcessInput (ChatWorld S)) : M (ChatWorld S) (res ProcessResult) :=
  ret (Ok {| pres_ToolResults := []; pres_AssistantMessage := pi_Message input;
             pres_Trace := {| et_TraceID := ""; et_ExecutionMode := ""; et_Reasoning := ""; et_Steps := []; et_FinalAnswer := "";
                              et_TokenUsage := no_tokens; et_StartedAt := 0; et_CompletedAt := 0 |} |}).
Definition echo_service : ChatService Pg := pg_service (Some echo) None.
Definition pg_params : ChatParams := {|
  cp_AgentID := ""; cp_UserID := "user"; cp_AgentName := ""; cp_Model := ""; cp_SystemPrompt := ""; cp_Title := "" |}.
Definition pg_created fault : ChatWorld Pg := (Create echo_service pg_now pg_newid pg_params (sample_pg fault)).2.
Definition pg_sent fault : ChatWorld Pg := (SendMessage echo_service pg_now "id-4" "hi" "" (pg_created fault)).2.

(** The connection is lost at the insertion of the answer: the user's message stays. *)
Definition lost_connection (n : nat) : option error := if bool_decide (n = 17%nat) then Some (EText "connection lost") else None.
Definition half_sent : ChatWorld Pg := pg_sent lost_connection.

Lemma half_sent_run : rtc (chat_step echo_service pg_now pg_newid) (sample_pg lost_connection) half_sent.
Proof.
  apply (rtc_l _ _ (pg_created lost_connection)).
  - apply step_Create. intros c w1 Hp. vm_compute in Hp. injection Hp as <- <-. vm_compute. reflexivity.
  - apply rtc_once. exact (step_SendMessage echo_service pg_now pg_newid "id-4" "hi" "" (pg_created lost_connection)).
Qed.
Lemma echo_quiet : quiet_turns echo_service pg_now.
Proof. intros process [= <-] chatID agentID userID content vms History w. apply same_preorder. Qed.

Lemma postgres_refines_conversations_witness :
  rtc conv_step ∅ {["id-4" := {| cv_said := [(RoleUser, "hi")]; cv_closed := false |}]}.
Proof.
  assert (Hremote : remote None) by done.
  pose proof (proj1 (postgres_refines_conversations (Some echo) None (sample_pg lost_connection) half_sent Hremote echo_quiet
    (sample_pg_ok _) half_sent_run)) as H.
  assert (E1 : convs echo_service (cw_store (sample_pg lost_connection)) = ∅) by (vm_compute; reflexivity).
  assert (E2 : convs echo_service (cw_store half_sent) = {["id-4" := {| cv_said := [(RoleUser, "hi")]; cv_closed := false |}]})
    by (vm_compute; reflexivity).
  change (convs (pg_service (Some echo) None)) with (convs echo_service) in H. rewrite E1, E2 in H. exact H.
Defined.

(** Two turns of one chat that overlap: the message of the turn that ends last is not
    stored, because its place in the history is taken, and no error is reported. *)
Definition overlapping (input : ProcessInput (ChatWorld Pg)) : M (ChatWorld Pg) (res ProcessResult) := fun w =>
  echo input (SendMessage echo_service pg_now "id-4" "meanwhile" "" w).2.
Definition overlapped : res Chat * ChatWorld Pg :=
  SendMessage (pg_service (Some overlapping) None) pg_now "id-4" "hi" "" (pg_created (fun _ => None)).
Theorem overlapping_message_is_lost :
  is_Ok overlapped.1 = true /\
  convs echo_service (cw_store overlapped.2) !! "id-4" =
    Some {| cv_said := [(RoleUser, "meanwhile"); (RoleAssistant, "meanwhile")]; cv_closed := false |}.
Proof. split; vm_compute; reflexivity. Qed.

(** Plans and titles are not among the types the database knows: they are never stored. *)
Theorem plan_and_title_not_persisted e w :
  pe_Type e = EventPlan \/ pe_Type e = EventTitle -> is_Ok (PgChat.EventInsert e w).1 = false.
Proof.
  intros He. unfold PgChat.EventInsert, bind. destruct (pg_newid w) as [id w1].
  destruct (wrapped _ _ w1) as [r w2] eqn:Hq. apply wrapped_run in Hq as [(e' & -> & _)|(now & a & t & Hf & _)]; [done |].
  exfalso. ran Hf. match goal with E : bool_decide (pe_Type e ∈ event_types) = true |- _ => apply bool_decide_eq_true in E as Hin end.
  destruct He as [He|He]; rewrite He in Hin; revert Hin; vm_compute; intros Hin;
    repeat (apply elem_of_cons in Hin as [Hin|Hin]; [discriminate Hin |]); by apply elem_of_nil in Hin.
Qed.

(** A chat without a user is given the user "anonymous-..." , which is not a UUID. *)
Theorem anonymous_chats_fail c w : sv_uuid (pg_server w) (c_UserID c) = None -> is_Ok (PgChat.ChatCreate c w).1 = false.
Proof.
  intros Hu. unfold PgChat.ChatCreate, bind_ok. destruct (wrapped _ _ w) as [r w2] eqn:Hq.
  apply wrapped_run in Hq as [(e' & -> & _)|(now & a & t & Hf & _)]; [done |]. exfalso.
  apply then_Ok in Hf as (id & _ & Hf). apply then_Ok in Hf as (user & Huser%read_uuid_Ok & _). congruence.
Qed.
