(* ===== verification/Tools.v ===== *)
(** * The tools of the planner: src/service/tool, and agent memory: src/service/agent/memory.go

    A tool reads its arguments from the call, asks a service, and packs the outcome into a
    result: errors of the service become the text of the result, never a Go error. Each
    tool has its definition (the schema the planner sees) and its Execute. *)

From Stdlib Require Import Ascii.
From S2P Require Import Prelude Exception Naming GoLib Domain World Json Orchestrator Chat EventHub ChatService.

Local Open Scope go_scope.

(** ** Definitions (core/domain/tool/tool.go) *)

#[warnings="-register-all"]
Inductive ToolParameter : Type := Build_ToolParameter {
  p_Type : string; p_Description : string; p_Required : bool; p_Items : option ToolParameter; p_Properties : list (string * ToolParameter) }.
Record ToolDefinition := { d_Name : string; d_Description : string; d_Parameters : list (string * ToolParameter) }.

Definition param (type descr : string) (required : bool) : ToolParameter :=
  {| p_Type := type; p_Description := descr; p_Required := required; p_Items := None; p_Properties := [] |}.

(** ** Arguments (vm_command.go) *)

Definition readStringArg (args : Args) (key : string) : option string :=
  match alookup key args with
  | Some (VStr s) => let text := trim_space s in if bool_decide (text = "") then None else Some text
  | _ => None
  end.
Definition readBoolArg (args : Args) (key : string) : option bool :=
  match alookup key args with Some (VBool b) => Some b | _ => None end.

(** The number of a JSON literal as a fraction. *)
Definition literal_fraction (s : string) : option (Z * Z) :=
  let '(neg, s1) := match s with String "-"%char t => (true, t) | _ => (false, s) end in
  match scan_int s1 with
  | None => None
  | Some (i, s2) =>
      match scan_frac s2 with
      | None => None
      | Some (f, s3) =>
          let digits := drop_str 1 f in
          let e := match s3 with
                   | EmptyString => Some 0
                   | String _ t => parse_int (match t with String "+"%char t' => t' | _ => t end)
                   end in
          match e with
          | None => None
          | Some e =>
              let m := dec_val 0 (i +:+ digits) in
              let m := if neg then - m else m in
              let e := e - Z.of_nat (str_len digits) in
              Some (if bool_decide (0 <= e) then (m * 10 ^ e, 1) else (m, 10 ^ (- e)))
          end
      end
  end.
(** Rounding to the nearest integer, halves to even. *)
Definition round_even (n d : Z) : Z :=
  let q := n / d in
  let r := 2 * (n mod d) in
  if bool_decide (r < d) then q else if bool_decide (d < r) then q + 1 else if Z.even q then q else q + 1.
(** [int(v)] of the float64 nearest to a fraction: the fraction is rounded to 53 bits, and
    the result is cut off towards zero; what is not an int64 becomes the smallest one
    (amd64). *)
Definition float_to_int (n d : Z) : Z :=
  let a := Z.abs n in
  let k := if bool_decide (a < d) then -53 else Z.log2 (a / d) - 52 in
  let x := if bool_decide (0 <= k) then round_even a (d * 2 ^ k) * 2 ^ k else round_even (a * 2 ^ (- k)) d / 2 ^ (- k) in
  let x := if bool_decide (n < 0) then - x else x in
  if bool_decide (i64 x = x) then x else - 2 ^ 63.
(** The dynamic type of a number among the arguments: encoding/json makes every number of
    the model's calls a float64, and the rule planner gives strings only, so no argument of
    this program is an int. *)
Inductive any_number := AnyFloat64 (n d : Z) | AnyInt (z : Z).
Definition dynamic_number (v : value) : option any_number :=
  match v with VNum t => match literal_fraction t with Some (n, d) => Some (AnyFloat64 n d) | None => None end | _ => None end.
(** [readIntArg]; the second result of the source tells a missing argument. *)
Definition readIntArg (args : Args) (key : string) : option Z :=
  match alookup key args with
  | None => None
  | Some v =>
      match dynamic_number v with
      | Some (AnyFloat64 n d) => Some (float_to_int n d)
      | Some (AnyInt z) => Some z
      | None => None
      end
  end.
Definition intArg (args : Args) (key : string) : Z := default 0 (readIntArg args key).

Example int_literal : readIntArg [("n", VNum "8000")] "n" = Some 8000.
Proof. reflexivity. Qed.
Example fraction_literal : readIntArg [("n", VNum "-12.75e1")] "n" = Some (-127).
Proof. reflexivity. Qed.
Example large_literal : readIntArg [("n", VNum "9007199254740993")] "n" = Some 9007199254740992.
Proof. reflexivity. Qed.

(** ** Results *)

Definition outcome : Type := Result * option error.
Definition failed (call : Call) (msg : string) : outcome :=
  ({| res_ToolCallID := call_ID call; res_ToolName := call_Name call; res_OK := false; res_Payload := VNil; res_Error := msg |}, None).
Definition succeeded (call : Call) (payload : Args) : outcome :=
  ({| res_ToolCallID := call_ID call; res_ToolName := call_Name call; res_OK := true; res_Payload := VMap payload; res_Error := "" |}, None).
Definition failed_with (call : Call) (msg : string) (payload : value) : outcome :=
  ({| res_ToolCallID := call_ID call; res_ToolName := call_Name call; res_OK := false; res_Payload := payload; res_Error := msg |}, None).

Section tools.
Context {W : Type}.

(** A tool reads the chat of the context and the call. *)
Definition Exec : Type := option string -> Call -> M W outcome.

(** [key, ok := readStringArg(...); if !ok { ... "missing required argument key" }] *)
Definition required (call : Call) (key : string) (k : string -> M W outcome) : M W outcome :=
  match readStringArg (call_Arguments call) key with
  | Some v => k v
  | None => ret (failed call ("missing required argument " +:+ key))
  end.
Definition in_chat (chat : option string) (call : Call) (k : string -> M W outcome) : M W outcome :=
  match chat with Some id => k id | None => ret (failed call "chat_id not available in context") end.
Definition on_error {A} (call : Call) (r : res A) (k : A -> M W outcome) : M W outcome :=
  match r with Ok a => k a | Err e => ret (failed call (Error e)) end.

(** ** plan.announce *)

Definition planMaxSteps : Z := 10.
Definition planMinSteps : Z := 1.
Definition plan_announce_Definition : ToolDefinition := {|
  d_Name := "plan.announce";
  d_Description := "Announce a multi-step plan the user can see before you start executing it. Use this when the task needs 2+ sequential steps so the user can redirect early. Non-blocking — the orchestrator continues executing after announcing; the user interrupts via the chat input if they want to change course.";
  d_Parameters := [
    ("summary", param "string" "1-2 sentence summary of what you are about to do and why." true);
    ("steps", {| p_Type := "array";
                 p_Description := "Ordered list of 1-10 steps. Each item is an object {" +:+ dquote +:+ "description" +:+ dquote +:+ ": string}.";
                 p_Required := true;
                 p_Items := Some {| p_Type := "object"; p_Description := ""; p_Required := false; p_Items := None;
                                    p_Properties := [("description", param "string" "What this step does, in one sentence." false)] |};
                 p_Properties := [] |})] |}.

(** The descriptions of the steps from number [i], or the first complaint. *)
Fixpoint plan_steps (i : Z) (raw : list value) : string + list value :=
  match raw with
  | [] => inr []
  | VMap m :: raw' =>
      let complaint := "steps[" +:+ fmt_d i +:+ "]: missing or empty 'description' string" in
      match alookup "description" m with
      | Some (VStr desc) =>
          if bool_decide (trim_space desc = "") then inl complaint
          else match plan_steps (i + 1) raw' with
               | inl msg => inl msg
               | inr steps => inr (VMap [("description", VStr desc)] :: steps)
               end
      | _ => inl complaint
      end
  | _ :: _ => inl ("steps[" +:+ fmt_d i +:+ "]: expected object with a description field")
  end.

Definition PlanAnnounceTool : Exec := fun _ call =>
  required call "summary" (fun summary =>
  match alookup "steps" (call_Arguments call) with
  | Some (VList rawSteps) =>
      let n := Z.of_nat (length rawSteps) in
      if bool_decide (n < planMinSteps) || bool_decide (planMaxSteps < n)
      then ret (failed call ("steps must contain " +:+ fmt_d planMinSteps +:+ "-" +:+ fmt_d planMaxSteps +:+ " items, got " +:+ fmt_d n))
      else match plan_steps 0 rawSteps with
           | inl msg => ret (failed call msg)
           | inr steps => ret (succeeded call [("summary", VStr summary); ("steps", VList steps); ("announced", VBool true);
                                               ("step_count", VInt (Z.of_nat (length steps)))])
           end
  | _ => ret (failed call "missing or invalid required argument steps (expected array)")
  end).

(** ** The memory tools (memory.go) *)

(** MemoryStore; [Get] gives the value, whether it was found, or an error. *)
Record MemoryStore := {
  ms_Set : string -> string -> string -> Z -> M W (res unit);
  ms_Get : string -> string -> M W (res (string * bool));
  ms_Delete : string -> string -> M W (res unit);
  ms_List : string -> M W (res (list MemoryEntry)) }.

Section memory.
Context (store : MemoryStore).

Definition memory_set_Definition : ToolDefinition := {|
  d_Name := "memory.set";
  d_Description := "Persist a small value (≤4KB) under a chat-scoped key. Survives VM snapshot/resume within the same chat. Use it to remember pointers, intentions, and partial plans across turns — not bulk data.";
  d_Parameters := [
    ("key", param "string" "Storage key. Must match [a-z0-9_:-]{1,64}." true);
    ("value", param "string" "Value to store. Hard limit 4 KB; larger payloads belong in a VM file." true);
    ("ttl_seconds", param "integer" "Optional wall-clock TTL. 0 or omitted = no expiry. Max 86400 (24h)." false)] |}.
Definition MemorySetTool : Exec := fun chat call =>
  in_chat chat call (fun chatID =>
  required call "key" (fun key =>
  required call "value" (fun value =>
  let ttlSeconds := intArg (call_Arguments call) "ttl_seconds" in
  let* r := ms_Set store chatID key value ttlSeconds in
  on_error call r (fun _ => ret (succeeded call [("key", VStr key); ("stored", VBool true)]))))).

Definition memory_get_Definition : ToolDefinition := {|
  d_Name := "memory.get";
  d_Description := "Read a value previously stored with memory.set. Returns an empty value when the key does not exist or has expired — never errors on missing keys.";
  d_Parameters := [("key", param "string" "Storage key previously written with memory.set." true)] |}.
Definition MemoryGetTool : Exec := fun chat call =>
  in_chat chat call (fun chatID =>
  required call "key" (fun key =>
  let* r := ms_Get store chatID key in
  on_error call r (fun vf => ret (succeeded call [("key", VStr key); ("value", VStr (fst vf)); ("found", VBool (snd vf))])))).

Definition memory_delete_Definition : ToolDefinition := {|
  d_Name := "memory.delete";
  d_Description := "Delete a chat-scoped key previously written with memory.set. Errors if the key does not exist (or has expired).";
  d_Parameters := [("key", param "string" "Storage key to remove." true)] |}.
Definition MemoryDeleteTool : Exec := fun chat call =>
  in_chat chat call (fun chatID =>
  required call "key" (fun key =>
  let* r := ms_Delete store chatID key in
  on_error call r (fun _ => ret (succeeded call [("key", VStr key); ("deleted", VBool true)])))).

(** [Format("2006-01-02T15:04:05Z")] *)
Definition format_utc (t : Z) : string :=
  let secs := t / second in
  let '(y, m, d) := civil (secs / 86400) in
  let sod := secs mod 86400 in
  pad 4 y +:+ "-" +:+ pad 2 m +:+ "-" +:+ pad 2 d +:+ "T"
  +:+ pad 2 (sod / 3600) +:+ ":" +:+ pad 2 (sod / 60 mod 60) +:+ ":" +:+ pad 2 (sod mod 60) +:+ "Z".

Definition memory_list_Definition : ToolDefinition := {|
  d_Name := "memory.list";
  d_Description := "List every key/value pair currently stored for this chat. Useful before re-planning a multi-step task to recall what was already observed.";
  d_Parameters := [] |}.
Definition memory_item (entry : MemoryEntry) : value :=
  VMap ([("key", VStr (me_Key entry)); ("value", VStr (me_Value entry))] ++
        (if bool_decide (me_ExpiresAt entry = 0) then [] else [("expires_at", VStr (format_utc (me_ExpiresAt entry)))])).
Definition MemoryListTool : Exec := fun chat call =>
  in_chat chat call (fun chatID =>
  let* r := ms_List store chatID in
  on_error call r (fun entries =>
    ret (succeeded call [("count", VInt (Z.of_nat (length entries))); ("entries", VList (map memory_item entries))]))).
End memory.

(** ** The VM tools *)

(** The subset of the VM service each tool needs; two calls give a value besides the error. *)
Record VMPort := {
  vt_ExecuteCommand : string -> string -> M W (string * option error);
  vt_ReadFile : string -> string -> Z -> Z -> M W (string * option error);
  vt_WriteFile : string -> string -> string -> Z -> M W (res unit);
  vt_EditFile : string -> string -> string -> string -> bool -> M W (res unit);
  vt_CreateSnapshot : string -> M W (res Snapshot);
  vt_Stop : string -> M W (res VM);
  vt_ResolveEnvironment : string -> M W (res string);
  vt_Create : string -> string -> string -> string -> Z -> option Z -> option Z -> option Z -> option Z -> M W (res VM);
  vt_AssignToChat : string -> string -> M W (res VM);
  vt_GetByEnvironmentAndChatID : string -> string -> M W (res VM);
  vt_HasSnapshot : string -> M W bool;
  vt_ListActiveLeasesByChat : string -> M W (res (list Lease));
  vt_ListPreviousLeasesForChat : string -> M W (res (list VM));
  vt_Get : string -> M W (res VM);
  vt_FindPreviousLeaseForChat : string -> M W (res VM);
  vt_ResumeVM : string -> string -> M W (res VM);
  vt_ResolveEnvironmentHint : string -> M W (res string) }.

(** payload.go *)
Definition vmBaseFields (vm : VM) : Args :=
  [("vm_id", VStr (vm_ID vm)); ("name", VStr (vm_Name vm)); ("status", VStr (Status_string (vm_Status vm)));
   ("provider", VStr (vm_Provider vm)); ("service_port", VInt (vm_ServicePort vm)); ("public_url", VStr (PublicURL vm))] ++
  match vm_IPAddress vm with
  | Some ip => if bool_decide (ip = "") then [] else [("ip_address", VStr ip)]
  | None => []
  end.

Definition vm_id_param : string * ToolParameter := ("vm_id", param "string" "Target VM identifier" true).

(** A tool whose service is missing. *)
Definition configured (svc : option VMPort) (what : string) (call : Call) (k : VMPort -> M W outcome) : M W outcome :=
  match svc with Some s => k s | None => ret (failed call ("vm " +:+ what +:+ " is not configured")) end.

Definition vm_execute_command_Definition : ToolDefinition := {|
  d_Name := "vm.execute_command";
  d_Description := "Execute a shell command inside a VM runtime";
  d_Parameters := [vm_id_param; ("command", param "string" "Shell command to execute" true)] |}.
Definition VMCommandTool (exec : option VMPort) : Exec := fun _ call =>
  configured exec "command executor" call (fun exec =>
  required call "vm_id" (fun vmID =>
  required call "command" (fun command =>
  let* r := vt_ExecuteCommand exec vmID command in
  let '(output, err) := r in
  let payload := VMap [("output", VStr (trim_space output))] in
  ret (match err with
       | Some e => failed_with call (Error e) (if bool_decide (output = "") then VNil else payload)
       | None => succeeded call [("output", VStr (trim_space output))]
       end)))).

Definition vm_read_file_Definition : ToolDefinition := {|
  d_Name := "vm.read_file";
  d_Description := "Read a file from a VM runtime, returning content with line numbers";
  d_Parameters := [vm_id_param; ("path", param "string" "Absolute path to the file to read" true);
    ("offset", param "integer" "1-based line number to start reading from (0 = from beginning)" false);
    ("limit", param "integer" "Maximum number of lines to return (0 = all)" false)] |}.
Definition VMReadFileTool (reader : option VMPort) : Exec := fun _ call =>
  configured reader "file reader" call (fun reader =>
  required call "vm_id" (fun vmID =>
  required call "path" (fun path =>
  let args := call_Arguments call in
  let* r := vt_ReadFile reader vmID path (intArg args "offset") (intArg args "limit") in
  let '(content, err) := r in
  ret (match err with
       | Some e => failed_with call (Error e) (if bool_decide (content = "") then VNil else VMap [("content", VStr content)])
       | None => succeeded call [("content", VStr content)]
       end)))).

Definition vm_write_file_Definition : ToolDefinition := {|
  d_Name := "vm.write_file";
  d_Description := "Write content to a file in a VM runtime, creating it if needed";
  d_Parameters := [vm_id_param; ("path", param "string" "Absolute path to the file to write" true);
    ("content", param "string" "File content to write" true);
    ("mode", param "integer" "File permission mode as decimal (e.g. 493 for 0755). Default: 420 (0644)" false)] |}.
Definition VMWriteFileTool (writer : option VMPort) : Exec := fun _ call =>
  configured writer "file writer" call (fun writer =>
  required call "vm_id" (fun vmID =>
  required call "path" (fun path =>
  required call "content" (fun content =>
  let* r := vt_WriteFile writer vmID path content (intArg (call_Arguments call) "mode") in
  on_error call r (fun _ => ret (succeeded call [
    ("path", VStr path); ("bytes_written", VInt (Z.of_nat (str_len content)));
    ("lines", VInt (Z.of_nat (length (split_on (chr 10) content)))); ("note", VStr "file written; do not re-read to verify")])))))).

Definition vm_edit_file_Definition : ToolDefinition := {|
  d_Name := "vm.edit_file";
  d_Description := "Replace an exact string in a file inside a VM runtime. Fails if the string is not found or matches multiple locations (unless replace_all is set).";
  d_Parameters := [vm_id_param; ("path", param "string" "Absolute path to the file to edit" true);
    ("old_string", param "string" "Exact string to find and replace" true);
    ("new_string", param "string" "Replacement string" true);
    ("replace_all", param "boolean" "Replace all occurrences instead of requiring a unique match" false)] |}.
Definition VMEditFileTool (editor : option VMPort) : Exec := fun _ call =>
  configured editor "file editor" call (fun editor =>
  required call "vm_id" (fun vmID =>
  required call "path" (fun path =>
  required call "old_string" (fun oldString =>
  required call "new_string" (fun newString =>
  let replaceAll := default false (readBoolArg (call_Arguments call) "replace_all") in
  let removed := VInt (Z.of_nat (str_len oldString)) in
  let added := VInt (Z.of_nat (str_len newString)) in
  let* r := vt_EditFile editor vmID path oldString newString replaceAll in
  on_error call r (fun _ => ret (succeeded call (
    if replaceAll
    then [("path", VStr path); ("replace_all", VBool true); ("bytes_removed_per_match", removed);
          ("bytes_added_per_match", added); ("note", VStr "all occurrences replaced; do not re-read to verify")]
    else [("path", VStr path); ("replacements", VInt 1); ("bytes_removed", removed); ("bytes_added", added);
          ("note", VStr "substitution applied; do not re-read to verify")])))))))).

Section vm_tools.
Context (svc : VMPort).

Definition vm_snapshot_Definition : ToolDefinition := {|
  d_Name := "vm.snapshot";
  d_Description := "Create a snapshot of a running VM to preserve its filesystem and memory state. Use this before stopping a VM if you want to resume it later with its state intact.";
  d_Parameters := [("vm_id", param "string" "ID of the VM to snapshot" true)] |}.
Definition VMSnapshotTool : Exec := fun _ call =>
  required call "vm_id" (fun vmID =>
  let* r := vt_CreateSnapshot svc vmID in
  on_error call r (fun snap => ret (succeeded call [
    ("snapshot_id", VStr (sn_ID snap)); ("vm_id", VStr (sn_VMID snap)); ("size_bytes", VInt (sn_SizeBytes snap));
    ("created_at", VStr (format_utc (sn_CreatedAt snap)))]))).

Definition vm_stop_Definition : ToolDefinition := {|
  d_Name := "vm.stop";
  d_Description := "Stop a VM that is currently running in this conversation. The VM will be released from the chat.";
  d_Parameters := [("vm_id", param "string" "ID of the VM to stop" true)] |}.
Definition VMStopTool : Exec := fun _ call =>
  required call "vm_id" (fun vmID =>
  let* r := vt_Stop svc vmID in
  on_error call r (fun vm => ret (succeeded call [("vm_id", VStr (vm_ID vm)); ("status", VStr (Status_string (vm_Status vm)))]))).

Definition vm_create_Definition : ToolDefinition := {|
  d_Name := "vm.create";
  d_Description := "Create a new microVM and assign it to the current conversation. Returns the VM ID for use with vm.execute_command.";
  d_Parameters := [
    ("environment", param "string" "Environment type: 'uv' (Python/data science), 'bun' (JS/TS), or 'ubuntu' (generic shell). Pick the most specific match for the task." true);
    ("service_port", param "integer" "Port the VM's server listens on inside the VM. The VM is exposed publicly at https://<vm-name>.box.spacetrek.xyz, which forwards to this port. Defaults to 80. Set this to match the port your server binds (e.g. 8000 for uvicorn, 3000 for next dev, 5173 for vite)." false)] |}.

Definition already_active (vm : VM) : string :=
  "A VM with this environment is already active (id=" +:+ vm_ID vm +:+ ", status=" +:+ Status_string (vm_Status vm) +:+ "). "
  +:+ "Use vm.execute_command with vm_id=" +:+ vm_ID vm +:+ " directly.".
Definition already_exists (vm : VM) (hasSnapshot : bool) : string :=
  let hint := if hasSnapshot then "Use vm.start with vm_id=" +:+ vm_ID vm +:+ " to restore its workspace" else "Use vm.start" in
  "A VM with this environment already exists for this chat (id=" +:+ vm_ID vm +:+ ", status=" +:+ Status_string (vm_Status vm)
  +:+ "). " +:+ hint +:+ ".".
(** The VM of the environment the chat already has: the complaint about it. *)
Definition duplicate (envID chatID : string) : M W (option string) :=
  let* existing := vt_GetByEnvironmentAndChatID svc envID chatID in
  match existing with
  | Err _ => ret None
  | Ok vm =>
      if IsActive (vm_Status vm) then ret (Some (already_active vm))
      else if negb (IsTerminal (vm_Status vm)) then
        let* hasSnapshot := vt_HasSnapshot svc (vm_ID vm) in ret (Some (already_exists vm hasSnapshot))
      else ret None
  end.

Definition create_and_assign (chatID envID envType : string) (call : Call) (servicePort : option Z) : M W outcome :=
  let* vm := vt_Create svc envID chatID ProviderFirecracker "" 2 None None None servicePort in
  on_error call vm (fun vm =>
  let* assigned := vt_AssignToChat svc (vm_ID vm) chatID in
  on_error call assigned (fun assigned =>
    ret (succeeded call (vmBaseFields assigned ++ [("environment", VStr envType)])))).
Definition VMCreateTool : Exec := fun chat call =>
  in_chat chat call (fun chatID =>
  required call "environment" (fun envType =>
  let* env := vt_ResolveEnvironment svc envType in
  on_error call env (fun envID =>
  let* dup := duplicate envID chatID in
  match dup with
  | Some msg => ret (failed call msg)
  | None =>
      let port := readIntArg (call_Arguments call) "service_port" in
      match port with
      | Some p =>
          if bool_decide (p < 1) || bool_decide (65535 < p)
          then ret (failed call ("service_port must be between 1 and 65535, got " +:+ fmt_d p))
          else create_and_assign chatID envID envType call port
      | None => create_and_assign chatID envID envType call None
      end
  end))).

Definition vm_list_Definition : ToolDefinition := {|
  d_Name := "vm.list";
  d_Description := "List all VMs for this conversation. Returns currently active VMs and previously used VMs that can be restored. Use the vm_id from the results with vm.start to restore a specific VM.";
  d_Parameters := [] |}.
Fixpoint leased_vms (leases : list Lease) : M W (list value) :=
  match leases with
  | [] => ret []
  | lease :: leases' =>
      let* vm := vt_Get svc (le_VMID lease) in
      let* rest := leased_vms leases' in
      ret (match vm with Ok vm => VMap (vmBaseFields vm) :: rest | Err _ => rest end)
  end.
Fixpoint previous_vms (vms : list VM) : M W (list value) :=
  match vms with
  | [] => ret []
  | vm :: vms' =>
      let* hasSnapshot := vt_HasSnapshot svc (vm_ID vm) in
      let* rest := previous_vms vms' in
      ret (VMap (vmBaseFields vm ++ [("has_snapshot", VBool hasSnapshot)]) :: rest)
  end.
Definition VMListTool : Exec := fun chat call =>
  in_chat chat call (fun chatID =>
  let* leases := vt_ListActiveLeasesByChat svc chatID in
  on_error call leases (fun leases =>
  let* active := leased_vms leases in
  let* prev := vt_ListPreviousLeasesForChat svc chatID in
  let* previous := previous_vms (match prev with Ok vms => vms | Err _ => [] end) in
  ret (succeeded call [("active", VList active); ("previous", VList previous)]))).

Definition vm_start_Definition : ToolDefinition := {|
  d_Name := "vm.start";
  d_Description := "Resume a VM for this conversation. Without vm_id, restores the most recent VM. With vm_id, restores that specific VM. If the VM has a snapshot and is not running, it will be restored from snapshot with its previous filesystem state. Use vm.list to discover available VMs.";
  d_Parameters := [("vm_id", param "string" "Optional ID of a specific VM to restore. If omitted, the most recent VM is used." false)] |}.
Definition enrichedPayload (vm : VM) (restored : bool) : M W Args :=
  let* env := vt_ResolveEnvironmentHint svc (vm_ID vm) in
  ret (vmBaseFields vm ++ (if restored then [("restored", VBool true)] else []) ++
       match env with Ok envType => if bool_decide (envType = "") then [] else [("environment", VStr envType)] | Err _ => [] end).
Definition VMStartTool : Exec := fun chat call =>
  in_chat chat call (fun chatID =>
  let* vm := (match readStringArg (call_Arguments call) "vm_id" with
              | Some vmID => let* r := vt_Get svc vmID in
                             ret (match r with Ok vm => inr vm | Err _ => inl ("VM not found: " +:+ vmID) end)
              | None => let* r := vt_FindPreviousLeaseForChat svc chatID in
                        ret (match r with Ok vm => inr vm
                                        | Err _ => inl "No previous VM found for this chat. Use vm.create to create a new one." end)
              end) in
  match vm with
  | inl msg => ret (failed call msg)
  | inr vm =>
      let* hasSnapshot := vt_HasSnapshot svc (vm_ID vm) in
      if hasSnapshot && negb (IsActive (vm_Status vm)) then
        let* r := vt_ResumeVM svc (vm_ID vm) chatID in
        match r with
        | Err e => ret (failed call ("Failed to restore VM from snapshot: " +:+ Error e))
        | Ok assigned => let* payload := enrichedPayload assigned true in ret (succeeded call payload)
        end
      else
        let* r := vt_AssignToChat svc (vm_ID vm) chatID in
        on_error call r (fun assigned => let* payload := enrichedPayload assigned false in ret (succeeded call payload))
  end).
End vm_tools.

(** The tools as the registry holds them. *)
Definition tool_of (d : ToolDefinition) (exec : Exec) : Tool W :=
  {| t_Name := d_Name d; t_Execute := fun chat _ call => exec (Some chat) call |}.
Definition all_tools (store : MemoryStore) (svc : VMPort) : list (ToolDefinition * Exec) := [
  (memory_set_Definition, MemorySetTool store); (memory_get_Definition, MemoryGetTool store);
  (memory_delete_Definition, MemoryDeleteTool store); (memory_list_Definition, MemoryListTool store);
  (plan_announce_Definition, PlanAnnounceTool); (vm_execute_command_Definition, VMCommandTool (Some svc));
  (vm_create_Definition, VMCreateTool svc); (vm_edit_file_Definition, VMEditFileTool (Some svc));
  (vm_list_Definition, VMListTool svc); (vm_read_file_Definition, VMReadFileTool (Some svc));
  (vm_snapshot_Definition, VMSnapshotTool svc); (vm_start_Definition, VMStartTool svc);
  (vm_stop_Definition, VMStopTool svc); (vm_write_file_Definition, VMWriteFileTool (Some svc))].
End tools.

(** ** Agent memory (service/agent/memory.go) *)

Definition memoryMaxValueBytes : Z := 4 * 1024.
Definition memoryMaxTTLSeconds : Z := 24 * 60 * 60.
Definition memoryKeyMaxLen : Z := 64.
(** [a-z0-9_:-] *)
Definition key_char (c : ascii) : bool :=
  bool_decide (97 <= code c <= 122) || bool_decide (48 <= code c <= 57) || bool_decide (code c = 95) ||
  bool_decide (code c = 58) || bool_decide (code c = 45).
Definition ValidateMemoryKey (key : string) : bool :=
  bool_decide (1 <= Z.of_nat (str_len key) <= memoryKeyMaxLen) && all_bytes key_char key.

(** agent.MemoryRepository *)
Record MemoryRepository (W : Type) := {
  mr_Set : MemoryEntry -> M W (res unit); mr_Get : string -> string -> M W (res MemoryEntry);
  mr_Delete : string -> string -> M W (res unit); mr_List : string -> M W (res (list MemoryEntry)) }.
Arguments mr_Set {W}. Arguments mr_Get {W}. Arguments mr_Delete {W}. Arguments mr_List {W}.

Section memory_service.
Context {W : Type} (repo : MemoryRepository W) (now : M W Z).

Definition Set_ (chatID key value : string) (ttlSeconds : Z) : M W (res unit) :=
  if negb (ValidateMemoryKey key)
  then ret (Err (BadRequest ("invalid memory key " +:+ fmt_q key +:+ ": must match [a-z0-9_:-]{1," +:+ fmt_d memoryKeyMaxLen +:+ "}")))
  else if bool_decide (memoryMaxValueBytes < Z.of_nat (str_len value))
  then ret (Err (BadRequest ("memory value exceeds " +:+ fmt_d memoryMaxValueBytes +:+ "-byte limit")))
  else if bool_decide (ttlSeconds < 0) || bool_decide (memoryMaxTTLSeconds < ttlSeconds)
  then ret (Err (BadRequest ("ttl_seconds must be between 0 and " +:+ fmt_d memoryMaxTTLSeconds)))
  else
    let* expires := (if bool_decide (0 < ttlSeconds) then let* t := now in ret (t + ttlSeconds * second) else ret 0) in
    mr_Set repo {| me_ChatID := chatID; me_Key := key; me_Value := value; me_ExpiresAt := expires; me_CreatedAt := 0; me_UpdatedAt := 0 |}.

Definition is_not_found (e : error) : bool :=
  match as_app_error e with Some (EApp c _ _ _ _) => bool_decide (c = CodeNotFound) | _ => false end.
Definition Get_ (chatID key : string) : M W (res (string * bool)) :=
  let* r := mr_Get repo chatID key in
  ret (match r with
       | Ok entry => Ok (me_Value entry, true)
       | Err e => if is_not_found e then Ok ("", false) else Err e
       end).

Definition MemoryService : MemoryStore (W := W) :=
  {| ms_Set := Set_; ms_Get := Get_; ms_Delete := mr_Delete repo; ms_List := mr_List repo |}.
End memory_service.
