(* ===== verification/ToolSpec.v ===== *)
(** * What the tools promise

    Every tool answers the call it was given and reports failures as results; a required
    argument that is missing stops it before anything happens. A tool changes the world
    only through its service, so a turn of the orchestrator with the VM tools over the VM
    service keeps the database invariant. What a chat remembers it reads back, and other
    chats do not see it. *)

From S2P Require Import Prelude Exception Naming GoLib Domain World PgRepo IPAlloc Interfaces Hoare Invariants RepoFacts.
From S2P Require Import VMExec VMSnapshot SnapFacts SnapGC VMService VMResume VMInv.
From S2P Require Import Json Orchestrator OrchSpec Chat MemRepo EventHub ChatService Tools.

(** ** Results *)

Definition packed (call : Call) (o : outcome) : Prop :=
  o.2 = None /\ res_ToolCallID o.1 = call_ID call /\ res_ToolName o.1 = call_Name call /\
  (res_OK o.1 = true -> res_Error o.1 = "").

Section packing.
Context {W : Type}.

Definition packs (call : Call) (m : M W outcome) : Prop := forall w, packed call (m w).1.

Lemma packs_ret call o : packed call o -> packs call (ret o).
Proof. by intros H w. Qed.
Lemma packs_bind {A} call (m : M W A) k : (forall a, packs call (k a)) -> packs call (bind m k).
Proof. intros H w. unfold bind. destruct (m w) as [a w']. apply H. Qed.
Lemma packed_failed call msg : packed call (failed call msg).
Proof. by split_and!. Qed.
Lemma packed_failed_with call msg p : packed call (failed_with call msg p).
Proof. by split_and!. Qed.
Lemma packed_succeeded call p : packed call (succeeded call p).
Proof. by split_and!. Qed.
Lemma packs_required call key (k : string -> M W outcome) : (forall v, packs call (k v)) -> packs call (required call key k).
Proof. intros H. unfold required. destruct (readStringArg _ _); [apply H | apply packs_ret, packed_failed]. Qed.
Lemma packs_in_chat chat call (k : string -> M W outcome) : (forall v, packs call (k v)) -> packs call (in_chat chat call k).
Proof. intros H. destruct chat; [apply H | apply packs_ret, packed_failed]. Qed.
Lemma packs_on_error {A} call (r : res A) (k : A -> M W outcome) : (forall v, packs call (k v)) -> packs call (on_error call r k).
Proof. intros H. destruct r; [apply H | apply packs_ret, packed_failed]. Qed.
End packing.

Ltac packs_step :=
  match goal with
  | |- packs _ (ret _) => apply packs_ret
  | |- packs _ (bind _ _) => apply packs_bind; intros ?
  | |- packs _ (required _ _ _) => apply packs_required; intros ?
  | |- packs _ (in_chat _ _ _) => apply packs_in_chat; intros ?
  | |- packs _ (on_error _ _ _) => apply packs_on_error; intros ?
  | |- packs _ (configured (Some _) _ _ _) => unfold configured
  | |- packs _ (create_and_assign _ _ _ _ _ _) => unfold create_and_assign
  | |- packed _ (failed _ _) => apply packed_failed
  | |- packed _ (failed_with _ _ _) => apply packed_failed_with
  | |- packed _ (succeeded _ _) => apply packed_succeeded
  | |- packs _ (match ?x with _ => _ end) => destruct x
  | |- packed _ (match ?x with _ => _ end) => destruct x
  end.

(** A required string that is missing, and what a tool does then: nothing. *)
Definition lacks (d : ToolDefinition) (call : Call) : Prop :=
  exists key p, (key, p) ∈ d_Parameters d /\ p_Required p = true /\ p_Type p = "string" /\ readStringArg (call_Arguments call) key = None.
Definition refused {W} (call : Call) (m : M W outcome) : Prop := forall w, (m w).2 = w /\ res_OK (m w).1.1 = false.

Lemma refused_required {W} call key (k : string -> M W outcome) :
  (forall v, readStringArg (call_Arguments call) key = Some v -> refused call (k v)) -> refused call (required call key k).
Proof. intros H w. unfold required. destruct (readStringArg _ _) as [v|]; [by apply H | done]. Qed.

Section all.
Context {W : Type} (store : MemoryStore (W := W)) (svc : VMPort (W := W)).

Lemma tools_pack d exec chat call : (d, exec) ∈ all_tools store svc -> packs call (exec chat call).
Proof.
  unfold all_tools. intros H. repeat (apply elem_of_cons in H as [H|H]; [injection H as -> ->; cbv beta delta [
    MemorySetTool MemoryGetTool MemoryDeleteTool MemoryListTool PlanAnnounceTool VMCommandTool VMCreateTool VMEditFileTool
    VMListTool VMReadFileTool VMSnapshotTool VMStartTool VMStopTool VMWriteFileTool]; cbv zeta; repeat packs_step |]).
  by apply elem_of_nil in H.
Qed.

Lemma tools_refuse d exec chat call : (d, exec) ∈ all_tools store svc -> lacks d call -> refused call (exec (Some chat) call).
Proof.
  unfold all_tools. intros H (key & p & Hp & Hreq & Hty & Hnone).
  repeat (apply elem_of_cons in H as [H|H]; [injection H as -> ->; cbn [d_Parameters plan_announce_Definition memory_set_Definition
      memory_get_Definition memory_delete_Definition memory_list_Definition vm_execute_command_Definition vm_create_Definition
      vm_edit_file_Definition vm_list_Definition vm_read_file_Definition vm_snapshot_Definition vm_start_Definition
      vm_stop_Definition vm_write_file_Definition] in Hp;
    repeat (apply elem_of_cons in Hp as [Hp|Hp]; [injection Hp as -> ->; try discriminate;
      cbv beta delta [MemorySetTool MemoryGetTool MemoryDeleteTool PlanAnnounceTool VMCommandTool VMCreateTool VMEditFileTool
        VMReadFileTool VMSnapshotTool VMStopTool VMWriteFileTool configured in_chat]; cbv iota;
      repeat (apply refused_required; intros ? ?); exfalso; congruence |]); by apply elem_of_nil in Hp |]).
  by apply elem_of_nil in H.
Qed.

(** C22: Every tool, on every call and in every state of its service, answers that call: it
    never returns a Go error, its result carries the id and the name of the call, and a
    successful result has no error text. When a string that the tool declares as required
    is missing, blank or not a string, the result is a failure and nothing was done. *)
Theorem tools_answer d exec chat call w : (d, exec) ∈ all_tools store svc ->
  packed call (exec (Some chat) call w).1 /\
  (lacks d call -> (exec (Some chat) call w).2 = w /\ res_OK (exec (Some chat) call w).1.1 = false).
Proof.
  intros H. split; [by apply (tools_pack d) | intros Hl; by apply (tools_refuse d exec chat call H Hl)].
Qed.
End all.

(** ** What a tool does to the world *)

(** [R] relates the worlds before and after every operation of the VM port. *)
Class PortWithin {W} (R : W -> W -> Prop) (svc : VMPort (W := W)) : Prop := {
  pw_execute id c : keeps R (vt_ExecuteCommand svc id c); pw_read id p o l : keeps R (vt_ReadFile svc id p o l);
  pw_write id p c m : keeps R (vt_WriteFile svc id p c m); pw_edit id p a b all : keeps R (vt_EditFile svc id p a b all);
  pw_snapshot id : keeps R (vt_CreateSnapshot svc id); pw_stop id : keeps R (vt_Stop svc id);
  pw_env e : keeps R (vt_ResolveEnvironment svc e);
  pw_create e c p n ws vcpu mem disk port : keeps R (vt_Create svc e c p n ws vcpu mem disk port);
  pw_assign id c : keeps R (vt_AssignToChat svc id c); pw_existing e c : keeps R (vt_GetByEnvironmentAndChatID svc e c);
  pw_has id : keeps R (vt_HasSnapshot svc id); pw_leases c : keeps R (vt_ListActiveLeasesByChat svc c);
  pw_previous c : keeps R (vt_ListPreviousLeasesForChat svc c); pw_get id : keeps R (vt_Get svc id);
  pw_last c : keeps R (vt_FindPreviousLeaseForChat svc c); pw_resume id c : keeps R (vt_ResumeVM svc id c);
  pw_hint id : keeps R (vt_ResolveEnvironmentHint svc id) }.
Class MemoryWithin {W} (R : W -> W -> Prop) (store : MemoryStore (W := W)) : Prop := {
  mw_set c k v t : keeps R (ms_Set store c k v t); mw_get c k : keeps R (ms_Get store c k);
  mw_delete c k : keeps R (ms_Delete store c k); mw_list c : keeps R (ms_List store c) }.
#[export] Hint Resolve pw_execute pw_read pw_write pw_edit pw_snapshot pw_stop pw_env pw_create pw_assign pw_existing pw_has
  pw_leases pw_previous pw_get pw_last pw_resume pw_hint mw_set mw_get mw_delete mw_list : keeps.

Section within.
Context {W : Type} (R : W -> W -> Prop) `{!PreOrder R} (store : MemoryStore (W := W)) (svc : VMPort (W := W)).
Context `{!PortWithin R svc} `{!MemoryWithin R store}.

Lemma required_keeps call key (k : string -> M W outcome) : (forall v, keeps R (k v)) -> keeps R (required call key k).
Proof. intros H. unfold required. go_keeps. Qed.
Lemma in_chat_keeps chat call (k : string -> M W outcome) : (forall v, keeps R (k v)) -> keeps R (in_chat chat call k).
Proof. intros H. unfold in_chat. go_keeps. Qed.
Lemma on_error_keeps {A} call (r : res A) (k : A -> M W outcome) : (forall v, keeps R (k v)) -> keeps R (on_error call r k).
Proof. intros H. unfold on_error. go_keeps. Qed.
Lemma create_and_assign_keeps chat env type call port : keeps R (create_and_assign svc chat env type call port).
Proof.
  unfold create_and_assign. apply keeps_bind; [apply _ | apply pw_create | intros vm; apply on_error_keeps; intros v].
  apply keeps_bind; [apply _ | apply pw_assign | intros r; apply on_error_keeps; intros a; by apply keeps_ret].
Qed.
Lemma duplicate_keeps env chat : keeps R (duplicate svc env chat).
Proof. unfold duplicate. go_keeps. Qed.
Lemma leased_vms_keeps l : keeps R (leased_vms svc l).
Proof. induction l; cbn [leased_vms]; go_keeps. Qed.
Lemma previous_vms_keeps l : keeps R (previous_vms svc l).
Proof. induction l; cbn [previous_vms]; go_keeps. Qed.
Lemma enriched_keeps vm b : keeps R (enrichedPayload svc vm b).
Proof. unfold enrichedPayload. go_keeps. Qed.
Hint Resolve create_and_assign_keeps duplicate_keeps leased_vms_keeps previous_vms_keeps enriched_keeps : keeps.

Ltac tool_keeps :=
  repeat first [ solve [eauto 3 with keeps]
    | match goal with
      | |- keeps _ (required _ _ _) => apply required_keeps; intros ?
      | |- keeps _ (in_chat _ _ _) => apply in_chat_keeps; intros ?
      | |- keeps _ (on_error _ _ _) => apply on_error_keeps; intros ?
      | |- keeps _ (configured (Some _) _ _ _) => unfold configured
      end
    | go_keeps_step ].

Lemma tools_keep d exec chat call : (d, exec) ∈ all_tools store svc -> keeps R (exec chat call).
Proof.
  unfold all_tools. intros H. repeat (apply elem_of_cons in H as [H|H]; [injection H as -> ->; cbv beta delta [
    MemorySetTool MemoryGetTool MemoryDeleteTool MemoryListTool PlanAnnounceTool VMCommandTool VMCreateTool VMEditFileTool
    VMListTool VMReadFileTool VMSnapshotTool VMStartTool VMStopTool VMWriteFileTool]; cbv zeta; tool_keeps |]).
  by apply elem_of_nil in H.
Qed.
End within.

(** ** What a chat remembers *)

Definition MemMemory : MemoryRepository Mem := {|
  mr_Set := MemorySet; mr_Get := MemoryGet; mr_Delete := MemoryDelete; mr_List := MemoryList |}.
Definition mem_memory : MemoryStore (W := Mem) := MemoryService MemMemory mnow.

(** The calls on the memory of all chats. *)
Inductive MemoryOp := MSet (chat key value : string) (ttl : Z) | MGet (chat key : string) | MDelete (chat key : string) | MList (chat : string).
Definition memory_op (o : MemoryOp) (w : Mem) : Mem :=
  match o with
  | MSet c k v t => (ms_Set mem_memory c k v t w).2
  | MGet c k => (ms_Get mem_memory c k w).2
  | MDelete c k => (ms_Delete mem_memory c k w).2
  | MList c => (ms_List mem_memory c w).2
  end.
Definition chat_of (o : MemoryOp) : string := match o with MSet c _ _ _ | MGet c _ | MDelete c _ | MList c => c end.
Definition overwrites (chat key : string) (o : MemoryOp) : Prop :=
  match o with MSet c k _ _ | MDelete c k => c = chat /\ k = key | _ => False end.

Definition no_nul (s : string) : Prop := all_bytes (fun c => negb (bool_decide (code c = 0))) s = true.

Lemma no_nul_cons c s : no_nul (String c s) <-> code c <> 0 /\ no_nul s.
Proof. unfold no_nul. cbn. rewrite andb_true_iff, negb_true_iff, bool_decide_eq_false. done. Qed.
Lemma agentMemoryKey_inj c c' k k' : no_nul c -> no_nul c' -> agentMemoryKey c k = agentMemoryKey c' k' -> c = c' /\ k = k'.
Proof.
  unfold agentMemoryKey. revert c'. induction c as [|a c IH]; intros [|a' c'] H H' E.
  - by injection E as ->.
  - apply no_nul_cons in H' as [H' _]. cbn in E. injection E as <- _. by destruct H'.
  - apply no_nul_cons in H as [H _]. cbn in E. injection E as -> _. by destruct H.
  - apply no_nul_cons in H as [_ H]. apply no_nul_cons in H' as [_ H']. cbn in E. injection E as -> E.
    by destruct (IH c' H H' E) as [-> ->].
Qed.

Section recall.
Context (chat key : string) (Hchat : no_nul chat).
Definition undisturbed (w w' : Mem) : Prop :=
  mw_entries w' !! agentMemoryKey chat key = mw_entries w !! agentMemoryKey chat key.
#[local] Instance undisturbed_pre : PreOrder undisturbed.
Proof. split; [done | intros a b c H1 H2; unfold undisturbed in *; congruence]. Qed.

Lemma now_undisturbed : keeps undisturbed mnow.
Proof. by intros w. Qed.
Lemma expired_entries e w : mw_entries (check_expired e w).2 = mw_entries w.
Proof. unfold check_expired. by case_bool_decide. Qed.
Lemma expired_undisturbed e : keeps undisturbed (check_expired e).
Proof. intros w. unfold undisturbed. by rewrite expired_entries. Qed.
Hint Resolve now_undisturbed expired_undisturbed : keeps.
Lemma get_undisturbed c k : keeps undisturbed (MemoryGet c k).
Proof.
  intros w. unfold MemoryGet. destruct (_ !! _) as [e|]; [| done]. pose proof (expired_undisturbed e w) as H.
  by destruct (check_expired e w).
Qed.
Lemma list_undisturbed c : keeps undisturbed (MemoryList c).
Proof.
  assert (Hl : forall l, keeps undisturbed (live_entries c l)) by (induction l; cbn [live_entries]; go_keeps).
  intros w. unfold MemoryList. specialize (Hl (snd <$> map_to_list (mw_entries w)) w). by destruct (live_entries _ _ w).
Qed.
Lemma delete_undisturbed c k : no_nul c -> ~ (c = chat /\ k = key) -> keeps undisturbed (MemoryDelete c k).
Proof.
  intros Hc Hne w. unfold MemoryDelete. destruct (_ !! _) as [e|]; [| done]. pose proof (expired_undisturbed e w) as H.
  destruct (check_expired e w) as [[] w']; [exact H |]. etrans; [exact H |]. unfold undisturbed. cbn.
  apply lookup_delete_ne. intros E. by apply Hne, agentMemoryKey_inj.
Qed.
Lemma set_undisturbed e : no_nul (me_ChatID e) -> ~ (me_ChatID e = chat /\ me_Key e = key) -> keeps undisturbed (MemorySet e).
Proof.
  intros Hc Hne w. unfold undisturbed. cbn. apply lookup_insert_ne. intros E. by apply Hne, agentMemoryKey_inj.
Qed.
Hint Resolve get_undisturbed list_undisturbed delete_undisturbed set_undisturbed : keeps.
Lemma memory_op_undisturbed o : no_nul (chat_of o) -> ~ overwrites chat key o -> forall w, undisturbed w (memory_op o w).
Proof.
  destruct o as [c k v t|c k|c k|c]; cbn [chat_of overwrites memory_op]; intros Hc Hne.
  - change (keeps undisturbed (ms_Set mem_memory c k v t)). cbn. unfold Set_. go_keeps.
  - change (keeps undisturbed (ms_Get mem_memory c k)). cbn. unfold Get_. go_keeps.
  - by apply delete_undisturbed.
  - apply list_undisturbed.
Qed.
Lemma memory_ops_undisturbed ops w : Forall (fun o => no_nul (chat_of o)) ops -> Forall (fun o => ~ overwrites chat key o) ops ->
  undisturbed w (fold_left (fun w o => memory_op o w) ops w).
Proof.
  revert w. induction ops as [|o ops IH]; intros w H1 H2; [done |].
  apply Forall_cons in H1 as [Ho1 H1]. apply Forall_cons in H2 as [Ho2 H2]. cbn.
  etrans; [by apply memory_op_undisturbed | by apply IH].
Qed.
End recall.

(** What [Set_] stores when it accepts. *)
Lemma Set_stores chat key value ttl w : (ms_Set mem_memory chat key value ttl w).1 = Ok tt ->
  ValidateMemoryKey key = true /\ Z.of_nat (str_len value) <= memoryMaxValueBytes /\ 0 <= ttl <= memoryMaxTTLSeconds /\
  exists e, mw_entries (ms_Set mem_memory chat key value ttl w).2 !! agentMemoryKey chat key = Some e /\ me_Value e = value /\
    me_ExpiresAt e = (if bool_decide (0 < ttl) then mw_times w (mw_tick w) + ttl * second else 0).
Proof.
  cbn. unfold Set_. destruct (ValidateMemoryKey key); cbn [negb]; [| done].
  case_bool_decide; [done |]. destruct (bool_decide (ttl < 0) || _) eqn:Ht; [done |].
  apply orb_false_iff in Ht as [Ht1%bool_decide_eq_false Ht2%bool_decide_eq_false]. intros _. split_and!; [done | lia | lia | lia |].
  unfold bind, ret. case_bool_decide; cbn; rewrite lookup_insert_eq; eexists; by split_and!.
Qed.

(** C23: What a chat stores it reads back, and no other chat changes it. When memory.set
    accepts a value (a key of 1 to 64 of [a-z0-9_:-], at most 4096 bytes, a time to live of
    at most a day), then after any calls on the memory of any chats, other than setting or
    deleting this key in this chat, memory.get returns the value until its expiry, and
    after that reports it as missing, without an error. *)
Theorem memory_roundtrip chat key value ttl ops w :
  no_nul chat -> Forall (fun o => no_nul (chat_of o)) ops -> Forall (fun o => ~ overwrites chat key o) ops ->
  (ms_Set mem_memory chat key value ttl w).1 = Ok tt ->
  (ValidateMemoryKey key = true /\ Z.of_nat (str_len value) <= memoryMaxValueBytes /\ 0 <= ttl <= memoryMaxTTLSeconds) /\
  let w' := fold_left (fun w o => memory_op o w) ops (ms_Set mem_memory chat key value ttl w).2 in
  (ms_Get mem_memory chat key w').1 =
    if bool_decide (0 < ttl) && bool_decide (mw_times w (mw_tick w) + ttl * second < mw_times w' (mw_tick w'))
       && negb (bool_decide (mw_times w (mw_tick w) + ttl * second = 0))
    then Ok ("", false) else Ok (value, true).
Proof.
  intros Hchat Hops Hnot Hset. destruct (Set_stores _ _ _ _ _ Hset) as (Hk & Hv & Ht & e & He & <- & Hexp).
  split; [tauto |]. intros w'. pose proof (memory_ops_undisturbed chat key Hchat ops (ms_Set mem_memory chat key (me_Value e) ttl w).2 Hops Hnot) as H.
  unfold undisturbed in H. rewrite He in H. fold w' in H. clearbody w'. cbn. unfold Get_, bind, ret. cbn. unfold MemoryGet.
  rewrite H. unfold check_expired, isAgentMemoryExpired. cbn. rewrite Hexp. case_bool_decide; [| done]. cbn [andb].
  destruct (decide (mw_times w (mw_tick w) + ttl * second = 0)) as [E|E].
  - rewrite !(bool_decide_eq_true_2 _ E). cbn. by rewrite !andb_false_r.
  - rewrite !(bool_decide_eq_false_2 _ E). cbn. rewrite andb_true_r. by case_bool_decide.
Qed.

(** ** Examples *)

(** A service without VMs. *)
Definition no_vm {A} : M Mem (res A) := ret (Err (NotFound "vm" "")).
Definition no_vms : VMPort (W := Mem) := {|
  vt_ExecuteCommand := fun _ _ => ret ("", Some (NotFound "vm" "")); vt_ReadFile := fun _ _ _ _ => ret ("", Some (NotFound "vm" ""));
  vt_WriteFile := fun _ _ _ _ => no_vm; vt_EditFile := fun _ _ _ _ _ => no_vm; vt_CreateSnapshot := fun _ => no_vm;
  vt_Stop := fun _ => no_vm; vt_ResolveEnvironment := fun _ => no_vm; vt_Create := fun _ _ _ _ _ _ _ _ _ => no_vm;
  vt_AssignToChat := fun _ _ => no_vm; vt_GetByEnvironmentAndChatID := fun _ _ => no_vm; vt_HasSnapshot := fun _ => ret false;
  vt_ListActiveLeasesByChat := fun _ => ret (Ok []); vt_ListPreviousLeasesForChat := fun _ => ret (Ok []); vt_Get := fun _ => no_vm;
  vt_FindPreviousLeaseForChat := fun _ => no_vm; vt_ResumeVM := fun _ _ => no_vm; vt_ResolveEnvironmentHint := fun _ => no_vm |}.
Definition blank_key : Call := {| call_ID := "1"; call_Name := "memory.set"; call_Arguments := [("key", VStr " "); ("value", VStr "x")] |}.

Lemma tools_answer_witness :
  let o := MemorySetTool mem_memory (Some "c") blank_key (sample_mem []) in
  o = (failed blank_key "missing required argument key", sample_mem []) /\ packed blank_key o.1 /\ res_OK o.1.1 = false.
Proof.
  destruct (tools_answer mem_memory no_vms memory_set_Definition (MemorySetTool mem_memory) "c" blank_key (sample_mem [])) as [H1 H2].
  - apply list_elem_of_here.
  - split; [reflexivity |]. split; [exact H1 |]. apply H2. exists "key". eexists. split; [apply list_elem_of_here |]. split_and!; reflexivity.
Defined.

Definition other_calls : list MemoryOp := [MSet "d" "plan" "other" 60; MDelete "c" "else"; MList "c"; MDelete "d" "plan"].
Lemma memory_roundtrip_witness :
  let w1 := (ms_Set mem_memory "c" "plan" "step 2" 60 (sample_mem [])).2 in
  let w2 := fold_left (fun w o => memory_op o w) other_calls w1 in
  (ms_Get mem_memory "c" "plan" w2).1 = Ok ("step 2", true) /\ size (mw_entries w2) = 1%nat.
Proof.
  cbv zeta. split; [| vm_compute; reflexivity].
  destruct (memory_roundtrip "c" "plan" "step 2" 60 other_calls (sample_mem [])) as [_ H].
  - reflexivity.
  - repeat constructor.
  - repeat constructor; cbn; intros []; discriminate.
  - vm_compute. reflexivity.
  - cbv zeta in H. rewrite H. vm_compute. reflexivity.
Defined.

(** The file tools trim what they write: the newline at the end of a file is lost. *)
Definition write_line : Call := {| call_ID := "1"; call_Name := "vm.write_file"; call_Arguments :=
  [("vm_id", VStr "vm-1"); ("path", VStr "/etc/motd"); ("content", VStr ("hello" +:+ str1 (chr 10)))] |}.
Lemma written_content_is_trimmed {W} (svc : VMPort (W := W)) chat w :
  (VMWriteFileTool (Some svc) chat write_line w).2 = (vt_WriteFile svc "vm-1" "/etc/motd" "hello" 0 w).2.
Proof.
  unfold VMWriteFileTool, configured, required.
  change (readStringArg _ "vm_id") with (Some "vm-1"). change (readStringArg _ "path") with (Some "/etc/motd").
  change (readStringArg _ "content") with (Some "hello"). change (intArg _ "mode") with 0. unfold bind.
  by destruct (vt_WriteFile _ _ _ _ _ w) as [[[]|e] w'].
Qed.
(** An edit cannot delete text, nor replace it by blanks. *)
Lemma edit_cannot_delete {W} (svc : VMPort (W := W)) chat call s :
  alookup "new_string" (call_Arguments call) = Some (VStr s) -> trim_space s = "" ->
  refused call (VMEditFileTool (Some svc) chat call).
Proof.
  intros Hs Ht. assert (Hn : readStringArg (call_Arguments call) "new_string" = None).
  { unfold readStringArg. by rewrite Hs, bool_decide_eq_true_2. }
  unfold VMEditFileTool, configured. do 3 (apply refused_required; intros ? _). apply refused_required. intros text Htext. congruence.
Qed.
(** A VM that cannot be assigned to the chat is left behind. *)
Lemma create_leaves_orphan {W} (svc : VMPort (W := W)) chat env type call port w vm w1 e :
  vt_Create svc env chat ProviderFirecracker "" 2 None None None port w = (Ok vm, w1) ->
  (vt_AssignToChat svc (vm_ID vm) chat w1).1 = Err e ->
  create_and_assign svc chat env type call port w = (failed call (Error e), (vt_AssignToChat svc (vm_ID vm) chat w1).2).
Proof.
  intros Hc Ha. unfold create_and_assign, bind. rewrite Hc. cbn. destruct (vt_AssignToChat _ _ _ w1) as [r w2]. cbn in *. by rewrite Ha.
Qed.
