(* ===== verification/App.v ===== *)
(** * The wiring of the server: src/cmd/main.go

    The chat service, the orchestrator with its tools, agent memory and the VM service, put
    together the way main.go does it. The world is the world of the VM service next to the
    store of the other repositories and the conversation states of the orchestrator; the
    operations of each part act on their own component. *)

From S2P Require Import Prelude Exception Naming GoLib Domain World PgRepo IPAlloc Interfaces VMExec VMSnapshot VMService VMResume.
From S2P Require Import Json Orchestrator Chat EventHub ChatService Tools.

(** ** The world *)

Record Platform (B St A : Type) := { pl_vm : World B St; pl_store : A; pl_states : gmap string State }.
Arguments pl_vm {B St A}. Arguments pl_store {B St A}. Arguments pl_states {B St A}.

Section app.
Context {B St A : Type} `{!Backend B, !Storage St}.
Abbreviation P := (Platform B St A).
Abbreviation CW := (ChatWorld P).
Local Open Scope go_scope.

Definition on_vm {X} (m : M (World B St) X) : M P X := fun w => let '(x, v) := m (pl_vm w) in (x, w <| pl_vm := v |>).
(** The tables of the VM service refer to the chats of the store: they are one database. *)
Context (chat_owners : A -> gmap string string).
Definition see_chats (a : A) (v : World B St) : World B St := v <| w_db := (w_db v) <| db_chats := chat_owners a |> |>.
Definition on_store {X} (m : M A X) : M P X := fun w =>
  let '(x, a) := m (pl_store w) in (x, w <| pl_store := a |> <| pl_vm := see_chats a (pl_vm w) |>).

(** ** The repositories of the other services, in the platform *)

Definition chats_in (R : ChatRepository A) : ChatRepository P := {|
  chats_Create := fun c => on_store (chats_Create R c); chats_GetByID := fun id => on_store (chats_GetByID R id);
  chats_Update := fun c => on_store (chats_Update R c); chats_UpdateTitle := fun id t => on_store (chats_UpdateTitle R id t);
  chats_ListByUserID := fun p => on_store (chats_ListByUserID R p); chats_ListMessages := fun p => on_store (chats_ListMessages R p) |}.
Definition agents_in (R : AgentRepository A) : AgentRepository P := {|
  agents_Create := fun a => on_store (agents_Create R a); agents_GetByID := fun id => on_store (agents_GetByID R id) |}.
Definition memory_in (store : MemoryStore (W := A)) : MemoryStore (W := CW) := {|
  ms_Set := fun c k v t => on (on_store (ms_Set store c k v t)); ms_Get := fun c k => on (on_store (ms_Get store c k));
  ms_Delete := fun c k => on (on_store (ms_Delete store c k)); ms_List := fun c => on (on_store (ms_List store c)) |}.

(** ** The VM service as the tools see it *)

Context (vmService : Interfaces.Service).
Abbreviation s := vmService.

Definition read_file (id path : string) (offset limit : Z) : M (World B St) (string * option error) :=
  let* r := ReadFile s id path offset limit in
  ret (match r with Ok content => (content, None) | Err e => ("", Some e) end).

Definition vm_port : VMPort (W := CW) := {|
  vt_ExecuteCommand := fun id c => on (on_vm (ExecuteCommand s id c));
  vt_ReadFile := fun id p o l => on (on_vm (read_file id p o l));
  vt_WriteFile := fun id p c m => on (on_vm (WriteFile s id p c m));
  vt_EditFile := fun id p a b all => on (on_vm (EditFile s id p a b all));
  vt_CreateSnapshot := fun id => on (on_vm (CreateSnapshot s id));
  vt_Stop := fun id => on (on_vm (Stop s id));
  vt_ResolveEnvironment := fun e => on (on_vm (ResolveEnvironment e));
  vt_Create := fun e c p n ws vcpu mem disk port => on (on_vm (VMService.Create s e c p n ws vcpu mem disk port));
  vt_AssignToChat := fun id c => on (on_vm (AssignToChat s id c));
  vt_GetByEnvironmentAndChatID := fun e c => on (on_vm (GetByEnvironmentAndChatID e c));
  vt_HasSnapshot := fun id => on (on_vm (HasSnapshot s id));
  vt_ListActiveLeasesByChat := fun c => on (on_vm (ListActiveLeasesByChat c));
  vt_ListPreviousLeasesForChat := fun c => on (on_vm (ListPreviousLeasesForChat c));
  vt_Get := fun id => on (on_vm (VMService.Get id));
  vt_FindPreviousLeaseForChat := fun c => on (on_vm (FindPreviousLeaseForChat c));
  vt_ResumeVM := fun id c => on (on_vm (ResumeVM s id c));
  vt_ResolveEnvironmentHint := fun id => on (on_vm (ResolveEnvironmentHint id)) |}.

Definition vm_collection : VMCollectionService P := {|
  vc_GetByChatID := fun c => on_vm (let* r := GetByChatID c in ret (match r with Ok vm => Ok (Some vm) | Err e => Err e end));
  vc_ListPreviousLeasesForChat := fun c => on_vm (ListPreviousLeasesForChat c);
  vc_HasSnapshot := fun id => on_vm (HasSnapshot s id) |}.

(** ** The parts *)

Context (memory : MemoryStore (W := A)) (chatRepo : ChatRepository A) (agentRepo : AgentRepository A).
Context (insertEvent : PersistedRuntimeEvent -> M A (res unit)).
(** The planner and the generator of titles: the Gemini adapter, or the rule planner. *)
Context (planner : ToolPlanner CW) (titleGen : option (string -> M P (res string))).
Context (MaxTaskDuration maxReactSteps : Z).

Definition allowed_tools : list string := ["vm.execute_command"; "vm.create"; "vm.start"; "vm.list"; "vm.stop"; "vm.snapshot";
  "vm.read_file"; "vm.write_file"; "vm.edit_file"; "memory.set"; "memory.get"; "memory.delete"; "memory.list"; "plan.announce"].

Definition registered : list (ToolDefinition * Exec (W := CW)) :=
  let svc := vm_port in let store := memory_in memory in [
  (vm_execute_command_Definition, VMCommandTool (Some svc)); (vm_create_Definition, VMCreateTool svc);
  (vm_start_Definition, VMStartTool svc); (vm_list_Definition, VMListTool svc); (vm_stop_Definition, VMStopTool svc);
  (vm_snapshot_Definition, VMSnapshotTool svc); (vm_read_file_Definition, VMReadFileTool (Some svc));
  (vm_write_file_Definition, VMWriteFileTool (Some svc)); (vm_edit_file_Definition, VMEditFileTool (Some svc));
  (memory_set_Definition, MemorySetTool store); (memory_get_Definition, MemoryGetTool store);
  (memory_delete_Definition, MemoryDeleteTool store); (memory_list_Definition, MemoryListTool store);
  (plan_announce_Definition, PlanAnnounceTool)].
Definition orchTools : ToolRegistry CW := NewInMemoryToolRegistry (map (fun t => Some (tool_of (fst t) (snd t))) registered).

Definition time_Now : M P Z := on_vm World.now.
Definition uuid_NewString : M P string := on_vm new_uuid.
Definition states : StateStore CW :=
  MemoryStateStore (fun w => pl_states (cw_store w)) (fun m w => w <| cw_store := (cw_store w) <| pl_states := m |> |>)
    (ChatService.now time_Now).

Definition orchService : Orchestrator.Service CW :=
  NewWithConfig states (Some planner) (Some orchTools) (Some states)
    (NewConfig allowed_tools MaxTaskDuration (if bool_decide (maxReactSteps <= 0) then 70 else maxReactSteps)).
Definition process (input : ProcessInput CW) : M CW (res ProcessResult) :=
  Process (ChatService.now time_Now) (newID uuid_NewString) orchService input.

Definition chatService : ChatService P := {|
  sv_chats := chats_in chatRepo; sv_runtimes_Insert := fun e => on_store (insertEvent e); sv_agents := agents_in agentRepo;
  sv_orch := Some process;
  sv_vmCollector := Some (CollectAvailableVMs vm_collection (fun id => on_vm (EnvGetByID id)));
  sv_titleGen := titleGen |}.
End app.
