(* ===== verification/AppSpec.v ===== *)
(** * The parts together

    Each part was verified against what it relies on; here these promises meet. Everything
    the chat service does is composed of its ports ([ports_within]), a turn of the
    orchestrator is composed of its planner and the tools (OrchSpec, ToolSpec), and the VM
    tools are calls of the VM service, which keeps the database invariant (VMInv).
    So the invariant of the VM tables and the contract of the conversations hold of the
    platform after any sequence of whole calls, turns and jobs, whatever the planner asks
    for. What happens inside a turn while another call runs is not covered; that can go
    wrong ([ChatSpec.close_during_turn_is_lost]). *)

From S2P Require Import Prelude Exception Naming GoLib Domain World PgRepo IPAlloc Interfaces Hoare Invariants RepoFacts.
From S2P Require Import VMExec VMSnapshot SnapFacts SnapGC VMService VMResume VMInv.
From S2P Require Import Json Orchestrator OrchSpec Chat MemRepo EventHub ChatService ChatSpec Tools ToolSpec App.

(** ** What the chat service does to its store *)

(** [R] relates the stores before and after every port. *)
Class PortsWithin {S} (R : S -> S -> Prop) (s : ChatService S) (time_Now : M S Z) (uuid_NewString : M S string) : Prop := {
  pt_now : keeps R time_Now; pt_uuid : keeps R uuid_NewString;
  pt_create c : keeps R (chats_Create (sv_chats s) c); pt_get id : keeps R (chats_GetByID (sv_chats s) id);
  pt_update c : keeps R (chats_Update (sv_chats s) c); pt_title id t : keeps R (chats_UpdateTitle (sv_chats s) id t);
  pt_list p : keeps R (chats_ListByUserID (sv_chats s) p); pt_messages p : keeps R (chats_ListMessages (sv_chats s) p);
  pt_insert e : keeps R (sv_runtimes_Insert s e); pt_agent a : keeps R (agents_Create (sv_agents s) a);
  pt_agent_get id : keeps R (agents_GetByID (sv_agents s) id);
  pt_collect f id : sv_vmCollector s = Some f -> keeps R (f id);
  pt_titles f m : sv_titleGen s = Some f -> keeps R (f m) }.

Definition store_rel {S} (R : S -> S -> Prop) (w w' : ChatWorld S) : Prop := R (cw_store w) (cw_store w').
#[export] Instance store_rel_preorder {S} (R : S -> S -> Prop) `{!PreOrder R} : PreOrder (store_rel R).
Proof. split; [intros w; unfold store_rel; reflexivity | intros x y z; unfold store_rel; by etrans]. Qed.

Lemma on_within {S A} (R : S -> S -> Prop) (m : M S A) : keeps R m -> keeps (store_rel R) (on m).
Proof. intros H w. specialize (H (cw_store w)). unfold on, store_rel. destruct (m (cw_store w)) as [a st]. exact H. Qed.

Section chat_frame.
Context {S : Type} (R : S -> S -> Prop) `{!PreOrder R} (s : ChatService S) (time_Now : M S Z) (uuid_NewString : M S string).
Context `{!PortsWithin R s time_Now uuid_NewString}.
Abbreviation Q := (store_rel R).
Context (Hturn : forall process, sv_orch s = Some process -> forall chatID agentID userID content vms History,
  keeps Q (process (turn_input s time_Now chatID agentID userID content vms History))).

Hint Resolve pt_now pt_uuid pt_create pt_get pt_update pt_title pt_list pt_messages pt_insert pt_agent pt_agent_get : keeps.
Lemma frame_now : keeps Q (now time_Now).
Proof. apply on_within, pt_now. Qed.
Lemma frame_newID : keeps Q (newID uuid_NewString).
Proof. apply on_within, pt_uuid. Qed.
Lemma frame_go j : keeps Q (go j).
Proof. intros w. unfold store_rel. cbn. reflexivity. Qed.
Lemma frame_publish e : keeps Q (publish e).
Proof. intros w. unfold store_rel. cbn. reflexivity. Qed.
Hint Resolve frame_now frame_newID frame_go frame_publish on_within : keeps.
Lemma frame_announce chatID e : keeps Q (announce s chatID e).
Proof. unfold announce, persistEvent. go_keeps. Qed.
Hint Resolve frame_announce : keeps.
Lemma frame_announce_error chatID msg : keeps Q (announce_error s time_Now chatID msg).
Proof. unfold announce_error. go_keeps. Qed.
Lemma frame_emit chatID e : keeps Q (emit s time_Now chatID e).
Proof. unfold emit. go_keeps. Qed.
Lemma frame_collect chatID : keeps Q (collectAvailableVMs s chatID).
Proof.
  unfold collectAvailableVMs. destruct (sv_vmCollector s) as [f|] eqn:E; [| go_keeps].
  assert (keeps R (f chatID)) by by eapply pt_collect. go_keeps.
Qed.
Lemma frame_add c role content md : keeps Q (AddMessageWithMetadata (now time_Now) c role content md).
Proof. unfold AddMessageWithMetadata. go_keeps. Qed.
Hint Resolve frame_announce_error frame_emit frame_collect frame_add : keeps.
Lemma frame_Create p : keeps Q (Create s time_Now uuid_NewString p).
Proof. unfold Create, prepare, createDefaultAgent, newChat, newAgent. go_keeps. Qed.
Lemma frame_turn id agent user content vms History process : sv_orch s = Some process ->
  keeps Q (process (turn_input s time_Now id agent user content vms History)).
Proof. intros H. by apply Hturn. Qed.
Hint Resolve frame_turn : keeps.
Lemma frame_SendMessage id content vmID : keeps Q (SendMessage s time_Now id content vmID).
Proof. unfold SendMessage, AddMessage. go_keeps. Qed.
Lemma frame_SendMessageAsync id content vmID : keeps Q (SendMessageAsync s time_Now id content vmID).
Proof. unfold SendMessageAsync, AddMessage. go_keeps. Qed.
Lemma frame_run_turn id agent user content History first : keeps Q (run_turn s time_Now id agent user content History first).
Proof. unfold run_turn. go_keeps. Qed.
Lemma frame_title id message : keeps Q (generateTitle s time_Now id message).
Proof.
  unfold generateTitle. destruct (sv_titleGen s) as [f|] eqn:E; [| go_keeps].
  assert (keeps R (f message)) by by eapply pt_titles. go_keeps.
Qed.
Lemma frame_run_job n : keeps Q (run_job s time_Now n).
Proof.
  intros w. unfold run_job. destruct (cw_jobs w !! n) as [j|]; [| unfold store_rel; reflexivity].
  transitivity (w <| cw_jobs := delete n (cw_jobs w) |>); [unfold store_rel; cbn; reflexivity |].
  destruct j; [apply frame_run_turn | apply frame_title].
Qed.
Lemma frame_Close id : keeps Q (Close s time_Now id).
Proof. unfold Close. go_keeps. Qed.
Lemma frame_Subscribe id : keeps Q (SubscribeRuntimeEvents s id).
Proof.
  unfold SubscribeRuntimeEvents. apply keeps_bind_ok; [apply _ | go_keeps | intros c w].
  destruct (EventHub.subscribe _ _). unfold store_rel. cbn. reflexivity.
Qed.

Lemma frame_chat_step `{!ChatStore (sv_chats s)} w w' : chat_step s time_Now uuid_NewString w w' -> Q w w'.
Proof.
  destruct 1.
  - apply frame_Create.
  - apply frame_SendMessage.
  - apply frame_SendMessageAsync.
  - apply frame_run_job.
  - apply frame_Close.
  - apply on_within, pt_get.
  - apply frame_Subscribe.
  - apply on_within, pt_list.
  - apply on_within, pt_messages.
  - unfold store_rel. cbn. reflexivity.
Qed.
End chat_frame.

(** ** The two contracts of the platform *)

(** A program that leaves the store of the platform alone. *)
Definition outside {S X} (m : M (ChatWorld S) X) : Prop := keeps (store_rel (@eq S)) m.
(** The planner talks to a model, not to the platform. *)
Definition planner_outside {S} (p : ToolPlanner (ChatWorld S)) : Prop :=
  (forall q, outside (PlanTools p q)) /\ (forall q, outside (FinalResponse p q)) /\
  match WithMetadata p with Some (f, g) => (forall q, outside (f q)) /\ (forall q, outside (g q)) | None => True end.

Lemma outside_within {S X} (R : S -> S -> Prop) `{!PreOrder R} (m : M (ChatWorld S) X) : outside m -> keeps (store_rel R) m.
Proof. intros H w. unfold store_rel. rewrite <- (H w). reflexivity. Qed.

Lemma register_origin {W} (l : list (option (Tool W))) m n t :
  fold_left Register l m !! n = Some t -> m !! n = Some t \/ Some t ∈ l.
Proof.
  revert m. induction l as [|x l IH]; intros m H; cbn in H; [by left |].
  destruct (IH _ H) as [H1|H1]; [| right; set_solver]. destruct x as [x|]; cbn in H1; [| by left].
  case_bool_decide; [by left |]. destruct (decide (t_Name x = n)) as [<-|Hne].
  - rewrite lookup_insert_eq in H1. injection H1 as ->. right. set_solver.
  - rewrite lookup_insert_ne in H1 by done. by left.
Qed.

Section platform.
Context {B St A : Type} `{!Backend B, !Storage St}.
Abbreviation P := (Platform B St A).
Abbreviation CW := (ChatWorld P).
Context (chat_owners : A -> gmap string string) (vmService : Interfaces.Service) (memory : MemoryStore (W := A)).
Context (chatRepo : ChatRepository A) (agentRepo : AgentRepository A) (insertEvent : PersistedRuntimeEvent -> M A (res unit)).
Context (planner : ToolPlanner CW) (titleGen : option (string -> M P (res string))) (MaxTaskDuration maxReactSteps : Z).
Abbreviation cs := (chatService chat_owners vmService memory chatRepo agentRepo insertEvent planner titleGen MaxTaskDuration maxReactSteps).
Abbreviation registry := (orchTools chat_owners vmService memory).

Lemma registered_tools name t : reg_Get registry name = Some t ->
  exists d exec, (d, exec) ∈ all_tools (memory_in chat_owners memory) (vm_port vmService) /\ t = tool_of d exec.
Proof.
  intros H. apply register_origin in H as [H|H]; [done |]. apply list_elem_of_fmap in H as ([d exec] & [= ->] & Hin).
  exists d, exec. split; [| done]. unfold registered in Hin. unfold all_tools. cbv zeta in Hin.
  repeat (apply elem_of_cons in Hin as [->|Hin]; [repeat first [apply list_elem_of_here | apply list_elem_of_further] |]).
  by apply elem_of_nil in Hin.
Qed.

(** The orchestrator of the platform composes the planner, the tools and the events. *)
Lemma turn_within (R : P -> P -> Prop) `{!PreOrder R} input :
  PortWithin (store_rel R) (vm_port vmService) -> MemoryWithin (store_rel R) (memory_in chat_owners memory) ->
  planner_outside planner -> keeps R time_Now -> keeps R uuid_NewString ->
  (forall m w, R w (w <| pl_states := m |>)) ->
  (forall emit e, pi_EmitEvent input = Some emit -> keeps (store_rel R) (emit e)) ->
  keeps (store_rel R) (process chat_owners vmService memory planner MaxTaskDuration maxReactSteps input).
Proof.
  intros Hport Hmem (Hplan & Hfinal & Hmeta) Hnow Huuid Hstates Hemit. unfold process.
  apply (Process_keeps (store_rel R)). split.
  - by apply on_within.
  - by apply on_within.
  - intros q. unfold plan_tools. cbn. destruct (WithMetadata planner) as [[f g]|]; [by apply outside_within, Hmeta |].
    apply keeps_bind_ok; [apply _ | by apply outside_within | intros x; apply keeps_ret; apply _].
  - intros q. unfold final_response. cbn. destruct (WithMetadata planner) as [[f g]|]; [by apply outside_within, Hmeta |].
    apply keeps_bind_ok; [apply _ | by apply outside_within | intros x; apply keeps_ret; apply _].
  - intros c w. cbn. destruct (_ !! c); [unfold store_rel; reflexivity |].
    pose proof (on_within R time_Now Hnow w) as H. destruct (ChatService.now time_Now w). exact H.
  - intros st w. cbn. apply Hstates.
  - intros e. unfold emitRuntimeEvent. destruct (pi_EmitEvent input) as [f|]; [exact (Hemit f e eq_refl) | apply keeps_ret; apply _].
  - intros name t chat timeout call _ Ht.
    apply registered_tools in Ht as (d & exec & Hin & ->). exact (tools_keep (store_rel R) _ _ d exec (Some chat) call Hin).
Qed.

(** *** The database of the VM service *)

Definition db_kept (p p' : P) : Prop :=
  db_ok (CL := service_limit vmService) (w_db (pl_vm p)) -> db_ok (CL := service_limit vmService) (w_db (pl_vm p')).
#[export] Instance db_kept_preorder : PreOrder db_kept.
Proof. apply (impl_preorder (fun p : P => db_ok (CL := service_limit vmService) (w_db (pl_vm p)))). Qed.

Lemma on_vm_db {X} (m : M (World B St) X) Q : gd (G := inv_guard (CL := service_limit vmService)) m Q -> keeps db_kept (on_vm m).
Proof.
  intros H [v a st] Hw. specialize (H v Hw) as [H _]. unfold on_vm. cbn. destruct (m v) as [x v']. exact H.
Qed.
Lemma on_vm_db_same {X} (m : M (World B St) X) : keeps same_db m -> keeps db_kept (on_vm m).
Proof. intros H. by eapply on_vm_db, gd_same. Qed.
Lemma db_ok_chats {CL : ChainLimit} m db : db_ok db -> db_ok (db <| db_chats := m |>).
Proof. by intros []. Qed.
Lemma on_store_db {X} (m : M A X) : keeps db_kept (on_store (B := B) (St := St) chat_owners m).
Proof.
  intros [v a st] Hw. unfold on_store. cbn in *. destruct (m a) as [x a']. cbn. by apply db_ok_chats.
Qed.
Hint Resolve on_store_db on_vm_db_same on_within : keeps.

Lemma reads_has id : keeps same_db (HasSnapshot vmService id : M (World B St) _).
Proof. unfold HasSnapshot. go_keeps. Qed.
Lemma reads_env e : keeps same_db (ResolveEnvironment e : M (World B St) _).
Proof. unfold ResolveEnvironment. go_keeps. Qed.
Lemma reads_hint id : keeps same_db (ResolveEnvironmentHint id : M (World B St) _).
Proof. unfold ResolveEnvironmentHint, VMService.Get. go_keeps. Qed.
Lemma reads_previous c : keeps same_db (ListPreviousLeasesForChat c : M (World B St) _).
Proof. unfold ListPreviousLeasesForChat. go_keeps. Qed.
Lemma reads_leases c : keeps same_db (ListActiveLeasesByChat c : M (World B St) _).
Proof. intros w. unfold ListActiveLeasesByChat. rewrite run_eq. by destruct (or_fault _ _). Qed.
Hint Resolve reads_has reads_env reads_hint reads_previous reads_leases : keeps.

Lemma vm_port_db : 0 < dc_MaxChainLength (svc_snapDiskCfg vmService) -> PortWithin (store_rel db_kept) (vm_port (A := A) vmService).
Proof.
  intros Hmax. pose proof (inv_laws (B := B) (St := St) vmService Hmax) as GL.
  split; intros; cbn; apply on_within; try solve [apply on_vm_db_same; go_keeps]; eapply on_vm_db.
  - by apply gd_ExecuteCommand.
  - unfold read_file. eapply gd_bind; [by apply (gd_guest_file_op vmService) | intros r _]. by apply (gd_ret _ (fun _ => True)).
  - by apply (gd_guest_file_op vmService).
  - by apply (gd_guest_file_op vmService).
  - by apply (gl_CreateSnapshot (s := vmService)).
  - by apply gd_Stop.
  - by apply gd_Create_vm.
  - by apply gd_AssignToChat.
  - by apply gd_ResumeVM.
Qed.
Lemma memory_db : MemoryWithin (store_rel db_kept) (memory_in (B := B) (St := St) chat_owners memory).
Proof. split; intros; cbn; apply on_within, on_store_db. Qed.

Lemma collection_keeps (R : P -> P -> Prop) `{!PreOrder R} c : (forall X (m : M (World B St) X), keeps same_db m -> keeps R (on_vm m)) ->
  keeps R (CollectAvailableVMs (vm_collection vmService) (fun id => on_vm (EnvGetByID id)) c).
Proof.
  intros H. unfold CollectAvailableVMs. apply keeps_bind; [apply _ | apply H; go_keeps | intros active].
  apply keeps_bind; [apply _ | apply H; go_keeps | intros prev].
  apply keeps_bind; [apply _ | | intros r; apply keeps_ret; apply _].
  generalize (∅ : gset string).
  match goal with |- forall g, keeps R (available _ _ g ?l) => generalize l end. intros l.
  induction l as [|vm l IH]; intros seen; cbn [available]; [apply keeps_ret; apply _ |].
  case_bool_decide; [apply IH |]. apply keeps_bind; [apply _ | apply H; go_keeps | intros e].
  destruct (match e with Ok _ => _ | Err _ => _ end) as [t d].
  apply keeps_bind; [apply _ | apply H; go_keeps | intros b].
  apply keeps_bind; [apply _ | apply IH | intros rest; apply keeps_ret; apply _].
Qed.

(** Titles come from a model too. *)
Context (Htitle : forall f m, titleGen = Some f -> keeps (@eq P) (f m)).
Lemma title_keeps (R : P -> P -> Prop) `{!PreOrder R} f m : titleGen = Some f -> keeps R (f m).
Proof. intros E w. rewrite <- (Htitle f m E w). reflexivity. Qed.

Lemma ports_db : PortsWithin db_kept cs time_Now uuid_NewString.
Proof.
  split; intros; cbn; try solve [apply on_store_db | apply on_vm_db_same; go_keeps].
  - injection H as <-. apply collection_keeps; [apply _ | intros X m; apply on_vm_db_same].
  - by apply (title_keeps db_kept).
Qed.

(** *** The conversations *)

Context `{HC : !ChatStore chatRepo}.

#[export] Program Instance chats_in_store : ChatStore (chats_in (B := B) (St := St) chat_owners chatRepo) :=
  {| view := fun p => view (pl_store p); store_ok := fun p => store_ok (pl_store p) |}.
Next Obligation. intros id [v a st]. cbn. unfold on_store. cbn. pose proof (get_same id a) as H. destruct (chats_GetByID _ _ _). exact H. Qed.
Next Obligation. intros id [v a st] c Hok. cbn. unfold on_store. cbn. intros H. eapply (get_ok id); [exact Hok |]. by destruct (chats_GetByID _ _ _). Qed.
Next Obligation.
  intros c c0 [v a st] Hok Hc Hp. cbn in *. unfold on_store. cbn. pose proof (update_saves c c0 a Hok Hc Hp) as H. by destruct (chats_Update _ _ _).
Qed.
Next Obligation.
  intros c [v a st] Hok Hc Hm. cbn in *. unfold on_store. cbn. pose proof (create_saves c a Hok Hc Hm) as H. by destruct (chats_Create _ _ _).
Qed.
Next Obligation.
  intros id t [v a st] Hok. cbn in *. unfold on_store. cbn. pose proof (ChatSpec.title_keeps id t a Hok) as H. by destruct (chats_UpdateTitle _ _ _).
Qed.
Next Obligation. intros p [v a st]. cbn. unfold on_store. cbn. pose proof (list_same p a) as H. destruct (chats_ListByUserID _ _ _). exact H. Qed.
Next Obligation. intros p [v a st]. cbn. unfold on_store. cbn. pose proof (messages_same p a) as H. destruct (chats_ListMessages _ _ _). exact H. Qed.

(** What is not the chat repository leaves the chats alone. *)
Class SideQuiet : Prop := {
  sq_set c k v t : keeps same (ms_Set memory c k v t); sq_get c k : keeps same (ms_Get memory c k);
  sq_delete c k : keeps same (ms_Delete memory c k); sq_list c : keeps same (ms_List memory c);
  sq_insert e : keeps same (insertEvent e); sq_agent a : keeps same (agents_Create agentRepo a);
  sq_agent_get id : keeps same (agents_GetByID agentRepo id) }.
Context `{HS : !SideQuiet}.

#[export] Instance same_pre : PreOrder (same (ChatStore := chats_in_store)).
Proof. split; [intros st; by split | intros a b c [H1 H2] [H3 H4]; split; [congruence | auto]]. Qed.
Lemma on_vm_same {X} (m : M (World B St) X) : keeps (same (ChatStore := chats_in_store)) (on_vm m).
Proof. intros [v a st]. unfold on_vm. cbn. destruct (m v). by split. Qed.
Lemma on_store_same {X} (m : M A X) : keeps same m -> keeps (same (ChatStore := chats_in_store)) (on_store chat_owners m).
Proof. intros H [v a st]. specialize (H a). unfold on_store. cbn. destruct (m a). exact H. Qed.

Lemma vm_port_same : PortWithin (store_rel (same (ChatStore := chats_in_store))) (vm_port (A := A) vmService).
Proof. split; intros; cbn; apply on_within, on_vm_same. Qed.
Lemma memory_same : MemoryWithin (store_rel (same (ChatStore := chats_in_store))) (memory_in chat_owners memory).
Proof. split; intros; cbn; apply on_within, on_store_same; apply HS. Qed.
#[export] Instance app_chats : ChatStore (sv_chats cs) := chats_in_store.
Lemma app_quiet : QuietPorts cs time_Now uuid_NewString.
Proof.
  split; intros; cbn; try solve [apply on_vm_same | apply on_store_same; apply HS].
  - injection H as <-. apply collection_keeps; [apply _ | intros X m _; apply on_vm_same].
  - by apply (title_keeps _).
Qed.

(** *** Every run of the platform *)

Context (Hplanner : planner_outside planner) (Hmax : 0 < dc_MaxChainLength (svc_snapDiskCfg vmService)).

Lemma app_quiet_turns : quiet_turns cs time_Now.
Proof.
  intros f [= <-] chatID agentID userID content vms History.
  apply (turn_within (same (ChatStore := chats_in_store)));
    [apply vm_port_same | apply memory_same | done | apply on_vm_same | apply on_vm_same | intros m []; by split |].
  intros f e [= <-]. exact (emit_keeps (QuietPorts0 := app_quiet) cs time_Now uuid_NewString chatID e).
Qed.
Lemma app_turns_db process : sv_orch cs = Some process -> forall chatID agentID userID content vms History,
  keeps (store_rel db_kept) (process (turn_input cs time_Now chatID agentID userID content vms History)).
Proof.
  intros [= <-] chatID agentID userID content vms History.
  apply (turn_within db_kept); [by apply vm_port_db | apply memory_db | done | apply on_vm_db_same; go_keeps.. | intros m [] H; exact H |].
  intros f e [= <-]. exact (frame_emit (PortsWithin0 := ports_db) db_kept cs time_Now uuid_NewString chatID e).
Qed.

(** A call or a job of the chat service, or a call, a tick or a job of the VM service. *)
Inductive platform_step : CW -> CW -> Prop :=
| platform_chat w w' : chat_step cs time_Now uuid_NewString w w' -> platform_step w w'
| platform_vm w v : VMInv.step vmService (pl_vm (cw_store w)) v ->
    platform_step w (w <| cw_store := (cw_store w) <| pl_vm := v |> |>).

Lemma platform_step_db w w' : platform_step w w' -> store_rel db_kept w w'.
Proof.
  intros [w1 w2 H|w1 v H]; [by apply (frame_chat_step (PortsWithin0 := ports_db) db_kept cs time_Now uuid_NewString app_turns_db) |].
  intros Hok. cbn. by eapply step_ok.
Qed.
Lemma platform_step_refines w w' : platform_step w w' -> refines cs w w'.
Proof.
  intros [w1 w2 H|w1 v H]; [exact (chat_step_refines (QuietPorts0 := app_quiet) cs time_Now uuid_NewString app_quiet_turns _ _ H) |].
  intros Hok. destruct w1 as [h js [v1 a st]]. by split.
Qed.

Lemma platform_run w w' : db_ok (CL := service_limit vmService) (w_db (pl_vm (cw_store w))) -> store_ok (pl_store (cw_store w)) ->
  rtc platform_step w w' ->
  db_ok (CL := service_limit vmService) (w_db (pl_vm (cw_store w'))) /\ conversations_grow cs w w'.
Proof.
  intros Hdb Hok Hrun.
  assert (Hr : refines cs w w' /\ store_rel db_kept w w').
  { clear Hdb Hok. induction Hrun as [w|w1 w2 w3 H _ [IH1 IH2]]; [split; [done | by intros ?] |].
    split; [| etrans; [by apply platform_step_db | done]]. intros Hok1.
    destruct (platform_step_refines _ _ H Hok1) as [Hok2 H12]. destruct (IH1 Hok2) as [Hok3 H23]. split; [done | by etrans]. }
  destruct Hr as [Href Hkept]. split; [by apply Hkept | by apply refines_grows].
Qed.

(** C2: The parts together keep their promises. After every sequence of whole chat calls,
    turns and title jobs, and of whole calls, ticks and jobs of the VM service, one after
    the other in any order, whatever the planner asks for and whichever statements and
    backend calls fail: the invariant of the VM tables holds, although the tools of a turn
    create, stop, resume and snapshot VMs; and the conversations only grow by openings,
    user messages to open chats, answers and closings, although the same turns run commands
    and write memory. Each call, turn or job is one step: calls that overlap a turn are not
    covered (see ChatSpec.close_during_turn_is_lost). *)
Theorem platform_keeps_promises w w' :
  db_ok (CL := service_limit vmService) (w_db (pl_vm (cw_store w))) -> store_ok (pl_store (cw_store w)) ->
  rtc platform_step w w' ->
  db_ok (CL := service_limit vmService) (w_db (pl_vm (cw_store w'))) /\ conversations_grow cs w w'.
Proof. apply platform_run. Qed.
End platform.

(** ** A platform that runs *)

Definition owners (w : Mem) : gmap string string := c_UserID <$> mw_chats w.
Definition mem_agents : AgentRepository Mem := {| agents_Create := AgentCreate; agents_GetByID := AgentGetByID |}.
Abbreviation msame := (same (ChatStore := MemChatStore)).
#[export] Instance msame_pre : PreOrder msame.
Proof. split; [intros st; by split | intros a b c [H1 H2] [H3 H4]; split; [congruence | auto]]. Qed.

Lemma mem_now_same : keeps msame mnow.
Proof. by intros w. Qed.
Lemma mem_expired_same e : keeps msame (check_expired e).
Proof. intros w. unfold check_expired. by case_bool_decide. Qed.
Hint Resolve mem_now_same mem_expired_same : keeps.
Lemma mem_get_same c k : keeps msame (MemoryGet c k).
Proof.
  intros w. unfold MemoryGet. destruct (_ !! _) as [e|]; [| by split]. pose proof (mem_expired_same e w) as H. by destruct (check_expired e w).
Qed.
Lemma mem_delete_same c k : keeps msame (MemoryDelete c k).
Proof.
  intros w. unfold MemoryDelete. destruct (_ !! _) as [e|]; [| by split]. pose proof (mem_expired_same e w) as H.
  destruct (check_expired e w) as [[] w']; exact H.
Qed.
Lemma mem_live_same c l : keeps msame (live_entries c l).
Proof. induction l; cbn [live_entries]; go_keeps. Qed.
Lemma mem_list_same c : keeps msame (MemoryList c).
Proof. intros w. unfold MemoryList. pose proof (mem_live_same c (snd <$> map_to_list (mw_entries w)) w) as H. by destruct (live_entries _ _ w). Qed.
Lemma mem_set_same e : keeps msame (MemorySet e).
Proof. by intros w. Qed.
Hint Resolve mem_get_same mem_delete_same mem_list_same mem_set_same : keeps.

#[export] Instance mem_side : SideQuiet mem_memory MemChats mem_agents EventInsert.
Proof.
  split; intros; try by intros w.
  - cbn. unfold Set_. go_keeps.
  - cbn. unfold Get_. go_keeps.
  - apply mem_delete_same.
  - apply mem_list_same.
Qed.

(** The chat "chat-1", whose VM "vm-a" is running. *)
Definition sample_chats : Mem := sample_mem [{|
  c_ID := "chat-1"; c_AgentID := "a"; c_UserID := "user-1"; c_Title := ""; c_VMID := ""; c_Status := ChatActive;
  c_Messages := []; c_CreatedAt := 0; c_UpdatedAt := 0 |}].
Definition app_start : ChatWorld (Platform unit unit Mem) := {| cw_hub := empty_hub; cw_jobs := [];
  cw_store := {| pl_vm := sample_world; pl_store := sample_chats; pl_states := ∅ |} |}.
Definition app : ChatService (Platform unit unit Mem) :=
  chatService owners SnapFacts.sample_service mem_memory MemChats mem_agents EventInsert RulePlanner None (30 * second) 2.
Definition app_asked : ChatWorld (Platform unit unit Mem) := (SendMessageAsync app time_Now "chat-1" "/exec ls" "" app_start).2.
Definition app_answered : ChatWorld (Platform unit unit Mem) := (run_job app time_Now 0 app_asked).2.
Definition app_stopped : ChatWorld (Platform unit unit Mem) :=
  app_answered <| cw_store := (cw_store app_answered) <| pl_vm := perform SnapFacts.sample_service (OpStop "vm-a") (pl_vm (cw_store app_answered)) |> |>.
Definition chat_texts (w : ChatWorld (Platform unit unit Mem)) : list string :=
  match mw_chats (pl_store (cw_store w)) !! "chat-1" with Some c => msg_Content <$> c_Messages c | None => [] end.

Lemma rule_planner_outside {S} : planner_outside (RulePlanner : ToolPlanner (ChatWorld S)).
Proof. split_and!; try split; intros q w; reflexivity. Qed.
Abbreviation sample_step := (platform_step owners SnapFacts.sample_service mem_memory MemChats mem_agents EventInsert
                               RulePlanner None (30 * second) 2).
Lemma app_run : rtc sample_step app_start app_stopped.
Proof.
  apply (rtc_l _ _ app_asked); [exact (platform_chat _ _ _ _ _ _ _ _ _ _ _ _ (step_SendMessageAsync _ _ _ "chat-1" "/exec ls" "" app_start)) |].
  apply (rtc_l _ _ app_answered); [exact (platform_chat _ _ _ _ _ _ _ _ _ _ _ _ (step_job _ _ _ 0 app_asked)) |].
  apply rtc_once. exact (platform_vm _ _ _ _ _ _ _ _ _ _ app_answered _ (step_call SnapFacts.sample_service (OpStop "vm-a") _)).
Qed.

Lemma platform_keeps_promises_witness :
  length (chat_texts app_stopped) = 2%nat /\
  (r_status <$> db_vms (w_db (pl_vm (cw_store app_stopped))) !! "vm-a") = Some StatusIdle /\
  db_ok (CL := service_limit SnapFacts.sample_service) (w_db (pl_vm (cw_store app_stopped))).
Proof.
  split; [vm_compute; reflexivity |]. split; [vm_compute; reflexivity |].
  apply (platform_keeps_promises owners SnapFacts.sample_service mem_memory MemChats mem_agents EventInsert RulePlanner None
           (30 * second) 2 ltac:(done) rule_planner_outside ltac:(vm_compute; reflexivity) app_start app_stopped).
  - apply sample_db_ok.
  - apply sample_mem_keyed.
  - exact app_run.
Defined.
