(* ===== verification/Http.v ===== *)
(** * Requests and responses: pkg/http and pkg/validation

    The JSON envelopes of the responses, the decoding of a request body into a struct with
    its validation tags, query parameters, and server-sent events. The texts of the
    decoder's errors and the regular expression of an e-mail address (of the validator
    package) are parameters. *)

From Stdlib Require Import Ascii.
From S2P Require Import Prelude Exception Naming GoLib Domain World Json ExecProtocol.

Local Open Scope go_scope.

(** ** Responses (response.go) *)

Record Response := { hs_Status : Z; hs_Headers : list (string * string); hs_Body : string }.
Definition set_header (name v : string) (r : Response) : Response := r <| hs_Headers := (name, v) :: hs_Headers r |>.
Definition newline : string := str1 (chr 10).
(** The encoder ends every value with a newline. *)
Definition encode (status : Z) (v : value) : Response := 
  {| hs_Status := status; hs_Headers := [("Content-Type", "application/json; charset=utf-8")]; hs_Body := Marshal v +:+ newline |}.
(** [data] has the omitempty option: a nil interface is left out. *)
Definition WriteJSON (status : Z) (message : string) (data : value) : Response :=
  encode status (VMap ([("message", VStr message); ("status_code", VInt status)] ++
    match data with VNil => [] | _ => [("data", data)] end)).
Definition Created (message : string) (data : value) : Response := WriteJSON 201 message data.
Definition error_message (e : error) : string := match FromError e with EApp _ m _ _ _ => m | _ => "" end.
Definition WriteError (e : error) : Response :=
  encode (StatusCode e) (VMap [("message", VStr (error_message e)); ("status_code", VInt (StatusCode e))]).
Definition NoContent : Response := {| hs_Status := 204; hs_Headers := []; hs_Body := "" |}.

(** ** Requests *)

(** Header, query and path parameters are read by name; a missing one is empty. *)
Record HttpRequest := {
  hq_Method : string; hq_Path : string; hq_Header : string -> string; hq_Query : string -> string;
  hq_Param : string -> string; hq_Body : option string }.

(** ** Validation (validator.go) *)

(** The tags in use, and the value of a field: a plain one, or a pointer. *)
Inductive rule := Required | OmitEmpty | Min (n : Z) | Max (n : Z) | Email | OneOf (l : list string).
#[warnings="-register-all"]
Inductive fieldval := FStr (s : string) | FInt (z : Z) | FPtr (v : option fieldval).
Record field_rules := { fr_Name : string; fr_Value : fieldval; fr_Rules : list rule }.

Fixpoint rune_count_fuel (fuel : nat) (s : string) : Z :=
  match fuel, s with
  | _, EmptyString | O, _ => 0
  | S n, _ => 1 + rune_count_fuel n (drop_str (Nat.max 1 (rune_len s)) s)
  end.
(** utf8.RuneCountInString: an invalid byte counts as one rune. *)
Definition RuneCount (s : string) : Z := rune_count_fuel (str_len s) s.

(** What the decoder says of a body that it refuses. *)
Inductive JsonFailure := SyntaxFailure (offset : Z) | TypeFailure (field type : string) | EofFailure | OtherFailure (text : string).
Class Decoding := { json_failure : string -> JsonFailure; is_email : string -> bool }.

Section validation.
Context `{!Decoding}.

Definition has_value (v : fieldval) : bool :=
  match v with FStr s => negb (bool_decide (s = "")) | FInt z => negb (bool_decide (z = 0)) | FPtr p => bool_decide (is_Some p) end.
Fixpoint holds (r : rule) (v : fieldval) : bool :=
  match v with
  | FPtr (Some v) => match r with Required => true | _ => holds r v end
  | FPtr None => false
  | FStr s =>
      match r with
      | Required => negb (bool_decide (s = "")) | OmitEmpty => true
      | Min n => bool_decide (n <= RuneCount s) | Max n => bool_decide (RuneCount s <= n)
      | Email => is_email s | OneOf l => bool_decide (s ∈ l)
      end
  | FInt z =>
      match r with
      | Required => negb (bool_decide (z = 0)) | OmitEmpty => true
      | Min n => bool_decide (n <= z) | Max n => bool_decide (z <= n)
      | Email => false | OneOf l => bool_decide (fmt_d z ∈ l)
      end
  end.
(** The tags of a field from left to right; the first that fails is reported. *)
Fixpoint first_failure (rules : list rule) (v : fieldval) : option rule :=
  match rules with
  | [] => None
  | OmitEmpty :: rules' => if has_value v then first_failure rules' v else None
  | r :: rules' => if holds r v then first_failure rules' v else Some r
  end.
Definition fieldMessage (r : rule) : string :=
  match r with
  | Required => "is required"
  | Email => "must be a valid email address"
  | Min n => "must be at least " +:+ fmt_d n +:+ " characters long"
  | Max n => "must be at most " +:+ fmt_d n +:+ " characters long"
  | OneOf l => "must be one of [" +:+ join " " l +:+ "]"
  | OmitEmpty => "failed validation constraint: omitempty"
  end.
(** validation.Struct *)
Definition field_failures (fields : list field_rules) : list FieldError :=
  omap (fun f => (fun r => {| fe_Field := fr_Name f; fe_Message := fieldMessage r |}) <$> first_failure (fr_Rules f) (fr_Value f)) fields.
Definition ValidateStruct (fields : list field_rules) : option error :=
  match field_failures fields with [] => None | failures => Some (ValidationFailed failures) end.

(** Var, for a tag whose rules are [rules]. *)
Definition Var (v : fieldval) (rules : list rule) (tag : string) : option error :=
  match first_failure rules v with None => None | Some _ => Some (BadRequest ("value validation failed: " +:+ tag)) end.
(** The name under which a field is reported, from its json tag: what stands before the first
    comma, or the name of the Go field. *)
Definition reported_name (json_tag fieldName : string) : string :=
  let name := hd EmptyString (split_on ","%char json_tag) in
  if bool_decide (name = "-") || bool_decide (name = "") then fieldName else name.
Example reported : map (fun t => reported_name t "ChatID") ["chat_id"; "chat_id,omitempty"; "-"; ",omitempty"; ""] =
  ["chat_id"; "chat_id"; "ChatID"; "ChatID"; "ChatID"].
Proof. reflexivity. Qed.

(** ** Bodies (request.go) *)

Definition get_opt {R A} (get : (A -> R -> R) -> value -> R -> option R) (set : option A -> R -> R) (v : value) (r : R) : option R :=
  match v with VNil => Some (set None r) | _ => get (fun a => set (Some a)) v r end.

(** DisallowUnknownFields: every member must name a field. *)
Fixpoint decode_strict {R} (d : decoder R) (m : list (string * value)) (r : R) : option R :=
  match m with
  | [] => Some r
  | (k, v) :: m' =>
      match find_field d k with
      | None => None
      | Some f => match f v r with Some r' => decode_strict d m' r' | None => None end
      end
  end.
Definition jsonDecodeError (f : JsonFailure) : error :=
  BadRequest (match f with
    | SyntaxFailure offset => "malformed JSON (syntax error at byte offset " +:+ fmt_d offset +:+ ")"
    | TypeFailure field type => "invalid type for field " +:+ fmt_q field +:+ ": expected " +:+ type
    | EofFailure => "request body is empty or incomplete"
    | OtherFailure text => "could not parse request body: " +:+ text
    end).
(** The first JSON value of the body; what follows it is not read. *)
Definition DecodeJSON {R} (d : decoder R) (zero : R) (body : option string) : res R :=
  match body with
  | None => Err (BadRequest "request body is empty")
  | Some body =>
      match (match parse_value (S (str_len body)) body with
             | Some (VMap m, _) => decode_strict d m zero
             | Some (VNil, _) => Some zero
             | _ => None
             end) with
      | Some r => Ok r
      | None => Err (jsonDecodeError (json_failure body))
      end
  end.
Definition BindJSON {R} (d : decoder R) (zero : R) (fields : R -> list field_rules) (r : HttpRequest) : res R :=
  match DecodeJSON d zero (hq_Body r) with
  | Err e => Err e
  | Ok dst => match ValidateStruct (fields dst) with Some e => Err e | None => Ok dst end
  end.
End validation.

(** ** pkg/json *)

(** The helpers around encoding/json, for a type whose encoder may refuse a value and whose
    decoder may refuse a text, with its complaint. No code uses them yet. *)
Section jsonutil.
Context {V : Type} (json_Marshal : V -> res string) (json_MarshalIndent : V -> string -> string -> res string).
Context (json_Unmarshal : string -> result string V).
Definition jsonutil_Marshal (v : V) : res string := match json_Marshal v with Ok b => Ok b | Err e => Err (Internal e) end.
Definition jsonutil_MarshalIndent (v : V) (prefix indent : string) : res string :=
  match json_MarshalIndent v prefix indent with Ok b => Ok b | Err e => Err (Internal e) end.
Definition jsonutil_Unmarshal (data : string) : res V :=
  match json_Unmarshal data with Ok v => Ok v | Err why => Err (BadRequest ("invalid JSON: " +:+ why)) end.
(** An encoder's refusal is the server's fault, a decoder's the client's; a codec that reads
    back what it writes still does. *)
Lemma jsonutil_faults v data : (forall e, jsonutil_Marshal v = Err e -> StatusCode e = 500) /\
  (forall e, jsonutil_Unmarshal data = Err e -> StatusCode e = 400).
Proof.
  unfold jsonutil_Marshal, jsonutil_Unmarshal. split; intros e; [destruct (json_Marshal v) | destruct (json_Unmarshal data)]; by intros [= <-].
Qed.
Lemma jsonutil_roundtrip v b : (forall v b, json_Marshal v = Ok b -> json_Unmarshal b = Ok v) ->
  jsonutil_Marshal v = Ok b -> jsonutil_Unmarshal b = Ok v.
Proof.
  unfold jsonutil_Marshal, jsonutil_Unmarshal. intros H. destruct (json_Marshal v) as [b'|] eqn:E; [| done].
  intros [= <-]. by rewrite (H _ _ E).
Qed.
End jsonutil.
(** NewDecoder: unknown fields are refused, as in DecodeJSON. *)
Definition jsonutil_NewDecoder {R} (d : decoder R) (zero : R) (v : value) : option R :=
  match v with VMap m => decode_strict d m zero | VNil => Some zero | _ => None end.

(** ** Multipart forms (request.go) *)

(** What ParseMultipartForm and FormFile of net/http report; the parsed form and a file are
    types of that package. *)
Inductive MultipartFailure := ErrMessageTooLarge | OtherMultipart (text : string).
Inductive FileFailure := ErrMissingFile | OtherFile (text : string).
Definition defaultMaxMemory : Z := 32 * 2 ^ 20.
Section multipart.
Context {Form File : Type} (ParseMultipartForm : Z -> HttpRequest -> result MultipartFailure Form).
Context (http_FormValue : HttpRequest -> string -> string) (http_FormFile : HttpRequest -> string -> result FileFailure File).
Definition max_memory (maxMemory : Z) : Z := if bool_decide (maxMemory <= 0) then defaultMaxMemory else maxMemory.
Definition ParseMultipart (r : HttpRequest) (maxMemory : Z) : res Form :=
  let maxMemory := max_memory maxMemory in
  match ParseMultipartForm maxMemory r with
  | Ok form => Ok form
  | Err ErrMessageTooLarge =>
      Err (BadRequest ("multipart body exceeds the " +:+ fmt_d (Z.shiftr maxMemory 20) +:+ " MB size limit"))
  | Err (OtherMultipart text) => Err (BadRequest ("failed to parse multipart form: " +:+ text))
  end.
Definition FormValue (r : HttpRequest) (field : string) : res string :=
  let v := http_FormValue r field in
  if bool_decide (v = "") then Err (BadRequest ("form field " +:+ fmt_q field +:+ " is required")) else Ok v.
Definition FormFile (r : HttpRequest) (field : string) : res File :=
  match http_FormFile r field with
  | Ok f => Ok f
  | Err ErrMissingFile => Err (BadRequest ("file field " +:+ fmt_q field +:+ " is required"))
  | Err (OtherFile text) => Err (BadRequest ("failed to read uploaded file: " +:+ text))
  end.
Lemma Err_status {A} msg e : Err (BadRequest msg) = Err e :> res A -> StatusCode e = 400.
Proof. by intros [= <-]. Qed.
(** The helpers blame the client for every failure, and ask for a positive amount of memory. *)
Lemma multipart_failures_are_400 r maxMemory e : ParseMultipart r maxMemory = Err e -> StatusCode e = 400 /\ 0 < max_memory maxMemory.
Proof.
  intros H. unfold ParseMultipart in H. cbv zeta in H. split; [| unfold max_memory; case_bool_decide; unfold defaultMaxMemory; lia].
  destruct (ParseMultipartForm _ r) as [f|[|text]]; [discriminate | |]; by apply Err_status in H.
Qed.
Lemma form_failures_are_400 r field :
  (forall v, FormValue r field = Ok v -> v <> "") /\ (forall e, FormValue r field = Err e -> StatusCode e = 400) /\
  (forall e, FormFile r field = Err e -> StatusCode e = 400).
Proof.
  unfold FormValue, FormFile. split_and!.
  - intros v. case_bool_decide; congruence.
  - intros e H. case_bool_decide; [by apply Err_status in H | discriminate].
  - intros e H. destruct (http_FormFile r field) as [f|[|text]]; [discriminate | |]; by apply Err_status in H.
Qed.
End multipart.

(** ** Query parameters *)

(** strconv.Atoi *)
Definition Atoi (s : string) : option Z :=
  let digits t := if negb (bool_decide (t = "")) && all_bytes is_digit t then Some (dec_val 0 t) else None in
  match (match s with
         | String c t => if bool_decide (code c = 45) then Z.opp <$> digits t else if bool_decide (code c = 43) then digits t else digits s
         | EmptyString => None
         end) with
  | Some z => if bool_decide (- 2 ^ 63 <= z < 2 ^ 63) then Some z else None
  | None => None
  end.
(** A number within bounds, or the default. *)
Definition query_int (lo hi dflt : Z) (v : string) : Z :=
  match Atoi v with Some n => if bool_decide (lo <= n <= hi) then n else dflt | None => dflt end.
(** parsePagination and parseFleetPagination: offset and limit. *)
Definition max_int : Z := 2 ^ 63 - 1.
Definition parsePagination (r : HttpRequest) : Z * Z :=
  (query_int 0 max_int 0 (hq_Query r "offset"), query_int 1 100 20 (hq_Query r "limit")).

(** ** Server-sent events (sse.go) *)

(** PrepareSSE, and what was written. *)
Definition sse_response (body : string) : Response := {|
  hs_Status := 200;
  hs_Headers := [("Content-Type", "text/event-stream"); ("Cache-Control", "no-cache"); ("Connection", "keep-alive"); ("X-Accel-Buffering", "no")];
  hs_Body := body |}.
Definition WriteSSEEvent (event : string) (payload : value) : string :=
  "event: " +:+ event +:+ newline +:+ "data: " +:+ Marshal payload +:+ newline +:+ newline.
Definition WriteSSEHeartbeat : string := ": heartbeat" +:+ newline +:+ newline.

(** What a streaming loop meets at its select: a heartbeat tick, a value on its channel, the
    closed channel or the end of the request; and whether the client still takes what is
    written. *)
Inductive StreamInput (A : Type) := Heartbeat (writable : bool) | Received (a : A) (writable : bool) | ChannelClosed | RequestDone.
Arguments Heartbeat {A}. Arguments Received {A}. Arguments ChannelClosed {A}. Arguments RequestDone {A}.
(** The text written, and whether the loop is still running after the inputs. *)
Fixpoint sse_loop {W A} (on_value : A -> M W (option string)) (inputs : list (StreamInput A)) : M W (string * bool) :=
  match inputs with
  | [] => ret ("", true)
  | RequestDone :: _ | ChannelClosed :: _ | Heartbeat false :: _ => ret ("", false)
  | Heartbeat true :: rest =>
      let* out := sse_loop on_value rest in ret (WriteSSEHeartbeat +:+ fst out, snd out)
  | Received a writable :: rest =>
      let* text := on_value a in
      match text with
      | None => sse_loop on_value rest
      | Some text => if writable then let* out := sse_loop on_value rest in ret (text +:+ fst out, snd out) else ret ("", false)
      end
  end.
