(* ===== verification/Middleware.v ===== *)
(** * Tokens and middleware: pkg/auth/jwt and src/middleware

    Handlers are programs over an abstract state; a panic is an error value, which Recovery
    turns into a response. The jwt library is the class [JWT] with its documented
    behaviour: a token that was signed is parsed back under the same key, unless it has
    expired or is not valid yet. *)

From S2P Require Import Prelude Exception Naming GoLib Domain World Json ExecProtocol Http.

Local Open Scope go_scope.

(** ** Access tokens (jwt.go) *)

Record Claims := { cl_UserID : string; cl_Role : string; cl_ExpiresAt : Z; cl_IssuedAt : Z; cl_NotBefore : Z }.
(** jwt.NewNumericDate: the time to the second. *)
Definition NumericDate (t : Z) : Z := t - t mod second.
(** The signing method that a token names. *)
Inductive Alg := HMAC | OtherAlg.
Inductive ParseFailure := Expired | Malformed.
Definition ErrInvalidToken : error := EText "invalid token".
Definition ErrTokenExpired : error := EText "token expired".

Class JWT := {
  jwt_sign : string -> Claims -> res string;
  jwt_parse : (Alg -> res string) -> Z -> string -> result ParseFailure Claims;
  jwt_parse_signed key c t keyfunc now :
    str_ok (cl_UserID c) -> str_ok (cl_Role c) -> jwt_sign key c = Ok t -> keyfunc HMAC = Ok key ->
    jwt_parse keyfunc now t =
      if negb (bool_decide (now < cl_ExpiresAt c)) then Err Expired
      else if bool_decide (now < cl_NotBefore c) then Err Malformed else Ok c;
  (* the compact serialisation: base64 and dots *)
  jwt_no_space key c t : jwt_sign key c = Ok t -> split_on (chr 32) t = [t]
}.

Section jwt.
Context {W : Type} (time_Now : M W Z) `{!JWT}.
Record Manager := { jm_secretKey : string; jm_accessTokenT : Z }.

Definition GenerateAccessToken (m : Manager) (userID role : string) : M W (res (string * Z)) :=
  let* now := time_Now in
  let expiresAt := now + jm_accessTokenT m in
  let claims := {| cl_UserID := userID; cl_Role := role; cl_ExpiresAt := NumericDate expiresAt;
                   cl_IssuedAt := NumericDate now; cl_NotBefore := NumericDate now |} in
  ret (match jwt_sign (jm_secretKey m) claims with Ok token => Ok (token, expiresAt) | Err e => Err e end).
(** Only the HMAC methods are accepted. *)
Definition keyfunc (m : Manager) (alg : Alg) : res string :=
  match alg with HMAC => Ok (jm_secretKey m) | OtherAlg => Err ErrInvalidToken end.
Definition ValidateToken (m : Manager) (tokenString : string) : M W (res Claims) :=
  let* now := time_Now in
  ret (match jwt_parse (keyfunc m) now tokenString with
       | Ok claims => Ok claims
       | Err Expired => Err ErrTokenExpired
       | Err Malformed => Err ErrInvalidToken
       end).
End jwt.

(** ** Handlers *)

(** The values in the context of a request. *)
Record Ctx := { cx_UserID : option string; cx_Role : option string; cx_RequestID : option string; cx_CorrelationID : option string }.
Definition no_values : Ctx := {| cx_UserID := None; cx_Role := None; cx_RequestID := None; cx_CorrelationID := None |}.
Definition GetUserID (cx : Ctx) : string := default "" (cx_UserID cx).
Definition GetUserRole (cx : Ctx) : string := default "" (cx_Role cx).
Definition GetRequestID (cx : Ctx) : string := default "" (cx_RequestID cx).
Definition GetCorrelationID (cx : Ctx) : string := default "" (cx_CorrelationID cx).

(** [Err] is a panic. *)
Definition Handler (W : Type) : Type := Ctx -> HttpRequest -> M W (res Response).
Definition answer {W} (r : Response) : M W (res Response) := ret (Ok r).

(** ** auth.go *)

Section auth.
Context {W : Type} (time_Now : M W Z) `{!JWT}.

Definition Authenticate (m : Manager) (next : Handler W) : Handler W := fun cx r =>
  let authHeader := hq_Header r "Authorization" in
  if bool_decide (authHeader = "") then answer (WriteError (Unauthorized "missing authorization header"))
  else
    match split_on (chr 32) authHeader with
    | [scheme; tokenString] =>
        if bool_decide (scheme = "Bearer") then
          let* claims := ValidateToken time_Now m tokenString in
          match claims with
          | Err e => answer (WriteError (Unauthorized (match e with EText "token expired" => "token expired" | _ => "invalid token" end)))
          | Ok claims => next (cx <| cx_UserID := Some (cl_UserID claims) |> <| cx_Role := Some (cl_Role claims) |>) r
          end
        else answer (WriteError (Unauthorized "invalid authorization header format"))
    | _ => answer (WriteError (Unauthorized "invalid authorization header format"))
    end.

Definition RequireRole (roles : list string) (next : Handler W) : Handler W := fun cx r =>
  let userRole := GetUserRole cx in
  if bool_decide (userRole = "") then answer (WriteError (Unauthorized "user not authenticated"))
  else if existsb (fun role => bool_decide (userRole = role)) roles then next cx r
  else answer (WriteError (Forbidden "insufficient permissions")).
End auth.

(** ** requestid.go, correlationid.go, recovery.go *)

Section chain.
Context {W : Type} (uuid_NewString : M W string).

Definition with_header (name v : string) (m : M W (res Response)) : M W (res Response) :=
  let* resp := m in ret (match resp with Ok resp => Ok (set_header name v resp) | Err e => Err e end).
Definition id_of (v : string) : M W string := if bool_decide (v = "") then uuid_NewString else ret v.
Definition RequestID (next : Handler W) : Handler W := fun cx r =>
  let* id := id_of (hq_Header r "X-Request-ID") in
  with_header "X-Request-ID" id (next (cx <| cx_RequestID := Some id |>) r).
Definition CorrelationID (next : Handler W) : Handler W := fun cx r =>
  let* id := id_of (hq_Header r "X-Correlation-ID") in
  with_header "X-Correlation-ID" id (next (cx <| cx_CorrelationID := Some id |>) r).
(** A panic becomes a response of status 500. *)
Definition Recovery (next : Handler W) : Handler W := fun cx r =>
  let* resp := next cx r in
  ret (match resp with Ok resp => Ok resp | Err e => Ok (WriteError (Internal e)) end).
End chain.
