(* ===== verification/Accounts.v ===== *)
(** * Users, tokens and agents: service/user, service/auth and service/agent

    The services over the Postgres repositories of [PgAccounts]. bcrypt is the class
    [Bcrypt] with its documented behaviour, SHA-256 a parameter, and the random bytes come
    from the world. *)

From S2P Require Import Prelude Exception Naming GoLib Domain World PgRepo Json Encoding Orchestrator Chat MemRepo ExecProtocol PgTables PgChat PgAccounts.
From S2P Require Import Http Middleware.

Local Open Scope go_scope.

(** golang.org/x/crypto/bcrypt: a hash is made from a random salt, and a password matches
    the hashes that were made of it. *)
Class Bcrypt := {
  bcrypt_generate : string -> string -> res string;
  bcrypt_compare : string -> string -> bool;
  bcrypt_matches salt password hash : bcrypt_generate salt password = Ok hash -> bcrypt_compare hash password = true
}.

Definition RoleUser : string := "user".
Definition no_update : UserUpdate := {| uu_Username := None; uu_Email := None; uu_PasswordHash := None; uu_IsVerified := None |}.

Section user_service.
Context `{!Bcrypt}.
(** crypto/rand: the bytes, or the failure, at a tick of the world. *)
Context (rand : nat -> nat -> res string).

Definition rand_Read (n : nat) : M Pg (res string) := fun w => (rand n (pg_tick w), w <| pg_tick := S (pg_tick w) |>).

(** ** service/user/password.go *)

Definition HashPassword (password : string) : M Pg (res string) :=
  let? salt := rand_Read 16 in ret (bcrypt_generate salt password).
Definition ValidatePassword (password hash : string) : bool := bcrypt_compare hash password.

(** ** service/user/service.go *)

Definition internal {A} (m : M Pg (res A)) : M Pg (res A) := fun w =>
  match m w with (Ok a, w') => (Ok a, w') | (Err e, w') => (Err (Internal e), w') end.

Definition Register (username email password : string) : M Pg (res User) :=
  let? passwordHash := internal (HashPassword password) in
  UserCreate {| up_Username := username; up_Email := email; up_PasswordHash := passwordHash; up_Role := RoleUser |}.

Definition bad_login : error := Unauthorized "invalid email or password".
(** A failure to store the time of the login is not reported. *)
Definition Login (email password : string) : M Pg (res User) :=
  let* u := UserGetByEmail email in
  match u with
  | Err _ => ret (Err bad_login)
  | Ok u =>
      if negb (ValidatePassword password (us_PasswordHash u)) then ret (Err bad_login)
      else let* _ := UpdateLastLogin (us_ID u) in ret (Ok u)
  end.
Definition user_GetByID (id : string) : M Pg (res User) := UserGetByID id.
Definition UpdateProfile (id : string) (p : UserUpdate) : M Pg (res User) := UserUpdateRow id p.
Definition ChangePassword (id oldPassword newPassword : string) : M Pg (res unit) :=
  let? u := UserGetByID id in
  if negb (ValidatePassword oldPassword (us_PasswordHash u)) then ret (Err (Unauthorized "invalid current password"))
  else
    let? newHash := internal (HashPassword newPassword) in
    let? _ := UserUpdateRow id (no_update <| uu_PasswordHash := Some newHash |>) in
    ret (Ok tt).

(** ** service/auth/service.go *)

Context `{!JWT} (hashToken : string -> string) (jwtManager : Manager).

Definition RefreshTokenLength : nat := 32.
Definition refresh_lifetime : Z := 30 * 24 * 3600 * second.
Definition generateRefreshToken : M Pg (res string) :=
  let? b := rand_Read RefreshTokenLength in ret (Ok (b64_url_encode b)).

Record TokenPair := { tp_Access : string; tp_Refresh : string; tp_ExpiresAt : Z }.
Definition GenerateTokenPair (userID : string) : M Pg (res TokenPair) :=
  let? u := UserGetByID userID in
  let? access := internal (GenerateAccessToken pg_now jwtManager (us_ID u) (us_Role u)) in
  let? refreshToken := internal generateRefreshToken in
  let tokenHash := hashToken refreshToken in
  let* now := pg_now in
  let refreshExpiry := now + refresh_lifetime in
  let? _ := StoreRefreshToken userID tokenHash refreshExpiry in
  ret (Ok {| tp_Access := fst access; tp_Refresh := refreshToken; tp_ExpiresAt := snd access |}).

Definition ValidateRefreshToken (token : string) : M Pg (res User) :=
  let* rt := GetRefreshToken (hashToken token) in
  match rt with
  | Err _ => ret (Err (Unauthorized "invalid refresh token"))
  | Ok rt =>
      let* now := pg_now in
      if negb (IsActive rt now) then ret (Err (Unauthorized "refresh token expired or revoked"))
      else
        let* u := UserGetByID (rt_UserID rt) in
        ret (match u with Err _ => Err (Unauthorized "user not found") | Ok u => Ok u end)
  end.
Definition auth_RevokeRefreshToken (token : string) : M Pg (res unit) := RevokeRefreshToken (hashToken token).
Definition auth_RevokeAllUserTokens (userID : string) : M Pg (res unit) := RevokeAllUserTokens userID.
End user_service.

(** ** service/agent/service.go *)

Section agent_service.
Context (time_Now : M Pg Z) (uuid_NewString : M Pg string).

Definition agent_Create (p : AgentParams) : M Pg (res Agent) :=
  let* a := newAgent time_Now uuid_NewString p in
  let? _ := AgentCreate a in ret (Ok a).
Definition agent_Get (id : string) : M Pg (res Agent) := AgentGetByID id.
Definition agent_List (offset limit : Z) : M Pg (res (list Agent * Z)) := AgentList offset limit.
Definition agent_Update (id : string) (p : Chat.AgentUpdate) : M Pg (res Agent) :=
  let? a := AgentGetByID id in
  let* now := time_Now in
  let a := a <| ag_Name := default (ag_Name a) (au_Name p) |> <| ag_Description := default (ag_Description a) (au_Description p) |>
             <| ag_Model := default (ag_Model a) (au_Model p) |> <| ag_SystemPrompt := default (ag_SystemPrompt a) (au_SystemPrompt p) |>
             <| ag_UpdatedAt := now |> in
  let? _ := AgentUpdateRow a in ret (Ok a).
Definition agent_Delete (id : string) : M Pg (res unit) := AgentDelete id.
End agent_service.
