(* ===== verification/AuthApi.v ===== *)
(** * The HTTP handlers of accounts and agents: api/http/v1/auth and api/http/v1/agent

    The handlers call the services through records of operations, as the Go handlers do
    through their interfaces; [auth_services] and [agent_services] are the services of
    [Accounts]. *)

From S2P Require Import Prelude Exception Naming GoLib Domain World Json Encoding ExecProtocol Orchestrator Chat PgTables PgAccounts Http Middleware Accounts.

Local Open Scope go_scope.

Definition time_json (t : Z) : value := VStr (rfc3339nano t).

(** ** Bodies (dto.go) *)

Record registerRequest := { rg_Username : string; rg_Email : string; rg_Password : string }.
Definition registerRequest_decoder : decoder registerRequest := [
  ("username", get_str (fun x r => r <| rg_Username := x |>)); ("email", get_str (fun x r => r <| rg_Email := x |>));
  ("password", get_str (fun x r => r <| rg_Password := x |>))].
Definition registerRequest_rules (r : registerRequest) : list field_rules := [
  {| fr_Name := "username"; fr_Value := FStr (rg_Username r); fr_Rules := [Required; Min 3; Max 50] |};
  {| fr_Name := "email"; fr_Value := FStr (rg_Email r); fr_Rules := [Required; Email] |};
  {| fr_Name := "password"; fr_Value := FStr (rg_Password r); fr_Rules := [Required; Min 8] |}].
Record loginRequest := { li_Email : string; li_Password : string }.
Definition loginRequest_decoder : decoder loginRequest := [
  ("email", get_str (fun x r => r <| li_Email := x |>)); ("password", get_str (fun x r => r <| li_Password := x |>))].
Definition loginRequest_rules (r : loginRequest) : list field_rules := [
  {| fr_Name := "email"; fr_Value := FStr (li_Email r); fr_Rules := [Required; Email] |};
  {| fr_Name := "password"; fr_Value := FStr (li_Password r); fr_Rules := [Required] |}].
Definition refreshTokenRequest_decoder : decoder string := [("refresh_token", get_str (fun x _ => x))].
Definition refreshTokenRequest_rules (token : string) : list field_rules := [
  {| fr_Name := "refresh_token"; fr_Value := FStr token; fr_Rules := [Required] |}].
Record changePasswordRequest := { cp_Old : string; cp_New : string }.
Definition changePasswordRequest_decoder : decoder changePasswordRequest := [
  ("old_password", get_str (fun x r => r <| cp_Old := x |>)); ("new_password", get_str (fun x r => r <| cp_New := x |>))].
Definition changePasswordRequest_rules (r : changePasswordRequest) : list field_rules := [
  {| fr_Name := "old_password"; fr_Value := FStr (cp_Old r); fr_Rules := [Required] |};
  {| fr_Name := "new_password"; fr_Value := FStr (cp_New r); fr_Rules := [Required; Min 8] |}].
Definition opt_str (o : option string) : fieldval := FPtr (FStr <$> o).
Record updateProfileRequest := { pf_Username : option string; pf_Email : option string }.
Definition updateProfileRequest_decoder : decoder updateProfileRequest := [
  ("username", get_opt get_str (fun x r => r <| pf_Username := x |>)); ("email", get_opt get_str (fun x r => r <| pf_Email := x |>))].
Definition updateProfileRequest_rules (r : updateProfileRequest) : list field_rules := [
  {| fr_Name := "username"; fr_Value := opt_str (pf_Username r); fr_Rules := [OmitEmpty; Min 3; Max 50] |};
  {| fr_Name := "email"; fr_Value := opt_str (pf_Email r); fr_Rules := [OmitEmpty; Email] |}].

(** The password hash is never part of a response. *)
Definition toUserResponse (u : User) : value := VMap (
  str_field "id" (us_ID u) ++ str_field "username" (us_Username u) ++ str_field "email" (us_Email u) ++ str_field "role" (us_Role u) ++
  field "is_verified" (VBool (us_IsVerified u)) ++ field "created_at" (time_json (us_CreatedAt u)) ++ field "updated_at" (time_json (us_UpdatedAt u))).
Definition tokenResponse (t : TokenPair) (u : User) : value := VMap (
  str_field "access_token" (tp_Access t) ++ str_field "refresh_token" (tp_Refresh t) ++
  field "expires_at" (time_json (tp_ExpiresAt t)) ++ field "user" (toUserResponse u)).

(** ** Accounts (auth/handler.go) *)

Record AuthServices (W : Type) := {
  as_Register : string -> string -> string -> M W (res User);
  as_Login : string -> string -> M W (res User);
  as_GetByID : string -> M W (res User);
  as_UpdateProfile : string -> UserUpdate -> M W (res User);
  as_ChangePassword : string -> string -> string -> M W (res unit);
  as_GenerateTokenPair : string -> M W (res TokenPair);
  as_ValidateRefreshToken : string -> M W (res User);
  as_RevokeRefreshToken : string -> M W (res unit);
  as_RevokeAllUserTokens : string -> M W (res unit) }.
Arguments as_Register {W}. Arguments as_Login {W}. Arguments as_GetByID {W}. Arguments as_UpdateProfile {W}. Arguments as_ChangePassword {W}.
Arguments as_GenerateTokenPair {W}. Arguments as_ValidateRefreshToken {W}. Arguments as_RevokeRefreshToken {W}. Arguments as_RevokeAllUserTokens {W}.

(** [if err != nil { httputil.WriteError(w, err); return }] *)
Definition or_error {W A} (m : M W (res A)) (k : A -> M W (res Response)) : M W (res Response) :=
  let* r := m in match r with Err e => answer (WriteError e) | Ok a => k a end.
Definition bound {W R} `{!Decoding} (d : decoder R) (zero : R) (rules : R -> list field_rules) (r : HttpRequest) (k : R -> M W (res Response)) : M W (res Response) :=
  match BindJSON d zero rules r with Err e => answer (WriteError e) | Ok req => k req end.
(** [userID == ""] and [id == ""] *)
Definition unless_empty {W} (s : string) (e : error) (k : M W (res Response)) : M W (res Response) :=
  if bool_decide (s = "") then answer (WriteError e) else k.

Section auth_handlers.
Context {W : Type} `{!Decoding} (svc : AuthServices W).
Definition not_authenticated : error := Unauthorized "user not authenticated".

Definition auth_Register : Handler W := fun _ r =>
  bound registerRequest_decoder {| rg_Username := ""; rg_Email := ""; rg_Password := "" |} registerRequest_rules r (fun req =>
  or_error (as_Register svc (rg_Username req) (rg_Email req) (rg_Password req)) (fun u =>
  answer (Created "user registered" (toUserResponse u)))).
Definition auth_Login : Handler W := fun _ r =>
  bound loginRequest_decoder {| li_Email := ""; li_Password := "" |} loginRequest_rules r (fun req =>
  or_error (as_Login svc (li_Email req) (li_Password req)) (fun u =>
  or_error (as_GenerateTokenPair svc (us_ID u)) (fun t =>
  answer (WriteJSON 200 "login successful" (tokenResponse t u))))).
Definition auth_Refresh : Handler W := fun _ r =>
  bound refreshTokenRequest_decoder "" refreshTokenRequest_rules r (fun token =>
  or_error (as_ValidateRefreshToken svc token) (fun u =>
  or_error (as_RevokeRefreshToken svc token) (fun _ =>
  or_error (as_GenerateTokenPair svc (us_ID u)) (fun t =>
  answer (WriteJSON 200 "token refreshed" (tokenResponse t u)))))).
Definition auth_Logout : Handler W := fun cx _ =>
  unless_empty (GetUserID cx) not_authenticated
  (or_error (as_RevokeAllUserTokens svc (GetUserID cx)) (fun _ => answer (WriteJSON 200 "logged out successfully" VNil))).
Definition auth_Me : Handler W := fun cx _ =>
  unless_empty (GetUserID cx) not_authenticated
  (or_error (as_GetByID svc (GetUserID cx)) (fun u => answer (WriteJSON 200 "user retrieved" (toUserResponse u)))).
Definition auth_UpdateProfile : Handler W := fun cx r =>
  unless_empty (GetUserID cx) not_authenticated
  (bound updateProfileRequest_decoder {| pf_Username := None; pf_Email := None |} updateProfileRequest_rules r (fun req =>
   or_error (as_UpdateProfile svc (GetUserID cx) (no_update <| uu_Username := pf_Username req |> <| uu_Email := pf_Email req |>)) (fun u =>
   answer (WriteJSON 200 "profile updated" (toUserResponse u))))).
Definition auth_ChangePassword : Handler W := fun cx r =>
  unless_empty (GetUserID cx) not_authenticated
  (bound changePasswordRequest_decoder {| cp_Old := ""; cp_New := "" |} changePasswordRequest_rules r (fun req =>
   or_error (as_ChangePassword svc (GetUserID cx) (cp_Old req) (cp_New req)) (fun _ =>
   answer (WriteJSON 200 "password changed successfully" VNil)))).
End auth_handlers.

Section auth_services.
Context `{!Bcrypt, !JWT} (rand : nat -> nat -> res string) (hashToken : string -> string) (jwtManager : Manager).
Definition auth_services : AuthServices Pg := {|
  as_Register := Register rand; as_Login := Login; as_GetByID := user_GetByID; as_UpdateProfile := UpdateProfile;
  as_ChangePassword := ChangePassword rand; as_GenerateTokenPair := GenerateTokenPair rand hashToken jwtManager;
  as_ValidateRefreshToken := ValidateRefreshToken hashToken; as_RevokeRefreshToken := auth_RevokeRefreshToken hashToken;
  as_RevokeAllUserTokens := auth_RevokeAllUserTokens |}.
End auth_services.

(** ** Agents (agent/handler.go) *)

Record createAgentRequest := { ca_Name : string; ca_Description : string; ca_Model : string; ca_SystemPrompt : string }.
Definition createAgentRequest_decoder : decoder createAgentRequest := [
  ("name", get_str (fun x r => r <| ca_Name := x |>)); ("description", get_str (fun x r => r <| ca_Description := x |>));
  ("model", get_str (fun x r => r <| ca_Model := x |>)); ("system_prompt", get_str (fun x r => r <| ca_SystemPrompt := x |>))].
Definition createAgentRequest_rules (r : createAgentRequest) : list field_rules := [
  {| fr_Name := "name"; fr_Value := FStr (ca_Name r); fr_Rules := [Required; Min 1; Max 100] |};
  {| fr_Name := "description"; fr_Value := FStr (ca_Description r); fr_Rules := [Max 500] |};
  {| fr_Name := "model"; fr_Value := FStr (ca_Model r); fr_Rules := [Required; Min 1] |}].
Definition updateAgentRequest_decoder : decoder Chat.AgentUpdate := [
  ("name", get_opt get_str (fun x r => r <| au_Name := x |>)); ("description", get_opt get_str (fun x r => r <| au_Description := x |>));
  ("model", get_opt get_str (fun x r => r <| au_Model := x |>)); ("system_prompt", get_opt get_str (fun x r => r <| au_SystemPrompt := x |>))].
Definition updateAgentRequest_rules (r : Chat.AgentUpdate) : list field_rules := [
  {| fr_Name := "name"; fr_Value := opt_str (au_Name r); fr_Rules := [OmitEmpty; Min 1; Max 100] |};
  {| fr_Name := "description"; fr_Value := opt_str (au_Description r); fr_Rules := [OmitEmpty; Max 500] |};
  {| fr_Name := "model"; fr_Value := opt_str (au_Model r); fr_Rules := [OmitEmpty; Min 1] |}].
Definition agent_toResponse (a : Agent) : value := VMap (
  str_field "id" (ag_ID a) ++ str_field "name" (ag_Name a) ++ str_field "description" (ag_Description a) ++ str_field "model" (ag_Model a) ++
  str_field "system_prompt" (ag_SystemPrompt a) ++ str_field "status" (ag_Status a) ++
  field "created_at" (time_json (ag_CreatedAt a)) ++ field "updated_at" (time_json (ag_UpdatedAt a))).

Record AgentServices (W : Type) := {
  gs_Create : AgentParams -> M W (res Agent);
  gs_Get : string -> M W (res Agent);
  gs_List : Z -> Z -> M W (res (list Agent * Z));
  gs_Update : string -> Chat.AgentUpdate -> M W (res Agent);
  gs_Delete : string -> M W (res unit) }.
Arguments gs_Create {W}. Arguments gs_Get {W}. Arguments gs_List {W}. Arguments gs_Update {W}. Arguments gs_Delete {W}.

Section agent_handlers.
Context {W : Type} `{!Decoding} (svc : AgentServices W).
Definition missing_agent : error := BadRequest "missing agent id".

Definition agents_Create : Handler W := fun cx r =>
  bound createAgentRequest_decoder {| ca_Name := ""; ca_Description := ""; ca_Model := ""; ca_SystemPrompt := "" |} createAgentRequest_rules r (fun req =>
  or_error (gs_Create svc {| ap_UserID := GetUserID cx; ap_Name := ca_Name req; ap_Description := ca_Description req;
                             ap_Model := ca_Model req; ap_SystemPrompt := ca_SystemPrompt req |}) (fun a =>
  answer (Created "agent created" (agent_toResponse a)))).
Definition agents_Get : Handler W := fun _ r =>
  unless_empty (hq_Param r "id") missing_agent
  (or_error (gs_Get svc (hq_Param r "id")) (fun a => answer (WriteJSON 200 "agent retrieved" (agent_toResponse a)))).
Definition agents_List : Handler W := fun _ r =>
  let '(offset, limit) := parsePagination r in
  or_error (gs_List svc offset limit) (fun '(agents, total) =>
  answer (WriteJSON 200 "agents retrieved" (VMap (
    field "agents" (VList (map agent_toResponse agents)) ++ int_field "total" total ++ int_field "offset" offset ++ int_field "limit" limit)))).
Definition agents_Update : Handler W := fun _ r =>
  unless_empty (hq_Param r "id") missing_agent
  (bound updateAgentRequest_decoder {| au_Name := None; au_Description := None; au_Model := None; au_SystemPrompt := None |} updateAgentRequest_rules r (fun req =>
   or_error (gs_Update svc (hq_Param r "id") req) (fun a => answer (WriteJSON 200 "agent updated" (agent_toResponse a))))).
Definition agents_Delete : Handler W := fun _ r =>
  unless_empty (hq_Param r "id") missing_agent
  (or_error (gs_Delete svc (hq_Param r "id")) (fun _ => answer NoContent)).
End agent_handlers.

Definition agent_services (time_Now : M Pg Z) (uuid_NewString : M Pg string) : AgentServices Pg := {|
  gs_Create := agent_Create time_Now uuid_NewString; gs_Get := agent_Get; gs_List := agent_List;
  gs_Update := agent_Update time_Now; gs_Delete := agent_Delete |}.
