(* ===== verification/AccountsSpec.v ===== *)
(** * What accounts and tokens promise

    Refresh tokens are redeemed at most as often as they were issued, however the requests
    interleave; a registered user can log in with the password and with no other that
    bcrypt tells apart; and an access token authenticates its user until it expires. *)

From S2P Require Import Prelude Exception Naming GoLib Domain World PgRepo Json Encoding ExecProtocol Orchestrator Chat PgTables PgChat PgAccounts.
From S2P Require Import Http Middleware Accounts.

Local Open Scope go_scope.

(** ** Refresh tokens *)

(** The rows with a hash that are not revoked. *)
Definition live_token (h : string) (row : tokenRow) : Prop := k_token_hash row = h /\ k_revoked_at row = None.
#[export] Instance live_token_dec h row : Decision (live_token h row).
Proof. unfold live_token. apply _. Defined.
Definition live_tokens (h : string) (t : Tables) : nat := size (filter (fun kv => live_token h kv.2) (tb_tokens t)).
Definition live_in (h : string) (w : Pg) : nat := live_tokens h (pg_tables w).

(** Nothing is issued: no hash has more live rows than before. *)
Definition issues_none (w w' : Pg) : Prop := forall h, (live_in h w' <= live_in h w)%nat.
#[export] Instance issues_none_pre : PreOrder issues_none.
Proof. split; [by intros w h |]. intros a b c H1 H2 h. specialize (H1 h). specialize (H2 h). lia. Qed.

Lemma same_tokens w w' : tb_tokens (pg_tables w') = tb_tokens (pg_tables w) -> issues_none w w'.
Proof. intros E h. unfold live_in, live_tokens. by rewrite E. Qed.

(** A statement whose effect on the tables satisfies [P]. *)
Lemma statement_effect {A} (P : Tables -> Tables -> Prop) (f : PgTables.Server -> Z -> Tables -> res (A * Tables)) w :
  P (pg_tables w) (pg_tables w) -> (forall sv now a t, f sv now (pg_tables w) = Ok (a, t) -> P (pg_tables w) t) ->
  P (pg_tables w) (pg_tables (statement f w).2).
Proof.
  intros H0 H. unfold statement. destruct (sv_fault _ _); [done |]. 
  destruct (f _ _ _) as [[a t]|e] eqn:E; [| done]. cbn. by eapply H.
Qed.
Lemma wrapped_effect {A} what (m : M Pg (res A)) w : (wrapped what m w).2 = (m w).2.
Proof. unfold wrapped. by destruct (m w) as [[a|e] w']. Qed.

Lemma map_shrinks (f : tokenRow -> tokenRow) (m : gmap string tokenRow) h : (forall r, live_token h (f r) -> live_token h r) ->
  (size (filter (fun kv : string * tokenRow => live_token h kv.2) (f <$> m)) <= size (filter (fun kv => live_token h kv.2) m))%nat.
Proof.
  intros Hf. rewrite <- !(size_dom (D := gset string)). apply subseteq_size. intros k. rewrite !elem_of_dom.
  intros [r Hr]. apply map_lookup_filter_Some in Hr as [Hr Hl]. rewrite lookup_fmap in Hr. apply fmap_Some in Hr as (r0 & Hr0 & ->).
  exists r0. apply map_lookup_filter_Some. auto.
Qed.
Lemma revoke_shrinks P now h r : live_token h (revoke P now r) -> live_token h r.
Proof. unfold revoke. destruct (P r && is_null (k_revoked_at r)); [| done]. intros [_ H]. done. Qed.

Lemma RevokeRefreshToken_effect h w :
  issues_none w (RevokeRefreshToken h w).2 /\
  ((RevokeRefreshToken h w).1 = Ok tt -> (S (live_in h (RevokeRefreshToken h w).2) <= live_in h w)%nat).
Proof.
  unfold RevokeRefreshToken, bind_ok, wrapped, statement. destruct (sv_fault _ _) as [e|]; cbn.
  { split; [by apply same_tokens | done]. }
  set (P := fun row : tokenRow => bool_decide (k_token_hash row = h)). set (now := sv_now _ _).
  set (t := pg_tables w). split.
  - intros h'. apply map_shrinks. intros r. apply revoke_shrinks.
  - case_bool_decide as Hn; [done |]. intros _.
    assert (H0 : live_tokens h (t <| tb_tokens := revoke P now <$> tb_tokens t |>) = 0%nat).
    { unfold live_tokens. cbn. apply map_size_empty_iff, map_empty. intros k. apply eq_None_not_Some. intros [r Hr].
      apply map_lookup_filter_Some in Hr as [Hr [Hl1 Hl2]].
      rewrite lookup_fmap in Hr. apply fmap_Some in Hr as (r0 & _ & ->). revert Hl1 Hl2. unfold revoke, P.
      destruct (bool_decide (k_token_hash r0 = h)) eqn:Hb; cbn [andb].
      - destruct (k_revoked_at r0) eqn:Hr0; cbn; [by rewrite Hr0 | done].
      - apply bool_decide_eq_false_1 in Hb. done. }
    match goal with |- (S ?x <= ?y)%nat => change x with (live_tokens h (t <| tb_tokens := revoke P now <$> tb_tokens t |>)); change y with (live_tokens h t) end.
    rewrite H0. unfold live_tokens. destruct (size _) eqn:Hs; [| lia]. exfalso. apply Hn.
    apply map_size_empty_iff in Hs. unfold tokens_with. destruct (List.filter _ _) as [|r l] eqn:Hf; [done |]. exfalso.
    assert (Hr : r ∈ List.filter (fun row => bool_decide (k_token_hash row = h) && is_null (k_revoked_at row)) (snd <$> map_to_list (tb_tokens t))) by (rewrite Hf; apply list_elem_of_here).
    apply list_elem_of_In, List.filter_In in Hr as [Hr Hp]. apply list_elem_of_In, list_elem_of_fmap in Hr as ([k r'] & -> & Hr).
    apply elem_of_map_to_list in Hr. apply andb_true_iff in Hp as [Hp1 Hp2]. apply bool_decide_eq_true_1 in Hp1.
    assert (Hk : filter (fun kv => live_token h kv.2) (tb_tokens t) !! k = Some r').
    { apply map_lookup_filter_Some. split; [done |]. split; [done |]. cbn in *. by destruct (k_revoked_at r'). }
    by rewrite Hs in Hk.
Qed.
Lemma RevokeAllUserTokens_effect user w : issues_none w (RevokeAllUserTokens user w).2.
Proof.
  unfold RevokeAllUserTokens. rewrite wrapped_effect. intros h.
  apply (statement_effect (fun t t' => (live_tokens h t' <= live_tokens h t)%nat)); [done |].
  intros sv now a t. cbn. unfold then_. destruct (read_uuid sv user); [| done]. intros [= _ <-]. apply map_shrinks. intros r. apply revoke_shrinks.
Qed.
Lemma CleanupExpiredTokens_effect w : issues_none w (CleanupExpiredTokens w).2.
Proof.
  unfold CleanupExpiredTokens. rewrite wrapped_effect. intros h.
  apply (statement_effect (fun t t' => (live_tokens h t' <= live_tokens h t)%nat)); [done |].
  intros sv now a t [= _ <-]. unfold live_tokens. cbn. rewrite <- !(size_dom (D := gset string)). apply subseteq_size. intros k. rewrite !elem_of_dom.
  intros [r Hr]. exists r. rewrite !map_lookup_filter_Some in *. tauto.
Qed.

(** Storing a token issues its hash once. *)
Definition issued_by (h : string) {A} (r : res A) (h' : string) : nat := if is_Ok r && bool_decide (h' = h) then 1 else 0.
Lemma StoreRefreshToken_effect user hash exp w h :
  (live_in h (StoreRefreshToken user hash exp w).2 <= live_in h w + issued_by hash (StoreRefreshToken user hash exp w).1 h)%nat.
Proof.
  destruct w as [sv tb tick]. unfold StoreRefreshToken, bind, pg_newid, pg_now, wrapped, statement. cbn.
  destruct (sv_fault _ _). { unfold live_in. cbn. lia. } unfold then_, require.
  destruct (read_uuid _ _) as [id|]; [| unfold live_in; cbn; lia].
  destruct (read_uuid _ user) as [u|]; [| unfold live_in; cbn; lia].
  destruct (tb_tokens tb !! id) eqn:Hid; cbn [is_null]; [unfold live_in; cbn; lia |].
  case_bool_decide; [| unfold live_in; cbn; lia].
  destruct (negb _); [| unfold live_in; cbn; lia]. unfold live_in, live_tokens, issued_by. cbn [pg_tables tb_tokens is_Ok andb snd fst].
  case_bool_decide as Hh.
  - subst h. rewrite map_filter_insert_True by done. rewrite map_size_insert_None; [lia |]. by apply map_lookup_filter_None_2; left.
  - rewrite map_filter_insert_False by (intros [Hl _]; cbn in Hl; congruence). rewrite delete_id by done. cbn. lia.
Qed.

(** Programs that leave the tables. *)
Definition only_reads {A} (m : M Pg A) : Prop := forall w, pg_tables (m w).2 = pg_tables w.
Lemma pg_reads_ret {A} (a : A) : only_reads (ret a).
Proof. by intros w. Qed.
Lemma pg_reads_bind {A B} (m : M Pg A) (k : A -> M Pg B) : only_reads m -> (forall a, only_reads (k a)) -> only_reads (bind m k).
Proof. intros Hm Hk w. unfold bind. specialize (Hm w). destruct (m w) as [a w1]. cbn in Hm. by rewrite Hk. Qed.
Lemma reads_bind_ok {A B} (m : M Pg (res A)) (k : A -> M Pg (res B)) : only_reads m -> (forall a, only_reads (k a)) -> only_reads (bind_ok m k).
Proof. intros Hm Hk w. unfold bind_ok. specialize (Hm w). destruct (m w) as [[a|e] w1]; cbn in Hm; [by rewrite Hk | done]. Qed.
Lemma reads_wrapped {A} what (m : M Pg (res A)) : only_reads m -> only_reads (wrapped what m).
Proof. intros Hm w. rewrite wrapped_effect. apply Hm. Qed.
Lemma reads_internal {A} (m : M Pg (res A)) : only_reads m -> only_reads (internal m).
Proof. intros Hm w. unfold internal. specialize (Hm w). by destruct (m w) as [[a|e] w1]. Qed.
Lemma reads_statement {A} (f : PgTables.Server -> Z -> Tables -> res (A * Tables)) :
  (forall sv now t a t', f sv now t = Ok (a, t') -> t' = t) -> only_reads (statement f).
Proof. intros Hf w. symmetry. apply (statement_effect eq); [done |]. intros sv now a t H. symmetry. by eapply Hf. Qed.
Lemma reads_find_user id what f : only_reads (find_user id what f).
Proof.
  apply reads_bind_ok; [| intros [row|]; apply pg_reads_ret]. apply reads_wrapped, reads_statement. intros sv now t a t'. unfold then_.
  destruct (f sv t); [| done]. by intros [= _ <-].
Qed.
Lemma reads_now : only_reads pg_now.
Proof. by intros w. Qed.
Lemma reads_GetRefreshToken h : only_reads (GetRefreshToken h).
Proof. apply reads_bind_ok; [| intros [|row rows]; apply pg_reads_ret]. apply reads_wrapped, reads_statement. by intros sv now t a t' [= _ <-]. Qed.
Create HintDb pg_reads.
#[export] Hint Resolve pg_reads_ret pg_reads_bind reads_bind_ok reads_wrapped reads_internal reads_find_user reads_now reads_GetRefreshToken : pg_reads.

Section tokens.
Context `{!Bcrypt, !JWT} (rand : nat -> nat -> res string) (hashToken : string -> string) (jwtManager : Manager).
Abbreviation Generate := (GenerateTokenPair rand hashToken jwtManager).

Lemma reads_rand n : only_reads (rand_Read rand n).
Proof. by intros w. Qed.
Lemma reads_generate : only_reads (generateRefreshToken rand).
Proof. apply reads_bind_ok; [apply reads_rand | intros b; apply pg_reads_ret]. Qed.
Lemma reads_access u role : only_reads (GenerateAccessToken pg_now jwtManager u role).
Proof. apply pg_reads_bind; [apply reads_now | intros now; apply pg_reads_ret]. Qed.
Lemma reads_validate token : only_reads (ValidateRefreshToken hashToken token).
Proof.
  apply pg_reads_bind; [apply reads_GetRefreshToken | intros [rt|e]; [| apply pg_reads_ret]]. apply pg_reads_bind; [apply reads_now | intros now].
  destruct (negb _); [apply pg_reads_ret |]. apply pg_reads_bind; [apply reads_find_user | intros a; apply pg_reads_ret].
Qed.

Definition issues (r : res TokenPair) (h : string) : nat :=
  match r with Ok p => if bool_decide (h = hashToken (tp_Refresh p)) then 1 else 0 | Err _ => 0 end.
Lemma Generate_effect user w h : (live_in h (Generate user w).2 <= live_in h w + issues (Generate user w).1 h)%nat.
Proof.
  assert (Hstop : forall w' e, pg_tables w' = pg_tables w -> (live_in h w' <= live_in h w + issues (Err e) h)%nat)
    by (intros w' e E; unfold live_in; rewrite E; lia).
  destruct (Generate user w) as [r w'] eqn:E. cbn [fst snd]. revert E. unfold GenerateTokenPair.
  unfold bind_ok at 1. pose proof (reads_find_user user "get user by id" (fun sv t => do k := read_uuid sv user in Ok (live_user k t)) w) as H1.
  fold (UserGetByID user) in H1. destruct (UserGetByID user w) as [[u|e] w1]; cbn in H1; [| intros [= <- <-]; by apply Hstop].
  unfold bind_ok at 1. pose proof (reads_internal _ (reads_access (us_ID u) (us_Role u)) w1) as H2.
  destruct (internal _ w1) as [[access|e] w2]; cbn in H2; [| intros [= <- <-]; apply Hstop; congruence].
  unfold bind_ok at 1. pose proof (reads_internal _ reads_generate w2) as H3.
  destruct (internal _ w2) as [[token|e] w3]; cbn in H3; [| intros [= <- <-]; apply Hstop; congruence].
  unfold bind at 1. destruct (pg_now w3) as [now w4] eqn:Hnow. assert (H4 : pg_tables w4 = pg_tables w3) by (injection Hnow as _ <-; done).
  unfold bind_ok. pose proof (StoreRefreshToken_effect user (hashToken token) (now + refresh_lifetime) w4 h) as H5.
  assert (E4 : live_in h w4 = live_in h w) by (unfold live_in; f_equal; congruence). rewrite E4 in H5. unfold issued_by in H5.
  destruct (StoreRefreshToken _ _ _ w4) as [[rt|e] w5]; intros [= <- <-]; cbn in *; lia.
Qed.

(** *** Requests that refresh, interleaved *)

(** Where a request of POST /auth/refresh is, with the token it brought. *)
Inductive rphase :=
| Asked (token : string) | Validated (token : string) (u : User) | Revoked (token : string) (u : User)
| Refreshed (token : string) (pair : TokenPair) | Refused.
(** The database, the hashes of the tokens issued, the requests. *)
Record Refreshing := { rf_pg : Pg; rf_issued : list string; rf_threads : gmap nat rphase }.
Definition at_phase (t : nat) (p : rphase) (s : Refreshing) : Refreshing := s <| rf_threads := <[t := p]> (rf_threads s) |>.
Definition on_result {A} (r : res A) (k : A -> rphase) : rphase := match r with Ok a => k a | Err _ => Refused end.
(** A pair is issued, by a refresh or by a login. *)
Definition generate (user : string) (s : Refreshing) : res TokenPair * Refreshing :=
  let '(r, w) := Generate user (rf_pg s) in
  (r, s <| rf_pg := w |> <| rf_issued := match r with Ok p => hashToken (tp_Refresh p) :: rf_issued s | Err _ => rf_issued s end |>).

(** The calls of the handler are steps, and other requests run in between: logins, logouts,
    the clean-up, and anything that does not touch the tokens. *)
Inductive refresh_step : Refreshing -> Refreshing -> Prop :=
| rf_ask t token s : rf_threads s !! t = None -> refresh_step s (at_phase t (Asked token) s)
| rf_validate t token s : rf_threads s !! t = Some (Asked token) ->
    refresh_step s (let '(r, w) := ValidateRefreshToken hashToken token (rf_pg s) in
                    at_phase t (on_result r (Validated token)) (s <| rf_pg := w |>))
| rf_revoke t token u s : rf_threads s !! t = Some (Validated token u) ->
    refresh_step s (let '(r, w) := auth_RevokeRefreshToken hashToken token (rf_pg s) in
                    at_phase t (on_result r (fun _ => Revoked token u)) (s <| rf_pg := w |>))
| rf_generate t token u s : rf_threads s !! t = Some (Revoked token u) ->
    refresh_step s (let '(r, s') := generate (us_ID u) s in at_phase t (on_result r (Refreshed token)) s')
| rf_login user s : refresh_step s (generate user s).2
| rf_logout user s : refresh_step s (s <| rf_pg := (auth_RevokeAllUserTokens user (rf_pg s)).2 |>)
| rf_cleanup s : refresh_step s (s <| rf_pg := (CleanupExpiredTokens (rf_pg s)).2 |>)
| rf_other w s : tb_tokens (pg_tables w) = tb_tokens (pg_tables (rf_pg s)) -> refresh_step s (s <| rf_pg := w |>).

(** The requests that have redeemed a hash. *)
Definition redeemed_by (h : string) (p : rphase) : Prop :=
  match p with Revoked token _ | Refreshed token _ => hashToken token = h | _ => False end.
#[export] Instance redeemed_by_dec h p : Decision (redeemed_by h p).
Proof. destruct p; cbn; apply _. Defined.
Definition redeemers (h : string) (s : Refreshing) : gmap nat rphase := filter (fun tp => redeemed_by h tp.2) (rf_threads s).
Definition issued (h : string) (s : Refreshing) : nat := length (List.filter (fun h' => bool_decide (h' = h)) (rf_issued s)).
(** Redeemed, and still to be redeemed. *)
Definition accounted (h : string) (s : Refreshing) : nat := (size (redeemers h s) + live_in h (rf_pg s))%nat.

Lemma redeemers_phase h t p s :
  (size (redeemers h (at_phase t p s)) <= size (redeemers h s) + if decide (redeemed_by h p) then 1 else 0)%nat.
Proof.
  unfold redeemers, at_phase. cbn. destruct (decide (redeemed_by h p)) as [Hp|Hp].
  - rewrite map_filter_insert_True by done. rewrite map_size_insert. destruct (filter _ (rf_threads s) !! t); cbn; lia.
  - rewrite map_filter_insert_False by done. rewrite map_filter_delete, map_size_delete. destruct (filter _ (rf_threads s) !! t); cbn; lia.
Qed.
Lemma redeemers_kept h t p q s : rf_threads s !! t = Some q -> redeemed_by h q -> 
  (size (redeemers h (at_phase t p s)) <= size (redeemers h s))%nat.
Proof.
  intros Ht Hq. unfold redeemers, at_phase. cbn. assert (Hf : filter (fun tp => redeemed_by h tp.2) (rf_threads s) !! t = Some q) by (by apply map_lookup_filter_Some).
  destruct (decide (redeemed_by h p)) as [Hp|Hp].
  - rewrite map_filter_insert_True by done. rewrite map_size_insert, Hf. cbn. lia.
  - rewrite map_filter_insert_False by done. rewrite map_filter_delete, map_size_delete, Hf. cbn. lia.
Qed.

Lemma live_same h w w' : tb_tokens (pg_tables w') = tb_tokens (pg_tables w) -> live_in h w' = live_in h w.
Proof. intros E. unfold live_in, live_tokens. by rewrite E. Qed.
Lemma generate_accounted h user s r s' : generate user s = (r, s') ->
  rf_threads s' = rf_threads s /\ (live_in h (rf_pg s') + issued h s <= live_in h (rf_pg s) + issued h s')%nat.
Proof.
  unfold generate. pose proof (Generate_effect user (rf_pg s) h) as G. destruct (Generate user (rf_pg s)) as [r0 w]. cbn in G.
  intros [= <- <-]. split; [done |]. unfold issued. cbn. destruct r0 as [p|e]; cbn in *; [| lia].
  case_bool_decide as H1; case_bool_decide as H2; cbn; try lia; congruence.
Qed.
Ltac account s := destruct s; unfold redeemers, issued, at_phase in *; cbn in *; lia.
Lemma step_accounted h s s' : refresh_step s s' -> (accounted h s' + issued h s <= accounted h s + issued h s')%nat.
Proof.
  unfold accounted. destruct 1 as [t token s Ht|t token s Ht|t token u s Ht|t token u s Ht|user s|user s|s|w s Hw].
  - pose proof (redeemers_phase h t (Asked token) s) as P. rewrite decide_False in P by (intros []). account s.
  - pose proof (reads_validate token (rf_pg s)) as R. destruct (ValidateRefreshToken hashToken token (rf_pg s)) as [r w]. cbn in R.
    pose proof (redeemers_phase h t (on_result r (Validated token)) (s <| rf_pg := w |>)) as P.
    rewrite decide_False in P by (destruct r; intros []). pose proof (live_same h (rf_pg s) w ltac:(congruence)) as L.
    account s.
  - pose proof (RevokeRefreshToken_effect (hashToken token) (rf_pg s)) as [R1 R2]. unfold auth_RevokeRefreshToken.
    destruct (RevokeRefreshToken (hashToken token) (rf_pg s)) as [r w]. cbn in R1, R2. specialize (R1 h).
    pose proof (redeemers_phase h t (on_result r (fun _ => Revoked token u)) (s <| rf_pg := w |>)) as P.
    destruct r as [[]|e]; cbn [on_result] in *.
    + destruct (decide (redeemed_by h (Revoked token u))) as [Hr|Hr].
      * cbn in Hr. subst h. specialize (R2 eq_refl). account s.
      * account s.
    + rewrite decide_False in P by (intros []). account s.
  - destruct (generate (us_ID u) s) as [r s'] eqn:G. destruct (generate_accounted h _ _ _ _ G) as [E L].
    assert (P : (size (redeemers h (at_phase t (on_result r (Refreshed token)) s')) <= size (redeemers h s'))%nat).
    { destruct (decide (hashToken token = h)) as [Hh|Hh].
      - apply (redeemers_kept h t _ (Revoked token u)); [by rewrite E | done].
      - pose proof (redeemers_phase h t (on_result r (Refreshed token)) s') as P. rewrite decide_False in P by (destruct r; [done | intros []]). lia. }
    unfold redeemers in P at 2. rewrite E in P. fold (redeemers h s) in P. account s'.
  - destruct (generate user s) as [r s'] eqn:G. destruct (generate_accounted h _ _ _ _ G) as [E L]. cbn. unfold redeemers. rewrite E. lia.
  - pose proof (RevokeAllUserTokens_effect user (rf_pg s) h) as R. unfold auth_RevokeAllUserTokens. account s.
  - pose proof (CleanupExpiredTokens_effect (rf_pg s) h) as R. account s.
  - pose proof (live_same h (rf_pg s) w Hw) as R. account s.
Qed.

(** C29: A refresh token buys at most one new pair. However requests that refresh, log in, log
    out and clean up interleave, the requests that have redeemed a token are at most as
    many as the times it was issued; so two requests with a token that was issued once
    never both receive a new pair. *)
Theorem refresh_at_most_once s0 s h : rtc refresh_step s0 s -> rf_threads s0 = ∅ -> rf_issued s0 = [] ->
  (size (redeemers h s) + live_in h (rf_pg s) <= live_in h (rf_pg s0) + issued h s)%nat /\
  ((live_in h (rf_pg s0) + issued h s <= 1)%nat -> forall t t' token token' p p', hashToken token = h -> hashToken token' = h ->
    rf_threads s !! t = Some (Refreshed token p) -> rf_threads s !! t' = Some (Refreshed token' p') -> t = t').
Proof.
  intros Hrun Hth Hiss. assert (Hacc : (accounted h s + issued h s0 <= accounted h s0 + issued h s)%nat).
  { clear Hth Hiss. induction Hrun as [s|s1 s2 s3 Hs _ IH]; [lia |]. pose proof (step_accounted h _ _ Hs). lia. }
  assert (Hle : (size (redeemers h s) + live_in h (rf_pg s) <= live_in h (rf_pg s0) + issued h s)%nat).
  { unfold accounted in Hacc. assert (E : redeemers h s0 = ∅) by (unfold redeemers; rewrite Hth; apply map_filter_empty).
    rewrite E, map_size_empty in Hacc. unfold issued in Hacc at 1. rewrite Hiss in Hacc. cbn in Hacc. lia. }
  split; [exact Hle |]. intros Hone t t' token token' p p' Hh Hh' Ht Ht'. destruct (decide (t = t')) as [|Hne]; [done |]. exfalso.
  assert (Hsub : {[t; t']} ⊆ (dom (redeemers h s) : gset nat)).
  { intros i Hi. apply elem_of_union in Hi. rewrite !elem_of_singleton in Hi. apply elem_of_dom.
    destruct Hi as [-> | ->]; eexists; apply map_lookup_filter_Some; (split; [done |]); done. }
  apply subseteq_size in Hsub. rewrite size_union, !size_singleton, size_dom in Hsub by (apply disjoint_singleton_l; intros X%elem_of_singleton; done). lia.
Qed.
End tokens.

(** ** Registration and login *)

Definition users_ok (t : Tables) : Prop := map_Forall (fun k row => u_id row = k) (tb_users t).
Lemma elem_of_live_users row t : row ∈ live_users t <-> exists k, tb_users t !! k = Some row /\ u_deleted_at row = None.
Proof.
  unfold live_users. rewrite list_elem_of_In, List.filter_In, <- list_elem_of_In, list_elem_of_fmap. split.
  - intros [([k r] & -> & Hr) Hl]. apply elem_of_map_to_list in Hr. exists k. split; [done |]. cbn in *. by destruct (u_deleted_at r).
  - intros (k & Hr & Hl). split; [| by rewrite Hl]. exists (k, row). split; [done |]. by apply elem_of_map_to_list.
Qed.

Section login.
Context `{!Bcrypt} (rand : nat -> nat -> res string).

(** What UserCreate leaves behind when it succeeds. *)
Lemma UserCreate_effect p w u w1 : UserCreate p w = (Ok u, w1) -> exists id row,
  u = scan_user row /\ tb_users (pg_tables w) !! id = None /\ tb_users (pg_tables w1) = <[id := row]> (tb_users (pg_tables w)) /\
  u_id row = id /\ u_email row = up_Email p /\ u_password_hash row = up_PasswordHash p /\ u_deleted_at row = None /\
  u_role row = (if bool_decide (up_Role p = "") then "user" else up_Role p) /\
  (forall r, r ∈ live_users (pg_tables w) -> u_id r <> id -> u_email r <> up_Email p).
Proof.
  destruct w as [sv tb tick]. unfold UserCreate, bind, pg_now, pg_newid, wrapped, statement. cbn. destruct (sv_fault _ _); [done |]. unfold then_, require, user_unique, require.
  destruct (read_uuid _ _) as [id|]; [| done]. case_bool_decide; [| done].
  destruct (tb_users tb !! id) eqn:Hid; cbn [is_null]; [done |].
  destruct (existsb (fun r => bool_decide (u_email r = _)) _) eqn:He; cbn [negb]; [done |].
  destruct (existsb (fun r => bool_decide (u_username r = _)) _); cbn [negb]; [done |]. cbn. intros [= <- <-]. cbn. exists id. eexists. split_and!; try done.
  intros r Hr Hne Hemail. apply not_true_iff_false in He. apply He. apply existsb_exists. exists r. split; [| by apply bool_decide_eq_true_2].
  apply List.filter_In. split; [by apply list_elem_of_In | by rewrite bool_decide_eq_false_2].
Qed.

(** The one live row with the address. *)
Lemma GetByEmail_finds email id row w : users_ok (pg_tables w) -> tb_users (pg_tables w) !! id = Some row -> u_deleted_at row = None -> u_email row = email ->
  (forall r, r ∈ live_users (pg_tables w) -> u_id r <> id -> u_email r <> email) -> sv_fault (pg_server w) (pg_tick w) = None ->
  (UserGetByEmail email w).1 = Ok (scan_user row).
Proof.
  intros Hok Hrow Hlive Hemail Hother Hf. unfold UserGetByEmail, find_user, bind_ok, wrapped, statement. rewrite Hf. unfold then_.
  destruct (List.filter _ _) as [|r l] eqn:E.
  - exfalso. assert (Hin : row ∈ List.filter (fun r => bool_decide (u_email r = email)) (live_users (pg_tables w))).
    { apply list_elem_of_In, List.filter_In. split; [| by apply bool_decide_eq_true_2]. apply list_elem_of_In, elem_of_live_users. eauto. }
    rewrite E in Hin. by apply elem_of_nil in Hin.
  - cbn. f_equal. f_equal. assert (Hin : r ∈ List.filter (fun r => bool_decide (u_email r = email)) (live_users (pg_tables w))) by (rewrite E; apply list_elem_of_here).
    apply list_elem_of_In, List.filter_In in Hin as [Hin He]. apply list_elem_of_In in Hin. apply bool_decide_eq_true_1 in He.
    destruct (decide (u_id r = id)) as [Hid|Hid]; [| by destruct (Hother r Hin Hid)].
    apply elem_of_live_users in Hin as (k & Hk & _). pose proof (Hok k r Hk) as Ek. cbn in Ek. congruence.
Qed.

(** Who registers can log in. After a registration that succeeded, in every later state in
    which the accounts are the same, logging in with the address and the password of the
    registration gives the user that was registered, who is an ordinary user; any other
    password is accepted only if bcrypt takes it for the same; and the address cannot be
    registered again. *)
Theorem register_then_login username email password w u w1 w2 :
  users_ok (pg_tables w) -> Register rand username email password w = (Ok u, w1) ->
  tb_users (pg_tables w2) = tb_users (pg_tables w1) -> sv_fault (pg_server w2) (pg_tick w2) = None ->
  us_Role u = RoleUser /\ users_ok (pg_tables w1) /\
  (Login email password w2).1 = Ok u /\
  (forall other, (Login email other w2).1 = (if bcrypt_compare (us_PasswordHash u) other then Ok u else Err bad_login)) /\
  (forall name other u' w3, Register rand name email other w2 <> (Ok u', w3)).
Proof.
  intros Hok Hreg Hsame Hf. revert Hreg. unfold Register, bind_ok at 1.
  destruct (internal (HashPassword rand password) w) as [[hash|e] w0] eqn:Hh; [| done]. intros Hc.
  assert (Ht : pg_tables w0 = pg_tables w).
  { pose proof (reads_internal (HashPassword rand password) (reads_bind_ok _ _ (reads_rand rand 16) (fun salt => pg_reads_ret _)) w) as R. by rewrite Hh in R. }
  assert (Hcmp : bcrypt_compare hash password = true).
  { revert Hh. unfold internal, HashPassword, bind_ok, rand_Read, ret. destruct (rand 16 _) as [salt|]; [| done].
    destruct (bcrypt_generate salt password) eqn:Hg; [| done]. intros [= <- _]. by eapply bcrypt_matches. }
  destruct (UserCreate_effect _ _ _ _ Hc) as (id & row & -> & Hnone & Htab & Hid & Hemail & Hhash & Hlive & Hrole & Hother). cbn in Hemail, Hhash, Hrole, Hother.
  rewrite Ht in *. assert (Hok1 : users_ok (pg_tables w1)).
  { intros k r. rewrite Htab, lookup_insert_Some. intros [[<- <-]|[_ Hr]]; [done | by apply Hok]. }
  assert (Hfind : (UserGetByEmail email w2).1 = Ok (scan_user row)).
  { apply (GetByEmail_finds email id); try done.
    - unfold users_ok. by rewrite Hsame.
    - by rewrite Hsame, Htab, lookup_insert_eq.
    - intros r Hr Hne. apply Hother; [| done]. apply elem_of_live_users in Hr as (k & Hk & Hl). rewrite Hsame, Htab in Hk.
      apply lookup_insert_Some in Hk as [[<- <-]|[_ Hk]]; [done |]. apply elem_of_live_users. eauto. }
  assert (Hlogin : forall other, (Login email other w2).1 = (if bcrypt_compare (us_PasswordHash (scan_user row)) other then Ok (scan_user row) else Err bad_login)).
  { intros other. unfold Login, bind at 1. destruct (UserGetByEmail email w2) as [r w3]. cbn in Hfind. subst r. unfold ValidatePassword.
    destruct (bcrypt_compare _ other); cbn [negb]; [| done]. unfold bind. by destruct (UpdateLastLogin _ w3). }
  split_and!; [by cbn | done | | exact Hlogin |].
  - rewrite Hlogin. cbn. by rewrite Hhash, Hcmp.
  - intros name other u' w3. unfold Register, bind_ok at 1.
    destruct (internal (HashPassword rand other) w2) as [[hash'|e] w2'] eqn:Hh'; [| done]. intros Hc'.
    assert (Ht' : pg_tables w2' = pg_tables w2).
    { pose proof (reads_internal (HashPassword rand other) (reads_bind_ok _ _ (reads_rand rand 16) (fun salt => pg_reads_ret _)) w2) as R. by rewrite Hh' in R. }
    destruct (UserCreate_effect _ _ _ _ Hc') as (id' & row' & _ & Hnone' & _ & _ & _ & _ & _ & _ & Hother'). cbn in Hother'.
    rewrite Ht', Hsame, Htab in Hnone'. apply (Hother' row); [| intros E; rewrite Hid in E; subst id'; by rewrite lookup_insert_eq in Hnone' | done].
    apply elem_of_live_users. exists id. rewrite Ht', Hsame, Htab, lookup_insert_eq. done.
Qed.
End login.

(** ** Access tokens *)

Section access.
Context {W : Type} (time_Now : M W Z) `{!JWT}.

(** An access token stands for its user until it expires. A request with the token of
    [GenerateAccessToken] in its header reaches the handler exactly with the user id and the
    role the token was made for, as long as the clock has not reached the expiry, to the
    second; from then on it is refused with status 401 and the handler does not run. *)
Theorem access_token_authenticates m userID role (w w1 w2 : W) token expiresAt next cx r :
  str_ok userID -> str_ok role -> GenerateAccessToken time_Now m userID role w = (Ok (token, expiresAt), w1) ->
  hq_Header r "Authorization" = "Bearer " +:+ token -> (time_Now w).1 <= (time_Now w2).1 ->
  expiresAt = (time_Now w).1 + jm_accessTokenT m /\
  Authenticate time_Now m next cx r w2 =
    (if bool_decide ((time_Now w2).1 < NumericDate expiresAt)
     then next (cx <| cx_UserID := Some userID |> <| cx_Role := Some role |>) r (time_Now w2).2
     else (Ok (WriteError (Unauthorized "token expired")), (time_Now w2).2)).
Proof.
  intros Hu Hr Hgen Hh Hclock. revert Hgen. unfold GenerateAccessToken, bind, ret. destruct (time_Now w) as [now w0]. cbn in Hclock |- *.
  destruct (jwt_sign _ _) as [t|] eqn:Hsign; [| done]. intros [= -> <- <-]. split; [done |].
  unfold Authenticate. rewrite Hh. rewrite bool_decide_eq_false_2 by done.
  assert (Hsplit : split_on (chr 32) ("Bearer " +:+ token) = ["Bearer"; token]).
  { cbn [String.append split_on]. rewrite (jwt_no_space _ _ _ Hsign). reflexivity. }
  rewrite Hsplit, bool_decide_eq_true_2 by done. unfold bind at 1, ValidateToken, bind at 1, ret.
  destruct (time_Now w2) as [now2 w3]. cbn in Hclock |- *.
  match type of Hsign with jwt_sign _ ?c = _ => rewrite (jwt_parse_signed (jm_secretKey m) c token (keyfunc m) now2 Hu Hr Hsign eq_refl) end. cbn [cl_ExpiresAt cl_NotBefore].
  case_bool_decide as He; cbn [negb]; [| done].
  rewrite bool_decide_eq_false_2; [done |]. unfold NumericDate. pose proof (Z.mod_pos_bound now second eq_refl). lia.
Qed.
End access.

(** ** Examples *)

(** A codec with the laws of the library. *)
Definition claims_value (key : string) (c : Claims) : value :=
  VList [VStr key; VStr (cl_UserID c); VStr (cl_Role c); VInt (cl_ExpiresAt c); VInt (cl_IssuedAt c); VInt (cl_NotBefore c)].
Definition sample_sign (key : string) (c : Claims) : res string :=
  if valid_utf8 key && bool_decide (i64 (cl_ExpiresAt c) = cl_ExpiresAt c) && bool_decide (i64 (cl_IssuedAt c) = cl_IssuedAt c) &&
     bool_decide (i64 (cl_NotBefore c) = cl_NotBefore c)
  then Ok (b64_url_encode (Marshal (claims_value key c))) else Err (EText "claims cannot be encoded").
Definition sample_parse (kf : Alg -> res string) (now : Z) (t : string) : result ParseFailure Claims :=
  match b64_url_decode t with
  | Ok s =>
      match Unmarshal s with
      | Some (VList [VStr key; VStr u; VStr r; VNum e; VNum i; VNum n]) =>
          match kf HMAC, parse_int e, parse_int i, parse_int n with
          | Ok key', Some e, Some i, Some n =>
              if negb (bool_decide (key' = key)) then Err Malformed
              else if negb (bool_decide (now < e)) then Err Expired
              else if bool_decide (now < n) then Err Malformed
              else Ok {| cl_UserID := u; cl_Role := r; cl_ExpiresAt := e; cl_IssuedAt := i; cl_NotBefore := n |}
          | _, _, _, _ => Err Malformed
          end
      | _ => Err Malformed
      end
  | Err _ => Err Malformed
  end.
#[refine] Instance sample_jwt : JWT := {| jwt_sign := sample_sign; jwt_parse := sample_parse |}.
Proof.
  - intros key c t kf now Hu Hr Hs Hkf. unfold sample_sign in Hs. destruct (_ && _) eqn:Hb in Hs; [| done]. 
    assert (t = b64_url_encode (Marshal (claims_value key c))) as -> by congruence. clear Hs.
    rewrite !andb_true_iff in Hb. destruct Hb as [[[Hk He%bool_decide_eq_true_1] Hi%bool_decide_eq_true_1] Hn%bool_decide_eq_true_1].
    unfold sample_parse. rewrite b64_url_roundtrip, Unmarshal_Marshal.
    + unfold claims_value, VInt. rewrite Hkf, !parse_int_fmt by done. rewrite bool_decide_eq_true_2 by done. cbn [negb]. by destruct c.
    + unfold claims_value, VInt. cbn. split_and!; try done; by eexists.
  - intros key c t Hs. unfold sample_sign in Hs. destruct (_ && _); [| done].
    assert (t = b64_url_encode (Marshal (claims_value key c))) as -> by congruence. apply b64_one_word.
Defined.
#[refine] Instance sample_bcrypt : Bcrypt := {| bcrypt_generate := fun salt p => Ok (salt +:+ p); bcrypt_compare := fun h p => has_suffix h p |}.
Proof. intros salt p h [= <-]. apply has_suffix_app. Defined.
Definition sample_rand (n tick : nat) : res string := Ok (String.append (zeros n) (fmt_d (Z.of_nat tick))).
Definition sample_manager : Manager := {| jm_secretKey := "secret"; jm_accessTokenT := 900 * second |}.
Definition accounts_server : PgTables.Server := {|
  sv_uuid := Some; sv_timestamp := fun t => t; sv_jsonb := Some; sv_fault := fun _ => None;
  sv_now := fun n => Z.of_nat n * second; sv_newid := fun n => "id-" +:+ fmt_d (Z.of_nat n) |}.
Definition no_accounts : Pg := {| pg_server := accounts_server; pg_tables := no_tables; pg_tick := 0 |}.
Definition registered : res User * Pg := Register sample_rand "ada" "ada@example.org" "correct horse" no_accounts.
Definition ada : User := {|
  us_ID := "id-2"; us_Username := "ada"; us_Email := "ada@example.org"; us_PasswordHash := "00000000000000000correct horse";
  us_Role := "user"; us_IsVerified := true; us_VerifiedAt := Some second; us_LastLoginAt := None; us_CreatedAt := second;
  us_UpdatedAt := second; us_DeletedAt := None |}.
Lemma ada_registered : registered.1 = Ok ada.
Proof. vm_compute. reflexivity. Qed.

Lemma register_then_login_witness : us_Role ada = RoleUser /\ (Login "ada@example.org" "correct horse" registered.2).1 = Ok ada /\
  (Login "ada@example.org" "wrong" registered.2).1 = Err bad_login.
Proof.
  assert (E : Register sample_rand "ada" "ada@example.org" "correct horse" no_accounts = (Ok ada, registered.2)).
  { rewrite <- ada_registered. apply surjective_pairing. }
  destruct (register_then_login sample_rand "ada" "ada@example.org" "correct horse" no_accounts ada registered.2 registered.2
    (map_Forall_empty _) E eq_refl eq_refl) as (H1 & _ & H2 & H3 & _).
  split; [exact H1 |]. split; [exact H2 |]. rewrite H3. vm_compute. reflexivity.
Defined.

(** Two requests with the same refresh token, both validated before either revokes it. *)
Definition sample_hashToken (t : string) : string := "sha256:" +:+ t.
Abbreviation race_step := (refresh_step sample_rand sample_hashToken sample_manager).
Definition race_0 : Refreshing := {| rf_pg := registered.2; rf_issued := []; rf_threads := ∅ |}.
Definition logged_in : res TokenPair * Refreshing := generate sample_rand sample_hashToken sample_manager "id-2" race_0.
Definition race_token : string := match logged_in.1 with Ok p => tp_Refresh p | Err _ => "" end.
Definition race_asked : Refreshing := at_phase 2 (Asked race_token) (at_phase 1 (Asked race_token) logged_in.2).
Definition validate_at (t : nat) (s : Refreshing) : Refreshing :=
  let '(r, w) := ValidateRefreshToken sample_hashToken race_token (rf_pg s) in at_phase t (on_result r (Validated race_token)) (s <| rf_pg := w |>).
Definition revoke_at (t : nat) (s : Refreshing) : Refreshing :=
  let '(r, w) := auth_RevokeRefreshToken sample_hashToken race_token (rf_pg s) in at_phase t (on_result r (fun _ => Revoked race_token ada)) (s <| rf_pg := w |>).
Definition generate_at (t : nat) (s : Refreshing) : Refreshing :=
  let '(r, s') := generate sample_rand sample_hashToken sample_manager (us_ID ada) s in at_phase t (on_result r (Refreshed race_token)) s'.
Definition race_end : Refreshing := generate_at 2 (revoke_at 1 (revoke_at 2 (validate_at 2 (validate_at 1 race_asked)))).
Lemma race_run : rtc race_step race_0 race_end.
Proof.
  apply (rtc_l _ _ logged_in.2); [apply rf_login |]. apply (rtc_l _ _ (at_phase 1 (Asked race_token) logged_in.2)); [by apply rf_ask |].
  apply (rtc_l _ _ race_asked); [by apply rf_ask |].
  apply (rtc_l _ _ (validate_at 1 race_asked)); [by apply rf_validate |].
  apply (rtc_l _ _ (validate_at 2 (validate_at 1 race_asked))); [by apply rf_validate |].
  apply (rtc_l _ _ (revoke_at 2 (validate_at 2 (validate_at 1 race_asked)))); [by apply rf_revoke; vm_compute |].
  apply (rtc_l _ _ (revoke_at 1 (revoke_at 2 (validate_at 2 (validate_at 1 race_asked))))); [by apply rf_revoke; vm_compute |].
  apply rtc_once. by apply rf_generate; vm_compute.
Qed.
Definition is_refreshed (p : option rphase) : bool := match p with Some (Refreshed _ _) => true | _ => false end.
Lemma refresh_at_most_once_witness :
  rf_threads race_end !! 1%nat = Some Refused /\ is_refreshed (rf_threads race_end !! 2%nat) = true /\
  (size (redeemers sample_hashToken (sample_hashToken race_token) race_end) <= 1)%nat.
Proof.
  split; [vm_compute; reflexivity |]. split; [vm_compute; reflexivity |].
  pose proof (proj1 (refresh_at_most_once sample_rand sample_hashToken sample_manager race_0 race_end (sample_hashToken race_token) race_run eq_refl eq_refl)) as H.
  assert (E1 : live_in (sample_hashToken race_token) (rf_pg race_0) = 0%nat) by (vm_compute; reflexivity).
  assert (E2 : issued (sample_hashToken race_token) race_end = 1%nat) by (vm_compute; reflexivity).
  rewrite E1, E2 in H. lia.
Defined.

Definition clock : M Z Z := fun w => (w, w + second).
Definition hello : Handler Z := fun cx _ => answer (WriteJSON 200 ("hello " +:+ GetUserID cx) VNil).
Definition token_at_0 : string := match (GenerateAccessToken clock sample_manager "id-2" "user" 0).1 with Ok (t, _) => t | Err _ => "" end.
Definition bearer : HttpRequest := {|
  hq_Method := "GET"; hq_Path := "/"; hq_Header := fun k => if bool_decide (k = "Authorization") then "Bearer " +:+ token_at_0 else "";
  hq_Query := fun _ => ""; hq_Param := fun _ => ""; hq_Body := None |}.
Lemma access_token_authenticates_witness :
  Authenticate clock sample_manager hello no_values bearer (5 * second) = (Ok (WriteJSON 200 "hello id-2" VNil), 6 * second) /\
  Authenticate clock sample_manager hello no_values bearer (900 * second) = (Ok (WriteError (Unauthorized "token expired")), 901 * second).
Proof.
  assert (G : GenerateAccessToken clock sample_manager "id-2" "user" 0 = (Ok (token_at_0, 900 * second), second)) by (vm_compute; reflexivity).
  pose proof (fun w2 => access_token_authenticates clock sample_manager "id-2" "user" 0 second w2 token_at_0 (900 * second) hello no_values bearer
    eq_refl eq_refl G eq_refl) as H.
  split; [rewrite (proj2 (H (5 * second) ltac:(done))) | rewrite (proj2 (H (900 * second) ltac:(done)))]; vm_compute; reflexivity.
Defined.
