(* ===== verification/Activator.v ===== *)
(** * The activator: src/activator/activator.go and server.go

    The reverse proxy that wakes idle VMs. [Activate] shares one cold start between the
    concurrent requests for a VM (golang.org/x/sync/singleflight, here the class
    [Singleflight] with its documented behaviour) and bounds the cold starts in flight by a
    channel of slots. Requests are threads: each statement that takes or gives back a slot,
    enters or leaves the group is one step, and any number of requests interleave. *)

From S2P Require Import Prelude Exception Naming GoLib Domain World.

(** ** What is shared *)

(** VMInfo (orchestrator.go) *)
Record VMInfo := {
  vi_ID : string; vi_Name : string; vi_Status : string; vi_IPAddress : string; vi_ServicePort : Z; vi_HasSnapshot : bool }.
Definition ErrActivationsFull : error := EText "too many concurrent activations".
(** [errors.Is(err, ErrActivationsFull)] *)
Fixpoint is_full (e : error) : bool :=
  match e with EText s => bool_decide (s = "too many concurrent activations") | EWrap _ e' _ => is_full e' | _ => false end.

(** singleflight.Group: for each key at most one call is executed, and callers that come
    while it is in flight wait for it and receive its result. *)
Class Singleflight (F : Type) := {
  sf_new : F;
  sf_leader : F -> string -> option nat;
  sf_waiting : F -> string -> list nat;
  sf_enter : nat -> string -> F -> F;
  sf_leave : string -> F -> F;
  sf_new_leader k : sf_leader sf_new k = None;
  sf_no_leader g k : sf_leader g k = None -> sf_waiting g k = [];
  sf_enter_first t k g : sf_leader g k = None -> sf_leader (sf_enter t k g) k = Some t /\ sf_waiting (sf_enter t k g) k = [];
  sf_enter_later t k g l : sf_leader g k = Some l ->
    sf_leader (sf_enter t k g) k = Some l /\ sf_waiting (sf_enter t k g) k = sf_waiting g k ++ [t];
  sf_enter_other t k k' g : k' <> k -> sf_leader (sf_enter t k g) k' = sf_leader g k' /\ sf_waiting (sf_enter t k g) k' = sf_waiting g k';
  sf_leave_key k g : sf_leader (sf_leave k g) k = None;
  sf_leave_other k k' g : k' <> k -> sf_leader (sf_leave k g) k' = sf_leader g k' /\ sf_waiting (sf_leave k g) k' = sf_waiting g k'
}.

(** Where a request is in [Activate]. *)
Inductive phase :=
| Leading (vmID : string)                    (* executes the function of Do, before the select *)
| Resuming (vmID : string)                   (* holds a slot and waits for ResumeVM *)
| Waiting (vmID : string)                    (* shares the call of another request *)
| Finished (vmID : string) (r : res VMInfo). (* Do has returned *)

Record Activator (F : Type) := {
  ac_sem : nat;                              (* len(sem) *)
  ac_cap : nat;                              (* cap(sem) *)
  ac_sf : F;
  ac_threads : gmap nat phase;
  ac_resumed : list (string * res VMInfo)    (* the calls of ResumeVM that returned *)
}.
Arguments ac_sem {F}. Arguments ac_cap {F}. Arguments ac_sf {F}. Arguments ac_threads {F}. Arguments ac_resumed {F}.

(** ** Activate *)

Section activate.
Context {F : Type} `{!Singleflight F}.
Abbreviation A := (Activator F).

Definition NewActivator (maxConcurrent : Z) : A :=
  let maxConcurrent := if bool_decide (maxConcurrent < 1) then 1 else maxConcurrent in
  {| ac_sem := 0; ac_cap := Z.to_nat maxConcurrent; ac_sf := sf_new; ac_threads := ∅; ac_resumed := [] |}.

(** [a.sf.Do(vmID, ...)]: the first caller executes, the others wait. *)
Definition enter (t : nat) (vmID : string) (a : A) : A :=
  let p := match sf_leader (ac_sf a) vmID with None => Leading vmID | Some _ => Waiting vmID end in
  a <| ac_sf := sf_enter t vmID (ac_sf a) |> <| ac_threads := <[t := p]> (ac_threads a) |>.
(** The call of [vmID] returns [r] to the request that executed it and to those that wait. *)
Definition finish (t : nat) (vmID : string) (r : res VMInfo) (a : A) : A :=
  a <| ac_threads := foldr (fun t => insert t (Finished vmID r)) (ac_threads a) (t :: sf_waiting (ac_sf a) vmID) |>
    <| ac_sf := sf_leave vmID (ac_sf a) |>.
(** [select { case a.sem <- struct{}{}: ...; default: return nil, ErrActivationsFull }] *)
Definition acquire (t : nat) (vmID : string) (a : A) : A :=
  if bool_decide (ac_sem a < ac_cap a)%nat
  then a <| ac_sem := S (ac_sem a) |> <| ac_threads := <[t := Resuming vmID]> (ac_threads a) |>
  else finish t vmID (Err ErrActivationsFull) a.
(** ResumeVM returns; the deferred receive gives the slot back. *)
Definition resumed (t : nat) (vmID : string) (r : res VMInfo) (a : A) : A :=
  finish t vmID r (a <| ac_sem := pred (ac_sem a) |> <| ac_resumed := ac_resumed a ++ [(vmID, r)] |>).

(** A request arrives; or one that is in flight goes on. *)
Inductive progress : A -> A -> Prop :=
| pr_acquire t vmID a : ac_threads a !! t = Some (Leading vmID) -> progress a (acquire t vmID a)
| pr_resumed t vmID r a : ac_threads a !! t = Some (Resuming vmID) -> progress a (resumed t vmID r a).
Inductive astep : A -> A -> Prop :=
| as_enter t vmID a : ac_threads a !! t = None -> astep a (enter t vmID a)
| as_progress a a' : progress a a' -> astep a a'.

(** ** What holds in every interleaving *)

Definition executing (vmID : string) (p : phase) : Prop := p = Leading vmID \/ p = Resuming vmID.
Definition is_resuming (p : phase) : bool := match p with Resuming _ => true | _ => false end.
Definition is_leading (p : phase) : bool := match p with Leading _ => true | _ => false end.
Definition threads_in (P : phase -> bool) (a : A) : gset nat := dom (filter (fun tp => P tp.2 = true) (ac_threads a)).

Record linked (a : A) : Prop := {
  li_leader v t : sf_leader (ac_sf a) v = Some t <-> exists p, ac_threads a !! t = Some p /\ executing v p;
  li_waiting v t : t ∈ sf_waiting (ac_sf a) v <-> ac_threads a !! t = Some (Waiting v);
  li_results t v r : ac_threads a !! t = Some (Finished v r) -> r = Err ErrActivationsFull \/ (v, r) ∈ ac_resumed a
}.
Record activator_ok (a : A) : Prop := {
  ao_linked : linked a;
  ao_slots : ac_sem a = size (threads_in is_resuming a);
  ao_cap : (ac_sem a <= ac_cap a)%nat
}.

Lemma elem_of_threads_in P a t : t ∈ threads_in P a <-> exists p, ac_threads a !! t = Some p /\ P p = true.
Proof.
  unfold threads_in. rewrite elem_of_dom. split.
  - intros [p H]. apply map_lookup_filter_Some in H as [H HP]. by exists p.
  - intros (p & H & HP). exists p. by apply map_lookup_filter_Some.
Qed.
Lemma lookup_insert_all (l : list nat) (p : phase) (m : gmap nat phase) t :
  foldr (fun t => insert t p) m l !! t = if bool_decide (t ∈ l) then Some p else m !! t.
Proof.
  induction l as [|x l IH]; cbn; [by rewrite bool_decide_eq_false_2 by apply not_elem_of_nil |].
  destruct (decide (x = t)) as [->|Hne]; [by rewrite lookup_insert_eq, bool_decide_eq_true_2 by apply list_elem_of_here |].
  rewrite lookup_insert_ne, IH by done. apply (f_equal (fun b : bool => if b then Some p else m !! t)), bool_decide_ext. rewrite elem_of_cons. split; [tauto | intros [E|?]; [by destruct Hne | done]].
Qed.

(** The thread and the leader of its key, in a good state. *)
Lemma leader_of a v t p : linked a -> ac_threads a !! t = Some p -> executing v p -> sf_leader (ac_sf a) v = Some t.
Proof. intros Hok H He. apply (li_leader a Hok). eauto. Qed.
Lemma waiting_leader a v t : linked a -> ac_threads a !! t = Some (Waiting v) -> exists l, sf_leader (ac_sf a) v = Some l.
Proof.
  intros Hok H. apply (li_waiting a Hok) in H. destruct (sf_leader (ac_sf a) v) as [l|] eqn:E; [by exists l |].
  rewrite (sf_no_leader _ _ E) in H. by apply not_elem_of_nil in H.
Qed.

Lemma finish_lookup t v r a t' :
  ac_threads (finish t v r a) !! t' = if bool_decide (t' ∈ t :: sf_waiting (ac_sf a) v) then Some (Finished v r) else ac_threads a !! t'.
Proof. apply (lookup_insert_all (t :: sf_waiting (ac_sf a) v)). Qed.
(** Those who get the result are the requests in flight for this VM. *)
Lemma callers a v t t' : linked a -> sf_leader (ac_sf a) v = Some t ->
  t' ∈ t :: sf_waiting (ac_sf a) v <-> exists p, ac_threads a !! t' = Some p /\ (executing v p \/ p = Waiting v).
Proof.
  intros Hok Hl. rewrite elem_of_cons, (li_waiting a Hok). split.
  - intros [->|H]; [apply (li_leader a Hok) in Hl as (p & H & He); eauto | eauto].
  - intros (p & H & [He| ->]); [left | by right]. pose proof (leader_of a v t' p Hok H He). congruence.
Qed.

Lemma finish_linked t v r a : linked a -> sf_leader (ac_sf a) v = Some t -> r = Err ErrActivationsFull \/ (v, r) ∈ ac_resumed a ->
  linked (finish t v r a).
Proof.
  intros Hok Hl Hr. pose proof (fun t' => callers a v t t' Hok Hl) as Hc. split.
  - intros v' t'. change (ac_sf (finish t v r a)) with (sf_leave v (ac_sf a)). rewrite finish_lookup.
    destruct (decide (v' = v)) as [->|Hv].
    + rewrite sf_leave_key. split; [done |]. intros (p & H & He). case_bool_decide as Hin; [injection H as <-; by destruct He |].
      exfalso. apply Hin, Hc. eauto.
    + rewrite (proj1 (sf_leave_other v v' _ Hv)), (li_leader a Hok). case_bool_decide as Hin; [| done]. apply Hc in Hin as (p & H & Hp).
      split; [intros (p' & H' & He) | intros (p' & [= <-] & [|]); done]. rewrite H in H'. injection H' as ->.
      destruct He as [->| ->], Hp as [[|]|]; congruence.
  - intros v' t'. change (ac_sf (finish t v r a)) with (sf_leave v (ac_sf a)). rewrite finish_lookup.
    destruct (decide (v' = v)) as [->|Hv].
    + rewrite (sf_no_leader _ _ (sf_leave_key v (ac_sf a))). split; [by intros ?%not_elem_of_nil |].
      case_bool_decide as Hin; [done |]. intros H. exfalso. apply Hin, Hc. eauto.
    + rewrite (proj2 (sf_leave_other v v' _ Hv)), (li_waiting a Hok). case_bool_decide as Hin; [| done]. apply Hc in Hin as (p & H & Hp).
      split; [| done]. intros H'. rewrite H in H'. injection H' as ->. destruct Hp as [[|]|]; congruence.
  - intros t' v' r'. rewrite finish_lookup. case_bool_decide; [intros [= <- <-]; exact Hr | apply (li_results a Hok)].
Qed.

(** Only the request that executed the call can have held a slot. *)
Lemma finish_slots t v r a P : (forall x y, P (Finished x y) = false) -> (forall x, P (Waiting x) = false) ->
  linked a -> sf_leader (ac_sf a) v = Some t -> threads_in P (finish t v r a) = threads_in P a ∖ {[t]}.
Proof.
  intros HF HW Hok Hl. apply set_eq. intros t'. rewrite elem_of_difference, elem_of_singleton, !elem_of_threads_in.
  setoid_rewrite finish_lookup. case_bool_decide as Hin.
  - split; [intros (p & [= <-] & H); by rewrite HF in H |]. intros [(p & H & HP) Hne]. exfalso.
    apply elem_of_cons in Hin as [->|Hin]; [done |]. apply (li_waiting a Hok) in Hin. rewrite Hin in H. injection H as <-. by rewrite HW in HP.
  - split; [intros H; split; [done |] | by intros []]. intros ->. apply Hin, list_elem_of_here.
Qed.
Lemma threads_in_size P a t p : ac_threads a !! t = Some p ->
  size (threads_in P a ∖ {[t]}) = (if P p then pred (size (threads_in P a)) else size (threads_in P a)).
Proof.
  intros H. destruct (P p) eqn:HP.
  - assert (Hin : t ∈ threads_in P a) by (apply elem_of_threads_in; eauto). rewrite size_difference by set_solver. rewrite size_singleton. lia.
  - f_equal. apply set_eq. intros x. rewrite elem_of_difference, elem_of_singleton. split; [by intros [] | intros Hx; split; [done |]].
    intros ->. apply elem_of_threads_in in Hx as (p' & H' & HP'). congruence.
Qed.

Lemma enter_ok t v a : ac_threads a !! t = None -> activator_ok a -> activator_ok (enter t v a).
Proof.
  intros Ht [Hok Hs Hc]. split; [| | exact Hc].
  - split.
    + intros v' t'. cbn. destruct (decide (t' = t)) as [->|Hne]; [rewrite lookup_insert_eq | rewrite lookup_insert_ne by done].
      * assert (Hno : sf_leader (ac_sf a) v' <> Some t) by (intros (p & H & _)%(li_leader a Hok); congruence).
        destruct (decide (v' = v)) as [->|Hv].
        -- destruct (sf_leader (ac_sf a) v) as [l|] eqn:E.
           ++ rewrite (proj1 (sf_enter_later t v _ l E)). split; [congruence | intros (p & [= <-] & [|]); done].
           ++ rewrite (proj1 (sf_enter_first t v _ E)). split; [| done]. intros _. eexists. split; [done | by left].
        -- rewrite (proj1 (sf_enter_other t v v' _ Hv)). split; [done |].
           intros (p & [= <-] & He). destruct (sf_leader (ac_sf a) v), He; congruence.
      * rewrite <- (li_leader a Hok). destruct (decide (v' = v)) as [->|Hv]; [| by rewrite (proj1 (sf_enter_other t v v' _ Hv))].
        destruct (sf_leader (ac_sf a) v) as [l|] eqn:E; [by rewrite (proj1 (sf_enter_later t v _ l E)) |].
        rewrite (proj1 (sf_enter_first t v _ E)). split; congruence.
    + intros v' t'. cbn. destruct (decide (t' = t)) as [->|Hne]; [rewrite lookup_insert_eq | rewrite lookup_insert_ne by done].
      * assert (Hno : t ∉ sf_waiting (ac_sf a) v') by (intros H%(li_waiting a Hok); congruence).
        destruct (decide (v' = v)) as [->|Hv].
        -- destruct (sf_leader (ac_sf a) v) as [l|] eqn:E.
           ++ rewrite (proj2 (sf_enter_later t v _ l E)). split; [done |]. intros _. set_solver.
           ++ rewrite (proj2 (sf_enter_first t v _ E)). split; [by intros ?%not_elem_of_nil | done].
        -- rewrite (proj2 (sf_enter_other t v v' _ Hv)). split; [done |]. destruct (sf_leader (ac_sf a) v); congruence.
      * rewrite <- (li_waiting a Hok). destruct (decide (v' = v)) as [->|Hv]; [| by rewrite (proj2 (sf_enter_other t v v' _ Hv))].
        destruct (sf_leader (ac_sf a) v) as [l|] eqn:E.
        -- rewrite (proj2 (sf_enter_later t v _ l E)). rewrite elem_of_app, list_elem_of_singleton. split; [intros [?|?]; [done | by destruct Hne] | by left].
        -- by rewrite (proj2 (sf_enter_first t v _ E)), (sf_no_leader _ _ E).
    + intros t' v' r. cbn. destruct (decide (t' = t)) as [->|Hne]; [rewrite lookup_insert_eq | rewrite lookup_insert_ne by done].
      * by destruct (sf_leader (ac_sf a) v).
      * apply (li_results a Hok).
  - change (ac_sem (enter t v a)) with (ac_sem a). rewrite Hs. f_equal. apply set_eq. intros t'. rewrite !elem_of_threads_in. cbn.
    destruct (decide (t' = t)) as [->|Hne]; [rewrite lookup_insert_eq, Ht | by rewrite lookup_insert_ne].
    split; intros (p & [= <-] & H). by destruct (sf_leader (ac_sf a) v).
Qed.

Lemma acquire_ok t v a : ac_threads a !! t = Some (Leading v) -> activator_ok a -> activator_ok (acquire t v a).
Proof.
  intros Ht [Hok Hs Hc]. assert (Hl : sf_leader (ac_sf a) v = Some t) by (eapply leader_of; [done | exact Ht | by left]).
  unfold acquire. case_bool_decide as Hcap.
  - split; [split | |]; cbn.
    + intros v' t'. rewrite (li_leader a Hok). destruct (decide (t' = t)) as [->|Hne]; [rewrite lookup_insert_eq, Ht | by rewrite lookup_insert_ne].
      split; intros (p & [= <-] & [[= ->]|[= ->]]); eexists; (split; [done |]); [by right | by left].
    + intros v' t'. rewrite (li_waiting a Hok). destruct (decide (t' = t)) as [->|Hne]; [by rewrite lookup_insert_eq, Ht | by rewrite lookup_insert_ne].
    + intros t' v' r. destruct (decide (t' = t)) as [->|Hne]; [by rewrite lookup_insert_eq | rewrite lookup_insert_ne by done; apply (li_results a Hok)].
    + assert (threads_in is_resuming (a <| ac_sem := S (ac_sem a) |> <| ac_threads := <[t := Resuming v]> (ac_threads a) |>)
        = {[t]} ∪ threads_in is_resuming a) as E.
      { apply set_eq. intros t'. rewrite elem_of_union, elem_of_singleton, !elem_of_threads_in. cbn.
        destruct (decide (t' = t)) as [->|Hne]; [rewrite lookup_insert_eq, Ht | rewrite lookup_insert_ne by done; split; [by right | by intros [?|?]]].
        split; [by left | intros _; eexists; by split]. }
      unfold threads_in in *. cbn in *. rewrite E, size_union, size_singleton, Hs; [done |].
      apply disjoint_singleton_l. rewrite elem_of_dom. intros [p H]. apply map_lookup_filter_Some in H as [H HP]. cbn in HP.
      rewrite Ht in H. by injection H as <-.
    + change (ac_sem (a <| ac_sem := S (ac_sem a) |> <| ac_threads := <[t := Resuming v]> (ac_threads a) |>) <= ac_cap a)%nat. cbn. lia.
  - split; [apply finish_linked; [done | done | by left] | | exact Hc].
    rewrite (finish_slots t v) by done. rewrite (threads_in_size _ _ _ _ Ht). exact Hs.
Qed.

Lemma resumed_ok t v r a : ac_threads a !! t = Some (Resuming v) -> activator_ok a -> activator_ok (resumed t v r a).
Proof.
  intros Ht [Hok Hs Hc]. assert (Hl : sf_leader (ac_sf a) v = Some t) by (eapply leader_of; [done | exact Ht | by right]).
  unfold resumed. set (a1 := a <| ac_sem := _ |> <| ac_resumed := _ |>).
  assert (Hok1 : linked a1).
  { destruct Hok as [H1 H2 H3]. split; [exact H1 | exact H2 |]. intros t' v' r' H. cbn in *.
    destruct (H3 t' v' r' H) as [?|?]; [by left | right; apply elem_of_app; by left]. }
  split; [apply finish_linked; [done | done | right; apply elem_of_app; right; apply list_elem_of_here] | |
    exact (Nat.le_trans _ _ _ (Nat.le_pred_l (ac_sem a)) Hc)].
  rewrite (finish_slots t v) by done. rewrite (threads_in_size _ a1 _ _ Ht). cbn. by rewrite Hs.
Qed.

Lemma progress_ok a a' : progress a a' -> activator_ok a -> activator_ok a'.
Proof. intros []; [by apply acquire_ok | by apply resumed_ok]. Qed.
Lemma astep_ok a a' : astep a a' -> activator_ok a -> activator_ok a'.
Proof. intros []; [by apply enter_ok | by apply progress_ok]. Qed.
Lemma astep_cap a a' : astep a a' -> ac_cap a' = ac_cap a.
Proof. intros [|? ? []]; [done | unfold acquire; by case_bool_decide | done]. Qed.
Lemma NewActivator_ok n : activator_ok (NewActivator n).
Proof.
  split; [split | |]; cbn.
  - intros v t. rewrite sf_new_leader, lookup_empty. split; [done | by intros (p & ? & _)].
  - intros v t. rewrite (sf_no_leader _ _ (sf_new_leader v)), lookup_empty. split; [by intros ?%not_elem_of_nil | done].
  - intros t v r. by rewrite lookup_empty.
  - done.
  - lia.
Qed.
Lemma reachable_activator n a : rtc astep (NewActivator n) a -> activator_ok a /\ ac_cap a = Z.to_nat (Z.max 1 n).
Proof.
  intros H. assert (Hc : ac_cap (NewActivator n) = Z.to_nat (Z.max 1 n)) by (cbn; case_bool_decide; f_equal; lia).
  rewrite <- Hc. pose proof (NewActivator_ok n) as Hok. clear Hc. induction H as [|a1 a2 a3 H _ IH]; [done |].
  rewrite <- (astep_cap _ _ H). apply IH. by eapply astep_ok.
Qed.

(** *** Cold starts end *)

(** The steps that are left to those who execute a call. *)
Definition work (a : A) : nat := 2 * size (threads_in is_leading a) + size (threads_in is_resuming a).

Lemma in_size P a t p : ac_threads a !! t = Some p -> P p = true -> (0 < size (threads_in P a))%nat.
Proof.
  intros H HP. assert (Hin : t ∈ threads_in P a) by (apply elem_of_threads_in; eauto).
  destruct (size (threads_in P a)) eqn:E; [| lia]. apply size_empty_inv in E. by apply E in Hin.
Qed.
Lemma progress_works a a' : linked a -> progress a a' -> (work a' < work a)%nat.
Proof.
  intros Hok H. revert Hok. destruct H as [t v a1 Ht|t v r a1 Ht]; intros Hok; unfold work.
  - assert (Hl : sf_leader (ac_sf a1) v = Some t) by (eapply leader_of; [done | exact Ht | by left]).
    pose proof (in_size is_leading _ _ _ Ht eq_refl) as Hpos. unfold acquire. case_bool_decide.
    + set (a2 := a1 <| ac_sem := _ |> <| ac_threads := _ |>).
      assert (threads_in is_leading a2 = threads_in is_leading a1 ∖ {[t]}) as ->.
      { apply set_eq. intros t'. rewrite elem_of_difference, elem_of_singleton, !elem_of_threads_in. cbn.
        destruct (decide (t' = t)) as [->|Hne]; [rewrite lookup_insert_eq | rewrite lookup_insert_ne by done; tauto].
        split; [intros (p & [= <-] & ?); done | intros []; done]. }
      assert (threads_in is_resuming a2 ⊆ {[t]} ∪ threads_in is_resuming a1) as Hsub.
      { intros t'. rewrite elem_of_union, elem_of_singleton, !elem_of_threads_in. cbn.
        destruct (decide (t' = t)) as [->|Hne]; [by left | rewrite lookup_insert_ne by done; by right]. }
      apply subseteq_size in Hsub. pose proof (size_union_alt {[t]} (threads_in is_resuming a1)) as Hu. rewrite size_singleton in Hu.
      assert (size (threads_in is_resuming a1 ∖ {[t]}) <= size (threads_in is_resuming a1))%nat by (apply subseteq_size, subseteq_difference_l; done).
      rewrite (threads_in_size _ _ _ _ Ht). clearbody a2. cbn. lia.
    + rewrite !(finish_slots t v), !(threads_in_size _ _ _ _ Ht) by done. cbn. lia.
  - assert (Hl : sf_leader (ac_sf a1) v = Some t) by (eapply leader_of; [done | exact Ht | by right]).
    pose proof (in_size is_resuming _ _ _ Ht eq_refl) as Hpos. unfold resumed. set (a2 := a1 <| ac_sem := _ |> <| ac_resumed := _ |>).
    assert (Hok2 : forall P, (forall x y, P (Finished x y) = false) -> (forall x, P (Waiting x) = false) ->
              threads_in P (finish t v r a2) = threads_in P a1 ∖ {[t]}).
    { intros P HF HW. apply set_eq. intros t'. rewrite elem_of_difference, elem_of_singleton, !elem_of_threads_in.
      setoid_rewrite finish_lookup. change (ac_sf a2) with (ac_sf a1). change (ac_threads a2) with (ac_threads a1).
      assert (threads_in P (finish t v r a1) = threads_in P a1 ∖ {[t]}) as E by (exact (finish_slots t v r a1 P HF HW Hok Hl)).
      assert (Hx := proj1 (set_eq _ _) E t'). rewrite elem_of_difference, elem_of_singleton, !elem_of_threads_in in Hx.
      setoid_rewrite finish_lookup in Hx. exact Hx. }
    rewrite !Hok2, !(threads_in_size _ _ _ _ Ht) by done. cbn. lia.
Qed.

Definition all_finished (a : A) : Prop := forall t p, ac_threads a !! t = Some p -> exists v r, p = Finished v r.
Lemma progress_possible a t p : linked a -> ac_threads a !! t = Some p -> (forall v r, p <> Finished v r) -> exists a', progress a a'.
Proof.
  intros Hok Ht Hp.
  assert (Hex : forall t v p, ac_threads a !! t = Some p -> executing v p -> exists a', progress a a').
  { intros t' v' p' H [-> | ->]; [exists (acquire t' v' a); by constructor | exists (resumed t' v' (Err ErrActivationsFull) a); by constructor]. }
  destruct p as [v|v|v|v r]; [eapply Hex; [exact Ht | by left] | eapply Hex; [exact Ht | by right] | | by destruct (Hp v r)].
  destruct (waiting_leader a v t Hok Ht) as [l Hl]. apply (li_leader a Hok) in Hl as (p & H & He). by eapply Hex.
Qed.

Definition pending (p : phase) : bool := match p with Finished _ _ => false | _ => true end.
Lemma finishing_run k a : (work a <= k)%nat -> activator_ok a -> exists a', rtc progress a a' /\ all_finished a'.
Proof.
  revert a. induction k as [k IH] using lt_wf_ind. intros a Hk Hok.
  destruct (decide (map_Forall (fun _ p => pending p = false) (ac_threads a))) as [Hall|Hex].
  - exists a. split; [done |]. intros t p H. specialize (Hall t p H). destruct p; try done. eauto.
  - apply map_not_Forall in Hex as (t & p & Ht & Hp); [| solve_decision..].
    destruct (progress_possible a t p (ao_linked a Hok) Ht) as [a1 H1]; [intros v r ->; by apply Hp |].
    pose proof (progress_works a a1 (ao_linked a Hok) H1).
    destruct (IH (work a1) ltac:(lia) a1 (Nat.le_refl _) (progress_ok _ _ H1 Hok)) as (a' & Hr & Hf).
    exists a'. split; [by eapply rtc_l | done].
Qed.
Lemma progress_bounded k a a' : activator_ok a -> nsteps progress k a a' -> (k + work a' <= work a)%nat.
Proof.
  intros Hok H. induction H as [a|k a1 a2 a3 H _ IH]; [lia |].
  pose proof (progress_works _ _ (ao_linked _ Hok) H). specialize (IH (progress_ok _ _ H Hok)). lia.
Qed.

(** C24: In every interleaving of requests, at most [maxConcurrent] cold starts are in flight
    (at least one is allowed), and each holds exactly one slot; a VM is resumed by one
    request at a time, and a request that waits has one that executes for its VM; and what
    a request is told is that the capacity is exhausted, or what a call of ResumeVM for
    its own VM returned. *)
Theorem activations_safe n a : rtc astep (NewActivator n) a ->
  (ac_sem a = size (threads_in is_resuming a) /\ Z.of_nat (ac_sem a) <= Z.max 1 n) /\
  (forall v t t' p p', ac_threads a !! t = Some p -> executing v p -> ac_threads a !! t' = Some p' -> executing v p' -> t = t') /\
  (forall v t, ac_threads a !! t = Some (Waiting v) -> exists l p, ac_threads a !! l = Some p /\ executing v p) /\
  (forall v t r, ac_threads a !! t = Some (Finished v r) -> r = Err ErrActivationsFull \/ (v, r) ∈ ac_resumed a).
Proof.
  intros H. destruct (reachable_activator n a H) as [[Hok Hs Hc] Hcap]. rewrite Hcap in Hc. split_and!.
  - exact Hs.
  - lia.
  - intros v t t' p p' Ht Hp Ht' Hp'. pose proof (leader_of a v t p Hok Ht Hp). pose proof (leader_of a v t' p' Hok Ht' Hp'). congruence.
  - intros v t Ht. destruct (waiting_leader a v t Hok Ht) as [l Hl]. apply (li_leader a Hok) in Hl as (p & Hl & He). eauto.
  - intros v t r. apply (li_results a Hok).
Qed.

(** C25: Every request is answered. From any reachable state, when no more requests come and
    the calls of ResumeVM return, no request waits forever: the number of steps that can
    be taken is bounded, some sequence of steps answers every request, and where no step
    is possible every request has been answered. *)
Theorem activations_finish n a : rtc astep (NewActivator n) a ->
  (forall k a', nsteps progress k a a' -> (k <= work a)%nat /\ ((forall a'', ~ progress a' a'') -> all_finished a')) /\
  exists a', rtc progress a a' /\ all_finished a'.
Proof.
  intros H. destruct (reachable_activator n a H) as [Hok _]. split; [| by apply (finishing_run (work a))].
  intros k a' Hk. split; [pose proof (progress_bounded k a a' Hok Hk); lia |]. intros Hstuck t p Ht.
  assert (Hok' : activator_ok a') by (clear -Hok Hk; induction Hk; [done | eauto using progress_ok]).
  destruct p as [v|v|v|v r]; [| | | by eauto];
    (destruct (progress_possible a' t _ (ao_linked a' Hok') Ht) as [a'' H'']; [done | by destruct (Hstuck a'')]).
Qed.
End activate.

(** ** A group, and a run *)

Abbreviation Group := (gmap string (nat * list nat)).
Definition group_enter (t : nat) (k : string) (g : Group) : Group :=
  match (g !! k : option (nat * list nat)) with
  | None => <[k := (t, [])]> g
  | Some lw => <[k := (fst lw, snd lw ++ [t])]> g
  end.
Definition group_waiting (g : Group) (k : string) : list nat := default [] (snd <$> (g !! k : option (nat * list nat))).
#[export] Program Instance Group_singleflight : Singleflight Group := {|
  sf_new := (∅ : gmap string (nat * list nat)); sf_leader g k := fst <$> (g !! k : option (nat * list nat));
  sf_waiting := group_waiting; sf_enter := group_enter; sf_leave k g := delete k g |}.
Next Obligation. done. Qed.
Next Obligation. intros g k. unfold group_waiting. cbn. by destruct (g !! k). Qed.
Next Obligation. intros t k g. unfold group_waiting, group_enter. cbn. destruct (g !! k); [done |]. by rewrite lookup_insert_eq. Qed.
Next Obligation.
  intros t k g l. unfold group_waiting, group_enter. cbn. destruct (g !! k) as [[l' ws]|]; [| done]. intros [= ->]. by rewrite lookup_insert_eq.
Qed.
Next Obligation. intros t k k' g Hne. unfold group_waiting, group_enter. cbn. destruct (g !! k); by rewrite lookup_insert_ne. Qed.
Next Obligation. intros k g. cbn. by rewrite lookup_delete_eq. Qed.
Next Obligation. intros k k' g Hne. unfold group_waiting. cbn. by rewrite lookup_delete_ne. Qed.

(** Requests 1 and 2 for one VM, 3 for another; one slot. *)
Definition idle_activator : Activator Group := NewActivator 1.
Definition three_requests : Activator Group := enter 3 "vm-b" (enter 2 "vm-a" (enter 1 "vm-a" idle_activator)).
Definition slot_taken : Activator Group := acquire 3 "vm-b" (acquire 1 "vm-a" three_requests).
Definition woken : res VMInfo := Ok {|
  vi_ID := "vm-a"; vi_Name := "bold-curie"; vi_Status := "running"; vi_IPAddress := "10.200.0.2"; vi_ServicePort := 80; vi_HasSnapshot := true |}.
Definition served : Activator Group := resumed 1 "vm-a" woken slot_taken.
Lemma three_run : rtc astep idle_activator three_requests.
Proof.
  apply (rtc_l _ _ (enter 1 "vm-a" idle_activator)); [by apply as_enter |].
  apply (rtc_l _ _ (enter 2 "vm-a" (enter 1 "vm-a" idle_activator))); [by apply as_enter |].
  apply rtc_once. by apply as_enter.
Qed.
Lemma served_run : rtc astep idle_activator served.
Proof.
  etrans; [exact three_run |].
  apply (rtc_l _ _ (acquire 1 "vm-a" three_requests)); [by apply as_progress, pr_acquire |].
  apply (rtc_l _ _ slot_taken); [by apply as_progress, pr_acquire |].
  apply rtc_once. by apply as_progress, pr_resumed.
Qed.
Lemma activations_safe_witness :
  (ac_threads served !! 1%nat, ac_threads served !! 2%nat, ac_threads served !! 3%nat) =
    (Some (Finished "vm-a" woken), Some (Finished "vm-a" woken), Some (Finished "vm-b" (Err ErrActivationsFull))) /\
  Z.of_nat (ac_sem served) <= 1.
Proof. split; [vm_compute; reflexivity |]. apply (activations_safe 1 served served_run). Defined.
Lemma activations_finish_witness : exists a', rtc progress three_requests a' /\ all_finished a'.
Proof.
  apply (activations_finish 1 three_requests three_run).
Defined.
