(* ===== verification/ActivatorServer.v ===== *)
(** * Requests to sleeping VMs: src/activator/server.go and orchestrator.go, and the internal
      API they call, src/api/http/intra/vm/handler.go

    The server of the activator finds the VM of a host name, wakes it when it is idle and
    forwards the request. It learns about VMs through a client of the internal API; client
    and handlers exchange the JSON envelopes of [Http]. The client puts names into URLs as
    they are, and what net/url makes of them on the way is modelled. The router of the API
    (chi) is a parameter that binds a path to the handler whose pattern it matches. *)

From Stdlib Require Import Ascii.
From S2P Require Import Prelude Exception Naming GoLib Domain World PgRepo Interfaces VMExec VMSnapshot VMService VMResume.
From S2P Require Import Json ExecProtocol Http Activator.

Local Open Scope go_scope.

(** ** JSON *)

(** VMResponse of the handler has the members of VMInfo. *)
Definition VMInfo_json (i : VMInfo) : value := VMap (
  str_field "id" (vi_ID i) ++ str_field "name" (vi_Name i) ++ str_field "status" (vi_Status i) ++
  str_field "ip_address" (vi_IPAddress i) ++ int_field "service_port" (vi_ServicePort i) ++
  field "has_snapshot" (VBool (vi_HasSnapshot i))).
Definition zero_info : VMInfo :=
  {| vi_ID := ""; vi_Name := ""; vi_Status := ""; vi_IPAddress := ""; vi_ServicePort := 0; vi_HasSnapshot := false |}.
Definition VMInfo_decoder : decoder VMInfo := [
  ("id", get_str (fun x i => i <| vi_ID := x |>)); ("name", get_str (fun x i => i <| vi_Name := x |>));
  ("status", get_str (fun x i => i <| vi_Status := x |>)); ("ip_address", get_str (fun x i => i <| vi_IPAddress := x |>));
  ("service_port", get_int (fun x i => i <| vi_ServicePort := x |>));
  ("has_snapshot", get_bool (fun x i => i <| vi_HasSnapshot := x |>))].
(** The envelope of the client, a struct with the one field [Data]. *)
Definition envelope_decoder : decoder VMInfo := [
  ("data", fun v i => match v with VNil => Some i | VMap m => decode VMInfo_decoder m i | _ => None end)].
(** [json.NewDecoder(body).Decode(&envelope)]: the first value of the body. *)
Definition decode_envelope (body : string) : option VMInfo :=
  match parse_value (S (str_len body)) body with
  | Some (v, _) => decode_struct envelope_decoder zero_info v
  | None => None
  end.

(** ** The client (orchestrator.go) *)

(** net/http: a URL that cannot be parsed is refused, a request may fail. *)
Record HTTPClient (W : Type) := {
  http_NewRequest : string -> string -> option error;
  http_Do : string -> string -> M W (res Response) }.
Arguments http_NewRequest {W}. Arguments http_Do {W}.

Section client.
Context {W : Type} (http : HTTPClient W) (baseURL : string).
Definition decode_error (what : string) : error := wrapf what (EText "invalid JSON").

(** What LookupVM returns: the VM, whether it exists, the error. *)
Definition Lookup : Type := option VMInfo * bool * option error.
Definition LookupVM (name : string) : M W Lookup :=
  let url := baseURL +:+ "/internal/v1/vm/by-name/" +:+ name in
  match http_NewRequest http "GET" url with
  | Some e => ret (None, false, Some e)
  | None =>
      let* resp := http_Do http "GET" url in
      ret (match resp with
           | Err e => (None, false, Some (wrapf "lookup request: " e))
           | Ok resp =>
               if bool_decide (hs_Status resp = 404) then (None, false, None)
               else if negb (bool_decide (hs_Status resp = 200))
               then (None, true, Some (EText ("lookup " +:+ name +:+ ": status " +:+ fmt_d (hs_Status resp) +:+ ": " +:+ take_str 4096 (hs_Body resp))))
               else match decode_envelope (hs_Body resp) with
                    | None => (None, true, Some (decode_error "decode lookup response: "))
                    | Some info => (Some info, true, None)
                    end
           end)
  end.
Definition client_ResumeVM (vmID : string) : M W (res VMInfo) :=
  let url := baseURL +:+ "/internal/v1/vm/" +:+ vmID +:+ "/resume" in
  match http_NewRequest http "POST" url with
  | Some e => ret (Err e)
  | None =>
      let* resp := http_Do http "POST" url in
      ret (match resp with
           | Err e => Err (wrapf "resume request: " e)
           | Ok resp =>
               if negb (bool_decide (hs_Status resp = 200))
               then Err (EText ("resume " +:+ vmID +:+ ": status " +:+ fmt_d (hs_Status resp) +:+ ": " +:+ take_str 4096 (hs_Body resp)))
               else match decode_envelope (hs_Body resp) with
                    | None => Err (decode_error "decode resume response: ")
                    | Some info => Ok info
                    end
           end)
  end.
Definition client_Touch (vmID : string) : M W unit :=
  let url := baseURL +:+ "/internal/v1/vm/" +:+ vmID +:+ "/touch" in
  match http_NewRequest http "POST" url with
  | Some _ => ret tt
  | None => let* _ := http_Do http "POST" url in ret tt
  end.
End client.

(** ** What becomes of a URL (net/url)

    The path, query and fragment of a URL that begins with a scheme and an authority
    ([baseURL]). *)

Definition is_ctl (c : ascii) : bool := bool_decide (code c < 32 \/ code c = 127).
Definition one_of (s : string) (c : ascii) : bool := match index_byte s c with Some _ => true | None => false end.
Definition is_alnum (c : ascii) : bool :=
  bool_decide (48 <= code c <= 57 \/ 65 <= code c <= 90 \/ 97 <= code c <= 122).
(** shouldEscape(c, encodePath) *)
Definition shouldEscape (c : ascii) : bool := negb (is_alnum c || one_of "-_.~$&+,/:;=@" c).
Definition upper_hex (z : Z) : ascii := if bool_decide (z < 10) then chr (48 + z) else chr (55 + z).
Definition escape_byte (c : ascii) : string :=
  if shouldEscape c then String "%" (String (upper_hex (code c / 16)) (str1 (upper_hex (code c mod 16)))) else str1 c.
Fixpoint escape (s : string) : string :=
  match s with EmptyString => EmptyString | String c s => escape_byte c +:+ escape s end.
Fixpoint unescape (s : string) : res string :=
  match s with
  | EmptyString => Ok EmptyString
  | String c t =>
      if bool_decide (c = "%"%char) then
        let bad := Err (EText ("invalid URL escape " +:+ fmt_q (take_str 3 s))) in
        match t with
        | String a (String b t') =>
            match hex_val a, hex_val b with
            | Some x, Some y => match unescape t' with Ok r => Ok (String (chr (16 * x + y)) r) | Err e => Err e end
            | _, _ => bad
            end
        | _ => bad
        end
      else match unescape t with Ok r => Ok (String c r) | Err e => Err e end
  end.
Definition validEncoded (s : string) : bool := all_bytes (fun c => one_of "!'()*[]%" c || negb (shouldEscape c)) s.

(** [strings.Cut]; what follows the separator, if it is there. *)
Definition cut (s : string) (sep : ascii) : string * option string :=
  match index_byte s sep with Some i => (take_str i s, Some (drop_str (S i) s)) | None => (s, None) end.

(** [u_RawPath] is empty when it is the default encoding of the path; [u_Query] is the raw
    query, also when it is empty (ForceQuery). *)
Record URL := { u_Path : string; u_RawPath : string; u_Query : option string }.
(** The end of parse, from the path on, which also reads the target of a request. *)
Definition parse_target (rest : string) : res URL :=
  if negb (all_bytes (fun c => negb (is_ctl c)) rest) then Err (EText "net/url: invalid control character in URL")
  else
    let '(p, query) := cut rest "?"%char in
    match unescape p with
    | Ok path => Ok {| u_Path := path; u_RawPath := if bool_decide (p = escape path) then "" else p; u_Query := query |}
    | Err e => Err e
    end.
Definition url_Parse (baseURL rawURL : string) : res URL :=
  let '(rest, frag) := cut (trim_prefix rawURL baseURL) "#"%char in
  let failed url e := Err (EText ("parse " +:+ fmt_q url +:+ ": " +:+ Error e)) in
  match parse_target rest with
  | Err e => failed (baseURL +:+ rest) e
  | Ok url => match unescape (default "" frag) with Ok _ => Ok url | Err e => failed rawURL e end
  end.
Definition EscapedPath (u : URL) : string :=
  if negb (bool_decide (u_RawPath u = "")) && validEncoded (u_RawPath u) &&
     match unescape (u_RawPath u) with Ok p => bool_decide (p = u_Path u) | Err _ => false end then u_RawPath u
  else if bool_decide (u_Path u = "*") then "*" else escape (u_Path u).
Definition RequestURI (u : URL) : string :=
  let p := EscapedPath u in
  (if bool_decide (p = "") then "/" else p) +:+ match u_Query u with Some q => "?" +:+ q | None => "" end.
(** The path that chi routes on. *)
Definition routePath (u : URL) : string :=
  let p := if bool_decide (u_RawPath u = "") then u_Path u else u_RawPath u in if bool_decide (p = "") then "/" else p.

(** ** The server (server.go) *)

Inductive Mode := ModeCloudflared | ModeMeshProxy.
Record Request := { rq_Path : string; rq_Host : string; rq_URLHost : string }.
(** The reply: of the server itself, or of the VM behind the address. *)
Inductive Reply :=
| Own (status : Z) (retryAfter : bool) (body : string)
| Proxied (target : string).

Record Server (W : Type) := {
  as_mode : Mode; as_domainSuffix : string;
  as_lookup : string -> M W Lookup;
  as_activate : string -> M W (res VMInfo);
  (* the reverse proxy: did the backend answer? *)
  as_proxy : string -> M W bool;
  (* [go func() { s.orch.Touch(touchCtx, vm.ID) }()] *)
  as_go_touch : string -> M W unit }.
Arguments as_mode {W}. Arguments as_domainSuffix {W}. Arguments as_lookup {W}. Arguments as_activate {W}. Arguments as_proxy {W}. Arguments as_go_touch {W}.

Section server.
Context {W : Type} (s : Server W).

(** http.Error *)
Definition http_Error (msg : string) (code : Z) : Reply := Own code false (msg +:+ newline).
Definition retry_later (msg : string) : Reply := Own 503 true (msg +:+ newline).

Definition resolveVMName (r : Request) : option string :=
  let host := match as_mode s with ModeMeshProxy => rq_URLHost r | ModeCloudflared => rq_Host r end in
  if bool_decide (host = "") then None
  else
    let host := match index_byte host ":"%char with Some i => take_str i host | None => host end in
    if negb (has_suffix host (as_domainSuffix s)) then None
    else let name := trim_suffix host (as_domainSuffix s) in if bool_decide (name = "") then None else Some name.

Definition target_of (vm : VMInfo) : string := vi_IPAddress vm +:+ ":" +:+ fmt_d (vi_ServicePort vm).
Definition forward (vm : VMInfo) : M W Reply :=
  let* answered := as_proxy s (target_of vm) in
  let* _ := as_go_touch s (vi_ID vm) in
  ret (if answered then Proxied (target_of vm) else http_Error "backend unreachable" 502).

Definition activateAndForward (vm : VMInfo) : M W Reply :=
  if negb (vi_HasSnapshot vm) then ret (http_Error "vm has no snapshot to restore" 410)
  else
    let* r := as_activate s (vi_ID vm) in
    match r with
    | Err e => ret (if is_full e then retry_later "activation capacity exhausted"
                    else http_Error "activation failed" 502)
    | Ok resumed => forward resumed
    end.

Definition ServeHTTP (r : Request) : M W Reply :=
  if bool_decide (rq_Path r = "/healthz") then ret (Own 200 false "ok")
  else
    match resolveVMName r with
    | None => ret (http_Error "not found" 404)
    | Some vmName =>
        let* l := as_lookup s vmName in
        match l with
        | (_, _, Some _) => ret (http_Error "lookup failed" 502)
        | (None, _, None) | (_, false, None) => ret (http_Error "not found" 404)
        | (Some vm, true, None) =>
            let st := vi_Status vm in
            if bool_decide (st = "running") then forward vm
            else if bool_decide (st = "idle") then activateAndForward vm
            else if bool_decide (st = "terminated") then ret (http_Error "vm terminated" 410)
            else if bool_decide (st = "ready" \/ st = "provisioning" \/ st = "creating") then ret (retry_later "vm not ready, retry")
            else ret (retry_later ("vm in unexpected state: " +:+ st))
        end
    end.
End server.

(** ** The internal API (api/http/intra/vm/handler.go) *)

Section handlers.
Context {B St : Type} `{!Backend B, !Storage St} (vmSvc : Service).
Abbreviation W := (World B St).

Definition info_of (vm : VM) (hasSnapshot : bool) : VMInfo := {|
  vi_ID := vm_ID vm; vi_Name := vm_Name vm; vi_Status := Status_string (vm_Status vm);
  vi_IPAddress := match vm_IPAddress vm with Some ip => trim_space ip | None => "" end;
  vi_ServicePort := vm_ServicePort vm; vi_HasSnapshot := hasSnapshot |}.
Definition toResponse (vm : VM) : M W VMInfo :=
  let* hasSnapshot := HasSnapshot vmSvc (vm_ID vm) in ret (info_of vm hasSnapshot).

Definition ByName (name : string) : M W Response :=
  if bool_decide (name = "") then ret (WriteError (BadRequest "missing name"))
  else
    let* r := GetByName name in
    match r with
    | Err e => ret (WriteError e)
    | Ok vm =>
        if bool_decide (vm_ServicePort vm <= 0) then ret (WriteError (NotFound "vm name" name))
        else let* info := toResponse vm in ret (WriteJSON 200 "ok" (VMInfo_json info))
    end.
Definition Resume (id : string) : M W Response :=
  if bool_decide (id = "") then ret (WriteError (BadRequest "missing vm id"))
  else
    let* r := ResumeVM vmSvc id "" in
    match r with
    | Err e => ret (WriteError e)
    | Ok vm => let* info := toResponse vm in ret (WriteJSON 200 "running" (VMInfo_json info))
    end.
Definition Touch (id : string) : M W Response :=
  if bool_decide (id = "") then ret (WriteError (BadRequest "missing vm id"))
  else let* r := MarkActive vmSvc id in ret (match r with Err e => WriteError e | Ok _ => NoContent end).

(** The router: the parameter of a pattern [pre ++ "{x}" ++ post] in a path. *)
Context (URLParam : string -> string -> string -> option string) (not_found : Response).
Definition internal_routes (method path : string) : M W Response :=
  if bool_decide (method = "GET") then
    match URLParam "/internal/v1/vm/by-name/" "" path with Some name => ByName name | None => ret not_found end
  else if bool_decide (method = "POST") then
    match URLParam "/internal/v1/vm/" "/resume" path with
    | Some id => Resume id
    | None => match URLParam "/internal/v1/vm/" "/touch" path with Some id => Touch id | None => ret not_found end
    end
  else ret not_found.

(** The server reads the request target back; a space in it breaks the request line. *)
Definition serve (method target : string) : M W Response :=
  match index_byte target " "%char, parse_target target with
  | None, Ok u => internal_routes method (routePath u)
  | _, _ => ret {| hs_Status := 400; hs_Headers := [("Content-Type", "text/plain; charset=utf-8")]; hs_Body := "400 Bad Request" |}
  end.
(** The client on the loopback interface; [baseURL] is a scheme and an authority. *)
Definition loopback (baseURL : string) : HTTPClient W := {|
  http_NewRequest := fun _ url => match url_Parse baseURL url with Ok _ => None | Err e => Some e end;
  http_Do := fun method url =>
    match url_Parse baseURL url with
    | Ok u => let* resp := serve method (RequestURI u) in ret (Ok resp)
    | Err e => ret (Err e)
    end |}.
End handlers.
