(* ===== verification/ActivatorSpec.v ===== *)
(** * What the activator promises

    Over the loopback interface the client of the activator sees the VM service itself, for
    names that a URL carries unchanged: what it decodes is what the repository and the
    service returned. And the server is no
    open proxy: a request is forwarded only to the address the orchestrator reported for a
    VM that its host name denotes. *)

From Stdlib Require Import Ascii.
From S2P Require Import Prelude Exception Naming GoLib Domain World PgRepo Interfaces SnapFacts VMExec VMSnapshot VMService VMResume.
From S2P Require Import Json ExecProtocol Http Activator ActivatorServer.

Local Open Scope go_scope.

(** ** Envelopes *)

Definition info_ok (i : VMInfo) : Prop :=
  Forall str_ok [vi_ID i; vi_Name i; vi_Status i; vi_IPAddress i] /\ int_ok (vi_ServicePort i).

Lemma VMInfo_decode i : info_ok i -> decode_struct envelope_decoder zero_info (VMap [("data", VMInfo_json i)]) = Some i.
Proof.
  intros [_ Hi]. unfold int_ok in Hi. change (decode envelope_decoder (field "data" (VMInfo_json i)) zero_info = Some i).
  eapply decode_one; [reflexivity |]. destruct i as [id name st ip port has]. cbn [vi_ServicePort] in Hi. unfold VMInfo_json, str_field, int_field. cbn [
    vi_ID vi_Name vi_Status vi_IPAddress vi_ServicePort vi_HasSnapshot]. repeat decode_step.
Qed.

Lemma newline_ends : ends_number newline.
Proof. unfold ends_number, newline, str1. do 3 apply list_elem_of_further. apply list_elem_of_here. Qed.
Lemma envelope_roundtrip i message : str_ok message -> info_ok i ->
  decode_envelope (hs_Body (WriteJSON 200 message (VMInfo_json i))) = Some i.
Proof.
  intros Hm Hi. unfold decode_envelope, WriteJSON, encode. cbn [hs_Body].
  change (match VMInfo_json i with VNil => [] | _ => [("data", VMInfo_json i)] end) with [("data", VMInfo_json i)]. cbn [app].
  set (v := VMap [("message", VStr message); ("status_code", VInt 200); ("data", VMInfo_json i)]).
  assert (Hp : printable v).
  { destruct Hi as [Hs _]. rewrite !Forall_cons in Hs. unfold str_ok in *. destruct_and!.
    unfold v, VMInfo_json, str_field, int_field, field. cbn [app printable fold_right fst snd VInt].
    split_and!; try done; by eexists. }
  assert (Hlen : (str_len (Marshal v) < S (str_len (Marshal v +:+ newline)))%nat) by (rewrite str_len_app; lia).
  rewrite (parse_Marshal v Hp _ newline Hlen newline_ends).
  unfold v. cbn [decode_struct decode]. rewrite <- (VMInfo_decode i Hi). reflexivity.
Qed.

(** ** What a URL carries unchanged *)

Lemma unescape_byte c s : unescape (escape_byte c +:+ s) = match unescape s with Ok r => Ok (String c r) | Err e => Err e end.
Proof. destruct c as [[][][][][][][][]]; reflexivity. Qed.
Lemma unescape_escape s : unescape (escape s) = Ok s.
Proof. induction s as [|c s IH]; [done |]. cbn [escape]. by rewrite unescape_byte, IH. Qed.

(** Neither a control byte nor one that has a meaning in a URL. *)
Definition url_byte (c : ascii) : bool := negb (is_ctl c || one_of "%?#" c).
(** What a request target may hold. *)
Definition target_byte (c : ascii) : bool := negb (is_ctl c || one_of "?# " c).

Lemma byte_impl (P Q : ascii -> bool) : forallb (fun n => implb (P (Ascii.ascii_of_nat n)) (Q (Ascii.ascii_of_nat n))) (seq 0 256) = true ->
  forall c, P c = true -> Q c = true.
Proof.
  intros Hall c. rewrite forallb_forall in Hall. specialize (Hall (Ascii.nat_of_ascii c)). rewrite Ascii.ascii_nat_embedding in Hall.
  intros Hc. assert (Hin : In (Ascii.nat_of_ascii c) (seq 0 256)) by (apply in_seq; pose proof (Ascii.nat_ascii_bounded c); lia).
  apply Hall in Hin. by rewrite Hc in Hin.
Qed.
Lemma unescape_plain s : all_bytes url_byte s = true -> unescape s = Ok s.
Proof.
  induction s as [|c s IH]; [done |]. cbn [all_bytes unescape]. intros [Hc Hs]%andb_true_iff. rewrite bool_decide_eq_false_2, IH by (done || by intros ->). done.
Qed.
Lemma escape_target s : all_bytes target_byte (escape s) = true.
Proof.
  induction s as [|c s IH]; [done |]. cbn [escape]. rewrite all_bytes_app, IH, andb_true_r.
  by apply (byte_impl (fun _ => true) (fun c => all_bytes target_byte (escape_byte c))); [vm_compute |].
Qed.

Definition without (c x : ascii) : bool := negb (bool_decide (x = c)).
Lemma index_none s c : all_bytes (without c) s = true -> index_byte s c = None.
Proof. induction s as [|a s IH]; [done |]. cbn. intros [Ha%negb_true_iff Hs]%andb_true_iff. by rewrite Ha, IH. Qed.
(** A target without control bytes and query is a path. *)
Definition path_byte (c : ascii) : bool := negb (is_ctl c) && without "?" c.
Lemma parse_path s path : all_bytes path_byte s = true -> unescape s = Ok path ->
  parse_target s = Ok {| u_Path := path; u_RawPath := if bool_decide (s = escape path) then "" else s; u_Query := None |}.
Proof.
  intros Hs Hp. unfold parse_target, cut.
  rewrite (all_bytes_impl path_byte (fun c => negb (is_ctl c)) s (fun c H => proj1 (andb_prop _ _ H)) Hs). cbn [negb].
  rewrite (index_none _ _ (all_bytes_impl path_byte (without "?") s (fun c H => proj2 (andb_prop _ _ H)) Hs)). by rewrite Hp.
Qed.
Lemma url_path s : all_bytes url_byte s = true -> all_bytes path_byte s = true.
Proof. apply all_bytes_impl, byte_impl. vm_compute. reflexivity. Qed.
Lemma escaped_path s : all_bytes path_byte (escape s) = true /\ all_bytes (without " ") (escape s) = true.
Proof. split; (eapply all_bytes_impl; [| apply escape_target]); apply byte_impl; vm_compute; reflexivity. Qed.
Lemma valid_no_space s : validEncoded s = true -> all_bytes (without " ") s = true.
Proof. apply all_bytes_impl, byte_impl. vm_compute. reflexivity. Qed.

(** A path without such bytes reaches the router as it is. *)
Lemma path_travels p : p <> "" -> p <> "*" -> all_bytes url_byte p = true ->
  exists u u', parse_target p = Ok u /\ parse_target (RequestURI u) = Ok u' /\ index_byte (RequestURI u) " "%char = None /\ routePath u' = p.
Proof.
  intros Hne Hstar Hp. pose proof (parse_path p p (url_path p Hp) (unescape_plain p Hp)) as E1.
  destruct (escaped_path p) as [Hesc Hsp].
  assert (Hesc_ne : escape p <> "") by (destruct p as [|c p]; [done | cbn; unfold escape_byte; by destruct (shouldEscape c)]).
  (* escaped on the way, and taken back *)
  assert (Eesc : exists u', parse_target (escape p) = Ok u' /\ index_byte (escape p) " "%char = None /\ routePath u' = p).
  { eexists. split; [by apply parse_path, unescape_escape |]. split; [by apply index_none |]. unfold routePath. cbn.
    rewrite (bool_decide_eq_true_2 (escape p = escape p)) by done. cbn. by rewrite bool_decide_eq_false_2. }
  exists {| u_Path := p; u_RawPath := if bool_decide (p = escape p) then "" else p; u_Query := None |}.
  unfold RequestURI, EscapedPath. cbn [u_Path u_RawPath u_Query].
  destruct (decide (p = escape p)) as [Heq|Heq]; [rewrite (bool_decide_eq_true_2 _ Heq) in * | rewrite (bool_decide_eq_false_2 _ Heq) in *].
  - rewrite (bool_decide_eq_true_2 ("" = "")) by done. cbn [negb andb].
    rewrite (bool_decide_eq_false_2 _ Hstar), (bool_decide_eq_false_2 _ Hesc_ne).
    destruct Eesc as (u' & H1 & H2 & H3). exists u'. by rewrite append_nil_r.
  - rewrite (bool_decide_eq_false_2 (p = "")), (unescape_plain p), (bool_decide_eq_true_2 (p = p)) by done. cbn [negb andb]. rewrite andb_true_r.
    destruct (validEncoded p) eqn:Hv.
    + rewrite (bool_decide_eq_false_2 (p = "")) by done. rewrite append_nil_r, E1. eexists. split; [done |]. split; [done |].
      split; [by apply index_none, valid_no_space |].
      unfold routePath. cbn [u_Path u_RawPath]. by rewrite !(bool_decide_eq_false_2 _ Hne).
    + rewrite (bool_decide_eq_false_2 _ Hstar), (bool_decide_eq_false_2 _ Hesc_ne).
      destruct Eesc as (u' & H1 & H2 & H3). exists u'. by rewrite append_nil_r.
Qed.

(** ** The client over the loopback interface *)

Lemma trim_prefix_app p s : trim_prefix (p +:+ s) p = s.
Proof.
  unfold trim_prefix. assert (has_prefix p (p +:+ s) = true) as ->.
  { induction p as [|c p IH]; [by destruct s |]. cbn. rewrite IH. by rewrite bool_decide_eq_true_2. }
  induction p as [|c p IH]; [done | exact IH].
Qed.

Definition segment (x : string) : Prop := x <> "" /\ index_byte x "/"%char = None.
(** A segment that means itself in a URL. *)
Definition url_segment (x : string) : Prop := segment x /\ all_bytes url_byte x = true.
Definition vm_texts (vm : VM) : Prop := info_ok (info_of vm true).

Section loopback.
Context {B St : Type} `{!Backend B, !Storage St} (vmSvc : Service).
Context (URLParam : string -> string -> string -> option string) (not_found : Response) (baseURL : string).
(** The router binds a segment of a path to the parameter in its place. *)
Hypothesis URLParam_binds : forall pre post x, segment x -> URLParam pre post (pre +:+ x +:+ post) = Some x.
Abbreviation W := (World B St).
Abbreviation routes := (internal_routes vmSvc URLParam not_found).
Abbreviation http := (loopback vmSvc URLParam not_found baseURL : HTTPClient W).

Lemma no_fragment p : all_bytes url_byte p = true -> index_byte p "#"%char = None.
Proof. intros Hp. eapply index_none, all_bytes_impl, Hp. apply byte_impl. vm_compute. reflexivity. Qed.
(** A request for such a path arrives at the router. *)
Lemma request_arrives method p (w : W) : p <> "" -> p <> "*" -> all_bytes url_byte p = true ->
  http_NewRequest http method (baseURL +:+ p) = None /\
  http_Do http method (baseURL +:+ p) w = (let '(resp, w1) := routes method p w in (Ok resp, w1)).
Proof.
  intros Hne Hstar Hp. destruct (path_travels p Hne Hstar Hp) as (u & u' & E1 & E2 & E3 & E4).
  assert (Hu : url_Parse baseURL (baseURL +:+ p) = Ok u) by (unfold url_Parse, cut; by rewrite trim_prefix_app, (no_fragment p Hp), E1).
  unfold loopback. cbn [http_NewRequest http_Do]. rewrite Hu. split; [done |]. unfold serve, bind, ret. by rewrite E3, E2, E4.
Qed.

Lemma info_ok_snapshot vm has : vm_texts vm -> info_ok (info_of vm has).
Proof. done. Qed.

Lemma GetByName_errors name (w : W) e w1 : GetByName name w = (Err e, w1) -> e = NotFound "vm name" name \/ exists c, e = Internal c.
Proof.
  unfold GetByName, selectOne, bind_ok. rewrite run_eq. destruct (or_fault _ _); [intros [= <- _]; right; by eexists |]. cbn.
  destruct (List.find _ _) as [row|]; [| intros [= <- _]; by left]. unfold mapVMRow, ret.
  destruct (r_guest_cid row); [| done]. destruct (_ || _); [intros [= <- _]; right; by eexists | done].
Qed.
Lemma GetByName_port name (w : W) vm w1 : GetByName name w = (Ok vm, w1) -> 0 < vm_ServicePort vm.
Proof.
  unfold GetByName, selectOne, bind_ok. rewrite run_eq. destruct (or_fault _ _); [done |]. cbn.
  destruct (List.find _ _) as [row|]; [| done]. unfold mapVMRow, ret.
  assert (Hpos : 0 < nullableIntValue (r_service_port row) 80).
  { unfold nullableIntValue. destruct (r_service_port row); [| done]. case_bool_decide; lia. }
  destruct (r_guest_cid row); [destruct (_ || _); [done |] |]; by intros [= <- _].
Qed.

(** C26: Over the loopback interface the activator sees the VM service itself, for names and
    ids that mean themselves in a URL (no "/", "%", "?" or "#" and no control byte; the
    client does not escape them). Looking up such a name gives the VM that the repository has under it, with its status, address, port and
    whether it has a snapshot; an unknown name gives "does not exist" and any other failure
    an error. Resuming gives the VM that ResumeVM returned, and an error when it failed.
    The calls change the world exactly as the repository and the service do. *)
Theorem client_agrees name w : url_segment name ->
  (forall r w1, GetByName name w = (r, w1) ->
    match r with
    | Ok vm => vm_texts vm -> LookupVM http baseURL name w =
        (let '(has, w2) := HasSnapshot vmSvc (vm_ID vm) w1 in ((Some (info_of vm has), true, None), w2))
    | Err e => (e = NotFound "vm name" name /\ LookupVM http baseURL name w = ((None, false, None), w1)) \/
               (StatusCode e = 500 /\ exists err, LookupVM http baseURL name w = ((None, true, Some err), w1))
    end) /\
  (forall r w1, ResumeVM vmSvc name "" w = (r, w1) ->
    match r with
    | Ok vm => vm_texts vm -> client_ResumeVM http baseURL name w =
        (let '(has, w2) := HasSnapshot vmSvc (vm_ID vm) w1 in (Ok (info_of vm has), w2))
    | Err e => StatusCode e <> 200 -> exists err, client_ResumeVM http baseURL name w = (Err err, w1)
    end).
Proof.
  intros [Hn Hu]. split; intros r w1 Hr.
  - destruct (request_arrives "GET" ("/internal/v1/vm/by-name/" +:+ name) w) as [En Ed]; [done | done | by rewrite all_bytes_app, Hu |].
    unfold LookupVM, bind, ret. rewrite En, Ed. clear En Ed.
    rewrite <- (append_nil_r ("/internal/v1/vm/by-name/" +:+ name)), append_assoc. unfold internal_routes.
    rewrite bool_decide_eq_true_2 by done. rewrite URLParam_binds by done.
    unfold ByName. rewrite bool_decide_eq_false_2 by apply Hn. unfold bind. rewrite Hr. destruct r as [vm|e].
    + intros Ht. rewrite bool_decide_eq_false_2 by (pose proof (GetByName_port _ _ _ _ Hr); lia).
      unfold toResponse, bind, ret. destruct (HasSnapshot vmSvc (vm_ID vm) w1) as [has w2]. cbn [hs_Status WriteJSON encode].
      rewrite bool_decide_eq_false_2 by done. rewrite bool_decide_eq_true_2 by done. cbn [negb].
      by rewrite (envelope_roundtrip _ "ok" eq_refl (info_ok_snapshot vm has Ht)).
    + destruct (GetByName_errors _ _ _ _ Hr) as [->|[c ->]]; [left | right]; (split; [done |]); [reflexivity | eexists; reflexivity].
  - destruct (request_arrives "POST" ("/internal/v1/vm/" +:+ name +:+ "/resume") w) as [En Ed]; [done | done | by rewrite !all_bytes_app, Hu |].
    unfold client_ResumeVM, bind, ret. rewrite En, Ed. clear En Ed. unfold internal_routes.
    rewrite bool_decide_eq_false_2 by done. rewrite bool_decide_eq_true_2 by done. rewrite URLParam_binds by done.
    unfold Resume. rewrite bool_decide_eq_false_2 by apply Hn. unfold bind. rewrite Hr. destruct r as [vm|e].
    + intros Ht. unfold toResponse, bind, ret. destruct (HasSnapshot vmSvc (vm_ID vm) w1) as [has w2]. cbn [hs_Status WriteJSON encode].
      rewrite bool_decide_eq_true_2 by done. cbn [negb].
      by rewrite (envelope_roundtrip _ "running" eq_refl (info_ok_snapshot vm has Ht)).
    + intros Hs. unfold ret. cbn [hs_Status WriteError encode]. rewrite (bool_decide_eq_false_2 _ Hs). by eexists.
Qed.
End loopback.

(** ** The server *)

Section server_spec.
Context {W : Type} (s : Server W).

(** The host the client asked for, without the port. *)
Definition asked_host (r : Request) : string :=
  let host := match as_mode s with ModeMeshProxy => rq_URLHost r | ModeCloudflared => rq_Host r end in
  match index_byte host ":"%char with Some i => take_str i host | None => host end.
Definition with_suffix (r : Request) (name : string) : Prop := name <> "" /\ asked_host r = name +:+ as_domainSuffix s.

Lemma has_suffix_split a suf : has_suffix a suf = true -> a = trim_suffix a suf +:+ suf.
Proof.
  intros H. unfold trim_suffix. rewrite H. unfold has_suffix in H. apply andb_true_iff in H as [H1%bool_decide_eq_true H2%bool_decide_eq_true].
  rewrite <- (take_drop_str (str_len a - str_len suf) a) at 1 by lia. by rewrite H2.
Qed.
Lemma take_zero i : take_str i "" = "".
Proof. by destruct i. Qed.
Lemma resolveVMName_spec r name : resolveVMName s r = Some name <-> with_suffix r name.
Proof.
  unfold resolveVMName, with_suffix, asked_host.
  destruct (match as_mode s with ModeMeshProxy => _ | ModeCloudflared => _ end) as [|c h] eqn:Eh; rewrite ?Eh.
  - rewrite bool_decide_eq_true_2 by done. split; [done |]. intros [Hn E]. cbn in E. destruct name; [by destruct Hn | done].
  - rewrite bool_decide_eq_false_2 by done.
    set (host := match index_byte (String c h) ":" with Some i => _ | None => _ end). clearbody host.
    destruct (has_suffix host (as_domainSuffix s)) eqn:Hs; cbn [negb].
    + pose proof (has_suffix_split _ _ Hs) as E. case_bool_decide as Hn.
      * split; [done |]. intros [Hne ->]. rewrite trim_suffix_app in Hn. done.
      * split; [intros [= <-]; by split | intros [_ ->]; by rewrite trim_suffix_app].
    + split; [done |]. intros [_ ->]. by rewrite has_suffix_app in Hs.
Qed.

(** The VM a request may be forwarded to, after waking it when it is idle. *)
Definition destination (r : Request) : M W (option VMInfo) :=
  match resolveVMName s r with
  | None => ret None
  | Some name =>
      let* l := as_lookup s name in
      match l with
      | (Some vm, true, None) =>
          if bool_decide (vi_Status vm = "running") then ret (Some vm)
          else if bool_decide (vi_Status vm = "idle") && vi_HasSnapshot vm then
            let* a := as_activate s (vi_ID vm) in ret (match a with Ok vm => Some vm | Err _ => None end)
          else ret None
      | _ => ret None
      end
  end.

Lemma ServeHTTP_destination r w : rq_Path r <> "/healthz" ->
  match destination r w with
  | (None, w1) => exists status retry body, ServeHTTP s r w = (Own status retry body, w1) /\ 404 <= status
  | (Some vm, w1) => ServeHTTP s r w = forward s vm w1
  end.
Proof.
  intros Hp. unfold ServeHTTP, destination. rewrite (bool_decide_eq_false_2 _ Hp). destruct (resolveVMName s r) as [name|]; [| by repeat eexists].
  unfold bind, ret. destruct (as_lookup s name w) as [[[[vm|] [|]] [e|]] w1]; try by (repeat eexists).
  case_bool_decide as Hr; [reflexivity |]. case_bool_decide as Hi; cbn [andb].
  - unfold activateAndForward, bind, ret. destruct (vi_HasSnapshot vm); cbn [negb]; [| by repeat eexists].
    destruct (as_activate s (vi_ID vm) w1) as [[vm'|e] w2]; [reflexivity |]. destruct (is_full e); by repeat eexists.
  - repeat case_bool_decide; by repeat eexists.
Qed.

(** The server answers itself; at most it has looked a VM up, and resumed it. *)
Definition answered_here (r : Request) (w : W) : Prop :=
  exists status retry body w1, ServeHTTP s r w = (Own status retry body, w1) /\ 404 <= status /\
    (w1 = w \/ exists name, with_suffix r name /\
       (w1 = (as_lookup s name w).2 \/ exists vm, (as_lookup s name w).1 = (Some vm, true, None) /\
          vi_Status vm = "idle" /\ vi_HasSnapshot vm = true /\ w1 = (as_activate s (vi_ID vm) (as_lookup s name w).2).2)).
(** The request goes to the reverse proxy, with the address of the VM its host denotes. *)
Definition handed_on (r : Request) (w : W) : Prop :=
  exists name vm w1 dest w2, with_suffix r name /\ as_lookup s name w = ((Some vm, true, None), w1) /\
    ((vi_Status vm = "running" /\ dest = vm /\ w2 = w1) \/
     (vi_Status vm = "idle" /\ vi_HasSnapshot vm = true /\ as_activate s (vi_ID vm) w1 = (Ok dest, w2))) /\
    let '(answered, w3) := as_proxy s (target_of dest) w2 in
    ServeHTTP s r w = (if answered then Proxied (target_of dest) else Own 502 false ("backend unreachable" +:+ newline),
                       (as_go_touch s (vi_ID dest) w3).2).

(** C27: The activator is no open proxy. A request is handed to the reverse proxy only when the
    host it asks for is a name followed by the configured suffix, the orchestrator knows a
    VM of that name, and this VM is running, or is idle, has a snapshot and has been
    resumed; it is handed to the address the orchestrator reported, and a touch of this
    very VM follows. Every other request is answered with an error of the activator
    itself, and nothing is proxied or touched. *)
Theorem ServeHTTP_no_open_proxy r w : rq_Path r <> "/healthz" -> answered_here r w \/ handed_on r w.
Proof.
  intros Hp. pose proof (ServeHTTP_destination r w Hp) as H. unfold destination in H.
  destruct (resolveVMName s r) as [name|] eqn:Hn; [| left; destruct H as (a & b & c & E & Ha); exists a, b, c, w; by eauto].
  apply resolveVMName_spec in Hn. unfold bind, ret in H. destruct (as_lookup s name w) as [l w1] eqn:Hl.
  assert (Hown : forall w', w' = w1 -> (exists status retry body, ServeHTTP s r w = (Own status retry body, w') /\ 404 <= status) -> answered_here r w).
  { intros w' -> (a & b & c & E & Ha). exists a, b, c, w1. split_and!; [done | done |]. right. exists name. split; [done |]. left. by rewrite Hl. }
  destruct l as [[[vm|] [|]] [e|]]; try (left; by apply (Hown w1)).
  assert (Hfwd : forall dest w2, ServeHTTP s r w = forward s dest w2 ->
    let '(answered, w3) := as_proxy s (target_of dest) w2 in
    ServeHTTP s r w = (if answered then Proxied (target_of dest) else Own 502 false ("backend unreachable" +:+ newline),
                        (as_go_touch s (vi_ID dest) w3).2)).
  { intros dest w2 ->. unfold forward, bind, ret. destruct (as_proxy s _ w2) as [ans w3]. destruct (as_go_touch s _ w3) as [[] w4]. by destruct ans. }
  case_bool_decide as Hr.
  - right. exists name, vm, w1, vm, w1. split_and!; [done | done | by left |]. by apply Hfwd.
  - case_bool_decide as Hi; cbn [andb] in H; [| left; by apply (Hown w1)].
    destruct (vi_HasSnapshot vm) eqn:Hs; [| left; by apply (Hown w1)].
    destruct (as_activate s (vi_ID vm) w1) as [[dest|e] w2] eqn:Ha.
    + right. exists name, vm, w1, dest, w2. split_and!; [done | done | by right |]. by apply Hfwd.
    + left. destruct H as (a & b & c & E & Hc). exists a, b, c, w2. split_and!; [done | done |]. right. exists name. split; [done |].
      right. exists vm. rewrite Hl. cbn. by rewrite Ha.
Qed.
End server_spec.

(** ** Examples *)

Definition match_segment (pre post path : string) : option string :=
  if has_prefix pre path then
    let rest := trim_prefix path pre in
    if has_suffix rest post then Some (trim_suffix rest post) else None
  else None.
Lemma match_segment_binds pre post x : segment x -> match_segment pre post (pre +:+ x +:+ post) = Some x.
Proof.
  intros _. unfold match_segment. rewrite trim_prefix_app, has_suffix_app, trim_suffix_app.
  assert (has_prefix pre (pre +:+ x +:+ post) = true) as ->; [| done].
  induction pre as [|c pre IH]; [by destruct (x +:+ post) |]. cbn. rewrite IH. by rewrite bool_decide_eq_true_2.
Qed.

Definition local_api : HTTPClient (World unit unit) := loopback sample_service match_segment NoContent "http://localhost:8081".
Definition looked_up : World unit unit := (GetByName "bold-curie" sample_world).2.
Lemma sample_texts : vm_texts sample_vm_a.
Proof. split; [repeat constructor; vm_compute; reflexivity | vm_compute; reflexivity]. Qed.
Lemma sample_segment : url_segment "bold-curie".
Proof. split; [split; [discriminate |] |]; reflexivity. Qed.
(** The client does not escape names: what follows a question mark or a number sign is not
    part of the name, and a percent sign is an escape, or an error. *)
Lemma names_are_not_escaped :
  (LookupVM local_api "http://localhost:8081" "bold-curie?x" sample_world).1 = (Some (info_of sample_vm_a false), true, None) /\
  (LookupVM local_api "http://localhost:8081" "bold-curie#x" sample_world).1 = (Some (info_of sample_vm_a false), true, None) /\
  (LookupVM local_api "http://localhost:8081" "50%" sample_world).1 =
    (None, false, Some (EText ("parse " +:+ fmt_q "http://localhost:8081/internal/v1/vm/by-name/50%" +:+ ": invalid URL escape " +:+ fmt_q "%"))).
Proof. split_and!; vm_compute; reflexivity. Qed.
Lemma client_agrees_witness :
  GetByName "bold-curie" sample_world = (Ok sample_vm_a, looked_up) /\
  LookupVM local_api "http://localhost:8081" "bold-curie" sample_world =
    (let '(has, w2) := HasSnapshot sample_service "vm-a" looked_up in ((Some (info_of sample_vm_a has), true, None), w2)).
Proof.
  assert (E1 : (GetByName "bold-curie" sample_world).1 = Ok sample_vm_a) by (vm_compute; reflexivity).
  assert (E : GetByName "bold-curie" sample_world = (Ok sample_vm_a, looked_up)).
  { rewrite (surjective_pairing (GetByName "bold-curie" sample_world)), E1. reflexivity. }
  split; [exact E |].
  exact (proj1 (client_agrees sample_service match_segment NoContent "http://localhost:8081" match_segment_binds "bold-curie"
                  sample_world sample_segment) _ _ E sample_texts).
Defined.

Definition sample_activator : Server (World unit unit) := {|
  as_mode := ModeCloudflared; as_domainSuffix := ".box.spacetrek.xyz"; as_lookup := LookupVM local_api "http://localhost:8081";
  as_activate := client_ResumeVM local_api "http://localhost:8081"; as_proxy := fun _ => ret true;
  as_go_touch := client_Touch local_api "http://localhost:8081" |}.
Definition sample_request : Request := {| rq_Path := "/"; rq_Host := "bold-curie.box.spacetrek.xyz:443"; rq_URLHost := "" |}.
Lemma ServeHTTP_no_open_proxy_witness :
  (ServeHTTP sample_activator sample_request sample_world).1 = Proxied "10.200.0.2:80" /\
  (answered_here sample_activator sample_request sample_world \/ handed_on sample_activator sample_request sample_world).
Proof. split; [vm_compute; reflexivity | by apply ServeHTTP_no_open_proxy]. Defined.
