(* ===== verification/ConfigFiles.v ===== *)
(** * Configuration files written from the state of the VMs: service/vm/hostswriter, tunnelwriter
      and multihook.go

    The hosts file of dnsmasq and the ingress rules of cloudflared are rendered and written
    over a temporary file that is renamed into place. A writer remembers the hash of what
    it wrote last and skips a refresh that would write the same again; its mutex guards
    only this memory, so that refreshes overlap: they are modelled both as one program and
    as threads whose sections interleave. *)

From S2P Require Import Prelude Exception Naming GoLib Domain World Json ExecProtocol Http.

Local Open Scope go_scope.

Definition nl : string := str1 (chr 10).
Definition tab : string := str1 (chr 9).

(** ** Rendering *)

(** render of hostswriter: the VMs with a name and an address, by name. *)
Definition eligible (vm : VM) : bool :=
  negb (IsTerminated vm) && negb (bool_decide (vm_Name vm = "")) &&
  match vm_IPAddress vm with Some ip => negb (bool_decide (ip = "")) | None => false end.
Definition by_name (a b : VM) : Prop := String.le (vm_Name a) (vm_Name b).
#[export] Instance by_name_dec : RelDecision by_name.
Proof. intros a b. unfold by_name. apply _. Defined.
Definition hosts_line (vm : VM) : string :=
  default "" (vm_IPAddress vm) +:+ "   " +:+ vm_Name vm +:+ ".vm.internal" +:+ tab +:+ vm_Name vm +:+ nl.
Definition header_line : string := "# managed by spacetrk orchestrator — do not edit" +:+ nl.
Definition concat_lines (l : list string) : string := foldr String.append "" l.
Definition render_hosts (vms : list VM) : string :=
  header_line +:+ concat_lines (hosts_line <$> merge_sort by_name (List.filter eligible vms)).

(** render of tunnelwriter: the ingress rules, which do not depend on the VMs. *)
Definition block (s : string) : string :=
  if bool_decide (s = "") then "" else s +:+ (if has_suffix s nl then "" else nl).
Definition render_ingress (domainSuffix orchestratorIP header staticRules : string) : string :=
  header_line +:+ block header +:+ "ingress:" +:+ nl +:+ block staticRules +:+
  "  - hostname: " +:+ dquote +:+ "*" +:+ domainSuffix +:+ dquote +:+ nl +:+
  "    service: http://" +:+ orchestratorIP +:+ ":8090" +:+ nl +:+
  "  - service: http_status:404" +:+ nl.

(** ** The file system *)

(** The files, which calls of the operating system fail, the names CreateTemp picks, and
    every state of the files that a reader can have seen. *)
Record Disk := {
  dk_files : gmap string string; dk_fault : nat -> option error; dk_name : nat -> string; dk_tick : nat;
  dk_seen : list (gmap string string); dk_signals : list Z }.

(** A system call: it fails, or it changes the files. *)
Definition syscall (f : gmap string string -> gmap string string) : M Disk (res unit) := fun d =>
  let d' := d <| dk_tick := S (dk_tick d) |> in
  match dk_fault d (dk_tick d) with
  | Some e => (Err e, d')
  | None => (Ok tt, d' <| dk_files := f (dk_files d) |> <| dk_seen := dk_seen d ++ [f (dk_files d)] |>)
  end.
(** Write may fail after a part of the bytes. *)
Definition write_bytes (name content : string) : M Disk (res unit) := fun d =>
  let d' := d <| dk_tick := S (dk_tick d) |> in
  match dk_fault d (dk_tick d) with
  | Some e =>
      let files := <[name := take_str (dk_tick d mod S (str_len content)) content]> (dk_files d) in
      (Err e, d' <| dk_files := files |> <| dk_seen := dk_seen d ++ [files] |>)
  | None => let files := <[name := content]> (dk_files d) in (Ok tt, d' <| dk_files := files |> <| dk_seen := dk_seen d ++ [files] |>)
  end.
(** os.CreateTemp: a new file, under a name that is not in use. *)
Definition CreateTemp (dir pattern : string) : M Disk (res string) := fun d =>
  let name := filepath_Join [dir; pattern +:+ dk_name d (dk_tick d)] in
  let d' := d <| dk_tick := S (dk_tick d) |> in
  match dk_fault d (dk_tick d) with
  | Some e => (Err e, d')
  | None =>
      match dk_files d !! name with
      | Some _ => (Err (EText "file exists"), d')
      | None => let files := <[name := ""]> (dk_files d) in (Ok name, d' <| dk_files := files |> <| dk_seen := dk_seen d ++ [files] |>)
      end
  end.
Definition rename (a b : string) (files : gmap string string) : gmap string string :=
  match files !! a with Some c => <[b := c]> (delete a files) | None => files end.

(** ** writeAtomic *)

Section write_atomic.
(** filepath.Dir of the target, and the pattern of the temporary name. *)
Context (dir pattern path : string).

Definition wrap_err {A} (what : string) (m : M Disk (res A)) : M Disk (res A) :=
  let* r := m in ret (match r with Ok a => Ok a | Err e => Err (wrapf what e) end).
Definition fill_temp (tmpName content : string) : M Disk (res unit) :=
  let? _ := wrap_err "chmod temp: " (syscall id) in
  let? _ := wrap_err "write temp: " (write_bytes tmpName content) in
  let? _ := wrap_err "close temp: " (syscall id) in
  let? _ := wrap_err "rename temp: " (syscall (rename tmpName path)) in
  ret (Ok tt).
Definition writeAtomic (content : string) : M Disk (res unit) :=
  let? _ := wrap_err ("mkdir " +:+ dir +:+ ": ") (syscall id) in
  let? tmpName := wrap_err "create temp: " (CreateTemp dir pattern) in
  let* r := fill_temp tmpName content in
  (* defer os.Remove(tmpName) *)
  let* _ := syscall (delete tmpName) in
  ret r.
End write_atomic.

(** ** Refresh *)

(** The state of a writer and of the disk. *)
Record WriterState := { ws_lastHash : string; ws_disk : Disk }.
Definition on_disk {A} (m : M Disk A) : M WriterState A := fun w => let '(a, d) := m (ws_disk w) in (a, w <| ws_disk := d |>).

Section refresh.
(** sha256 of the content, in hexadecimal digits. *)
Context (hashContent : string -> string).

(** The common part of the two Refresh methods: [content] is what was rendered. *)
Definition store_content (write : string -> M Disk (res unit)) (what content : string) (written : M WriterState unit) : M WriterState (res unit) :=
  let hash := hashContent content in
  fun w =>
    if bool_decide (hash = ws_lastHash w) then (Ok tt, w)
    else
      (let* r := on_disk (write content) in
       match r with
       | Err e => ret (Err (wrapf what e))
       | Ok _ => let* _ := (fun w => (tt, w <| ws_lastHash := hash |>)) in let* _ := written in ret (Ok tt)
       end) w.

(** hup: the process that runs, if any, is told to read the file again. *)
Section hosts.
Context (List : M WriterState (res (list VM))) (hostsPath dir : string).
(** The output of pidof dnsmasq. Of several processes it lists only the first is told. *)
Context (pidof : M WriterState (res string)).
Definition hup : M WriterState unit :=
  let* out := pidof in
  match out with
  | Err _ => ret tt
  | Ok out =>
      match strings_Fields out with
      | [] => ret tt
      | raw :: _ =>
          match Atoi raw with
          | None => ret tt
          | Some pid => on_disk (fun d => match dk_fault d (dk_tick d) with
                                  | Some _ => (tt, d <| dk_tick := S (dk_tick d) |>)
                                  | None => (tt, d <| dk_tick := S (dk_tick d) |> <| dk_signals := dk_signals d ++ [pid] |>)
                                  end)
          end
      end
  end.
Definition hosts_writeAtomic : string -> M Disk (res unit) := writeAtomic dir ".vm-hosts." hostsPath.
Definition hosts_Refresh : M WriterState (res unit) :=
  let* vms := List in
  match vms with
  | Err e => ret (Err (wrapf "list vms: " e))
  | Ok vms => store_content hosts_writeAtomic "write hosts file: " (render_hosts vms) hup
  end.
(** OnVMEvent of the hook ignores the event and the error. *)
Definition hosts_OnVMEvent {Event} (_ : Event) : M WriterState unit := let* _ := hosts_Refresh in ret tt.
End hosts.

Section ingress.
Context (ingressPath dir domainSuffix orchestratorIP header staticRulesPath : string).
(** A missing file is no rules. *)
Definition readStaticRules : M WriterState (res string) :=
  if bool_decide (staticRulesPath = "") then ret (Ok "")
  else on_disk (fun d =>
    let d' := d <| dk_tick := S (dk_tick d) |> in
    match dk_files d !! staticRulesPath with
    | None => (Ok "", d')
    | Some rules => (match dk_fault d (dk_tick d) with Some e => Err e | None => Ok rules end, d')
    end).
Definition ingress_writeAtomic : string -> M Disk (res unit) := writeAtomic dir ".cloudflared-ingress." ingressPath.
Definition ingress_Refresh : M WriterState (res unit) :=
  let* static := readStaticRules in
  match static with
  | Err e => ret (Err (wrapf "read static rules: " e))
  | Ok static =>
      store_content ingress_writeAtomic "write ingress file: "
        (render_ingress domainSuffix orchestratorIP header static) (ret tt)
  end.
Definition ingress_OnVMEvent {Event} (_ : Event) : M WriterState unit := let* _ := ingress_Refresh in ret tt.

(** New: the settings of the writer; the directory is that of the file. *)
Record IngressWriter := {
  iw_ingressPath : string; iw_domainSuffix : string; iw_orchestratorIP : string; iw_header : string; iw_staticRulesPath : string }.
End ingress.

(** The reconciler loops: a first refresh, then one for every tick of the ticker until the
    context is done; what a refresh returns is only logged. *)
Definition reconcile_interval (interval : Z) : Z := if bool_decide (interval <= 0) then 60 * second else interval.
Fixpoint on_ticks (Refresh : M WriterState (res unit)) (ticks : list (M WriterState unit)) : M WriterState unit :=
  match ticks with
  | [] => ret tt
  | meanwhile :: ticks' => let* _ := meanwhile in let* _ := Refresh in on_ticks Refresh ticks'
  end.
(** [meanwhile] is what happens to the disk and the writer between two ticks. *)
Definition hosts_StartReconciler (List : M WriterState (res (list VM))) (hostsPath dir : string) (pidof : M WriterState (res string))
  (ticks : list (M WriterState unit)) : M WriterState unit :=
  let* _ := hosts_Refresh List hostsPath dir pidof in on_ticks (hosts_Refresh List hostsPath dir pidof) ticks.
Definition ingress_StartReconciler (w : IngressWriter) (dir : string) (ticks : list (M WriterState unit)) : M WriterState unit :=
  let refresh := ingress_Refresh (iw_ingressPath w) dir (iw_domainSuffix w) (iw_orchestratorIP w) (iw_header w) (iw_staticRulesPath w) in
  let* _ := refresh in on_ticks refresh ticks.
End refresh.

(** ** Several hooks (multihook.go) *)

Definition LifecycleHook (W Event : Type) : Type := Event -> M W unit.
Definition MultiHook {W Event} (hooks : list (option (LifecycleHook W Event))) : LifecycleHook W Event :=
  fun evt => for_each (omap id hooks) (fun h => h evt).

(** ** Overlapping refreshes *)

(** Where a call of Refresh is: it has rendered its content, found that the hash differs,
    renamed its file into place. *)
Inductive rphase := Rendered (content : string) | Differs (content : string) | Renamed (content : string) | Over.
Record Shared := { sh_hash : string; sh_file : string; sh_threads : gmap nat rphase }.

Section interleaving.
Context (hashContent : string -> string).
Definition set_phase (t : nat) (p : rphase) (s : Shared) : Shared := s <| sh_threads := <[t := p]> (sh_threads s) |>.

(** The sections of Refresh between which other refreshes can run. *)
Inductive rstep : Shared -> Shared -> Prop :=
| rs_render t c s : sh_threads s !! t = None -> rstep s (set_phase t (Rendered c) s)
| rs_same t c s : sh_threads s !! t = Some (Rendered c) -> hashContent c = sh_hash s -> rstep s (set_phase t Over s)
| rs_differs t c s : sh_threads s !! t = Some (Rendered c) -> hashContent c <> sh_hash s -> rstep s (set_phase t (Differs c) s)
| rs_rename t c s : sh_threads s !! t = Some (Differs c) -> rstep s (set_phase t (Renamed c) (s <| sh_file := c |>))
| rs_fail t c s : sh_threads s !! t = Some (Differs c) -> rstep s (set_phase t Over s)
| rs_remember t c s : sh_threads s !! t = Some (Renamed c) -> rstep s (set_phase t Over (s <| sh_hash := hashContent c |>)).
End interleaving.
