(* ===== verification/ConfigSpec.v ===== *)
(** * What the writers of configuration files promise

    The rendered hosts file depends only on the set of VMs; the file is replaced at once,
    whatever system call fails; after a refresh that succeeds it has the content that was
    rendered. Overlapping refreshes can break the last promise. *)

From S2P Require Import Prelude Exception Naming GoLib Domain World PgRepo Json ExecProtocol Http ConfigFiles.

Local Open Scope go_scope.

(** ** Rendering *)

#[export] Instance by_name_total : Total by_name.
Proof. intros a b. unfold by_name. apply String.le_total. Qed.
#[export] Instance by_name_trans : Transitive by_name.
Proof. intros a b c. unfold by_name. apply String.le_po. Qed.

Lemma eligible_fields vm : eligible vm = true -> vm_Name vm <> "" /\ IsTerminated vm = false /\ exists ip, vm_IPAddress vm = Some ip /\ ip <> "".
Proof.
  unfold eligible. rewrite !andb_true_iff, !negb_true_iff, bool_decide_eq_false. intros [[H1 H2] H3]. split_and!; try done.
  destruct (vm_IPAddress vm) as [ip|]; [| done]. exists ip. split; [done |]. by apply negb_true_iff, bool_decide_eq_false in H3.
Qed.

Lemma sorted_names l l' : l ≡ₚ l' -> NoDup (vm_Name <$> l) -> merge_sort by_name l = merge_sort by_name l'.
Proof.
  intros Hp Hn. apply (StronglySorted_unique_strong by_name).
  - intros x y Hx Hy Hxy Hyx. rewrite merge_sort_Permutation in Hx. rewrite merge_sort_Permutation, <- Hp in Hy.
    assert (E : vm_Name x = vm_Name y) by (by apply (anti_symm String.le)).
    apply list_elem_of_lookup in Hx as [i Hi]. apply list_elem_of_lookup in Hy as [j Hj].
    assert (i = j) as ->; [| congruence].
    apply (NoDup_lookup (vm_Name <$> l) i j (vm_Name x)); [done | |]; rewrite list_lookup_fmap, ?Hi, ?Hj; cbn; congruence.
  - apply StronglySorted_merge_sort; apply _.
  - apply StronglySorted_merge_sort; apply _.
  - by rewrite !merge_sort_Permutation.
Qed.
Lemma filter_b_perm {A} (P : A -> bool) (l l' : list A) : l ≡ₚ l' -> List.filter P l ≡ₚ List.filter P l'.
Proof.
  induction 1 as [|x l l' _ IH|x y l|l1 l2 l3 _ IH1 _ IH2]; cbn; [done | | | by etrans].
  - destruct (P x); [by constructor | done].
  - destruct (P x), (P y); try done. by constructor.
Qed.

(** ** One write *)

Section write_spec.
Context (dir pattern path : string).

(** [d] leads to [d']: every state of the files that was seen in between satisfies [P]. *)
Definition sees (P : gmap string string -> Prop) (d d' : Disk) : Prop :=
  dk_name d' = dk_name d /\ exists l, dk_seen d' = dk_seen d ++ l /\ Forall P l.
#[local] Instance sees_pre P : PreOrder (sees P).
Proof.
  split; [intros d; split; [done |]; exists []; by rewrite app_nil_r |].
  intros a b c [H1 (l1 & E1 & F1)] [H2 (l2 & E2 & F2)]. split; [congruence |]. exists (l1 ++ l2).
  rewrite E2, E1, app_assoc. split; [done | by apply Forall_app].
Qed.

Lemma syscall_spec (P : gmap string string -> Prop) f d : P (f (dk_files d)) ->
  sees P d (syscall f d).2 /\ dk_files (syscall f d).2 = (if is_Ok (syscall f d).1 then f (dk_files d) else dk_files d).
Proof.
  intros HP. unfold syscall. destruct (dk_fault d _); cbn; (split; [split; [done |] | done]).
  - exists []. by rewrite app_nil_r.
  - exists [f (dk_files d)]. split; [done | by repeat constructor].
Qed.
Lemma write_spec (P : gmap string string -> Prop) name c d : (forall c', P (<[name := c']> (dk_files d))) ->
  sees P d (write_bytes name c d).2 /\
  exists c', dk_files (write_bytes name c d).2 = <[name := c']> (dk_files d) /\ (is_Ok (write_bytes name c d).1 = true -> c' = c).
Proof.
  intros HP. unfold write_bytes. destruct (dk_fault d _); cbn; (split; [split; [done |]; eexists; split; [reflexivity | by repeat constructor] |]).
  - by eexists.
  - by exists c.
Qed.

Lemma wrap_err_run {A} what (m : M Disk (res A)) d : (wrap_err what m d).2 = (m d).2 /\ is_Ok (wrap_err what m d).1 = is_Ok (m d).1 /\
  (forall a, (wrap_err what m d).1 = Ok a <-> (m d).1 = Ok a).
Proof. unfold wrap_err, bind, ret. destruct (m d) as [[a|e] d1]; cbn; split_and!; naive_solver. Qed.

(** A step that may fail, and what follows when it does not. *)
Lemma step_then {A} what (m : M Disk (res A)) (k : A -> M Disk (res unit)) d (Q : res unit -> Disk -> Prop) :
  (forall e, Q (Err (wrapf what e)) (m d).2 \/ (m d).1 <> Err e) -> (forall a, (m d).1 = Ok a -> Q (k a (m d).2).1 (k a (m d).2).2) ->
  Q ((bind_ok (wrap_err what m) k) d).1 ((bind_ok (wrap_err what m) k) d).2.
Proof.
  unfold bind_ok, wrap_err, bind, ret. destruct (m d) as [[a|e] d1]; cbn; intros He Hk; [by apply Hk | by destruct (He e)].
Qed.

Definition old_or_new (old : option string) (content : string) (files : gmap string string) : Prop :=
  files !! path = old \/ files !! path = Some content.

Lemma fill_temp_spec tmp content old d : tmp <> path -> dk_files d !! path = old ->
  sees (old_or_new old content) d (fill_temp path tmp content d).2 /\
  (if is_Ok (fill_temp path tmp content d).1
   then is_Some (dk_files d !! tmp) -> dk_files (fill_temp path tmp content d).2 = <[path := content]> (delete tmp (dk_files d))
   else exists f, (f = dk_files d \/ exists c, f = <[tmp := c]> (dk_files d)) /\ dk_files (fill_temp path tmp content d).2 = f).
Proof.
  intros Hne Hold. unfold fill_temp.
  set (Q := fun (r : res unit) d' => sees (old_or_new old content) d d' /\ (if is_Ok r
     then is_Some (dk_files d !! tmp) -> dk_files d' = <[path := content]> (delete tmp (dk_files d))
     else exists f, (f = dk_files d \/ exists c, f = <[tmp := c]> (dk_files d)) /\ dk_files d' = f)).
  change (Q ((fill_temp path tmp content) d).1 ((fill_temp path tmp content) d).2). unfold fill_temp.
  assert (Hin : forall c, old_or_new old content (<[tmp := c]> (dk_files d))) by (intros c; left; rewrite lookup_insert_ne by done; exact Hold).
  (* chmod *)
  destruct (syscall_spec (old_or_new old content) id d) as [S1 F1]; [by left |].
  assert (E1 : dk_files (syscall id d).2 = dk_files d) by (rewrite F1; by destruct (is_Ok _)).
  apply step_then; [intros e; left; split; [exact S1 | cbn; eauto] |]. intros [] _. set (d1 := (syscall id d).2) in *. clearbody d1.
  (* write *)
  destruct (write_spec (old_or_new old content) tmp content d1) as [S2 (c' & F2 & Hc)]; [intros c; rewrite E1; apply Hin |].
  rewrite E1 in F2. assert (S12 := transitivity S1 S2).
  apply step_then; [intros e; left; split; [exact S12 | cbn; eauto 6] |]. intros [] Hok. rewrite Hok in Hc. specialize (Hc eq_refl). subst c'.
  set (d2 := (write_bytes tmp content d1).2) in *. clearbody d2. clear Hok.
  (* close *)
  destruct (syscall_spec (old_or_new old content) id d2) as [S3 F3]; [rewrite F2; apply Hin |].
  assert (E3 : dk_files (syscall id d2).2 = <[tmp := content]> (dk_files d)) by (rewrite F3, F2; unfold id; destruct (is_Ok (syscall (fun x => x) d2).1); reflexivity).
  assert (S13 := transitivity S12 S3).
  apply step_then; [intros e; left; split; [exact S13 | cbn; eauto 6] |]. intros [] _. set (d3 := (syscall id d2).2) in *. clearbody d3.
  (* rename *)
  assert (R : rename tmp path (dk_files d3) = <[path := content]> (delete tmp (dk_files d))).
  { unfold rename. rewrite E3, lookup_insert_eq. f_equal. by rewrite delete_insert_eq. }
  destruct (syscall_spec (old_or_new old content) (rename tmp path) d3) as [S4 F4]; [rewrite R; right; by rewrite lookup_insert_eq |].
  assert (S14 := transitivity S13 S4).
  apply step_then.
  - intros e. destruct (syscall (rename tmp path) d3) as [[[]|e'] d4] eqn:E4; [by right | left]. split; [exact S14 |]. cbn in *.
    exists (<[tmp := content]> (dk_files d)). split; [eauto | congruence].
  - intros [] Hok. rewrite Hok in F4. cbn in F4. split; [exact S14 |]. cbn. intros _. congruence.
Qed.

(** No temporary name is the target. *)
Definition temp_names (d : Disk) : Prop := forall n, filepath_Join [dir; pattern +:+ dk_name d n] <> path.

Lemma CreateTemp_spec old content d : temp_names d -> dk_files d !! path = old ->
  sees (old_or_new old content) d (CreateTemp dir pattern d).2 /\
  match (CreateTemp dir pattern d).1 with
  | Ok tmp => tmp <> path /\ dk_files d !! tmp = None /\ dk_files (CreateTemp dir pattern d).2 = <[tmp := ""]> (dk_files d)
  | Err _ => dk_files (CreateTemp dir pattern d).2 = dk_files d
  end.
Proof.
  intros Ht Hold. unfold CreateTemp. assert (Hnil : forall P, sees P d (d <| dk_tick := S (dk_tick d) |>)).
  { intros P. split; [done |]. exists []. split; [by rewrite app_nil_r | constructor]. }
  destruct (dk_fault d _); [split; [apply Hnil | done] |]. 
  pose proof (Ht (dk_tick d)) as Hne. set (name := filepath_Join _) in *. clearbody name.
  destruct (dk_files d !! name) eqn:Hf; [split; [apply Hnil | done] |]. cbn. split.
  - split; [done |]. eexists. split; [reflexivity |]. apply Forall_singleton. left. rewrite lookup_insert_ne by done. exact Hold.
  - by split_and!.
Qed.

Lemma writeAtomic_spec content d : temp_names d ->
  let '(r, d') := writeAtomic dir pattern path content d in
  sees (old_or_new (dk_files d !! path) content) d d' /\
  dk_files d' !! path = (if is_Ok r then Some content else dk_files d !! path) /\
  (forall q, q <> path -> is_Some (dk_files d !! q) -> dk_files d' !! q = dk_files d !! q).
Proof.
  intros Ht. set (old := dk_files d !! path). unfold writeAtomic.
  set (Q := fun (r : res unit) d' => sees (old_or_new old content) d d' /\ dk_files d' !! path = (if is_Ok r then Some content else old) /\
     (forall q, q <> path -> is_Some (dk_files d !! q) -> dk_files d' !! q = dk_files d !! q)).
  match goal with |- let '(r, d') := ?e in _ => change (let '(r, d') := e in Q r d'); enough (Q e.1 e.2) by (by destruct e) end.
  destruct (syscall_spec (old_or_new old content) id d) as [S1 F1]; [by left |].
  assert (E1 : dk_files (syscall id d).2 = dk_files d) by (rewrite F1; by destruct (is_Ok _)).
  assert (Ht1 : temp_names (syscall id d).2) by (intros n; rewrite (proj1 S1); apply Ht).
  apply step_then; [intros e; left; split; [exact S1 | by rewrite E1] |]. intros [] _. set (d1 := (syscall id d).2) in *. clearbody d1.
  destruct (CreateTemp_spec old content d1 Ht1) as [S2 F2]; [by rewrite E1 |]. assert (S12 := transitivity S1 S2).
  apply step_then.
  { intros e. destruct (CreateTemp dir pattern d1) as [[tmp|e'] d2]; [by right | left]. cbn in *. split; [exact S12 | by rewrite F2, E1]. }
  intros tmp Htmp. rewrite Htmp in F2. destruct F2 as (Hne & Hnone & F2). rewrite E1 in Hnone, F2.
  set (d2 := (CreateTemp dir pattern d1).2) in *. clearbody d2. clear Htmp.
  destruct (fill_temp_spec tmp content old d2 Hne) as [S3 F3]; [rewrite F2; by rewrite lookup_insert_ne |].
  unfold bind, ret. destruct (fill_temp path tmp content d2) as [r d3]. cbn [fst snd] in S3, F3. assert (S13 := transitivity S12 S3).
  assert (Hdel : delete tmp (dk_files d3) !! path = (if is_Ok r then Some content else old) /\ dk_files d3 !! path = delete tmp (dk_files d3) !! path /\
            forall q, q <> path -> is_Some (dk_files d !! q) -> q <> tmp /\ dk_files d3 !! q = dk_files d !! q).
  { rewrite lookup_delete_ne by done. destruct (is_Ok r).
    - rewrite F3 by (rewrite F2; by rewrite lookup_insert_eq). rewrite lookup_insert_eq. split_and!; [done | done |].
      intros q Hq Hs. assert (q <> tmp) by (intros ->; rewrite Hnone in Hs; by destruct Hs). split; [done |].
      rewrite lookup_insert_ne, lookup_delete_ne, F2, lookup_insert_ne by done. done.
    - destruct F3 as (f & Hf & ->). split_and!; [| done |].
      + destruct Hf as [->|[c ->]]; rewrite ?lookup_insert_ne by done; rewrite F2; by rewrite lookup_insert_ne.
      + intros q Hq Hs. assert (q <> tmp) by (intros ->; rewrite Hnone in Hs; by destruct Hs). split; [done |].
        destruct Hf as [->|[c ->]]; rewrite ?lookup_insert_ne by done; rewrite F2; by rewrite lookup_insert_ne. }
  destruct Hdel as (Hdel & Hsame & Hrest).
  destruct (syscall_spec (old_or_new old content) (delete tmp) d3) as [S4 F4]; [unfold old_or_new; rewrite Hdel; destruct (is_Ok r); [by right | by left] |].
  assert (S14 := transitivity S13 S4). destruct (syscall (delete tmp) d3) as [r4 d4]. cbn [fst snd] in *. split; [exact S14 |]. rewrite F4. split.
  - destruct (is_Ok r4); [exact Hdel | by rewrite Hsame].
  - intros q Hq Hs. destruct (Hrest q Hq Hs) as [Hqt <-]. destruct (is_Ok r4); [by rewrite lookup_delete_ne | done].
Qed.
End write_spec.

(** ** Refreshes, one after the other *)

Section refresh_spec.
Context (hashContent : string -> string) (dir pattern path : string).
Hypothesis hash_nonempty : forall c, hashContent c <> "".

(** The remembered hash is that of the file. *)
Definition writer_ok (w : WriterState) : Prop :=
  ws_lastHash w = "" \/ exists c, dk_files (ws_disk w) !! path = Some c /\ hashContent c = ws_lastHash w.
(** The hash tells the file and the content apart. *)
Definition no_collision (content : string) (w : WriterState) : Prop :=
  forall c, dk_files (ws_disk w) !! path = Some c -> hashContent c = hashContent content -> c = content.
(** A program that only reads. *)
Definition reads_only {A} (m : M WriterState A) : Prop := forall w,
  ws_lastHash (m w).2 = ws_lastHash w /\ dk_files (ws_disk (m w).2) = dk_files (ws_disk w) /\
  dk_seen (ws_disk (m w).2) = dk_seen (ws_disk w) /\ dk_name (ws_disk (m w).2) = dk_name (ws_disk w).

Lemma store_content_spec what content written w : reads_only written -> temp_names dir pattern path (ws_disk w) ->
  writer_ok w -> no_collision content w ->
  let '(r, w') := store_content hashContent (writeAtomic dir pattern path) what content written w in
  writer_ok w' /\
  sees (old_or_new path (dk_files (ws_disk w) !! path) content) (ws_disk w) (ws_disk w') /\
  dk_files (ws_disk w') !! path = (if is_Ok r then Some content else dk_files (ws_disk w) !! path).
Proof.
  intros Hwr Ht Hok Hcol. unfold store_content. case_bool_decide as Hh.
  - destruct Hok as [E|(c & Hc & E)]; [rewrite E in Hh; by destruct (hash_nonempty content) |].
    rewrite <- E in Hh. specialize (Hcol c Hc (eq_sym Hh)) as ->. split_and!; [right; by exists content | | by rewrite Hc].
    split; [done |]. exists []. split; [by rewrite app_nil_r | constructor].
  - destruct w as [last d]. cbn [ws_disk ws_lastHash] in *.
    pose proof (writeAtomic_spec dir pattern path content d Ht) as H. unfold bind, on_disk, ret. cbn.
    destruct (writeAtomic dir pattern path content d) as [[[]|e] d1]; destruct H as (Hs & Hf & _); cbn in *.
    + match goal with |- context [written ?x] => destruct (Hwr x) as (Hl & Hff & Hss & Hnn); destruct (written x) as [[] w2] end.
      cbn in *. split_and!; [right; exists content; split; [by rewrite Hff, Hf | done] | | by rewrite Hff, Hf].
      destruct Hs as [H1 (l & H2 & H3)]. split; [congruence |]. exists l. by rewrite Hss.
    + split_and!; [| exact Hs | exact Hf]. destruct Hok as [E|(c & Hc & E)]; [by left | right]. exists c. cbn in *. by rewrite Hf.
Qed.
End refresh_spec.

Lemma hup_reads pidof : reads_only pidof -> reads_only (hup pidof).
Proof.
  intros H w. unfold hup, bind. specialize (H w). destruct (pidof w) as [[out|] w1]; [| exact H].
  destruct (strings_Fields out) as [|raw l]; [exact H |]. destruct (Atoi raw) as [pid|]; [| exact H]. unfold on_disk. cbn in *.
  by destruct (dk_fault (ws_disk w1) _).
Qed.

(** C28: A refresh of the hosts file replaces it at once. When it succeeds, the file holds one
    line for every live VM with a name and an address, sorted by name, whatever the order in
    which the repository listed the VMs; when it fails, at any system call, the file is as
    before; at no moment does the file hold anything else; and the writer again remembers
    what the file holds, so that it never skips a write that is due. *)
Theorem hosts_Refresh_spec hashContent dir hostsPath List pidof w vms vms' :
  (forall c, hashContent c <> "") -> reads_only List -> reads_only pidof ->
  temp_names dir ".vm-hosts." hostsPath (ws_disk w) -> writer_ok hashContent hostsPath w ->
  (List w).1 = Ok vms -> vms ≡ₚ vms' -> NoDup (vm_Name <$> List.filter eligible vms) ->
  no_collision hashContent hostsPath (render_hosts vms) w ->
  let '(r, w') := hosts_Refresh hashContent List hostsPath dir pidof w in
  writer_ok hashContent hostsPath w' /\
  sees (old_or_new hostsPath (dk_files (ws_disk w) !! hostsPath) (render_hosts vms')) (ws_disk w) (ws_disk w') /\
  dk_files (ws_disk w') !! hostsPath = (if is_Ok r then Some (render_hosts vms') else dk_files (ws_disk w) !! hostsPath).
Proof.
  intros Hhash HL Hh%hup_reads Ht Hok Hl Hp Hn Hcol.
  assert (render_hosts vms = render_hosts vms') as <-.
  { unfold render_hosts. f_equal. f_equal. f_equal. apply sorted_names; [by apply filter_b_perm | done]. }
  unfold hosts_Refresh, bind. destruct (HL w) as (E1 & E2 & E3 & E4). destruct (List w) as [l w1]. cbn in Hl, E1, E2, E3, E4. subst l.
  pose proof (store_content_spec hashContent dir ".vm-hosts." hostsPath Hhash "write hosts file: " (render_hosts vms) (hup pidof) w1 Hh) as H.
  unfold temp_names, writer_ok, no_collision in H. rewrite E1, E2, E4 in H. specialize (H Ht Hok Hcol).
  destruct (store_content _ _ _ _ _ w1) as [r w2]. destruct H as (H1 & [H2 (seen & H3 & H4)] & H5). split_and!; [exact H1 | | exact H5].
  split; [congruence |]. exists seen. by rewrite H3, E3.
Qed.

(** A reload signal that could not be sent is not sent again: the hash was remembered before
    it, and the next refresh of the same content does nothing. *)
Lemma hup_is_not_retried hash write what content written written' w w' : reads_only written ->
  store_content hash write what content written w = (Ok tt, w') ->
  store_content hash write what content written' w' = (Ok tt, w').
Proof.
  intros Hwr. unfold store_content. case_bool_decide as Hh.
  - intros [= <-]. by rewrite bool_decide_true.
  - unfold bind, ret. destruct (on_disk _ w) as [[[]|e] w1]; [| done]. 
    match goal with |- context [written ?x] => destruct (Hwr x) as (Hl & _); destruct (written x) as [[] w2] end.
    intros [= <-]. by rewrite bool_decide_true.
Qed.

(** The reconciler compares hashes and not files: while the VMs stay the same, no tick repairs a
    hosts file that something else has changed or removed. *)
Lemma external_change_stays hash List hostsPath dir pidof vms (ticks : list (M WriterState unit)) w :
  (forall w, List w = (Ok vms, w)) -> ws_lastHash w = hash (render_hosts vms) ->
  Forall (fun m => forall w, m w = (tt, w)) ticks ->
  hosts_StartReconciler hash List hostsPath dir pidof ticks w = (tt, w).
Proof.
  intros HL Hw Hticks. assert (R : hosts_Refresh hash List hostsPath dir pidof w = (Ok tt, w)).
  { unfold hosts_Refresh, bind. rewrite HL. unfold store_content. by rewrite bool_decide_true. }
  unfold hosts_StartReconciler, bind. rewrite R. clear -R Hticks. induction Hticks as [|m ticks Hm _ IH]; [done |].
  cbn [on_ticks]. unfold bind. by rewrite Hm, R.
Qed.

(** ** Refreshes that overlap *)

(** Two refreshes, of an older and of a newer content: when the older one renames its file
    last and the newer one remembers its hash last, the file stays old, and refreshes that
    render the newer content again find nothing to do. *)
Lemma overlapping_refreshes_stick hash c0 older newer : hash older <> hash c0 -> hash newer <> hash c0 ->
  exists s, rtc (rstep hash) {| sh_hash := hash c0; sh_file := c0; sh_threads := ∅ |} s /\
    sh_file s = older /\ sh_hash s = hash newer /\ (forall t p, sh_threads s !! t = Some p -> p = Over).
Proof.
  intros H1 H2.
  set (s0 := {| sh_hash := hash c0; sh_file := c0; sh_threads := ∅ |}).
  set (s1 := set_phase 1 (Rendered older) s0). set (s2 := set_phase 2 (Rendered newer) s1).
  set (s3 := set_phase 1 (Differs older) s2). set (s4 := set_phase 2 (Differs newer) s3).
  set (s5 := set_phase 2 (Renamed newer) (s4 <| sh_file := newer |>)). set (s6 := set_phase 1 (Renamed older) (s5 <| sh_file := older |>)).
  set (s7 := set_phase 1 Over (s6 <| sh_hash := hash older |>)). set (s8 := set_phase 2 Over (s7 <| sh_hash := hash newer |>)).
  exists s8. split_and!; [| done | done |].
  - apply (rtc_l _ _ s1); [by apply rs_render |]. apply (rtc_l _ _ s2); [by apply rs_render |].
    apply (rtc_l _ _ s3); [by apply rs_differs |]. apply (rtc_l _ _ s4); [by apply rs_differs |].
    apply (rtc_l _ _ s5); [by apply rs_rename |]. apply (rtc_l _ _ s6); [by apply rs_rename |].
    apply (rtc_l _ _ s7); [by apply rs_remember |]. apply rtc_once. by apply rs_remember.
  - intros t p. assert (E : sh_threads s8 = {[1%nat := Over; 2%nat := Over]}) by (vm_compute; reflexivity). rewrite E.
    intros H. apply lookup_insert_Some in H as [[<- <-]|[_ H]]; [done |]. by apply lookup_singleton_Some in H as [_ <-].
Qed.

(** ** Examples *)

Definition idle_disk : Disk := {|
  dk_files := {["/run/vm-hosts" := render_hosts []]}; dk_fault := fun _ => None; dk_name := fun _ => "1"; dk_tick := 0;
  dk_seen := []; dk_signals := [] |}.
Definition sample_hash (c : string) : string := "sha:" +:+ c.
Definition sample_writer : WriterState := {| ws_lastHash := ""; ws_disk := idle_disk |}.
Definition two_vms : list VM := [sample_vm_b <| vm_IPAddress := Some "10.200.0.3" |>; sample_vm_a].
Definition list_two : M WriterState (res (list VM)) := fun w => (Ok two_vms, w).

Lemma hosts_Refresh_spec_witness :
  let vms' := List.rev two_vms in
  let '(r, w') := hosts_Refresh sample_hash list_two "/run/vm-hosts" "/run" (ret (Ok "42 17")) sample_writer in
  writer_ok sample_hash "/run/vm-hosts" w' /\
  sees (old_or_new "/run/vm-hosts" (Some (render_hosts [])) (render_hosts vms')) idle_disk (ws_disk w') /\
  dk_files (ws_disk w') !! "/run/vm-hosts" = (if is_Ok r then Some (render_hosts vms') else Some (render_hosts [])).
Proof.
  apply (hosts_Refresh_spec sample_hash "/run" "/run/vm-hosts" list_two (ret (Ok "42 17")) sample_writer two_vms (List.rev two_vms)).
  - intros c. discriminate.
  - intros w. by split_and!.
  - intros w. by split_and!.
  - intros n. vm_compute. discriminate.
  - by left.
  - done.
  - apply perm_swap.
  - vm_compute. apply NoDup_cons. split; [| apply NoDup_singleton]. intros H%list_elem_of_singleton. discriminate.
  - intros c Hc E. unfold sample_hash in E. by simplify_eq.
Defined.
