(* ===== verification/Broadcast.v ===== *)
(** * Snapshots to subscribers: service/vm/fleetbroadcaster and service/vm/activitybroadcaster

    Both packages are the same program over different rows: one goroutine queries the
    repository at every tick, keeps the result and offers it to the channel, of capacity
    one, of every subscriber. The model is a section over the type of the rows. As the
    methods take [mu] and [latestMu] separately, each critical section, each send outside
    of them and each receive is a step of its own. *)

From S2P Require Import Prelude Exception Naming GoLib Domain World PgRepo.

(** [New]: the defaults of the interval (nanoseconds) and of the activity lookback. *)
Definition New_interval (interval : Z) : Z := if interval <=? 0 then 2 * second else interval.
Definition New_lookback (lookback : Z) : Z := if (lookback <=? 0) || (500 <? lookback) then 100 else lookback.

Section broadcaster.
Context {A : Type}.

(** A Go slice; nil is [None]. *)
Definition snapshot : Type := option (list A).

(** A channel of capacity 1. *)
Record Chan1 := { c1_value : option snapshot; c1_closed : bool }.
Definition open_chan : Chan1 := {| c1_value := None; c1_closed := false |}.

(** Where [Start]'s goroutine is: waiting, between [storeLatest] and [broadcast], returned. *)
Inductive LoopState := Waiting | Sending (vms : snapshot) | Stopped.

(** Channels are named by the subscriber's number, which is never reused. *)
Record Broadcaster := {
  bc_subscribers : gset Z;
  bc_nextID : Z;
  bc_latest : snapshot;
  bc_chans : gmap Z Chan1;
  bc_loop : LoopState;
  bc_joining : list (Z * option snapshot);    (* calls of Subscribe; what they have read of [latest] *)
  bc_joined : gset Z;                          (* whose Subscribe has returned *)
  bc_panicked : bool }.
Definition new_broadcaster : Broadcaster :=
  {| bc_subscribers := ∅; bc_nextID := 0; bc_latest := None; bc_chans := ∅; bc_loop := Waiting;
     bc_joining := []; bc_joined := ∅; bc_panicked := false |}.

(** ** The critical sections *)

(** [select { case ch <- vms: default: }] *)
Definition offer (id : Z) (vms : snapshot) (b : Broadcaster) : Broadcaster :=
  match bc_chans b !! id with
  | None => b
  | Some ch =>
      if c1_closed ch then b <| bc_panicked := true |>
      else match c1_value ch with
           | None => b <| bc_chans := <[id := ch <| c1_value := Some vms |>]> (bc_chans b) |>
           | Some _ => b
           end
  end.

(** [Subscribe] up to the unlock of [mu]; then the read of [latest]; then the first send. *)
Definition subscribe_register (b : Broadcaster) : Z * Broadcaster :=
  let id := bc_nextID b + 1 in
  (id, b <| bc_nextID := id |>
         <| bc_chans := <[id := open_chan]> (bc_chans b) |>
         <| bc_subscribers := {[id]} ∪ bc_subscribers b |>
         <| bc_joining := bc_joining b ++ [(id, None)] |>).
Definition subscribe_read (n : nat) (b : Broadcaster) : Broadcaster :=
  match bc_joining b !! n with
  | Some (id, None) => b <| bc_joining := <[n := (id, Some (bc_latest b))]> (bc_joining b) |>
  | _ => b
  end.
Definition subscribe_send (n : nat) (b : Broadcaster) : Broadcaster :=
  match bc_joining b !! n with
  | Some (id, Some latest) =>
      let b := b <| bc_joining := delete n (bc_joining b) |> <| bc_joined := {[id]} ∪ bc_joined b |> in
      match latest with
      | Some _ => offer id latest b
      | None => b
      end
  | _ => b
  end.

Definition close_chan (id : Z) (b : Broadcaster) : Broadcaster :=
  b <| bc_subscribers := bc_subscribers b ∖ {[id]} |>
    <| bc_chans := alter (fun ch => ch <| c1_closed := true |>) id (bc_chans b) |>.
(** The function that [Subscribe] returned. *)
Definition unsub (id : Z) (b : Broadcaster) : Broadcaster :=
  if bool_decide (id ∈ bc_joined b) && bool_decide (id ∈ bc_subscribers b) then close_chan id b else b.

Definition storeLatest (vms : snapshot) (b : Broadcaster) : Broadcaster := b <| bc_latest := vms |>.
Definition broadcast (vms : snapshot) (b : Broadcaster) : Broadcaster :=
  foldr (fun id b => offer id vms b) b (elements (bc_subscribers b)).
Definition closeAll (b : Broadcaster) : Broadcaster := foldr close_chan b (elements (bc_subscribers b)).

(** [Start]: a tick with the answer of the repository; the broadcast of the tick; the end
    of the context. *)
Definition tick_query (r : res snapshot) (b : Broadcaster) : Broadcaster :=
  match bc_loop b, r with
  | Waiting, Ok vms => (storeLatest vms b) <| bc_loop := Sending vms |>
  | _, _ => b
  end.
Definition tick_send (b : Broadcaster) : Broadcaster :=
  match bc_loop b with Sending vms => (broadcast vms b) <| bc_loop := Waiting |> | _ => b end.
Definition stop (b : Broadcaster) : Broadcaster :=
  match bc_loop b with Waiting => (closeAll b) <| bc_loop := Stopped |> | _ => b end.

(** The subscriber takes the value of its channel. *)
Definition take_snapshot (id : Z) (b : Broadcaster) : option snapshot * Broadcaster :=
  match bc_chans b !! id with
  | Some ch => (c1_value ch, b <| bc_chans := <[id := ch <| c1_value := None |>]> (bc_chans b) |>)
  | None => (None, b)
  end.

(** ** Interleavings *)

(** What a step shows: an answer of the repository, or a snapshot that a subscriber took. *)
Inductive BcEvent := Stored (vms : snapshot) | Received (id : Z) (vms : snapshot).

Inductive bc_step : Broadcaster -> list BcEvent -> Broadcaster -> Prop :=
| bc_register b : bc_step b [] (subscribe_register b).2
| bc_read n b : bc_step b [] (subscribe_read n b)
| bc_send n b : bc_step b [] (subscribe_send n b)
| bc_unsub id b : bc_step b [] (unsub id b)
| bc_query vms b : bc_loop b = Waiting -> bc_step b [Stored vms] (tick_query (Ok vms) b)
| bc_query_fails e b : bc_step b [] (tick_query (Err e) b)
| bc_tick b : bc_step b [] (tick_send b)
| bc_stop b : bc_step b [] (stop b)
| bc_take id b : id ∈ bc_joined b ->
    bc_step b (match (take_snapshot id b).1 with Some vms => [Received id vms] | None => [] end) (take_snapshot id b).2.

Inductive bc_trace : list BcEvent -> Broadcaster -> Prop :=
| bc_init : bc_trace [] new_broadcaster
| bc_next tr l b b' : bc_trace tr b -> bc_step b l b' -> bc_trace (tr ++ l) b'.

Definition stored (tr : list BcEvent) : list snapshot :=
  omap (fun e => match e with Stored v => Some v | Received _ _ => None end) tr.
Definition received (id : Z) (tr : list BcEvent) : list snapshot :=
  omap (fun e => match e with Received i v => if bool_decide (i = id) then Some v else None | Stored _ => None end) tr.

(** ** The invariant *)

Definition waiting_value (b : Broadcaster) (id : Z) : list snapshot :=
  match bc_chans b !! id with Some ch => option_list (c1_value ch) | None => [] end.

Record bc_ok (h : list snapshot) (b : Broadcaster) : Prop := {
  bo_open : forall id, id ∈ bc_subscribers b -> exists ch, bc_chans b !! id = Some ch /\ c1_closed ch = false;
  bo_fresh : forall id, is_Some (bc_chans b !! id) -> id <= bc_nextID b;
  bo_joined : forall id, id ∈ bc_joined b -> id <= bc_nextID b;
  bo_joining : forall id r, (id, r) ∈ bc_joining b -> id <= bc_nextID b /\ id ∉ bc_joined b;
  bo_once : NoDup (bc_joining b).*1;
  bo_running : bc_loop b <> Stopped -> bc_panicked b = false /\ forall id r, (id, r) ∈ bc_joining b -> id ∈ bc_subscribers b;
  bo_latest : last h = Some (bc_latest b) \/ h = [] /\ bc_latest b = None;
  bo_sending : forall v, bc_loop b = Sending v -> last h = Some v;
  bo_read : forall id l, (id, Some (Some l)) ∈ bc_joining b -> Some l ∈ h
}.

(** ** Sends and closes *)

Lemma offer_cases id v b :
  offer id v b = b \/
  (exists ch, bc_chans b !! id = Some ch /\ c1_closed ch = true /\ offer id v b = b <| bc_panicked := true |>) \/
  (exists ch, bc_chans b !! id = Some ch /\ c1_closed ch = false /\ c1_value ch = None /\
     offer id v b = b <| bc_chans := <[id := ch <| c1_value := Some v |>]> (bc_chans b) |>).
Proof.
  unfold offer. destruct (bc_chans b !! id) as [ch|]; [| by left].
  destruct (c1_closed ch) eqn:Hc; [right; left; eauto |]. destruct (c1_value ch) eqn:Hv; [by left | right; right; eauto].
Qed.

(** What an offer leaves alone, and what it does to the channels. *)
Lemma offer_frame id v b :
  exists chans p, offer id v b = b <| bc_chans := chans |> <| bc_panicked := p |> /\
    ((forall ch, bc_chans b !! id = Some ch -> c1_closed ch = false) -> p = bc_panicked b) /\
    (forall i ch', chans !! i = Some ch' -> exists ch, bc_chans b !! i = Some ch /\ c1_closed ch' = c1_closed ch /\
       (c1_value ch' = c1_value ch \/ i = id /\ c1_value ch = None /\ c1_value ch' = Some v)) /\
    (forall i ch, bc_chans b !! i = Some ch -> exists ch', chans !! i = Some ch' /\ c1_closed ch' = c1_closed ch).
Proof.
  destruct (offer_cases id v b) as [->|[(ch & Hch & Hc & ->)|(ch & Hch & Hc & Hv & ->)]].
  - exists (bc_chans b), (bc_panicked b). split_and!; [destruct b; reflexivity | done | eauto | eauto].
  - exists (bc_chans b), true. split_and!; [destruct b; reflexivity | intros H; by rewrite (H _ Hch) in Hc | eauto | eauto].
  - exists (<[id := ch <| c1_value := Some v |>]> (bc_chans b)), (bc_panicked b). split_and!; [destruct b; reflexivity | done | |].
    + intros i ch' Hi. destruct (decide (i = id)) as [->|Hne].
      * rewrite lookup_insert_eq in Hi. injection Hi as <-. exists ch. cbn. split_and!; [done | done | by right].
      * rewrite lookup_insert_ne in Hi by done. eauto.
    + intros i ch' Hi. destruct (decide (i = id)) as [->|Hne].
      * rewrite lookup_insert_eq. assert (ch' = ch) as -> by congruence. eauto.
      * rewrite lookup_insert_ne by done. eauto.
Qed.

(** The same of a broadcast, a fold of offers. *)
Lemma broadcast_frame v b :
  exists chans p, broadcast v b = b <| bc_chans := chans |> <| bc_panicked := p |> /\
    ((forall id, id ∈ bc_subscribers b -> exists ch, bc_chans b !! id = Some ch /\ c1_closed ch = false) -> p = bc_panicked b) /\
    (forall i ch', chans !! i = Some ch' -> exists ch, bc_chans b !! i = Some ch /\ c1_closed ch' = c1_closed ch /\
       (c1_value ch' = c1_value ch \/ i ∈ bc_subscribers b /\ c1_value ch = None /\ c1_value ch' = Some v)) /\
    (forall i ch, bc_chans b !! i = Some ch -> exists ch', chans !! i = Some ch' /\ c1_closed ch' = c1_closed ch).
Proof.
  unfold broadcast.
  assert (Hl : forall i, i ∈ elements (bc_subscribers b) -> i ∈ bc_subscribers b) by (intros i; apply elem_of_elements).
  revert Hl. generalize (elements (bc_subscribers b)) as l. intros l Hl. induction l as [|id l IH].
  { exists (bc_chans b), (bc_panicked b). split_and!; [destruct b; reflexivity | done | eauto | eauto]. }
  destruct IH as (c1 & p1 & E1 & P1 & V1 & S1); [intros i Hi; apply Hl; by right |]. cbn [foldr]. rewrite E1.
  destruct (offer_frame id v (b <| bc_chans := c1 |> <| bc_panicked := p1 |>)) as (c2 & p2 & E2 & P2 & V2 & S2).
  exists c2, p2. cbn in *. rewrite E2. split_and!; [destruct b; reflexivity | | |].
  - intros H. rewrite <- (P1 H). apply P2. intros ch Hch. destruct (V1 _ _ Hch) as (ch0 & H0 & Hc & _).
    destruct (H id) as (ch1 & H1 & H2); [apply Hl; left |]. congruence.
  - intros i ch' Hi. destruct (V2 _ _ Hi) as (ch1 & H1 & Hc1 & Hv1). destruct (V1 _ _ H1) as (ch0 & H0 & Hc0 & Hv0).
    exists ch0. split_and!; [done | congruence |]. assert (Hid : id ∈ bc_subscribers b) by (apply Hl; left).
    destruct Hv1 as [->|(-> & ? & ?)], Hv0 as [Hv0|(? & ? & ?)]; [by left | by right | right | congruence].
    split_and!; [done | congruence | done].
  - intros i ch Hi. destruct (S1 _ _ Hi) as (ch1 & H1 & Hc1). destruct (S2 _ _ H1) as (ch2 & H2 & Hc2). exists ch2. split; congruence.
Qed.

Lemma closeAll_frame b :
  exists chans, closeAll b = b <| bc_subscribers := ∅ |> <| bc_chans := chans |> /\
    (forall i, c1_value <$> chans !! i = c1_value <$> bc_chans b !! i).
Proof.
  unfold closeAll.
  assert (Hg : forall l : list Z, exists chans,
            foldr close_chan b l = b <| bc_subscribers := bc_subscribers b ∖ list_to_set l |> <| bc_chans := chans |> /\
            (forall i, c1_value <$> chans !! i = c1_value <$> bc_chans b !! i)).
  { induction l as [|id l (chans & E & V)].
    - exists (bc_chans b). split; [| done]. cbn. rewrite difference_empty_L. by destruct b.
    - cbn [foldr]. rewrite E. exists (alter (fun ch => ch <| c1_closed := true |>) id chans). split.
      + assert (E' : bc_subscribers b ∖ list_to_set (id :: l) = bc_subscribers b ∖ list_to_set l ∖ {[id]}).
        { rewrite list_to_set_cons. rewrite difference_difference_l_L. f_equal. apply (comm_L _). }
        rewrite E'. by destruct b.
      + intros i. rewrite <- V. destruct (decide (i = id)) as [->|Hne].
        * rewrite lookup_alter_eq. by destruct (chans !! id).
        * by rewrite lookup_alter_ne. }
  destruct (Hg (elements (bc_subscribers b))) as (chans & E & V). exists chans. split; [| done]. rewrite E.
  by rewrite list_to_set_elements_L, difference_diag_L.
Qed.

(** ** Every step keeps the invariant *)

Lemma bc_ok_new : bc_ok [] new_broadcaster.
Proof.
  split; cbn; try by (intros *; rewrite ?elem_of_nil, ?elem_of_empty).
  - intros id [? H]. by rewrite lookup_empty in H.
  - constructor.
  - split; [done |]. by intros *; rewrite elem_of_nil.
  - by right.
Qed.

Lemma chans_ok h b chans p : bc_ok h b ->
  (bc_loop b <> Stopped -> p = bc_panicked b) ->
  (forall i ch', chans !! i = Some ch' -> is_Some (bc_chans b !! i)) ->
  (forall i ch, bc_chans b !! i = Some ch -> exists ch', chans !! i = Some ch' /\ c1_closed ch' = c1_closed ch) ->
  bc_ok h (b <| bc_chans := chans |> <| bc_panicked := p |>).
Proof.
  intros [Ho Hf Hj Hi H1 Hr Hl Hs Hd] Hp Hdom Hch. split; cbn; try done.
  - intros id Hid. destruct (Ho _ Hid) as (ch & Hc & Hop). destruct (Hch _ _ Hc) as (ch' & Hc' & E). exists ch'. split; congruence.
  - intros id [ch Hc]. eauto.
  - intros Hrun. rewrite (Hp Hrun). auto.
Qed.

Lemma offer_ok h id v b : bc_ok h b -> (bc_loop b <> Stopped -> id ∈ bc_subscribers b) -> bc_ok h (offer id v b).
Proof.
  intros H Hid. destruct (offer_frame id v b) as (chans & p & -> & Hp & Hv & Hs). apply chans_ok; [done | | | done].
  - intros Hr. apply Hp. intros ch Hch. destruct (bo_open _ _ H _ (Hid Hr)) as (ch' & ? & ?). congruence.
  - intros i ch' Hi. destruct (Hv _ _ Hi) as (ch & Hch & _). eauto.
Qed.
Lemma broadcast_ok h v b : bc_ok h b -> bc_ok h (broadcast v b).
Proof.
  intros H. destruct (broadcast_frame v b) as (chans & p & -> & Hp & Hv & Hs). apply chans_ok; [done | | | done].
  - intros _. apply Hp, (bo_open _ _ H).
  - intros i ch' Hi. destruct (Hv _ _ Hi) as (ch & Hch & _). eauto.
Qed.

Lemma register_bc_ok h b : bc_ok h b -> bc_ok h (subscribe_register b).2.
Proof.
  intros [Ho Hf Hj Hi H1 Hr Hl Hs Hd].
  assert (Hn : bc_nextID b + 1 ∉ (bc_joining b).*1).
  { intros ([id r] & E & Hin)%list_elem_of_fmap. destruct (Hi _ _ Hin). cbn in E. lia. }
  assert (Hnone : bc_chans b !! (bc_nextID b + 1) = None) by (apply eq_None_not_Some; intros Hc%Hf; lia).
  split; cbn.
  - intros id [->%elem_of_singleton|Hid]%elem_of_union; [exists open_chan; by rewrite lookup_insert_eq |].
    destruct (Ho _ Hid) as (ch & Hch & Hop). exists ch. rewrite lookup_insert_ne; [done | intros <-; congruence].
  - intros id Hid. destruct (decide (id = bc_nextID b + 1)) as [->|Hne]; [lia |].
    rewrite lookup_insert_ne in Hid by done. apply Hf in Hid. lia.
  - intros id Hid%Hj. lia.
  - intros id r [Hin|[= -> ->]%list_elem_of_singleton]%elem_of_app; [destruct (Hi _ _ Hin); split; [lia | done] |].
    split; [lia |]. intros Hin%Hj. lia.
  - rewrite fmap_app. apply NoDup_app. split_and!; [done | | apply NoDup_singleton].
    intros x Hx Hx'. by apply list_elem_of_singleton in Hx' as ->.
  - intros Hrun. destruct (Hr Hrun) as [Hp Hsub]. split; [done |].
    intros id r [Hin|[= -> ->]%list_elem_of_singleton]%elem_of_app; [apply elem_of_union_r; eauto | by apply elem_of_union_l, elem_of_singleton].
  - done.
  - done.
  - intros id l [Hin|[=]%list_elem_of_singleton]%elem_of_app. eauto.
Qed.

(** Replacing or removing one call of Subscribe. *)
Lemma joining_insert_elem (b : Broadcaster) n id r r' x :
  bc_joining b !! n = Some (id, r) -> x ∈ <[n := (id, r')]> (bc_joining b) -> x = (id, r') \/ x ∈ bc_joining b.
Proof.
  intros Hn Hx. apply list_elem_of_lookup in Hx as (i & Hi). destruct (decide (i = n)) as [->|Hne].
  - rewrite list_lookup_insert_eq in Hi by (by eapply lookup_lt_Some). left. congruence.
  - rewrite list_lookup_insert_ne in Hi by done. right. by eapply list_elem_of_lookup_2.
Qed.

Lemma read_bc_ok h n b : bc_ok h b -> bc_ok h (subscribe_read n b).
Proof.
  intros H. unfold subscribe_read. destruct (bc_joining b !! n) as [[id [|]]|] eqn:Hn; [done | | done].
  destruct H as [Ho Hf Hj Hi H1 Hr Hl Hs Hd].
  assert (Hid : (id, None) ∈ bc_joining b) by (by eapply list_elem_of_lookup_2).
  split; cbn; try done.
  - intros i r [[= -> ->]|Hin]%(joining_insert_elem _ _ _ _ _ _ Hn); eauto.
  - rewrite list_fmap_insert, list_insert_id; [done |]. by rewrite list_lookup_fmap, Hn.
  - intros Hrun. destruct (Hr Hrun) as [Hp Hsub]. split; [done |].
    intros i r [[= -> ->]|Hin]%(joining_insert_elem _ _ _ _ _ _ Hn); eauto.
  - intros i l [[= -> Hlat]|Hin]%(joining_insert_elem _ _ _ _ _ _ Hn); [| eauto].
    destruct Hl as [Hl|[_ Hl]]; [| congruence]. rewrite Hlat. rewrite last_lookup in Hl. by eapply list_elem_of_lookup_2.
Qed.

Lemma joining_delete_ok h n id r b : bc_ok h b -> bc_joining b !! n = Some (id, r) ->
  bc_ok h (b <| bc_joining := delete n (bc_joining b) |> <| bc_joined := {[id]} ∪ bc_joined b |>).
Proof.
  intros [Ho Hf Hj Hi H1 Hr Hl Hs Hd] Hn.
  assert (Hid : (id, r) ∈ bc_joining b) by (by eapply list_elem_of_lookup_2).
  assert (Hsub : forall x, x ∈ delete n (bc_joining b) -> x ∈ bc_joining b).
  { intros x Hx. eapply elem_of_submseteq; [exact Hx |]. apply sublist_submseteq, sublist_delete. }
  assert (Hsplit : (bc_joining b).*1 ≡ₚ id :: (delete n (bc_joining b)).*1).
  { rewrite (delete_Permutation _ _ _ Hn) at 1. done. }
  rewrite Hsplit in H1. apply NoDup_cons in H1 as [Hnid H1].
  split; cbn; try done.
  - intros i [->%elem_of_singleton|Hin%Hj]%elem_of_union; [apply (Hi _ _ Hid) | done].
  - intros i r' Hin. destruct (Hi i r' (Hsub _ Hin)) as [Hle Hni]. split; [done |].
    intros [->%elem_of_singleton|]%elem_of_union; [| done]. apply Hnid. apply list_elem_of_fmap. by exists (id, r').
  - intros Hrun. destruct (Hr Hrun). split; [done |]. eauto.
  - eauto.
Qed.

Lemma send_bc_ok h n b : bc_ok h b -> bc_ok h (subscribe_send n b).
Proof.
  intros H. unfold subscribe_send. destruct (bc_joining b !! n) as [[id [[l|]|]]|] eqn:Hn; [| | done..].
  - apply offer_ok; [by eapply joining_delete_ok |]. cbn. intros Hrun. destruct (bo_running _ _ H Hrun) as [_ Hs].
    eapply Hs, list_elem_of_lookup_2, Hn.
  - by eapply joining_delete_ok.
Qed.

Lemma unsub_bc_ok h id b : bc_ok h b -> bc_ok h (unsub id b).
Proof.
  intros H. unfold unsub. case_bool_decide as Hj'; [| done]. case_bool_decide as Hs'; [| done]. cbn.
  destruct H as [Ho Hf Hj Hi H1 Hr Hl Hs Hd]. unfold close_chan. split; cbn; try done.
  - intros i [Hin Hne]%elem_of_difference. rewrite lookup_alter_ne; [by apply Ho | set_solver].
  - intros i. destruct (decide (i = id)) as [->|Hne]; [rewrite lookup_alter_eq, fmap_is_Some | rewrite lookup_alter_ne by done]; apply Hf.
  - intros Hrun. destruct (Hr Hrun) as [Hp Hsub]. split; [done |]. intros i r Hin. destruct (Hi _ _ Hin) as [_ Hni].
    apply elem_of_difference. split; [eauto |]. by intros ->%elem_of_singleton.
Qed.

Lemma query_bc_ok h v b : bc_loop b = Waiting -> bc_ok h b -> bc_ok (h ++ [v]) (tick_query (Ok v) b).
Proof.
  intros Hw [Ho Hf Hj Hi H1 Hr Hl Hs Hd]. unfold tick_query. rewrite Hw. split; cbn; try done.
  - intros _. apply Hr. congruence.
  - left. by rewrite last_snoc.
  - intros w [= <-]. by rewrite last_snoc.
  - intros id l Hin. apply elem_of_app. left. eauto.
Qed.

Lemma tick_bc_ok h b : bc_ok h b -> bc_ok h (tick_send b).
Proof.
  intros H. unfold tick_send. destruct (bc_loop b) as [|v|] eqn:Hl; [done | | done].
  pose proof (broadcast_ok _ v _ H) as Hb. destruct (broadcast_frame v b) as (chans & p & E & _). rewrite E in Hb |- *.
  clear E. destruct b, Hb as [Ho Hf Hj Hi H1 Hr Hlat Hs Hd]. cbn in *. split; cbn; try done.
  intros _. apply Hr. by rewrite Hl.
Qed.

Lemma stop_bc_ok h b : bc_ok h b -> bc_ok h (stop b).
Proof.
  intros H. unfold stop. destruct (bc_loop b) as [| |] eqn:Hl; [| done..].
  destruct (closeAll_frame b) as (chans & -> & Hv). destruct H as [Ho Hf Hj Hi H1 Hr Hlat Hs Hd]. split; cbn; try done.
  intros id Hid. apply Hf. by rewrite <- (fmap_is_Some c1_value), <- Hv, fmap_is_Some.
Qed.

Lemma take_bc_ok h id b : bc_ok h b -> bc_ok h (take_snapshot id b).2.
Proof.
  intros H. unfold take_snapshot. destruct (bc_chans b !! id) as [ch|] eqn:Hch; [| done].
  set (chans := <[id := _]> (bc_chans b)).
  assert (G : bc_ok h (b <| bc_chans := chans |> <| bc_panicked := bc_panicked b |>)); [| by destruct b].
  apply chans_ok; [done | done | |]; unfold chans; intros i ch' Hi.
  - destruct (decide (i = id)) as [->|Hne]; [eauto |]. rewrite lookup_insert_ne in Hi by done. eauto.
  - destruct (decide (i = id)) as [->|Hne].
    + rewrite lookup_insert_eq. eexists. split; [done |]. assert (ch' = ch) as -> by congruence. done.
    + rewrite lookup_insert_ne by done. eauto.
Qed.

Lemma broadcast_fills v b id : id ∈ bc_subscribers b -> (exists ch, bc_chans b !! id = Some ch /\ c1_closed ch = false) ->
  c1_value <$> bc_chans b !! id = Some None -> c1_value <$> bc_chans (broadcast v b) !! id = Some (Some v).
Proof.
  rewrite <- elem_of_elements. unfold broadcast. intros Hid (ch & Hch & Hop) Hv.
  set (P b' := exists ch', bc_chans b' !! id = Some ch' /\ c1_closed ch' = false /\ (c1_value ch' = None \/ c1_value ch' = Some v)).
  assert (Hoff : forall i b', P b' -> P (offer i v b') /\ (c1_value <$> bc_chans b' !! id = Some (Some v) \/ i = id ->
                  c1_value <$> bc_chans (offer i v b') !! id = Some (Some v))).
  { intros i b' (ch' & H1 & H2 & H3). unfold P. destruct (decide (i = id)) as [->|Hne].
    - unfold offer. rewrite H1, H2. destruct H3 as [H3|H3]; rewrite H3; cbn; [rewrite lookup_insert_eq | rewrite H1]; cbn.
      + split; [eexists; split_and!; [done | done | by right] | done].
      + split; [eauto | intros _; by rewrite H3].
    - assert (E : bc_chans (offer i v b') !! id = bc_chans b' !! id).
      { destruct (offer_cases i v b') as [->|[(? & _ & _ & ->)|(? & _ & _ & _ & ->)]]; [done | done |]. cbn. by rewrite lookup_insert_ne. }
      rewrite E. split; [eauto |]. by intros [?|?]. }
  assert (H0 : P b) by (exists ch; rewrite Hch in Hv; injection Hv as ->; eauto).
  revert Hid. generalize (elements (bc_subscribers b)) as l. intros l.
  assert (HP : P (foldr (fun id0 b0 => offer id0 v b0) b l) /\
               (id ∈ l -> c1_value <$> bc_chans (foldr (fun id0 b0 => offer id0 v b0) b l) !! id = Some (Some v))); [| tauto].
  induction l as [|i l [IP IV]]; [split; [done | by intros ?%not_elem_of_nil] |]. cbn [foldr].
  destruct (Hoff i _ IP) as [HP Hstep]. split; [done |]. intros [->|Hin]%elem_of_cons; apply Hstep; [by right | left; auto].
Qed.

(** ** Every subscriber sees the snapshots in order *)

Context (R : snapshot -> snapshot -> Prop) `{!Reflexive R}.

Definition bc_order (tr : list BcEvent) (b : Broadcaster) : Prop := forall id,
  StronglySorted R (received id tr ++ waiting_value b id) /\
  Forall (.∈ stored tr) (received id tr ++ waiting_value b id) /\
  (id ∉ bc_joined b -> received id tr = []).

Lemma StronglySorted_snoc l v : StronglySorted R l -> (forall x, x ∈ l -> R x v) -> StronglySorted R (l ++ [v]).
Proof.
  induction l as [|y l IH]; cbn; intros Hs Hv; [by repeat constructor |].
  apply StronglySorted_inv in Hs as [Hs Hy]. constructor; [apply IH; [done |]; intros x Hx; apply Hv; by right |].
  apply Forall_app. split; [done |]. constructor; [apply Hv; by left | constructor].
Qed.
Lemma sorted_last h v x : StronglySorted R h -> last h = Some v -> x ∈ h -> R x v.
Proof.
  intros Hs (l & ->)%last_Some Hx. apply elem_of_app in Hx as [Hx| ->%list_elem_of_singleton]; [| done].
  induction l as [|y l IH]; [by apply not_elem_of_nil in Hx |].
  apply StronglySorted_inv in Hs as [Hs Hy]. apply elem_of_cons in Hx as [->|Hx]; [| auto].
  rewrite Forall_forall in Hy. apply Hy, elem_of_app. right. by left.
Qed.

(** A silent step that puts into empty channels only the newest answer, or the first
    snapshot of a subscriber. *)
Lemma order_silent tr b b' : bc_order tr b -> StronglySorted R (stored tr) ->
  bc_joined b ⊆ bc_joined b' ->
  (forall i, waiting_value b' i = waiting_value b i \/
     exists v, waiting_value b i = [] /\ waiting_value b' i = [v] /\ v ∈ stored tr /\ (last (stored tr) = Some v \/ i ∉ bc_joined b)) ->
  bc_order tr b'.
Proof.
  intros H Hh Hj Hw id. destruct (H id) as (Hs & Hf & Hn). split_and!; [..| intros Hni; apply Hn; by intros ?%Hj];
    (destruct (Hw id) as [->|(v & E & -> & Hv & Hc)]; [done |]; rewrite E, app_nil_r in Hs, Hf).
  - apply StronglySorted_snoc; [done |]. intros x Hx. destruct Hc as [Hlast|Hni].
    + eapply sorted_last; [exact Hh | exact Hlast |]. rewrite Forall_forall in Hf. by apply Hf.
    + rewrite (Hn Hni) in Hx. by apply not_elem_of_nil in Hx.
  - apply Forall_app. split; [done |]. by repeat constructor.
Qed.

Lemma waiting_chans b b' : bc_chans b' = bc_chans b -> forall i, waiting_value b' i = waiting_value b i.
Proof. intros E i. unfold waiting_value. by rewrite E. Qed.

Lemma waiting_offer id v b i :
  waiting_value (offer id v b) i = waiting_value b i \/ i = id /\ waiting_value b i = [] /\ waiting_value (offer id v b) i = [v].
Proof.
  destruct (offer_cases id v b) as [->|[(ch & _ & _ & ->)|(ch & Hch & _ & Hv & ->)]]; [by left.. |].
  unfold waiting_value. cbn. destruct (decide (i = id)) as [->|Hne]; [| rewrite lookup_insert_ne by done; by left].
  rewrite lookup_insert_eq, Hch, Hv. by right.
Qed.

Lemma waiting_broadcast v b i :
  waiting_value (broadcast v b) i = waiting_value b i \/ waiting_value b i = [] /\ waiting_value (broadcast v b) i = [v].
Proof.
  destruct (broadcast_frame v b) as (chans & p & -> & _ & Hv & Hs). unfold waiting_value. cbn.
  destruct (bc_chans b !! i) as [ch|] eqn:Hch.
  - destruct (Hs _ _ Hch) as (ch' & Hc' & _). rewrite Hc'. destruct (Hv _ _ Hc') as (ch0 & H0 & _ & Hval).
    assert (ch0 = ch) as -> by congruence. destruct Hval as [->|(_ & -> & ->)]; [by left | by right].
  - destruct (chans !! i) as [ch'|] eqn:Hc'; [| by left]. destruct (Hv _ _ Hc') as (ch0 & H0 & _). congruence.
Qed.

Lemma waiting_same b b' i : c1_value <$> bc_chans b' !! i = c1_value <$> bc_chans b !! i -> waiting_value b' i = waiting_value b i.
Proof.
  unfold waiting_value. intros E. destruct (bc_chans b' !! i), (bc_chans b !! i); cbn in E; [| done..]. by injection E as ->.
Qed.

Lemma received_app id tr tr' : received id (tr ++ tr') = received id tr ++ received id tr'.
Proof. apply omap_app. Qed.
Lemma stored_app tr tr' : stored (tr ++ tr') = stored tr ++ stored tr'.
Proof. apply omap_app. Qed.

(** The silent steps: no answer, no snapshot taken. *)
Lemma order_step tr b b' : bc_step b [] b' -> bc_ok (stored tr) b -> StronglySorted R (stored tr) ->
  bc_order tr b -> bc_order tr b'.
Proof.
  intros Hst Hok Hh Ho. inversion Hst; subst; clear Hst.
  - eapply order_silent; [exact Ho | done | done |]. intros i. left. unfold waiting_value. cbn.
    destruct (decide (i = bc_nextID b + 1)) as [->|Hne]; [| by rewrite lookup_insert_ne].
    rewrite lookup_insert_eq. destruct (bc_chans b !! _) eqn:Hc; [| done].
    pose proof (bo_fresh _ _ Hok _ (mk_is_Some _ _ Hc)). lia.
  - eapply order_silent; [exact Ho | done | ..]; unfold subscribe_read; repeat case_match; try done; by left.
  - unfold subscribe_send. destruct (bc_joining b !! n) as [[id [[l|]|]]|] eqn:Hn; [| | done..].
    + assert (Hin : (id, Some (Some l)) ∈ bc_joining b) by (by eapply list_elem_of_lookup_2).
      destruct (bo_joining _ _ Hok _ _ Hin) as [_ Hni].
      eapply order_silent; [exact Ho | done | |].
      * destruct (offer_frame id (Some l) (b <| bc_joining := delete n (bc_joining b) |> <| bc_joined := {[id]} ∪ bc_joined b |>))
          as (? & ? & -> & _). cbn. apply union_subseteq_r.
      * intros i. destruct (waiting_offer id (Some l) (b <| bc_joining := delete n (bc_joining b) |> <| bc_joined := {[id]} ∪ bc_joined b |>) i)
          as [->|(-> & H1 & ->)]; [by left | right]. exists (Some l). split_and!; [done | done | | by right]. by eapply bo_read.
    + eapply order_silent; [exact Ho | done | apply union_subseteq_r | by left].
  - eapply order_silent; [exact Ho | done | |]; unfold unsub; case_match; [done | done | | by left].
    intros i. left. apply waiting_same. cbn. destruct (decide (i = id)) as [->|Hne]; [| by rewrite lookup_alter_ne].
    rewrite lookup_alter_eq. by destruct (bc_chans b !! id).
  - unfold tick_query. by destruct (bc_loop b).
  - unfold tick_send. destruct (bc_loop b) as [|v|] eqn:Hl; [done | | done].
    pose proof (bo_sending _ _ Hok _ Hl) as Hlast.
    eapply order_silent; [exact Ho | done | |].
    + destruct (broadcast_frame v b) as (? & ? & -> & _). done.
    + intros i. destruct (waiting_broadcast v b i) as [E|[E1 E2]]; [by left | right]. exists v. split_and!; [done | done | | by left].
      rewrite last_lookup in Hlast. by eapply list_elem_of_lookup_2.
  - unfold stop. destruct (bc_loop b); [| done..]. destruct (closeAll_frame b) as (chans & -> & Hv).
    eapply order_silent; [exact Ho | done | done |]. intros i. left. apply waiting_same. apply Hv.
  - unfold take_snapshot in *. destruct (bc_chans b !! id) as [[[v|] cl]|] eqn:Hc; cbn in *; [done | | done].
    eapply order_silent; [exact Ho | done | done |]. intros i. left. apply waiting_same. cbn.
    destruct (decide (i = id)) as [->|Hne]; [by rewrite lookup_insert_eq, Hc | by rewrite lookup_insert_ne].
Qed.

Lemma order_query tr v b : bc_loop b = Waiting -> bc_order tr b -> bc_order (tr ++ [Stored v]) (tick_query (Ok v) b).
Proof.
  intros Hw Ho id. destruct (Ho id) as (Hs & Hf & Hn). unfold tick_query. rewrite Hw, received_app, stored_app. cbn.
  rewrite app_nil_r. split_and!; [exact Hs | | exact Hn].
  eapply Forall_impl; [exact Hf |]. intros x Hx. apply elem_of_app. by left.
Qed.

Lemma order_take tr id v b : id ∈ bc_joined b -> (take_snapshot id b).1 = Some v -> bc_order tr b ->
  bc_order (tr ++ [Received id v]) (take_snapshot id b).2.
Proof.
  unfold take_snapshot. destruct (bc_chans b !! id) as [ch|] eqn:Hc; [| done]. cbn. intros Hj Hv Ho i.
  destruct (Ho i) as (Hs & Hf & Hn). rewrite received_app, stored_app. cbn. rewrite app_nil_r. unfold waiting_value in *. cbn.
  case_bool_decide as Hi; [subst i; rewrite Hc, Hv in Hs, Hf; rewrite lookup_insert_eq; cbn in * |].
  - rewrite app_nil_r. split_and!; [exact Hs | exact Hf | done].
  - rewrite app_nil_r. rewrite lookup_insert_ne by done. split_and!; [exact Hs | exact Hf | exact Hn].
Qed.

Lemma trace_invariant tr b : bc_trace tr b -> StronglySorted R (stored tr) -> bc_ok (stored tr) b /\ bc_order tr b.
Proof.
  induction 1 as [|tr l b b' Htr IH Hst]; intros Hh.
  { split; [apply bc_ok_new |]. intros id. cbn. unfold waiting_value. cbn. rewrite lookup_empty. by repeat constructor. }
  rewrite stored_app in Hh. destruct IH as [Hok Ho].
  { clear -Hh. revert Hh. generalize (stored tr) as h. induction h as [|x h IH]; cbn; intros Hs; [constructor |].
    apply StronglySorted_inv in Hs as [Hs Hx]. constructor; [auto |]. by apply Forall_app in Hx as [? _]. }
  assert (Hq : l = [] -> bc_ok (stored (tr ++ l)) b' /\ bc_order (tr ++ l) b').
  { intros ->. rewrite app_nil_r. cbn in Hh. rewrite app_nil_r in Hh. split; [| by eapply order_step].
    clear Ho. inversion Hst; subst; eauto using register_bc_ok, read_bc_ok, send_bc_ok, unsub_bc_ok, tick_bc_ok, stop_bc_ok, take_bc_ok.
    unfold tick_query. by destruct (bc_loop b). }
  inversion Hst; subst; auto.
  - rewrite stored_app. split; [by apply query_bc_ok | by apply order_query].
  - destruct (take_snapshot id b).1 as [v|] eqn:Hv; [| auto]. rewrite stored_app. cbn. rewrite app_nil_r.
    split; [by apply take_bc_ok | by apply order_take].
Qed.

(** C30: However subscriptions, ticks, cancellations and reads are interleaved: what a
    subscriber is given are answers of the repository, in the order of the ticks (for any
    order [R] in which the answers come, such as their positions), none of them after a
    newer one; and until the broadcaster is stopped no send hits a closed channel, and
    every subscriber that has taken its last snapshot has the newest one waiting after
    the next tick. *)
Theorem subscribers_see_in_order tr b : bc_trace tr b -> StronglySorted R (stored tr) ->
  (forall id, StronglySorted R (received id tr) /\ Forall (.∈ stored tr) (received id tr)) /\
  (bc_loop b <> Stopped -> bc_panicked b = false /\
     forall id v, bc_loop b = Waiting -> id ∈ bc_subscribers b -> waiting_value b id = [] ->
       waiting_value (tick_send (tick_query (Ok v) b)) id = [v]).
Proof.
  intros Htr Hh. destruct (trace_invariant _ _ Htr Hh) as [Hok Ho]. split.
  - intros id. destruct (Ho id) as (Hs & Hf & _). apply Forall_app in Hf as [Hf _]. split; [| exact Hf].
    clear -Hs. revert Hs. generalize (received id tr) as l. induction l as [|x l IH]; cbn; intros Hs; [constructor |].
    apply StronglySorted_inv in Hs as [Hs Hx]. constructor; [auto |]. by apply Forall_app in Hx as [? _].
  - intros Hrun. split; [by apply (bo_running _ _ Hok) |]. intros id v Hw Hid Hempty.
    destruct (bo_open _ _ Hok _ Hid) as (ch & Hch & Hop).
    assert (Hv : c1_value <$> bc_chans b !! id = Some None).
    { unfold waiting_value in Hempty. rewrite Hch in Hempty |- *. cbn. by destruct (c1_value ch). }
    assert (G : c1_value <$> bc_chans (tick_send (tick_query (Ok v) b)) !! id = Some (Some v)).
    { unfold tick_query. rewrite Hw. apply (broadcast_fills v ((storeLatest v b) <| bc_loop := Sending v |>) id); eauto. }
    apply fmap_Some in G as (ch' & E & Hv'). unfold waiting_value. by rewrite E, <- Hv'.
Qed.

End broadcaster.
Arguments snapshot A : clear implicits.
Arguments Chan1 A : clear implicits.
Arguments Broadcaster A : clear implicits.

(** ** Two ticks, a subscriber that reads, and one that does not *)

Section sample.
Definition S1 : snapshot Z := Some [1].
Definition S2 : snapshot Z := Some [2].

(** Subscriber 1 joins, the repository answers [1] and then [2]; it reads after each tick. *)
Definition sample_joined : Broadcaster Z := subscribe_send 0 (subscribe_read 0 (subscribe_register new_broadcaster).2).
Definition sample_tick1 : Broadcaster Z := tick_send (tick_query (Ok S1) sample_joined).
Definition sample_read1 : Broadcaster Z := (take_snapshot 1 sample_tick1).2.
Definition sample_tick2 : Broadcaster Z := tick_send (tick_query (Ok S2) sample_read1).

Lemma sample_joined_trace : bc_trace [] sample_joined.
Proof.
  eapply (bc_next [] []); [| apply bc_send]. eapply (bc_next [] []); [| apply bc_read].
  eapply (bc_next [] []); [| apply bc_register]. apply bc_init.
Qed.
Definition sample_read2 : Broadcaster Z := (take_snapshot 1 sample_tick2).2.
Lemma sample_trace : bc_trace [Stored S1; Received 1 S1; Stored S2; Received 1 S2] sample_read2.
Proof.
  apply (bc_next [Stored S1; Received 1 S1; Stored S2] [Received 1 S2] sample_tick2);
    [| apply (bc_take 1 sample_tick2); vm_compute; reflexivity].
  apply (bc_next [Stored S1; Received 1 S1; Stored S2] [] (tick_query (Ok S2) sample_read1)); [| apply bc_tick].
  apply (bc_next [Stored S1; Received 1 S1] [Stored S2] sample_read1); [| by apply bc_query].
  apply (bc_next [Stored S1] [Received 1 S1] sample_tick1); [| apply (bc_take 1 sample_tick1); vm_compute; reflexivity].
  apply (bc_next [Stored S1] [] (tick_query (Ok S1) sample_joined)); [| apply bc_tick].
  apply (bc_next [] [Stored S1] sample_joined); [apply sample_joined_trace | by apply bc_query].
Qed.

(** The order of the answers: by their first row. *)
Definition by_first_row (x y : snapshot Z) : Prop := default 0 (x ≫= head) <= default 0 (y ≫= head).
#[local] Instance by_first_row_refl : Reflexive by_first_row.
Proof. intros x. unfold by_first_row. lia. Qed.
Lemma sample_sorted : StronglySorted by_first_row [S1; S2].
Proof. repeat constructor; unfold by_first_row; cbn; lia. Qed.

Lemma subscribers_see_in_order_witness :
  StronglySorted by_first_row [S1; S2] /\ bc_panicked sample_read2 = false /\
  waiting_value (tick_send (tick_query (Ok None) sample_read2)) 1 = [None].
Proof.
  destruct (subscribers_see_in_order by_first_row _ _ sample_trace sample_sorted) as [Hr Hrun].
  destruct (Hrun ltac:(done)) as [Hp Hw]. split_and!; [exact (proj1 (Hr 1)) | exact Hp | apply Hw; vm_compute; reflexivity].
Defined.

(** A subscriber that has not read keeps the old snapshot: the tick that finds its channel
    full drops the new one. *)
Example full_channel_keeps_stale : waiting_value (tick_send (tick_query (Ok S2) sample_tick1)) 1 = [S1].
Proof. vm_compute. reflexivity. Qed.

(** A subscription that overlaps the end of the broadcaster sends on the channel that
    [closeAll] closed. *)
Lemma subscribe_during_stop_panics : exists tr (b : Broadcaster Z), bc_trace tr b /\ bc_panicked b = true.
Proof.
  exists [Stored S1], (subscribe_send 0 (stop (subscribe_read 0 (subscribe_register (tick_send (tick_query (Ok S1) new_broadcaster))).2))).
  split; [| vm_compute; reflexivity].
  eapply (bc_next [Stored S1] []); [| apply bc_send]. eapply (bc_next [Stored S1] []); [| apply bc_stop].
  eapply (bc_next [Stored S1] []); [| apply bc_read]. eapply (bc_next [Stored S1] []); [| apply bc_register].
  eapply (bc_next [Stored S1] []); [| apply bc_tick]. eapply (bc_next [] [Stored S1]); [apply bc_init | by apply bc_query].
Qed.
End sample.
