(* ===== verification/Metrics.v ===== *)
(** * Metrics of the VMs: the samples of service/vm/service.go and their history

    The collector samples every running VM, keeps the last sample of each in a cache, and
    stores it in the table vm_metrics_history (repository/postgres/vm_metrics_history.go).
    The rest of the service does not touch the cache or the table, so they are kept beside
    its world. *)

From S2P Require Import Prelude Exception Naming GoLib Domain World PgRepo IPAlloc Interfaces Hoare VMExec VMSnapshot VMService VMResume.

(** float64, of which the model uses only the values that the backend reports, and the
    way they are printed: by encoding/json, and by fmt with %.0f. *)
Class Float64 := { float64 : Type; float_zero : float64; float_json : float64 -> string; float_0f : float64 -> string }.

(** time.Unix(sec, 0) and Unix(): instants are nanoseconds since the year 1. *)
Definition unix_epoch : Z := 719162 * 86400.
Definition time_Unix (sec : Z) : Z := i64 (sec + unix_epoch) * second.
Definition Unix_of (t : Z) : Z := t / second - unix_epoch.

Section metrics_types.
Context `{!Float64}.

Record Metrics := {
  m_CPUUsagePercent : float64;
  m_MemoryUsedMB : Z; m_MemoryLimitMB : Z; m_MemoryPercent : float64;
  m_DiskUsedMB : Z; m_DiskLimitMB : Z; m_DiskPercent : float64;
  m_NetworkBytesSent : Z; m_NetworkBytesReceived : Z;
  m_TasksExecuted : Z; m_TasksFailed : Z;
  m_CollectedAt : Z                            (* seconds *) }.
Definition no_metrics : Metrics := {|
  m_CPUUsagePercent := float_zero; m_MemoryUsedMB := 0; m_MemoryLimitMB := 0; m_MemoryPercent := float_zero;
  m_DiskUsedMB := 0; m_DiskLimitMB := 0; m_DiskPercent := float_zero; m_NetworkBytesSent := 0; m_NetworkBytesReceived := 0;
  m_TasksExecuted := 0; m_TasksFailed := 0; m_CollectedAt := 0 |}.

Record MetricsPoint := {
  p_VMID : string; p_CPUUsagePercent : float64;
  p_MemoryUsedMB : Z; p_MemoryLimitMB : Z; p_MemoryPercent : float64;
  p_DiskUsedMB : Z; p_DiskLimitMB : Z; p_DiskPercent : float64;
  p_NetworkBytesSent : Z; p_NetworkBytesReceived : Z;
  p_CollectedAt : Z                            (* nanoseconds *) }.

(** GetMetrics of vm.Backend. *)
Class MetricsBackend (B : Type) := { be_GetMetrics : string -> B -> res Metrics * B }.

(** The service's world with the cache and the table, in insertion order. *)
Record Monitored (B St : Type) := {
  mo_world : World B St; mo_cache : gmap string Metrics; mo_history : list MetricsPoint }.
End metrics_types.
Arguments mo_world {_ B St} _.
Arguments mo_cache {_ B St} _.
Arguments mo_history {_ B St} _.

Section metrics.
Context {B St : Type} `{!Float64, !Backend B, !MetricsBackend B, !Storage St}.
Abbreviation W := (World B St).
Abbreviation MW := (Monitored B St).
Context (s : Service) (metricsRepo : bool).
Local Open Scope go_scope.

(** An operation on the service's world. Deleting the row of a VM also deletes its points
    (ON DELETE CASCADE). *)
Definition vm_exists (w : W) (p : MetricsPoint) : bool := bool_decide (is_Some (db_vms (w_db w) !! p_VMID p)).
Definition on_vms {A} (m : M W A) : M MW A := fun w =>
  let '(a, w') := m (mo_world w) in
  (a, w <| mo_world := w' |> <| mo_history := List.filter (vm_exists w') (mo_history w) |>).
Definition with_cache {A} (f : gmap string Metrics -> A * gmap string Metrics) : M MW A := fun w =>
  let '(a, c) := f (mo_cache w) in (a, w <| mo_cache := c |>).
(** A statement on the table of points. *)
Definition history_stmt {A} (f : W -> list MetricsPoint -> res A * list MetricsPoint) : M MW (res A) := fun w =>
  let w0 := mo_world w in
  match or_fault (w_env w0) (w_tick w0) with
  | Some e => (Err e, w <| mo_world := tick w0 |>)
  | None => let '(r, h) := f w0 (mo_history w) in (r, w <| mo_world := tick w0 |> <| mo_history := h |>)
  end.
Definition history_run {A} (what : string) (f : W -> list MetricsPoint -> res A * list MetricsPoint) : M MW (res A) :=
  let* r := history_stmt f in
  match r with Ok a => ret (Ok a) | Err e => ret (Err (dberr what e)) end.

(** ** The repository *)

(** The columns of megabytes are INT. *)
Definition int4 (z : Z) : bool := bool_decide (- 2 ^ 31 <= z < 2 ^ 31).
Definition pq_range : error := EPq "22003" "value out of range for type integer".
Definition Insert (point : MetricsPoint) : M MW (res unit) :=
  history_run "insert vm metrics history" (fun w h =>
    if negb (forallb int4 [p_MemoryUsedMB point; p_MemoryLimitMB point; p_DiskUsedMB point; p_DiskLimitMB point])
    then (Err pq_range, h)
    else if negb (vm_exists w point) then (Err (pq_fkey "vm_metrics_history_vm_id_fkey"), h)
    else (Ok tt, h ++ [point])).

Definition history_limit (limit : Z) : Z :=
  let limit := if bool_decide (limit <= 0) then 300 else limit in
  if bool_decide (limit > 5000) then 5000 else limit.
Definition by_time (p q : MetricsPoint) : Prop := p_CollectedAt p <= p_CollectedAt q.
#[export] Instance by_time_dec : RelDecision by_time.
Proof. intros p q. unfold by_time. apply _. Defined.
Definition in_window (from to : option Z) (t : Z) : bool :=
  match from with Some f => bool_decide (f <= t) | None => true end && match to with Some u => bool_decide (t <= u) | None => true end.
Definition ListByVM (vmID : string) (from to : option Z) (limit : Z) : M MW (res (list MetricsPoint)) :=
  history_run "list vm metrics history" (fun _ h =>
    (Ok (take (Z.to_nat (history_limit limit))
           (merge_sort by_time (List.filter (fun p => bool_decide (p_VMID p = vmID) && in_window from to (p_CollectedAt p)) h))), h)).

(** ** The service *)

Definition GetMetrics (id : string) : M MW (res Metrics) :=
  on_vms (let? vm := GetByID id in
          let* r := on_backend (be_GetMetrics (vm_ID vm)) in
          ret (match r with Ok metrics => Ok metrics | Err e => Err (Internal e) end)).

Definition GetMetricsHistory (id : string) (from to : option Z) (limit : Z) : M MW (res (list MetricsPoint)) :=
  if metricsRepo then
    let? _ := on_vms (GetByID id) in
    ListByVM id from to limit
  else ret (Err (Internal (EText "metrics history repository not configured"))).

Definition GetCachedMetrics (id : string) : M MW (Metrics * bool) :=
  with_cache (fun c => match c !! id with Some m => ((m, true), c) | None => ((no_metrics, false), c) end).

Record FleetEntry := { fe_VM : VM; fe_Metrics : Metrics }.
Definition fleet_vms (userID role : string) : M W (res (list VM)) :=
  if bool_decide (role = "admin") then ListVMs else GetAllByUserID userID.
Definition ListCachedFleetSnapshot (userID role : string) : M MW (res (list FleetEntry)) :=
  let? vms := on_vms (fleet_vms userID role) in
  with_cache (fun c => (Ok ((fun vm => {| fe_VM := vm; fe_Metrics := default no_metrics (c !! vm_ID vm) |}) <$> vms), c)).

(** ** The collector *)

Definition metrics_point (vmID : string) (collectedAt : Z) (m : Metrics) : MetricsPoint := {|
  p_VMID := vmID; p_CPUUsagePercent := m_CPUUsagePercent m;
  p_MemoryUsedMB := m_MemoryUsedMB m; p_MemoryLimitMB := m_MemoryLimitMB m; p_MemoryPercent := m_MemoryPercent m;
  p_DiskUsedMB := m_DiskUsedMB m; p_DiskLimitMB := m_DiskLimitMB m; p_DiskPercent := m_DiskPercent m;
  p_NetworkBytesSent := m_NetworkBytesSent m; p_NetworkBytesReceived := m_NetworkBytesReceived m;
  p_CollectedAt := collectedAt |}.
(** One VM: the new cache with it. *)
Definition collect_one (fresh : gmap string Metrics) (vm : VM) : M MW (gmap string Metrics) :=
  let* r := GetMetrics (vm_ID vm) in
  match r with
  | Err _ =>
      with_cache (fun c => (match c !! vm_ID vm with Some old => <[vm_ID vm := old]> fresh | None => fresh end, c))
  | Ok metrics =>
      let* t := (if bool_decide (m_CollectedAt metrics <= 0) then on_vms now else ret (time_Unix (m_CollectedAt metrics))) in
      let* _ := Insert (metrics_point (vm_ID vm) t metrics) in
      ret (<[vm_ID vm := metrics]> fresh)
  end.
Fixpoint collect_all (fresh : gmap string Metrics) (vms : list VM) : M MW (gmap string Metrics) :=
  match vms with
  | [] => ret fresh
  | vm :: vms => let* fresh := collect_one fresh vm in collect_all fresh vms
  end.
Definition collectAndPersistMetrics : M MW unit :=
  if metricsRepo then
    let* vms := on_vms ListRunningRuntimes in
    match vms with
    | Err _ => ret tt
    | Ok vms => let* fresh := collect_all ∅ vms in with_cache (fun _ => (tt, fresh))
    end
  else ret tt.

(** ** The loops of the service, for a given number of ticks *)

Fixpoint repeat_ticks {X} (body : M X unit) (ticks : nat) : M X unit :=
  match ticks with O => ret tt | S n => let* _ := body in repeat_ticks body n end.
Definition interval_or (dflt interval : Z) : Z := if bool_decide (interval <= 0) then dflt else interval.

Definition StartMetricsCollector (ticks : nat) : M MW unit :=
  if metricsRepo then let* _ := collectAndPersistMetrics in repeat_ticks collectAndPersistMetrics ticks else ret tt.
Definition StartIdleReaper (ticks : nat) : M MW unit := repeat_ticks (on_vms (reapIdleVMs s)) ticks.
Definition StartRuntimeReconciler (ticks : nat) : M MW unit :=
  let* _ := on_vms (reconcileRuntimeStates s) in repeat_ticks (on_vms (reconcileRuntimeStates s)) ticks.
Definition StartSnapshotGC (ticks : nat) : M MW unit :=
  if svc_snapRepo s then repeat_ticks (on_vms (gcOrphanedSnapshots s)) ticks else ret tt.
End metrics.

(** ** What the collector leaves behind *)

Section collector.
Context {B St : Type} `{FL : !Float64, BE : !Backend B, MB : !MetricsBackend B, ST : !Storage St}.
Abbreviation W := (World B St).
Abbreviation MW := (Monitored B St).
Local Open Scope go_scope.

(** Every point is of a VM that exists. *)
Definition history_ok (w : MW) : Prop := Forall (fun p => vm_exists (mo_world w) p = true) (mo_history w).

Lemma filter_all {A} (f : A -> bool) l : Forall (fun x => f x = true) l -> List.filter f l = l.
Proof. induction 1 as [|x l Hx _ IH]; cbn; [done | by rewrite Hx, IH]. Qed.
Lemma on_vms_history_ok {A} (m : M W A) (w : MW) : history_ok (on_vms m w).2.
Proof.
  unfold on_vms, history_ok. destruct (m (mo_world w)) as [a w']. destruct w as [w0 c h]. cbn.
  apply Forall_forall. intros p Hp. rewrite list_elem_of_In, filter_In in Hp. apply Hp.
Qed.

(** Steps that change neither the tables nor, but for [added], the history. *)
Record sampled (w w' : MW) (added : list MetricsPoint) : Prop := {
  sd_db : w_db (mo_world w') = w_db (mo_world w);
  sd_cache : mo_cache w' = mo_cache w;
  sd_history : mo_history w' = mo_history w ++ added;
  sd_ok : history_ok w' }.

Lemma sampled_refl w : history_ok w -> sampled w w [].
Proof. intros H. split; [done | done | by rewrite app_nil_r | done]. Qed.
Lemma sampled_trans w1 w2 w3 a b : sampled w1 w2 a -> sampled w2 w3 b -> sampled w1 w3 (a ++ b).
Proof. intros [D1 C1 H1 O1] [D2 C2 H2 O2]. split; [congruence | congruence | by rewrite H2, H1, app_assoc | done]. Qed.

Lemma on_vms_sampled {A} (m : M W A) w : keeps same_db m -> history_ok w -> sampled w (on_vms m w).2 [].
Proof.
  intros Hk Ho. pose proof (on_vms_history_ok m w) as Ho'. specialize (Hk (mo_world w)). unfold on_vms in *.
  destruct (m (mo_world w)) as [a w'] eqn:Hm. destruct w as [w0 c h]. cbn in *. unfold same_db in Hk. split; [done | done | | done].
  cbn. rewrite app_nil_r. apply filter_all. eapply Forall_impl; [exact Ho |]. intros p. unfold vm_exists. cbn. by rewrite Hk.
Qed.

Lemma GetMetrics_sampled id w : history_ok w -> sampled w (GetMetrics id w).2 [].
Proof.
  apply on_vms_sampled. apply keeps_bind_ok; [apply _ | apply keeps_db_selectOne |]. intros vm.
  apply keeps_bind; [apply _ | | intros r; apply keeps_ret, _]. intros w0. unfold on_backend. by destruct (be_GetMetrics _ _).
Qed.

(** Insert stores its point or nothing. *)
Lemma Insert_sampled p w : history_ok w ->
  exists added, sampled w (Insert p w).2 added /\ ((Insert p w).1 = Ok tt /\ added = [p] \/ added = [] /\ exists e, (Insert p w).1 = Err e).
Proof.
  intros Ho. unfold Insert, history_run, bind, history_stmt. destruct w as [w0 c h].
  assert (Hs : sampled {| mo_world := w0; mo_cache := c; mo_history := h |} {| mo_world := tick w0; mo_cache := c; mo_history := h |} []).
  { split; cbn; [done | done | by rewrite app_nil_r | exact Ho]. }
  cbn [mo_world mo_history]. destruct (or_fault (w_env w0) (w_tick w0)); [exists []; split; [exact Hs | right; eauto] |].
  destruct (forallb int4 _); cbn [negb]; [| exists []; split; [exact Hs | right; eauto]].
  destruct (vm_exists w0 p) eqn:Hp; cbn [negb]; [| exists []; split; [exact Hs | right; eauto]].
  exists [p]. split; [| by left]. split; cbn; [done | done | done |]. apply Forall_app. split; [exact Ho | by repeat constructor].
Qed.

(** One VM of the round: the cache entry [om] that it leaves, and the point stored for it. *)
Lemma collect_one_spec fresh vm w f' w' : history_ok w -> collect_one fresh vm w = (f', w') ->
  exists added om, sampled w w' added /\
    f' = match om with Some m => <[vm_ID vm := m]> fresh | None => fresh end /\
    (added = [] /\ om = mo_cache w !! vm_ID vm \/
     exists m, om = Some m /\ (GetMetrics (vm_ID vm) w).1 = Ok m /\
       (added = [] \/ exists t, added = [metrics_point (vm_ID vm) t m])).
Proof.
  intros Ho E. pose proof (GetMetrics_sampled (vm_ID vm) w Ho) as Hg. unfold collect_one, bind in E.
  destruct (GetMetrics (vm_ID vm) w) as [[metrics|e] w1]; cbn [fst snd] in *.
  - destruct ((if bool_decide (m_CollectedAt metrics <= 0) then on_vms now else ret (time_Unix (m_CollectedAt metrics))) w1) as [t w2] eqn:Et.
    assert (Ht : sampled w1 w2 []).
    { replace w2 with ((if bool_decide (m_CollectedAt metrics <= 0) then on_vms now else ret (time_Unix (m_CollectedAt metrics))) w1).2 by (by rewrite Et).
      case_bool_decide; [apply on_vms_sampled; [apply keeps_db_consult | apply Hg] | apply sampled_refl, Hg]. }
    destruct (Insert_sampled (metrics_point (vm_ID vm) t metrics) w2 ltac:(apply Ht)) as (added & Hi & Hc).
    destruct (Insert _ w2) as [r w3]. cbn [fst snd] in *. injection E as <- <-.
    exists added, (Some metrics). split_and!; [exact (sampled_trans _ _ _ _ _ Hg (sampled_trans _ _ _ _ _ Ht Hi)) | done |].
    right. exists metrics. split_and!; [done | done |]. destruct Hc as [[_ ->]|[-> _]]; [right; by eexists | by left].
  - exists [], (mo_cache w !! vm_ID vm). destruct Hg as [D C H O]. unfold with_cache in E. cbn in E.
    destruct w1 as [w0 c h]. cbn in *. subst c. injection E as <- <-.
    split_and!; [by split | by destruct (mo_cache w !! vm_ID vm) | by left].
Qed.

(** A round over [vms]: points of these VMs, in order; the fresh cache has entries of these
    VMs only, each from the old cache or just reported, and the reported one of every point. *)
Lemma collect_all_spec vms : forall fresh w, history_ok w ->
  exists added, let '(fresh', w') := collect_all fresh vms w in
    sampled w w' added /\
    sublist (p_VMID <$> added) (vm_ID <$> vms) /\
    (forall id, id ∉ vm_ID <$> vms -> fresh' !! id = fresh !! id) /\
    (forall id m, fresh' !! id = Some m -> fresh !! id = Some m \/ id ∈ vm_ID <$> vms) /\
    (NoDup (vm_ID <$> vms) -> forall p, p ∈ added -> exists m, fresh' !! p_VMID p = Some m /\ p = metrics_point (p_VMID p) (p_CollectedAt p) m).
Proof.
  induction vms as [|vm vms IH]; intros fresh w Ho.
  { exists []. cbn. split_and!; [by apply sampled_refl | constructor | done | eauto | by intros _ p ?%not_elem_of_nil]. }
  cbn [collect_all]. unfold bind. destruct (collect_one fresh vm w) as [f1 w1] eqn:Hone.
  destruct (collect_one_spec _ _ _ _ _ Ho Hone) as (a1 & om & H1 & E1 & C1).
  destruct (IH f1 w1 ltac:(apply H1)) as (a2 & H2). exists (a1 ++ a2).
  destruct (collect_all f1 vms w1) as [f2 w2]. destruct H2 as (H2 & S2 & K2 & V2 & P2).
  assert (Hf1 : forall id, id <> vm_ID vm -> f1 !! id = fresh !! id).
  { intros id Hne. rewrite E1. destruct om; [by rewrite lookup_insert_ne | done]. }
  assert (Ha1 : a1 = [] \/ exists t m, a1 = [metrics_point (vm_ID vm) t m] /\ f1 !! vm_ID vm = Some m).
  { destruct C1 as [[-> _]|(m & -> & _ & [->|(t & ->)])]; [by left | by left | right]. exists t, m. split; [done |].
    by rewrite E1, lookup_insert_eq. }
  rewrite fmap_cons. split_and!.
  - exact (sampled_trans _ _ _ _ _ H1 H2).
  - rewrite fmap_app. destruct Ha1 as [->|(t & m & -> & _)]; [by apply sublist_cons | by apply sublist_skip].
  - intros id Hid. rewrite K2, Hf1; [done | intros ->; apply Hid; by left | intros ?; apply Hid; by right].
  - intros id m Hm. destruct (decide (id = vm_ID vm)) as [->|Hne]; [right; by left |].
    destruct (V2 _ _ Hm) as [Hf|Hin]; [left; by rewrite <- Hf1 | right; by right].
  - intros [Hni Hnd]%NoDup_cons p [Hp|Hp]%elem_of_app; [| by apply P2].
    destruct Ha1 as [->|(t & m & -> & Hm)]; [by apply not_elem_of_nil in Hp |]. apply list_elem_of_singleton in Hp as ->. cbn.
    exists m. split; [by rewrite K2 | done].
Qed.

(** C32: A round of the collector: when the VMs cannot be listed nothing is remembered or
    stored. Otherwise the history grows by at most one point for each running VM, in their
    order, and loses none; the cache is replaced by one that holds only running VMs; and
    every point stored is the sample that the cache now holds for its VM. *)
Theorem collector_round (w : MW) :
  let '(vms, w1) := on_vms (ListRunningRuntimes : M W _) w in
  let w' := (collectAndPersistMetrics true w).2 in
  match vms with
  | Err _ => w' = w1
  | Ok vms => exists added,
      mo_history w' = mo_history w1 ++ added /\
      sublist (p_VMID <$> added) (vm_ID <$> vms) /\
      w_db (mo_world w') = w_db (mo_world w1) /\
      (forall id, is_Some (mo_cache w' !! id) -> id ∈ vm_ID <$> vms) /\
      (NoDup (vm_ID <$> vms) -> forall p, p ∈ added ->
         exists m, mo_cache w' !! p_VMID p = Some m /\ p = metrics_point (p_VMID p) (p_CollectedAt p) m)
  end.
Proof.
  pose proof (on_vms_history_ok (ListRunningRuntimes : M W _) w) as Ho.
  destruct (on_vms (ListRunningRuntimes : M W _) w) as [[vms|e] w1] eqn:E; [| cbn; unfold bind; by rewrite E].
  cbn [snd] in Ho. destruct (collect_all_spec vms ∅ w1 Ho) as (added & H). exists added.
  cbn [collectAndPersistMetrics]. unfold bind. rewrite E. destruct (collect_all ∅ vms w1) as [fresh w2].
  destruct H as (Hs & Hsub & _ & Hv & Hp). unfold with_cache. destruct w2 as [w0 c h]. destruct Hs as [D C H O]. cbn in *.
  split_and!; [done | done | done | | done].
  intros id [m Hm]. destruct (Hv _ _ Hm) as [He|Hin]; [by rewrite lookup_empty in He | done].
Qed.

(** ** Reading the history *)

(** With enough room every point of the window is returned, oldest first. *)
Lemma ListByVM_spec vmID from to limit (w : MW) :
  or_fault (w_env (mo_world w)) (w_tick (mo_world w)) = None ->
  exists points, (ListByVM vmID from to limit w).1 = Ok points /\
    Sorted by_time points /\ Z.of_nat (length points) <= 5000 /\
    Forall (fun p => p_VMID p = vmID /\ in_window from to (p_CollectedAt p) = true) points /\
    (let matching := List.filter (fun p => bool_decide (p_VMID p = vmID) && in_window from to (p_CollectedAt p)) (mo_history w) in
     Z.of_nat (length matching) <= history_limit limit -> points ≡ₚ matching).
Proof.
  intros Hf. unfold ListByVM, history_run, bind, history_stmt. rewrite Hf. cbn. eexists. split; [done |].
  set (l := List.filter _ _). assert (Hs : Sorted by_time (merge_sort by_time l)).
  { apply Sorted_merge_sort. intros p q. unfold by_time. lia. }
  assert (Hlim : 0 <= history_limit limit <= 5000) by (unfold history_limit; repeat case_bool_decide; lia).
  split_and!.
  - assert (Htk : forall n (k : list MetricsPoint), Sorted by_time k -> Sorted by_time (take n k)); [| by apply Htk].
    clear. intros n k Hk. revert n. induction Hk as [|x k Hk IH Hd]; intros [|n]; cbn; [constructor.. |].
    constructor; [apply IH |]. destruct Hd; [rewrite take_nil; constructor | destruct n; by constructor].
  - rewrite length_take. lia.
  - apply Forall_take. apply Forall_forall. intros p Hp.
    rewrite (merge_sort_Permutation by_time l) in Hp. unfold l in Hp. rewrite list_elem_of_In, filter_In in Hp.
    destruct Hp as [_ [E1%bool_decide_eq_true E2]%andb_prop]. done.
  - intros Hl. rewrite take_ge; [apply merge_sort_Permutation |]. rewrite (merge_sort_Permutation by_time l). lia.
Qed.
End collector.
