(* ===== verification/VmApi.v ===== *)
(** * The HTTP handlers of VMs: api/http/v1/vm

    The handlers call the VM service through the record [VmServices]; [vm_services] is the
    service of [VMService], [VMResume] and [Metrics]. A streaming handler is given what its
    select statement meets, and answers with the text it has written so far.

    Then what the endpoints promise: the activity stream sends every event at most once and none it has room for is lost;
    pages are the parts of the list they say; durations and times. *)

From S2P Require Import Prelude Exception Naming GoLib Domain World PgRepo Json Encoding ExecProtocol Orchestrator Chat IPAlloc Interfaces VMExec VMSnapshot VMService VMResume Metrics Http Middleware AuthApi.

Local Open Scope go_scope.

(** ** Times *)

(** The layouts "2006-01-02T15:04:05Z" and "15:04:05". *)
Definition clock_time (t : Z) : string :=
  let sod := (t / second) mod 86400 in pad 2 (sod / 3600) +:+ ":" +:+ pad 2 (sod / 60 mod 60) +:+ ":" +:+ pad 2 (sod mod 60).
Definition iso_time (t : Z) : string :=
  let '(y, m, d) := civil (t / second / 86400) in
  pad 4 y +:+ "-" +:+ pad 2 m +:+ "-" +:+ pad 2 d +:+ "T" +:+ clock_time t +:+ "Z".
Definition formatTimePtr (t : option Z) : option string := iso_time <$> t.

(** Duration.Round(time.Second): half away from zero, saturating. *)
Definition max_duration : Z := 2 ^ 63 - 1.
Definition min_duration : Z := - 2 ^ 63.
Definition round_second (d : Z) : Z :=
  let r := Z.rem d second in
  if bool_decide (d < 0) then
    if bool_decide (- r + - r < second) then d - r
    else (let d1 := d - second - r in if bool_decide (min_duration <= d1) then d1 else min_duration)
  else if bool_decide (r + r < second) then d - r
  else (let d1 := d + second - r in if bool_decide (d1 <= max_duration) then d1 else max_duration).
(** Time.Sub saturates. *)
Definition time_Sub (t u : Z) : Z := Z.max min_duration (Z.min max_duration (t - u)).
(** Whole seconds, minutes and hours, towards zero. *)
Definition formatDuration (d : Z) : string :=
  let d := round_second d in
  if bool_decide (d < minute) then fmt_d (Z.quot d second) +:+ "s"
  else
    let m := Z.quot d minute in
    let s := Z.quot d second - m * 60 in
    if bool_decide (d < 60 * minute) then fmt_d m +:+ "m " +:+ fmt_d s +:+ "s"
    else
      let h := Z.quot d (60 * minute) in
      fmt_d h +:+ "h " +:+ fmt_d (m - h * 60) +:+ "m".

(** Unix seconds, or RFC 3339. *)
Definition parseHistoryTime (raw : string) : option (option Z) :=
  if bool_decide (raw = "") then Some None
  else match Atoi raw with
       | Some sec => Some (Some (time_Unix sec))
       | None => match parse_rfc3339 raw with Some t => Some (Some t) | None => None end
       end.

(** ** Query parameters *)

Definition parseActivityLookback (r : HttpRequest) : Z :=
  let raw := hq_Query r "lookback" in
  if bool_decide (raw = "") then 50
  else match Atoi raw with
       | None => 50
       | Some n => if bool_decide (n < 1) then 50 else if bool_decide (n > 200) then 200 else n
       end.
Definition parseFleetPagination : HttpRequest -> Z * Z := parsePagination.
(** [vms[offset:end]]: the end is computed on int. *)
Definition paginateVMs {A} (vms : list A) (offset limit : Z) : list A * Z :=
  let total := Z.of_nat (length vms) in
  if bool_decide (offset >= total) then ([], total)
  else
    let stop := i64 (offset + limit) in
    let stop := if bool_decide (stop > total) then total else stop in
    (take (Z.to_nat (stop - offset)) (drop (Z.to_nat offset) vms), total).

(** ** Bodies (dto.go) *)

Record createVMRequest := {
  cv_EnvironmentID : string; cv_ConversationID : string; cv_Provider : string; cv_Name : string; cv_WorkspaceSizeGB : Z;
  cv_VCPU : option Z; cv_MemoryMB : option Z; cv_DiskMB : option Z; cv_ServicePort : option Z }.
Definition no_createVMRequest : createVMRequest := {|
  cv_EnvironmentID := ""; cv_ConversationID := ""; cv_Provider := ""; cv_Name := ""; cv_WorkspaceSizeGB := 0;
  cv_VCPU := None; cv_MemoryMB := None; cv_DiskMB := None; cv_ServicePort := None |}.
Definition createVMRequest_decoder : decoder createVMRequest := [
  ("environment_id", get_str (fun x r => r <| cv_EnvironmentID := x |>)); ("conversation_id", get_str (fun x r => r <| cv_ConversationID := x |>));
  ("provider", get_str (fun x r => r <| cv_Provider := x |>)); ("name", get_str (fun x r => r <| cv_Name := x |>));
  ("workspace_size_gb", get_int (fun x r => r <| cv_WorkspaceSizeGB := x |>));
  ("vcpu", get_opt get_int (fun x r => r <| cv_VCPU := x |>)); ("memory_mb", get_opt get_int (fun x r => r <| cv_MemoryMB := x |>));
  ("disk_mb", get_opt get_int (fun x r => r <| cv_DiskMB := x |>)); ("service_port", get_opt get_int (fun x r => r <| cv_ServicePort := x |>))].
Definition opt_int (o : option Z) : fieldval := FPtr (FInt <$> o).
Definition createVMRequest_rules (r : createVMRequest) : list field_rules := [
  {| fr_Name := "environment_id"; fr_Value := FStr (cv_EnvironmentID r); fr_Rules := [Required] |};
  {| fr_Name := "conversation_id"; fr_Value := FStr (cv_ConversationID r); fr_Rules := [Required] |};
  {| fr_Name := "provider"; fr_Value := FStr (cv_Provider r); fr_Rules := [OmitEmpty; OneOf ["firecracker"; "cloud-hypervisor"]] |};
  {| fr_Name := "name"; fr_Value := FStr (cv_Name r); fr_Rules := [OmitEmpty; Min 1; Max 63] |};
  {| fr_Name := "workspace_size_gb"; fr_Value := FInt (cv_WorkspaceSizeGB r); fr_Rules := [OmitEmpty; Min 1; Max 64] |};
  {| fr_Name := "vcpu"; fr_Value := opt_int (cv_VCPU r); fr_Rules := [OmitEmpty; Min 1; Max 16] |};
  {| fr_Name := "memory_mb"; fr_Value := opt_int (cv_MemoryMB r); fr_Rules := [OmitEmpty; Min 128; Max 32768] |};
  {| fr_Name := "disk_mb"; fr_Value := opt_int (cv_DiskMB r); fr_Rules := [OmitEmpty; Min 512; Max 102400] |};
  {| fr_Name := "service_port"; fr_Value := opt_int (cv_ServicePort r); fr_Rules := [OmitEmpty; Min 1; Max 65535] |}].
(** executeCommandRequest, assignVMRequest, resumeVMRequest: one required string. *)
Definition one_string_decoder (name : string) : decoder string := [(name, get_str (fun x _ => x))].
Definition one_string_rules (name v : string) : list field_rules := [{| fr_Name := name; fr_Value := FStr v; fr_Rules := [Required] |}].
Definition executeCommandRequest_decoder := one_string_decoder "command".
Definition assignVMRequest_decoder := one_string_decoder "chat_id".
Definition resumeVMRequest_decoder := one_string_decoder "chat_id".

(** ** Responses *)

(** A pointer with the omitempty option. *)
Definition ptr_str (k : string) (v : option string) : list (string * value) := match v with Some s => str_field k s | None => [] end.
Definition ptr_int (k : string) (v : option Z) : list (string * value) := match v with Some z => int_field k z | None => [] end.
Section responses.
Context `{!Float64}.
Definition float_field (k : string) (x : float64) : list (string * value) := field k (VNum (float_json x)).

Record createVMResponse := {
  cvr_ID : string; cvr_Name : string; cvr_EnvironmentID : string; cvr_ConversationID : string; cvr_Provider : string; cvr_Status : string;
  cvr_WorkspaceSizeGB : Z; cvr_RuntimeID : option string; cvr_RuntimeState : option string; cvr_PID : option Z; cvr_LastHeartbeatAt : option string;
  cvr_IdleDeadlineAt : option string; cvr_VCPU : Z; cvr_MemoryMB : Z; cvr_DiskMB : Z; cvr_ServicePort : Z; cvr_PublicURL : string }.
Definition createVMResponse_json (r : createVMResponse) : value := VMap (
  str_field "id" (cvr_ID r) ++ str_field "name" (cvr_Name r) ++ str_field "environment_id" (cvr_EnvironmentID r) ++
  str_field "conversation_id" (cvr_ConversationID r) ++ str_field "provider" (cvr_Provider r) ++ str_field "status" (cvr_Status r) ++
  int_field "workspace_size_gb" (cvr_WorkspaceSizeGB r) ++ ptr_str "runtime_id" (cvr_RuntimeID r) ++ ptr_str "runtime_state" (cvr_RuntimeState r) ++
  ptr_int "pid" (cvr_PID r) ++ ptr_str "last_heartbeat_at" (cvr_LastHeartbeatAt r) ++ ptr_str "idle_deadline_at" (cvr_IdleDeadlineAt r) ++
  int_field "vcpu" (cvr_VCPU r) ++ int_field "memory_mb" (cvr_MemoryMB r) ++ int_field "disk_mb" (cvr_DiskMB r) ++
  int_field "service_port" (cvr_ServicePort r) ++ str_field "public_url" (cvr_PublicURL r)).
Definition toCreateVMResponse (vm : VM) (env : Environment) : createVMResponse := {|
  cvr_ID := vm_ID vm; cvr_Name := vm_Name vm; cvr_EnvironmentID := vm_EnvironmentID vm; cvr_ConversationID := vm_ConversationID vm;
  cvr_Provider := vm_Provider vm; cvr_Status := Status_string (vm_Status vm); cvr_WorkspaceSizeGB := vm_WorkspaceSizeGB vm;
  cvr_RuntimeID := vm_RuntimeID vm; cvr_RuntimeState := vm_RuntimeState vm; cvr_PID := vm_PID vm;
  cvr_LastHeartbeatAt := formatTimePtr (vm_LastHeartbeatAt vm); cvr_IdleDeadlineAt := formatTimePtr (vm_IdleDeadlineAt vm);
  cvr_VCPU := GetVCPU vm (env_GetVCPU env); cvr_MemoryMB := GetMemoryMB vm (env_GetMemoryMB env); cvr_DiskMB := GetDiskMB vm (env_GetDiskMB env);
  cvr_ServicePort := vm_ServicePort vm; cvr_PublicURL := PublicURL vm |}.

Record getVMResponse := {
  gvr_ID : string; gvr_Name : string; gvr_EnvironmentID : string; gvr_ConversationID : string; gvr_Provider : string; gvr_Status : string;
  gvr_WorkspaceSizeGB : Z; gvr_RuntimeID : option string; gvr_RuntimeState : option string; gvr_PID : option Z; gvr_LastHeartbeatAt : option string;
  gvr_IdleDeadlineAt : option string; gvr_VCPU : option Z; gvr_MemoryMB : option Z; gvr_DiskMB : option Z; gvr_HasOverrides : bool;
  gvr_IPAddress : option string; gvr_ServicePort : Z; gvr_PublicURL : string; gvr_ChatID : option string; gvr_AssignedAt : option string;
  gvr_CreatedAt : string; gvr_TerminatedAt : option string }.
Definition getVMResponse_json (r : getVMResponse) : value := VMap (
  str_field "id" (gvr_ID r) ++ str_field "name" (gvr_Name r) ++ str_field "environment_id" (gvr_EnvironmentID r) ++
  str_field "conversation_id" (gvr_ConversationID r) ++ str_field "provider" (gvr_Provider r) ++ str_field "status" (gvr_Status r) ++
  int_field "workspace_size_gb" (gvr_WorkspaceSizeGB r) ++ ptr_str "runtime_id" (gvr_RuntimeID r) ++ ptr_str "runtime_state" (gvr_RuntimeState r) ++
  ptr_int "pid" (gvr_PID r) ++ ptr_str "last_heartbeat_at" (gvr_LastHeartbeatAt r) ++ ptr_str "idle_deadline_at" (gvr_IdleDeadlineAt r) ++
  ptr_int "vcpu" (gvr_VCPU r) ++ ptr_int "memory_mb" (gvr_MemoryMB r) ++ ptr_int "disk_mb" (gvr_DiskMB r) ++
  field "has_overrides" (VBool (gvr_HasOverrides r)) ++ ptr_str "ip_address" (gvr_IPAddress r) ++ int_field "service_port" (gvr_ServicePort r) ++
  str_field "public_url" (gvr_PublicURL r) ++ ptr_str "chat_id" (gvr_ChatID r) ++ ptr_str "assigned_at" (gvr_AssignedAt r) ++
  str_field "created_at" (gvr_CreatedAt r) ++ ptr_str "terminated_at" (gvr_TerminatedAt r)).
Definition toGetVMResponse (vm : VM) : getVMResponse := {|
  gvr_ID := vm_ID vm; gvr_Name := vm_Name vm; gvr_EnvironmentID := vm_EnvironmentID vm; gvr_ConversationID := vm_ConversationID vm;
  gvr_Provider := vm_Provider vm; gvr_Status := Status_string (vm_Status vm); gvr_WorkspaceSizeGB := vm_WorkspaceSizeGB vm;
  gvr_RuntimeID := vm_RuntimeID vm; gvr_RuntimeState := vm_RuntimeState vm; gvr_PID := vm_PID vm;
  gvr_LastHeartbeatAt := formatTimePtr (vm_LastHeartbeatAt vm); gvr_IdleDeadlineAt := formatTimePtr (vm_IdleDeadlineAt vm); gvr_VCPU := vm_VCPU vm;
  gvr_MemoryMB := vm_MemoryMB vm; gvr_DiskMB := vm_DiskMB vm; gvr_HasOverrides := HasCustomResources vm; gvr_IPAddress := vm_IPAddress vm;
  gvr_ServicePort := vm_ServicePort vm; gvr_PublicURL := PublicURL vm; gvr_ChatID := vm_ChatID vm;
  gvr_AssignedAt := formatTimePtr (vm_AssignedAt vm); gvr_CreatedAt := iso_time (vm_CreatedAt vm);
  gvr_TerminatedAt := formatTimePtr (vm_TerminatedAt vm) |}.

Record runtimeSnapshotResponse := {
  rsr_ID : string; rsr_Name : string; rsr_EnvironmentID : string; rsr_Provider : string; rsr_Status : string; rsr_RuntimeID : option string;
  rsr_RuntimeState : option string; rsr_PID : option Z; rsr_LastHeartbeatAt : option string; rsr_IdleDeadlineAt : option string;
  rsr_ChatID : option string; rsr_ServicePort : Z; rsr_PublicURL : string; rsr_CPUUsagePercent : float64; rsr_MemoryUsedMB : Z;
  rsr_MemoryLimitMB : Z; rsr_MemoryPercent : float64; rsr_DiskUsedMB : Z; rsr_DiskLimitMB : Z; rsr_NetworkBytesSent : Z;
  rsr_NetworkBytesReceived : Z; rsr_CollectedAt : Z }.
Definition runtimeSnapshotResponse_json (r : runtimeSnapshotResponse) : value := VMap (
  str_field "id" (rsr_ID r) ++ str_field "name" (rsr_Name r) ++ str_field "environment_id" (rsr_EnvironmentID r) ++
  str_field "provider" (rsr_Provider r) ++ str_field "status" (rsr_Status r) ++ ptr_str "runtime_id" (rsr_RuntimeID r) ++
  ptr_str "runtime_state" (rsr_RuntimeState r) ++ ptr_int "pid" (rsr_PID r) ++ ptr_str "last_heartbeat_at" (rsr_LastHeartbeatAt r) ++
  ptr_str "idle_deadline_at" (rsr_IdleDeadlineAt r) ++ ptr_str "chat_id" (rsr_ChatID r) ++ int_field "service_port" (rsr_ServicePort r) ++
  str_field "public_url" (rsr_PublicURL r) ++ float_field "cpu_usage_percent" (rsr_CPUUsagePercent r) ++
  int_field "memory_used_mb" (rsr_MemoryUsedMB r) ++ int_field "memory_limit_mb" (rsr_MemoryLimitMB r) ++
  float_field "memory_percent" (rsr_MemoryPercent r) ++ int_field "disk_used_mb" (rsr_DiskUsedMB r) ++
  int_field "disk_limit_mb" (rsr_DiskLimitMB r) ++ int_field "network_bytes_sent" (rsr_NetworkBytesSent r) ++
  int_field "network_bytes_received" (rsr_NetworkBytesReceived r) ++ int_field "collected_at" (rsr_CollectedAt r)).
Definition toRuntimeSnapshotResponse (vm : VM) (m : Metrics) : runtimeSnapshotResponse := {|
  rsr_ID := vm_ID vm; rsr_Name := vm_Name vm; rsr_EnvironmentID := vm_EnvironmentID vm; rsr_Provider := vm_Provider vm;
  rsr_Status := Status_string (vm_Status vm); rsr_RuntimeID := vm_RuntimeID vm; rsr_RuntimeState := vm_RuntimeState vm; rsr_PID := vm_PID vm;
  rsr_LastHeartbeatAt := formatTimePtr (vm_LastHeartbeatAt vm); rsr_IdleDeadlineAt := formatTimePtr (vm_IdleDeadlineAt vm);
  rsr_ChatID := vm_ChatID vm; rsr_ServicePort := vm_ServicePort vm; rsr_PublicURL := PublicURL vm; rsr_CPUUsagePercent := m_CPUUsagePercent m;
  rsr_MemoryUsedMB := m_MemoryUsedMB m; rsr_MemoryLimitMB := m_MemoryLimitMB m; rsr_MemoryPercent := m_MemoryPercent m;
  rsr_DiskUsedMB := m_DiskUsedMB m; rsr_DiskLimitMB := m_DiskLimitMB m; rsr_NetworkBytesSent := m_NetworkBytesSent m;
  rsr_NetworkBytesReceived := m_NetworkBytesReceived m; rsr_CollectedAt := m_CollectedAt m |}.

Definition vmMetricsResponse (id : string) (m : Metrics) : value := VMap (
  str_field "vm_id" id ++ float_field "cpu_usage_percent" (m_CPUUsagePercent m) ++ int_field "memory_used_mb" (m_MemoryUsedMB m) ++
  int_field "memory_limit_mb" (m_MemoryLimitMB m) ++ float_field "memory_percent" (m_MemoryPercent m) ++
  int_field "disk_used_mb" (m_DiskUsedMB m) ++ int_field "disk_limit_mb" (m_DiskLimitMB m) ++ float_field "disk_percent" (m_DiskPercent m) ++
  int_field "network_bytes_sent" (m_NetworkBytesSent m) ++ int_field "network_bytes_received" (m_NetworkBytesReceived m) ++
  int_field "collected_at" (m_CollectedAt m)).
Definition vmMetricsHistoryPointResponse (p : MetricsPoint) : value := VMap (
  float_field "cpu_usage_percent" (p_CPUUsagePercent p) ++ int_field "memory_used_mb" (p_MemoryUsedMB p) ++
  int_field "memory_limit_mb" (p_MemoryLimitMB p) ++ float_field "memory_percent" (p_MemoryPercent p) ++
  int_field "disk_used_mb" (p_DiskUsedMB p) ++ int_field "disk_limit_mb" (p_DiskLimitMB p) ++ float_field "disk_percent" (p_DiskPercent p) ++
  int_field "network_bytes_sent" (p_NetworkBytesSent p) ++ int_field "network_bytes_received" (p_NetworkBytesReceived p) ++
  int_field "collected_at" (Unix_of (p_CollectedAt p))).

Definition vmMetricsHistoryResponse (id : string) (points : list MetricsPoint) : value := VMap (
  str_field "vm_id" id ++ field "points" (VList (map vmMetricsHistoryPointResponse points))).

(** No code sets the agent. *)
Record fleetVMResponse := {
  fvr_ID : string; fvr_Name : string; fvr_Agent : string; fvr_ConversationID : string; fvr_Uptime : string; fvr_Mem : string; fvr_MemPct : float64;
  fvr_CPU : string; fvr_Disk : string; fvr_DiskPct : float64; fvr_Status : string; fvr_IP : string; fvr_ServicePort : Z; fvr_PublicURL : string;
  fvr_Created : string }.
Definition fleetVMResponse_json (r : fleetVMResponse) : value := VMap (
  str_field "id" (fvr_ID r) ++ str_field "name" (fvr_Name r) ++ str_opt "agent" (fvr_Agent r) ++
  str_field "conversation_id" (fvr_ConversationID r) ++ str_field "uptime" (fvr_Uptime r) ++ str_field "mem" (fvr_Mem r) ++
  float_field "memPct" (fvr_MemPct r) ++ str_field "cpu" (fvr_CPU r) ++ str_field "disk" (fvr_Disk r) ++ float_field "diskPct" (fvr_DiskPct r) ++
  str_field "status" (fvr_Status r) ++ str_opt "ip" (fvr_IP r) ++ int_field "service_port" (fvr_ServicePort r) ++
  str_field "public_url" (fvr_PublicURL r) ++ str_field "created" (fvr_Created r)).
(** [now] is what time.Since reads. *)
Definition toFleetVMResponse (now : Z) (vm : VM) (m : Metrics) : fleetVMResponse := {|
  fvr_ID := vm_ID vm; fvr_Name := vm_Name vm; fvr_Agent := ""; fvr_ConversationID := vm_ConversationID vm;
  fvr_Uptime := formatDuration (time_Sub now (vm_CreatedAt vm));
  fvr_Mem := fmt_d (m_MemoryUsedMB m) +:+ " / " +:+ fmt_d (m_MemoryLimitMB m) +:+ "mb"; fvr_MemPct := m_MemoryPercent m;
  fvr_CPU := float_0f (m_CPUUsagePercent m) +:+ "%"; fvr_Disk := fmt_d (m_DiskUsedMB m) +:+ "mb / " +:+ fmt_d (m_DiskLimitMB m) +:+ "mb";
  fvr_DiskPct := m_DiskPercent m; fvr_Status := Status_string (vm_Status vm); fvr_IP := default "" (vm_IPAddress vm);
  fvr_ServicePort := vm_ServicePort vm; fvr_PublicURL := PublicURL vm; fvr_Created := iso_time (vm_CreatedAt vm) |}.
Definition fleetPageResponse (vms : list value) (offset limit total : Z) : value := VMap (
  field "vms" (VList vms) ++ int_field "offset" offset ++ int_field "limit" limit ++ int_field "total" total).
Definition runtimeSnapshotPageResponse (vms : list value) (offset limit total : Z) : value := VMap (
  field "vms" (VList vms) ++ int_field "offset" offset ++ int_field "limit" limit ++ int_field "total" total).

Definition vmLeaseResponse (l : Lease) : value := VMap (
  str_field "id" (le_ID l) ++ str_field "chat_id" (le_ChatID l) ++ str_field "vm_id" (le_VMID l) ++ str_field "leased_at" (iso_time (le_LeasedAt l))).
Definition deleteVMResponse (id : string) : value := VMap (str_field "id" id).
Definition executeCommandResponse (output err : string) : value := VMap (str_field "output" output ++ str_opt "error" err).
Definition SnapType_string (t : SnapType) : string := match t with TypeFull => "full" | TypeIncremental => "incremental" end.
Definition vmSnapshotResponse (s : Snapshot) : value := VMap (
  str_field "id" (sn_ID s) ++ str_field "vm_id" (sn_VMID s) ++ str_field "type" (SnapType_string (sn_Type s)) ++
  int_field "size_bytes" (sn_SizeBytes s) ++ str_field "created_at" (iso_time (sn_CreatedAt s))).
End responses.

(** What the handler of commands writes to the log: trimmed, on one line, cut at the limit. *)
Definition logPreview (text : string) (limit : Z) : string :=
  let normalized := trim_space text in
  if bool_decide (normalized = "") then ""
  else
    let normalized := replace_byte (chr 13) "\r" normalized in
    let normalized := replace_byte (chr 10) "\n" normalized in
    if bool_decide (limit <= 0) || bool_decide (Z.of_nat (str_len normalized) <= limit) then normalized
    else take_str (Z.to_nat limit) normalized +:+ "...(truncated)".

(** ** Activity events *)

Definition mapActivityType (t data : string) : string :=
  if bool_decide (t = EventToolCall) then
    (if bool_decide (data ∈ ["vm.write_file"; "vm.edit_file"]) then "write"
     else if bool_decide (data ∈ ["vm.create"; "vm.start"]) then "boot" else "exec")
  else if bool_decide (t = "error") then "error" else t.
Record activityEventResponse := { aer_Time : string; aer_Type : string; aer_VM : string; aer_Msg : string }.
Definition activityEventResponse_json (r : activityEventResponse) : value := VMap (
  str_field "time" (aer_Time r) ++ str_field "type" (aer_Type r) ++ str_field "vm" (aer_VM r) ++ str_field "msg" (aer_Msg r)).
Definition toActivityEvent (e : PersistedRuntimeEvent) : activityEventResponse :=
  let vmID := default "" (as_string (alookup "vm_id" (pe_Metadata e))) in
  let vmName := default "" (as_string (alookup "vm_name" (pe_Metadata e))) in
  let msg := if bool_decide (pe_Command e = "") then pe_Data e else pe_Command e in
  let msg := if bool_decide (pe_Error e = "") then msg else pe_Error e in
  {| aer_Time := clock_time (pe_CreatedAt e); aer_Type := mapActivityType (pe_Type e) (pe_Data e);
     aer_VM := if bool_decide (vmName = "") then vmID else vmName; aer_Msg := msg |}.
(** The payload of an activity event. *)
Definition activity_payload (events : list PersistedRuntimeEvent) : value :=
  VList (map (fun e => activityEventResponse_json (toActivityEvent e)) events).

(** The cursor of an activity stream: the time of the newest event sent (the zero time at
    first), and whether nothing was sent yet. *)
Record Cursor := { ac_lastSeen : Z; ac_firstBatch : bool }.
Definition new_cursor : Cursor := {| ac_lastSeen := 0; ac_firstBatch := true |}.
(** A batch, newest first: the events to send, newest first. *)
Definition fresh_events (lookback : Z) (c : Cursor) (events : list PersistedRuntimeEvent) : list PersistedRuntimeEvent :=
  let fresh := List.filter (fun e => bool_decide (ac_lastSeen c < pe_CreatedAt e)) (rev events) in
  let fresh := if ac_firstBatch c && bool_decide (lookback < Z.of_nat (length fresh))
               then drop (Z.to_nat (Z.of_nat (length fresh) - lookback)) fresh else fresh in
  rev fresh.
Definition next_cursor (lookback : Z) (c : Cursor) (events : list PersistedRuntimeEvent) : Cursor :=
  match fresh_events lookback c events with
  | [] => c
  | newest :: _ => {| ac_lastSeen := pe_CreatedAt newest; ac_firstBatch := false |}
  end.

(** ** The handlers (handler.go) *)

Record VmServices (W : Type) `{!Float64} := {
  vs_Create : string -> string -> string -> string -> Z -> option Z -> option Z -> option Z -> option Z -> M W (res VM);
  vs_Get : string -> M W (res VM);
  vs_Stop : string -> M W (res VM);
  vs_Destroy : string -> M W (res unit);
  vs_AssignToChat : string -> string -> M W (res VM);
  vs_Unassign : string -> M W (res VM);
  vs_ExecuteCommand : string -> string -> M W (string * option error);
  vs_CreateSnapshot : string -> M W (res Snapshot);
  vs_FindPreviousLeaseForChat : string -> M W (res VM);
  vs_ResumeVM : string -> string -> M W (res VM);
  vs_ListActiveLeasesByChat : string -> M W (res (list Lease));
  vs_ListRunningRuntimes : M W (res (list VM));
  vs_GetRuntimeSnapshot : string -> M W (res VM);
  vs_GetMetrics : string -> M W (res Metrics);
  vs_GetMetricsHistory : string -> option Z -> option Z -> Z -> M W (res (list MetricsPoint));
  vs_GetCachedMetrics : string -> M W (Metrics * bool);
  vs_ListCachedFleetSnapshot : string -> string -> M W (res (list FleetEntry));
  vs_env_GetByID : string -> M W (res Environment);           (* EnvironmentRepository *)
  vs_time_Now : M W Z }.
Arguments vs_Create {W _}. Arguments vs_Get {W _}. Arguments vs_Stop {W _}. Arguments vs_Destroy {W _}. Arguments vs_AssignToChat {W _}.
Arguments vs_Unassign {W _}. Arguments vs_ExecuteCommand {W _}. Arguments vs_CreateSnapshot {W _}. Arguments vs_FindPreviousLeaseForChat {W _}.
Arguments vs_ResumeVM {W _}. Arguments vs_ListActiveLeasesByChat {W _}. Arguments vs_ListRunningRuntimes {W _}. Arguments vs_GetRuntimeSnapshot {W _}.
Arguments vs_GetMetrics {W _}. Arguments vs_GetMetricsHistory {W _}. Arguments vs_GetCachedMetrics {W _}. Arguments vs_ListCachedFleetSnapshot {W _}.
Arguments vs_env_GetByID {W _}. Arguments vs_time_Now {W _}.

Section handlers.
Context {W : Type} `{!Float64, !Decoding} (svc : VmServices W).
Definition missing_vm_id : error := BadRequest "missing VM ID".
Definition with_id (r : HttpRequest) (k : string -> M W (res Response)) : M W (res Response) :=
  unless_empty (hq_Param r "id") missing_vm_id (k (hq_Param r "id")).

Definition vm_ListLeases : Handler W := fun _ r =>
  let chatID := hq_Query r "chat_id" in
  unless_empty chatID (BadRequest "missing chat_id")
  (or_error (vs_ListActiveLeasesByChat svc chatID) (fun leases =>
   answer (WriteJSON 200 "active VM leases" (VList (map vmLeaseResponse leases))))).
Definition vm_Assign : Handler W := fun _ r => with_id r (fun id =>
  bound assignVMRequest_decoder "" (one_string_rules "chat_id") r (fun chatID =>
  or_error (vs_AssignToChat svc id chatID) (fun vm => answer (WriteJSON 200 "VM assigned" (getVMResponse_json (toGetVMResponse vm)))))).
Definition vm_Unassign : Handler W := fun _ r => with_id r (fun id =>
  or_error (vs_Unassign svc id) (fun vm => answer (WriteJSON 200 "VM unassigned" (getVMResponse_json (toGetVMResponse vm))))).

Definition vm_GetMetricsHistory : Handler W := fun _ r => with_id r (fun id =>
  let raw := hq_Query r "limit" in
  match (if bool_decide (raw = "") then Some 300 else Atoi raw) with
  | None => answer (WriteError (BadRequest "invalid limit"))
  | Some limit =>
      match parseHistoryTime (hq_Query r "from") with
      | None => answer (WriteError (BadRequest "invalid from, use unix seconds or RFC3339"))
      | Some from =>
          match parseHistoryTime (hq_Query r "to") with
          | None => answer (WriteError (BadRequest "invalid to, use unix seconds or RFC3339"))
          | Some to =>
              or_error (vs_GetMetricsHistory svc id from to limit) (fun points =>
              answer (WriteJSON 200 "VM metrics history" (vmMetricsHistoryResponse id points)))
          end
      end
  end).
Definition vm_GetMetrics : Handler W := fun _ r => with_id r (fun id =>
  or_error (vs_GetMetrics svc id) (fun metrics => answer (WriteJSON 200 "VM metrics" (vmMetricsResponse id metrics)))).

(** The response of every VM with its cached metrics. *)
Definition with_cached (render : VM -> Metrics -> M W value) (vm : VM) : M W value :=
  let* m := vs_GetCachedMetrics svc (vm_ID vm) in render vm m.1.
Fixpoint render_all (render : VM -> M W value) (vms : list VM) : M W (list value) :=
  match vms with
  | [] => ret []
  | vm :: vms => let* v := render vm in let* rest := render_all render vms in ret (v :: rest)
  end.
Definition runtime_response (vm : VM) (m : Metrics) : M W value := ret (runtimeSnapshotResponse_json (toRuntimeSnapshotResponse vm m)).
Definition fleet_response (vm : VM) (m : Metrics) : M W value := let* t := vs_time_Now svc in ret (fleetVMResponse_json (toFleetVMResponse t vm m)).
Definition vm_ListRuntimes : Handler W := fun _ _ =>
  or_error (vs_ListRunningRuntimes svc) (fun runtimes =>
  let* out := render_all (with_cached runtime_response) runtimes in
  answer (WriteJSON 200 "running runtimes" (VList out))).

Definition vm_Create : Handler W := fun _ r =>
  bound createVMRequest_decoder no_createVMRequest createVMRequest_rules r (fun req =>
  or_error (vs_Create svc (cv_EnvironmentID req) (cv_ConversationID req) (cv_Provider req) (cv_Name req) (cv_WorkspaceSizeGB req)
              (cv_VCPU req) (cv_MemoryMB req) (cv_DiskMB req) (cv_ServicePort req)) (fun vm =>
  or_error (vs_env_GetByID svc (vm_EnvironmentID vm)) (fun env =>
  answer (Created "VM created" (createVMResponse_json (toCreateVMResponse vm env)))))).
Definition vm_Get : Handler W := fun _ r => with_id r (fun id =>
  or_error (vs_Get svc id) (fun vm => answer (WriteJSON 200 "VM retrieved" (getVMResponse_json (toGetVMResponse vm))))).
Definition vm_Stop : Handler W := fun _ r => with_id r (fun id =>
  or_error (vs_Stop svc id) (fun vm => answer (WriteJSON 200 "VM stopped" (deleteVMResponse (vm_ID vm))))).
Definition vm_Destroy : Handler W := fun _ r => with_id r (fun id =>
  or_error (vs_Destroy svc id) (fun _ => answer (WriteJSON 200 "VM destroyed" (deleteVMResponse id)))).
(** A command that fails after it has written something is a success with an error text. *)
Definition vm_ExecuteCommand : Handler W := fun _ r => with_id r (fun id =>
  bound executeCommandRequest_decoder "" (one_string_rules "command") r (fun command =>
  let* out := vs_ExecuteCommand svc id command in
  match out with
  | (output, None) => answer (WriteJSON 200 "command executed" (executeCommandResponse output ""))
  | (output, Some err) =>
      if bool_decide (output = "") then answer (WriteError err)
      else answer (WriteJSON 200 "command executed" (executeCommandResponse output (Error err)))
  end)).
Definition vm_CreateSnapshot : Handler W := fun _ r => with_id r (fun id =>
  or_error (vs_CreateSnapshot svc id) (fun snap => answer (Created "snapshot created" (vmSnapshotResponse snap)))).
(** Any failure to find the previous VM is reported as not found. *)
Definition vm_ResumeVM : Handler W := fun _ r =>
  bound resumeVMRequest_decoder "" (one_string_rules "chat_id") r (fun chatID =>
  let* vm := vs_FindPreviousLeaseForChat svc chatID in
  match vm with
  | Err _ => answer (WriteError (NotFound "previous vm for chat" chatID))
  | Ok vm => or_error (vs_ResumeVM svc (vm_ID vm) chatID) (fun resumed => answer (WriteJSON 200 "VM resumed" (getVMResponse_json (toGetVMResponse resumed))))
  end).

(** *** Streams *)

Definition stream {A} (on_value : A -> M W (option string)) (inputs : list (StreamInput A)) : M W (res Response) :=
  let* out := sse_loop on_value inputs in answer (sse_response out.1).
Definition error_event (e : error) : string := WriteSSEEvent "error" (VMap (str_field "error" (Error e))).

Definition vm_StreamRuntime (inputs : list (StreamInput unit)) : Handler W := fun _ r => with_id r (fun id =>
  stream (fun _ =>
    let* vm := vs_GetRuntimeSnapshot svc id in
    match vm with
    | Err e => ret (Some (error_event e))
    | Ok vm => let* v := with_cached runtime_response vm in ret (Some (WriteSSEEvent "runtime" v))
    end) inputs).

(** A page of a snapshot; a nil snapshot is an empty one. *)
Definition emit_page (event : string) (page_response : list value -> Z -> Z -> Z -> value) (render : VM -> Metrics -> M W value)
  (offset limit : Z) (vms : list VM) : M W (option string) :=
  let '(page, total) := paginateVMs vms offset limit in
  let* out := render_all (with_cached render) page in
  ret (Some (WriteSSEEvent event (page_response out offset limit total))).
Definition vm_StreamRuntimes (inputs : list (StreamInput (option (list VM)))) : Handler W := fun _ r =>
  let '(offset, limit) := parseFleetPagination r in
  stream (fun vms => emit_page "runtimes" runtimeSnapshotPageResponse runtime_response offset limit (default [] vms)) inputs.
(** An administrator sees the snapshots of the broadcaster, another user what a query for
    its own VMs gives at every tick. *)
Definition vm_StreamFleet (shared : list (StreamInput (option (list VM)))) (ticks : list (StreamInput unit)) : Handler W := fun cx r =>
  let '(offset, limit) := parseFleetPagination r in
  if bool_decide (GetUserRole cx = "admin")
  then stream (fun vms => emit_page "fleet" fleetPageResponse fleet_response offset limit (default [] vms)) shared
  else
    stream (fun _ =>
      let* entries := vs_ListCachedFleetSnapshot svc (GetUserID cx) (GetUserRole cx) in
      match entries with
      | Err e => ret (Some (error_event e))
      | Ok entries => emit_page "fleet" fleetPageResponse fleet_response offset limit (fe_VM <$> entries)
      end) ticks.

Fixpoint activity_loop (lookback : Z) (c : Cursor) (inputs : list (StreamInput (option (list PersistedRuntimeEvent)))) : string * bool :=
  match inputs with
  | [] => ("", true)
  | RequestDone :: _ | ChannelClosed :: _ | Heartbeat false :: _ => ("", false)
  | Heartbeat true :: rest => let out := activity_loop lookback c rest in (WriteSSEHeartbeat +:+ out.1, out.2)
  | Received batch writable :: rest =>
      let events := default [] batch in
      match fresh_events lookback c events with
      | [] => activity_loop lookback c rest
      | fresh =>
          if writable : bool
          then (let out := activity_loop lookback (next_cursor lookback c events) rest in
                (WriteSSEEvent "activity" (activity_payload fresh) +:+ out.1, out.2))
          else ("", false)
      end
  end.
Definition vm_StreamActivity (inputs : list (StreamInput (option (list PersistedRuntimeEvent)))) : Handler W := fun _ r =>
  answer (sse_response (activity_loop (parseActivityLookback r) new_cursor inputs).1).
End handlers.

Section services.
Context {B St : Type} `{!Float64, !Backend B, !MetricsBackend B, !Storage St} (s : Service) (metricsRepo : bool).
Definition vm_services : VmServices (Monitored B St) := {|
  vs_Create envID conv provider name ws vcpu mem disk port := on_vms (Create s envID conv provider name ws vcpu mem disk port);
  vs_Get id := on_vms (Get id);
  vs_Stop id := on_vms (Stop s id);
  vs_Destroy id := on_vms (Destroy s id);
  vs_AssignToChat vmID chatID := on_vms (AssignToChat s vmID chatID);
  vs_Unassign vmID := on_vms (Unassign s vmID);
  vs_ExecuteCommand id command := on_vms (ExecuteCommand s id command);
  vs_CreateSnapshot id := on_vms (CreateSnapshot s id);
  vs_FindPreviousLeaseForChat chatID := on_vms (svc_FindPreviousLeaseForChat chatID);
  vs_ResumeVM vmID chatID := on_vms (ResumeVM s vmID chatID);
  vs_ListActiveLeasesByChat chatID := on_vms (svc_ListActiveLeasesByChat chatID);
  vs_ListRunningRuntimes := on_vms ListRunningRuntimes;
  vs_GetRuntimeSnapshot id := on_vms (GetRuntimeSnapshot id);
  vs_GetMetrics := GetMetrics;
  vs_GetMetricsHistory := GetMetricsHistory metricsRepo;
  vs_GetCachedMetrics := GetCachedMetrics;
  vs_ListCachedFleetSnapshot := ListCachedFleetSnapshot;
  vs_env_GetByID id := on_vms (EnvGetByID id);
  vs_time_Now := on_vms now |}.
End services.

(** ** Pages *)

Lemma paginate_spec {A} (vms : list A) offset limit : 0 <= offset -> 1 <= limit <= 100 -> Z.of_nat (length vms) < 2 ^ 62 ->
  paginateVMs vms offset limit = (take (Z.to_nat limit) (drop (Z.to_nat offset) vms), Z.of_nat (length vms)).
Proof.
  intros Ho Hl Hlen. unfold paginateVMs. case_bool_decide as Hc.
  - rewrite drop_ge by lia. by rewrite take_nil.
  - assert (E : i64 (offset + limit) = offset + limit) by (unfold i64; rewrite Z.mod_small; lia). rewrite E.
    f_equal. case_bool_decide as Hs; [| by replace (offset + limit - offset) with limit by lia].
    rewrite !take_ge; [done | rewrite length_drop; lia..].
Qed.

(** The pages of a list, in order, are the list. *)
Lemma pages_cover {A} (vms : list A) limit n : 1 <= limit <= 100 -> Z.of_nat (length vms) < 2 ^ 62 ->
  Z.of_nat (length vms) <= Z.of_nat n * limit ->
  concat (map (fun k => (paginateVMs vms (Z.of_nat k * limit) limit).1) (seq 0 n)) = vms.
Proof.
  intros Hl Hlen Hn.
  assert (G : forall k, concat (map (fun k => (paginateVMs vms (Z.of_nat k * limit) limit).1) (seq 0 k)) = take (Z.to_nat (Z.of_nat k * limit)) vms).
  { induction k as [|k IH]; [done |]. rewrite seq_S, map_app, concat_app, IH. cbn [map concat Nat.add].
    rewrite app_nil_r, paginate_spec by lia. cbn [fst].
    rewrite <- (take_drop (Z.to_nat (Z.of_nat k * limit)) (take (Z.to_nat (Z.of_nat (S k) * limit)) vms)).
    rewrite take_take, Nat.min_l by lia. rewrite skipn_firstn_comm. f_equal. f_equal. lia. }
  rewrite G. apply take_ge. lia.
Qed.

(** ** The activity stream *)

Definition newest_first_events (l : list PersistedRuntimeEvent) : Prop := StronglySorted (fun a b => pe_CreatedAt b <= pe_CreatedAt a) l.

(** The events sent for each batch in turn. *)
Fixpoint sent (lookback : Z) (c : Cursor) (batches : list (list PersistedRuntimeEvent)) : list (list PersistedRuntimeEvent) :=
  match batches with
  | [] => []
  | b :: bs => fresh_events lookback c b :: sent lookback (next_cursor lookback c b) bs
  end.

(** What a batch gives, without the reversals of the loop. *)
Lemma fresh_eq lookback c l : 0 <= lookback ->
  fresh_events lookback c l =
  let f := List.filter (fun e => bool_decide (ac_lastSeen c < pe_CreatedAt e)) l in
  if ac_firstBatch c && bool_decide (lookback < Z.of_nat (length f)) then take (Z.to_nat lookback) f else f.
Proof.
  intros Hl. unfold fresh_events. rewrite filter_rev, length_rev. cbn. destruct (_ && _) eqn:E; [| apply rev_involutive].
  apply andb_prop in E as [_ E%bool_decide_eq_true]. rewrite firstn_skipn_rev. f_equal. f_equal. lia.
Qed.

Lemma newest_first_filter f l : newest_first_events l -> newest_first_events (List.filter f l).
Proof.
  unfold newest_first_events. induction 1 as [|x l Hl IH Hx]; cbn; [constructor |]. destruct (f x); [| done]. constructor; [done |].
  apply Forall_forall. intros y. rewrite list_elem_of_In, filter_In, <- list_elem_of_In. rewrite Forall_forall in Hx. intros [Hy _]. auto.
Qed.
Lemma newest_first_take n l : newest_first_events l -> newest_first_events (take n l).
Proof.
  intros H. revert n. unfold newest_first_events in *. induction H as [|x l Hl IH Hx]; intros [|n]; cbn; try constructor; [apply IH |].
  by apply Forall_take.
Qed.
Lemma newest_head l x y : newest_first_events (x :: l) -> y ∈ x :: l -> pe_CreatedAt y <= pe_CreatedAt x.
Proof.
  intros [_ Hx]%StronglySorted_inv [->|Hy]%elem_of_cons; [lia |]. rewrite Forall_forall in Hx. auto.
Qed.

Section activity.
Context (lookback : Z) (Hlookback : 1 <= lookback).

Lemma fresh_spec c l : newest_first_events l ->
  newest_first_events (fresh_events lookback c l) /\
  (forall e, e ∈ fresh_events lookback c l -> e ∈ l /\ ac_lastSeen c < pe_CreatedAt e) /\
  (forall e, e ∈ l -> e ∉ fresh_events lookback c l ->
     pe_CreatedAt e <= ac_lastSeen c \/
     ac_firstBatch c = true /\ Z.of_nat (length (fresh_events lookback c l)) = lookback /\
       forall x, x ∈ fresh_events lookback c l -> pe_CreatedAt e <= pe_CreatedAt x).
Proof.
  intros Hs. rewrite fresh_eq by lia. cbn zeta. set (f := List.filter _ l).
  assert (Hf : forall e, e ∈ f <-> e ∈ l /\ ac_lastSeen c < pe_CreatedAt e).
  { intros e. unfold f. by rewrite !list_elem_of_In, filter_In, bool_decide_eq_true. }
  apply (newest_first_filter (fun e => bool_decide (ac_lastSeen c < pe_CreatedAt e))) in Hs. fold f in Hs. clearbody f.
  destruct (ac_firstBatch c && bool_decide (lookback < Z.of_nat (length f))) eqn:E.
  - apply andb_prop in E as [E1 E2%bool_decide_eq_true]. split_and!.
    + by apply newest_first_take.
    + intros e He. apply Hf. eapply elem_of_submseteq; [exact He | apply submseteq_take].
    + intros e Hel Hni. destruct (decide (ac_lastSeen c < pe_CreatedAt e)) as [Hlt|]; [right | left; lia].
      split_and!; [done | rewrite length_take; lia |]. intros x Hx.
      assert (Hd : e ∈ drop (Z.to_nat lookback) f).
      { assert (Hef : e ∈ f) by (by apply Hf). rewrite <- (take_drop (Z.to_nat lookback) f) in Hef.
        apply elem_of_app in Hef as [?|?]; done. }
      rewrite <- (take_drop (Z.to_nat lookback) f) in Hs. clear -Hs Hx Hd. induction (take (Z.to_nat lookback) f) as [|y t IH]; [by apply not_elem_of_nil in Hx |].
      cbn in Hs. apply StronglySorted_inv in Hs as [Hs Hy]. apply elem_of_cons in Hx as [->|Hx]; [| auto].
      rewrite Forall_forall in Hy. apply Hy, elem_of_app. by right.
  - split_and!; [done | by intros e ?%Hf |]. intros e Hel Hni. left. destruct (decide (ac_lastSeen c < pe_CreatedAt e)); [| lia].
    exfalso. apply Hni, Hf. done.
Qed.

Lemma next_cursor_spec c l : newest_first_events l ->
  fresh_events lookback c l = [] /\ next_cursor lookback c l = c \/
  (exists x, x ∈ fresh_events lookback c l /\ ac_lastSeen (next_cursor lookback c l) = pe_CreatedAt x /\ ac_lastSeen c < pe_CreatedAt x) /\
  ac_firstBatch (next_cursor lookback c l) = false /\
  (forall y, y ∈ fresh_events lookback c l -> pe_CreatedAt y <= ac_lastSeen (next_cursor lookback c l)).
Proof.
  intros Hs. destruct (fresh_spec c l Hs) as (H1 & H2 & _). unfold next_cursor. destruct (fresh_events lookback c l) as [|x f]; [by left | right].
  cbn. split_and!; [exists x; split_and!; [by left | done |] | done |].
  - destruct (H2 x); [by left | done].
  - intros y Hy. by eapply newest_head.
Qed.

Lemma sent_newer batches : forall c k l e, Forall newest_first_events batches ->
  sent lookback c batches !! k = Some l -> e ∈ l -> ac_lastSeen c < pe_CreatedAt e.
Proof.
  induction batches as [|b bs IH]; intros c k l e Hs Hk He; [done |]. apply Forall_cons in Hs as [Hb Hbs].
  destruct k as [|k]; cbn in Hk.
  - injection Hk as <-. by apply (fresh_spec c b Hb).
  - pose proof (IH _ _ _ _ Hbs Hk He) as Hlt. destruct (next_cursor_spec c b Hb) as [[_ E]|((x & _ & E & Hx) & _)]; [by rewrite E in Hlt | lia].
Qed.

(** Later batches give newer events. *)
Lemma sent_in_order batches : forall c i j li lj x y, Forall newest_first_events batches -> (i < j)%nat ->
  sent lookback c batches !! i = Some li -> sent lookback c batches !! j = Some lj -> x ∈ li -> y ∈ lj ->
  pe_CreatedAt x < pe_CreatedAt y.
Proof.
  induction batches as [|b bs IH]; intros c i j li lj x y Hs Hij Hi Hj Hx Hy; [done |]. apply Forall_cons in Hs as [Hb Hbs].
  destruct j as [|j]; [lia |]. cbn in Hj. destruct i as [|i]; cbn in Hi; [| eapply (IH _ i j); eauto; lia].
  injection Hi as <-. pose proof (sent_newer _ _ _ _ _ Hbs Hj Hy) as Hlt.
  destruct (next_cursor_spec c b Hb) as [[E _]|(_ & _ & Hle)]; [rewrite E in Hx; by apply not_elem_of_nil in Hx |].
  specialize (Hle _ Hx). lia.
Qed.

(** What is not sent was covered by something sent before, or was beyond the window. *)
Lemma sent_complete batches : forall c i b l e, Forall newest_first_events batches ->
  batches !! i = Some b -> sent lookback c batches !! i = Some l -> e ∈ b -> e ∉ l ->
  pe_CreatedAt e <= ac_lastSeen c \/
  (exists j lj x, (j < i)%nat /\ sent lookback c batches !! j = Some lj /\ x ∈ lj /\ pe_CreatedAt e <= pe_CreatedAt x) \/
  (ac_firstBatch c = true /\ Z.of_nat (length l) = lookback /\ (forall x, x ∈ l -> pe_CreatedAt e <= pe_CreatedAt x) /\
   forall j lj, (j < i)%nat -> sent lookback c batches !! j = Some lj -> lj = []) .
Proof.
  induction batches as [|b0 bs IH]; intros c i b l e Hs Hb Hl He Hni; [done |]. apply Forall_cons in Hs as [Hb0 Hbs].
  destruct i as [|i]; cbn in Hb, Hl.
  - injection Hb as <-. injection Hl as <-. destruct (fresh_spec c b0 Hb0) as (_ & _ & H3).
    destruct (H3 _ He Hni) as [Hle|(Hff & Hlen & Hall)]; [by left | right; right]. split_and!; [done | done | done | intros j lj Hj; lia].
  - destruct (next_cursor_spec c b0 Hb0) as [[Ef Ec]|((x & Hx & Ex & _) & Hff & _)].
    + rewrite Ec in Hl. destruct (IH c i b l e Hbs Hb Hl He Hni) as [Hle|[(j & lj & x & Hj & Hlj & Hx & Hle)|(Hf & Hlen & Hall & Hnone)]].
      * by left.
      * right; left. exists (S j), lj, x. cbn. rewrite Ec. split_and!; [lia | done..].
      * right; right. split_and!; [done | done | done |]. intros [|j] lj Hj Hlj; cbn in Hlj; [congruence |]. rewrite Ec in Hlj. eapply Hnone; [| exact Hlj]. lia.
    + right; left. destruct (IH _ i b l e Hbs Hb Hl He Hni) as [Hle|[(j & lj & y & Hj & Hlj & Hy & Hle)|(Hf & Hlen & Hall & Hnone)]].
      * exists 0%nat, (fresh_events lookback c b0), x. split_and!; [lia | done | done | lia].
      * exists (S j), lj, y. split_and!; [lia | done..].
      * congruence.
Qed.
(** The text of a stream whose client keeps up: one event for each batch with something new. *)
Definition activity_text (out : list (list PersistedRuntimeEvent)) : string :=
  foldr String.append "" (map (fun l => WriteSSEEvent "activity" (activity_payload l)) (List.filter (fun l => negb (bool_decide (l = []))) out)).
Lemma activity_loop_text batches : forall c,
  activity_loop lookback c (map (fun b => Received (Some b) true) batches) = (activity_text (sent lookback c batches), true).
Proof.
  induction batches as [|b bs IH]; intros c; [done |]. cbn [map activity_loop sent]. change (default [] (Some b)) with b.
  destruct (fresh_events lookback c b) as [|x l] eqn:E.
  - rewrite IH. replace (next_cursor lookback c b) with c by (unfold next_cursor; by rewrite E).
    unfold activity_text. cbn [List.filter]. rewrite bool_decide_eq_true_2 by done. reflexivity.
  - cbn zeta. rewrite IH. unfold activity_text. cbn [List.filter fst snd]. rewrite bool_decide_eq_false_2 by done. cbn [negb map].
    done.
Qed.

(** The activity stream, for batches that come newest first: what is written is one
    event for each batch that has something new. Nothing is sent twice or out of order:
    everything sent for a later batch is newer than everything sent before. And an event
    of a batch that is not sent with it is at most as new as an event sent earlier, or it
    lies before the window of [lookback] events that the first batch was cut to. *)
Theorem activity_stream_once batches :
  Forall newest_first_events batches -> Forall (Forall (fun e => 0 < pe_CreatedAt e)) batches ->
  let out := sent lookback new_cursor batches in
  activity_loop lookback new_cursor (map (fun b => Received (Some b) true) batches) = (activity_text out, true) /\
  (forall i b l, batches !! i = Some b -> out !! i = Some l -> newest_first_events l /\ forall e, e ∈ l -> e ∈ b) /\
  (forall i j li lj x y, (i < j)%nat -> out !! i = Some li -> out !! j = Some lj -> x ∈ li -> y ∈ lj -> pe_CreatedAt x < pe_CreatedAt y) /\
  (forall i b l e, batches !! i = Some b -> out !! i = Some l -> e ∈ b -> e ∉ l ->
     (exists j lj x, (j < i)%nat /\ out !! j = Some lj /\ x ∈ lj /\ pe_CreatedAt e <= pe_CreatedAt x) \/
     Z.of_nat (length l) = lookback /\ (forall x, x ∈ l -> pe_CreatedAt e <= pe_CreatedAt x) /\
     forall j lj, (j < i)%nat -> out !! j = Some lj -> lj = []).
Proof.
  intros Hs Hpos out. split_and!.
  - apply activity_loop_text.
  - assert (G : forall bs c i b l, Forall newest_first_events bs -> bs !! i = Some b -> sent lookback c bs !! i = Some l ->
              newest_first_events l /\ forall e, e ∈ l -> e ∈ b); [| intros i b l; by apply G].
    induction bs as [|b0 bs IH]; intros c i b l Hbs Hb Hl; [done |]. apply Forall_cons in Hbs as [Hb0 Hbs].
    destruct i as [|i]; cbn in Hb, Hl; [| by eapply IH]. injection Hb as <-. injection Hl as <-.
    destruct (fresh_spec c b0 Hb0) as (H1 & H2 & _). split; [done |]. intros e He. by apply H2.
  - intros i j li lj x y Hij Hi Hj. by apply (sent_in_order batches new_cursor i j).
  - intros i b l e Hb Hl He Hni. destruct (sent_complete batches new_cursor i b l e Hs Hb Hl He Hni) as [Hle|[H|(_ & H)]]; [| by left | by right].
    assert (Hb' : b ∈ batches) by (by eapply list_elem_of_lookup_2). rewrite Forall_forall in Hpos. specialize (Hpos _ Hb').
    rewrite Forall_forall in Hpos. specialize (Hpos _ He). cbn in Hle. lia.
Qed.
End activity.

Definition sample_activity (data : string) (t : Z) : PersistedRuntimeEvent :=
  {| pe_ChatID := "chat-1"; pe_TraceID := "t"; pe_Type := EventToolCall; pe_Step := 1; pe_Data := data; pe_Command := ""; pe_Result := "";
     pe_Error := ""; pe_TokenUsage := None; pe_Metadata := [("vm_id", VStr "vm-a")]; pe_CreatedAt := t |}.
Definition sample_batches : list (list PersistedRuntimeEvent) :=
  [[sample_activity "c" 3; sample_activity "b" 2; sample_activity "a" 1]; [];
   [sample_activity "d" 4; sample_activity "c" 3; sample_activity "b" 2]].
(** A window of two: "b" and "c" first, then "d"; "a" lies before the window. *)
Example sample_sent : sent 2 new_cursor sample_batches = [[sample_activity "c" 3; sample_activity "b" 2]; []; [sample_activity "d" 4]].
Proof. reflexivity. Qed.
Lemma activity_stream_once_witness :
  activity_loop 2 new_cursor (map (fun b => Received (Some b) true) sample_batches) = (activity_text (sent 2 new_cursor sample_batches), true).
Proof.
  apply (activity_stream_once 2 ltac:(lia) sample_batches); unfold sample_batches, newest_first_events; repeat constructor; cbn; lia.
Defined.

(** Two events with the same time in different batches: the second is never sent. *)
Example equal_times_are_lost :
  sent 50 new_cursor [[sample_activity "a" 1]; [sample_activity "b" 1; sample_activity "a" 1]] = [[sample_activity "a" 1]; []].
Proof. reflexivity. Qed.
