(* ===== verification/ChatApi.v ===== *)
(** * The HTTP handlers of chats: api/http/v1/chat

    The handlers call the chat service through a record of its operations, as the Go
    handlers do through the interface chatService; [chat_services] is the service of
    [ChatService]. The cursors of listings travel as base64 of a JSON object. *)

From S2P Require Import Prelude Exception Naming GoLib Domain World Json Encoding ExecProtocol Orchestrator Chat EventHub ChatService Http Middleware AuthApi.

Local Open Scope go_scope.

(** ** Bodies and responses (dto.go) *)

Record sendMessageRequest := { sm_Message : string; sm_ConversationID : string; sm_AgentID : string; sm_Model : string; sm_SystemPrompt : string }.
Definition no_sendMessageRequest : sendMessageRequest :=
  {| sm_Message := ""; sm_ConversationID := ""; sm_AgentID := ""; sm_Model := ""; sm_SystemPrompt := "" |}.
Definition sendMessageRequest_decoder : decoder sendMessageRequest := [
  ("message", get_str (fun x r => r <| sm_Message := x |>)); ("conversation_id", get_str (fun x r => r <| sm_ConversationID := x |>));
  ("agent_id", get_str (fun x r => r <| sm_AgentID := x |>)); ("model", get_str (fun x r => r <| sm_Model := x |>));
  ("system_prompt", get_str (fun x r => r <| sm_SystemPrompt := x |>))].
Definition sendMessageRequest_rules (r : sendMessageRequest) : list field_rules := [
  {| fr_Name := "message"; fr_Value := FStr (sm_Message r); fr_Rules := [Required; Min 1] |}].

(** A map[string]any is printed with its keys sorted. *)
Definition key_order (a b : string * value) : Prop := String.leb (fst a) (fst b) = true.
#[export] Instance key_order_dec : RelDecision key_order.
Proof. intros a b. unfold key_order. apply _. Defined.
Fixpoint sort_keys (v : value) : value :=
  match v with
  | VList l => VList (map sort_keys l)
  | VMap m => VMap (merge_sort key_order (map (fun kv => match kv with (k, x) => (k, sort_keys x) end) m))
  | v => v
  end.
Definition map_opt (k : string) (m : Args) : list (string * value) := omitempty (bool_decide (length m = 0%nat)) k (sort_keys (VMap m)).

Definition ChatStatus_string (s : ChatStatus) : string := match s with ChatActive => "active" | ChatIdle => "idle" | ChatClosed => "closed" end.
Definition messageResponse (m : Message) : value := VMap (
  str_field "role" (msg_Role m) ++ str_field "content" (msg_Content m) ++ str_field "content_type" (msg_ContentType m) ++
  map_opt "metadata" (msg_Metadata m) ++ field "at" (time_json (msg_At m))).
Definition chat_toResponse (c : Chat) : value := VMap (
  str_field "id" (c_ID c) ++ str_field "agent_id" (c_AgentID c) ++ str_field "user_id" (c_UserID c) ++ str_field "title" (c_Title c) ++
  str_field "status" (ChatStatus_string (c_Status c)) ++ field "messages" (VList (map messageResponse (c_Messages c))) ++
  field "created_at" (time_json (c_CreatedAt c)) ++ field "updated_at" (time_json (c_UpdatedAt c))).
(** omitempty has no effect on a time. *)
Definition conversationSummaryResponse (s : ConversationSummary) : value := VMap (
  str_field "id" (cs_ID s) ++ str_field "agent_id" (cs_AgentID s) ++ str_field "user_id" (cs_UserID s) ++ str_field "title" (cs_Title s) ++
  str_opt "vm_id" (cs_VMID s) ++ str_field "status" (ChatStatus_string (cs_Status s)) ++ str_opt "last_message" (cs_LastMessage s) ++
  field "last_message_at" (time_json (cs_LastMessageAt s)) ++ field "created_at" (time_json (cs_CreatedAt s)) ++
  field "updated_at" (time_json (cs_UpdatedAt s))).
Definition messageSummaryResponse (m : TimelineEntry) : value := VMap (
  str_field "id" (te_ID m) ++ str_field "source" (te_Source m) ++ int_opt "sequence_number" (te_SequenceNumber m) ++ str_opt "role" (te_Role m) ++
  str_opt "event_type" (te_EventType m) ++ int_opt "step" (te_Step m) ++ str_field "content" (te_Content m) ++
  str_opt "content_type" (te_ContentType m) ++ map_opt "metadata" (te_Metadata m) ++ field "at" (time_json (te_At m))).
Definition messageAcceptedResponse (chatID : string) : value := VMap (str_field "chat_id" chatID ++ str_field "status" "processing").
(** orchestrator.RuntimeEvent as JSON *)
Definition RuntimeEvent_json (e : RuntimeEvent) : value := VMap (
  str_field "type" (ev_Type e) ++ str_opt "chat_id" (ev_ChatID e) ++ str_opt "trace_id" (ev_TraceID e) ++ int_opt "step" (ev_Step e) ++
  str_opt "data" (ev_Data e) ++ str_opt "command" (ev_Command e) ++ str_opt "result" (ev_Result e) ++ str_opt "error" (ev_Error e) ++
  match ev_TokenUsage e with Some u => field "token_usage" (TokenUsage_value u) | None => [] end ++
  map_opt "metadata" (ev_Metadata e) ++ field "at" (time_json (ev_At e))).

(** ** Cursors (handler.go) *)

Definition raw_cursor_decoder : decoder (string * string) := [("c", get_str (fun x r => (x, snd r))); ("i", get_str (fun x r => (fst r, x)))].
Definition encodeCursor (c : ListCursor) : string :=
  b64_url_encode (Marshal (VMap (str_field "c" (rfc3339nano (lc_CreatedAt c)) ++ str_field "i" (lc_ID c)))).
(** A cursor that cannot be read is no cursor. *)
Definition decode_cursor {R C} (d : decoder R) (zero : R) (finish : R -> option C) (r : HttpRequest) : option C :=
  let encoded := hq_Query r "cursor" in
  if bool_decide (encoded = "") then None
  else match b64_url_decode encoded with
       | Err _ => None
       | Ok decoded => match Unmarshal decoded ≫= decode_struct d zero with Some raw => finish raw | None => None end
       end.
Definition parseCursor : HttpRequest -> option ListCursor :=
  decode_cursor raw_cursor_decoder ("", "") (fun '(t, id) =>
    match parse_rfc3339 t with Some ts => Some {| lc_CreatedAt := ts; lc_ID := id |} | None => None end).
Definition raw_message_cursor_decoder : decoder string := [("t", get_str (fun x _ => x))].
Definition encodeMessageCursor (t : Z) : string := b64_url_encode (Marshal (VMap (str_field "t" (rfc3339nano t)))).
Definition parseMessageCursor : HttpRequest -> option Z := decode_cursor raw_message_cursor_decoder "" parse_rfc3339.
Definition parseListLimit (r : HttpRequest) : Z := query_int 1 100 20 (hq_Query r "limit").
Definition parseMessagesLimit (r : HttpRequest) : Z := query_int 1 100 50 (hq_Query r "limit").

Definition page_of (name : string) (items : list value) (next_cursor : option string) : value := VMap (
  field name (VList items) ++ str_opt "next_cursor" (default "" next_cursor) ++ field "has_more" (VBool (bool_decide (is_Some next_cursor)))).
Definition toListResponse (items : list ConversationSummary) (next : option ListCursor) : value :=
  page_of "conversations" (map conversationSummaryResponse items) (encodeCursor <$> next).
Definition toListMessagesResponse (items : list TimelineEntry) (next : option Z) : value :=
  page_of "messages" (map messageSummaryResponse items) (encodeMessageCursor <$> next).

(** ** The handlers *)

Record ChatServices (W : Type) := {
  hs_SendOrCreateAsync : string -> string -> ChatParams -> M W (res string);
  hs_Get : string -> M W (res Chat);
  hs_ListConversations : ListParams -> M W (res (list ConversationSummary * option ListCursor));
  hs_ListMessages : ListMessagesParams -> M W (res (list TimelineEntry * option Z));
  hs_SubscribeRuntimeEvents : string -> M W (res Z);            (* the channel *)
  hs_Close : string -> M W (res unit) }.
Arguments hs_SendOrCreateAsync {W}. Arguments hs_Get {W}. Arguments hs_ListConversations {W}. Arguments hs_ListMessages {W}.
Arguments hs_SubscribeRuntimeEvents {W}. Arguments hs_Close {W}.

Section chat_handlers.
Context {W : Type} `{!Decoding} (svc : ChatServices W).
Definition missing_chat_id : error := BadRequest "missing chat id".

Definition chat_SendMessage : Handler W := fun cx r =>
  bound sendMessageRequest_decoder no_sendMessageRequest sendMessageRequest_rules r (fun req =>
  or_error (hs_SendOrCreateAsync svc (sm_ConversationID req) (sm_Message req)
              {| cp_AgentID := sm_AgentID req; cp_UserID := GetUserID cx; cp_AgentName := ""; cp_Model := sm_Model req;
                 cp_SystemPrompt := sm_SystemPrompt req; cp_Title := "" |}) (fun chatID =>
  answer (WriteJSON 202 "message accepted" (messageAcceptedResponse chatID)))).
Definition chat_Get : Handler W := fun _ r =>
  unless_empty (hq_Param r "id") missing_chat_id
  (or_error (hs_Get svc (hq_Param r "id")) (fun c => answer (WriteJSON 200 "chat retrieved" (chat_toResponse c)))).
Definition chat_List : Handler W := fun cx r =>
  unless_empty (GetUserID cx) not_authenticated
  (or_error (hs_ListConversations svc {| lp_UserID := GetUserID cx; lp_Cursor := parseCursor r; lp_Limit := parseListLimit r |}) (fun '(items, next) =>
   answer (WriteJSON 200 "conversations retrieved" (toListResponse items next)))).
Definition chat_ListMessages : Handler W := fun _ r =>
  unless_empty (hq_Param r "id") missing_chat_id
  (or_error (hs_ListMessages svc {| lm_ChatID := hq_Param r "id"; lm_Cursor := parseMessageCursor r; lm_Limit := parseMessagesLimit r |}) (fun '(items, next) =>
   answer (WriteJSON 200 "messages retrieved" (toListMessagesResponse items next)))).
Definition chat_Close : Handler W := fun _ r =>
  unless_empty (hq_Param r "id") missing_chat_id
  (or_error (hs_Close svc (hq_Param r "id")) (fun _ => answer NoContent)).

(** The inputs are what the select meets on the channel of the subscription. *)
Definition chat_Stream (inputs : Z -> list (StreamInput RuntimeEvent)) : Handler W := fun _ r =>
  unless_empty (hq_Param r "id") missing_chat_id
  (or_error (hs_SubscribeRuntimeEvents svc (hq_Param r "id")) (fun channel =>
   let* out := sse_loop (fun event => ret (Some (WriteSSEEvent (ev_Type event) (RuntimeEvent_json event)))) (inputs channel) in
   answer (sse_response out.1))).
End chat_handlers.

Section chat_services.
Context {S : Type} (s : ChatService S) (time_Now : M S Z) (uuid_NewString : M S string).
Definition chat_services : ChatServices (ChatWorld S) := {|
  hs_SendOrCreateAsync := SendOrCreateAsync s time_Now uuid_NewString; hs_Get := ChatService.Get s;
  hs_ListConversations := ListConversations s; hs_ListMessages := ListMessages s;
  hs_SubscribeRuntimeEvents := SubscribeRuntimeEvents s; hs_Close := Close s time_Now |}.
End chat_services.

(** ** Cursors are read back *)

Lemma fmt_d_ascii z : all_bytes is_ascii (fmt_d z) = true.
Proof.
  destruct (fmt_d_shape z) as (neg & c & d & -> & Hc & _ & Hd & _). rewrite all_bytes_app.
  assert (Hdig : forall x, is_digit x = true -> is_ascii x = true).
  { intros x Hx%bool_decide_eq_true. apply bool_decide_eq_true. lia. }
  assert (Hds : all_bytes is_ascii d = true).
  { clear -Hd Hdig. induction d as [|x d IH]; [done |]. cbn in *. apply andb_prop in Hd as [Hx Hd]. by rewrite Hdig, IH. }
  cbn. rewrite Hdig, Hds by done. by destruct neg.
Qed.
Lemma pad_ascii w z : all_bytes is_ascii (pad w z) = true.
Proof.
  unfold pad. rewrite all_bytes_app, fmt_d_ascii, andb_true_r. induction (w - str_len (fmt_d z))%nat as [|n IH]; [done |]. exact IH.
Qed.
Lemma rfc3339_ascii t : all_bytes is_ascii (rfc3339nano t) = true.
Proof.
  unfold rfc3339nano. destruct (civil (t / second / 86400)) as [[y m] d]. cbn zeta.
  assert (Hf : all_bytes is_ascii (trim_zeros (pad 9 (t mod second))) = true).
  { destruct (trim_zeros_spec (pad 9 (t mod second))) as [k Hk]. pose proof (pad_ascii 9 (t mod second)) as H.
    rewrite Hk, all_bytes_app in H. by apply andb_prop in H as [H _]. }
  rewrite !all_bytes_app, !pad_ascii. case_bool_decide; [done |]. by rewrite all_bytes_app, Hf.
Qed.

Lemma b64_nonempty s : s <> "" -> b64_url_encode s <> "".
Proof. by destruct s as [|a [|b [|c s]]]. Qed.

(** A cursor parameter holding the encoding of an object is decoded to it. *)
Lemma decode_cursor_roundtrip {R C} (d : decoder R) zero (finish : R -> option C) m raw r :
  printable (VMap m) -> decode d m zero = Some raw -> hq_Query r "cursor" = b64_url_encode (Marshal (VMap m)) ->
  decode_cursor d zero finish r = finish raw.
Proof.
  intros Hp Hd Hq. unfold decode_cursor. rewrite Hq, bool_decide_eq_false_2.
  - rewrite b64_url_roundtrip, Unmarshal_Marshal by done. cbn [mbind option_bind decode_struct]. by rewrite Hd.
  - apply b64_nonempty. rewrite Marshal_map. done.
Qed.

(** The next_cursor of a listing, sent back as the parameter cursor, is read as the
    cursor it was made from, for conversations and for messages: for times of the years 1
    to 9999 and identifiers in UTF-8. *)
Theorem cursor_roundtrip c t r1 r2 :
  printable_time (lc_CreatedAt c) -> str_ok (lc_ID c) -> printable_time t ->
  hq_Query r1 "cursor" = encodeCursor c -> hq_Query r2 "cursor" = encodeMessageCursor t ->
  parseCursor r1 = Some c /\ parseMessageCursor r2 = Some t.
Proof.
  intros Hc Hid Ht E1 E2. pose proof (ascii_utf8 _ (rfc3339_ascii (lc_CreatedAt c))) as Ha1. pose proof (ascii_utf8 _ (rfc3339_ascii t)) as Ha2.
  assert (P1 : members_ok (str_field "c" (rfc3339nano (lc_CreatedAt c)) ++ str_field "i" (lc_ID c))) by (apply members_app; by apply members_field).
  assert (P2 : members_ok (str_field "t" (rfc3339nano t))) by (by apply members_field). split.
  - unfold parseCursor. rewrite (decode_cursor_roundtrip raw_cursor_decoder ("", "") _ _ (rfc3339nano (lc_CreatedAt c), lc_ID c) _ P1 eq_refl E1).
    rewrite rfc3339_roundtrip by done. by destruct c.
  - unfold parseMessageCursor. rewrite (decode_cursor_roundtrip raw_message_cursor_decoder "" _ _ (rfc3339nano t) _ P2 eq_refl E2).
    by rewrite rfc3339_roundtrip.
Qed.

Definition query_only (k v : string) : HttpRequest := {|
  hq_Method := "GET"; hq_Path := "/api/v1/chat"; hq_Header := fun _ => ""; hq_Query := fun x => if bool_decide (x = k) then v else "";
  hq_Param := fun _ => ""; hq_Body := None |}.
Definition sample_cursor : ListCursor := {| lc_CreatedAt := 719162 * 86400 * second + 1500; lc_ID := "chat-1" |}.
Lemma cursor_roundtrip_witness :
  parseCursor (query_only "cursor" (encodeCursor sample_cursor)) = Some sample_cursor /\
  parseMessageCursor (query_only "cursor" (encodeMessageCursor 7)) = Some 7.
Proof.
  apply (cursor_roundtrip sample_cursor 7); [vm_compute; split; congruence | reflexivity | vm_compute; split; congruence | reflexivity | reflexivity].
Defined.
(** A cursor that was tampered with starts from the beginning. *)
Example broken_cursor : parseCursor (query_only "cursor" "x") = None.
Proof. reflexivity. Qed.
