(* ===== verification/Api.v ===== *)
(** * The public server: src/api/http/server.go and the RegisterRoutes of its handlers

    The table of routes with the access each of them asks for, the middleware around it,
    and what the server promises: without a valid token a request to a protected route
    changes nothing, administrators' routes are closed to other users, and a protected
    handler runs as the user of the token.

    The handlers act on one world [W] through the records of services. The router of
    package chi is a parameter: it names one of the routes and the path parameters. So is
    the CORS handler, which answers preflight requests itself and adds headers to other
    answers. The Logging middleware is in Logging.v.

    At the end the server at work: a router in the manner of chi, services that only count their calls, and requests to
    the server of [Api] with and without tokens. *)

From S2P Require Import Prelude Exception Naming GoLib Domain World Json Encoding ExecProtocol Orchestrator Chat Hoare Http Middleware Accounts AuthApi Metrics VmApi ChatApi AccountsSpec.

Local Open Scope go_scope.

(** How a group of routes is registered: without middleware, after Authenticate, after
    Authenticate and RequireRole("admin"). *)
Inductive Access := Public | AnyUser | Admin.
#[export] Instance Access_eq_dec : EqDecision Access.
Proof. solve_decision. Defined.

Section server.
Context {W : Type} `{DE : !Decoding, JW : !JWT, FL : !Float64}.
Context (time_Now : M W Z) (uuid_NewString : M W string) (jwtManager : Manager).
Context (auth : AuthServices W) (agents : AgentServices W) (chats : ChatServices W) (vms : VmServices W).

Record Route := { rt_Method : string; rt_Pattern : string; rt_Access : Access; rt_Handler : Handler W }.
Definition at_path (prefix : string) (access : Access) (rs : list (string * string * Handler W)) : list Route :=
  map (fun '(m, p, h) => {| rt_Method := m; rt_Pattern := prefix +:+ p; rt_Access := access; rt_Handler := h |}) rs.

Definition health : Handler W := fun _ _ => answer (WriteJSON 200 "healthy" (VMap [("status", VStr "ok")])).
Definition auth_routes : list Route :=
  at_path "/api/v1/auth" Public [("POST", "/register", auth_Register auth); ("POST", "/login", auth_Login auth); ("POST", "/refresh", auth_Refresh auth)] ++
  at_path "/api/v1/auth" AnyUser [("POST", "/logout", auth_Logout auth); ("GET", "/me", auth_Me auth); ("PUT", "/profile", auth_UpdateProfile auth);
    ("PUT", "/password", auth_ChangePassword auth)].
Definition agent_routes : list Route := at_path "/api/v1/agents" AnyUser [
  ("POST", "/", agents_Create agents); ("GET", "/", agents_List agents); ("GET", "/{id}", agents_Get agents);
  ("PUT", "/{id}", agents_Update agents); ("DELETE", "/{id}", agents_Delete agents)].

(** What the selects of the streams meet. *)
Record Streams := {
  si_chat : Z -> list (StreamInput RuntimeEvent); si_runtime : list (StreamInput unit);
  si_fleet : list (StreamInput (option (list VM))); si_ticks : list (StreamInput unit);
  si_activity : list (StreamInput (option (list PersistedRuntimeEvent))) }.
Context (streams : Streams).

Definition chat_routes : list Route := at_path "/api/v1/chat" AnyUser [
  ("POST", "/", chat_SendMessage chats); ("GET", "/", chat_List chats); ("GET", "/{id}", chat_Get chats);
  ("GET", "/{id}/messages", chat_ListMessages chats); ("GET", "/{id}/stream", chat_Stream chats (si_chat streams));
  ("DELETE", "/{id}", chat_Close chats)].
Definition vm_routes : list Route :=
  at_path "/api/v1/vm" AnyUser [("GET", "/fleet/stream", vm_StreamFleet vms (si_fleet streams) (si_ticks streams))] ++
  at_path "/api/v1/vm" Admin [
    ("POST", "/", vm_Create vms); ("GET", "/leases", vm_ListLeases vms); ("GET", "/runtimes", vm_ListRuntimes vms);
    ("GET", "/runtimes/stream", vm_StreamRuntimes vms (si_fleet streams)); ("GET", "/activity/stream", vm_StreamActivity (si_activity streams));
    ("GET", "/{id}/metrics", vm_GetMetrics vms); ("GET", "/{id}/metrics/history", vm_GetMetricsHistory vms);
    ("GET", "/{id}/stream", vm_StreamRuntime vms (si_runtime streams)); ("POST", "/{id}/assign", vm_Assign vms);
    ("POST", "/{id}/unassign", vm_Unassign vms); ("GET", "/{id}", vm_Get vms); ("DELETE", "/{id}", vm_Stop vms);
    ("DELETE", "/{id}/destroy", vm_Destroy vms); ("POST", "/{id}/execute", vm_ExecuteCommand vms);
    ("POST", "/{id}/snapshot", vm_CreateSnapshot vms); ("POST", "/resume", vm_ResumeVM vms)].
(** [registerRoutes] *)
Definition routes : list Route :=
  [{| rt_Method := "GET"; rt_Pattern := "/health"; rt_Access := Public; rt_Handler := health |}] ++
  auth_routes ++ agent_routes ++ chat_routes ++ vm_routes.

Definition guarded (rt : Route) : Handler W :=
  match rt_Access rt with
  | Public => rt_Handler rt
  | AnyUser => Authenticate time_Now jwtManager (rt_Handler rt)
  | Admin => Authenticate time_Now jwtManager (RequireRole ["admin"] (rt_Handler rt))
  end.

(** chi: the number of the route of a request among those registered, and its parameters. *)
Context (find_route : list (string * string) -> HttpRequest -> option (nat * (string -> string))) (no_route : HttpRequest -> Response).
Context (preflight : HttpRequest -> option Response) (cors_headers : HttpRequest -> list (string * string)).

Definition router : Handler W := fun cx r =>
  match find_route (map (fun rt => (rt_Method rt, rt_Pattern rt)) routes) r with
  | Some (i, params) =>
      match routes !! i with
      | Some rt => guarded rt cx (r <| hq_Param := params |>)
      | None => answer (no_route r)
      end
  | None => answer (no_route r)
  end.
Definition cors (next : Handler W) : Handler W := fun cx r =>
  match preflight r with
  | Some resp => answer resp
  | None => let* resp := next cx r in
            ret (match resp with Ok resp => Ok (resp <| hs_Headers := cors_headers r ++ hs_Headers resp |>) | Err e => Err e end)
  end.
(** [New]: the handler of the server. *)
Definition server : Handler W := CorrelationID uuid_NewString (RequestID uuid_NewString (Recovery (cors router))).

(** ** What the middleware does *)

(** The token of a request. *)
Definition bearer (r : HttpRequest) : option string :=
  match split_on (chr 32) (hq_Header r "Authorization") with
  | [scheme; t] => if bool_decide (scheme = "Bearer") then Some t else None
  | _ => None
  end.

(** [R]: the worlds before and after, when only the clock and fresh identifiers were read. *)
Context (R : W -> W -> Prop) `{PO : !PreOrder R} (Hclock : keeps R time_Now) (Huuid : keeps R uuid_NewString).

Definition status_of (resp : res Response) : Z := match resp with Ok resp => hs_Status resp | Err _ => 0 end.

Lemma keeps_id_of v : keeps R (id_of uuid_NewString v).
Proof. unfold id_of. case_bool_decide; [exact Huuid | apply keeps_ret, _]. Qed.

(** Around the router: its world and context, up to fresh identifiers; and its status,
    unless it panicked. *)
Lemma server_router cx r w : preflight r = None ->
  exists cx1 w1, R w w1 /\ (server cx r w).2 = (router cx1 r w1).2 /\
    (forall resp, (router cx1 r w1).1 = Ok resp -> status_of (server cx r w).1 = hs_Status resp).
Proof.
  intros Hp. unfold server, CorrelationID, RequestID, Recovery, with_header, bind.
  pose proof (keeps_id_of (hq_Header r "X-Correlation-ID") w) as K1. destruct (id_of _ _ w) as [i1 w1]. cbn [snd] in K1.
  pose proof (keeps_id_of (hq_Header r "X-Request-ID") w1) as K2. destruct (id_of _ _ w1) as [i2 w2]. cbn [snd] in K2.
  set (cx1 := cx <| cx_CorrelationID := Some i1 |> <| cx_RequestID := Some i2 |>). exists cx1, w2.
  split; [by transitivity w1 |]. unfold cors, bind. rewrite Hp. destruct (router cx1 r w2) as [[resp|e] w3]; cbn; (split; [done |]); [| done].
  by intros ? [= <-].
Qed.

Lemma ValidateToken_keeps t : keeps R (ValidateToken time_Now jwtManager t).
Proof.
  unfold ValidateToken. intros w. unfold bind. pose proof (Hclock w) as H. destruct (time_Now w) as [a w1]. cbn in H.
  repeat case_match; cbn; exact H || reflexivity.
Qed.

(** Authenticate refuses, or goes on as the user of the token. *)
Lemma Authenticate_spec (next : Handler W) cx r w :
  match bearer r with
  | None => exists resp, Authenticate time_Now jwtManager next cx r w = (Ok resp, w) /\ hs_Status resp = 401
  | Some t =>
      let '(claims, w1) := ValidateToken time_Now jwtManager t w in
      match claims with
      | Err _ => exists resp, Authenticate time_Now jwtManager next cx r w = (Ok resp, w1) /\ hs_Status resp = 401
      | Ok c => Authenticate time_Now jwtManager next cx r w =
                next (cx <| cx_UserID := Some (cl_UserID c) |> <| cx_Role := Some (cl_Role c) |>) r w1
      end
  end.
Proof.
  unfold bearer, Authenticate. case_bool_decide as Hh.
  { rewrite Hh. cbn. eexists. split; [done | reflexivity]. }
  destruct (split_on (chr 32) (hq_Header r "Authorization")) as [|scheme [|t [|? ?]]];
    try (eexists; split; [done | reflexivity]).
  case_bool_decide; [| eexists; split; [done | reflexivity]]. unfold bind.
  destruct (ValidateToken time_Now jwtManager t w) as [[c|e] w1]; [done |]. eexists. split; [done | reflexivity].
Qed.
Lemma RequireRole_spec (next : Handler W) cx r w :
  if bool_decide (GetUserRole cx = "admin") then RequireRole ["admin"] next cx r w = next cx r w
  else exists resp, RequireRole ["admin"] next cx r w = (Ok resp, w) /\ (hs_Status resp = 401 \/ hs_Status resp = 403).
Proof.
  unfold RequireRole. case_bool_decide as Ha.
  - rewrite Ha. done.
  - case_bool_decide; [eexists; split; [done | by left] |]. cbn. rewrite bool_decide_eq_false_2 by done.
    eexists. split; [done | by right].
Qed.

(** The access of every route of the table. *)
Lemma access_of i rt : routes !! i = Some rt ->
  (rt_Access rt = Public -> (rt_Method rt, rt_Pattern rt) ∈
     [("GET", "/health"); ("POST", "/api/v1/auth/register"); ("POST", "/api/v1/auth/login"); ("POST", "/api/v1/auth/refresh")]) /\
  (has_prefix "/api/v1/vm/" (rt_Pattern rt) = true -> rt_Access rt = Admin \/ rt_Pattern rt = "/api/v1/vm/fleet/stream").
Proof.
  intros Hi. assert (Hin : rt ∈ routes) by (by eapply list_elem_of_lookup_2). clear Hi. revert rt Hin. rewrite <- Forall_forall.
  repeat (apply Forall_cons; split; [cbn; split; [intros H; first [discriminate H | set_solver] | intros H; first [discriminate H | by left | by right]] |]).
  apply Forall_nil_2.
Qed.


(** C31: A request that the router gives to a protected route: without a bearer token, or
    with one that is not valid, the answer is 401 and nothing but the clock and fresh
    identifiers was read; on a route for administrators a token of another role is refused
    with 401 or 403 in the same way; otherwise the handler runs, as the user and role of
    the token. The only public routes are those for health, registration, login and
    refresh, and below /vm only the fleet stream is open to every user. *)
Theorem routes_are_guarded cx r w i params rt :
  preflight r = None -> find_route (map (fun rt => (rt_Method rt, rt_Pattern rt)) routes) r = Some (i, params) -> routes !! i = Some rt ->
  (rt_Access rt = Public -> (rt_Method rt, rt_Pattern rt) ∈
     [("GET", "/health"); ("POST", "/api/v1/auth/register"); ("POST", "/api/v1/auth/login"); ("POST", "/api/v1/auth/refresh")]) /\
  (has_prefix "/api/v1/vm/" (rt_Pattern rt) = true -> rt_Access rt = Admin \/ rt_Pattern rt = "/api/v1/vm/fleet/stream") /\
  exists w1, R w w1 /\
  let resp := (server cx r w).1 in let w' := (server cx r w).2 in
  let runs (k : Ctx -> Prop) w0 := exists cx1, k cx1 /\ w' = (rt_Handler rt cx1 (r <| hq_Param := params |>) w0).2 in
  if bool_decide (rt_Access rt = Public) then runs (fun _ => True) w1
  else match bearer r with
       | None => status_of resp = 401 /\ w' = w1
       | Some t =>
           let '(claims, w2) := ValidateToken time_Now jwtManager t w1 in
           R w1 w2 /\
           match claims with
           | Err _ => status_of resp = 401 /\ w' = w2
           | Ok c =>
               if bool_decide (rt_Access rt = Admin /\ cl_Role c <> "admin")
               then (status_of resp = 401 \/ status_of resp = 403) /\ w' = w2
               else runs (fun cx1 => cx_UserID cx1 = Some (cl_UserID c) /\ cx_Role cx1 = Some (cl_Role c)) w2
           end
       end.
Proof.
  intros Hp Hf Hi. destruct (access_of _ _ Hi) as [Hpub Hvm]. split_and!; [exact Hpub | exact Hvm |].
  destruct (server_router cx r w Hp) as (cx1 & w1 & HR & -> & Hstatus). exists w1. split; [exact HR |]. cbn zeta.
  assert (E : router cx1 r w1 = guarded rt cx1 (r <| hq_Param := params |>) w1) by (unfold router; by rewrite Hf, Hi).
  rewrite E in Hstatus |- *. clear E Hf Hi Hpub Hvm. set (r' := r <| hq_Param := params |>) in *.
  assert (Eb : bearer r = bearer r') by done. rewrite Eb. clearbody r'. unfold guarded in *.
  destruct (rt_Access rt) eqn:Ha; [rewrite bool_decide_eq_true_2 by done; by exists cx1 | |]; rewrite bool_decide_eq_false_2 by done.
  - pose proof (Authenticate_spec (rt_Handler rt) cx1 r' w1) as H. destruct (bearer r') as [t|].
    + pose proof (ValidateToken_keeps t w1) as HV. destruct (ValidateToken time_Now jwtManager t w1) as [[c|e] w2]; cbn in HV; (split; [exact HV |]).
      * rewrite bool_decide_eq_false_2 by (by intros [? _]). rewrite H. eexists. split; [| done]. by split.
      * destruct H as (resp & E & H). rewrite E in Hstatus |- *. split; [by rewrite (Hstatus _ eq_refl) | done].
    + destruct H as (resp & E & H). rewrite E in Hstatus |- *. split; [by rewrite (Hstatus _ eq_refl) | done].
  - pose proof (Authenticate_spec (RequireRole ["admin"] (rt_Handler rt)) cx1 r' w1) as H. destruct (bearer r') as [t|].
    + pose proof (ValidateToken_keeps t w1) as HV. destruct (ValidateToken time_Now jwtManager t w1) as [[c|e] w2]; cbn in HV; (split; [exact HV |]).
      * rewrite H in Hstatus |- *. set (cx2 := cx1 <| cx_UserID := _ |> <| cx_Role := _ |>) in *.
        pose proof (RequireRole_spec (rt_Handler rt) cx2 r' w2) as HRR. change (GetUserRole cx2) with (cl_Role c) in HRR.
        case_bool_decide as Hrole; case_bool_decide as Hc; try (by destruct Hc) .
        -- rewrite HRR. exists cx2. by split.
        -- destruct HRR as (resp & E & HS). rewrite E in Hstatus |- *. split; [by rewrite (Hstatus _ eq_refl) | done].
      * destruct H as (resp & E & H). rewrite E in Hstatus |- *. split; [by rewrite (Hstatus _ eq_refl) | done].
    + destruct H as (resp & E & H). rewrite E in Hstatus |- *. split; [by rewrite (Hstatus _ eq_refl) | done].
Qed.

End server.

(** A clock, and the number of calls of services. *)
Definition Counted : Type := Z * nat.
Definition count_clock : M Counted Z := fun w => (w.1, (w.1 + second, w.2)).
Definition count_id : M Counted string := fun w => ("id-" +:+ fmt_d w.1, w).
Definition called {A} : M Counted (res A) := fun w => (Err (Internal (EText "down")), (w.1, S w.2)).

#[export] Instance float_by_text : Float64 := {| float64 := string; float_zero := "0"; float_json := fun x => x; float_0f := fun x => x |}.
Definition counted_auth : AuthServices Counted := {|
  as_Register _ _ _ := called; as_Login _ _ := called; as_GetByID _ := called; as_UpdateProfile _ _ := called; as_ChangePassword _ _ _ := called;
  as_GenerateTokenPair _ := called; as_ValidateRefreshToken _ := called; as_RevokeRefreshToken _ := called; as_RevokeAllUserTokens _ := called |}.
Definition counted_agents : AgentServices Counted := {|
  gs_Create _ := called; gs_Get _ := called; gs_List _ _ := called; gs_Update _ _ := called; gs_Delete _ := called |}.
Definition counted_chats : ChatServices Counted := {|
  hs_SendOrCreateAsync _ _ _ := called; hs_Get _ := called; hs_ListConversations _ := called; hs_ListMessages _ := called;
  hs_SubscribeRuntimeEvents _ := called; hs_Close _ := called |}.
Definition counted_vms : VmServices Counted := {|
  vs_Create _ _ _ _ _ _ _ _ _ := called; vs_Get _ := called; vs_Stop _ := called; vs_Destroy _ := called; vs_AssignToChat _ _ := called;
  vs_Unassign _ := called; vs_ExecuteCommand _ _ := fun w => (("", Some (EText "down")), (w.1, S w.2)); vs_CreateSnapshot _ := called;
  vs_FindPreviousLeaseForChat _ := called; vs_ResumeVM _ _ := called; vs_ListActiveLeasesByChat _ := called; vs_ListRunningRuntimes := called;
  vs_GetRuntimeSnapshot _ := called; vs_GetMetrics _ := called; vs_GetMetricsHistory _ _ _ _ := called;
  vs_GetCachedMetrics _ := ret (no_metrics, false); vs_ListCachedFleetSnapshot _ _ := called; vs_env_GetByID _ := called; vs_time_Now := count_clock |}.

(** The first route whose method is the request's and whose segments match its path. *)
Fixpoint match_path (pattern path : list string) : option (list (string * string)) :=
  match pattern, path with
  | [], [] => Some []
  | p :: ps, s :: ss =>
      if has_prefix "{" p then cons (trim_suffix (trim_prefix p "{") "}", s) <$> match_path ps ss
      else if bool_decide (p = s) then match_path ps ss else None
  | _, _ => None
  end.
Fixpoint first_route (n : nat) (table : list (string * string)) (r : HttpRequest) : option (nat * (string -> string)) :=
  match table with
  | [] => None
  | (m, p) :: table =>
      match (if bool_decide (m = hq_Method r) then match_path (split_on (chr 47) p) (split_on (chr 47) (hq_Path r)) else None) with
      | Some params => Some (n, fun k => default "" (alookup k params))
      | None => first_route (S n) table r
      end
  end.

#[local] Instance lenient : Decoding := {| json_failure := fun _ => EofFailure; is_email := fun _ => true |}.
Definition no_streams : Streams := {| si_chat := fun _ => []; si_runtime := []; si_fleet := []; si_ticks := []; si_activity := [] |}.
Definition counting_server : Handler Counted :=
  server count_clock count_id sample_manager counted_auth counted_agents counted_chats counted_vms no_streams
    (first_route 0) (fun _ => WriteError (NotFound "route" "")) (fun _ => None) (fun _ => []).

Definition delete_vm (authorization : string) : HttpRequest := {|
  hq_Method := "DELETE"; hq_Path := "/api/v1/vm/vm-a"; hq_Header := fun k => if bool_decide (k = "Authorization") then authorization else "";
  hq_Query := fun _ => ""; hq_Param := fun _ => ""; hq_Body := None |}.
Definition same_calls (w w' : Counted) : Prop := w'.2 = w.2.
#[local] Instance same_calls_pre : PreOrder same_calls.
Proof. split; [done |]. intros a b c. unfold same_calls. congruence. Qed.

Definition counted_routes : list Route := routes counted_auth counted_agents counted_chats counted_vms no_streams.
Lemma delete_vm_route : exists params rt,
  first_route 0 (map (fun rt => (rt_Method rt, rt_Pattern rt)) counted_routes) (delete_vm "") = Some (31%nat, params) /\
  counted_routes !! 31%nat = Some rt /\ rt_Access rt = Admin.
Proof. eexists _, _. split_and!; reflexivity. Qed.

Lemma routes_are_guarded_witness :
  status_of (counting_server no_values (delete_vm "") (0, 0%nat)).1 = 401 /\ (counting_server no_values (delete_vm "") (0, 0%nat)).2.2 = 0%nat.
Proof.
  destruct delete_vm_route as (params & rt & Hf & Hrt & Ha).
  destruct (routes_are_guarded count_clock count_id sample_manager counted_auth counted_agents counted_chats counted_vms no_streams
    (first_route 0) (fun _ => WriteError (NotFound "route" "")) (fun _ => None) (fun _ => []) same_calls ltac:(done) ltac:(done)
    no_values (delete_vm "") (0, 0%nat) 31 params rt eq_refl Hf Hrt) as (_ & _ & w1 & HR & H).
  cbn zeta in H. rewrite Ha in H. cbn in H. destruct H as [H1 H2]. split; [exact H1 |].
  unfold counting_server. rewrite H2. exact HR.
Defined.

(** A user who is not an administrator. *)
Example user_cannot_stop_a_vm :
  let out := counting_server no_values (delete_vm ("Bearer " +:+ token_at_0)) (0, 0%nat) in
  status_of out.1 = 403 /\ out.2.2 = 0%nat.
Proof. vm_compute. split; reflexivity. Qed.

(** Handlers that never look at who asks: every user reads, streams and closes the chats of
    every other, and reads, changes and deletes its agents. *)
Lemma chats_and_agents_of_anyone {W} (chats : ChatServices W) (agents : AgentServices W) cx cx' r inputs :
  chat_Get chats cx r = chat_Get chats cx' r /\ chat_ListMessages chats cx r = chat_ListMessages chats cx' r /\
  chat_Stream chats inputs cx r = chat_Stream chats inputs cx' r /\ chat_Close chats cx r = chat_Close chats cx' r /\
  agents_Get agents cx r = agents_Get agents cx' r /\ agents_Update agents cx r = agents_Update agents cx' r /\
  agents_Delete agents cx r = agents_Delete agents cx' r.
Proof. done. Qed.
