(* ===== verification/FcHost.v ===== *)
(** * The host of the Firecracker provider

    The configuration (config.go), what the provider asks of the machine it runs on, and
    the state it keeps. The operating system, the commands it runs and the Firecracker SDK
    are the class [FcHost] over an abstract state: each call may return any value the
    state yields, failures included. *)

From S2P Require Import Prelude Exception Naming GoLib Domain World PgRepo IPAlloc Interfaces Json ExecProtocol GuestRPC CIDAlloc SparseMem.

Local Open Scope go_scope.

(** ** More of the standard library *)

(** [filepath.Dir]: what precedes the last slash, cleaned. *)
Fixpoint dir_part (s : string) : string :=
  match s with
  | EmptyString => EmptyString
  | String c t => if contains t "/" then String c (dir_part t) else if bool_decide (c = slash) then str1 c else EmptyString
  end.
Definition filepath_Dir (p : string) : string := filepath_Clean (dir_part p).

(** [strings.Split(s, "\n")] *)
Definition lines_of (s : string) : list string := split_on (chr 10) s.

Example Fields_stat : strings_Fields "  7 (fc) S  1" = ["7"; "(fc)"; "S"; "1"].
Proof. reflexivity. Qed.
Example Dir_merged : filepath_Dir "/vms/a/merged.img" = "/vms/a".
Proof. reflexivity. Qed.

(** ** Configuration *)

(** NetworkConfig of network.go *)
Record NetworkCfg := {
  nw_BridgeName : string; nw_Subnet : string; nw_GatewayIP : string; nw_DNSIP : string;
  nw_IPStart : string; nw_IPEnd : string; nw_EnableNAT : bool }.

Record Config := {
  cf_BinaryPath : string; cf_KernelPath : string; cf_BaseDir : string; cf_KernelArgs : string;
  cf_MacAddress : string;
  cf_SocketTimeout : Z; cf_ShutdownTimeout : Z;              (* seconds *)
  cf_SMT : bool; cf_EnableMmds : bool; cf_ExecEnabled : bool;
  cf_GuestAgentPort : Z; cf_VsockSocketName : string; cf_CIDMin : Z; cf_CIDMax : Z;
  cf_DefaultExecTimeout : Z; cf_MaxStdoutBytes : Z; cf_MaxStderrBytes : Z;
  cf_Network : NetworkCfg }.

Definition no_NetworkCfg : NetworkCfg := {|
  nw_BridgeName := ""; nw_Subnet := ""; nw_GatewayIP := ""; nw_DNSIP := ""; nw_IPStart := ""; nw_IPEnd := ""; nw_EnableNAT := false |}.

(** [Getenv] is os.Getenv. *)
Definition DefaultConfig (Getenv : string -> string) : Config :=
  let or_default s d := if bool_decide (s = "") then d else s in {|
  cf_BinaryPath := "firecracker";
  cf_KernelPath := or_default (Getenv "FIRECRACKER_KERNEL_PATH") "/usr/share/firecracker/vmlinux";
  cf_BaseDir := or_default (Getenv "FIRECRACKER_BASE_DIR") "/var/lib/firecracker/vms";
  cf_KernelArgs := "console=ttyS0 reboot=k panic=1 pci=off rw";
  cf_MacAddress := "02:FC:00:00:00:01";
  cf_SocketTimeout := 30; cf_ShutdownTimeout := 10;
  cf_SMT := false; cf_EnableMmds := true; cf_ExecEnabled := false;
  cf_GuestAgentPort := 10789; cf_VsockSocketName := "agent.vsock"; cf_CIDMin := 1024; cf_CIDMax := 65535;
  cf_DefaultExecTimeout := 60 * second; cf_MaxStdoutBytes := 5 * 1024 * 1024; cf_MaxStderrBytes := 5 * 1024 * 1024;
  cf_Network := no_NetworkCfg |}.

Definition VMDir (c : Config) (vmID : string) : string := filepath_Join [cf_BaseDir c; vmID].
Definition SocketPath (c : Config) (vmID : string) : string := filepath_Join [VMDir c vmID; "api.sock"].
Definition VsockPath (c : Config) (vmID : string) : string :=
  filepath_Join [VMDir c vmID; if bool_decide (cf_VsockSocketName c = "") then "agent.vsock" else cf_VsockSocketName c].
Definition SnapshotDir (c : Config) (vmID : string) : string := filepath_Join [VMDir c vmID; "snapshots"].
Definition cidMetadataPath (c : Config) (vmID : string) : string := filepath_Join [VMDir c vmID; "guest.cid"].

(** What [resolveExecLimits] and [Execute] read of it. *)
Definition exec_config (c : Config) : ExecConfig := {|
  fc_ExecEnabled := cf_ExecEnabled c; fc_DefaultExecTimeout := cf_DefaultExecTimeout c;
  fc_MaxStdoutBytes := cf_MaxStdoutBytes c; fc_MaxStderrBytes := cf_MaxStderrBytes c |}.

(** ** The Firecracker SDK *)

Record Drive := { dr_ID : string; dr_PathOnHost : string; dr_IsRootDevice : bool; dr_IsReadOnly : bool }.
Record NetworkInterface := { ni_MacAddress : string; ni_HostDevName : string; ni_AllowMMDS : bool }.
Record VsockDevice := { vd_ID : string; vd_Path : string; vd_CID : Z }.

(** fcsdk.Config with the binary of the process runner. *)
Record FcConfig := {
  fcc_Binary : string; fcc_SocketPath : string; fcc_KernelImagePath : string; fcc_KernelArgs : string;
  fcc_RootDrive : string;                (* NewDrivesBuilder(path).Build() *)
  fcc_Drives : list Drive;               (* what is appended to it *)
  fcc_VcpuCount : Z; fcc_MemSizeMib : Z; fcc_Smt : bool; fcc_TrackDirtyPages : bool;
  fcc_VMID : string; fcc_NetworkInterfaces : list NetworkInterface; fcc_VsockDevices : list VsockDevice }.
(** WithSnapshot(mem, state, ...) *)
Record SnapshotLoad := { sl_MemFile : string; sl_StateFile : string; sl_ResumeVM : bool; sl_EnableDiffSnapshots : bool }.

Record FileInfo := { fi_Size : Z; fi_Perm : Z }.

(** A *fcsdk.Machine is named by a number. *)
Definition Machine : Type := Z.

Class FcHost (H : Type) := {
  ho_Now : H -> Z * H;
  ho_Sleep : Z -> H -> unit * H;
  (* package os, by path *)
  ho_MkdirAll : string -> H -> res unit * H;
  ho_Remove : string -> H -> res unit * H;
  ho_RemoveAll : string -> H -> res unit * H;
  ho_Stat : string -> H -> res FileInfo * H;
  ho_not_exist : error -> bool;                       (* errors.Is(err, os.ErrNotExist) *)
  ho_Blocks : string -> H -> res Z * H;               (* st_blocks of stat(2) *)
  ho_Open : string -> H -> res unit * H;              (* for reading *)
  ho_OpenFile : string -> H -> res unit * H;          (* O_CREATE and O_TRUNC, for writing *)
  ho_Truncate : string -> Z -> H -> res unit * H;     (* also of an open file *)
  ho_CopyBytes : string -> string -> H -> res unit * H; (* io.Copy(dst, src) *)
  ho_Sync : string -> H -> res unit * H;
  ho_Close : string -> H -> res unit * H;
  ho_ReadFile : string -> H -> res string * H;
  ho_WriteFile : string -> string -> H -> res unit * H;
  ho_ReadDir : string -> H -> res BaseDir * H;        (* the entries with the guest.cid of each directory *)
  ho_BLKGETSIZE64 : string -> H -> res Z * H;
  ho_ReadDevice : string -> H -> res (Device * (nat -> nat)) * H;  (* an open device, and how much each read returns *)
  ho_PutFile : string -> File -> H -> res unit * H;   (* the writes to an open file, and its sync *)
  (* os/exec: standard input, the arguments; the combined output and the error *)
  ho_Command : string -> list string -> H -> (string * option error) * H;
  ho_LookPath : string -> H -> res string * H;
  (* net *)
  ho_DialTCP : string -> Z -> H -> option error * H;
  (* a unix socket: dialling with a timeout, writing, all the bytes received until it closes or
     the deadline passes, and whether the deadline has passed *)
  ho_DialUnix : string -> Z -> H -> option error * H;
  ho_WriteConn : string -> H -> option error * H;
  ho_ReadConn : H -> string * H;
  ho_DeadlineExceeded : H -> bool * H;
  (* the SDK *)
  sdk_NewMachine : FcConfig -> option SnapshotLoad -> H -> res Machine * H;
  sdk_Start : Machine -> H -> res unit * H;
  sdk_Cancel : Machine -> H -> unit * H;              (* ends the context of Start *)
  sdk_Shutdown : Machine -> H -> res unit * H;
  sdk_Wait : Machine -> Z -> H -> res unit * H;       (* for so many seconds *)
  sdk_context_error : error -> bool;                  (* context.Canceled or DeadlineExceeded *)
  sdk_StopVMM : Machine -> H -> res unit * H;
  sdk_PauseVM : Machine -> H -> res unit * H;
  sdk_ResumeVM : Machine -> H -> res unit * H;
  sdk_CreateSnapshot : Machine -> string -> string -> bool -> H -> res unit * H;  (* the bool: Diff *)
  sdk_PID : Machine -> H -> res Z * H;
  sdk_InstanceState : Machine -> H -> res (option string) * H;  (* State of DescribeInstanceInfo *)
  (* kill(pid, 0): no error, or its text *)
  ho_Signal0 : Z -> H -> option string * H
}.

(** ** The provider's state *)

Record Tracked := {
  tr_inst : VMInstance; tr_SocketPath : string; tr_Machine : Machine; tr_StartedAt : Z; tr_HasSnapshot : bool }.
Record cpuSample := { cpu_procTicks : Z; cpu_totalTicks : Z; cpu_time : Z }.

(** dm_snapshot.go *)
Record baseLoopEntry := { ble_loopDev : string; ble_refCount : Z }.
Record layerInfo := { ly_dmName : string; ly_cowLoopDev : string }.
Record vmDeviceInfo := { di_dmPath : string; di_baseImagePath : string; di_cowLoopDev : string; di_layers : list layerInfo }.

Record Fc (H : Type) := {
  fc_host : H;
  fc_vms : gmap string Tracked;
  fc_prev : gmap string cpuSample;
  fc_base : gmap string baseLoopEntry;        (* baseLoopDevs, by image path *)
  fc_active : gmap string vmDeviceInfo;       (* activeDevices, by VM *)
  fc_stale : gset string                      (* a history for the theorems, which the code does not keep and no
                                                 operation reads: the images whose loop device was found gone *) }.
Arguments fc_host {H} _. Arguments fc_vms {H} _. Arguments fc_prev {H} _. Arguments fc_base {H} _. Arguments fc_active {H} _. Arguments fc_stale {H} _.

Section host.
Context {H : Type} `{!FcHost H}.
Abbreviation W := (Fc H).

Definition on_host {A} (f : H -> A * H) : M W A := fun w => let '(a, h) := f (fc_host w) in (a, w <| fc_host := h |>).
(** [_ = f()] *)
Definition ignore {A} (m : M W A) : M W unit := let* _ := m in ret tt.
(** [return fmt.Errorf(pre + "%w", err)] *)
Definition or_wrap {A} (pre : string) (m : M W (res A)) : M W (res A) :=
  let* r := m in ret (match r with Ok a => Ok a | Err e => Err (wrapf pre e) end).
Definition fails {A} (e : error) : M W (res A) := ret (Err e).

Definition command (argv : list string) : M W (string * option error) := on_host (ho_Command "" argv).
(** A command whose output is only read on failure. *)
Definition run_or {E} (argv : list string) (bad : string -> error -> E) : M W (result E unit) :=
  let* x := command argv in
  ret (match x.2 with None => Ok tt | Some e => Err (bad x.1 e) end).
(** [fmt.Errorf(what + ": %w (%s)", err, out)] *)
Definition err_out (what : string) (out : string) (e : error) : error := EWrap (what +:+ ": ") e (" (" +:+ out +:+ ")").

(** ** Config.Validate *)

Definition has_exec_bit (perm : Z) : bool := negb (bool_decide (Z.land perm 73 = 0)).
Definition check_binary (c : Config) : M W (res unit) :=
  let b := cf_BinaryPath c in
  if has_prefix "/" b then
    let* r := on_host (ho_Stat b) in
    match r with
    | Err e => if ho_not_exist e then fails (EText ("firecracker binary does not exist: " +:+ b))
               else fails (wrapf "failed to access firecracker binary: " e)
    | Ok info => if has_exec_bit (fi_Perm info) then ret (Ok tt) else fails (EText ("firecracker binary is not executable: " +:+ b))
    end
  else
    let* r := on_host (ho_LookPath b) in
    match r with
    | Err _ => fails (EText ("firecracker binary not found in PATH: " +:+ b))
    | Ok _ => ret (Ok tt)
    end.

(** The checks that look at the configuration only, in the order of the code. *)
Definition check_values (c : Config) : option string :=
  if bool_decide (cf_BaseDir c = "") then Some "base_dir is required"
  else if bool_decide (cf_SocketTimeout c <= 0) || bool_decide (300 < cf_SocketTimeout c)
  then Some "socket_timeout must be between 1 and 300 seconds"
  else if bool_decide (cf_ShutdownTimeout c <= 0) || bool_decide (300 < cf_ShutdownTimeout c)
  then Some "shutdown_timeout must be between 1 and 300 seconds"
  else if bool_decide (cf_VsockSocketName c = "") then Some "vsock_socket_name is required"
  else if bool_decide (cf_GuestAgentPort c = 0) || bool_decide (65535 < cf_GuestAgentPort c)
  then Some "guest_agent_port must be between 1 and 65535"
  else if bool_decide (cf_CIDMin c < 3) then Some "cid_min must be >= 3"
  else if bool_decide (cf_CIDMax c < cf_CIDMin c) then Some "cid_max must be >= cid_min"
  else if bool_decide (cf_DefaultExecTimeout c < 1 * second) || bool_decide (15 * minute < cf_DefaultExecTimeout c)
  then Some "default_exec_timeout must be between 1s and 15m"
  else if bool_decide (cf_MaxStdoutBytes c < 1024) || bool_decide (32 * 1024 * 1024 < cf_MaxStdoutBytes c)
  then Some "max_stdout_bytes must be between 1024 and 33554432"
  else if bool_decide (cf_MaxStderrBytes c < 1024) || bool_decide (32 * 1024 * 1024 < cf_MaxStderrBytes c)
  then Some "max_stderr_bytes must be between 1024 and 33554432"
  else None.

Definition Config_Validate (c : Config) : M W (res unit) :=
  if bool_decide (cf_BinaryPath c = "") then fails (EText "binary_path is required")
  else
    let? _ := check_binary c in
    if bool_decide (cf_KernelPath c = "") then fails (EText "kernel_path is required")
    else
      let* k := on_host (ho_Stat (cf_KernelPath c)) in
      match k with
      | Err e => if ho_not_exist e then fails (EText ("kernel_path does not exist: " +:+ cf_KernelPath c))
                 else ret (match check_values c with Some msg => Err (EText msg) | None => Ok tt end)
      | Ok _ => ret (match check_values c with Some msg => Err (EText msg) | None => Ok tt end)
      end.
End host.
