(* ===== verification/NetIP.v ===== *)
(** * Addresses as text: package net, and NewIPAllocator of service/vm/service.go

    [ParseIP] and [ParseCIDR] follow net/netip: dotted IPv4, and IPv6 with an ellipsis and
    an embedded IPv4 tail. A zone makes both fail. *)

From S2P Require Import Prelude Exception Naming GoLib Domain World PgRepo IPAlloc Json.

(** ** IPv4 *)

(** A field: one to three digits without a leading zero, at most 255. *)
Definition v4_field (s : string) : option Z :=
  match s with
  | String c t =>
      if (bool_decide (c = chr 48) && negb (bool_decide (t = ""))) || bool_decide (3 < str_len s)%nat then None
      else match parse_digits s with Some z => if bool_decide (z <= 255) then Some z else None | None => None end
  | EmptyString => None
  end.
Definition parseIPv4 (s : string) : option (list Z) :=
  match split_on (chr 46) s with
  | [a; b; c; d] =>
      match v4_field a, v4_field b, v4_field c, v4_field d with
      | Some a, Some b, Some c, Some d => Some [a; b; c; d]
      | _, _, _, _ => None
      end
  | _ => None
  end.
Definition as16 (v4 : list Z) : IP := replicate 10 0 ++ [255; 255] ++ v4.

(** ** IPv6 *)

(** The leading hexadecimal digits: their number, their value, and what follows. *)
Fixpoint hex_run (n : nat) (acc : Z) (s : string) : nat * Z * string :=
  match s with
  | String c t => match hex_val c with Some v => hex_run (S n) (acc * 16 + v) t | None => (n, acc, s) end
  | EmptyString => (n, acc, s)
  end.

Definition expand (bytes : list Z) (ellipsis : option nat) : option IP :=
  let i := length bytes in
  if bool_decide (i < 16)%nat then
    match ellipsis with
    | None => None
    | Some e => Some (take e bytes ++ replicate (16 - i) 0 ++ drop e bytes)
    end
  else match ellipsis with Some _ => None | None => Some bytes end.

(** The loop over the groups; it ends with the text used up or fails. *)
Fixpoint v6_groups (n : nat) (bytes : list Z) (ellipsis : option nat) (s : string) : option IP :=
  match n with
  | O => if bool_decide (s = "") then expand bytes ellipsis else None
  | S n' =>
      let '(off, acc, rest) := hex_run 0 0 s in
      if bool_decide (off = 0%nat) || bool_decide (4 < off)%nat then None
      else if has_prefix "." rest then
        if (bool_decide (ellipsis = None) && negb (bool_decide (length bytes = 12%nat))) || bool_decide (16 < length bytes + 4)%nat then None
        else match parseIPv4 s with Some v4 => expand (bytes ++ v4) ellipsis | None => None end
      else
        let bytes := bytes ++ [acc / 256; acc mod 256] in
        match rest with
        | EmptyString => expand bytes ellipsis
        | String c t =>
            if negb (bool_decide (c = chr 58)) || bool_decide (t = "") then None
            else if has_prefix ":" t then
              match ellipsis with
              | Some _ => None
              | None => let t := drop_str 1 t in
                        if bool_decide (t = "") then expand bytes (Some (length bytes))
                        else v6_groups n' bytes (Some (length bytes)) t
              end
            else v6_groups n' bytes ellipsis t
        end
  end.
Definition parseIPv6 (s : string) : option IP :=
  if has_prefix "::" s then
    let t := drop_str 2 s in
    if bool_decide (t = "") then Some (replicate 16 0) else v6_groups 8 [] (Some 0%nat) t
  else v6_groups 8 [] None s.

(** The first of '.', ':' and '%' decides. [true]: an IPv4 address. *)
Fixpoint addr_kind (s : string) : option bool :=
  match s with
  | EmptyString => None
  | String c t =>
      if bool_decide (c = chr 46) then Some true else if bool_decide (c = chr 58) then Some false
      else if bool_decide (c = chr 37) then None else addr_kind t
  end.
(** An address without a zone, and whether it is IPv4. *)
Definition ParseAddr (s : string) : option (bool * IP) :=
  match addr_kind s with
  | None => None
  | Some true => (fun v4 => (true, as16 v4)) <$> parseIPv4 s
  | Some false => if contains s "%" then None else (fun ip => (false, ip)) <$> parseIPv6 s
  end.
Definition ParseIP (s : string) : option IP := snd <$> ParseAddr s.

(** ** CIDR *)

(** CIDRMask: [ones] ones, then zeros, up to [bytes] bytes. *)
Definition CIDRMask (ones : Z) (bytes : nat) : list Z :=
  map (fun i => let n := Z.min 8 (Z.max 0 (ones - 8 * Z.of_nat i)) in 256 - 2 ^ (8 - n)) (seq 0 bytes).
Definition ParseCIDR (s : string) : res (IP * list Z) :=
  let bad := Err (EText ("invalid CIDR address: " +:+ s)) in
  match index_byte s slash with
  | None => bad
  | Some i =>
      match ParseAddr (take_str i s), parse_digits (drop_str (S i) s) with
      | Some (v4, ip), Some n =>
          let len := if v4 then 4%nat else 16%nat in
          if bool_decide (n <= 8 * Z.of_nat len) then Ok (ip, CIDRMask n len) else bad
      | _, _ => bad
      end
  end.

(** ** The allocator of the VM service *)

Definition NewIPAllocator (ipStart ipEnd : string) : res IPAllocator :=
  match ParseIP ipStart with
  | None => Err (EText ("invalid ip_start: " +:+ ipStart))
  | Some start =>
      match ParseIP ipEnd with
      | None => Err (EText ("invalid ip_end: " +:+ ipEnd))
      | Some e => Ok {| IPAlloc.ipStart := start; IPAlloc.ipEnd := e |}
      end
  end.

Example ParseIP_v4 : ParseIP "10.200.0.255" = Some (as16 [10; 200; 0; 255]).
Proof. vm_compute. reflexivity. Qed.
Example ParseIP_leading_zero : ParseIP "10.200.00.1" = None.
Proof. vm_compute. reflexivity. Qed.
Example ParseIP_v6 : ParseIP "fd00::1:ab" = Some ([253; 0] ++ replicate 10 0 ++ [0; 1; 0; 171]).
Proof. vm_compute. reflexivity. Qed.
Example ParseIP_mapped : ParseIP "::ffff:10.0.0.7" = Some (as16 [10; 0; 0; 7]).
Proof. vm_compute. reflexivity. Qed.
Example ParseCIDR_16 : ParseCIDR "10.200.0.0/16" = Ok (as16 [10; 200; 0; 0], [255; 255; 0; 0]).
Proof. vm_compute. reflexivity. Qed.

(** ** What is printed is read back *)

Lemma is_digit_not_dot c : is_digit c = true -> c <> chr 46.
Proof. intros H ->. discriminate H. Qed.

Lemma split_on_digits (sep : ascii) s rest : all_bytes (fun c => negb (bool_decide (c = sep))) s = true ->
  split_on sep (s +:+ String sep rest) = s :: split_on sep rest.
Proof.
  induction s as [|c s IH]; cbn -[split_on]; intros Hs.
  - cbn. by rewrite bool_decide_eq_true_2.
  - apply andb_true_iff in Hs as [Hc Hs]. cbn [split_on]. apply negb_true_iff in Hc. rewrite Hc, (IH Hs). done.
Qed.
Lemma split_on_one (sep : ascii) s : all_bytes (fun c => negb (bool_decide (c = sep))) s = true -> split_on sep s = [s].
Proof.
  induction s as [|c s IH]; cbn -[split_on]; intros Hs; [done |].
  apply andb_true_iff in Hs as [Hc Hs]. cbn [split_on]. apply negb_true_iff in Hc. by rewrite Hc, (IH Hs).
Qed.

Definition bytes256 : list Z := seqZ 0 256.
Lemma byte_in b : 0 <= b < 256 -> b ∈ bytes256.
Proof. intros. by apply elem_of_seqZ. Qed.

(** A byte in decimal is a field, and has no dot in it. *)
Lemma v4_field_byte b : 0 <= b < 256 ->
  v4_field (fmt_d b) = Some b /\ all_bytes (fun c => negb (bool_decide (c = chr 46))) (fmt_d b) = true /\
  all_bytes (fun c => negb (bool_decide (c = chr 58 \/ c = chr 37))) (fmt_d b) = true.
Proof.
  intros Hb%byte_in.
  assert (All : forallb (fun b => bool_decide (v4_field (fmt_d b) = Some b) &&
            (all_bytes (fun c => negb (bool_decide (c = chr 46))) (fmt_d b) &&
             all_bytes (fun c => negb (bool_decide (c = chr 58 \/ c = chr 37))) (fmt_d b))) bytes256 = true) by (vm_compute; reflexivity).
  rewrite forallb_forall in All. specialize (All b). rewrite <- list_elem_of_In in All. specialize (All Hb).
  apply andb_true_iff in All as [H1 [H2 H3]%andb_true_iff]. by apply bool_decide_eq_true_1 in H1.
Qed.

Lemma addr_kind_v4 s rest : all_bytes (fun c => negb (bool_decide (c = chr 58 \/ c = chr 37))) s = true ->
  addr_kind (s +:+ "." +:+ rest) = Some true.
Proof.
  induction s as [|c s IH]; cbn -[addr_kind]; intros Hs; [done |].
  apply andb_true_iff in Hs as [Hc Hs]. apply negb_true_iff, bool_decide_eq_false_1 in Hc. cbn [addr_kind].
  case_bool_decide; [done |]. rewrite !bool_decide_eq_false_2 by tauto. by apply IH.
Qed.

(** The text of an IPv4 address parses to the address. *)
Theorem ParseIP_dotted a b c d : 0 <= a < 256 -> 0 <= b < 256 -> 0 <= c < 256 -> 0 <= d < 256 ->
  ParseIP (ip_string (as16 [a; b; c; d])) = Some (as16 [a; b; c; d]).
Proof.
  intros Ha Hb Hc Hd. unfold ip_string.
  assert (Hm : is_v4_mapped (as16 [a; b; c; d]) = true) by (apply bool_decide_eq_true_2; done).
  rewrite Hm. change (drop 12 (as16 [a; b; c; d])) with [a; b; c; d]. unfold dotted. cbn [fmap list_fmap join].
  destruct (v4_field_byte a Ha) as (Fa & Da & Ka), (v4_field_byte b Hb) as (Fb & Db & _),
           (v4_field_byte c Hc) as (Fc & Dc & _), (v4_field_byte d Hd) as (Fd & Dd & _).
  unfold ParseIP, ParseAddr. rewrite addr_kind_v4 by done. unfold parseIPv4.
  change ("." +:+ fmt_d b +:+ "." +:+ fmt_d c +:+ "." +:+ fmt_d d)
    with (String (chr 46) (fmt_d b +:+ String (chr 46) (fmt_d c +:+ String (chr 46) (fmt_d d)))).
  rewrite !split_on_digits by done. rewrite split_on_one by done. by rewrite Fa, Fb, Fc, Fd.
Qed.
