(* ===== verification/FcNetwork.v ===== *)
(** * The network of the VMs: network.go of the firecracker package, and hostroute

    Every VM has a TAP device with a point-to-point route; one nft table masquerades the
    subnet; the resolver is waited for. *)

From S2P Require Import Prelude Exception Naming GoLib Domain World PgRepo IPAlloc Interfaces Hoare Json ExecProtocol GuestRPC CIDAlloc SparseMem FcHost NetIP.

Local Open Scope go_scope.

(** ** Names *)

(** Interface names have at most 15 bytes on Linux (IFNAMSIZ less the final zero). *)
Definition TAPName (vmID : string) : string :=
  if bool_decide (8 < str_len vmID)%nat then "tap-" +:+ take_str 8 vmID else "tap-" +:+ vmID.

(** [fnvHash] ranges over runes; VM ids are ASCII, where runes are bytes. *)
Definition fnvHash (s : string) : Z := fnv1a 2166136261 s.
Definition upper_hex (z : Z) : ascii := if bool_decide (z < 10) then chr (48 + z) else chr (55 + z).
Definition fmt_02X (z : Z) : string := String (upper_hex (z / 16)) (str1 (upper_hex (z mod 16))).
Definition macForVM (vmID : string) : string :=
  let h := fnvHash vmID in
  "02:FC:" +:+ join ":" (map (fun k => fmt_02X (Z.shiftr h k mod 256)) [24; 16; 8; 0]).

Record NetworkManager := { nm_cfg : NetworkCfg; nm_outbound : string; nm_mask : string }.

(** [fmt.Sprintf] of the four first bytes of the mask. *)
Definition dotted_mask (mask : list Z) : string := dotted (take 4 mask).
Definition BuildIPKernelArg (m : NetworkManager) (ip : string) : string :=
  "ip=" +:+ ip +:+ "::" +:+ nw_GatewayIP (nm_cfg m) +:+ ":" +:+ nm_mask m +:+ "::eth0:off".

Definition maskBits (subnet : string) : string :=
  match ParseCIDR subnet with
  | Err _ => "24"
  | Ok (_, mask) => fmt_d (Z.of_nat (length (List.filter (fun b => b) (concat (map (fun b => map (fun k => Z.testbit b (Z.of_nat k)) (seq 0 8)) mask)))))
  end.

Definition lf : string := str1 (chr 10).
Definition tab : string := str1 (chr 9).
Definition nftRuleset (m : NetworkManager) : string :=
  let subnet := nw_Subnet (nm_cfg m) in
  let out := dquote +:+ nm_outbound m +:+ dquote in
  join lf [""; "table ip spacetrk-nat {";
    tab +:+ "chain forward-vm-out {"; tab +:+ tab +:+ "type filter hook forward priority filter; policy accept;";
    tab +:+ tab +:+ "ip saddr " +:+ subnet +:+ " oifname " +:+ out +:+ " counter accept"; tab +:+ "}";
    tab +:+ "chain forward-vm-in {"; tab +:+ tab +:+ "type filter hook forward priority filter + 1; policy accept;";
    tab +:+ tab +:+ "ip daddr " +:+ subnet +:+ " iifname " +:+ out +:+ " ct state established,related counter accept"; tab +:+ "}";
    tab +:+ "chain postrouting {"; tab +:+ tab +:+ "type nat hook postrouting priority srcnat; policy accept;";
    tab +:+ tab +:+ "ip saddr " +:+ subnet +:+ " oifname " +:+ out +:+ " counter masquerade"; tab +:+ "}";
    "}"; ""].

Definition existsAlready (e : error) : bool := contains (Error e) "already exists".

(** The first interface whose route has destination 0. *)
Fixpoint default_route (lines : list string) : option string :=
  match lines with
  | [] => None
  | line :: rest =>
      match strings_Fields line with
      | iface :: dest :: _ :: _ => if bool_decide (dest = "00000000") then Some iface else default_route rest
      | _ => default_route rest
      end
  end.

Section network.
Context {H : Type} `{!FcHost H}.
Abbreviation W := (Fc H).

Definition outboundIface : M W (res string) :=
  let* r := on_host (ho_ReadFile "/proc/net/route") in
  match r with
  | Err e => fails (wrapf "open /proc/net/route: " e)
  | Ok text => ret (match default_route (lines_of text) with
                    | Some iface => Ok iface
                    | None => Err (EText "no default route found in /proc/net/route")
                    end)
  end.

Definition NewNetworkManager (cfg : NetworkCfg) : M W (res NetworkManager) :=
  let? outbound := or_wrap "detect outbound interface: " outboundIface in
  match ParseCIDR (nw_Subnet cfg) with
  | Err e => fails (wrapf ("parse subnet " +:+ fmt_q (nw_Subnet cfg) +:+ ": ") e)
  | Ok (_, mask) => ret (Ok {| nm_cfg := cfg; nm_outbound := outbound; nm_mask := dotted_mask mask |})
  end.

(** [run]: the arguments, then the error, then what the command printed. *)
Definition run_cmd (argv : list string) : M W (res unit) :=
  run_or argv (fun out e => EWrap (join " " argv +:+ ": ") e (": " +:+ trim_space out)).

Section manager.
Context (m : NetworkManager).

Definition EnsureBridge : M W (res unit) := ret (Ok tt).

Definition EnsureNAT : M W (res unit) :=
  if negb (nw_EnableNAT (nm_cfg m)) then ret (Ok tt)
  else
    let* r := on_host (ho_WriteFile "/proc/sys/net/ipv4/ip_forward" "1") in
    let* _ := match r with Ok _ => ret tt | Err _ => ignore (command ["sysctl"; "-w"; "net.ipv4.ip_forward=1"]) end in
    let* _ := ignore (command ["nft"; "delete"; "table"; "ip"; "spacetrk-nat"]) in
    let* x := on_host (ho_Command (nftRuleset m) ["nft"; "-f"; "-"]) in
    ret (match x.2 with None => Ok tt | Some e => Err (EWrap "nft nat rules: " e (": " +:+ trim_space x.1)) end).

(** net.JoinHostPort *)
Definition JoinHostPort (host port : string) : string :=
  if contains host ":" || contains host "%" then "[" +:+ host +:+ "]:" +:+ port else host +:+ ":" +:+ port.

(** The loop of [ensureDNSReadyAddr]; [None] when the rounds are used up. *)
Definition poll_interval : Z := 250 * 1000000.
Fixpoint dns_loop (rounds : nat) (addr : string) (deadline : Z) : M W (option (res unit)) :=
  match rounds with
  | O => ret None
  | S n =>
      let* e := on_host (ho_DialTCP addr (500 * 1000000)) in
      match e with
      | None => ret (Some (Ok tt))
      | Some lastErr =>
          let* t := on_host ho_Now in
          if bool_decide (deadline < t) then ret (Some (Err (wrapf ("dns resolver " +:+ addr +:+ " not reachable: ") lastErr)))
          else let* _ := on_host (ho_Sleep poll_interval) in dns_loop n addr deadline
      end
  end.
(** Every round sleeps a quarter of a second, so these rounds reach the deadline. *)
Definition dns_rounds (timeout : Z) : nat := S (S (Z.to_nat (timeout / poll_interval))).
Definition ensureDNSReadyAddr (targetIP : string) (timeout : Z) : M W (res unit) :=
  let addr := JoinHostPort targetIP "53" in
  let* start := on_host ho_Now in
  let* r := dns_loop (dns_rounds timeout) addr (start + timeout) in
  ret (match r with Some r => r | None => Err (EText "the clock does not advance") end).

Definition EnsureDNSReady (timeout : Z) : M W (res unit) :=
  let ip := nw_DNSIP (nm_cfg m) in
  ensureDNSReadyAddr (if bool_decide (ip = "") then "127.0.0.1" else ip) timeout.
Definition EnsureLocalDNSReady (timeout : Z) : M W (res unit) := ensureDNSReadyAddr "127.0.0.1" timeout.

Definition link_del (tapName : string) : list string := ["ip"; "link"; "del"; tapName].
Definition DestroyTAP (tapName : string) : M W (res unit) := run_cmd (link_del tapName).

Definition CreateTAP (tapName : string) : M W (res unit) :=
  let* _ := ignore (run_cmd (link_del tapName)) in
  let? _ := or_wrap ("create tap " +:+ tapName +:+ ": ") (run_cmd ["ip"; "tuntap"; "add"; "dev"; tapName; "mode"; "tap"]) in
  let* up := run_cmd ["ip"; "link"; "set"; tapName; "up"] in
  match up with
  | Ok _ => ret (Ok tt)
  | Err e => let* _ := ignore (run_cmd (link_del tapName)) in fails (wrapf ("bring tap " +:+ tapName +:+ " up: ") e)
  end.

Definition ConfigureTAP (tapName vmIP : string) : M W (res unit) :=
  let* r := run_cmd ["ip"; "addr"; "add"; nw_GatewayIP (nm_cfg m) +:+ "/32"; "dev"; tapName] in
  let? _ := ret (match r with
                 | Err e => if existsAlready e then Ok tt else Err (wrapf ("assign gateway to tap " +:+ tapName +:+ ": ") e)
                 | Ok _ => Ok tt
                 end) in
  let? _ := or_wrap ("route " +:+ vmIP +:+ " via tap " +:+ tapName +:+ ": ")
              (run_cmd ["ip"; "route"; "replace"; vmIP +:+ "/32"; "dev"; tapName]) in
  let* _ := ignore (on_host (ho_WriteFile ("/proc/sys/net/ipv4/conf/" +:+ tapName +:+ "/proxy_arp") "1")) in
  let* _ := ignore (on_host (ho_WriteFile ("/proc/sys/net/ipv4/conf/" +:+ tapName +:+ "/forwarding") "1")) in
  ret (Ok tt).
End manager.

(** ** hostroute *)

(** The addresses of the interfaces: an address, and whether it is a *net.IPNet. *)
Context (InterfaceAddrs : M W (res (list (IP * bool)))).
Definition IsLoopback (ip : IP) : bool :=
  if is_v4_mapped ip then bool_decide (ip !! 12%nat = Some 127) else bool_decide (ip = replicate 15 0 ++ [1]).
Fixpoint first_ipv4 (addrs : list (IP * bool)) : option string :=
  match addrs with
  | [] => None
  | (ip, is_net) :: rest =>
      if negb is_net || IsLoopback ip then first_ipv4 rest
      else if is_v4_mapped ip then Some (ip_string ip) else first_ipv4 rest
  end.
Definition OwnContainerIP : M W (res string) :=
  let? addrs := or_wrap "enumerate interface addrs: " InterfaceAddrs in
  ret (match first_ipv4 addrs with Some ip => Ok ip | None => Err (EText "no non-loopback IPv4 address found") end).
Definition EnsureRoute (subnet : string) : M W (res unit) :=
  let? ownIP := or_wrap "detect own eth0 IP: " OwnContainerIP in
  run_or ["nsenter"; "-t"; "1"; "-n"; "ip"; "route"; "replace"; subnet; "via"; ownIP]
    (fun out e => EWrap ("nsenter ip route replace " +:+ subnet +:+ " via " +:+ ownIP +:+ ": ") e (": " +:+ trim_space out)).
End network.

(** ** The wait for the resolver ends *)

(** A clock that never goes back and advances by at least the time slept. *)
Class ClockLaws (H : Type) `{!FcHost H} := {
  clock : H -> Z;
  clock_Now : forall h, (ho_Now h).1 = clock h /\ clock h <= clock (ho_Now h).2;
  clock_Sleep : forall d h, clock h + d <= clock (ho_Sleep d h).2;
  clock_Dial : forall a d h, clock h <= clock (ho_DialTCP a d h).2 }.

Section wait.
Context {H : Type} {FH : FcHost H} {CL : ClockLaws H}.

Lemma dns_loop_ends rounds addr deadline (w : Fc H) :
  (1 <= rounds)%nat -> deadline - clock (fc_host w) < (Z.of_nat rounds - 1) * poll_interval ->
  exists r w', dns_loop rounds addr deadline w = (Some r, w').
Proof.
  revert w. induction rounds as [|n IH]; intros [h0 vms prev base active stale] Hn Hd; [lia |].
  cbn [dns_loop]. unfold bind, on_host. cbn in *.
  pose proof (clock_Dial addr (500 * 1000000) h0) as C1.
  destruct (ho_DialTCP addr (500 * 1000000) h0) as [[e|] h1]; [| by do 2 eexists]. cbn in *.
  destruct (clock_Now h1) as [T1 C2]. destruct (ho_Now h1) as [t h2]. cbn in T1, C2 |- *. subst t.
  case_bool_decide as Ht; [by do 2 eexists |].
  cbn. pose proof (clock_Sleep poll_interval h2) as C3. destruct (ho_Sleep poll_interval h2) as [[] h3]. cbn in C3 |- *.
  apply IH; cbn; rewrite Nat2Z.inj_succ in Hd; unfold poll_interval in *; nia.
Qed.

(** Waiting for the resolver ends by an answer or by the error of the timeout: the rounds
    of the model are never used up. *)
Theorem EnsureDNSReady_ends (m : NetworkManager) timeout (w : Fc H) : 0 <= timeout ->
  (EnsureDNSReady m timeout w).1 = Ok tt \/
  exists addr e, (EnsureDNSReady m timeout w).1 = Err (wrapf ("dns resolver " +:+ addr +:+ " not reachable: ") e).
Proof.
  intros Ht. unfold EnsureDNSReady, ensureDNSReadyAddr. set (addr := JoinHostPort _ _).
  unfold bind, on_host. destruct w as [h0 vms prev base active stale]. cbn -[dns_loop dns_rounds].
  destruct (clock_Now h0) as [T0 C0]. destruct (ho_Now h0) as [t h1]. cbn in T0, C0. subst t.
  cbn -[dns_loop dns_rounds]. set (w1 := Build_Fc _ _ _ _ _ _ _).
  destruct (dns_loop_ends (dns_rounds timeout) addr (clock h0 + timeout) w1) as (r & w' & E).
  - unfold dns_rounds. lia.
  - cbn. unfold dns_rounds, poll_interval in *. pose proof (Z.div_pos timeout (250 * 1000000) Ht ltac:(lia)).
    pose proof (Z.mod_pos_bound timeout (250 * 1000000) ltac:(lia)). pose proof (Z.div_mod timeout (250 * 1000000) ltac:(lia)). lia.
  - rewrite E. clear -E. revert E. generalize (dns_rounds timeout) as n. generalize (clock h0 + timeout) as deadline.
    intros deadline n. generalize w1 as v. clear w1. induction n as [|n IH]; intros v E; [done |]. cbn [dns_loop] in E. unfold bind, on_host in E.
    destruct (ho_DialTCP addr (500 * 1000000) (fc_host v)) as [[e|] h2]; [| injection E as <- <-; by left].
    destruct (ho_Now _) as [t h3]. case_bool_decide; [injection E as <- <-; right; by do 2 eexists |].
    destruct (ho_Sleep _ _) as [[] h4]. exact (IH _ E).
Qed.
End wait.

(** ** Names fit *)

(** The interface name of a VM has at most 12 of the 15 bytes, and its address is a
    locally administered unicast address. *)
Lemma TAPName_fits vmID : (str_len (TAPName vmID) <= 12)%nat.
Proof.
  unfold TAPName. case_bool_decide as Hl; rewrite str_len_app; change (str_len "tap-") with 4%nat; [| lia].
  assert (Ht : forall n s, (str_len (take_str n s) <= n)%nat).
  { induction n as [|n IH]; intros [|c s]; cbn; try lia. specialize (IH s). unfold str_len in *. lia. }
  specialize (Ht 8%nat vmID). lia.
Qed.
(** Two VMs whose identifiers share eight bytes share the device. *)
Lemma TAPName_collides : exists a b : string, a <> b /\ TAPName a = TAPName b.
Proof. exists "0f3c9a1b-1", "0f3c9a1b-2". done. Qed.
