(* ===== verification/DmSnapshot.v ===== *)
(** * Copy-on-write devices: dm_snapshot.go

    Every VM that takes diff snapshots has a device-mapper snapshot: a base image, shared
    read-only by all the VMs on it and counted, and a file of its own for what the VM
    writes. Methods take the manager's mutex from beginning to end, so each is one step. *)

From S2P Require Import Prelude Exception Naming GoLib Domain World PgRepo IPAlloc Interfaces Hoare Json ExecProtocol GuestRPC CIDAlloc SparseMem FcHost.

Local Open Scope go_scope.

(** ** Sizes and names *)

Definition cowSizeForBase (baseSize : Z) : Z := Z.quot (Z.max (Z.quot baseSize 10) (64 * 1024 * 1024)) 512 * 512.

(** The last line of the output of losetup. *)
Definition parseLoopDev (out : string) : string := trim_space (List.last (lines_of (trim_space out)) "").

Definition dmNameForVM (vmID : string) : string := "vm_" +:+ replace_byte (chr 45) "_" vmID.
Definition vmIDFromDmName (dmName : string) : string := replace_byte (chr 95) "-" (drop_str 3 dmName).
Definition mapper (dmName : string) : string := "/dev/mapper/" +:+ dmName.
Definition dm_table (sectors : Z) (origin cow : string) : string :=
  "0 " +:+ fmt_d sectors +:+ " snapshot " +:+ origin +:+ " " +:+ cow +:+ " P 8".

(** ** The commands *)

Definition losetup_ro (path : string) : list string := ["losetup"; "--find"; "--show"; "--read-only"; path].
Definition losetup (path : string) : list string := ["losetup"; "--find"; "--show"; path].
Definition detach (dev : string) : list string := ["losetup"; "--detach"; dev].
Definition dm_create (name table : string) : list string := ["dmsetup"; "create"; name; "--table"; table].
Definition dm_reload (name table : string) : list string := ["dmsetup"; "reload"; name; "--table"; table].
Definition dm_remove (name : string) : list string := ["dmsetup"; "remove"; "--force"; name].

Section manager.
Context {H : Type} `{!FcHost H}.
Abbreviation W := (Fc H).

Definition baseLoopDevs : M W (gmap string baseLoopEntry) := fun w => (fc_base w, w).
Definition activeDevices : M W (gmap string vmDeviceInfo) := fun w => (fc_active w, w).
Definition set_base (path : string) (e : baseLoopEntry) : M W unit := fun w => (tt, w <| fc_base := <[path := e]> (fc_base w) |>).
Definition del_base (path : string) : M W unit := fun w => (tt, w <| fc_base := delete path (fc_base w) |>).
(** Leaves a mark in the history only. *)
Definition found_stale (path : string) : M W unit := fun w => (tt, w <| fc_stale := {[path]} ∪ fc_stale w |>).
Definition set_active (vmID : string) (i : vmDeviceInfo) : M W unit := fun w => (tt, w <| fc_active := <[vmID := i]> (fc_active w) |>).
Definition del_active (vmID : string) : M W unit := fun w => (tt, w <| fc_active := delete vmID (fc_active w) |>).

(** Attaches a file to a free loop device. *)
Definition attach (argv : list string) (what : string) : M W (res string) :=
  let* x := command argv in
  ret (match x.2 with Some e => Err (err_out what x.1 e) | None => Ok (parseLoopDev x.1) end).

Definition actualDiskUsage (path : string) : M W (res Z) :=
  let? blocks := on_host (ho_Blocks path) in ret (Ok (i64 (blocks * 512))).

(** blockDeviceSize and flattenDmDevice of flatten.go; what is written is
    [SparseMem.flattenDmDevice] of what is read. *)
Definition blockDeviceSize (path : string) : M W (res Z) :=
  let? _ := on_host (ho_Open path) in
  or_wrap ("BLKGETSIZE64 " +:+ path +:+ ": ") (on_host (ho_BLKGETSIZE64 path)).
Definition flatten (srcDevice dstPath : string) (sizeBytes : Z) : M W (res unit) :=
  let? _ := or_wrap ("flatten: open src " +:+ srcDevice +:+ ": ") (on_host (ho_Open srcDevice)) in
  let? _ := or_wrap ("flatten: create dst " +:+ dstPath +:+ ": ") (on_host (ho_OpenFile dstPath)) in
  let? _ := or_wrap "flatten: truncate dst: " (on_host (ho_Truncate dstPath sizeBytes)) in
  let? src := on_host (ho_ReadDevice srcDevice) in
  on_host (ho_PutFile dstPath (flattenDmDevice src.2 src.1 (Z.to_nat sizeBytes))).

(** ** Base images *)

Definition setupOriginLocked (baseImagePath : string) : M W (res string) :=
  let new : M W (res string) :=
    let? loopDev := attach (losetup_ro baseImagePath) ("losetup --find --show --read-only " +:+ baseImagePath) in
    let* _ := set_base baseImagePath {| ble_loopDev := loopDev; ble_refCount := 1 |} in
    ret (Ok loopDev) in
  let* base := baseLoopDevs in
  match base !! baseImagePath with
  | Some entry =>
      let* st := on_host (ho_Stat (ble_loopDev entry)) in
      match st with
      | Ok _ => let* _ := set_base baseImagePath (entry <| ble_refCount := ble_refCount entry + 1 |>) in ret (Ok (ble_loopDev entry))
      | Err _ => let* _ := found_stale baseImagePath in let* _ := del_base baseImagePath in new
      end
  | None => new
  end.
Definition SetupOrigin := setupOriginLocked.

(** ** One layer *)

(** The device that the VM has already, if its node is there; a stale record is dropped. *)
Definition existing_device (vmID : string) : M W (option string) :=
  let* active := activeDevices in
  match active !! vmID with
  | Some info =>
      let* st := on_host (ho_Stat (di_dmPath info)) in
      match st with
      | Ok _ => ret (Some (di_dmPath info))
      | Err _ => let* _ := del_active vmID in ret None
      end
  | None => ret None
  end.

(** An empty file of the size for the base. *)
Definition fresh_cow (create resize cowImagePath : string) (baseSize : Z) : M W (res unit) :=
  let? _ := or_wrap create (on_host (ho_OpenFile cowImagePath)) in
  or_wrap resize (on_host (ho_Truncate cowImagePath (cowSizeForBase baseSize))).

Definition stat_base (pre baseImagePath : string) : M W (res Z) :=
  let? info := or_wrap pre (on_host (ho_Stat baseImagePath)) in ret (Ok (fi_Size info)).

Definition createCowDeviceLocked (vmID baseImagePath cowImagePath : string) (reuseExistingCow : bool) : M W (res string) :=
  let* have := existing_device vmID in
  match have with
  | Some dmPath => ret (Ok dmPath)
  | None =>
      let? loopDev := or_wrap "setup origin for cow device: " (setupOriginLocked baseImagePath) in
      let? baseSize := stat_base ("stat base image " +:+ baseImagePath +:+ ": ") baseImagePath in
      let? _ := or_wrap "create cow dir: " (on_host (ho_MkdirAll (filepath_Dir cowImagePath))) in
      let? _ := if reuseExistingCow then ret (Ok tt)
                else fresh_cow "create cow image: " "truncate cow image: " cowImagePath baseSize in
      let? cowLoopDev := attach (losetup cowImagePath) ("losetup cow " +:+ cowImagePath) in
      let dmName := dmNameForVM vmID in
      let* x := command (dm_create dmName (dm_table (Z.quot baseSize 512) loopDev cowLoopDev)) in
      match x.2 with
      | Some e =>
          let* _ := ignore (command (detach cowLoopDev)) in
          fails (err_out ("dmsetup create " +:+ dmName) x.1 e)
      | None =>
          let* _ := ignore (command ["dmsetup"; "mknodes"]) in
          let* _ := set_active vmID {| di_dmPath := mapper dmName; di_baseImagePath := baseImagePath;
                                       di_cowLoopDev := cowLoopDev; di_layers := [] |} in
          ret (Ok (mapper dmName))
      end
  end.
Definition CreateCoWDevice (vmID baseImagePath cowImagePath : string) : M W (res string) :=
  createCowDeviceLocked vmID baseImagePath cowImagePath false.
Definition ReconstructDevice (vmID baseImagePath cowImagePath : string) : M W (res string) :=
  createCowDeviceLocked vmID baseImagePath cowImagePath true.

(** ** Chains *)

Definition drop_layer (l : layerInfo) : M W unit :=
  let* _ := ignore (command (dm_remove (ly_dmName l))) in
  if bool_decide (ly_cowLoopDev l = "") then ret tt else ignore (command (detach (ly_cowLoopDev l))).
Definition cleanupChainLayers (layers : list layerInfo) : M W unit := for_each (rev layers) drop_layer.

(** The loop over the files, from layer [i]; [layers] are those made so far. *)
Fixpoint stack_layers (vmID : string) (sectors : Z) (i : nat) (cowPaths : list string) (originDev : string)
  (layers : list layerInfo) : M W (res (list layerInfo)) :=
  match cowPaths with
  | [] => ret (Ok layers)
  | cowPath :: rest =>
      let* x := command (losetup cowPath) in
      match x.2 with
      | Some e =>
          let* _ := cleanupChainLayers layers in
          fails (err_out ("losetup cow[" +:+ fmt_d (Z.of_nat i) +:+ "] " +:+ cowPath) x.1 e)
      | None =>
          let cowLoopDev := parseLoopDev x.1 in
          let dmName := if bool_decide (rest = []) then dmNameForVM vmID
                        else dmNameForVM vmID +:+ "_layer" +:+ fmt_d (Z.of_nat i) in
          let* x := command (dm_create dmName (dm_table sectors originDev cowLoopDev)) in
          match x.2 with
          | Some e =>
              let* _ := ignore (command (detach cowLoopDev)) in
              let* _ := cleanupChainLayers layers in
              fails (err_out ("dmsetup create " +:+ dmName +:+ " (layer " +:+ fmt_d (Z.of_nat i) +:+ ")") x.1 e)
          | None =>
              let* _ := ignore (command ["dmsetup"; "mknodes"]) in
              stack_layers vmID sectors (S i) rest (mapper dmName)
                (layers ++ [{| ly_dmName := dmName; ly_cowLoopDev := cowLoopDev |}])
          end
      end
  end.

Definition ReconstructChainDevice (vmID baseImagePath : string) (cowPaths : list string) : M W (res string) :=
  match cowPaths with
  | [] => fails (EText "cow chain is empty")
  | [cow] => ReconstructDevice vmID baseImagePath cow
  | _ =>
      let* have := existing_device vmID in
      match have with
      | Some dmPath => ret (Ok dmPath)
      | None =>
          let? baseLoopDev := or_wrap "setup origin for chain device: " (setupOriginLocked baseImagePath) in
          let? baseSize := stat_base ("stat base image " +:+ baseImagePath +:+ ": ") baseImagePath in
          let? layers := stack_layers vmID (Z.quot baseSize 512) 0 cowPaths baseLoopDev [] in
          let devicePath := mapper (dmNameForVM vmID) in
          let* _ := set_active vmID
            {| di_dmPath := devicePath; di_baseImagePath := baseImagePath;
               di_cowLoopDev := match last layers with Some l => ly_cowLoopDev l | None => "" end;
               di_layers := removelast layers |} in
          ret (Ok devicePath)
      end
  end.

(** ** Removal *)

(** The count of the base image goes down; the last user detaches it. *)
Definition release_base (path : string) : M W unit :=
  let* base := baseLoopDevs in
  match base !! path with
  | Some entry =>
      let n := ble_refCount entry - 1 in
      if bool_decide (n <= 0) then
        let* _ := ignore (command (detach (ble_loopDev entry))) in del_base path
      else set_base path (entry <| ble_refCount := n |>)
  | None => ret tt
  end.

Definition removeDeviceLocked (vmID : string) : M W unit :=
  let* _ := ignore (command (dm_remove (dmNameForVM vmID))) in
  let* active := activeDevices in
  match active !! vmID with
  | None => ret tt
  | Some info =>
      let* _ := if bool_decide (di_cowLoopDev info = "") then ret tt else ignore (command (detach (di_cowLoopDev info))) in
      let* _ := for_each (rev (di_layers info)) drop_layer in
      let* _ := del_active vmID in
      release_base (di_baseImagePath info)
  end.
Definition RemoveDevice := removeDeviceLocked.

Definition FlattenChainDevice (vmID mergedPath : string) : M W (res (string * string)) :=
  let* active := activeDevices in
  match active !! vmID with
  | None => fails (EText ("no active dm device for vm " +:+ vmID))
  | Some info =>
      let stackedDevPath := di_dmPath info in
      let? size := or_wrap "get stacked device size: " (blockDeviceSize stackedDevPath) in
      let? _ := or_wrap "flatten dm chain: " (flatten stackedDevPath mergedPath size) in
      let* _ := removeDeviceLocked vmID in
      let freshCowPath := filepath_Join [filepath_Dir mergedPath; "cow.img"] in
      let? devPath := or_wrap "create flattened dm device: " (createCowDeviceLocked vmID mergedPath freshCowPath false) in
      ret (Ok (devPath, freshCowPath))
  end.

Definition DevicePath (vmID : string) : M W string :=
  let* active := activeDevices in
  ret (match active !! vmID with Some info => di_dmPath info | None => "" end).

(** ** Suspend, reset, resume *)

Definition dm_verb (verb vmID : string) : M W (res unit) :=
  run_or ["dmsetup"; verb; dmNameForVM vmID] (err_out ("dmsetup " +:+ verb +:+ " " +:+ dmNameForVM vmID)).
Definition SuspendDevice (vmID : string) : M W (res unit) := dm_verb "suspend" vmID.
Definition ResumeDevice (vmID : string) : M W (res unit) := dm_verb "resume" vmID.

Definition ResetCoW (vmID cowImagePath : string) : M W (res unit) :=
  let* active := activeDevices in
  match active !! vmID with
  | None => fails (EText ("no active dm device for vm " +:+ vmID))
  | Some info =>
      let dmName := dmNameForVM vmID in
      let* base := baseLoopDevs in
      match base !! di_baseImagePath info with
      | None => fails (EText ("no base loop device for vm " +:+ vmID))
      | Some baseEntry =>
          let* _ := if bool_decide (di_cowLoopDev info = "") then ret tt else ignore (command (detach (di_cowLoopDev info))) in
          let? baseSize := stat_base "stat base image for cow reset: " (di_baseImagePath info) in
          let? _ := fresh_cow "truncate cow image: " "resize cow image: " cowImagePath baseSize in
          let? newCowLoopDev := attach (losetup cowImagePath) ("losetup new cow " +:+ cowImagePath) in
          let* x := command (dm_reload dmName (dm_table (Z.quot baseSize 512) (ble_loopDev baseEntry) newCowLoopDev)) in
          match x.2 with
          | Some e =>
              let* _ := ignore (command (detach newCowLoopDev)) in
              fails (err_out ("dmsetup reload " +:+ dmName +:+ " for cow reset") x.1 e)
          | None =>
              let* _ := set_active vmID (info <| di_cowLoopDev := newCowLoopDev |>) in
              ret (Ok tt)
          end
      end
  end.

(** ** Start and end of the process *)

(** One line of the output of "dmsetup ls". *)
Definition clean_orphan (line : string) : M W unit :=
  let line := trim_space line in
  if bool_decide (line = "") || has_prefix "No" line then ret tt
  else
    let name := List.hd "" (split_on (chr 9) line) in
    if negb (has_prefix "vm_" name) then ret tt
    else
      let* active := activeDevices in
      match active !! vmIDFromDmName name with
      | Some _ => ret tt
      | None => ignore (command (dm_remove name))
      end.
Definition CleanupOrphans : M W unit :=
  let* x := command ["dmsetup"; "ls"; "--target"; "snapshot"] in
  match x.2 with
  | Some _ => ret tt
  | None => for_each (lines_of (trim_space x.1)) clean_orphan
  end.

Definition make_node (i : nat) : M W unit :=
  let n := fmt_d (Z.of_nat i) in
  let path := "/dev/loop" +:+ n in
  let* st := on_host (ho_Stat path) in
  match st with
  | Err e => if ho_not_exist e then ignore (command ["mknod"; "-m"; "0660"; path; "b"; "7"; n]) else ret tt
  | Ok _ => ret tt
  end.
Definition PreflightCheck : M W unit :=
  let* _ := for_each (seq 0 256) make_node in
  let* x := command ["losetup"; "-f"] in
  match x.2 with
  | Some _ => ret tt
  | None => ignore (on_host (ho_ReadFile "/sys/module/loop/parameters/max_loop"))
  end.

Definition Close : M W unit := fun w =>
  (tt, (for_each (map_to_list (fc_base w)) (fun e => ignore (command (detach (ble_loopDev e.2)))) w).2 <| fc_base := ∅ |>).
End manager.
