(* ===== verification/Provider.v ===== *)
(** * The Firecracker provider: provider.go

    [Provider] implements vm.Backend: it clones or layers root disks, sets up the network
    and the vsock of a VM, starts and restores machines through the SDK, takes snapshots
    and reports status and metrics. Contexts and the timeouts of the SDK's calls belong to
    the host. The commands and files of a guest are in GuestRPC, guest CIDs in CIDAlloc,
    devices in DmSnapshot, TAPs in FcNetwork. *)

From S2P Require Import Prelude Exception Naming GoLib Domain World PgRepo IPAlloc Interfaces Hoare Json ExecProtocol GuestRPC CIDAlloc SparseMem.
From S2P Require Import VMExec VMSnapshot VMService VMResume Metrics FcHost NetIP FcNetwork DmSnapshot.

Local Open Scope go_scope.

Section provider.
Context {H : Type} {FH : FcHost H}.
Abbreviation W := (Fc H).
Context (config : Config) (netMgr : option NetworkManager).

(** On an error, the clean-up runs before the function returns. *)
Definition or_undo {A} (undo : M W unit) (m : M W (res A)) : M W (res A) :=
  let* r := m in
  match r with Ok a => ret (Ok a) | Err e => let* _ := undo in ret (Err e) end.
Definition Remove (path : string) : M W unit := ignore (on_host (ho_Remove path)).
Definition RemoveAll (path : string) : M W unit := ignore (on_host (ho_RemoveAll path)).

(** ** Files *)

Definition err_trim (what out : string) (e : error) : error := err_out what (trim_space out) e.

Definition copyFile (srcPath dstPath : string) : M W (res unit) :=
  let? _ := or_wrap "open source image: " (on_host (ho_Open srcPath)) in
  let? _ := or_wrap "create destination dir: " (on_host (ho_MkdirAll (filepath_Dir dstPath))) in
  let? _ := or_wrap "create destination image: " (on_host (ho_OpenFile dstPath)) in
  let closed := ignore (on_host (ho_Close dstPath)) in
  let? _ := or_undo closed (or_wrap "copy image bytes: " (on_host (ho_CopyBytes dstPath srcPath))) in
  let? _ := or_undo closed (or_wrap "sync destination image: " (on_host (ho_Sync dstPath))) in
  or_wrap "close destination image: " (on_host (ho_Close dstPath)).

Definition copySparseFile (srcPath dstPath : string) : M W (res unit) :=
  let? _ := or_wrap "create destination dir: " (on_host (ho_MkdirAll (filepath_Dir dstPath))) in
  let* _ := Remove dstPath in
  let* x := command ["cp"; "--sparse=always"; srcPath; dstPath] in
  match x.2 with None => ret (Ok tt) | Some _ => copyFile srcPath dstPath end.

Definition reflinkClone (srcPath dstPath : string) : M W (res unit) :=
  let? cpPath := or_wrap "cp not found: " (on_host (ho_LookPath "cp")) in
  run_or [cpPath; "--reflink=always"; "--sparse=always"; srcPath; dstPath]
    (fun out e => let msg := trim_space out in
       if bool_decide (msg = "") then wrapf "reflink clone failed: " e else EWrap "reflink clone failed: " e (": " +:+ msg)).

(** The mode of the copy, and why it is not a reflink. *)
Definition cloneRootfs (srcPath dstPath : string) : M W (res (string * string)) :=
  let? _ := or_wrap "create destination dir: " (on_host (ho_MkdirAll (filepath_Dir dstPath))) in
  let* _ := Remove dstPath in
  let* r := reflinkClone srcPath dstPath in
  match r with
  | Ok _ => ret (Ok ("reflink", ""))
  | Err why => let? _ := copyFile srcPath dstPath in ret (Ok ("copy", Error why))
  end.

Definition resizeRootfs (imagePath : string) (sizeMB : Z) : M W (res unit) :=
  let? _ := or_wrap ("truncate rootfs to " +:+ fmt_d sizeMB +:+ " MB: ") (on_host (ho_Truncate imagePath (i64 (sizeMB * 1024 * 1024)))) in
  let* _ := ignore (command ["e2fsck"; "-f"; "-y"; imagePath]) in
  run_or ["resize2fs"; imagePath] (err_trim ("resize2fs " +:+ imagePath)).

Definition ensureWorkspaceImage (imagePath : string) (sizeGB : Z) : M W (res unit) :=
  let* st := on_host (ho_Stat imagePath) in
  match st with
  | Ok _ => ret (Ok tt)
  | Err e =>
      if negb (ho_not_exist e) then fails (wrapf "stat workspace image: " e)
      else
        let? _ := or_wrap "create workspace image: " (on_host (ho_OpenFile imagePath)) in
        let? _ := or_wrap "truncate workspace image: " (on_host (ho_Truncate imagePath (i64 (sizeGB * 1024 * 1024 * 1024)))) in
        run_or ["mkfs.ext4"; "-F"; "-L"; "workspace"; imagePath] (err_trim "mkfs.ext4 workspace image")
  end.

(** ** Guest CIDs, with their files *)

Definition vm_instances (w : W) : gmap string VMInstance := tr_inst <$> fc_vms w.
Definition resolve_cid (vmID : string) (requested : Z) : M W (res Z) :=
  let? entries := or_wrap "scan vm base dir: " (on_host (ho_ReadDir (cf_BaseDir config))) in
  fun w => (resolveGuestCID (cf_CIDMin config) (cf_CIDMax config) (vm_instances w) entries vmID requested, w).
Definition persist_cid (vmID : string) (cid : Z) : M W (res unit) :=
  if bool_decide (cid = 0) then ret (Ok tt)
  else or_wrap "write guest cid metadata: " (on_host (ho_WriteFile (cidMetadataPath config vmID) (fmt_d cid +:+ str1 (chr 10)))).
Definition release_cid (vmID : string) : M W (res unit) :=
  let* r := on_host (ho_Remove (cidMetadataPath config vmID)) in
  ret (match r with
       | Err e => if ho_not_exist e then Ok tt else Err (wrapf "remove guest cid metadata: " e)
       | Ok _ => Ok tt
       end).

(** ** The configuration of a machine *)

Definition workspaceDrive (path : string) : Drive :=
  {| dr_ID := "workspace"; dr_PathOnHost := path; dr_IsRootDevice := false; dr_IsReadOnly := false |}.

Definition machine_config (spec : CreateSpec) (vmID rootDrive workspacePath : string) : FcConfig := {|
  fcc_Binary := cf_BinaryPath config; fcc_SocketPath := SocketPath config vmID;
  fcc_KernelImagePath := cf_KernelPath config; fcc_KernelArgs := cf_KernelArgs config;
  fcc_RootDrive := rootDrive; fcc_Drives := [workspaceDrive workspacePath];
  fcc_VcpuCount := rl_VCPU (cs_Resources spec); fcc_MemSizeMib := rl_MemoryMB (cs_Resources spec);
  fcc_Smt := cf_SMT config; fcc_TrackDirtyPages := rc_EnableDiffSnapshots (cs_Runtime spec);
  fcc_VMID := vmID; fcc_NetworkInterfaces := []; fcc_VsockDevices := [] |}.

(** The network of a VM: a TAP of its own, an interface given by the caller, or none.
    [where_] ends the messages; [undo] runs after a failure. *)
Definition setup_network (where_ : string) (undo : M W unit) (vmID : string) (spec : CreateSpec) (fcCfg : FcConfig)
  : M W (res (CreateSpec * FcConfig)) :=
  let net := rc_Network (cs_Runtime spec) in
  let nic mac dev := [{| ni_MacAddress := mac; ni_HostDevName := dev; ni_AllowMMDS := cf_EnableMmds config |}] in
  match nc_Enabled net, netMgr with
  | true, Some m =>
      let tapName := TAPName vmID in
      let undo_tap := let* _ := ignore (DestroyTAP tapName) in undo in
      let? _ := or_undo undo (or_wrap ("create tap device" +:+ where_ +:+ ": ") (CreateTAP tapName)) in
      let? _ := or_undo undo_tap (or_wrap ("configure tap device" +:+ where_ +:+ ": ") (ConfigureTAP m tapName (nc_IP net))) in
      let? _ := or_undo undo_tap (or_wrap ("ensure dns after tap setup" +:+ where_ +:+ ": ") (EnsureDNSReady m (5 * second))) in
      ret (Ok (spec <| cs_Runtime := (cs_Runtime spec) <| rc_Network := net <| nc_Interface := tapName |> |> |>,
               fcCfg <| fcc_KernelArgs := fcc_KernelArgs fcCfg +:+ " " +:+ BuildIPKernelArg m (nc_IP net) |>
                     <| fcc_NetworkInterfaces := nic (macForVM vmID) tapName |>))
  | true, None =>
      if bool_decide (nc_Interface net = "") then ret (Ok (spec, fcCfg))
      else ret (Ok (spec, fcCfg <| fcc_NetworkInterfaces := nic (cf_MacAddress config) (nc_Interface net) |>))
  | false, _ => ret (Ok (spec, fcCfg))
  end.

(** The vsock settings with the defaults of the provider. *)
Definition effective_vsock (vmID : string) (spec : CreateSpec) : VsockConfig :=
  let v := rc_Vsock (cs_Runtime spec) in
  let v := if bool_decide (vc_GuestPort v = 0) then v <| vc_GuestPort := cf_GuestAgentPort config |> else v in
  if bool_decide (vc_HostUDSPath v = "") then v <| vc_HostUDSPath := VsockPath config vmID |> else v.

Definition track (vmID : string) (v : VsockConfig) (m : Machine) (spec : CreateSpec) (HasSnapshot : bool) : M W unit :=
  let* t := on_host ho_Now in
  fun w => (tt, w <| fc_vms := <[vmID := {|
    tr_inst := {| vi_ID := vmID; vi_VsockPath := vc_HostUDSPath v; vi_GuestCID := vc_GuestCID v; vi_GuestPort := vc_GuestPort v;
                  vi_Config := spec |};
    tr_SocketPath := SocketPath config vmID; tr_Machine := m; tr_StartedAt := t; tr_HasSnapshot := HasSnapshot |}]> (fc_vms w) |>).

Definition size_or_2 (z : Z) : Z := if bool_decide (z <= 0) then 2 else z.

(** A machine that is made but does not start is cancelled. *)
Definition launch (fcCfg : FcConfig) (snap : option SnapshotLoad) (made started : string) (undo : M W unit) : M W (res Machine) :=
  let? m := or_undo undo (or_wrap made (on_host (sdk_NewMachine fcCfg snap))) in
  let? _ := or_undo (let* _ := on_host (sdk_Cancel m) in undo) (or_wrap started (on_host (sdk_Start m))) in
  ret (Ok m).

(** ** Create *)

(** The writable root disk of a VM: a copy-on-write device, or a resized clone. *)
Definition root_disk (vmID : string) (spec : CreateSpec) : M W (res string) :=
  let vmDir := VMDir config vmID in
  if rc_EnableDiffSnapshots (cs_Runtime spec) then
    or_wrap "failed to create dm-snapshot device: " (CreateCoWDevice vmID (cs_ImagePath spec) (filepath_Join [vmDir; "cow.img"]))
  else
    let vmRootfsPath := filepath_Join [vmDir; "rootfs.ext4"] in
    let? _ := or_wrap "failed to clone rootfs image: " (cloneRootfs (cs_ImagePath spec) vmRootfsPath) in
    let disk := rl_DiskMB (cs_Resources spec) in
    let? _ := if bool_decide (0 < disk)
              then or_wrap ("failed to resize rootfs to " +:+ fmt_d disk +:+ " MB: ") (resizeRootfs vmRootfsPath disk)
              else ret (Ok tt) in
    ret (Ok vmRootfsPath).

Definition attach_vsock (vmID : string) (spec : CreateSpec) (fcCfg : FcConfig) : M W (res (VsockConfig * FcConfig)) :=
  let v := effective_vsock vmID spec in
  if cf_ExecEnabled config || vc_Enabled v then
    let v := v <| vc_Enabled := true |> in
    let* _ := Remove (vc_HostUDSPath v) in
    let? guestCID := or_wrap "resolve guest cid: " (resolve_cid vmID (vc_GuestCID v)) in
    let v := v <| vc_GuestCID := guestCID |> in
    let? _ := or_wrap "persist guest cid: " (persist_cid vmID guestCID) in
    ret (Ok (v, fcCfg <| fcc_VsockDevices := [{| vd_ID := "agent"; vd_Path := vc_HostUDSPath v; vd_CID := guestCID |}] |>))
  else ret (Ok (v, fcCfg)).

Definition Create (spec : CreateSpec) : M W (res string) :=
  let vmID := if bool_decide (cs_InstanceID spec = "") then cs_EnvironmentID spec else cs_InstanceID spec in
  if bool_decide (vmID = "") then fails (EText "instance ID is required")
  else
    let vmDir := VMDir config vmID in
    let undo := RemoveAll vmDir in
    let? _ := or_wrap "failed to create VM directory: " (on_host (ho_MkdirAll vmDir)) in
    let* _ := Remove (SocketPath config vmID) in
    let* _ := Remove (VsockPath config vmID) in
    let? vmRootfsPath := or_undo undo (root_disk vmID spec) in
    let workspacePath := filepath_Join [vmDir; "workspace.ext4"] in
    let? _ := or_undo undo (or_wrap "failed to provision workspace image: "
                (ensureWorkspaceImage workspacePath (size_or_2 (wc_SizeGB (cs_Workspace spec))))) in
    let? x := setup_network "" undo vmID spec (machine_config spec vmID vmRootfsPath workspacePath) in
    let '(spec, fcCfg) := x in
    let? x := or_undo undo (attach_vsock vmID spec fcCfg) in
    let '(v, fcCfg) := x in
    let undo_all := let* _ := undo in let* _ := ignore (release_cid vmID) in Remove (vc_HostUDSPath v) in
    let? m := launch fcCfg None "failed to create machine: " "failed to start firecracker: " undo_all in
    let* _ := track vmID v m spec false in
    ret (Ok vmID).

(** ** The running VMs *)

Definition lookup_vm (id : string) : M W (option Tracked) := fun w => (fc_vms w !! id, w).
Definition with_vm {A} (id : string) (k : Tracked -> M W (res A)) : M W (res A) :=
  let* vm := lookup_vm id in
  match vm with None => fails (not_running id) | Some vm => k vm end.
Definition untrack (id : string) : M W unit := fun w => (tt, w <| fc_vms := delete id (fc_vms w) |>).

(** ** Start and the end of a VM *)

Definition StateRunning : string := "Running".
Definition StatePaused : string := "Paused".
Definition StateNotStarted : string := "Not started".
Definition stringValue (v : option string) : string := default "" v.
Definition mapState (raw : string) : string :=
  if bool_decide (raw = StateRunning) then "running" else if bool_decide (raw = StatePaused) then "paused"
  else if bool_decide (raw = StateNotStarted) then "stopped" else to_lower raw.

Definition Start (id : string) : M W (res unit) :=
  with_vm id (fun vm =>
    let? info := or_wrap "failed to inspect VM state: " (on_host (sdk_InstanceState (tr_Machine vm))) in
    let state := stringValue info in
    if bool_decide (state = StatePaused) then on_host (sdk_ResumeVM (tr_Machine vm))
    else if bool_decide (state = StateRunning) then ret (Ok tt)
    else fails (EText ("resume not supported for VM state " +:+ fmt_q state))).

Definition cleanup (id : string) (removeDir : bool) : M W (res unit) :=
  let* vm := lookup_vm id in
  match vm with
  | None => ret (Ok tt)
  | Some vm =>
      let* _ := untrack id in
      let* _ := (fun w => (tt, w <| fc_prev := delete id (fc_prev w) |>)) : M W unit in
      let* _ := on_host (sdk_Cancel (tr_Machine vm)) in
      let* _ := ignore (on_host (sdk_StopVMM (tr_Machine vm))) in
      let* _ := ignore (on_host (sdk_Wait (tr_Machine vm) (cf_ShutdownTimeout config))) in
      let* _ := if bool_decide (vi_VsockPath (tr_inst vm) = "") then ret tt else Remove (vi_VsockPath (tr_inst vm)) in
      let* _ := ignore (release_cid id) in
      let* _ := if removeDir then RemoveAll (VMDir config id) else ret tt in
      let* _ := match netMgr with Some _ => ignore (DestroyTAP (TAPName id)) | None => ret tt end in
      let* _ := RemoveDevice id in
      ret (Ok tt)
  end.

(** Stop and StopPreserving have the same body: Ctrl+Alt+Del, a bounded wait, and on any
    failure of these the clean-up that keeps the directory. *)
Definition stop_gracefully (id : string) : M W (res unit) :=
  with_vm id (fun vm =>
    let* sent := on_host (sdk_Shutdown (tr_Machine vm)) in
    match sent with
    | Err _ => cleanup id false
    | Ok _ =>
        let* waited := on_host (sdk_Wait (tr_Machine vm) (cf_ShutdownTimeout config)) in
        let unclean := match waited with Err e => negb (sdk_context_error e) | Ok _ => false end in
        if unclean then cleanup id false
        else
          let* _ := untrack id in
          let* _ := on_host (sdk_Cancel (tr_Machine vm)) in
          let* _ := if bool_decide (vi_VsockPath (tr_inst vm) = "") then ret tt else Remove (vi_VsockPath (tr_inst vm)) in
          let* _ := ignore (release_cid id) in
          ret (Ok tt)
    end).
Definition Stop := stop_gracefully.
Definition StopPreserving := stop_gracefully.
Definition Destroy (id : string) : M W (res unit) := with_vm id (fun _ => cleanup id true).

(** ** Snapshots *)

Definition usage_or_0 (path : string) : M W Z :=
  let* r := actualDiskUsage path in ret (match r with Ok n => n | Err _ => 0 end).

(** The disk of the device, flattened into a file; its size on the host's disk. *)
Definition capture_disk (id snapDir : string) : M W (res Z) :=
  let* devPath := DevicePath id in
  let diskDst := filepath_Join [snapDir; "disk"] in
  let undo := RemoveAll snapDir in
  let? size := or_undo undo (or_wrap "failed to get dm device size for full disk capture: " (blockDeviceSize devPath)) in
  let? _ := or_undo undo (or_wrap "failed to capture full disk state: " (flatten devPath diskDst size)) in
  let* usage := usage_or_0 diskDst in
  ret (Ok usage).

(** The file of the VM's writes is copied, and replaced by an empty one. *)
Definition capture_cow (id snapDir : string) : M W Z :=
  let cowSrc := filepath_Join [VMDir config id; "cow.img"] in
  let* copied := copySparseFile cowSrc (filepath_Join [snapDir; "cow"]) in
  match copied with Err _ => ret 0 | Ok _ => usage_or_0 cowSrc end.
Definition reset_cow (id : string) : M W unit :=
  let* suspended := SuspendDevice id in
  match suspended with
  | Err _ => ret tt
  | Ok _ => let* _ := ignore (ResetCoW id (filepath_Join [VMDir config id; "cow.img"])) in ignore (ResumeDevice id)
  end.

Definition mark_snapshot (id : string) : M W unit := fun w =>
  (tt, w <| fc_vms := alter (fun vm => vm <| tr_HasSnapshot := true |>) id (fc_vms w) |>).

Definition CreateSnapshot (id : string) (FullDisk : bool) : M W (res SnapshotResult) :=
  with_vm id (fun vm =>
    let m := tr_Machine vm in
    let* t := on_host ho_Now in
    let snapDir := filepath_Join [VMDir config id; "snapshots"; format_stamp t] in
    let undo := RemoveAll snapDir in
    let? _ := or_wrap "failed to create snapshot directory: " (on_host (ho_MkdirAll snapDir)) in
    let memFile := filepath_Join [snapDir; "memory"] in
    let stateFile := filepath_Join [snapDir; "state"] in
    let* startPause := on_host ho_Now in
    let? _ := or_undo undo (or_wrap "failed to pause VM for snapshot: " (on_host (sdk_PauseVM m))) in
    let* paused := on_host ho_Now in
    let? _ := or_undo (let* _ := ignore (on_host (sdk_ResumeVM m)) in undo)
                (or_wrap "failed to create snapshot: "
                   (on_host (sdk_CreateSnapshot m memFile stateFile (rc_EnableDiffSnapshots (cs_Runtime (vi_Config (tr_inst vm))))))) in
    let* _ := mark_snapshot id in
    let? diskSize := if FullDisk then capture_disk id snapDir else ret (Ok 0) in
    let* cowSize := capture_cow id snapDir in
    let* _ := reset_cow id in
    let* _ := ignore (on_host (sdk_ResumeVM m)) in
    let* memSize := usage_or_0 memFile in
    ret (Ok {| sr_SnapshotDir := snapDir; sr_MemoryBytes := memSize; sr_CowBytes := cowSize; sr_DiskBytes := diskSize;
               sr_PauseDurationMs := milliseconds (paused - startPause) |})).

(** ** Restoring *)

Definition stat_or (pre path : string) : M W (res unit) :=
  let? _ := or_wrap pre (on_host (ho_Stat path)) in ret (Ok tt).

(** The root disk of a VM that is restored: a full image, a chain of copy-on-write files
    flattened into one image, a single file, or the clone of before. *)
Definition restore_disk (vmID : string) (spec : CreateSpec) : M W (res string) :=
  let vmDir := VMDir config vmID in
  if negb (bool_decide (cs_DiskImagePath spec = "")) then
    or_wrap "failed to create dm device from disk image: "
      (CreateCoWDevice vmID (cs_DiskImagePath spec) (filepath_Join [vmDir; "cow.img"]))
  else if rc_EnableDiffSnapshots (cs_Runtime spec) then
    match cs_CowChainPaths spec with
    | _ :: _ :: _ =>
        let? _ := or_wrap "failed to reconstruct dm-snapshot chain device: "
                    (ReconstructChainDevice vmID (cs_ImagePath spec) (cs_CowChainPaths spec)) in
        let? flat := or_wrap "failed to flatten dm chain: " (FlattenChainDevice vmID (filepath_Join [vmDir; "merged.img"])) in
        ret (Ok flat.1)
    | l =>
        let cowPath := match l with [cow] => cow | _ => filepath_Join [vmDir; "cow.img"] end in
        let? _ := stat_or ("cow image not found at " +:+ cowPath +:+ ", cannot restore: ") cowPath in
        or_wrap "failed to reconstruct dm-snapshot device: " (ReconstructDevice vmID (cs_ImagePath spec) cowPath)
    end
  else
    let drivePath := filepath_Join [vmDir; "rootfs.ext4"] in
    let? _ := stat_or ("rootfs not found at " +:+ drivePath +:+ ", cannot restore snapshot: ") drivePath in
    ret (Ok drivePath).

(** The restored machine: its network, its start from the files of the snapshot, and its
    row. *)
Definition start_restored (vmID : string) (v : VsockConfig) (spec : CreateSpec) (drivePath workspacePath memFile stateFile : string) : M W (res string) :=
  let undo := ignore (release_cid vmID) in
  let? x := setup_network " for restore" undo vmID spec (machine_config spec vmID drivePath workspacePath) in
  let '(spec, fcCfg) := x in
  let snap := {| sl_MemFile := memFile; sl_StateFile := stateFile; sl_ResumeVM := true;
                 sl_EnableDiffSnapshots := rc_EnableDiffSnapshots (cs_Runtime spec) && negb (cs_RestoreAsFull spec) |} in
  let? m := launch fcCfg (Some snap) "failed to create machine from snapshot: " "failed to start machine from snapshot: " undo in
  let* _ := track vmID v m spec true in
  ret (Ok vmID).

Definition RestoreFromSnapshot (spec : CreateSpec) (snapshotDir : string) : M W (res string) :=
  let vmID := cs_InstanceID spec in
  if bool_decide (vmID = "") then fails (EText "instance ID is required")
  else
    let? drivePath := restore_disk vmID spec in
    let memFile := filepath_Join [snapshotDir; "memory"] in
    let stateFile := filepath_Join [snapshotDir; "state"] in
    let? _ := stat_or "snapshot memory file not found: " memFile in
    let? _ := stat_or "snapshot state file not found: " stateFile in
    let* _ := Remove (SocketPath config vmID) in
    let* _ := Remove (VsockPath config vmID) in
    let workspacePath := filepath_Join [VMDir config vmID; "workspace.ext4"] in
    let? _ := or_wrap "failed to provision workspace image for restore: "
                (ensureWorkspaceImage workspacePath (size_or_2 (wc_SizeGB (cs_Workspace spec)))) in
    let v := effective_vsock vmID spec in
    let? guestCID := or_wrap "resolve guest cid: " (resolve_cid vmID (vc_GuestCID v)) in
    let v := v <| vc_GuestCID := guestCID |> in
    let? _ := or_wrap "persist guest cid: " (persist_cid vmID guestCID) in
    start_restored vmID v spec drivePath workspacePath memFile stateFile.

(** ** Status *)

Definition isProcessRunning (pid : Z) : M W bool :=
  if bool_decide (pid <= 0) then ret false
  else
    let* e := on_host (ho_Signal0 pid) in
    ret (match e with None => true | Some text => negb (contains text "process already finished") end).

(** Without the resources and the uptime, which no caller reads. *)
Definition Status (id : string) : M W (res RuntimeStatus) :=
  with_vm id (fun vm =>
    let* r := on_host (sdk_PID (tr_Machine vm)) in
    let pid := match r with Ok pid => pid | Err _ => 0 end in
    let status state pid := {| rs_State := state; rs_PID := pid; rs_VsockPath := vi_VsockPath (tr_inst vm);
                               rs_GuestCID := vi_GuestCID (tr_inst vm) |} in
    let* running := isProcessRunning pid in
    if negb running then ret (Ok (status "stopped" 0))
    else
      let? info := or_wrap "failed to read VM status: " (on_host (sdk_InstanceState (tr_Machine vm))) in
      ret (Ok (status (mapState (stringValue info)) pid))).

(** ** Commands and files *)

Definition UnixNano : M W Z := let* t := on_host ho_Now in ret (i64 (t - unix_epoch * second)).
Definition conn_Dial (path : string) (timeout : Z) : M W (option error) := on_host (ho_DialUnix path timeout).
Definition conn_Write (s : string) : M W (option error) := on_host (ho_WriteConn s).
Definition in_guest {A} (f : gmap string VMInstance -> M W A) : M W A := fun w => f (vm_instances w) w.

Definition Execute (id : string) (cmd : list string) : M W ExecResult :=
  in_guest (fun vms => GuestRPC.Execute conn_Dial conn_Write (on_host ho_ReadConn) (on_host ho_DeadlineExceeded) UnixNano
                         (exec_config config) vms id cmd).
Definition ReadFile (id path : string) (offset limit : Z) : M W (res string) :=
  let* x := in_guest (fun vms => GuestRPC.ReadFile conn_Dial conn_Write (on_host ho_ReadConn) (on_host ho_DeadlineExceeded)
                                   UnixNano (exec_config config) vms id path offset limit) in
  ret (match x.2 with None => Ok x.1 | Some e => Err e end).
Definition done_or (e : option error) : res unit := match e with None => Ok tt | Some e => Err e end.
Definition WriteFile (id path content : string) (mode : Z) : M W (res unit) :=
  let* e := in_guest (fun vms => GuestRPC.WriteFile conn_Dial conn_Write (on_host ho_ReadConn) (on_host ho_DeadlineExceeded)
                                   UnixNano (exec_config config) vms id path content mode) in
  ret (done_or e).
Definition EditFile (id path oldString newString : string) (replaceAll : bool) : M W (res unit) :=
  let* e := in_guest (fun vms => GuestRPC.EditFile conn_Dial conn_Write (on_host ho_ReadConn) (on_host ho_DeadlineExceeded)
                                   UnixNano (exec_config config) vms id path oldString newString replaceAll) in
  ret (done_or e).

(** ** The provider of the server *)

Definition new_network : M W (res (option NetworkManager)) :=
  if bool_decide (nw_BridgeName (cf_Network config) = "") then ret (Ok None)
  else
    let? m := or_wrap "init network manager: " (NewNetworkManager (cf_Network config)) in
    let? _ := or_wrap "ensure bridge: " EnsureBridge in
    let? _ := or_wrap "ensure nat: " (EnsureNAT m) in
    let? _ := or_wrap "ensure local dns: " (EnsureLocalDNSReady (5 * second)) in
    ret (Ok (Some m)).

(** The network manager of the new provider, which starts without VMs and devices. *)
Definition NewProvider : M W (res (option NetworkManager)) :=
  let? _ := or_wrap "invalid config: " (Config_Validate config) in
  let? _ := or_wrap "failed to create base directory: " (on_host (ho_MkdirAll (cf_BaseDir config))) in
  let? net := new_network in
  let* _ := (fun w => (tt, {| fc_host := fc_host w; fc_vms := ∅; fc_prev := ∅; fc_base := ∅; fc_active := ∅; fc_stale := ∅ |})) : M W unit in
  let* _ := CleanupOrphans in
  let* _ := PreflightCheck in
  ret (Ok net).

(** The provider as the backend of the VM service. *)
Definition firecracker_backend : Backend W := {|
  be_Create := Create; be_StopPreserving := StopPreserving; be_Destroy := Destroy; be_Status := Status;
  be_Execute := Execute; be_CreateSnapshot := CreateSnapshot; be_RestoreFromSnapshot := RestoreFromSnapshot;
  be_ReadFile := ReadFile; be_WriteFile := WriteFile; be_EditFile := EditFile |}.
End provider.

(** ** Metrics *)

(** What float64 arithmetic the metrics need. *)
Class FloatOps `{!Float64} := {
  float_of_Z : Z -> float64; float_div : float64 -> float64 -> float64; float_mul : float64 -> float64 -> float64;
  float_lt : float64 -> float64 -> bool }.

Definition u64 (z : Z) : Z := z mod 2 ^ 64.
(** [strconv.ParseUint(s, 10, 64)] *)
Definition ParseUint64 (s : string) : res Z :=
  let failed why := Err (EText ("strconv.ParseUint: parsing " +:+ fmt_q s +:+ ": " +:+ why)) in
  match parse_digits s with
  | Some z => if bool_decide (z < 2 ^ 64) then Ok z else failed "value out of range"
  | None => failed "invalid syntax"
  end.

Section metrics.
Context {H : Type} {FH : FcHost H} {FL : Float64} {FO : FloatOps}.
Abbreviation W := (Fc H).

Definition proc_file (pid : Z) (name : string) : string := "/proc/" +:+ fmt_d pid +:+ "/" +:+ name.

(** Fields 14 and 15 of /proc/pid/stat: user and system time. *)
Definition parse_stat (pid : Z) (content : string) : res Z :=
  let fields := strings_Fields content in
  if bool_decide (length fields < 17)%nat then Err (EText ("invalid " +:+ proc_file pid "stat" +:+ " format"))
  else match ParseUint64 (nth 13 fields ""), ParseUint64 (nth 14 fields "") with
       | Ok utime, Ok stime => Ok (u64 (utime + stime))
       | Err e, _ => Err (wrapf "parse utime: " e)
       | _, Err e => Err (wrapf "parse stime: " e)
       end.
Definition readProcTicks (pid : Z) : M W (res Z) :=
  let? content := or_wrap "read proc stat: " (on_host (ho_ReadFile (proc_file pid "stat"))) in
  ret (parse_stat pid content).

(** The sum of the numbers of the first line of /proc/stat. *)
Definition sum_ticks (parts : list string) : Z :=
  fold_left (fun total v => match ParseUint64 v with Ok n => u64 (total + n) | Err _ => total end) parts 0.
Definition parse_cpu_line (text : string) : res Z :=
  if bool_decide (text = "") then Err (EText "empty /proc/stat")
  else match strings_Fields (List.hd "" (lines_of text)) with
       | cpu :: (_ :: _) as parts => if bool_decide (cpu = "cpu") then Ok (sum_ticks (tl parts)) else Err (EText "invalid /proc/stat cpu line")
       | _ => Err (EText "invalid /proc/stat cpu line")
       end.
Definition readTotalCPUTicks : M W (res Z) :=
  let? text := or_wrap "open /proc/stat: " (on_host (ho_ReadFile "/proc/stat")) in
  ret (parse_cpu_line text).

(** The first line that starts with VmRSS:, in kilobytes; 0 without one. *)
Fixpoint parse_rss (lines : list string) : res Z :=
  match lines with
  | [] => Ok 0
  | line :: rest =>
      if negb (has_prefix "VmRSS:" line) then parse_rss rest
      else match strings_Fields line with
           | _ :: v :: _ => match ParseUint64 v with Ok kb => Ok (kb / 1024) | Err e => Err (wrapf "parse VmRSS: " e) end
           | _ => Ok 0
           end
  end.
Definition readProcessRSSMB (pid : Z) : M W (res Z) :=
  let? content := or_wrap "read proc status: " (on_host (ho_ReadFile (proc_file pid "status"))) in
  ret (parse_rss (lines_of content)).

(** The last well-formed line with the prefix wins; a number out of range is the largest. *)
Definition io_value (prefix : string) (acc : Z) (line : string) : Z :=
  if has_prefix prefix line then
    match strings_Fields line with
    | [_; v] => match parse_digits v with Some z => Z.min z (2 ^ 64 - 1) | None => 0 end
    | _ => acc
    end
  else acc.
Definition readProcessIOBytes (pid : Z) : M W (res (Z * Z)) :=
  let? content := on_host (ho_ReadFile (proc_file pid "io")) in
  let lines := lines_of content in
  ret (Ok (fold_left (io_value "read_bytes:") lines 0, fold_left (io_value "write_bytes:") lines 0)).

(** The share of the ticks since the last sample; unsigned differences wrap around. *)
Definition cpu_percent (prev : option cpuSample) (procTicks totalTicks : Z) : float64 :=
  match prev with
  | Some p =>
      let deltaProc := u64 (procTicks - cpu_procTicks p) in
      let deltaTotal := u64 (totalTicks - cpu_totalTicks p) in
      if bool_decide (0 < deltaTotal) then
        let c := float_mul (float_div (float_of_Z deltaProc) (float_of_Z deltaTotal)) (float_of_Z 100) in
        if float_lt c (float_of_Z 0) then float_of_Z 0 else c
      else float_of_Z 0
  | None => float_of_Z 0
  end.
Definition memory_percent (used limit : Z) : float64 :=
  if bool_decide (0 < limit) then
    let c := float_mul (float_div (float_of_Z used) (float_of_Z limit)) (float_of_Z 100) in
    if float_lt (float_of_Z 100) c then float_of_Z 100 else c
  else float_of_Z 0.

Definition sample_cpu (id : string) (s : cpuSample) : M W (option cpuSample) := fun w =>
  (fc_prev w !! id, w <| fc_prev := <[id := s]> (fc_prev w) |>).

Definition GetMetrics (id : string) : M W (res Metrics) :=
  with_vm id (fun vm =>
    let* r := on_host (sdk_PID (tr_Machine vm)) in
    match r with
    | Err e => fails (wrapf "failed to resolve VM PID: " e)
    | Ok pid =>
        if bool_decide (pid <= 0) then fails (EText "failed to resolve VM PID: %!w(<nil>)")
        else
          let? procTicks := readProcTicks pid in
          let? totalTicks := readTotalCPUTicks in
          let? memoryUsedMB := readProcessRSSMB pid in
          let* io := readProcessIOBytes pid in
          let '(readBytes, writeBytes) := match io with Ok x => x | Err _ => (0, 0) end in
          let* now := on_host ho_Now in
          let* prev := sample_cpu id {| cpu_procTicks := procTicks; cpu_totalTicks := totalTicks; cpu_time := now |} in
          let res := cs_Resources (vi_Config (tr_inst vm)) in
          ret (Ok {| m_CPUUsagePercent := cpu_percent prev procTicks totalTicks;
                     m_MemoryUsedMB := memoryUsedMB; m_MemoryLimitMB := rl_MemoryMB res;
                     m_MemoryPercent := memory_percent memoryUsedMB (rl_MemoryMB res);
                     m_DiskUsedMB := u64 (readBytes + writeBytes) / (1024 * 1024); m_DiskLimitMB := rl_DiskMB res;
                     m_DiskPercent := float_of_Z 0; m_NetworkBytesSent := 0; m_NetworkBytesReceived := 0;
                     m_TasksExecuted := 0; m_TasksFailed := 0; m_CollectedAt := Unix_of now |})
    end).
Definition firecracker_metrics : MetricsBackend W := {| be_GetMetrics := GetMetrics |}.
End metrics.

(** unavailableBackend of cmd/main.go: what the service gets when there is no provider. *)
Definition unavailable (reason : string) : error := EText ("vm backend unavailable: " +:+ reason).
Definition unavailable_backend (B : Type) (reason : string) : Backend B :=
  let no {A} (b : B) : res A * B := (Err (unavailable reason), b) in {|
  be_Create _ := no; be_StopPreserving _ := no; be_Destroy _ := no; be_Status _ := no;
  be_Execute _ _ b := ({| ex_stdout := ""; ex_stderr := ""; ex_code := -1; ex_err := Some (unavailable reason) |}, b);
  be_CreateSnapshot _ _ := no; be_RestoreFromSnapshot _ _ := no;
  be_ReadFile _ _ _ _ := no; be_WriteFile _ _ _ _ := no; be_EditFile _ _ _ _ _ := no |}.
(** Its methods that the service never calls, and the one of [MetricsBackend]. *)
Definition unavailable_Start {B : Type} (reason id : string) : M B (res unit) := fun b => (Err (unavailable reason), b).
Definition unavailable_Stop {B : Type} (reason id : string) : M B (res unit) := fun b => (Err (unavailable reason), b).
Definition unavailable_metrics `{!Float64} (B : Type) (reason : string) : MetricsBackend B :=
  {| be_GetMetrics _ b := (Err (unavailable reason), b) |}.
