(* ===== verification/FcFrames.v ===== *)
(** * Frames of the Firecracker provider

    What the helpers of the provider leave alone, for any relation on its states that calls
    of the host respect. *)

From S2P Require Import Prelude Exception Naming GoLib Domain World PgRepo IPAlloc Interfaces Hoare Json ExecProtocol GuestRPC CIDAlloc SparseMem.
From S2P Require Import RepoFacts VMExec VMSnapshot VMService VMResume Metrics FcHost NetIP FcNetwork DmSnapshot Provider.

Local Open Scope go_scope.

(** ** Frames

    A relation that calls of the host respect, and changes of the device tables where they
    occur, is respected by every helper. *)

Class HostGuard {H} (R : Fc H -> Fc H -> Prop) := {
  hg_pre :: PreOrder R; hg_host : forall A (f : H -> A * H), keeps R (on_host f) }.
(** Also of changes of the device tables. *)
Class DmGuard {H} (R : Fc H -> Fc H -> Prop) := {
  dg_host :: HostGuard R; dg_dm : forall h v p b a s b' a' s', R (Build_Fc _ h v p b a s) (Build_Fc _ h v p b' a' s') }.

Section frames.
Context {H : Type} {FH : FcHost H} (R : Fc H -> Fc H -> Prop) {HG : HostGuard R}.

Lemma keeps_ignore {A} (m : M (Fc H) A) : keeps R m -> keeps R (ignore m).
Proof. intros Hm. unfold ignore. go_keeps. Qed.
Lemma keeps_or_wrap {A} pre (m : M (Fc H) (res A)) : keeps R m -> keeps R (or_wrap pre m).
Proof. intros Hm. unfold or_wrap. go_keeps. Qed.
Lemma keeps_or_undo {A} undo (m : M (Fc H) (res A)) : keeps R undo -> keeps R m -> keeps R (or_undo undo m).
Proof. intros Hu Hm. unfold or_undo. go_keeps. Qed.
Lemma keeps_command argv : keeps R (command argv).
Proof. apply hg_host. Qed.
Lemma keeps_fails {A} e : keeps R (fails e : M (Fc H) (res A)).
Proof. apply keeps_ret, _. Qed.
Lemma keeps_run_or {E} argv (bad : string -> error -> E) : keeps R (run_or argv bad : M (Fc H) _).
Proof. unfold run_or. apply keeps_bind; [apply _ | apply keeps_command | intros x; apply keeps_ret, _]. Qed.
Lemma keeps_read {A} (f : Fc H -> A) : keeps R (fun w => (f w, w)).
Proof. intros w. reflexivity. Qed.
End frames.
#[export] Hint Extern 0 (HostGuard _) => apply _ : keeps.
#[export] Hint Extern 0 (DmGuard _) => apply _ : keeps.
#[export] Hint Resolve hg_host keeps_ignore keeps_or_wrap keeps_or_undo keeps_command keeps_fails keeps_run_or keeps_read : keeps.

Ltac go_frame :=
  repeat first [ solve [eauto 8 with keeps] | go_keeps_step
               | match goal with |- keeps _ (or_undo _ _) => apply keeps_or_undo; [apply _ | |]
                                | |- keeps _ (or_wrap _ _) => apply keeps_or_wrap; [apply _ |]
                                | |- keeps _ (ignore _) => apply keeps_ignore; [apply _ |] end ].


Section host_only.
Context {H : Type} {FH : FcHost H} (R : Fc H -> Fc H -> Prop) {HG : HostGuard R}.

Lemma keeps_attach argv what : keeps R (attach argv what : M (Fc H) _).
Proof. unfold attach. go_frame. Qed.
Lemma keeps_stat_base pre p : keeps R (stat_base pre p : M (Fc H) _).
Proof. unfold stat_base. go_frame. Qed.
Lemma keeps_fresh_cow a b c n : keeps R (fresh_cow a b c n : M (Fc H) _).
Proof. unfold fresh_cow. go_frame. Qed.
Lemma keeps_drop_layer l : keeps R (drop_layer l : M (Fc H) _).
Proof. unfold drop_layer. go_frame. Qed.
#[local] Hint Resolve keeps_drop_layer : keeps.
Lemma keeps_cleanup_layers ls : keeps R (cleanupChainLayers ls : M (Fc H) _).
Proof. unfold cleanupChainLayers. go_frame. Qed.
#[local] Hint Resolve keeps_cleanup_layers : keeps.
Lemma keeps_stack id sectors i cows origin ls : keeps R (stack_layers id sectors i cows origin ls : M (Fc H) _).
Proof. revert i origin ls. induction cows as [|c cows IH]; intros i origin ls; cbn [stack_layers]; go_frame. Qed.
Lemma keeps_blockDeviceSize p : keeps R (blockDeviceSize p : M (Fc H) _).
Proof. unfold blockDeviceSize. go_frame. Qed.
Lemma keeps_flatten a b n : keeps R (flatten a b n : M (Fc H) _).
Proof. unfold flatten. go_frame. Qed.
End host_only.
#[export] Hint Resolve keeps_attach keeps_stat_base keeps_fresh_cow keeps_drop_layer keeps_cleanup_layers keeps_stack keeps_blockDeviceSize keeps_flatten : keeps.

Section dm.
Context {H : Type} {FH : FcHost H} (R : Fc H -> Fc H -> Prop) {DG : DmGuard R}.

Lemma keeps_set_base p e : keeps R (set_base p e).
Proof. intros [h v p0 b a s]. apply dg_dm. Qed.
Lemma keeps_del_base p : keeps R (del_base p).
Proof. intros [h v p0 b a s]. apply dg_dm. Qed.
Lemma keeps_found_stale p : keeps R (found_stale p).
Proof. intros [h v p0 b a s]. apply dg_dm. Qed.
Lemma keeps_set_active p e : keeps R (set_active p e).
Proof. intros [h v p0 b a s]. apply dg_dm. Qed.
Lemma keeps_del_active p : keeps R (del_active p).
Proof. intros [h v p0 b a s]. apply dg_dm. Qed.
Lemma keeps_tables : keeps R baseLoopDevs /\ keeps R activeDevices.
Proof. split; intros w; reflexivity. Qed.
#[local] Hint Resolve keeps_set_base keeps_del_base keeps_found_stale keeps_set_active keeps_del_active : keeps.
#[local] Hint Extern 1 (keeps _ baseLoopDevs) => apply keeps_tables : keeps.
#[local] Hint Extern 1 (keeps _ activeDevices) => apply keeps_tables : keeps.
Lemma keeps_setupOrigin p : keeps R (setupOriginLocked p : M (Fc H) _).
Proof. unfold setupOriginLocked. go_frame. Qed.
Lemma keeps_existing id : keeps R (existing_device id : M (Fc H) _).
Proof. unfold existing_device. go_frame. Qed.
#[local] Hint Resolve keeps_setupOrigin keeps_existing : keeps.
Lemma keeps_createCow id base cow reuse : keeps R (createCowDeviceLocked id base cow reuse : M (Fc H) _).
Proof. unfold createCowDeviceLocked. go_frame. Qed.
#[local] Hint Resolve keeps_createCow : keeps.
Lemma keeps_chain id base cows : keeps R (ReconstructChainDevice id base cows : M (Fc H) _).
Proof. unfold ReconstructChainDevice, ReconstructDevice. go_frame. Qed.
Lemma keeps_release_base p : keeps R (release_base p : M (Fc H) _).
Proof. unfold release_base. go_frame. Qed.
#[local] Hint Resolve keeps_release_base : keeps.
Lemma keeps_removeDevice id : keeps R (removeDeviceLocked id : M (Fc H) _).
Proof. unfold removeDeviceLocked. go_frame. Qed.
#[local] Hint Resolve keeps_removeDevice : keeps.
Lemma keeps_flattenChain id p : keeps R (FlattenChainDevice id p : M (Fc H) _).
Proof. unfold FlattenChainDevice. go_frame. Qed.
Lemma keeps_ResetCoW id p : keeps R (ResetCoW id p : M (Fc H) _).
Proof. unfold ResetCoW. go_frame. Qed.
End dm.

(** Calls of the host and the operations of the device manager. *)
Class DevGuard {H} {FH : FcHost H} (R : Fc H -> Fc H -> Prop) := {
  dv_host :: HostGuard R;
  dv_cow : forall id base cow reuse, keeps R (createCowDeviceLocked id base cow reuse);
  dv_chain : forall id base cows, keeps R (ReconstructChainDevice id base cows);
  dv_flatten : forall id p, keeps R (FlattenChainDevice id p);
  dv_remove : forall id, keeps R (removeDeviceLocked id);
  dv_reset : forall id p, keeps R (ResetCoW id p) }.
#[export] Instance dm_dev_guard {H} {FH : FcHost H} (R : Fc H -> Fc H -> Prop) `{!DmGuard R} : DevGuard R.
Proof.
  split; [apply _ | intros; apply keeps_createCow, _ | intros; apply keeps_chain, _ | intros; apply keeps_flattenChain, _
         | intros; apply keeps_removeDevice, _ | intros; apply keeps_ResetCoW, _].
Qed.
#[export] Hint Extern 0 (DevGuard _) => apply _ : keeps.
#[export] Hint Resolve dv_cow dv_chain dv_flatten dv_remove dv_reset : keeps.

Section helpers.
Context {H : Type} {FH : FcHost H} (config : Config) (netMgr : option NetworkManager).
Context (R : Fc H -> Fc H -> Prop) {DG : DevGuard R}.

Lemma keeps_DevicePath id : keeps R (DevicePath id : M (Fc H) _).
Proof. unfold DevicePath, activeDevices. apply keeps_bind; [apply _ | apply keeps_read, _ | intros a; apply keeps_ret, _]. Qed.
#[local] Hint Resolve keeps_DevicePath : keeps.
Lemma keeps_Remove p : keeps R (Remove p : M (Fc H) _).
Proof. unfold Remove. go_frame. Qed.
Lemma keeps_RemoveAll p : keeps R (RemoveAll p : M (Fc H) _).
Proof. unfold RemoveAll. go_frame. Qed.
#[local] Hint Resolve keeps_Remove keeps_RemoveAll : keeps.
Lemma keeps_copyFile a b : keeps R (copyFile a b : M (Fc H) _).
Proof. unfold copyFile. go_frame. Qed.
#[local] Hint Resolve keeps_copyFile : keeps.
Lemma keeps_copySparse a b : keeps R (copySparseFile a b : M (Fc H) _).
Proof. unfold copySparseFile. go_frame. Qed.
Lemma keeps_reflink a b : keeps R (reflinkClone a b : M (Fc H) _).
Proof. unfold reflinkClone. go_frame. Qed.
#[local] Hint Resolve keeps_reflink : keeps.
Lemma keeps_clone a b : keeps R (cloneRootfs a b : M (Fc H) _).
Proof. unfold cloneRootfs. go_frame. Qed.
Lemma keeps_resize a n : keeps R (resizeRootfs a n : M (Fc H) _).
Proof. unfold resizeRootfs. go_frame. Qed.
Lemma keeps_workspace a n : keeps R (ensureWorkspaceImage a n : M (Fc H) _).
Proof. unfold ensureWorkspaceImage. go_frame. Qed.
Lemma keeps_persist id c : keeps R (persist_cid config id c : M (Fc H) _).
Proof. unfold persist_cid. go_frame. Qed.
Lemma keeps_release id : keeps R (release_cid config id : M (Fc H) _).
Proof. unfold release_cid. go_frame. Qed.
#[local] Hint Resolve keeps_copySparse keeps_clone keeps_resize keeps_workspace keeps_persist keeps_release : keeps.
Lemma keeps_resolve id c : keeps R (resolve_cid config id c : M (Fc H) _).
Proof. unfold resolve_cid. apply keeps_bind_ok; [apply _ | go_frame | intros e w; reflexivity]. Qed.
#[local] Hint Resolve keeps_resolve : keeps.
Lemma keeps_root_disk id spec : keeps R (root_disk config id spec : M (Fc H) _).
Proof. unfold root_disk, CreateCoWDevice. go_frame. Qed.
Lemma keeps_restore_disk id spec : keeps R (restore_disk config id spec : M (Fc H) _).
Proof. unfold restore_disk, CreateCoWDevice, ReconstructDevice, stat_or. go_frame. Qed.
Lemma keeps_run_cmd argv : keeps R (run_cmd argv : M (Fc H) _).
Proof. unfold run_cmd. go_frame. Qed.
#[local] Hint Resolve keeps_run_cmd : keeps.
Lemma keeps_DestroyTAP t : keeps R (DestroyTAP t : M (Fc H) _).
Proof. unfold DestroyTAP. go_frame. Qed.
Lemma keeps_CreateTAP t : keeps R (CreateTAP t : M (Fc H) _).
Proof. unfold CreateTAP. go_frame. Qed.
Lemma keeps_ConfigureTAP m t ip : keeps R (ConfigureTAP m t ip : M (Fc H) _).
Proof. unfold ConfigureTAP. go_frame. Qed.
Lemma keeps_dns_loop n a d : keeps R (dns_loop n a d : M (Fc H) _).
Proof. induction n as [|n IH]; cbn [dns_loop]; go_frame. Qed.
#[local] Hint Resolve keeps_DestroyTAP keeps_CreateTAP keeps_ConfigureTAP keeps_dns_loop : keeps.
Lemma keeps_dns m t : keeps R (EnsureDNSReady m t : M (Fc H) _).
Proof. unfold EnsureDNSReady, ensureDNSReadyAddr. go_frame. Qed.
#[local] Hint Resolve keeps_dns : keeps.
Lemma keeps_setup_network wh undo id spec c : keeps R undo -> keeps R (setup_network config netMgr wh undo id spec c : M (Fc H) _).
Proof. intros Hu. unfold setup_network. go_frame. Qed.
Lemma keeps_attach_vsock id spec c : keeps R (attach_vsock config id spec c : M (Fc H) _).
Proof. unfold attach_vsock. go_frame. Qed.
Lemma keeps_launch c snap a b undo : keeps R undo -> keeps R (launch c snap a b undo : M (Fc H) _).
Proof. intros Hu. unfold launch. go_frame. Qed.
Lemma keeps_usage p : keeps R (usage_or_0 p : M (Fc H) _).
Proof. unfold usage_or_0, actualDiskUsage. go_frame. Qed.
#[local] Hint Resolve keeps_usage : keeps.
Lemma keeps_capture_disk id d : keeps R (capture_disk id d : M (Fc H) _).
Proof. unfold capture_disk. go_frame. Qed.
Lemma keeps_capture_cow id d : keeps R (capture_cow config id d : M (Fc H) _).
Proof. unfold capture_cow. go_frame. Qed.
Lemma keeps_dm_verb v id : keeps R (dm_verb v id : M (Fc H) _).
Proof. unfold dm_verb. go_frame. Qed.
#[local] Hint Resolve keeps_dm_verb : keeps.
Lemma keeps_reset_cow id : keeps R (reset_cow config id : M (Fc H) _).
Proof. unfold reset_cow, SuspendDevice, ResumeDevice. go_frame. Qed.
End helpers.
#[export] Hint Resolve keeps_Remove keeps_RemoveAll keeps_workspace keeps_persist keeps_release keeps_resolve keeps_root_disk keeps_restore_disk
  keeps_DestroyTAP keeps_setup_network keeps_attach_vsock keeps_launch keeps_usage keeps_capture_disk keeps_capture_cow keeps_reset_cow : keeps.

(** ** Whole operations

    A relation that also allows changes of the table of VMs and of the CPU samples holds
    across every call of the provider. *)

Class TableGuard {H} {FH : FcHost H} (R : Fc H -> Fc H -> Prop) := {
  tg_dev :: DevGuard R; tg_tables : forall h v p b a s v' p', R (Build_Fc _ h v p b a s) (Build_Fc _ h v' p' b a s) }.
#[export] Hint Extern 0 (TableGuard _) => apply _ : keeps.

Section operations.
Context {H : Type} {FH : FcHost H} {FL : Float64} {FO : FloatOps} (config : Config) (netMgr : option NetworkManager).
Context (R : Fc H -> Fc H -> Prop) {TG : TableGuard R}.
Abbreviation W := (Fc H).

Lemma keeps_lookup id : keeps R (lookup_vm id : M W _).
Proof. unfold lookup_vm. apply keeps_read, _. Qed.
Lemma keeps_untrack id : keeps R (untrack id : M W _).
Proof. intros [h v p b a st]. apply tg_tables. Qed.
Lemma keeps_forget id : keeps R ((fun w => (tt, w <| fc_prev := delete id (fc_prev w) |>)) : M W unit).
Proof. intros [h v p b a st]. apply tg_tables. Qed.
Lemma keeps_marked id : keeps R (mark_snapshot id : M W _).
Proof. intros [h v p b a st]. apply tg_tables. Qed.
Lemma keeps_sampled id s : keeps R (sample_cpu id s : M W _).
Proof. intros [h v p b a st]. apply tg_tables. Qed.
Lemma keeps_track id v m spec b : keeps R (track config id v m spec b : M W _).
Proof.
  unfold track. apply keeps_bind; [apply _ | apply hg_host |]. intros t [h vs p bs a st]. apply tg_tables.
Qed.
Lemma keeps_on_vm {A} id (k : Tracked -> M W (res A)) : (forall t, keeps R (k t)) -> keeps R (with_vm id k).
Proof. intros Hk. unfold with_vm. apply keeps_bind; [apply _ | apply keeps_lookup | intros [t|]; [apply Hk | apply keeps_ret, _]]. Qed.
#[local] Hint Resolve keeps_untrack keeps_forget keeps_marked keeps_sampled keeps_track : keeps.
Lemma keeps_nano : keeps R (UnixNano : M W _).
Proof. unfold UnixNano. go_frame. Qed.
Lemma keeps_vsock_rpc v q max (c : ExecConfig) :
  keeps R (rpcViaVsock conn_Dial conn_Write (on_host ho_ReadConn) (on_host ho_DeadlineExceeded) c v q max : M W _).
Proof. unfold rpcViaVsock, or_timeout, writeFramedJSON, conn_Dial, conn_Write. go_frame. Qed.
#[local] Hint Resolve keeps_nano keeps_vsock_rpc : keeps.
Lemma keeps_in_guest {A} (f : gmap string VMInstance -> M W A) : (forall vms, keeps R (f vms)) -> keeps R (in_guest f).
Proof. intros Hf w. apply Hf. Qed.

Lemma keeps_Create spec : keeps R (Create config netMgr spec : M W _).
Proof. unfold Create. go_frame; try (apply keeps_launch || apply keeps_setup_network); go_frame. Qed.
Lemma keeps_Restore spec dir : keeps R (RestoreFromSnapshot config netMgr spec dir : M W _).
Proof. unfold RestoreFromSnapshot, start_restored, stat_or. go_frame; try (apply keeps_launch || apply keeps_setup_network); go_frame. Qed.
Lemma keeps_cleanup id removeDir : keeps R (cleanup config netMgr id removeDir : M W _).
Proof. unfold cleanup, RemoveDevice. go_frame. Qed.
#[local] Hint Resolve keeps_cleanup : keeps.
Lemma keeps_stop id : keeps R (stop_gracefully config netMgr id : M W _).
Proof. apply keeps_on_vm. intros t. go_frame. cbv zeta. go_frame. Qed.
Lemma keeps_Destroy id : keeps R (Destroy config netMgr id : M W _).
Proof. apply keeps_on_vm. intros t. go_frame. Qed.
Lemma keeps_Start id : keeps R (Start id : M W _).
Proof. apply keeps_on_vm. intros t. cbv zeta. go_frame. Qed.
Lemma keeps_CreateSnapshot id full : keeps R (CreateSnapshot config id full : M W _).
Proof. apply keeps_on_vm. intros t. cbv zeta. go_frame. Qed.
Lemma keeps_Status id : keeps R (Status id : M W _).
Proof. apply keeps_on_vm. intros t. unfold isProcessRunning. go_frame. Qed.
Lemma keeps_GetMetrics id : keeps R (GetMetrics id : M W _).
Proof. apply keeps_on_vm. intros t. unfold readProcTicks, readTotalCPUTicks, readProcessRSSMB, readProcessIOBytes. go_frame. Qed.
Lemma keeps_Execute id cmd : keeps R (Execute config id cmd : M W _).
Proof. apply keeps_in_guest. intros vms. unfold GuestRPC.Execute, executeViaVsock. go_frame. Qed.
Lemma keeps_file_rpc vms id q max :
  keeps R (file_rpc conn_Dial conn_Write (on_host ho_ReadConn) (on_host ho_DeadlineExceeded) UnixNano (exec_config config) vms id q max : M W _).
Proof. unfold file_rpc. go_frame. Qed.
#[local] Hint Resolve keeps_file_rpc : keeps.
Lemma keeps_ReadFile id p o l : keeps R (ReadFile config id p o l : M W _).
Proof. unfold ReadFile. apply keeps_bind; [apply _ | | intros ?; apply keeps_ret, _]. apply keeps_in_guest. intros vms. unfold GuestRPC.ReadFile. go_frame. Qed.
Lemma keeps_WriteFile id p c m : keeps R (WriteFile config id p c m : M W _).
Proof. unfold WriteFile. apply keeps_bind; [apply _ | | intros ?; apply keeps_ret, _]. apply keeps_in_guest. intros vms. unfold GuestRPC.WriteFile. go_frame. Qed.
Lemma keeps_EditFile id p a b all : keeps R (EditFile config id p a b all : M W _).
Proof. unfold EditFile. apply keeps_bind; [apply _ | | intros ?; apply keeps_ret, _]. apply keeps_in_guest. intros vms. unfold GuestRPC.EditFile. go_frame. Qed.
End operations.
#[export] Hint Resolve keeps_Create keeps_Restore keeps_stop keeps_Destroy keeps_Start keeps_CreateSnapshot keeps_Status keeps_GetMetrics
  keeps_Execute keeps_ReadFile keeps_WriteFile keeps_EditFile : keeps.

(** ** The tables that no helper changes *)

Section tables.
Context {H : Type}.

Definition same_vms (w w' : Fc H) : Prop := fc_vms w' = fc_vms w.
#[export] Instance same_vms_pre : PreOrder same_vms.
Proof. split; [done | intros x y z E1 E2; by unfold same_vms in *; rewrite E2]. Qed.
#[export] Instance same_vms_guard : DmGuard same_vms.
Proof. split; [split; [apply _ | intros A f w; unfold on_host; by destruct (f _)] | done]. Qed.

Definition same_prev (w w' : Fc H) : Prop := fc_prev w' = fc_prev w.
#[export] Instance same_prev_pre : PreOrder same_prev.
Proof. split; [done | intros x y z E1 E2; by unfold same_prev in *; rewrite E2]. Qed.
#[export] Instance same_prev_guard : DmGuard same_prev.
Proof. split; [split; [apply _ | intros A f w; unfold on_host; by destruct (f _)] | done]. Qed.

Definition same_devices (w w' : Fc H) : Prop := fc_base w' = fc_base w /\ fc_active w' = fc_active w /\ fc_stale w' = fc_stale w.
#[export] Instance same_devices_pre : PreOrder same_devices.
Proof. split; [done | intros x y z (E1 & F1 & G1) (E2 & F2 & G2); unfold same_devices; by rewrite E2, F2, G2]. Qed.
#[export] Instance same_devices_guard : HostGuard same_devices.
Proof. split; [apply _ | intros A f w; unfold on_host; by destruct (f _)]. Qed.
End tables.

