(* ===== verification/ProviderSpec.v ===== *)
(** * What the Firecracker provider promises

    The provider refines a table of running VMs: Create and RestoreFromSnapshot add a VM
    when they succeed and nothing otherwise, the operations that end a VM take it away, and
    the rest leave the table alone. *)

From S2P Require Import Prelude Exception Naming GoLib Domain World PgRepo IPAlloc Interfaces Hoare Json ExecProtocol GuestRPC CIDAlloc SparseMem.
From S2P Require Import RepoFacts VMExec VMSnapshot VMService VMResume Metrics FcHost NetIP FcNetwork DmSnapshot Provider FcFrames.

Local Open Scope go_scope.

(** ** The table of running VMs *)

Section guest.
Context {H : Type} {FH : FcHost H} (config : Config).

Lemma vms_rpc v q max (c : ExecConfig) :
  keeps same_vms (rpcViaVsock conn_Dial conn_Write (on_host ho_ReadConn) (on_host ho_DeadlineExceeded) c v q max : M (Fc H) _).
Proof. unfold rpcViaVsock, or_timeout, writeFramedJSON, conn_Dial, conn_Write. go_frame. Qed.
Lemma vms_in_guest {A} (f : gmap string VMInstance -> M (Fc H) A) : (forall vms, keeps same_vms (f vms)) -> keeps same_vms (in_guest f).
Proof. intros Hf w. apply Hf. Qed.
Lemma vms_nano : keeps same_vms (UnixNano : M (Fc H) _).
Proof. unfold UnixNano. go_frame. Qed.
End guest.

Lemma instances_insert {H} (w : Fc H) id t : vm_instances (w <| fc_vms := <[id := t]> (fc_vms w) |>) = <[id := tr_inst t]> (vm_instances w).
Proof. unfold vm_instances. destruct w. cbn. by rewrite fmap_insert. Qed.

Section calls.
Context {H : Type} {FH : FcHost H} {FL : Float64} {FO : FloatOps} (config : Config) (netMgr : option NetworkManager).
Abbreviation W := (Fc H).

Inductive Call :=
| CallCreate (spec : CreateSpec) | CallRestore (spec : CreateSpec) (dir : string)
| CallStop (id : string) | CallStopPreserving (id : string) | CallDestroy (id : string)
| CallStart (id : string) | CallCreateSnapshot (id : string) (FullDisk : bool) | CallStatus (id : string) | CallGetMetrics (id : string)
| CallExecute (id : string) (cmd : list string) | CallReadFile (id path : string) (offset limit : Z)
| CallWriteFile (id path content : string) (mode : Z) | CallEditFile (id path oldString newString : string) (replaceAll : bool).

Definition as_ok {A} (m : M W (res A)) : M W (res string) := let? _ := m in ret (Ok "").
Definition perform (c : Call) : M W (res string) :=
  match c with
  | CallCreate spec => Create config netMgr spec
  | CallRestore spec dir => RestoreFromSnapshot config netMgr spec dir
  | CallStop id => as_ok (Stop config netMgr id)
  | CallStopPreserving id => as_ok (StopPreserving config netMgr id)
  | CallDestroy id => as_ok (Destroy config netMgr id)
  | CallStart id => as_ok (Start id)
  | CallCreateSnapshot id full => as_ok (CreateSnapshot config id full)
  | CallStatus id => as_ok (Status id)
  | CallGetMetrics id => as_ok (GetMetrics id)
  | CallExecute id cmd => let* r := Execute config id cmd in ret (match ex_err r with None => Ok "" | Some e => Err e end)
  | CallReadFile id p o l => ReadFile config id p o l
  | CallWriteFile id p c m => as_ok (WriteFile config id p c m)
  | CallEditFile id p a b all => as_ok (EditFile config id p a b all)
  end.

(** The VM that a call starts or ends. *)
Definition starts_of (c : Call) : option string :=
  match c with
  | CallCreate spec => Some (if bool_decide (cs_InstanceID spec = "") then cs_EnvironmentID spec else cs_InstanceID spec)
  | CallRestore spec _ => Some (cs_InstanceID spec)
  | _ => None
  end.
Definition ends_of (c : Call) : option string :=
  match c with CallStop id | CallStopPreserving id | CallDestroy id => Some id | _ => None end.
(** Whether the provider gives the VM a CID. *)
Definition grants_cid (c : Call) : bool :=
  match c with
  | CallCreate spec => cf_ExecEnabled config || vc_Enabled (rc_Vsock (cs_Runtime spec))
  | CallRestore _ _ => true
  | _ => false
  end.

Abbreviation Table := (gmap string VMInstance).
Definition fresh_cid (T : Table) (id : string) (v : VMInstance) : Prop :=
  forall other u, T !! other = Some u -> other <> id -> vi_GuestCID u <> vi_GuestCID v.

Definition requested_cid (c : Call) : Z := match c with CallCreate spec => vc_GuestCID (rc_Vsock (cs_Runtime spec)) | _ => 0 end.
(** A CID that no other VM has, or the requested one, which is 0 when none was requested. *)
Definition cid_of_call (T : Table) (c : Call) (id : string) (v : VMInstance) : Prop :=
  if grants_cid c then fresh_cid T id v else vi_GuestCID v = requested_cid c.

(** What a call may do to the table, by its result. *)
Inductive table_step (T : Table) (c : Call) : res string -> Table -> Prop :=
| ts_started id v : starts_of c = Some id -> id <> "" -> vi_ID v = id -> cid_of_call T c id v ->
    table_step T c (Ok id) (<[id := v]> T)
| ts_ended id : ends_of c = Some id -> is_Some (T !! id) -> table_step T c (Ok "") (delete id T)
| ts_failed e : (forall id, ends_of c = Some id -> T !! id = None /\ e = not_running id) -> table_step T c (Err e) T
| ts_other r : starts_of c = None -> ends_of c = None -> table_step T c r T.

(** *** Starting a VM *)

Definition starting (T : gmap string Tracked) (P : Tracked -> Prop) (id : string) (m : M W (res string)) : Prop := forall w,
  fc_vms w = T ->
  match m w with
  | (Ok id', w') => id' = id /\ id <> "" /\ exists t, fc_vms w' = <[id := t]> T /\ P t
  | (Err _, w') => fc_vms w' = T
  end.

Lemma starting_fails T P id e : starting T P id (fails e).
Proof. intros w E. done. Qed.
Lemma starting_bind T P id {A} (m : M W A) k : keeps same_vms m -> (forall a, starting T P id (k a)) -> starting T P id (bind m k).
Proof.
  intros Hm Hk w E. unfold bind. pose proof (Hm w) as Hw. destruct (m w) as [a w1]. apply Hk. by rewrite <- E.
Qed.
Lemma starting_bind_ok T P id {A} (m : M W (res A)) k (G : A -> Prop) :
  keeps same_vms m -> (forall w a, fc_vms w = T -> (m w).1 = Ok a -> G a) -> (forall a, G a -> starting T P id (k a)) ->
  starting T P id (bind_ok m k).
Proof.
  intros Hm HG Hk w E. unfold bind_ok. pose proof (Hm w) as Hw. pose proof (HG w) as Ha.
  destruct (m w) as [[a|e] w1]; cbn in Hw, Ha; [apply Hk; [by apply Ha | by rewrite <- E] | by rewrite Hw].
Qed.
Lemma starting_bind_any T P id {A} (m : M W (res A)) k :
  keeps same_vms m -> (forall a, starting T P id (k a)) -> starting T P id (bind_ok m k).
Proof. intros Hm Hk. by apply (starting_bind_ok T P id m k (fun _ => True)). Qed.
Lemma starting_track T (P : Tracked -> Prop) id v m spec b : id <> "" ->
  (forall t, tr_inst t = {| vi_ID := id; vi_VsockPath := vc_HostUDSPath v; vi_GuestCID := vc_GuestCID v; vi_GuestPort := vc_GuestPort v;
                            vi_Config := spec |} -> P t) ->
  starting T P id (let* _ := track config id v m spec b in ret (Ok id)).
Proof.
  intros Hid HP w E. unfold bind, track, bind, on_host. destruct (ho_Now (fc_host w)) as [t h]. cbn.
  split_and!; [done | done |]. eexists. split; [destruct w; cbn in *; by rewrite E | by apply HP].
Qed.

Lemma resolve_cid_fresh id requested w c : (resolve_cid config id requested w).1 = Ok c ->
  forall other u, vm_instances w !! other = Some u -> other <> id -> vi_GuestCID u <> c.
Proof.
  unfold resolve_cid, bind_ok, or_wrap, bind, on_host. destruct (ho_ReadDir _ _) as [[d|e] h]; [| done]. cbn.
  change (vm_instances _) with (vm_instances w) at 1. unfold resolveGuestCID.
  destruct (loadPersistedGuestCIDs d id) as [used|]; [| done]. intros Hc other u Hu Hne.
  assert (Hfree : cid_in_use (vm_instances w) used id c = false).
  { case_bool_decide.
    - destruct (cid_in_use _ _ _ requested) eqn:E; [done | by simplify_eq].
    - unfold AllocateDeterministicCID in Hc. repeat case_bool_decide; [done.. |].
      revert Hc. generalize (Z.to_nat (u32 (cf_CIDMax config - cf_CIDMin config + 1))) as n.
      generalize (u32 (cf_CIDMin config + hashVMID id mod u32 (cf_CIDMax config - cf_CIDMin config + 1))) as s.
      generalize 0 as i. intros i s n. revert i. induction n as [|n IH]; intros i Hc; cbn [probe] in Hc; [done |].
      destruct (cid_in_use _ _ _ _) eqn:E in Hc; [by eapply IH | by simplify_eq]. }
  apply cid_free in Hfree as [Hrun _]. by eapply running_has_false.
Qed.

Lemma attach_vsock_fresh id spec c w v c' : cf_ExecEnabled config || vc_Enabled (rc_Vsock (cs_Runtime spec)) = true ->
  (attach_vsock config id spec c w).1 = Ok (v, c') ->
  forall other u, vm_instances w !! other = Some u -> other <> id -> vi_GuestCID u <> vc_GuestCID v.
Proof.
  intros Hon. unfold attach_vsock.
  assert (Hv : vc_Enabled (effective_vsock config id spec) = vc_Enabled (rc_Vsock (cs_Runtime spec))).
  { unfold effective_vsock. repeat case_bool_decide; done. }
  rewrite Hv, Hon. unfold bind. pose proof (keeps_Remove same_vms (vc_HostUDSPath ((effective_vsock config id spec) <| vc_Enabled := true |>)) w) as HR.
  destruct (Remove _ w) as [[] w1]. cbn in HR. unfold bind_ok, or_wrap at 1, bind.
  destruct (resolve_cid config id _ w1) as [[cid|e] w2] eqn:E; [| done]. cbn [ret].
  destruct (or_wrap _ (persist_cid config id cid) w2) as [[[]|e] w3]; [| done]. cbn. intros [= <- <-] other u Hu Hne. cbn.
  eapply (resolve_cid_fresh id _ w1 cid); [by rewrite E | | exact Hne]. unfold vm_instances in *. by rewrite HR.
Qed.

Lemma attach_vsock_off id spec c w v c' : cf_ExecEnabled config || vc_Enabled (rc_Vsock (cs_Runtime spec)) = false ->
  (attach_vsock config id spec c w).1 = Ok (v, c') -> vc_GuestCID v = vc_GuestCID (rc_Vsock (cs_Runtime spec)).
Proof.
  intros Hoff. unfold attach_vsock.
  assert (Hv : vc_Enabled (effective_vsock config id spec) = vc_Enabled (rc_Vsock (cs_Runtime spec)) /\
               vc_GuestCID (effective_vsock config id spec) = vc_GuestCID (rc_Vsock (cs_Runtime spec))).
  { unfold effective_vsock. repeat case_bool_decide; done. }
  destruct Hv as [Hv Hc]. rewrite Hv, Hoff. by intros [= <- _].
Qed.

Lemma setup_network_vsock wh undo id spec c w x : (setup_network config netMgr wh undo id spec c w).1 = Ok x ->
  rc_Vsock (cs_Runtime x.1) = rc_Vsock (cs_Runtime spec).
Proof.
  intros E. destruct (setup_network config netMgr wh undo id spec c w) as [r w'] eqn:Es. cbn in E. subst r. revert Es.
  unfold setup_network. destruct (nc_Enabled _); [| by intros [= <- _]].
  destruct netMgr as [m|]; [| case_bool_decide; by intros [= <- _]].
  intros (? & ? & _ & (? & ? & _ & (? & ? & _ & [= <- _])%bind_ok_inv)%bind_ok_inv)%bind_ok_inv. done.
Qed.

Definition started_as (c : Call) (T : gmap string Tracked) (id : string) (t : Tracked) : Prop :=
  vi_ID (tr_inst t) = id /\ cid_of_call (tr_inst <$> T) c id (tr_inst t).

Lemma Create_starting spec T :
  starting T (started_as (CallCreate spec) T (default "" (starts_of (CallCreate spec)))) (default "" (starts_of (CallCreate spec))) (Create config netMgr spec).
Proof.
  cbn [starts_of default]. unfold Create. set (id := if bool_decide _ then _ else _). case_bool_decide as Hid; [apply starting_fails |].
  apply starting_bind_any; [go_frame | intros _]. do 2 (apply starting_bind; [go_frame | intros _]).
  apply starting_bind_any; [go_frame | intros root]. apply starting_bind_any; [go_frame | intros _].
  apply (starting_bind_ok _ _ _ _ _ (fun x => rc_Vsock (cs_Runtime x.1) = rc_Vsock (cs_Runtime spec))); [go_frame | |].
  { intros w [spec' c'] _ E. by apply setup_network_vsock in E. }
  intros [spec' c'] Hs. cbn in Hs.
  apply (starting_bind_ok _ _ _ _ _ (fun x =>
    if grants_cid (CallCreate spec) then forall other u, (tr_inst <$> T) !! other = Some u -> other <> id -> vi_GuestCID u <> vc_GuestCID x.1
    else vc_GuestCID x.1 = requested_cid (CallCreate spec))); [go_frame | |].
  { intros w [v c''] <- E. cbn [grants_cid requested_cid]. unfold or_undo, bind in E. destruct (attach_vsock config id spec' c' w) as [[x|e] w'] eqn:Ea; [| by destruct (RemoveAll _ _)].
    cbn in E. injection E as ->. rewrite <- Hs. destruct (_ || _) eqn:Hg.
    - eapply attach_vsock_fresh; [exact Hg | by rewrite Ea].
    - eapply attach_vsock_off; [exact Hg | by rewrite Ea]. }
  intros [v c''] Hf. apply starting_bind_any; [apply keeps_launch; [apply _ | go_frame] | intros m].
  apply starting_track; [done |]. intros t Ht. split; [by rewrite Ht |]. unfold cid_of_call. revert Hf. destruct (grants_cid _); intros Hf; rewrite Ht; [| exact Hf].
  intros other u Hu Hne. by apply (Hf other u).
Qed.

Lemma Restore_starting spec dir T :
  starting T (started_as (CallRestore spec dir) T (cs_InstanceID spec)) (cs_InstanceID spec) (RestoreFromSnapshot config netMgr spec dir).
Proof.
  unfold RestoreFromSnapshot, start_restored. set (id := cs_InstanceID spec). case_bool_decide as Hid; [apply starting_fails |].
  apply starting_bind_any; [go_frame | intros drive]. do 2 (apply starting_bind_any; [unfold stat_or; go_frame | intros _]).
  do 2 (apply starting_bind; [go_frame | intros _]). apply starting_bind_any; [go_frame | intros _].
  apply (starting_bind_ok _ _ _ _ _ (fun c => forall other u, (tr_inst <$> T) !! other = Some u -> other <> id -> vi_GuestCID u <> c)); [go_frame | |].
  { intros w c <- E. unfold or_wrap, bind in E. destruct (resolve_cid config id _ w) as [[c'|e] w'] eqn:Er; [| done].
    cbn in E. injection E as ->. eapply resolve_cid_fresh. by rewrite Er. }
  intros cid Hf. apply starting_bind_any; [go_frame | intros _].
  apply starting_bind_any; [apply keeps_setup_network; [apply _ | go_frame] | intros [spec' c']].
  apply starting_bind_any; [apply keeps_launch; [apply _ | go_frame] | intros m].
  apply starting_track; [done |]. intros t Ht. split; [by rewrite Ht |]. intros other u Hu Hne. rewrite Ht. by apply (Hf other u).
Qed.

(** *** Ending a VM *)

Lemma keeps_prev (f : gmap string cpuSample -> gmap string cpuSample) :
  keeps same_vms ((fun w => (tt, w <| fc_prev := f (fc_prev w) |>)) : M W unit).
Proof. intros w. by destruct w. Qed.

Lemma bind_lookup {A} id (k : option Tracked -> M W A) w : bind (lookup_vm id) k w = k (fc_vms w !! id) w.
Proof. done. Qed.

(** After the row of the VM is gone, the rest only runs calls that leave the table alone. *)
Lemma ends_after id {A} (k : M W (res A)) w : keeps same_vms k -> (forall v, is_Ok (k v).1 = true) ->
  is_Ok ((let* _ := untrack id in k) w).1 = true /\ fc_vms ((let* _ := untrack id in k) w).2 = delete id (fc_vms w).
Proof.
  intros Hk Ho. unfold bind, untrack. split; [apply Ho |]. rewrite Hk. by destruct w.
Qed.
Lemma always_Ok {A B} (m : M W B) (k : B -> M W (res A)) : (forall b v, is_Ok (k b v).1 = true) -> forall v, is_Ok (bind m k v).1 = true.
Proof. intros Hk v. unfold bind. destruct (m v). apply Hk. Qed.

Lemma cleanup_ends id removeDir w vm : fc_vms w !! id = Some vm ->
  is_Ok (cleanup config netMgr id removeDir w).1 = true /\ fc_vms (cleanup config netMgr id removeDir w).2 = delete id (fc_vms w).
Proof.
  intros Hv. unfold cleanup. rewrite bind_lookup, Hv.
  apply (ends_after id); [go_frame; try apply keeps_prev; unfold RemoveDevice; go_frame |].
  repeat (apply always_Ok; intros _). done.
Qed.

Lemma stop_ends id w : match fc_vms w !! id with
  | None => stop_gracefully config netMgr id w = (Err (not_running id), w)
  | Some _ => is_Ok (stop_gracefully config netMgr id w).1 = true /\ fc_vms (stop_gracefully config netMgr id w).2 = delete id (fc_vms w)
  end.
Proof.
  unfold stop_gracefully, with_vm. rewrite bind_lookup. destruct (fc_vms w !! id) as [vm|] eqn:Hv; [| done].
  assert (Hh : forall A (f : H -> A * H) (k : A -> M W (res unit)),
    (forall a v, fc_vms v !! id = Some vm -> is_Ok (k a v).1 = true /\ fc_vms (k a v).2 = delete id (fc_vms v)) ->
    forall v, fc_vms v !! id = Some vm -> is_Ok (bind (on_host f) k v).1 = true /\ fc_vms (bind (on_host f) k v).2 = delete id (fc_vms v)).
  { intros A f k Hk v Hv'. unfold bind. pose proof (hg_host (R := same_vms) _ f v) as Hs. destruct (on_host f v) as [a v'].
    unfold same_vms in Hs. cbn in Hs. rewrite <- Hs. apply Hk. by rewrite Hs. }
  apply Hh; [| done]. intros [[]|e] v Hv'; [| by eapply cleanup_ends]. apply Hh; [| done]. intros waited v1 Hv1.
  destruct (match waited with Err e => _ | Ok _ => _ end); [by eapply cleanup_ends |].
  apply ends_after; [go_frame |]. repeat (apply always_Ok; intros _). done.
Qed.
Lemma destroy_ends id w : match fc_vms w !! id with
  | None => Destroy config netMgr id w = (Err (not_running id), w)
  | Some _ => is_Ok (Destroy config netMgr id w).1 = true /\ fc_vms (Destroy config netMgr id w).2 = delete id (fc_vms w)
  end.
Proof.
  unfold Destroy, with_vm. rewrite bind_lookup. destruct (fc_vms w !! id) as [vm|] eqn:Hv; [| done]. by eapply cleanup_ends.
Qed.

(** *** The other calls *)

Definition same_table (w w' : W) : Prop := vm_instances w' = vm_instances w.
#[local] Instance same_table_pre : PreOrder same_table.
Proof. split; [done | intros x y z E1 E2; by unfold same_table in *; rewrite E2]. Qed.
#[local] Instance same_table_guard : DmGuard same_table.
Proof. split; [split; [apply _ | intros A f w; unfold on_host; by destruct (f _)] | done]. Qed.

Lemma table_of_vms {A} (m : M W A) : keeps same_vms m -> keeps same_table m.
Proof. apply keeps_weaken. intros w w' E. unfold same_table, vm_instances. by rewrite E. Qed.
Lemma keeps_with_vm {A} id (k : Tracked -> M W (res A)) : (forall t, keeps same_table (k t)) -> keeps same_table (with_vm id k).
Proof. intros Hk w. unfold with_vm. rewrite bind_lookup. destruct (fc_vms w !! id); [apply Hk | done]. Qed.
Lemma keeps_mark id : keeps same_table (mark_snapshot id : M W _).
Proof.
  intros [h vms p b a]. unfold mark_snapshot, same_table, vm_instances. cbn. apply map_eq. intros i. rewrite !lookup_fmap.
  destruct (decide (i = id)) as [->|Hne]; [rewrite lookup_alter_eq; by destruct (vms !! id) as [[]|] | by rewrite lookup_alter_ne].
Qed.
#[local] Hint Resolve keeps_mark : keeps.
Lemma keeps_as_ok {A} (m : M W (res A)) : keeps same_table m -> keeps same_table (as_ok m).
Proof. intros Hm. unfold as_ok. go_frame. Qed.

Lemma snapshot_table id full : keeps same_table (CreateSnapshot config id full : M W _).
Proof. apply keeps_with_vm. intros t. cbv zeta. go_frame. Qed.
Lemma status_table id : keeps same_table (Status id : M W _).
Proof. apply keeps_with_vm. intros t. unfold isProcessRunning. go_frame. Qed.
Lemma start_table id : keeps same_table (Start id : M W _).
Proof. apply keeps_with_vm. intros t. cbv zeta. go_frame. Qed.
Lemma keeps_sample id s : keeps same_table (sample_cpu id s : M W _).
Proof. intros w. by destruct w. Qed.
#[local] Hint Resolve keeps_sample : keeps.
Lemma metrics_table id : keeps same_table (GetMetrics id : M W _).
Proof.
  apply keeps_with_vm. intros t. unfold readProcTicks, readTotalCPUTicks, readProcessRSSMB, readProcessIOBytes. go_frame.
Qed.
#[local] Hint Resolve vms_nano vms_rpc : keeps.
Lemma file_rpc_table vms id q max :
  keeps same_vms (file_rpc conn_Dial conn_Write (on_host ho_ReadConn) (on_host ho_DeadlineExceeded) UnixNano (exec_config config) vms id q max : M W _).
Proof. unfold file_rpc. go_frame. Qed.
Lemma execute_table vms id cmd :
  keeps same_vms (GuestRPC.Execute conn_Dial conn_Write (on_host ho_ReadConn) (on_host ho_DeadlineExceeded) UnixNano (exec_config config) vms id cmd : M W _).
Proof. unfold GuestRPC.Execute, executeViaVsock. go_frame. Qed.
#[local] Hint Resolve file_rpc_table execute_table : keeps.

Lemma other_calls c : starts_of c = None -> ends_of c = None -> keeps same_table (perform c).
Proof.
  assert (Hg : forall A (f : gmap string VMInstance -> M W A), (forall vms, keeps same_vms (f vms)) -> keeps same_table (in_guest f)).
  { intros A f Hf. by apply table_of_vms, vms_in_guest. }
  assert (Hr : forall A B (m : M W A) (f : A -> B), keeps same_table m -> keeps same_table (let* x := m in ret (f x))).
  { intros A B m f Hm. apply keeps_bind; [apply _ | done | intros a; apply keeps_ret, _]. }
  destruct c; cbn [starts_of ends_of perform]; try done; intros _ _.
  - apply keeps_as_ok, start_table.
  - apply keeps_as_ok, snapshot_table.
  - apply keeps_as_ok, status_table.
  - apply keeps_as_ok, metrics_table.
  - apply Hr. unfold Execute. apply Hg. intros vms. go_frame.
  - unfold ReadFile. apply Hr, Hg. intros vms. unfold GuestRPC.ReadFile. go_frame.
  - apply keeps_as_ok. unfold WriteFile. apply Hr, Hg. intros vms. unfold GuestRPC.WriteFile. go_frame.
  - apply keeps_as_ok. unfold EditFile. apply Hr, Hg. intros vms. unfold GuestRPC.EditFile. go_frame.
Qed.

(** ** The refinement *)

Lemma start_step c id (m : M W (res string)) w : starts_of c = Some id -> perform c = m ->
  starting (fc_vms w) (started_as c (fc_vms w) id) id m ->
  table_step (vm_instances w) c (perform c w).1 (vm_instances (perform c w).2).
Proof.
  intros Hc -> Hm. specialize (Hm w eq_refl). destruct (m w) as [[id'|e] w'] eqn:E; cbn.
  - destruct Hm as (-> & Hid & t & Hv & Ht & Hf). unfold vm_instances. rewrite Hv, fmap_insert. by apply (ts_started _ c id).
  - unfold vm_instances. rewrite Hm. apply ts_failed. intros id' Hid'. destruct c; done.
Qed.
Lemma end_step c id (m : M W (res unit)) w : ends_of c = Some id -> perform c = as_ok m ->
  match fc_vms w !! id with
  | None => m w = (Err (not_running id), w)
  | Some _ => is_Ok (m w).1 = true /\ fc_vms (m w).2 = delete id (fc_vms w)
  end ->
  table_step (vm_instances w) c (perform c w).1 (vm_instances (perform c w).2).
Proof.
  intros Hc -> Hm. unfold as_ok, bind_ok. destruct (fc_vms w !! id) as [t|] eqn:Ht.
  - destruct Hm as [Ho Hv]. destruct (m w) as [[a|e] w']; [| done]. cbn in *. unfold vm_instances. rewrite Hv, fmap_delete.
    apply ts_ended; [done |]. rewrite lookup_fmap, Ht. by eexists.
  - rewrite Hm. cbn. apply ts_failed. intros id' Hid'. assert (id' = id) as -> by congruence. split; [| done].
    unfold vm_instances. by rewrite lookup_fmap, Ht.
Qed.

Lemma perform_step c w : table_step (vm_instances w) c (perform c w).1 (vm_instances (perform c w).2).
Proof.
  destruct (decide (starts_of c = None /\ ends_of c = None)) as [[Hs He]|Hne].
  { rewrite (other_calls c Hs He). by apply ts_other. }
  destruct c; try (exfalso; by apply Hne).
  - eapply start_step; [done | done | apply Create_starting].
  - eapply start_step; [done | done | apply Restore_starting].
  - eapply end_step; [done | done | apply stop_ends].
  - eapply end_step; [done | done | apply stop_ends].
  - eapply end_step; [done | done | apply destroy_ends].
Qed.

(** C33: A call of the provider does to its table of VMs what its result says: a VM is there
    exactly when it was started successfully and not ended since. A VM that is restored, or
    created while commands are enabled or with a vsock, gets a CID that no other VM in the
    table has; any other VM keeps the CID that was asked for, which may be zero or another
    VM's. Ending a VM fails only when it does not run; no other call changes which VMs run,
    whatever fails on the host. *)
Theorem provider_refines_table c w :
  table_step (vm_instances w) c (perform c w).1 (vm_instances (perform c w).2).
Proof. apply perform_step. Qed.

(** ** No two VMs share a CID *)

(** Runs: the calls come one after the other, and the host may change between them. *)
Inductive runs : W -> Prop :=
| runs_new h : runs {| fc_host := h; fc_vms := ∅; fc_prev := ∅; fc_base := ∅; fc_active := ∅; fc_stale := ∅ |}
| runs_host w h : runs w -> runs (w <| fc_host := h |>)
| runs_call w c : runs w -> runs (perform c w).2.

Definition cids_distinct (T : Table) : Prop :=
  forall a b u v, T !! a = Some u -> T !! b = Some v -> vi_GuestCID u = vi_GuestCID v -> a = b.

Lemma table_step_distinct T c r T' : cf_ExecEnabled config = true -> table_step T c r T' -> cids_distinct T -> cids_distinct T'.
Proof.
  intros Hx Hs HT. destruct Hs as [id v Hst _ _ Hf | id _ _ | e _ | r]; [| | done | done].
  - assert (Hg : grants_cid c = true) by (destruct c; cbn in *; [by rewrite Hx | done..]). unfold cid_of_call in Hf. rewrite Hg in Hf.
    intros a b x y Ha Hb E. destruct (decide (a = id)) as [->|Na], (decide (b = id)) as [->|Nb]; [done | | |].
    + rewrite lookup_insert_eq in Ha. rewrite lookup_insert_ne in Hb by done. injection Ha as <-. by destruct (Hf b y Hb Nb).
    + rewrite lookup_insert_eq in Hb. rewrite lookup_insert_ne in Ha by done. injection Hb as <-. by destruct (Hf a x Ha Na).
    + rewrite lookup_insert_ne in Ha, Hb by done. by eapply HT.
  - intros a b x y [_ Ha]%lookup_delete_Some [_ Hb]%lookup_delete_Some. by apply HT.
Qed.

(** C34: While commands are enabled, the running VMs have pairwise different CIDs, after any
    calls with any failures. *)
Theorem running_cids_distinct w : cf_ExecEnabled config = true -> runs w -> cids_distinct (vm_instances w).
Proof.
  intros Hx. induction 1 as [h | w h Hw IH | w c Hw IH].
  - intros a b u v Ha. unfold vm_instances in Ha. cbn in Ha. by rewrite lookup_fmap, lookup_empty in Ha.
  - by destruct w.
  - eapply table_step_distinct; [done | | exact IH].
    apply perform_step.
Qed.
End calls.
