(* ===== verification/DmSpec.v ===== *)
(** * What the disk of a VM shows

    Device mapper and the loop driver, as documented: a loop device has the whole sectors of
    its file; a snapshot device shows as many sectors as its table says of its origin with
    the exceptions stored in its copy-on-write device. Over any host that keeps to this
    ([BlockLaws]), a chain of files shows what was written through all of them, flattening
    a chain keeps what it shows, and resetting a device takes back everything that was
    written since its base image. *)

From S2P Require Import Prelude Exception Naming GoLib Domain World PgRepo IPAlloc Interfaces Hoare Json ExecProtocol GuestRPC CIDAlloc SparseMem.
From S2P Require Import RepoFacts FcHost DmSnapshot.

Local Open Scope go_scope.

(** ** Tables as dmsetup reads them *)

Definition plain (s : string) : bool := all_bytes (fun c => negb (bool_decide (c = chr 32))) s.

(** A persistent snapshot with chunks of 8 sectors, from sector 0 of its device. *)
Record DmTable := { dt_sectors : Z; dt_origin : string; dt_cow : string }.
Definition parse_sectors (s : string) : option Z :=
  match s with String _ _ => if all_bytes is_digit s then Some (dec_val 0 s) else None | EmptyString => None end.
Definition parse_table (t : string) : option DmTable :=
  match split_on (chr 32) t with
  | [start; len; target; origin; cow; persistent; chunk] =>
      n ← parse_sectors len;
      if bool_decide (start = "0" /\ target = "snapshot" /\ persistent = "P" /\ chunk = "8")
      then Some {| dt_sectors := n; dt_origin := origin; dt_cow := cow |} else None
  | _ => None
  end.

Lemma split_on_plain s rest : plain s = true -> split_on (chr 32) (s +:+ String (chr 32) rest) = s :: split_on (chr 32) rest.
Proof.
  unfold plain. induction s as [|c s IH]; cbn -[split_on]; intros Hs.
  - cbn. by rewrite bool_decide_eq_true_2.
  - apply andb_true_iff in Hs as [Hc Hs]. cbn [split_on]. apply negb_true_iff in Hc. rewrite Hc, (IH Hs). done.
Qed.

Lemma plain_digits s : all_bytes is_digit s = true -> plain s = true.
Proof.
  unfold plain. induction s as [|c s IH]; [done |]. cbn. intros [Hc Hs]%andb_true_iff. rewrite (IH Hs), andb_true_r.
  apply negb_true_iff, bool_decide_eq_false_2. intros ->. discriminate Hc.
Qed.
Lemma plain_nonneg z : 0 <= z -> plain (fmt_d z) = true.
Proof. intros Hz. destruct (fmt_d_nonneg z Hz) as (c & d & -> & Hd & _). by apply plain_digits. Qed.
Lemma plain_app a b : plain (a +:+ b) = plain a && plain b.
Proof. apply all_bytes_app. Qed.

Lemma parse_sectors_fmt n : 0 <= n -> parse_sectors (fmt_d n) = Some n.
Proof. intros Hn. destruct (fmt_d_nonneg n Hn) as (c & d & -> & Hd & Hv). unfold parse_sectors. by rewrite Hd, Hv. Qed.

Lemma parse_dm_table n origin cow : 0 <= n -> plain origin = true -> plain cow = true ->
  parse_table (dm_table n origin cow) = Some {| dt_sectors := n; dt_origin := origin; dt_cow := cow |}.
Proof.
  intros Hn Ho Hc. unfold parse_table, dm_table.
  change ("0 " +:+ ?s) with ("0" +:+ String (chr 32) s).
  rewrite split_on_plain by done. change (" snapshot " +:+ ?s) with (String (chr 32) ("snapshot" +:+ String (chr 32) s)).
  rewrite split_on_plain by (by apply plain_nonneg). rewrite split_on_plain by done.
  change (" " +:+ ?s) with (String (chr 32) s). rewrite split_on_plain by done.
  change (" P 8") with (String (chr 32) "P 8"). rewrite split_on_plain by done.
  change (split_on (chr 32) "P 8") with ["P"; "8"]. cbv beta iota. by rewrite parse_sectors_fmt.
Qed.

(** ** The block layer *)

(** The capacity of a loop device is that of its file when it was attached. *)
Record LoopDev := { lp_file : string; lp_sectors : Z }.
Record Blocks := {
  bk_files : gmap string (list Z);            (* the bytes of the files *)
  bk_loops : gmap string LoopDev;
  bk_dms : gmap string DmTable;               (* the active table of each snapshot device *)
  bk_loaded : gmap string DmTable }.          (* a table loaded and not yet active *)

Definition bytes_of (sectors : Z) : nat := Z.to_nat (512 * sectors).
Definition sectors_of (l : list Z) : Z := Z.of_nat (length l) / 512.
(** What does not fill a sector at the end of a file is not on its loop device. *)
Definition whole_sectors (l : list Z) : list Z := take (bytes_of (sectors_of l)) l.
Definition loop_on (p : string) (l : list Z) : LoopDev := {| lp_file := p; lp_sectors := sectors_of l |}.
Definition resized (n : Z) (l : list Z) : list Z := take (Z.to_nat n) l ++ replicate (Z.to_nat n - length l) 0.

Lemma sectors_fit l : (bytes_of (sectors_of l) <= length l)%nat.
Proof. unfold bytes_of, sectors_of. pose proof (Z.mul_div_le (Z.of_nat (length l)) 512). lia. Qed.
Lemma whole_length l : length (whole_sectors l) = bytes_of (sectors_of l).
Proof. unfold whole_sectors. rewrite length_take. pose proof (sectors_fit l). lia. Qed.
Lemma whole_zeros n : whole_sectors (replicate n 0) = replicate (bytes_of (sectors_of (replicate n 0))) 0.
Proof. pose proof (sectors_fit (replicate n 0)) as Hf. rewrite length_replicate in Hf. unfold whole_sectors. rewrite take_replicate. f_equal. lia. Qed.
Lemma quot_sectors l : Z.quot (Z.of_nat (length l)) 512 = sectors_of l.
Proof. apply Z.quot_div_nonneg; lia. Qed.

(** [cow_view origin file]: the origin with the exceptions that the file stores; a file of
    zeros stores none. *)
Section shows.
Context (cow_view : list Z -> list Z -> list Z).

Inductive shows (b : Blocks) : string -> list Z -> Prop :=
| shows_loop d lp l : bk_loops b !! d = Some lp -> bk_files b !! lp_file lp = Some l ->
    0 <= lp_sectors lp -> (bytes_of (lp_sectors lp) <= length l)%nat -> shows b d (take (bytes_of (lp_sectors lp)) l)
| shows_dm name t lo lc : bk_dms b !! name = Some t -> shows b (dt_origin t) lo -> shows b (dt_cow t) lc ->
    0 <= dt_sectors t -> (bytes_of (dt_sectors t) <= length lo)%nat ->
    shows b (mapper name) (take (bytes_of (dt_sectors t)) (cow_view lo lc)).

Lemma shows_whole b d p l : bk_loops b !! d = Some (loop_on p l) -> bk_files b !! p = Some l -> shows b d (whole_sectors l).
Proof. intros Hd Hp. apply (shows_loop b d (loop_on p l) l Hd Hp); [cbn; unfold sectors_of; apply Z.div_pos; lia | apply sectors_fit]. Qed.

(** More devices do not change what a device shows. *)
Definition extends (b b' : Blocks) : Prop :=
  bk_files b' = bk_files b /\ bk_loops b ⊆ bk_loops b' /\ bk_dms b ⊆ bk_dms b'.
#[export] Instance extends_pre : PreOrder extends.
Proof.
  split; [done |]. intros x y z (E1 & L1 & D1) (E2 & L2 & D2). split_and!; [congruence | by etrans | by etrans].
Qed.
Lemma shows_extends b b' d l : extends b b' -> shows b d l -> shows b' d l.
Proof.
  intros (E & L & D) Hs. induction Hs as [d lp l Hl Hf Hp Hn | name t lo lc Hd _ IHo _ IHc Hp Hn].
  - apply shows_loop; [by eapply lookup_weaken | by rewrite E | done | done].
  - apply shows_dm; [by eapply lookup_weaken | done..].
Qed.

(** The size of a device is a number of sectors. *)
Lemma shows_sectors b d l : (forall lo lc, length (cow_view lo lc) = length lo) -> shows b d l -> whole_sectors l = l.
Proof.
  intros Hc Hs.
  assert (exists n, 0 <= n /\ Z.of_nat (length l) = 512 * n) as (n & Hn & Hl).
  { destruct Hs as [d lp l _ _ Hp Hn | name t lo lc _ _ _ Hp Hn]; [exists (lp_sectors lp) | exists (dt_sectors t)]; (split; [done |]);
    rewrite length_take, ?Hc; unfold bytes_of in *; lia. }
  unfold whole_sectors, bytes_of, sectors_of. rewrite Hl. replace (512 * n) with (n * 512) by lia. rewrite Z.div_mul by done.
  apply take_ge. lia.
Qed.
End shows.

(** A loop device that was detached while in use goes away with its last user; a device of
    an active table stays. *)
Definition freed (b b' : Blocks) : Prop :=
  bk_files b' = bk_files b /\ bk_dms b' = bk_dms b /\ bk_loops b' ⊆ bk_loops b /\
  forall name t, bk_dms b !! name = Some t ->
    bk_loops b' !! dt_origin t = bk_loops b !! dt_origin t /\ bk_loops b' !! dt_cow t = bk_loops b !! dt_cow t.

(** What the provider relies on: losetup attaches the whole sectors of a file to a device
    that was free, dmsetup makes, loads, activates and removes the tables it is given,
    detaching and removing may fail, and the calls on files do what their names say. *)
Class BlockLaws (H : Type) `{!FcHost H} := {
  blk : H -> Blocks;
  cow_view : list Z -> list Z -> list Z;
  cow_view_empty : forall l n, cow_view l (replicate n 0) = l;
  cow_view_length : forall lo lc, length (cow_view lo lc) = length lo;
  loops_not_mapped : forall h name, bk_loops (blk h) !! mapper name = None;
  law_losetup : forall h argv p out h', argv = losetup p \/ argv = losetup_ro p -> ho_Command "" argv h = ((out, None), h') ->
    let d := parseLoopDev out in
    bk_loops (blk h) !! d = None /\ plain d = true /\ d <> "" /\
    exists l, bk_files (blk h) !! p = Some l /\ blk h' = (blk h) <| bk_loops := <[d := loop_on p l]> (bk_loops (blk h)) |>;
  law_detach : forall h d x h', ho_Command "" (detach d) h = (x, h') ->
    blk h' = blk h \/ blk h' = (blk h) <| bk_loops := delete d (bk_loops (blk h)) |>;
  law_create : forall h name t out h', ho_Command "" (dm_create name t) h = ((out, None), h') ->
    exists tb, parse_table t = Some tb /\ bk_dms (blk h) !! name = None /\
      blk h' = (blk h) <| bk_dms := <[name := tb]> (bk_dms (blk h)) |>;
  law_reload : forall h name t out h', ho_Command "" (dm_reload name t) h = ((out, None), h') ->
    exists tb, parse_table t = Some tb /\ blk h' = (blk h) <| bk_loaded := <[name := tb]> (bk_loaded (blk h)) |>;
  law_resume : forall h name out h', ho_Command "" ["dmsetup"; "resume"; name] h = ((out, None), h') ->
    freed (match bk_loaded (blk h) !! name with
           | Some tb => (blk h) <| bk_dms := <[name := tb]> (bk_dms (blk h)) |> <| bk_loaded := delete name (bk_loaded (blk h)) |>
           | None => blk h
           end) (blk h');
  law_suspend : forall h name x h', ho_Command "" ["dmsetup"; "suspend"; name] h = (x, h') -> blk h' = blk h;
  law_remove : forall h name x h', ho_Command "" (dm_remove name) h = (x, h') ->
    freed (blk h) (blk h') \/ freed ((blk h) <| bk_dms := delete name (bk_dms (blk h)) |>) (blk h');
  law_mknodes : forall h x h', ho_Command "" ["dmsetup"; "mknodes"] h = (x, h') -> blk h' = blk h;
  law_Stat : forall h p r h', ho_Stat p h = (r, h') -> blk h' = blk h /\
    forall info l, r = Ok info -> bk_files (blk h) !! p = Some l -> fi_Size info = Z.of_nat (length l);
  law_MkdirAll : forall h p r h', ho_MkdirAll p h = (r, h') -> blk h' = blk h;
  law_Open : forall h p r h', ho_Open p h = (r, h') -> blk h' = blk h;
  law_OpenFile : forall h p h', ho_OpenFile p h = (Ok tt, h') -> blk h' = (blk h) <| bk_files := <[p := []]> (bk_files (blk h)) |>;
  law_Truncate : forall h p n h', ho_Truncate p n h = (Ok tt, h') ->
    blk h' = (blk h) <| bk_files := alter (resized n) p (bk_files (blk h)) |>;
  law_PutFile : forall h p f h', ho_PutFile p f h = (Ok tt, h') -> blk h' = (blk h) <| bk_files := <[p := f_bytes f]> (bk_files (blk h)) |>;
  law_size : forall h d n h', ho_BLKGETSIZE64 d h = (Ok n, h') -> blk h' = blk h /\
    forall l, shows cow_view (blk h) d l -> n = Z.of_nat (length l);
  law_read : forall h d dev reads h', ho_ReadDevice d h = (Ok (dev, reads), h') -> blk h' = blk h /\
    file_wf (d_file dev) /\ forall l, shows cow_view (blk h) d l -> f_bytes (d_file dev) = l }.

Section laws.
Context {H : Type} {FH : FcHost H} {BL : BlockLaws H}.
Abbreviation W := (Fc H).
Abbreviation blocks w := (blk (fc_host w)).
Abbreviation Shows b := (shows cow_view b).

Lemma mapper_inj a b : mapper a = mapper b -> a = b.
Proof. unfold mapper. intros [= E]. done. Qed.

Lemma set_files b f : bk_files (b <| bk_files := f |>) = f /\ bk_loops (b <| bk_files := f |>) = bk_loops b /\ bk_dms (b <| bk_files := f |>) = bk_dms b.
Proof. by destruct b. Qed.

(** ** Successful steps *)

Lemma on_host_inv {A} (f : H -> A * H) (w : W) a w' : on_host f w = (a, w') -> exists h', f (fc_host w) = (a, h') /\ w' = w <| fc_host := h' |>.
Proof. unfold on_host. destruct (f (fc_host w)) as [x h]. intros [= -> <-]. eauto. Qed.
Lemma or_wrap_inv {A} pre (m : M W (res A)) w a w' : or_wrap pre m w = (Ok a, w') -> m w = (Ok a, w').
Proof. unfold or_wrap, bind. destruct (m w) as [[x|e] v]; [by intros [= -> ->] | done]. Qed.
Lemma ignore_inv {A} (m : M W A) w u w' : ignore m w = (u, w') -> exists a, m w = (a, w').
Proof. unfold ignore, bind. destruct (m w) as [a v]. intros [= _ ->]. eauto. Qed.
Lemma attach_inv argv what w d w' : attach argv what w = (Ok d, w') ->
  exists out h', ho_Command "" argv (fc_host w) = ((out, None), h') /\ d = parseLoopDev out /\ w' = w <| fc_host := h' |>.
Proof.
  unfold attach, command. intros ([out e] & w1 & (h' & E & ->)%on_host_inv & R)%bind_inv. cbn in R.
  destruct e; [done |]. injection R as <- <-. eauto 6.
Qed.

Lemma extends_loop b d lp : bk_loops b !! d = None -> extends b (b <| bk_loops := <[d := lp]> (bk_loops b) |>).
Proof. intros Hd. split_and!; [by destruct b | destruct b; by apply insert_subseteq | by destruct b]. Qed.
Lemma extends_dm b n oc : bk_dms b !! n = None -> extends b (b <| bk_dms := <[n := oc]> (bk_dms b) |>).
Proof. intros Hd. split_and!; [by destruct b | by destruct b | destruct b; by apply insert_subseteq]. Qed.

(** A file attached, and a table created over a device and a file. *)
Lemma attached argv p what w d w' : argv = losetup p \/ argv = losetup_ro p -> attach argv what w = (Ok d, w') ->
  plain d = true /\ d <> "" /\ extends (blocks w) (blocks w') /\
  (forall l, bk_files (blocks w) !! p = Some l -> bk_loops (blocks w') !! d = Some (loop_on p l)) /\ exists h', w' = w <| fc_host := h' |>.
Proof.
  intros Ha (out & h' & E & -> & ->)%attach_inv. destruct (law_losetup _ _ _ _ _ Ha E) as (Hn & Hp & Hne & l & Hf & Hb).
  destruct w. cbn in *. rewrite Hb. split_and!; [done | done | by apply extends_loop | | eauto].
  intros l'. rewrite Hf. intros [= <-]. destruct (blk fc_host). cbn. by rewrite lookup_insert_eq.
Qed.

Lemma layered name sectors origin c w out w' lo lc : 0 <= sectors -> (bytes_of sectors <= length lo)%nat -> plain origin = true -> plain c = true ->
  command (dm_create name (dm_table sectors origin c)) w = ((out, None), w') -> Shows (blocks w) origin lo -> Shows (blocks w) c lc ->
  extends (blocks w) (blocks w') /\ Shows (blocks w') (mapper name) (take (bytes_of sectors) (cow_view lo lc)) /\ exists h', w' = w <| fc_host := h' |>.
Proof.
  intros Hs Hfit Ho Hc (h' & E & ->)%on_host_inv Hlo Hlc. destruct (law_create _ _ _ _ _ E) as (tb & Ht & Hn & Hb).
  rewrite parse_dm_table in Ht by done. injection Ht as <-. destruct w as [h v q ba ac st]. cbn in *.
  assert (He : extends (blk h) (blk h')) by (rewrite Hb; by apply extends_dm).
  split_and!; [done | | eauto]. apply (shows_dm _ _ name {| dt_sectors := sectors; dt_origin := origin; dt_cow := c |}); cbn; [| by eapply shows_extends.. | done | done].
  rewrite Hb. destruct (blk h). cbn. by rewrite lookup_insert_eq.
Qed.
(** A table as long as its origin cuts nothing off. *)
Lemma layered_whole name sectors origin c w out w' lo lc : 0 <= sectors -> length lo = bytes_of sectors -> plain origin = true -> plain c = true ->
  command (dm_create name (dm_table sectors origin c)) w = ((out, None), w') -> Shows (blocks w) origin lo -> Shows (blocks w) c lc ->
  extends (blocks w) (blocks w') /\ Shows (blocks w') (mapper name) (cow_view lo lc) /\ exists h', w' = w <| fc_host := h' |>.
Proof.
  intros Hs Hl Ho Hc E Hlo Hlc. destruct (layered _ _ _ _ _ _ _ lo lc Hs ltac:(lia) Ho Hc E Hlo Hlc) as (He & Hd & Hh).
  rewrite take_ge in Hd; [done |]. rewrite cow_view_length. lia.
Qed.

Lemma mknodes_blocks w u w' : ignore (command ["dmsetup"; "mknodes"]) w = (u, w') -> blocks w' = blocks w /\ exists h', w' = w <| fc_host := h' |>.
Proof.
  intros (x & (h' & E & ->)%on_host_inv)%ignore_inv. destruct w. cbn in *. split; [by apply law_mknodes in E | eauto].
Qed.

Lemma plain_dmName vm : plain vm = true -> plain (dmNameForVM vm) = true.
Proof.
  intros Hp. unfold dmNameForVM. rewrite plain_app. change (plain "vm_") with true. cbn [andb].
  induction vm as [|c vm IH]; [done |]. unfold plain in Hp. cbn [all_bytes] in Hp. apply andb_true_iff in Hp as [Hc Hp].
  cbn [replace_byte]. rewrite plain_app, (IH Hp). rewrite andb_true_r. destruct (bool_decide (c = chr 45)); [done |]. unfold plain, str1. cbn [all_bytes]. by rewrite Hc.
Qed.

(** ** Chains *)

Lemma stack_shows vm sectors cows : plain vm = true -> 0 <= sectors -> forall i origin ls w ls' w' lo lcs,
  cows <> [] -> plain origin = true -> length lo = bytes_of sectors -> Shows (blocks w) origin lo ->
  Forall2 (fun p l => bk_files (blocks w) !! p = Some l) cows lcs ->
  stack_layers vm sectors i cows origin ls w = (Ok ls', w') ->
  extends (blocks w) (blocks w') /\ Shows (blocks w') (mapper (dmNameForVM vm)) (fold_left cow_view (whole_sectors <$> lcs) lo) /\
  exists h', w' = w <| fc_host := h' |>.
Proof.
  intros Hvm Hs. induction cows as [|cow cows IH]; intros i origin ls w ls' w' lo lcs Hne Ho Hlen Hlo HF Hr; [done |].
  inversion HF as [|? lc ? lcs' Hlc HF' E1 E2]; subst. cbn [stack_layers] in Hr.
  apply bind_inv in Hr as ([out [e|]] & w1 & H1 & Hr); cbn [snd fst] in Hr; [by apply bind_inv in Hr as (? & ? & _ & [= ])|].
  destruct (attached (losetup cow) cow "" w (parseLoopDev out) w1) as (Hpd & _ & He1 & Hl1 & h1 & Ew1); [by left | |].
  { unfold attach, bind. by rewrite H1. }
  apply bind_inv in Hr as ([out2 [e|]] & w2 & H2 & Hr); cbn [snd fst] in Hr.
  { apply bind_inv in Hr as (? & ? & _ & Hr). apply bind_inv in Hr as (? & ? & _ & [= ]). }
  apply bind_inv in Hr as (u & w3 & H3 & Hr).
  destruct (layered_whole _ _ _ _ _ _ _ lo (whole_sectors lc) Hs Hlen Ho Hpd H2) as (He2 & Hs2 & h2 & Ew2);
    [by eapply shows_extends | eapply shows_whole; [by apply Hl1 | by rewrite (proj1 He1)] |].
  apply mknodes_blocks in H3 as [Hb3 (h3 & Ew3)].
  assert (He : extends (blocks w) (blocks w3)) by (rewrite Hb3; by etrans).
  assert (Ew : exists h', w3 = w <| fc_host := h' |>) by (subst; destruct w; cbn; eauto).
  destruct cows as [|cow' cows].
  - apply Forall2_nil_inv_l in HF' as ->. rewrite bool_decide_eq_true_2 in Hs2 by done. injection Hr as <- <-.
    split_and!; [done | by rewrite Hb3 | done].
  - rewrite bool_decide_eq_false_2 in Hr, Hs2 by done.
    assert (Hp : plain (mapper (dmNameForVM vm +:+ "_layer" +:+ fmt_d (Z.of_nat i))) = true).
    { unfold mapper. rewrite !plain_app, (plain_dmName vm Hvm), (plain_nonneg (Z.of_nat i)) by lia. done. }
    assert (HF3 : Forall2 (fun p l => bk_files (blocks w3) !! p = Some l) (cow' :: cows) lcs').
    { eapply Forall2_impl; [exact HF' |]. intros p l Hl. by rewrite (proj1 He). }
    rewrite <- Hb3 in Hs2. destruct (IH _ _ _ _ _ _ (cow_view lo (whole_sectors lc)) lcs' ltac:(done) Hp ltac:(by rewrite cow_view_length) Hs2 HF3 Hr) as (He4 & Hs4 & h4 & Ew4).
    split_and!; [by etrans | done |]. destruct Ew as (h & ->). rewrite Ew4. destruct w; cbn; eauto.
Qed.

(** ** One layer *)

(** The record of a base image, if there is one, is right: its device has the whole sectors
    of the image as it is. *)
Definition base_ok (w : W) (base : string) : Prop := forall e, fc_base w !! base = Some e ->
  plain (ble_loopDev e) = true /\
  forall l, bk_files (blocks w) !! base = Some l -> bk_loops (blocks w) !! ble_loopDev e = Some (loop_on base l).

Lemma stat_inv p w r w' : on_host (ho_Stat p) w = (r, w') -> blocks w' = blocks w /\ (exists h', w' = w <| fc_host := h' |>) /\
  forall info l, r = Ok info -> bk_files (blocks w) !! p = Some l -> fi_Size info = Z.of_nat (length l).
Proof. intros (h' & E & ->)%on_host_inv. apply law_Stat in E as [Hb Hs]. destruct w. cbn in *. split_and!; eauto. Qed.

Lemma origin_attached base w dev w' : base_ok w base -> setupOriginLocked base w = (Ok dev, w') ->
  extends (blocks w) (blocks w') /\ (forall l, bk_files (blocks w) !! base = Some l -> bk_loops (blocks w') !! dev = Some (loop_on base l)) /\
  plain dev = true /\ fc_active w' = fc_active w.
Proof.
  intros Hok. unfold setupOriginLocked.
  assert (Hnew : forall v, (let? loopDev := attach (losetup_ro base) ("losetup --find --show --read-only " +:+ base) in
      let* _ := set_base base {| ble_loopDev := loopDev; ble_refCount := 1 |} in ret (Ok loopDev)) v = (Ok dev, w') ->
    extends (blocks v) (blocks w') /\ (forall l, bk_files (blocks v) !! base = Some l -> bk_loops (blocks w') !! dev = Some (loop_on base l)) /\
    plain dev = true /\ fc_active w' = fc_active v).
  { intros v (d & v1 & Ha & [= <- <-])%bind_ok_inv. apply (attached _ base) in Ha as (Hp & _ & He & Hl & h' & ->); [| by right].
    by destruct v. }
  intros (b & w1 & [= <- <-] & Hr)%bind_inv. destruct (fc_base w !! base) as [e|] eqn:He; [| by apply Hnew].
  apply bind_inv in Hr as (st & w2 & Hst & Hr). apply stat_inv in Hst as (Hb & (h' & E) & _). destruct (Hok _ He) as [Hp Hl].
  destruct st as [info|err]; apply bind_inv in Hr as (u & w3 & [= <- <-] & Hr); [| apply bind_inv in Hr as (u & w3 & [= <- <-] & Hr)].
  - injection Hr as <- <-. subst w2. destruct w. cbn in *. by rewrite Hb.
  - apply Hnew in Hr as (Hx & Hl' & Hp' & Ha). subst w2. destruct w. cbn in *. by rewrite <- Hb.
Qed.

Lemma stat_base_inv pre p w n w' : stat_base pre p w = (Ok n, w') -> blocks w' = blocks w /\ (exists h', w' = w <| fc_host := h' |>) /\
  forall l, bk_files (blocks w) !! p = Some l -> n = Z.of_nat (length l).
Proof.
  unfold stat_base. intros (info & w1 & Hst%or_wrap_inv & [= <- <-])%bind_ok_inv. apply stat_inv in Hst as (Hb & Hh & Hs).
  split_and!; [done | done |]. intros l. by apply Hs.
Qed.

Lemma cow_size_nonneg n : 0 <= n -> 0 <= cowSizeForBase n.
Proof. intros Hn. unfold cowSizeForBase. pose proof (Z.quot_pos (Z.max (Z.quot n 10) (64 * 1024 * 1024)) 512). lia. Qed.
Lemma resized_empty n : resized n [] = replicate (Z.to_nat n) 0.
Proof. unfold resized. rewrite take_nil, Nat.sub_0_r. done. Qed.

(** The files but one, the devices and the records of the provider are as before. *)
Definition rewrote (p : string) (l : list Z) (w w' : W) : Prop :=
  blocks w' = (blocks w) <| bk_files := <[p := l]> (bk_files (blocks w)) |> /\ exists h', w' = w <| fc_host := h' |>.
Lemma fresh_cow_inv c r p n w w' : 0 <= n -> fresh_cow c r p n w = (Ok tt, w') ->
  rewrote p (replicate (Z.to_nat (cowSizeForBase n)) 0) w w'.
Proof.
  intros Hn ([] & w1 & (h1 & E1 & ->)%or_wrap_inv%on_host_inv & (h2 & E2 & ->)%or_wrap_inv%on_host_inv)%bind_ok_inv.
  apply law_OpenFile in E1. apply law_Truncate in E2. destruct w as [h v q b a st]. unfold rewrote. cbn in *. split; [| eauto].
  rewrite E2, E1. destruct (blk h). cbn. f_equal. rewrite alter_insert_eq, resized_empty. done.
Qed.

Lemma createCow_shows vm base cow (reuse : bool) w dev w' l lc : plain vm = true -> fc_active w !! vm = None -> base_ok w base ->
  bk_files (blocks w) !! base = Some l -> (reuse = false -> cow <> base) -> (reuse = true -> bk_files (blocks w) !! cow = Some lc) ->
  createCowDeviceLocked vm base cow reuse w = (Ok dev, w') ->
  dev = mapper (dmNameForVM vm) /\
  Shows (blocks w') dev (if reuse then cow_view (whole_sectors l) (whole_sectors lc) else whole_sectors l) /\
  exists cl, fc_active w' !! vm = Some {| di_dmPath := dev; di_baseImagePath := base; di_cowLoopDev := cl; di_layers := [] |}.
Proof.
  intros Hvm Hact Hok Hbase Hne Hcow Hr. unfold createCowDeviceLocked in Hr.
  apply bind_inv in Hr as (o & w0 & H0 & Hr). unfold existing_device in H0. apply bind_inv in H0 as (t & v & [= <- <-] & H0).
  rewrite Hact in H0. injection H0 as <- <-.
  apply bind_ok_inv in Hr as (ldev & w1 & H1 & Hr). apply or_wrap_inv in H1. apply (origin_attached _ _ _ _ Hok) in H1 as (He1 & Hl1 & Hp1 & Ha1).
  apply bind_ok_inv in Hr as (n & w2 & H2 & Hr). apply stat_base_inv in H2 as (Hb2 & (h2 & E2) & Hn).
  assert (Hn2 : n = Z.of_nat (length l)) by (apply Hn; by rewrite (proj1 He1)). clear Hn.
  apply bind_ok_inv in Hr as ([] & w3 & H3 & Hr). apply or_wrap_inv, on_host_inv in H3 as (h3 & H3 & E3). apply law_MkdirAll in H3.
  assert (Hw3 : blocks w3 = blocks w1) by (subst w3; destruct w2; cbn in *; congruence).
  apply bind_ok_inv in Hr as ([] & w4 & H4 & Hr).
  assert (Hw4 : bk_loops (blocks w4) = bk_loops (blocks w1) /\ bk_files (blocks w4) !! base = Some l /\
            bk_files (blocks w4) !! cow = Some (if reuse then lc else replicate (Z.to_nat (cowSizeForBase n)) 0)).
  { destruct reuse.
    - injection H4 as <-. rewrite Hw3, (proj1 He1). auto.
    - apply fresh_cow_inv in H4 as [Hb4 _]; [| lia]. rewrite Hb4, Hw3. destruct (set_files (blocks w1) (<[cow := replicate (Z.to_nat (cowSizeForBase n)) 0]> (bk_files (blocks w1)))) as (-> & -> & _).
      rewrite lookup_insert_eq, lookup_insert_ne by (intros ->; by apply Hne). by rewrite (proj1 He1). }
  destruct Hw4 as (Hl4 & Hf4 & Hc4).
  apply bind_ok_inv in Hr as (cl & w5 & H5 & Hr). apply (attached _ cow) in H5 as (Hp5 & _ & He5 & Hl5 & h5 & E5); [| by left].
  apply bind_inv in Hr as ([out [e|]] & w6 & H6 & Hr); cbn [snd fst] in Hr; [by apply bind_inv in Hr as (? & ? & _ & [= ])|].
  assert (Horigin : Shows (blocks w5) ldev (whole_sectors l)).
  { eapply shows_extends; [exact He5 |]. eapply shows_whole; [rewrite Hl4; by apply Hl1 | done]. }
  assert (Hcowdev : Shows (blocks w5) cl (whole_sectors (if reuse then lc else replicate (Z.to_nat (cowSizeForBase n)) 0))).
  { eapply shows_whole; [by apply Hl5 | by rewrite (proj1 He5)]. }
  eapply layered_whole in H6 as (He6 & Hs6 & h6 & E6);
    [| apply Z.quot_pos; lia | by rewrite Hn2, quot_sectors, whole_length | done | done | exact Horigin | exact Hcowdev].
  apply bind_inv in Hr as (u & w7 & H7 & Hr). apply mknodes_blocks in H7 as [Hb7 (h7 & E7)].
  apply bind_inv in Hr as (u' & w8 & [= <- <-] & [= <- <-]).
  assert (Hview : (if reuse then cow_view (whole_sectors l) (whole_sectors lc) else whole_sectors l) =
            cow_view (whole_sectors l) (whole_sectors (if reuse then lc else replicate (Z.to_nat (cowSizeForBase n)) 0))).
  { destruct reuse; [done | by rewrite whole_zeros, cow_view_empty]. }
  rewrite Hview. split_and!; [done | | ].
  - rewrite <- Hb7 in Hs6. by destruct w7.
  - exists cl. destruct w7. cbn. by rewrite lookup_insert_eq.
Qed.

(** C36: Stacking the files of a chain on their base image gives a device that shows every
    whole sector of the image with what was written through all of the files, the oldest
    first; nothing is cut off. The VM has no device yet, and the record of the base image,
    if there is one, is right. *)
Theorem chain_shows_overlay vm base cows w dev w' l lcs : plain vm = true -> fc_active w !! vm = None -> base_ok w base ->
  bk_files (blocks w) !! base = Some l -> Forall2 (fun p lc => bk_files (blocks w) !! p = Some lc) cows lcs ->
  ReconstructChainDevice vm base cows w = (Ok dev, w') ->
  dev = mapper (dmNameForVM vm) /\ Shows (blocks w') dev (fold_left cow_view (whole_sectors <$> lcs) (whole_sectors l)).
Proof.
  intros Hvm Hact Hok Hbase HF Hr.
  destruct cows as [|cow [|cow' cows]].
  - done.
  - apply Forall2_cons_inv_l in HF as (lc & lcs' & Hc & ->%Forall2_nil_inv_l & ->). cbn [fold_left fmap list_fmap].
    eapply (createCow_shows vm base cow true) in Hr as (-> & Hs & _); done.
  - unfold ReconstructChainDevice in Hr. apply bind_inv in Hr as (o & w0 & H0 & Hr). unfold existing_device in H0.
    apply bind_inv in H0 as (t & v & [= <- <-] & H0). rewrite Hact in H0. injection H0 as <- <-.
    apply bind_ok_inv in Hr as (ldev & w1 & H1 & Hr). apply or_wrap_inv in H1. apply (origin_attached _ _ _ _ Hok) in H1 as (He1 & Hl1 & Hp1 & _).
    apply bind_ok_inv in Hr as (n & w2 & H2 & Hr). apply stat_base_inv in H2 as (Hb2 & _ & Hn).
    assert (Hn2 : n = Z.of_nat (length l)) by (apply Hn; by rewrite (proj1 He1)).
    apply bind_ok_inv in Hr as (ls & w3 & H3 & Hr).
    assert (Hq : 0 <= Z.quot n 512) by (apply Z.quot_pos; lia).
    apply (stack_shows vm _ _ Hvm Hq 0 ldev [] w2 ls w3 (whole_sectors l) lcs) in H3 as (_ & Hs3 & _);
      [| done | done | by rewrite Hn2, quot_sectors, whole_length | rewrite Hb2; eapply shows_whole; [by apply Hl1 | by rewrite (proj1 He1)] | ].
    + apply bind_inv in Hr as (u & w4 & [= <- <-] & [= <- <-]). split; [done | by destruct w3].
    + eapply Forall2_impl; [exact HF |]. intros p lc Hp. by rewrite Hb2, (proj1 He1).
Qed.

(** ** Removal *)

(** What taking devices down may do: no file changes, no loop device appears, and the image
    counts lose entries or change numbers. *)
Record torn (w w' : W) : Prop := {
  to_files : bk_files (blocks w') = bk_files (blocks w);
  to_loops : bk_loops (blocks w') ⊆ bk_loops (blocks w);
  to_base : forall p, fc_base w !! p = None -> fc_base w' !! p = None;
  to_active : forall vm, fc_active w !! vm = None -> fc_active w' !! vm = None }.
#[local] Instance torn_pre : PreOrder torn.
Proof.
  split; [by constructor |]. intros x y z [F1 L1 B1 A1] [F2 L2 B2 A2].
  constructor; [congruence | by etrans | auto | auto].
Qed.
Lemma torn_command argv : (forall h x h', ho_Command "" argv h = (x, h') -> bk_files (blk h') = bk_files (blk h) /\ bk_loops (blk h') ⊆ bk_loops (blk h)) ->
  keeps torn (ignore (command argv)).
Proof.
  intros Hc w. destruct (ignore (command argv) w) as [u w'] eqn:E. apply ignore_inv in E as (x & (h' & E & ->)%on_host_inv).
  apply Hc in E as [Hf Hl]. destruct w. by constructor.
Qed.
Lemma torn_detach d : keeps torn (ignore (command (detach d))).
Proof.
  apply torn_command. intros h x h' E. apply law_detach in E as [-> | ->]; [done |]. destruct (blk h). cbn.
  split; [done | apply delete_subseteq].
Qed.
Lemma torn_remove n : keeps torn (ignore (command (dm_remove n))).
Proof.
  apply torn_command. intros h x h' E. apply law_remove in E as [(Hf & _ & Hl & _) | (Hf & _ & Hl & _)]; [done |].
  by destruct (blk h).
Qed.
Lemma torn_layer l : keeps torn (drop_layer l).
Proof. unfold drop_layer. apply keeps_bind; [apply _ | apply torn_remove | intros _]. case_bool_decide; [by intros w | apply torn_detach]. Qed.

Lemma torn_release p : keeps torn (release_base p).
Proof.
  intros v. unfold release_base, bind, baseLoopDevs. destruct (fc_base v !! p) as [e|] eqn:Eb; [| done]. case_bool_decide.
  - pose proof (torn_detach (ble_loopDev e) v) as T. destruct (ignore _ v) as [x v1]. etrans; [exact T |].
    destruct v1. constructor; [done | done | | done]. intros q Hq. apply lookup_delete_None. auto.
  - destruct v. constructor; [done | done | | done]. intros q Hq. cbn in *. rewrite lookup_insert_ne; [done | congruence].
Qed.

Lemma removed vm w u w' : removeDeviceLocked vm w = (u, w') -> torn w w' /\ fc_active w' !! vm = None.
Proof.
  unfold removeDeviceLocked. intros (u1 & w1 & H1 & Hr)%bind_inv.
  assert (T1 : torn w w1) by (pose proof (torn_remove (dmNameForVM vm) w) as T; by rewrite H1 in T).
  apply bind_inv in Hr as (t & v & [= <- <-] & Hr). destruct (fc_active w1 !! vm) as [info|] eqn:Ha; [| by injection Hr as _ <-].
  apply bind_inv in Hr as (u2 & w2 & H2 & Hr).
  assert (T2 : torn w1 w2).
  { destruct (bool_decide _); [by injection H2 as _ <- | pose proof (torn_detach (di_cowLoopDev info) w1) as T; by rewrite H2 in T]. }
  apply bind_inv in Hr as (u3 & w3 & H3 & Hr).
  assert (T3 : torn w2 w3).
  { pose proof (keeps_for_each torn (rev (di_layers info)) drop_layer (fun l _ => torn_layer l) w2) as T. by rewrite H3 in T. }
  apply bind_inv in Hr as (u4 & w4 & H4 & Hr).
  assert (T4 : torn w3 w4 /\ fc_active w4 !! vm = None).
  { clear -H4. destruct w3. injection H4 as _ <-. split; [| apply lookup_delete_eq].
    constructor; [done | done | done |]. intros x Hx. cbn in *. apply lookup_delete_None. auto. }
  destruct T4 as [T4 N4]. pose proof (torn_release (di_baseImagePath info) w4) as T5. rewrite Hr in T5.
  split; [exact (transitivity T1 (transitivity T2 (transitivity T3 (transitivity T4 T5)))) |].
  by apply (to_active _ _ T5).
Qed.

(** ** Flattening *)

(** A file behind no loop device may change. *)
Lemma shows_other_file b b' p d l : (forall q lp, bk_loops b !! q = Some lp -> lp_file lp <> p) ->
  bk_loops b' = bk_loops b -> bk_dms b' = bk_dms b -> (forall q, q <> p -> bk_files b' !! q = bk_files b !! q) ->
  Shows b d l -> Shows b' d l.
Proof.
  intros Hp Hl Hd Hf Hs. induction Hs as [d lp l Hq Hlq Hn Hx | name t lo lc Hn _ IHo _ IHc Hp' Hx].
  - apply shows_loop; [by rewrite Hl | rewrite Hf; [done | by eapply Hp] | done | done].
  - apply shows_dm; [by rewrite Hd | done..].
Qed.

Lemma flatten_inv src dst n w w' l : 0 <= n -> (forall d lp, bk_loops (blocks w) !! d = Some lp -> lp_file lp <> dst) -> Shows (blocks w) src l ->
  n = Z.of_nat (length l) -> flatten src dst n w = (Ok tt, w') -> rewrote dst l w w'.
Proof.
  intros Hn Hdst Hsrc -> Hr. unfold flatten in Hr.
  apply bind_ok_inv in Hr as ([] & w1 & (h1 & E1 & ->)%or_wrap_inv%on_host_inv & Hr). apply law_Open in E1.
  apply bind_ok_inv in Hr as ([] & w2 & (h2 & E2 & ->)%or_wrap_inv%on_host_inv & Hr). apply law_OpenFile in E2.
  apply bind_ok_inv in Hr as ([] & w3 & (h3 & E3 & ->)%or_wrap_inv%on_host_inv & Hr). apply law_Truncate in E3.
  apply bind_ok_inv in Hr as ([dev reads] & w4 & (h4 & E4 & ->)%on_host_inv & Hr). apply law_read in E4 as (E4 & Hwf & Hs).
  apply on_host_inv in Hr as (h5 & E5 & ->). apply law_PutFile in E5. destruct w as [h v q b a st]. cbn in *.
  assert (Hb3 : blk h3 = (blk h) <| bk_files := <[dst := resized (Z.of_nat (length l)) []]> (bk_files (blk h)) |>).
  { rewrite E3, E2, E1. destruct (blk h). cbn. by rewrite alter_insert_eq. }
  assert (Hs3 : Shows (blk h3) src l).
  { rewrite Hb3. destruct (set_files (blk h) (<[dst := resized (Z.of_nat (length l)) []]> (bk_files (blk h)))) as (Ef & El & Ed).
    eapply (shows_other_file (blk h)); [exact Hdst | done | done | | done]. intros q' Hq'. by rewrite Ef, lookup_insert_ne. }
  assert (Hdev : f_bytes (d_file dev) = l) by (apply Hs, Hs3).
  split; [| cbn; eauto]. cbn. rewrite E5, E4, Hb3, Nat2Z.id, flatten_bytes by (done || by rewrite Hdev). rewrite Hdev.
  unfold padded. rewrite Nat.sub_diag, app_nil_r. destruct (blk h). cbn. f_equal. apply insert_insert_eq.
Qed.

(** C37: Flattening a chain keeps what the disk shows: the new device, over the merged image and
    an empty file of its own, shows what the old one showed, to the last sector, and is
    recorded as a single layer over the merged image. The path of the merged image is behind no loop device, is not a base
    image already, and is not that of the new file. *)
Theorem flatten_keeps_contents vm merged w dev cow w' info l : plain vm = true -> fc_active w !! vm = Some info ->
  Shows (blocks w) (di_dmPath info) l ->
  (forall d lp, bk_loops (blocks w) !! d = Some lp -> lp_file lp <> merged) -> fc_base w !! merged = None ->
  filepath_Join [filepath_Dir merged; "cow.img"] <> merged ->
  FlattenChainDevice vm merged w = (Ok (dev, cow), w') ->
  Shows (blocks w') dev l /\
  exists cl, fc_active w' !! vm = Some {| di_dmPath := dev; di_baseImagePath := merged; di_cowLoopDev := cl; di_layers := [] |}.
Proof.
  intros Hvm Hact Hs Hfree Hbase Hne Hr. unfold FlattenChainDevice in Hr.
  apply bind_inv in Hr as (t & v & [= <- <-] & Hr). rewrite Hact in Hr.
  apply bind_ok_inv in Hr as (n & w1 & H1 & Hr). apply or_wrap_inv in H1. unfold blockDeviceSize in H1.
  apply bind_ok_inv in H1 as ([] & w0 & (h0 & E0 & ->)%on_host_inv & (h1 & E1 & ->)%or_wrap_inv%on_host_inv).
  apply law_Open in E0. apply law_size in E1 as (E1 & Hsize). destruct w as [h v q b a st]. cbn in *.
  rewrite E0 in Hsize. apply Hsize in Hs as Hn. subst n. apply shows_sectors in Hs as Hwhole; [| apply cow_view_length].
  apply bind_ok_inv in Hr as ([] & w2 & H2 & Hr). apply or_wrap_inv in H2.
  apply (flatten_inv _ _ _ _ _ l) in H2 as [Hb2 (h2 & ->)]; [| lia | by cbn; rewrite E1, E0 | by cbn; rewrite E1, E0 | done].
  apply bind_inv in Hr as (u & w3 & H3 & Hr). apply removed in H3 as [[Tf Tl Tb _] Hnone]. cbn in *.
  apply bind_ok_inv in Hr as (d & w4 & H4 & [= <- <- <-]). apply or_wrap_inv in H4.
  eapply (createCow_shows vm merged _ false w3 d w4 l []) in H4 as (-> & Hs4 & Hi); [split; [by rewrite Hwhole in Hs4 | exact Hi] | done | done | | | done | done].
  - intros e He. by rewrite (Tb _ Hbase) in He.
  - rewrite Tf, Hb2. clear. destruct (blk h1). cbn. apply lookup_insert_eq.
Qed.

(** ** Resetting *)

Lemma host_host (w : W) h : fc_host (w <| fc_host := h |>) = h.
Proof. by destruct w. Qed.
Lemma host_active (w : W) h : fc_active (w <| fc_host := h |>) = fc_active w.
Proof. by destruct w. Qed.
Lemma host_base (w : W) h : fc_base (w <| fc_host := h |>) = fc_base w.
Proof. by destruct w. Qed.
Lemma active_inv (w : W) t w' : activeDevices w = (t, w') -> t = fc_active w /\ w' = w.
Proof. by intros [= -> ->]. Qed.
Lemma base_inv (w : W) t w' : baseLoopDevs w = (t, w') -> t = fc_base w /\ w' = w.
Proof. by intros [= -> ->]. Qed.
#[local] Ltac fcset := rewrite ?host_host, ?host_active, ?host_base in *.

Lemma dm_verb_inv verb vm w w' : dm_verb verb vm w = (Ok tt, w') ->
  exists out h', ho_Command "" ["dmsetup"; verb; dmNameForVM vm] (fc_host w) = ((out, None), h') /\ w' = w <| fc_host := h' |>.
Proof.
  unfold dm_verb, run_or. intros ([out e] & w1 & (h' & E & ->)%on_host_inv & R)%bind_inv. cbn in R. destruct e; [done |].
  injection R as <-. eauto.
Qed.

(** Suspending, resetting and resuming a device, as CreateSnapshot does with the device of a
    VM that goes on running, makes it show the base image again (its whole sectors): what the VM had written to
    its disk is in the copy that was taken, and gone from its disk. *)
Theorem reset_shows_base vm cow w w1 w2 w3 info e l : plain vm = true ->
  fc_active w !! vm = Some info -> fc_base w !! di_baseImagePath info = Some e -> base_ok w (di_baseImagePath info) ->
  ble_loopDev e <> di_cowLoopDev info -> cow <> di_baseImagePath info -> bk_files (blocks w) !! di_baseImagePath info = Some l ->
  SuspendDevice vm w = (Ok tt, w1) -> ResetCoW vm cow w1 = (Ok tt, w2) -> ResumeDevice vm w2 = (Ok tt, w3) ->
  Shows (blocks w3) (mapper (dmNameForVM vm)) (whole_sectors l).
Proof.
  intros Hvm Hact Hbase Hok Hdiff Hcow Hl (o1 & h1 & E1 & ->)%dm_verb_inv Hr (o3 & h3 & E3 & ->)%dm_verb_inv.
  destruct (Hok _ Hbase) as [Hplain Hloop]. specialize (Hloop _ Hl). apply law_suspend in E1. unfold ResetCoW in Hr.
  apply bind_inv in Hr as (t & v1 & [-> ->]%active_inv & Hr). fcset. rewrite Hact in Hr.
  apply bind_inv in Hr as (t & v1 & [-> ->]%base_inv & Hr). fcset. rewrite Hbase in Hr.
  apply bind_inv in Hr as (u & wd & Hd & Hr).
  assert (Kd : bk_files (blocks wd) = bk_files (blocks w) /\ bk_loops (blocks wd) !! ble_loopDev e = Some (loop_on (di_baseImagePath info) l)).
  { destruct (bool_decide _); [apply ret_inv in Hd as [_ ->]; fcset; by rewrite E1 |].
    apply ignore_inv in Hd as (x & (h' & Hd & ->)%on_host_inv). apply law_detach in Hd. fcset.
    destruct Hd as [Hd|Hd]; rewrite Hd, E1; [done |]. destruct (blocks w). cbn in *. by rewrite lookup_delete_ne. }
  destruct Kd as (Kf & Kl).
  apply bind_ok_inv in Hr as (n & ws & (Hbs & _ & Hn)%stat_base_inv & Hr). specialize (Hn l ltac:(by rewrite Kf)).
  apply bind_ok_inv in Hr as ([] & wf & Hf & Hr). apply fresh_cow_inv in Hf as [Hbf _]; [| lia].
  apply bind_ok_inv in Hr as (c & wa & Ha & Hr). apply (attached _ cow) in Ha as (Hpc & _ & He & Hlc & _); [| by left].
  specialize (Hlc (replicate (Z.to_nat (cowSizeForBase n)) 0)). rewrite Hbf in Hlc. rewrite (proj1 (set_files _ _)), lookup_insert_eq in Hlc. specialize (Hlc eq_refl).
  apply bind_inv in Hr as ([out [err|]] & wr & (hr & Er & ->)%on_host_inv & Hr); cbn [snd fst] in Hr; [by apply bind_inv in Hr as (? & ? & _ & [= ])|].
  apply law_reload in Er as (tb & Ht & Hbr). rewrite parse_dm_table in Ht by (done || apply Z.quot_pos; lia). injection Ht as <-.
  apply bind_inv in Hr as (u' & wz & Hz & [= <-]).
  assert (Hwz : blocks wz = blk hr) by (unfold set_active in Hz; injection Hz as _ <-; by destruct wa).
  apply law_resume in E3. rewrite Hwz, Hbr in E3. clear Hz Hwz. fcset. revert He Hlc Hbr E3. generalize (blocks wa) as ba. intros ba He Hlc _ E3.
  assert (Hfa : bk_files ba !! di_baseImagePath info = Some l /\ bk_files ba !! cow = Some (replicate (Z.to_nat (cowSizeForBase n)) 0) /\
                bk_loops ba !! ble_loopDev e = Some (loop_on (di_baseImagePath info) l)).
  { destruct He as (Hfe & Hle & _). rewrite Hfe, Hbf. clear -Kl Kf Hl Hcow Hbs Hle Hbf. rewrite Hbs in *. clear Hbs. rewrite Hbf in Hle. clear Hbf. destruct (blocks wd) as [files loops dms loaded]. cbn in *. split_and!.
    - rewrite lookup_insert_ne by done. by rewrite Kf.
    - apply lookup_insert_eq.
    - by eapply lookup_weaken. }
  destruct Hfa as (Fb & Fc & Lb). clear -E3 Fb Fc Lb Hlc Hn BL. destruct ba as [files loops dms loaded]. cbn in *. rewrite lookup_insert_eq in E3.
  destruct E3 as (Xf & Xd & _ & Xk). cbn in *. edestruct (Xk (dmNameForVM vm)) as [Xo Xc]; [apply lookup_insert_eq |]. cbn in Xo, Xc.
  assert (Hn' : Z.quot n 512 = sectors_of l) by (by rewrite Hn, quot_sectors).
  replace (whole_sectors l) with (take (bytes_of (Z.quot n 512)) (cow_view (whole_sectors l) (whole_sectors (replicate (Z.to_nat (cowSizeForBase n)) 0))));
    [| rewrite whole_zeros, cow_view_empty, Hn'; apply take_ge; by rewrite whole_length].
  eapply (shows_dm _ _ _ {| dt_sectors := Z.quot n 512; dt_origin := ble_loopDev e; dt_cow := c |}); cbn.
  - rewrite Xd. apply lookup_insert_eq.
  - eapply shows_whole; [by rewrite Xo | by rewrite Xf].
  - eapply shows_whole; [by rewrite Xc | by rewrite Xf].
  - apply Z.quot_pos; lia.
  - by rewrite Hn', whole_length.
Qed.
End laws.
