(* ===== verification/DmInv.v ===== *)
(** * Reference counts of base images

    The device manager counts the devices on each base image; removing the last one
    detaches it. The count of an image is at least the number of the active devices on it,
    after any calls: a failure on the way may leave a count too high, never too low. The
    exception is an image whose loop device os.Stat once failed to find: its entry is
    dropped with the devices still on it, and the next count starts at 1. The history
    [fc_stale] names these images. This is about the table of the manager: losetup may
    detach the loop device of an image for other reasons. *)

From S2P Require Import Prelude Exception Naming GoLib Domain World PgRepo IPAlloc Interfaces Hoare Json ExecProtocol GuestRPC CIDAlloc SparseMem.
From S2P Require Import VMExec VMSnapshot VMService VMResume Metrics FcHost NetIP FcNetwork DmSnapshot Provider FcFrames ProviderSpec.

Local Open Scope go_scope.

(** ** Users of an image *)

Definition on_image (p : string) (i : vmDeviceInfo) : bool := bool_decide (di_baseImagePath i = p).
Definition users (a : gmap string vmDeviceInfo) (p : string) : Z := Z.of_nat (size (filter (fun kv => on_image p kv.2 = true) a)).
Definition one (b : bool) : Z := if b then 1 else 0.

Lemma users_insert a vm i p : a !! vm = None -> users (<[vm := i]> a) p = users a p + one (on_image p i).
Proof.
  intros Hn. unfold users. destruct (on_image p i) eqn:E.
  - rewrite map_filter_insert_True by done. rewrite map_size_insert_None; [cbn; lia |]. rewrite map_lookup_filter_None. by left.
  - rewrite map_filter_insert_False by (cbn; congruence). rewrite delete_id by done. cbn. lia.
Qed.
Lemma users_delete a vm i p : a !! vm = Some i -> users a p = users (delete vm a) p + one (on_image p i).
Proof. intros Hs. rewrite <- (users_insert (delete vm a) vm) by apply lookup_delete_eq. by rewrite insert_delete_id. Qed.
Lemma users_nonneg a p : 0 <= users a p.
Proof. unfold users. lia. Qed.
Lemma users_pos a vm i : a !! vm = Some i -> 0 < users a (di_baseImagePath i).
Proof.
  intros Hs. rewrite (users_delete a vm i _ Hs). unfold on_image. rewrite bool_decide_eq_true_2 by done.
  pose proof (users_nonneg (delete vm a) (di_baseImagePath i)). cbn [one]. lia.
Qed.

(** ** The invariant *)

Section inv.
Context {H : Type} {FH : FcHost H}.
Abbreviation W := (Fc H).

(** [extra]: an image about to get one user more, or that just lost one. *)
Definition demand (extra : option string) (w : W) (p : string) : Z := users (fc_active w) p + one (bool_decide (extra = Some p)).
Record covered (extra : option string) (w : W) : Prop := {
  cv_pos : forall p e, fc_base w !! p = Some e -> 0 <= ble_refCount e;
  cv_count : forall p, p ∉ fc_stale w -> 0 < demand extra w p -> exists e, fc_base w !! p = Some e /\ demand extra w p <= ble_refCount e }.

Lemma covered_same x w w' : same_devices w w' -> covered x w -> covered x w'.
Proof. intros (Eb & Ea & Es) [P C]. split; unfold demand; rewrite Eb, ?Ea, ?Es; [exact P | exact C]. Qed.
Lemma demand_None w p : demand None w p = users (fc_active w) p.
Proof. unfold demand. rewrite bool_decide_eq_false_2 by done. apply Z.add_0_r. Qed.
Lemma demand_more x w p : demand None w p <= demand x w p.
Proof. rewrite demand_None. unfold demand, one. destruct (bool_decide _); lia. Qed.
Lemma covered_less x w : covered x w -> covered None w.
Proof.
  intros [P C]. split; [exact P |]. intros p Hst Hp. pose proof (demand_more x w p).
  destruct (C p Hst) as (e & He & Hle); [lia |]. exists e. split; [done | lia].
Qed.

(** Steps on the host only. *)
Lemma host_step {A} (P : W -> Prop) (m : M W A) : keeps same_devices m -> (forall w w', same_devices w w' -> P w -> P w') -> triple P m (fun _ => P).
Proof. intros Hm HP w Hw. by eapply HP, Hw. Qed.
Lemma then_host {A B} (P : W -> Prop) (m : M W A) (k : A -> M W B) Q :
  keeps same_devices m -> (forall w w', same_devices w w' -> P w -> P w') -> (forall a, triple P (k a) Q) -> triple P (bind m k) Q.
Proof. intros Hm HP Hk. eapply triple_bind; [by apply (host_step P) | done]. Qed.
Lemma then_host_ok {A B} (P : W -> Prop) (m : M W (res A)) (k : A -> M W (res B)) Q :
  keeps same_devices m -> (forall w w', same_devices w w' -> P w -> P w') -> (forall e w, P w -> Q (Err e) w) ->
  (forall a, triple P (k a) Q) -> triple P (bind_ok m k) Q.
Proof. intros Hm HP He Hk. eapply triple_bind_ok; [by apply (host_step P) | done | done]. Qed.

Definition cov : W -> Prop := covered None.
(** The VM has no device, and the image has room for one. *)
Definition room (vm base : string) (w : W) : Prop := covered (Some base) w /\ fc_active w !! vm = None.
Lemma cov_same w w' : same_devices w w' -> cov w -> cov w'.
Proof. apply covered_same. Qed.
Lemma room_same vm base w w' : same_devices w w' -> room vm base w -> room vm base w'.
Proof. intros Hs [Hc Ha]. split; [by eapply covered_same | by rewrite (proj1 (proj2 Hs))]. Qed.
Lemma room_less vm base w : room vm base w -> cov w.
Proof. intros [Hc _]. by eapply covered_less. Qed.

Lemma room_filled vm base info : di_baseImagePath info = base -> triple (room vm base) (set_active vm info) (fun _ => cov).
Proof.
  intros Hb [h v q b a st] [[P C] Ha]. cbn in *. split; cbn; [exact P |]. intros p Hst. unfold demand. cbn. rewrite users_insert by done.
  rewrite Z.add_0_r. unfold demand in C. cbn in C. unfold on_image. rewrite Hb. intros Hp. specialize (C p Hst).
  destruct (decide (base = p)) as [->|Hne].
  - rewrite !bool_decide_eq_true_2 in * by done. by apply C.
  - rewrite bool_decide_eq_false_2 in * by done. rewrite (bool_decide_eq_false_2 (Some base = Some p)) in C by congruence. by apply C.
Qed.

Lemma bind_base {A} (k : gmap string baseLoopEntry -> M W A) w : bind baseLoopDevs k w = k (fc_base w) w.
Proof. done. Qed.
Lemma bind_active {A} (k : gmap string vmDeviceInfo -> M W A) w : bind activeDevices k w = k (fc_active w) w.
Proof. done. Qed.

(** The image is attached afresh when it is not counted. *)
Definition attach_base (base : string) : M W (res string) :=
  let? loopDev := attach (losetup_ro base) ("losetup --find --show --read-only " +:+ base) in
  let* _ := set_base base {| ble_loopDev := loopDev; ble_refCount := 1 |} in
  ret (Ok loopDev).
Lemma attach_room vm base :
  triple (fun w => cov w /\ fc_active w !! vm = None /\ (base ∉ fc_stale w -> users (fc_active w) base = 0)) (attach_base base)
  (fun r w => match r with Ok _ => room vm base w | Err _ => cov w end).
Proof.
  intros [h v q b a st] ([P C] & Ha & H0). cbn in *. unfold attach_base, bind_ok, attach, bind, command, on_host. cbn [fc_host].
  destruct (ho_Command "" (losetup_ro base) h) as [[out [e|]] h'] eqn:E; cbn; [by split |].
  split; [| done]. split; cbn.
  - intros p e He'. destruct (decide (p = base)) as [->|Hne]; [rewrite lookup_insert_eq in He'; by injection He' as <- |].
    rewrite lookup_insert_ne in He' by done. by eapply P.
  - intros p Hst. specialize (C p Hst). rewrite demand_None in C. unfold demand. cbn in *. destruct (decide (base = p)) as [->|Hne].
    + rewrite bool_decide_eq_true_2 by done. intros _. rewrite lookup_insert_eq. eexists. split; [done |]. cbn. rewrite H0 by done. lia.
    + rewrite bool_decide_eq_false_2 by congruence. cbn. rewrite lookup_insert_ne by done. by rewrite Z.add_0_r.
Qed.

Lemma setup_room vm base : triple (fun w => cov w /\ fc_active w !! vm = None) (setupOriginLocked base)
  (fun r w => match r with Ok _ => room vm base w | Err _ => cov w end).
Proof.
  intros [h v q b a st] [[P C] Ha]. unfold setupOriginLocked. rewrite bind_base. fold (attach_base base). cbn [fc_base fc_active] in *.
  destruct (b !! base) as [e|] eqn:He; cycle 1.
  { refine (attach_room vm base (Build_Fc _ h v q b a st) _). split; [by split |]. split; [done |]. cbn. intros Hst.
    pose proof (users_nonneg a base). destruct (decide (users a base = 0)) as [|Hne]; [done |].
    destruct (C base Hst) as (e & He' & _); [rewrite demand_None; cbn; lia |]. cbn in He'. congruence. }
  unfold bind, on_host. cbn -[attach_base]. destruct (ho_Stat (ble_loopDev e) h) as [[info|err] h']; cbn -[attach_base]; cycle 1.
  { refine (attach_room vm base (Build_Fc _ h' v q (delete base b) a ({[base]} ∪ st)) _). cbn. split_and!; [| done | set_solver]. split; cbn.
    - intros p e' [_ He']%lookup_delete_Some. by eapply P.
    - intros p Hst. rewrite demand_None. cbn. specialize (C p). rewrite demand_None in C. cbn in *.
      rewrite lookup_delete_ne by set_solver. apply C. set_solver. }
  split; [| exact Ha]. split; cbn.
  - intros p e' He'. destruct (decide (p = base)) as [->|Hne]; [| rewrite lookup_insert_ne in He' by done; by eapply P].
    rewrite lookup_insert_eq in He'. injection He' as <-. specialize (P _ _ He). destruct e; cbn in *. lia.
  - intros p Hst. specialize (C p Hst). rewrite demand_None in C. unfold demand. cbn in *. destruct (decide (base = p)) as [->|Hne].
    + rewrite bool_decide_eq_true_2 by done. intros _. rewrite lookup_insert_eq. eexists. split; [done |].
      specialize (P _ _ He). rewrite He in C. destruct e as [d n]. cbn in *. destruct (decide (0 < users a p)) as [Hp|Hp]; [| lia].
      destruct (C Hp) as (e' & [= <-] & Hle). cbn in Hle. lia.
    + rewrite bool_decide_eq_false_2 by congruence. cbn. rewrite lookup_insert_ne by done. by rewrite Z.add_0_r.
Qed.

(** An image whose loop device is not found is counted from 1 again, whoever is on it. *)
Lemma stale_restarts_count base e w err h1 out h2 : fc_base w !! base = Some e ->
  ho_Stat (ble_loopDev e) (fc_host w) = (Err err, h1) -> ho_Command "" (losetup_ro base) h1 = ((out, None), h2) ->
  exists w', SetupOrigin base w = (Ok (parseLoopDev out), w') /\ fc_active w' = fc_active w /\
    fc_base w' !! base = Some {| ble_loopDev := parseLoopDev out; ble_refCount := 1 |}.
Proof.
  intros He Hst Hc. destruct w as [h v q b a st]. cbn in *.
  exists (Build_Fc _ h2 v q (<[base := {| ble_loopDev := parseLoopDev out; ble_refCount := 1 |}]> (delete base b)) a ({[base]} ∪ st)).
  split; [| split; [done | apply lookup_insert_eq]].
  unfold SetupOrigin, setupOriginLocked, baseLoopDevs, bind, on_host. cbn. rewrite He. cbn. rewrite Hst. cbn.
  unfold bind_ok, attach, bind, command, on_host. cbn. by rewrite Hc.
Qed.

Lemma existing_none vm : triple cov (existing_device vm) (fun r w => cov w /\ (r = None -> fc_active w !! vm = None)).
Proof.
  intros w Hc. unfold existing_device. rewrite bind_active. destruct (fc_active w !! vm) as [info|] eqn:Ha; [| done].
  destruct w as [h v q b a st]. unfold bind, on_host. cbn in *. destruct (ho_Stat (di_dmPath info) h) as [[x|e] h']; cbn.
  - split; [| done]. by apply (covered_same None {| fc_host := h; fc_vms := v; fc_prev := q; fc_base := b; fc_active := a; fc_stale := st |}).
  - split; [| intros _; apply lookup_delete_eq]. destruct Hc as [P C]. split; [exact P |]. cbn. intros p Hst.
    specialize (C p Hst). rewrite demand_None in *. cbn in *. rewrite (users_delete a vm info p Ha) in C. intros Hp.
    assert (0 <= one (on_image p info)) by (by destruct (on_image p info)).
    destruct C as (e' & He & Hle); [lia |]. exists e'. split; [done | lia].
Qed.

(** The VM's device, or the rest of the operation with room for one. *)
Lemma existing_or {A} vm (k : option string -> M W (res A)) :
  (forall d, triple cov (k (Some d)) (fun _ => cov)) ->
  triple (fun w => cov w /\ fc_active w !! vm = None) (k None) (fun _ => cov) ->
  triple cov (bind (existing_device vm) k) (fun _ => cov).
Proof.
  intros Hs Hn. eapply triple_bind; [apply existing_none |]. intros [d|].
  - intros w [Hc _]. by apply Hs.
  - intros w [Hc Ha]. apply Hn. auto.
Qed.
Lemma after_setup {A} vm pre base (k : string -> M W (res A)) :
  (forall d, triple (room vm base) (k d) (fun _ => cov)) ->
  triple (fun w => cov w /\ fc_active w !! vm = None) (bind_ok (or_wrap pre (setupOriginLocked base)) k) (fun _ => cov).
Proof.
  intros Hk. eapply triple_bind_ok with (Q := fun r w => match r with Ok _ => room vm base w | Err _ => cov w end); [| exact Hk | done].
  unfold or_wrap. eapply triple_bind; [apply setup_room |]. intros r w Hr. by destruct r.
Qed.

Ltac host_ok := eapply then_host_ok; [go_frame | apply room_same | intros ? ?; apply room_less | intros ?].
Ltac host := eapply then_host; [go_frame | apply room_same | intros ?].
Lemma room_end {A} vm base (m : M W A) : keeps same_devices m -> triple (room vm base) m (fun _ => cov).
Proof. intros Hm w Hw. eapply cov_same; [apply Hm | by eapply room_less]. Qed.
Lemma room_done {A} vm base info (a : A) : di_baseImagePath info = base ->
  triple (room vm base) (let* _ := set_active vm info in ret a) (fun _ => cov).
Proof. intros Hb. eapply triple_bind; [by apply room_filled | intros [] w Hw; exact Hw]. Qed.

Lemma cov_createCow vm base cow reuse : triple cov (createCowDeviceLocked vm base cow reuse) (fun _ => cov).
Proof.
  unfold createCowDeviceLocked. apply existing_or; [by intros d w | apply after_setup; intros dev].
  host_ok. host_ok. host_ok. host_ok. host. destruct (snd _) as [e|]; [apply room_end; go_frame |]. host. by apply room_done.
Qed.
Lemma cov_chain vm base cows : triple cov (ReconstructChainDevice vm base cows) (fun _ => cov).
Proof.
  unfold ReconstructChainDevice. destruct cows as [|cow [|]]; [by intros w | apply cov_createCow |].
  apply existing_or; [by intros d w | apply after_setup; intros dev]. host_ok. host_ok. by apply room_done.
Qed.

(** Removing a device first takes the user away, then lowers the count. *)
Lemma cov_release base : triple (covered (Some base)) (release_base base) (fun _ => cov).
Proof.
  intros [h v q b a st] [P C]. unfold release_base. rewrite bind_base. cbn in *.
  assert (Hd : users a base + 1 = demand (Some base) {| fc_host := h; fc_vms := v; fc_prev := q; fc_base := b; fc_active := a; fc_stale := st |} base)
    by (unfold demand; by rewrite bool_decide_eq_true_2).
  pose proof (users_nonneg a base) as Hpos.
  assert (Hoth : forall p, p <> base -> p ∉ st -> 0 < users a p -> exists e', b !! p = Some e' /\ users a p <= ble_refCount e').
  { intros p Hne Hst. specialize (C p Hst). unfold demand in C. rewrite bool_decide_eq_false_2 in C by congruence. cbn [one] in C. by rewrite Z.add_0_r in C. }
  destruct (b !! base) as [e|] eqn:He; cycle 1.
  { split; cbn; [exact P |]. intros p Hst. rewrite demand_None. cbn. destruct (decide (p = base)) as [->|Hne]; [| by apply Hoth].
    destruct (C base Hst) as (e & He' & _); [rewrite <- Hd; lia | cbn in He'; congruence]. }
  case_bool_decide as Hn.
  - unfold bind, ignore, command, on_host, bind. cbn. destruct (ho_Command "" (detach (ble_loopDev e)) h) as [x h']. cbn. split; cbn.
    + intros p e' [_ Hp]%lookup_delete_Some. by eapply P.
    + intros p Hst. rewrite demand_None. cbn. intros Hu. destruct (decide (p = base)) as [->|Hne].
      * destruct (C base Hst) as (e' & He' & Hle); [rewrite <- Hd; lia |]. rewrite <- Hd in Hle. cbn in He'. assert (e' = e) as -> by congruence. lia.
      * destruct (Hoth p Hne Hst Hu) as (e' & He' & Hl). exists e'. split; [| done]. by rewrite lookup_delete_ne.
  - cbn. split; cbn.
    + intros p e' He'. destruct (decide (p = base)) as [->|Hne]; [| rewrite lookup_insert_ne in He' by done; by eapply P].
      rewrite lookup_insert_eq in He'. injection He' as <-. destruct e. cbn in *. lia.
    + intros p Hst. rewrite demand_None. cbn. intros Hu. destruct (decide (p = base)) as [->|Hne].
      * destruct (C base Hst) as (e' & He' & Hle); [rewrite <- Hd; lia |]. rewrite <- Hd in Hle. cbn in He'. assert (e' = e) as -> by congruence.
        rewrite lookup_insert_eq. eexists. split; [done |]. destruct e. cbn in *. lia.
      * rewrite lookup_insert_ne by done. by apply Hoth.
Qed.

Lemma user_taken vm info w : cov w -> fc_active w !! vm = Some info -> covered (Some (di_baseImagePath info)) (del_active vm w).2.
Proof.
  intros [P C] Ha. destruct w as [h v q b a st]. cbn in *. split; cbn; [exact P |]. intros p Hst.
  specialize (C p Hst). rewrite demand_None in C. unfold demand. cbn in *. rewrite (users_delete a vm info p Ha) in C.
  assert (E : one (bool_decide (Some (di_baseImagePath info) = Some p)) = one (on_image p info)).
  { unfold on_image. f_equal. apply bool_decide_ext. split; [by intros [= ->] | by intros ->]. }
  by rewrite E.
Qed.

(** Reading the tables. *)
Lemma with_active {A} (P : W -> Prop) (k : gmap string vmDeviceInfo -> M W A) Q :
  (forall a, triple (fun w => P w /\ fc_active w = a) (k a) Q) -> triple P (bind activeDevices k) Q.
Proof. intros Hk w Hw. rewrite bind_active. by apply Hk. Qed.
Lemma with_base {A} (P : W -> Prop) (k : gmap string baseLoopEntry -> M W A) Q :
  (forall b, triple P (k b) Q) -> triple P (bind baseLoopDevs k) Q.
Proof. intros Hk w Hw. rewrite bind_base. by apply Hk. Qed.
Definition pinned (a : gmap string vmDeviceInfo) (w : W) : Prop := cov w /\ fc_active w = a.
Lemma pinned_same a w w' : same_devices w w' -> pinned a w -> pinned a w'.
Proof. intros Hs [Hc Ha]. split; [by eapply cov_same | by rewrite (proj1 (proj2 Hs))]. Qed.
Lemma pinned_end {A} a (m : M W A) : keeps same_devices m -> triple (pinned a) m (fun _ => cov).
Proof. intros Hm w [Hw _]. by eapply cov_same; [apply Hm |]. Qed.
Ltac host_pinned := first [ eapply then_host_ok; [go_frame | apply pinned_same | by intros ? ? [] | intros ?]
                          | eapply then_host; [go_frame | apply pinned_same | intros ?] ].

Lemma cov_remove vm : triple cov (removeDeviceLocked vm) (fun _ => cov).
Proof.
  unfold removeDeviceLocked. eapply then_host; [go_frame | apply cov_same |]. intros _. apply with_active. intros a.
  destruct (a !! vm) as [info|] eqn:Ha; [| by intros w []]. change (fun w => cov w /\ fc_active w = a) with (pinned a).
  do 2 host_pinned. intros w [Hc <-]. unfold bind. pose proof (user_taken vm info w Hc Ha) as Ht.
  destruct (del_active vm w) as [u w']. by apply cov_release.
Qed.

Lemma cov_flattenChain vm merged : triple cov (FlattenChainDevice vm merged) (fun _ => cov).
Proof.
  unfold FlattenChainDevice. apply with_active. intros a. destruct (a !! vm) as [info|]; [| by intros w []].
  change (fun w => cov w /\ fc_active w = a) with (pinned a). cbv zeta. do 2 host_pinned.
  eapply triple_bind with (Q := fun _ => cov); [intros w [Hw _]; by apply cov_remove | intros ?].
  eapply triple_bind_ok with (Q := fun _ => cov); [| by intros d w | done].
  unfold or_wrap. eapply triple_bind; [apply cov_createCow | by intros [] w].
Qed.

(** The image of a device stays the same when its file is replaced. *)
Lemma same_image vm info info' w : cov w -> fc_active w !! vm = Some info -> di_baseImagePath info' = di_baseImagePath info ->
  cov (set_active vm info' w).2.
Proof.
  intros [P C] Ha Hb. destruct w as [h v q b a st]. cbn in *. split; cbn; [exact P |]. intros p Hst.
  specialize (C p Hst). rewrite demand_None in *. cbn in *. rewrite <- insert_delete_eq, users_insert by apply lookup_delete_eq.
  rewrite (users_delete a vm info p Ha) in C. unfold on_image in *. by rewrite Hb.
Qed.
Lemma cov_reset vm cow : triple cov (ResetCoW vm cow) (fun _ => cov).
Proof.
  unfold ResetCoW. apply with_active. intros a. destruct (a !! vm) as [info|] eqn:Ha; [| by intros w []].
  apply with_base. intros b. destruct (b !! di_baseImagePath info) as [e|]; [| by intros w []].
  change (fun w => cov w /\ fc_active w = a) with (pinned a). do 5 host_pinned.
  destruct (snd _) as [err|]; [apply pinned_end; go_frame |].
  intros w [Hc <-]. unfold bind. eapply (same_image vm info) in Hc; [| done |]; cycle 1.
  - instantiate (1 := info <| di_cowLoopDev := _ |>). by destruct info.
  - exact Hc.
Qed.

(** Every operation of the provider keeps the counts. *)
#[export] Instance cov_guard : DevGuard (fun w w' : W => cov w -> cov w').
Proof.
  split.
  - split; [apply _ |]. intros A f w. apply cov_same. apply (hg_host (R := same_devices)).
  - intros; apply cov_createCow.
  - intros; apply cov_chain.
  - intros; apply cov_flattenChain.
  - intros; apply cov_remove.
  - intros; apply cov_reset.
Qed.
#[export] Instance cov_tables : TableGuard (fun w w' : W => cov w -> cov w').
Proof. split; [apply _ |]. intros h v p b a st v' p' [P C]. by split. Qed.

Section runs.
Context {FL : Float64} {FO : FloatOps} (config : Config) (netMgr : option NetworkManager).

Lemma cov_perform c : keeps (fun w w' : W => cov w -> cov w') (perform config netMgr c).
Proof. destruct c; cbn [perform]; unfold as_ok, Stop, StopPreserving; go_frame. Qed.
Lemma runs_cov w : runs config netMgr w -> cov w.
Proof.
  induction 1 as [h | w h Hw IH | w c Hw IH].
  - split; cbn; [by intros p e He |]. intros p _. rewrite demand_None. cbn. unfold users. rewrite map_filter_empty, map_size_empty. lia.
  - by apply (covered_same None w); [destruct w |].
  - by apply cov_perform.
Qed.

(** C35: After any calls of the provider with any failures, the base image of every device
    that it has is in its table, and the reference count is at least the number of devices
    on it: the count does not reach zero, where the manager detaches the image, while a
    device is on it. This holds for every image but those whose loop device was once found
    gone; such an image is counted afresh. *)
Theorem base_images_counted w vm info : runs config netMgr w -> fc_active w !! vm = Some info ->
  di_baseImagePath info ∈ fc_stale w \/
  exists e, fc_base w !! di_baseImagePath info = Some e /\ 0 < users (fc_active w) (di_baseImagePath info) <= ble_refCount e.
Proof.
  intros Hw%runs_cov Ha. pose proof (users_pos _ _ _ Ha) as Hu. destruct (decide (di_baseImagePath info ∈ fc_stale w)) as [|Hst]; [by left | right].
  destruct (cv_count _ _ Hw (di_baseImagePath info) Hst) as (e & He & Hle).
  - by rewrite demand_None.
  - exists e. split; [done |]. by rewrite demand_None in Hle.
Qed.
End runs.
End inv.
