(* ===== verification/FcSample.v ===== *)
(** * A host for examples

    Files, loop devices and device-mapper tables in memory: a concrete host of the
    Firecracker provider, on which its operations run, and which keeps to everything the
    theorems assume of a host. *)

From S2P Require Import Prelude Exception Naming GoLib Domain World PgRepo IPAlloc Interfaces Hoare Json ExecProtocol GuestRPC CIDAlloc SparseMem.
From S2P Require Import RepoFacts Metrics FcHost NetIP FcNetwork DmSnapshot Provider FcFrames ProviderSpec DmSpec DmInv.

Local Open Scope go_scope.

(** ** State *)

(** A file as its first bytes and the number of zeros after them. *)
Record SFile := { sf_bytes : list Z; sf_zeros : Z }.
Definition expand (f : SFile) : list Z := sf_bytes f ++ replicate (Z.to_nat (sf_zeros f)) 0.
Definition sf_len (f : SFile) : Z := Z.of_nat (length (sf_bytes f)).
Definition sf_size (f : SFile) : Z := sf_len f + Z.max 0 (sf_zeros f).
Definition plain_file (l : list Z) : SFile := {| sf_bytes := l; sf_zeros := 0 |}.
Definition sf_resize (n : Z) (f : SFile) : SFile :=
  if bool_decide (sf_len f <= n) then {| sf_bytes := sf_bytes f; sf_zeros := n - sf_len f |}
  else plain_file (take (Z.to_nat n) (sf_bytes f)).

Lemma expand_plain l : expand (plain_file l) = l.
Proof. unfold expand. cbn. apply app_nil_r. Qed.
Lemma expand_length f : Z.of_nat (length (expand f)) = sf_size f.
Proof. unfold expand, sf_size, sf_len. rewrite length_app, length_replicate. lia. Qed.
Lemma expand_resize n f : expand (sf_resize n f) = resized n (expand f).
Proof.
  destruct f as [l z]. unfold sf_resize, resized, sf_len. cbn [sf_bytes sf_zeros].
  case_bool_decide as Hn; unfold expand; cbn [sf_bytes sf_zeros plain_file].
  - rewrite length_app, length_replicate, take_app_ge, <- app_assoc by lia. f_equal. rewrite take_replicate, <- replicate_add. f_equal. lia.
  - rewrite length_app, take_app_le by lia. f_equal. f_equal. cbn. lia.
Qed.

Record SampleHost := {
  sh_time : Z;
  sh_files : gmap string SFile; sh_loops : gmap string LoopDev; sh_dms : gmap string DmTable;
  sh_loaded : gmap string DmTable;
  sh_loop : Z;                                   (* the number of the next loop device *)
  sh_cids : gmap string string;                  (* the guest.cid of each directory *)
  sh_machines : Z; sh_states : gmap Z string }.  (* the machines made, and their state *)

Definition in_dir (p : string) : string := List.nth 1 (rev (split_on slash p)) "".
Definition file_name (p : string) : string := List.last (split_on slash p) "".
Definition enoent : error := EText "file does not exist".
Definition done_ok (h : SampleHost) : res unit * SampleHost := (Ok tt, h).

Definition sample_blocks (h : SampleHost) : Blocks := {|
  bk_files := expand <$> sh_files h;
  bk_loops := filter (fun kv => negb (has_prefix "/dev/mapper/" kv.1) = true) (sh_loops h);
  bk_dms := sh_dms h; bk_loaded := sh_loaded h |}.

(** An exception is a byte other than zero. *)
Fixpoint sample_view (l c : list Z) : list Z :=
  match l, c with
  | x :: l, y :: c => (if bool_decide (y = 0) then x else y) :: sample_view l c
  | _, _ => l
  end.
Lemma sample_view_length l c : length (sample_view l c) = length l.
Proof. revert c. induction l as [|x l IH]; intros [|y c]; cbn; [done.. | by rewrite IH]. Qed.
Lemma sample_view_empty l n : sample_view l (replicate n 0) = l.
Proof. revert n. induction l as [|x l IH]; intros [|n]; cbn; [done.. | by rewrite IH]. Qed.

(** The first sectors of something that has them. *)
Definition first_sectors (n : Z) (size : nat) (l : list Z) : option (list Z) :=
  if bool_decide (0 <= n) && bool_decide (bytes_of n <= size)%nat then Some (take (bytes_of n) l) else None.
(** What a device shows, through at most [n] layers. *)
Fixpoint device_bytes (n : nat) (b : Blocks) (d : string) : option (list Z) :=
  match n with
  | O => None
  | S n =>
      match bk_loops b !! d with
      | Some lp => l ← bk_files b !! lp_file lp; first_sectors (lp_sectors lp) (length l) l
      | None =>
          let name := drop_str 12 d in
          if bool_decide (mapper name = d) then
            match bk_dms b !! name with
            | Some t =>
                lo ← device_bytes n b (dt_origin t); lc ← device_bytes n b (dt_cow t);
                first_sectors (dt_sectors t) (length lo) (sample_view lo lc)
            | None => None
            end
          else None
      end
  end.
Lemma first_sectors_inv n size l l' : first_sectors n size l = Some l' -> 0 <= n /\ (bytes_of n <= size)%nat /\ l' = take (bytes_of n) l.
Proof. unfold first_sectors. destruct (_ && _) eqn:E; [| done]. intros [= <-]. by apply andb_true_iff in E as [?%bool_decide_eq_true ?%bool_decide_eq_true]. Qed.
Lemma device_bytes_shows n b d l : device_bytes n b d = Some l -> shows sample_view b d l.
Proof.
  revert d l. induction n as [|n IH]; intros d l; cbn -[drop_str mapper]; [done |]. destruct (bk_loops b !! d) as [lp|] eqn:El.
  { intros (l0 & Hf & (Hn & Hs & ->)%first_sectors_inv)%bind_Some. by apply shows_loop. }
  case_bool_decide as Hd; [| done]. destruct (bk_dms b !! drop_str 12 d) as [t|] eqn:Ed; [| done].
  intros (lo & Ho & (lc & Hc & (Hn & Hs & ->)%first_sectors_inv)%bind_Some)%bind_Some. rewrite <- Hd. apply shows_dm; [done | by apply IH.. | done | done].
Qed.
Lemma device_bytes_complete b d l : shows sample_view b d l -> (forall name, bk_loops b !! mapper name = None) ->
  exists n, forall m, (n <= m)%nat -> device_bytes m b d = Some l.
Proof.
  intros Hs Hm.
  assert (Hfirst : forall n size (l : list Z), 0 <= n -> (bytes_of n <= size)%nat -> first_sectors n size l = Some (take (bytes_of n) l)).
  { intros. unfold first_sectors. by rewrite !bool_decide_eq_true_2. }
  induction Hs as [d lp l Hl Hf Hp Hn | name t lo lc Hd _ (n1 & IHo) _ (n2 & IHc) Hp Hn].
  - exists 1%nat. intros [|m] Hle; [lia |]. cbn -[drop_str mapper]. rewrite Hl, Hf. cbn. by apply Hfirst.
  - exists (S (Nat.max n1 n2)). intros [|m] Hle; [lia |]. cbn -[drop_str mapper]. rewrite Hm.
    assert (drop_str 12 (mapper name) = name) as -> by done. rewrite bool_decide_eq_true_2 by done. rewrite Hd.
    rewrite IHo, IHc by lia. cbn. by apply Hfirst.
Qed.

Lemma sample_unmapped h name : bk_loops (sample_blocks h) !! mapper name = None.
Proof. cbn. rewrite map_lookup_filter_None. right. by intros x _. Qed.
Lemma device_bytes_only n h d l l' : device_bytes n (sample_blocks h) d = Some l -> shows sample_view (sample_blocks h) d l' -> l = l'.
Proof.
  intros Hl%device_bytes_shows Hl'.
  destruct (device_bytes_complete _ _ _ Hl (sample_unmapped h)) as (m & Hm), (device_bytes_complete _ _ _ Hl' (sample_unmapped h)) as (m' & Hm').
  specialize (Hm (Nat.max m m') ltac:(lia)). specialize (Hm' (Nat.max m m') ltac:(lia)). congruence.
Qed.

(** ** Calls *)

Definition dev_name (n : Z) : string := "/dev/loop" +:+ fmt_d n.
Definition s_attach (p : string) (h : SampleHost) : (string * option error) * SampleHost :=
  let d := dev_name (sh_loop h) in
  match sh_files h !! p with
  | Some f =>
      if bool_decide (sh_loops h !! d = None) && plain d && bool_decide (parseLoopDev (d +:+ str1 (chr 10)) = d)
      then ((d +:+ str1 (chr 10), None),
            h <| sh_loops := <[d := {| lp_file := p; lp_sectors := sf_size f / 512 |}]> (sh_loops h) |> <| sh_loop := sh_loop h + 1 |>)
      else (("", Some enoent), h)
  | None => (("", Some enoent), h)
  end.
(** A device of a table stays until the table goes. *)
Definition busy (h : SampleHost) (d : string) : bool :=
  existsb (fun kv => bool_decide (d = dt_origin kv.2) || bool_decide (d = dt_cow kv.2)) (map_to_list (sh_dms h)).
Definition s_detach (d : string) (h : SampleHost) : (string * option error) * SampleHost :=
  if busy h d then (("busy", Some (EText "exit status 1")), h) else (("", None), h <| sh_loops := delete d (sh_loops h) |>).
Definition s_create (name t : string) (h : SampleHost) : (string * option error) * SampleHost :=
  match parse_table t, sh_dms h !! name with
  | Some tb, None => (("", None), h <| sh_dms := <[name := tb]> (sh_dms h) |>)
  | _, _ => (("Device or resource busy", Some (EText "exit status 1")), h)
  end.
Definition s_reload (name t : string) (h : SampleHost) : (string * option error) * SampleHost :=
  match parse_table t with
  | Some tb => (("", None), h <| sh_loaded := <[name := tb]> (sh_loaded h) |>)
  | None => (("Invalid argument", Some (EText "exit status 1")), h)
  end.
Definition s_resume (name : string) (h : SampleHost) : (string * option error) * SampleHost :=
  (("", None), match sh_loaded h !! name with
               | Some tb => h <| sh_dms := <[name := tb]> (sh_dms h) |> <| sh_loaded := delete name (sh_loaded h) |>
               | None => h
               end).
Definition s_remove (name : string) (h : SampleHost) : (string * option error) * SampleHost :=
  (("", None), h <| sh_dms := delete name (sh_dms h) |>).

(** Other commands succeed and change none of this. *)
Definition s_command (argv : list string) (h : SampleHost) : (string * option error) * SampleHost :=
  let same a b := bool_decide (a = b) in
  match argv with
  | [a; b; c; p] => if same a "losetup" then s_attach p h else if same a "dmsetup" then s_remove p h else (("", None), h)
  | [a; b; c; d; p] => if same a "losetup" then s_attach p h
                       else if same a "dmsetup" then (if same b "create" then s_create c p h else s_reload c p h) else (("", None), h)
  | [a; b; c] => if same a "losetup" then s_detach c h
                 else if same a "dmsetup" && same b "resume" then s_resume c h else (("", None), h)
  | _ => (("", None), h)
  end.

Definition s_stat (p : string) (h : SampleHost) : res FileInfo * SampleHost :=
  (match sh_files h !! p with
   | Some f => Ok {| fi_Size := sf_size f; fi_Perm := 493 |}
   | None => if has_prefix "/dev/" p then Ok {| fi_Size := 0; fi_Perm := 384 |} else Err enoent
   end, h).
Definition s_set_state (m : Z) (s : string) (h : SampleHost) : res unit * SampleHost :=
  done_ok (h <| sh_states := <[m := s]> (sh_states h) |>).

#[export] Instance sample_host : FcHost SampleHost := {|
  ho_Now h := (sh_time h, h);
  ho_Sleep d h := (tt, h <| sh_time := sh_time h + Z.max 0 d |>);
  ho_MkdirAll _ h := done_ok h; ho_RemoveAll _ h := done_ok h;
  ho_Remove p h := done_ok (if bool_decide (file_name p = "guest.cid") then h <| sh_cids := delete (in_dir p) (sh_cids h) |> else h);
  ho_Stat := s_stat; ho_not_exist e := bool_decide (Error e = Error enoent);
  ho_Blocks p h := (match sh_files h !! p with Some f => Ok (sf_len f / 512) | None => Err enoent end, h);
  ho_Open p h := done_ok h;
  ho_OpenFile p h := done_ok (h <| sh_files := <[p := plain_file []]> (sh_files h) |>);
  ho_Truncate p n h := done_ok (h <| sh_files := alter (sf_resize n) p (sh_files h) |>);
  ho_CopyBytes d s h := match sh_files h !! s with
                        | Some f => done_ok (h <| sh_files := <[d := f]> (sh_files h) |>)
                        | None => (Err enoent, h)
                        end;
  ho_Sync _ h := done_ok h; ho_Close _ h := done_ok h;
  ho_ReadFile p h := (Err enoent, h);
  ho_WriteFile p c h := done_ok (if bool_decide (file_name p = "guest.cid") then h <| sh_cids := <[in_dir p := c]> (sh_cids h) |> else h);
  ho_ReadDir _ h := (Ok ((fun c => VMDirectory (Some c)) <$> sh_cids h), h);
  ho_BLKGETSIZE64 d h :=
    (if bool_decide (sh_loops h !! d = None) && negb (has_prefix "/dev/mapper/" d) then Err enoent
     else match device_bytes 8 (sample_blocks h) d with Some l => Ok (Z.of_nat (length l)) | None => Err enoent end, h);
  ho_ReadDevice d h := (match device_bytes 8 (sample_blocks h) d with
                        | Some l => Ok ({| d_file := dense l; d_seekable := false |}, fun _ => 4096%nat)
                        | None => Err enoent
                        end, h);
  ho_PutFile p f h := done_ok (h <| sh_files := <[p := plain_file (f_bytes f)]> (sh_files h) |>);
  ho_Command _ argv h := s_command argv h;
  ho_LookPath p h := (Ok ("/usr/bin/" +:+ p), h);
  ho_DialTCP _ _ h := (None, h);
  ho_DialUnix _ _ h := (None, h); ho_WriteConn _ h := (None, h); ho_ReadConn h := ("", h); ho_DeadlineExceeded h := (false, h);
  sdk_NewMachine _ _ h := (Ok (sh_machines h), h <| sh_machines := sh_machines h + 1 |>);
  sdk_Start m h := s_set_state m StateRunning h;
  sdk_Cancel m h := (tt, h <| sh_states := delete m (sh_states h) |>);
  sdk_Shutdown _ h := done_ok h; sdk_Wait _ _ h := done_ok h; sdk_context_error _ := false;
  sdk_StopVMM m h := done_ok (h <| sh_states := delete m (sh_states h) |>);
  sdk_PauseVM m h := s_set_state m StatePaused h; sdk_ResumeVM m h := s_set_state m StateRunning h;
  sdk_CreateSnapshot _ _ _ _ h := done_ok h;
  sdk_PID m h := (Ok (1000 + m), h);
  sdk_InstanceState m h := (Ok (sh_states h !! m), h);
  ho_Signal0 _ h := (None, h) |}.

(** ** It keeps to what the theorems assume *)

Lemma s_attach_inv p h out h' : s_attach p h = ((out, None), h') ->
  parseLoopDev out = dev_name (sh_loop h) /\ sh_loops h !! dev_name (sh_loop h) = None /\ plain (dev_name (sh_loop h)) = true /\
  exists f, sh_files h !! p = Some f /\
  h' = h <| sh_loops := <[dev_name (sh_loop h) := {| lp_file := p; lp_sectors := sf_size f / 512 |}]> (sh_loops h) |> <| sh_loop := sh_loop h + 1 |>.
Proof.
  unfold s_attach. destruct (sh_files h !! p) as [f|]; [| done]. destruct (_ && _) eqn:E; [| done]. intros [= <- <-].
  repeat (apply andb_true_iff in E as [E ?%bool_decide_eq_true] || apply andb_true_iff in E as [E ?]).
  apply bool_decide_eq_true in E. split_and!; [done.. | by exists f].
Qed.
Lemma dev_not_mapper n : negb (has_prefix "/dev/mapper/" (dev_name n)) = true.
Proof. unfold dev_name. cbn. done. Qed.
Lemma mapper_prefix name : has_prefix "/dev/mapper/" (mapper name) = true.
Proof. apply has_prefix_app. Qed.

#[export] Program Instance sample_clock : ClockLaws SampleHost := {| clock := sh_time |}.
Next Obligation. intros h. cbn. done. Qed.
Next Obligation. intros d [] . cbn. lia. Qed.
Next Obligation. intros a d h. cbn. done. Qed.

Lemma freed_same b : freed b b.
Proof. by split_and!. Qed.
Lemma detach_blocks d h x h' : s_detach d h = (x, h') ->
  sample_blocks h' = sample_blocks h \/ sample_blocks h' = (sample_blocks h) <| bk_loops := delete d (bk_loops (sample_blocks h)) |>.
Proof.
  unfold s_detach. destruct (busy h d); intros [= _ <-]; [by left | right]. destruct h. unfold sample_blocks. cbn. by rewrite map_filter_delete.
Qed.
Lemma attach_blocks p h out h' : s_attach p h = ((out, None), h') -> let d := parseLoopDev out in
  bk_loops (sample_blocks h) !! d = None /\ plain d = true /\ d <> "" /\
  exists l, bk_files (sample_blocks h) !! p = Some l /\
    sample_blocks h' = (sample_blocks h) <| bk_loops := <[d := loop_on p l]> (bk_loops (sample_blocks h)) |>.
Proof.
  intros (E & Hn & Hp & f & Hf & ->)%s_attach_inv. cbv zeta. rewrite E. destruct h. cbn in *. split_and!; [| done | done |].
  - rewrite map_lookup_filter_None. by left.
  - exists (expand f). rewrite lookup_fmap, Hf. split; [done |]. unfold sample_blocks, loop_on, sectors_of. rewrite expand_length. cbn.
    rewrite map_filter_insert_True; [done | apply (dev_not_mapper sh_loop0)].
Qed.

#[export] Instance sample_laws : BlockLaws SampleHost.
Proof.
  refine {| blk := sample_blocks; cow_view := sample_view |}.
  - apply sample_view_empty.
  - apply sample_view_length.
  - apply sample_unmapped.
  - intros h argv p out h' [-> | ->]; apply attach_blocks.
  - intros h d x h'. apply detach_blocks.
  - intros h name t out h'. cbn. unfold s_create. destruct (parse_table t) as [tb|]; [| done]. destruct (sh_dms h !! name) eqn:E; [done |].
    intros [= _ <-]. exists tb. destruct h. by split_and!.
  - intros h name t out h'. cbn. unfold s_reload. destruct (parse_table t) as [tb|]; [| done].
    intros [= _ <-]. exists tb. destruct h. by split_and!.
  - intros h name out h' [= _ <-]. cbn. destruct h. cbn. destruct (_ !! name); apply freed_same.
  - intros h name x h' [= _ <-]. done.
  - intros h name x h' [= _ <-]. right. destruct h. apply freed_same.
  - intros h x h' [= _ <-]. done.
  - intros h p r h'. cbn. unfold s_stat. intros [= <- <-]. split; [done |]. intros info l. cbn. rewrite lookup_fmap.
    destruct (sh_files h !! p) as [f|]; [| done]. intros [= <-] [= <-]. by rewrite expand_length.
  - intros h p r h' [= _ <-]. done.
  - intros h p r h' [= _ <-]. done.
  - intros h p h' [= <-]. destruct h. unfold sample_blocks. cbn. by rewrite fmap_insert, expand_plain.
  - intros h p n h' [= <-]. destruct h. unfold sample_blocks. cbn. f_equal. apply map_eq. intros q. rewrite lookup_fmap.
    destruct (decide (q = p)) as [->|Hne]; [rewrite !lookup_alter_eq, lookup_fmap; destruct (_ !! p); cbn; [by rewrite expand_resize | done]
                                           | by rewrite !lookup_alter_ne, lookup_fmap].
  - intros h p f h' [= <-]. destruct h. unfold sample_blocks. cbn. by rewrite fmap_insert, expand_plain.
  - intros h d n h'. cbn -[device_bytes has_prefix]. destruct (_ && _); [done |]. destruct (device_bytes 8 (sample_blocks h) d) as [l|] eqn:E; intros [= <- <-]. split; [done |]. intros l' Hl'. by rewrite (device_bytes_only 8 h d l l').
  - intros h d dev reads h'. cbn -[device_bytes]. destruct (device_bytes 8 (sample_blocks h) d) as [l|] eqn:E; intros [= <- _ <-]. split_and!; [done | | intros l'; by apply (device_bytes_only 8)].
    split; cbn; [by rewrite length_replicate |]. by intros i [? _]%lookup_replicate.
Defined.

(** ** Runs *)

#[export] Instance float_by_Z : Float64 := {| float64 := Z; float_zero := 0; float_json := fmt_d; float_0f := fmt_d |}.
#[export] Instance float_Z_ops : FloatOps := {|
  float_of_Z z := z; float_div := Z.quot; float_mul := Z.mul; float_lt a b := bool_decide (a < b) |}.

Definition sample_config : Config := (DefaultConfig (fun _ => "")) <| cf_ExecEnabled := true |>.
Definition sample_vm (id : string) : CreateSpec := {|
  cs_InstanceID := id; cs_EnvironmentID := "env"; cs_ImagePath := "/images/base.ext4";
  cs_Resources := {| rl_VCPU := 1; rl_MemoryMB := 512; rl_DiskMB := 0 |};
  cs_Workspace := {| wc_ConversationID := ""; wc_SizeGB := 0 |};
  cs_Runtime := DefaultRuntimeConfig <| rc_Network := no_network |> <| rc_EnableDiffSnapshots := true |>;
  cs_RestoreAsFull := false; cs_CowChainPaths := []; cs_DiskImagePath := "" |}.
(** Files of one sector. *)
Definition sector (l : list Z) : SFile := {| sf_bytes := l; sf_zeros := 512 - Z.of_nat (length l) |}.
Definition sample_start : SampleHost := {|
  sh_time := 0; sh_files := {[ "/images/base.ext4" := sector [1; 2; 3; 4] ]}; sh_loops := ∅; sh_dms := ∅; sh_loaded := ∅;
  sh_loop := 0; sh_cids := ∅; sh_machines := 1; sh_states := ∅ |}.
Definition sample_new : Fc SampleHost := {| fc_host := sample_start; fc_vms := ∅; fc_prev := ∅; fc_base := ∅; fc_active := ∅; fc_stale := ∅ |}.
Abbreviation call := (perform sample_config None).
Definition with_a : Fc SampleHost := (call (CallCreate (sample_vm "a")) sample_new).2.
Definition with_ab : Fc SampleHost := (call (CallCreate (sample_vm "b")) with_a).2.
Lemma sample_runs : runs sample_config None with_ab.
Proof. do 2 apply runs_call. apply runs_new. Qed.

Ltac calc := vm_compute; reflexivity.

Lemma running_cids_distinct_witness : exists u v, vm_instances with_ab !! "a" = Some u /\ vm_instances with_ab !! "b" = Some v /\
  vi_GuestCID u <> vi_GuestCID v.
Proof.
  eexists _, _. split; [calc |]. split; [calc |]. intros E.
  assert (Hd : "a" = "b"); [| discriminate Hd].
  eapply (running_cids_distinct sample_config None with_ab eq_refl sample_runs "a" "b"); [calc | calc | exact E].
Defined.

Lemma base_images_counted_witness : fc_stale with_ab = ∅ /\
  exists e, fc_base with_ab !! "/images/base.ext4" = Some e /\ 0 < users (fc_active with_ab) "/images/base.ext4" <= ble_refCount e.
Proof.
  assert (Ha : exists info, fc_active with_ab !! "a" = Some info /\ di_baseImagePath info = "/images/base.ext4") by (eexists; split; calc).
  assert (Hst : fc_stale with_ab = ∅) by calc. destruct Ha as (info & Ha & <-). split; [exact Hst |].
  destruct (base_images_counted sample_config None with_ab "a" info sample_runs Ha) as [Hx | He]; [| exact He].
  exfalso. rewrite Hst in Hx. revert Hx. apply not_elem_of_empty.
Defined.

(** The files of a chain: an exception in the second byte, and one in the third. *)
Definition sample_chain : Fc SampleHost :=
  sample_new <| fc_host := sample_start <| sh_files := {[ "/images/base.ext4" := sector [1; 2; 3; 4]; "/snaps/1" := sector [0; 9; 0; 0];
                                                        "/snaps/2" := sector [0; 8; 7; 0] ]} |> |>.
Definition stacked : res string * Fc SampleHost := ReconstructChainDevice "a" "/images/base.ext4" ["/snaps/1"; "/snaps/2"] sample_chain.
Lemma sample_base_ok w base : fc_base w !! base = None -> base_ok (w : Fc SampleHost) base.
Proof. intros Hn e He. congruence. Qed.

Lemma chain_shows_overlay_witness : shows sample_view (sample_blocks (fc_host stacked.2)) "/dev/mapper/vm_a" (expand (sector [1; 8; 7; 4])).
Proof.
  exact (proj2 (chain_shows_overlay "a" "/images/base.ext4" ["/snaps/1"; "/snaps/2"] sample_chain "/dev/mapper/vm_a" stacked.2 (expand (sector [1; 2; 3; 4]))
    (expand <$> [sector [0; 9; 0; 0]; sector [0; 8; 7; 0]]) ltac:(calc) ltac:(calc) (sample_base_ok sample_chain "/images/base.ext4" ltac:(calc)) ltac:(calc)
    ltac:(repeat constructor; calc) ltac:(calc))).
Defined.

Definition merged_path : string := "/vms/a/merged.img".
Definition flattened : res (string * string) * Fc SampleHost := FlattenChainDevice "a" merged_path stacked.2.
Definition merged_info : vmDeviceInfo := default {| di_dmPath := ""; di_baseImagePath := ""; di_cowLoopDev := ""; di_layers := [] |} (fc_active stacked.2 !! "a").
Lemma no_loop_on (w : Fc SampleHost) p : forallb (fun kv => negb (bool_decide (lp_file kv.2 = p))) (map_to_list (sh_loops (fc_host w))) = true ->
  forall d lp, bk_loops (sample_blocks (fc_host w)) !! d = Some lp -> lp_file lp <> p.
Proof.
  intros Hf d lp [Hd _]%map_lookup_filter_Some Hp. rewrite forallb_forall in Hf. specialize (Hf (d, lp)). cbn in Hf.
  rewrite bool_decide_eq_true_2 in Hf by done. assert (false = true); [| done]. apply Hf, list_elem_of_In, elem_of_map_to_list, Hd.
Qed.

Lemma stacked_shows : shows sample_view (sample_blocks (fc_host stacked.2)) "/dev/mapper/vm_a" (expand (sector [1; 8; 7; 4])).
Proof. apply (device_bytes_shows 8). calc. Qed.
Lemma stacked_free d lp : bk_loops (sample_blocks (fc_host stacked.2)) !! d = Some lp -> lp_file lp <> merged_path.
Proof. revert d lp. apply no_loop_on. calc. Qed.
Lemma flattened_ok : flattened = (Ok ("/dev/mapper/vm_a", "/vms/a/cow.img"), flattened.2).
Proof. calc. Qed.
Lemma merged_active : fc_active stacked.2 !! "a" = Some merged_info.
Proof. calc. Qed.

Lemma flatten_keeps_contents_witness : shows sample_view (sample_blocks (fc_host flattened.2)) "/dev/mapper/vm_a" (expand (sector [1; 8; 7; 4])).
Proof.
  exact (proj1 (flatten_keeps_contents "a" merged_path stacked.2 "/dev/mapper/vm_a" "/vms/a/cow.img" flattened.2 merged_info (expand (sector [1; 8; 7; 4]))
    eq_refl merged_active stacked_shows stacked_free ltac:(calc) ltac:(done) flattened_ok)).
Defined.

(** Looking up without expanding the files. *)
Lemma loop_at h d lp : sh_loops h !! d = Some lp -> negb (has_prefix "/dev/mapper/" d) = true -> bk_loops (sample_blocks h) !! d = Some lp.
Proof. intros Hd Hn. by apply map_lookup_filter_Some. Qed.
Lemma file_at h p f : sh_files h !! p = Some f -> bk_files (sample_blocks h) !! p = Some (expand f).
Proof. intros Hf. cbn. by rewrite lookup_fmap, Hf. Qed.

Definition a_info : vmDeviceInfo :=
  {| di_dmPath := "/dev/mapper/vm_a"; di_baseImagePath := "/images/base.ext4"; di_cowLoopDev := "/dev/loop1"; di_layers := [] |}.
Definition a_base : baseLoopEntry := {| ble_loopDev := "/dev/loop0"; ble_refCount := 1 |}.
Definition suspended : res unit * Fc SampleHost := SuspendDevice "a" with_a.
Definition was_reset : res unit * Fc SampleHost := ResetCoW "a" "/vms/a/cow2.img" suspended.2.
Definition resumed : res unit * Fc SampleHost := ResumeDevice "a" was_reset.2.
Lemma a_based : base_ok with_a "/images/base.ext4".
Proof.
  intros e He. assert (Some a_base = Some e) as [= <-] by (rewrite <- He; calc). split; [calc |].
  intros l Hl. assert (l = expand (sector [1; 2; 3; 4])) as ->.
  { assert (Some l = Some (expand (sector [1; 2; 3; 4]))) as [= ->]; [| done]. rewrite <- Hl. apply file_at. calc. }
  apply (loop_at (fc_host with_a)); calc.
Qed.

Lemma reset_shows_base_witness : shows sample_view (sample_blocks (fc_host resumed.2)) "/dev/mapper/vm_a" (whole_sectors (expand (sector [1; 2; 3; 4]))).
Proof.
  exact (reset_shows_base "a" "/vms/a/cow2.img" with_a suspended.2 was_reset.2 resumed.2 a_info a_base (expand (sector [1; 2; 3; 4])) eq_refl
    ltac:(calc) ltac:(calc) a_based ltac:(done) ltac:(done) (file_at (fc_host with_a) "/images/base.ext4" (sector [1; 2; 3; 4]) ltac:(calc))
    ltac:(calc) ltac:(calc) ltac:(calc)).
Defined.

Definition sample_net : NetworkManager := {|
  nm_cfg := no_NetworkCfg <| nw_DNSIP := "10.0.0.1" |>; nm_outbound := "eth0"; nm_mask := "255.255.255.0" |}.
Lemma EnsureDNSReady_ends_witness : exists r, (EnsureDNSReady sample_net (5 * second) sample_new).1 = r /\ (r = Ok tt \/ exists e, r = Err e).
Proof.
  eexists. split; [reflexivity |]. destruct (EnsureDNSReady_ends sample_net (5 * second) sample_new ltac:(done)) as [E | (addr & e & E)].
  - by left.
  - right. by eexists.
Defined.

(** ** What the code does not do *)

(** A stopped VM keeps its device, so a later restore of the VM from another disk image or
    chain gets the device with the old contents. *)
Lemma stopped_keeps_device : (call (CallStopPreserving "a") with_a).1 = Ok "" /\ fc_active (call (CallStopPreserving "a") with_a).2 !! "a" = Some a_info.
Proof. split; calc. Qed.

(** When the disk cannot be captured, the snapshot fails and the VM stays paused: a full
    snapshot of a VM without a device always ends this way. *)
Definition plain_vm : CreateSpec := (sample_vm "p") <| cs_Runtime := (cs_Runtime (sample_vm "p")) <| rc_EnableDiffSnapshots := false |> |>.
Definition with_plain : Fc SampleHost := (call (CallCreate plain_vm) sample_new).2.
Lemma failed_snapshot_stays_paused :
  sh_states (fc_host with_plain) !! 1 = Some StateRunning /\
  is_Ok (call (CallCreateSnapshot "p" true) with_plain).1 = false /\
  sh_states (fc_host (call (CallCreateSnapshot "p" true) with_plain).2) !! 1 = Some StatePaused.
Proof. split_and!; calc. Qed.

(** A CPU sample that is older than the process: the difference wraps around. *)
Lemma cpu_after_restart : cpu_percent (Some {| cpu_procTicks := 100; cpu_totalTicks := 1000; cpu_time := 0 |}) 1 2000 = (2 ^ 64 - 99) / 1000 * 100.
Proof. calc. Qed.
