(* ===== verification/Gemini.v ===== *)
(** * The planner over a language model: src/infrastructure/llm/gemini

    planner.go, convert.go and config.go. The planner turns the conversation into the
    contents of a request, its tools into declarations, and the answer of the model into a
    plan; it also writes titles. The client of the model (GenerateContent of the genai SDK,
    and Text of its response) is the class [GenaiClient] over an abstract world. *)

From S2P Require Import Prelude Exception Naming GoLib Domain World Json Encoding Http Orchestrator Chat EventHub ChatService Tools.

Local Open Scope go_scope.

(** ** Strings and runes *)

(** [strings.Replace(s, old, new, 1)] *)
Fixpoint replace_first (s old new : string) : string :=
  if has_prefix old s then new +:+ drop_str (str_len old) s
  else match s with EmptyString => EmptyString | String c t => String c (replace_first t old new) end.

Definition in_set (cutset : string) (c : ascii) : bool := contains cutset (str1 c).
Fixpoint trim_left_set (cutset s : string) : string :=
  match s with EmptyString => EmptyString | String c t => if in_set cutset c then trim_left_set cutset t else s end.
(** [strings.TrimRight] for a cutset of ASCII characters *)
Fixpoint trim_right_set (cutset s : string) : string :=
  match s with
  | EmptyString => EmptyString
  | String c t => match trim_right_set cutset t with
                  | EmptyString => if in_set cutset c then EmptyString else str1 c
                  | t' => String c t'
                  end
  end.
Definition strings_Trim (cutset s : string) : string := trim_right_set cutset (trim_left_set cutset s).

(** [[]rune(s)], each rune as its encoding; a byte that starts no rune is U+FFFD. *)
Fixpoint runes_fuel (n : nat) (s : string) : list string :=
  match n, s with
  | O, _ | _, EmptyString => []
  | S n', _ => match rune_len s with
               | O => rune_error :: runes_fuel n' (drop_str 1 s)
               | k => take_str k s :: runes_fuel n' (drop_str k s)
               end
  end.
Definition runes (s : string) : list string := runes_fuel (str_len s) s.
Definition of_runes (l : list string) : string := foldr String.append EmptyString l.

(** [time.Duration.String] *)
Definition duration_frac (v : Z) (prec : nat) : string :=
  let digits := trim_zeros (pad prec (v mod 10 ^ Z.of_nat prec)) in if bool_decide (digits = "") then "" else "." +:+ digits.
Definition duration_String (d : Z) : string :=
  let u := Z.abs d in
  let micro := str1 (chr 194) +:+ str1 (chr 181) in
  let body :=
    if bool_decide (u = 0) then "0s"
    else if bool_decide (u < 1000) then fmt_d u +:+ "ns"
    else if bool_decide (u < 1000000) then fmt_d (u / 1000) +:+ duration_frac u 3 +:+ micro +:+ "s"
    else if bool_decide (u < second) then fmt_d (u / 1000000) +:+ duration_frac u 6 +:+ "ms"
    else
      let secs := u / second in
      (if bool_decide (3600 <= secs) then fmt_d (secs / 3600) +:+ "h" else "") +:+
      (if bool_decide (60 <= secs) then fmt_d (secs / 60 mod 60) +:+ "m" else "") +:+
      fmt_d (secs mod 60) +:+ duration_frac u 9 +:+ "s" in
  if bool_decide (d < 0) then "-" +:+ body else body.
Example duration_minutes : duration_String (5 * minute + 1500000000) = "5m1.5s".
Proof. reflexivity. Qed.

(** ** Configuration (config.go) *)

Record Config := { APIKey : string; Model : string; MaxOutputTokens : Z; SystemPrompt : string; Timeout : Z }.

Definition DefaultConfig : Config := {|
  APIKey := ""; Model := "gemini-2.0-flash"; MaxOutputTokens := 4096; SystemPrompt := ""; Timeout := 60 * second |}.
Definition Config_Validate (c : Config) : option error :=
  if bool_decide (APIKey c = "") then Some (EText "gemini: api_key is required")
  else if bool_decide (Model c = "") then Some (EText "gemini: model is required")
  else if bool_decide (MaxOutputTokens c <= 0)
  then Some (EText ("gemini: max_output_tokens must be positive, got " +:+ fmt_d (MaxOutputTokens c)))
  else if bool_decide (Timeout c <= 0) || bool_decide (5 * minute < Timeout c)
  then Some (EText ("gemini: timeout must be between 0 and 5m, got " +:+ duration_String (Timeout c)))
  else None.

(** ** Requests and responses of the SDK *)

Record FunctionCall := { fn_Name : string; fn_Args : option Args }.
Record FunctionResponse := { fp_Name : string; fp_Response : Args }.
Record Part := {
  part_Text : string; part_Thought : bool; part_ThoughtSignature : string;
  part_Call : option FunctionCall; part_Response : option FunctionResponse }.
Record Content := { ct_Role : string; ct_Parts : list Part }.

Definition text_part (text : string) : Part :=
  {| part_Text := text; part_Thought := false; part_ThoughtSignature := ""; part_Call := None; part_Response := None |}.
Definition call_part (s : ToolPlanStep) : Part :=
  {| part_Text := ""; part_Thought := false; part_ThoughtSignature := ps_ThoughtSignature s;
     part_Call := Some {| fn_Name := ps_Name s; fn_Args := Some (ps_Arguments s) |}; part_Response := None |}.

Inductive GType := TypeString | TypeInteger | TypeNumber | TypeBoolean | TypeArray | TypeObject.
#[warnings="-register-all"]
Inductive Schema := Build_Schema {
  sc_Type : GType; sc_Description : string; sc_Items : option Schema; sc_Properties : list (string * Schema);
  sc_Required : list string; sc_PropertyOrdering : list string }.
Record FunctionDeclaration := { fd_Name : string; fd_Description : string; fd_Parameters : option Schema }.

Record GenConfig := {
  gc_Temperature : Z;                               (* in tenths *)
  gc_MaxOutputTokens : Z; gc_SystemInstruction : string; gc_Tools : option (list FunctionDeclaration) }.

Record Usage := {
  us_Prompt : Z; us_Candidates : Z; us_Total : Z; us_Cached : Z; us_Thoughts : Z; us_ToolUsePrompt : Z }.
(** The parts of the first candidate, if it has content. *)
Record Response := { rs_Parts : option (list Part); rs_Usage : option Usage }.

Class GenaiClient (W : Type) := {
  GenerateContent : string -> list Content -> GenConfig -> M W (res Response);
  response_Text : Response -> string }.

(** ** Conversion (convert.go) *)

Definition GenaiUser : string := "user".
Definition GenaiModel : string := "model".
Definition domainRoleToGenai (r : string) : string :=
  if bool_decide (r = RoleUser) then GenaiUser else if bool_decide (r = RoleAssistant) then GenaiModel else "".

(** A message joins the last content if that has its role. *)
Definition add_message (role text : string) (contents : list Content) : list Content :=
  match last contents with
  | Some c => if bool_decide (ct_Role c = role)
              then removelast contents ++ [{| ct_Role := ct_Role c; ct_Parts := ct_Parts c ++ [text_part text] |}]
              else contents ++ [{| ct_Role := role; ct_Parts := [text_part text] |}]
  | None => [{| ct_Role := role; ct_Parts := [text_part text] |}]
  end.
Definition convert_message (acc : list Content * list string) (msg : Message) : list Content * list string :=
  let '(contents, systemParts) := acc in
  if bool_decide (msg_Role msg = "system") then (contents, systemParts ++ [msg_Content msg])
  else let role := domainRoleToGenai (msg_Role msg) in
       if bool_decide (role = "") then acc else (add_message role (msg_Content msg) contents, systemParts).
Definition blank_line : string := str1 (chr 10) +:+ str1 (chr 10).
Definition convertHistory (messages : list Message) : list Content * string :=
  let '(contents, systemParts) := fold_left convert_message messages ([], []) in (contents, join blank_line systemParts).

Definition mapParamType (t : string) : GType :=
  if bool_decide (t = "string") then TypeString else if bool_decide (t = "integer") then TypeInteger
  else if bool_decide (t = "number") then TypeNumber else if bool_decide (t = "boolean") then TypeBoolean
  else if bool_decide (t = "array") then TypeArray else if bool_decide (t = "object") then TypeObject
  else TypeString.

(** A map is the list of its entries in the order in which the loop meets them. *)
Fixpoint convertParamSchema (p : ToolParameter) : Schema := {|
  sc_Type := mapParamType (p_Type p); sc_Description := p_Description p;
  sc_Items := match p_Items p with Some i => Some (convertParamSchema i) | None => None end;
  sc_Properties := map (fun kv => (kv.1, convertParamSchema kv.2)) (p_Properties p);
  sc_Required := []; sc_PropertyOrdering := [] |}.
Definition convertParams (params : list (string * ToolParameter)) : option Schema :=
  match params with
  | [] => None
  | _ => Some {| sc_Type := TypeObject; sc_Description := ""; sc_Items := None;
                 sc_Properties := map (fun kv => (kv.1, convertParamSchema kv.2)) params;
                 sc_Required := map fst (List.filter (fun kv => p_Required kv.2) params);
                 sc_PropertyOrdering := map fst params |}
  end.
Definition declaration (d : ToolDefinition) : FunctionDeclaration :=
  {| fd_Name := d_Name d; fd_Description := d_Description d; fd_Parameters := convertParams (d_Parameters d) |}.
Definition buildTools (defs : list ToolDefinition) : option (list FunctionDeclaration) :=
  match defs with [] => None | _ => Some (map declaration defs) end.

Definition toolResultToResponse (r : Result) : Args :=
  if res_OK r then match res_Payload r with VMap m => m | v => [("output", v)] end else [("error", VStr (res_Error r))].
Definition response_part (r : Result) (name : string) : Part :=
  {| part_Text := ""; part_Thought := false; part_ThoughtSignature := ""; part_Call := None;
     part_Response := Some {| fp_Name := name; fp_Response := toolResultToResponse r |} |}.

(** ** The system instruction *)

(** In the two prompts ~ stands for the quotation mark. *)
Definition quoted (s : string) : string := replace_byte (chr 126) (str1 (chr 34)) s.
Definition defaultSystemPrompt : string := quoted "You are an AI assistant with access to a secure microVM environment. You can create VMs, execute commands inside them, manage files, and orchestrate multi-VM workflows.

## Environment

Each VM is an isolated Firecracker microVM. Networking facts:

- Outbound internet works. Package managers (apt, pip, npm, bun, uv, apk) function normally — install packages on demand when the base image lacks something.
- Public ingress: a VM with a service port set is exposed at https://<vm-name>.box.spacetrek.xyz — Cloudflare Tunnel terminates TLS and forwards to http://<vm-ip>:<service-port> inside the VM. The hostname uses the VM's name (kebab-case, e.g. admiring-turing), NOT its vm_id UUID. When the user wants a public link to a server running in a VM, give them this URL. A VM with no service port is not exposed publicly.
- VMs in the same conversation CAN reach each other, by IP and by DNS name (<peer-name>.vm.internal). Use this for inter-VM calls in multi-tier apps (e.g. a bun frontend VM calling a uv backend VM); use the *.box.spacetrek.xyz URL only for browser/user-facing links.
- The init process is a vsock agent, not systemd. Long-running services do not auto-start; spawn them with nohup or & when needed.

The default working directory is /workspace. Read, write, and execute files under /workspace unless the user asks otherwise. /workspace persists across conversation resumes.

{{ENVIRONMENT_HINT}}

## Available Tools

- **vm.create** — Provision a new VM and assign it to this conversation. Requires an environment type:
  - **~uv~** — Python with uv package manager. Prefer for data science, scripting, ML, math, file processing, any Python task.
  - **~bun~** — Bun JS/TS runtime. Prefer for JavaScript/TypeScript, web dev, npm ecosystem work.
  - **~ubuntu~** — Generic Ubuntu shell. Use only when no language-specific environment fits.
  Pick the most specific environment that matches the task. Prefer ~uv~ over ~ubuntu~ for Python.
- **vm.start** — Resume a previously used VM from this conversation's history. Pass a vm_id to resume a specific VM.
- **vm.list** — List VMs assigned to this conversation.
- **vm.execute_command** — Run a shell command inside a running VM. Requires vm_id and command. Main workhorse for doing actual work.
- **vm.write_file** — Write a file inside a VM. Server-side verified; do not re-read to confirm.
- **vm.edit_file** — Apply targeted edits to an existing file. Server-side verified; do not re-read to confirm.
- **vm.read_file** — Read a file's contents from a VM.
- **vm.stop** — Stop a VM and release it from the conversation.
- **vm.snapshot** — Snapshot a VM's state for later restore.
- **memory.set** — Persist a small value (≤4 KB) under a chat-scoped key. **Survives VM snapshot/resume cycles within the same chat** — the next user turn sees what this turn wrote, even after an idle gap. Use it for pointers, intentions, and partial plans: ~what files exist~, ~what was installed~, ~which VM hosts which service~. Keys must match [a-z0-9_:-]{1,64}. Bulk data belongs in /workspace, not here.
- **memory.get** — Read a value previously stored with memory.set. Missing keys return an empty value (no error). Check memory.list first when you do not remember what was stored.
- **memory.delete** — Remove a key. Errors if the key does not exist.
- **memory.list** — Returns every key/value pair currently stored for this chat. Call this at the start of a multi-step turn to reuse prior observations instead of re-querying the VM.
- **plan.announce** — Publish a multi-step plan the user sees via SSE before you start executing. Use it whenever the task needs 2+ sequential steps — the user can redirect early by sending another message. Non-blocking: the orchestrator continues executing after announcing.

## Current VMs in this conversation

{{VM_INVENTORY}}

## Workflow

You receive a conversation history that may include prior tool calls and their results from earlier steps in this turn. Use that context — do NOT re-query state you already have.

You have a maximum of 10 ReAct steps per turn. Spend them deliberately.

1. **Check memory first**: At the start of a turn, call memory.list to recall pointers stored in earlier turns (file paths, installed packages, VM-to-service mappings, partial plans). This avoids burning a step rediscovering what was already observed. Store new observations with memory.set as you make them.
2. **Announce multi-step plans**: When the task needs 2+ sequential steps, call plan.announce with a 1-2 sentence summary and an ordered step list before executing. The user sees the plan via SSE and can redirect early. Execution continues after announcing — do not wait for approval.
3. **Check prior turns**: If a previous step already created or started a VM, reuse that vm_id from the tool result. Do not call vm.list, vm.create, or vm.start again.
4. **Select or create a VM**: If the system context lists available VMs, choose one whose environment matches and call vm.start <vm_id>. If none fits, call vm.create with a suitable environment. For multi-tier tasks, create one VM per tier.
5. **Execute**: Use vm.execute_command for shell work; use vm.write_file / vm.edit_file for file changes. Pass the existing vm_id.
6. **Report**: Once done, respond with a concise text summary. Always include a final text answer, even if some steps failed. Before reporting success on a server, proxy, or any service that another VM or the user will call, execute one `vm.execute_command` against the endpoint from inside a VM (or curl from the same VM that runs the service). Only report success if the verification returns the expected response. If verification fails, report failure with the observed error.

## Failure modes

If `<peer>.vm.internal` fails to resolve or connect, do not guess the peer's IP from memory — IPs are not stable across VM restore. Instead, find the peer's current `ip_address` in the most recent `vm.create` / `vm.start` / `vm.list` tool result, or call `vm.list` to refresh. Restore the DNS-name URL after the underlying DNS state is fixed; do not hardcode IPs into source files.

## Rules

- For general questions that do not need code execution, respond directly without calling any tool.
- After a successful vm.write_file or vm.edit_file, the change is applied and verified server-side. Do not call vm.read_file to confirm — the tool result already reports bytes/lines/replacements.
- Do not recreate or overwrite files already written in a previous step of this turn.
- If a tool call fails, analyze the error and try an alternative with the available tools. Do not repeat the same failing command.
- Never fabricate tool results. Only report what the tool actually returned.
- Prefer calling a tool over describing what you would do.".

Definition hint_mark : string := "{{ENVIRONMENT_HINT}}".
Definition inventory_mark : string := "{{VM_INVENTORY}}".
Definition buildSystemInstruction (systemInstr agentPrompt envHint vmInventory : string) : string :=
  let text := if bool_decide (systemInstr = "") then agentPrompt else systemInstr in
  let text := if bool_decide (text = "") then defaultSystemPrompt else text in
  let text := if bool_decide (envHint = "") then replace_first text (hint_mark +:+ str1 (chr 10)) ""
              else replace_first text hint_mark ("- Active environment: " +:+ envHint) in
  if bool_decide (vmInventory = "") then replace_first text inventory_mark "- None yet. Use vm.create to start a new environment."
  else replace_first text inventory_mark vmInventory.

Definition em_dash : string := " — ".
Definition inventory_line (vm : AvailableVM) : string :=
  let head := "- " +:+ av_VMID vm +:+ ": " +:+ av_EnvDescription vm +:+ em_dash +:+ "status=" +:+ av_Status vm in
  if bool_decide (av_Status vm = "running") || bool_decide (av_Status vm = "ready")
  then head +:+ ", use vm.execute_command with this vm_id"
  else head +:+ (if av_HasSnapshot vm then ", has snapshot" else "") +:+ ", use vm.start with this vm_id to restore".
Definition buildVMInventory (availableVMs : list AvailableVM) : string :=
  match availableVMs with
  | [] => ""
  | _ => join (str1 (chr 10)) (map inventory_line availableVMs ++ ["To start a NEW environment type not listed above, use vm.create."])
  end.

(** ** The planner *)

Definition tokenUsageFromResponse (r : Response) : TokenUsage :=
  match rs_Usage r with
  | None => no_tokens
  | Some u => {| tu_Prompt := us_Prompt u; tu_Completion := us_Candidates u; tu_Total := us_Total u; tu_Cached := us_Cached u;
                 tu_Thoughts := us_Thoughts u; tu_ToolUsePrompt := us_ToolUsePrompt u |}
  end.

(** The contents of a planning request: the history, the message, and every earlier step
    of the turn as a call and its response. *)
Definition turn_contents (t : PriorTurn) : list Content :=
  [{| ct_Role := GenaiModel; ct_Parts := [call_part (pt_ToolCall t)] |};
   {| ct_Role := GenaiUser; ct_Parts := [response_part (pt_ToolResult t) (ps_Name (pt_ToolCall t))] |}].
Definition plan_contents (req : PlanRequest) : list Content :=
  (convertHistory (pr_History req)).1 ++ {| ct_Role := GenaiUser; ct_Parts := [text_part (pr_Message req)] |} ::
  mjoin (map turn_contents (pr_PriorTurns req)).

(** The loop over the parts of the answer. *)
Definition read_part (acc : list ToolPlanStep * PlanMetadata) (p : Part) : list ToolPlanStep * PlanMetadata :=
  let '(steps, meta) := acc in
  let has_text := negb (bool_decide (part_Text p = "")) in
  let meta := if part_Thought p && has_text then meta <| pm_Thinking := part_Text p |> else meta in
  match part_Call p with
  | None => (steps, if negb (part_Thought p) && has_text then meta <| pm_Answer := part_Text p |> else meta)
  | Some c => (steps ++ [{| ps_Name := fn_Name c; ps_Arguments := default [] (fn_Args c);
                            ps_ThoughtSignature := part_ThoughtSignature p |}], meta)
  end.

Section planner.
Context {W : Type} `{!GenaiClient W} (config : Config) (tools : option (M W (list ToolDefinition))).

(** [r] is what NewClient of the SDK returns. *)
Definition NewPlanner (r : option error) : option error :=
  match Config_Validate config with
  | Some e => Some e
  | None => match r with Some e => Some (wrapf "gemini: create client: " e) | None => None end
  end.

Definition PlanToolsWithMetadata (req : PlanRequest) : M W (res (list ToolPlanStep * PlanMetadata)) :=
  let* decls := match tools with Some list => (let* defs := list in ret (buildTools defs)) | None => ret None end in
  let genConfig := {|
    gc_Temperature := 0; gc_MaxOutputTokens := MaxOutputTokens config;
    gc_SystemInstruction := buildSystemInstruction (convertHistory (pr_History req)).2 (SystemPrompt config) (pr_EnvironmentHint req)
                              (buildVMInventory (pr_AvailableVMs req));
    gc_Tools := decls |} in
  let* r := GenerateContent (Model config) (plan_contents req) genConfig in
  ret (match r with
       | Err e => Err (wrapf "gemini: plan tools: " e)
       | Ok resp =>
           let '(steps, meta) := fold_left read_part (default [] (rs_Parts resp)) ([], no_plan_meta <| pm_TokenUsage := tokenUsageFromResponse resp |>) in
           match steps with
           | [] => Ok ([], meta <| pm_RawText := response_Text resp |>)
           | _ => Ok (steps, meta)
           end
       end).
Definition PlanTools (req : PlanRequest) : M W (res (list ToolPlanStep)) :=
  let? x := PlanToolsWithMetadata req in ret (Ok x.1).

Definition summary_request (message : string) : string :=
  "Based on the tool results above, provide a clear summary of what was accomplished for the user's request: " +:+ fmt_q message +:+
  ". If any steps failed, explain what went wrong and what was tried.".
Definition final_contents (req : FinalResponseRequest) : list Content :=
  let user parts := {| ct_Role := GenaiUser; ct_Parts := parts |} in
  let model parts := {| ct_Role := GenaiModel; ct_Parts := parts |} in
  (convertHistory (fr_History req)).1 ++ [user [text_part (fr_Message req)]] ++
  match fr_Plan req with [] => [] | steps => [model (map call_part steps)] end ++
  match fr_ToolResults req with
  | [] => []
  | results => [user (map (fun r => response_part r (res_ToolName r)) results);
                model [text_part "I have completed my tool calls. Let me summarize the results."];
                user [text_part (summary_request (fr_Message req))]]
  end.
Definition last_thought (acc : string) (p : Part) : string :=
  if part_Thought p && negb (bool_decide (part_Text p = "")) then part_Text p else acc.
Definition FinalResponseWithMetadata (req : FinalResponseRequest) : M W (res (string * FinalResponseMetadata)) :=
  let genConfig := {|
    gc_Temperature := 2; gc_MaxOutputTokens := MaxOutputTokens config;
    gc_SystemInstruction := buildSystemInstruction (convertHistory (fr_History req)).2 (SystemPrompt config) (fr_EnvironmentHint req) "";
    gc_Tools := None |} in
  let* r := GenerateContent (Model config) (final_contents req) genConfig in
  ret (match r with
       | Err e => Err (wrapf "gemini: final response: " e)
       | Ok resp =>
           let text := response_Text resp in
           let meta := {| fm_Reasoning := text; fm_Thinking := ""; fm_TokenUsage := tokenUsageFromResponse resp |} in
           if bool_decide (text = "") then Ok ("[no response]", meta)
           else Ok (text, meta <| fm_Thinking := fold_left last_thought (default [] (rs_Parts resp)) "" |>)
       end).
Definition FinalResponse (req : FinalResponseRequest) : M W (res string) :=
  let? x := FinalResponseWithMetadata req in ret (Ok x.1).

(** The planner of the orchestrator. *)
Definition gemini_planner : ToolPlanner W := {|
  Orchestrator.PlanTools := PlanTools; Orchestrator.FinalResponse := FinalResponse;
  WithMetadata := Some (PlanToolsWithMetadata, FinalResponseWithMetadata) |}.

(** ** Titles *)

Definition titleSystemPrompt : string := quoted "Generate a concise 3-6 word title that summarizes the user's message. Respond with the title text only — no quotes, no markdown, no ~Title:~ prefix, no trailing punctuation.".
Definition titleMaxRunes : nat := 80.

(** The cut at the last space among the first [n] runes, not at the first rune. *)
Fixpoint last_space (l : list string) (n : nat) : option nat :=
  match n with
  | O | S O => None
  | S n' => if bool_decide (l !! n' = Some " ") then Some n' else last_space l n'
  end.
Definition truncateAtWord (s : string) (maxRunes : nat) : string :=
  let rs := runes s in
  if bool_decide (length rs <= maxRunes)%nat then s
  else of_runes (take (default maxRunes (last_space rs maxRunes)) rs) +:+ "...".
Definition sanitizeTitle (raw : string) : string :=
  let t := trim_space raw in
  let t := strings_Trim (quoted "~'`") t in
  let t := if has_prefix "title:" (to_lower t) then trim_space (drop_str 6 t) else t in
  truncateAtWord (trim_right_set ".!?;: " t) titleMaxRunes.
Definition fallbackTitle (message : string) : string :=
  let m := trim_space message in if bool_decide (m = "") then "New Conversation" else truncateAtWord m titleMaxRunes.

Definition GenerateTitle (message : string) : M W (res string) :=
  let genConfig := {| gc_Temperature := 2; gc_MaxOutputTokens := 30; gc_SystemInstruction := titleSystemPrompt; gc_Tools := None |} in
  let* r := GenerateContent (Model config) [{| ct_Role := GenaiUser; ct_Parts := [text_part message] |}] genConfig in
  ret (match r with
       | Err e => Err (wrapf "gemini: generate title: " e)
       | Ok resp => let title := sanitizeTitle (response_Text resp) in
                    Ok (if bool_decide (title = "") then fallbackTitle message else title)
       end).
End planner.

(** ** The choice of the planner (cmd/main.go) *)

Definition i32 (z : Z) : Z := (z + 2 ^ 31) mod 2 ^ 32 - 2 ^ 31.
Record LLMSettings := {
  llm_DefaultProvider : string; llm_APIKey : string; llm_Model : string; llm_MaxOutputTokens : Z; llm_SystemPrompt : string;
  llm_Timeout : Z; llm_MaxReactSteps : Z }.
Definition gemini_config (c : LLMSettings) : Config :=
  let tokens := i32 (llm_MaxOutputTokens c) in {|
  APIKey := llm_APIKey c; Model := if bool_decide (llm_Model c = "") then Model DefaultConfig else llm_Model c;
  MaxOutputTokens := if bool_decide (tokens = 0) then MaxOutputTokens DefaultConfig else tokens;
  SystemPrompt := llm_SystemPrompt c; Timeout := llm_Timeout c |}.

(** The planner with the generator of titles that it comes with, if any. *)
Definition choose_planner {W} `{!GenaiClient W} (c : LLMSettings) (client : option error) (tools : M W (list ToolDefinition))
  : ToolPlanner W * option (string -> M W (res string)) :=
  if bool_decide (llm_DefaultProvider c = "gemini") && negb (bool_decide (llm_APIKey c = "")) then
    match NewPlanner (gemini_config c) client with
    | Some _ => (RulePlanner, None)
    | None => (gemini_planner (gemini_config c) (Some tools), Some (GenerateTitle (gemini_config c)))
    end
  else (RulePlanner, None).
Definition max_react_steps (c : LLMSettings) : Z := if bool_decide (llm_MaxReactSteps c <= 0) then 70 else llm_MaxReactSteps c.
