(* ===== verification/GeminiSpec.v ===== *)
(** * What the planner sends and what it returns

    What a planning request says, to the last part, and when its roles alternate; the model
    learns of every VM, the plan is what the model asked for, and titles are bounded. *)

From S2P Require Import Prelude Exception Naming GoLib Domain World Json Encoding Http Hoare Orchestrator Chat EventHub ChatService Tools Gemini.

Local Open Scope go_scope.

(** ** Roles alternate *)

Fixpoint alternate (roles : list string) : Prop :=
  match roles with
  | a :: (b :: _) as rest => a <> b /\ alternate rest
  | _ => True
  end.
Lemma alternate_app l m : alternate (l ++ m) <-> alternate l /\ alternate m /\ (forall a b, last l = Some a -> head m = Some b -> a <> b).
Proof.
  induction l as [|x [|y l] IH].
  - cbn. split; [by intros ? | by intros (_ & ? & _)].
  - destruct m as [|b m]; cbn; [split; [by intros _ | done] |]. split; [intros [Hn Ha]; split_and!; [done.. |]; by intros ? ? [= <-] [= <-] | intros (_ & Ha & Hn); auto].
  - change ((x :: y :: l) ++ m) with (x :: y :: (l ++ m)). change (alternate (x :: y :: (l ++ m))) with (x <> y /\ alternate ((y :: l) ++ m)).
    rewrite IH. change (last (x :: y :: l)) with (last (y :: l)). cbn [alternate]. tauto.
Qed.

(** The messages of the user and of the assistant, with their roles at the model. *)
Definition said (messages : list Message) : list (string * string) :=
  omap (fun m => if bool_decide (msg_Role m = RoleUser) then Some ("user", msg_Content m)
                 else if bool_decide (msg_Role m = RoleAssistant) then Some ("model", msg_Content m) else None) messages.
Definition texts (contents : list Content) : list (string * Part) :=
  mjoin (map (fun c => map (fun p => (ct_Role c, p)) (ct_Parts c)) contents).
Definition system_texts (messages : list Message) : list string :=
  map msg_Content (List.filter (fun m => bool_decide (msg_Role m = "system")) messages).

Lemma add_message_spec role text contents : alternate (map ct_Role contents) ->
  alternate (map ct_Role (add_message role text contents)) /\
  last (map ct_Role (add_message role text contents)) = Some role /\
  texts (add_message role text contents) = texts contents ++ [(role, text_part text)].
Proof.
  intros Ha. unfold add_message. destruct (last contents) as [c|] eqn:El.
  - apply last_Some in El as [l ->]. rewrite map_app, alternate_app in Ha. destruct Ha as (Hl & _ & Hlast). case_bool_decide as Hr.
    + rewrite removelast_last, !map_app. cbn [map ct_Role]. rewrite last_snoc. split_and!; [by apply alternate_app | by rewrite Hr |].
      unfold texts. rewrite !map_app, !join_app. cbn. rewrite !app_nil_r, map_app, <- app_assoc, Hr. done.
    + rewrite !map_app. cbn [map]. rewrite last_snoc. split_and!; [| done |].
      * apply alternate_app. split_and!; [by apply alternate_app | done |]. intros a b. rewrite last_snoc. by intros [= <-] [= <-].
      * unfold texts. by rewrite !map_app, !join_app.
  - apply last_None in El as ->. done.
Qed.

Definition as_texts (l : list (string * string)) : list (string * Part) := map (fun rt => (rt.1, text_part rt.2)) l.

Lemma said_cons m messages : said (m :: messages) =
  (if bool_decide (msg_Role m = "system") || bool_decide (domainRoleToGenai (msg_Role m) = "") then []
   else [(domainRoleToGenai (msg_Role m), msg_Content m)]) ++ said messages.
Proof.
  unfold said, domainRoleToGenai. cbn [omap list_omap]. destruct (decide (msg_Role m = "system")) as [->|Hs]; [done |].
  rewrite (bool_decide_eq_false_2 _ Hs). by destruct (bool_decide (msg_Role m = RoleUser)), (bool_decide (msg_Role m = RoleAssistant)).
Qed.

Lemma convert_fold messages : forall contents sys, alternate (map ct_Role contents) ->
  let r := fold_left convert_message messages (contents, sys) in
  alternate (map ct_Role r.1) /\ texts r.1 = texts contents ++ as_texts (said messages) /\
  r.2 = sys ++ system_texts messages /\
  last (map ct_Role r.1) = match last (map fst (said messages)) with Some role => Some role | None => last (map ct_Role contents) end.
Proof.
  induction messages as [|m messages IH]; intros contents sys Ha; cbn [fold_left].
  - cbn. by rewrite !app_nil_r.
  - change (convert_message (contents, sys) m) with
      (if bool_decide (msg_Role m = "system") then (contents, sys ++ [msg_Content m])
       else if bool_decide (domainRoleToGenai (msg_Role m) = "") then (contents, sys)
            else (add_message (domainRoleToGenai (msg_Role m)) (msg_Content m) contents, sys)).
    rewrite said_cons. unfold system_texts. cbn [List.filter map]. fold (system_texts messages).
    destruct (bool_decide (msg_Role m = "system")) eqn:Es; [| destruct (bool_decide (domainRoleToGenai (msg_Role m) = "")) eqn:Er]; cbn [orb].
    + specialize (IH contents (sys ++ [msg_Content m]) Ha) as (H1 & H2 & H3 & H4). split_and!; [done | done | | done].
      rewrite H3, <- app_assoc. done.
    + by apply IH.
    + destruct (add_message_spec (domainRoleToGenai (msg_Role m)) (msg_Content m) contents Ha) as (Ha' & Hl & Ht).
      specialize (IH _ sys Ha') as (H1 & H2 & H3 & H4). split_and!; [done | | done |].
      * rewrite H2, Ht, <- app_assoc. done.
      * rewrite H4, Hl. cbn [app map fst]. by destruct (map fst (said messages)) as [|x l] using rev_ind; [| rewrite app_comm_cons, !last_snoc].
Qed.

Lemma convertHistory_spec messages : let '(contents, system) := convertHistory messages in
  alternate (map ct_Role contents) /\ texts contents = as_texts (said messages) /\ system = join blank_line (system_texts messages) /\
  last (map ct_Role contents) = last (map fst (said messages)).
Proof.
  unfold convertHistory. pose proof (convert_fold messages [] [] I) as (H1 & H2 & H3 & H4).
  destruct (fold_left convert_message messages ([], [])) as [contents sys]. cbn [fst snd map app] in *. split_and!; [done | done | by rewrite H3 |].
  rewrite H4. by destruct (last (map fst (said messages))).
Qed.

(** ** A planning request *)

Lemma contains_iff s sub : contains s sub = true <-> exists p q, s = p +:+ sub +:+ q.
Proof.
  split.
  - induction s as [|c s IH]; cbn; intros H.
    + rewrite orb_false_r in H. exists "", "". destruct sub; [done | done].
    + apply orb_true_iff in H as [H | H]; [| destruct (IH H) as (p & q & ->); by exists (String c p), q].
      exists "". revert H. generalize (String c s) as t. clear. induction sub as [|d sub IH]; intros t H; [by exists t |].
      destruct t as [|e t]; [done |]. cbn in H. apply andb_true_iff in H as [->%bool_decide_eq_true H]. destruct (IH t H) as [q Hq].
      exists q. cbn in *. by rewrite Hq.
  - intros (p & q & ->). apply contains_app_r, contains_prefix, has_prefix_app.
Qed.
Lemma app_assoc_str (a b c : string) : a +:+ b +:+ c = (a +:+ b) +:+ c.
Proof. induction a as [|x a IH]; [done |]. cbn. by rewrite IH. Qed.
Lemma contains_trans a b c : contains a b = true -> contains b c = true -> contains a c = true.
Proof.
  rewrite !contains_iff. intros (p & q & ->) (p' & q' & ->). exists (p +:+ p'), (q' +:+ q). by rewrite !app_assoc_str.
Qed.

(** An earlier step of the turn: the call as the model made it, with its signature, and the
    payload of the tool, or its error. *)
Definition reported (r : Result) : Args :=
  match res_OK r, res_Payload r with
  | true, VMap m => m
  | true, v => [("output", v)]
  | false, _ => [("error", VStr (res_Error r))]
  end.
Definition turn_parts (t : PriorTurn) : list (string * Part) :=
  let c := pt_ToolCall t in
  [(GenaiModel, {| part_Text := ""; part_Thought := false; part_ThoughtSignature := ps_ThoughtSignature c;
                   part_Call := Some {| fn_Name := ps_Name c; fn_Args := Some (ps_Arguments c) |}; part_Response := None |});
   (GenaiUser, {| part_Text := ""; part_Thought := false; part_ThoughtSignature := ""; part_Call := None;
                  part_Response := Some {| fp_Name := ps_Name c; fp_Response := reported (pt_ToolResult t) |} |})].
Lemma texts_app a b : texts (a ++ b) = texts a ++ texts b.
Proof. unfold texts. by rewrite map_app, join_app. Qed.
Lemma turns_texts turns : texts (mjoin (map turn_contents turns)) = mjoin (map turn_parts turns).
Proof.
  induction turns as [|t turns IH]; [done |].
  change (texts (turn_contents t ++ mjoin (map turn_contents turns)) = turn_parts t ++ mjoin (map turn_parts turns)). by rewrite texts_app, IH.
Qed.
Lemma replace_first_none s old new : contains s old = false -> replace_first s old new = s.
Proof.
  induction s as [|c s IH]; cbn -[drop_str has_prefix]; destruct (has_prefix old _); cbn [orb]; try done. intros Hs. by rewrite IH.
Qed.
(** The text of the system messages is the instruction, but for the marks in it. *)
Lemma instruction_of_system s prompt hint inv :
  s = "" \/ contains s hint_mark = true \/ contains s inventory_mark = true \/ buildSystemInstruction s prompt hint inv = s.
Proof.
  destruct (decide (s = "")) as [|Hs]; [by left |]. destruct (contains s hint_mark) eqn:Hh; [by right; left |].
  destruct (contains s inventory_mark) eqn:Hi; [by do 2 right; left | do 3 right].
  unfold buildSystemInstruction. cbv zeta. rewrite !(bool_decide_eq_false_2 (s = "")) by done.
  assert (Hn : contains s (hint_mark +:+ str1 (chr 10)) = false).
  { apply not_true_iff_false. intros Hc. apply not_true_iff_false in Hh. apply Hh. eapply contains_trans; [exact Hc | apply contains_prefix, has_prefix_app]. }
  rewrite (replace_first_none _ _ _ Hn), (replace_first_none _ _ _ Hh).
  destruct (bool_decide (hint = "")), (bool_decide (inv = "")); by rewrite replace_first_none.
Qed.
Lemma turns_alternate turns : alternate (GenaiUser :: map ct_Role (mjoin (map turn_contents turns))).
Proof.
  induction turns as [|t turns IH]; [done |].
  change (GenaiUser <> GenaiModel /\ GenaiModel <> GenaiUser /\ alternate (GenaiUser :: map ct_Role (mjoin (map turn_contents turns)))). done.
Qed.

(** C38: What a planning request says. Its parts are, one after the other: the messages of the
    user and of the assistant in the history, the message of the user, and for every
    earlier step of the turn the call with its arguments and its signature, and the
    response; there is nothing before, between or after. The roles alternate, as the model
    requires, unless the history ends with a message of the user. The system messages of
    the history are joined into the system instruction of the request, which is then this
    text with the marks in it replaced. Messages of other roles are left out. *)
Theorem plan_contents_faithful {W} `{!GenaiClient W} config tools req (w : W) :
  let contents := plan_contents req in
  let system := join blank_line (system_texts (pr_History req)) in
  (alternate (map ct_Role contents) <-> last (map fst (said (pr_History req))) <> Some GenaiUser) /\
  texts contents = as_texts (said (pr_History req) ++ [(GenaiUser, pr_Message req)]) ++ mjoin (map turn_parts (pr_PriorTurns req)) /\
  exists cfg w0,
    (PlanToolsWithMetadata config tools req w).2 = (GenerateContent (Model config) contents cfg w0).2 /\
    gc_SystemInstruction cfg = buildSystemInstruction system (SystemPrompt config) (pr_EnvironmentHint req) (buildVMInventory (pr_AvailableVMs req)) /\
    (system = "" \/ contains system hint_mark = true \/ contains system inventory_mark = true \/ gc_SystemInstruction cfg = system).
Proof.
  pose proof (convertHistory_spec (pr_History req)) as Hc. unfold PlanToolsWithMetadata. cbv zeta.
  assert (Hcontents : (convertHistory (pr_History req)).1 ++ {| ct_Role := GenaiUser; ct_Parts := [text_part (pr_Message req)] |} ::
    mjoin (map turn_contents (pr_PriorTurns req)) = plan_contents req) by done.
  revert Hc Hcontents. destruct (convertHistory (pr_History req)) as [contents sys]. intros (Ha & Ht & -> & Hl) Hcontents. cbn [fst snd] in *.
  rewrite <- Hcontents. split_and!.
  - rewrite map_app, alternate_app. cbn [map ct_Role]. pose proof (turns_alternate (pr_PriorTurns req)) as Htu. rewrite Hl. split.
    + intros (_ & _ & Hd) He. by eapply Hd.
    + intros Hn. split_and!; [done | done |]. intros a b Hla [= <-] ->. by rewrite Hla in Hn.
  - rewrite texts_app, Ht. unfold as_texts. rewrite map_app, <- app_assoc. f_equal. rewrite <- turns_texts. done.
  - unfold bind at 1. destruct (_ w) as [decls w0]. unfold bind. set (cfg := Build_GenConfig _ _ _ _). exists cfg, w0.
    split; [by destruct (GenerateContent _ _ cfg w0) |]. split; [done | apply instruction_of_system].
Qed.

(** ** The plan *)

Definition asked_by (p : Part) : option ToolPlanStep :=
  match part_Call p with
  | Some c => Some {| ps_Name := fn_Name c; ps_Arguments := default [] (fn_Args c); ps_ThoughtSignature := part_ThoughtSignature p |}
  | None => None
  end.
Definition thinks (p : Part) : bool := part_Thought p && negb (bool_decide (part_Text p = "")).
Definition answers (p : Part) : bool :=
  negb (part_Thought p) && negb (bool_decide (part_Text p = "")) && match part_Call p with None => true | Some _ => false end.
(** The text of the last part of a kind. *)
Definition last_text (kind : Part -> bool) (parts : list Part) (start : string) : string :=
  match last (List.filter kind parts) with Some p => part_Text p | None => start end.

Lemma last_text_cons kind p parts start :
  last_text kind (p :: parts) start = last_text kind parts (if kind p then part_Text p else start).
Proof.
  unfold last_text. cbn [List.filter]. destruct (kind p); [| done].
  destruct (List.filter kind parts) as [|x l]; [done |]. change (last (p :: x :: l)) with (last (x :: l)). destruct (last (x :: l)) eqn:E; [done |].
  by apply last_None in E.
Qed.
Lemma read_parts parts : forall steps meta,
  let r := fold_left read_part parts (steps, meta) in
  r.1 = steps ++ omap asked_by parts /\
  pm_Thinking r.2 = last_text thinks parts (pm_Thinking meta) /\ pm_Answer r.2 = last_text answers parts (pm_Answer meta) /\
  pm_TokenUsage r.2 = pm_TokenUsage meta.
Proof.
  induction parts as [|p parts IH]; intros steps meta; cbn [fold_left].
  - cbn. by rewrite app_nil_r.
  - rewrite !last_text_cons. destruct (read_part (steps, meta) p) as [steps' meta'] eqn:E. specialize (IH steps' meta') as (H1 & H2 & H3 & H4).
    rewrite H1, H2, H3, H4. clear -E. unfold read_part in E. unfold thinks, answers.
    assert (Ep : omap asked_by (p :: parts) = match asked_by p with Some y => [y] | None => [] end ++ omap asked_by parts) by (cbn; by destruct (asked_by p)).
    rewrite Ep. clear Ep.
    assert (Ea : asked_by p = match part_Call p with
      | Some c => Some {| ps_Name := fn_Name c; ps_Arguments := default [] (fn_Args c); ps_ThoughtSignature := part_ThoughtSignature p |}
      | None => None end) by done.
    rewrite Ea. clear Ea.
    destruct (part_Call p) as [c|], (part_Thought p), (bool_decide (part_Text p = "")), meta; cbn in E |- *; injection E as <- <-; rewrite <- ?app_assoc; done.
Qed.

Section planner.
Context {W : Type} {GC : GenaiClient W} (config : Config) (tools : option (M W (list ToolDefinition))).

(** The plan has the calls of the answer in their order, each with its arguments and its
    signature; the texts kept beside it are those of the last thought and of the last
    part of the answer. Only the client can make planning fail. *)
Theorem plan_is_the_answer req w :
  match (PlanToolsWithMetadata config tools req w).1 with
  | Err e => exists w0 cfg e', (GenerateContent (Model config) (plan_contents req) cfg w0).1 = Err e' /\ e = wrapf "gemini: plan tools: " e'
  | Ok (steps, meta) => exists w0 cfg resp, (GenerateContent (Model config) (plan_contents req) cfg w0).1 = Ok resp /\
      let parts := default [] (rs_Parts resp) in
      steps = omap asked_by parts /\ pm_Thinking meta = last_text thinks parts "" /\ pm_Answer meta = last_text answers parts "" /\
      pm_TokenUsage meta = tokenUsageFromResponse resp /\ (steps = [] -> pm_RawText meta = response_Text resp)
  end.
Proof.
  unfold PlanToolsWithMetadata. set (declared := match tools with Some _ => _ | None => _ end). unfold bind at 1. destruct (declared w) as [decls w0].
  unfold bind. set (cfg := Build_GenConfig _ _ _ _). destruct (GenerateContent (Model config) (plan_contents req) cfg w0) as [[resp|e] w1] eqn:E; cbn [fst ret].
  - pose proof (read_parts (default [] (rs_Parts resp)) [] (no_plan_meta <| pm_TokenUsage := tokenUsageFromResponse resp |>)) as Hr.
    destruct (fold_left _ _ _) as [steps meta]. cbn in Hr. destruct Hr as (-> & H2 & H3 & H4).
    destruct (omap asked_by (default [] (rs_Parts resp))) as [|s l] eqn:Es; exists w0, cfg, resp; rewrite E; cbn zeta; rewrite Es; destruct meta; cbn in *; done.
  - exists w0, cfg, e. by rewrite E.
Qed.
End planner.

(** ** The system instruction *)

Lemma contains_mid p s q : contains (p +:+ s +:+ q) s = true.
Proof. apply contains_iff. eauto. Qed.

Lemma contains_self s : contains s s = true.
Proof. apply contains_iff. exists "", "". cbn. induction s as [|c s IH]; [done |]. cbn. by rewrite <- IH. Qed.

(** The text around the first occurrence of a mark. *)
Fixpoint split_first (s old : string) : option (string * string) :=
  if has_prefix old s then Some ("", drop_str (str_len old) s)
  else match s with
       | EmptyString => None
       | String c t => match split_first t old with Some (p, q) => Some (String c p, q) | None => None end
       end.
Lemma replace_first_split s old new p q : split_first s old = Some (p, q) -> replace_first s old new = p +:+ new +:+ q.
Proof.
  revert p q. induction s as [|c s IH]; intros p q; cbn -[drop_str has_prefix]; destruct (has_prefix old _); [by intros [= <- <-] | done | by intros [= <- <-] |].
  destruct (split_first s old) as [[p' q']|]; [| done]. intros [= <- <-]. by rewrite (IH _ _ eq_refl).
Qed.
Lemma replace_first_new s old new : contains s old = true -> contains (replace_first s old new) new = true.
Proof.
  induction s as [|c s IH]; cbn -[drop_str has_prefix]; destruct (has_prefix old _) eqn:E; cbn [orb]; try done; try (intros _; apply contains_prefix, has_prefix_app).
  intros Hs. cbn. by rewrite IH, orb_true_r.
Qed.
Lemma contains_join sep x l : x ∈ l -> contains (join sep l) x = true.
Proof.
  induction l as [|y l IH]; [by intros ?%elem_of_nil |]. intros [-> | Hx]%elem_of_cons.
  - destruct l as [|z l]; [apply contains_self | apply (contains_mid "" y)].
  - destruct l as [|z l]; [by apply elem_of_nil in Hx |]. change (join sep (y :: z :: l)) with (y +:+ sep +:+ join sep (z :: l)).
    apply contains_app_r, contains_app_r, IH, Hx.
Qed.

(** Whatever the hint, the default prompt has the mark of the inventory after it. *)
Lemma default_prompt_inventory hint inv : contains (buildSystemInstruction "" "" hint inv)
  (if bool_decide (inv = "") then "- None yet. Use vm.create to start a new environment." else inv) = true.
Proof.
  unfold buildSystemInstruction. cbv zeta. rewrite !(bool_decide_eq_true_2 ("" = "")) by done.
  match goal with |- context [replace_first ?t inventory_mark _] => assert (Hm : contains t inventory_mark = true) end.
  { case_bool_decide; [vm_compute; reflexivity |].
    assert (Hs : exists p q, split_first defaultSystemPrompt hint_mark = Some (p, q) /\ contains q inventory_mark = true) by (eexists _, _; split; vm_compute; reflexivity).
    destruct Hs as (p & q & Hs & Hq). rewrite (replace_first_split _ _ _ _ _ Hs). by apply contains_app_r, contains_app_r. }
  destruct (bool_decide (inv = "")); by apply replace_first_new.
Qed.

(** Without a prompt of its own the agent has the default one, and the model then reads a
    line about every VM of the conversation, with its identifier and its status. *)
Theorem vms_reach_model config req vm : SystemPrompt config = "" -> system_texts (pr_History req) = [] -> vm ∈ pr_AvailableVMs req ->
  contains (buildSystemInstruction (convertHistory (pr_History req)).2 (SystemPrompt config) (pr_EnvironmentHint req)
              (buildVMInventory (pr_AvailableVMs req))) (inventory_line vm) = true /\ contains (inventory_line vm) (av_VMID vm) = true.
Proof.
  intros Hp Hs Hvm. pose proof (convertHistory_spec (pr_History req)) as Hc. destruct (convertHistory (pr_History req)) as [contents sys].
  destruct Hc as (_ & _ & -> & _). cbn [snd]. rewrite Hp, Hs. split.
  - assert (Hne : buildVMInventory (pr_AvailableVMs req) <> "").
    { unfold buildVMInventory. destruct (pr_AvailableVMs req) as [|v vms]; [by apply elem_of_nil in Hvm |]. cbn [map app join].
      destruct (map inventory_line vms ++ _) as [|x l] eqn:E; [by destruct (map inventory_line vms) |]. unfold inventory_line. by case_match. }
    pose proof (default_prompt_inventory (pr_EnvironmentHint req) (buildVMInventory (pr_AvailableVMs req))) as Hi.
    rewrite bool_decide_eq_false_2 in Hi by done. eapply contains_trans; [exact Hi |].
    unfold buildVMInventory. destruct (pr_AvailableVMs req) as [|v vms]; [by apply elem_of_nil in Hvm |].
    apply contains_join, elem_of_app. left. by apply list_elem_of_fmap_2.
  - unfold inventory_line. case_match; rewrite <- !app_assoc_str; apply (contains_mid "- ").
Qed.

(** The request for the summary always tells the model, in the default prompt, that there
    is no VM yet. *)
Lemma final_request_denies_vms hint : contains (buildSystemInstruction "" "" hint "") "None yet. Use vm.create to start a new environment." = true.
Proof.
  eapply contains_trans; [apply (default_prompt_inventory hint "") | done].
Qed.

(** ** Titles *)

Definition rune (r : string) : Prop := rune_len r = str_len r /\ r <> "".

Lemma take_rune s : rune_len s <> O -> rune (take_str (rune_len s) s).
Proof.
  intros H. pose proof (rune_len_bound s) as Hb. assert (Hn : rune_len (take_str (rune_len s) s) <> O).
  { revert H Hb. remember (rune_len s) as n eqn:E. revert E. unfold rune_len at 1, byte_at.
    destruct s as [|a [|b [|c [|d s]]]]; unfold str_len; cbn [String.get String.length]; unfold seq_len, cont;
      repeat case_bool_decide; cbn [andb]; intros -> ?; try done; try lia; intros _; unfold rune_len, byte_at; cbn [take_str String.get];
      unfold seq_len, cont; repeat case_bool_decide; cbn [andb]; try done; try lia. }
  split; [| intros E; by rewrite E in Hn].
  pose proof (rune_len_app _ (drop_str (rune_len s) s) Hn) as E. rewrite take_drop_str in E by done. by rewrite str_len_take, <- E.
Qed.

Lemma runes_all n s : Forall rune (runes_fuel n s).
Proof.
  revert s. induction n as [|n IH]; intros s; [constructor |]. cbn [runes_fuel]. destruct s as [|c s]; [constructor |].
  destruct (rune_len (String c s)) as [|k] eqn:E; constructor; try apply IH; [done |]. rewrite <- E. apply take_rune. lia.
Qed.

Lemma rune_count_enough n m s : (str_len s <= n)%nat -> (str_len s <= m)%nat -> rune_count_fuel n s = rune_count_fuel m s.
Proof.
  revert m s. induction n as [|n IH]; intros m s Hn Hm.
  - destruct s; [by destruct m | unfold str_len in Hn; cbn in Hn; lia].
  - destruct s as [|c s]; [by destruct m |]. destruct m as [|m]; [unfold str_len in Hm; cbn in Hm; lia |]. cbn [rune_count_fuel]. f_equal.
    apply IH; rewrite drop_str_len; unfold str_len in *; cbn [String.length] in *; lia.
Qed.
Lemma RuneCount_cons r s : rune r -> RuneCount (r +:+ s) = 1 + RuneCount s.
Proof.
  intros [Hr Hne]. unfold RuneCount. destruct r as [|c r]; [done |]. change (String c r +:+ s) with (String c (r +:+ s)).
  change (str_len (String c (r +:+ s))) with (S (str_len (r +:+ s))). cbn [rune_count_fuel]. change (String c (r +:+ s)) with (String c r +:+ s).
  rewrite rune_len_app by (rewrite Hr; done). rewrite Hr, Nat.max_r by (unfold str_len; cbn; lia). rewrite drop_str_app. f_equal.
  apply rune_count_enough; [rewrite str_len_app; lia | done].
Qed.
Lemma RuneCount_runes l s : Forall rune l -> RuneCount (of_runes l +:+ s) = Z.of_nat (length l) + RuneCount s.
Proof.
  induction 1 as [|r l Hr _ IH]; [done |]. change (of_runes (r :: l)) with (r +:+ of_runes l). rewrite <- app_assoc_str, RuneCount_cons, IH by done.
  cbn [length]. lia.
Qed.
Lemma runes_length s : Z.of_nat (length (runes s)) = RuneCount s.
Proof.
  unfold runes, RuneCount. generalize (str_len s) as n. intros n. revert s. induction n as [|n IH]; intros s; [by destruct s |].
  cbn [runes_fuel rune_count_fuel]. destruct s as [|c s]; [done |]. destruct (rune_len (String c s)) as [|k]; cbn [length]; rewrite Nat2Z.inj_succ, IH; cbn [Nat.max]; lia.
Qed.

Lemma last_space_bound l n k : last_space l n = Some k -> (0 < k < n)%nat.
Proof.
  induction n as [|n IH]; [done |]. cbn [last_space]. destruct n as [|n]; [done |]. case_bool_decide; [intros [= <-]; lia |]. intros Hk%IH. lia.
Qed.
Lemma truncate_bounds s n : (0 < n)%nat -> s <> "" -> truncateAtWord s n <> "" /\ RuneCount (truncateAtWord s n) <= Z.of_nat n + 3.
Proof.
  intros Hn Hs. unfold truncateAtWord. case_bool_decide as Hl; [split; [done |]; rewrite <- runes_length; lia |].
  assert (Hk : (default n (last_space (runes s) n) <= n)%nat).
  { destruct (last_space (runes s) n) as [k|] eqn:E; cbn; [apply last_space_bound in E; lia | lia]. }
  split.
  - by destruct (of_runes _).
  - rewrite RuneCount_runes by (apply Forall_take, runes_all). rewrite length_take. change (RuneCount "...") with 3. lia.
Qed.

Section titles.
Context {W : Type} {GC : GenaiClient W} (config : Config).

(** A title is never empty and has at most 83 characters, whatever the model answers and
    whatever the message is: the chat service can always store it. Only the client can
    make it fail. *)
Theorem titles_bounded message w : match (GenerateTitle config message w).1 with
  | Ok title => title <> "" /\ RuneCount title <= 83
  | Err e => exists e', e = wrapf "gemini: generate title: " e'
  end.
Proof.
  unfold GenerateTitle, bind. destruct (GenerateContent _ _ _ w) as [[resp|e] w1]; cbn [ret fst]; [| by eexists].
  assert (Hc : forall s, s <> "" -> truncateAtWord s titleMaxRunes <> "" /\ RuneCount (truncateAtWord s titleMaxRunes) <= 83).
  { intros s Hs. apply (truncate_bounds s titleMaxRunes); [unfold titleMaxRunes; lia | done]. }
  case_bool_decide as Ht.
  - unfold fallbackTitle. case_bool_decide; [split; [discriminate | vm_compute; discriminate] | apply Hc; assumption].
  - revert Ht. unfold sanitizeTitle. set (t := trim_right_set _ _). intros Ht. destruct (decide (t = "")) as [E|Hne]; [| by apply Hc].
    by rewrite E in Ht.
Qed.
End titles.

Lemma vms_reach_model_witness :
  let vm := {| av_VMID := "vm-1"; av_Environment := "env"; av_EnvDescription := "bun"; av_Status := "idle"; av_HasSnapshot := true |} in
  contains (buildSystemInstruction "" "" "bun" (buildVMInventory [vm])) (inventory_line vm) = true.
Proof.
  intros vm. exact (proj1 (vms_reach_model DefaultConfig {| pr_ChatID := "c"; pr_AgentID := ""; pr_UserID := ""; pr_Message := "hello";
    pr_AvailableVMs := [vm]; pr_EnvironmentHint := "bun"; pr_History := []; pr_PriorTurns := [] |} vm eq_refl eq_refl ltac:(by left))).
Defined.

(** The prompt of the planner speaks of at most 10 steps; the server allows 70 by default. *)
Lemma steps_of_prompt : contains defaultSystemPrompt "You have a maximum of 10 ReAct steps per turn." = true /\
  max_react_steps {| llm_DefaultProvider := "gemini"; llm_APIKey := "key"; llm_Model := ""; llm_MaxOutputTokens := 0; llm_SystemPrompt := "";
                     llm_Timeout := 60 * second; llm_MaxReactSteps := 0 |} = 70.
Proof. split; vm_compute; reflexivity. Qed.

(** Without a timeout in the configuration the planner is the rule planner, key or not. *)
Lemma no_timeout_no_gemini {W} `{!GenaiClient W} key tools :
  choose_planner (W := W) {| llm_DefaultProvider := "gemini"; llm_APIKey := key; llm_Model := ""; llm_MaxOutputTokens := 0; llm_SystemPrompt := "";
                             llm_Timeout := 0; llm_MaxReactSteps := 0 |} None tools = (RulePlanner, None).
Proof.
  unfold choose_planner. cbn [llm_DefaultProvider llm_APIKey]. case_bool_decide; [| done]. cbn [andb]. case_bool_decide as Hk; [done |]. cbn [negb].
  unfold NewPlanner, Config_Validate. cbn. by rewrite (bool_decide_eq_false_2 (key = "")).
Qed.
