(* ===== verification/MemVM.v ===== *)
(** * The in-memory VM repository: src/repository/memory/vm.go

    With ListRecent of runtime_event.go, which sorts by hand. Rows and leases in two maps behind one mutex, so every method is one step. The order in
    which a loop meets the entries of a map is any order: it is chosen by [MapOrder], and
    two loops over the same map may meet them differently. *)

From stdpp Require Import sorting.
From S2P Require Import Prelude Exception Naming GoLib Domain World PgRepo Json Encoding Orchestrator Chat MemRepo.

Local Open Scope go_scope.

Record VMMem := { mv_vms : gmap string VM; mv_leases : gmap string Lease; mv_times : nat -> Z; mv_tick : nat }.

Class MapOrder := {
  in_order : forall A, nat -> list (string * A) -> list (string * A);
  in_order_perm : forall A n (l : list (string * A)), in_order A n l ≡ₚ l }.

Section repository.
Context {MO : MapOrder}.
Abbreviation W := VMMem.

Definition vnow : M W Z := fun w => (mv_times w (mv_tick w), w <| mv_tick := S (mv_tick w) |>).
(** The values in the order of one [range] loop. *)
Definition range {A} (m : W -> gmap string A) : M W (list A) := fun w =>
  ((in_order A (mv_tick w) (map_to_list (m w))).*2, w <| mv_tick := S (mv_tick w) |>).

(** ** Rows *)

Definition VMCreate (v : VM) : M W (res unit) := fun w => (Ok tt, w <| mv_vms := <[vm_ID v := v]> (mv_vms w) |>).
Definition VMGetByID (id : string) : M W (res VM) := fun w =>
  (match mv_vms w !! id with Some v => Ok v | None => Err (NotFound "vm" id) end, w).
(** [strings.EqualFold], for names of ASCII characters. *)
Definition EqualFold (a b : string) : bool := bool_decide (to_lower a = to_lower b).
(** The first entry that a loop meets with a property. *)
Definition first_vm (P : VM -> bool) (none : error) : M W (res VM) :=
  let* vms := range mv_vms in ret (match List.find P vms with Some v => Ok v | None => Err none end).
Definition VMGetByName (name : string) : M W (res VM) :=
  let target := to_lower name in first_vm (fun v => EqualFold (vm_Name v) target) (NotFound "vm name" name).
Definition VMUpdate (v : VM) : M W (res unit) := fun w =>
  match mv_vms w !! vm_ID v with
  | None => (Err (NotFound "vm" (vm_ID v)), w)
  | Some _ => (Ok tt, w <| mv_vms := <[vm_ID v := v]> (mv_vms w) |>)
  end.
Definition VMDelete (id : string) : M W (res unit) := fun w =>
  match mv_vms w !! id with
  | None => (Err (NotFound "vm" id), w)
  | Some _ => (Ok tt, w <| mv_vms := delete id (mv_vms w) |>)
  end.

Definition newest_vm (a b : VM) : Prop := vm_CreatedAt b <= vm_CreatedAt a.
#[export] Instance newest_vm_dec : RelDecision newest_vm.
Proof. intros a b. unfold newest_vm. apply _. Defined.
Definition oldest_vm (a b : VM) : Prop := vm_CreatedAt a <= vm_CreatedAt b.
#[export] Instance oldest_vm_dec : RelDecision oldest_vm.
Proof. intros a b. unfold oldest_vm. apply _. Defined.

Definition VMList : M W (res (list VM)) := let* vms := range mv_vms in ret (Ok (merge_sort newest_vm vms)).
(** The limit ends the loop, before the entries are sorted; it is also the capacity that the
    result is made with. *)
Definition VMGetAvailablePool (provider : string) (limit : Z) : M W (res (list VM)) :=
  if bool_decide (limit < 0) then ret (Err (EText "panic: runtime error: makeslice: cap out of range")) else
  let* vms := range mv_vms in
  let fit := List.filter (fun v => bool_decide (vm_Provider v = provider) && IsAvailable v) vms in
  ret (Ok (merge_sort oldest_vm (if bool_decide (0 < limit) then take (Z.to_nat limit) fit else fit))).

Definition all_vms (P : VM -> bool) : M W (res (list VM)) := let* vms := range mv_vms in ret (Ok (List.filter P vms)).
Definition VMGetByEnvironmentID (envID : string) : M W (res (list VM)) := all_vms (fun v => bool_decide (vm_EnvironmentID v = envID)).
Definition VMGetByChatID (chatID : string) : M W (res VM) :=
  first_vm (fun v => bool_decide (vm_ChatID v = Some chatID)) (NotFound "vm chat" chatID).
Definition VMGetActiveVMs : M W (res (list VM)) := all_vms (fun v => IsActive (vm_Status v)).
(** The repository does not know the user of a chat. *)
Definition VMGetActiveByUserID (userID : string) : M W (res (list VM)) := all_vms (fun v => IsActive (vm_Status v)).
Definition VMGetAllByUserID (userID : string) : M W (res (list VM)) := all_vms (fun _ => true).

(** ** Leases, by VM *)

Definition newest_lease (a b : Lease) : Prop := le_LeasedAt b <= le_LeasedAt a.
#[export] Instance newest_lease_dec : RelDecision newest_lease.
Proof. intros a b. unfold newest_lease. apply _. Defined.

Definition leases_of_chat (chatID : string) : M W (list Lease) :=
  let* leases := range mv_leases in
  ret (merge_sort newest_lease (List.filter (fun l => bool_decide (le_ChatID l = chatID)) leases)).
(** The VMs of the leases that satisfy a condition, the newest lease first. *)
Definition leased_vms (chatID : string) (P : VM -> bool) : M W (list VM) :=
  let* leases := leases_of_chat chatID in
  fun w => (List.filter P (omap (fun l => mv_vms w !! le_VMID l) leases), w).
Definition first_leased (chatID : string) (P : VM -> bool) (none : error) : M W (res VM) :=
  let* vms := leased_vms chatID P in ret (match vms with v :: _ => Ok v | [] => Err none end).

Definition VMGetByEnvironmentAndChatID (envID chatID : string) : M W (res VM) :=
  first_leased chatID (fun v => bool_decide (vm_EnvironmentID v = envID) && negb (bool_decide (vm_Status v = StatusTerminated)))
    (NotFound "vm by environment and chat" envID).

Definition VMAssignToChatIfAvailable (vmID chatID : string) (idleDeadlineAt : option Z) : M W (res VM) := fun w =>
  match mv_vms w !! vmID with
  | None => (Err (NotFound "vm" vmID), w)
  | Some v =>
      if negb (IsAvailable v) then (Err (BadRequest "VM is not available"), w)
      else
        let '(t, w) := vnow w in
        let v := (AssignTo t chatID v) <| vm_IdleDeadlineAt := idleDeadlineAt |> in
        let '(now, w) := vnow w in
        let lease := {| le_ID := vmID +:+ ":" +:+ rfc3339nano now; le_ChatID := chatID; le_VMID := vmID; le_LeasedAt := now; le_ReleasedAt := None |} in
        (Ok v, w <| mv_vms := <[vmID := v]> (mv_vms w) |> <| mv_leases := <[vmID := lease]> (mv_leases w) |>)
  end.
(** The released lease is not kept. *)
Definition VMReleaseActiveLeaseByVM (vmID : string) : M W (res unit) := fun w =>
  match mv_leases w !! vmID with
  | None => (Ok tt, w)
  | Some _ => let '(_, w) := vnow w in (Ok tt, w <| mv_leases := delete vmID (mv_leases w) |>)
  end.
Definition VMListActiveLeasesByChat (chatID : string) : M W (res (list Lease)) :=
  let* leases := range mv_leases in
  ret (Ok (merge_sort newest_lease (List.filter (fun l => bool_decide (le_ChatID l = chatID) && bool_decide (le_ReleasedAt l = None)) leases))).

(** Idle or ready, and in no chat. *)
Definition restorable (v : VM) : bool := IsIdle (vm_Status v) && bool_decide (vm_ChatID v = None).
Definition VMFindPreviousLeaseForChat (chatID : string) : M W (res VM) :=
  first_leased chatID restorable (NotFound "previous vm for chat" chatID).
Definition VMListPreviousLeasesForChat (chatID : string) : M W (res (list VM)) :=
  let* vms := leased_vms chatID restorable in ret (Ok vms).
(** ** Recent events *)

(** The inner loop: the later of the two goes to the front. *)
Fixpoint exchange (x : PersistedRuntimeEvent) (l : list PersistedRuntimeEvent) : PersistedRuntimeEvent * list PersistedRuntimeEvent :=
  match l with
  | [] => (x, [])
  | y :: l' => if bool_decide (pe_CreatedAt x < pe_CreatedAt y) then let '(m, r) := exchange y l' in (m, x :: r)
               else let '(m, r) := exchange x l' in (m, y :: r)
  end.
Fixpoint exchange_sort (n : nat) (l : list PersistedRuntimeEvent) : list PersistedRuntimeEvent :=
  match n, l with
  | S n', x :: l' => let '(m, r) := exchange x l' in m :: exchange_sort n' r
  | _, _ => l
  end.
Definition EventListRecent (limit : Z) : M Mem (res (list PersistedRuntimeEvent)) := fun w =>
  let limit := if bool_decide (limit <= 0) || bool_decide (500 < limit) then 100 else limit in
  let all := mjoin (in_order _ (mw_tick w) (map_to_list (mw_events w))).*2 in
  (Ok (take (Z.to_nat limit) (exchange_sort (length all) all)), w <| mw_tick := S (mw_tick w) |>).

(** ** What it promises *)

Lemma range_perm {A} (m : W -> gmap string A) w : (range m w).1 ≡ₚ (map_to_list (m w)).*2.
Proof. cbn. by rewrite in_order_perm. Qed.
Lemma elem_of_range {A} (m : W -> gmap string A) w x : x ∈ (range m w).1 <-> exists k, m w !! k = Some x.
Proof.
  rewrite range_perm, list_elem_of_fmap. split.
  - intros ([k y] & -> & Hk). exists k. by apply elem_of_map_to_list.
  - intros [k Hk]. exists (k, x). by rewrite elem_of_map_to_list.
Qed.
Lemma elem_of_filter_list {A} (P : A -> bool) l x : x ∈ List.filter P l <-> x ∈ l /\ P x = true.
Proof. by rewrite !list_elem_of_In, List.filter_In. Qed.

(** A pool is sorted and has only available VMs of the provider; it has at most [limit] of
    them, and fewer only when there are no more. *)
Theorem pool_spec provider limit w : 0 <= limit ->
  exists pool, (VMGetAvailablePool provider limit w).1 = Ok pool /\
  let fits v := bool_decide (vm_Provider v = provider) && IsAvailable v in
  (forall v, v ∈ pool -> (exists id, mv_vms w !! id = Some v) /\ fits v = true) /\
  Sorted oldest_vm pool /\
  (0 < limit -> Z.of_nat (length pool) <= limit) /\
  (limit = 0 \/ Z.of_nat (length pool) < limit -> forall id v, mv_vms w !! id = Some v -> fits v = true -> v ∈ pool).
Proof.
  intros Hl. unfold VMGetAvailablePool. rewrite bool_decide_eq_false_2 by lia. unfold bind. pose proof (elem_of_range mv_vms w) as Hr.
  destruct (range mv_vms w) as [vms w']. cbn [fst] in Hr. eexists. split; [reflexivity |]. cbv zeta.
  set (fit := List.filter _ vms). set (chosen := if bool_decide (0 < limit) then _ else fit).
  assert (Hsub : forall v, v ∈ chosen -> v ∈ fit).
  { intros v. unfold chosen. case_bool_decide; [| done]. intros Hv. rewrite <- (take_drop (Z.to_nat limit) fit). apply elem_of_app. by left. }
  split_and!.
  - intros v. rewrite merge_sort_Permutation. intros [Hv Hf]%Hsub%elem_of_filter_list. split; [by apply Hr | done].
  - apply Sorted_merge_sort. intros a b. unfold oldest_vm. lia.
  - intros Hp. rewrite merge_sort_Permutation. unfold chosen. rewrite bool_decide_eq_true_2 by done. rewrite length_take. lia.
  - intros Hd id v Hv Hf. rewrite merge_sort_Permutation. assert (Hin : v ∈ fit) by (apply elem_of_filter_list; split; [apply Hr; eauto | done]).
    revert Hd. rewrite merge_sort_Permutation. unfold chosen. destruct (bool_decide (0 < limit)) eqn:Hp; [apply bool_decide_eq_true in Hp | done]. intros [E0 | Hd]; [lia |].
    rewrite length_take in Hd. rewrite take_ge; [done |]. lia.
Qed.

(** The loops of ListRecent sort. *)
Definition later (a b : PersistedRuntimeEvent) : Prop := pe_CreatedAt b <= pe_CreatedAt a.
Lemma exchange_spec l : forall x m r, exchange x l = (m, r) -> m :: r ≡ₚ x :: l /\ later m x /\ Forall (later m) r.
Proof.
  induction l as [|y l IH]; intros x m r; cbn; [intros [= <- <-]; split_and!; [done | unfold later; lia | constructor] |].
  case_bool_decide as Hxy.
  - destruct (exchange y l) as [m' r'] eqn:E. intros [= <- <-]. destruct (IH _ _ _ E) as (Hp & Hm & Hr). split_and!.
    + by rewrite Permutation_swap, Hp.
    + unfold later in *. lia.
    + constructor; [unfold later in *; lia | done].
  - destruct (exchange x l) as [m' r'] eqn:E. intros [= <- <-]. destruct (IH _ _ _ E) as (Hp & Hm & Hr). split_and!.
    + rewrite Permutation_swap, Hp. apply Permutation_swap.
    + done.
    + constructor; [unfold later in *; lia | done].
Qed.
Lemma exchange_sorts n l : (length l <= n)%nat -> exchange_sort n l ≡ₚ l /\ StronglySorted later (exchange_sort n l).
Proof.
  revert l. induction n as [|n IH]; intros [|x l] Hn; cbn in *; try (split; [done | by apply SSorted_nil]); [lia |].
  destruct (exchange x l) as [m r] eqn:E. apply exchange_spec in E as (Hp & Hm & Hr).
  assert (Hlen : length r = length l) by (apply Permutation_length in Hp; cbn in Hp; lia). destruct (IH r) as [Hpr Hs]; [lia |]. split.
  - by rewrite Hpr, Hp.
  - constructor; [done |]. by rewrite Hpr.
Qed.

(** A VM goes to one chat: assigning it again fails and changes nothing. *)
Lemma assigned_once vmID c1 c2 d1 d2 w v w' : VMAssignToChatIfAvailable vmID c1 d1 w = (Ok v, w') ->
  VMAssignToChatIfAvailable vmID c2 d2 w' = (Err (BadRequest "VM is not available"), w').
Proof.
  unfold VMAssignToChatIfAvailable. destruct (mv_vms w !! vmID) as [v0|]; [| done]. destruct (negb _); [done |]. destruct w as [vms ls times tick]. cbn.
  intros [= <- <-]. cbn. rewrite lookup_insert_eq. by destruct v0.
Qed.

(** Leases are kept under their VM and are active. *)
Definition leases_ok (w : W) : Prop := forall id l, mv_leases w !! id = Some l -> le_VMID l = id /\ le_ReleasedAt l = None.
Lemma leases_assign vmID c d w : leases_ok w -> leases_ok (VMAssignToChatIfAvailable vmID c d w).2.
Proof.
  intros Hw. unfold VMAssignToChatIfAvailable. destruct (mv_vms w !! vmID) as [v|]; [| done]. destruct (negb _); [done |]. destruct w as [vms ls times tick]. cbn.
  intros id l. cbn. destruct (decide (id = vmID)) as [->|Hne]; [rewrite lookup_insert_eq; by intros [= <-] | rewrite lookup_insert_ne by done; apply Hw].
Qed.
Lemma leases_release vmID w : leases_ok w -> leases_ok (VMReleaseActiveLeaseByVM vmID w).2 /\ mv_leases (VMReleaseActiveLeaseByVM vmID w).2 !! vmID = None.
Proof.
  intros Hw. unfold VMReleaseActiveLeaseByVM. destruct (mv_leases w !! vmID) as [l|] eqn:El; [| done]. destruct w as [vms ls times tick]. cbn in *.
  split; [| apply lookup_delete_eq]. intros id l' Hl. cbn in Hl. apply lookup_delete_Some in Hl as [_ Hl]. by apply Hw.
Qed.

(** So a VM whose lease was released is not found again by its chat. *)
Lemma released_is_forgotten vmID w : leases_ok w -> mv_leases w !! vmID = None ->
  forall chatID P v, v ∈ (leased_vms chatID P w).1 -> mv_vms w !! vmID = Some v -> exists id, id <> vmID /\ mv_vms w !! id = Some v.
Proof.
  intros Hw Hn chatID P v. unfold leased_vms, leases_of_chat, bind. pose proof (elem_of_range mv_leases w) as Hr.
  destruct (range mv_leases w) as [ls w'] eqn:E. assert (Hvms : mv_vms w' = mv_vms w) by (injection E as _ <-; by destruct w). cbn in *.
  rewrite elem_of_filter_list, list_elem_of_omap. intros [(l & Hl & Hv) _] _. rewrite merge_sort_Permutation, elem_of_filter_list in Hl.
  destruct Hl as [[k Hk]%Hr _]. destruct (Hw k l Hk) as [Hid _]. exists (le_VMID l). split; [| by rewrite <- Hvms]. intros Heq. rewrite <- Hid, Heq in Hk. congruence.
Qed.
End repository.

Definition sample_order : MapOrder := {| in_order _ _ l := l; in_order_perm _ _ _ := Permutation_refl _ |}.
Lemma pool_spec_witness : exists pool, (VMGetAvailablePool (MO := sample_order) ProviderFirecracker 3 {| mv_vms := ∅; mv_leases := ∅; mv_times := fun _ => 0; mv_tick := 0 |}).1 = Ok pool.
Proof.
  destruct (pool_spec (MO := sample_order) ProviderFirecracker 3 {| mv_vms := ∅; mv_leases := ∅; mv_times := fun _ => 0; mv_tick := 0 |} ltac:(done)) as (pool & E & _).
  by exists pool.
Defined.
