(* ===== verification/PgEnv.v ===== *)
(** * The writes of the environments table: src/repository/postgres/environment.go

    Create, Update and Delete with the constraints of the table (its primary key, the enum of
    types, the reference of vm_instances), and what they keep: the database invariant, the
    environments of the VMs, the creation time. The reads are in PgRepo, whose table holds
    entities: the columns of a row, among them the limits as JSON, are below, with the proof
    that a stored entity is read back. *)

From S2P Require Import Prelude Exception Naming GoLib Domain World PgRepo IPAlloc Hoare Invariants Json ExecProtocol PgTables.

Local Open Scope go_scope.

(** The enum environment_type of the migrations. *)
Definition environment_type : list string := ["alpine"; "python"; "node"; "ubuntu"; "bun"; "uv"].
Definition put_env (e : Environment) (db : DB) : DB := db <| db_envs := <[env_ID e := e]> (db_envs db) |>.
(** vm_instances.environment_id REFERENCES environments (id) *)
Definition env_in_use (db : DB) (k : string) : bool :=
  existsb (fun r => bool_decide (r_environment_id r = k)) (rows db).

Section Writes.
Context {B S : Type} (sv : Server).
Abbreviation W := (World B S).

(** The columns a statement binds, as the server reads them. *)
Definition env_row (env : Environment) : res Environment :=
  do k := read_uuid sv (env_ID env) in
  require (bool_decide (env_Type env ∈ environment_type)) (pq_enum "environment_type") (
  do metadata := read_jsonb sv (env_Metadata env) in
  Ok (env <| env_ID := k |> <| env_Metadata := metadata |>
          <| env_CreatedAt := sv_timestamp sv (env_CreatedAt env) |>
          <| env_UpdatedAt := sv_timestamp sv (env_UpdatedAt env) |>)).

Definition EnvCreate (env : Environment) : M W (res unit) :=
  run "create environment" (fun db =>
    match env_row env with
    | Err e => (Err e, db)
    | Ok row => match db_envs db !! env_ID row with
                | Some _ => (Err (pq_unique "environments_pkey"), db)
                | None => (Ok tt, put_env row db)
                end
    end).

(** Every column but created_at. *)
Definition EnvUpdate (env : Environment) : M W (res unit) :=
  let? affected := run "update environment" (fun db =>
    match env_row env with
    | Err e => (Err e, db)
    | Ok row => match db_envs db !! env_ID row with
                | None => (Ok false, db)
                | Some old => (Ok true, put_env (row <| env_CreatedAt := env_CreatedAt old |>) db)
                end
    end) in
  if (affected : bool) then ret (Ok tt) else ret (Err (NotFound "environment" (env_ID env))).

Definition EnvDelete (id : string) : M W (res unit) :=
  let? affected := run "delete environment" (fun db =>
    match read_uuid sv id with
    | Err e => (Err e, db)
    | Ok k => match db_envs db !! k with
              | None => (Ok false, db)
              | Some _ => if env_in_use db k then (Err (pq_fkey "vm_instances_environment_id_fkey"), db)
                          else (Ok true, db <| db_envs := delete k (db_envs db) |>)
              end
    end) in
  if (affected : bool) then ret (Ok tt) else ret (Err (NotFound "environment" id)).

(** ** What the writes leave alone *)

(** Only the environments differ. *)
Definition same_but_envs (db db' : DB) : Prop := db' = db <| db_envs := db_envs db' |>.

#[export] Instance same_but_envs_refl : Reflexive same_but_envs.
Proof. intros []. reflexivity. Qed.
#[export] Instance same_but_envs_trans : Transitive same_but_envs.
Proof. intros a b c H1 H2. red in H1, H2 |- *. rewrite H2, H1. reflexivity. Qed.
Lemma put_env_same e db : same_but_envs db (put_env e db).
Proof. reflexivity. Qed.

(** The invariant of the tables needs the environments of the VMs, nothing else of them. *)
Lemma db_ok_envs {CL : ChainLimit} db db' : same_but_envs db db' ->
  (forall r, r ∈ rows db -> is_Some (db_envs db !! r_environment_id r) -> is_Some (db_envs db' !! r_environment_id r)) ->
  db_ok db -> db_ok db'.
Proof.
  intros ->. cbn. intros He [].
  constructor; cbn; [assumption..| |assumption|assumption|assumption|assumption|assumption|assumption|assumption|assumption].
  intros i r Hr. apply He; eauto. unfold rows. apply list_elem_of_fmap. exists (i, r).
  split; [done | by apply elem_of_map_to_list].
Qed.

Lemma put_env_keys e db k : is_Some (db_envs db !! k) -> is_Some (db_envs (put_env e db) !! k).
Proof. cbn. intros H. destruct (decide (env_ID e = k)) as [<-|Hne]; [rewrite lookup_insert_eq | rewrite lookup_insert_ne by done]; eauto. Qed.

Lemma env_in_use_false db k r : env_in_use db k = false -> r ∈ rows db -> r_environment_id r <> k.
Proof.
  unfold env_in_use. intros H Hr Hk. apply not_true_iff_false in H. apply H, existsb_exists.
  exists r. split; [by apply list_elem_of_In | by apply bool_decide_eq_true].
Qed.

(** One statement of this file either leaves the tables or changes one environment. *)
Inductive env_step (db : DB) : DB -> Prop :=
| step_none : env_step db db
| step_put e : env_step db (put_env e db)
| step_drop k : env_in_use db k = false -> env_step db (db <| db_envs := delete k (db_envs db) |>).

Lemma EnvCreate_step env w : env_step (w_db w) (w_db (EnvCreate env w).2).
Proof.
  unfold EnvCreate. rewrite run_eq. destruct (or_fault _ _); [constructor |]. cbn.
  destruct (env_row env); cbn; [| constructor]. destruct (db_envs _ !! _); constructor.
Qed.
Lemma EnvUpdate_step env w : env_step (w_db w) (w_db (EnvUpdate env w).2).
Proof.
  unfold EnvUpdate, bind_ok. rewrite run_eq. destruct (or_fault _ _); [constructor |]. cbn.
  destruct (env_row env); cbn; [| constructor]. destruct (db_envs _ !! _); constructor.
Qed.
Lemma EnvDelete_step id w : env_step (w_db w) (w_db (EnvDelete id w).2).
Proof.
  unfold EnvDelete, bind_ok. rewrite run_eq. destruct (or_fault _ _); [constructor |]. cbn.
  destruct (read_uuid sv id) as [k|]; cbn; [| constructor]. destruct (db_envs _ !! k); [|constructor].
  destruct (env_in_use _ k) eqn:E; [constructor | by apply step_drop].
Qed.

Lemma env_step_ok {CL : ChainLimit} db db' : env_step db db' -> db_ok db -> db_ok db'.
Proof.
  destruct 1 as [|e|k Hk]; [done | |]; apply db_ok_envs; try done.
  - intros r _. apply put_env_keys.
  - cbn. intros r Hr Hs. rewrite lookup_delete_ne; [done |]. intros ->. by eapply env_in_use_false.
Qed.

Inductive EnvOp := OpCreate (env : Environment) | OpUpdate (env : Environment) | OpDelete (id : string).
Definition env_op (o : EnvOp) : M W (res unit) :=
  match o with OpCreate e => EnvCreate e | OpUpdate e => EnvUpdate e | OpDelete id => EnvDelete id end.

(** Every write keeps the invariant of the tables, whatever fails; in particular no VM ever
    loses its environment. *)
Theorem env_writes_keep_db_ok {CL : ChainLimit} o w : db_ok (w_db w) -> db_ok (w_db (env_op o w).2).
Proof. apply env_step_ok. destruct o; [apply EnvCreate_step | apply EnvUpdate_step | apply EnvDelete_step]. Qed.

(** ** Reading back *)

Lemma EnvGetByID_hit id (w : W) e : db_envs (w_db w) !! id = Some e -> or_fault (w_env w) (w_tick w) = None ->
  (EnvGetByID id w).1 = Ok e.
Proof. intros H F. unfold EnvGetByID, bind_ok. rewrite run_eq, F. cbn. by rewrite H. Qed.

(** A created environment is read back under its identifier as the server keeps it. *)
Theorem EnvCreate_read env (w w' : W) row : EnvCreate env w = (Ok tt, w') -> env_row env = Ok row ->
  or_fault (w_env w') (w_tick w') = None -> (EnvGetByID (env_ID row) w').1 = Ok row.
Proof.
  unfold EnvCreate. rewrite run_eq. destruct (or_fault (w_env w) _); [done |]. cbn.
  destruct (env_row env) as [r|]; cbn; [| done]. destruct (db_envs _ !! _); cbn; [done |].
  intros [= <-] [= <-] F. apply EnvGetByID_hit; [| done]. apply lookup_insert_eq.
Qed.

(** An update replaces every column but the creation time; one that finds no row says so and
    changes nothing. *)
Theorem EnvUpdate_result env w : match EnvUpdate env w with
  | (Ok _, w') => exists row old, env_row env = Ok row /\ db_envs (w_db w) !! env_ID row = Some old /\
      w_db w' = put_env (row <| env_CreatedAt := env_CreatedAt old |>) (w_db w)
  | (Err e, w') => w_db w' = w_db w /\
      (e = NotFound "environment" (env_ID env) -> exists row, env_row env = Ok row /\ db_envs (w_db w) !! env_ID row = None)
  end.
Proof.
  unfold EnvUpdate, bind_ok. rewrite run_eq. destruct (or_fault _ _); [done |]. cbn.
  destruct (env_row env) as [r|]; cbn; [| done]. destruct (db_envs _ !! _) eqn:E; cbn; eauto.
Qed.

(** Deleting removes exactly one environment that no VM uses; every failure leaves the tables. *)
Theorem EnvDelete_result id w : match EnvDelete id w with
  | (Ok _, w') => exists k, read_uuid sv id = Ok k /\ is_Some (db_envs (w_db w) !! k) /\ env_in_use (w_db w) k = false /\
      w_db w' = (w_db w) <| db_envs := delete k (db_envs (w_db w)) |>
  | (Err _, w') => w_db w' = w_db w
  end.
Proof.
  unfold EnvDelete, bind_ok. rewrite run_eq. destruct (or_fault _ _); [done |]. cbn.
  destruct (read_uuid sv id) as [k|]; cbn; [| done]. destruct (db_envs _ !! k) eqn:E; cbn; [| done].
  destruct (env_in_use _ k) eqn:U; cbn; [done |]. exists k. rewrite E. eauto.
Qed.

End Writes.

(** ** Columns *)

(** environmentRow. The times are sql.NullTime: the zero time is 0. *)
Record environmentRow := {
  er_ID : string; er_Type : string; er_ImagePath : string; er_ResourceLimits : string; er_Description : string;
  er_Metadata : option string; er_DiffSnapshots : bool; er_CreatedAt : option Z; er_UpdatedAt : option Z }.
Definition limits_json (l : ResourceLimits) : value :=
  VMap (int_field "vcpu" (rl_VCPU l) ++ int_field "memory_mb" (rl_MemoryMB l) ++ int_field "disk_mb" (rl_DiskMB l)).
Definition limits_decoder : decoder ResourceLimits := [
  ("vcpu", get_int (fun x r => r <| rl_VCPU := x |>)); ("memory_mb", get_int (fun x r => r <| rl_MemoryMB := x |>));
  ("disk_mb", get_int (fun x r => r <| rl_DiskMB := x |>))].
Definition no_limits : ResourceLimits := {| rl_VCPU := 0; rl_MemoryMB := 0; rl_DiskMB := 0 |}.
(** The arguments of an INSERT or UPDATE. *)
Definition environment_args (env : Environment) : environmentRow := {|
  er_ID := env_ID env; er_Type := env_Type env; er_ImagePath := env_ImagePath env;
  er_ResourceLimits := Marshal (limits_json (env_ResourceLimits env)); er_Description := env_Description env;
  er_Metadata := env_Metadata env; er_DiffSnapshots := env_DiffSnapshots env;
  er_CreatedAt := Some (env_CreatedAt env); er_UpdatedAt := Some (env_UpdatedAt env) |}.
(** json.Unmarshal into ResourceLimits: null leaves it at zero. *)
Definition Unmarshal_limits (t : string) : result string ResourceLimits :=
  match Unmarshal t with
  | None => Err "invalid JSON"
  | Some v => match decode_struct limits_decoder no_limits v with Some l => Ok l | None => Err "type mismatch" end
  end.
Definition mapEnvironmentRow (row : environmentRow) : res Environment :=
  match Unmarshal_limits (er_ResourceLimits row) with
  | Err why => Err (Internal (wrapf "decode environment resource limits: " (EText why)))
  | Ok resourceLimits => Ok {|
      env_ID := er_ID row; env_Type := er_Type row; env_ImagePath := er_ImagePath row; env_ResourceLimits := resourceLimits;
      env_Description := er_Description row; env_Metadata := er_Metadata row; env_DiffSnapshots := er_DiffSnapshots row;
      env_CreatedAt := default 0 (er_CreatedAt row); env_UpdatedAt := default 0 (er_UpdatedAt row) |}
  end.

Definition limits_int (l : ResourceLimits) : Prop := int_ok (rl_VCPU l) /\ int_ok (rl_MemoryMB l) /\ int_ok (rl_DiskMB l).
Lemma limits_roundtrip l : limits_int l -> Unmarshal_limits (Marshal (limits_json l)) = Ok l.
Proof.
  intros (H1 & H2 & H3). unfold Unmarshal_limits. rewrite Unmarshal_Marshal by (unfold limits_json; members_printable).
  enough (decode_struct limits_decoder no_limits (limits_json l) = Some l) as -> by done.
  unfold int_ok in *. destruct l as [a b c]. unfold limits_json. cbn [rl_VCPU rl_MemoryMB rl_DiskMB] in *. decode_fields.
Qed.
(** JSONB keeps the members sorted by the length of the key: they are read all the same. *)
Lemma limits_jsonb_order l : limits_int l ->
  Unmarshal_limits (Marshal (VMap (int_field "vcpu" (rl_VCPU l) ++ int_field "disk_mb" (rl_DiskMB l) ++ int_field "memory_mb" (rl_MemoryMB l)))) = Ok l.
Proof.
  intros (H1 & H2 & H3). unfold Unmarshal_limits. rewrite Unmarshal_Marshal by members_printable.
  enough (decode_struct limits_decoder no_limits
    (VMap (int_field "vcpu" (rl_VCPU l) ++ int_field "disk_mb" (rl_DiskMB l) ++ int_field "memory_mb" (rl_MemoryMB l))) = Some l) as -> by done.
  unfold int_ok in *. destruct l as [a b c]. cbn [rl_VCPU rl_MemoryMB rl_DiskMB] in *. decode_fields.
Qed.
(** What is written is read back as the same entity. *)
Theorem environment_row_roundtrip env : limits_int (env_ResourceLimits env) -> mapEnvironmentRow (environment_args env) = Ok env.
Proof. intros H. unfold mapEnvironmentRow.
  change (er_ResourceLimits (environment_args env)) with (Marshal (limits_json (env_ResourceLimits env))).
  rewrite limits_roundtrip by done. by destruct env. Qed.
(** A row whose limits are not such an object is an internal error, not an entity with wrong
    limits; but a null is an environment without CPUs. *)
Example limits_null_is_zero : Unmarshal_limits "null" = Ok no_limits.
Proof. reflexivity. Qed.
Example limits_of_text : Unmarshal_limits (Marshal (VMap (str_field "vcpu" "2"))) = Err "type mismatch".
Proof. reflexivity. Qed.

(** ** On the sample tables *)

Definition sample_server : Server := {|
  sv_uuid := fun s => if bool_decide (s = "") then None else Some s; sv_timestamp := fun t => t;
  sv_jsonb := Some; sv_fault := fun _ => None; sv_now := fun n => Z.of_nat n; sv_newid := fun n => fmt_d (Z.of_nat n) |}.

Example delete_env_in_use : (EnvDelete sample_server "env-1" sample_world).1 =
  Err (dberr "delete environment" (pq_fkey "vm_instances_environment_id_fkey")).
Proof. vm_compute. reflexivity. Qed.
Example create_env_twice : let w := (EnvCreate sample_server (sample_environment <| env_ID := "env-2" |>) sample_world).2 in
  (EnvCreate sample_server (sample_environment <| env_ID := "env-2" |>) w).1 =
  Err (dberr "create environment" (pq_unique "environments_pkey")).
Proof. vm_compute. reflexivity. Qed.
Example no_such_type : (EnvCreate sample_server (sample_environment <| env_ID := "e" |> <| env_Type := "go" |>) sample_world).1 =
  Err (dberr "create environment" (pq_enum "environment_type")).
Proof. vm_compute. reflexivity. Qed.
