(* ===== verification/Seed.v ===== *)
(** * Seeding the environments: cmd/seed/main.go

    The rows of a JSON file are written in one transaction, each as an INSERT that updates the
    row it finds. The transaction works on a copy of the tables that its commit installs;
    which statements fail, and whether a commit that reported a failure took effect, is part
    of the world. *)

From S2P Require Import Prelude Exception Naming Domain World PgRepo IPAlloc Hoare Invariants Json ExecProtocol PgTables PgEnv.

Local Open Scope go_scope.

(** ** The seed file *)

Record environmentSeed := {
  es_ID : string; es_Type : string; es_ImagePath : string; es_VCPU : Z; es_MemoryMB : Z; es_DiskMB : Z; es_Description : string }.
Definition zero_seed : environmentSeed :=
  {| es_ID := ""; es_Type := ""; es_ImagePath := ""; es_VCPU := 0; es_MemoryMB := 0; es_DiskMB := 0; es_Description := "" |}.
Definition environmentSeed_decoder : decoder environmentSeed := [
  ("id", get_str (fun x r => r <| es_ID := x |>)); ("type", get_str (fun x r => r <| es_Type := x |>));
  ("image_path", get_str (fun x r => r <| es_ImagePath := x |>)); ("vcpu", get_int (fun x r => r <| es_VCPU := x |>));
  ("memory_mb", get_int (fun x r => r <| es_MemoryMB := x |>)); ("disk_mb", get_int (fun x r => r <| es_DiskMB := x |>));
  ("description", get_str (fun x r => r <| es_Description := x |>))].
(** [json.Unmarshal(content, &rows)] *)
Definition decode_rows (content : string) : option (list environmentSeed) :=
  match Unmarshal content with
  | Some VNil => Some []
  | Some (VList l) => mapM (decode_struct environmentSeed_decoder zero_seed) l
  | _ => None
  end.

(** google/uuid: a namespace is parsed, names are hashed in it. *)
Class UUIDLib := { uu_UUID : Type; uu_Parse : string -> res uu_UUID; uu_NewSHA1 : uu_UUID -> string -> string }.

(** How seeding ends: with nil, with an error, or in the panic of uuid.MustParse. *)
Inductive SeedResult := SeedOk | SeedError (e : error) | SeedPanic (msg : string).

(** int4 of Postgres *)
Definition int4 (z : Z) : bool := bool_decide (- 2 ^ 31 <= z < 2 ^ 31).
Definition pq_range (z : Z) : error := EPq "22003" ("value " +:+ dquote +:+ fmt_d z +:+ dquote +:+ " is out of range for type integer").

Section Seeding.
Context {UL : UUIDLib} {B S : Type} (sv : Server).
(** Whether a COMMIT that failed with this error took effect. *)
Context (landed : error -> bool).
(** os.ReadFile, and the decoder's complaint about a text it refuses *)
Context (ReadFile : string -> res string) (json_error : string -> error).
Abbreviation W := (World B S).

(** A statement of a transaction, on the tables the transaction sees. *)
Definition tx_stmt {A} (r : res A) : M W (res A) :=
  fun w => (match or_fault (w_env w) (w_tick w) with Some e => Err e | None => r end, tick w).
Definition tx_commit (db : DB) : M W (res unit) := fun w =>
  match or_fault (w_env w) (w_tick w) with
  | Some e => (Err e, tick w <| w_db := if landed e then db else w_db w |>)
  | None => (Ok tt, tick w <| w_db := db |>)
  end.

(** The row the upsert leaves, given the row it found; [t] is NOW(), the start of the
    transaction. A new row has the defaults of the columns the statement does not name. *)
Definition seeded (t : Z) (k : string) (row : environmentSeed) (old : option Environment) : Environment := {|
  env_ID := k; env_Type := es_Type row; env_ImagePath := es_ImagePath row;
  env_ResourceLimits := {| rl_VCPU := es_VCPU row; rl_MemoryMB := es_MemoryMB row; rl_DiskMB := es_DiskMB row |};
  env_Description := es_Description row;
  env_Metadata := match old with Some e => env_Metadata e | None => None end;
  env_DiffSnapshots := match old with Some e => env_DiffSnapshots e | None => false end;
  env_CreatedAt := match old with Some e => env_CreatedAt e | None => t end;
  env_UpdatedAt := t |}.

(** queryByID *)
Definition upsert (t : Z) (id : string) (row : environmentSeed) (db : DB) : res DB :=
  do k := read_uuid sv id in
  require (bool_decide (es_Type row ∈ environment_type)) (pq_enum "environment_type") (
  require (int4 (es_VCPU row)) (pq_range (es_VCPU row)) (
  require (int4 (es_MemoryMB row)) (pq_range (es_MemoryMB row)) (
  require (int4 (es_DiskMB row)) (pq_range (es_DiskMB row)) (
  Ok (put_env (seeded t k row (db_envs db !! k)) db))))).

Definition seed_id (ns : uu_UUID) (row : environmentSeed) : string :=
  if bool_decide (es_ID row = "") then uu_NewSHA1 ns ("environment:" +:+ es_Type row) else es_ID row.
Definition incomplete (row : environmentSeed) : bool := bool_decide (es_Type row = "") || bool_decide (es_ImagePath row = "").
Definition invalid_row : error := EText "invalid seed row: type and image_path are required".
Definition upsert_error (row : environmentSeed) (e : error) : error := wrapf ("upsert environment " +:+ fmt_q (es_Type row) +:+ ": ") e.

(** The loop over the rows, on the tables of the transaction. *)
Fixpoint upsert_rows (ns : uu_UUID) (t : Z) (rows : list environmentSeed) (db : DB) : M W (res DB) :=
  match rows with
  | [] => ret (Ok db)
  | row :: rows' =>
      if incomplete row then ret (Err invalid_row)
      else
        let* r := tx_stmt (upsert t (seed_id ns row) row db) in
        match r with
        | Err e => ret (Err (upsert_error row e))
        | Ok db' => upsert_rows ns t rows' db'
        end
  end.

Definition upsertEnvironments (namespace : string) (rows : list environmentSeed) : M W SeedResult :=
  let* t := now in
  let* began := tx_stmt (Ok tt) in
  match began with
  | Err e => ret (SeedError (wrapf "begin transaction: " e))
  | Ok _ =>
      match uu_Parse namespace with
      | Err e => ret (SeedPanic ("uuid: Parse(" +:+ namespace +:+ "): " +:+ Error e))
      | Ok ns =>
          let* r := (fun w => upsert_rows ns t rows (w_db w) w) in
          match r with
          | Err e => ret (SeedError e)
          | Ok db =>
              let* c := tx_commit db in
              ret (match c with Ok _ => SeedOk | Err e => SeedError (wrapf "commit seed transaction: " e) end)
          end
      end
  end.

Definition seedFromJSON (namespace filePath : string) : M W SeedResult :=
  match ReadFile filePath with
  | Err e => ret (SeedError (wrapf "read seed file: " e))
  | Ok content =>
      match decode_rows content with
      | None => ret (SeedError (wrapf "decode json seed: " (json_error content)))
      | Some [] => ret (SeedError (EText ("json seed file contains no rows: " +:+ filePath)))
      | Some rows => upsertEnvironments namespace rows
      end
  end.

(** ** What a run of the rows leaves *)

(** The rows one after the other, when no statement fails for reasons of its own. *)
Fixpoint seed_rows (ns : uu_UUID) (t : Z) (rows : list environmentSeed) (db : DB) : res DB :=
  match rows with
  | [] => Ok db
  | row :: rows' => if incomplete row then Err invalid_row
                    else match upsert t (seed_id ns row) row db with
                         | Err e => Err (upsert_error row e)
                         | Ok db' => seed_rows ns t rows' db'
                         end
  end.

(** The loop never touches the tables of others; what it computes is what [seed_rows] says. *)
Lemma upsert_rows_spec ns t rows : forall db w r w', upsert_rows ns t rows db w = (r, w') ->
  w_db w' = w_db w /\ w_env w' = w_env w /\ (forall db', r = Ok db' -> seed_rows ns t rows db = Ok db').
Proof.
  induction rows as [|row rows IH]; cbn [upsert_rows seed_rows]; intros db w r w'.
  { by intros [= <- <-]. }
  destruct (incomplete row); [by intros [= <- <-] |].
  unfold bind, tx_stmt. destruct (or_fault (w_env w) (w_tick w)); [by intros [= <- <-] |].
  destruct (upsert t (seed_id ns row) row db) as [db1|]; [| by intros [= <- <-]].
  intros Hrec. by apply IH in Hrec.
Qed.

(** A successful upsert writes the row under the identifier as the server keeps it. *)
Lemma upsert_Ok t id row db db' : upsert t id row db = Ok db' ->
  exists k, sv_uuid sv id = Some k /\ es_Type row ∈ environment_type /\ db' = put_env (seeded t k row (db_envs db !! k)) db.
Proof.
  unfold upsert, then_, require, read_uuid. destruct (sv_uuid sv id) as [k|]; [| done].
  destruct (bool_decide (es_Type row ∈ environment_type)) eqn:T; [| done].
  destruct (int4 (es_VCPU row)), (int4 (es_MemoryMB row)), (int4 (es_DiskMB row)); [|done..].
  intros [= <-]. exists k. split_and!; [done | by apply bool_decide_eq_true in T | done].
Qed.

(** The last row with this identifier. *)
Definition row_key (ns : uu_UUID) (row : environmentSeed) : option string := sv_uuid sv (seed_id ns row).
Fixpoint last_row (ns : uu_UUID) (k : string) (rows : list environmentSeed) : option environmentSeed :=
  match rows with
  | [] => None
  | row :: rows' => match last_row ns k rows' with
                    | Some r => Some r
                    | None => if bool_decide (row_key ns row = Some k) then Some row else None
                    end
  end.

(** What seeding does to the environment [k]. *)
Definition seeded_with (ns : uu_UUID) (t : Z) (rows : list environmentSeed) (k : string) (old : option Environment) : option Environment :=
  match last_row ns k rows with Some row => Some (seeded t k row old) | None => old end.

Lemma seeded_twice t k row row' old : seeded t k row' (Some (seeded t k row old)) = seeded t k row' old.
Proof. by destruct old. Qed.

Lemma seed_rows_lookup ns t rows : forall db db', seed_rows ns t rows db = Ok db' ->
  same_but_envs db db' /\ forall k, db_envs db' !! k = seeded_with ns t rows k (db_envs db !! k).
Proof.
  induction rows as [|row rows IH]; cbn [seed_rows]; intros db db'; [by intros [= <-] |].
  destruct (incomplete row); [done |]. destruct (upsert _ _ row db) as [db1|] eqn:E; [| done]. intros H.
  apply IH in H as [H1 H2]. apply upsert_Ok in E as (j & Hj & _ & ->).
  split; [etransitivity; [apply put_env_same | exact H1] |].
  intros k. rewrite H2. unfold seeded_with. cbn [last_row]. unfold row_key. rewrite Hj. cbn.
  destruct (decide (j = k)) as [<-|Hne].
  - rewrite lookup_insert_eq, bool_decide_eq_true_2 by done.
    destruct (last_row ns j rows) as [r|]; [| done]. by rewrite seeded_twice.
  - rewrite lookup_insert_ne, bool_decide_eq_false_2 by congruence. by destruct (last_row ns k rows).
Qed.

(** C39: The whole command: either every row of the file is in the tables and the command says so,
    or it reports a failure and the tables are as before; only a failing commit may have
    taken effect, and then with every row. *)
Theorem seeding_all_or_nothing namespace path w : match seedFromJSON namespace path w with
  | (SeedOk, w') => exists content rows ns t, ReadFile path = Ok content /\ decode_rows content = Some rows /\ rows <> [] /\
      uu_Parse namespace = Ok ns /\ seed_rows ns t rows (w_db w) = Ok (w_db w')
  | (SeedPanic _, w') => is_Ok (uu_Parse namespace) = false /\ w_db w' = w_db w
  | (SeedError e, w') => w_db w' = w_db w \/
      exists c content rows ns t, e = wrapf "commit seed transaction: " c /\ landed c = true /\ ReadFile path = Ok content /\
        decode_rows content = Some rows /\ uu_Parse namespace = Ok ns /\ seed_rows ns t rows (w_db w) = Ok (w_db w')
  end.
Proof.
  unfold seedFromJSON. destruct (ReadFile path) as [content|] eqn:R; [| by left].
  destruct (decode_rows content) as [rows|] eqn:D; [| by left]. destruct rows as [|row rows]; [by left |].
  remember (row :: rows) as l. assert (Hl : l <> []) by by subst. clear Heql row rows.
  unfold upsertEnvironments, bind, now, consult. set (t := or_now _ _). cbn -[upsert_rows tick].
  unfold tx_stmt. destruct (or_fault _ _); [by left |].
  destruct (uu_Parse namespace) as [ns|] eqn:P; [| done].
  destruct (upsert_rows ns t l _ _) as [[db|e] w'] eqn:U; apply upsert_rows_spec in U as (Hdb & _ & Hr); [| by left].
  cbn in Hdb, Hr. specialize (Hr db eq_refl). unfold tx_commit.
  destruct (or_fault _ _) as [c|]; cbn; [| by exists content, l, ns, t].
  destruct (landed c) eqn:L; [right; by exists c, content, l, ns, t | by left].
Qed.

(** Seeding keeps the invariant of the tables: only environments are written, and none goes. *)
Lemma seed_rows_ok {CL : ChainLimit} ns t rows db db' : seed_rows ns t rows db = Ok db' -> db_ok db -> db_ok db'.
Proof.
  intros [H1 H2]%seed_rows_lookup. apply db_ok_envs; [done |]. intros r _ H. rewrite H2. unfold seeded_with.
  destruct (last_row _ _ _); [eauto | done].
Qed.

(** Rows that were accepted once are accepted by any tables. *)
Lemma seed_rows_again ns t2 t1 rows : forall db db1 db', seed_rows ns t1 rows db = Ok db1 -> exists db2, seed_rows ns t2 rows db' = Ok db2.
Proof.
  induction rows as [|row rows IH]; cbn [seed_rows]; [eauto |]. intros db db1 db'.
  destruct (incomplete row); [done |]. unfold upsert, then_, require. destruct (read_uuid sv _); [| done].
  destruct (bool_decide _), (int4 (es_VCPU row)), (int4 (es_MemoryMB row)), (int4 (es_DiskMB row)); try done. apply IH.
Qed.

(** Seeding again with the same rows changes the time of the last update only. *)
Theorem seeding_idempotent ns t1 t2 rows db db1 : seed_rows ns t1 rows db = Ok db1 ->
  exists db2, seed_rows ns t2 rows db1 = Ok db2 /\ same_but_envs db1 db2 /\
    forall k, db_envs db2 !! k =
      (fun e => match last_row ns k rows with Some _ => e <| env_UpdatedAt := t2 |> | None => e end) <$> db_envs db1 !! k.
Proof.
  intros H. pose proof (seed_rows_lookup _ _ _ _ _ H) as [_ L1].
  destruct (seed_rows_again ns t2 t1 _ _ _ db1 H) as [db2 H2].
  exists db2. split; [done |]. apply seed_rows_lookup in H2 as [S2 L2]. split; [done |].
  intros k. rewrite L2, L1. unfold seeded_with. destruct (last_row ns k rows) as [row|]; [| by destruct (db_envs db !! k)].
  cbn. by destruct (db_envs db !! k).
Qed.

(** A seeded environment never gets differential snapshots: a new row has the default of the
    column, an old one keeps what it has, whatever the file says. *)
Theorem seeding_keeps_diff_snapshots ns t rows db db' k e : seed_rows ns t rows db = Ok db' -> db_envs db' !! k = Some e ->
  env_DiffSnapshots e = match db_envs db !! k with Some old => env_DiffSnapshots old | None => false end.
Proof.
  intros [_ H]%seed_rows_lookup. rewrite H. unfold seeded_with.
  destruct (last_row ns k rows); [intros [= <-]; by destruct (db_envs db !! k) | by intros ->].
Qed.
End Seeding.

(** ** The file of the repository *)

#[export] Instance sample_UUIDLib : UUIDLib :=
  { uu_UUID := string;
    uu_Parse s := if bool_decide (s = "") then Err (EText "invalid UUID length: 0") else Ok s;
    uu_NewSHA1 ns name := ns +:+ "/" +:+ name }.

Definition seed_row (type image description : string) : value := VMap [
  ("type", VStr type); ("image_path", VStr image); ("diff_snapshots", VBool true); ("vcpu", VInt 1); ("memory_mb", VInt 1024);
  ("disk_mb", VInt 2048); ("description", VStr description)].
(** seeds/environments.json, with shorter descriptions *)
Definition environments_json : string := Marshal (VList [
  seed_row "ubuntu" "/var/lib/firecracker/ubuntu-base.ext4" "Ubuntu"; seed_row "bun" "/var/lib/firecracker/bun-base.ext4" "Bun";
  seed_row "uv" "/var/lib/firecracker/uv-base.ext4" "Python with uv"]).

Definition seed_sample (ns : string) (content : string) :=
  seedFromJSON (B := unit) (S := unit) sample_server (fun _ => false) (fun _ => Ok content) EText ns "seeds/environments.json" sample_world.

Example seeded_environments : let '(r, w) := seed_sample "ns" environments_json in
  r = SeedOk /\ (env_DiffSnapshots <$> db_envs (w_db w) !! "ns/environment:uv") = Some false /\
  length (map_to_list (db_envs (w_db w))) = 4%nat.
Proof. vm_compute. done. Qed.
Example seed_bad_row : let '(r, w) := seed_sample "ns" (Marshal (VList [seed_row "uv" "/i" ""; seed_row "uv" "" ""])) in
  r = SeedError invalid_row /\ w_db w = sample_db.
Proof. vm_compute. done. Qed.
Example seed_no_namespace : (seed_sample "" environments_json).1 = SeedPanic "uuid: Parse(): invalid UUID length: 0".
Proof. vm_compute. done. Qed.
