(* ===== verification/Grpc.v ===== *)
(** * gRPC: pkg/grpc/status.go and middleware/grpc/interceptors.go

    The mapping of application errors to status codes and back, and the interceptors with the
    chains that ServerOptions builds. The codes, status values and metadata of
    google.golang.org/grpc are used as they are documented. A handler is a program over an
    abstract state that returns a response and an error, or panics. *)

From S2P Require Import Prelude Exception.

Local Open Scope go_scope.

(** ** Status codes and errors *)

(** google.golang.org/grpc/codes *)
Inductive Code :=
| OK | Canceled | Unknown | InvalidArgument | DeadlineExceeded | NotFoundCode | AlreadyExists | PermissionDenied
| ResourceExhausted | FailedPrecondition | Aborted | OutOfRange | Unimplemented | InternalCode | Unavailable | DataLoss | Unauthenticated.
#[export] Instance Code_eq_dec : EqDecision Code.
Proof. solve_decision. Defined.
Definition code_name (c : Code) : string :=
  match c with
  | OK => "OK" | Canceled => "Canceled" | Unknown => "Unknown" | InvalidArgument => "InvalidArgument"
  | DeadlineExceeded => "DeadlineExceeded" | NotFoundCode => "NotFound" | AlreadyExists => "AlreadyExists"
  | PermissionDenied => "PermissionDenied" | ResourceExhausted => "ResourceExhausted"
  | FailedPrecondition => "FailedPrecondition" | Aborted => "Aborted" | OutOfRange => "OutOfRange"
  | Unimplemented => "Unimplemented" | InternalCode => "Internal" | Unavailable => "Unavailable"
  | DataLoss => "DataLoss" | Unauthenticated => "Unauthenticated"
  end.

(** An error that crosses a gRPC call: of a status, wrapping one, or any other. *)
Inductive gerror :=
| GStatus (c : Code) (msg : string)
| GWrap (pre : string) (g : gerror) (post : string)
| GOther (e : error).
Fixpoint gError (g : gerror) : string :=
  match g with
  | GStatus c msg => "rpc error: code = " +:+ code_name c +:+ " desc = " +:+ msg
  | GWrap pre g post => pre +:+ gError g +:+ post
  | GOther e => Error e
  end.
(** status.Error: no error for the code OK. *)
Definition status_Error (c : Code) (msg : string) : option gerror := if bool_decide (c = OK) then None else Some (GStatus c msg).
Fixpoint status_of (g : gerror) : option (Code * string) :=
  match g with GStatus c msg => Some (c, msg) | GWrap _ g _ => status_of g | GOther _ => None end.
(** status.FromError: the status an error has or wraps; of a wrapped one the message is the
    text of the whole error. *)
Definition status_FromError (g : gerror) : option (Code * string) :=
  match g with GStatus c msg => Some (c, msg) | _ => (fun s => (s.1, gError g)) <$> status_of g end.
(** status.Code *)
Definition status_Code (err : option gerror) : Code :=
  match err with None => OK | Some g => match status_FromError g with Some (c, _) => c | None => Unknown end end.

(** ** status.go *)

Definition toGRPCCode (appCode : string) : Code :=
  if bool_decide (appCode = CodeNotFound) then NotFoundCode
  else if bool_decide (appCode = "UNAUTHORIZED") then Unauthenticated
  else if bool_decide (appCode = "FORBIDDEN") then PermissionDenied
  else if bool_decide (appCode ∈ [CodeBadRequest; "VALIDATION_ERROR"; "UNPROCESSABLE_ENTITY"]) then InvalidArgument
  else if bool_decide (appCode = CodeConflict) then AlreadyExists
  else if bool_decide (appCode = "TOO_MANY_REQUESTS") then ResourceExhausted
  else if bool_decide (appCode = "TIMEOUT") then DeadlineExceeded
  else if bool_decide (appCode = CodeServiceUnavailable) then Unavailable
  else InternalCode.
Definition toErrorCode (c : Code) : string :=
  match c with
  | NotFoundCode => CodeNotFound | Unauthenticated => "UNAUTHORIZED" | PermissionDenied => "FORBIDDEN"
  | InvalidArgument => CodeBadRequest | AlreadyExists => CodeConflict | ResourceExhausted => "TOO_MANY_REQUESTS"
  | DeadlineExceeded => "TIMEOUT" | Unavailable => CodeServiceUnavailable | _ => CodeInternalError
  end.
Definition toHTTPStatus (c : Code) : Z :=
  match c with
  | NotFoundCode => 404 | Unauthenticated => 401 | PermissionDenied => 403 | InvalidArgument => 400
  | AlreadyExists => 409 | ResourceExhausted => 429 | DeadlineExceeded => 408 | Unavailable => 503 | _ => 500
  end.

(** The argument is a pointer to an AppError: one of these, or nil. *)
Definition FromAppError (err : option error) : option gerror :=
  match err with
  | Some (EApp code msg _ _ _) => status_Error (toGRPCCode code) msg
  | _ => None
  end.
(** [exception.New(code, message, status)] *)
Definition exception_New (code msg : string) (status : Z) : error := EApp code msg status [] None.
(** An error that is not of a status is wrapped; [as_error] is that error as a Go value. *)
Definition ToAppError (as_error : gerror -> error) (err : option gerror) : option error :=
  match err with
  | None => None
  | Some g => match status_FromError g with
              | None => Some (Internal (as_error g))
              | Some (c, msg) => Some (exception_New (toErrorCode c) msg (toHTTPStatus c))
              end
  end.

(** The application errors that have a status code of their own. *)
Definition own_code (code : string) : bool :=
  bool_decide (code ∈ [CodeNotFound; "UNAUTHORIZED"; "FORBIDDEN"; CodeBadRequest; CodeConflict; "TOO_MANY_REQUESTS"; "TIMEOUT"; CodeServiceUnavailable; CodeInternalError]).

Lemma toGRPCCode_not_OK code : toGRPCCode code <> OK.
Proof. unfold toGRPCCode. repeat case_bool_decide; done. Qed.
Lemma FromAppError_status code msg st d k : FromAppError (Some (EApp code msg st d k)) = Some (GStatus (toGRPCCode code) msg).
Proof. cbn. unfold status_Error. by rewrite bool_decide_eq_false_2 by apply toGRPCCode_not_OK. Qed.
Lemma own_code_back code : own_code code = true -> toErrorCode (toGRPCCode code) = code.
Proof.
  unfold own_code. intros H%bool_decide_eq_true.
  repeat (apply elem_of_cons in H as [->|H]; [vm_compute; reflexivity |]). by apply elem_of_nil in H.
Qed.

(** An application error that crosses a call arrives with its message, and with its code when
    the code has a status of its own; the details of its fields and its cause do not cross. *)
Theorem status_roundtrip as_error code msg st d k :
  exists st', ToAppError as_error (FromAppError (Some (EApp code msg st d k))) = Some (EApp (toErrorCode (toGRPCCode code)) msg st' [] None) /\
  (own_code code = true -> toErrorCode (toGRPCCode code) = code) /\
  (own_code code = false -> toErrorCode (toGRPCCode code) = CodeBadRequest \/ toErrorCode (toGRPCCode code) = CodeInternalError).
Proof.
  rewrite FromAppError_status. exists (toHTTPStatus (toGRPCCode code)). split_and!; [done | apply own_code_back |].
  unfold own_code. intros H%bool_decide_eq_false. unfold toGRPCCode.
  repeat (case_bool_decide; [first [by left | subst code; exfalso; apply H; set_solver] |]). by right.
Qed.

(** The constructors of the errors keep their HTTP status, the one for validation does not. *)
Definition http_after (e : error) : option Z := StatusCode <$> ToAppError (fun g => EText (gError g)) (FromAppError (Some e)).
Example statuses_kept : Forall (fun e => http_after e = Some (StatusCode e))
  [Exception.NotFound "vm" "1"; Unauthorized ""; Forbidden ""; BadRequest "x"; Conflict "x"; Internal eof; ServiceUnavailable ""; TooManyRequests ""].
Proof. repeat constructor. Qed.
Example validation_becomes_400 : http_after (ValidationFailed []) = Some 400 /\ StatusCode (ValidationFailed []) = 422.
Proof. done. Qed.

(** ** interceptors.go *)

(** The request-scoped logger: its attributes. *)
Record RpcLogger := { lg_Method : string; lg_RequestID : string; lg_Streams : option (bool * bool) }.
Inductive RpcLog :=
| RpcCompleted (lg : RpcLogger) (code : string)
| PanicRecovered (lg : option RpcLogger) (panicErr : error) (method : string).   (* None: the default logger *)

(** What the context of a call carries: the incoming metadata and the logger. *)
Record GCtx := { gx_Metadata : option (gmap string (list string)); gx_Logger : option RpcLogger }.
(** How a call of Go code ends. *)
Inductive PanicValue := PanicError (e : error) | PanicOther (text : string).
Inductive Outcome (A : Type) := Returned (a : A) | Panicked (v : PanicValue).
Arguments Returned {A} a. Arguments Panicked {A} v.

Record GrpcWorld (S : Type) := { gw_logs : list RpcLog; gw_state : S }.
Arguments gw_logs {S} _. Arguments gw_state {S} _.

Definition requestIDMetaKey := "x-request-id".
Definition requestIDFromMeta (cx : GCtx) : string :=
  match gx_Metadata cx with
  | None => ""
  | Some md => match md !! requestIDMetaKey with Some (v :: _) => v | _ => "" end
  end.
(** [info.FullMethod == "" || info.FullMethod[0] != '/'] *)
Definition malformed (method : string) : bool :=
  match method with EmptyString => true | String c _ => negb (bool_decide (code c = 47)) end.
Definition malformed_error : option gerror := status_Error Unimplemented "malformed method name".
Definition internal_error : option gerror := status_Error InternalCode "internal server error".
Definition panic_error (v : PanicValue) : error := match v with PanicError e => e | PanicOther text => EText text end.

Section Interceptors.
Context {S Req Resp Stream : Type}.
Abbreviation W := (GrpcWorld S).

Definition write_log (l : RpcLog) : M W unit := fun w => (tt, w <| gw_logs := gw_logs w ++ [l] |>).

(** A response or nil, and an error or nil. *)
Definition UnaryResult : Type := option Resp * option gerror.
Definition UnaryHandler : Type := GCtx -> Req -> M W (Outcome UnaryResult).
Definition UnaryInterceptor : Type := GCtx -> Req -> string -> UnaryHandler -> M W (Outcome UnaryResult).

Definition UnaryPathValidation : UnaryInterceptor := fun cx req method handler =>
  if malformed method then ret (Returned (None, malformed_error)) else handler cx req.

Definition request_logger (cx : GCtx) (method : string) (streams : option (bool * bool)) : RpcLogger :=
  {| lg_Method := method; lg_RequestID := requestIDFromMeta cx; lg_Streams := streams |}.
(** A panic of the handler leaves before the line is logged. *)
Definition UnaryLogging : UnaryInterceptor := fun cx req method handler =>
  let lg := request_logger cx method None in
  let* o := handler (cx <| gx_Logger := Some lg |>) req in
  match o with
  | Panicked v => ret (Panicked v)
  | Returned (resp, err) =>
      let* _ := write_log (RpcCompleted lg (code_name (status_Code err))) in
      ret (Returned (resp, err))
  end.
(** The named results: no response, and the error the deferred function sets. *)
Definition UnaryRecovery : UnaryInterceptor := fun cx req method handler =>
  let* o := handler cx req in
  match o with
  | Returned r => ret (Returned r)
  | Panicked v =>
      let* _ := write_log (PanicRecovered (gx_Logger cx) (panic_error v) method) in
      ret (Returned (None, internal_error))
  end.
(** Validate() of the requests that have it: an error, or nil. *)
Context (Validate : Req -> option (M W (Outcome (option error)))).
Definition UnaryValidation : UnaryInterceptor := fun cx req method handler =>
  match Validate req with
  | None => handler cx req
  | Some validate =>
      let* o := validate in
      match o with
      | Panicked v => ret (Panicked v)
      | Returned (Some err) => ret (Returned (None, FromAppError (Some (FromError err))))
      | Returned None => handler cx req
      end
  end.

(** A stream with its context; wrappedStream overrides the latter. *)
Record ServerStream := { ss_Stream : Stream; ss_Context : GCtx }.
Record StreamServerInfo := { si_FullMethod : string; si_IsClientStream : bool; si_IsServerStream : bool }.
Definition StreamHandler : Type := ServerStream -> M W (Outcome (option gerror)).
Definition StreamInterceptor : Type := ServerStream -> StreamServerInfo -> StreamHandler -> M W (Outcome (option gerror)).

Definition StreamPathValidation : StreamInterceptor := fun ss info handler =>
  if malformed (si_FullMethod info) then ret (Returned malformed_error) else handler ss.
Definition StreamLogging : StreamInterceptor := fun ss info handler =>
  let lg := request_logger (ss_Context ss) (si_FullMethod info) (Some (si_IsClientStream info, si_IsServerStream info)) in
  let wrapped := ss <| ss_Context := (ss_Context ss) <| gx_Logger := Some lg |> |> in
  let* o := handler wrapped in
  match o with
  | Panicked v => ret (Panicked v)
  | Returned err =>
      let* _ := write_log (RpcCompleted lg (code_name (status_Code err))) in
      ret (Returned err)
  end.
Definition StreamRecovery : StreamInterceptor := fun ss info handler =>
  let* o := handler ss in
  match o with
  | Returned err => ret (Returned err)
  | Panicked v =>
      let* _ := write_log (PanicRecovered (gx_Logger (ss_Context ss)) (panic_error v) (si_FullMethod info)) in
      ret (Returned internal_error)
  end.

(** grpc.ChainUnaryInterceptor and grpc.ChainStreamInterceptor: the first interceptor is the
    outermost, the last one wraps the handler. *)
Definition ChainUnary (l : list UnaryInterceptor) (method : string) (handler : UnaryHandler) : UnaryHandler :=
  foldr (fun i h cx req => i cx req method h) handler l.
Definition ChainStream (l : list StreamInterceptor) (info : StreamServerInfo) (handler : StreamHandler) : StreamHandler :=
  foldr (fun i h ss => i ss info h) handler l.
(** ServerOptions *)
Definition unary_server : string -> UnaryHandler -> UnaryHandler :=
  ChainUnary [UnaryPathValidation; UnaryLogging; UnaryRecovery; UnaryValidation].
Definition stream_server : StreamServerInfo -> StreamHandler -> StreamHandler :=
  ChainStream [StreamPathValidation; StreamLogging; StreamRecovery].

(** ** What a call of the server is *)

(** What the interceptors make of an outcome: the result the client gets and the lines they log. *)
Definition settle {A} (lg : RpcLogger) (method : string) (failed : A) (err_of : A -> option gerror) (o : Outcome A) : A * list RpcLog :=
  match o with
  | Returned a => (a, [RpcCompleted lg (code_name (status_Code (err_of a)))])
  | Panicked v => (failed, [PanicRecovered (Some lg) (panic_error v) method; RpcCompleted lg (code_name (status_Code (err_of failed)))])
  end.

(** A unary call never panics. A malformed method is refused as unimplemented before
    anything runs or is logged. Otherwise the request is validated and handled under the
    request's logger, a panic of either becomes an internal error without a response, and
    exactly one completion line follows, with the code of the error the client gets. *)
Theorem unary_call_settled method handler cx req w :
  unary_server method handler cx req w =
  if malformed method then (Returned (None, malformed_error), w)
  else
    let lg := request_logger cx method None in
    let '(o, w1) := UnaryValidation (cx <| gx_Logger := Some lg |>) req method handler w in
    let '(r, lines) := settle lg method (None, internal_error) snd o in
    (Returned r, w1 <| gw_logs := gw_logs w1 ++ lines |>).
Proof.
  unfold unary_server. cbn [ChainUnary foldr]. unfold UnaryPathValidation. destruct (malformed method); [done |].
  unfold UnaryLogging, UnaryRecovery, bind, write_log. cbn zeta.
  destruct (UnaryValidation _ req method handler w) as [[[resp err]|v] w1]; cbn; [done |].
  by rewrite <-app_assoc.
Qed.
(** The same for streams, whose messages are not validated. *)
Theorem stream_call_settled info handler ss w :
  stream_server info handler ss w =
  if malformed (si_FullMethod info) then (Returned malformed_error, w)
  else
    let lg := request_logger (ss_Context ss) (si_FullMethod info) (Some (si_IsClientStream info, si_IsServerStream info)) in
    let '(o, w1) := handler (ss <| ss_Context := (ss_Context ss) <| gx_Logger := Some lg |> |>) w in
    let '(r, lines) := settle lg (si_FullMethod info) internal_error id o in
    (Returned r, w1 <| gw_logs := gw_logs w1 ++ lines |>).
Proof.
  unfold stream_server. cbn [ChainStream foldr]. unfold StreamPathValidation. destruct (malformed _); [done |].
  unfold StreamLogging, StreamRecovery, bind, write_log. cbn zeta.
  destruct (handler _ w) as [[err|v] w1]; cbn; [done |]. by rewrite <-app_assoc.
Qed.

(** A request that does not validate never reaches the handler: the world is the one the
    validation leaves, and the client gets the code of the application error. *)
Theorem invalid_request_stops cx req method handler validate w err w1 :
  Validate req = Some validate -> validate w = (Returned (Some err), w1) ->
  exists msg, UnaryValidation cx req method handler w =
    (Returned (None, Some (GStatus (toGRPCCode (match FromError err with EApp c _ _ _ _ => c | _ => "" end)) msg)), w1).
Proof.
  intros Hv Hw. unfold UnaryValidation, bind. rewrite Hv, Hw.
  destruct (FromError_app err) as (c & m & st & d & k & E).
  rewrite E, FromAppError_status. eauto.
Qed.
End Interceptors.
