(* ===== verification/Logging.v ===== *)
(** * Logging: pkg/log, middleware/logging.go and the internal server

    The level and handler a logger is built with; the middleware that logs every finished
    request, first as a wrapper of the response writer of net/http and then around whole
    responses; and the internal server (api/http/intra/server.go), whose chain it is in. *)

From S2P Require Import Prelude Exception Naming GoLib Domain World Json PgRepo IPAlloc Interfaces VMExec VMSnapshot VMResume VMService Hoare ExecProtocol Http Middleware Activator ActivatorServer.

Local Open Scope go_scope.

(** ** logger.go *)

(** log/slog: DEBUG, INFO, WARN and ERROR are -4, 0, 4 and 8. *)
Definition LevelInfo : Z := 0.
(** [strings.ToUpper] on the letters of a level name: the dotless i becomes an I. *)
Fixpoint upper_name (s : string) : string :=
  match s with
  | EmptyString => EmptyString
  | String a t =>
      match t with
      | String b t2 => if bool_decide (code a = 196 /\ code b = 177) then String (chr 73) (upper_name t2)
                       else String (if bool_decide (97 <= code a <= 122) then chr (code a - 32) else a) (upper_name t)
      | EmptyString => str1 (if bool_decide (97 <= code a <= 122) then chr (code a - 32) else a)
      end
  end.
(** [strings.IndexAny(s, "+-")], as the text before it and from it on *)
Fixpoint split_sign (s : string) : string * option string :=
  match s with
  | EmptyString => (EmptyString, None)
  | String c t => if bool_decide (code c = 43 \/ code c = 45) then (EmptyString, Some s)
                  else let '(a, b) := split_sign t in (String c a, b)
  end.
(** slog.Level.UnmarshalText *)
Definition level_UnmarshalText (s : string) : option Z :=
  let '(name, rest) := split_sign s in
  match (match rest with Some r => Atoi r | None => Some 0 end) with
  | None => None
  | Some offset =>
      let name := upper_name name in
      match (if bool_decide (name = "DEBUG") then Some (-4) else if bool_decide (name = "INFO") then Some 0
             else if bool_decide (name = "WARN") then Some 4 else if bool_decide (name = "ERROR") then Some 8 else None) with
      | Some l => Some (i64 (l + offset))
      | None => None
      end
  end.

Record LogConfig := { lc_Level : string; lc_TimeFormat : string; lc_AddSource : bool }.
Definition LogDefaultConfig : LogConfig := {| lc_Level := "info"; lc_TimeFormat := "2006-01-02T15:04:05Z07:00"; lc_AddSource := true |}.

(** The handlers of log/slog and of package tint, both on the standard output. *)
Inductive LogHandler := JSONHandler (level : Z) (addSource : bool) | TintHandler (level : Z) (timeFormat : string) (addSource : bool).
Definition newHandler (Getenv : string -> string) (cfg : LogConfig) : LogHandler :=
  let logLevel := default LevelInfo (level_UnmarshalText (lc_Level cfg)) in
  if bool_decide (lc_Level cfg = "production") || bool_decide (Getenv "ENVIRONMENT" = "production")
  then JSONHandler logLevel (lc_AddSource cfg) else TintHandler logLevel (lc_TimeFormat cfg) (lc_AddSource cfg).
(** The handler of the logger, and whether New warns about the level. *)
Definition NewLogger (Getenv : string -> string) (cfg : LogConfig) : LogHandler * bool :=
  (newHandler Getenv cfg, match level_UnmarshalText (lc_Level cfg) with Some _ => false | None => true end).

Example levels : map level_UnmarshalText ["debug"; "Info"; "warn+2"; "error-1"; "production"; ""; "info+x"] =
  [Some (-4); Some 0; Some 6; Some 7; None; None; None].
Proof. reflexivity. Qed.
(** The level that selects the JSON handler is refused as a level: the logger warns. *)
Theorem production_level_warns Getenv cfg : lc_Level cfg = "production" -> NewLogger Getenv cfg = (JSONHandler LevelInfo (lc_AddSource cfg), true).
Proof. unfold NewLogger, newHandler. by intros ->. Qed.

(** ** The response writer of the middleware *)

(** What a handler does to its writer; a flush goes to the writer below (Unwrap). *)
Inductive WriteOp := WriteHeader (status : Z) | WriteBody (b : string) | FlushBody.
(** net/http: the first status that is not informational is sent; writing or flushing a body
    sends 200 before it. *)
Definition informational (c : Z) : bool := bool_decide (100 <= c <= 199) && negb (bool_decide (c = 101)).
Definition net_write (sent : option Z) (op : WriteOp) : option Z :=
  match sent with
  | Some _ => sent
  | None => match op with WriteHeader c => if informational c then None else Some c | WriteBody _ | FlushBody => Some 200 end
  end.
Record responseWriter := { rw_ResponseWriter : option Z; rw_status : Z }.
Definition newResponseWriter : responseWriter := {| rw_ResponseWriter := None; rw_status := 200 |}.
Definition rw_write (rw : responseWriter) (op : WriteOp) : responseWriter :=
  {| rw_ResponseWriter := net_write (rw_ResponseWriter rw) op;
     rw_status := match op with WriteHeader c => c | _ => rw_status rw end |}.
Definition rw_run (ops : list WriteOp) : responseWriter := fold_left rw_write ops newResponseWriter.
(** When the handler returns, net/http sends 200 if nothing was sent. *)
Definition sent_status (ops : list WriteOp) : Z := default 200 (rw_ResponseWriter (rw_run ops)).

(** A handler that sets the status at most once, before any body and not to an informational
    one: the status that is logged is the one that was sent. *)
Definition sets_status (op : WriteOp) : bool := match op with WriteHeader _ => true | _ => false end.
Definition orderly (ops : list WriteOp) : bool :=
  match ops with
  | WriteHeader c :: ops' => negb (informational c) && negb (existsb sets_status ops')
  | _ => negb (existsb sets_status ops)
  end.
Lemma net_write_sent s ops : fold_left net_write ops (Some s) = Some s.
Proof. by induction ops. Qed.
Lemma rw_run_split ops : forall rw, fold_left rw_write ops rw =
  {| rw_ResponseWriter := fold_left net_write ops (rw_ResponseWriter rw); rw_status := rw_status (fold_left rw_write ops rw) |}.
Proof. induction ops as [|op ops IH]; intros rw; [by destruct rw |]. cbn. by rewrite IH. Qed.
Lemma no_status_kept ops : existsb sets_status ops = false -> forall rw, rw_status (fold_left rw_write ops rw) = rw_status rw.
Proof. induction ops as [|[] ops IH]; cbn; intros H rw; [done | done | by rewrite IH..]. Qed.
Lemma no_status_200 ops : existsb sets_status ops = false -> default 200 (fold_left net_write ops None) = 200.
Proof. destruct ops as [|[] ops]; cbn; intros H; [done | done | by rewrite net_write_sent..]. Qed.

Theorem logged_status_sent ops : orderly ops = true -> rw_status (rw_run ops) = sent_status ops.
Proof.
  unfold sent_status, rw_run. rewrite (rw_run_split ops newResponseWriter). cbn [rw_ResponseWriter newResponseWriter].
  destruct ops as [|[c|b|] ops]; intros H; [done | | |].
  - apply andb_true_iff in H as [Hi Hn]. apply negb_true_iff in Hi, Hn. cbn. rewrite no_status_kept by done.
    by rewrite Hi, net_write_sent.
  - apply negb_true_iff in H. rewrite no_status_kept, no_status_200; done.
  - apply negb_true_iff in H. rewrite no_status_kept, no_status_200; done.
Qed.
(** After a panic in the middle of a stream the log has the 500 of Recovery, the client the 200
    that was sent. *)
Example status_after_stream_panic : let ops := [WriteHeader 200; WriteBody "data"; FlushBody; WriteHeader 500; WriteBody "error"] in
  rw_status (rw_run ops) = 500 /\ sent_status ops = 200.
Proof. done. Qed.

(** ** The middleware around whole responses *)

(** The attributes of the request-scoped logger, and the line of a finished request. *)
Record RequestLog := { rl_request_id : string; rl_correlation_id : string; rl_method : string; rl_path : string; rl_status : Z }.

Section middleware.
Context {W : Type} (uuid_NewString : M W string) (write_log : RequestLog -> M W unit).

(** A panic of the handlers below passes without a line. *)
Definition Logging (next : Handler W) : Handler W := fun cx r =>
  let* resp := next cx r in
  match resp with
  | Err e => ret (Err e)
  | Ok resp =>
      let* _ := write_log {| rl_request_id := GetRequestID cx; rl_correlation_id := GetCorrelationID cx;
                             rl_method := hq_Method r; rl_path := hq_Path r; rl_status := hs_Status resp |} in
      ret (Ok resp)
  end.

(** The chain of both servers: CorrelationID, RequestID, Logging, Recovery. *)
Definition middleware_chain (h : Handler W) : Handler W :=
  CorrelationID uuid_NewString (RequestID uuid_NewString (Logging (Recovery h))).

(** Every request gets an answer and one line in the log, after its handler ran: with the
    method, the path and the status of the answer, and the identifiers of its headers. *)
Theorem every_request_logged h cx r w : exists rid cid w1 w2 body,
  id_of uuid_NewString (hq_Header r "X-Correlation-ID") w = (cid, w1) /\
  id_of uuid_NewString (hq_Header r "X-Request-ID") w1 = (rid, w2) /\
  let cx' := cx <| cx_CorrelationID := Some cid |> <| cx_RequestID := Some rid |> in
  let '(o, w3) := h cx' r w2 in
  body = match o with Ok resp => resp | Err e => WriteError (Internal e) end /\
  middleware_chain h cx r w =
    (Ok (set_header "X-Correlation-ID" cid (set_header "X-Request-ID" rid body)),
     (write_log {| rl_request_id := rid; rl_correlation_id := cid; rl_method := hq_Method r; rl_path := hq_Path r;
                   rl_status := hs_Status body |} w3).2).
Proof.
  unfold middleware_chain, CorrelationID, RequestID, Logging, Recovery, with_header, bind.
  destruct (id_of _ (hq_Header r "X-Correlation-ID") w) as [cid w1] eqn:E1.
  destruct (id_of _ (hq_Header r "X-Request-ID") w1) as [rid w2] eqn:E2.
  exists rid, cid, w1, w2, (match (h (cx <| cx_CorrelationID := Some cid |> <| cx_RequestID := Some rid |>) r w2).1 with
                            | Ok resp => resp | Err e => WriteError (Internal e) end).
  split; [done |]. split; [done |]. cbn zeta.
  destruct (h _ r w2) as [[resp|e] w3]; (split; [done |]); cbn [ret fst]; by destruct (write_log _ w3).
Qed.
End middleware.

(** ** intra/server.go *)

Section intra.
Context {B St : Type} `{!Backend B, !Storage St} (vmSvc : Service).
Abbreviation W := (World B St).
Context (write_log : RequestLog -> M W unit) (URLParam : string -> string -> string -> option string) (not_found : Response).

(** chi: the health route, then those of the VM handler. *)
Definition intra_router : Handler W := fun _ r =>
  if bool_decide (hq_Method r = "GET" /\ hq_Path r = "/internal/v1/health")
  then answer (WriteJSON 200 "healthy" (VMap [("status", VStr "ok")]))
  else let* resp := internal_routes vmSvc URLParam not_found (hq_Method r) (hq_Path r) in ret (Ok resp).
Definition intra_server : Handler W := middleware_chain new_uuid write_log intra_router.

Record ServerSettings := { ss_ReadTimeout : Z; ss_WriteTimeout : Z; ss_IdleTimeout : Z }.
Definition intra_timeouts : ServerSettings := {| ss_ReadTimeout := 10 * second; ss_WriteTimeout := 300 * second; ss_IdleTimeout := 60 * second |}.

Lemma id_of_only_ticks v (w : W) : let w1 := (id_of new_uuid v w).2 in
  w_db w1 = w_db w /\ w_be w1 = w_be w /\ w_store w1 = w_store w /\ w_events w1 = w_events w.
Proof. unfold id_of. by case_bool_decide. Qed.

(** The internal API asks for no token: whatever the headers of a request, its route runs on
    the tables and backend as they are, and the client gets the status and body of the route. *)
Theorem intra_answers r (w : W) : bool_decide (hq_Method r = "GET" /\ hq_Path r = "/internal/v1/health") = false ->
  exists w2 resp w3 headers line, w_db w2 = w_db w /\ w_be w2 = w_be w /\ w_store w2 = w_store w /\
    internal_routes vmSvc URLParam not_found (hq_Method r) (hq_Path r) w2 = (resp, w3) /\
    intra_server no_values r w =
      (Ok {| hs_Status := hs_Status resp; hs_Headers := headers ++ hs_Headers resp; hs_Body := hs_Body resp |}, (write_log line w3).2) /\
    rl_status line = hs_Status resp.
Proof.
  intros Hh. destruct (every_request_logged new_uuid write_log intra_router no_values r w) as (rid & cid & w1 & w2 & body & E1 & E2 & H).
  pose proof (id_of_only_ticks (hq_Header r "X-Correlation-ID") w) as T1. rewrite E1 in T1. cbn [snd] in T1.
  pose proof (id_of_only_ticks (hq_Header r "X-Request-ID") w1) as T2. rewrite E2 in T2. cbn [snd] in T2.
  destruct T1 as (A1 & B1 & C1 & _), T2 as (A2 & B2 & C2 & _).
  destruct (internal_routes vmSvc URLParam not_found (hq_Method r) (hq_Path r) w2) as [resp w3] eqn:R.
  cbn zeta in H. unfold intra_router at 1, bind in H. rewrite Hh, R in H. cbn in H. destruct H as [-> H].
  eexists w2, resp, w3, [("X-Correlation-ID", cid); ("X-Request-ID", rid)], _.
  split_and!; [congruence.. | exact R | exact H | reflexivity].
Qed.
End intra.
