(* ===== verification/Settings.v ===== *)
(** * Settings: pkg/config/config.go and the environment of cmd/activator/main.go

    Configuration files with references to environment variables (os.ExpandEnv of the
    standard library; the YAML decoder is a parameter), and the environment variables of the
    activator with strconv.Atoi and time.ParseDuration. *)

From S2P Require Import Prelude Exception Naming GoLib Domain World PgRepo IPAlloc Interfaces VMExec VMSnapshot VMResume VMService Json ExecProtocol Http Activator ActivatorServer.

(** ** os.ExpandEnv *)

Definition isShellSpecialVar (c : ascii) : bool := bool_decide (code c ∈ [42; 35; 36; 64; 33; 63; 45]) || is_digit c.
Definition isAlphaNum (c : ascii) : bool :=
  bool_decide (code c = 95) || is_digit c || bool_decide (97 <= code c <= 122) || bool_decide (65 <= code c <= 90).
Fixpoint index_brace (s : string) : option nat :=
  match s with
  | EmptyString => None
  | String c t => if bool_decide (code c = 125) then Some O else S <$> index_brace t
  end.
Fixpoint span_alnum (s : string) : nat :=
  match s with String c t => if isAlphaNum c then S (span_alnum t) else O | EmptyString => O end.
(** The name after a dollar sign and how many bytes it takes. *)
Definition getShellName (s : string) : string * nat :=
  match s with
  | EmptyString => (EmptyString, O)
  | String c t =>
      if bool_decide (code c = 123) then
        match t with
        | String d (String e _) =>
            if isShellSpecialVar d && bool_decide (code e = 125) then (str1 d, 3%nat)
            else match index_brace t with None => (EmptyString, 1%nat) | Some O => (EmptyString, 2%nat) | Some i => (take_str i t, S (S i)) end
        | _ => match index_brace t with None => (EmptyString, 1%nat) | Some O => (EmptyString, 2%nat) | Some i => (take_str i t, S (S i)) end
        end
      else if isShellSpecialVar c then (str1 c, 1%nat)
      else let n := span_alnum s in (take_str n s, n)
  end.

(** os.Expand: a dollar sign without a name stays, bad syntax is eaten, a last dollar sign
    stays. Every round takes a byte; the fuel is the length of the text. *)
Fixpoint expand_fuel (fuel : nat) (mapping : string -> string) (s : string) : string :=
  match fuel, s with
  | O, _ | _, EmptyString => EmptyString
  | S n, String c t =>
      if bool_decide (code c = 36) && negb (bool_decide (t = EmptyString)) then
        let '(name, w) := getShellName t in
        (if bool_decide (name = EmptyString) then (if bool_decide (w = O) then str1 c else EmptyString) else mapping name)
        +:+ expand_fuel n mapping (drop_str w t)
      else String c (expand_fuel n mapping t)
  end.
Definition Expand (mapping : string -> string) (s : string) : string := expand_fuel (str_len s) mapping s.

(** More fuel changes nothing. *)
Lemma expand_enough m n mapping : forall s, (str_len s <= n)%nat -> (str_len s <= m)%nat -> expand_fuel n mapping s = expand_fuel m mapping s.
Proof.
  unfold str_len. revert m. induction n as [|n IH]; intros m [|c s] Hn Hm; [by destruct m | cbn in Hn; lia | by destruct m |].
  destruct m as [|m]; [cbn in Hm; lia |]. cbn [String.length] in Hn, Hm. cbn [expand_fuel].
  destruct (_ && _); [| by rewrite (IH m) by lia].
  destruct (getShellName s) as [name w]. pose proof (drop_str_len w s) as L. unfold str_len in L. by rewrite (IH m) by lia.
Qed.

Definition no_dollar (s : string) : bool := all_bytes (fun c => negb (bool_decide (code c = 36))) s.
Lemma expand_text mapping a : no_dollar a = true -> forall s, Expand mapping (a +:+ s) = a +:+ Expand mapping s.
Proof.
  unfold Expand. induction a as [|c a IH]; [done |]. cbn [no_dollar all_bytes]. intros [Hc Ha]%andb_true_iff s.
  cbn [String.append str_len String.length expand_fuel]. apply negb_true_iff in Hc. rewrite Hc. cbn. f_equal. by apply IH.
Qed.

(** A text without dollar signs is left alone. *)
Theorem os_expand_plain mapping s : no_dollar s = true -> Expand mapping s = s.
Proof. intros H. rewrite <-(append_nil_r s) at 1. rewrite expand_text by done. apply append_nil_r. Qed.

(** A variable of letters and digits. *)
Definition is_name (v : string) : bool := negb (bool_decide (v = EmptyString)) && all_bytes isAlphaNum v.
Lemma alnum_not_brace c : isAlphaNum c = true -> code c <> 125 /\ code c <> 123.
Proof.
  unfold isAlphaNum, is_digit. rewrite !orb_true_iff, !bool_decide_eq_true. lia.
Qed.
Lemma index_brace_name v r : all_bytes isAlphaNum v = true -> index_brace (v +:+ String (chr 125) r) = Some (str_len v).
Proof.
  induction v as [|c v IH]; [done |]. cbn [all_bytes]. intros [Hc Hv]%andb_true_iff.
  cbn [String.append index_brace]. apply alnum_not_brace in Hc as [Hc _]. rewrite bool_decide_eq_false_2 by done. by rewrite IH.
Qed.
Lemma getShellName_braced v r : is_name v = true ->
  getShellName (String (chr 123) (v +:+ String (chr 125) r)) = (v, S (S (str_len v))).
Proof.
  unfold is_name. intros [Hne Hv]%andb_true_iff. cbn [getShellName]. rewrite bool_decide_eq_true_2 by done.
  rewrite index_brace_name, take_str_app by done. destruct v as [|c v]; [done |].
  destruct v as [|d v]; cbn [String.append str_len String.length].
  - cbn [all_bytes] in Hv. destruct (isShellSpecialVar c && _); [done | done].
  - cbn [all_bytes] in Hv. apply andb_true_iff in Hv as [_ Hv]. apply andb_true_iff in Hv as [Hd _].
    apply alnum_not_brace in Hd as [Hd _]. by rewrite (bool_decide_eq_false_2 _ Hd), andb_false_r.
Qed.

Lemma expand_dollar mapping n t : t <> EmptyString -> expand_fuel (S n) mapping (String (chr 36) t) =
  let '(name, w) := getShellName t in
  (if bool_decide (name = EmptyString) then (if bool_decide (w = O) then str1 (chr 36) else EmptyString) else mapping name)
  +:+ expand_fuel n mapping (drop_str w t).
Proof. intros Ht. cbn [expand_fuel]. by rewrite (bool_decide_eq_true_2 (code (chr 36) = 36)), (bool_decide_eq_false_2 (t = _)). Qed.

(** [${NAME}] becomes the value of the variable, as it is: references inside values are not
    expanded, and nothing of a value is quoted for YAML. *)
Theorem expand_reference mapping v r : is_name v = true ->
  Expand mapping ("${" +:+ v +:+ "}" +:+ r) = mapping v +:+ Expand mapping r.
Proof.
  intros Hv. assert (Hne : v <> EmptyString) by by intros ->.
  unfold Expand. change ("${" +:+ v +:+ "}" +:+ r) with (String (chr 36) (String (chr 123) (v +:+ String (chr 125) r))).
  cbn [str_len String.length]. rewrite expand_dollar, getShellName_braced by done.
  rewrite (bool_decide_eq_false_2 (v = _)) by done.
  assert (E : drop_str (S (S (str_len v))) (String (chr 123) (v +:+ String (chr 125) r)) = r).
  { change (drop_str (S (str_len v)) (v +:+ String (chr 125) r) = r). clear. by induction v. }
  rewrite E. f_equal. apply expand_enough; [| done]. pose proof (str_len_app v (String (chr 125) r)) as L. unfold str_len in *. cbn in *. lia.
Qed.

Example expansions : let env v := if bool_decide (v = "A") then "1" else if bool_decide (v = "B") then "$A" else "" in
  map (Expand env) ["$A-${B}"; "${A:-9}x"; "a$"; "$ b"; "${}c"; "${"; "$$A"] = ["1-$A"; "x"; "a$"; "$ b"; "c"; ""; "A"].
Proof. vm_compute. done. Qed.

(** ** config.go *)

Record ServerConfig := { sc_HTTPAddr : string; sc_ReadTimeout : Z; sc_WriteTimeout : Z; sc_IdleTimeout : Z }.
Record DatabaseConfig := { db_URL : string; db_MaxConnections : Z }.
Record VMNetworkConfig := {
  vn_BridgeName : string; vn_Subnet : string; vn_GatewayIP : string; vn_DNSIP : string; vn_IPStart : string; vn_IPEnd : string; vn_EnableNAT : bool }.
Record VMFirecrackerConfig := {
  vf_BinaryPath : string; vf_KernelPath : string; vf_BaseDir : string; vf_KernelArgs : string; vf_MacAddress : string;
  vf_SocketTimeout : Z; vf_ShutdownTimeout : Z; vf_SMT : bool; vf_EnableMmds : bool; vf_ExecEnabled : bool;
  vf_GuestAgentPort : Z; vf_VsockSocketName : string; vf_CIDMin : Z; vf_CIDMax : Z;
  vf_DefaultExecTimeout : Z; vf_MaxStdoutBytes : Z; vf_MaxStderrBytes : Z; vf_Network : VMNetworkConfig }.
Record VMConfig := {
  vc_Provider : string; vc_PoolSize : Z; vc_MaxVMs : Z; vc_CPUCount : Z; vc_MemoryMB : Z; vc_DiskMB : Z; vc_NetworkEnabled : bool;
  vc_IdleTimeout : Z; vc_MaxLifetime : Z; vc_AutoSnapshot : bool; vc_ResumeGrace : Z; vc_DiskMode : string;
  vc_MaxChainLength : Z; vc_MaxChainAgeMinutes : Z; vc_Firecracker : VMFirecrackerConfig }.
Record GeminiConfig := { gc_APIKey : string; gc_Model : string; gc_MaxOutputTokens : Z; gc_SystemPrompt : string }.
Record LLMConfig := { ll_DefaultProvider : string; ll_Timeout : Z; ll_MaxRetries : Z; ll_MaxReactSteps : Z; ll_Gemini : GeminiConfig }.
Record StorageConfig := {
  so_Endpoint : string; so_Region : string; so_AccessKey : string; so_SecretKey : string; so_Bucket : string; so_UsePathStyle : bool }.
Record SecurityConfig := { se_JWTSecret : string; se_AccessTokenExpiry : Z; se_RefreshTokenExpiry : Z; se_MaxTaskDuration : Z }.
Record ObservabilityConfig := { oc_MetricsEnabled : bool; oc_TracingEnabled : bool; oc_TracingEndpoint : string }.
Record Config := {
  Cfg_Environment : string; Cfg_Server : ServerConfig; Cfg_Database : DatabaseConfig; Cfg_LogLevel : string; Cfg_VM : VMConfig;
  Cfg_LLM : LLMConfig; Cfg_Storage : StorageConfig; Cfg_Security : SecurityConfig; Cfg_Observability : ObservabilityConfig;
  Cfg_SeedNamespaceUUID : string }.

Section Load.
Context (Getenv : string -> string) (ReadFile : string -> res string) (yaml_Unmarshal : string -> res Config).

Definition config_path : string := let path := Getenv "CONFIG_PATH" in if bool_decide (path = "") then "configs/config.yaml" else path.
Definition Load : res Config :=
  match ReadFile config_path with
  | Err e => Err (wrapf ("config: read " +:+ fmt_q config_path +:+ ": ") e)
  | Ok data =>
      match yaml_Unmarshal (Expand Getenv data) with
      | Err e => Err (wrapf ("config: parse " +:+ fmt_q config_path +:+ ": ") e)
      | Ok cfg => Ok cfg
      end
  end.
End Load.

(** ** time.ParseDuration *)

Definition u64 (z : Z) : Z := z mod 2 ^ 64.
(** leadingInt: the digits, nothing when they exceed 2^63 *)
Fixpoint leadingInt (x : Z) (s : string) : option (Z * string) :=
  match s with
  | String c t =>
      if is_digit c then
        if bool_decide (x > 2 ^ 63 / 10) then None
        else let x := x * 10 + (code c - 48) in if bool_decide (x > 2 ^ 63) then None else leadingInt x t
      else Some (x, s)
  | EmptyString => Some (x, s)
  end.
(** leadingFraction: the digits that fit, the power of ten they are to be divided by *)
Fixpoint leadingFraction (x scale : Z) (overflow : bool) (s : string) : Z * Z * string :=
  match s with
  | String c t =>
      if is_digit c then
        if overflow || bool_decide (x > (2 ^ 63 - 1) / 10) then leadingFraction x scale true t
        else let y := x * 10 + (code c - 48) in
             if bool_decide (y > 2 ^ 63) then leadingFraction x scale true t else leadingFraction y (scale * 10) false t
      else (x, scale, s)
  | EmptyString => (x, scale, s)
  end.
Fixpoint span_unit (s : string) : string * string :=
  match s with
  | String c t => if bool_decide (code c = 46) || is_digit c then (EmptyString, s) else let '(u, r) := span_unit t in (String c u, r)
  | EmptyString => (EmptyString, EmptyString)
  end.
Definition unit_of (u : string) : option Z :=
  if bool_decide (u = "ns") then Some 1
  else if bool_decide (u ∈ ["us"; String (chr 194) (String (chr 181) "s"); String (chr 206) (String (chr 188) "s")]) then Some 1000
  else if bool_decide (u = "ms") then Some 1000000 else if bool_decide (u = "s") then Some second
  else if bool_decide (u = "m") then Some minute else if bool_decide (u = "h") then Some (60 * minute) else None.

Section durations.
(** uint64(float64(f) * (float64(unit) / scale)) *)
Context (float_part : Z -> Z -> Z -> Z).

(** One number with its unit, added to [d]. *)
Definition duration_term (d : Z) (s : string) : option (Z * string) :=
  let pre := match s with String c _ => is_digit c | EmptyString => false end in
  match leadingInt 0 s with
  | None => None
  | Some (v, s1) =>
      let '(f, scale, s2, post) :=
        match s1 with
        | String c t => if bool_decide (code c = 46)
                        then let '(f, scale, r) := leadingFraction 0 1 false t in (f, scale, r, match t with String c' _ => is_digit c' | EmptyString => false end)
                        else (0, 1, s1, false)
        | EmptyString => (0, 1, s1, false)
        end in
      if negb pre && negb post then None
      else
        let '(u, r) := span_unit s2 in
        match (if bool_decide (u = EmptyString) then None else unit_of u) with
        | None => None
        | Some unit =>
            if bool_decide (v > 2 ^ 63 / unit) then None
            else
              let v := v * unit in
              let v := if bool_decide (f > 0) then u64 (v + float_part f unit scale) else v in
              if bool_decide (v > 2 ^ 63) then None
              else let d := u64 (d + v) in if bool_decide (d > 2 ^ 63) then None else Some (d, r)
        end
  end.
Fixpoint duration_terms (fuel : nat) (d : Z) (s : string) : option Z :=
  match fuel, s with
  | _, EmptyString => Some d
  | O, _ => None
  | S n, String c _ =>
      if bool_decide (code c = 46) || is_digit c then
        match duration_term d s with Some (d', r) => duration_terms n d' r | None => None end
      else None
  end.
Definition ParseDuration (s : string) : option Z :=
  let '(neg, t) := match s with
                   | String c t => if bool_decide (code c = 45) then (true, t) else if bool_decide (code c = 43) then (false, t) else (false, s)
                   | EmptyString => (false, s)
                   end in
  if bool_decide (t = "0") then Some 0
  else if bool_decide (t = EmptyString) then None
  else match duration_terms (str_len t) 0 t with
       | None => None
       | Some d => if (neg : bool) then Some (i64 (- d)) else if bool_decide (d > 2 ^ 63 - 1) then None else Some d
       end.

Example durations : map ParseDuration ["90s"; "1h2m"; "-5ms"; "0"; "1"; ""; "10x"; "9223372036854775807ns"; "9223372036854775808ns"; ".s"; "3."; "+1us"] =
  [Some (90 * second); Some (62 * minute); Some (-5000000); Some 0; None; None; None; Some (2 ^ 63 - 1); None; None; None; Some 1000].
Proof. vm_compute. done. Qed.

(** ** cmd/activator/main.go *)

Context (LookupEnv : string -> option string).

Definition env (key def : string) : string :=
  match LookupEnv key with Some v => if bool_decide (v = "") then def else v | None => def end.
Definition envInt (key : string) (def : Z) : Z :=
  match LookupEnv key with
  | Some v => if bool_decide (v = "") then def
              else match Atoi v with Some n => if bool_decide (n < 1) then def else n | None => def end
  | None => def
  end.
Definition envDuration (key : string) (def : Z) : Z :=
  match LookupEnv key with
  | Some v => if bool_decide (v = "") then def
              else match ParseDuration v with Some d => if bool_decide (d <= 0) then def else d | None => def end
  | None => def
  end.

Record runtimeConfig := {
  rt_listenAddr : string; rt_mode : string; rt_orchestratorURL : string; rt_domainSuffix : string; rt_maxConcurrent : Z; rt_coldStart : Z }.
Definition loadConfig : runtimeConfig := {|
  rt_listenAddr := env "ACTIVATOR_LISTEN_ADDR" ":8090"; rt_mode := env "ACTIVATOR_MODE" "cloudflared";
  rt_orchestratorURL := env "ORCHESTRATOR_INTERNAL_URL" "http://localhost:8081"; rt_domainSuffix := env "DOMAIN_SUFFIX" ".box.spacetrek.xyz";
  rt_maxConcurrent := envInt "MAX_CONCURRENT_ACTIVATIONS" 5; rt_coldStart := envDuration "COLD_START_BUDGET" (60 * second) |}.

(** The mode as the server reads it: anything but mesh-proxy takes the host from the Host header. *)
Definition server_mode (mode : string) : Mode := if bool_decide (mode = "mesh-proxy") then ModeMeshProxy else ModeCloudflared.
(** NewServer: the budget and mode it keeps; and the timeouts of the HTTP server of main. *)
Definition cold_start_budget (budget : Z) : Z := if bool_decide (budget <= 0) then 60 * second else budget.
Definition activator_mode (mode : string) : Mode := server_mode (if bool_decide (mode = "") then "cloudflared" else mode).
Definition activator_WriteTimeout (cfg : runtimeConfig) : Z := i64 (rt_coldStart cfg + 30 * second).

Lemma env_not_empty key def : def <> "" -> env key def <> "".
Proof. unfold env. destruct (LookupEnv key) as [v|]; [| done]. by case_bool_decide. Qed.
Lemma envInt_at_least key def : 1 <= def -> 1 <= envInt key def.
Proof. unfold envInt. destruct (LookupEnv key); [| done]. repeat case_match; try done. intros _. rewrite bool_decide_eq_false in *. lia. Qed.
Lemma envDuration_positive key def : 0 < def -> 0 < envDuration key def.
Proof. unfold envDuration. destruct (LookupEnv key); [| done]. repeat case_match; try done. intros _. rewrite bool_decide_eq_false in *. lia. Qed.

Lemma duration_term_bound d s d' r : duration_term d s = Some (d', r) -> 0 <= d' <= 2 ^ 63.
Proof.
  unfold duration_term. destruct (leadingInt 0 s) as [[v s1]|]; [| done].
  destruct (match s1 with String _ _ => _ | EmptyString => _ end) as [[[f scale] s2] post]. destruct (_ && _); [done |].
  destruct (span_unit s2) as [u r']. destruct (if bool_decide (u = _) then None else unit_of u) as [unit|]; [| done].
  destruct (bool_decide (v > _)); [done |]. cbn zeta.
  set (v' := if bool_decide (f > 0) then _ else _). clearbody v'. destruct (bool_decide (v' > _)); [done |].
  destruct (bool_decide (u64 _ > _)) eqn:Hd; [done |]. apply bool_decide_eq_false in Hd. intros [= <- <-].
  split; [apply Z.mod_pos_bound; lia | lia].
Qed.
Lemma duration_terms_bound n : forall d s z, 0 <= d <= 2 ^ 63 -> duration_terms n d s = Some z -> 0 <= z <= 2 ^ 63.
Proof.
  induction n as [|n IH]; intros d [|c s] z Hd; cbn [duration_terms]; try (by intros [= <-]).
  destruct (_ || _); [| done]. destruct (duration_term d (String c s)) as [[d' r]|] eqn:E; [| done].
  apply IH. by eapply duration_term_bound.
Qed.
(** A parsed duration is an int64. *)
Lemma ParseDuration_range s z : ParseDuration s = Some z -> - 2 ^ 63 <= z < 2 ^ 63.
Proof.
  unfold ParseDuration. destruct (match s with String _ _ => _ | _ => _ end) as [neg t].
  case_bool_decide; [intros [= <-]; lia |]. case_bool_decide; [done |].
  destruct (duration_terms _ 0 t) as [d|] eqn:E; [| done]. apply duration_terms_bound in E; [| lia].
  destruct neg; [intros [= <-]; apply i64_range |]. case_bool_decide; intros [= <-]. lia.
Qed.

(** ** Durations are read back *)

Lemma dec_val_ge d : forall x, 0 <= x -> all_bytes is_digit d = true -> x <= dec_val x d.
Proof.
  induction d as [|c d IH]; cbn [dec_val all_bytes]; intros x Hx; [lia |]. intros [Hc Hd]%andb_true_iff.
  unfold is_digit in Hc. apply bool_decide_eq_true in Hc. specialize (IH (x * 10 + (code c - 48)) ltac:(lia) Hd). lia.
Qed.
Lemma leadingInt_digits d r : all_bytes is_digit d = true -> match r with String c _ => is_digit c = false | EmptyString => True end ->
  forall x, 0 <= x -> dec_val x d <= 2 ^ 63 -> leadingInt x (d +:+ r) = Some (dec_val x d, r).
Proof.
  intros Hd Hr. induction d as [|c d IH]; intros x Hx Hle.
  { destruct r as [|c r]; [done |]. cbn. by rewrite Hr. }
  cbn [all_bytes] in Hd. apply andb_true_iff in Hd as [Hc Hd]. cbn [dec_val] in *. cbn [String.append leadingInt]. rewrite Hc.
  unfold is_digit in Hc. apply bool_decide_eq_true in Hc.
  pose proof (dec_val_ge d (x * 10 + (code c - 48)) ltac:(lia) Hd) as Hm.
  rewrite bool_decide_eq_false_2 by (pose proof (Z.div_le_lower_bound (2 ^ 63) 10 x); lia). cbn zeta.
  rewrite bool_decide_eq_false_2 by lia. apply IH; [done | lia | done].
Qed.
(** A number of seconds written in decimal is read as this many seconds. *)
Theorem seconds_read_back n : 0 < n -> n * second < 2 ^ 63 -> ParseDuration (fmt_d n +:+ "s") = Some (n * second).
Proof.
  intros H0 Hn. destruct (fmt_d_shape n) as (neg & c & d & E & Hc & _ & Hd & Hv). rewrite E.
  assert (Hds : all_bytes is_digit (String c d) = true) by (cbn [all_bytes]; by rewrite Hc, Hd).
  destruct neg.
  { pose proof (dec_val_ge (String c d) 0 ltac:(lia) Hds). lia. }
  change (EmptyString +:+ String c d) with (String c d).
  assert (Hcode : 48 <= code c <= 57) by (unfold is_digit in Hc; by apply bool_decide_eq_true in Hc).
  unfold ParseDuration. cbn [String.append].
  rewrite (bool_decide_eq_false_2 (code c = 45)), (bool_decide_eq_false_2 (code c = 43)) by lia.
  rewrite (bool_decide_eq_false_2 (_ = "0")) by (destruct d; [done | intros [= _ ?]; by destruct d]).
  rewrite (bool_decide_eq_false_2 (_ = EmptyString)) by done.
  cbn [str_len String.length duration_terms]. rewrite Hc, orb_true_r.
  unfold duration_term. rewrite (leadingInt_digits (String c d) "s") by (done || (unfold second in Hn; rewrite Hv; lia)).
  rewrite Hv, Hc. change "s" with (String (chr 115) EmptyString).
  rewrite (bool_decide_eq_false_2 (code (chr 115) = 46)) by done. change (String (chr 115) EmptyString) with "s". cbn [negb andb].
  assert (Hu : span_unit "s" = ("s", EmptyString)) by done. rewrite Hu.
  assert (Hunit : (if bool_decide ("s" = EmptyString) then None else unit_of "s") = Some second) by done. rewrite Hunit.
  rewrite bool_decide_eq_false_2 by (pose proof (Z.div_le_lower_bound (2 ^ 63) second n); unfold second in *; lia).
  rewrite (bool_decide_eq_false_2 (0 > 0)) by lia. rewrite bool_decide_eq_false_2 by lia.
  assert (Hw : u64 (0 + n * second) = n * second) by (unfold u64; apply Z.mod_small; unfold second in *; lia). rewrite Hw.
  rewrite bool_decide_eq_false_2 by lia. destruct (String.length (d +:+ "s")); cbn [duration_terms]; rewrite bool_decide_eq_false_2 by lia; done.
Qed.

(** Whatever the environment holds, the activator has an address, an orchestrator and a suffix
    that is not empty, at least one slot, and a positive budget for cold starts. *)
Theorem activator_settings_usable : let cfg := loadConfig in
  rt_listenAddr cfg <> "" /\ rt_mode cfg <> "" /\ rt_orchestratorURL cfg <> "" /\ rt_domainSuffix cfg <> "" /\
  1 <= rt_maxConcurrent cfg /\ 0 < rt_coldStart cfg < 2 ^ 63 /\
  ac_cap (NewActivator (rt_maxConcurrent cfg)) = Z.to_nat (rt_maxConcurrent cfg) /\ cold_start_budget (rt_coldStart cfg) = rt_coldStart cfg.
Proof.
  cbn zeta. assert (Hn : 1 <= rt_maxConcurrent loadConfig) by (apply envInt_at_least; lia).
  assert (Hp : 0 < rt_coldStart loadConfig) by (apply envDuration_positive; unfold second; lia).
  split_and!; try (by apply env_not_empty); try assumption.
  - assert (Hd : 60 * second < 2 ^ 63) by done. cbn [rt_coldStart loadConfig]. unfold envDuration. destruct (LookupEnv _) as [v|]; [| done].
    destruct (bool_decide (v = "")); [done |]. destruct (ParseDuration v) as [d|] eqn:E; [| done].
    destruct (bool_decide (d <= 0)); [done |]. apply ParseDuration_range in E. lia.
  - unfold NewActivator. cbn [ac_cap]. by rewrite bool_decide_eq_false_2 by lia.
  - unfold cold_start_budget. by rewrite bool_decide_eq_false_2 by lia.
Qed.
End durations.
