(* ===== verification/ObjectStore.v ===== *)
(** * The object store: infrastructure/storage/s3/{config,store}.go

    Uploading, downloading and deleting the files of snapshots. The files of the host and the
    buckets of the server are maps; which calls fail, what a failing call has done all the
    same, how the server cuts a listing into pages and which keys it refuses to delete are
    parameters. *)

From S2P Require Import Prelude Exception Naming GoLib Domain World PgRepo IPAlloc Interfaces.

Local Open Scope go_scope.

(** ** The host and the server *)

(** An error of the SDK: an answer of the server with its code, or anything else. *)
Inductive sdk_error := ApiError (code msg : string) | OtherError (msg : string).
(** [errors.As(err, &apiErr)] and ErrorCode *)
Definition ErrorCode (e : sdk_error) : option string := match e with ApiError c _ => Some c | OtherError _ => None end.
Definition sdk_wrap (pre : string) (e : sdk_error) : error :=
  wrapf pre (EText (match e with ApiError c m => "api error " +:+ c +:+ ": " +:+ m | OtherError m => m end)).

Record CloudEnv := {
  ce_os : nat -> option error;            (* the operating system refuses *)
  ce_s3 : nat -> option sdk_error;        (* the call of the SDK fails *)
  ce_landed : nat -> bool;                (* a failing upload has stored the object *)
  ce_partial : nat -> string;             (* what a failing download has written *)
  ce_page : nat -> nat;                   (* the keys of one page of a listing *)
  ce_denied : nat -> string -> bool;      (* the keys a DeleteObjects reports as not deleted *)
  ce_gone : nat -> string -> bool;        (* the keys a failing DeleteObjects has deleted *)
  ce_created : nat -> bool                (* a failing CreateBucket has made the bucket *) }.
Record Cloud := { cl_files : gmap string string; cl_buckets : gmap string (gmap string string); cl_tick : nat }.

Section store.
Context (E : CloudEnv) (bucket : string).

Definition objects (w : Cloud) : gmap string string := default ∅ (cl_buckets w !! bucket).
Definition ctick (w : Cloud) : Cloud := w <| cl_tick := S (cl_tick w) |>.
Definition os_call {A} (f : gmap string string -> res A * gmap string string) : M Cloud (res A) := fun w =>
  match ce_os E (cl_tick w) with
  | Some e => (Err e, ctick w)
  | None => let '(r, fs) := f (cl_files w) in (r, ctick w <| cl_files := fs |>)
  end.
Definition not_exist (path : string) : error := EText ("open " +:+ path +:+ ": no such file or directory").
Definition os_Open (path : string) : M Cloud (res string) :=
  os_call (fun fs => (match fs !! path with Some c => Ok c | None => Err (not_exist path) end, fs)).
Definition os_Stat (path : string) : M Cloud (res Z) :=
  os_call (fun fs => (match fs !! path with Some c => Ok (Z.of_nat (str_len c)) | None => Err (not_exist path) end, fs)).
(** The directories themselves are not modelled. *)
Definition os_MkdirAll : M Cloud (res unit) := os_call (fun fs => (Ok tt, fs)).
Definition os_Create (path : string) : M Cloud (res unit) := os_call (fun fs => (Ok tt, <[path := EmptyString]> fs)).
Definition os_Remove (path : string) : M Cloud (res unit) := os_call (fun fs => (Ok tt, delete path fs)).

Definition no_such_bucket : sdk_error := ApiError "NoSuchBucket" "The specified bucket does not exist".
Definition no_such_key : sdk_error := ApiError "NoSuchKey" "The specified key does not exist.".
Definition put_object (key content : string) (w : Cloud) : Cloud :=
  w <| cl_buckets := <[bucket := <[key := content]> (objects w)]> (cl_buckets w) |>.
Definition has_bucket (w : Cloud) : bool := bool_decide (is_Some (cl_buckets w !! bucket)).
Definition s3_Upload (key content : string) : M Cloud (result sdk_error unit) := fun w =>
  if negb (has_bucket w) then (Err no_such_bucket, ctick w)
  else match ce_s3 E (cl_tick w) with
       | Some e => (Err e, ctick (if ce_landed E (cl_tick w) then put_object key content w else w))
       | None => (Ok tt, ctick (put_object key content w))
       end.
Definition s3_Download (key path : string) : M Cloud (result sdk_error unit) := fun w =>
  match ce_s3 E (cl_tick w) with
  | Some e => (Err e, ctick w <| cl_files := <[path := ce_partial E (cl_tick w)]> (cl_files w) |>)
  | None => match objects w !! key with
            | Some content => (Ok tt, ctick w <| cl_files := <[path := content]> (cl_files w) |>)
            | None => (Err (if has_bucket w then no_such_key else no_such_bucket), ctick w)
            end
  end.
Definition s3_HeadObject (key : string) : M Cloud (result sdk_error unit) := fun w =>
  (match ce_s3 E (cl_tick w) with
   | Some e => Err e
   | None => if bool_decide (is_Some (objects w !! key)) then Ok tt else Err (ApiError "NotFound" "Not Found")
   end, ctick w).
Definition s3_CreateBucket : M Cloud (result sdk_error unit) := fun w =>
  let created := ctick w <| cl_buckets := <[bucket := objects w]> (cl_buckets w) |> in
  match ce_s3 E (cl_tick w) with
  | Some e => (Err e, if ce_created E (cl_tick w) then created else ctick w)
  | None => if has_bucket w then (Err (ApiError "BucketAlreadyOwnedByYou" ""), ctick w) else (Ok tt, created)
  end.

(** ListObjectsV2: the keys with a prefix after a token in byte order, cut into pages; the
    last key of a page is the token of the next one, if more keys follow. *)
Definition key_order (a b : string) : Prop := String.le a b.
#[export] Instance key_order_dec : RelDecision key_order.
Proof. intros a b. unfold key_order. apply _. Defined.
Definition after (token : option string) (k : string) : bool := match token with None => true | Some t => negb (bool_decide (String.le k t)) end.
Definition listing (prefix : string) (token : option string) (m : gmap string string) : list string :=
  merge_sort key_order (List.filter (fun k => has_prefix prefix k && after token k) (fst <$> map_to_list m)).
Definition s3_ListPage (prefix : string) (token : option string) : M Cloud (result sdk_error (list string * option string)) := fun w =>
  (match ce_s3 E (cl_tick w) with
   | Some e => Err e
   | None => if negb (has_bucket w) then Err no_such_bucket
             else let ks := listing prefix token (objects w) in
                  let page := take (ce_page E (cl_tick w)) ks in
                  Ok (page, if bool_decide (drop (ce_page E (cl_tick w)) ks = []) then None
                            else match last page with Some k => Some k | None => token end)
   end, ctick w).
Definition delete_objects (keys : list string) (w : Cloud) : Cloud :=
  w <| cl_buckets := <[bucket := foldr delete (objects w) keys]> (cl_buckets w) |>.
(** DeleteObjects: the keys that could not be deleted are in the output, without an error. *)
Definition s3_DeleteObjects (keys : list string) : M Cloud (result sdk_error (list string)) := fun w =>
  if negb (has_bucket w) then (Err no_such_bucket, ctick w)
  else match ce_s3 E (cl_tick w) with
       | Some e => (Err e, ctick (delete_objects (List.filter (ce_gone E (cl_tick w)) keys) w))
       | None =>
           let denied := ce_denied E (cl_tick w) in
           (Ok (List.filter denied keys), ctick (delete_objects (List.filter (fun k => negb (denied k)) keys) w))
       end.

(** ** store.go *)

(** The size of what was uploaded, also when a later file fails. *)
Fixpoint UploadFiles_from (total : Z) (files : list SnapshotFile) : M Cloud (Z * option error) :=
  match files with
  | [] => ret (total, None)
  | f :: files' =>
      let* fi := os_Open (sf_LocalPath f) in
      match fi with
      | Err e => ret (total, Some (wrapf ("s3: open " +:+ sf_LocalPath f +:+ ": ") e))
      | Ok content =>
          let* up := s3_Upload (sf_Key f) content in
          match up with
          | Err e => ret (total, Some (sdk_wrap ("s3: upload " +:+ sf_Key f +:+ ": ") e))
          | Ok _ =>
              let* stat := os_Stat (sf_LocalPath f) in
              UploadFiles_from (match stat with Ok size => i64 (total + size) | Err _ => total end) files'
          end
      end
  end.
Definition UploadFiles : list SnapshotFile -> M Cloud (Z * option error) := UploadFiles_from 0.

Definition ObjectExists (key : string) : M Cloud (res bool) :=
  let* r := s3_HeadObject key in
  ret (match r with
       | Ok _ => Ok true
       | Err e => if bool_decide (ErrorCode e = Some "NotFound" \/ ErrorCode e = Some "NoSuchKey") then Ok false
                  else Err (sdk_wrap ("s3: head object " +:+ key +:+ ": ") e)
       end).

Fixpoint DownloadFiles (files : list SnapshotFile) : M Cloud (res unit) :=
  match files with
  | [] => ret (Ok tt)
  | f :: files' =>
      let* dir := os_MkdirAll in
      match dir with
      | Err e => ret (Err (wrapf ("s3: create dir for " +:+ sf_LocalPath f +:+ ": ") e))
      | Ok _ =>
          let* fi := os_Create (sf_LocalPath f) in
          match fi with
          | Err e => ret (Err (wrapf ("s3: create " +:+ sf_LocalPath f +:+ ": ") e))
          | Ok _ =>
              let* down := s3_Download (sf_Key f) (sf_LocalPath f) in
              match down with
              | Err e =>
                  let* _ := os_Remove (sf_LocalPath f) in
                  ret (Err (sdk_wrap ("s3: download " +:+ sf_Key f +:+ ": ") e))
              | Ok _ => DownloadFiles files'
              end
          end
      end
  end.

(** The keys of a page; an empty page is passed over. *)
Definition delete_page (keys : list string) : M Cloud (result sdk_error (list string)) :=
  if bool_decide (keys = []) then ret (Ok []) else s3_DeleteObjects keys.
(** The loop over the pages; [None] when the fuel is used up. *)
Fixpoint delete_pages (fuel : nat) (prefix : string) (token : option string) : M Cloud (option (res unit)) :=
  match fuel with
  | O => ret None
  | S fuel' =>
      let* page := s3_ListPage prefix token in
      match page with
      | Err e => ret (Some (Err (sdk_wrap ("s3: list prefix " +:+ prefix +:+ ": ") e)))
      | Ok (keys, next) =>
          let* deleted := delete_page keys in
          match deleted with
          | Err e => ret (Some (Err (sdk_wrap ("s3: delete prefix " +:+ prefix +:+ ": ") e)))
          | Ok _ => match next with None => ret (Some (Ok tt)) | Some t => delete_pages fuel' prefix (Some t) end
          end
      end
  end.
(** A page has at least one key, so the keys of the bucket bound the rounds. *)
Definition DeletePrefix (prefix : string) : M Cloud (option (res unit)) :=
  fun w => delete_pages (S (size (objects w))) prefix None w.

Definition EnsureBucket : M Cloud (res unit) :=
  let* r := s3_CreateBucket in
  ret (match r with
       | Ok _ => Ok tt
       | Err e => if bool_decide (ErrorCode e = Some "BucketAlreadyExists" \/ ErrorCode e = Some "BucketAlreadyOwnedByYou") then Ok tt
                  else Err (sdk_wrap ("s3: create bucket " +:+ bucket +:+ ": ") e)
       end).
End store.

(** ** config.go, and what NewStore builds *)

Record S3Config := { s3_Endpoint : string; s3_Region : string; s3_AccessKey : string; s3_SecretKey : string; s3_Bucket : string; s3_UsePathStyle : bool }.
Definition S3Config_Validate (c : S3Config) : option error :=
  if bool_decide (s3_Endpoint c = "") then Some (EText "s3: endpoint is required")
  else if bool_decide (s3_Bucket c = "") then Some (EText "s3: bucket is required")
  else if bool_decide (s3_AccessKey c = "") then Some (EText "s3: access_key is required")
  else if bool_decide (s3_SecretKey c = "") then Some (EText "s3: secret_key is required")
  else None.
Record S3Store := { st_Client : S3Config; st_Bucket : string; st_PartSize : Z }.
(** [aws_config]: config.LoadDefaultConfig for a region. *)
Definition NewStore (aws_config : string -> option error) (cfg : S3Config) : res S3Store :=
  match S3Config_Validate cfg with
  | Some e => Err e
  | None =>
      let region := if bool_decide (s3_Region cfg = "") then "us-east-1" else s3_Region cfg in
      match aws_config region with
      | Some e => Err (wrapf "s3: load aws config: " e)
      | None => Ok {| st_Client := cfg <| s3_Region := region |>; st_Bucket := s3_Bucket cfg; st_PartSize := 64 * 1024 * 1024 |}
      end
  end.

(** ** Downloads *)

Section downloads.
Context (E : CloudEnv) (bucket : string).
Abbreviation objects := (objects bucket).

(** The calls for files leave the buckets; they change one path. *)
Lemma os_call_spec {A} (f : gmap string string -> res A * gmap string string) w :
  cl_buckets (os_call E f w).2 = cl_buckets w /\
  (cl_files (os_call E f w).2 = cl_files w \/ cl_files (os_call E f w).2 = (f (cl_files w)).2) /\
  (forall a, (os_call E f w).1 = Ok a -> cl_files (os_call E f w).2 = (f (cl_files w)).2 /\ (f (cl_files w)).1 = Ok a).
Proof. unfold os_call. destruct (ce_os E _); [split_and!; auto; done |]. destruct (f (cl_files w)) as [r fs] eqn:R. split_and!; auto. Qed.

(** The last of the files with this path. *)
Fixpoint last_at (p : string) (files : list SnapshotFile) : option SnapshotFile :=
  match files with
  | [] => None
  | f :: files' => match last_at p files' with
                   | Some g => Some g
                   | None => if bool_decide (sf_LocalPath f = p) then Some f else None
                   end
  end.

(** One round of the download loop. *)
Definition download_one (f : SnapshotFile) : M Cloud (res unit) := DownloadFiles E bucket [f].
Lemma DownloadFiles_cons f files w : DownloadFiles E bucket (f :: files) w =
  match download_one f w with (Ok _, w1) => DownloadFiles E bucket files w1 | (Err e, w1) => (Err e, w1) end.
Proof.
  unfold download_one. cbn [DownloadFiles]. unfold bind. destruct (os_MkdirAll E w) as [[|] w1]; [| done].
  destruct (os_Create E _ w1) as [[|] w2]; [| done]. destruct (s3_Download E bucket _ _ w2) as [[|] w3]; [done |].
  by destruct (os_Remove E _ w3).
Qed.
Lemma download_one_Ok f w w' : download_one f w = (Ok tt, w') ->
  cl_buckets w' = cl_buckets w /\ exists c, objects w !! sf_Key f = Some c /\ cl_files w' = <[sf_LocalPath f := c]> (cl_files w).
Proof.
  unfold download_one. cbn [DownloadFiles]. unfold bind, os_MkdirAll, os_Create.
  pose proof (os_call_spec (fun fs => (Ok tt, fs)) w) as (B1 & _ & F1).
  destruct (os_call E _ w) as [[[]|] w1]; [| done]. destruct (F1 tt eq_refl) as [F1' _]. cbn in B1, F1'.
  pose proof (os_call_spec (fun fs => (Ok tt, <[sf_LocalPath f := EmptyString]> fs)) w1) as (B2 & _ & F2).
  destruct (os_call E _ w1) as [[[]|] w2]; [| done]. destruct (F2 tt eq_refl) as [F2' _]. cbn in B2, F2'.
  unfold s3_Download, bind. destruct (ce_s3 E _); [by destruct (os_Remove E _ _) |].
  destruct (objects w2 !! sf_Key f) as [c|] eqn:O; [| by destruct (os_Remove E _ _)]. intros [= <-].
  split; [change (cl_buckets w2 = cl_buckets w); congruence |]. exists c. split; [unfold ObjectStore.objects in *; by rewrite <-B1, <-B2 |].
  cbn. by rewrite F2', F1', insert_insert_eq.
Qed.
(** A failing round leaves the path without a file, or as it was, when the host obeys. *)
Lemma download_one_Err f e w w' : (forall n, ce_os E n = None) -> download_one f w = (Err e, w') ->
  cl_buckets w' = cl_buckets w /\ cl_files w' = delete (sf_LocalPath f) (cl_files w).
Proof.
  intros Hos. unfold download_one. cbn [DownloadFiles]. unfold bind, os_MkdirAll, os_Create, os_Remove, os_call, s3_Download.
  rewrite !Hos. cbn -[ObjectStore.objects]. destruct (ce_s3 E _).
  { cbn. rewrite Hos. cbn. intros [= <- <-]. split; [done |]. cbn. by rewrite !delete_insert_eq. }
  destruct (objects _ !! _); [done |]. cbn. rewrite Hos. intros [= <- <-]. split; [done |]. cbn. by rewrite delete_insert_eq.
Qed.

(** After a download that reports success every path holds exactly its object, the last one
    asked for, every other file is as before, and the buckets are too. *)
Lemma DownloadFiles_all files : forall w w', DownloadFiles E bucket files w = (Ok tt, w') ->
  cl_buckets w' = cl_buckets w /\
  forall p, match last_at p files with
            | Some f => is_Some (objects w !! sf_Key f) /\ cl_files w' !! p = objects w !! sf_Key f
            | None => cl_files w' !! p = cl_files w !! p
            end.
Proof.
  induction files as [|f files IH]; intros w w'; [by intros [= <-] |]. rewrite DownloadFiles_cons.
  destruct (download_one f w) as [[[]|] w1] eqn:D; [| done]. apply download_one_Ok in D as (B & c & Hc & F).
  intros [B' H]%IH. split; [congruence |]. intros p. specialize (H p). cbn [last_at].
  assert (O : objects w1 = objects w) by (unfold ObjectStore.objects; by rewrite B).
  destruct (last_at p files) as [g|]; [by rewrite <-O |]. rewrite H, F. case_bool_decide as P.
  - subst p. rewrite lookup_insert_eq. by rewrite Hc.
  - by rewrite lookup_insert_ne.
Qed.
(** A download never leaves half a file, whether it succeeds or not: what is on the host
    afterwards was there before or is a whole object, provided the host creates and removes
    files when asked to. *)
Theorem DownloadFiles_never_partial files : (forall n, ce_os E n = None) -> forall w r w', DownloadFiles E bucket files w = (r, w') ->
  cl_buckets w' = cl_buckets w /\
  forall p c, cl_files w' !! p = Some c ->
    cl_files w !! p = Some c \/ exists f, f ∈ files /\ sf_LocalPath f = p /\ objects w !! sf_Key f = Some c.
Proof.
  intros Hos. induction files as [|f files IH]; intros w r w'; [intros [= <- <-]; auto |]. rewrite DownloadFiles_cons.
  destruct (download_one f w) as [[[]|e] w1] eqn:D.
  - apply download_one_Ok in D as (B & c0 & Hc & F). intros [B' H]%IH. split; [congruence |]. intros p c Hp.
    assert (O : objects w1 = objects w) by (unfold ObjectStore.objects; by rewrite B).
    apply H in Hp as [Hp|(g & Hg & Hpg & Hcg)]; [| right; exists g; rewrite <-O; split; [by right | done]].
    rewrite F in Hp. apply lookup_insert_Some in Hp as [[<- <-]|[_ Hp]]; [right; exists f; split; [by left | done] | by left].
  - apply (download_one_Err f e w w1 Hos) in D as [B F]. intros [= <- <-]. split; [done |]. intros p c.
    rewrite F. intros [_ Hp]%lookup_delete_Some. by left.
Qed.

End downloads.

(** ** Uploads *)

Section uploads.
Context (E : CloudEnv) (bucket : string).
Abbreviation objects := (objects bucket).

Lemma put_object_lookup key content (w : Cloud) k : objects (put_object bucket key content w) !! k = <[key := content]> (objects w) !! k.
Proof. unfold put_object, ObjectStore.objects at 1. cbn. by rewrite lookup_insert_eq. Qed.

(** One round of the upload loop that does not return. *)
Lemma UploadFiles_cons total f files w n w' : UploadFiles_from E bucket total (f :: files) w = ((n, None), w') ->
  exists c w1 total', cl_files w !! sf_LocalPath f = Some c /\ cl_files w1 = cl_files w /\
    (forall k, objects w1 !! k = <[sf_Key f := c]> (objects w) !! k) /\
    (total' = total \/ total' = i64 (total + Z.of_nat (str_len c))) /\ UploadFiles_from E bucket total' files w1 = ((n, None), w').
Proof.
  cbn [UploadFiles_from]. unfold bind, os_Open.
  pose proof (os_call_spec E (fun fs => (match fs !! sf_LocalPath f with Some c => Ok c | None => Err (not_exist (sf_LocalPath f)) end, fs)) w) as (B1 & _ & F1).
  destruct (os_call E _ w) as [[c|] w1]; [| done]. destruct (F1 c eq_refl) as [F1' C]. cbn in B1, F1', C.
  destruct (cl_files w !! sf_LocalPath f) as [c'|] eqn:Hf; [| done]. injection C as ->.
  unfold s3_Upload. destruct (negb _); [done |]. destruct (ce_s3 E _); [done |].
  unfold os_Stat. set (w2 := ctick (put_object bucket (sf_Key f) c w1)).
  assert (W2 : cl_files w2 = cl_files w1) by done.
  assert (O2 : forall k, objects w2 !! k = <[sf_Key f := c]> (objects w) !! k).
  { intros k. change (objects (put_object bucket (sf_Key f) c w1) !! k = <[sf_Key f := c]> (objects w) !! k).
    rewrite put_object_lookup. unfold ObjectStore.objects. by rewrite B1. }
  clearbody w2.
  pose proof (os_call_spec E (fun fs => (match fs !! sf_LocalPath f with Some c => Ok (Z.of_nat (str_len c)) | None => Err (not_exist (sf_LocalPath f)) end, fs)) w2) as (B3 & F3 & G3).
  destruct (os_call E _ w2) as [st w3]. cbn [fst snd] in B3, F3, G3. intros H. exists c, w3. eexists.
  split; [done |]. split; [destruct F3 as [F3|F3]; congruence |]. split; [| split; [| exact H]].
  - intros k. rewrite <-O2. unfold ObjectStore.objects. by rewrite B3.
  - destruct st as [size|]; [| by left]. right. destruct (G3 size eq_refl) as [_ G]. rewrite W2, F1', Hf in G. by injection G as ->.
Qed.

(** The last of the files with this key. *)
Fixpoint last_key (k : string) (files : list SnapshotFile) : option SnapshotFile :=
  match files with
  | [] => None
  | f :: files' => match last_key k files' with
                   | Some g => Some g
                   | None => if bool_decide (sf_Key f = k) then Some f else None
                   end
  end.
Lemma UploadFiles_objects files : forall total w n w', UploadFiles_from E bucket total files w = ((n, None), w') ->
  cl_files w' = cl_files w /\
  forall k, match last_key k files with
            | Some f => is_Some (cl_files w !! sf_LocalPath f) /\ objects w' !! k = cl_files w !! sf_LocalPath f
            | None => objects w' !! k = objects w !! k
            end.
Proof.
  induction files as [|f files IH]; intros total w n w'; [by intros [= <- <-] |].
  intros (c & w1 & total' & Hc & F1 & O1 & _ & H)%UploadFiles_cons. apply IH in H as [F2 H]. split; [congruence |].
  intros k. specialize (H k). cbn [last_key]. rewrite F1 in H. destruct (last_key k files); [done |]. rewrite H, O1.
  case_bool_decide as K; [subst k; rewrite lookup_insert_eq, Hc; eauto | by rewrite lookup_insert_ne].
Qed.

(** What was uploaded is what is downloaded: after a successful upload, a successful download
    of these keys by any host, to any paths, gives each of them the content that the file
    with this key had. *)
Theorem snapshot_files_roundtrip E' files n w w1 w2 files' w3 f f' :
  UploadFiles E bucket files w = ((n, None), w1) -> cl_buckets w2 = cl_buckets w1 ->
  DownloadFiles E' bucket files' w2 = (Ok tt, w3) ->
  last_at (sf_LocalPath f') files' = Some f' -> last_key (sf_Key f') files = Some f ->
  cl_files w3 !! sf_LocalPath f' = cl_files w !! sf_LocalPath f /\ is_Some (cl_files w !! sf_LocalPath f).
Proof.
  intros [_ U]%UploadFiles_objects B D Hf' Hf. specialize (U (sf_Key f')). rewrite Hf in U. destruct U as [Hs U].
  assert (O : objects w2 = objects w1) by (unfold ObjectStore.objects; by rewrite B).
  apply DownloadFiles_all in D as [_ D]. specialize (D (sf_LocalPath f')). rewrite Hf', O in D. split; [| done].
  destruct D as [_ ->]. exact U.
Qed.
End uploads.

(** ** Deleting a prefix *)

Section deletion.
Context (E : CloudEnv) (bucket : string).
Abbreviation objects := (objects bucket).

(** A server that gives at least one key a page, and keys it refused to delete at some time. *)
Definition pages_full : Prop := forall n, (1 <= ce_page E n)%nat.
Definition spared (k : string) : Prop := exists n, ce_denied E n k = true.

Lemma listing_elem p t m k : k ∈ listing p t m <-> is_Some (m !! k) /\ has_prefix p k = true /\ after t k = true.
Proof.
  unfold listing. rewrite merge_sort_Permutation, list_elem_of_In, filter_In, <-list_elem_of_In, andb_true_iff.
  assert (H : k ∈ (fst <$> map_to_list m) <-> is_Some (m !! k)); [| by rewrite H].
  rewrite list_elem_of_fmap. split.
  - intros ([k' v] & -> & Hk). apply elem_of_map_to_list in Hk. eauto.
  - intros [v Hv]. exists (k, v). split; [done | by apply elem_of_map_to_list].
Qed.
Lemma page_elem n p t m k : k ∈ take n (listing p t m) -> is_Some (m !! k) /\ has_prefix p k = true /\ after t k = true.
Proof. intros (i & Hk & _)%elem_of_take. by apply listing_elem, (list_elem_of_lookup_2 _ i). Qed.
Lemma listing_NoDup p t m : NoDup (listing p t m).
Proof. unfold listing. rewrite merge_sort_Permutation. apply NoDup_ListNoDup, List.NoDup_filter, NoDup_ListNoDup, NoDup_fst_map_to_list. Qed.
#[local] Instance key_order_total : Total key_order.
Proof. intros a b. apply (total String.le). Qed.
#[local] Instance key_order_trans : Transitive key_order.
Proof. intros a b c. apply (transitivity (R := String.le)). Qed.
Lemma listing_sorted p t m : StronglySorted key_order (listing p t m).
Proof. apply StronglySorted_merge_sort; apply _. Qed.

(** A listed key is on the page, or after its last key. *)
Lemma page_split l n k : StronglySorted key_order l -> NoDup l -> (1 <= n)%nat -> k ∈ l ->
  k ∈ take n l \/ (k ∈ drop n l /\ exists t, last (take n l) = Some t /\ after (Some t) k = true).
Proof.
  intros Hs Hn Hpos Hk. rewrite <-(take_drop n l) in Hk. apply elem_of_app in Hk as [Hk|Hk]; [by left | right]. split; [done |].
  destruct (last (take n l)) as [t|] eqn:Ht.
  2:{ apply last_None in Ht. apply take_nil_inv in Ht as [->| ->]; [lia | by rewrite drop_nil in Hk; apply elem_of_nil in Hk]. }
  exists t. split; [done |]. apply last_Some_elem_of in Ht. rewrite <-(take_drop n l) in Hs, Hn.
  apply NoDup_app in Hn as (_ & Hd & _). cbn. apply negb_true_iff, bool_decide_eq_false. intros Hle.
  assert (t = k) as ->; [| by apply (Hd k)]. apply (anti_symm String.le); [| done]. by apply (StronglySorted_app_1_elem_of key_order (take n l) (drop n l)).
Qed.

(** What the deletion of a page leaves. *)
Lemma delete_objects_objects (P : string -> bool) keys w : let w1 := ctick (delete_objects bucket (List.filter P keys) w) in
  cl_files w1 = cl_files w /\ (forall b, b <> bucket -> cl_buckets w1 !! b = cl_buckets w !! b) /\
  (forall k, objects w1 !! k = objects w !! k \/ (k ∈ keys /\ objects w1 !! k = None)) /\
  (forall k, k ∈ keys -> P k = true -> objects w1 !! k = None).
Proof.
  set (gone := List.filter P keys). intros w1.
  assert (O : objects w1 = foldr delete (objects w) gone).
  { unfold w1, ctick, delete_objects. unfold ObjectStore.objects at 1. cbn. by rewrite lookup_insert_eq. }
  assert (G : forall k, k ∈ gone <-> k ∈ keys /\ P k = true).
  { intros k. unfold gone. by rewrite list_elem_of_In, filter_In, <-list_elem_of_In. }
  split; [done |]. split; [intros b Hb; unfold w1; cbn; by rewrite lookup_insert_ne |]. split.
  - intros k. rewrite O. destruct (decide (k ∈ gone)) as [Hk|Hk].
    + right. split; [by apply G | by apply lookup_foldr_delete].
    + left. by apply lookup_foldr_delete_not_elem_of.
  - intros k Hk HP. rewrite O. apply lookup_foldr_delete. by apply G.
Qed.
Lemma s3_DeleteObjects_objects keys w : let w1 := (s3_DeleteObjects E bucket keys w).2 in
  cl_files w1 = cl_files w /\ (forall b, b <> bucket -> cl_buckets w1 !! b = cl_buckets w !! b) /\
  (forall k, objects w1 !! k = objects w !! k \/ (k ∈ keys /\ objects w1 !! k = None)) /\
  (is_Ok (s3_DeleteObjects E bucket keys w).1 = true -> forall k, k ∈ keys -> spared k \/ objects w1 !! k = None).
Proof.
  unfold s3_DeleteObjects. destruct (negb _); [cbn; split_and!; auto; done |].
  destruct (ce_s3 E _); cbn [fst snd is_Ok].
  - destruct (delete_objects_objects (ce_gone E (cl_tick w)) keys w) as (F & B & O & _). split_and!; [exact F | exact B | exact O | done].
  - destruct (delete_objects_objects (fun k => negb (ce_denied E (cl_tick w) k)) keys w) as (F & B & O & D).
    split; [exact F |]. split; [exact B |]. split; [exact O |]. intros _ k Hk.
    destruct (ce_denied E (cl_tick w) k) eqn:X; [left; by exists (cl_tick w) | right]. apply D; [done | by rewrite X].
Qed.

(** Whatever a deletion changes: keys with the prefix disappear. *)
Definition only_deletes (p : string) (w w' : Cloud) : Prop :=
  cl_files w' = cl_files w /\ (forall b, b <> bucket -> cl_buckets w' !! b = cl_buckets w !! b) /\
  forall k, objects w' !! k = objects w !! k \/ (has_prefix p k = true /\ objects w' !! k = None).
#[local] Instance only_deletes_refl p : Reflexive (only_deletes p).
Proof. intros w. split_and!; auto. Qed.
#[local] Instance only_deletes_trans p : Transitive (only_deletes p).
Proof.
  intros a b c (F1 & B1 & O1) (F2 & B2 & O2). split; [congruence |]. split; [intros x Hx; by rewrite B2, B1 |].
  intros k. destruct (O2 k) as [->|]; auto.
Qed.

(** One round: the page, what is left of it, and the next token. *)
Lemma delete_pages_step fuel p t w : delete_pages E bucket (S fuel) p t w =
  match s3_ListPage E bucket p t w with
  | (Err e, w1) => (Some (Err (sdk_wrap ("s3: list prefix " +:+ p +:+ ": ") e)), w1)
  | (Ok (keys, next), w1) =>
      let '(r, w2) := delete_page E bucket keys w1 in
      match r with
      | Err e => (Some (Err (sdk_wrap ("s3: delete prefix " +:+ p +:+ ": ") e)), w2)
      | Ok _ => match next with None => (Some (Ok tt), w2) | Some t' => delete_pages E bucket fuel p (Some t') w2 end
      end
  end.
Proof.
  cbn [delete_pages]. unfold bind. destruct (s3_ListPage E bucket p t w) as [[[keys next]|e] w1]; [| done].
  destruct (delete_page E bucket keys w1) as [[|] w2]; [by destruct next | done].
Qed.
Lemma deleted_page keys p w r w2 : (forall k, k ∈ keys -> has_prefix p k = true) ->
  delete_page E bucket keys w = (r, w2) ->
  only_deletes p w w2 /\ (is_Ok r = true -> forall k, k ∈ keys -> spared k \/ objects w2 !! k = None).
Proof.
  intros Hp. unfold delete_page. case_bool_decide as Hk.
  - intros [= <- <-]. split; [done |]. intros _ k. rewrite Hk. by intros ?%elem_of_nil.
  - pose proof (s3_DeleteObjects_objects keys w) as (F & B & O & G). intros D. rewrite D in F, B, O, G. cbn in F, B, O, G.
    split; [| done]. split; [done |]. split; [done |]. intros k. destruct (O k) as [|[? ?]]; auto.
Qed.

Lemma s3_ListPage_spec p t w : match s3_ListPage E bucket p t w with
  | (Err _, w1) => only_deletes p w w1
  | (Ok (keys, next), w1) => only_deletes p w w1 /\ objects w1 = objects w /\
      let ks := listing p t (objects w) in let n := ce_page E (cl_tick w) in
      keys = take n ks /\ next = if bool_decide (drop n ks = []) then None else match last (take n ks) with Some k => Some k | None => t end
  end.
Proof.
  assert (T : only_deletes p w (ctick w)) by (split; [done |]; split; [done |]; by left).
  unfold s3_ListPage. destruct (ce_s3 E _); [done |]. destruct (negb _); done.
Qed.

(** The loop only deletes keys of the prefix; when it ends well, every key of the prefix after
    the token is gone or was spared. *)
Lemma delete_pages_sound fuel p : forall t w r w', delete_pages E bucket fuel p t w = (r, w') ->
  only_deletes p w w' /\
  (pages_full -> r = Some (Ok tt) -> forall k, has_prefix p k = true -> after t k = true -> spared k \/ objects w' !! k = None).
Proof.
  induction fuel as [|fuel IH]; intros t w r w'; [by intros [= <- <-] |]. rewrite delete_pages_step.
  pose proof (s3_ListPage_spec p t w) as L. destruct (s3_ListPage E bucket p t w) as [[[keys next]|e] w1]; [| by intros [= <- <-]].
  destruct L as (L1 & L2 & Hkeys & Hnext). cbn zeta in Hkeys, Hnext.
  set (ks := listing p t (objects w)) in *. set (n := ce_page E (cl_tick w)) in *.
  destruct (delete_page E bucket keys w1) as [d w2] eqn:D. apply (deleted_page _ p) in D as [D1 D2].
  2:{ intros k Hk. rewrite Hkeys in Hk. by apply page_elem in Hk as (_ & ? & _). }
  assert (D0 : only_deletes p w w2) by (by transitivity w1).
  destruct d as [d|e]; [| by intros [= <- <-]].
  assert (Hpage : forall w3, only_deletes p w2 w3 -> pages_full ->
    (forall k l, has_prefix p k = true -> next = Some l -> after (Some l) k = true -> spared k \/ objects w3 !! k = None) ->
    forall k, has_prefix p k = true -> after t k = true -> spared k \/ objects w3 !! k = None).
  { intros w3 (_ & _ & O3) Hfull Hrest k Hp Ha.
    assert (Hgone : objects w2 !! k = None -> objects w3 !! k = None) by (destruct (O3 k) as [->|[_ ->]]; done).
    destruct D0 as (_ & _ & O0). destruct (objects w !! k) as [v|] eqn:Hv.
    2:{ right. apply Hgone. destruct (O0 k) as [->|[_ ->]]; done. }
    assert (Hk : k ∈ ks) by (apply listing_elem; eauto).
    apply (page_split ks n) in Hk as [Hk|[Hk (l & Hl & Hal)]]; [| | apply listing_sorted | apply listing_NoDup | apply Hfull].
    - rewrite <-Hkeys in Hk. destruct (D2 eq_refl k Hk) as [|]; auto.
    - apply (Hrest k l Hp); [| done]. rewrite Hnext, bool_decide_eq_false_2, Hl; [done |]. intros Hd. rewrite Hd in Hk. by apply elem_of_nil in Hk. }
  destruct next as [l|].
  - intros H. apply IH in H as [R1 R2]. split; [by transitivity w2 |]. intros Hfull -> . apply Hpage; [done.. |].
    intros k l' Hp [= <-] Ha. by apply R2.
  - intros [= <- <-]. split; [done |]. intros Hfull _. apply Hpage; done.
Qed.

(** Fuel for every key that is listed is enough. *)
Lemma delete_pages_ends fuel p : pages_full -> forall t w, (length (listing p t (objects w)) < fuel)%nat -> is_Some (delete_pages E bucket fuel p t w).1.
Proof.
  intros Hfull. induction fuel as [|fuel IH]; intros t w Hlen; [lia |]. rewrite delete_pages_step.
  pose proof (s3_ListPage_spec p t w) as L. destruct (s3_ListPage E bucket p t w) as [[[keys next]|e] w1]; [| by eexists].
  destruct L as (L1 & L2 & Hkeys & Hnext). cbn zeta in Hkeys, Hnext.
  set (ks := listing p t (objects w)) in *. set (n := ce_page E (cl_tick w)) in *.
  destruct (delete_page E bucket keys w1) as [d w2] eqn:D. apply (deleted_page _ p) in D as [(_ & _ & D1) _].
  2:{ intros k Hk. rewrite Hkeys in Hk. by apply page_elem in Hk as (_ & ? & _). }
  destruct d as [d|e]; [| by eexists]. destruct next as [l|]; [| by eexists]. apply IH.
  assert (Hsub : forall k, k ∈ listing p (Some l) (objects w2) -> k ∈ drop n ks).
  { intros k (Hv & Hp & Ha)%listing_elem. rewrite L2 in D1.
    assert (Hw : is_Some (objects w !! k)) by (destruct (D1 k) as [<-|[_ Hn]]; [done | rewrite Hn in Hv; by destruct Hv]).
    destruct (drop n ks) as [|x rest] eqn:Hd; [by rewrite bool_decide_eq_true_2 in Hnext |]. rewrite bool_decide_eq_false_2 in Hnext by done.
    rewrite <-Hd. destruct (last (take n ks)) as [l'|] eqn:Hl.
    2:{ apply last_None, take_nil_inv in Hl as [Hl|Hl]; [pose proof (Hfull (cl_tick w)); unfold n in Hl; lia | by rewrite Hl, drop_nil in Hd]. }
    injection Hnext as <-.
    assert (Hks : k ∈ take n ks ++ drop n ks).
    { rewrite take_drop. apply listing_elem. split_and!; [done | done |]. destruct t as [t|]; [| done].
      apply last_Some_elem_of, page_elem in Hl as (_ & _ & Hl).
      cbn in Hl, Ha |- *. apply negb_true_iff, bool_decide_eq_false in Hl, Ha. apply negb_true_iff, bool_decide_eq_false. intros Hkt. apply Hl.
      destruct (total String.le l t) as [|Htl]; [done |]. exfalso. apply Ha. by transitivity t. }
    apply elem_of_app in Hks as [Hks|]; [exfalso | done]. cbn in Ha. apply negb_true_iff, bool_decide_eq_false in Ha. apply Ha.
    assert (Hin := Hks). apply last_Some in Hl as [pre Hl]. rewrite Hl in Hks. apply elem_of_app in Hks as [Hks|Hks].
    - pose proof (listing_sorted p t (objects w)) as Hs. fold ks in Hs. rewrite <-(take_drop n ks), Hl in Hs.
      apply StronglySorted_app_1_l in Hs. by apply (StronglySorted_app_1_elem_of key_order pre [l]); [| | left].
    - apply list_elem_of_singleton in Hks as ->. reflexivity. }
  pose proof (Hfull (cl_tick w)) as Hn. fold n in Hn.
  assert (Hle : (length (listing p (Some l) (objects w2)) <= length (drop n ks))%nat).
  { apply submseteq_length, NoDup_submseteq; [apply listing_NoDup | exact Hsub]. }
  rewrite length_drop in Hle. unfold ks in Hle, Hlen.
  destruct (decide (length (listing p t (objects w)) = 0%nat)) as [H0|]; [| lia].
  exfalso. rewrite bool_decide_eq_true_2 in Hnext; [done |]. apply nil_length_inv. rewrite length_drop. unfold ks. lia.
Qed.

Lemma listing_length p t m : (length (listing p t m) <= size m)%nat.
Proof.
  unfold listing. rewrite merge_sort_Permutation. etransitivity; [apply List.filter_length_le |].
  rewrite length_fmap. by rewrite <-length_map_to_list.
Qed.

(** C40: Deleting a prefix ends; it touches no file, no other bucket and no key without the prefix;
    and after success no key with the prefix is left, except keys that the server refused to
    delete, which the code does not look at. *)
Theorem DeletePrefix_spec p w : pages_full -> exists r, (DeletePrefix E bucket p w).1 = Some r /\
  let w' := (DeletePrefix E bucket p w).2 in only_deletes p w w' /\
  (r = Ok tt -> forall k, has_prefix p k = true -> spared k \/ objects w' !! k = None).
Proof.
  intros Hfull. unfold DeletePrefix. destruct (delete_pages_ends (S (size (objects w))) p Hfull None w) as [r Hr].
  { pose proof (listing_length p None (objects w)). lia. }
  exists r. split; [done |]. destruct (delete_pages _ _ _ _ _ w) as [o w'] eqn:D. cbn in Hr |- *. subst o.
  apply delete_pages_sound in D as [D1 D2]. split; [done |]. intros -> k Hp. by apply D2.
Qed.
End deletion.

(** ** Worked examples *)

Definition good_cloud : CloudEnv := {|
  ce_os := fun _ => None; ce_s3 := fun _ => None; ce_landed := fun _ => false; ce_partial := fun _ => "";
  ce_page := fun _ => 2%nat; ce_denied := fun _ _ => false; ce_gone := fun _ _ => false; ce_created := fun _ => false |}.
Definition sample_cloud : Cloud := {|
  cl_files := <["/a/mem" := "MEMORY"]> (<["/a/cow" := "COW"]> ∅);
  cl_buckets := {["snaps" := <["vm-1/s1/mem" := "1"]> (<["vm-1/s1/cow" := "2"]> (<["vm-1/s2/mem" := "3"]> (<["vm-2/s1/mem" := "4"]> ∅)))]};
  cl_tick := 0 |}.
Definition up_files : list SnapshotFile := [{| sf_Key := "k/mem"; sf_LocalPath := "/a/mem" |}; {| sf_Key := "k/cow"; sf_LocalPath := "/a/cow" |}].
Definition down_files : list SnapshotFile := [{| sf_Key := "k/cow"; sf_LocalPath := "/b/cow" |}; {| sf_Key := "k/mem"; sf_LocalPath := "/b/mem" |}].

Lemma snapshot_files_roundtrip_witness :
  let w1 := (UploadFiles good_cloud "snaps" up_files sample_cloud).2 in
  let w3 := (DownloadFiles good_cloud "snaps" down_files w1).2 in
  cl_files w3 !! "/b/mem" = cl_files sample_cloud !! "/a/mem" /\ is_Some (cl_files sample_cloud !! "/a/mem").
Proof.
  apply (snapshot_files_roundtrip good_cloud "snaps" good_cloud up_files 9 sample_cloud
    (UploadFiles good_cloud "snaps" up_files sample_cloud).2 (UploadFiles good_cloud "snaps" up_files sample_cloud).2 down_files _
    {| sf_Key := "k/mem"; sf_LocalPath := "/a/mem" |} {| sf_Key := "k/mem"; sf_LocalPath := "/b/mem" |}); vm_compute; reflexivity.
Defined.

Lemma pages_full_good : pages_full good_cloud.
Proof. intros n. cbn. lia. Qed.
Lemma DeletePrefix_spec_witness : exists r, (DeletePrefix good_cloud "snaps" "vm-1/" sample_cloud).1 = Some r /\
  let w' := (DeletePrefix good_cloud "snaps" "vm-1/" sample_cloud).2 in only_deletes "snaps" "vm-1/" sample_cloud w' /\
  (r = Ok tt -> forall k, has_prefix "vm-1/" k = true -> spared good_cloud k \/ objects "snaps" w' !! k = None).
Proof. apply (DeletePrefix_spec good_cloud "snaps" "vm-1/" sample_cloud pages_full_good). Defined.

(** Three keys go, over two pages; the other VM keeps its object. *)
Example delete_two_pages : let '(r, w) := DeletePrefix good_cloud "snaps" "vm-1/" sample_cloud in
  r = Some (Ok tt) /\ fst <$> map_to_list (objects "snaps" w) = ["vm-2/s1/mem"].
Proof. vm_compute. done. Qed.

(** A key the server refuses to delete stays, and the caller is told that all is gone. *)
Theorem refused_deletions_are_silent : exists E w, pages_full E /\
  let '(r, w') := DeletePrefix E "snaps" "vm-1/" w in r = Some (Ok tt) /\ is_Some (objects "snaps" w' !! "vm-1/s1/mem").
Proof.
  exists (good_cloud <| ce_denied := fun _ k => bool_decide (k = "vm-1/s1/mem") |>), sample_cloud.
  split; [intros n; cbn; lia |]. vm_compute. eauto.
Qed.
Example ensure_twice : let '(r1, w1) := EnsureBucket good_cloud "new" sample_cloud in
  let '(r2, w2) := EnsureBucket good_cloud "new" w1 in (r1, r2) = (Ok tt, Ok tt) /\
  size (objects "snaps" w2) = 4%nat /\ has_bucket "new" w2 = true.
Proof. vm_compute. done. Qed.
