(* ===== verification/Boot.v ===== *)
(** * Starting the servers: cmd/main.go, cmd/activator/main.go and postgres/db.go

    What main builds from the configuration and hands to the parts: the provider's
    configuration and backend, the object store, the IP allocator, the VM service, the files
    for cloudflared, the periods of the background loops, and the order of the shutdown. The
    wiring of chats, tools and the planner is in App and Gemini. *)

From S2P Require Import Prelude Exception Naming GoLib Domain World PgRepo IPAlloc Interfaces Hoare Invariants RepoFacts VMExec VMSnapshot SnapFacts VMExecFacts VMService VMResume VMInv NetIP.
From S2P Require Import Json ExecProtocol GuestRPC CIDAlloc FcHost Provider Orchestrator Gemini Http Activator ActivatorServer ConfigFiles Logging Settings ObjectStore.

(** ** The provider *)

(** fcCfg with the network, when it is enabled. *)
Definition network_on (cfg : Settings.Config) : bool :=
  vc_NetworkEnabled (Cfg_VM cfg) && negb (bool_decide (vn_BridgeName (vf_Network (vc_Firecracker (Cfg_VM cfg))) = "")).
Definition provider_network (n : VMNetworkConfig) : NetworkCfg := {|
  nw_BridgeName := vn_BridgeName n; nw_Subnet := vn_Subnet n; nw_GatewayIP := vn_GatewayIP n; nw_DNSIP := vn_DNSIP n;
  nw_IPStart := vn_IPStart n; nw_IPEnd := vn_IPEnd n; nw_EnableNAT := vn_EnableNAT n |}.
Definition fcCfg (cfg : Settings.Config) : FcHost.Config :=
  let f := vc_Firecracker (Cfg_VM cfg) in {|
  cf_BinaryPath := vf_BinaryPath f; cf_KernelPath := vf_KernelPath f; cf_BaseDir := vf_BaseDir f; cf_KernelArgs := vf_KernelArgs f;
  cf_MacAddress := vf_MacAddress f; cf_SocketTimeout := vf_SocketTimeout f; cf_ShutdownTimeout := vf_ShutdownTimeout f;
  cf_SMT := vf_SMT f; cf_EnableMmds := vf_EnableMmds f; cf_ExecEnabled := vf_ExecEnabled f;
  cf_GuestAgentPort := vf_GuestAgentPort f; cf_VsockSocketName := vf_VsockSocketName f; cf_CIDMin := vf_CIDMin f; cf_CIDMax := vf_CIDMax f;
  cf_DefaultExecTimeout := vf_DefaultExecTimeout f; cf_MaxStdoutBytes := vf_MaxStdoutBytes f; cf_MaxStderrBytes := vf_MaxStderrBytes f;
  cf_Network := if network_on cfg then provider_network (vf_Network f) else no_NetworkCfg |}.

(** The backend: the provider if it could be built, or one that refuses every call. *)
Definition vmBackend {B} (provider : res (Backend B)) : Backend B :=
  match provider with Ok p => p | Err e => unavailable_backend B (Error e) end.
(** The subnet for which a host route is installed; a failure is only logged. *)
Definition host_route (cfg : Settings.Config) : option string :=
  let subnet := vn_Subnet (vf_Network (vc_Firecracker (Cfg_VM cfg))) in
  if vc_NetworkEnabled (Cfg_VM cfg) && negb (bool_decide (subnet = "")) then Some subnet else None.

(** ** The object store *)

Definition storage_config (s : StorageConfig) : S3Config := {|
  s3_Endpoint := so_Endpoint s; s3_Region := so_Region s; s3_AccessKey := so_AccessKey s; s3_SecretKey := so_SecretKey s;
  s3_Bucket := so_Bucket s; s3_UsePathStyle := so_UsePathStyle s |}.
(** None: snapshots are kept locally. That the bucket could not be created is only logged. *)
Definition snapshotStore (aws_config : string -> option error) (cfg : Settings.Config) : option S3Store :=
  if bool_decide (so_Endpoint (Cfg_Storage cfg) = "") then None
  else match NewStore aws_config (storage_config (Cfg_Storage cfg)) with Ok ss => Some ss | Err _ => None end.

(** ** The VM service *)

Record NetworkConfig := { nc_BridgeName : string; nc_Subnet : string; nc_GatewayIP : string; nc_DNSIP : string }.
Definition no_NetworkConfig : NetworkConfig := {| nc_BridgeName := ""; nc_Subnet := ""; nc_GatewayIP := ""; nc_DNSIP := "" |}.
(** The allocator and the network of the service; both are empty when the range is not valid. *)
Definition vm_network (cfg : Settings.Config) : option IPAllocator * NetworkConfig :=
  let n := vf_Network (vc_Firecracker (Cfg_VM cfg)) in
  if network_on cfg then
    match NewIPAllocator (vn_IPStart n) (vn_IPEnd n) with
    | Err _ => (None, no_NetworkConfig)
    | Ok a => (Some a, {| nc_BridgeName := vn_BridgeName n; nc_Subnet := vn_Subnet n; nc_GatewayIP := vn_GatewayIP n; nc_DNSIP := vn_DNSIP n |})
    end
  else (None, no_NetworkConfig).
Definition vmService (aws_config : string -> option error) (cfg : Settings.Config) : Interfaces.Service :=
  let vm := Cfg_VM cfg in
  let '(allocator, network) := vm_network cfg in
  SetLifecycleHook true
    (Interfaces.NewService true (bool_decide (is_Some (snapshotStore aws_config cfg))) (vc_IdleTimeout vm) (vc_AutoSnapshot vm) (vc_ResumeGrace vm)
      (nc_BridgeName network) allocator
      {| dc_DiskMode := vc_DiskMode vm; dc_MaxChainLength := vc_MaxChainLength vm; dc_MaxChainAgeMinutes := vc_MaxChainAgeMinutes vm |}).

(** ** Files for dnsmasq and cloudflared *)

Definition hostsPath := "/var/lib/spacetrek/vm-hosts".
Section tunnel.
Context (Getenv : string -> string).
Definition tunnelHeader : string :=
  let tid := Getenv "CLOUDFLARE_TUNNEL_ID" in
  if bool_decide (tid = "") then ""
  else
    let creds := Getenv "CLOUDFLARE_TUNNEL_CREDENTIALS_FILE" in
    let creds := if bool_decide (creds = "") then "/etc/cloudflared/" +:+ tid +:+ ".json" else creds in
    "tunnel: " +:+ tid +:+ nl +:+ "credentials-file: " +:+ creds +:+ nl.
Definition staticRulesPath : string :=
  let p := Getenv "CLOUDFLARE_STATIC_INGRESS_FILE" in if bool_decide (p = "") then "/var/lib/spacetrek/cloudflared-static.yml" else p.
(** The address that hostroute.OwnContainerIP found, or the placeholder. *)
Definition orchIP (own : res string) : string := match own with Ok ip => ip | Err _ => "127.0.0.1" end.
Definition tunnelWriter (own : res string) : IngressWriter := {|
  iw_ingressPath := "/var/lib/spacetrek/cloudflared-config.yml"; iw_domainSuffix := ".box.spacetrek.xyz";
  iw_orchestratorIP := orchIP own; iw_header := tunnelHeader; iw_staticRulesPath := staticRulesPath |}.
End tunnel.

(** ** The other settings *)

Definition logger_config (cfg : Settings.Config) : LogConfig := LogDefaultConfig <| lc_Level := Cfg_LogLevel cfg |>.
Definition llm_settings (l : LLMConfig) : LLMSettings := {|
  llm_DefaultProvider := ll_DefaultProvider l; llm_APIKey := gc_APIKey (ll_Gemini l); llm_Model := gc_Model (ll_Gemini l);
  llm_MaxOutputTokens := gc_MaxOutputTokens (ll_Gemini l); llm_SystemPrompt := gc_SystemPrompt (ll_Gemini l);
  llm_Timeout := ll_Timeout l; llm_MaxReactSteps := ll_MaxReactSteps l |}.
(** postgres.Connect: the pool. *)
Record Pool := { po_MaxOpen : Z; po_MaxIdle : Z; po_MaxLifetime : Z; po_MaxIdleTime : Z }.
Definition Connect (dial : string -> option error) (databaseURL : string) (maxConns : Z) : res Pool :=
  match dial databaseURL with
  | Some e => Err (wrapf "postgres: connect: " e)
  | None => Ok {| po_MaxOpen := maxConns; po_MaxIdle := Z.quot maxConns 2; po_MaxLifetime := 60 * minute; po_MaxIdleTime := 15 * minute |}
  end.
(** The addresses and timeouts of the two servers. *)
Definition public_server (cfg : Settings.Config) : string * ServerSettings :=
  (sc_HTTPAddr (Cfg_Server cfg),
   {| ss_ReadTimeout := sc_ReadTimeout (Cfg_Server cfg); ss_WriteTimeout := sc_WriteTimeout (Cfg_Server cfg); ss_IdleTimeout := sc_IdleTimeout (Cfg_Server cfg) |}).
Definition internal_server : string * ServerSettings := ("127.0.0.1:8081", intra_timeouts).
Definition activator_server (cfg : runtimeConfig) : string * ServerSettings :=
  (rt_listenAddr cfg, {| ss_ReadTimeout := 10 * second; ss_WriteTimeout := activator_WriteTimeout cfg; ss_IdleTimeout := 60 * second |}).

(** ** The activator (cmd/activator/main.go, activator/server.go) *)

Section activator.
Context {W : Type} (float_part : Z -> Z -> Z -> Z) (LookupEnv : string -> option string).
(** activator.Config; the logger is left out. The client is the base URL and the HTTP client,
    the Activator its one method. *)
Record ActivatorConfig := {
  acf_Mode : string; acf_DomainSuffix : string; acf_OrchestratorClient : HTTPClient W * string;
  acf_Activator : string -> M W (res VMInfo); acf_ColdStartBudget : Z }.
(** The handler, and the time a cold start may take. *)
Definition NewServer (proxy : string -> M W bool) (go_touch : string -> M W unit) (cfg : ActivatorConfig) : Server W * Z :=
  ({| as_mode := activator_mode (acf_Mode cfg); as_domainSuffix := acf_DomainSuffix cfg;
      as_lookup := LookupVM (acf_OrchestratorClient cfg).1 (acf_OrchestratorClient cfg).2;
      as_activate := acf_Activator cfg; as_proxy := proxy; as_go_touch := go_touch |}, cold_start_budget (acf_ColdStartBudget cfg)).
(** [NewActivator maxConcurrent] of Activator.v is behind [activate]. *)
Definition activator_config (http : HTTPClient W) (activate : Z -> string -> M W (res VMInfo)) : ActivatorConfig :=
  let cfg := loadConfig float_part LookupEnv in {|
  acf_Mode := rt_mode cfg; acf_DomainSuffix := rt_domainSuffix cfg; acf_OrchestratorClient := (http, rt_orchestratorURL cfg);
  acf_Activator := activate (rt_maxConcurrent cfg); acf_ColdStartBudget := rt_coldStart cfg |}.
Definition activator_logger : LogConfig := LogDefaultConfig <| lc_Level := "info" |>.
(** Ten seconds for the requests in flight; then the process ends with status 0. *)
Definition activator_shutdown_budget : Z := 10 * second.
Definition activator_exit_status (server_failed : bool) : Z := if server_failed then 1 else 0.

(** The settings that loadConfig has checked reach the server unchanged: the budget it was
    configured with, and a capacity of at least one cold start. *)
Theorem activator_settings_kept http activate proxy go_touch :
  (NewServer proxy go_touch (activator_config http activate)).2 = rt_coldStart (loadConfig float_part LookupEnv) /\
  0 < rt_coldStart (loadConfig float_part LookupEnv) /\ 1 <= rt_maxConcurrent (loadConfig float_part LookupEnv) /\
  as_mode (NewServer proxy go_touch (activator_config http activate)).1 = server_mode (rt_mode (loadConfig float_part LookupEnv)).
Proof.
  assert (H1 : 0 < rt_coldStart (loadConfig float_part LookupEnv)) by (apply envDuration_positive; reflexivity).
  assert (H2 : 1 <= rt_maxConcurrent (loadConfig float_part LookupEnv)) by (apply envInt_at_least; lia).
  assert (H3 : rt_mode (loadConfig float_part LookupEnv) <> "") by (apply env_not_empty; done).
  unfold NewServer, activator_config, cold_start_budget, activator_mode. cbn [fst snd acf_ColdStartBudget acf_Mode as_mode].
  rewrite (bool_decide_eq_false_2 (_ <= 0)) by lia. rewrite (bool_decide_eq_false_2 (_ = "")) by done. done.
Qed.
End activator.

(** The background loops and their periods; the broadcasters have their own. *)
Inductive Loop := IdleReaper | RuntimeReconciler | MetricsCollector | SnapshotGC | HostsReconciler | IngressReconciler.
Definition background : list (Loop * Z) := [
  (IdleReaper, minute); (RuntimeReconciler, 30 * second); (MetricsCollector, 10 * second); (SnapshotGC, 24 * 60 * minute);
  (HostsReconciler, 60 * second); (IngressReconciler, 60 * second)].

(** How main goes on after a signal, and how it ends before: the exit status. *)
Inductive MainEnd := ExitConfig | ExitDatabase | ExitServer | Stopped.
Definition exit_status (e : MainEnd) : Z := match e with Stopped => 0 | _ => 1 end.
(** Both servers are shut down, within 30 seconds together; errors are logged. *)
Definition shutdown_budget : Z := 30 * second.
Definition main_end {A} (config : res A) (database : res Pool) (server_failed : bool) : MainEnd :=
  match config with
  | Err _ => ExitConfig
  | Ok _ => match database with Err _ => ExitDatabase | Ok _ => if server_failed then ExitServer else Stopped end
  end.

(** ** What holds for every configuration *)

(** The service has usable limits: positive times, a chain limit and a disk mode. *)
Theorem service_limits_positive aws cfg : let s := vmService aws cfg in
  0 < svc_idleTimeout s /\ 0 < svc_resumeGrace s /\ 0 < dc_MaxChainLength (svc_snapDiskCfg s) /\
  0 < dc_MaxChainAgeMinutes (svc_snapDiskCfg s) /\ dc_DiskMode (svc_snapDiskCfg s) <> "" /\ svc_snapRepo s = true /\ svc_hook s = true.
Proof.
  cbn zeta. unfold vmService. destruct (vm_network cfg) as [a n]. cbn.
  split_and!; try done; case_bool_decide; unfold minute, second in *; (done || lia).
Qed.

(** Whatever the configuration says, the service that main starts keeps the invariant of the
    tables in every reachable world, with any backend, the refusing one included. *)
Theorem started_service_keeps_tables {B St} `{!Storage St} aws cfg (provider : res (Backend B)) (w w' : World B St) :
  let s := vmService aws cfg in
  db_ok (CL := service_limit s) (w_db w) -> rtc (step (Backend0 := vmBackend provider) s) w w' -> db_ok (CL := service_limit s) (w_db w').
Proof.
  intros s Hw H. assert (Hmax : 0 < dc_MaxChainLength (svc_snapDiskCfg s)) by apply (service_limits_positive aws cfg).
  induction H as [|w1 w2 w3 Hs _ IH]; [done |]. apply IH. by eapply step_ok.
Qed.

(** A service that hands out addresses has a provider that builds the bridge they are on, with
    the same gateway and resolver; without networking neither has one. *)
Theorem addresses_need_bridge cfg : let '(a, n) := vm_network cfg in
  (is_Some a -> cf_Network (fcCfg cfg) = provider_network (vf_Network (vc_Firecracker (Cfg_VM cfg))) /\
     nc_BridgeName n = nw_BridgeName (cf_Network (fcCfg cfg)) /\ nc_GatewayIP n = nw_GatewayIP (cf_Network (fcCfg cfg)) /\
     nc_DNSIP n = nw_DNSIP (cf_Network (fcCfg cfg)) /\ nc_BridgeName n <> "") /\
  (a = None -> n = no_NetworkConfig) /\
  (vc_NetworkEnabled (Cfg_VM cfg) = false -> a = None /\ cf_Network (fcCfg cfg) = no_NetworkCfg).
Proof.
  unfold vm_network, fcCfg. cbn [cf_Network]. destruct (network_on cfg) eqn:N.
  - assert (E : vc_NetworkEnabled (Cfg_VM cfg) = true /\ vn_BridgeName (vf_Network (vc_Firecracker (Cfg_VM cfg))) <> "").
    { unfold network_on in N. apply andb_true_iff in N as [N1 N2]. by apply negb_true_iff, bool_decide_eq_false in N2. }
    destruct E as [E1 E2]. rewrite E1. destruct (NewIPAllocator _ _); cbn; split_and!; done || by intros [].
  - cbn. split_and!; done || by intros [].
Qed.
(** The converse fails: with a range that does not parse main says that networking is
    disabled, but the provider is still given the network. *)
Theorem bad_range_keeps_bridge : exists cfg, vm_network cfg = (None, no_NetworkConfig) /\ nw_BridgeName (cf_Network (fcCfg cfg)) <> "" /\ is_Some (host_route cfg).
Proof.
  set (n := {| vn_BridgeName := "br-stk"; vn_Subnet := "10.200.0.0/16"; vn_GatewayIP := "10.200.0.1"; vn_DNSIP := "10.200.0.1";
    vn_IPStart := "10.200.0.x"; vn_IPEnd := "10.200.255.254"; vn_EnableNAT := true |}).
  set (f := {| vf_BinaryPath := ""; vf_KernelPath := ""; vf_BaseDir := ""; vf_KernelArgs := ""; vf_MacAddress := ""; vf_SocketTimeout := 0;
    vf_ShutdownTimeout := 0; vf_SMT := false; vf_EnableMmds := false; vf_ExecEnabled := false; vf_GuestAgentPort := 0; vf_VsockSocketName := "";
    vf_CIDMin := 0; vf_CIDMax := 0; vf_DefaultExecTimeout := 0; vf_MaxStdoutBytes := 0; vf_MaxStderrBytes := 0; vf_Network := n |}).
  exists {| Cfg_Environment := ""; Cfg_Server := {| sc_HTTPAddr := ""; sc_ReadTimeout := 0; sc_WriteTimeout := 0; sc_IdleTimeout := 0 |};
    Cfg_Database := {| db_URL := ""; db_MaxConnections := 0 |}; Cfg_LogLevel := "";
    Cfg_VM := {| vc_Provider := ""; vc_PoolSize := 0; vc_MaxVMs := 0; vc_CPUCount := 0; vc_MemoryMB := 0; vc_DiskMB := 0; vc_NetworkEnabled := true;
      vc_IdleTimeout := 0; vc_MaxLifetime := 0; vc_AutoSnapshot := false; vc_ResumeGrace := 0; vc_DiskMode := ""; vc_MaxChainLength := 0;
      vc_MaxChainAgeMinutes := 0; vc_Firecracker := f |};
    Cfg_LLM := {| ll_DefaultProvider := ""; ll_Timeout := 0; ll_MaxRetries := 0; ll_MaxReactSteps := 0;
      ll_Gemini := {| gc_APIKey := ""; gc_Model := ""; gc_MaxOutputTokens := 0; gc_SystemPrompt := "" |} |};
    Cfg_Storage := {| so_Endpoint := ""; so_Region := ""; so_AccessKey := ""; so_SecretKey := ""; so_Bucket := ""; so_UsePathStyle := false |};
    Cfg_Security := {| se_JWTSecret := ""; se_AccessTokenExpiry := 0; se_RefreshTokenExpiry := 0; se_MaxTaskDuration := 0 |};
    Cfg_Observability := {| oc_MetricsEnabled := false; oc_TracingEnabled := false; oc_TracingEndpoint := "" |}; Cfg_SeedNamespaceUUID := "" |}.
  split; [vm_compute; done |]. split; [done | vm_compute; eauto].
Qed.

(** time.NewTicker panics on a period that is not positive: none of main's is. *)
Theorem periods_positive : Forall (fun l => 0 < l.2) background.
Proof. repeat constructor. Qed.
(** The rendered file begins with the directives of the tunnel when its identifier is set. *)
Theorem tunnel_header_block Getenv : tunnelHeader Getenv = "" \/ exists rest, tunnelHeader Getenv = rest +:+ nl.
Proof.
  unfold tunnelHeader. set (tid := Getenv "CLOUDFLARE_TUNNEL_ID"). destruct (bool_decide (tid = "")); [by left | right].
  set (creds := if bool_decide _ then _ else _). clearbody tid creds.
  exists ("tunnel: " +:+ tid +:+ nl +:+ "credentials-file: " +:+ creds). by rewrite <-!append_assoc.
Qed.
